(* ===== verification/_CoqProject ===== *)
-Q . S2P
Prelude.v
PyJson.v
PyText.v
PyTime.v
PyFloat.v
PyValue.v
PyFormat.v
NrpGpus.v
LlmConfig.v
LlmGate.v
LlmReply.v
LlmProxy.v
LlmServer.v
Sha256.v
GpuQueries.v
HubGpus.v
HubCull.v
HubUsers.v
NodeJob.v
NodeAgent.v
NodeProbe.v
NodeMonitor.v
NodeSafe.v
PixiSync.v
PixiSafe.v
AgErrors.v
AgScope.v
AgAuth.v
AgTools.v
AgDask.v
AgProfiles.v
AgUsage.v
AgLogs.v
AgPromql.v
AgSession.v
AgRay.v
AgMetrics.v
AgHealth.v
RayNames.v
RayShape.v
RayBuild.v
RayAdmit.v
NrpJobs.v
RayState.v
RayNrp.v
RayUser.v
RayCluster.v
RayJobs.v
RayReap.v
RaySubmit.v
RayNrpRun.v
RayHttp.v
RayCalls.v
MmText.v
MmLink.v
MmLinkSafe.v
MmAgent.v
MmPoll.v
MmAnswer.v
MmSafe.v
SmConfig.v
SmAuth.v
SmKube.v
SmTree.v
SmValidate.v
SmRepo.v
SmSafe.v
SmBounds.v
SmTriton.v
SmState.v
AnConfig.v
AnTurn.v
AnRun.v
AnSafe.v
AnCalls.v
AnHelp.v
AgServe.v
AgAudit.v
PodMonitor.v
RepoScripts.v
