(* ===== verification/Prelude.v ===== *)
(** * A verification of the Purdue Analysis Facility's services

    The repository configures an analysis facility on Kubernetes and holds the Python
    services written for it. This library models the services that keep state and make
    decisions on behalf of users, translated function by function from the source, and
    proves what makes each correct. Every definition keeps the name of the function,
    method or constant that it translates, where Rocq allows it; each file's own header
    says which source it is of.

    ** How effects are modelled

    Code without effects is a function, with [option] or [res] for what may raise. Code
    with effects is a computation [M Ev St E A] of this file: it takes the state and the
    history of requests made so far, and gives a result or an exception, a state and a
    longer history. What the code asks of the world (Kubernetes, Prometheus, the Hub,
    Mattermost, the model, clocks, random numbers) is a request of an inductive type,
    answered by a [service], an arbitrary function of the history: so a theorem about a
    run is about every answer the world may give, at any time, errors included. Two ways
    to reason about runs: [wp], a predicate on one run's result, state and history; and
    [mon] and [monp], which say that a monitor, a partial step function on events, accepts
    every run. [keeps] is for what every run leaves in relation. Concurrency is a step
    relation over what runs without an await or within one lock, with theorems by
    induction over reachable states: [LlmGate.reachable], [LlmServer], [MmLinkSafe.lpath],
    [MmPoll.polls]. A loop that waits takes fuel; the termination theorems compute a number
    of passes that is enough and show that the result is not for want of fuel.
    Times are rationals, integers are Z: Python's do not overflow. A [dict] whose order
    matters is an association list ([dget], [dset], [ddel]), as are JSON objects; the
    Mattermost agent's dicts and sets whose order does not are [gmap] and [gset].

    ** Shared files

    - [PyValue]: Python's conversions of JSON values, [repr], [sorted] by a key, floats that
      may be infinite or none, [urllib.parse.quote], [datetime.fromisoformat]. [PyFloat]:
      the nearest binary64, and [repr] of a float. [PyFormat]: arithmetic on floats, each
      result rounded to binary64, and the texts of format specifications.
    - This file: record update, Python's numbers, dicts and strings, [res], the effects
      above with their tactics ([wp_step], [mon_step], [monp_step], [keep]).
    - [PyJson]: JSON values and the texts that [json.loads] accepts. [PyText]: numbers and
      texts, [posixpath.normpath], [sorted]. [PyTime]: dates and ISO instants, with the
      round trip. [Sha256]: [hashlib.sha256] and HMAC, its constants computed.

    ** The LLM proxy, apps/agentic-analysis/llm_proxy.py

    Agents' requests go to upstream models under fair use. [LlmConfig] is [load] and what
    models.toml may say; [LlmGate] is [Gate], the admission to one model, under its lock
    and over concurrent requests; [LlmReply] is [Reply], streams put together, checked and
    rebuilt; [LlmProxy] is [Proxy], from the choice of a backend to [forward]'s loop of
    retries; [LlmServer] is the HTTP handler and the drain of requests in flight.
    Theorems: what [load] accepts has what it checks; in every reachable state a gate's counts are
    those of the requests inside, within its bounds; an admission needs room and the head
    of the queue, an idle gate admits, and an aged request is not overtaken; every
    admission is given back exactly once, but after a reply whose usage cannot be counted; every payload is within the fair-use size; a
    reply given out is whole; [forward] ends; a request forwarded has passed every check; a
    drain counts right in every interleaving.

    ** The Ray gateway, apps/ray-train

    One service gives users Ray clusters and jobs, at Purdue and on NRP. [NrpGpus] is
    nrp_gpus.py; [NrpJobs] is nrp_jobs.py; the rest is gateway.py: [RayNames] (names,
    workload accounts, tokens), [RayShape] (what a call asks for), [RayBuild] (the objects
    made and what is read back), [RayAdmit] (admission to the GPUs), [RayState] (the
    gateway's state and requests), [RayUser] (callers), [RayCluster] (users' clusters),
    [RayJobs] with [RayReap] and [RaySubmit] (jobs at Purdue), [RayNrp] and [RayNrpRun]
    (jobs on NRP), [RayHttp] (the HTTP side and metrics); [GpuQueries] is the Hub's file of
    the queries they share.
    Theorems: whose token opens which account, and that no Hub user can take an account's
    cluster; paths stay below mounted roots and shapes within limits; what is built is read
    back as it was admitted and owned; admissions do not overcommit; [start_cluster]
    ends, and reports a cluster ready only once its head answers with its token and not
    without (what [running] relays to is not asked again); a caller
    reaches their own cluster, and the heads of their own jobs, only; the reaper removes and
    suspends only what its rules say; a refused start leaves no RayJob that Kubernetes did
    not refuse to delete; a job on NRP goes through its stages, and
    its outputs outlast it until they are known to be copied; the log kept is the end of
    the whole log; a prefix is deleted wholly or what is left is named.

    ** The Mattermost agent, apps/mattermost-agent/agent.py

    [MmText] is its text handling over code points, with Python's Unicode tables past
    ASCII as a parameter; [MmLink] is [OAuth], [Hub] and [Linking]; [MmLinkSafe] the
    interleavings of linking; [MmAgent] is [Mattermost], the state of [Agent] and [poll];
    [MmPoll] runs of many polls; [MmAnswer] is [answer], [handle] and the web server;
    [MmSafe] their monitors.
    Theorems: an account is linked only to the person who asked, logged in and sent the
    code, and the operations' runs are the steps of that argument; no post gets two tasks, as
    long as no conversation goes missing from what is listed;
    one person is answered at most five times in ten minutes; an answer uses the asker's
    token alone, once the Hub vouched for it, and no tool beyond its session's; others'
    words change nothing of what is done on an account; one reply, where it was asked,
    that pings nobody.

    ** The model manager, docker/supersonic-model-manager

    Users upload model directories or archives for Triton. [SmTree] is the file system as
    a tree, [SmValidate] validation.py, [SmRepo] repository.py with main.py's [upload]; a
    file operation may fail wherever the source changes something. [SmSafe] and [SmBounds]
    hold the theorems: a path that is let through stays inside; whatever fails, an upload
    replaces one model whole or leaves it, but where a copy that stands in for a rename
    breaks off, and no other model changes; it writes at most twice the limit, in the
    staging area, and copies from there at most once; the check of a directory has no error
    exactly if it meets the rules of the layout. [SmConfig] is config.py, [SmAuth] auth.py with base64
    and UTF-8, [SmKube] kube.py, [SmTriton] triton.py with main.py's routes that load and
    unload, [SmState] metrics.py and main.py's page. Theorems: what the settings may be;
    only who carries the name and the password gets through; a quantity is the bytes that
    it stands for; every server is asked once to load a model, and the answer is that of
    all; the page has a row for each model and is given whatever of the cluster fails.
    The formats of archives are those of zipfile and
    tarfile, which give the members; a move is a rename,
    or a copy where that is refused; names are ASCII.

    ** JupyterHub's hooks, apps/jupyterhub/jupyterhub/extraFiles

    [HubGpus] is gpu-availability.py, the hook that lets GPU spawns in, its reservations
    and the counts on the form; [HubCull] is cull-gpu-sessions.py; [HubUsers] has a module
    each for the names of users and for the options of a spawn (custom-spawner.py), for the
    account of a session (set-user-info.py) and for session-activity.py. Theorems: however
    hooks interleave, what was let in lately and not given up fits in what a hook's own
    queries show free; a pass of the culler stops exactly the sessions that are due; a name
    is one identity's but for its case;
    a spawn asks only for what exists; a session runs as its user's account.

    ** The node monitor, docker/af-node-monitor

    [NodeJob] is job_runner.py, one check of a mount; [NodeAgent] is probe_agent.py, which
    runs the checks as children and serves what they find, and xcache_probe.py. Theorems:
    a check that ends writes one result that is right about what was read and in time; a
    cycle serves and stores the verdict of a check that ended, or that its time was up,
    and is ready just then. The exporter is node_healthcheck.py:

    [NodeProbe] reads nodes, probe pods and Flux objects; [NodeMonitor] is the caches, the
    gauges, a pass and the loop. [NodeSafe]: each series is of a node of the last list, in
    its pool, through every pass and failure; a pass that does not break off shows the verdict of
    a table for the last results, its own first.

    ** The pixi daemon, apps/af-utils/pixi-global-sync/sync-global-env.py

    [PixiSync] is the lock, [reconcile], [deep_verify] and [main]; [PixiSafe]:
    what is reported in sync was installed and checked; the environment is
    touched only where it may be; a lock is taken over from the dead only, and soon.

    ** The agentic interface, docker/agentic-interface

    [AgErrors] is errors.py, what a caller is told of a failure; [AgScope] is
    promql_scope.py: what a caller owns, and the matchers that a query of Prometheus is
    given, as patterns with a matcher of regular expressions. [AgAuth] is auth.py and the
    middleware of server.py, with requests that wait for the Hub at the same time. The
    tools: [AgTools] is what they share (config.py, shared.py, questions to the user, free
    GPUs); [AgDask], [AgProfiles], [AgSession], [AgRay], [AgLogs], [AgPromql], [AgMetrics] and
    [AgHealth] are the files of those names in tools/, [AgUsage] is storage.py there and the Dask workers' counts and usage.
    [AgServe] is the middleware's answers and metrics.py, what a tool's call comes to and how
    it is counted; [AgAudit] is scope_audit.py.
    [RayCalls] puts [AgRay]'s calls to the gateway's reading of them in [RayShape].
    Theorems: the matchers select just the series that show no other person's object, and
    what a caller owns is theirs; the tools are called only for whom the Hub vouched; a
    Dask cluster is made once, and told of whatever fails after; a restart stops and starts
    the caller's own server once, with the options it had or was given, and says so and what
    failed; waits end; a Ray job is sent once, with
    a package that holds its files there before it, and its settings read at the gateway as they
    were meant; Loki gives no lines of other users' pods; Prometheus is asked only queries that were scoped,
    or the public dashboard's; the health report says what fires; a request is counted once,
    and its user is forgotten; an audit counts every check of every label. A loop that waits gets fuel
    from the theorems: 41 looks at a scheduler, 61 at a session, 10 at one that stops, which
    is one more than the time of the wait over the time between two looks.

    ** The agentic analysis' runner, workflows/agentic-analysis/agentic_analysis.py

    [AnConfig] is how OpenCode is configured for a turn, [AnTurn] the watch over a turn and
    what its events come to, [AnRun] a workspace's setup, the agent's turns and an attempt
    of a run ([advance]); [AnCalls] puts the runner to the roles that the LLM proxy serves.
    Theorems: on a session, a person's reply is given in the first turn of each attempt until
    it is noted, which it is as soon as OpenCode names its session, and not after ([AnSafe]);
    given the proxy's roles, [_config] makes OpenCode's models of them as they were meant or
    ends the run ([_setup] looks the agents' roles up before, and raises where one is missing);
    each whole record of the plugin is read once, however its file grows. [AnHelp] is what an analysis' scripts call,
    af_dask.py, af_ray.py and af_profiling.py: the scripts of one environment share one Dask
    cluster, however they interleave; a cluster is made with the request for it, so that one
    whose script dies while the gateway still makes it is left out.

    ** The exporter beside a session, docker/af-pod-monitor

    [PodMonitor] is pod-metrics-exporter.py: its readings, a probe, a pass and its loop. A
    pass serves what it read in it or says that it did not, asks nothing of a session that
    does not answer, and waits for each child for a bounded time.

    ** Scripts of the repository, .github/workflows and docker/purdue-af/scripts

    [RepoScripts] is managed-block.py, bump-af-version.py, bump-agentic-version.py and
    component-status.py, with the patterns of Python's re that they use as a type with a
    matcher that goes back as re does. A block is replaced alone, and a second run changes nothing; a release
    changes each of its places once or writes nothing, to a newer version; the stamp that it
    accepts is what the server of the agentic interface says of its skill; each input of a
    channel is of one component.

    ** What the theorems rely on

    Named hypotheses: a service's documented promises (for instance that a Mattermost ID
    stands for one post, [MmPoll.mattermost_ok]), configurations that [load] accepts, and
    distinct names where Kubernetes makes them so. Each theorem with hypotheses has a
    witness, a concrete run. Parameters: [dumps] and [loads] of arbitrary
    JSON, Unicode past ASCII, templates read from files.

    ** What modelling showed

    Lemmas that show a run the code means not to have: [RayNrp.record_lost_at_end],
    [RayJobs.log_cut_unmarked], [RayHttp.capacity_unchecked], [LlmProxy.uncounted_usage_leaks], [SmBounds.part_in_place],
    [SmValidate.nested_name_refused], [HubUsers.Login.case_shares_name],
    [AnCalls.unnoted_reply_given_again], [AnCalls.whole_context_compacts_early],
    [LlmServer.list_body_unanswered], [MmPoll.outage_answers_again],
    [SmBounds.late_move_nests], [SmSafe.newline_name_accepted],
    [NodeSafe.odd_reading_stops_pass], [PixiSafe.retry_pause_frozen],
    [PixiSafe.forced_failure_in_sync], [AgDask.asked_count_unchecked],
    [AgDask.odd_cluster_names], [AgProfiles.empty_config_no_reason],
    [AgRay.nul_leads_out], [AgRay.zero_lines_all], [AgRay.odd_job_id],
    [AgLogs.omitted_counts_first], [AgLogs.streams_apart],
    [AgPromql.named_step_refused], [AgHealth.silent_row_passes],
    [AnCalls.missing_role_retried], [AnCalls.reply_noted_unsaid], [AnCalls.images_over_cap],
    [PodMonitor.undecodable_stops], [RepoScripts.unclosed_marker_lost].

    ** Not modelled

    - Bytes passed through: the gateway's relays and its gRPC and WebSocket channels, the
      proxy's sockets, httpx, uvicorn, the MCP library, asyncio's scheduling beyond the
      interleavings above, the encryption of the link file.
    - What starts a run of the agentic analysis by the Flyte library, the killing of its
      processes; and the scripts that draw plots.
    - Configuration: Helm values, Kubernetes manifests, images, environments. *)

From Stdlib Require Export ZArith QArith Qpower Qround Qminmax Lia Lqa Bool.
From stdpp Require Export base gmap strings list.
From Stdlib Require Export String Ascii.

(** ** Record update *)

(** [r <| f := v |>] is [r] with field [f] set to [v].  A record type declares
    its eta expansion once, as an instance of [Eta]. *)
Class Eta (R : Type) := { eta_of : R -> R }.
Class SetField {R T : Type} (proj : R -> T) := { set_field : (T -> T) -> R -> R }.
Arguments set_field {R T} proj {_} _ _ /.
#[export] Hint Mode SetField ! ! ! : typeclass_instances.

Ltac solve_set_field :=
  lazymatch goal with
  | |- @SetField ?R ?T ?proj =>
      let body := eval hnf in (@eta_of R _) in
      exact {| set_field := fun (f : T -> T) (r : R) =>
        ltac:(let t := eval cbv beta in (body r) in
              lazymatch t with
              | context C [proj r] => let x := context C [f (proj r)] in exact x
              end) |}
  end.
#[export] Hint Extern 1 (SetField _) => solve_set_field : typeclass_instances.

Declare Scope py_scope.
Delimit Scope py_scope with py.
Notation "r '<|' f ':=' v '|>'" := (set_field f (fun _ => v) r)
  (at level 1, f at next level, left associativity, only parsing).

(** ** Numbers *)

(** Python's floats are modelled by exact rationals; the comparisons that the
    code makes on them are boolean functions. *)
Definition qlt (x y : Q) : bool := negb (Qle_bool y x).
Definition qle (x y : Q) : bool := Qle_bool x y.
Notation "x '<?q' y" := (qlt x y) (at level 70, no associativity) : py_scope.
Notation "x '<=?q' y" := (qle x y) (at level 70, no associativity) : py_scope.
Notation "x '>?q' y" := (qlt y x) (at level 70, no associativity, only parsing) : py_scope.
Notation "x '>=?q' y" := (qle y x) (at level 70, no associativity, only parsing) : py_scope.
Open Scope py_scope.

Lemma qlt_true x y : qlt x y = true <-> (x < y)%Q.
Proof.
  unfold qlt. rewrite negb_true_iff, <- not_true_iff_false, Qle_bool_iff.
  split; intros H; [by apply Qnot_le_lt | by apply Qlt_not_le].
Qed.
Lemma qlt_false x y : qlt x y = false <-> (y <= x)%Q.
Proof. unfold qlt. by rewrite negb_false_iff, Qle_bool_iff. Qed.
Lemma qle_true x y : qle x y = true <-> (x <= y)%Q.
Proof. apply Qle_bool_iff. Qed.
Lemma qle_false x y : qle x y = false <-> (y < x)%Q.
Proof. unfold qle. rewrite <- qlt_true. unfold qlt. by rewrite negb_true_iff. Qed.

(** Turns every boolean comparison among the hypotheses into its proposition. *)
Ltac breflect :=
  repeat match goal with
  | H : context [true = _] |- _ => apply eq_sym in H
  | H : (_ && _) = true |- _ => apply andb_true_iff in H as [? ?]
  | H : (_ || _) = false |- _ => apply orb_false_iff in H as [? ?]
  | H : (_ && _) = false |- _ => apply andb_false_iff in H
  | H : (_ || _) = true |- _ => apply orb_true_iff in H
  | H : negb _ = true |- _ => apply negb_true_iff in H
  | H : negb _ = false |- _ => apply negb_false_iff in H
  | H : qlt _ _ = true |- _ => apply qlt_true in H
  | H : qlt _ _ = false |- _ => apply qlt_false in H
  | H : qle _ _ = true |- _ => apply qle_true in H
  | H : qle _ _ = false |- _ => apply qle_false in H
  | H : Z.ltb _ _ = true |- _ => apply Z.ltb_lt in H
  | H : Z.ltb _ _ = false |- _ => apply Z.ltb_ge in H
  | H : Z.leb _ _ = true |- _ => apply Z.leb_le in H
  | H : Z.leb _ _ = false |- _ => apply Z.leb_gt in H
  | H : Z.eqb _ _ = true |- _ => apply Z.eqb_eq in H
  | H : Z.eqb _ _ = false |- _ => apply Z.eqb_neq in H
  | H : bool_decide _ = true |- _ => apply bool_decide_eq_true in H
  | H : bool_decide _ = false |- _ => apply bool_decide_eq_false in H
  end.

(** Python's [int()] of a float: towards zero. *)
Definition py_int (q : Q) : Z :=
  if q <?q 0 then Z.opp (Qfloor (Qopp q)) else Qfloor q.

(** Python's [//] of two floats, as an integer. *)
Definition floordiv (a b : Q) : Z := Qfloor (a / b).

Definition qz (z : Z) : Q := inject_Z z.

(** An instant that may be [float("-inf")], which is [None]. *)
Definition instant := option Q.
Definition elapsed_ge (now : Q) (since : instant) (d : Q) : bool :=
  match since with None => true | Some t => d <=?q (now - t)%Q end.
Definition elapsed_gt (now : Q) (since : instant) (d : Q) : bool :=
  match since with None => true | Some t => d <?q (now - t)%Q end.
Definition elapsed_lt (now : Q) (since : instant) (d : Q) : bool :=
  negb (elapsed_ge now since d).

Definition zsum (l : list Z) : Z := foldr Z.add 0%Z l.
Definition qsum (l : list Q) : Q := foldr Qplus 0%Q l.

Lemma zsum_app l1 l2 : zsum (l1 ++ l2) = (zsum l1 + zsum l2)%Z.
Proof. unfold zsum. induction l1 as [|x l1 IH]; cbn; [done|]. rewrite IH. lia. Qed.
Lemma zsum_cons x l : zsum (x :: l) = (x + zsum l)%Z.
Proof. done. Qed.
Lemma zsum_nonneg l : Forall (fun x => 0 <= x)%Z l -> (0 <= zsum l)%Z.
Proof. unfold zsum. induction 1; cbn; lia. Qed.
Lemma zsum_permutation l1 l2 : l1 ≡ₚ l2 -> zsum l1 = zsum l2.
Proof. unfold zsum. induction 1; cbn in *; lia. Qed.

(** [sorted()] of floats. *)
Fixpoint qinsert (x : Q) (l : list Q) : list Q :=
  match l with
  | [] => [x]
  | y :: l' => if x <?q y then x :: l else y :: qinsert x l'
  end.
Definition qsorted (l : list Q) : list Q := foldl (fun acc x => qinsert x acc) [] l.

Lemma qinsert_perm x l : qinsert x l ≡ₚ x :: l.
Proof.
  induction l as [|y l IH]; cbn; [done|]. destruct (x <?q y); [done|].
  rewrite IH. constructor.
Qed.
Lemma foldl_qinsert_perm l acc :
  foldl (fun acc x => qinsert x acc) acc l ≡ₚ acc ++ l.
Proof.
  revert acc. induction l as [|x l IH]; intros acc; cbn.
  - by rewrite app_nil_r.
  - rewrite IH, qinsert_perm. cbn. by rewrite Permutation_middle.
Qed.
Lemma qsorted_perm l : qsorted l ≡ₚ l.
Proof. unfold qsorted. by rewrite foldl_qinsert_perm. Qed.

(** ** Dictionaries *)

(** A Python [dict], which keeps the order in which keys were first set. *)
Section Dict.
Context {K V : Type} `{EqDecision K}.

Fixpoint dget (k : K) (d : list (K * V)) : option V :=
  match d with
  | [] => None
  | (k', v) :: d' => if decide (k = k') then Some v else dget k d'
  end.
Fixpoint dset (k : K) (v : V) (d : list (K * V)) : list (K * V) :=
  match d with
  | [] => [(k, v)]
  | (k', v') :: d' => if decide (k = k') then (k, v) :: d' else (k', v') :: dset k v d'
  end.
Definition ddel (k : K) (d : list (K * V)) : list (K * V) :=
  filter (fun kv => kv.1 <> k) d.
Definition dhas (k : K) (d : list (K * V)) : bool :=
  match dget k d with Some _ => true | None => false end.
Definition dget_or (k : K) (dflt : V) (d : list (K * V)) : V := default dflt (dget k d).
Definition dupdate (d d' : list (K * V)) : list (K * V) :=
  foldl (fun acc kv => dset kv.1 kv.2 acc) d d'.

Lemma dget_dset k v d : dget k (dset k v d) = Some v.
Proof. induction d as [|[k' v'] d IH]; cbn; repeat (case_decide; cbn); congruence. Qed.
Lemma dget_dset_ne k k' v d : k <> k' -> dget k' (dset k v d) = dget k' d.
Proof.
  intros Hne. induction d as [|[k'' v''] d IH]; cbn; repeat (case_decide; cbn); congruence.
Qed.
Lemma dget_ddel k d : dget k (ddel k d) = None.
Proof.
  unfold ddel. induction d as [|[k' v'] d IH]; [done|].
  rewrite filter_cons. case_decide; cbn in *; [|done]. case_decide; congruence.
Qed.
Lemma dget_ddel_ne k k' d : k <> k' -> dget k' (ddel k d) = dget k' d.
Proof.
  intros Hne. unfold ddel. induction d as [|[k'' v''] d IH]; [done|].
  rewrite filter_cons. case_decide; cbn in *; case_decide; congruence.
Qed.
Lemma dget_elem k v d : dget k d = Some v -> (k, v) ∈ d.
Proof.
  induction d as [|[k' v'] d IH]; cbn; [done|].
  case_decide; intros; simplify_eq; [by left | right; auto].
Qed.
Lemma elem_dget k v d : NoDup d.*1 -> (k, v) ∈ d -> dget k d = Some v.
Proof.
  induction d as [|[k' v'] d IH]; cbn; [by intros _ ?%elem_of_nil|].
  intros [Hni Hnd]%NoDup_cons [Heq|Hin]%elem_of_cons; case_decide; simplify_eq; auto.
  exfalso. apply Hni. apply list_elem_of_fmap. by exists (k', v).
Qed.
Lemma dset_new k v d : dget k d = None -> dset k v d = d ++ [(k, v)].
Proof.
  induction d as [|[k' v'] d IH]; cbn; [done|]. case_decide; [done|].
  intros. by rewrite IH.
Qed.
Lemma dset_elem_ne k v k' v' d : (k', v') ∈ dset k v d -> k' <> k -> (k', v') ∈ d.
Proof.
  induction d as [|[k0 v0] d IH]; cbn.
  - intros ?%list_elem_of_singleton Hne. by simplify_eq.
  - case_decide; intros [?|?]%elem_of_cons Hne; simplify_eq; [by right|by left|right; auto].
Qed.
Lemma ddel_notin k d : k ∉ d.*1 -> ddel k d = d.
Proof.
  unfold ddel. induction d as [|[k' v'] d IH]; [done|].
  intros [Hne Hni]%not_elem_of_cons. rewrite filter_cons.
  case_decide as Hd; cbn in *; [by rewrite IH|]. congruence.
Qed.
Lemma ddel_elem k kv d : kv ∈ ddel k d <-> kv.1 <> k /\ kv ∈ d.
Proof. unfold ddel. by rewrite list_elem_of_filter. Qed.
Lemma ddel_sublist k d : ddel k d `sublist_of` d.
Proof. apply sublist_filter. Qed.
Lemma ddel_nodup k d : NoDup d.*1 -> NoDup (ddel k d).*1.
Proof.
  intros Hnd. eapply sublist_NoDup; [exact Hnd|]. apply fmap_sublist, ddel_sublist.
Qed.
Lemma dset_keys k v d : NoDup d.*1 -> NoDup (dset k v d).*1.
Proof.
  intros Hnd. induction d as [|[k' v'] d IH]; cbn; [by apply NoDup_singleton|].
  apply NoDup_cons in Hnd as [Hni Hnd]. case_decide; cbn.
  - subst. by apply NoDup_cons.
  - apply NoDup_cons. split; [|by apply IH]. intros Hin. apply list_elem_of_fmap in Hin as ([k0 v0] & -> & Hin).
    apply dset_elem_ne in Hin; [|done]. apply Hni. apply list_elem_of_fmap. by exists (k0, v0).
Qed.
Lemma dget_or_dset k k' v w d : dget_or k w (dset k' v d) = if decide (k = k') then v else dget_or k w d.
Proof.
  unfold dget_or. case_decide as H; [subst; by rewrite dget_dset|by rewrite dget_dset_ne by by apply not_eq_sym].
Qed.
Lemma dget_perm k d d' : NoDup d.*1 -> d ≡ₚ d' -> dget k d = dget k d'.
Proof.
  intros Hnd Hp. assert (Hnd' : NoDup d'.*1) by (by rewrite <- Hp).
  destruct (dget k d) as [v|] eqn:E.
  - symmetry. apply elem_dget; [done|]. rewrite <- Hp. by apply dget_elem.
  - destruct (dget k d') as [v|] eqn:E'; [|done]. apply dget_elem in E'. rewrite <- Hp in E'.
    apply elem_dget in E'; [congruence|done].
Qed.
End Dict.

(** ** Strings *)

(** A Python [str] is modelled by the string of its characters; the functions
    below are Python's methods of the same name on ASCII text. *)
Definition chr_code (c : ascii) : Z := Z.of_nat (nat_of_ascii c).
Definition chr_between (lo hi c : ascii) : bool :=
  (chr_code lo <=? chr_code c)%Z && (chr_code c <=? chr_code hi)%Z.
Definition is_digit (c : ascii) : bool := chr_between "0" "9" c.
Definition is_lower (c : ascii) : bool := chr_between "a" "z" c.
Definition is_upper (c : ascii) : bool := chr_between "A" "Z" c.
Definition is_alnum_lower (c : ascii) : bool := is_lower c || is_digit c.

Fixpoint str_forallb (p : ascii -> bool) (s : string) : bool :=
  match s with EmptyString => true | String c s' => p c && str_forallb p s' end.
Fixpoint str_existsb (p : ascii -> bool) (s : string) : bool :=
  match s with EmptyString => false | String c s' => p c || str_existsb p s' end.
Fixpoint str_map (f : ascii -> ascii) (s : string) : string :=
  match s with EmptyString => EmptyString | String c s' => String (f c) (str_map f s') end.
Definition chr_lower (c : ascii) : ascii :=
  if is_upper c then ascii_of_nat (nat_of_ascii c + 32) else c.
Definition str_lower : string -> string := str_map chr_lower.

Definition startswith (p s : string) : bool := String.prefix p s.
Fixpoint str_drop (n : nat) (s : string) : string :=
  match n, s with
  | O, _ => s
  | S _, EmptyString => EmptyString
  | S n', String _ s' => str_drop n' s'
  end.
Fixpoint str_take (n : nat) (s : string) : string :=
  match n, s with
  | O, _ => EmptyString
  | S _, EmptyString => EmptyString
  | S n', String c s' => String c (str_take n' s')
  end.
Definition endswith (p s : string) : bool :=
  (String.length p <=? String.length s)%nat
  && String.eqb (str_drop (String.length s - String.length p) s) p.
Definition removeprefix (p s : string) : string :=
  if startswith p s then str_drop (String.length p) s else s.
Definition removesuffix (p s : string) : string :=
  if endswith p s then str_take (String.length s - String.length p) s else s.
Fixpoint str_contains (p s : string) : bool :=
  startswith p s || match s with EmptyString => false | String _ s' => str_contains p s' end.

Definition is_space (c : ascii) : bool :=
  let n := chr_code c in
  ((9 <=? n)%Z && (n <=? 13)%Z) || ((28 <=? n)%Z && (n <=? 32)%Z).
Fixpoint str_lstrip (p : ascii -> bool) (s : string) : string :=
  match s with
  | EmptyString => EmptyString
  | String c s' => if p c then str_lstrip p s' else s
  end.
Fixpoint str_rstrip (p : ascii -> bool) (s : string) : string :=
  match s with
  | EmptyString => EmptyString
  | String c s' =>
      match str_rstrip p s' with
      | EmptyString => if p c then EmptyString else String c EmptyString
      | t => String c t
      end
  end.
Definition str_strip_of (p : ascii -> bool) (s : string) : string := str_rstrip p (str_lstrip p s).
Definition str_strip : string -> string := str_strip_of is_space.

(** [s.split(c)] for a one-character separator. *)
Fixpoint str_split (c : ascii) (s : string) : list string :=
  match s with
  | EmptyString => [EmptyString]
  | String a s' =>
      if Ascii.eqb a c then EmptyString :: str_split c s'
      else match str_split c s' with
           | [] => [String a EmptyString]
           | w :: ws => String a w :: ws
           end
  end.
(** [s.partition(c)]: what stands before the first [c], and what after it if there is one. *)
Fixpoint str_partition (c : ascii) (s : string) : string * option string :=
  match s with
  | EmptyString => (EmptyString, None)
  | String a s' =>
      if Ascii.eqb a c then (EmptyString, Some s')
      else let '(l, r) := str_partition c s' in (String a l, r)
  end.
Definition str_join (sep : string) (l : list string) : string := String.concat sep l.
Fixpoint str_replace (c : ascii) (by_ : string) (s : string) : string :=
  match s with
  | EmptyString => EmptyString
  | String a s' =>
      if Ascii.eqb a c then (by_ ++ str_replace c by_ s')%string
      else String a (str_replace c by_ s')
  end.

(** The value of a string of decimal digits. *)
Fixpoint digits_value (acc : Z) (s : string) : Z :=
  match s with
  | EmptyString => acc
  | String c s' => digits_value (10 * acc + (chr_code c - 48))%Z s'
  end.
Definition py_digits (s : string) : option Z :=
  if negb (String.eqb s "") && str_forallb is_digit s then Some (digits_value 0 s) else None.

Lemma str_forallb_app p s t :
  str_forallb p (s ++ t)%string = str_forallb p s && str_forallb p t.
Proof. induction s as [|c s IH]; simpl; [done|]. by rewrite IH, andb_assoc. Qed.
Lemma str_length_app s t : String.length (s ++ t)%string = (String.length s + String.length t)%nat.
Proof. induction s as [|c s IH]; simpl; auto. Qed.
Lemma str_take_length n s : (String.length (str_take n s) <= n)%nat.
Proof. revert s. induction n; intros [|c s]; cbn; auto with lia. specialize (IHn s). lia. Qed.
Lemma startswith_app p s : startswith p (p ++ s)%string = true.
Proof.
  unfold startswith. induction p as [|c p IH]; simpl; [by destruct s|].
  destruct (ascii_dec c c); [apply IH | done].
Qed.

(** ** Results *)

(** A computation that may raise [E]. *)
Inductive res (E A : Type) := Ok (a : A) | Err (e : E).
Arguments Ok {E A} a.
Arguments Err {E A} e.
#[export] Instance res_ret E : MRet (res E) := fun A a => Ok a.
#[export] Instance res_bind E : MBind (res E) :=
  fun A B f r => match r with Ok a => f a | Err e => Err e end.
Definition is_ok {E A} (r : res E A) : bool := match r with Ok _ => true | Err _ => false end.
Fixpoint rmap {E A B} (f : A -> res E B) (l : list A) : res E (list B) :=
  match l with
  | [] => Ok []
  | x :: l' => y ← f x; ys ← rmap f l'; Ok (y :: ys)
  end.

(** A fold whose steps may fail. *)
Fixpoint ofold {A B} (f : A -> B -> option A) (acc : A) (l : list B) : option A :=
  match l with [] => Some acc | x :: l' => acc' ← f acc x; ofold f acc' l' end.
Lemma ofold_cons {A B} (f : A -> B -> option A) acc x l r :
  ofold f acc (x :: l) = Some r -> exists acc', f acc x = Some acc' /\ ofold f acc' l = Some r.
Proof. cbn [ofold]. destruct (f acc x) as [acc'|]; cbn; [by exists acc'|done]. Qed.
Lemma ofold_app {A B} (f : A -> B -> option A) acc l l' :
  ofold f acc (l ++ l') = ofold f acc l ≫= fun acc' => ofold f acc' l'.
Proof. revert acc. induction l as [|x l IH]; intros acc; [done|]. cbn. destruct (f acc x); cbn; [apply IH|done]. Qed.

(** ** Effects *)

(** Code that keeps a state [St], calls services, and may raise [E].  A run returns
    its result, the state, and the events: each request made, with its answer, the
    newest last.  A service answers a request as it pleases, depending on all the
    events before it, and is a parameter of the definitions that use it. *)
Definition M (Ev St E A : Type) : Type := St -> list Ev -> res E A * St * list Ev.
Definition service (Req : Type) (Ans : Req -> Type) : Type :=
  list (sigT Ans) -> forall r : Req, Ans r.

Section Effects.
Context {Ev St E : Type}.
Local Abbreviation m := (M Ev St E).

#[export] Instance m_ret : MRet m := fun A a s h => (Ok a, s, h).
#[export] Instance m_bind : MBind m := fun A B f c s h =>
  match c s h with
  | (Ok a, s', h') => f a s' h'
  | (Err e, s', h') => (Err e, s', h')
  end.
Definition raise {A} (e : E) : m A := fun s h => (Err e, s, h).
Definition mget : m St := fun s h => (Ok s, s, h).
Definition mput (s' : St) : m unit := fun _ h => (Ok tt, s', h).
Definition mmod (f : St -> St) : m unit := fun s h => (Ok tt, f s, h).
Definition mlift {A} (r : res E A) : m A := fun s h => (r, s, h).
(** [try: c except e: f e] *)
Definition mcatch {A} (c : m A) (f : E -> m A) : m A := fun s h =>
  match c s h with
  | (Ok a, s', h') => (Ok a, s', h')
  | (Err e, s', h') => f e s' h'
  end.
(** [try: c finally: f] *)
Definition mfinally {A} (c : m A) (f : m unit) : m A := fun s h =>
  let '(r, s', h') := c s h in
  match f s' h' with
  | (Ok _, s'', h'') => (r, s'', h'')
  | (Err e, s'', h'') => (Err e, s'', h'')
  end.
Fixpoint mfor {A} (l : list A) (body : A -> m unit) : m unit :=
  match l with [] => mret tt | x :: l' => body x ≫= fun _ => mfor l' body end.

(** What holds of the result, the state and the requests of a run. *)
Definition wp {A} (c : m A) (s : St) (h : list Ev)
    (Q : res E A -> St -> list Ev -> Prop) : Prop :=
  let '(r, s', h') := c s h in Q r s' h'.

Lemma wp_run {A} (c : m A) s h (Q : res E A -> St -> list Ev -> Prop) :
  wp c s h Q -> Q (c s h).1.1 (c s h).1.2 (c s h).2.
Proof. unfold wp. by destruct (c s h) as [[r s'] h']. Qed.
Lemma wp_ret {A} (a : A) s h Q : Q (Ok a) s h -> wp (mret a) s h Q.
Proof. done. Qed.
Lemma wp_raise {A} (e : E) s h (Q : res E A -> _) : Q (Err e) s h -> wp (raise e) s h Q.
Proof. done. Qed.
Lemma wp_bind {A B} (c : m A) (f : A -> m B) s h Q :
  wp c s h (fun r s' h' =>
    match r with Ok a => wp (f a) s' h' Q | Err e => Q (Err e) s' h' end) ->
  wp (c ≫= f) s h Q.
Proof.
  unfold wp, mbind, m_bind. destruct (c s h) as [[[a|e] s'] h']; auto.
Qed.
Lemma wp_get s h Q : Q (Ok s) s h -> wp mget s h Q.
Proof. done. Qed.
Lemma wp_put s' s h Q : Q (Ok tt) s' h -> wp (mput s') s h Q.
Proof. done. Qed.
Lemma wp_mod f s h Q : Q (Ok tt) (f s) h -> wp (mmod f) s h Q.
Proof. done. Qed.
Lemma wp_catch {A} (c : m A) f s h Q :
  wp c s h (fun r s' h' =>
    match r with Ok a => Q (Ok a) s' h' | Err e => wp (f e) s' h' Q end) ->
  wp (mcatch c f) s h Q.
Proof. unfold wp, mcatch. destruct (c s h) as [[[a|e] s'] h']; auto. Qed.
Lemma wp_finally {A} (c : m A) f s h Q :
  wp c s h (fun r s' h' => wp f s' h' (fun r' s'' h'' =>
    Q (match r' with Ok _ => r | Err e => Err e end) s'' h'')) ->
  wp (mfinally c f) s h Q.
Proof.
  unfold wp, mfinally. destruct (c s h) as [[r s'] h'], (f s' h') as [[[[]|e] s''] h'']; auto.
Qed.
Lemma wp_mono {A} (c : m A) s h (P Q : res E A -> _) :
  wp c s h P -> (forall r s' h', P r s' h' -> Q r s' h') -> wp c s h Q.
Proof. unfold wp. destruct (c s h) as [[r s'] h']. auto. Qed.
(** A loop keeps an invariant that each of its passes keeps, raising or not. *)
Lemma wp_for {A} (l : list A) (body : A -> m unit) s h (I : St -> list Ev -> Prop)
    (X : E -> St -> list Ev -> Prop) :
  I s h ->
  (forall x s h, x ∈ l -> I s h ->
     wp (body x) s h (fun r s' h' => match r with Ok _ => I s' h' | Err e => X e s' h' end)) ->
  wp (mfor l body) s h (fun r s' h' => match r with Ok _ => I s' h' | Err e => X e s' h' end).
Proof.
  revert s h. induction l as [|x l IH]; intros s h HI Hb; cbn; [done|].
  apply wp_bind. pose proof (Hb x s h (list_elem_of_here _ _) HI) as Hx.
  eapply wp_mono; [exact Hx|].
  intros [[]|e] s' h'; [|done]. intros HI'. apply IH; [done|].
  intros y s2 h2 Hy. apply Hb. by right.
Qed.
End Effects.

(** A call of a service. *)
Definition mcall {Req} {Ans : Req -> Type} {St E} (svc : service Req Ans) (r : Req)
    : M (sigT Ans) St E (Ans r) :=
  fun s h => let a := svc h r in (Ok a, s, h ++ [existT r a]).
Lemma wp_call {Req} {Ans : Req -> Type} {St E} (svc : service Req Ans) r s h
    (Q : res E (Ans r) -> St -> list (sigT Ans) -> Prop) :
  Q (Ok (svc h r)) s (h ++ [existT r (svc h r)]) -> wp (mcall svc r) s h Q.
Proof. done. Qed.

(** ** What every run keeps *)

(** A relation that a state and the state after any run of a computation, raising or
    not, are in. *)
Definition keeps {Ev St E A} (R : St -> St -> Prop) (c : M Ev St E A) : Prop :=
  forall s h, wp c s h (fun _ s' _ => R s s').
Section Keeps.
Context {Ev St E : Type} (R : St -> St -> Prop) `{!PreOrder R}.
Local Abbreviation m := (M Ev St E).
Lemma keeps_ret {A} (a : A) : keeps R (mret a : m A).
Proof. intros s h. cbn. reflexivity. Qed.
Lemma keeps_raise {A} e : keeps R (raise e : m A).
Proof. intros s h. cbn. reflexivity. Qed.
Lemma keeps_lift {A} (r : res E A) : keeps R (mlift r : m A).
Proof. intros s h. cbn. reflexivity. Qed.
Lemma keeps_get : keeps R (mget : m St).
Proof. intros s h. cbn. reflexivity. Qed.
Lemma keeps_mod f : (forall s, R s (f s)) -> keeps R (mmod f : m unit).
Proof. intros H s h. apply H. Qed.
Lemma keeps_bind {A B} (c : m A) (f : A -> m B) : keeps R c -> (forall a, keeps R (f a)) -> keeps R (c ≫= f).
Proof.
  intros Hc Hf s h. apply wp_bind. eapply wp_mono; [apply Hc|]. intros [a|e] s' h' Hs; [|done].
  eapply wp_mono; [apply Hf|]. intros r s'' h'' Hs'. by etransitivity.
Qed.
Lemma keeps_catch {A} (c : m A) f : keeps R c -> (forall e, keeps R (f e)) -> keeps R (mcatch c f).
Proof.
  intros Hc Hf s h. apply wp_catch. eapply wp_mono; [apply Hc|]. intros [a|e] s' h' Hs; [done|].
  eapply wp_mono; [apply Hf|]. intros r s'' h'' Hs'. by etransitivity.
Qed.
Lemma keeps_for {A} (l : list A) (body : A -> m unit) : (forall x, keeps R (body x)) -> keeps R (mfor l body).
Proof. intros H. induction l; [apply keeps_ret|]. apply keeps_bind; [apply H|done]. Qed.
Lemma keeps_for_in {A} (l : list A) (body : A -> m unit) : (forall x, x ∈ l -> keeps R (body x)) -> keeps R (mfor l body).
Proof.
  intros H. induction l as [|x l IH]; [apply keeps_ret|]. apply keeps_bind; [apply H; by left|].
  intros _. apply IH. intros y Hy. apply H. by right.
Qed.
End Keeps.
Lemma keeps_call {Req} {Ans : Req -> Type} {St E} (R : St -> St -> Prop) `{!PreOrder R} (svc : service Req Ans) r :
  keeps R (mcall svc r : M (sigT Ans) St E (Ans r)).
Proof. intros s h. cbn. reflexivity. Qed.
Create HintDb keeps.
#[export] Hint Resolve keeps_ret keeps_raise keeps_lift keeps_get keeps_call : keeps.
(** Follows a computation's structure down to its calls and what changes its state. *)
Ltac keep :=
  repeat first
    [ solve [auto with keeps typeclass_instances]
    | apply keeps_bind; [exact _| |]
    | apply keeps_catch; [exact _| |]
    | apply keeps_for; [exact _|]
    | lazymatch goal with |- forall _, _ => intro end
    | lazymatch goal with
      | |- keeps ?R (mcall ?svc ?r) => exact (keeps_call R svc r)
      | |- keeps _ (if ?b then _ else _) => destruct b
      | |- keeps _ (match ?b with _ => _ end) => destruct b
      end ].

(** ** Monitors *)

(** A monitor reads a run's events in turn and fails at one that may not be; [mon]
    says that from [q] no run of [c] fails, and what holds of its result and of the
    state the monitor ends in. *)
Section Monitor.
Context {Req : Type} {Ans : Req -> Type} {St E S : Type} (step : S -> sigT Ans -> option S).
Local Abbreviation m := (M (sigT Ans) St E).

Definition mon {A} (q : S) (c : m A) (Q : res E A -> S -> Prop) : Prop :=
  forall s h, wp c s h (fun r _ h' => exists t q', h' = h ++ t /\ ofold step q t = Some q' /\ Q r q').

Lemma mon_ret {A} q (a : A) (Q : res E A -> S -> Prop) : Q (Ok a) q -> mon q (mret a) Q.
Proof. intros H s h. exists [], q. by rewrite app_nil_r. Qed.
Lemma mon_raise {A} q e (Q : res E A -> S -> Prop) : Q (Err e) q -> mon q (raise e) Q.
Proof. intros H s h. exists [], q. by rewrite app_nil_r. Qed.
Lemma mon_get q (Q : res E St -> S -> Prop) : (forall s, Q (Ok s) q) -> mon q mget Q.
Proof. intros H s h. exists [], q. rewrite app_nil_r. split; [done|]. split; [done|]. apply H. Qed.
Lemma mon_mod q f (Q : res E unit -> S -> Prop) : Q (Ok tt) q -> mon q (mmod f) Q.
Proof. intros H s h. exists [], q. by rewrite app_nil_r. Qed.
Lemma mon_put q s' (Q : res E unit -> S -> Prop) : Q (Ok tt) q -> mon q (mput s') Q.
Proof. intros H s h. exists [], q. by rewrite app_nil_r. Qed.
Lemma mon_bind {A B} q (c : m A) (f : A -> m B) Q :
  mon q c (fun r q' => match r with Ok a => mon q' (f a) Q | Err e => Q (Err e) q' end) -> mon q (c ≫= f) Q.
Proof.
  intros H s h. apply wp_bind. eapply wp_mono; [apply H|]. intros [a|e] s' h' (t & q' & -> & Ht & HQ).
  - eapply wp_mono; [apply HQ|]. intros r s2 h2 (t2 & q2 & -> & Ht2 & HQ2). exists (t ++ t2), q2.
    rewrite ofold_app, Ht, app_assoc. done.
  - by exists t, q'.
Qed.
Lemma mon_call q (svc : service Req Ans) r (Q : res E (Ans r) -> S -> Prop) :
  (forall a, exists q', step q (existT r a) = Some q' /\ Q (Ok a) q') -> mon q (mcall svc r) Q.
Proof.
  intros H s h. apply wp_call. destruct (H (svc h r)) as (q' & Hq & HQ). exists [existT r (svc h r)], q'.
  split; [done|]. cbn. rewrite Hq. done.
Qed.
Lemma mon_mono {A} q (c : m A) (P Q : res E A -> S -> Prop) :
  mon q c P -> (forall r q', P r q' -> Q r q') -> mon q c Q.
Proof. intros H HPQ s h. eapply wp_mono; [apply H|]. intros r s' h' (t & q' & -> & Ht & HP). exists t, q'. auto. Qed.
Lemma mon_for {A} q (l : list A) (body : A -> m unit) (I : S -> Prop) (X : res E unit -> S -> Prop) :
  I q -> (forall x q, x ∈ l -> I q -> mon q (body x) (fun r q' => match r with Ok _ => I q' | Err e => X (Err e) q' end)) ->
  (forall q, I q -> X (Ok tt) q) -> mon q (mfor l body) X.
Proof.
  intros HI Hb HX. revert q HI. induction l as [|x l IH]; intros q HI; cbn; [apply mon_ret; auto|].
  apply mon_bind. eapply mon_mono; [apply Hb; [by left|done]|]. intros [[]|e] q' H'; [|done].
  apply IH; [|done]. intros y q2 Hy. apply Hb. by right.
Qed.
Lemma mon_catch {A} q (c : m A) f Q :
  mon q c (fun r q' => match r with Ok a => Q (Ok a) q' | Err e => mon q' (f e) Q end) -> mon q (mcatch c f) Q.
Proof.
  intros H s h. apply wp_catch. eapply wp_mono; [apply H|]. intros [a|e] s' h' (t & q' & -> & Ht & HQ).
  - by exists t, q'.
  - eapply wp_mono; [apply HQ|]. intros r s2 h2 (t2 & q2 & -> & Ht2 & HQ2). exists (t ++ t2), q2.
    rewrite ofold_app, Ht, app_assoc. done.
Qed.
Lemma mon_finally {A} q (c : m A) (f : m unit) (Q : res E A -> S -> Prop) :
  mon q c (fun r q' => mon q' f (fun r' q'' => Q (match r' with Ok _ => r | Err e => Err e end) q'')) -> mon q (mfinally c f) Q.
Proof.
  intros H s h. apply wp_finally. eapply wp_mono; [apply H|]. intros r s' h' (t & q' & -> & Ht & HQ).
  eapply wp_mono; [apply HQ|]. intros r' s2 h2 (t2 & q2 & -> & Ht2 & HQ2). exists (t ++ t2), q2.
  rewrite ofold_app, Ht, app_assoc. done.
Qed.
End Monitor.

(** The requests of every run are among some. *)
Definition only {Req} {Ans : Req -> Type} (p : Req -> bool) (q : unit) (e : sigT Ans) : option unit := if p (projT1 e) then Some q else None.
Section Asks.
Context {Req : Type} {Ans : Req -> Type} {E : Type} (svc : service Req Ans) (p : Req -> bool).
Definition asks_only {St A} (c : M (sigT Ans) St E A) : Prop := mon (only p) tt c (fun _ _ => True).
Lemma only_ret {St A} (a : A) : asks_only (mret a : M (sigT Ans) St E A).
Proof. by apply mon_ret. Qed.
Lemma only_raise {St A} e : asks_only (raise e : M (sigT Ans) St E A).
Proof. by apply mon_raise. Qed.
Lemma only_lift {St A} (r : res E A) : asks_only (mlift r : M (sigT Ans) St E A).
Proof. intros s h. exists [], tt. by rewrite app_nil_r. Qed.
Lemma only_get {St} : asks_only (mget : M (sigT Ans) St E St).
Proof. by apply mon_get. Qed.
Lemma only_put {St} s : asks_only (mput s : M (sigT Ans) St E unit).
Proof. by apply mon_put. Qed.
Lemma only_mod {St} f : asks_only (mmod f : M (sigT Ans) St E unit).
Proof. by apply mon_mod. Qed.
Lemma only_call {St} r : p r = true -> asks_only (mcall svc r : M (sigT Ans) St E (Ans r)).
Proof. intros H. apply mon_call. intros a. exists tt. unfold only. cbn. by rewrite H. Qed.
Lemma only_bind {St A B} (c : M (sigT Ans) St E A) (f : A -> M (sigT Ans) St E B) : asks_only c -> (forall a, asks_only (f a)) -> asks_only (c ≫= f).
Proof. intros Hc Hf. apply mon_bind. eapply mon_mono; [exact Hc|]. intros [a|e] [] _; [apply Hf|done]. Qed.
Lemma only_catch {St A} (c : M (sigT Ans) St E A) f : asks_only c -> (forall e, asks_only (f e)) -> asks_only (mcatch c f).
Proof. intros Hc Hf. apply mon_catch. eapply mon_mono; [exact Hc|]. intros [a|e] [] _; [done|apply Hf]. Qed.
Lemma only_for {St A} (l : list A) (body : A -> M (sigT Ans) St E unit) : (forall x, asks_only (body x)) -> asks_only (mfor l body).
Proof. intros H. induction l as [|x l IH]; [apply only_ret|]. apply only_bind; [apply H|done]. Qed.
(** A monitor that such requests leave where it is stays there. *)
Lemma only_still {St A S} (step : S -> sigT Ans -> option S) q (c : M (sigT Ans) St E A) :
  (forall r a, p r = true -> step q (existT r a) = Some q) -> asks_only c -> mon step q c (fun _ q' => q' = q).
Proof.
  intros Hp Hc s h. eapply wp_mono; [apply Hc|]. intros r s' h' (t & [] & -> & Ht & _). exists t, q. split; [done|]. split; [|done].
  induction t as [|[x a] t IH]; [done|]. cbn in *. unfold only at 2 in Ht. cbn in Ht. destruct (p x) eqn:Ep; [|done].
  rewrite (Hp x a Ep). by apply IH.
Qed.
End Asks.
Ltac asks := repeat first
  [ solve [auto using only_ret, only_raise, only_lift, only_get, only_put, only_mod]
  | apply only_bind | apply only_for | apply only_catch
  | lazymatch goal with |- forall _, _ => intro end
  | lazymatch goal with
    | |- asks_only _ (mcall _ ?r) => refine (only_call _ _ r _); by cbn
    | |- asks_only _ (if ?b then _ else _) => destruct b eqn:?
    | |- asks_only _ (match ?b with _ => _ end) => destruct b eqn:?
    | |- asks_only _ (let _ := _ in _) => cbv zeta
    end ].

(** The same for the runs from states that satisfy [P], which they keep. *)
Section MonitorKeeps.
Context {Req : Type} {Ans : Req -> Type} {St E S : Type} (P : St -> Prop) (step : S -> sigT Ans -> option S).
Local Abbreviation m := (M (sigT Ans) St E).

Definition monp {A} (q : S) (c : m A) (Q : res E A -> S -> Prop) : Prop :=
  forall s h, P s -> wp c s h (fun r s' h' => P s' /\ exists t q', h' = h ++ t /\ ofold step q t = Some q' /\ Q r q').

Lemma monp_ret {A} q (a : A) (Q : res E A -> S -> Prop) : Q (Ok a) q -> monp q (mret a) Q.
Proof. intros H s h Hs. split; [done|]. exists [], q. by rewrite app_nil_r. Qed.
Lemma monp_raise {A} q e (Q : res E A -> S -> Prop) : Q (Err e) q -> monp q (raise e) Q.
Proof. intros H s h Hs. split; [done|]. exists [], q. by rewrite app_nil_r. Qed.
Lemma monp_lift {A} q (r : res E A) (Q : res E A -> S -> Prop) : Q r q -> monp q (mlift r) Q.
Proof. intros H s h Hs. split; [done|]. exists [], q. by rewrite app_nil_r. Qed.
Lemma monp_get q (Q : res E St -> S -> Prop) : (forall s, P s -> Q (Ok s) q) -> monp q mget Q.
Proof. intros H s h Hs. split; [done|]. exists [], q. rewrite app_nil_r. split; [done|]. split; [done|]. by apply H. Qed.
Lemma monp_mod q f (Q : res E unit -> S -> Prop) : (forall s, P s -> P (f s)) -> Q (Ok tt) q -> monp q (mmod f) Q.
Proof. intros Hf H s h Hs. split; [by apply Hf|]. exists [], q. by rewrite app_nil_r. Qed.
Lemma monp_put q s' (Q : res E unit -> S -> Prop) : P s' -> Q (Ok tt) q -> monp q (mput s') Q.
Proof. intros Hf H s h Hs. split; [done|]. exists [], q. by rewrite app_nil_r. Qed.
Lemma monp_bind {A B} q (c : m A) (f : A -> m B) Q :
  monp q c (fun r q' => match r with Ok a => monp q' (f a) Q | Err e => Q (Err e) q' end) -> monp q (c ≫= f) Q.
Proof.
  intros H s h Hs. apply wp_bind. eapply wp_mono; [by apply H|]. intros [a|e] s' h' (Hs' & t & q' & -> & Ht & HQ).
  - eapply wp_mono; [by apply HQ|]. intros r s2 h2 (Hs2 & t2 & q2 & -> & Ht2 & HQ2). split; [done|]. exists (t ++ t2), q2.
    rewrite ofold_app, Ht, app_assoc. done.
  - split; [done|]. by exists t, q'.
Qed.
Lemma monp_call q (svc : service Req Ans) r (Q : res E (Ans r) -> S -> Prop) :
  (forall a, exists q', step q (existT r a) = Some q' /\ Q (Ok a) q') -> monp q (mcall svc r) Q.
Proof.
  intros H s h Hs. apply wp_call. destruct (H (svc h r)) as (q' & Hq & HQ). split; [done|]. exists [existT r (svc h r)], q'.
  split; [done|]. cbn. rewrite Hq. done.
Qed.
Lemma monp_catch {A} q (c : m A) f Q :
  monp q c (fun r q' => match r with Ok a => Q (Ok a) q' | Err e => monp q' (f e) Q end) -> monp q (mcatch c f) Q.
Proof.
  intros H s h Hs. apply wp_catch. eapply wp_mono; [by apply H|]. intros [a|e] s' h' (Hs' & t & q' & -> & Ht & HQ).
  - split; [done|]. by exists t, q'.
  - eapply wp_mono; [by apply HQ|]. intros r s2 h2 (Hs2 & t2 & q2 & -> & Ht2 & HQ2). split; [done|]. exists (t ++ t2), q2.
    rewrite ofold_app, Ht, app_assoc. done.
Qed.
Lemma monp_mono {A} q (c : m A) (Q Q' : res E A -> S -> Prop) :
  monp q c Q -> (forall r q', Q r q' -> Q' r q') -> monp q c Q'.
Proof.
  intros H HPQ s h Hs. eapply wp_mono; [by apply H|]. intros r s' h' (Hs' & t & q' & -> & Ht & HP). split; [done|].
  exists t, q'. auto.
Qed.
End MonitorKeeps.

(** From [q] and a state no run fails the monitor, and what holds at its end. *)
Section Beside.
Context {Req : Type} {Ans : Req -> Type} {St E S : Type} (step : S -> sigT Ans -> option S).
Local Abbreviation m := (M (sigT Ans) St E).
Definition beside {A} (q : S) (s : St) (c : m A) (Q : res E A -> S -> St -> Prop) : Prop :=
  forall h, wp c s h (fun r s' h' => exists t q', h' = (h ++ t)%list /\ ofold step q t = Some q' /\ Q r q' s').
Lemma beside_none {A} q s (c : m A) r s' (Q : res E A -> S -> St -> Prop) : (forall h, c s h = (r, s', h)) -> Q r q s' -> beside q s c Q.
Proof. intros Hc H h. unfold wp. rewrite Hc. exists [], q. by rewrite app_nil_r. Qed.
Lemma beside_ret {A} q s (a : A) (Q : res E A -> S -> St -> Prop) : Q (Ok a) q s -> beside q s (mret a) Q.
Proof. by apply beside_none. Qed.
Lemma beside_raise {A} q s e (Q : res E A -> S -> St -> Prop) : Q (Err e) q s -> beside q s (raise e) Q.
Proof. by apply beside_none. Qed.
Lemma beside_lift {A} q s (r : res E A) (Q : res E A -> S -> St -> Prop) : Q r q s -> beside q s (mlift r) Q.
Proof. apply beside_none. by destruct r. Qed.
Lemma beside_get q s (Q : res E St -> S -> St -> Prop) : Q (Ok s) q s -> beside q s mget Q.
Proof. by apply beside_none. Qed.
Lemma beside_mod q s f (Q : res E unit -> S -> St -> Prop) : Q (Ok tt) q (f s) -> beside q s (mmod f) Q.
Proof. by apply beside_none. Qed.
Lemma beside_call q s (svc : service Req Ans) r (Q : res E (Ans r) -> S -> St -> Prop) :
  (forall a, exists q', step q (existT r a) = Some q' /\ Q (Ok a) q' s) -> beside q s (mcall svc r) Q.
Proof.
  intros H h. apply wp_call. destruct (H (svc h r)) as (q' & Hq & HQ). exists [existT r (svc h r)], q'. split; [done|]. cbn. by rewrite Hq.
Qed.
Lemma beside_bind {A B} q s (c : m A) (f : A -> m B) Q :
  beside q s c (fun r q' s' => match r with Ok a => beside q' s' (f a) Q | Err e => Q (Err e) q' s' end) -> beside q s (c ≫= f) Q.
Proof.
  intros H h. apply wp_bind. eapply wp_mono; [apply H|]. intros [a|e] s' h' (t & q' & -> & Ht & HQ); [|by exists t, q'].
  eapply wp_mono; [apply HQ|]. intros r s2 h2 (t2 & q2 & -> & Ht2 & HQ2). exists (t ++ t2)%list, q2. by rewrite ofold_app, Ht, app_assoc.
Qed.
Lemma beside_catch {A} q s (c : m A) f Q :
  beside q s c (fun r q' s' => match r with Ok a => Q (Ok a) q' s' | Err e => beside q' s' (f e) Q end) -> beside q s (mcatch c f) Q.
Proof.
  intros H h. apply wp_catch. eapply wp_mono; [apply H|]. intros [a|e] s' h' (t & q' & -> & Ht & HQ); [by exists t, q'|].
  eapply wp_mono; [apply HQ|]. intros r s2 h2 (t2 & q2 & -> & Ht2 & HQ2). exists (t ++ t2)%list, q2. by rewrite ofold_app, Ht, app_assoc.
Qed.
Lemma beside_finally {A} q s (c : m A) f (Q : res E A -> S -> St -> Prop) :
  beside q s c (fun r q' s' => beside q' s' f (fun r' => Q (match r' with Ok _ => r | Err e => Err e end))) -> beside q s (mfinally c f) Q.
Proof.
  intros H h. apply wp_finally. eapply wp_mono; [apply H|]. intros r s' h' (t & q' & -> & Ht & HQ).
  eapply wp_mono; [apply HQ|]. intros r' s2 h2 (t2 & q2 & -> & Ht2 & HQ2). exists (t ++ t2)%list, q2. by rewrite ofold_app, Ht, app_assoc.
Qed.
Lemma beside_mono {A} q s (c : m A) (P Q : res E A -> S -> St -> Prop) :
  beside q s c P -> (forall r q' s', P r q' s' -> Q r q' s') -> beside q s c Q.
Proof. intros H HPQ h. eapply wp_mono; [apply H|]. intros r s' h' (t & q' & -> & Ht & HP). exists t, q'. auto. Qed.
Lemma beside_for {A} q s (l : list A) (body : A -> m unit) (I : S -> St -> Prop) :
  I q s -> (forall x q s, I q s -> beside q s (body x) (fun _ => I)) -> beside q s (mfor l body) (fun _ => I).
Proof.
  intros HI Hb. revert q s HI. induction l as [|x l IH]; intros q s HI; cbn [mfor]; [by apply beside_ret|].
  apply beside_bind. eapply beside_mono; [by apply Hb|]. intros [[]|e] q' s' H; [by apply IH|done].
Qed.
End Beside.

(** One step of a monitored run; a call leaves its answer and the monitor's step. *)
Ltac mon_step :=
  lazymatch goal with
  | |- mon _ _ (mbind _ _) _ => apply mon_bind
  | |- mon _ _ (mret _) _ => apply mon_ret
  | |- mon _ _ (raise _) _ => apply mon_raise
  | |- mon _ _ mget _ => apply mon_get; intros ?
  | |- mon _ _ (mmod _) _ => apply mon_mod
  | |- mon _ _ (mcatch _ _) _ => apply mon_catch
  | |- mon _ _ (mcall _ _) _ => apply mon_call; intros ?; eexists; split
  | |- mon _ _ (if ?b then _ else _) _ => destruct b eqn:?
  | |- mon _ _ (match ?b with _ => _ end) _ => destruct b eqn:?
  | |- mon _ _ (let _ := _ in _) _ => cbv zeta
  end; cbv beta iota.

Ltac monp_step :=
  lazymatch goal with
  | |- monp _ _ _ (mbind _ _) _ => apply monp_bind
  | |- monp _ _ _ (mret _) _ => apply monp_ret
  | |- monp _ _ _ (raise _) _ => apply monp_raise
  | |- monp _ _ _ (mlift _) _ => apply monp_lift
  | |- monp _ _ _ mget _ => apply monp_get; intros ? ?
  | |- monp _ _ _ (mcatch _ _) _ => apply monp_catch
  | |- monp _ _ _ (if ?b then _ else _) _ => destruct b eqn:?
  | |- monp _ _ _ (match ?b with _ => _ end) _ => destruct b eqn:?
  | |- monp _ _ _ (let _ := _ in _) _ => cbv zeta
  end; cbv beta iota.

(** Symbolic execution of a run: one step of the goal's computation. *)
Ltac wp_step :=
  lazymatch goal with
  | |- wp (mbind _ _) _ _ _ => apply wp_bind
  | |- wp (mret _) _ _ _ => apply wp_ret
  | |- wp (raise _) _ _ _ => apply wp_raise
  | |- wp (mcall ?svc ?r) ?s ?h ?Q => change (Q (Ok (svc h r)) s (h ++ [existT r (svc h r)]))
  | |- wp (mlift ?r) ?s ?h ?Q => change (Q r s h)
  | |- wp mget _ _ _ => apply wp_get
  | |- wp (mput _) _ _ _ => apply wp_put
  | |- wp (mmod _) _ _ _ => apply wp_mod
  | |- wp (mcatch _ _) _ _ _ => apply wp_catch
  | |- wp (mfinally _ _) _ _ _ => apply wp_finally
  | |- wp (if ?b then _ else _) _ _ _ => destruct b eqn:?
  | |- wp (match ?b with _ => _ end) _ _ _ => destruct b eqn:?
  | |- wp (let _ := _ in _) _ _ _ => cbv zeta
  end; cbv beta iota.
