(* ===== verification/PyJson.v ===== *)
(** JSON values as [json.loads] and [response.json()] return them, the [dict]
    operations the code makes on them, and a recognizer of the texts
    [json.loads] accepts. *)
From S2P Require Import Prelude.
#[local] Set Warnings "-register-all".

Inductive json : Type :=
| JNull
| JBool (b : bool)
| JInt (n : Z)
| JFloat (q : Q)
| JStr (s : string)
| JArr (l : list json)
| JObj (o : list (string * json)).

(** Whether a value counts as true in a condition. *)
Definition truthy (j : json) : bool :=
  match j with
  | JNull => false
  | JBool b => b
  | JInt n => negb (n =? 0)%Z
  | JFloat q => negb (Qeq_bool q 0)
  | JStr s => negb (String.eqb s "")
  | JArr l => match l with [] => false | _ => true end
  | JObj o => match o with [] => false | _ => true end
  end.

(** [a or b] *)
Definition j_or (a b : json) : json := if truthy a then a else b.

(** [j.get(k)]: [JNull], Python's [None], where there is no such key. *)
Definition jget (k : string) (j : json) : json :=
  match j with JObj o => default JNull (dget k o) | _ => JNull end.
Definition jhas (k : string) (j : json) : bool :=
  match j with JObj o => dhas k o | _ => false end.
Definition jget_or (k : string) (d : json) (j : json) : json :=
  match j with JObj o => default d (dget k o) | _ => d end.
Definition jset (k : string) (v : json) (j : json) : json :=
  match j with JObj o => JObj (dset k v o) | _ => j end.
Definition jdel (k : string) (j : json) : json :=
  match j with JObj o => JObj (ddel k o) | _ => j end.
Definition jitems (j : json) : list (string * json) :=
  match j with JObj o => o | _ => [] end.
Definition jlist (j : json) : list json :=
  match j with JArr l => l | _ => [] end.
Definition jstr (j : json) : string := match j with JStr s => s | _ => "" end.
Definition is_obj (j : json) : bool := match j with JObj _ => true | _ => false end.
Definition is_arr (j : json) : bool := match j with JArr _ => true | _ => false end.
(** [{**a, **b}] *)
Definition jmerge (a b : json) : json := JObj (dupdate (jitems a) (jitems b)).

(** [j[k] = f(j[k])], [j.setdefault(k, d)] and a list with [f] of each element. *)
Definition jupd (k : string) (f : json -> json) (j : json) : json := jset k (f (jget k j)) j.
Definition jsetdefault (k : string) (d : json) (j : json) : json := if jhas k j then j else jset k d j.
Definition jmap (f : json -> json) (j : json) : json := match j with JArr l => JArr (map f l) | _ => j end.
Definition jvalues (f : json -> json) (j : json) : json :=
  match j with JObj o => JObj (map (fun kv => (kv.1, f kv.2)) o) | _ => j end.
(** [j.update(...)] *)
Definition jupdate (fields : list (string * json)) (j : json) : json :=
  foldl (fun acc kv => jset kv.1 kv.2 acc) j fields.

(** [j == "text"] *)
Definition jeq_str (j : json) (s : string) : bool :=
  match j with JStr t => String.eqb t s | _ => false end.

Lemma jget_jset k v o : jget k (jset k v (JObj o)) = v.
Proof. cbn. by rewrite dget_dset. Qed.
Lemma jget_jset_ne k k' v j : k <> k' -> jget k' (jset k v j) = jget k' j.
Proof. intros. destruct j; cbn; try done. by rewrite dget_dset_ne. Qed.
Lemma jget_jdel k j : jget k (jdel k j) = JNull.
Proof. destruct j; cbn; try done. by rewrite dget_ddel. Qed.
Lemma jget_jdel_ne k k' j : k <> k' -> jget k' (jdel k j) = jget k' j.
Proof. intros. destruct j; cbn; try done. by rewrite dget_ddel_ne. Qed.
Lemma is_obj_jset k v j : is_obj (jset k v j) = is_obj j.
Proof. by destruct j. Qed.
Lemma is_obj_inv o : is_obj o = true -> exists d, o = JObj d.
Proof. destruct o; try done. by eexists. Qed.
Lemma jget_jset_obj k v o : is_obj o = true -> jget k (jset k v o) = v.
Proof. intros [d ->]%is_obj_inv. apply jget_jset. Qed.
Lemma is_obj_jdel k o : is_obj (jdel k o) = is_obj o.
Proof. by destruct o. Qed.
Lemma is_obj_jupd k f o : is_obj (jupd k f o) = is_obj o.
Proof. apply is_obj_jset. Qed.
Lemma is_obj_jsetdefault k d o : is_obj (jsetdefault k d o) = is_obj o.
Proof. unfold jsetdefault. destruct (jhas k o); [done|]. apply is_obj_jset. Qed.
Lemma is_obj_jupdate l o : is_obj (jupdate l o) = is_obj o.
Proof. unfold jupdate. revert o. induction l as [|kv l IH]; intros o; cbn; [done|]. by rewrite IH, is_obj_jset. Qed.
Lemma jget_jupd k f o : is_obj o = true -> jget k (jupd k f o) = f (jget k o).
Proof. apply jget_jset_obj. Qed.
Lemma jget_jupd_ne k k' f o : k <> k' -> jget k' (jupd k f o) = jget k' o.
Proof. apply jget_jset_ne. Qed.
Lemma jget_jsetdefault_ne k k' d o : k <> k' -> jget k' (jsetdefault k d o) = jget k' o.
Proof. intros. unfold jsetdefault. destruct (jhas k o); [done|]. by apply jget_jset_ne. Qed.
Lemma jget_jupdate_ne k l o : k ∉ l.*1 -> jget k (jupdate l o) = jget k o.
Proof.
  unfold jupdate. revert o. induction l as [|[k' v] l IH]; intros o; [done|].
  rewrite fmap_cons, not_elem_of_cons. intros [Hne Hni]. cbn. rewrite IH by done. by apply jget_jset_ne.
Qed.
(** Reading an update of distinct keys. *)
Lemma jget_jupdate k l o v : is_obj o = true -> NoDup l.*1 -> dget k l = Some v -> jget k (jupdate l o) = v.
Proof.
  unfold jupdate. revert o. induction l as [|[k' v'] l IH]; intros o Ho; [done|].
  rewrite fmap_cons. intros [Hni Hnd]%NoDup_cons. cbn. case_decide as E; intros H.
  - subst k'. simplify_eq. pose proof (jget_jupdate_ne k l (jset k v o) Hni) as Hg. unfold jupdate in Hg.
    rewrite Hg. by apply jget_jset_obj.
  - apply IH; [by rewrite is_obj_jset|done|done].
Qed.

Lemma jget_jvalues k f j : jhas k j = true -> jget k (jvalues f j) = f (jget k j).
Proof.
  destruct j as [| | | | | |o]; try done. cbn. unfold dhas. induction o as [|[k' v] o IH]; cbn; [done|].
  case_decide; [done|]. exact IH.
Qed.
Lemma is_obj_jvalues f j : is_obj (jvalues f j) = is_obj j.
Proof. by destruct j. Qed.

(** Reads an object as far as the keys written to it tell. *)
Ltac is_object :=
  repeat first [rewrite is_obj_jset | rewrite is_obj_jdel | rewrite is_obj_jupd | rewrite is_obj_jsetdefault
               | rewrite is_obj_jupdate | rewrite is_obj_jvalues
               | rewrite jget_jupd_ne by discriminate | rewrite jget_jset_ne by discriminate];
  first [reflexivity | assumption].
Ltac read_json :=
  repeat first
    [ rewrite jget_jset_obj by is_object
    | rewrite jget_jset_ne by discriminate
    | rewrite jget_jupd by is_object
    | rewrite jget_jupd_ne by discriminate
    | rewrite jget_jsetdefault_ne by discriminate
    | rewrite jget_jupdate_ne by (cbn; rewrite ?not_elem_of_cons; repeat split;
                                  first [discriminate | apply not_elem_of_nil]) ].

(** ** What [json.loads] accepts *)

(** Each function takes the characters left and returns those left after it. *)
Section Loads.
Local Abbreviation chars := (list ascii).

Definition json_space (c : ascii) : bool :=
  let n := chr_code c in
  (n =? 32)%Z || (n =? 9)%Z || (n =? 10)%Z || (n =? 13)%Z.
Fixpoint skip (l : chars) : chars :=
  match l with c :: l' => if json_space c then skip l' else l | [] => [] end.

Fixpoint literal (w : string) (l : chars) : option chars :=
  match w, l with
  | EmptyString, _ => Some l
  | String c w', a :: l' => if Ascii.eqb a c then literal w' l' else None
  | _, [] => None
  end.

Fixpoint digits (l : chars) : chars :=
  match l with c :: l' => if is_digit c then digits l' else l | [] => [] end.
Definition digits1 (l : chars) : option chars :=
  match l with c :: l' => if is_digit c then Some (digits l') else None | [] => None end.
(** Zero or digits that do not start with one, then a fraction and an exponent
    if they are whole: an optional part that does not match is left. *)
Definition number (l : chars) : option chars :=
  let whole := match l with
    | c :: l' => if Ascii.eqb c "0" then Some l' else digits1 l
    | [] => None
    end in
  match whole with
  | None => None
  | Some l1 =>
      let l2 := match l1 with
        | c :: l' => if Ascii.eqb c "." then default l1 (digits1 l') else l1
        | [] => l1
        end in
      Some (match l2 with
        | c :: l' =>
            if Ascii.eqb c "e" || Ascii.eqb c "E" then
              let l3 := match l' with
                | s :: l'' => if Ascii.eqb s "+" || Ascii.eqb s "-" then l'' else l'
                | [] => l'
                end in default l2 (digits1 l3)
            else l2
        | [] => l2
        end)
  end.

Definition is_hex (c : ascii) : bool :=
  is_digit c || chr_between "a" "f" c || chr_between "A" "F" c.
(** The rest of a string after its opening quote. *)
Fixpoint str_rest (l : chars) : option chars :=
  match l with
  | [] => None
  | c :: l' =>
      if (chr_code c =? 34)%Z then Some l'
      else if (chr_code c =? 92)%Z then
        match l' with
        | e :: l1 =>
            if existsb (Ascii.eqb e) (list_ascii_of_string (String "034" "\/bfnrt")) then str_rest l1
            else if Ascii.eqb e "u" then
              match l1 with
              | a :: b :: x :: y :: l2 =>
                  if is_hex a && is_hex b && is_hex x && is_hex y then str_rest l2 else None
              | _ => None
              end
            else None
        | [] => None
        end
      else if (chr_code c <? 32)%Z then None
      else str_rest l'
  end.

Fixpoint value (fuel : nat) (l : chars) {struct fuel} : option chars :=
  match fuel with
  | O => None
  | S fuel =>
      match l with
      | [] => None
      | c :: l' =>
          if (chr_code c =? 34)%Z then str_rest l'
          else if Ascii.eqb c "{" then
            match skip l' with
            | d :: l1 => if Ascii.eqb d "}" then Some l1 else members fuel (d :: l1)
            | [] => None
            end
          else if Ascii.eqb c "[" then
            match skip l' with
            | d :: l1 => if Ascii.eqb d "]" then Some l1 else elems fuel (d :: l1)
            | [] => None
            end
          else if Ascii.eqb c "-" then
            match number l' with Some r => Some r | None => literal "Infinity" l' end
          else if is_digit c then number l
          else match literal "null" l with Some r => Some r | None =>
               match literal "true" l with Some r => Some r | None =>
               match literal "false" l with Some r => Some r | None =>
               match literal "NaN" l with Some r => Some r | None =>
               literal "Infinity" l end end end end
      end
  end
with members (fuel : nat) (l : chars) {struct fuel} : option chars :=
  match fuel with
  | O => None
  | S fuel =>
      match l with
      | q :: l1 =>
          if negb (chr_code q =? 34)%Z then None else
          match str_rest l1 with
          | None => None
          | Some l2 =>
              match skip l2 with
              | k :: l3 =>
                  if negb (Ascii.eqb k ":") then None else
                  match value fuel (skip l3) with
                  | None => None
                  | Some l4 =>
                      match skip l4 with
                      | e :: l5 =>
                          if Ascii.eqb e "}" then Some l5
                          else if Ascii.eqb e "," then members fuel (skip l5)
                          else None
                      | [] => None
                      end
                  end
              | [] => None
              end
          end
      | [] => None
      end
  end
with elems (fuel : nat) (l : chars) {struct fuel} : option chars :=
  match fuel with
  | O => None
  | S fuel =>
      match value fuel l with
      | None => None
      | Some l1 =>
          match skip l1 with
          | e :: l2 =>
              if Ascii.eqb e "]" then Some l2
              else if Ascii.eqb e "," then elems fuel (skip l2)
              else None
          | [] => None
          end
      end
  end.
End Loads.

(** Whether [json.loads(s)] returns rather than raises a [ValueError]; every
    call consumes a character or is one of two for it, so the fuel suffices. *)
Definition loads_ok (s : string) : bool :=
  let l := list_ascii_of_string s in
  match value (S (2 * List.length l)) (skip l) with
  | Some rest => match skip rest with [] => true | _ => false end
  | None => false
  end.

(** The text with each apostrophe read as a quotation mark. *)
Definition quoted (s : string) : string :=
  str_map (fun c => if Ascii.eqb c "'" then "034"%char else c) s.

Example loads_ok_obj : loads_ok (quoted "{ 'a' : [1, -2.5e3, true], 'b': {} } ") = true.
Proof. vm_compute. reflexivity. Qed.
Example loads_ok_cut : loads_ok (quoted "{'a': 1") = false.
Proof. vm_compute. reflexivity. Qed.
