(* ===== verification/PyText.v ===== *)
(** Python's conversions between numbers and text, its patterns and its paths, as
    far as the code uses them. *)
From S2P Require Import Prelude.
From stdpp Require Export pretty.
Open Scope Z_scope.

(** ** Numbers read *)

(** [int(s)]: blanks around, a sign, and digits that single underscores may part. *)
Fixpoint int_digits (last : bool) (acc : Z) (s : string) : option Z :=
  match s with
  | EmptyString => if last then Some acc else None
  | String c s' =>
      if is_digit c then int_digits true (10 * acc + (chr_code c - 48)) s'
      else if Ascii.eqb c "_" && last then int_digits false acc s'
      else None
  end.
Definition int_of_str (s : string) : option Z :=
  match str_strip s with
  | String c s' =>
      if Ascii.eqb c "-" then option_map Z.opp (int_digits false 0 s')
      else if Ascii.eqb c "+" then int_digits false 0 s'
      else int_digits false 0 (String c s')
  | EmptyString => None
  end.

Definition digit_count (s : string) : Z :=
  Z.of_nat (List.length (List.filter is_digit (list_ascii_of_string s))).
(** An optionally signed whole number, as an exponent is. *)
Definition exponent_of (s : string) : option Z :=
  match s with
  | String c s' => if Ascii.eqb c "-" then option_map Z.opp (int_digits false 0 s')
                   else if Ascii.eqb c "+" then int_digits false 0 s' else int_digits false 0 s
  | EmptyString => None
  end.
Definition part_of (s : string) : option Z :=
  if String.eqb s "" then Some 0 else int_digits false 0 s.
Definition mantissa_of (s : string) : option Q :=
  let '(whole, rest) := str_partition "." s in
  let frac := default ""%string rest in
  if String.eqb whole "" && String.eqb frac "" then None else
  match part_of whole, part_of frac with
  | Some a, Some b => Some (qz a + qz b / Qpower 10 (digit_count frac))%Q
  | _, _ => None
  end.
Definition unsigned_float (s : string) : option Q :=
  let '(m, e) := str_partition "e" s in
  match mantissa_of m, e with
  | Some q, None => Some q
  | Some q, Some e => option_map (fun k => (q * Qpower 10 k)%Q) (exponent_of e)
  | None, _ => None
  end.
(** [float(s)] of a finite number; [None] where it raises, or is infinite or no number. *)
Definition parse_float (s : string) : option Q :=
  match str_lower (str_strip s) with
  | String c s' => if Ascii.eqb c "-" then option_map Qopp (unsigned_float s')
                   else if Ascii.eqb c "+" then unsigned_float s' else unsigned_float (String c s')
  | EmptyString => None
  end.

(** ** Numbers written *)

Fixpoint zeros (n : nat) : string := match n with O => "" | S n' => String "0" (zeros n') end.
(** [f"{n:0{w}d}"] of [n] not negative. *)
Definition padded (w : nat) (n : Z) : string :=
  let d := pretty n in (zeros (w - String.length d) ++ d)%string.

Definition chr_upper (c : ascii) : ascii := if is_lower c then ascii_of_nat (nat_of_ascii c - 32) else c.
(** [s.upper()] of an ASCII text. *)
Definition str_upper : string -> string := str_map chr_upper.

(** The nearest integer, of two the even one: [round(q)]. *)
Definition half_even (q : Q) : Z :=
  let f := Qfloor q in
  let r := (q - qz f)%Q in
  if r <?q (1 # 2) then f else if (1 # 2) <?q r then f + 1 else if Z.even f then f else f + 1.

(** The exponent of the first digit of [q > 0]. *)
Fixpoint exponent_up (fuel : nat) (q : Q) (e : Z) : Z :=
  match fuel with O => e | S fuel => if q <?q 10 then e else exponent_up fuel (q / 10)%Q (e + 1) end.
Fixpoint exponent_down (fuel : nat) (q : Q) (e : Z) : Z :=
  match fuel with O => e | S fuel => if q <?q 1 then exponent_down fuel (q * 10)%Q (e - 1) else e end.
Definition exponent10 (q : Q) : Z :=
  if q <?q 1 then exponent_down 400 q 0 else exponent_up 400 q 0.

Definition is_zero_chr (c : ascii) : bool := Ascii.eqb c "0".
(** The digits [d], the point after the first [k], without zeros at the end. *)
Definition with_point (d : string) (k : nat) : string :=
  let frac := str_rstrip is_zero_chr (str_drop k d) in
  if String.eqb frac "" then str_take k d else (str_take k d ++ "." ++ frac)%string.
(** [f"{q:g}"] of [q] not negative: six digits, from the exact value. *)
Definition fmt_g (q : Q) : string :=
  if Qeq_bool q 0 then "0"%string else
  let e := exponent10 q in
  let m := half_even (q * Qpower 10 (5 - e)) in
  let '(m, e) := if m =? 1000000 then (100000, e + 1) else (m, e) in
  let d := pretty m in
  if (-4 <=? e) && (e <? 6) then
    if e <? 0 then with_point (zeros (Z.to_nat (- e)) ++ d) 1
    else with_point d (Z.to_nat (e + 1))
  else (with_point d 1 ++ "e" ++ (if (e <? 0)%Z then "-" else "+") ++ padded 2 (Z.abs e))%string.

Example fmt_g_values : map fmt_g [0; 16; 80; 5 # 2; 1 # 10; 1234567; 1 # 100000; 999999999 # 1000]%Q
  = ["0"; "16"; "80"; "2.5"; "0.1"; "1.23457e+06"; "1e-05"; "1e+06"]%string.
Proof. vm_compute. reflexivity. Qed.
Example parse_float_values :
  map (option_map Qred) (map parse_float ["16"; " 2.5 "; "1e3"; "-.5"; "1_0"; "nan"; "1__0"; "."; ""]%string)
  = [Some 16; Some (5 # 2); Some 1000; Some (-1 # 2); Some 10; None; None; None; None]%Q.
Proof. vm_compute. reflexivity. Qed.

(** ** Patterns *)

(** Every run of characters that are not [keep] becomes one hyphen. *)
Fixpoint sub_runs (keep : ascii -> bool) (in_run : bool) (s : string) : string :=
  match s with
  | EmptyString => EmptyString
  | String c s' =>
      if keep c then String c (sub_runs keep false s')
      else if in_run then sub_runs keep true s' else String "-" (sub_runs keep true s')
  end.

Fixpoint str_last (s : string) : option ascii :=
  match s with
  | EmptyString => None
  | String c EmptyString => Some c
  | String _ s' => str_last s'
  end.
Definition last_is (p : ascii -> bool) (s : string) : bool :=
  match str_last s with Some c => p c | None => false end.
Definition first_is (p : ascii -> bool) (s : string) : bool :=
  match s with String c _ => p c | EmptyString => false end.
Definition label_char (c : ascii) : bool := is_alnum_lower c || Ascii.eqb c "-".

(** ** Paths *)

(** [posixpath.normpath]: the components kept so far, the last one first. *)
Definition norm_comp (rooted : bool) (kept : list string) (c : string) : list string :=
  if String.eqb c "" || String.eqb c "." then kept
  else if negb (String.eqb c "..") then c :: kept
  else match kept with
       | [] => if rooted then [] else [c]
       | k :: kept' => if String.eqb k ".." then c :: kept else kept'
       end.
Definition norm_comps (rooted : bool) (s : string) : list string :=
  rev (foldl (norm_comp rooted) [] (str_split "/" s)).
Definition root_slashes (s : string) : string :=
  if startswith "//" s && negb (startswith "///" s) then "//"
  else if startswith "/" s then "/" else "".
Definition normpath (s : string) : string :=
  if String.eqb s "" then "." else
  let slashes := root_slashes s in
  let path := (slashes ++ str_join "/" (norm_comps (negb (String.eqb slashes "")) s))%string in
  if String.eqb path "" then "." else path.

Fixpoint rpartition_at (c : ascii) (s : string) : option (string * string) :=
  match s with
  | EmptyString => None
  | String a s' =>
      match rpartition_at c s' with
      | Some (l, r) => Some (String a l, r)
      | None => if Ascii.eqb a c then Some (EmptyString, s') else None
      end
  end.
(** [s.rpartition(c)[2]] *)
Definition after_last (c : ascii) (s : string) : string :=
  match rpartition_at c s with Some (_, r) => r | None => s end.
(** [posixpath.dirname] *)
Definition dirname (s : string) : string :=
  match rpartition_at "/" s with
  | None => ""
  | Some (l, _) =>
      let head := (l ++ "/")%string in
      if str_forallb (Ascii.eqb "/") head then head else str_rstrip (Ascii.eqb "/") head
  end.

Example normpath_values : map normpath ["/work/../etc"; "/a//b/./c/"; "/.."; "x/../.."; "//a"; "///a"; ""]%string
  = ["/etc"; "/a/b/c"; "/"; ".."; "//a"; "/a"; "."]%string.
Proof. vm_compute. reflexivity. Qed.
Example dirname_values : map dirname ["/work/users/x"; "/x"; "x"; "/a/"]%string
  = ["/work/users"; "/"; ""; "/a"]%string.
Proof. vm_compute. reflexivity. Qed.

(** A component of a normalised absolute path. *)
Definition no_slash (c : ascii) : bool := negb (Ascii.eqb c "/").
Definition plain_comp (c : string) : Prop :=
  c <> ""%string /\ c <> "."%string /\ c <> ".."%string /\ str_forallb no_slash c = true.

Lemma str_split_no_slash s : Forall (fun c => str_forallb no_slash c = true) (str_split "/" s).
Proof.
  induction s as [|a s IH]; cbn; [by repeat constructor|].
  destruct (Ascii.eqb a "/") eqn:E; [by constructor|].
  destruct (str_split "/" s) as [|w ws]; constructor; inversion_clear IH; cbn; auto;
    unfold no_slash at 1; by rewrite E.
Qed.
Lemma norm_comp_plain kept c :
  str_forallb no_slash c = true -> Forall plain_comp kept -> Forall plain_comp (norm_comp true kept c).
Proof.
  intros Hc Hk. unfold norm_comp.
  destruct (String.eqb_spec c ""); [done|]. destruct (String.eqb_spec c "."); [done|].
  destruct (String.eqb_spec c ".."); cbn [orb negb]; [|by constructor].
  destruct Hk as [|k kept (_ & _ & Hk & _) Hks]; [done|]. by destruct (String.eqb_spec k "..").
Qed.
Lemma norm_comps_plain s : Forall plain_comp (norm_comps true s).
Proof.
  unfold norm_comps. apply Forall_rev. assert (H : Forall plain_comp []) by done. revert H.
  generalize ([] : list string) as acc. pose proof (str_split_no_slash s) as Hs. revert Hs.
  induction (str_split "/" s) as [|c l IH]; intros Hs acc Hacc; cbn [foldl]; [done|].
  inversion_clear Hs. apply IH; [done|]. by apply norm_comp_plain.
Qed.
(** An absolute path is normalised to its root and components that lead only down. *)
Lemma normpath_rooted s :
  startswith "/" s = true ->
  exists comps, normpath s = (root_slashes s ++ str_join "/" comps)%string /\ Forall plain_comp comps /\
    (root_slashes s = "/" \/ root_slashes s = "//")%string.
Proof.
  intros Hs. exists (norm_comps true s). unfold normpath.
  destruct (String.eqb_spec s ""); [by subst|].
  assert (Hr : (root_slashes s = "/" \/ root_slashes s = "//")%string).
  { unfold root_slashes. destruct (_ && _); [by right|]. rewrite Hs. by left. }
  split; [|split; [apply norm_comps_plain|done]]. destruct Hr as [-> | ->]; done.
Qed.

(** [sorted()] of texts. *)
Fixpoint str_insert (s : string) (l : list string) : list string :=
  match l with
  | [] => [s]
  | t :: l' => if String.ltb s t then s :: l else t :: str_insert s l'
  end.
Definition str_sorted (l : list string) : list string := foldl (fun acc s => str_insert s acc) [] l.
Lemma str_insert_perm s l : str_insert s l ≡ₚ s :: l.
Proof. induction l as [|t l IH]; cbn; [done|]. case_match; [done|]. rewrite IH. apply perm_swap. Qed.
Lemma str_sorted_perm l : str_sorted l ≡ₚ l.
Proof.
  unfold str_sorted. assert (H : forall acc, foldl (fun acc s => str_insert s acc) acc l ≡ₚ acc ++ l).
  { induction l as [|s l IH]; intros acc; cbn; [by rewrite app_nil_r|]. rewrite IH, str_insert_perm. apply (Permutation_middle acc l s). }
  apply H.
Qed.

(** ** Facts on strings *)

Lemma laos_app s t : list_ascii_of_string (s ++ t) = list_ascii_of_string s ++ list_ascii_of_string t.
Proof. induction s as [|c s IH]; simpl; [done|]. by rewrite IH. Qed.
Lemma str_app_assoc (a b c : string) : ((a ++ b) ++ c = a ++ b ++ c)%string.
Proof. induction a as [|x a IH]; [done|]. exact (f_equal (String x) IH). Qed.
Lemma laos_inj s t : list_ascii_of_string s = list_ascii_of_string t -> s = t.
Proof.
  intros H. rewrite <- (string_of_list_ascii_of_string s), <- (string_of_list_ascii_of_string t). by rewrite H.
Qed.
Lemma laos_length s : List.length (list_ascii_of_string s) = String.length s.
Proof. induction s; simpl; auto. Qed.
Lemma str_app_nil s : (s ++ "")%string = s.
Proof. induction s as [|c s IH]; [done|]. exact (f_equal (String c) IH). Qed.
Lemma str_app_inv_head s t t' : (s ++ t = s ++ t')%string -> t = t'.
Proof. induction s as [|c s IH]; simpl; [done|]. intros [= H]. auto. Qed.
Lemma str_app_inv_tail s s' t t' :
  (s ++ t = s' ++ t')%string -> String.length t = String.length t' -> s = s' /\ t = t'.
Proof.
  intros H Hl. apply (f_equal list_ascii_of_string) in H. rewrite !laos_app in H.
  apply app_inj_2 in H as [H1 H2]; [|by rewrite !laos_length]. split; by apply laos_inj.
Qed.
Lemma str_forallb_take p n s : str_forallb p s = true -> str_forallb p (str_take n s) = true.
Proof.
  revert s. induction n as [|n IH]; intros [|c s]; cbn; try done.
  intros [Hc Hs]%andb_true_iff. by rewrite Hc, IH.
Qed.
Lemma str_forallb_lstrip q p s : str_forallb p s = true -> str_forallb p (str_lstrip q s) = true.
Proof.
  induction s as [|c s IH]; simpl; [done|]. intros H. destruct (q c); [|exact H].
  apply IH. by apply andb_true_iff in H as [_ H].
Qed.
Lemma str_forallb_rstrip q p s : str_forallb p s = true -> str_forallb p (str_rstrip q s) = true.
Proof.
  induction s as [|c s IH]; simpl; [done|]. intros [Hc Hs]%andb_true_iff. specialize (IH Hs).
  destruct (str_rstrip q s) as [|c' t]; [destruct (q c); simpl; by rewrite ?Hc|].
  cbn in *. by rewrite Hc.
Qed.
Lemma str_forallb_strip q p s : str_forallb p s = true -> str_forallb p (str_strip_of q s) = true.
Proof. intros. by apply str_forallb_rstrip, str_forallb_lstrip. Qed.
Lemma str_forallb_mono (p q : ascii -> bool) s :
  (forall c, p c = true -> q c = true) -> str_forallb p s = true -> str_forallb q s = true.
Proof.
  intros H. induction s as [|c s IH]; simpl; [done|]. intros [Hc Hs]%andb_true_iff.
  by rewrite H, IH.
Qed.
Lemma sub_runs_label b s : str_forallb label_char (sub_runs is_alnum_lower b s) = true.
Proof.
  revert b. induction s as [|c s IH]; intros b; simpl; [done|].
  destruct (is_alnum_lower c) eqn:E; cbn [str_forallb]; [unfold label_char at 1; by rewrite E, IH|].
  destruct b; cbn [str_forallb]; by rewrite ?IH.
Qed.
Lemma last_is_forall p s : s <> ""%string -> str_forallb p s = true -> last_is p s = true.
Proof.
  intros Hne. induction s as [|c s IH]; [done|]. simpl. intros [Hc Hs]%andb_true_iff.
  destruct s as [|c' s]; [exact Hc|]. by apply IH.
Qed.
Lemma last_is_app p s t : t <> ""%string -> last_is p (s ++ t)%string = last_is p t.
Proof.
  intros Hne. induction s as [|c s IH]; [done|].
  change (last_is p (String c (s ++ t)%string) = last_is p t).
  destruct (s ++ t)%string as [|c' u] eqn:E; [by destruct s, t|]. exact IH.
Qed.
Lemma str_take_app_le n s t : (String.length s <= n)%nat -> exists u, str_take n (s ++ t)%string = (s ++ u)%string.
Proof.
  revert n. induction s as [|c s IH]; intros n H; simpl in *; [by eexists|].
  destruct n as [|n]; [lia|]. destruct (IH n ltac:(lia)) as [u Hu]. exists u.
  change (String c (str_take n (s ++ t)) = String c (s ++ u))%string. by rewrite Hu.
Qed.
Lemma str_take_drop n s : (str_take n s ++ str_drop n s)%string = s.
Proof. revert s. induction n as [|n IH]; intros [|c s]; try done. cbn. change (String c (str_take n s ++ str_drop n s) = String c s)%string. by rewrite IH. Qed.
Lemma str_drop_app s t : str_drop (String.length s) (s ++ t)%string = t.
Proof. induction s as [|c s IH]; simpl; auto. Qed.
Lemma endswith_app s t : endswith t (s ++ t)%string = true.
Proof.
  unfold endswith. rewrite str_length_app.
  replace (String.length s + String.length t - String.length t)%nat with (String.length s) by lia.
  rewrite str_drop_app, String.eqb_refl, andb_true_r. apply Nat.leb_le. lia.
Qed.
Lemma str_take_length_ge n s : (n <= String.length s)%nat -> String.length (str_take n s) = n.
Proof. revert s. induction n as [|n IH]; intros [|c s]; cbn; auto with lia. Qed.

(** ** Plain decimal numbers *)

Lemma digits_value_acc acc s :
  digits_value acc s = acc * 10 ^ Z.of_nat (String.length s) + digits_value 0 s.
Proof.
  revert acc. induction s as [|c s IH]; intros acc; cbn [digits_value String.length]; [lia|].
  rewrite (IH (10 * acc + _)), (IH (10 * 0 + _)), Nat2Z.inj_succ, Z.pow_succ_r by lia. ring.
Qed.
Lemma is_digit_code c : is_digit c = true -> 48 <= chr_code c <= 57.
Proof.
  unfold is_digit, chr_between. intros H. breflect.
  change (chr_code "0") with 48 in *. change (chr_code "9") with 57 in *. lia.
Qed.
Lemma digits_value_bounds s : str_forallb is_digit s = true ->
  0 <= digits_value 0 s < 10 ^ Z.of_nat (String.length s).
Proof.
  induction s as [|c s IH]; [cbn; lia|]. cbn [str_forallb]. intros [Hc Hs]%andb_true_iff.
  specialize (IH Hs). apply is_digit_code in Hc. cbn [digits_value String.length].
  rewrite digits_value_acc, Nat2Z.inj_succ, Z.pow_succ_r by lia.
  change (Z.pos xH) with 1 in *. nia.
Qed.
Lemma digits_value_inj s t : str_forallb is_digit s = true -> str_forallb is_digit t = true ->
  String.length s = String.length t -> digits_value 0 s = digits_value 0 t -> s = t.
Proof.
  revert t. induction s as [|c s IH]; intros [|d t]; try done.
  cbn [str_forallb String.length digits_value]. intros [Hc Hs]%andb_true_iff [Hd Ht]%andb_true_iff [= Hl] Hv.
  rewrite (digits_value_acc (10 * 0 + _) s), (digits_value_acc (10 * 0 + _) t), Hl in Hv.
  pose proof (digits_value_bounds s Hs) as Bs. pose proof (digits_value_bounds t Ht) as Bt.
  rewrite Hl in Bs. assert (chr_code c = chr_code d) as E by nia.
  f_equal; [|apply IH; auto; nia].
  unfold chr_code in E. apply Nat2Z.inj in E.
  rewrite <- (ascii_nat_embedding c), <- (ascii_nat_embedding d). by rewrite E.
Qed.
Lemma int_digits_value b acc s : str_forallb is_digit s = true -> (b = true \/ s <> ""%string) ->
  int_digits b acc s = Some (digits_value acc s).
Proof.
  revert b acc. induction s as [|c s IH]; intros b acc.
  { intros _ [->|?]; done. }
  cbn [str_forallb int_digits digits_value]. intros [Hc Hs]%andb_true_iff _. rewrite Hc.
  apply IH; auto.
Qed.
Lemma lstrip_id q s : first_is q s = false -> str_lstrip q s = s.
Proof. destruct s as [|c s]; [done|]. cbn. by intros ->. Qed.
Lemma rstrip_id q s : str_existsb q s = false -> str_rstrip q s = s.
Proof.
  induction s as [|c s IH]; [done|]. cbn. intros [Hc Hs]%orb_false_iff. rewrite (IH Hs).
  destruct s; [by rewrite Hc|done].
Qed.
Lemma first_of_forall p q s : (forall c, p c = true -> q c = false) -> str_forallb p s = true -> first_is q s = false.
Proof. destruct s as [|c s]; [done|]. cbn. intros H [Hc _]%andb_true_iff. by apply H. Qed.
Lemma exists_of_forall p q s : (forall c, p c = true -> q c = false) -> str_forallb p s = true -> str_existsb q s = false.
Proof. intros H. induction s as [|c s IH]; cbn; [done|]. intros [Hc Hs]%andb_true_iff. by rewrite (H c Hc), IH. Qed.
Lemma str_existsb_app p s t : str_existsb p (s ++ t) = str_existsb p s || str_existsb p t.
Proof.
  induction s as [|c s IH]; [done|]. change (String c s ++ t)%string with (String c (s ++ t)). cbn [str_existsb]. by rewrite IH, orb_assoc.
Qed.
Lemma strip_plain p s : str_existsb p s = false -> str_strip_of p s = s.
Proof.
  intros H. unfold str_strip_of. rewrite lstrip_id; [by apply rstrip_id|]. destruct s; [done|]. cbn in *. by apply orb_false_iff in H as [? _].
Qed.
Lemma digits_no_space s : str_forallb is_digit s = true -> str_existsb is_space s = false.
Proof.
  induction s as [|c s IH]; [done|]. cbn. intros [Hc Hs]%andb_true_iff. rewrite (IH Hs), orb_false_r.
  apply is_digit_code in Hc. unfold is_space. destruct (_ && _) eqn:E1, (_ && _) eqn:E2 in |- *; try done;
    breflect; lia.
Qed.
Lemma int_of_digits s : str_forallb is_digit s = true -> s <> ""%string ->
  int_of_str s = Some (digits_value 0 s).
Proof.
  intros Hs Hne. unfold int_of_str, str_strip, str_strip_of.
  pose proof (digits_no_space s Hs) as Hsp. rewrite lstrip_id, rstrip_id by
    (first [done | destruct s; [done|]; cbn in *; by apply orb_false_iff in Hsp as [-> _]]).
  destruct s as [|c s]; [done|]. cbn [str_forallb] in Hs. pose proof Hs as [Hc _]%andb_true_iff.
  apply is_digit_code in Hc.
  destruct (Ascii.eqb_spec c "-") as [->|_]; [change (chr_code "-") with 45 in Hc; lia|].
  destruct (Ascii.eqb_spec c "+") as [->|_]; [change (chr_code "+") with 43 in Hc; lia|].
  apply int_digits_value; auto.
Qed.

(** ** Numbers read back *)

(** The digits [d] of [x]: as many as it needs, without zeros before them. *)
Record numeral (x : Z) (d : string) : Prop := {
  n_digits : str_forallb is_digit d = true;
  n_value : forall b acc rest, int_digits b acc (d ++ rest) = int_digits (b || negb (String.eqb d "")) (acc * 10 ^ Z.of_nat (String.length d) + x) rest;
  n_first : 0 < x -> first_is (fun c => is_digit c && negb (Ascii.eqb c "0")) d = true;
  n_length : forall k, x < 10 ^ Z.of_nat k -> (String.length d <= k)%nat }.
Lemma digit_chr n : 0 <= n < 10 -> is_digit (pretty_N_char (Z.to_N n)) = true /\ chr_code (pretty_N_char (Z.to_N n)) - 48 = n /\
  Ascii.eqb (pretty_N_char (Z.to_N n)) "0" = (n =? 0).
Proof.
  intros H. assert (exists k, (k < 10)%nat /\ n = Z.of_nat k) as (k & Hk & ->) by (exists (Z.to_nat n); lia). clear H.
  do 10 (destruct k as [|k]; [done|]). lia.
Qed.
(** One more digit. *)
Lemma numeral_snoc x d : 0 < x -> numeral (x / 10) d -> numeral x (d ++ String (pretty_N_char (Z.to_N (x mod 10))) "").
Proof.
  intros Hx [Hd Hv Hf Hl]. pose proof (Z.mod_pos_bound x 10 ltac:(lia)) as Hm. pose proof (Z.div_mod x 10 ltac:(lia)) as Hdm.
  destruct (digit_chr (x mod 10)) as (H1 & H2 & H3); [lia|]. set (c := pretty_N_char _) in *. split.
  - rewrite str_forallb_app, Hd. cbn. by rewrite H1.
  - intros b acc rest. rewrite str_app_assoc, Hv. change (String c "" ++ rest)%string with (String c rest). cbn [int_digits]. rewrite H1, H2, str_length_app. cbn [String.length].
    assert (String.eqb (d ++ String c "") "" = false) as -> by (by destruct d). rewrite orb_true_r. f_equal.
    rewrite Nat2Z.inj_add, Z.pow_add_r by lia. change (10 ^ Z.of_nat 1) with 10. lia.
  - intros _. destruct d as [|a d].
    + change ("" ++ String c "")%string with (String c ""). cbn [first_is]. rewrite H1, H3. destruct (Z.eqb_spec (x mod 10) 0); [|done]. exfalso.
      assert (0 < x / 10) as Hp by lia. by apply Hf in Hp.
    + destruct (Z.eq_dec (x / 10) 0) as [E|E]; [|apply Hf; pose proof (Z.div_pos x 10); lia]. exfalso. specialize (Hl 0%nat). rewrite E in Hl. cbn in Hl. lia.
  - intros k Hk. rewrite str_length_app. cbn [String.length]. destruct k as [|k]; [cbn in Hk; lia|].
    assert (String.length d <= k)%nat; [|lia]. apply Hl. rewrite Nat2Z.inj_succ, Z.pow_succ_r in Hk by lia. apply Z.div_lt_upper_bound; lia.
Qed.
Lemma pretty_go_numeral x : exists d, (forall s, pretty_N_go x s = d ++ s)%string /\ numeral (Z.of_N x) d.
Proof.
  induction (N.lt_wf_0 x) as [x _ IH]. destruct (N.eq_dec x 0%N) as [->|Hx].
  - exists ""%string. split; [done|]. split; [done| |cbn; lia|cbn; lia]. intros b acc rest. cbn [String.length String.eqb negb]. rewrite orb_false_r.
    change (10 ^ Z.of_nat 0) with 1. rewrite Z.mul_1_r, Z.add_0_r. done.
  - destruct (IH (x / 10)%N) as (d & Hs & Hd); [apply N.div_lt; lia|]. exists (d ++ String (pretty_N_char (x `mod` 10)) "")%string. split.
    + intros s. rewrite pretty_N_go_step, Hs by lia. by rewrite str_app_assoc.
    + rewrite N2Z.inj_div in Hd. replace (x `mod` 10)%N with (Z.to_N (Z.of_N x mod 10)); [apply numeral_snoc; [lia|done]|].
      change 10 with (Z.of_N 10). rewrite <- N2Z.inj_mod. apply N2Z.id.
Qed.
Lemma pretty_numeral n : 0 < n -> numeral n (pretty n).
Proof.
  intros Hn. destruct n as [|p|p]; [lia| |lia]. change (pretty (Z.pos p)) with (pretty (N.pos p)). unfold pretty, pretty_N. rewrite decide_False by done.
  destruct (pretty_go_numeral (N.pos p)) as (d & Hs & Hd). rewrite Hs. assert (forall d : string, d ++ "" = d)%string as H0; [|by rewrite H0].
  clear. intros d. induction d as [|c d IH]; [done|]. exact (f_equal (String c) IH).
Qed.
Lemma int_of_pretty n : 0 < n -> int_of_str (pretty n) = Some n.
Proof.
  intros Hn. destruct (pretty_numeral n Hn) as [Hd Hv Hf _]. unfold int_of_str, str_strip. rewrite strip_plain.
  2: { eapply (exists_of_forall is_digit); [|exact Hd]. by intros c; destruct c as [[] [] [] [] [] [] [] []]. }
  specialize (Hf Hn). destruct (pretty n) as [|c d]; [done|]. cbn [first_is] in Hf. specialize (Hv false 0 ""%string).
  assert (forall d : string, d ++ "" = d)%string as H0 by (clear; intros d; induction d as [|c d IH]; [done|exact (f_equal (String c) IH)]).
  rewrite H0 in Hv. cbn [String.eqb negb orb] in Hv. cbn [int_digits] in Hv. rewrite Z.mul_0_l, Z.add_0_l in Hv.
  destruct (Ascii.eqb_spec c "-"); [by subst|]. destruct (Ascii.eqb_spec c "+"); [by subst|]. exact Hv.
Qed.

(** [s.split()] *)
Fixpoint words_from (word s : string) : list string :=
  let close := if String.eqb word "" then [] else [word] in
  match s with
  | EmptyString => close
  | String c s' => if is_space c then (close ++ words_from "" s')%list else words_from (word ++ String c "") s'
  end.
Definition str_words (s : string) : list string := words_from "" s.
