(* ===== verification/PyTime.v ===== *)
(** [datetime] as the gateway uses it: UTC instants and their text
    ["2026-01-31T12:00:00Z"], as [strftime] writes it and Kubernetes does.  A year has
    four digits; an instant is in whole seconds since 1970. *)
From S2P Require Import Prelude PyText.
Open Scope Z_scope.

(** [n] in [w] decimal digits. *)
Definition digit_chr (n : Z) : ascii := ascii_of_nat (Z.to_nat (48 + n mod 10)).
Fixpoint fixed (w : nat) (n : Z) : string :=
  match w with O => "" | S w' => (fixed w' (n / 10) ++ String (digit_chr n) "")%string end.

(** Days since 1970-01-01 and dates of the Gregorian calendar, in eras of 400 years. *)
Definition days_of_civil (y m d : Z) : Z :=
  let y := if m <=? 2 then y - 1 else y in
  let era := y / 400 in
  let yoe := y mod 400 in
  let doy := (153 * (if m <=? 2 then m + 9 else m - 3) + 2) / 5 + d - 1 in
  let doe := yoe * 365 + yoe / 4 - yoe / 100 + doy in
  era * 146097 + doe - 719468.
Definition civil_of_days (z : Z) : Z * Z * Z :=
  let z := z + 719468 in
  let era := z / 146097 in
  let doe := z mod 146097 in
  let yoe := (doe - doe / 1460 + doe / 36524 - doe / 146096) / 365 in
  let doy := doe - (365 * yoe + yoe / 4 - yoe / 100) in
  let mp := (5 * doy + 2) / 153 in
  let m := if mp <? 10 then mp + 3 else mp - 9 in
  let y := yoe + era * 400 in
  (if m <=? 2 then y + 1 else y, m, doy - (153 * mp + 2) / 5 + 1).

(** [datetime.fromtimestamp(t, timezone.utc).strftime("%Y-%m-%dT%H:%M:%SZ")] *)
Definition iso_stamp (t : Z) : string :=
  let '(y, m, d) := civil_of_days (t / 86400) in
  let s := t mod 86400 in
  (fixed 4 y ++ "-" ++ fixed 2 m ++ "-" ++ fixed 2 d ++ "T" ++ fixed 2 (s / 3600) ++ ":"
   ++ fixed 2 (s / 60 mod 60) ++ ":" ++ fixed 2 (s mod 60) ++ "Z")%string.

Definition field_at (start len : nat) (s : string) : Z := digits_value 0 (str_take len (str_drop start s)).
(** [datetime.fromisoformat(s).timestamp()] of such a text. *)
Definition iso_parse (s : string) : option Z :=
  let t := days_of_civil (field_at 0 4 s) (field_at 5 2 s) (field_at 8 2 s) * 86400
           + field_at 11 2 s * 3600 + field_at 14 2 s * 60 + field_at 17 2 s in
  if String.eqb s (iso_stamp t) then Some t else None.

Example iso_values : map iso_parse ["1970-01-01T00:00:00Z"; "2024-02-29T23:59:59Z"; "2023-02-29T00:00:00Z"; "now"]%string
  = [Some 0; Some 1709251199; None; None].
Proof. vm_compute. reflexivity. Qed.

(** ** The text of an instant reads back *)

Lemma fixed_length w n : String.length (fixed w n) = w.
Proof. revert n. induction w as [|w IH]; intros n; cbn; [done|]. rewrite str_length_app, IH. cbn. lia. Qed.
Lemma digit_chr_code n : chr_code (digit_chr n) = 48 + n mod 10.
Proof.
  unfold chr_code, digit_chr. pose proof (Z.mod_pos_bound n 10 ltac:(lia)).
  rewrite nat_ascii_embedding by lia. lia.
Qed.
Lemma digits_value_app acc s t : digits_value acc (s ++ t)%string = digits_value (digits_value acc s) t.
Proof. revert acc. induction s as [|c s IH]; intros acc; [done|]. apply IH. Qed.
Lemma fixed_value w n : 0 <= n < 10 ^ Z.of_nat w -> digits_value 0 (fixed w n) = n.
Proof.
  revert n. induction w as [|w IH]; intros n Hn; [cbn in *; lia|].
  cbn [fixed]. rewrite digits_value_app. rewrite Nat2Z.inj_succ, Z.pow_succ_r in Hn by lia.
  rewrite IH by (split; [apply Z.div_pos; lia | apply Z.div_lt_upper_bound; lia]).
  cbn [digits_value]. rewrite digit_chr_code. pose proof (Z.div_mod n 10). lia.
Qed.
Lemma str_take_app s t : str_take (String.length s) (s ++ t)%string = s.
Proof. induction s as [|c s IH]; [by destruct t|]. exact (f_equal (String c) IH). Qed.
Lemma field_here w n t : 0 <= n < 10 ^ Z.of_nat w -> field_at 0 w (fixed w n ++ t)%string = n.
Proof.
  intros Hn. unfold field_at. rewrite <- (fixed_length w n) at 1. cbn [str_drop].
  change (digits_value 0 (str_take (String.length (fixed w n)) (fixed w n ++ t)%string) = n).
  rewrite str_take_app. by apply fixed_value.
Qed.
Lemma field_after k w s t : String.length s = k -> field_at (k + 0) w (s ++ t)%string = field_at 0 w t.
Proof. intros <-. unfold field_at. by rewrite Nat.add_0_r, str_drop_app. Qed.

(** The year within an era: its formula is monotone, so each year's first and last days
    place the days between them. *)
Definition year_of_era (doe : Z) : Z := (doe - doe / 1460 + doe / 36524 - doe / 146096) / 365.
Definition year_start (y : Z) : Z := 365 * y + y / 4 - y / 100 + y / 400.

Lemma shrink_mono k x y : 1 <= k -> x <= y -> x - x / k <= y - y / k.
Proof.
  intros Hk Hxy. assert (y / k <= x / k + (y - x)); [|lia].
  assert (Hn : y <= x + (y - x) * k) by nia.
  apply (Z.le_trans _ ((x + (y - x) * k) / k)); [by apply Z.div_le_mono; lia|].
  rewrite Z.div_add by lia. lia.
Qed.
Lemma year_of_era_mono x y : x <= y -> year_of_era x <= year_of_era y.
Proof.
  intros Hxy. unfold year_of_era. apply Z.div_le_mono; [lia|].
  change 146096 with (36524 * 4). rewrite <- !Z.div_div by lia.
  pose proof (shrink_mono 1460 x y ltac:(lia) Hxy).
  pose proof (shrink_mono 4 (x / 36524) (y / 36524) ltac:(lia) (Z.div_le_mono x y 36524 ltac:(lia) Hxy)). lia.
Qed.
Definition year_ok (y : Z) : bool :=
  (year_of_era (year_start y) =? y) && (year_of_era (year_start (y + 1) - 1) =? y)
  && (year_start (y + 1) - year_start y <=? 366).
Lemma years_ok : forallb (fun n => year_ok (Z.of_nat n)) (seq 0 400) = true.
Proof. vm_compute. reflexivity. Qed.
Lemma year_found n doe : 0 <= doe < year_start (Z.of_nat n) ->
  exists k, (k < n)%nat /\ year_start (Z.of_nat k) <= doe < year_start (Z.of_nat k + 1).
Proof.
  induction n as [|n IH]; intros H; [change (year_start (Z.of_nat 0)) with 0 in H; lia|].
  destruct (Z.lt_ge_cases doe (year_start (Z.of_nat n))) as [Hl|Hl].
  - destruct (IH (conj (proj1 H) Hl)) as (k & Hk & Hb). exists k. split; [lia|done].
  - exists n. split; [lia|]. rewrite Nat2Z.inj_succ in H. unfold Z.succ in H. lia.
Qed.
Lemma year_of_day doe : 0 <= doe < 146097 ->
  0 <= year_of_era doe <= 399 /\ 0 <= doe - year_start (year_of_era doe) <= 365.
Proof.
  intros H. destruct (year_found 400 doe) as (k & Hk & Hb); [by change (year_start (Z.of_nat 400)) with 146097|].
  pose proof (proj1 (forallb_forall _ _) years_ok k ltac:(apply in_seq; lia)) as Hy. unfold year_ok in Hy. breflect.
  assert (year_of_era doe = Z.of_nat k) as ->; [|lia].
  pose proof (year_of_era_mono (year_start (Z.of_nat k)) doe ltac:(lia)).
  pose proof (year_of_era_mono doe (year_start (Z.of_nat k + 1) - 1) ltac:(lia)). lia.
Qed.

(** The month and day of each of a year's days. *)
Definition doy_ok (n : nat) : bool :=
  let doy := Z.of_nat n in
  let mp := (5 * doy + 2) / 153 in
  let d := doy - (153 * mp + 2) / 5 + 1 in (0 <=? mp) && (mp <=? 11) && (1 <=? d) && (d <=? 31).
Lemma doys_ok : forallb doy_ok (seq 0 366) = true.
Proof. vm_compute. reflexivity. Qed.
Lemma era_days doe : 0 <= doe < 146097 ->
  let '(y, m, d) := civil_of_days (doe - 719468) in
  days_of_civil y m d = doe - 719468 /\ 1 <= m <= 12 /\ 1 <= d <= 31.
Proof.
  intros Hd. destruct (year_of_day doe Hd) as [Hy Hs].
  unfold civil_of_days. cbv zeta. rewrite Z.sub_add, (Z.div_small doe), (Z.mod_small doe) by lia.
  fold (year_of_era doe).
  assert (H4 : year_of_era doe / 400 = 0) by (apply Z.div_small; lia).
  replace (365 * year_of_era doe + year_of_era doe / 4 - year_of_era doe / 100) with (year_start (year_of_era doe))
    by (unfold year_start; lia).
  set (y := year_of_era doe) in *. set (doy := doe - year_start y) in *.
  pose proof (proj1 (forallb_forall _ _) doys_ok (Z.to_nat doy) ltac:(apply in_seq; lia)) as Hm.
  unfold doy_ok in Hm. rewrite Z2Nat.id in Hm by lia. breflect.
  set (mp := (5 * doy + 2) / 153) in *. unfold days_of_civil. cbv zeta.
  assert (Hfin : forall q, q = mp -> y / 400 = 0 -> y mod 400 = y ->
    y / 400 * 146097 + (y mod 400 * 365 + y mod 400 / 4 - y mod 400 / 100
      + ((153 * q + 2) / 5 + (doy - (153 * mp + 2) / 5 + 1) - 1)) - 719468 = doe - 719468).
  { intros q -> -> ->. unfold doy, year_start. rewrite H4. lia. }
  destruct (Z.ltb_spec mp 10) as [Hmp|Hmp].
  - destruct (Z.leb_spec (mp + 3) 2); [lia|]. split; [|lia].
    rewrite Z.mul_0_l, Z.add_0_r. apply Hfin; [lia|apply Z.div_small; lia|apply Z.mod_small; lia].
  - destruct (Z.leb_spec (mp - 9) 2); [|lia]. split; [|lia].
    rewrite Z.mul_0_l, Z.add_0_r, Z.add_simpl_r. apply Hfin; [lia|apply Z.div_small; lia|apply Z.mod_small; lia].
Qed.

Lemma civil_era era doe : 0 <= doe < 146097 ->
  civil_of_days (era * 146097 + doe - 719468)
  = let '(y, m, d) := civil_of_days (doe - 719468) in (y + era * 400, m, d).
Proof.
  intros Hd. unfold civil_of_days. cbv zeta.
  replace (era * 146097 + doe - 719468 + 719468) with (doe + era * 146097) by lia.
  replace (doe - 719468 + 719468) with doe by lia.
  rewrite Z.div_add, Z.mod_add by lia. rewrite (Z.div_small doe), (Z.mod_small doe) by lia.
  cbn [Z.add]. repeat match goal with |- context [if ?b then _ else _] => destruct b end; f_equal; f_equal; lia.
Qed.
Lemma days_era y m d era : days_of_civil (y + era * 400) m d = days_of_civil y m d + era * 146097.
Proof.
  unfold days_of_civil. cbv zeta. destruct (m <=? 2).
  - replace (y + era * 400 - 1) with (y - 1 + era * 400) by lia. rewrite Z.div_add, Z.mod_add by lia. lia.
  - rewrite Z.div_add, Z.mod_add by lia. lia.
Qed.
Lemma civil_days z : let '(y, m, d) := civil_of_days z in
  days_of_civil y m d = z /\ 1 <= m <= 12 /\ 1 <= d <= 31.
Proof.
  set (era := (z + 719468) / 146097). set (doe := (z + 719468) mod 146097).
  assert (Hz : z = era * 146097 + doe - 719468).
  { unfold era, doe. pose proof (Z.div_mod (z + 719468) 146097 ltac:(lia)). lia. }
  assert (Hd : 0 <= doe < 146097) by (apply Z.mod_pos_bound; lia).
  rewrite Hz, civil_era by done. pose proof (era_days doe Hd) as H.
  destruct (civil_of_days (doe - 719468)) as [[y m] d]. rewrite days_era. lia.
Qed.

(** Every instant of the years 0 to 9999 reads back as it was written. *)
Definition four_digit_year (t : Z) : bool :=
  let '(y, _, _) := civil_of_days (t / 86400) in (0 <=? y) && (y <? 10000).
Lemma field_next k j w s t : String.length s = k -> (k <= j)%nat ->
  field_at j w (s ++ t)%string = field_at (j - k) w t.
Proof.
  intros <- Hj. unfold field_at. f_equal. f_equal. revert j Hj.
  induction s as [|c s IH]; intros j Hj; cbn in *; [by rewrite Nat.sub_0_r|].
  destruct j as [|j]; [lia|]. apply IH. lia.
Qed.
Lemma field_past w n j len t : (w <= j)%nat ->
  field_at j len (fixed w n ++ t)%string = field_at (j - w) len t.
Proof. intros Hj. apply field_next; [apply fixed_length|done]. Qed.
Lemma field_chr c j len t : (1 <= j)%nat ->
  field_at j len (String c "" ++ t)%string = field_at (j - 1) len t.
Proof. intros Hj. by apply (field_next 1 j len (String c "") t). Qed.

Lemma iso_fields y m d hh mm ss :
  0 <= y < 10000 -> 0 <= m < 100 -> 0 <= d < 100 -> 0 <= hh < 100 -> 0 <= mm < 100 -> 0 <= ss < 100 ->
  let s := (fixed 4 y ++ "-" ++ fixed 2 m ++ "-" ++ fixed 2 d ++ "T" ++ fixed 2 hh ++ ":"
            ++ fixed 2 mm ++ ":" ++ fixed 2 ss ++ "Z")%string in
  field_at 0 4 s = y /\ field_at 5 2 s = m /\ field_at 8 2 s = d /\
  field_at 11 2 s = hh /\ field_at 14 2 s = mm /\ field_at 17 2 s = ss.
Proof.
  intros Hy Hm Hd Hh Hmm Hs s. unfold s. clear s.
  repeat split;
    repeat (first [rewrite field_here by assumption | rewrite field_past by lia
                  | rewrite field_chr by lia]; cbn [Nat.sub]); reflexivity.
Qed.

Lemma iso_parse_stamp t : four_digit_year t = true -> iso_parse (iso_stamp t) = Some t.
Proof.
  intros Hy. unfold four_digit_year in Hy. pose proof (civil_days (t / 86400)) as Hc.
  assert (E0 : iso_stamp t = iso_stamp t) by done. unfold iso_parse. unfold iso_stamp at 2 in E0.
  destruct (civil_of_days (t / 86400)) as [[y m] d] eqn:E. breflect. destruct Hc as (Hz & Hm & Hd).
  pose proof (Z.mod_pos_bound t 86400 ltac:(lia)) as Ht. set (s := t mod 86400) in *.
  pose proof (Z.mod_pos_bound s 60 ltac:(lia)). pose proof (Z.mod_pos_bound (s / 60) 60 ltac:(lia)).
  assert (0 <= s / 3600 < 24) by (split; [apply Z.div_pos; lia | apply Z.div_lt_upper_bound; lia]).
  destruct (iso_fields y m d (s / 3600) (s / 60 mod 60) (s mod 60))
    as (F1 & F2 & F3 & F4 & F5 & F6); [lia..|]. rewrite <- E0 in *. rewrite F1, F2, F3, F4, F5, F6. clear F1 F2 F3 F4 F5 F6.
  assert (Hsum : days_of_civil y m d * 86400 + s / 3600 * 3600 + s / 60 mod 60 * 60 + s mod 60 = t).
  { rewrite Hz. change 3600 with (60 * 60). rewrite <- (Z.div_div s 60 60) by lia.
    pose proof (Z.div_mod t 86400 ltac:(lia)) as Ht0. fold s in Ht0. pose proof (Z.div_mod s 60 ltac:(lia)).
    pose proof (Z.div_mod (s / 60) 60 ltac:(lia)). clearbody s. lia. }
  cbv zeta. rewrite Hsum. by rewrite String.eqb_refl.
Qed.
