(* ===== verification/PyFloat.v ===== *)
(** Python's floats where their rounding matters: the nearest number of IEEE 754's
    binary64, and [repr] of one. *)
From S2P Require Import Prelude PyText.
Open Scope Z_scope.

#[export] Instance Q_eq_dec : EqDecision Q.
Proof. solve_decision. Defined.

(** The exponent of the first binary digit of [q > 0]. *)
Definition log2_of (q : Q) : Z :=
  let e := Z.log2 (Qnum q) - Z.log2 (Zpos (Qden q)) in
  if q <?q Qpower 2 e then e - 1 else e.
(** The weight of the last of the 53 bits, or of those that a subnormal has. *)
Definition ulp_exponent (q : Q) : Z := Z.max (log2_of q - 52) (-1074).
(** The nearest float, of two the one with the even last bit; [None] beyond the largest. *)
Definition binary64 (q : Q) : option Q :=
  let q := Qred q in
  let a := if q <?q 0 then (- q)%Q else q in
  if Qeq_bool a 0 then Some 0%Q else
  let e := ulp_exponent a in
  let r := (qz (half_even (a / Qpower 2 e)) * Qpower 2 e)%Q in
  if Qpower 2 1024 <=?q r then None else Some (Qred (if q <?q 0 then (- r)%Q else r)).

Example binary64_values :
  map (fun q => match binary64 q with Some r => Some (Qeq_bool r q) | None => None end)
    [1 # 2; 1 # 10; qz (2 ^ 53); qz (2 ^ 53 + 1); Qpower 2 1024; Qpower 2 (-1074); Qpower 2 (-1075)]%Q
  = [Some true; Some false; Some true; Some false; None; Some true; Some false].
Proof. vm_compute. reflexivity. Qed.
Example binary64_product : option_map py_int (r ← binary64 (435 # 100); binary64 (r * 100)) = Some 434.
Proof. vm_compute. reflexivity. Qed.

(** ** [repr] *)

(** The digits of [q > 0] to [n] places, and the exponent of the first. *)
Definition digits_to (n : Z) (q : Q) : Z * Z :=
  let e := exponent10 q in
  let m := half_even (q * Qpower 10 (n - 1 - e)) in
  if m =? 10 ^ n then (10 ^ (n - 1), e + 1) else (m, e).
Definition digits_back (n : Z) (me : Z * Z) : Q := (qz me.1 * Qpower 10 (me.2 - n + 1))%Q.
(** The shortest digits that are read back as the same float; 17 always are. *)
Fixpoint shortest (fuel : nat) (n : Z) (q : Q) : Z * Z :=
  match fuel with
  | O => digits_to n q
  | S fuel =>
      if bool_decide (binary64 (digits_back n (digits_to n q)) = binary64 q) then digits_to n q
      else shortest fuel (n + 1) q
  end.
Definition point_zero (whole frac : string) : string :=
  let frac := str_rstrip is_zero_chr frac in
  (whole ++ "." ++ (if String.eqb frac "" then "0" else frac))%string.
Definition positive_repr (q : Q) : string :=
  let '(m, e) := shortest 16 1 q in
  let d := pretty m in
  if (-4 <=? e) && (e <? 16) then
    if e <? 0 then point_zero "0" (zeros (Z.to_nat (- e - 1)) ++ d)
    else let d := (d ++ zeros (Z.to_nat (e + 1) - String.length d))%string in
         point_zero (str_take (Z.to_nat (e + 1)) d) (str_drop (Z.to_nat (e + 1)) d)
  else (with_point d 1 ++ "e" ++ (if (e <? 0)%Z then "-" else "+") ++ padded 2 (Z.abs e))%string.
Definition float_repr (q : Q) : string :=
  match binary64 q with
  | None => if q <?q 0 then "-inf" else "inf"
  | Some r => if Qeq_bool r 0 then "0.0" else if r <?q 0 then ("-" ++ positive_repr (- r))%string else positive_repr r
  end.
Example float_repr_values :
  map float_repr [0; 2; -5 # 2; 1 # 10; 1 # 3; 1234567; 12345678901234567890; 1 # 100000; 3 # 10000; 10000000000000000]%Q
  = ["0.0"; "2.0"; "-2.5"; "0.1"; "0.3333333333333333"; "1234567.0"; "1.2345678901234567e+19"; "1e-05"; "0.0003"; "1e+16"]%string.
Proof. vm_compute. reflexivity. Qed.

(** ** Whole numbers *)

#[export] Instance binary64_proper : Proper (Qeq ==> eq) binary64.
Proof. intros p q H. unfold binary64. by rewrite (Qred_complete p q H). Qed.
Lemma half_even_int n : half_even (qz n) = n.
Proof.
  unfold half_even, qz. rewrite Qfloor_Z.
  assert (H : (inject_Z n - inject_Z n == 0)%Q) by ring.
  destruct (_ <?q _) eqn:E; [done|]. apply qlt_false in E. rewrite H in E. by apply Qle_bool_iff in E.
Qed.
#[export] Instance half_even_proper : Proper (Qeq ==> eq) half_even.
Proof.
  intros p q H. unfold half_even. rewrite (Qfloor_comp p q H).
  assert (Hr : (p - qz (Qfloor q) == q - qz (Qfloor q))%Q) by (by rewrite H).
  set (a := (p - _)%Q) in *. set (b := (q - _)%Q) in *.
  assert ((a <?q (1 # 2)) = (b <?q (1 # 2)) /\ ((1 # 2) <?q a) = ((1 # 2) <?q b)) as [-> ->].
  { split; apply eq_true_iff_eq; by rewrite !qlt_true, Hr. }
  done.
Qed.
Lemma qz_mul a b : (qz (a * b) == qz a * qz b)%Q.
Proof. unfold qz. by rewrite inject_Z_mult. Qed.
Lemma qz_pow2 k : 0 <= k -> (qz (2 ^ k) == Qpower 2 k)%Q.
Proof. intros Hk. unfold qz. rewrite Zpower_Qpower by lia. done. Qed.
Lemma ulp_int m j : 0 < m < 2 ^ 53 -> 0 <= j -> ulp_exponent (qz (m * 2 ^ j)) <= j.
Proof.
  intros Hm Hj. unfold ulp_exponent. apply Z.max_lub; [|lia].
  unfold log2_of, qz. cbn [Qnum Qden inject_Z]. change (Z.log2 1) with 0.
  assert (Hl : Z.log2 (m * 2 ^ j) <= 52 + j).
  { rewrite Z.log2_mul_pow2 by lia. pose proof (Z.log2_le_mono m (2 ^ 53 - 1) ltac:(lia)) as H.
    change (Z.log2 (2 ^ 53 - 1)) with 52 in H. lia. }
  destruct (_ <?q _); lia.
Qed.
Lemma Qred_Z n : Qred (qz n) = qz n.
Proof.
  unfold qz, inject_Z, Qred. pose proof (Z.ggcd_correct_divisors n 1) as H.
  pose proof (Z.ggcd_gcd n 1) as Hg. destruct (Z.ggcd n 1) as [g [a b]]. cbn in Hg. rewrite Z.gcd_1_r in Hg. subst g.
  destruct H as [-> H]. rewrite Z.mul_1_l in *. subst b. done.
Qed.
(** What 53 bits hold is a float. *)
Lemma binary64_scaled m j : 0 <= m < 2 ^ 53 -> 0 <= j -> m * 2 ^ j < 2 ^ 1024 ->
  binary64 (qz (m * 2 ^ j)) = Some (qz (m * 2 ^ j)).
Proof.
  intros Hm Hj Hb. set (n := m * 2 ^ j). unfold binary64. rewrite !Qred_Z.
  assert (Hn : 0 <= n) by (apply Z.mul_nonneg_nonneg; [lia|by apply Z.pow_nonneg]).
  assert (Hneg : (qz n <?q 0) = false) by (apply qlt_false; unfold qz, Qle; cbn; lia). rewrite !Hneg.
  destruct (Qeq_bool (qz n) 0) eqn:E0.
  { apply Qeq_bool_iff in E0. unfold qz, Qeq in E0. cbn in E0. assert (Hz : n = 0) by lia. by rewrite Hz. }
  assert (Hm0 : 0 < m). { destruct (Z.eq_dec m 0) as [->|]; [|lia]. unfold n in E0. by rewrite Z.mul_0_l in E0. }
  pose proof (ulp_int m j ltac:(lia) Hj) as He. fold n in He. set (e := ulp_exponent (qz n)) in *.
  assert (H2 : ~ (2 == 0)%Q) by done.
  assert (Hp : ~ (Qpower 2 e == 0)%Q) by (by apply Qpower_not_0).
  assert (Hq : (qz n / Qpower 2 e == qz (m * 2 ^ (j - e)))%Q).
  { unfold n. rewrite !qz_mul, !qz_pow2 by lia. assert (Hs : (Qpower 2 j == Qpower 2 (j - e) * Qpower 2 e)%Q).
    { rewrite <- Qpower_plus by done. by replace (j - e + e) with j by lia. }
    rewrite Hs. field. done. }
  assert (Hh : half_even (qz n / Qpower 2 e) = m * 2 ^ (j - e)) by (by rewrite Hq, half_even_int). rewrite !Hh. assert (Hr : (qz (m * 2 ^ (j - e)) * Qpower 2 e == qz n)%Q).
  { rewrite <- Hq. field. done. }
  assert (Hbig : (Qpower 2 1024 <=?q qz (m * 2 ^ (j - e)) * Qpower 2 e)%py = false).
  { apply qle_false. rewrite Hr. rewrite <- (qz_pow2 1024) by lia. unfold qz. by rewrite <- Zlt_Qlt. }
  rewrite Hbig. f_equal. rewrite (Qred_complete _ _ Hr). apply Qred_Z.
Qed.
Lemma binary64_int n : 0 <= n < 2 ^ 53 -> binary64 (qz n) = Some (qz n).
Proof.
  intros Hn. pose proof (binary64_scaled n 0 Hn ltac:(lia)) as H. rewrite Z.mul_1_r in H. apply H.
  apply (Z.lt_le_trans _ (2 ^ 53)); [lia|]. apply Z.pow_le_mono_r; lia.
Qed.
