(* ===== verification/PyValue.v ===== *)
(** Python's conversions of JSON values, [j[k]], numbers that may be infinite or none,
    [urllib.parse.quote], and [datetime.fromisoformat]. *)
From Stdlib Require Export Sorting.Sorted.
From S2P Require Import Prelude PyJson PyText PyTime PyFloat.
Open Scope Z_scope.

(** [repr(s)]: in apostrophes, unless it has them and no quotation mark; what is not
    ASCII stands for itself. *)
Definition hex_lower (n : Z) : ascii := ascii_of_nat (Z.to_nat (if n <? 10 then 48 + n else 87 + n)).
Definition chr_repr (mark c : ascii) : string :=
  let n := chr_code c in
  if Ascii.eqb c mark || Ascii.eqb c "092" then String "092" (String c "")
  else if n =? 10 then "\n" else if n =? 13 then "\r" else if n =? 9 then "\t"
  else if (n <? 32) || (n =? 127) then "\x" ++ String (hex_lower (n / 16)) (String (hex_lower (n mod 16)) "")
  else String c "".
Definition str_repr (s : string) : string :=
  let mark := if str_existsb (Ascii.eqb "'") s && negb (str_existsb (Ascii.eqb "034") s) then "034"%char else "'"%char in
  String mark (str_join "" (map (chr_repr mark) (list_ascii_of_string s)) ++ String mark "").
(** [repr(j)] and [str(j)]. *)
Fixpoint repr_of (j : json) : string :=
  match j with
  | JNull => "None" | JBool b => if b then "True" else "False"
  | JInt n => pretty n | JFloat q => float_repr q | JStr s => str_repr s
  | JArr l => "[" ++ str_join ", " (map repr_of l) ++ "]"
  | JObj o => "{" ++ str_join ", " (map (fun kv => (str_repr kv.1 ++ ": " ++ repr_of kv.2)%string) o) ++ "}"
  end.
Definition str_of (j : json) : string := match j with JStr s => s | _ => repr_of j end.
Example repr_of_value :
  str_of (JObj [("a", JArr [JInt 1; JFloat (5 # 2); JNull]); ("b'c", JStr "it is"); ("d", JStr (String "010" "\"))])
  = ("{'a': [1, 2.5, None], " ++ String "034" "b'c" ++ String "034" ": 'it is', 'd': '\n\\'}")%string.
Proof. vm_compute. reflexivity. Qed.

(** [j[k]], of an object or of a list; [None] where it raises. *)
Definition item_of (k : string) (j : json) : option json :=
  match j with JObj o => dget k o | _ => None end.
Definition nth_of (n : nat) (j : json) : option json :=
  match j with JArr l => l !! n | _ => None end.

(** [j.get(k)] and [j.get(k, d)], [x in j], and what [for x in j] goes through; [None]
    where they raise. *)
Definition get_of (k : string) (j : json) : option json :=
  match j with JObj o => Some (default JNull (dget k o)) | _ => None end.
Definition get_else (k : string) (d j : json) : option json :=
  match j with JObj o => Some (default d (dget k o)) | _ => None end.
Definition in_of (s : string) (j : json) : option bool :=
  match j with
  | JStr t => Some (str_contains s t)
  | JArr l => Some (existsb (fun x => jeq_str x s) l)
  | JObj o => Some (dhas s o)
  | _ => None
  end.
Definition iter_of (j : json) : option (list json) :=
  match j with
  | JArr l => Some l
  | JObj o => Some (map (fun kv => JStr kv.1) o)
  | JStr s => Some (map (fun c => JStr (String c "")) (list_ascii_of_string s))
  | _ => None
  end.

(** [int(j)], or [None] where it raises. *)
Definition int_of (j : json) : option Z :=
  match j with
  | JBool b => Some (Z.b2z b) | JInt n => Some n | JFloat q => Some (py_int q)
  | JStr s => int_of_str s | _ => None
  end.

(** A float: a number, or one of [inf], [-inf] and [nan]. *)
Inductive float := Fin (q : Q) | Inf (neg : bool) | NaN.
Definition special_float (s : string) : option float :=
  let named (t : string) : option bool :=
    if String.eqb t "inf" || String.eqb t "infinity" then Some true
    else if String.eqb t "nan" then Some false else None in
  let t := str_lower (str_strip s) in
  let '(neg, body) := match t with
    | String c t' => if Ascii.eqb c "-" then (true, t') else if Ascii.eqb c "+" then (false, t') else (false, t)
    | EmptyString => (false, t)
    end in
  match named body with Some true => Some (Inf neg) | Some false => Some NaN | None => None end.
(** [float(s)] and [float(j)], or [None] where they raise. *)
Definition float_of_str (s : string) : option float :=
  match special_float s with Some f => Some f | None => option_map Fin (parse_float s) end.
Definition float_of (j : json) : option float :=
  match j with
  | JBool b => Some (Fin (qz (Z.b2z b))) | JInt n => Some (Fin (qz n)) | JFloat q => Some (Fin q)
  | JStr s => float_of_str s | _ => None
  end.
(** [int(f)]: of what is not finite it raises. *)
Definition int_of_float (f : float) : option Z := match f with Fin q => Some (py_int q) | _ => None end.
Definition float_sub (x y : float) : float :=
  match x, y with
  | Fin a, Fin b => Fin (a - b)%Q
  | NaN, _ | _, NaN => NaN
  | Inf a, Inf b => if Bool.eqb a b then NaN else Inf a
  | Inf a, Fin _ => Inf a
  | Fin _, Inf b => Inf (negb b)
  end.

Example float_of_str_values :
  map (option_map (fun f => match f with Fin q => Fin (Qred q) | f => f end))
    (map float_of_str ["2"; " -Inf"; "infinity"; "NaN"; "x"; ""]%string)
  = [Some (Fin 2); Some (Inf true); Some (Inf false); Some NaN; None; None].
Proof. vm_compute. reflexivity. Qed.

(** [urllib.parse.quote]. *)
Definition url_hex (n : Z) : ascii := ascii_of_nat (Z.to_nat (if n <? 10 then 48 + n else 55 + n)).
Definition unreserved (safe c : ascii) : bool :=
  is_alnum_lower (chr_lower c) || bool_decide (c ∈ ["_"; "."; "-"; "~"; safe]%char).
Fixpoint quote (safe : ascii) (s : string) : string :=
  match s with
  | EmptyString => EmptyString
  | String c s' =>
      if unreserved safe c then String c (quote safe s')
      else String "%" (String (url_hex (chr_code c / 16)) (String (url_hex (chr_code c mod 16)) (quote safe s')))
  end.

(** [datetime.fromisoformat(s)] of a date, a [T], a time, an optional fraction of a
    second and an optional offset: the instant, and whether it has an offset. [None]
    where it raises, and for the other forms, which the code is not given. *)
Definition offset_of (s : string) : option Q :=
  let digits4 := str_forallb is_digit (str_take 2 (str_drop 1 s)) && str_forallb is_digit (str_drop 4 s) in
  match s with
  | String c s' =>
      if (Ascii.eqb c "+" || Ascii.eqb c "-") && (String.length s =? 6)%nat && digits4
         && String.eqb (str_take 1 (str_drop 3 s)) ":" && (field_at 1 2 s <? 24) && (field_at 4 2 s <? 60)
      then Some (qz ((if Ascii.eqb c "-" then -1 else 1) * (field_at 1 2 s * 3600 + field_at 4 2 s * 60)))
      else None
  | EmptyString => None
  end.
Definition fraction_of (s : string) : Q * string :=
  match s with
  | String c s' =>
      if Ascii.eqb c "." then
        let n := (String.length s' - String.length (str_lstrip is_digit s'))%nat in
        if (n =? 0)%nat then (0%Q, s) else
        ((qz (digits_value 0 (str_take n s')) / Qpower 10 (Z.of_nat n))%Q, str_drop n s')
      else (0%Q, s)
  | EmptyString => (0%Q, s)
  end.
Definition fromisoformat (s : string) : option (Q * bool) :=
  match iso_parse (str_take 19 s ++ "Z") with
  | None => None
  | Some t =>
      let '(frac, rest) := fraction_of (str_drop 19 s) in
      if String.eqb rest "" then Some ((qz t + frac)%Q, false)
      else if String.eqb rest "Z" then Some ((qz t + frac)%Q, true)
      else option_map (fun off => ((qz t + frac - off)%Q, true)) (offset_of rest)
  end.
Example fromisoformat_values :
  map (fun s => option_map (fun r => (Qred r.1, r.2)) (fromisoformat s))
    ["1970-01-01T00:01:00.250000+00:00"; "1970-01-01T01:00:00+01:00"; "1970-01-01T00:00:01"; "1970-01-01T00:00:01Z"; "now"]%string
  = [Some (241 # 4, true); Some (0, true); Some (1, false); Some (1, true); None]%Q.
Proof. vm_compute. reflexivity. Qed.

(** A quoted text names one text, and holds no slash unless it may. *)
Lemma ascii_code_inj a b : chr_code a = chr_code b -> a = b.
Proof. unfold chr_code. intros H. apply Nat2Z.inj in H. rewrite <- (ascii_nat_embedding a), <- (ascii_nat_embedding b). by rewrite H. Qed.
Lemma chr_code_byte c : 0 <= chr_code c < 256.
Proof. unfold chr_code. pose proof (nat_ascii_bounded c). lia. Qed.
Lemma url_hex_code n : 0 <= n < 16 -> chr_code (url_hex n) = if n <? 10 then 48 + n else 55 + n.
Proof. intros Hn. unfold chr_code, url_hex. destruct (n <? 10) eqn:E; breflect; rewrite nat_ascii_embedding; lia. Qed.
Lemma url_hex_inj m n : 0 <= m < 16 -> 0 <= n < 16 -> url_hex m = url_hex n -> m = n.
Proof.
  intros Hm Hn H. pose proof (f_equal chr_code H) as Hc. rewrite !url_hex_code in Hc by done.
  destruct (m <? 10) eqn:E1, (n <? 10) eqn:E2; breflect; lia.
Qed.
Lemma url_hex_no_slash n : 0 <= n < 16 -> no_slash (url_hex n) = true.
Proof.
  intros Hn. unfold no_slash. apply negb_true_iff, Ascii.eqb_neq. intros H. apply (f_equal chr_code) in H.
  rewrite url_hex_code in H by done. change (chr_code "/") with 47 in H. destruct (n <? 10) eqn:E; breflect; lia.
Qed.
Lemma unreserved_tilde c : unreserved "~" c = true -> no_slash c = true /\ c <> "%"%char.
Proof. intros H. split; [|by intros ->]. destruct c as [[] [] [] [] [] [] [] []]; by vm_compute in H |- *. Qed.
Lemma code_halves c : 0 <= chr_code c / 16 < 16 /\ 0 <= chr_code c mod 16 < 16.
Proof.
  pose proof (chr_code_byte c). split; [|apply Z.mod_pos_bound; lia].
  split; [apply Z.div_pos; lia|apply Z.div_lt_upper_bound; lia].
Qed.
Lemma quote_no_slash s : str_forallb no_slash (quote "~" s) = true.
Proof.
  induction s as [|c s IH]; [done|]. cbn [quote]. destruct (code_halves c).
  destruct (unreserved "~" c) eqn:E; cbn [str_forallb].
  - apply unreserved_tilde in E as [-> _]. exact IH.
  - rewrite !url_hex_no_slash by done. exact IH.
Qed.
Lemma quote_inj s t : quote "~" s = quote "~" t -> s = t.
Proof.
  revert t. induction s as [|c s IH]; intros [|d t]; cbn [quote]; [done|by destruct (unreserved _ _)..|].
  destruct (unreserved "~" c) eqn:Ec, (unreserved "~" d) eqn:Ed.
  - intros [= -> H]. f_equal. by apply IH.
  - intros [= -> _]. by apply unreserved_tilde in Ec as [_ ?].
  - intros [= <- _]. by apply unreserved_tilde in Ed as [_ ?].
  - intros H. injection H as H1 H2 H3. destruct (code_halves c), (code_halves d).
    apply url_hex_inj in H1, H2; try done. f_equal; [|by apply IH]. apply ascii_code_inj.
    rewrite (Z.div_mod (chr_code c) 16), (Z.div_mod (chr_code d) 16) by lia. congruence.
Qed.
(** What stands before the first slash. *)
Lemma first_slash_inj a b r r' : str_forallb no_slash a = true -> str_forallb no_slash b = true ->
  (a ++ String "/" r = b ++ String "/" r')%string -> a = b /\ r = r'.
Proof.
  revert b. induction a as [|c a IH]; intros [|d b]; cbn; intros Ha Hb.
  - by intros [= ->].
  - intros [= <- _]. by apply andb_true_iff in Hb as [? _].
  - intros [= -> _]. by apply andb_true_iff in Ha as [? _].
  - intros [= -> H]. apply andb_true_iff in Ha as [_ Ha], Hb as [_ Hb]. destruct (IH b Ha Hb H) as [-> ->]. done.
Qed.

(** [x < y] and [x <= y] of floats: false where one is no number. *)
Definition float_lt (x y : float) : bool :=
  match x, y with
  | NaN, _ | _, NaN => false
  | Fin a, Fin b => a <?q b
  | Inf a, Inf b => a && negb b
  | Inf a, Fin _ => a
  | Fin _, Inf b => negb b
  end.
Definition float_le (x y : float) : bool :=
  match x, y with
  | NaN, _ | _, NaN => false
  | _, _ => negb (float_lt y x)
  end.

(** [sorted(l, key=...)] by a text: those with the same key stay in order. *)
Section SortBy.
Context {A : Type} (key : A -> string).
Fixpoint insert_by (x : A) (l : list A) : list A :=
  match l with [] => [x] | y :: l' => if String.ltb (key x) (key y) then x :: l else y :: insert_by x l' end.
Definition sort_by (l : list A) : list A := foldl (fun acc x => insert_by x acc) [] l.
Definition not_after (x y : A) : Prop := String.ltb (key y) (key x) = false.
Lemma insert_by_perm x l : insert_by x l ≡ₚ x :: l.
Proof. induction l as [|y l IH]; cbn; [done|]. destruct (String.ltb _ _); [done|]. rewrite IH. constructor. Qed.
Lemma sort_by_perm l : sort_by l ≡ₚ l.
Proof.
  unfold sort_by. rewrite <- (app_nil_r l) at 2. generalize (@nil A). induction l as [|x l IH]; intros acc; cbn; [done|].
  rewrite IH, insert_by_perm. by rewrite Permutation_middle.
Qed.
Lemma ltb_not_after x y : String.ltb (key x) (key y) = true -> not_after x y.
Proof. unfold not_after, String.ltb. rewrite (String.compare_antisym (key y)). by destruct (String.compare (key x) (key y)). Qed.
Lemma insert_by_hd x y l : not_after y x -> HdRel not_after y l -> HdRel not_after y (insert_by x l).
Proof. intros Hx Hl. destruct Hl as [|z l Hz]; cbn; [by constructor|]. destruct (String.ltb _ _); by constructor. Qed.
Lemma insert_by_sorted x l : Sorted not_after l -> Sorted not_after (insert_by x l).
Proof.
  induction 1 as [|y l Hl IH Hh]; cbn; [by repeat constructor|]. destruct (String.ltb (key x) (key y)) eqn:E.
  - constructor; [by constructor|]. constructor. by apply ltb_not_after.
  - constructor; [exact IH|]. by apply insert_by_hd.
Qed.
Lemma sort_by_sorted l : Sorted not_after (sort_by l).
Proof.
  unfold sort_by. assert (H : Sorted not_after (@nil A)) by constructor. revert H. generalize (@nil A).
  induction l as [|x l IH]; intros acc H; cbn; [done|]. by apply IH, insert_by_sorted.
Qed.
End SortBy.

(** What a comprehension keeps. *)
Lemma rmap_forall2 {Er A B} (f : A -> res Er B) l l' : rmap f l = Ok l' <-> Forall2 (fun x y => f x = Ok y) l l'.
Proof.
  revert l'. induction l as [|x l IH]; intros l'; cbn; [split; [by intros [= <-]; constructor|by inversion 1]|].
  destruct (f x) as [y|e] eqn:Ex; cbn; [|split; [done|inversion 1; congruence]].
  destruct (rmap f l) as [ys|e] eqn:E; cbn.
  - split; [intros [= <-]; constructor; [done|by apply IH]|]. inversion 1 as [|? y' ? ys' Hy Hys]; subst. apply IH in Hys. congruence.
  - split; [done|]. inversion 1 as [|? y' ? ys' Hy Hys]; subst. apply IH in Hys. congruence.
Qed.
(** The keys after a key is set. *)
Lemma dset_names {K V} `{EqDecision K} (k k' : K) (v : V) d : k' ∈ map fst (dset k v d) <-> k' = k \/ k' ∈ map fst d.
Proof.
  induction d as [|[k0 v0] d IH]; cbn.
  - rewrite list_elem_of_singleton. split; [by left|intros [?|?%elem_of_nil]; done].
  - case_decide as Hk; cbn; rewrite !elem_of_cons; [subst; tauto|]. rewrite IH. tauto.
Qed.
Lemma dget_none_names {K V} `{EqDecision K} (k : K) (d : list (K * V)) : dget k d = None <-> k ∉ map fst d.
Proof.
  induction d as [|[k0 v0] d IH]; cbn; [split; [by intros _ ?%elem_of_nil|done]|]. rewrite not_elem_of_cons.
  case_decide as Hk; [split; [done|by intros [? _]]|]. rewrite IH. tauto.
Qed.
Lemma rmap_total {Er A B} (f : A -> res Er B) l : (forall x, x ∈ l -> exists y, f x = Ok y) -> exists l', rmap f l = Ok l'.
Proof.
  induction l as [|x l IH]; intros H; [by eexists|]. destruct (H x ltac:(by left)) as [y Hy].
  destruct IH as [l' Hl']; [intros z Hz; apply H; by right|]. cbn. rewrite Hy. cbn. rewrite Hl'. by eexists.
Qed.
