(* ===== verification/PyFormat.v ===== *)
(** Arithmetic of Python's floats, rounded, and how they are written: [f"{x:.2f}"],
    [f"{x:,.2f}"], [f"{x:g}"]. A zero has no sign. *)
From S2P Require Import Prelude PyJson PyText PyFloat PyValue.
Open Scope Z_scope.

(** ** Arithmetic *)

Definition f_of (q : Q) : float := match binary64 q with Some r => Fin r | None => Inf (q <?q 0) end.
(** A number that was read, as the float that it is nearest to. *)
Definition f_near (x : float) : float := match x with Fin q => f_of q | _ => x end.
Definition f_add (x y : float) : float :=
  match x, y with
  | Fin a, Fin b => f_of (a + b)
  | NaN, _ | _, NaN => NaN
  | Inf a, Inf b => if Bool.eqb a b then Inf a else NaN
  | Inf a, Fin _ | Fin _, Inf a => Inf a
  end.
Definition f_opp (x : float) : float := match x with Fin q => Fin (- q)%Q | Inf b => Inf (negb b) | NaN => NaN end.
Definition f_minus (x y : float) : float := f_add x (f_opp y).
Definition q_neg (q : Q) : bool := q <?q 0.
Definition f_mul (x y : float) : float :=
  match x, y with
  | Fin a, Fin b => f_of (a * b)
  | NaN, _ | _, NaN => NaN
  | Inf a, Inf b => Inf (xorb a b)
  | Inf a, Fin q | Fin q, Inf a => if Qeq_bool q 0 then NaN else Inf (xorb a (q_neg q))
  end.
(** By zero it raises. *)
Definition f_div (x y : float) : option float :=
  match x, y with
  | _, Fin q =>
      if Qeq_bool q 0 then None else
      Some (match x with Fin a => f_of (a / q) | Inf b => Inf (xorb b (q_neg q)) | NaN => NaN end)
  | Fin _, Inf _ => Some (Fin 0)
  | _, _ => Some NaN
  end.
(** [bool(x)], [x == y], [abs(x)]. *)
Definition f_true (x : float) : bool := match x with Fin q => negb (Qeq_bool q 0) | _ => true end.
Definition f_eq (x y : float) : bool :=
  match x, y with Fin a, Fin b => Qeq_bool a b | Inf a, Inf b => Bool.eqb a b | _, _ => false end.
Definition f_abs (x : float) : float := match x with Fin q => Fin (if q <?q 0 then - q else q)%Q | Inf _ => Inf false | NaN => NaN end.
(** [round(x)]: of what is not finite it raises. *)
Definition f_round (x : float) : option Z := match x with Fin q => Some (half_even q) | _ => None end.
(** [sum(l)] of floats, with its compensation. *)
Definition sum_step (acc : float * float) (x : float) : float * float :=
  let '(s, c) := acc in
  let t := f_add s x in
  (t, f_add c (if float_le (f_abs x) (f_abs s) then f_add (f_minus s t) x else f_add (f_minus x t) s)).
Definition f_sum (l : list float) : float :=
  let '(s, c) := foldl sum_step (Fin 0, Fin 0) l in
  match c with Fin q => if Qeq_bool q 0 then s else f_add s c | _ => s end.
(** [min(l)] and [max(l)]: the first that no other is below, or above. *)
Definition f_min (x : float) (l : list float) : float := foldl (fun m y => if float_lt y m then y else m) x l.
Definition f_max (x : float) (l : list float) : float := foldl (fun m y => if float_lt m y then y else m) x l.

(** ** Texts *)

(** Thousands are separated by commas. *)
Fixpoint commas_of (fuel : nat) (n : Z) : string :=
  match fuel with
  | O => pretty n
  | S fuel => if n <? 1000 then pretty n else (commas_of fuel (n / 1000) ++ "," ++ padded 3 (n mod 1000))%string
  end.
Definition commas (n : Z) : string := commas_of (Z.to_nat (Z.log2 n)) n.
Definition decimals (whole : Z -> string) (n : nat) (q : Q) : string :=
  let m := half_even (q * Qpower 10 (Z.of_nat n)) in
  match n with
  | O => whole m
  | _ => (whole (m / 10 ^ Z.of_nat n) ++ "." ++ padded n (m mod 10 ^ Z.of_nat n))%string
  end.
Definition signed (text : Q -> string) (x : float) : string :=
  match x with
  | Fin q => if q <?q 0 then ("-" ++ text (- q)%Q)%string else text q
  | Inf b => if b then "-inf" else "inf"
  | NaN => "nan"
  end.
Definition fixed_f (n : nat) : float -> string := signed (decimals pretty n).
Definition grouped_f (n : nat) : float -> string := signed (decimals commas n).
(** [f"{x:g}"], which is also [f"{x:.6g}"]. *)
Definition general_f : float -> string := signed fmt_g.
Example float_texts :
  (map (fixed_f 2) [Fin (5 # 2); Fin (-1 # 3); Fin (199999 # 1000); Inf true; NaN], map (grouped_f 1) [Fin 1234567; Fin 999; Fin (99999995 # 100)], map general_f [Fin (-7 # 2); Fin 1234567; NaN])
  = (["2.50"; "-0.33"; "200.00"; "-inf"; "nan"], ["1,234,567.0"; "999.0"; "1,000,000.0"], ["-3.5"; "1.23457e+06"; "nan"])%string.
Proof. vm_compute. reflexivity. Qed.
Example sums : (f_sum [f_of (1 # 10); f_of (2 # 10); f_of (3 # 10)], map f_round [Fin (5 # 2); Fin (7 # 2); NaN]) = (f_of (6 # 10), [Some 2; Some 4; None]).
Proof. vm_compute. reflexivity. Qed.

(** ** Equality *)

(** [==] of JSON values: numbers, [True] and [False] among them, by their value; objects
    whatever the order of their keys. *)
Definition num_of (j : json) : option Q :=
  match j with JBool b => Some (qz (Z.b2z b)) | JInt n => Some (qz n) | JFloat q => Some q | _ => None end.
Fixpoint py_eq (a b : json) {struct a} : bool :=
  match a, b with
  | JNull, JNull => true
  | JStr s, JStr t => String.eqb s t
  | JArr l, JArr m =>
      (fix all_eq (l m : list json) : bool := match l, m with [], [] => true | x :: l, y :: m => py_eq x y && all_eq l m | _, _ => false end) l m
  | JObj o, JObj p =>
      (List.length o =? List.length p)%nat &&
      (fix held (o : list (string * json)) : bool :=
         match o with [] => true | (k, v) :: o => match dget k p with Some w => py_eq v w | None => false end && held o end) o
  | _, _ => match num_of a, num_of b with Some x, Some y => Qeq_bool x y | _, _ => false end
  end.
(** [a == b] where either may be missing. *)
Definition opt_eq (a b : option json) : bool := match a, b with Some a, Some b => py_eq a b | None, None => true | _, _ => false end.
Example py_eqs :
  map (fun p => py_eq p.1 p.2) [(JInt 1, JBool true); (JFloat (3 # 1), JInt 3); (JObj [("a", JInt 1); ("b", JNull)], JObj [("b", JNull); ("a", JFloat (1 # 1))]);
    (JArr [JInt 1], JArr []); (JNull, JBool false); (JStr "1", JInt 1)]%string = [true; true; true; false; false; false].
Proof. reflexivity. Qed.
