(* ===== verification/NrpGpus.v ===== *)
(** The GPUs free on NRP, [apps/ray-train/nrp_gpus.py]: what Prometheus's samples add
    up to by GPU model, and how many workers fit.  A missing label (KeyError) or a
    value that is no number (ValueError) is [None]; the gateway catches both. *)
From S2P Require Import Prelude PyJson PyText.
Open Scope Z_scope.

Definition GPU : string := "nvidia_com_gpu".
(** ** The queries *)
Definition RESOURCES : string := "resource=~" ++ quoted (GPU ++ "|cpu|memory").
Definition GPU_NODES : string :=
  "on(node) kube_node_status_allocatable{resource=" ++ quoted GPU ++ "} > 0".
Definition ALLOCATABLE : string :=
  "sum by (node, resource) (kube_node_status_allocatable{" ++ RESOURCES ++ "}) and " ++ GPU_NODES.
Definition REQUESTED : string :=
  "sum by (node, resource) (kube_pod_container_resource_requests{" ++ RESOURCES
  ++ "} * on(namespace, pod) group_left() (max by (namespace, pod) (kube_pod_status_phase{phase=~"
  ++ quoted "Pending|Running" ++ "}) == 1))".
Definition UNSCHEDULABLE : string :=
  "count by (node) (kube_node_spec_taint{effect=~" ++ quoted "NoSchedule|NoExecute"
  ++ "}) or max by (node) (kube_node_spec_unschedulable) == 1 or max by (node) (kube_node_status_condition{condition="
  ++ quoted "Ready" ++ ", status=" ++ quoted "true" ++ "}) == 0".
Definition MODELS : string := "count by (Hostname, modelName) (max_over_time(DCGM_FI_DEV_GPU_UTIL[1h]))".
Definition MEMORY : string :=
  let whole_gpus := ("{GPU_I_ID=" ++ quoted "" ++ "}")%string in
  "quantile by (modelName) (0.5, sum by (modelName, UUID) (DCGM_FI_DEV_FB_FREE" ++ whole_gpus
  ++ ") + on(modelName, UUID) sum by (modelName, UUID) (DCGM_FI_DEV_FB_USED" ++ whole_gpus ++ "))".
Definition MEMORY_SLACK : Q := 95 # 100.
Definition PRODUCT_LABEL : string := "nvidia.com/gpu.product".

(** ** The data *)
Record Worker := mkWorker { w_gpus : Z; w_cpus : Q; w_memory_gb : Q }.
Record Model := mkModel {
  memory_gb : option Q; gpus : Z; free_gpus : Z; workers : Z; workers_empty : Z }.
#[export] Instance eta_Model : Eta Model := {| eta_of r :=
  mkModel (memory_gb r) (gpus r) (free_gpus r) (workers r) (workers_empty r) |}.
Definition no_gpus : Model := mkModel None 0 0 0 0.
Record Room := mkRoom { r_workers : Z; r_workers_empty : Z; r_models : option (list string) }.

(** A sample of an answer: [sample["metric"]] and [sample["value"][1]]. *)
Record Sample := mkSample { metric : list (string * string); value : string }.
Definition label (k : string) (s : Sample) : option string := dget k (metric s).

(** A [defaultdict(float)], and one of those by node. *)
Definition Amounts := list (string * Q).
Definition amount_at (r : string) (a : Amounts) : Q := dget_or r 0%Q a.
Definition Nodes := list (string * Amounts).
Definition at_node (node : string) (nodes : Nodes) : Amounts := dget_or node [] nodes.

(** ** [free_by_node] *)
Definition count (nodes : Nodes) (s : Sample) : option Nodes :=
  node ← label "node" s; r ← label "resource" s; v ← parse_float (value s);
  let has := at_node node nodes in
  Some (dset node (dset r (amount_at r has + v)%Q has) nodes).
Definition free_by_node (allocatable requested unschedulable : list Sample)
    : option (Nodes * Nodes * list string) :=
  free ← ofold count [] allocatable;
  held ← ofold count [] (List.filter (fun s => dhas "node" (metric s)) requested);
  closed ← mapM (label "node") unschedulable;
  Some (free, held, closed).

(** ** [fitting] *)
Definition GIB : Q := 1073741824.
Definition fitting (has held : Amounts) (worker : Worker) : Z :=
  let gpus := py_int (amount_at GPU has - amount_at GPU held) in
  let cpus := (amount_at "cpu" has - amount_at "cpu" held)%Q in
  let memory_gb := ((amount_at "memory" has - amount_at "memory" held) / GIB)%Q in
  Z.max (Z.min (Z.min (gpus / w_gpus worker) (floordiv cpus (w_cpus worker)))
               (floordiv memory_gb (w_memory_gb worker))) 0.

(** ** [by_model] *)
Definition Models := list (string * Model).
Definition model_at (name : string) (out : Models) : Model := dget_or name no_gpus out.
Definition hostname_model (acc : list (string * string)) (s : Sample) : option (list (string * string)) :=
  host ← label "Hostname" s; name ← label "modelName" s; Some (dset host name acc).
Definition memory_sample (out : Models) (s : Sample) : option Models :=
  name ← label "modelName" s; v ← parse_float (value s);
  Some (dset name ((model_at name out) <| memory_gb := Some (v * 1048576 / 1000000000)%Q |>) out).
(** One pass of the loop over the nodes. *)
Definition add_node (held : Nodes) (closed : list string) (model_of : list (string * string)) (worker : Worker)
    (out : Models) (node_has : string * Amounts) : Models :=
  let '(node, has) := node_has in
  let name := dget_or node ""%string model_of in
  let model := model_at name out in
  let model := model <| gpus := gpus model + py_int (amount_at GPU has) |> in
  let model :=
    if bool_decide (node ∈ closed) then model else
    let mine := at_node node held in
    let model := model <| free_gpus :=
      free_gpus model + Z.max (py_int (amount_at GPU has - amount_at GPU mine)) 0 |> in
    let model := model <| workers := workers model + fitting has mine worker |> in
    model <| workers_empty := workers_empty model + fitting has [] worker |> in
  dset name model out.
(** [sorted(out.items())], whose keys differ. *)
Fixpoint insert_item (kv : string * Model) (l : Models) : Models :=
  match l with
  | [] => [kv]
  | kv' :: l' => if String.ltb kv.1 kv'.1 then kv :: l else kv' :: insert_item kv l'
  end.
Definition sorted_items (l : Models) : Models := foldl (fun acc kv => insert_item kv acc) [] l.
Definition by_model (allocatable requested unschedulable models memory : list Sample) (worker : Worker)
    : option Models :=
  '(free, held, closed) ← free_by_node allocatable requested unschedulable;
  model_of ← ofold hostname_model [] models;
  out ← ofold memory_sample [] memory;
  let out := foldl (add_node held closed model_of worker) out free in
  Some (List.filter (fun nm => negb (gpus nm.2 =? 0)) (sorted_items out)).

(** ** [with_memory], [room], [product], [free_gpus], [worker_of] *)
Definition with_memory (models : Models) (ask : Q) : option (list string) :=
  if Qeq_bool ask 0 then None else
  Some (map fst (List.filter (fun nm =>
    negb (String.eqb nm.1 "")
    && match memory_gb nm.2 with Some gb => (ask * MEMORY_SLACK)%Q <=?q gb | None => false end) models)).
Definition allowed (names : option (list string)) (name : string) : bool :=
  match names with None => true | Some l => bool_decide (name ∈ l) end.
Definition room (models : Models) (ask : Q) : Room :=
  let names := with_memory models ask in
  let held := List.filter (fun nm : string * Model => allowed names nm.1) models in
  mkRoom (zsum (map (fun nm => workers nm.2) held)) (zsum (map (fun nm => workers_empty nm.2) held)) names.
Definition product (model : string) : string := str_replace " " "-" model.

(** [free_gpus]; [query] is Prometheus's answer to a query, [None] if it raises. *)
Definition ask_free_gpus (query : string -> option (list Sample)) (worker : Worker) : option Models :=
  allocatable ← query ALLOCATABLE; requested ← query REQUESTED; unschedulable ← query UNSCHEDULABLE;
  models ← query MODELS; memory ← query MEMORY;
  by_model allocatable requested unschedulable models memory worker.

(** [int(j)], [float(j)] and [str(j)] of a request's amount in the template. *)
Definition json_int (j : json) : option Z :=
  match j with JInt n => Some n | JStr s => int_of_str s | _ => None end.
Definition json_text (j : json) : string :=
  match j with JInt n => pretty n | JStr s => s | JFloat q => fmt_g q | _ => "" end.
Definition worker_of (template : json) : option Worker :=
  let group := hd JNull (jlist (jget "workerGroupSpecs" (jget "rayClusterSpec" (jget "spec" template)))) in
  let container := hd JNull (jlist (jget "containers" (jget "spec" (jget "template" group)))) in
  let requests := jget "requests" (jget "resources" container) in
  n ← json_int (jget "nvidia.com/gpu" requests);
  cpus ← parse_float (json_text (jget "cpu" requests));
  memory ← parse_float (removesuffix "Gi" (json_text (jget "memory" requests)));
  Some (mkWorker n cpus memory).

(** ** [fitting] is the most that fit *)

(** [n] workers' requests are within what a node has left. *)
Definition fits (n : Z) (has held : Amounts) (w : Worker) : Prop :=
  (qz (n * w_gpus w) <= amount_at GPU has - amount_at GPU held)%Q /\
  (qz n * w_cpus w <= amount_at "cpu" has - amount_at "cpu" held)%Q /\
  (qz n * w_memory_gb w * GIB <= amount_at "memory" has - amount_at "memory" held)%Q.
Definition worker_ok (w : Worker) : Prop := 0 < w_gpus w /\ (0 < w_cpus w)%Q /\ (0 < w_memory_gb w)%Q.

Lemma floor_le_iff n q : n <= Qfloor q <-> (qz n <= q)%Q.
Proof.
  split; intros H.
  - apply (Qle_trans _ (inject_Z (Qfloor q))); [by rewrite <- Zle_Qle|apply Qfloor_le].
  - rewrite <- (Qfloor_Z n). by apply Qfloor_resp_le.
Qed.
Lemma floordiv_le_iff n a b : (0 < b)%Q -> n <= floordiv a b <-> (qz n * b <= a)%Q.
Proof.
  intros Hb. unfold floordiv. rewrite floor_le_iff. split; intros H.
  - apply (Qmult_le_compat_r _ _ b) in H; [|by apply Qlt_le_weak]. unfold Qdiv in H.
    rewrite <- Qmult_assoc, (Qmult_comm (/ b)), Qmult_inv_r, Qmult_1_r in H; [done|].
    intros E. rewrite E in Hb. by apply Qlt_irrefl in Hb.
  - by apply Qle_shift_div_l.
Qed.
Lemma py_int_pos_iff n q : 0 < n -> n <= py_int q <-> (qz n <= q)%Q.
Proof.
  intros Hn. unfold py_int. destruct (q <?q 0) eqn:E; breflect; [|apply floor_le_iff].
  assert (H0 : 0 <= Qfloor (- q)) by (apply floor_le_iff; change (qz 0) with 0%Q; lra).
  split; intros H; [lia|]. exfalso. assert (qz 0 < qz n)%Q by (unfold qz; by rewrite <- Zlt_Qlt).
  change (qz 0) with 0%Q in *. lra.
Qed.
Lemma fits_iff n has held w : worker_ok w -> 0 < n -> fits n has held w <-> n <= fitting has held w.
Proof.
  intros (Hg & Hc & Hm) Hn. unfold fits, fitting. cbv zeta.
  set (dg := (amount_at GPU has - _)%Q). set (dc := (amount_at "cpu" has - _)%Q).
  set (dm := (amount_at "memory" has - _)%Q).
  rewrite Z.max_le_iff, !Z.min_glb_iff, !floordiv_le_iff by done.
  assert (H1 : n <= py_int dg / w_gpus w <-> (qz (n * w_gpus w) <= dg)%Q).
  { rewrite <- py_int_pos_iff by nia. split; intros H.
    - etrans; [apply Z.mul_le_mono_nonneg_r; [lia|exact H]|]. rewrite Z.mul_comm. by apply Z.mul_div_le.
    - apply Z.div_le_lower_bound; [done|lia]. }
  assert (H2 : (qz n * w_memory_gb w <= dm / GIB)%Q <-> (qz n * w_memory_gb w * GIB <= dm)%Q).
  { assert (Hb : (0 < GIB)%Q) by done. split; intros H; [|by apply Qle_shift_div_l].
    apply (Qmult_le_compat_r _ _ GIB) in H; [|done]. unfold Qdiv in H.
    by rewrite <- (Qmult_assoc dm), (Qmult_comm (/ GIB)), Qmult_inv_r, Qmult_1_r in H. }
  rewrite H1, H2. split; [tauto|]. intros [?|?]; [tauto|lia].
Qed.

(** [fitting] is the greatest number of workers whose requests fit together in
    what a node's pods leave of its GPUs, CPUs and memory, and none if not one fits. *)
Theorem fitting_greatest has held w : worker_ok w ->
  let n := fitting has held w in
  0 <= n /\ (0 < n -> fits n has held w) /\ forall k, n < k -> ~ fits k has held w.
Proof.
  intros Hw n. assert (0 <= n) by (unfold n, fitting; lia). split; [done|]. split.
  - intros Hn. by apply fits_iff.
  - intros k Hk Hf. apply fits_iff in Hf; [|done|lia]. fold n in Hf. lia.
Qed.
Lemma fitting_greatest_witness :
  let has := [(GPU, 8); ("cpu", 62); ("memory", 549755813888)]%string%Q in
  let held := [(GPU, 3); ("cpu", 5 # 2); ("memory", 1)]%string%Q in
  let w := mkWorker 1 4 16 in
  fitting has held w = 5 /\ (fits 5 has held w /\ ~ fits 6 has held w).
Proof.
  intros has held w. destruct (fitting_greatest has held w) as (_ & H1 & H2); [done|].
  split; [vm_compute; reflexivity|]. split; [apply H1; vm_compute; reflexivity|apply H2; vm_compute; reflexivity].
Defined.

(** ** The loops are sums *)

Definition sample_value (s : Sample) : Q := default 0%Q (parse_float (value s)).
Definition of_node (node r : string) (s : Sample) : bool :=
  bool_decide (label "node" s = Some node) && bool_decide (label "resource" s = Some r).
(** What the samples of a node and a resource add up to. *)
Definition sum_of (node r : string) (l : list Sample) : Q :=
  qsum (map sample_value (List.filter (of_node node r) l)).

Lemma count_some nodes s nodes' : count nodes s = Some nodes' ->
  exists n r v, label "node" s = Some n /\ label "resource" s = Some r /\ parse_float (value s) = Some v /\
    nodes' = dset n (dset r (amount_at r (at_node n nodes) + v)%Q (at_node n nodes)) nodes.
Proof.
  unfold count. destruct (label "node" s) as [n|]; cbn; [|done].
  destruct (label "resource" s) as [r|]; cbn; [|done]. destruct (parse_float (value s)) as [v|]; cbn; [|done].
  intros [= <-]. by exists n, r, v.
Qed.
Lemma count_sum l acc nodes : ofold count acc l = Some nodes -> forall node r,
  (amount_at r (at_node node nodes) == amount_at r (at_node node acc) + sum_of node r l)%Q.
Proof.
  revert acc. induction l as [|s l IH]; intros acc.
  { intros [= ->] node r. unfold sum_of. cbn. by rewrite Qplus_0_r. }
  intros (acc' & Hc & H)%ofold_cons node r. rewrite (IH _ H node r). clear IH H.
  apply count_some in Hc as (n & r' & v & En & Er & Ev & ->).
  unfold sum_of. cbn [List.filter]. assert (Hs : sample_value s = v) by (unfold sample_value; by rewrite Ev).
  assert (of_node node r s = bool_decide (node = n) && bool_decide (r = r')) as ->.
  { unfold of_node. rewrite En, Er. f_equal; apply bool_decide_ext; naive_solver. }
  unfold at_node at 1. rewrite dget_or_dset. destruct (decide (node = n)) as [->|Hn]; cycle 1.
  { rewrite bool_decide_eq_false_2 by done. apply Qeq_refl. }
  rewrite bool_decide_eq_true_2 by done. unfold amount_at at 1. rewrite dget_or_dset.
  destruct (decide (r = r')) as [->|Hr]; cycle 1.
  { rewrite bool_decide_eq_false_2 by done. apply Qeq_refl. }
  rewrite bool_decide_eq_true_2 by done. cbn [andb map]. rewrite Hs.
  change (qsum (?x :: ?l)) with (x + qsum l)%Q. rewrite Qplus_assoc. apply Qeq_refl.
Qed.
Lemma count_keys l acc nodes : ofold count acc l = Some nodes -> NoDup acc.*1 -> NoDup nodes.*1.
Proof.
  revert acc. induction l as [|s l IH]; intros acc; [by intros [= ->]|].
  intros (acc' & Hc & H)%ofold_cons Hnd. apply count_some in Hc as (n & r & v & _ & _ & _ & ->).
  apply (IH _ H). by apply dset_keys.
Qed.

Section AddNodes.
Context (held : Nodes) (closed : list string) (model_of : list (string * string)) (worker : Worker).

Definition node_model (nh : string * Amounts) : string := dget_or nh.1 ""%string model_of.
Definition nodes_of (name : string) (free : Nodes) : Nodes :=
  List.filter (fun nh => String.eqb (node_model nh) name) free.
Definition open_of (name : string) (free : Nodes) : Nodes :=
  List.filter (fun nh => negb (bool_decide (nh.1 ∈ closed))) (nodes_of name free).
(** A model's numbers, as sums over its nodes, and over those that take pods. *)
Definition model_sums (memory : option Q) (name : string) (free : Nodes) : Model := {|
  memory_gb := memory;
  gpus := zsum (map (fun nh => py_int (amount_at GPU nh.2)) (nodes_of name free));
  free_gpus := zsum (map (fun nh => Z.max (py_int (amount_at GPU nh.2 - amount_at GPU (at_node nh.1 held))) 0)
                         (open_of name free));
  workers := zsum (map (fun nh => fitting nh.2 (at_node nh.1 held) worker) (open_of name free));
  workers_empty := zsum (map (fun nh => fitting nh.2 [] worker) (open_of name free)) |}.
Definition plus (a b : Model) : Model :=
  mkModel (memory_gb a) (gpus a + gpus b) (free_gpus a + free_gpus b) (workers a + workers b)
    (workers_empty a + workers_empty b).

Lemma add_nodes_sums free out name :
  model_at name (foldl (add_node held closed model_of worker) out free)
  = plus (model_at name out) (model_sums None name free).
Proof.
  revert out. induction free as [|[node has] free IH]; intros out; cbn [foldl].
  { unfold plus, model_sums, nodes_of, open_of. cbn. rewrite !Z.add_0_r. by destruct (model_at name out). }
  rewrite IH. unfold add_node at 1. fold (node_model (node, has)). unfold model_at at 1. rewrite dget_or_dset.
  unfold plus, model_sums, open_of, nodes_of. cbn [List.filter]. case_decide as Hn; [change (name = node_model (node, has)) in Hn|change (name <> node_model (node, has)) in Hn].
  - rewrite <- Hn, String.eqb_refl. cbn [List.filter fst].
    change (dget_or node ""%string model_of) with (node_model (node, has)). rewrite <- Hn.
    destruct (bool_decide (node ∈ closed)); cbn [negb map fst snd]; rewrite ?zsum_cons; cbn [fst snd];
      generalize (amount_at GPU has); intros a;
      repeat match goal with |- context [zsum ?l] => generalize (zsum l); intro end; cbn; f_equal; lia.
  - assert (String.eqb (node_model (node, has)) name = false) as -> by (by apply String.eqb_neq, not_eq_sym).
    done.
Qed.
Lemma add_nodes_keys free out :
  NoDup out.*1 -> NoDup (foldl (add_node held closed model_of worker) out free).*1.
Proof.
  revert out. induction free as [|[node has] free IH]; intros out Hnd; [done|]. apply IH. by apply dset_keys.
Qed.
End AddNodes.

Lemma insert_item_perm kv l : insert_item kv l ≡ₚ kv :: l.
Proof. induction l as [|kv' l IH]; cbn; [done|]. destruct (String.ltb _ _); [done|]. rewrite IH. constructor. Qed.
Lemma sorted_items_perm l : sorted_items l ≡ₚ l.
Proof.
  unfold sorted_items. assert (H : forall acc, foldl (fun acc kv => insert_item kv acc) acc l ≡ₚ acc ++ l).
  { induction l as [|kv l IH]; intros acc; cbn [foldl]; [by rewrite app_nil_r|].
    by rewrite IH, insert_item_perm, <- Permutation_middle. }
  by rewrite H.
Qed.
Lemma dget_filter {V} (p : V -> bool) k (l : list (string * V)) : NoDup l.*1 ->
  dget k (List.filter (fun kv => p kv.2) l) = match dget k l with Some v => if p v then Some v else None | None => None end.
Proof.
  induction l as [|[k' v] l IH]; intros Hnd; [done|]. apply NoDup_cons in Hnd as [Hni Hnd]. cbn [List.filter dget snd].
  destruct (p v) eqn:Ep; cbn [dget]; case_decide as Hk; try by apply IH.
  - by rewrite Ep.
  - subst. rewrite Ep, IH by done. destruct (dget k' l) as [w|] eqn:E; [|done]. exfalso. apply Hni.
    apply dget_elem in E. apply list_elem_of_fmap. by exists (k', w).
Qed.

Lemma filter_keys {V} (p : string * V -> bool) (l : list (string * V)) : NoDup l.*1 -> NoDup (List.filter p l).*1.
Proof.
  induction l as [|kv l IH]; intros Hnd; [done|]. apply NoDup_cons in Hnd as [Hni Hnd]. cbn [List.filter].
  destruct (p kv); [|by apply IH]. apply NoDup_cons. split; [|by apply IH]. intros H. apply Hni.
  apply list_elem_of_fmap in H as (x & Hx & H). apply list_elem_of_fmap. exists x. split; [done|].
  apply list_elem_of_In. apply list_elem_of_In, filter_In in H. by apply H.
Qed.
Lemma memory_keys l out out' : ofold memory_sample out l = Some out' -> NoDup out.*1 -> NoDup out'.*1.
Proof.
  revert out. induction l as [|s l IH]; intros out; [by intros [= ->]|].
  intros (acc & Hc & H)%ofold_cons Hnd. apply (IH _ H). revert Hc. unfold memory_sample.
  destruct (label "modelName" s); cbn; [|done]. destruct (parse_float (value s)); cbn; [|done].
  intros [= <-]. by apply dset_keys.
Qed.
(** A sample of memory counts no GPUs. *)
Definition uncounted (out : Models) : Prop :=
  forall n, exists gb, model_at n out = mkModel gb 0 0 0 0.
Lemma memory_uncounted l out out' : ofold memory_sample out l = Some out' -> uncounted out -> uncounted out'.
Proof.
  revert out. induction l as [|s l IH]; intros out; [by intros [= ->]|].
  intros (acc & Hc & H)%ofold_cons Hz. apply (IH _ H). revert Hc. unfold memory_sample.
  destruct (label "modelName" s) as [m|]; cbn [mbind option_bind]; [|done].
  destruct (parse_float (value s)) as [v|]; cbn [mbind option_bind]; [|done].
  intros [= <-] n. unfold model_at at 1. rewrite dget_or_dset. case_decide; [|apply Hz].
  destruct (Hz m) as [gb ->]. by eexists.
Qed.
Lemma by_model_loop held closed model_of w sold free name :
  NoDup sold.*1 -> uncounted sold ->
  let out := foldl (add_node held closed model_of w) sold free in
  let sums := model_sums held closed model_of w (memory_gb (model_at name sold)) name free in
  dget name (List.filter (fun nm => negb (gpus nm.2 =? 0)) (sorted_items out))
  = if gpus sums =? 0 then None else Some sums.
Proof.
  intros Hnd Hz out sums. assert (Hk : NoDup out.*1) by by apply add_nodes_keys.
  assert (Hs : model_at name out = sums).
  { unfold out. unfold sums. rewrite add_nodes_sums. destruct (Hz name) as [gb ->]. done. }
  rewrite (dget_filter (fun m => negb (gpus m =? 0))) by by rewrite sorted_items_perm.
  rewrite (dget_perm name _ out) by (by rewrite ?sorted_items_perm). unfold model_at, dget_or in Hs.
  destruct (dget name out) as [m|]; cbn in Hs; rewrite <- Hs; [|done]. by destruct (gpus m =? 0).
Qed.
Lemma sum_of_bound node r l : sum_of node r (List.filter (fun s => dhas "node" (metric s)) l) = sum_of node r l.
Proof.
  unfold sum_of. do 2 f_equal. induction l as [|s l IH]; cbn; [done|]. destruct (dhas "node" (metric s)) eqn:E; cbn.
  - by rewrite IH.
  - rewrite IH. unfold of_node, label, dhas in *. by destruct (dget "node" (metric s)).
Qed.

(** [by_model] against sums.  Its answer has each model once, with the GPUs of
    the model's nodes and, of the nodes that take pods only, the free GPUs and the
    workers that fit beside what is held and on an empty node; a model without GPUs is left out.
    What a node has, or holds, of a resource is the sum of its samples. *)
Theorem by_model_sums allocatable requested unschedulable models memory w out :
  by_model allocatable requested unschedulable models memory w = Some out ->
  exists free held closed model_of sold,
    free_by_node allocatable requested unschedulable = Some (free, held, closed) /\
    ofold hostname_model [] models = Some model_of /\ ofold memory_sample [] memory = Some sold /\
    NoDup out.*1 /\
    (forall name, let sums := model_sums held closed model_of w (memory_gb (model_at name sold)) name free in
       dget name out = if gpus sums =? 0 then None else Some sums) /\
    (forall node r, (amount_at r (at_node node free) == sum_of node r allocatable)%Q /\
       (amount_at r (at_node node held) == sum_of node r requested)%Q).
Proof.
  unfold by_model. destruct (free_by_node _ _ _) as [[[free held] closed]|] eqn:Ef; cbn; [|done].
  destruct (ofold hostname_model [] models) as [model_of|] eqn:Em; cbn; [|done].
  destruct (ofold memory_sample [] memory) as [sold|] eqn:Es; cbn; [|done]. intros [= <-].
  exists free, held, closed, model_of, sold. do 3 (split; [done|]).
  assert (Hnd : NoDup sold.*1) by (eapply memory_keys; [done|apply NoDup_nil_2]).
  assert (Hz : uncounted sold) by (eapply memory_uncounted; [done|]; intros n; by exists None).
  split; [|split].
  - apply filter_keys. rewrite sorted_items_perm. by apply add_nodes_keys.
  - intros name. by apply by_model_loop.
  - intros node r. unfold free_by_node in Ef. destruct (ofold count [] allocatable) as [fr|] eqn:E1; cbn in Ef; [|done].
    destruct (ofold count [] (List.filter _ requested)) as [he|] eqn:E2; cbn in Ef; [|done].
    destruct (mapM (label "node") unschedulable); cbn in Ef; [|done]. injection Ef as -> -> ->.
    rewrite (count_sum _ _ _ E1), (count_sum _ _ _ E2), sum_of_bound. cbn. by rewrite !Qplus_0_l.
Qed.
Definition demo_sample (node r v : string) : Sample := mkSample [("node", node); ("resource", r)]%string v.
Definition demo_has : list Sample :=
  [demo_sample "n1" GPU "8"; demo_sample "n1" "cpu" "64"; demo_sample "n1" "memory" "549755813888";
   demo_sample "n2" GPU "4"; demo_sample "n2" "cpu" "1"]%string.
Definition demo_held : list Sample := [demo_sample "n1" GPU "3"; mkSample [("resource", "cpu")] "2"]%string.
Definition demo_closed : list Sample := [mkSample [("node", "n2")] "1"]%string.
Definition demo_names : list Sample := [mkSample [("Hostname", "n1"); ("modelName", "A100")] "1"]%string.
Definition demo_memory : list Sample := [mkSample [("modelName", "A100")] "81920"]%string.
Definition demo_worker : Worker := mkWorker 1 4 16.
Definition demo_models : Models :=
  default [] (by_model demo_has demo_held demo_closed demo_names demo_memory demo_worker).
Lemma by_model_sums_witness :
  map (fun nm => (nm.1, gpus nm.2, free_gpus nm.2, workers nm.2, workers_empty nm.2)) demo_models
    = [("", 4, 0, 0, 0); ("A100", 8, 5, 5, 8)]%string /\ NoDup demo_models.*1.
Proof.
  split; [vm_compute; reflexivity|].
  destruct (by_model_sums demo_has demo_held demo_closed demo_names demo_memory demo_worker demo_models)
    as (? & ? & ? & ? & ? & _ & _ & _ & H & _); [vm_compute; reflexivity|exact H].
Defined.

(** ** [room] *)

Lemma py_int_mono p q : (p <= q)%Q -> py_int p <= py_int q.
Proof.
  intros H. unfold py_int. destruct (p <?q 0) eqn:Ep, (q <?q 0) eqn:Eq; breflect.
  - apply Z.opp_le_mono. rewrite !Z.opp_involutive. apply Qfloor_resp_le. lra.
  - assert (0 <= Qfloor (- p)) by (apply floor_le_iff; change (qz 0) with 0%Q; lra).
    assert (0 <= Qfloor q) by (apply floor_le_iff; exact Eq). lia.
  - lra.
  - by apply Qfloor_resp_le.
Qed.
(** What is held leaves no more room than an empty node. *)
Definition nonneg (a : Amounts) : Prop := forall r, (0 <= amount_at r a)%Q.
Lemma fitting_mono has held w : worker_ok w -> nonneg held -> fitting has held w <= fitting has [] w.
Proof.
  intros Hw Hh. set (n := fitting has held w). destruct (Z.le_gt_cases n 0); [unfold n, fitting in *; lia|].
  apply fits_iff; [done..|]. assert (Hf : fits n has held w) by (by apply fits_iff).
  destruct Hf as (H1 & H2 & H3). unfold fits.
  assert (E0 : forall r, amount_at r [] = 0%Q) by done. rewrite !E0.
  pose proof (Hh GPU). pose proof (Hh "cpu"%string). pose proof (Hh "memory"%string). repeat split; lra.
Qed.
Lemma zsum_map_le {A} (f g : A -> Z) l : Forall (fun x => f x <= g x) l -> zsum (map f l) <= zsum (map g l).
Proof. induction 1; cbn; unfold zsum in *; cbn; lia. Qed.
Lemma sum_of_nonneg node r l : Forall (fun s => (0 <= sample_value s)%Q) l -> (0 <= sum_of node r l)%Q.
Proof.
  unfold sum_of. induction 1 as [|s l Hs Hl IH]; [done|]. cbn [List.filter]. destruct (of_node node r s); [|done].
  cbn [map]. change (qsum (?x :: ?l)) with (x + qsum l)%Q. lra.
Qed.

(** What a job may count on.  The models [room] counts on are those of a known
    name and memory that have, but for the slack, what the job asks, or any if it
    asks for none; the workers that fit now are theirs, summed, and never more
    than fit on empty nodes. *)
Theorem room_sound allocatable requested unschedulable names memory w models ask :
  worker_ok w -> Forall (fun s => (0 <= sample_value s)%Q) requested ->
  by_model allocatable requested unschedulable names memory w = Some models ->
  let r := room models ask in
  0 <= r_workers r <= r_workers_empty r /\
  (forall name m, dget name models = Some m ->
     allowed (r_models r) name = true <->
     (ask == 0)%Q \/ name <> ""%string /\ exists gb, memory_gb m = Some gb /\ (ask * MEMORY_SLACK <= gb)%Q) /\
  (forall l, r_models r = Some l -> forall name, name ∈ l -> exists m, dget name models = Some m).
Proof.
  intros Hw Hr Hm. destruct (by_model_sums _ _ _ _ _ _ _ Hm) as (free & held & closed & model_of & sold & _ & _ & _ & Hnd & Hs & Hsum).
  assert (Hheld : forall node, nonneg (at_node node held)).
  { intros node r. rewrite (proj2 (Hsum node r)). by apply sum_of_nonneg. }
  assert (Hok : Forall (fun nm : string * Model => 0 <= workers nm.2 <= workers_empty nm.2) models).
  { apply Forall_forall. intros [name m] Hin. apply (elem_dget _ _ _ Hnd) in Hin. rewrite Hs in Hin.
    destruct (gpus _ =? 0); [done|]. injection Hin as <-. cbn. split.
    - apply zsum_nonneg, List.Forall_map, List.Forall_forall. intros x _. unfold fitting. lia.
    - apply zsum_map_le, List.Forall_forall. intros x _. by apply fitting_mono. }
  cbv zeta. split; [|split].
  - unfold room. cbn [r_workers r_workers_empty]. revert Hok. generalize (allowed (with_memory models ask)). intros p Hok.
    clear - Hok. induction Hok as [|nm l Hx Hl IH]; [done|]. cbn [List.filter]. destruct (p nm.1); cbn [map];
      rewrite ?zsum_cons; lia.
  - intros name m Hin. cbn [room r_models]. unfold allowed, with_memory.
    destruct (Qeq_bool ask 0) eqn:E; [apply Qeq_bool_iff in E; tauto|]. apply Qeq_bool_neq in E.
    rewrite bool_decide_eq_true, list_elem_of_In, in_map_iff. split.
    + intros ([n m'] & Hn & Hf). cbn in Hn. subst n. apply filter_In in Hf as [Hf Hc]. right.
      apply list_elem_of_In, (elem_dget _ _ _ Hnd) in Hf. assert (m' = m) as -> by congruence. cbn in Hc.
      apply andb_true_iff in Hc as [Hc1 Hc2]. split; [by apply negb_true_iff, String.eqb_neq in Hc1|].
      destruct (memory_gb m) as [gb|]; [|done]. exists gb. split; [done|]. by apply qle_true.
    + intros [?|(Hne & gb & Hgb & Hle)]; [done|]. exists (name, m). split; [done|]. apply filter_In.
      split; [by apply list_elem_of_In, dget_elem|]. cbn. rewrite Hgb. apply andb_true_iff.
      split; [by apply negb_true_iff, String.eqb_neq|by apply qle_true].
  - intros l Hl name Hin. revert Hl. cbn [room r_models]. unfold with_memory. destruct (Qeq_bool ask 0); [done|].
    intros [= <-]. apply list_elem_of_In, in_map_iff in Hin as ([n m] & <- & Hf). exists m.
    apply filter_In in Hf as [Hf _]. apply elem_dget; [done|]. by apply list_elem_of_In.
Qed.
Lemma room_sound_witness :
  room demo_models 80 = mkRoom 5 8 (Some ["A100"%string]) /\ 0 <= r_workers (room demo_models 80) <= 8.
Proof.
  split; [vm_compute; reflexivity|].
  assert (Hw : worker_ok demo_worker) by done.
  assert (Hr : Forall (fun s => (0 <= sample_value s)%Q) demo_held).
  { repeat (constructor; [apply Qle_bool_iff; vm_compute; reflexivity|]). constructor. }
  exact (proj1 (room_sound demo_has demo_held demo_closed demo_names demo_memory demo_worker demo_models 80 Hw Hr
    ltac:(vm_compute; reflexivity))).
Defined.
