(* ===== verification/LlmConfig.v ===== *)
(** [apps/agentic-analysis/llm_proxy.py]: the settings, models and roles of
    models.toml, and [load], which checks them. *)
From S2P Require Import Prelude PyJson.
Open Scope Z_scope.

(** ** Constants *)

Definition SHARE : Q := 35 # 100.
Definition WINDOW : Q := 900.
Definition SAMPLES : nat := 5.
Definition SLOW_DECODE : Q := 1 # 10.
Definition SLOW_TTFT : Q := 9 # 10.
Definition TTFT_SLOWDOWN : Q := 3.
Definition DECODE_SLOWDOWN : Q := 1 # 2.
Definition SHRINK_PERIOD : Q := 300.
Definition GROW_PERIOD : Q := 600.
Definition FAILING_SECONDS : Q := 1800.
Definition UNHEALTHY_SECONDS : Q := 600.
Definition EARLY_CUT : Q := 9 # 10.
Definition CUT_SHRINK : Q := 8 # 10.
Definition DECODE_TOKENS : Z := 50.
Definition DECODE_SECONDS : Q := 1.
Definition RATE_LIMIT_WAIT : Q := 60.
Definition AGING : Q := 600.
Definition STICKY : Z := 10000.
Definition RETRY_AFTER : Z := 30.

(** ** Data *)

Record Settings := mkSettings {
  upstream : string; port : Z; max_body_bytes : Z; bytes_per_token : Q;
  keepalive_seconds : Q; hold_hours : Q; stream_seconds : Q; cut_seconds : Q;
  backoff_seconds : Q; backoff_max_seconds : Q; cut_retries : Z;
  drain_seconds : Q; budget_fraction : Q; s_output_per_minute : Z }.

Record Model := mkModel {
  m_name : string; m_context : Z; m_slots : Z * Z; budget : Z;
  output_per_minute : Z; max_tokens : Z * Z; image_tokens : Z;
  ttft : Q * Q; decode : Q * Q; variants : list (string * json) }.

Record Backend := mkBackend { b_model : string; variant : string }.
#[export] Instance Backend_eq_dec : EqDecision Backend.
Proof. solve_decision. Defined.

Definition Backend_str (b : Backend) : string :=
  if String.eqb (variant b) "" then b_model b else (b_model b ++ "#" ++ variant b)%string.

Record Role := mkRole {
  r_name : string; backends : list Backend; r_context : Z; compact_at : Z;
  r_images : Z; rank : Z }.

Record Config := mkConfig {
  settings : Settings; models : list (string * Model); roles : list (string * Role) }.

(** ** [_budget] *)

(** [float(f"{x:.3g}")]: three significant figures, ties to even. *)
Fixpoint exponent_up (fuel : nat) (x : Q) (e : Z) : Z :=
  match fuel with
  | O => e
  | S fuel => if 10 <=?q x then exponent_up fuel (Qred (x / 10)) (e + 1) else e
  end.
Fixpoint exponent_down (fuel : nat) (x : Q) (e : Z) : Z :=
  match fuel with
  | O => e
  | S fuel => if x <?q 1 then exponent_down fuel (Qred (x * 10)) (e - 1) else e
  end.
Definition round_half_even (x : Q) : Z :=
  let n := Qfloor x in
  let r := (x - qz n)%Q in
  if r <?q (1 # 2) then n
  else if (1 # 2) <?q r then n + 1
  else if Z.even n then n else n + 1.
(** A float is below 10^309 and above 10^-324. *)
Definition three_figures (x : Q) : Q :=
  if x <=?q 0 then 0 else
  let e := exponent_down 324 x (exponent_up 309 x 0) in
  let unit := Qpower 10 (e - 2) in
  (qz (round_half_even (x / unit)) * unit)%Q.

Definition _budget (fraction : Q) (context : Z) : Z :=
  py_int (three_figures (fraction * SHARE * qz context)).

(** ** [load] *)

(** models.toml as [tomllib.loads] returns it: a table for each name, whose
    optional keys are options. *)
Record RawModel := mkRawModel {
  rm_context : Z; rm_slots : list Z; rm_budget : option Z; rm_output_per_minute : option Z;
  rm_max_tokens : list Z; rm_image_tokens : Z; rm_ttft : list Q; rm_decode : list Q;
  rm_variants : option (list (string * json)) }.
Record RawRole := mkRawRole {
  rr_backends : list string; rr_context : Z; rr_compact_at : Z; rr_images : Z; rr_class : Z }.
Record Raw := mkRaw {
  raw_proxy : Settings; raw_models : list (string * RawModel); raw_roles : list (string * RawRole) }.

Inductive LoadError := ConfigError (why : string) | IndexError.

(** [(l[0], l[1])] *)
Definition pair_of {A} (l : list A) : res LoadError (A * A) :=
  match l with a :: b :: _ => Ok (a, b) | _ => Err IndexError end.

Definition load_model (st : Settings) (name : string) (m : RawModel) : res LoadError Model :=
  slots ← pair_of (rm_slots m);
  mt ← pair_of (rm_max_tokens m);
  tt ← pair_of (rm_ttft m);
  dec ← pair_of (rm_decode m);
  let model := {|
    m_name := name; m_context := rm_context m; m_slots := slots;
    budget := default (_budget (budget_fraction st) (rm_context m)) (rm_budget m);
    output_per_minute := default (s_output_per_minute st) (rm_output_per_minute m);
    max_tokens := mt; image_tokens := rm_image_tokens m; ttft := tt; decode := dec;
    variants := default [] (rm_variants m) |} in
  if negb ((1 <=? slots.1) && (slots.1 <=? slots.2)) then
    Err (ConfigError (name ++ ": slots must be 1 <= start <= max"))
  else if negb ((0 <? mt.1) && (mt.1 <=? mt.2)) then
    Err (ConfigError (name ++ ": max_tokens must be 0 < floor <= ceiling"))
  else Ok model.

Fixpoint load_models (st : Settings) (ms : list (string * RawModel))
    (acc : list (string * Model)) : res LoadError (list (string * Model)) :=
  match ms with
  | [] => Ok acc
  | (name, m) :: ms' =>
      model ← load_model st name m;
      load_models st ms' (dset name model acc)
  end.

Definition load_backend (ms : list (string * Model)) (name : string) (images : Z)
    (entry : string) : res LoadError Backend :=
  let '(model_name, rest) := str_partition "#" entry in
  let variant := default ""%string rest in
  match dget model_name ms with
  | None => Err (ConfigError (name ++ ": no model '" ++ model_name ++ "'"))
  | Some m =>
      if negb (String.eqb variant "") && negb (dhas variant (variants m)) then
        Err (ConfigError (name ++ ": " ++ model_name ++ " has no variant '" ++ variant ++ "'"))
      else if negb (images =? 0) && (image_tokens m =? 0) then
        Err (ConfigError (name ++ ": " ++ model_name ++ " takes no images"))
      else Ok (mkBackend model_name variant)
  end.

Definition load_role (ms : list (string * Model)) (name : string) (r : RawRole)
    : res LoadError Role :=
  bs ← rmap (load_backend ms name (rr_images r)) (rr_backends r);
  match bs with
  | [] => Err (ConfigError (name ++ ": no backends"))
  | _ => Ok {| r_name := name; backends := bs; r_context := rr_context r;
               compact_at := rr_compact_at r; r_images := rr_images r; rank := rr_class r |}
  end.

Fixpoint load_roles (ms : list (string * Model)) (rs : list (string * RawRole))
    (acc : list (string * Role)) : res LoadError (list (string * Role)) :=
  match rs with
  | [] => Ok acc
  | (name, r) :: rs' =>
      role ← load_role ms name r;
      load_roles ms rs' (dset name role acc)
  end.

Definition load (raw : Raw) : res LoadError Config :=
  let st := raw_proxy raw in
  ms ← load_models st (raw_models raw) [];
  rs ← load_roles ms (raw_roles raw) [];
  Ok (mkConfig st ms rs).

(** ** What [load] guarantees *)

Record model_ok (m : Model) : Prop := {
  mo_slots : 1 <= (m_slots m).1 <= (m_slots m).2;
  mo_tokens : 0 < (max_tokens m).1 <= (max_tokens m).2 }.

Record backend_ok (ms : list (string * Model)) (images : Z) (b : Backend) : Prop := {
  bo_model : exists m, dget (b_model b) ms = Some m /\
    (variant b <> ""%string -> dhas (variant b) (variants m) = true) /\
    (images <> 0 -> image_tokens m <> 0) }.

Record config_ok (c : Config) : Prop := {
  co_models : forall n m, dget n (models c) = Some m -> model_ok m /\ m_name m = n;
  co_roles : forall n r, dget n (roles c) = Some r ->
    r_name r = n /\ backends r <> [] /\
    Forall (backend_ok (models c) (r_images r)) (backends r) }.

Lemma load_model_ok st name m model :
  load_model st name m = Ok model -> model_ok model /\ m_name model = name.
Proof.
  unfold load_model, mbind, res_bind.
  destruct (pair_of (rm_slots m)) as [sl|], (pair_of (rm_max_tokens m)) as [mt|],
    (pair_of (rm_ttft m)) as [tt|], (pair_of (rm_decode m)) as [dec|]; try done.
  destruct ((1 <=? sl.1) && _) eqn:E1; [|done]. destruct ((0 <? mt.1) && _) eqn:E2; [|done].
  intros [= <-]. breflect. split; [split; cbn; lia | done].
Qed.

Lemma load_models_ok st raws acc ms :
  (forall n m, dget n acc = Some m -> model_ok m /\ m_name m = n) ->
  load_models st raws acc = Ok ms ->
  forall n m, dget n ms = Some m -> model_ok m /\ m_name m = n.
Proof.
  revert acc. induction raws as [|[name raw] raws IH]; intros acc Hacc; cbn.
  { intros [= <-]. done. }
  unfold mbind, res_bind. destruct (load_model st name raw) as [model|] eqn:E; [|done].
  apply IH. intros n m. destruct (decide (name = n)) as [<-|Hne].
  - rewrite dget_dset. intros [= <-]. by eapply load_model_ok.
  - rewrite dget_dset_ne by done. apply Hacc.
Qed.

Lemma load_backend_ok ms name images entry b :
  load_backend ms name images entry = Ok b -> backend_ok ms images b.
Proof.
  unfold load_backend. destruct (str_partition "#" entry) as [mn rest].
  destruct (dget mn ms) as [m|] eqn:Em; [|done].
  destruct (negb _ && negb _) eqn:E1; [done|]. destruct (negb (images =? 0) && _) eqn:E2; [done|].
  intros [= <-]. split. exists m. cbn. split; [done|]. split.
  - intros Hv. apply andb_false_iff in E1 as [E1|E1]; apply negb_false_iff in E1; [|done].
    by apply String.eqb_eq in E1.
  - breflect. destruct E2 as [E2|E2]; breflect; lia.
Qed.

Lemma rmap_ok {Er A B} (f : A -> res Er B) l bs (P : B -> Prop) :
  (forall x b, f x = Ok b -> P b) -> rmap f l = Ok bs -> Forall P bs.
Proof.
  intros Hf. revert bs. induction l as [|x l IH]; cbn; intros bs.
  - intros [= <-]. constructor.
  - unfold mbind, res_bind. destruct (f x) as [b|] eqn:E; [|done].
    destruct (rmap f l) as [ys|]; [|done]. intros [= <-]. constructor; eauto.
Qed.

Lemma load_role_ok ms name r role :
  load_role ms name r = Ok role ->
  r_name role = name /\ backends role <> [] /\
  Forall (backend_ok ms (r_images role)) (backends role).
Proof.
  unfold load_role, mbind, res_bind. destruct (rmap _ _) as [bs|] eqn:E; [|done].
  eapply (rmap_ok _ _ _ (backend_ok ms (rr_images r))) in E; [|intros ??; apply load_backend_ok].
  destruct bs; [done|]. by intros [= <-].
Qed.

Lemma load_roles_ok ms raws acc rs :
  let good n r := r_name r = n /\ backends r <> [] /\
                  Forall (backend_ok ms (r_images r)) (backends r) in
  (forall n r, dget n acc = Some r -> good n r) ->
  load_roles ms raws acc = Ok rs ->
  forall n r, dget n rs = Some r -> good n r.
Proof.
  intros good. revert acc. induction raws as [|[name raw] raws IH]; intros acc Hacc; cbn.
  { intros [= <-]. done. }
  unfold mbind, res_bind. destruct (load_role ms name raw) as [role|] eqn:E; [|done].
  apply IH. intros n r. destruct (decide (name = n)) as [<-|Hne].
  - rewrite dget_dset. intros [= <-]. by eapply load_role_ok.
  - rewrite dget_dset_ne by done. apply Hacc.
Qed.

(** C34: what [load] accepts has what it checks: every model has
    [1 <= start <= max] slots and [0 < floor <= ceiling] of [max_tokens], every
    role has a backend, and every backend of a role names a model and variant
    that exist, a model that takes images if the role may send any.  The settings
    are not checked: a [bytes_per_token] of 0 is accepted. *)
Theorem load_sound raw c : load raw = Ok c -> config_ok c.
Proof.
  unfold load, mbind, res_bind. destruct (load_models _ _ _) as [ms|] eqn:Em; [|done].
  destruct (load_roles _ _ _) as [rs|] eqn:Er; [|done]. intros [= <-]. split; cbn.
  - eapply load_models_ok, Em. done.
  - eapply load_roles_ok, Er. done.
Qed.

Definition demo_settings : Settings := {|
  upstream := "https://llm"; port := 8080; max_body_bytes := 1000000;
  bytes_per_token := 3; keepalive_seconds := 15; hold_hours := 2; stream_seconds := 600;
  cut_seconds := 900; backoff_seconds := 5; backoff_max_seconds := 120; cut_retries := 2;
  drain_seconds := 60; budget_fraction := 1 # 2; s_output_per_minute := 20000 |}.
Definition demo_raw : Raw := {|
  raw_proxy := demo_settings;
  raw_models := [("qwen", {| rm_context := 262144; rm_slots := [4; 8]; rm_budget := None;
    rm_output_per_minute := None; rm_max_tokens := [1000; 32000]; rm_image_tokens := 0;
    rm_ttft := [5; 20]%Q; rm_decode := [40; 20]%Q;
    rm_variants := Some [("think", JObj [("temperature", JInt 1)])] |})]%string;
  raw_roles := [("coder", {| rr_backends := ["qwen#think"; "qwen"]; rr_context := 65536;
    rr_compact_at := 50000; rr_images := 0; rr_class := 1 |})]%string |}.
Definition demo_config : Config :=
  match load demo_raw with Ok c => c | Err _ => mkConfig demo_settings [] [] end.

Example demo_budget : _budget (1 # 2) 262144 = 45900.
Proof. vm_compute. reflexivity. Qed.
Lemma load_sound_witness : load demo_raw = Ok demo_config /\ config_ok demo_config.
Proof.
  assert (H : load demo_raw = Ok demo_config) by (vm_compute; reflexivity).
  split; [exact H | exact (load_sound demo_raw demo_config H)].
Defined.
