(* ===== verification/LlmGate.v ===== *)
(** [Gate] of [apps/agentic-analysis/llm_proxy.py]: admission to one model.
    Every method runs under the gate's lock, so each is one step here; [acquire],
    which waits, is the registration of a request and the passes of its loop. *)
From S2P Require Import Prelude LlmConfig.
Open Scope Z_scope.

(** ** State *)

Record Gate := mkGate {
  model : Model; g_settings : Settings;
  slots : Z; busy : Z; held : Z;
  output : list (Q * Z); ttfts : list (Q * Q); decodes : list (Q * Q);
  waiting : list (Z * (Z * Q));
  paused_until : Q; failures : Z; failing_since : option Q; last_failure : instant;
  unhealthy_until : Q; adjusted : instant; _seq : Z }.
#[export] Instance eta_gate : Eta Gate := {| eta_of g :=
  mkGate (model g) (g_settings g) (slots g) (busy g) (held g) (output g) (ttfts g)
    (decodes g) (waiting g) (paused_until g) (failures g) (failing_since g)
    (last_failure g) (unhealthy_until g) (adjusted g) (_seq g) |}.

Definition gate_init (m : Model) (st : Settings) : Gate := {|
  model := m; g_settings := st; slots := (m_slots m).1; busy := 0; held := 0;
  output := []; ttfts := []; decodes := []; waiting := []; paused_until := 0;
  failures := 0; failing_since := None; last_failure := None; unhealthy_until := 0;
  adjusted := None; _seq := 0 |}.

(** ** Operations *)

(** [while samples and now - samples[0][0] > age: samples.popleft()] *)
Fixpoint drop_older {A} (now age : Q) (l : list (Q * A)) : list (Q * A) :=
  match l with
  | [] => []
  | (t, a) :: l' => if (now - t)%Q >?q age then drop_older now age l' else l
  end.

Definition _out (now : Q) (g : Gate) : Z * Gate :=
  let out := drop_older now 60 (output g) in
  (zsum out.*2, g <| output := out |>).

(** The last condition alone changes the gate, and only when it is reached. *)
Definition _fits (tokens : Z) (now : Q) (g : Gate) : bool * Gate :=
  if (busy g <? slots g)
     && ((held g + tokens <=? budget (model g)) || (busy g =? 0))
     && (paused_until g <=?q now)
  then let '(n, g') := _out now g in (n <? output_per_minute (model g), g')
  else (false, g).

Definition order (now : Q) (item : Z * Q) : Z * Q :=
  let '(rank, since) := item in
  (Z.max 0 (rank - floordiv (now - since) AGING), since).
(** [a < b] of two such tuples. *)
Definition order_lt (a b : Z * Q) : bool :=
  (a.1 <? b.1) || ((a.1 =? b.1) && (a.2 <?q b.2)).
(** [min(items, key=order)]: the first of the smallest. *)
Fixpoint min_by (now : Q) (best : Z * (Z * Q)) (l : list (Z * (Z * Q))) : Z * (Z * Q) :=
  match l with
  | [] => best
  | x :: l' =>
      min_by now (if order_lt (order now x.2) (order now best.2) then x else best) l'
  end.
Definition _first (seq : Z) (now : Q) (g : Gate) : bool :=
  match waiting g with
  | [] => false
  | x :: l => (min_by now x l).1 =? seq
  end.

(** [acquire] up to its loop: the request joins the queue. *)
Definition acquire_enter (rank : Z) (now : Q) (g : Gate) : Z * Gate :=
  let seq := _seq g + 1 in
  (seq, g <| _seq := seq |> <| waiting := dset seq (rank, now) (waiting g) |>).

Inductive Poll := Granted | GaveUp | Waits (timeout : Q).

(** The [finally] of [acquire]. *)
Definition acquire_leave (seq : Z) (g : Gate) : Gate :=
  g <| waiting := ddel seq (waiting g) |>.

(** One pass of the loop of [acquire], at [now]: it returns, or waits for a
    notification or at most [timeout]. *)
Definition acquire_poll (seq tokens : Z) (deadline : Q) (cancelled : bool) (now : Q)
    (g : Gate) : Poll * Gate :=
  if cancelled then (GaveUp, acquire_leave seq g) else
  let '(fits, g) := _fits tokens now g in
  if fits && _first seq now g then
    (Granted, acquire_leave seq
                 (g <| busy := busy g + 1 |> <| held := held g + tokens |>))
  else if deadline <=?q now then (GaveUp, acquire_leave seq g)
  else
    let wake := Qmin 1 (deadline - now) in
    (Waits (if now <?q paused_until g then Qmin wake (paused_until g - now) else wake), g).

Definition release (tokens completion : Z) (now : Q) (g : Gate) : Gate :=
  let g := g <| busy := busy g - 1 |> <| held := held g - tokens |> in
  if completion =? 0 then g else g <| output := output g ++ [(now, completion)] |>.

(** [_quantile]: the code calls it on lists that are not empty. *)
Definition _quantile (values : list Q) (q : Q) : Q :=
  let ordered := qsorted values in
  let n := Z.of_nat (List.length ordered) in
  nth (Z.to_nat (Z.min (n - 1) (py_int (q * qz n)))) ordered 0%Q.

Definition _trim (now : Q) (g : Gate) : Gate :=
  g <| ttfts := drop_older now WINDOW (ttfts g) |>
    <| decodes := drop_older now WINDOW (decodes g) |>.

Definition cap (now : Q) (g : Gate) : Z * Gate :=
  let '(floor, ceiling) := max_tokens (model g) in
  let g := _trim now g in
  let '(slow, late) :=
    if (SAMPLES <=? List.length (decodes g))%nat then
      (_quantile (decodes g).*2 SLOW_DECODE,
       match ttfts g with [] => 0%Q | l => _quantile l.*2 SLOW_TTFT end)
    else ((decode (model g)).2, (ttft (model g)).2) in
  let within := py_int (slow * (stream_seconds (g_settings g) - late)) in
  (Z.max floor (Z.min ceiling within), g).

(** [statistics.median], of a list that is not empty. *)
Definition median (values : list Q) : Q :=
  let data := qsorted values in
  let n := List.length data in
  let i := (n / 2)%nat in
  if Nat.even n then ((nth (i - 1) data 0 + nth i data 0) / 2)%Q else nth i data 0%Q.

Definition _adjust (now : Q) (g : Gate) : Gate :=
  if (List.length (decodes g) <? SAMPLES)%nat || elapsed_lt now (adjusted g) SHRINK_PERIOD
  then g
  else
    let t := match ttfts g with [] => 0%Q | l => median l.*2 end in
    let d := median (decodes g).*2 in
    let slow := d <?q (DECODE_SLOWDOWN * (decode (model g)).1)%Q in
    if (t >?q (TTFT_SLOWDOWN * (ttft (model g)).1)%Q) || slow then
      g <| slots := Z.max 1 (slots g / 2) |> <| adjusted := Some now |>
    else if elapsed_ge now (adjusted g) GROW_PERIOD && (slots g <? (m_slots (model g)).2) then
      g <| slots := slots g + 1 |> <| adjusted := Some now |>
    else g.

Definition observe (t d : option Q) (now : Q) (g : Gate) : Gate :=
  let g := match t with Some x => g <| ttfts := ttfts g ++ [(now, x)] |> | None => g end in
  let g := match d with Some x => g <| decodes := decodes g ++ [(now, x)] |> | None => g end in
  _adjust now (_trim now g).

Definition succeeded (t d : option Q) (now : Q) (g : Gate) : Gate :=
  observe t d now (g <| failures := 0 |> <| failing_since := None |>).

(** The steps of [failed]: a failure long ago no longer counts; this one does;
    the slots halve at most once in [SHRINK_PERIOD]; and a model that has failed
    for [FAILING_SECONDS] is unhealthy. *)
Definition forget_failures (now : Q) (g : Gate) : Gate :=
  if elapsed_gt now (last_failure g) (backoff_max_seconds (g_settings g))
  then g <| failures := 0 |> <| failing_since := None |> else g.
Definition failing_from (now : Q) (g : Gate) : Q :=
  match failing_since g with Some t => if Qeq_bool t 0 then now else t | None => now end.
Definition count_failure (now : Q) (g : Gate) : Gate :=
  g <| failing_since := Some (failing_from now g) |> <| failures := failures g + 1 |>
    <| last_failure := Some now |>.
Definition shrink (now : Q) (g : Gate) : Gate :=
  if elapsed_ge now (adjusted g) SHRINK_PERIOD then
    g <| slots := Z.max 1 (slots g / 2) |> <| adjusted := Some now |>
  else g.
Definition mark_unhealthy (now : Q) (g : Gate) : Gate :=
  match failing_since g with
  | Some since =>
      if FAILING_SECONDS <=?q (now - since)%Q then
        g <| unhealthy_until := (now + UNHEALTHY_SECONDS)%Q |>
      else g
  | None => g
  end.

(** [failed]: the seconds to wait, where [jitter] is the [random.uniform(0.75, 1.25)]. *)
Definition failed (retry_after : option Q) (attempt : Z) (jitter : Q) (now : Q) (g : Gate)
    : Q * Gate :=
  let g := mark_unhealthy now (shrink now (count_failure now (forget_failures now g))) in
  match retry_after with
  | Some r => (r, g <| paused_until := (now + r)%Q |>)
  | None =>
      let base := (backoff_seconds (g_settings g) * Qpower 2 (attempt - 1))%Q in
      ((Qmin (backoff_max_seconds (g_settings g)) base * jitter)%Q, g)
  end.

Definition healthy (now : Q) (g : Gate) : bool := unhealthy_until g <=?q now.

Record Status := mkStatus {
  st_slots : Z; st_busy : Z; st_held : Z; st_waiting : Z; st_output_last_minute : Z;
  st_healthy : bool; st_failures : Z }.
Definition status (now : Q) (g : Gate) : Status * Gate :=
  let '(n, g') := _out now g in
  ({| st_slots := slots g; st_busy := busy g; st_held := held g;
      st_waiting := Z.of_nat (List.length (waiting g)); st_output_last_minute := n;
      st_healthy := healthy now g; st_failures := failures g |}, g').

(** ** The order of the queue *)

Lemma order_lt_irrefl a : order_lt a a = false.
Proof.
  unfold order_lt. rewrite Z.ltb_irrefl, Z.eqb_refl. cbn. apply qlt_false. lra.
Qed.
Lemma order_lt_trans_false a b c :
  order_lt b a = false -> order_lt c b = false -> order_lt c a = false.
Proof.
  unfold order_lt. intros. breflect. apply orb_false_iff. rewrite !andb_false_iff in *.
  rewrite Z.ltb_ge, Z.eqb_neq, qlt_false in *.
  destruct (decide (c.1 = a.1)); [|lia]. split; [lia|]. right.
  assert (b.1 = a.1) by lia. destruct H1, H2; try lia. lra.
Qed.

(** The one chosen is in the list, and nothing in the list comes before it. *)
Lemma min_by_elem now best l : min_by now best l ∈ best :: l.
Proof.
  revert best. induction l as [|x l IH]; intros best; cbn [min_by]; [by left|].
  specialize (IH (if order_lt (order now x.2) (order now best.2) then x else best)).
  destruct (order_lt _ _); set_solver.
Qed.
Lemma min_by_least now best l x :
  x ∈ best :: l -> order_lt (order now x.2) (order now (min_by now best l).2) = false.
Proof.
  revert best x. induction l as [|y l IH]; intros best x; cbn [min_by].
  - intros ->%list_elem_of_singleton. apply order_lt_irrefl.
  - destruct (order_lt (order now y.2) (order now best.2)) eqn:E.
    + intros [->|[->|Hin]%elem_of_cons]%elem_of_cons.
      * eapply order_lt_trans_false; [apply (IH y y); by left|].
        unfold order_lt in *. breflect. apply orb_false_iff. rewrite !andb_false_iff.
        rewrite Z.ltb_ge, Z.eqb_neq, qlt_false.
        destruct E as [E|E]; breflect; [lia|]. split; [lia|]. right. lra.
      * apply IH. by left.
      * apply IH. by right.
    + intros [->|[->|Hin]%elem_of_cons]%elem_of_cons.
      * apply IH. by left.
      * eapply order_lt_trans_false; [apply (IH best best); by left | done].
      * apply IH. by right.
Qed.

Lemma first_least seq now g rs :
  NoDup (waiting g).*1 -> dget seq (waiting g) = Some rs -> _first seq now g = true ->
  forall seq' rs', (seq', rs') ∈ waiting g -> order_lt (order now rs') (order now rs) = false.
Proof.
  unfold _first. destruct (waiting g) as [|x l] eqn:E; [done|].
  intros Hnd Hget Hfirst%Z.eqb_eq seq' rs' Hin.
  pose proof (min_by_least now x l (seq', rs') Hin) as Hle.
  pose proof (min_by_elem now x l) as Hel. destruct (min_by now x l) as [s rs0]. cbn [fst snd] in *.
  subst s. pose proof (elem_dget seq rs0 (x :: l) Hnd Hel) as Hs. by simplify_eq.
Qed.

Lemma first_exists now g : waiting g <> [] -> exists seq rs,
  dget seq (waiting g) = Some rs /\ _first seq now g = true.
Proof.
  unfold _first. destruct (waiting g) as [|x l] eqn:E; [done|]. intros _.
  exists (min_by now x l).1. pose proof (min_by_elem now x l) as Hel.
  destruct (min_by now x l) as [s rs]. cbn [fst snd].
  assert (is_Some (dget s (x :: l))) as [rs' Hrs].
  { clear -Hel. induction (x :: l) as [|[k v] d IH]; [by apply not_elem_of_nil in Hel|].
    cbn. case_decide; [by eexists|]. apply elem_of_cons in Hel as [|]; [by simplify_eq | auto]. }
  exists rs'. split; [done | apply Z.eqb_refl].
Qed.

(** ** What each operation leaves alone *)

Lemma adjust_frame now g : exists s a, _adjust now g = g <| slots := s |> <| adjusted := a |>.
Proof.
  unfold _adjust. destruct g. cbn. repeat case_match; eexists _, _; reflexivity.
Qed.
Lemma observe_frame t d now g : exists ts ds s a,
  observe t d now g = g <| ttfts := ts |> <| decodes := ds |> <| slots := s |> <| adjusted := a |>.
Proof.
  unfold observe. destruct t, d;
    match goal with |- context [_adjust now ?x] => destruct (adjust_frame now x) as (s & a & ->) end;
    destruct g; cbn; repeat eexists.
Qed.

Lemma half_slots s m : 1 <= s <= m -> 1 <= Z.max 1 (s / 2) <= m.
Proof. intros. pose proof (Z.div_le_upper_bound s 2 s). lia. Qed.

(** The slots a gate may have. *)
Definition slots_ok (g : Gate) : Prop := 1 <= slots g <= (m_slots (model g)).2.

Lemma adjust_slots now g : slots_ok g -> slots_ok (_adjust now g).
Proof.
  unfold slots_ok, _adjust. intros H. destruct (_ || _); [done|].
  repeat case_match; cbn; try done; breflect; auto using half_slots; lia.
Qed.
Lemma observe_slots t d now g : slots_ok g -> slots_ok (observe t d now g).
Proof. intros H. unfold observe. apply adjust_slots. destruct t, d; done. Qed.

Lemma fits_frame tokens now g b g' : _fits tokens now g = (b, g') ->
  exists o, g' = g <| output := o |>.
Proof.
  unfold _fits, _out. case_match; intros [= <- <-]; [by eexists|].
  exists (output g). by destruct g.
Qed.
Lemma fits_true tokens now g g' : _fits tokens now g = (true, g') ->
  busy g < slots g /\ (held g + tokens <= budget (model g) \/ busy g = 0) /\
  (paused_until g <= now)%Q /\ zsum (drop_older now 60 (output g)).*2 < output_per_minute (model g).
Proof.
  unfold _fits, _out. destruct (_ && _ && _) eqn:E; [|done]. intros [= Hn <-].
  apply andb_true_iff in E as [[E1 E2]%andb_true_iff E3]. apply orb_true_iff in E2.
  breflect. repeat split; try done. destruct E2 as [?|?]; breflect; auto.
Qed.

(** Two gates of the same load, queue and model: what most operations keep. *)
Definition same_load (g g' : Gate) : Prop :=
  busy g' = busy g /\ held g' = held g /\ waiting g' = waiting g /\ model g' = model g /\
  _seq g' = _seq g /\ g_settings g' = g_settings g.
Lemma same_load_trans g1 g2 g3 : same_load g1 g2 -> same_load g2 g3 -> same_load g1 g3.
Proof. unfold same_load. intuition congruence. Qed.
Lemma forget_frame now g : same_load g (forget_failures now g) /\ slots (forget_failures now g) = slots g
  /\ adjusted (forget_failures now g) = adjusted g.
Proof. unfold forget_failures, same_load. case_match; done. Qed.
Lemma shrink_frame now g : same_load g (shrink now g) /\
  slots (shrink now g) = (if elapsed_ge now (adjusted g) SHRINK_PERIOD
                          then Z.max 1 (slots g / 2) else slots g).
Proof. unfold shrink, same_load. case_match; done. Qed.
Lemma mark_frame now g : same_load g (mark_unhealthy now g) /\ slots (mark_unhealthy now g) = slots g.
Proof. unfold mark_unhealthy, same_load. repeat case_match; done. Qed.

Lemma failed_frame ra n j now g w g' : failed ra n j now g = (w, g') ->
  same_load g g' /\
  slots g' = (if elapsed_ge now (adjusted g) SHRINK_PERIOD then Z.max 1 (slots g / 2) else slots g).
Proof.
  destruct (forget_frame now g) as (L1 & S1 & A1).
  pose (g1 := count_failure now (forget_failures now g)).
  destruct (shrink_frame now g1) as (L3 & S3). destruct (mark_frame now (shrink now g1)) as (L4 & S4).
  assert (L : same_load g (mark_unhealthy now (shrink now g1))).
  { eapply same_load_trans; [|exact L4]. eapply same_load_trans; [|exact L3]. exact L1. }
  change (slots g1) with (slots (forget_failures now g)) in S3.
  change (adjusted g1) with (adjusted (forget_failures now g)) in S3.
  rewrite S1, A1 in S3. rewrite S3 in S4.
  unfold failed. fold g1. destruct ra; intros [= _ <-]; auto.
Qed.
Lemma failed_slots ra n j now g w g' :
  failed ra n j now g = (w, g') -> slots_ok g -> slots_ok g'.
Proof.
  intros (L & S)%failed_frame. unfold slots_ok, same_load in *. destruct L as (_&_&_&->&_).
  rewrite S. intros. case_match; auto using half_slots.
Qed.

(** ** Many requests on one gate *)

(** The gate with the tokens of each request that it admitted and that has not
    been released, and the time. *)
Record Sys := mkSys { gate : Gate; flights : list Z; clock : Q }.

Inductive step : Sys -> Sys -> Prop :=
| step_enter g fl t now rank seq g' :
    (t <= now)%Q -> acquire_enter rank now g = (seq, g') ->
    step (mkSys g fl t) (mkSys g' fl now)
| step_poll g fl t now seq rs tokens deadline cancelled r g' :
    (t <= now)%Q -> dget seq (waiting g) = Some rs -> 0 <= tokens ->
    acquire_poll seq tokens deadline cancelled now g = (r, g') ->
    step (mkSys g fl t)
         (mkSys g' (match r with Granted => tokens :: fl | _ => fl end) now)
| step_release g fl1 tokens fl2 t now completion :
    (t <= now)%Q ->
    step (mkSys g (fl1 ++ tokens :: fl2) t)
         (mkSys (release tokens completion now g) (fl1 ++ fl2) now)
| step_observe g fl t now x y :
    (t <= now)%Q -> step (mkSys g fl t) (mkSys (observe x y now g) fl now)
| step_succeeded g fl t now x y :
    (t <= now)%Q -> step (mkSys g fl t) (mkSys (succeeded x y now g) fl now)
| step_failed g fl t now ra n j w g' :
    (t <= now)%Q -> failed ra n j now g = (w, g') ->
    step (mkSys g fl t) (mkSys g' fl now)
| step_cap g fl t now c g' :
    (t <= now)%Q -> cap now g = (c, g') -> step (mkSys g fl t) (mkSys g' fl now)
| step_status g fl t now c g' :
    (t <= now)%Q -> status now g = (c, g') -> step (mkSys g fl t) (mkSys g' fl now).

Definition sys_init (m : Model) (st : Settings) (t : Q) : Sys := mkSys (gate_init m st) [] t.
Definition reachable (m : Model) (st : Settings) (s : Sys) : Prop :=
  exists t, rtc step (sys_init m st t) s.

Record sys_ok (m : Model) (s : Sys) : Prop := {
  so_model : model (gate s) = m;
  so_slots : slots_ok (gate s);
  so_busy : busy (gate s) = Z.of_nat (List.length (flights s));
  so_held : held (gate s) = zsum (flights s);
  so_tokens : Forall (fun x => 0 <= x) (flights s);
  so_budget : held (gate s) <= budget m \/ (List.length (flights s) <= 1)%nat;
  so_waiting : NoDup (waiting (gate s)).*1;
  so_seq : Forall (fun x => x <= _seq (gate s)) (waiting (gate s)).*1 }.

Lemma enter_ok m g fl t now rank seq g' :
  sys_ok m (mkSys g fl t) -> acquire_enter rank now g = (seq, g') -> sys_ok m (mkSys g' fl now).
Proof.
  intros [] [= <- <-]. split; cbn in *; try done.
  - rewrite dset_new; [|].
    + rewrite fmap_app. apply NoDup_app. split; [done|]. split; [|apply NoDup_singleton].
      intros x Hx ->%list_elem_of_singleton. rewrite Forall_forall in so_seq0.
      specialize (so_seq0 _ Hx). cbn in so_seq0. lia.
    + destruct (dget (_seq g + 1) (waiting g)) as [v|] eqn:E; [|done].
      apply dget_elem in E. rewrite Forall_forall in so_seq0.
      assert (_seq g + 1 <= _seq g); [|lia]. apply so_seq0.
      apply list_elem_of_fmap. by exists (_seq g + 1, v).
  - apply Forall_forall. intros x Hx. rewrite Forall_forall in so_seq0.
    apply list_elem_of_fmap in Hx as ([k v] & -> & Hkv). cbn.
    destruct (decide (k = _seq g + 1)) as [->|Hne]; [lia|].
    assert (k <= _seq g); [|lia]. apply so_seq0, list_elem_of_fmap. exists (k, v).
    split; [done|]. apply dset_elem_ne in Hkv; done.
Qed.

Lemma cap_frame now g c g' : cap now g = (c, g') -> g' = _trim now g.
Proof. unfold cap. destruct (max_tokens _). by repeat case_match; intros [= _ <-]. Qed.

Lemma status_frame now g c g' : status now g = (c, g') -> exists o, g' = g <| output := o |>.
Proof. unfold status, _out. intros [= _ <-]. by eexists. Qed.

Lemma sys_ok_same m g g' fl t t' :
  same_load g g' -> slots_ok g' -> sys_ok m (mkSys g fl t) -> sys_ok m (mkSys g' fl t').
Proof.
  intros (Hb & Hh & Hw & Hm & Hs & _) Hsl []. cbn in *.
  split; cbn; rewrite ?Hb, ?Hh, ?Hw, ?Hm, ?Hs; done.
Qed.

Lemma leave_ok m g fl t t' seq :
  sys_ok m (mkSys g fl t) -> sys_ok m (mkSys (acquire_leave seq g) fl t').
Proof.
  intros []. split; cbn in *; try done; [by apply ddel_nodup|].
  rewrite Forall_forall in *. intros x Hx. apply so_seq0.
  apply list_elem_of_fmap in Hx as (kv & -> & [_ Hkv]%ddel_elem).
  apply list_elem_of_fmap. by exists kv.
Qed.

Lemma admit_ok m g fl t t' tokens :
  sys_ok m (mkSys g fl t) -> 0 <= tokens ->
  held g + tokens <= budget (model g) \/ busy g = 0 ->
  sys_ok m (mkSys (g <| busy := busy g + 1 |> <| held := held g + tokens |>) (tokens :: fl) t').
Proof.
  intros [] Ht Hb. cbn in *.
  split; cbn; try done; try lia; [by constructor|]. destruct Hb; [left; congruence | right; lia].
Qed.

Lemma poll_ok m g fl t t' seq rs tokens deadline cancelled r g' :
  sys_ok m (mkSys g fl t) -> dget seq (waiting g) = Some rs -> 0 <= tokens ->
  acquire_poll seq tokens deadline cancelled t' g = (r, g') ->
  sys_ok m (mkSys g' (match r with Granted => tokens :: fl | _ => fl end) t').
Proof.
  intros H Hrs Ht. unfold acquire_poll. destruct cancelled.
  { intros [= <- <-]. by eapply leave_ok. }
  destruct (_fits tokens t' g) as [fits g1] eqn:E.
  assert (H1 : sys_ok m (mkSys g1 fl t)).
  { apply fits_frame in E as [o ->]. by destruct H. }
  destruct fits.
  - pose proof (fits_true _ _ _ _ E) as (_ & Hb & _). apply fits_frame in E as [o ->].
    cbn [andb]. destruct (_first seq t' _).
    + intros [= <- <-]. eapply leave_ok. exact (admit_ok m _ fl t t' tokens H1 Ht Hb).
    + destruct (_ <=?q _); intros [= <- <-]; [by eapply leave_ok|]. by destruct H1.
  - cbn [andb]. destruct (_ <=?q _); intros [= <- <-]; [by eapply leave_ok|]. by destruct H1.
Qed.

Lemma release_ok m g fl1 tokens fl2 t t' n :
  sys_ok m (mkSys g (fl1 ++ tokens :: fl2) t) -> sys_ok m (mkSys (release tokens n t' g) (fl1 ++ fl2) t').
Proof.
  intros []. cbn in *. rewrite zsum_app in so_held0. cbn in so_held0. fold (zsum fl2) in so_held0.
  rewrite length_app in *. cbn in *.
  apply Forall_app in so_tokens0 as [F1 [F2 F3]%Forall_cons]. unfold release.
  destruct (n =? 0); split; cbn; rewrite ?zsum_app, ?length_app; try done; try lia;
    try (by apply Forall_app); (destruct so_budget0; [left; lia | right; lia]).
Qed.

Lemma step_ok m s s' : step s s' -> sys_ok m s -> sys_ok m s'.
Proof.
  intros Hs H. destruct Hs.
  - by eapply enter_ok.
  - by eapply poll_ok.
  - by eapply release_ok.
  - eapply sys_ok_same; [|apply observe_slots; by destruct H|exact H].
    destruct (observe_frame x y now g) as (?&?&?&?&->). done.
  - eapply sys_ok_same; [|apply observe_slots; by destruct H|exact H].
    unfold succeeded. destruct (observe_frame x y now (g <| failures := 0 |> <| failing_since := None |>))
      as (?&?&?&?&->). done.
  - eapply sys_ok_same; [by eapply failed_frame | by eapply failed_slots; [|by destruct H] | exact H].
  - rename select (cap _ _ = _) into Hc. apply cap_frame in Hc as ->.
    eapply sys_ok_same; [| |exact H]; [done|by destruct H].
  - rename select (status _ _ = _) into Hc. apply status_frame in Hc as [o ->].
    eapply sys_ok_same; [| |exact H]; [done|by destruct H].
Qed.

Lemma reachable_ok m st s : model_ok m -> reachable m st s -> sys_ok m s.
Proof.
  intros [Hs _] [t H]. remember (sys_init m st t) as s0 eqn:E0.
  assert (H0 : sys_ok m s0).
  { subst. split; cbn; try done; try lia; try constructor; unfold slots_ok; cbn; lia. }
  clear E0. induction H; [done|]. eauto using step_ok.
Qed.

(** ** The slots between two changes *)

Lemma settled_elapsed t now : (now - t < SHRINK_PERIOD)%Q -> elapsed_ge now (Some t) SHRINK_PERIOD = false.
Proof. intros. by apply qle_false. Qed.
Lemma poll_slots seq tokens deadline c now g r g' :
  acquire_poll seq tokens deadline c now g = (r, g') -> slots g' = slots g /\ adjusted g' = adjusted g.
Proof.
  unfold acquire_poll. destruct c; [by intros [= _ <-]|].
  destruct (_fits _ _ _) as [fits g1] eqn:E. apply fits_frame in E as [o ->].
  destruct (fits && _); [by intros [= _ <-]|]. by case_match; intros [= _ <-].
Qed.
Lemma observe_settled x y now g t :
  adjusted g = Some t -> (now - t < SHRINK_PERIOD)%Q ->
  slots (observe x y now g) = slots g /\ adjusted (observe x y now g) = Some t.
Proof.
  intros Ha Ht%settled_elapsed. unfold observe.
  set (g1 := _trim now _). assert (slots g1 = slots g /\ adjusted g1 = Some t) as [Hs H1].
  { by destruct x, y. }
  unfold _adjust, elapsed_lt. rewrite H1, Ht. cbn [negb]. by rewrite orb_true_r.
Qed.
Lemma succeeded_settled x y now g t :
  adjusted g = Some t -> (now - t < SHRINK_PERIOD)%Q ->
  slots (succeeded x y now g) = slots g /\ adjusted (succeeded x y now g) = Some t.
Proof.
  pose (g' := g <| failures := 0 |> <| failing_since := None |>).
  exact (observe_settled x y now g' t).
Qed.
Lemma failed_settled ra n j now g w g' t :
  failed ra n j now g = (w, g') -> adjusted g = Some t -> (now - t < SHRINK_PERIOD)%Q ->
  slots g' = slots g /\ adjusted g' = Some t.
Proof.
  intros H Ha Ht%settled_elapsed. unfold failed in H.
  set (g1 := count_failure _ _) in H.
  assert (slots g1 = slots g /\ adjusted g1 = Some t) as [Hs H1].
  { destruct (forget_frame now g) as (_ & <- & E). rewrite Ha in E. done. }
  assert (shrink now g1 = g1) as E by (unfold shrink; by rewrite H1, Ht).
  rewrite E in H. destruct (mark_frame now g1) as [_ Hm].
  assert (adjusted (mark_unhealthy now g1) = Some t) as Hma
    by (unfold mark_unhealthy; by repeat case_match).
  rewrite <- Hs, <- Hm. by destruct ra; injection H as _ <-.
Qed.

(** ** Properties *)

(** What an admission shows of the gate before and after it. *)
Lemma poll_admitted seq tokens deadline cancelled now g g' :
  acquire_poll seq tokens deadline cancelled now g = (Granted, g') ->
  cancelled = false /\ _first seq now g = true /\
  busy g < slots g /\ (held g + tokens <= budget (model g) \/ busy g = 0) /\
  (paused_until g <= now)%Q /\
  zsum (drop_older now 60 (output g)).*2 < output_per_minute (model g) /\
  busy g' = busy g + 1 /\ held g' = held g + tokens /\ waiting g' = ddel seq (waiting g).
Proof.
  unfold acquire_poll. destruct cancelled; [done|]. destruct (_fits _ _ _) as [fits g1] eqn:E.
  destruct (fits && _) eqn:Ef; [|case_match; done]. intros [= <-].
  apply andb_true_iff in Ef as [-> Hfirst].
  pose proof (fits_true _ _ _ _ E) as (H1 & H2 & H3 & H4). apply fits_frame in E as [o ->].
  repeat split; try done.
Qed.


(** C3: the accounting invariant.  In every state that requests entering, polling,
    being released, reporting and failing in any order can reach: [busy] counts
    the requests in flight and [held] sums their tokens; the slots stay between
    1 and the model's maximum; and what is held is within the model's budget,
    but for a single request that is in flight alone. *)
Theorem gate_accounting m st s :
  model_ok m -> reachable m st s ->
  busy (gate s) = Z.of_nat (List.length (flights s)) /\
  held (gate s) = zsum (flights s) /\
  1 <= slots (gate s) <= (m_slots m).2 /\
  (held (gate s) <= budget m \/ (List.length (flights s) <= 1)%nat).
Proof.
  intros Hm H. destruct (reachable_ok _ _ _ Hm H) as [<- [? ?] ? ? ? ? ? ?]. done.
Qed.

(** What an admission needs.  A request is admitted only while the gate has a
    free slot, while its tokens fit the budget or nothing else is in flight,
    once a 429's pause is over, and while the last minute's output is under the
    limit; and only if no request in the queue comes before it. *)
Theorem admission_sound seq tokens deadline now g g' rs :
  NoDup (waiting g).*1 -> dget seq (waiting g) = Some rs ->
  acquire_poll seq tokens deadline false now g = (Granted, g') ->
  busy g < slots g /\ (held g + tokens <= budget (model g) \/ busy g = 0) /\
  (paused_until g <= now)%Q /\
  zsum (drop_older now 60 (output g)).*2 < output_per_minute (model g) /\
  busy g' = busy g + 1 /\ held g' = held g + tokens /\ dget seq (waiting g') = None /\
  forall seq' rs', (seq', rs') ∈ waiting g -> order_lt (order now rs') (order now rs) = false.
Proof.
  intros Hnd Hrs (_ & Hf & H1 & H2 & H3 & H4 & H5 & H6 & H7)%poll_admitted.
  rewrite H7. repeat split; try done; [apply dget_ddel|]. by apply (first_least seq now _ rs).
Qed.

(** The gate never deadlocks.  With nothing in flight, no pause and the last
    minute's output under the limit, some request of a queue that is not empty
    is admitted at its next pass, however many tokens each asks for. *)
Theorem idle_gate_admits (tokens : Z -> Z) (deadline : Z -> Q) now g :
  slots_ok g -> waiting g <> [] -> busy g = 0 -> (paused_until g <= now)%Q ->
  zsum (drop_older now 60 (output g)).*2 < output_per_minute (model g) ->
  exists seq rs g', dget seq (waiting g) = Some rs /\
    acquire_poll seq (tokens seq) (deadline seq) false now g = (Granted, g').
Proof.
  intros Hs Hw Hb Hp Ho. destruct (first_exists now g Hw) as (seq & rs & Hrs & Hf).
  exists seq, rs. unfold acquire_poll, _fits, _out. unfold slots_ok in Hs.
  assert (busy g <? slots g = true) as -> by (apply Z.ltb_lt; lia).
  rewrite Hb, Z.eqb_refl, orb_true_r. apply qle_true in Hp as ->. cbn [andb].
  apply Z.ltb_lt in Ho as ->. unfold _first in *. cbn. rewrite Hf. eauto.
Qed.

Lemma floordiv_ge (a b : Q) (n : Z) : (0 < b)%Q -> (qz n * b <= a)%Q -> n <= floordiv a b.
Proof.
  intros Hb H. unfold floordiv. rewrite <- (Qfloor_Z n). apply Qfloor_resp_le.
  apply Qle_shift_div_l; done.
Qed.
(** C35: no starvation.  A request that has waited [AGING] seconds for each class of
    its rank is overtaken by none that entered after it, of whatever class. *)
Theorem aged_never_overtaken seq rank since seq' rank' since' now deadline tokens g g' :
  NoDup (waiting g).*1 ->
  dget seq (waiting g) = Some (rank, since) -> dget seq' (waiting g) = Some (rank', since') ->
  (since + qz rank * AGING <= now)%Q -> (since < since')%Q -> (since' <= now)%Q ->
  acquire_poll seq' tokens deadline false now g <> (Granted, g').
Proof.
  intros Hnd Hs Hs' Hage Hlt Hle (_ & Hf & _)%poll_admitted.
  pose proof (first_least seq' now g _ Hnd Hs' Hf seq _ (dget_elem _ _ _ Hs)) as Hord.
  unfold order_lt, order in Hord. cbn [fst snd] in Hord. apply orb_false_iff in Hord as [Hc Ho].
  apply andb_false_iff in Ho. breflect.
  assert (rank <= floordiv (now - since) AGING) as Hr.
  { apply floordiv_ge; [done|]. unfold AGING in *. lra. }
  destruct Ho as [Ho|Ho]; breflect; [lia | lra].
Qed.

Lemma drop_older_spec {A} now age (l : list (Q * A)) :
  exists l1, l = l1 ++ drop_older now age l /\ Forall (fun x => (age < now - x.1)%Q) l1 /\
    match drop_older now age l with [] => True | x :: _ => (now - x.1 <= age)%Q end.
Proof.
  induction l as [|[t a] l (l1 & Heq & Hold & Hnew)]; [by exists []|]. cbn [drop_older].
  destruct (age <?q (now - t)%Q) eqn:E; breflect.
  - exists ((t, a) :: l1). rewrite Heq at 1. repeat split; [by constructor | done].
  - by exists [].
Qed.

(** [cap] stays between the model's floor and ceiling of [max_tokens], and
    it changes nothing but the samples it trims. *)
Theorem cap_bounds now g c g' :
  model_ok (model g) -> cap now g = (c, g') ->
  (max_tokens (model g)).1 <= c <= (max_tokens (model g)).2 /\ g' = _trim now g.
Proof.
  intros [_ Ht] H. split; [|by eapply cap_frame]. unfold cap in H.
  destruct (max_tokens (model g)) as [lo hi]. cbn [fst snd] in *.
  case_match. injection H as <- _. lia.
Qed.

Lemma pow2_ge_1 n : 1 <= n -> (1 <= Qpower 2 (n - 1))%Q.
Proof.
  intros. rewrite <- (Z2Nat.id (n - 1)) by lia. generalize (Z.to_nat (n - 1)). clear.
  induction n as [|n IH]; [done|]. rewrite Nat2Z.inj_succ. unfold Z.succ.
  rewrite Qpower_plus by done. change (Qpower 2 1) with 2%Q. nra.
Qed.

(** How a failure is paid for.  A request waits what a 429 named, which also
    pauses every other request until then; otherwise [backoff_seconds], doubled
    with each of its own attempts and held to [backoff_max_seconds], give or take
    a quarter, so that a wait from the first attempt on has a positive lower bound.  The slots are halved, to 1 at least, if they have not changed for
    [SHRINK_PERIOD], and otherwise stay. *)
Theorem failed_wait ra attempt jitter now g w g' :
  (0 <= backoff_seconds (g_settings g))%Q -> (0 <= backoff_max_seconds (g_settings g))%Q ->
  (3 # 4 <= jitter <= 5 # 4)%Q -> failed ra attempt jitter now g = (w, g') ->
  match ra with
  | Some r => w = r /\ paused_until g' = (now + r)%Q
  | None => (0 <= w <= backoff_max_seconds (g_settings g) * (5 # 4))%Q /\
      ((1 <= attempt)%Z ->
       Qmin (backoff_max_seconds (g_settings g)) (backoff_seconds (g_settings g)) * (3 # 4) <= w)%Q
  end /\
  slots g' = (if elapsed_ge now (adjusted g) SHRINK_PERIOD
              then Z.max 1 (slots g / 2) else slots g) /\
  busy g' = busy g /\ held g' = held g /\ waiting g' = waiting g.
Proof.
  intros Hb Hm Hj H. pose proof (failed_frame _ _ _ _ _ _ _ H) as [(?&?&?&?&?&Hset) ?].
  split; [|done]. unfold failed in H. destruct ra as [r|]; injection H as <- <-; [done|].
  cbn [paused_until set_field] in *. rewrite Hset.
  assert (0 <= Qpower 2 (attempt - 1))%Q by (by apply Qpower_0_le).
  assert (0 <= backoff_seconds (g_settings g) * Qpower 2 (attempt - 1))%Q by nra.
  destruct (Q.min_spec (backoff_max_seconds (g_settings g))
    (backoff_seconds (g_settings g) * Qpower 2 (attempt - 1))) as [[? E]|[? E]];
    setoid_rewrite E; (split; [split; nra|intros Ha]).
  - pose proof (Q.le_min_l (backoff_max_seconds (g_settings g)) (backoff_seconds (g_settings g))).
    nra.
  - pose proof (Q.le_min_r (backoff_max_seconds (g_settings g)) (backoff_seconds (g_settings g))).
    pose proof (pow2_ge_1 attempt Ha). nra.
Qed.

(** No flapping.  For [SHRINK_PERIOD] after a gate's slots last changed,
    nothing that can happen to the gate changes them again. *)
Theorem slots_settle s s' t :
  step s s' -> adjusted (gate s) = Some t -> (clock s' - t < SHRINK_PERIOD)%Q ->
  slots (gate s') = slots (gate s) /\ adjusted (gate s') = Some t.
Proof.
  intros Hs Ha Ht. destruct Hs; cbn [gate flights clock] in *.
  - rename select (acquire_enter _ _ _ = _) into He. by injection He as _ <-.
  - rename select (acquire_poll _ _ _ _ _ _ = _) into Hp. apply poll_slots in Hp as [-> ->]. done.
  - unfold release. by destruct (_ =? 0).
  - by apply observe_settled.
  - by apply succeeded_settled.
  - rename select (failed _ _ _ _ _ = _) into Hf. by eapply failed_settled.
  - rename select (cap _ _ = _) into Hc. by apply cap_frame in Hc as ->.
  - rename select (status _ _ = _) into Hc. by apply status_frame in Hc as [o ->].
Qed.

(** ** The hypotheses can hold *)

Definition demo_model : Model := match dget "qwen"%string (models demo_config) with
  | Some m => m | None => mkModel "" 0 (1, 1) 0 0 (1, 1) 0 (0, 0)%Q (0, 0)%Q [] end.
Definition demo_gate : Gate :=
  (acquire_enter 0 20 (acquire_enter 2 10 (gate_init demo_model demo_settings)).2).2.
(** A gate on which one request was admitted and released with 500 tokens of output. *)
Definition demo_busy : Poll * Gate := acquire_poll 2 40000 7200 false 30 demo_gate.

Lemma demo_model_ok : model_ok demo_model.
Proof. split; vm_compute; split; congruence. Qed.
Lemma demo_reachable : reachable demo_model demo_settings (mkSys demo_busy.2 [40000] 30).
Proof.
  exists 0%Q. eapply rtc_l; [by apply (step_enter _ _ _ 10 2 1 (acquire_enter 2 10 (gate_init demo_model demo_settings)).2)|].
  eapply rtc_l; [by apply (step_enter _ _ _ 20 0 2 demo_gate)|].
  eapply rtc_l; [|apply rtc_refl].
  apply (step_poll _ _ _ 30 2 (0, 20%Q) 40000 7200 false Granted); [done| |done|]; vm_compute; reflexivity.
Qed.

Lemma gate_accounting_witness : busy demo_busy.2 = 1 /\ held demo_busy.2 = 40000.
Proof.
  pose proof (gate_accounting demo_model demo_settings _ demo_model_ok demo_reachable) as (H1 & H2 & _).
  split; [exact H1 | exact H2].
Defined.
Lemma admission_sound_witness : demo_busy.1 = Granted /\ busy demo_busy.2 = 1.
Proof.
  split; [vm_compute; reflexivity|].
  refine (proj1 (proj2 (proj2 (proj2 (proj2
    (admission_sound 2 40000 7200 30 demo_gate demo_busy.2 (0, 20%Q) _ _ _))))));
    [apply (bool_decide_unpack _); vm_compute; exact I | vm_compute; reflexivity | vm_compute; reflexivity].
Defined.
Lemma idle_gate_admits_witness : exists seq rs g', dget seq (waiting demo_gate) = Some rs /\
  acquire_poll seq 50000 7200 false 30 demo_gate = (Granted, g').
Proof.
  apply (idle_gate_admits (fun _ => 50000) (fun _ => 7200%Q) 30 demo_gate);
    [vm_compute; split; congruence | vm_compute; congruence | vm_compute; reflexivity
    | vm_compute; congruence | vm_compute; reflexivity].
Defined.
(** Of class 2, it waits 1200 seconds; a request of class 0 that came later then waits for it. *)
Lemma aged_never_overtaken_witness :
  acquire_poll 2 40000 7200 false 1210 demo_gate <> (Granted, demo_gate).
Proof.
  apply (aged_never_overtaken 1 2 10 2 0 20 1210 7200 40000 demo_gate demo_gate);
    try (vm_compute; congruence).
  apply (bool_decide_unpack _). vm_compute. exact I.
Defined.
Lemma cap_bounds_witness : (cap 30 demo_gate).1 = 11600 /\ 1000 <= (cap 30 demo_gate).1 <= 32000.
Proof.
  split; [vm_compute; reflexivity|].
  exact (proj1 (cap_bounds 30 demo_gate _ (cap 30 demo_gate).2 demo_model_ok (surjective_pairing _))).
Defined.
Lemma failed_wait_witness : slots (failed None 3 1 30 demo_gate).2 = 2 /\
  slots (failed None 3 1 30 demo_gate).2 = Z.max 1 (slots demo_gate / 2).
Proof.
  split; [vm_compute; reflexivity|].
  refine (proj1 (proj2 (failed_wait None 3 1 30 demo_gate _ _ _ _ _ (surjective_pairing _))));
    vm_compute; repeat split; congruence.
Defined.
Definition demo_failed : Gate := (failed None 1 1 30 demo_gate).2.
Definition demo_before : Sys := mkSys demo_failed [] 30.
Definition demo_after : Sys := mkSys (failed None 2 1 40 demo_failed).2 [] 40.
Lemma demo_step : step demo_before demo_after.
Proof.
  exact (step_failed demo_failed [] 30 40 None 2 1 (failed None 2 1 40 demo_failed).1
    (failed None 2 1 40 demo_failed).2 ltac:(vm_compute; congruence) (surjective_pairing _)).
Qed.
Lemma slots_settle_witness :
  slots (gate demo_before) = 2 /\ slots (gate demo_after) = slots (gate demo_before).
Proof.
  assert (Ha : adjusted (gate demo_before) = Some 30%Q) by (vm_compute; reflexivity).
  split; [vm_compute; reflexivity|].
  exact (proj1 (slots_settle demo_before demo_after 30 demo_step Ha ltac:(reflexivity))).
Defined.
