(* ===== verification/LlmReply.v ===== *)
(** [Reply] of [apps/agentic-analysis/llm_proxy.py]: one upstream answer, put
    together from the chunks of a stream, checked, and given to the client.
    Chunks are the JSON values the upstream sends, of the types the OpenAI API
    gives their fields. *)
From S2P Require Import Prelude PyJson PyText LlmConfig.
Open Scope Z_scope.

Record Call := mkCall { c_id : string; c_name : string; c_arguments : string }.
#[export] Instance eta_call : Eta Call := {| eta_of c := mkCall (c_id c) (c_name c) (c_arguments c) |}.

Record Reply := mkReply {
  status : Z; payloads : list string; done_ : bool; finish : option string;
  content : string; reasoning : string; reasoning_name : string;
  calls : list (Z * Call); usage : option json; r_ttft : option Q; seconds : Q;
  error : string; code : string; headers : list (string * string) }.
#[export] Instance eta_reply : Eta Reply := {| eta_of r :=
  mkReply (status r) (payloads r) (done_ r) (finish r) (content r) (reasoning r)
    (reasoning_name r) (calls r) (usage r) (r_ttft r) (seconds r) (error r) (code r) (headers r) |}.

(** [Reply()] *)
Definition reply0 : Reply := {|
  status := 0; payloads := []; done_ := false; finish := None; content := ""; reasoning := "";
  reasoning_name := "reasoning_content"; calls := []; usage := None; r_ttft := None;
  seconds := 0; error := ""; code := ""; headers := [] |}.

(** ** [take] *)

Definition take_reasoning (delta : json) (r : Reply) (name : string) : Reply :=
  if truthy (jget name delta) then
    r <| reasoning := (reasoning r ++ jstr (jget name delta))%string |>
      <| reasoning_name := name |>
  else r.

(** [slot["id"] = call.get("id") or slot["id"]], and the name and arguments that go on. *)
Definition extend_call (call : json) (slot : Call) : Call :=
  let function := j_or (jget "function" call) (JObj []) in
  mkCall (if truthy (jget "id" call) then jstr (jget "id" call) else c_id slot)
    (c_name slot ++ jstr (jget "name" function))
    (c_arguments slot ++ jstr (jget "arguments" function)).

Definition take_call (r : Reply) (n : Z) (call : json) : Reply :=
  let key := match jget_or "index" (JInt n) call with JInt i => i | _ => n end in
  let slot := default (mkCall "" "" "") (dget key (calls r)) in
  r <| calls := dset key (extend_call call slot) (calls r) |>.

Fixpoint take_calls (r : Reply) (n : Z) (l : list json) : Reply :=
  match l with [] => r | call :: l' => take_calls (take_call r n call) (n + 1) l' end.

Definition take_choice (r : Reply) (choice : json) : Reply :=
  let delta := j_or (j_or (jget "delta" choice) (jget "message" choice)) (JObj []) in
  let r := r <| content := (content r ++ jstr (jget "content" delta))%string |> in
  let r := foldl (take_reasoning delta) r ["reasoning_content"; "reasoning"]%string in
  let r := take_calls r 0 (jlist (jget "tool_calls" delta)) in
  if truthy (jget "finish_reason" choice)
  then r <| finish := Some (jstr (jget "finish_reason" choice)) |> else r.

Definition take (r : Reply) (chunk : json) : Reply :=
  let r := if truthy (jget "usage" chunk) then r <| usage := Some (jget "usage" chunk) |> else r in
  foldl take_choice r (jlist (jget "choices" chunk)).

(** ** Reading a reply *)

(** [int(value)] of a JSON value: [None] where it raises. *)
Definition int_of (j : json) : option Z :=
  match j with
  | JInt n => Some n
  | JFloat q => Some (py_int q)
  | JBool b => Some (if b : bool then 1 else 0)
  | JStr s => int_of_str s
  | _ => None
  end.

(** [None] where it raises: [.get] of a [usage] that is no object, or [int] of a
    [completion_tokens] that is no number. *)
Definition completion (r : Reply) : option Z :=
  let usage := j_or (default JNull (usage r)) (JObj []) in
  if is_obj usage then
    let tokens := jget "completion_tokens" usage in
    if truthy tokens then int_of tokens else Some (Z.of_nat (List.length (payloads r)))
  else None.

Inductive Problem := Cut | NoToolCall | BadToolArguments.
#[export] Instance Problem_eq_dec : EqDecision Problem.
Proof. solve_decision. Defined.

Definition or_else (s t : string) : string := if String.eqb s "" then t else s.
Definition arguments_ok (c : Call) : bool := loads_ok (or_else (c_arguments c) "{}").

Definition problem (r : Reply) : option Problem :=
  if negb (done_ r) then Some Cut
  else if bool_decide (finish r = Some "tool_calls"%string)
          && match calls r with [] => true | _ => false end
  then Some NoToolCall
  else if forallb (fun kc => arguments_ok kc.2) (calls r) then None
  else Some BadToolArguments.

(** [None] where [completion] raises. *)
Definition decode (r : Reply) : option (option Q) :=
  match completion r with
  | None => None
  | Some tokens =>
      let spent := (seconds r - default 0 (r_ttft r))%Q in
      Some (if (DECODE_TOKENS <? tokens) && (DECODE_SECONDS <?q spent)
            then Some (qz tokens / spent)%Q else None)
  end.

(** ** [message] and [chunks] *)

(** What the code draws at random or from the clock. *)
Record Fresh := mkFresh { f_id : string; f_created : Z; f_call : Z -> string }.

(** [sorted(self.calls.items())] by their distinct integer keys. *)
Fixpoint call_insert (kc : Z * Call) (l : list (Z * Call)) : list (Z * Call) :=
  match l with
  | [] => [kc]
  | x :: l' => if kc.1 <? x.1 then kc :: l else x :: call_insert kc l'
  end.
Definition calls_sorted (l : list (Z * Call)) : list (Z * Call) :=
  foldl (fun acc kc => call_insert kc acc) [] l.

Definition call_json (f : Fresh) (kc : Z * Call) : json :=
  JObj [("id", JStr (or_else (c_id kc.2) (f_call f kc.1)));
        ("type", JStr "function");
        ("function", JObj [("name", JStr (c_name kc.2)); ("arguments", JStr (c_arguments kc.2))])]%string.

Definition json_opt_str (o : option string) : json := match o with Some s => JStr s | None => JNull end.

(** The message of [message(role)]. *)
Definition message_of (f : Fresh) (r : Reply) : list (string * json) :=
  let m := [("role", JStr "assistant");
            ("content", if String.eqb (content r) "" then JNull else JStr (content r))]%string in
  let m := if String.eqb (reasoning r) "" then m else dset (reasoning_name r) (JStr (reasoning r)) m in
  match calls r with
  | [] => m
  | _ => dset "tool_calls"%string (JArr (map (call_json f) (calls_sorted (calls r)))) m
  end.

Definition message (f : Fresh) (role : string) (r : Reply) : json :=
  JObj [("id", JStr (f_id f)); ("object", JStr "chat.completion"); ("created", JInt (f_created f));
        ("model", JStr role);
        ("choices", JArr [JObj [("index", JInt 0); ("message", JObj (message_of f r));
                                ("finish_reason", json_opt_str (finish r))]]);
        ("usage", default JNull (usage r))]%string.

(** [call["index"] = n] of each call of the delta. *)
Fixpoint index_calls (n : Z) (l : list json) : list json :=
  match l with [] => [] | c :: l' => jset "index" (JInt n) c :: index_calls (n + 1) l' end.
Definition delta_of (f : Fresh) (r : Reply) : json :=
  let m := JObj (message_of f r) in
  match jget "tool_calls" m with
  | JArr l => jset "tool_calls" (JArr (index_calls 0 l)) m
  | _ => m
  end.

(** A payload: as it was received, or a value still to be encoded. *)
Inductive Payload := Received (text : string) | Rebuilt (chunk : json).

Definition chunk_of (f : Fresh) (role : string) (choices : list json) : list (string * json) :=
  [("id", JStr (f_id f)); ("created", JInt (f_created f)); ("model", JStr role);
   ("object", JStr "chat.completion.chunk"); ("choices", JArr choices)]%string.

Definition rebuilt (f : Fresh) (role : string) (r : Reply) : list json :=
  [ JObj (chunk_of f role [JObj [("index", JInt 0); ("delta", delta_of f r); ("finish_reason", JNull)]]);
    JObj (chunk_of f role [JObj [("index", JInt 0); ("delta", JObj []);
                                 ("finish_reason", json_opt_str (finish r))]]) ]%string
  ++ match usage r with
     | Some u => if truthy u then [JObj (chunk_of f role [] ++ [("usage"%string, u)])] else []
     | None => []
     end.

Definition chunks (f : Fresh) (role : string) (r : Reply) : list Payload :=
  match payloads r with
  | [] => map Rebuilt (rebuilt f role r)
  | ps => map Received ps
  end.

(** ** Errors *)

Definition failure (status_ : Z) (code_ message_ : string) : Reply :=
  reply0 <| status := status_ |> <| error := message_ |> <| code := code_ |>.

Definition error_body (r : Reply) : json :=
  JObj [("error", JObj [("message", JStr (error r)); ("type", JStr "proxy"); ("code", JStr (code r))])]%string.

(** [error_chunk], whose message is the text of [inner] for a client that keeps
    nothing but the message; [dumps] is [json.dumps]. *)
Definition error_chunk_inner (r : Reply) : json :=
  JObj [("type", JStr "error");
        ("error", JObj [("code", JStr (code r)); ("message", JStr (error r))])]%string.
Definition error_chunk (dumps : json -> string) (r : Reply) : json :=
  JObj [("error", JObj [("message", JStr (dumps (error_chunk_inner r))); ("type", JStr "proxy");
                        ("code", JStr (code r))])]%string.

Definition _upstream_error (r : Reply) (text : string) : Reply :=
  let message := str_take 2000 text in
  r <| error := message |>
    <| code := if str_contains "context" (str_lower message)
               then "context_length_exceeded"%string else "invalid_prompt"%string |>.

Definition images (body : json) : Z :=
  zsum (map (fun message =>
    match jget "content" message with
    | JArr parts => Z.of_nat (List.length
        (List.filter (fun part => jeq_str (jget "type" part) "image_url") parts))
    | _ => 0
    end) (jlist (jget "messages" body))).

(** ** A stream is put together whole *)

(** What a chunk adds to the content, and to the arguments of call [k]: the
    specification of [take], which says nothing of the state it keeps. *)
Definition choice_delta (choice : json) : json :=
  j_or (j_or (jget "delta" choice) (jget "message" choice)) (JObj []).
Definition chunk_content (chunk : json) : string :=
  String.concat "" (map (fun ch => jstr (jget "content" (choice_delta ch))) (jlist (jget "choices" chunk))).
Fixpoint call_parts (k n : Z) (l : list json) : string :=
  match l with
  | [] => ""
  | call :: l' =>
      ((if decide (match jget_or "index" (JInt n) call with JInt i => i | _ => n end = k)
        then jstr (jget "arguments" (j_or (jget "function" call) (JObj []))) else "")
       ++ call_parts k (n + 1) l')%string
  end.
Definition choice_arguments (k : Z) (choice : json) : string :=
  call_parts k 0 (jlist (jget "tool_calls" (choice_delta choice))).
Definition chunk_arguments (k : Z) (chunk : json) : string :=
  String.concat "" (map (choice_arguments k) (jlist (jget "choices" chunk))).

(** The arguments of call [k] so far. *)
Definition arguments_of (k : Z) (r : Reply) : string :=
  match dget k (calls r) with Some c => c_arguments c | None => "" end.

Lemma append_assoc (a b c : string) : ((a ++ b) ++ c = a ++ b ++ c)%string.
Proof. induction a as [|x a IH]; [done|]. exact (f_equal (String x) IH). Qed.
Lemma append_nil (a : string) : (a ++ "" = a)%string.
Proof. induction a as [|x a IH]; [done|]. exact (f_equal (String x) IH). Qed.
Lemma concat_cons (a : string) (l : list string) :
  String.concat "" (a :: l) = (a ++ String.concat "" l)%string.
Proof. destruct l; simpl; [by rewrite append_nil | done]. Qed.

Lemma take_calls_content r n l : content (take_calls r n l) = content r.
Proof. revert r n. induction l as [|c l IH]; intros; cbn; [done|]. by rewrite IH. Qed.
Lemma take_reasoning_frame d r name :
  content (take_reasoning d r name) = content r /\ calls (take_reasoning d r name) = calls r.
Proof. unfold take_reasoning. by destruct (truthy _). Qed.
Lemma take_calls_arguments k r n l :
  arguments_of k (take_calls r n l) = (arguments_of k r ++ call_parts k n l)%string.
Proof.
  revert r n. induction l as [|c l IH]; intros r n; cbn [take_calls call_parts]; [by rewrite append_nil|].
  rewrite IH, <- append_assoc. f_equal. unfold arguments_of, take_call. cbn [calls set_field].
  set (key := match jget_or _ _ c with JInt _ => _ | _ => _ end).
  destruct (decide (key = k)) as [<-|Hne].
  - rewrite dget_dset. by destruct (dget key (calls r)).
  - rewrite dget_dset_ne by done. by rewrite append_nil.
Qed.

Lemma take_choice_content r ch :
  content (take_choice r ch) = (content r ++ jstr (jget "content" (choice_delta ch)))%string.
Proof.
  unfold take_choice. fold (choice_delta ch). cbn [foldl].
  set (r1 := r <| content := _ |>).
  set (r2 := take_calls _ 0 _).
  assert (content r2 = content r1) as E.
  { unfold r2. rewrite take_calls_content.
    by rewrite !(proj1 (take_reasoning_frame _ _ _)). }
  destruct (truthy _); exact E.
Qed.
Lemma take_choice_arguments k r ch :
  arguments_of k (take_choice r ch) = (arguments_of k r ++ choice_arguments k ch)%string.
Proof.
  unfold take_choice. fold (choice_delta ch). cbn [foldl].
  set (r1 := r <| content := _ |>).
  set (r2 := take_calls _ 0 _).
  assert (arguments_of k r2 = (arguments_of k r1 ++ choice_arguments k ch)%string) as E.
  { unfold r2. rewrite take_calls_arguments. unfold arguments_of.
    by rewrite !(proj2 (take_reasoning_frame _ _ _)). }
  destruct (truthy _); exact E.
Qed.

(** Folding a step that appends to what [f] reads appends all of it. *)
Lemma fold_appends {A} (f : Reply -> string) (g : A -> string) (step : Reply -> A -> Reply) :
  (forall r x, f (step r x) = (f r ++ g x)%string) ->
  forall l r, f (foldl step r l) = (f r ++ String.concat "" (map g l))%string.
Proof.
  intros Hs. induction l as [|x l IH]; intros r; [by rewrite append_nil|].
  cbn [foldl map]. by rewrite IH, Hs, append_assoc, concat_cons.
Qed.

Lemma take_content r ch : content (take r ch) = (content r ++ chunk_content ch)%string.
Proof.
  unfold take, chunk_content. rewrite (fold_appends content _ take_choice take_choice_content).
  by destruct (truthy _).
Qed.
Lemma take_arguments k r ch :
  arguments_of k (take r ch) = (arguments_of k r ++ chunk_arguments k ch)%string.
Proof.
  unfold take, chunk_arguments.
  rewrite (fold_appends (arguments_of k) _ take_choice (take_choice_arguments k)).
  by destruct (truthy _).
Qed.

(** A stream is reassembled whole.  After any chunks, in any split, the reply's
    content is what they carried end to end, and the arguments of each tool call
    are the fragments with its index end to end, whatever comes between them. *)
Theorem stream_reassembled chs k :
  content (foldl take reply0 chs) = String.concat "" (map chunk_content chs) /\
  arguments_of k (foldl take reply0 chs) = String.concat "" (map (chunk_arguments k) chs).
Proof.
  rewrite (fold_appends content _ take take_content).
  by rewrite (fold_appends (arguments_of k) _ take (take_arguments k)).
Qed.

(** ** A whole reply is rebuilt as a stream *)

(** The calls as a client numbers them: in order from [n], each with an ID. *)
Fixpoint numbered (f : Fresh) (n : Z) (l : list (Z * Call)) : list (Z * Call) :=
  match l with
  | [] => []
  | (k, c) :: l' => (n, c <| c_id := or_else (c_id c) (f_call f k) |>) :: numbered f (n + 1) l'
  end.

Lemma dget_below {V} (k : Z) (d : list (Z * V)) : Forall (fun kv => kv.1 < k) d -> dget k d = None.
Proof. induction 1 as [|[k' v] d ?? IH]; cbn in *; [done|]. case_decide; [lia | done]. Qed.

Lemma take_numbered f n l r :
  Forall (fun kc => kc.1 < n) (calls r) ->
  Forall (fun kc => or_else (c_id kc.2) (f_call f kc.1) <> ""%string) l ->
  take_calls r n (index_calls n (map (call_json f) l)) = r <| calls := calls r ++ numbered f n l |>.
Proof.
  revert n r. induction l as [|[k c] l IH]; intros n r Hr Hl.
  { cbn. rewrite app_nil_r. by destruct r. }
  inversion_clear Hl as [|?? Hid Hl']. cbn [fst snd] in Hid.
  cbn [map index_calls take_calls numbered].
  assert (take_call r n (jset "index" (JInt n) (call_json f (k, c))) =
    r <| calls := calls r ++ [(n, c <| c_id := or_else (c_id c) (f_call f k) |>)] |>) as ->.
  { unfold take_call. set (call := jset _ _ _).
    assert (jget_or "index" (JInt n) call = JInt n) as -> by reflexivity.
    rewrite dget_below by done. rewrite dset_new by (by apply dget_below).
    unfold extend_call.
    assert (jget "id" call = JStr (or_else (c_id c) (f_call f k))) as -> by reflexivity.
    assert (jget "function" call =
      JObj [("name", JStr (c_name c)); ("arguments", JStr (c_arguments c))])%string as -> by reflexivity.
    cbn [truthy]. by destruct (String.eqb_spec (or_else (c_id c) (f_call f k)) ""). }
  rewrite IH; [|cbn; apply Forall_app; split; [|by repeat constructor; cbn; lia]|done].
  - cbn. by rewrite <- app_assoc.
  - eapply Forall_impl; [exact Hr|]. cbn. lia.
Qed.

(** What a client reads of the rebuilt delta. *)
Lemma delta_fields f r :
  reasoning_name r = "reasoning_content"%string \/ reasoning_name r = "reasoning"%string ->
  let d := delta_of f r in
  truthy d = true /\ jstr (jget "content" d) = content r /\
  (forall name, name = "reasoning_content"%string \/ name = "reasoning"%string ->
     jget name d = if String.eqb name (reasoning_name r) && negb (String.eqb (reasoning r) "")
                   then JStr (reasoning r) else JNull) /\
  jlist (jget "tool_calls" d) = index_calls 0 (map (call_json f) (calls_sorted (calls r))).
Proof.
  unfold delta_of, message_of. intros Hn.
  destruct (String.eqb_spec (content r) "") as [Hc|Hc];
  destruct (String.eqb_spec (reasoning r) "") as [Hr|Hr];
  destruct Hn as [Hn|Hn]; rewrite ?Hn, ?Hc; destruct (calls r) as [|kc l];
  (split; [reflexivity|]); (split; [reflexivity|]);
  (split; [intros name [->| ->]; reflexivity | reflexivity]).
Qed.

Lemma take_first f role r :
  reasoning_name r = "reasoning_content"%string \/ reasoning_name r = "reasoning"%string ->
  Forall (fun kc => or_else (c_id kc.2) (f_call f kc.1) <> ""%string) (calls_sorted (calls r)) ->
  let ch := JObj (chunk_of f role
    [JObj [("index", JInt 0); ("delta", delta_of f r); ("finish_reason", JNull)]])%string in
  exists name, take reply0 ch =
    reply0 <| content := content r |> <| reasoning := reasoning r |> <| reasoning_name := name |>
           <| calls := numbered f 0 (calls_sorted (calls r)) |>.
Proof.
  intros Hn Hids ch. destruct (delta_fields f r Hn) as (Ht & Hc & Hr & Hl).
  unfold take. assert (jget "usage" ch = JNull) as -> by reflexivity.
  assert (jlist (jget "choices" ch) =
    [JObj [("index", JInt 0); ("delta", delta_of f r); ("finish_reason", JNull)]])%string as -> by reflexivity.
  cbn [truthy foldl]. unfold take_choice.
  match goal with |- context [jget "delta" ?c] =>
    assert (jget "delta" c = delta_of f r) as -> by reflexivity;
    assert (jget "finish_reason" c = JNull) as -> by reflexivity end.
  unfold j_or. rewrite !Ht, Hc, Hl. cbn [truthy foldl]. unfold take_reasoning.
  rewrite (Hr "reasoning_content"%string), (Hr "reasoning"%string) by auto.
  destruct (String.eqb_spec (reasoning r) "") as [E|E].
  - rewrite !andb_false_r. cbn [truthy]. rewrite take_numbered; [|by constructor|done].
    exists "reasoning_content"%string. by rewrite E.
  - exists (reasoning_name r). destruct Hn as [-> | ->]; cbn [String.eqb andb negb truthy Ascii.eqb Bool.eqb];
    destruct (String.eqb_spec (reasoning r) ""); try done;
    cbn [truthy negb]; rewrite ?andb_false_r; rewrite take_numbered; try done; by constructor.
Qed.

Lemma take_last f role r1 fin :
  fin <> Some ""%string -> finish r1 = None ->
  take r1 (JObj (chunk_of f role [JObj [("index", JInt 0); ("delta", JObj []);
                                        ("finish_reason", json_opt_str fin)]]))%string
  = r1 <| finish := fin |>.
Proof.
  intros Hf H1. set (ch2 := JObj _). unfold take.
  assert (jget "usage" ch2 = JNull) as -> by reflexivity.
  set (c2 := JObj [("index"%string, JInt 0); ("delta"%string, JObj []);
                   ("finish_reason"%string, json_opt_str fin)]) in *.
  assert (jlist (jget "choices" ch2) = [c2]) as -> by reflexivity.
  cbn [truthy foldl]. unfold take_choice.
  assert (jget "delta" c2 = JObj []) as -> by reflexivity.
  assert (jget "message" c2 = JNull) as -> by reflexivity.
  assert (jget "finish_reason" c2 = json_opt_str fin) as -> by reflexivity.
  cbn. destruct r1; cbn in *. rewrite append_nil, H1.
  destruct fin as [s|]; [|done]. cbn. by destruct (String.eqb_spec s ""); [congruence|].
Qed.

(** C32: a whole reply survives being streamed.  For a client that asked for a
    stream, a reply that came whole is rebuilt as chunks; putting these together
    as the proxy itself does gives back the content, the reasoning, the finish
    reason and the usage, and the tool calls numbered from 0, each with an ID. *)
Theorem rebuilt_roundtrip f role r :
  reasoning_name r = "reasoning_content"%string \/ reasoning_name r = "reasoning"%string ->
  finish r <> Some ""%string ->
  Forall (fun kc => or_else (c_id kc.2) (f_call f kc.1) <> ""%string) (calls_sorted (calls r)) ->
  let r' := foldl take reply0 (rebuilt f role r) in
  content r' = content r /\ reasoning r' = reasoning r /\ finish r' = finish r /\
  calls r' = numbered f 0 (calls_sorted (calls r)) /\
  usage r' = match usage r with Some u => if truthy u then Some u else None | None => None end.
Proof.
  intros Hn Hf Hids. unfold rebuilt. rewrite foldl_app. cbn [foldl].
  destruct (take_first f role r Hn Hids) as [name ->].
  set (r1 := _ <| calls := _ |>).
  rewrite (take_last f role r1 (finish r) Hf eq_refl).
  destruct (usage r) as [u|]; [|done]. destruct (truthy u) eqn:Eu; [|done].
  cbn [foldl]. unfold take. set (ch3 := JObj _).
  assert (jget "usage" ch3 = u) as -> by reflexivity.
  assert (jlist (jget "choices" ch3) = []) as -> by reflexivity. rewrite Eu. done.
Qed.

Definition demo_fresh : Fresh := mkFresh "chatcmpl-1" 1700000000 (fun _ => "call_x"%string).
Definition demo_reply : Reply := reply0 <| status := 200 |> <| done_ := true |>
  <| finish := Some "tool_calls"%string |> <| content := "ok"%string |> <| reasoning := "so"%string |>
  <| reasoning_name := "reasoning"%string |>
  <| calls := [(3, mkCall "" "ls" "{}"); (1, mkCall "b" "cat" "{}")] |>
  <| usage := Some (JObj [("completion_tokens"%string, JInt 7)]) |>.

Lemma rebuilt_roundtrip_witness :
  map fst (calls (foldl take reply0 (rebuilt demo_fresh "coder" demo_reply))) = [0; 1].
Proof.
  assert (H : calls (foldl take reply0 (rebuilt demo_fresh "coder" demo_reply)) =
    numbered demo_fresh 0 (calls_sorted (calls demo_reply))).
  { apply (rebuilt_roundtrip demo_fresh "coder" demo_reply);
      [by right | done | repeat constructor; vm_compute; congruence]. }
  rewrite H. vm_compute. reflexivity.
Defined.
