(* ===== verification/LlmProxy.v ===== *)
(** [Proxy] of [apps/agentic-analysis/llm_proxy.py]: how a request is sized, which
    backend it goes to, how it is shaped for that backend, and [forward], which
    tries until it has a reply fit for the agent or a final error. *)
From S2P Require Import Prelude PyJson PyText LlmConfig LlmGate LlmReply.
Open Scope Z_scope.

(** ** The size of a request *)

Definition subtype_char (c : ascii) : bool :=
  is_lower c || is_upper c || is_digit c || Ascii.eqb c "." || Ascii.eqb c "+" || Ascii.eqb c "-".
Definition base64_char (c : ascii) : bool :=
  is_lower c || is_upper c || is_digit c || Ascii.eqb c "+" || Ascii.eqb c "/" || Ascii.eqb c "=".
Definition quote : ascii := "034".

Fixpoint span_count (p : ascii -> bool) (l : list ascii) : nat * list ascii :=
  match l with
  | c :: l' => if p c then let '(n, r) := span_count p l' in (S n, r) else (O, l)
  | [] => (O, [])
  end.
(** The length of a match of [DATA_URL] at the start of [l].  No character that
    may repeat is the one that follows, so the longest run is the only one. *)
Definition data_url_at (l : list ascii) : option nat :=
  match literal (String quote "data:image/") l with
  | None => None
  | Some l1 =>
      let '(n, l2) := span_count subtype_char l1 in
      if (n =? 0)%nat then None else
      match literal ";base64," l2 with
      | None => None
      | Some l3 =>
          let '(k, l4) := span_count base64_char l3 in
          match l4 with
          | c :: _ => if Ascii.eqb c quote then Some (12 + n + 8 + k + 1)%nat else None
          | [] => None
          end
      end
  end.
(** [sum(len(m.group()) for m in DATA_URL.finditer(raw))]: [skip] characters are
    within the last match. *)
Fixpoint data_urls (skip : nat) (l : list ascii) : Z :=
  match l with
  | [] => 0
  | _ :: l' =>
      match skip with
      | S k => data_urls k l'
      | O => match data_url_at l with
             | Some n => Z.of_nat n + data_urls (n - 1) l'
             | None => data_urls O l'
             end
      end
  end.

Section Proxy.
Context (config : Config).

Definition config_view : json :=
  JObj (map (fun '(name, r) => (name,
    JObj [("context", JInt (r_context r)); ("compact_at", JInt (compact_at r));
          ("images", JInt (r_images r)); ("max_body_bytes", JInt (max_body_bytes (settings config)));
          ("backends", JArr (map (fun b => JStr (Backend_str b)) (backends r)))]))%string
    (roles config)).

(** For a [bytes_per_token] other than 0, by which the code divides. *)
Definition estimate (raw : string) (body : json) (m : Model) : Z :=
  let pictures := data_urls 0 (list_ascii_of_string raw) in
  let text := (qz (Z.of_nat (String.length raw) - pictures) / bytes_per_token (settings config))%Q in
  py_int text + images body * image_tokens m.

(** [self.config.models[name]], which [load] guarantees a backend has. *)
Definition no_model : Model := mkModel "" 0 (1, 1) 0 0 (1, 1) 0 (0, 0)%Q (0, 0)%Q [].
Definition model_of (b : Backend) : Model := default no_model (dget (b_model b) (models config)).

Definition room (prompt : Z) (b : Backend) : Z :=
  py_int (SHARE * qz (m_context (model_of b))) - prompt - 1.

Definition usable (raw : string) (body : json) (b : Backend) : bool :=
  let m := model_of b in (max_tokens m).1 <=? room (estimate raw body m) b.

(** ** [shape] *)

Inductive Error := ValueError | TypeError | Uncaught | OutOfFuel.
#[export] Instance Error_eq_dec : EqDecision Error.
Proof. solve_decision. Defined.

Definition json_int (j : json) : res Error Z :=
  match j with
  | JInt n => Ok n
  | JFloat q => Ok (py_int q)
  | JBool b => Ok (if b then 1 else 0)
  | JStr s => match int_of_str s with Some n => Ok n | None => Err ValueError end
  | _ => Err TypeError
  end.

Definition apply_extra (out : json) (kv : string * json) : json :=
  let '(key, value) := kv in
  if is_obj value && is_obj (jget key out) then jset key (jmerge (jget key out) value) out
  else jset key value out.

Definition shape (body : json) (b : Backend) (cap : Z) (stream : bool) : res Error json :=
  let out := jset "model" (JStr (b_model b)) (jdel "max_completion_tokens" body) in
  let extra := jget_or (variant b) (JObj []) (JObj (variants (model_of b))) in
  let out := foldl apply_extra out (jitems extra) in
  let asked := j_or (j_or (jget "max_tokens" body) (jget "max_completion_tokens" body)) (JInt cap) in
  n ← json_int asked;
  let out := jset "max_tokens" (JInt (Z.min n cap)) out in
  let out := jset "stream" (JBool stream) out in
  Ok (if stream then
        jset "stream_options"
          (JObj (dset "include_usage"%string (JBool true)
             (jitems (j_or (jget "stream_options" body) (JObj []))))) out
      else jdel "stream_options" out).

(** ** [exchange] *)

(** A line of a streamed answer: whether the client had gone when it came, its
    text, what [json.loads] makes of its data, and the seconds since the start. *)
Record Line := mkLine { l_gone : bool; l_text : string; l_value : option json; l_at : Q }.
(** What upstream does with one request: it answers, with a text that
    [response.json()] makes a value of or that comes as lines until it ends or the
    connection does, or there is an exception before the answer. *)
Record Answer := mkAnswer {
  a_status : Z; a_headers : list (string * string); a_text : string; a_value : option json;
  a_lines : list Line; a_took : Q }.
Inductive Upstream := Answered (a : Answer) | HTTPError (exception : string) | OtherError.

(** The exceptions [forward] catches, by name: [httpx.HTTPError] and [ValueError]. *)
Inductive Exchanged := Replied (r : Reply) | Raised (exception : string) | Escaped.

Fixpoint read_lines (r : Reply) (lines : list Line) : Exchanged :=
  match lines with
  | [] => Replied r
  | l :: lines' =>
      if l_gone l then Replied r
      else if negb (startswith "data:" (l_text l)) then read_lines r lines'
      else
        let data := str_strip (str_drop 5 (l_text l)) in
        if String.eqb data "[DONE]" then Replied (r <| done_ := true |>)
        else
          let r := match r_ttft r with None => r <| r_ttft := Some (l_at l) |> | Some _ => r end in
          let r := r <| payloads := payloads r ++ [data] |> in
          match l_value l with
          | None => Raised "JSONDecodeError"
          | Some v => read_lines (take r v) lines'
          end
  end.

Definition exchange (payload : json) (u : Upstream) : Exchanged :=
  match u with
  | HTTPError e => Raised e
  | OtherError => Escaped
  | Answered a =>
      let r := reply0 <| status := a_status a |> <| headers := a_headers a |> in
      if negb (truthy (jget "stream" payload)) then
        let r := r <| seconds := a_took a |> in
        if negb (a_status a =? 200) then Replied (_upstream_error r (a_text a))
        else match a_value a with
             | None => Raised "JSONDecodeError"
             | Some v => Replied ((take r v) <| done_ := true |>)
             end
      else if negb (a_status a =? 200) then
        Replied (_upstream_error (r <| seconds := a_took a |>) (a_text a))
      else match read_lines r (a_lines a) with
           | Replied r => Replied (r <| seconds := a_took a |>)
           | e => e
           end
  end.

(** ** What [forward] asks of its surroundings *)

(** Gates are shared by the requests' threads, so what a gate answers is up to
    its state then ([LlmGate]); the clock, the client and upstream are outside. *)
Inductive Req :=
| Now | Cancelled | Healthy (model : string) | GateCap (model : string)
| Acquire (model : string) (tokens rank : Z) (deadline : Q)
| Release (model : string) (tokens completion : Z)
| Exchange (model : string) (payload : json)
| Observe (model : string) (t d : option Q) | Succeeded (model : string) (t d : option Q)
| Failed (model : string) (retry_after : option Q) (attempt : Z)
| StoppingWait (seconds : Q).
Definition Ans (r : Req) : Type :=
  match r with
  | Now | Failed _ _ _ => Q
  | Cancelled | Healthy _ | Acquire _ _ _ _ | StoppingWait _ => bool
  | GateCap _ => Z
  | Release _ _ _ | Observe _ _ _ | Succeeded _ _ _ => unit
  | Exchange _ _ => Upstream
  end.

Definition Sticky := list ((string * string) * Backend).
Context (svc : service Req Ans).
Local Abbreviation P := (M (sigT Ans) Sticky Error).
Local Abbreviation call r := (mcall svc r : P (Ans r)).

(** ** [pick] *)

(** [next((b for b in bs if healthy(b)), dflt)] *)
Fixpoint first_healthy (bs : list Backend) (dflt : Backend) : P Backend :=
  match bs with
  | [] => mret dflt
  | b :: bs' => h ← call (Healthy (b_model b)); if (h : bool) then mret b else first_healthy bs' dflt
  end.

(** [self.sticky[key] = chosen; move_to_end(key)], and the oldest beyond [STICKY] go. *)
Definition stick (key : string * string) (b : Backend) (s : Sticky) : Sticky :=
  let s := ddel key s ++ [(key, b)] in
  drop (List.length s - Z.to_nat STICKY) s.

Definition no_backend : Backend := mkBackend "" "".
Definition choose (role : Role) (key : string * string) (usable : Backend -> bool) : P Backend :=
  let candidates := match List.filter usable (backends role) with
                    | [] => backends role | l => l end in
  b ← first_healthy candidates (hd no_backend candidates);
  (if String.eqb key.2 "" then mret tt else mmod (stick key b)) ;;
  mret b.

Definition pick (role : Role) (session : string) (usable : Backend -> bool) : P Backend :=
  let key := (r_name role, session) in
  s ← mget;
  match (if String.eqb session "" then None else dget key s) with
  | Some kept =>
      if bool_decide (kept ∈ backends role) then
        h ← call (Healthy (b_model kept));
        if (h : bool) && usable kept then mret kept else choose role key usable
      else choose role key usable
  | None => choose role key usable
  end.

(** ** [forward] *)

Definition retry_header (r : Reply) (name : string) : option Q :=
  match dget name (headers r) with
  | Some v => match parse_float v with Some q => Some (Qmax 1 q) | None => None end
  | None => None
  end.
Definition _retry_after (r : Reply) : Q :=
  match retry_header r "retry-after" with
  | Some q => q
  | None => match retry_header r "x-ratelimit-reset" with Some q => q | None => RATE_LIMIT_WAIT end
  end.

(** The record of what a request took, as far as it is not the reply's own. *)
Record Rec := mkRec {
  attempts : Z; rec_cuts : Z; rec_failures : Z; client_gone : bool;
  rec_problem : option Problem; reshaped : option Problem; queued_s : Q;
  rec_backend : option Backend; rec_max_tokens : Z }.
#[export] Instance eta_rec : Eta Rec := {| eta_of r :=
  mkRec (attempts r) (rec_cuts r) (rec_failures r) (client_gone r) (rec_problem r)
    (reshaped r) (queued_s r) (rec_backend r) (rec_max_tokens r) |}.
Definition rec0 : Rec := mkRec 0 0 0 false None None 0 None 0.

(** The variables of the loop. *)
Record Loop := mkLoop {
  cuts : Z; shrink_to : Z; n_failures : Z; streamed : option Reply; record : Rec }.
#[export] Instance eta_loop : Eta Loop := {| eta_of l :=
  mkLoop (cuts l) (shrink_to l) (n_failures l) (streamed l) (record l) |}.
Definition loop0 : Loop := mkLoop 0 0 0 None rec0.

(** A pass of the loop goes on, or returns. *)
Inductive Pass := Again (l : Loop) | Return (r : Reply) (rc : Rec).
Definition end_with (st : Z) (code msg : string) (rc : Rec) : P Pass := mret (Return (failure st code msg) rc).
Definition gone (rc : Rec) : P Pass :=
  end_with 499 "server_error" "the client is gone" (rc <| client_gone := true |>).
(** The streamed reply of the try before, with what is wrong with it. *)
Definition fall_back (r : Reply) (rc : Rec) : P Pass :=
  mret (Return r (rc <| rec_problem := problem r |>)).

(** What a pass does with an answer of status other than 200, or a stream cut early. *)
Definition after_failure (m : string) (deadline : Q) (reply : Reply) (l : Loop) : P Pass :=
  c ← call Cancelled;
  if (c : bool) then mret (Again l) else
  let n := n_failures l + 1 in
  let l := l <| n_failures := n |> <| record := (record l) <| rec_failures := n |> |> in
  let retry := if status reply =? 429 then Some (_retry_after reply) else None in
  wait ← call (Failed m retry n);
  now ← call Now;
  if deadline <=?q ((now : Q) + (wait : Q))%Q then
    end_with 503 "server_error" "the model kept failing" (record l)
  else
    stop ← call (StoppingWait wait);
    if (stop : bool) then end_with 503 "server_error" "the proxy is restarting" (record l)
    else mret (Again l).

(** What [completion] counts, or the exception it raises, which nothing catches. *)
Definition or_raise {A} (o : option A) : P A :=
  match o with Some a => mret a | None => raise Uncaught end.

(** What a pass does with a stream that NRP cut at its limit. *)
Definition after_cut (m : string) (floor : Z) (deadline : Q) (reply : Reply) (l : Loop) : P Pass :=
  rate ← or_raise (decode reply);
  call (Observe m (r_ttft reply) rate) ;;
  let n := cuts l + 1 in
  let l := l <| cuts := n |> <| record := (record l) <| rec_cuts := n |> |> in
  now ← (if cut_retries (settings config) <? n then mret None
         else t ← call Now; mret (Some (t : Q)));
  if match now with None => true | Some t => deadline <=?q t end then
    end_with 502 "server_error" "the model's reply was cut off" (record l)
  else
    tokens ← or_raise (completion reply);
    mret (Again (l <| shrink_to := Z.max floor (py_int (CUT_SHRINK * qz tokens)) |>)).

(** [early]: a stream that broke off well before NRP's cut. *)
Definition early_cut (reply : Reply) : bool :=
  bool_decide (problem reply = Some Cut)
  && (seconds reply <?q (EARLY_CUT * cut_seconds (settings config))%Q).

Definition judge (gate : string) (m : Model) (deadline : Q) (reply : Reply) (l : Loop) : P Pass :=
  match streamed l with
  | Some s =>
      if negb (status reply =? 200) || bool_decide (problem reply = Some Cut)
      then fall_back s (record l)
      else
        rate ← or_raise (decode reply);
        call (Succeeded gate (r_ttft reply) rate) ;;
        mret (Return reply ((record l) <| rec_problem := problem reply |>))
  | None =>
      if (status reply =? 429) || (500 <=? status reply)
         || ((status reply =? 200) && early_cut reply)
      then after_failure gate deadline reply l
      else if negb (status reply =? 200) then mret (Return reply (record l))
      else if bool_decide (problem reply = Some Cut) then
        after_cut gate (max_tokens m).1 deadline reply l
      else if bool_decide (problem reply <> None) && bool_decide (finish reply <> Some "length"%string)
      then mret (Again (l <| streamed := Some reply |>
                          <| record := (record l) <| reshaped := problem reply |> |>))
      else
        rate ← or_raise (decode reply);
        call (Succeeded gate (r_ttft reply) rate) ;;
        mret (Return reply ((record l) <| rec_problem := problem reply |>))
  end.

(** [try: reply = exchange(...) except ... finally: gate.release(...)], where the
    argument of [release] may raise before it is called. *)
Definition attempt (m : string) (tokens : Z) (payload : json) : P Reply :=
  u ← call (Exchange m payload);
  let '(reply, raised) := match exchange payload u with
    | Replied r => (r, false)
    | Raised name => (reply0 <| status := 599 |> <| error := name |>, false)
    | Escaped => (reply0, true)
    end in
  n ← or_raise (if status reply =? 200 then completion reply else Some 0);
  call (Release m tokens n) ;;
  if (raised : bool) then raise Uncaught else mret reply.

Definition no_room (l : Loop) : P Pass :=
  c ← call Cancelled;
  if (c : bool) then gone (record l)
  else match streamed l with
       | Some s => fall_back s (record l)
       | None => end_with 503 "server_error" "no room within the hold" (record l)
       end.

Definition try_once (role : Role) (raw : string) (body : json) (session : string)
    (deadline : Q) (l : Loop) : P Pass :=
  b ← pick role session (usable raw body);
  let m := model_of b in
  let prompt := estimate raw body m in
  let rm := room prompt b in
  if rm <? (max_tokens m).1 then
    end_with 413 "context_length_exceeded" "over the models' fair-use size" (record l)
  else
    gate_cap ← call (GateCap (b_model b));
    let cap := Z.min (Z.min gate_cap rm) (if shrink_to l =? 0 then rm else shrink_to l) in
    payload ← mlift (shape body b cap (match streamed l with None => true | Some _ => false end));
    let asked := match jget "max_tokens" payload with JInt n => n | _ => 0 end in
    let tokens := prompt + asked in
    let l := l <| record := (record l) <| rec_backend := Some b |> <| rec_max_tokens := asked |> |> in
    queued ← call Now;
    granted ← call (Acquire (b_model b) tokens (rank role) deadline);
    if negb (granted : bool) then no_room l
    else
      t ← call Now;
      let l := l <| record := (record l) <| queued_s := (queued_s (record l) + (t : Q) - (queued : Q))%Q |>
                                       <| attempts := attempts (record l) + 1 |> |> in
      reply ← attempt (b_model b) tokens payload;
      judge (b_model b) m deadline reply l.

Definition pass (role : Role) (raw : string) (body : json) (session : string)
    (deadline : Q) (l : Loop) : P Pass :=
  c ← call Cancelled;
  if (c : bool) then gone (record l) else
  match streamed l with
  | Some s =>
      now ← call Now;
      if deadline <=?q (now : Q) then fall_back s (record l)
      else try_once role raw body session deadline l
  | None => try_once role raw body session deadline l
  end.

Fixpoint passes (fuel : nat) (role : Role) (raw : string) (body : json) (session : string)
    (deadline : Q) (l : Loop) : P (Reply * Rec) :=
  match fuel with
  | O => raise OutOfFuel
  | S fuel =>
      r ← pass role raw body session deadline l;
      match r with
      | Again l' => passes fuel role raw body session deadline l'
      | Return reply rc => mret (reply, rc)
      end
  end.

Definition forward (fuel : nat) (role : Role) (raw : string) (body : json) (session : string)
    : P (Reply * Rec) :=
  now ← call Now;
  passes fuel role raw body session ((now : Q) + hold_hours (settings config) * 3600)%Q loop0.

End Proxy.

(** ** What the trace of a request shows *)

Abbreviation Ev := (sigT Ans).

(** The admission a request holds, or that its events break the rule: it sends a
    payload only while it holds an admission to that model, takes one at a time,
    and gives back the one it holds, once. *)
Inductive Slot := Free | Holding (model : string) (tokens : Z) | Broken.
Definition slot_step (st : Slot) (e : Ev) : Slot :=
  match e with
  | existT (Acquire m tokens _ _) granted =>
      if (granted : bool) then match st with Free => Holding m tokens | _ => Broken end else st
  | existT (Exchange m _) _ =>
      match st with Holding m' t => if String.eqb m m' then st else Broken | _ => Broken end
  | existT (Release m tokens _) _ =>
      match st with
      | Holding m' t => if String.eqb m m' && (tokens =? t) then Free else Broken
      | _ => Broken
      end
  | _ => st
  end.
Definition slot_of (h : list Ev) : Slot := foldl slot_step Free h.

(** The events end with an answer of status 200 whose usage says no number of
    tokens: what [completion] raises on, with the admission still held. *)
Definition uncounted (h : list Ev) : Prop :=
  exists h' m p u r, h = h' ++ [existT (Exchange m p) u] /\
    exchange p u = Replied r /\ status r = 200 /\ completion r = None.

Definition health_event (e : Ev) : Prop :=
  match e with existT (Healthy _) _ => True | _ => False end.

Lemma slot_of_snoc h e : slot_of (h ++ [e]) = slot_step (slot_of h) e.
Proof. unfold slot_of. by rewrite foldl_app. Qed.
Lemma slot_of_health h evs : Forall health_event evs -> slot_of (h ++ evs) = slot_of h.
Proof.
  unfold slot_of. rewrite foldl_app. generalize (foldl slot_step Free h).
  induction evs as [|[r a] evs IH]; intros st [H Hs]%Forall_cons || intros st H; [done|].
  cbn [foldl]. destruct r; try done. by apply IH.
Qed.

(** ** What [pick] does *)

Lemma wp_first_healthy svc bs dflt s h (Q : res Error Backend -> Sticky -> list Ev -> Prop) :
  (forall b evs, b ∈ dflt :: bs -> Forall health_event evs -> Q (Ok b) s (h ++ evs)) ->
  wp (first_healthy svc bs dflt) s h Q.
Proof.
  revert h. induction bs as [|b bs IH]; intros h HQ; cbn [first_healthy].
  - apply wp_ret. rewrite <- (app_nil_r h). apply HQ; [set_solver | done].
  - do 2 wp_step. wp_step.
    + apply wp_ret. apply HQ; [set_solver | by repeat constructor].
    + apply IH. intros b' evs Hb He. rewrite <- app_assoc. apply HQ; [set_solver|].
      by constructor.
Qed.

Lemma wp_choose svc role key u s h (Q : res Error Backend -> Sticky -> list Ev -> Prop) :
  backends role <> [] ->
  (forall b s' evs, b ∈ backends role -> Forall health_event evs -> Q (Ok b) s' (h ++ evs)) ->
  wp (choose svc role key u) s h Q.
Proof.
  intros Hne HQ. unfold choose.
  set (cs := match List.filter u (backends role) with [] => backends role | l => l end).
  assert (Hcs : cs <> [] /\ forall b, b ∈ cs -> b ∈ backends role).
  { unfold cs. destruct (List.filter u (backends role)) as [|x l] eqn:E; [done|]. split; [done|].
    intros b Hb. rewrite <- E in Hb. apply list_elem_of_In, filter_In in Hb as [Hb _].
    by apply list_elem_of_In. }
  destruct Hcs as [Hcs Hin]. wp_step. apply wp_first_healthy. intros b evs Hb He.
  assert (b ∈ backends role).
  { apply Hin. destruct cs as [|x l]; [done|]. cbn in Hb. set_solver. }
  wp_step. wp_step; wp_step; wp_step; by apply HQ.
Qed.

Lemma wp_pick svc role session u s h (Q : res Error Backend -> Sticky -> list Ev -> Prop) :
  backends role <> [] ->
  (forall b s' evs, b ∈ backends role -> Forall health_event evs -> Q (Ok b) s' (h ++ evs)) ->
  wp (pick svc role session u) s h Q.
Proof.
  intros Hne HQ. unfold pick. do 2 wp_step.
  destruct (if String.eqb session "" then None else dget _ s) as [kept|]; [|by apply wp_choose].
  case_bool_decide as Hk; [|by apply wp_choose]. do 2 wp_step. wp_step.
  - wp_step. apply HQ; [done | by repeat constructor].
  - apply wp_choose; [done|]. intros b s' evs Hb He. rewrite <- app_assoc. apply HQ; [done|].
    by constructor.
Qed.

(** ** What [shape] makes of a body *)

Lemma apply_extra_obj o kv : is_obj o = true -> is_obj (apply_extra o kv) = true.
Proof. destruct kv as [k v]. unfold apply_extra. intros. by case_match; rewrite is_obj_jset. Qed.
Lemma apply_extras_obj l o : is_obj o = true -> is_obj (foldl apply_extra o l) = true.
Proof. revert o. induction l; cbn; auto using apply_extra_obj. Qed.
Lemma apply_extra_ne k o kv : kv.1 <> k -> jget k (apply_extra o kv) = jget k o.
Proof. destruct kv as [k' v]. unfold apply_extra. cbn. intros. by case_match; rewrite jget_jset_ne. Qed.
Lemma apply_extras_ne k l o : k ∉ l.*1 -> jget k (foldl apply_extra o l) = jget k o.
Proof.
  revert o. induction l as [|kv l IH]; intros o; [done|].
  rewrite fmap_cons, not_elem_of_cons. intros [Hne Hni]. cbn [foldl].
  rewrite IH by done. by apply apply_extra_ne.
Qed.

(** The extra fields of a backend's variant. *)
Definition extra_of (config : Config) (b : Backend) : list (string * json) :=
  jitems (jget_or (variant b) (JObj []) (JObj (variants (model_of config b)))).

Lemma shape_ok config body b cap stream p :
  is_obj body = true -> shape config body b cap stream = Ok p ->
  exists n, jget "max_tokens" p = JInt n /\ n <= cap /\ jget "stream" p = JBool stream.
Proof.
  intros Hb. unfold shape. fold (extra_of config b).
  set (out := foldl _ _ _).
  assert (Ho : is_obj out = true).
  { apply apply_extras_obj. by rewrite is_obj_jset, is_obj_jdel. }
  unfold mbind, res_bind. destruct (json_int _) as [n|e]; [|done]. intros H.
  exists (Z.min n cap). split; [|split; [lia|]].
  - destruct stream; simplify_eq.
    + rewrite jget_jset_ne by done. rewrite jget_jset_ne by done. by apply jget_jset_obj.
    + rewrite jget_jdel_ne by done. rewrite jget_jset_ne by done. by apply jget_jset_obj.
  - destruct stream; simplify_eq.
    + rewrite jget_jset_ne by done. apply jget_jset_obj. by rewrite is_obj_jset.
    + rewrite jget_jdel_ne by done. apply jget_jset_obj. by rewrite is_obj_jset.
Qed.

Lemma shape_error config body b cap stream e :
  shape config body b cap stream = Err e -> e = ValueError \/ e = TypeError.
Proof.
  unfold shape, mbind, res_bind. destruct (json_int _) as [n|e'] eqn:E; [by destruct stream|].
  intros [= <-]. revert E. unfold json_int. repeat case_match; intros; simplify_eq; auto.
Qed.

(** ** The invariant of [forward]'s loop *)

Definition count (f : Ev -> bool) (h : list Ev) : Z := zsum (map (fun e => if f e then 1 else 0) h).
Definition is_observe (e : Ev) : bool := match e with existT (Observe _ _ _) _ => true | _ => false end.
Definition is_whole (e : Ev) : bool :=
  match e with existT (Exchange _ p) _ => negb (truthy (jget "stream" p)) | _ => false end.

Lemma count_snoc f h e : count f (h ++ [e]) = count f h + if f e then 1 else 0.
Proof. unfold count. rewrite map_app, zsum_app. cbn. destruct (f e); cbn; lia. Qed.
Lemma count_health f h evs :
  (forall e, health_event e -> f e = false) -> Forall health_event evs ->
  count f (h ++ evs) = count f h.
Proof.
  intros Hf He. unfold count. rewrite map_app, zsum_app.
  enough (zsum (map (fun e => if f e then 1 else 0) evs) = 0) by lia.
  unfold zsum. induction He as [|e evs H _ IH]; [done|]. cbn. rewrite (Hf _ H). unfold zsum in IH. lia.
Qed.
Lemma observe_health e : health_event e -> is_observe e = false.
Proof. destruct e as [[] a]; done. Qed.
Lemma whole_health e : health_event e -> is_whole e = false.
Proof. destruct e as [[] a]; done. Qed.

(** Runs a pass step by step, the ways it ends opened. *)
Ltac pass_run := repeat first
  [ wp_step
  | match goal with |- wp (?f _ _ _ _) _ _ _ => unfold f | |- wp (?f _ _) _ _ _ => unfold f
    | |- wp (?f _) _ _ _ => unfold f end ].

Section Run.
Context (config : Config) (svc : service Req Ans).
Context (role : Role) (raw : string) (body : json) (session : string).

(** A request to upstream, and the admission for it, are within the fair use of one
    of the role's models: below [SHARE] of its context for the prompt and the reply. *)
Definition fair_size (m : string) (n : Z) : Prop :=
  exists b, b ∈ backends role /\ b_model b = m /\
    n <= py_int (SHARE * qz (m_context (model_of config b))) - 1.
Definition fair (e : Ev) : Prop :=
  match e with
  | existT (Acquire m tokens rk _) _ => fair_size m tokens /\ rk = rank role
  | existT (Exchange m p) _ => exists b n, b ∈ backends role /\ b_model b = m /\
      jget "max_tokens" p = JInt n /\
      estimate config raw body (model_of config b) + n
        <= py_int (SHARE * qz (m_context (model_of config b))) - 1
  | _ => True
  end.
Lemma fair_health e : health_event e -> fair e.
Proof. destruct e as [[] a]; done. Qed.

(** A streamed reply is kept aside for its form alone: it is whole. *)
Definition kept_ok (r : Reply) : Prop :=
  status r = 200 /\ done_ r = true /\ problem r <> None /\ problem r <> Some Cut.
(** What an agent may be given. *)
Definition fit (r : Reply) (rc : Rec) : Prop :=
  if status r =? 200
  then done_ r = true /\ problem r <> Some Cut /\
       (problem r = None \/ finish r = Some "length"%string \/ reshaped rc <> None)
  else status r <> 429 /\ (status r < 500 \/ status r = 502 \/ status r = 503).

Definition trace_ok (h : list Ev) : Prop := slot_of h = Free /\ Forall fair h.
Definition Inv (l : Loop) (h : list Ev) : Prop :=
  trace_ok h /\ count is_observe h = cuts l /\ 0 <= cuts l <= Z.max 0 (cut_retries (settings config)) /\
  count is_whole h = 0 /\
  match streamed l with Some r => kept_ok r /\ reshaped (record l) <> None | None => True end.
(** What holds when the loop ends. *)
Definition bounded (h : list Ev) : Prop :=
  count is_observe h <= Z.max 0 (cut_retries (settings config)) + 1 /\ count is_whole h <= 1.
Definition Fin (h : list Ev) : Prop := trace_ok h /\ bounded h.
(** And when it ends by an exception. *)
Definition Broke (e : Error) (h : list Ev) : Prop :=
  (slot_of h = Free \/ e = Uncaught /\ uncounted h) /\ Forall fair h /\ bounded h.
Lemma Fin_broke e h : Fin h -> Broke e h.
Proof. intros [[Hs Hf] Hb]. split; [by left | done]. Qed.
Definition After (r : res Error Pass) (_ : Sticky) (h : list Ev) : Prop :=
  match r with
  | Ok (Again l) => Inv l h
  | Ok (Return reply rc) => Fin h /\ fit reply rc
  | Err e => Broke e h /\ e <> OutOfFuel
  end.

(** Adds the events of a step to what is known of the trace. *)
Lemma trace_ok_snoc h e :
  trace_ok h -> slot_step Free e = Free -> fair e -> trace_ok (h ++ [e]).
Proof.
  intros [Hs Hf] He Hfe. split; [by rewrite slot_of_snoc, Hs|].
  apply Forall_app. by repeat constructor.
Qed.
Lemma trace_ok_health h evs : trace_ok h -> Forall health_event evs -> trace_ok (h ++ evs).
Proof.
  intros [Hs Hf] He. split; [by rewrite slot_of_health|]. apply Forall_app. split; [done|].
  eapply Forall_impl; [exact He|]. apply fair_health.
Qed.
Lemma Inv_fin l h : Inv l h -> Fin h.
Proof. intros (Ht & Hc & Hb & Hw & _). split; [done|]. split; lia. Qed.
(** An event that is no admission, sending or observation changes nothing. *)
Lemma Inv_snoc l h e :
  slot_step Free e = Free -> fair e -> is_observe e = false -> is_whole e = false ->
  Inv l h -> Inv l (h ++ [e]).
Proof.
  intros Hs Hf Ho Hw (Ht & Hc & Hb & Hwh & Hl). split; [by apply trace_ok_snoc|].
  rewrite !count_snoc, Ho, Hw. split; [lia|]. split; [done|]. split; [lia | done].
Qed.
Lemma Inv_health l h evs : Forall health_event evs -> Inv l h -> Inv l (h ++ evs).
Proof.
  intros He (Ht & Hc & Hb & Hwh & Hl). split; [by apply trace_ok_health|].
  rewrite !count_health by auto using observe_health, whole_health. done.
Qed.
Lemma Fin_snoc h e :
  slot_step Free e = Free -> fair e -> is_observe e = false -> is_whole e = false ->
  Fin h -> Fin (h ++ [e]).
Proof.
  intros Hs Hf Ho Hw (Ht & Hc & Hwh). split; [by apply trace_ok_snoc|]. unfold bounded.
  rewrite !count_snoc, Ho, Hw. split; lia.
Qed.
(** The record plays a part only in a kept reply's mark. *)
Lemma Inv_record l h rc :
  reshaped rc = reshaped (record l) -> Inv l h -> Inv (l <| record := rc |>) h.
Proof. intros Hr (Ht & Hc & Hb & Hwh & Hl). do 4 (split; [done|]).
  cbn. destruct (streamed l); [|done]. by rewrite Hr. Qed.
Lemma kept_fit s rc : kept_ok s -> reshaped rc <> None -> fit s rc.
Proof. intros (Hs & Hd & Hp & Hc) Hr. unfold fit. rewrite Hs. cbn. auto. Qed.

(** *** The steps of a pass *)

(** Peels events that change nothing off the end of the trace. *)
Ltac peel :=
  repeat first
    [ eassumption
    | apply Inv_snoc; [reflexivity | exact I | reflexivity | reflexivity |]
    | apply Inv_health; [assumption|]
    | apply Inv_record; [reflexivity|] ].

(** What follows a count, which has a number or is an exception. *)
Lemma wp_or_raise {A B} (o : option A) (k : A -> M Ev Sticky Error B) s h Q :
  Q (Err Uncaught) s h -> (forall a, o = Some a -> wp (k a) s h Q) -> wp (or_raise o ≫= k) s h Q.
Proof. intros Hn Hs. apply wp_bind. destruct o; [by apply Hs|]. by apply wp_raise. Qed.

Lemma wp_after_failure m deadline reply l s h :
  Inv l h -> wp (after_failure svc m deadline reply l) s h After.
Proof.
  intros HI. unfold after_failure. do 2 wp_step. wp_step.
  { wp_step. cbn [After]. peel. }
  pass_run; cbn [After].
  - split; [|by unfold fit; cbn; lia]. apply (Inv_fin l). peel.
  - split; [|by unfold fit; cbn; lia]. apply (Inv_fin l). peel.
  - apply (Inv_record (l <| n_failures := _ |>)); [reflexivity|]. peel.
Qed.

Lemma wp_after_cut m fl deadline reply l s h :
  streamed l = None -> Inv l h -> wp (after_cut config svc m fl deadline reply l) s h After.
Proof.
  intros Hs HI. unfold after_cut. apply wp_or_raise; [split; [by eapply Fin_broke, Inv_fin | done]|].
  intros rate _. destruct HI as (Ht & Hc & Hb & Hw & Hl). do 2 wp_step.
  set (h1 := h ++ [_]). assert (H1 : trace_ok h1) by (by apply trace_ok_snoc).
  assert (Hc1 : count is_observe h1 = cuts l + 1) by (unfold h1; rewrite count_snoc; cbn; lia).
  assert (Hw1 : count is_whole h1 = 0) by (unfold h1; rewrite count_snoc; cbn; lia).
  clearbody h1. assert (HF : Fin h1) by (split; [done|]; unfold bounded; lia).
  do 2 wp_step; [|do 2 wp_step]; wp_step; cbn [cuts set_field] in *; breflect.
  - pass_run. split; [done|]. unfold fit; cbn; lia.
  - pass_run; cbn [After].
    + split; [by apply Fin_snoc|]. unfold fit; cbn; lia.
    + apply Inv_snoc; [done..|]. split; [done|]. cbn. split; [lia|]. split; [lia|].
      split; [lia|]. by rewrite Hs.
    + by split; [apply Fin_broke, Fin_snoc|].
Qed.

(** Before an answer is judged: a whole retry may be among the events. *)
Definition Ready (l : Loop) (h : list Ev) : Prop :=
  match streamed l with
  | None => Inv l h
  | Some r => Fin h /\ kept_ok r /\ reshaped (record l) <> None
  end.

Lemma Ready_record l h rc :
  reshaped rc = reshaped (record l) -> Ready l h -> Ready (l <| record := rc |>) h.
Proof.
  intros Hr. unfold Ready. change (streamed (l <| record := rc |>)) with (streamed l).
  destruct (streamed l); [|by apply Inv_record].
  change (record (l <| record := rc |>)) with rc. by rewrite Hr.
Qed.

Lemma wp_judge m md deadline reply l s h :
  Ready l h -> wp (judge config svc m md deadline reply l) s h After.
Proof.
  unfold judge, Ready. destruct (streamed l) as [r|] eqn:Hst; intros HR.
  - destruct HR as (HF & Hk & Hr). wp_step.
    + unfold fall_back. wp_step. split; [done|]. by apply kept_fit.
    + breflect. apply wp_or_raise; [by split; [apply Fin_broke|]|]. intros rate _.
      do 2 wp_step. wp_step. split; [by apply Fin_snoc|].
      unfold fit. cbn [reshaped set_field].
      destruct (status reply =? 200) eqn:E; [|breflect; lia]. split; [|auto].
      destruct (done_ reply) eqn:Ed; [done|]. exfalso. unfold problem in *. by rewrite Ed in *.
  - wp_step; [by apply wp_after_failure|]. wp_step.
    + wp_step. split; [by eapply Inv_fin|]. unfold fit.
      destruct (status reply =? 200); [done|]. breflect. lia.
    + wp_step; [by apply wp_after_cut|].
      assert (Hd : done_ reply = true).
      { destruct (done_ reply) eqn:Ed; [done|]. unfold problem in *. by rewrite Ed in *. }
      breflect. wp_step.
      * wp_step. destruct HR as (Ht & Hc & Hb & Hw & _). breflect.
        repeat (split; [done|]). cbn. repeat split; congruence || (by apply Z.eqb_eq) || done.
      * apply wp_or_raise; [split; [by eapply Fin_broke, Inv_fin | done]|]. intros rate _.
        do 2 wp_step. wp_step. split; [apply (Inv_fin l); peel|]. unfold fit.
        destruct (status reply =? 200) eqn:E; [|breflect; lia]. split; [done|]. split; [done|].
        match goal with H : _ && _ = false |- _ => apply andb_false_iff in H as [Hp|Hp] end;
          apply bool_decide_eq_false in Hp.
        -- left. by destruct (problem reply); [exfalso; apply Hp|].
        -- right. left. destruct (decide (finish reply = Some "length"%string)); [done|]. by exfalso; apply Hp.
Qed.

(** The admission that [attempt] holds is given back once, an exception or not,
    but where the tokens of the answer cannot be counted. *)
Lemma wp_attempt m tokens payload s h (Q : res Error Reply -> Sticky -> list Ev -> Prop) :
  (forall u, uncounted (h ++ [existT (Exchange m payload) u]) ->
     Q (Err Uncaught) s (h ++ [existT (Exchange m payload) u])) ->
  (forall u n r, match r with Ok _ => True | Err e => e = Uncaught end ->
     Q r s ((h ++ [existT (Exchange m payload) u]) ++ [existT (Release m tokens n) tt])) ->
  wp (attempt svc m tokens payload) s h Q.
Proof.
  intros Hn HQ. unfold attempt. do 2 wp_step. set (u := svc h _) in *.
  destruct (match exchange payload u with Replied r => _ | Raised n => _ | Escaped => _ end)
    as [reply raised] eqn:E.
  destruct (status reply =? 200) eqn:E200; [destruct (completion reply) as [n|] eqn:Ec|];
    cbn [or_raise].
  2:{ do 2 wp_step. apply Hn. exists h, m, payload, u, reply. split; [done|].
      destruct (exchange payload u); simplify_eq; try done. split; [done|]. by apply Z.eqb_eq in E200. }
  all: do 4 wp_step; destruct (svc _ (Release _ _ _)); wp_step; [by apply wp_raise, HQ | by wp_step; apply HQ].
Qed.

Lemma wp_no_room l s h : Inv l h -> wp (no_room svc l) s h After.
Proof.
  intros HI. unfold no_room. do 2 wp_step. pass_run; cbn [After].
  - split; [|by unfold fit; cbn; lia]. apply (Inv_fin l). peel.
  - split; [apply (Inv_fin l); peel|]. destruct HI as (_ & _ & _ & _ & Hl).
    rewrite Heqo in Hl. destruct Hl. by apply kept_fit.
  - split; [|by unfold fit; cbn; lia]. apply (Inv_fin l). peel.
Qed.

Context (Hbody : is_obj body = true) (Hrole : backends role <> []).

Lemma wp_try_once deadline l s h :
  Inv l h -> wp (try_once config svc role raw body session deadline l) s h After.
Proof.
  intros HI. unfold try_once. wp_step. apply wp_pick; [done|]. intros b s' evs Hb He.
  assert (HI' : Inv l (h ++ evs)) by peel. clear HI. revert HI'. generalize (h ++ evs). clear He evs h.
  intros h HI. cbv zeta. set (prompt := estimate _ _ _ _). wp_step.
  { pass_run. split; [by eapply Inv_fin|]. unfold fit; cbn; lia. }
  do 2 wp_step. set (cap := Z.min (Z.min _ _) _). do 2 wp_step.
  destruct (shape _ _ _ _ _) as [payload|e] eqn:Hsh.
  2:{ split; [apply Fin_broke, (Inv_fin l); peel|]. by destruct (shape_error _ _ _ _ _ _ Hsh) as [-> | ->]. }
  destruct (shape_ok _ _ _ _ _ _ Hbody Hsh) as (n & Hmax & Hn & Hstream). rewrite Hmax.
  assert (Hfair : prompt + n <= py_int (SHARE * qz (m_context (model_of config b))) - 1).
  { unfold cap, room, prompt in *. lia. }
  do 4 wp_step.
  set (h1 := (h ++ [_]) ++ [_]). assert (HI1 : Inv l h1) by (unfold h1; peel).
  clearbody h1. clear HI.
  assert (Hacq : fair (existT (Acquire (b_model b) (prompt + n) (rank role) deadline)
    (svc h1 (Acquire (b_model b) (prompt + n) (rank role) deadline)))) by (split; [by exists b|done]).
  destruct (svc h1 _) as [|] eqn:Hans; cbn [negb].
  2:{ apply wp_no_room. apply (Inv_record l); [reflexivity|]. apply Inv_snoc; [done..|]. exact HI1. }
  do 3 wp_step. apply wp_attempt.
  { intros u Hu. split; [|done]. split; [by right|]. destruct HI1 as ((Hs & Hf) & Hc & Hcu & Hw & _).
    split; [|unfold bounded; rewrite !count_snoc; cbn; destruct (negb _); lia].
    rewrite !Forall_app, !Forall_singleton.
    split; [split; [split; [done|exact Hacq]|exact I]|by exists b, n]. }
  intros u k r Hr.
  set (h2 := (_ ++ [existT (Exchange _ _) _]) ++ _).
  assert (Ht2 : trace_ok h2).
  { destruct HI1 as ((Hs & Hf) & _). split.
    - unfold h2. rewrite !slot_of_snoc, Hs. cbn [slot_step]. by rewrite !String.eqb_refl, !Z.eqb_refl.
    - unfold h2. rewrite !Forall_app, !Forall_singleton.
      split; [split; [split; [split; [done|exact Hacq]|exact I]|by exists b, n]|exact I]. }
  assert (Ho2 : count is_observe h2 = cuts l).
  { unfold h2. rewrite !count_snoc. destruct HI1 as (_ & Hc & _). cbn. lia. }
  assert (Hw2 : count is_whole h2 = match streamed l with None => 0 | Some _ => 1 end).
  { unfold h2. rewrite !count_snoc. destruct HI1 as (_ & _ & _ & Hw & _). cbn [is_whole].
    rewrite Hstream. destruct (streamed l); cbn; lia. }
  destruct HI1 as (_ & _ & Hb1 & _ & Hl). clearbody h2.
  assert (HF : Fin h2) by (split; [done|]; unfold bounded; rewrite Hw2; destruct (streamed l); lia).
  destruct r as [reply|e]; [|subst; split; [by apply Fin_broke | done]].
  apply wp_judge. do 2 (apply Ready_record; [reflexivity|]).
  unfold Ready, Inv. destruct (streamed l) eqn:Est; [done|].
  split; [done|]. split; [lia|]. split; [done|]. by split.
Qed.

Lemma wp_pass deadline l s h :
  Inv l h -> wp (pass config svc role raw body session deadline l) s h After.
Proof.
  intros HI. unfold pass. do 2 wp_step. wp_step.
  { pass_run. split; [|by unfold fit; cbn; lia]. apply (Inv_fin l). peel. }
  destruct (streamed l) as [r|] eqn:Est; [do 3 wp_step|]; try (apply wp_try_once; peel).
  pass_run. split; [apply (Inv_fin l); peel|]. destruct HI as (_ & _ & _ & _ & Hl).
  rewrite Est in Hl. destruct Hl. by apply kept_fit.
Qed.

(** How every run ends. *)
Definition Ends (r : res Error (Reply * Rec)) (h : list Ev) : Prop :=
  match r with Ok (reply, rc) => Fin h /\ fit reply rc | Err e => Broke e h end.

Lemma Ends_bounds r h : Ends r h -> Forall fair h /\ bounded h.
Proof. destruct r as [[reply rc]|e]; cbn; [intros [[[_ Hf] Hb] _] | intros (_ & Hf & Hb)]; auto. Qed.

Lemma wp_passes fuel deadline l s h :
  Inv l h ->
  wp (passes config svc fuel role raw body session deadline l) s h (fun r _ h' => Ends r h').
Proof.
  revert l s h. induction fuel as [|fuel IH]; intros l s h HI; cbn [passes].
  { wp_step. by eapply Fin_broke, Inv_fin. }
  wp_step. eapply wp_mono; [by apply wp_pass|].
  intros [[l'|reply rc]|e] s' h'; cbn [After]; [apply IH|..]; [done | by intros [??]].
Qed.

Lemma forward_ends fuel s :
  wp (forward config svc fuel role raw body session) s [] (fun r _ h' => Ends r h').
Proof.
  unfold forward. do 2 wp_step. apply wp_passes. apply Inv_snoc; [done..|].
  repeat split; try done; cbn; lia.
Qed.
End Run.

(** ** [forward] returns *)

(** The time of the last event, by the clock's answers and the waits made. *)
Definition tick (c : Q) (e : Ev) : Q :=
  match e with
  | existT Now t => t
  | existT (StoppingWait w) stopped => if (stopped : bool) then c else (c + w)%Q
  | _ => c
  end.
Definition clock (h : list Ev) : Q := foldl tick 0%Q h.
Definition was_cancelled (h : list Ev) : Prop := existT Cancelled true ∈ h.

Lemma clock_snoc h e : clock (h ++ [e]) = tick (clock h) e.
Proof. unfold clock. by rewrite foldl_app. Qed.
Lemma clock_health h evs : Forall health_event evs -> clock (h ++ evs) = clock h.
Proof.
  unfold clock. rewrite foldl_app. generalize (foldl tick 0%Q h).
  induction evs as [|[r a] evs IH]; intros c; [done|]. intros [H Hs]%Forall_cons.
  cbn [foldl]. destruct r; try done. by apply IH.
Qed.

(** A wait of [w0] or more that ends before the deadline takes one of the [k] left. *)
Lemma wait_step (c t w w0 d : Q) (k : nat) :
  (c <= t)%Q -> (0 < w0)%Q -> (w0 <= w)%Q -> (t + w < d)%Q -> (d <= c + w0 * qz (Z.of_nat k))%Q ->
  exists k', k = S k' /\ (d <= t + w + w0 * qz (Z.of_nat k'))%Q.
Proof.
  intros Hc H0 Hw Ht Hd. destruct k as [|k].
  - change (qz (Z.of_nat 0)) with 0%Q in Hd. lra.
  - exists k. split; [done|]. rewrite Nat2Z.inj_succ in Hd. unfold qz, Z.succ in *.
    rewrite inject_Z_plus in Hd. change (inject_Z 1) with 1%Q in Hd.
    set (x := inject_Z _) in *. assert (w0 * (x + 1) == w0 * x + w0)%Q as E by ring.
    rewrite E in Hd. lra.
Qed.

(** The gates have a request's failures waited out for [w0] or more, when they
    are given a [retry_after] of a second or more, if any. *)
Definition waits_out (svc : service Req Ans) (w0 : Q) : Prop :=
  forall h m t n, 1 <= n -> (forall r, t = Some r -> (1 <= r)%Q) -> (w0 <= svc h (Failed m t n))%Q.

Lemma retry_after_ge r : (1 <= _retry_after r)%Q.
Proof.
  assert (H : forall name q, retry_header r name = Some q -> (1 <= q)%Q).
  { intros name q. unfold retry_header. repeat case_match; intros; simplify_eq. apply Q.le_max_l. }
  unfold _retry_after. repeat case_match; eauto. vm_compute. congruence.
Qed.

(** A clock that counts from 0 and does not run back, a client that stays gone, and
    a gate that has a failure waited out for [w0] seconds or more. *)
Section Time.
Context (config : Config) (svc : service Req Ans).
Context (role : Role) (raw : string) (body : json) (session : string).
Context (w0 : Q) (Hw0 : (0 < w0)%Q).
Context (Hclock : forall h, (clock h <= svc h Now)%Q).
Context (Hcancel : forall h, was_cancelled h -> svc h Cancelled = true).
Context (Hwait : waits_out svc w0).
Context (Hrole : backends role <> []) (deadline : Q).

(** There are [k] waits of [w0] until the deadline, and the cuts left. *)
Definition budget (n : nat) (l : Loop) (h : list Ev) : Prop :=
  exists k : nat, 2 + (Z.max 0 (cut_retries (settings config)) - cuts l) + Z.of_nat k <= Z.of_nat n /\
    cuts l <= Z.max 0 (cut_retries (settings config)) /\ 0 <= n_failures l /\
    (deadline <= clock h + w0 * qz (Z.of_nat k))%Q.
(** [n] passes are enough: the client is gone, or the whole retry is next, or
    the budget is. *)
Definition enough (n : nat) (l : Loop) (h : list Ev) : Prop :=
  (1 <= n)%nat /\ (was_cancelled h \/ streamed l <> None \/ budget n l h).
Definition Less (n : nat) (r : res Error Pass) (_ : Sticky) (h : list Ev) : Prop :=
  match r with Ok (Again l) => enough n l h | Ok _ => True | Err e => e <> OutOfFuel end.

Lemma clock_le_snoc c h e : (clock h <= tick (clock h) e)%Q -> (c <= clock h)%Q -> (c <= clock (h ++ [e]))%Q.
Proof. intros. rewrite clock_snoc. by eapply Qle_trans. Qed.
Lemma budget_later n l h h' : (clock h <= clock h')%Q -> budget n l h -> budget n l h'.
Proof.
  intros Hc (k & Hk & Hcu & Hnf & Hd). exists k. do 3 (split; [done|]).
  eapply Qle_trans; [exact Hd|]. lra.
Qed.
Lemma budget_snoc n l h e : (clock h <= tick (clock h) e)%Q -> budget n l h -> budget n l (h ++ [e]).
Proof. intros. apply (budget_later n l h); [by rewrite clock_snoc | done]. Qed.
Lemma budget_health n l h evs : Forall health_event evs -> budget n l h -> budget n l (h ++ evs).
Proof. intros. apply (budget_later n l h); [rewrite clock_health by done; lra | done]. Qed.

Ltac later :=
  repeat first
    [ eassumption
    | apply budget_snoc; [first [apply Hclock | apply Qle_refl]|]
    | apply budget_health; [assumption|] ].

Lemma time_after_failure n m reply l s h :
  streamed l = None -> budget (S n) l h ->
  wp (after_failure svc m deadline reply l) s h (Less n).
Proof.
  intros Hs (k & Hk & Hcu & Hnf & Hd). unfold after_failure.
  do 2 wp_step. wp_step.
  { wp_step. split; [lia|]. left. unfold was_cancelled. set_solver. }
  pass_run; cbn [Less]; try done. breflect.
  set (w := svc _ (Failed _ _ _)) in *. set (h2 := _ ++ [existT (Failed _ _ _) _]) in *.
  set (t := svc h2 Now) in *.
  assert (Ht : (clock h <= t)%Q).
  { apply (Qle_trans _ (clock h2)); [|apply Hclock]. unfold h2. rewrite !clock_snoc. cbn. lra. }
  assert (Hw : (w0 <= w)%Q).
  { apply Hwait; [lia|]. intros r. destruct (_ =? 429); [|done]. intros [= <-].
    apply retry_after_ge. }
  clearbody w.
  destruct (wait_step _ t w w0 deadline k Ht Hw0 Hw Heqb Hd) as (k' & -> & Hd').
  split; [lia|]. right; right. exists k'. cbn [cuts n_failures set_field]. split; [lia|]. split; [done|]. split; [lia|].
  by rewrite !clock_snoc.
Qed.

Lemma time_after_cut n m fl reply l s h :
  streamed l = None -> budget (S n) l h ->
  wp (after_cut config svc m fl deadline reply l) s h (Less n).
Proof.
  intros Hs (k & Hk & Hcu & Hnf & Hd). unfold after_cut. apply wp_or_raise; [done|]. intros rate _.
  do 2 wp_step. do 2 wp_step; [|do 2 wp_step]; wp_step; cbn [cuts set_field] in *; pass_run; cbn [Less]; try done.
  breflect. split; [lia|]. right; right. exists k. cbn [cuts n_failures set_field].
  split; [lia|]. split; [lia|]. split; [done|]. rewrite !clock_snoc. cbn [tick].
  eapply Qle_trans; [exact Hd|]. apply Qplus_le_compat; [|apply Qle_refl].
  eapply Qle_trans; [|apply Hclock]. rewrite clock_snoc. apply Qle_refl.
Qed.

Lemma time_judge n m md reply l s h :
  streamed l <> None \/ budget (S n) l h ->
  wp (judge config svc m md deadline reply l) s h (Less n).
Proof.
  intros HB. unfold judge. destruct (streamed l) as [r|] eqn:Hst.
  - wp_step; [unfold fall_back; by wp_step|]. apply wp_or_raise; [done|]. intros. by do 3 wp_step.
  - destruct HB as [HB|HB]; [done|]. wp_step; [by apply time_after_failure|].
    wp_step; [by wp_step|]. wp_step; [by apply time_after_cut|]. wp_step.
    2:{ apply wp_or_raise; [done|]. intros. by do 3 wp_step. }
    wp_step. destruct HB as (k & Hk & Hcu & Hnf & _). split; [lia|]. right; left. done.
Qed.

Lemma wp_attempt_time n m tokens payload s h (k : Reply -> M Ev Sticky Error Pass) :
  (forall reply h', clock h' = clock h -> wp (k reply) s h' (Less n)) ->
  wp (attempt svc m tokens payload ≫= k) s h (Less n).
Proof.
  intros Hk. wp_step. apply wp_attempt; [done|]. intros u j r Hr.
  destruct r as [reply|e]; [|by subst]. apply Hk. by rewrite !clock_snoc.
Qed.

Lemma time_try_once n l s h :
  streamed l <> None \/ budget (S n) l h ->
  wp (try_once config svc role raw body session deadline l) s h (Less n).
Proof.
  intros HB. unfold try_once. wp_step. apply wp_pick; [done|]. intros b s' evs Hb He.
  assert (HB' : streamed l <> None \/ budget (S n) l (h ++ evs)).
  { destruct HB; [by left | right; later]. }
  clear HB. revert HB'. generalize (h ++ evs). clear He evs h. intros h HB.
  cbv zeta. set (prompt := estimate _ _ _ _). wp_step; [by pass_run|].
  do 4 wp_step. destruct (shape _ _ _ _ _) as [payload|e] eqn:Hsh.
  2:{ by destruct (shape_error _ _ _ _ _ _ Hsh) as [-> | ->]. }
  do 4 wp_step. destruct (svc _ (Acquire _ _ _ _)) as [|] eqn:Hans; cbn [negb].
  2:{ unfold no_room. by pass_run. }
  do 2 wp_step. apply wp_attempt_time. intros reply h' Hc. apply time_judge.
  destruct HB as [HB|HB]; [by left|]. right.
  apply (budget_later _ _ h); [|exact HB]. rewrite Hc.
  repeat (apply clock_le_snoc; [first [apply Hclock | apply Qle_refl]|]). apply Qle_refl.
Qed.

Lemma time_pass n l s h :
  enough (S n) l h -> wp (pass config svc role raw body session deadline l) s h (Less n).
Proof.
  intros [Hn HB]. unfold pass. do 2 wp_step. wp_step; [by pass_run|].
  assert (HB' : streamed l <> None \/ budget (S n) l (h ++ [existT Cancelled false])).
  { destruct HB as [H|[H|H]]; [|by left|right; later]. apply Hcancel in H. congruence. }
  destruct (streamed l) as [r|] eqn:Est; [do 3 wp_step; [by pass_run|]|];
    apply time_try_once; rewrite Est; [by left|]. by destruct HB'; [|right].
Qed.

Lemma time_passes n l s h :
  enough n l h ->
  wp (passes config svc n role raw body session deadline l) s h
     (fun r _ _ => match r with Ok _ => True | Err e => e <> OutOfFuel end).
Proof.
  revert l s h. induction n as [|n IH]; intros l s h He; [by destruct He; lia|].
  cbn [passes]. wp_step. eapply wp_mono; [by apply time_pass|].
  intros [[l'|reply rc]|e] s' h'; cbn [Less]; [apply IH|..]; by auto.
Qed.
End Time.

(** ** What a request gets *)

(** The events of a request, and its result. *)
Definition trace_of {E A} (r : res E A * Sticky * list Ev) : list Ev := r.2.
Definition result_of {E A} (r : res E A * Sticky * list Ev) : res E A := r.1.1.


(** C26: fair use.  Every payload sent goes to a backend of the role, with a
    [max_tokens] that fits, with the estimate of the prompt, below [SHARE] (0.35) of
    the model's context; and the admission asked for is for that size, in the role's class. *)
Theorem fair_use config svc fuel role raw body session s :
  is_obj body = true -> backends role <> [] ->
  Forall (fair config role raw body) (trace_of (forward config svc fuel role raw body session s [])).
Proof.
  intros Hb Hr. pose proof (forward_ends config svc role raw body session Hb Hr fuel s) as H.
  unfold wp in H. destruct (forward _ _ _ _ _ _ _ _ _) as [[r s'] h']. by apply Ends_bounds in H as [H _].
Qed.

(** What an agent is given.  A reply of status 200 came to its end, and has no
    fault of form unless it was cut at its own [max_tokens] or was tried whole as
    well; any other is neither a rate limit nor a fault of upstream: 502 or 503
    are the proxy's own. *)
Theorem reply_fit config svc fuel role raw body session s reply rc :
  is_obj body = true -> backends role <> [] ->
  result_of (forward config svc fuel role raw body session s []) = Ok (reply, rc) ->
  fit reply rc.
Proof.
  intros Hb Hr. pose proof (forward_ends config svc role raw body session Hb Hr fuel s) as H.
  unfold wp in H. destruct (forward _ _ _ _ _ _ _ _ _) as [[r s'] h'].
  cbn [result_of fst]. intros ->. apply H.
Qed.

(** Retries are bounded.  A request takes at most [cut_retries] retries of
    cut streams, and at most one whole reply in place of a streamed one. *)
Theorem retries_bounded config svc fuel role raw body session s :
  is_obj body = true -> backends role <> [] ->
  let h := trace_of (forward config svc fuel role raw body session s []) in
  count is_observe h <= Z.max 0 (cut_retries (settings config)) + 1 /\ count is_whole h <= 1.
Proof.
  intros Hb Hr. pose proof (forward_ends config svc role raw body session Hb Hr fuel s) as H.
  unfold wp in H. destruct (forward _ _ _ _ _ _ _ _ _) as [[r s'] h']. by apply Ends_bounds in H as [_ H].
Qed.

(** The passes that a request takes at most, for waits of [w0] or more. *)
Definition patience (config : Config) (w0 : Q) : nat :=
  Z.to_nat (2 + Z.max 0 (cut_retries (settings config))
            + Z.max 0 (Qceiling (hold_hours (settings config) * 3600 / w0))).

(** C31: a request ends.  With a clock that does not run back, a client that once
    gone stays gone, and failures that are waited out for [w0] seconds or more,
    which [failed_wait] shows of the gates, [patience] passes are enough for a
    reply, whatever upstream answers. *)
Theorem forward_returns config (svc : service Req Ans) role raw body session s w0 fuel :
  (0 < w0)%Q -> (forall h, (clock h <= svc h Now)%Q) ->
  (forall h, was_cancelled h -> svc h Cancelled = true) ->
  waits_out svc w0 -> backends role <> [] -> (patience config w0 <= fuel)%nat ->
  result_of (forward config svc fuel role raw body session s []) <> Err OutOfFuel.
Proof.
  intros Hw0 Hclock Hcancel Hwait Hrole Hfuel.
  set (t0 := svc [] Now). set (hold := (hold_hours (settings config) * 3600)%Q).
  assert (He : enough config w0 (t0 + hold)%Q fuel loop0 [existT Now t0]).
  { unfold patience in Hfuel. fold hold in Hfuel. split; [lia|]. right; right.
    exists (Z.to_nat (Qceiling (hold / w0))). split; [cbn [cuts loop0]; lia|].
    split; [cbn [cuts loop0]; lia|]. split; [done|]. cbn [clock foldl tick].
    assert (hold <= w0 * qz (Z.of_nat (Z.to_nat (Qceiling (hold / w0)))))%Q; [|lra].
    rewrite ZifyInst.of_nat_to_nat_eq. pose proof (Qle_ceiling (hold / w0)) as Hq.
    apply (Qle_trans _ (w0 * (hold / w0))%Q); [apply Qle_lteq; right; field; lra|].
    apply Qmult_le_l; [done|]. eapply Qle_trans; [exact Hq|]. unfold qz. rewrite <- Zle_Qle. lia. }
  pose proof (time_passes config svc role raw body session w0 Hw0 Hclock Hcancel Hwait Hrole
    (t0 + hold)%Q fuel loop0 s _ He) as H.
  unfold forward, mbind, m_bind, mcall. cbn [app]. fold t0 hold. unfold wp in H.
  destruct (passes _ _ _ _ _ _ _ _ _ _ _) as [[r s'] h']. cbn. intros ->. by apply H.
Qed.

(** ** Which backend a session goes to *)

Section Pick.
Context (svc : service Req Ans) (up : string -> bool).
Context (Hup : forall h m, svc h (Healthy m) = up m).

(** The specification of [pick] for models that are [up] or not: the backend kept
    for the session if it is still one of the role's, up and usable, else the first
    of the role's usable ones that is up, else the first usable one; if none is
    usable, all count as usable. *)
Definition preferred (role : Role) (usable : Backend -> bool) : Backend :=
  let candidates := match List.filter usable (backends role) with [] => backends role | l => l end in
  default (hd no_backend candidates) (List.find (fun b => up (b_model b)) candidates).
Definition picked (role : Role) (session : string) (usable : Backend -> bool) (s : Sticky) : Backend :=
  match (if String.eqb session "" then None else dget (r_name role, session) s) with
  | Some kept => if bool_decide (kept ∈ backends role) && up (b_model kept) && usable kept
                 then kept else preferred role usable
  | None => preferred role usable
  end.
(** The sessions known are distinct and at most [STICKY]. *)
Definition sticky_ok (s : Sticky) : Prop := NoDup s.*1 /\ Z.of_nat (List.length s) <= STICKY.

Lemma first_healthy_find bs dflt s h :
  exists evs, first_healthy svc bs dflt s h
    = (Ok (default dflt (List.find (fun b => up (b_model b)) bs)), s, h ++ evs).
Proof.
  revert h. induction bs as [|b bs IH]; intros h; cbn [first_healthy List.find].
  { exists []. by rewrite app_nil_r. }
  unfold mbind, m_bind, mcall. cbn. rewrite Hup. destruct (up (b_model b)).
  - by exists [existT (Healthy (b_model b)) true].
  - destruct (IH (h ++ [existT (Healthy (b_model b)) false])) as [evs ->].
    exists (existT (Healthy (b_model b)) false :: evs). by rewrite <- app_assoc.
Qed.

Lemma stick_get key b s : dget key (stick key b s) = Some b.
Proof.
  unfold stick. set (s1 := ddel key s). rewrite length_app. cbn [List.length].
  set (n := (List.length s1 + 1 - _)%nat).
  assert (n <= List.length s1)%nat by (unfold n, STICKY; lia).
  rewrite drop_app_le by done.
  assert (Hn : dget key (drop n s1) = None).
  { destruct (dget key (drop n s1)) as [v|] eqn:E; [|done]. apply dget_elem in E.
    assert ((key, v) ∈ s1) as [Hk _]%ddel_elem; [|done].
    rewrite <- (take_drop n s1). apply elem_of_app. by right. }
  clear -Hn. induction (drop n s1) as [|[k v] l IH]; cbn in *; [by rewrite decide_True|].
  case_decide; [done|]. by apply IH.
Qed.
Lemma stick_ok key b s : sticky_ok s -> sticky_ok (stick key b s).
Proof.
  intros [Hnd Hlen]. unfold sticky_ok, stick. set (s1 := ddel key s ++ [(key, b)]). split.
  - apply (sublist_NoDup _ s1.*1); [|apply fmap_sublist, sublist_drop].
    unfold s1. rewrite fmap_app. apply NoDup_app. split; [by apply ddel_nodup|].
    split; [|by apply NoDup_singleton]. intros k Hk. cbn. rewrite list_elem_of_singleton. intros ->.
    apply list_elem_of_fmap in Hk as [[k v] [-> [Hne _]%ddel_elem]]. done.
  - rewrite length_drop. lia.
Qed.
End Pick.

(** Where a session goes.  [pick] returns the backend kept for it while it is
    one of the role's, up and usable; else the role's first usable backend that is
    up.  The choice is kept for the session, so that the next [pick] with the models
    in the same health returns it too; the sessions kept are distinct and at most
    [STICKY]. *)
Theorem pick_sticky svc up role session usable s h :
  (forall h m, svc h (Healthy m) = up m) -> sticky_ok s ->
  let r := pick svc role session usable s h in
  result_of r = Ok (picked up role session usable s) /\
  sticky_ok r.1.2 /\
  (session <> ""%string -> dget (r_name role, session) r.1.2 = Some (picked up role session usable s)).
Proof.
  intros Hup Hs. unfold pick, picked. set (key := (r_name role, session)).
  assert (Hch : forall h, let r := choose svc role key usable s h in
    result_of r = Ok (preferred up role usable) /\ sticky_ok r.1.2 /\
    (session <> ""%string -> dget key r.1.2 = Some (preferred up role usable))).
  { intros h1. unfold choose, preferred. set (cs := match List.filter usable _ with [] => _ | _ => _ end).
    unfold mbind, m_bind. destruct (first_healthy_find svc up Hup cs (hd no_backend cs) s h1) as [evs ->].
    cbn [snd key]. destruct (String.eqb_spec session ""); cbn; [done|].
    split; [done|]. split; [by apply stick_ok | intros _; apply stick_get]. }
  unfold mbind, m_bind, mget. destruct (String.eqb_spec session "") as [E|E].
  - apply Hch.
  - destruct (dget key s) as [kept|] eqn:Ek; [|apply Hch].
    case_bool_decide; cbn [andb]; [|apply Hch].
    unfold mcall. rewrite Hup. destruct (up (b_model kept)); cbn [andb]; [|apply Hch].
    destruct (usable kept); [|apply Hch]. done.
Qed.

(** What a backend is sent.  [shape] sends the body with the backend's model,
    at most [cap] tokens of what it asked for, and the transport's own fields; a
    field the backend's variant does not set is the client's, and one it sets is
    the variant's, merged into an object of the client's own. *)
Theorem shape_fields config o b cap stream p :
  shape config (JObj o) b cap stream = Ok p -> NoDup (extra_of config b).*1 ->
  let body := JObj o in
  let extra := extra_of config b in
  (exists n, json_int (j_or (j_or (jget "max_tokens" body) (jget "max_completion_tokens" body))
                         (JInt cap)) = Ok n /\ jget "max_tokens" p = JInt (Z.min n cap)) /\
  jget "stream" p = JBool stream /\
  jget "stream_options" p =
    (if stream then JObj (dset "include_usage" (JBool true)
                     (jitems (j_or (jget "stream_options" body) (JObj []))))%string else JNull) /\
  ("model"%string ∉ extra.*1 -> jget "model" p = JStr (b_model b)) /\
  forall k, k ∉ ["model"; "max_tokens"; "max_completion_tokens"; "stream"; "stream_options"]%string ->
    jget k p = match dget k extra with
               | Some v => if is_obj v && is_obj (jget k body) then jmerge (jget k body) v else v
               | None => jget k body
               end.
Proof.
  unfold shape. fold (extra_of config b). intros H Hnd. cbv zeta.
  set (base := jset "model" _ _) in *. set (out := foldl _ base _) in *.
  assert (Ho : is_obj out = true) by (apply apply_extras_obj; done).
  unfold mbind, res_bind in H. destruct (json_int _) as [n|e]; [|done].
  assert (Hout : forall k, jget k out = match dget k (extra_of config b) with
    | Some v => if is_obj v && is_obj (jget k base) then jmerge (jget k base) v else v
    | None => jget k base end).
  { intros k. unfold out. assert (Hb : is_obj base = true) by done. clearbody base. clear -Hnd Hb.
    revert base Hb Hnd. induction (extra_of config b) as [|[k' v] l IH]; intros base Hb; [done|].
    rewrite fmap_cons. intros [Hni Hnd]%NoDup_cons. cbn [fst] in Hni.
    cbn [foldl dget]. case_decide as Hk.
    - subst k'. rewrite apply_extras_ne by done. unfold apply_extra.
      destruct (is_obj v && _); by apply jget_jset_obj.
    - rewrite IH by (done || by apply apply_extra_obj).
      rewrite apply_extra_ne by done. done. }
  split; [exists n; split; [done|]|].
  { destruct stream; simplify_eq; rewrite ?jget_jdel_ne, ?jget_jset_ne by done; by apply jget_jset_obj. }
  split.
  { destruct stream; simplify_eq; rewrite ?jget_jdel_ne, ?jget_jset_ne by done;
      apply jget_jset_obj; by rewrite is_obj_jset. }
  split.
  { destruct stream; simplify_eq; [|apply jget_jdel]. apply jget_jset_obj. by rewrite !is_obj_jset. }
  assert (Hp : forall k, k ∉ ["max_tokens"; "stream"; "stream_options"]%string -> jget k p = jget k out).
  { intros k. rewrite !not_elem_of_cons. intros (? & ? & ? & _).
    destruct stream; simplify_eq; rewrite ?jget_jdel_ne, ?jget_jset_ne by done; done. }
  split.
  - intros Hm. rewrite Hp by (rewrite !not_elem_of_cons; repeat split; try done; apply not_elem_of_nil).
    unfold out. rewrite apply_extras_ne by done. by apply jget_jset_obj.
  - intros k Hk. rewrite !not_elem_of_cons in Hk. destruct Hk as (? & ? & ? & ? & ? & _).
    rewrite Hp by (rewrite !not_elem_of_cons; auto using not_elem_of_nil). rewrite Hout.
    assert (jget k base = jget k (JObj o)) as ->; [|done].
    unfold base. by rewrite jget_jset_ne, jget_jdel_ne by done.
Qed.

(** ** A run *)

(** Upstream first refuses at its rate limit, then cuts a stream at its limit,
    then ends one with broken tool arguments, then gives a whole reply. *)
Definition demo_chunk (arguments finish : string) : json :=
  JObj [("choices", JArr [JObj [("delta", JObj [("tool_calls", JArr [JObj [("index", JInt 0);
    ("function", JObj [("arguments", JStr arguments)])]])]); ("finish_reason", JStr finish)]])]%string.
Definition demo_answers : list Upstream :=
  [ Answered (mkAnswer 429 [("retry-after", "7")]%string "slow down" None [] 1);
    Answered (mkAnswer 200 [] "" None
      [mkLine false "data: a" (Some (JObj [("choices", JArr [])]%string)) 2] 899);
    Answered (mkAnswer 200 [] "" None
      [mkLine false "data: b" (Some (demo_chunk "{" "tool_calls")) 2; mkLine false "data: [DONE]" None 3] 4);
    Answered (mkAnswer 200 [] "" (Some (demo_chunk "{}" "tool_calls")) [] 9) ]%string.
Definition is_exchange (e : Ev) : bool := match e with existT (Exchange _ _) _ => true | _ => false end.
Definition demo_svc : service Req Ans := fun h r =>
  match r with
  | Now => clock h
  | Cancelled => existsb (fun e => match e with existT Cancelled c => c | _ => false end) h
  | Healthy _ => true
  | GateCap _ => 32000
  | Acquire _ _ _ _ => true
  | Release _ _ _ | Observe _ _ _ | Succeeded _ _ _ => tt
  | Exchange _ _ => nth (List.length (List.filter is_exchange h)) demo_answers (HTTPError "ConnectError")
  | Failed _ (Some t) _ => t
  | Failed _ None _ => 5%Q
  | StoppingWait _ => false
  end.
Definition demo_role : Role := default (mkRole "" [] 0 0 0 0) (dget "coder"%string (roles demo_config)).
Definition demo_text : string := "{}".
Definition demo_body : json :=
  JObj [("model", JStr "coder"); ("max_completion_tokens", JInt 100000); ("temperature", JInt 0);
        ("messages", JArr [])]%string.
Definition demo_run := forward demo_config demo_svc 9 demo_role demo_text demo_body "s1" [] [].

Example demo_reply_whole :
  match result_of demo_run with
  | Ok (reply, rc) => status reply = 200 /\ attempts rc = 4 /\ rec_cuts rc = 1 /\
                      reshaped rc = Some BadToolArguments
  | Err _ => False
  end.
Proof. vm_compute. auto. Qed.


(** A reply whose usage is no object leaves its admission held, for good. *)
Definition uncounted_svc : service Req Ans := fun h r =>
  match r return Ans r with
  | Exchange _ _ => Answered (mkAnswer 200 [] "" None
      [mkLine false "data: b" (Some (JObj [("usage", JStr "x")])) 2; mkLine false "data: [DONE]" None 3] 4)%string
  | r => demo_svc h r
  end.
Lemma uncounted_usage_leaks :
  let run := forward demo_config uncounted_svc 9 demo_role demo_text demo_body "s1" [] [] in
  result_of run = Err Uncaught /\ exists m tokens, slot_of (trace_of run) = Holding m tokens.
Proof. split; [vm_compute; reflexivity|]. eexists _, _. vm_compute. reflexivity. Qed.
Lemma fair_use_witness : Forall (fair demo_config demo_role demo_text demo_body) (trace_of demo_run).
Proof.
  apply (fair_use demo_config demo_svc 9 demo_role demo_text demo_body "s1" []);
    [reflexivity | vm_compute; congruence].
Defined.
Definition demo_outcome : Reply * Rec :=
  match result_of demo_run with Ok r => r | Err _ => (reply0, rec0) end.
Lemma reply_fit_witness : status demo_outcome.1 = 200 /\ fit demo_outcome.1 demo_outcome.2.
Proof.
  split; [vm_compute; reflexivity|].
  apply (reply_fit demo_config demo_svc 9 demo_role demo_text demo_body "s1" []);
    [reflexivity | vm_compute; congruence | vm_compute; reflexivity].
Defined.
Lemma retries_bounded_witness :
  count is_observe (trace_of demo_run) = 1 /\ count is_whole (trace_of demo_run) <= 1.
Proof.
  split; [vm_compute; reflexivity|].
  apply (retries_bounded demo_config demo_svc 9 demo_role demo_text demo_body "s1" []);
    [reflexivity | vm_compute; congruence].
Defined.
Lemma demo_waits : waits_out demo_svc 1.
Proof. intros h m [t|] n _ H; cbn; [by apply H | lra]. Qed.
Lemma demo_gone h : was_cancelled h -> demo_svc h Cancelled = true.
Proof. intros H. cbn. apply existsb_exists. exists (existT Cancelled true). by rewrite <- list_elem_of_In. Qed.
Lemma forward_returns_witness :
  result_of (forward demo_config demo_svc (patience demo_config 1) demo_role demo_text demo_body "s1" [] [])
    <> Err OutOfFuel.
Proof.
  apply (forward_returns demo_config demo_svc demo_role demo_text demo_body "s1" [] 1).
  - lra.
  - intros h. apply Qle_refl.
  - apply demo_gone.
  - apply demo_waits.
  - vm_compute. congruence.
  - reflexivity.
Defined.
Definition demo_kept : Sticky := [(("coder", "s1"), mkBackend "qwen" "")]%string.
Lemma pick_sticky_witness :
  let r := pick demo_svc demo_role "s1" (fun _ => true) demo_kept [] in
  result_of r = Ok (mkBackend "qwen" "") /\ sticky_ok r.1.2.
Proof.
  assert (Hk : sticky_ok demo_kept) by (split; [apply NoDup_singleton | vm_compute; congruence]).
  destruct (pick_sticky demo_svc (fun _ => true) demo_role "s1" (fun _ => true) demo_kept []
    (fun _ _ => eq_refl) Hk) as (Hr & Hs & _).
  split; [exact Hr | exact Hs].
Defined.
Definition demo_shaped : json :=
  match shape demo_config demo_body (mkBackend "qwen" "think") 32000 true with Ok p => p | Err _ => JNull end.
Lemma shape_fields_witness :
  jget "temperature" demo_shaped = JInt 1 /\ jget "max_tokens" demo_shaped = JInt 32000 /\
  jget "stream" demo_shaped = JBool true.
Proof.
  split; [vm_compute; reflexivity|]. split; [vm_compute; reflexivity|].
  refine (proj1 (proj2 (shape_fields demo_config (jitems demo_body) (mkBackend "qwen" "think") 32000 true
    demo_shaped _ _))).
  - vm_compute. reflexivity.
  - vm_compute. repeat constructor; rewrite ?elem_of_nil; naive_solver.
Defined.
