(* ===== verification/LlmServer.v ===== *)
(** [Handler] and [Server] of [apps/agentic-analysis/llm_proxy.py]: what a client's
    HTTP request gets, and the count of requests in flight that a restart drains. *)
From S2P Require Import Prelude PyJson PyText PyTime PyFloat PyValue LlmConfig LlmGate LlmReply LlmProxy.
Open Scope Z_scope.

(** ** [Handler] *)

(** [dumps] is [json.dumps], which gives a text that is
    only shown. *)

(** A request: its path, its headers by their names in lower case, the body as it
    is read, and what [json.loads] makes of that. *)
Record Request := mkRequest {
  rq_path : string; rq_headers : list (string * string); rq_raw : string; rq_json : option json }.

(** A response's body, and the parts of a response written one at a time. *)
Inductive Body := Text (s : string) | Json (j : json).
Inductive Data := Chunk (p : Payload) | Done | ErrorChunk (j : json).
Inductive Written :=
| Whole_ (status : Z) (kind : string) (body : Body) (headers : list (string * string))
| StreamHead | StreamData (d : Data) | StreamEnd.

Inductive Exception := OSError | AttributeError | BadLength | ForwardRaised.

(** What a request's thread asks of what it shares with others: the server's count,
    [Proxy.forward], which answers [None] when it raises, the flag that a keepalive
    could not be written, and the connection, which answers whether it could write. *)
Inductive SReq :=
| Admit | Finished
| Forward (role : Role) (raw : string) (body : json) (session : string) (watched : bool)
| Gone | Draw | GateStatus | Write (w : Written).
Definition SAns (r : SReq) : Type :=
  match r with
  | Admit | Gone | Write _ => bool
  | Finished => unit
  | Forward _ _ _ _ _ => option (Reply * Rec)
  | Draw => LlmReply.Fresh
  | GateStatus => list (string * Status)
  end.

Section Handler.
Context (config : Config) (token : string) (dumps : json -> string).
Context (svc : service SReq SAns).
Local Abbreviation S_ := (M (sigT SAns) unit Exception).
Local Abbreviation call r := (mcall svc r : S_ (SAns r)).

Definition header (name : string) (rq : Request) : string := dget_or name "" (rq_headers rq).

Definition _authorized (rq : Request) : bool :=
  String.eqb (str_strip (removeprefix "Bearer " (header "authorization" rq))) token.

Definition write (w : Written) : S_ unit :=
  ok ← call (Write w); if (ok : bool) then mret tt else raise OSError.
Definition _send (status : Z) (body : Body) (kind : string) (headers : list (string * string)) : S_ unit :=
  write (Whole_ status kind body headers).
Definition json_type : string := "application/json".
Definition _refuse (status : Z) (code message : string) (headers : list (string * string)) : S_ unit :=
  _send status (Json (error_body (failure status code message))) json_type headers.

Definition status_json (s : Status) : json :=
  JObj [("slots", JInt (st_slots s)); ("busy", JInt (st_busy s)); ("held", JInt (st_held s));
        ("waiting", JInt (st_waiting s)); ("output_last_minute", JInt (st_output_last_minute s));
        ("healthy", JBool (st_healthy s)); ("failures", JInt (st_failures s))]%string.

Definition do_GET (rq : Request) : S_ unit :=
  if String.eqb (rq_path rq) "/healthz" then _send 200 (Text "ok") "text/plain" []
  else if negb (_authorized rq) then _refuse 401 "invalid_prompt" "a bearer token is required" []
  else if bool_decide (rq_path rq ∈ ["/v1/models"; "/models"]%string) then
    let data := map (fun nr => JObj [("id", JStr nr.1); ("object", JStr "model")]%string) (roles config) in
    _send 200 (Json (JObj [("object", JStr "list"); ("data", JArr data)]%string)) json_type []
  else if String.eqb (rq_path rq) "/config" then _send 200 (Json (config_view config)) json_type []
  else if String.eqb (rq_path rq) "/status" then
    gates ← call GateStatus;
    _send 200 (Json (JObj (map (fun ns => (ns.1, status_json ns.2)) (gates : list (string * Status)))))
      json_type []
  else _refuse 404 "invalid_prompt" "no such path" [].

(** [str(j)] of the JSON values whose text may be a role's name. *)
Definition py_str (j : json) : string :=
  match j with
  | JStr s => s
  | JNull => "None"
  | JBool b => if b then "True" else "False"
  | JInt n => pretty n
  | _ => ""
  end.

(** [int(self.headers.get("Content-Length") or 0)] *)
Definition content_length (rq : Request) : option Z :=
  let s := header "content-length" rq in
  if String.eqb s "" then Some 0 else int_of_str s.

(** [_stream] after [forward]: what is written of the reply. *)
Definition stream_data (f : LlmReply.Fresh) (role : Role) (reply : Reply) : list Data :=
  if LlmReply.status reply =? 200
  then map Chunk (chunks f (r_name role) reply) ++ [Done]
  else [ErrorChunk (error_chunk dumps reply)].

Definition _stream (role : Role) (raw : string) (body : json) (session : string) : S_ (Reply * Rec) :=
  write StreamHead ;;
  r ← call (Forward role raw body session true);
  match (r : option (Reply * Rec)) with
  | None => raise ForwardRaised
  | Some (reply, record) =>
      gone ← call Gone;
      if (gone : bool) then mret (reply, record <| client_gone := true |>) else
      f ← call Draw;
      mcatch (mfor (stream_data f role reply) (fun d => write (StreamData d)) ;;
              write StreamEnd ;; mret (reply, record))
             (fun e => match e with
                       | OSError => mret (reply, record <| client_gone := true |>)
                       | _ => raise e
                       end)
  end.

Definition answer (role : Role) (raw : string) (body : json) (session : string) : S_ (Reply * Rec) :=
  if truthy (jget "stream" body) then _stream role raw body session
  else
    r ← call (Forward role raw body session false);
    match (r : option (Reply * Rec)) with
    | None => raise ForwardRaised
    | Some (reply, record) =>
        f ← call Draw;
        mcatch ((if LlmReply.status reply =? 200
                 then _send 200 (Json (message f (r_name role) reply)) json_type []
                 else _send (LlmReply.status reply) (Json (error_body reply)) json_type []) ;;
                mret (reply, record))
               (fun e => match e with
                         | OSError => mret (reply, record <| client_gone := true |>)
                         | _ => raise e
                         end)
    end.

Definition over_size : string := "over the models' fair-use size".
Definition do_POST (rq : Request) : S_ unit :=
  if negb (bool_decide (rq_path rq ∈ ["/v1/chat/completions"; "/chat/completions"]%string))
  then _refuse 404 "invalid_prompt" "no such path" []
  else if negb (_authorized rq) then _refuse 401 "invalid_prompt" "a bearer token is required" []
  else match content_length rq with
  | None => raise BadLength
  | Some length =>
      if max_body_bytes (settings config) <? length then
        _refuse 413 "context_length_exceeded" 
          ("a body of " ++ pretty length ++ " bytes is over the "
           ++ pretty (max_body_bytes (settings config)) ++ " the models accept") []
      else match rq_json rq with
      | None => _refuse 400 "invalid_prompt" "the body is not JSON" []
      | Some body =>
          if negb (is_obj body) then raise AttributeError else
          match dget (py_str (jget "model" body)) (roles config) with
          | None => _refuse 400 "invalid_prompt" 
              ("no role " ++ repr_of (jget "model" body) ++ "; see /v1/models") []
          | Some role =>
              if r_images role <? images body then
                _refuse 413 "context_length_exceeded" 
                  (pretty (images body) ++ " images in one request; " ++ r_name role
                   ++ " takes at most " ++ pretty (r_images role)) []
              else if negb (existsb (usable config (rq_raw rq) body) (backends role)) then
                _refuse 413 "context_length_exceeded" over_size []
              else
                admitted ← call Admit;
                if negb (admitted : bool) then
                  _refuse 503 "server_error" "the proxy is restarting" [("Retry-After", pretty RETRY_AFTER)]%string
                else
                  mfinally (answer role (rq_raw rq) body (header "x-af-session" rq) ;; mret tt)
                    (call Finished ;; mret tt)
          end
      end
  end.
End Handler.

(** ** What the trace of a request shows *)

Abbreviation SEv := (sigT SAns).

(** A request is counted in before it is sent on, and out once. *)
Inductive Counted := Out | In | Miscounted.
Definition counted_step (c : Counted) (e : SEv) : Counted :=
  match e with
  | existT Admit ok => if (ok : bool) then match c with Out => In | _ => Miscounted end else c
  | existT (Forward _ _ _ _ _) _ => match c with In => In | _ => Miscounted end
  | existT Finished _ => match c with In => Out | _ => Miscounted end
  | _ => c
  end.
Definition counted (h : list SEv) : Counted := foldl counted_step Out h.

(** The start of a response. *)
Definition is_head (e : SEv) : bool :=
  match e with existT (Write (Whole_ _ _ _ _)) _ | existT (Write StreamHead) _ => true | _ => false end.
Definition heads (h : list SEv) : Z := zsum (map (fun e => if is_head e then 1 else 0) h).

Lemma counted_snoc h e : counted (h ++ [e]) = counted_step (counted h) e.
Proof. unfold counted. by rewrite foldl_app. Qed.
Lemma heads_snoc h e : heads (h ++ [e]) = heads h + if is_head e then 1 else 0.
Proof. unfold heads. rewrite map_app, zsum_app. cbn. destruct (is_head e); cbn; lia. Qed.

Section Served.
Context (config : Config) (token : string) (dumps : json -> string).
Context (svc : service SReq SAns) (rq : Request).

(** A request that is sent on is the client's, and passed every check. *)
Definition checked (e : SEv) : Prop :=
  match e with
  | existT (Forward role raw body session _) _ =>
      _authorized token rq = true /\ raw = rq_raw rq /\ rq_json rq = Some body /\
      session = header "x-af-session" rq /\
      (exists n, content_length rq = Some n /\ n <= max_body_bytes (settings config)) /\
      is_obj body = true /\ dget (py_str (jget "model" body)) (roles config) = Some role /\
      images body <= r_images role /\ exists b, b ∈ backends role /\ usable config raw body b = true
  | _ => True
  end.

(** The events of a request so far: its count, the responses begun, the checks. *)
Definition At (c : Counted) (n : Z) (h : list SEv) : Prop :=
  counted h = c /\ heads h = n /\ Forall checked h.
Lemma At_snoc c n h e c' n' :
  At c n h -> counted_step c e = c' -> (n + if is_head e then 1 else 0) = n' -> checked e ->
  At c' n' (h ++ [e]).
Proof.
  intros (<- & <- & Hf) <- <- He. split; [apply counted_snoc|]. split; [apply heads_snoc|].
  apply Forall_app. by repeat constructor.
Qed.

(** Adds the events of a run, oldest first, to what is known of it. *)
Ltac at_peel :=
  first [ eassumption
        | eapply At_snoc; [at_peel | reflexivity | reflexivity | first [exact I | auto]] ].

(** How a request's thread ends: counted out, with one response unless it raised. *)
Definition Served (r : res Exception unit) (_ : unit) (h : list SEv) : Prop :=
  counted h = Out /\ Forall checked h /\ match r with Ok _ => heads h = 1 | Err _ => 0 <= heads h <= 1 end.

Lemma wp_refuse st code msg hs s h : At Out 0 h -> wp (_refuse svc st code msg hs) s h Served.
Proof.
  intros HA. unfold _refuse, _send, write. do 2 wp_step.
  destruct (At_snoc Out 0 h (existT (Write (Whole_ st json_type (Json (error_body (failure st code msg))) hs))
    (svc h _)) Out 1 HA eq_refl eq_refl I) as (Hc & Hh & Hf).
  wp_step; wp_step; (split; [done|]; split; [done|]); lia.
Qed.

Lemma wp_stream_data l s h :
  At In 1 h -> wp (mfor l (fun d => write svc (StreamData d))) s h (fun r _ h' =>
    At In 1 h' /\ match r with Ok _ => True | Err e => e = OSError end).
Proof.
  intros HA. eapply wp_mono; [apply (wp_for l _ s h (fun _ h' => At In 1 h') (fun e _ h' => e = OSError /\ At In 1 h'))|].
  - done.
  - intros d s' h' _ HA'. unfold write. do 2 wp_step. wp_step; wp_step; [|split; [done|]];
      by eapply At_snoc.
  - intros [?|e] ??; [by split | by intros [??]].
Qed.

(** What [answer] leaves: counted in still, and one response begun. *)
Definition Answered (r : res Exception (Reply * Rec)) (_ : unit) (h : list SEv) : Prop :=
  match r with Ok _ => At In 1 h | Err _ => At In 0 h \/ At In 1 h end.

Lemma wp_answer role raw body session s h :
  At In 0 h -> (forall w a, checked (existT (Forward role raw body session w) a)) ->
  wp (answer dumps svc role raw body session) s h Answered.
Proof.
  intros HA HF. unfold answer. wp_step; unfold _stream, _send, write.
  - repeat wp_step; cbn [Answered]; try first [at_peel | right; at_peel].
    eapply wp_mono; [apply wp_stream_data; at_peel|].
    intros [[]|e] s' h' [HA' He]; [|by subst; wp_step].
    repeat wp_step; cbn [Answered]; at_peel.
  - repeat wp_step; cbn [Answered]; first [at_peel | left; at_peel].
Qed.

Lemma wp_do_POST s h : At Out 0 h -> wp (do_POST config token dumps svc rq) s h Served.
Proof.
  intros HA. unfold do_POST. wp_step; [by apply wp_refuse|]. wp_step; [by apply wp_refuse|].
  destruct HA as (Hc & Hh & Hf). assert (HA : At Out 0 h) by done.
  destruct (content_length rq) as [n|] eqn:Hn; [|by wp_step; repeat split; try done; lia].
  wp_step; [by apply wp_refuse|]. destruct (rq_json rq) as [body|] eqn:Hj; [|by apply wp_refuse].
  wp_step; [wp_step; repeat split; try done; lia|].
  destruct (dget _ (roles config)) as [role|] eqn:Hr; [|by apply wp_refuse].
  wp_step; [by apply wp_refuse|]. wp_step; [by apply wp_refuse|]. do 2 wp_step.
  destruct (svc h Admit) eqn:Ha; cbn [negb].
  2:{ apply wp_refuse. by eapply At_snoc. }
  breflect. do 2 wp_step. eapply wp_mono; [apply wp_answer|].
  - by eapply At_snoc.
  - intros w a. cbn. repeat split; try done; [by exists n|].
    match goal with H : existsb _ _ = true |- _ => apply existsb_exists in H as (b & Hb & Hu) end.
    exists b. by rewrite list_elem_of_In.
  - intros [a|e] s' h'; cbn [Answered]; intros HA'; [wp_step|]; do 2 wp_step; wp_step.
    + destruct (At_snoc _ _ _ (existT Finished (svc h' Finished)) Out 1 HA' eq_refl eq_refl I) as (?&?&?). done.
    + destruct HA' as [HA'|HA'];
      [destruct (At_snoc _ _ _ (existT Finished (svc h' Finished)) Out 0 HA' eq_refl eq_refl I) as (?&?&?)
      |destruct (At_snoc _ _ _ (existT Finished (svc h' Finished)) Out 1 HA' eq_refl eq_refl I) as (?&?&?)];
      repeat split; try done; lia.
Qed.
End Served.

Definition trace_of_server {A} (r : res Exception A * unit * list SEv) : list SEv := r.2.

(** Only a checked request goes on.  What is sent on is the client's own
    request: with the token, no larger than the models take, for a role that the
    configuration names, with no more images than it takes, and of a size that one
    of its backends can answer within fair use. *)
Theorem forwarded_checked config token dumps svc rq s :
  Forall (checked config token rq) (trace_of_server (do_POST config token dumps svc rq s [])).
Proof.
  pose proof (wp_do_POST config token dumps svc rq s []) as H. unfold wp in H.
  destruct (do_POST _ _ _ _ _ _ _) as [[r s'] h']. apply H. split; [done|]. split; [done|constructor].
Qed.

(** Every request is counted out.  A request is sent on only while it is
    counted in, and is counted out exactly once however it ends: answered, refused,
    left by its client, or with an exception in its thread. *)
Theorem counted_out config token dumps svc rq s :
  counted (trace_of_server (do_POST config token dumps svc rq s [])) = Out.
Proof.
  pose proof (wp_do_POST config token dumps svc rq s []) as H. unfold wp in H.
  destruct (do_POST _ _ _ _ _ _ _) as [[r s'] h']. apply H. split; [done|]. split; [done|constructor].
Qed.

(** One answer.  A request whose thread does not raise has begun exactly one
    response, and none begins two. *)
Theorem one_response config token dumps svc rq s :
  let r := do_POST config token dumps svc rq s [] in
  match r.1.1 with
  | Ok _ => heads (trace_of_server r) = 1
  | Err _ => 0 <= heads (trace_of_server r) <= 1
  end.
Proof.
  pose proof (wp_do_POST config token dumps svc rq s []) as H. unfold wp in H.
  destruct (do_POST _ _ _ _ _ _ _) as [[r s'] h']. apply H. split; [done|]. split; [done|constructor].
Qed.

(** ** [Server] *)

Record Server := mkServer { draining : bool; in_flight : Z }.
#[export] Instance eta_server : Eta Server := {| eta_of s := mkServer (draining s) (in_flight s) |}.
Definition server0 : Server := mkServer false 0.

Definition admit_ (s : Server) : bool * Server :=
  if draining s then (false, s) else (true, s <| in_flight := in_flight s + 1 |>).
Definition finished (s : Server) : Server := s <| in_flight := in_flight s - 1 |>.
(** [drain] first shuts the door, and ends when nothing is in flight or after its
    time, with what is left. *)
Definition drain_begin (s : Server) : Server := s <| draining := true |>.
Definition drain_done (s : Server) : bool := in_flight s =? 0.
Definition drain_left (s : Server) : Z := in_flight s.

(** The server with the threads that were admitted and are not finished; each
    step is one hold of the server's lock. *)
Record Threads := mkThreads { server : Server; inside : list nat }.
Inductive sstep : Threads -> Threads -> Prop :=
| s_admit i s s' l : i ∉ l -> admit_ s = (true, s') -> sstep (mkThreads s l) (mkThreads s' (i :: l))
| s_refuse s s' l : admit_ s = (false, s') -> sstep (mkThreads s l) (mkThreads s' l)
| s_finish s l1 i l2 : sstep (mkThreads s (l1 ++ i :: l2)) (mkThreads (finished s) (l1 ++ l2))
| s_drain s l : sstep (mkThreads s l) (mkThreads (drain_begin s) l).

Definition counts (t : Threads) : Prop := in_flight (server t) = Z.of_nat (List.length (inside t)).

Lemma sstep_counts t t' : sstep t t' -> counts t -> counts t'.
Proof.
  unfold counts. intros []; cbn [server inside] in *; intros.
  - unfold admit_ in *. destruct (draining s); simplify_eq. cbn. lia.
  - unfold admit_ in *. by destruct (draining s); simplify_eq.
  - unfold finished. cbn. rewrite length_app in *. cbn in *. lia.
  - done.
Qed.

Lemma rtc_counts t t' : rtc sstep t t' -> counts t -> counts t'.
Proof. induction 1; eauto using sstep_counts. Qed.

(** C29: a restart loses no request it admitted.  In every state that admissions,
    ends and drains in any interleaving reach, [in_flight] is the number of threads
    inside; once draining, no thread gets in, so those inside only dwindle, and
    what [drain] returns, or waits to be 0, is exactly how many of them are left. *)
Theorem drain_sound t t' :
  rtc sstep (mkThreads server0 []) t -> draining (server t) = true -> rtc sstep t t' ->
  draining (server t') = true /\ inside t' `sublist_of` inside t /\
  drain_left (server t') = Z.of_nat (List.length (inside t')) /\
  (drain_done (server t') = true <-> inside t' = []).
Proof.
  intros H0 Hd Ht.
  assert (Hc : counts t') by
    (apply (rtc_counts (mkThreads server0 [])); [by etrans|done]).
  assert (Hs : draining (server t') = true /\ inside t' `sublist_of` inside t).
  { clear H0 Hc. induction Ht as [t|t t1 t2 Hs _ IH]; [done|].
    assert (H1 : draining (server t1) = true /\ inside t1 `sublist_of` inside t).
    { destruct Hs; cbn [server inside] in *; unfold admit_ in *; rewrite ?Hd in *; simplify_eq; try done.
      split; [done|]. apply sublist_app; [done|]. by apply sublist_cons. }
    destruct (IH (proj1 H1)) as [? ?]. split; [done|]. by etrans; [|apply H1]. }
  destruct Hs as [Hs1 Hs2]. split; [done|]. split; [done|]. split; [exact Hc|].
  unfold drain_done. rewrite Hc. destruct (inside t'); cbn; split; done || (intros; breflect; lia).
Qed.

Lemma drain_sound_witness :
  let t := mkThreads (drain_begin (admit_ server0).2) [7%nat] in
  let t' := mkThreads (finished (drain_begin (admit_ server0).2)) [] in
  drain_left (server t) = 1 /\ drain_left (server t') = Z.of_nat (List.length (inside t')).
Proof.
  split; [vm_compute; reflexivity|].
  refine (proj1 (proj2 (proj2 (drain_sound
    (mkThreads (drain_begin (admit_ server0).2) [7%nat])
    (mkThreads (finished (drain_begin (admit_ server0).2)) []) _ eq_refl _)))).
  - eapply rtc_l; [apply (s_admit 7 server0 (admit_ server0).2 []); [apply not_elem_of_nil | reflexivity]|].
    eapply rtc_l; [apply s_drain | apply rtc_refl].
  - eapply rtc_l; [apply (s_finish _ [] 7%nat []) | apply rtc_refl].
Defined.

(** A request that is no object: [body.get] raises, and nothing answers it. *)
Definition demo_request : Request := mkRequest "/v1/chat/completions"
  [("authorization", "Bearer t"); ("content-length", "2")]%string "[]" (Some (JArr [])).
Lemma list_body_unanswered svc :
  do_POST demo_config "t" (fun _ => ""%string) svc demo_request tt []
  = (Err AttributeError, tt, []).
Proof. vm_compute. reflexivity. Qed.
