(* ===== verification/Sha256.v ===== *)
(** [hashlib.sha256(...).hexdigest()] and [hmac.new(..., hashlib.sha256).hexdigest()]
    of the Standard Library, by which the gateway names clusters, knows tokens and
    derives cluster tokens. *)
From S2P Require Import Prelude.
Open Scope Z_scope.

(** The standard's constants: the first 32 bits of the fractional parts of the cube
    roots of the first 64 primes, and of the square roots of the first 8. *)
Definition is_prime (n : Z) : bool :=
  (2 <=? n) && forallb (fun d => negb (n mod Z.of_nat d =? 0)) (List.seq 2 (Z.to_nat (Z.sqrt n) - 1)).
Definition primes : list Z := List.filter is_prime (map Z.of_nat (List.seq 2 310)).
(** The greatest cube root, its bits found from the highest. *)
Definition cube_root (n : Z) : Z :=
  foldl (fun r bit => let r' := r + Z.shiftl 1 (Z.of_nat bit) in if r' ^ 3 <=? n then r' else r) 0 (rev (List.seq 0 36)).
Definition fraction (root : Z) : Z := root mod 2 ^ 32.
Definition sha_K : list Z := Eval vm_compute in map (fun p => fraction (cube_root (p * 2 ^ 96))) (take 64 primes).
Definition sha_H0 : list Z := Eval vm_compute in map (fun p => fraction (Z.sqrt (p * 2 ^ 64))) (take 8 primes).
Example sha_constants : List.length primes = 64%nat /\ head sha_K = Some 1116352408 /\ last sha_K = Some 3329325298
  /\ head sha_H0 = Some 1779033703.
Proof. vm_compute. repeat split. Qed.

Definition mask32 : Z := 0xffffffff.
Definition w32 (x : Z) : Z := Z.land x mask32.
Definition rotr (n x : Z) : Z := Z.lor (Z.shiftr x n) (w32 (Z.shiftl x (32 - n))).
Definition small_sigma0 (x : Z) : Z := Z.lxor (Z.lxor (rotr 7 x) (rotr 18 x)) (Z.shiftr x 3).
Definition small_sigma1 (x : Z) : Z := Z.lxor (Z.lxor (rotr 17 x) (rotr 19 x)) (Z.shiftr x 10).
Definition big_sigma0 (x : Z) : Z := Z.lxor (Z.lxor (rotr 2 x) (rotr 13 x)) (rotr 22 x).
Definition big_sigma1 (x : Z) : Z := Z.lxor (Z.lxor (rotr 6 x) (rotr 11 x)) (rotr 25 x).
Definition ch (x y z : Z) : Z := Z.lxor (Z.land x y) (Z.land (Z.lxor x mask32) z).
Definition maj (x y z : Z) : Z := Z.lxor (Z.lxor (Z.land x y) (Z.land x z)) (Z.land y z).

(** The big-endian bytes of [x], [n] of them. *)
Fixpoint be_bytes (n : nat) (x : Z) : list Z :=
  match n with O => [] | S n' => be_bytes n' (Z.shiftr x 8) ++ [Z.land x 255] end.
Definition pad (m : list Z) : list Z :=
  let len := Z.of_nat (List.length m) in
  m ++ [128] ++ repeat 0 (Z.to_nat ((55 - len) mod 64)) ++ be_bytes 8 (8 * len).

Fixpoint words (l : list Z) : list Z :=
  match l with
  | a :: b :: c :: d :: l' => Z.lor (Z.shiftl a 24) (Z.lor (Z.shiftl b 16) (Z.lor (Z.shiftl c 8) d)) :: words l'
  | _ => []
  end.

(** The message schedule, the newest word first. *)
Fixpoint schedule (n : nat) (w : list Z) : list Z :=
  match n with
  | O => w
  | S n' =>
      let at_ i := nth i w 0 in
      schedule n' (w32 (small_sigma1 (at_ 1%nat) + at_ 6%nat + small_sigma0 (at_ 14%nat) + at_ 15%nat) :: w)
  end.

Definition round (s : list Z) (kw : Z * Z) : list Z :=
  match s with
  | [a; b; c; d; e; f; g; h] =>
      let t1 := h + big_sigma1 e + ch e f g + kw.1 + kw.2 in
      let t2 := big_sigma0 a + maj a b c in
      [w32 (t1 + t2); a; b; c; w32 (d + t1); e; f; g]
  | _ => s
  end.
Definition block (hs : list Z) (ws : list Z) : list Z :=
  let w := rev (schedule 48 (rev ws)) in
  zip_with (fun x y => w32 (x + y)) hs (foldl round hs (zip sha_K w)).
Fixpoint blocks (n : nat) (hs ws : list Z) : list Z :=
  match n with
  | O => hs
  | S n' => blocks n' (block hs (take 16 ws)) (drop 16 ws)
  end.
Definition sha256 (m : list Z) : list Z :=
  let ws := words (pad m) in
  flat_map (be_bytes 4) (blocks (Nat.div (List.length ws) 16) sha_H0 ws).

Definition str_bytes (s : string) : list Z := map chr_code (list_ascii_of_string s).
Definition hex_digit (n : Z) : ascii := nth (Z.to_nat n) (list_ascii_of_string "0123456789abcdef") "0"%char.
Fixpoint hex (l : list Z) : string :=
  match l with
  | [] => EmptyString
  | b :: l' => String (hex_digit (Z.shiftr b 4)) (String (hex_digit (Z.land b 15)) (hex l'))
  end.
(** [hashlib.sha256(s.encode()).hexdigest()] *)
Definition sha256_hex (s : string) : string := hex (sha256 (str_bytes s)).

(** [hmac.new(key.encode(), s.encode(), hashlib.sha256).hexdigest()] *)
Definition hmac_key (key : list Z) : list Z :=
  let k := if (64 <? Z.of_nat (List.length key)) then sha256 key else key in
  k ++ repeat 0 (64 - List.length k).
Definition hmac_sha256_hex (key s : string) : string :=
  let k := hmac_key (str_bytes key) in
  hex (sha256 (map (Z.lxor 0x5c) k ++ sha256 (map (Z.lxor 0x36) k ++ str_bytes s))).

Example sha256_empty :
  sha256_hex "" = "e3b0c44298fc1c149afbf4c8996fb92427ae41e4649b934ca495991b7852b855"%string.
Proof. vm_compute. reflexivity. Qed.
Example sha256_abc :
  sha256_hex "abc" = "ba7816bf8f01cfea414140de5dae2223b00361a396177a9cb410ff61f20015ad"%string.
Proof. vm_compute. reflexivity. Qed.
Example hmac_jefe :
  hmac_sha256_hex "Jefe" "what do ya want for nothing?"
  = "5bdcc146bf60754e6a042426089575c75a003f089d2739839dec58b964ec3843"%string.
Proof. vm_compute. reflexivity. Qed.

(** ** The shape of a digest *)

Definition is_hexdigit (c : ascii) : bool := is_digit c || chr_between "a" "f" c.

Lemma hex_digit_hex n : is_hexdigit (hex_digit n) = true.
Proof.
  unfold hex_digit. generalize (Z.to_nat n). intros k.
  do 16 (destruct k as [|k]; [reflexivity|]). destruct k; reflexivity.
Qed.
Lemma hex_hex l : str_forallb is_hexdigit (hex l) = true.
Proof. induction l as [|b l IH]; [done|]. cbn [hex str_forallb]. by rewrite !hex_digit_hex, IH. Qed.
Lemma hex_length l : String.length (hex l) = (2 * List.length l)%nat.
Proof. induction l as [|b l IH]; cbn; [done|]. rewrite IH. lia. Qed.
Lemma be_bytes_length n x : List.length (be_bytes n x) = n.
Proof. revert x. induction n as [|n IH]; intros x; cbn; [done|]. rewrite length_app, IH. cbn. lia. Qed.

Lemma round_length s kw : List.length (round s kw) = List.length s.
Proof. unfold round. by do 9 (destruct s as [|? s]; [done|]). Qed.
Lemma rounds_length l s : List.length (foldl round s l) = List.length s.
Proof. revert s. induction l as [|x l IH]; intros s; cbn; [done|]. by rewrite IH, round_length. Qed.
Lemma block_length hs ws : List.length (block hs ws) = List.length hs.
Proof. unfold block. rewrite length_zip_with, rounds_length. apply Nat.min_id. Qed.
Lemma blocks_length n hs ws : List.length (blocks n hs ws) = List.length hs.
Proof. revert hs ws. induction n as [|n IH]; intros; cbn [blocks]; [done|]. by rewrite IH, block_length. Qed.
Lemma sha256_length m : List.length (sha256 m) = 32%nat.
Proof.
  unfold sha256. generalize (blocks_length (Nat.div (List.length (words (pad m))) 16) sha_H0 (words (pad m))).
  generalize (blocks (Nat.div (List.length (words (pad m))) 16) sha_H0 (words (pad m))) as hs.
  change (List.length sha_H0) with 8%nat. intros hs H.
  do 8 (destruct hs as [|? hs]; [done|]). by destruct hs.
Qed.
Lemma sha256_hex_length s : String.length (sha256_hex s) = 64%nat.
Proof. unfold sha256_hex. by rewrite hex_length, sha256_length. Qed.
Lemma sha256_hex_digits s : str_forallb is_hexdigit (sha256_hex s) = true.
Proof. apply hex_hex. Qed.
#[global] Opaque sha256_hex hmac_sha256_hex.
