(* ===== verification/GpuQueries.v ===== *)
(** The GPU queries that the Hub's profile form and the Ray gateway share,
    [apps/jupyterhub/jupyterhub/extraFiles/gpu_queries.py]. *)
From S2P Require Import Prelude PyJson.

Definition PREEMPTIBLE_PRIORITY_CLASS : string := "medium-priority-preemptible".
Definition GPU_METRICS : list (string * string) :=
  [("nvidia.com/mig-1g.5gb", "nvidia_com_mig_1g_5gb"); ("nvidia.com/mig-7g.40gb", "nvidia_com_mig_7g_40gb");
   ("nvidia.com/gpu", "nvidia_com_gpu")]%string.
Definition NODE_SCOPE : string :=
  " * on (node) group_left() (kube_node_spec_unschedulable == bool 0)"
  ++ " * on (node) group_left() group by (node) (kube_node_spec_taint{value=" ++ quoted "cms-af" ++ "})".
Definition GPU_RESOURCE : string := "resource=~" ++ quoted "nvidia_com_(mig_.+|gpu)".
Definition ALLOC_QUERY : string :=
  "sum by (resource) (kube_node_status_allocatable{" ++ GPU_RESOURCE ++ "}" ++ NODE_SCOPE ++ ")".
Definition PODS_REQUESTED : string :=
  "kube_pod_container_resource_requests{" ++ GPU_RESOURCE ++ "}" ++ NODE_SCOPE
  ++ " * on (namespace, pod) group_left() (max by (namespace, pod) (kube_pod_status_phase{phase=~"
  ++ quoted "Pending|Running" ++ "}) == bool 1)".
Definition PREEMPTIBLE : string := "kube_pod_info{priority_class=" ++ quoted PREEMPTIBLE_PRIORITY_CLASS ++ "}".
Definition USED_QUERY : string :=
  "sum by (resource) ((" ++ PODS_REQUESTED ++ ") unless on (namespace, pod) " ++ PREEMPTIBLE ++ ")".
Definition PREEMPTIBLE_QUERY : string :=
  "sum by (resource) (" ++ PODS_REQUESTED
  ++ " * on (namespace, pod) group_left() group by (namespace, pod) (" ++ PREEMPTIBLE ++ "))".
