(* ===== verification/HubGpus.v ===== *)
(** The Hub's gate on GPUs, [apps/jupyterhub/jupyterhub/extraFiles/gpu-availability.py]:
    the live counts on the profile form, and the spawns that are refused. The hook
    awaits Prometheus between giving up an earlier reservation and deciding, and other
    hooks run meanwhile: [gpath] is any interleaving of what runs without an await. *)
From S2P Require Import Prelude PyJson PyText PyValue GpuQueries.
Open Scope Z_scope.

(** ** Constants and state *)

Definition CACHE_TTL : Q := 30.
Definition GRANT_TTL : Q := 120.
Definition GPU_FLAVORS : list (string * string) :=
  [("nvidia.com/mig-1g.5gb", "A100 GPU slices (5GB)"); ("nvidia.com/mig-7g.40gb", "full A100 GPUs (40GB)");
   ("nvidia.com/gpu", "NVIDIA T4 GPUs (16GB)")]%string.

(** A reservation: when, of which resource, for which spawner. *)
Record Grant := mkGrant { g_at : Q; g_resource : string; g_owner : string }.
(** Free GPUs by resource, and how many spawns were refused, by resource and reason. *)
Definition FreeGpus := list (string * Z).
Record HubGate := mkHubGate {
  recent_grants : list Grant; cache_expires : Q; cache_free : option FreeGpus;
  spawn_refused : list ((string * string) * Z) }.
#[export] Instance eta_HubGate : Eta HubGate := {| eta_of r :=
  mkHubGate (recent_grants r) (cache_expires r) (cache_free r) (spawn_refused r) |}.
Definition gate0 : HubGate := mkHubGate [] 0 None [].

(** [ValueError] of [int]; other exceptions; [GPUsUnavailableError]. *)
Inductive Exc := BadValue | Failure | GPUsUnavailable (message : string).
(** A query's payload, [None] where the fetch raises, and the monotonic clock. *)
Inductive Req := PromQuery (query : string) | Monotonic.
Definition Ans (r : Req) : Type := match r with PromQuery _ => option json | Monotonic => Q end.
Definition Ev : Type := sigT Ans.
Definition HM (A : Type) : Type := M Ev HubGate Exc A.

(** ** What the code reads *)

Definition idle_match (arg : string) : option Z :=
  if startswith "--timeout=" arg then py_digits (removeprefix "--timeout=" arg) else None.
Fixpoint first_some {A B} (f : A -> option B) (l : list A) : option B :=
  match l with [] => None | x :: l' => match f x with Some b => Some b | None => first_some f l' end end.
Definition idle_note (services : list json) : option string :=
  first_some (fun service =>
    if jeq_str (jget "name" service) "gpu-culler" then
      first_some (fun arg => option_map (fun n => "idle session timeout " ++ fmt_g (qz n / 3600) ++ "h")%string
                               (idle_match (jstr arg)))
        (jlist (jget "command" service))
    else None) services.

(** A sample's resource, [None] if it has none, and its value. *)
Definition sample_of (sample : json) : option (option string * float) :=
  metric ← item_of "metric" sample;
  guard (is_obj metric = true);;
  v ← item_of "value" sample ≫= nth_of 1;
  x ← float_of v;
  Some (match jget "resource" metric with JStr r => Some r | _ => None end, x).
Definition samples_of (payload : json) : option (list (option string * float)) :=
  data ← item_of "data" payload;
  result ← item_of "result" data;
  match result with
  | JArr l => kvs ← mapM sample_of l; Some (dupdate [] kvs)
  | _ => None
  end.

(** A container of a pod: its limits, in the order of the dict, and its environment. *)
Record Container := mkContainer { c_limits : list (string * json); c_env : list (string * string) }.
#[export] Instance eta_Container : Eta Container := {| eta_of r := mkContainer (c_limits r) (c_env r) |}.

Definition is_flavor (r : string) : bool := dhas r GPU_FLAVORS.
(** The GPUs that a profile's choice asks for. *)
Definition gpu_requests_in (kubespawner_override : json) : option (list (string * Z)) :=
  ofold (fun acc kv =>
    if is_flavor kv.1 then
      n ← int_of kv.2; Some (if 0 <? n then dset kv.1 n acc else acc)
    else Some acc) [] (jitems (jget "extra_resource_limits" kubespawner_override)).

(** Whether a pod asks for any GPU, and for how many of each flavor. *)
Definition Requested : Type := bool * list (string * Z).
Definition request_step (acc : Requested) (limit : string * json) : option Requested :=
  let '(any_gpu, requested) := acc in
  let '(resource, amount) := limit in
  any_gpu ← (if startswith "nvidia.com/" resource
             then n ← int_of amount; Some (any_gpu || (0 <? n)) else Some any_gpu);
  if is_flavor resource then
    n ← int_of amount;
    Some (any_gpu, if 0 <? n then dset resource (dget_or resource 0 requested + n) requested else requested)
  else Some (any_gpu, requested).
Definition requests_of (pod : list Container) : option Requested :=
  ofold request_step (false, []) (flat_map c_limits pod).

Definition VISIBLE : string := "NVIDIA_VISIBLE_DEVICES".
Definition hide_gpus (c : Container) : Container :=
  if existsb (fun e => String.eqb e.1 VISIBLE) (c_env c) then c
  else c <| c_env := c_env c ++ [(VISIBLE, "void"%string)] |>.
Definition hide_gpus_from_pod (pod : list Container) : list Container := map hide_gpus pod.

(** ** Reservations *)

Definition alive (now : Q) (g : Grant) : bool := (now - g_at g)%Q <?q GRANT_TTL.
Definition of_resource (r : string) (g : Grant) : bool := String.eqb (g_resource g) r.
Definition count_of (r : string) (gs : list Grant) : Z :=
  Z.of_nat (List.length (List.filter (of_resource r) gs)).
Definition without (owner : string) (gs : list Grant) : list Grant :=
  List.filter (fun g => negb (String.eqb (g_owner g) owner)) gs.

Definition spawner_key (user server : string) : string := user ++ "/" ++ server.
Definition release_grants (owner : string) (s : HubGate) : HubGate :=
  s <| recent_grants := without owner (recent_grants s) |>.
Definition release_gpu_grants_on_stop (user server : string) : HM unit :=
  mmod (release_grants (spawner_key user server)).

(** ** Availability *)

Section Gate.
Context (svc : service Req Ans).

Definition monotonic : HM Q := mcall svc Monotonic.
Definition or_raise {A} (e : Exc) (a : option A) : HM A :=
  match a with Some a => mret a | None => raise e end.

Definition grants_in_flight (r : string) : HM Z :=
  now ← monotonic;
  mmod (fun s => s <| recent_grants := List.filter (alive now) (recent_grants s) |>) ≫= fun _ =>
  s ← mget; mret (count_of r (recent_grants s)).

Definition prom_query (query : string) : HM (option (list (option string * float))) :=
  payload ← (mcall svc (PromQuery query) : HM (option json));
  mret (payload ≫= samples_of).
Definition free_of (allocatable used : list (option string * float)) (rm : string * string) : option (string * Z) :=
  let at_ d := dget_or (Some rm.2) (Fin 0) d in
  n ← int_of_float (float_sub (at_ allocatable) (at_ used)); Some (rm.1, Z.max n 0).
(** What the two answers make of it. *)
Definition free_from (allocatable used : option (list (option string * float))) : HM (option FreeGpus) :=
  match allocatable, used with
  | Some [], _ => mret None
  | Some a, Some u => free ← or_raise BadValue (mapM (free_of a u) GPU_METRICS); mret (Some free)
  | _, _ => mret None
  end.
Definition get_free_gpus : HM (option FreeGpus) :=
  allocatable ← prom_query ALLOC_QUERY;
  used ← prom_query USED_QUERY;
  free_from allocatable used.

Definition observed_free_gpus (use_cache : bool) : HM (option FreeGpus) :=
  now ← monotonic;
  s ← mget;
  if negb use_cache || match cache_free s with None => true | _ => false end || (now >=?q cache_expires s) then
    free ← get_free_gpus;
    mmod (fun s => s <| cache_free := free |> <| cache_expires := (now + CACHE_TTL)%Q |>) ≫= fun _ =>
    mret free
  else mret (cache_free s).

Fixpoint less_in_flight (observed : FreeGpus) : HM FreeGpus :=
  match observed with
  | [] => mret []
  | (r, n) :: rest =>
      taken ← grants_in_flight r; rest ← less_in_flight rest; mret ((r, Z.max (n - taken) 0) :: rest)
  end.
Definition free_gpus (use_cache : bool) : HM (option FreeGpus) :=
  observed ← observed_free_gpus use_cache;
  match observed with None => mret None | Some o => free ← less_in_flight o; mret (Some free) end.

(** ** [refuse_gpu_spawn_if_unavailable] *)

Definition refusal (resource : string) : string :=
  "All " ++ dget_or resource resource GPU_FLAVORS ++ " are currently in use by other sessions. "
  ++ "Please start a session without a GPU, or try again later.".
(** One resource of a spawn, when [n] of it are observed free. *)
Definition check_resource (observed : FreeGpus) (ra : string * Z) : HM unit :=
  let '(resource, amount) := ra in
  let n := dget_or resource 0 observed in
  taken ← grants_in_flight resource;
  if amount <=? Z.max (n - taken) 0 then mret tt else
  let key := (resource, if n <? amount then "exhausted" else "reserved") in
  mmod (fun s => s <| spawn_refused := dset key (dget_or key 0 (spawn_refused s) + 1) (spawn_refused s) |>) ≫= fun _ =>
  grants_in_flight resource ≫= fun _ =>
  raise (GPUsUnavailable (refusal resource)).
Fixpoint reserve_each (owner resource : string) (n : nat) : HM (list Grant) :=
  match n with
  | O => mret []
  | S n => now ← monotonic; gs ← reserve_each owner resource n; mret (mkGrant now resource owner :: gs)
  end.
Fixpoint reserve (owner : string) (requested : list (string * Z)) : HM (list Grant) :=
  match requested with
  | [] => mret []
  | (resource, amount) :: rest =>
      gs ← reserve_each owner resource (Z.to_nat amount); gs' ← reserve owner rest; mret (gs ++ gs')
  end.
(** What runs once the answer is there, without an await; the reservations are its result. *)
Definition decide_spawn (owner : string) (requested : list (string * Z)) (observed : FreeGpus) : HM (list Grant) :=
  mfor requested (check_resource observed) ≫= fun _ =>
  gs ← reserve owner requested;
  mmod (fun s => s <| recent_grants := recent_grants s ++ gs |>) ≫= fun _ => mret gs.
Definition refuse_gpu_spawn_if_unavailable (user server : string) (pod : list Container) : HM (list Container) :=
  '(any_gpu, requested) ← or_raise BadValue (requests_of pod);
  if negb any_gpu then mret (hide_gpus_from_pod pod)
  else match requested with
  | [] => mret pod
  | _ =>
      let owner := spawner_key user server in
      mmod (release_grants owner) ≫= fun _ =>
      observed ← observed_free_gpus false;
      match observed with
      | None => mret pod
      | Some o => decide_spawn owner requested o ≫= fun _ => mret pod
      end
  end.

(** ** The profile form *)

Definition PLENTY : string := " - subject to availability".
Definition annotated (idle : option string) (free : option FreeGpus) (resource name : string) : string :=
  let count := free ≫= dget resource in
  let parts := match count with
    | Some n => [if n =? 0 then "none available right now" else (pretty n ++ " available now")%string]
    | None => [] end ++ match idle with Some note => [note] | None => [] end in
  match parts with
  | [] => name
  | _ => ((match count with Some _ => removesuffix PLENTY name | None => name end) ++ " — " ++ str_join ", " parts)%string
  end.
(** [None] where it raises; a profile without a [display_name] raises only where one is due. *)
Definition annotate_choice (idle : option string) (free : option FreeGpus) (choice : json) : option json :=
  requests ← gpu_requests_in (jget "kubespawner_override" choice);
  ofold (fun choice ra =>
    match match free ≫= dget ra.1 with Some _ => Some tt | None => const tt <$> idle end with
    | None => Some choice
    | Some _ => name ← item_of "display_name" choice;
                Some (jset "display_name" (JStr (annotated idle free ra.1 (jstr name))) choice)
    end) choice requests.
(** [for v in (j.get(k) or {}).values(): f(v)], where [f] changes [v]. *)
Definition each_value (k : string) (f : json -> option json) (j : json) : option json :=
  match jget k j with
  | JObj [] => Some j
  | JObj o => vs ← mapM (fun kv => v ← f kv.2; Some (kv.1, v)) o; Some (jset k (JObj vs) j)
  | _ => Some j
  end.
Definition annotate_gpu_choices (idle : option string) (profiles : list json) (free : option FreeGpus) : option (list json) :=
  mapM (each_value "profile_options" (each_value "choices" (annotate_choice idle free))) profiles.
Definition profile_list_with_gpu_counts (idle : option string) (static_profile_list : list json) : HM (list json) :=
  free ← free_gpus true;
  or_raise Failure (annotate_gpu_choices idle static_profile_list free).
End Gate.

Example annotate_example :
  annotate_gpu_choices (idle_note [JObj [("name", JStr "gpu-culler"); ("command", JArr [JStr "--timeout=5400"])]])
    [JObj [("profile_options", JObj [("gpu", JObj [("choices", JObj [("a", JObj
       [("display_name", JStr "A100 - subject to availability");
        ("kubespawner_override", JObj [("extra_resource_limits", JObj [("nvidia.com/gpu", JInt 1)])])])])])])]]
    (Some [("nvidia.com/gpu", 3)])
  = Some [JObj [("profile_options", JObj [("gpu", JObj [("choices", JObj [("a", JObj
       [("display_name", JStr "A100 — 3 available now, idle session timeout 1.5h");
        ("kubespawner_override", JObj [("extra_resource_limits", JObj [("nvidia.com/gpu", JInt 1)])])])])])])]].
Proof. vm_compute. reflexivity. Qed.

(** ** The clock, and reservations that are not pruned *)

(** The last reading of the clock in a history. *)
Definition reading (T : Q) (e : Ev) : Q :=
  let '(existT r a) := e in
  match r return Ans r -> Q with Monotonic => fun now => now | PromQuery _ => fun _ => T end a.
Definition clock_at (h : list Ev) : Q := foldl reading 0%Q h.
(** Of the reservations made and not given up, those that count at an instant. *)
Definition live (now : Q) (held : list Grant) : list Grant := List.filter (alive now) held.
Definition in_flight (r : string) (held : list Grant) (now : Q) : Z := count_of r (live now held).
(** The gate keeps those of [held] that may still count. *)
Definition tracks (s : HubGate) (held : list Grant) (T : Q) : Prop :=
  forall now, (T <= now)%Q -> live now (recent_grants s) = live now held.

Lemma alive_later T now g : (T <= now)%Q -> alive now g = true -> alive T g = true.
Proof. unfold alive. rewrite !qlt_true. intros. lra. Qed.
Lemma live_later T now gs : (T <= now)%Q -> live now (live T gs) = live now gs.
Proof.
  intros Hle. unfold live. induction gs as [|g gs IH]; cbn; [done|].
  pose proof (alive_later T now g Hle). destruct (alive T g) eqn:E, (alive now g) eqn:E'; cbn; rewrite ?E', ?IH; auto.
  by discriminate H.
Qed.
Lemma live_without now owner gs : live now (without owner gs) = without owner (live now gs).
Proof.
  unfold live, without. induction gs as [|g gs IH]; cbn; [done|].
  destruct (negb _) eqn:E, (alive now g) eqn:E'; cbn; rewrite ?E, ?E', ?IH; done.
Qed.
Lemma live_app now l l' : live now (l ++ l') = live now l ++ live now l'.
Proof. apply List.filter_app. Qed.
Lemma count_app r l l' : count_of r (l ++ l') = count_of r l + count_of r l'.
Proof. unfold count_of. rewrite List.filter_app, length_app. lia. Qed.
Lemma count_live r T now gs : (T <= now)%Q -> in_flight r gs now <= in_flight r gs T.
Proof.
  intros Hle. unfold in_flight. rewrite <- (live_later T now) by done. generalize (live T gs). intros l.
  unfold count_of, live. induction l as [|g l IH]; cbn; [done|].
  destruct (alive now g); cbn; destruct (of_resource r g); cbn [List.length]; lia.
Qed.
Lemma tracks_later s held T T' : (T <= T')%Q -> tracks s held T -> tracks s held T'.
Proof. intros Hle H now Hn. apply H. lra. Qed.
Lemma tracks_release owner s held T : tracks s held T -> tracks (release_grants owner s) (without owner held) T.
Proof.
  intros H now Hn. change (live now (without owner (recent_grants s)) = live now (without owner held)).
  rewrite !live_without. by rewrite H.
Qed.
Lemma tracks_pruned s held T : tracks s held T ->
  tracks (s <| recent_grants := List.filter (alive T) (recent_grants s) |>) held T.
Proof.
  intros H now Hn. change (live now (live T (recent_grants s)) = live now held). rewrite live_later by done. by apply H.
Qed.

Section Clock.
Context (svc : service Req Ans) (clock_forward : forall h, (clock_at h <= svc h Monotonic)%Q).

Lemma clock_read h a : clock_at (h ++ [existT Monotonic a]) = a.
Proof. unfold clock_at. by rewrite foldl_app. Qed.
Lemma wp_clock s h P :
  (forall now, (clock_at h <= now)%Q -> clock_at (h ++ [existT Monotonic now]) = now ->
     P (Ok now) s (h ++ [existT Monotonic now])) -> wp (monotonic svc) s h P.
Proof. intros H. apply wp_call. apply H; [apply clock_forward | apply clock_read]. Qed.

(** A count of what is in flight is that of what is held and may still count. *)
Lemma wp_in_flight r s h held (P : res Exc Z -> HubGate -> list Ev -> Prop) :
  tracks s held (clock_at h) ->
  (forall s' h', (clock_at h <= clock_at h')%Q -> tracks s' held (clock_at h') ->
     spawn_refused s' = spawn_refused s -> P (Ok (in_flight r held (clock_at h'))) s' h') ->
  wp (grants_in_flight svc r) s h P.
Proof.
  intros Ht HP. unfold grants_in_flight. wp_step. apply wp_clock. intros now Hle Hc. repeat wp_step.
  pose proof (tracks_later _ _ _ _ Hle Ht) as Ht'. cbn [recent_grants].
  replace (count_of r _) with (in_flight r held (clock_at (h ++ [existT Monotonic now]))).
  - apply HP; rewrite ?Hc; [done| |done]. by apply tracks_pruned.
  - rewrite Hc. unfold in_flight. rewrite <- (Ht' now) by apply Qle_refl. done.
Qed.

(** What a check of one resource finds. *)
Lemma wp_check observed r a s h held (P : res Exc unit -> HubGate -> list Ev -> Prop) :
  0 < a -> tracks s held (clock_at h) ->
  (forall s' h', (clock_at h <= clock_at h')%Q -> tracks s' held (clock_at h') ->
     spawn_refused s' = spawn_refused s ->
     in_flight r held (clock_at h') + a <= dget_or r 0 observed -> P (Ok tt) s' h') ->
  (forall s' h' now, (clock_at h <= now <= clock_at h')%Q -> tracks s' held (clock_at h') ->
     dget_or r 0 observed < in_flight r held now + a -> P (Err (GPUsUnavailable (refusal r))) s' h') ->
  wp (check_resource svc observed (r, a)) s h P.
Proof.
  intros Ha Ht Hok Herr. unfold check_resource. wp_step. apply wp_in_flight with (held := held); [done|].
  intros s1 h1 Hle Ht1 Hr. wp_step; breflect.
  - apply wp_ret. apply Hok; [done..|lia].
  - wp_step. wp_step. wp_step. apply wp_in_flight with (held := held); [exact Ht1|].
    intros s2 h2 Hle2 Ht2 _. apply wp_raise. apply (Herr s2 h2 (clock_at h1)); [split; lra|done|lia].
Qed.
(** The checks of all resources: each has room at once at their end, or one had none. *)
Lemma wp_checks observed requested s h held (P : res Exc unit -> HubGate -> list Ev -> Prop) :
  Forall (fun ra => 0 < ra.2) requested -> tracks s held (clock_at h) ->
  (forall s' h', (clock_at h <= clock_at h')%Q -> tracks s' held (clock_at h') ->
     spawn_refused s' = spawn_refused s ->
     Forall (fun ra => in_flight ra.1 held (clock_at h') + ra.2 <= dget_or ra.1 0 observed) requested -> P (Ok tt) s' h') ->
  (forall s' h' r a now, (clock_at h <= now <= clock_at h')%Q -> tracks s' held (clock_at h') -> (r, a) ∈ requested ->
     dget_or r 0 observed < in_flight r held now + a -> P (Err (GPUsUnavailable (refusal r))) s' h') ->
  wp (mfor requested (check_resource svc observed)) s h P.
Proof.
  intros Hpos. revert s h P. induction Hpos as [|[r a] rest Ha Hpos IH]; intros s h P Ht Hok Herr; cbn [mfor].
  { apply wp_ret. apply Hok; [apply Qle_refl|done..]. }
  wp_step. apply wp_check with (held := held); [done|done| |].
  - intros s1 h1 Hle Ht1 Hr Hin. apply IH; [done| |].
    + intros s2 h2 Hle2 Ht2 Hr2 Hall. apply Hok; [lra|done|congruence|]. constructor; [|done]. cbn in *.
      pose proof (count_live r _ _ held Hle2). lia.
    + intros s2 h2 r' a' now Hnow Ht2 Hin'. apply (Herr _ _ _ a' now); [lra|done|by right].
  - intros s1 h1 now Hnow Ht1 Hlt. apply (Herr _ _ _ a now); [done|done|by left|done].
Qed.

(** The reservations of a spawn: its own, as many of each resource as it asks for. *)
Definition reserved (owner : string) (requested : list (string * Z)) (gs : list Grant) : Prop :=
  Forall (fun g => g_owner g = owner) gs /\ forall r, count_of r gs = zsum (map (fun ra => if decide (ra.1 = r) then ra.2 else 0) requested).
Lemma wp_reserve_each owner resource n s h (P : res Exc (list Grant) -> HubGate -> list Ev -> Prop) :
  (forall gs h', (clock_at h <= clock_at h')%Q -> Forall (fun g => g_owner g = owner) gs ->
     (forall r, count_of r gs = if decide (resource = r) then Z.of_nat n else 0) -> P (Ok gs) s h') ->
  wp (reserve_each svc owner resource n) s h P.
Proof.
  revert s h P. induction n as [|n IH]; intros s h P HP; cbn [reserve_each].
  { apply wp_ret. apply HP; [apply Qle_refl|constructor|]. intros r. by case_decide. }
  wp_step. apply wp_clock. intros now Hle Hc. wp_step. apply IH. rewrite Hc. intros gs h' Hle' Ho Hcount. apply wp_ret.
  apply HP; [lra|by constructor|]. intros r. change (mkGrant now resource owner :: gs) with ([mkGrant now resource owner] ++ gs).
  rewrite count_app, Hcount. unfold count_of, of_resource. cbn. case_decide as E.
  - subst r. rewrite String.eqb_refl. cbn. lia.
  - apply String.eqb_neq in E. rewrite E. done.
Qed.
Lemma wp_reserve owner requested s h (P : res Exc (list Grant) -> HubGate -> list Ev -> Prop) :
  Forall (fun ra => 0 < ra.2) requested ->
  (forall gs h', (clock_at h <= clock_at h')%Q -> reserved owner requested gs -> P (Ok gs) s h') ->
  wp (reserve svc owner requested) s h P.
Proof.
  intros Hpos. revert s h P. induction Hpos as [|[r a] rest Ha Hpos IH]; intros s h P HP; cbn [reserve].
  { apply wp_ret. apply HP; [apply Qle_refl|]. split; [constructor|done]. }
  wp_step. apply wp_reserve_each. intros gs h1 Hle1 Ho1 Hc1. wp_step. apply IH. intros gs' h2 Hle2 [Ho2 Hc2].
  apply wp_ret. apply HP; [lra|]. split; [by apply Forall_app|]. intros r'. rewrite count_app, Hc1, Hc2. cbn [map fst snd].
  rewrite zsum_cons. cbn in Ha. case_decide; lia.
Qed.
Lemma wanted_none (r : string) (requested : list (string * Z)) : r ∉ requested.*1 ->
  zsum (map (fun ra => if decide (ra.1 = r) then ra.2 else 0) requested) = 0.
Proof.
  induction requested as [|[k n] rest IH]; [done|]. rewrite fmap_cons. intros [Hne Hni]%not_elem_of_cons.
  cbn [map fst snd] in *. rewrite zsum_cons, decide_False by (by apply not_eq_sym). by rewrite IH.
Qed.
Lemma wanted_sum (r : string) (a : Z) requested : NoDup requested.*1 -> (r, a) ∈ requested ->
  zsum (map (fun ra => if decide (ra.1 = r) then ra.2 else 0) requested) = a.
Proof.
  induction requested as [|[r' a'] rest IH]; cbn [map fst snd]; [by intros _ ?%elem_of_nil|].
  rewrite fmap_cons, zsum_cons. cbn [fst]. intros [Hni Hnd]%NoDup_cons [E|Hin]%elem_of_cons.
  - simplify_eq. rewrite decide_True, wanted_none by done. lia.
  - rewrite decide_False, IH; [lia|done|done|]. intros ->. apply Hni. apply list_elem_of_fmap. by exists (r, a).
Qed.

(** ** What a decision does *)

(** Reservations of [gs] that leave every resource asked for within what is observed. *)
Definition fits_observed (observed : FreeGpus) (requested : list (string * Z)) (held gs : list Grant) (T : Q) : Prop :=
  forall r a, (r, a) ∈ requested -> count_of r gs = a /\
    forall now, (T <= now)%Q -> in_flight r (held ++ gs) now <= dget_or r 0 observed.
Lemma live_count r now gs : in_flight r gs now <= count_of r gs.
Proof.
  unfold in_flight, count_of, live. induction gs as [|g gs IH]; cbn; [done|].
  destruct (alive now g); cbn; destruct (of_resource r g); cbn [List.length]; lia.
Qed.
Lemma wp_decide owner requested observed s h held (P : res Exc (list Grant) -> HubGate -> list Ev -> Prop) :
  NoDup requested.*1 -> Forall (fun ra => 0 < ra.2) requested -> tracks s held (clock_at h) ->
  (forall gs s' h', (clock_at h <= clock_at h')%Q -> tracks s' (held ++ gs) (clock_at h') ->
     spawn_refused s' = spawn_refused s -> Forall (fun g => g_owner g = owner) gs ->
     fits_observed observed requested held gs (clock_at h') -> P (Ok gs) s' h') ->
  (forall s' h' r a now, (clock_at h <= now <= clock_at h')%Q -> tracks s' held (clock_at h') -> (r, a) ∈ requested ->
     dget_or r 0 observed < in_flight r held now + a -> P (Err (GPUsUnavailable (refusal r))) s' h') ->
  wp (decide_spawn svc owner requested observed) s h P.
Proof.
  intros Hnd Hpos Ht Hok Herr. unfold decide_spawn. wp_step. apply wp_checks with (held := held); [done|done| |].
  2:{ intros s' h' r a now ? ? ? ?. by apply (Herr s' h' r a now). }
  intros s1 h1 Hle1 Ht1 Hr1 Hall. wp_step. apply wp_reserve; [done|]. intros gs h2 Hle2 [Ho Hc]. repeat wp_step.
  apply Hok; [lra| |done|done|].
  - intros now Hn. change (live now (recent_grants s1 ++ gs) = live now (held ++ gs)).
    rewrite !live_app, Ht1; [done|lra].
  - intros r a Hin. rewrite Hc, (wanted_sum r a) by done. split; [done|]. intros now Hn.
    rewrite Forall_forall in Hall. specialize (Hall _ Hin). cbn in Hall. unfold in_flight at 1.
    rewrite live_app, count_app. fold (in_flight r held now) (in_flight r gs now).
    pose proof (live_count r now gs) as Hg. rewrite Hc, (wanted_sum r a) in Hg by done.
    assert (Hle : (clock_at h1 <= now)%Q) by lra. pose proof (count_live r _ _ held Hle). lia.
Qed.

(** What a pod asks for: each resource once, and some of it. *)
Lemma request_step_ok acc limit acc' : request_step acc limit = Some acc' ->
  NoDup acc.2.*1 /\ Forall (fun ra => 0 < ra.2) acc.2 -> NoDup acc'.2.*1 /\ Forall (fun ra => 0 < ra.2) acc'.2.
Proof.
  destruct acc as [any requested], limit as [r j]. unfold request_step. intros E [Hnd Hpos].
  destruct (if startswith _ _ then _ else _) as [any'|]; [|done]. cbn in E.
  destruct (is_flavor r); [|by simplify_eq]. destruct (int_of j) as [n|]; [|done]. cbn in E.
  simplify_eq. destruct (0 <? n) eqn:En; [|done]. cbn [snd]. breflect. split; [by apply dset_keys|].
  apply Forall_forall. intros [k v] Hin. cbn. rewrite Forall_forall in Hpos. destruct (decide (k = r)) as [->|Hne].
  - apply (elem_dget _ _ _ (dset_keys _ _ _ Hnd)) in Hin. rewrite dget_dset in Hin. simplify_eq.
    unfold dget_or. destruct (dget r requested) as [x|] eqn:Ex; cbn; [|lia]. apply dget_elem, Hpos in Ex. cbn in Ex. lia.
  - apply dset_elem_ne in Hin; [|done]. by apply Hpos in Hin.
Qed.
Lemma requests_of_ok pod any requested : requests_of pod = Some (any, requested) ->
  NoDup requested.*1 /\ Forall (fun ra => 0 < ra.2) requested.
Proof.
  unfold requests_of. intros H. change requested with ((any, requested).2).
  assert (H0 : NoDup (false, @nil (string * Z)).2.*1 /\ Forall (fun ra => 0 < ra.2) (false, @nil (string * Z)).2) by (split; constructor).
  revert H H0. generalize (false, @nil (string * Z)), (any, requested). induction (flat_map _ _) as [|l ls IH]; intros acc acc' H H0.
  - by injection H as <-.
  - apply ofold_cons in H as (acc1 & H1 & H). apply (IH acc1); [done|]. by apply (request_step_ok _ _ _ H1).
Qed.

(** ** Any interleaving *)

(** A hook that gave up its spawner's earlier reservations and waits for Prometheus: when it
    began, what its pod asks for, and the answers it has to its own two queries. *)
Record Waiting := mkWaiting {
  w_owner : string; w_requested : list (string * Z); w_began : Q;
  w_allocatable : option (option json); w_used : option (option json) }.
(** What a hook does once both answers are there, without an await. *)
Definition hook_decides (owner : string) (requested : list (string * Z)) (began : Q) (allocatable used : option json) : HM (list Grant) :=
  free ← free_from (allocatable ≫= samples_of) (used ≫= samples_of);
  mmod (fun s => s <| cache_free := free |> <| cache_expires := (began + CACHE_TTL)%Q |>) ≫= fun _ =>
  match free with None => mret [] | Some observed => decide_spawn svc owner requested observed end.
(** The whole hook, of a pod that asks for GPUs that are known, is these steps. *)
Lemma hook_in_steps user server pod requested s h : requests_of pod = Some (true, requested) -> requested <> [] ->
  let owner := spawner_key user server in
  refuse_gpu_spawn_if_unavailable svc user server pod s h =
  (mmod (release_grants owner) ≫= fun _ => began ← monotonic svc;
   a ← (mcall svc (PromQuery ALLOC_QUERY) : HM (option json)); u ← (mcall svc (PromQuery USED_QUERY) : HM (option json));
   hook_decides owner requested began a u ≫= fun _ => mret pod) s h.
Proof.
  intros Hr Hne owner. unfold refuse_gpu_spawn_if_unavailable. rewrite Hr. destruct requested as [|ra rest]; [done|]. fold owner.
  unfold hook_decides, observed_free_gpus, get_free_gpus, prom_query, monotonic, mbind, m_bind, or_raise, mret, m_ret, mmod, mget, mcall. cbn [negb orb].
  destruct (free_from _ _ _ _) as [[[[o|]|e] s1] h1]; [|done|done].
  by destruct (decide_spawn _ _ _ _ _ _) as [[[gs|e] s2] h2].
Qed.

(** The gate's state, the reservations made and not given up, the hooks that wait, and the
    events so far: hooks begin, are answered and decide, servers stop, forms count and
    are answered, in any order. *)
Inductive gpath : HubGate -> list Grant -> list Waiting -> list Ev -> Prop :=
| path_start h : gpath gate0 [] [] h
| path_stop owner s held ws h : gpath s held ws h -> gpath (release_grants owner s) (without owner held) ws h
| path_begin owner pod requested began s held ws h : gpath s held ws h -> requests_of pod = Some (true, requested) ->
    gpath (release_grants owner s) (without owner held) (mkWaiting owner requested began None None :: ws) h
| path_allocatable owner requested began used s held ws1 ws2 h :
    gpath s held (ws1 ++ mkWaiting owner requested began None used :: ws2) h ->
    gpath s held (ws1 ++ mkWaiting owner requested began (Some (svc h (PromQuery ALLOC_QUERY))) used :: ws2)
      (h ++ [existT (PromQuery ALLOC_QUERY) (svc h (PromQuery ALLOC_QUERY))])
| path_used owner requested began allocatable s held ws1 ws2 h :
    gpath s held (ws1 ++ mkWaiting owner requested began allocatable None :: ws2) h ->
    gpath s held (ws1 ++ mkWaiting owner requested began allocatable (Some (svc h (PromQuery USED_QUERY))) :: ws2)
      (h ++ [existT (PromQuery USED_QUERY) (svc h (PromQuery USED_QUERY))])
| path_decide owner requested began a u s held ws1 ws2 h r s' h' :
    gpath s held (ws1 ++ mkWaiting owner requested began (Some a) (Some u) :: ws2) h ->
    hook_decides owner requested began a u s h = (r, s', h') ->
    gpath s' (held ++ match r with Ok gs => gs | Err _ => [] end) (ws1 ++ ws2) h'
| path_count resource s held ws h r s' h' :
    gpath s held ws h -> grants_in_flight svc resource s h = (r, s', h') -> gpath s' held ws h'
| path_clock s held ws h : gpath s held ws h -> gpath s held ws (h ++ [existT Monotonic (svc h Monotonic)])
| path_answer query s held ws h :
    gpath s held ws h -> gpath s held ws (h ++ [existT (PromQuery query) (svc h (PromQuery query))])
| path_cache free expires s held ws h :
    gpath s held ws h -> gpath (s <| cache_free := free |> <| cache_expires := expires |>) held ws h.

(** What a hook waits with is some pod's request. *)
Definition asks_some (w : Waiting) : Prop := NoDup (w_requested w).*1 /\ Forall (fun ra => 0 < ra.2) (w_requested w).
Lemma gpath_asks s held ws h : gpath s held ws h -> Forall asks_some ws.
Proof.
  induction 1 as [h| |owner pod requested began s held ws h _ IH Hreq| | |owner requested began a u s held ws1 ws2 h r s' h' _ IH E| | | |];
    [constructor|done| | | | |done..].
  - constructor; [|done]. by apply requests_of_ok in Hreq.
  - apply Forall_app in IHgpath as [H1 [H2 H3]%Forall_cons]. apply Forall_app. split; [done|]. by constructor.
  - apply Forall_app in IHgpath as [H1 [H2 H3]%Forall_cons]. apply Forall_app. split; [done|]. by constructor.
  - apply Forall_app in IH as [H1 [H2 H3]%Forall_cons]. by apply Forall_app.
Qed.
(** How a decision ends, by what the answers show. *)
Lemma wp_hook_decides owner requested began a u s h held (P : res Exc (list Grant) -> HubGate -> list Ev -> Prop) :
  NoDup requested.*1 -> Forall (fun ra => 0 < ra.2) requested -> tracks s held (clock_at h) ->
  (forall s', tracks s' held (clock_at h) -> match (free_from (a ≫= samples_of) (u ≫= samples_of) s h).1.1 with
     | Ok (Some _) => True | Ok None => P (Ok []) s' h | Err e => P (Err e) s' h end) ->
  (forall observed gs s' h', (free_from (a ≫= samples_of) (u ≫= samples_of) s h).1.1 = Ok (Some observed) ->
     (clock_at h <= clock_at h')%Q -> tracks s' (held ++ gs) (clock_at h') -> Forall (fun g => g_owner g = owner) gs ->
     fits_observed observed requested held gs (clock_at h') -> P (Ok gs) s' h') ->
  (forall observed s' h' r n now, (free_from (a ≫= samples_of) (u ≫= samples_of) s h).1.1 = Ok (Some observed) ->
     (clock_at h <= now <= clock_at h')%Q -> tracks s' held (clock_at h') -> (r, n) ∈ requested ->
     dget_or r 0 observed < in_flight r held now + n -> P (Err (GPUsUnavailable (refusal r))) s' h') ->
  wp (hook_decides owner requested began a u) s h P.
Proof.
  intros Hnd Hpos Ht Hnone Hok Herr. unfold hook_decides. wp_step.
  assert (Hpure : exists r, free_from (a ≫= samples_of) (u ≫= samples_of) s h = (r, s, h)).
  { unfold free_from, or_raise. destruct (a ≫= samples_of) as [[|]|]; [by eexists| |by eexists].
    destruct (u ≫= samples_of); [|by eexists]. unfold mbind, m_bind. destruct (mapM _ _); by eexists. }
  destruct Hpure as [r E]. unfold wp at 1. rewrite E in Hnone, Hok, Herr |- *. cbn [fst] in *.
  destruct r as [[observed|]|e]; [|wp_step; wp_step; wp_step; by apply (Hnone (s <| cache_free := None |> <| cache_expires := (began + CACHE_TTL)%Q |>))|by apply Hnone].
  wp_step. wp_step. apply wp_decide with (held := held); [done|done|exact Ht| |].
  - intros gs s' h' Hle Ht' _. by eapply Hok.
  - intros s' h' r n now. by eapply Herr.
Qed.
Lemma gpath_tracks s held ws h : gpath s held ws h -> tracks s held (clock_at h).
Proof.
  assert (Hq : forall query h, clock_at (h ++ [existT (PromQuery query) (svc h (PromQuery query))]) = clock_at h).
  { intros query h0. unfold clock_at. by rewrite foldl_app. }
  induction 1 as [h|owner s held ws h _ IH|owner pod requested began s held ws h _ IH _|owner requested began used s held ws1 ws2 h _ IH
    |owner requested began a s held ws1 ws2 h _ IH|owner requested began a u s held ws1 ws2 h r s' h' Hp IH E
    |resource s held ws h r s' h' _ IH E|s held ws h _ IH|query s held ws h _ IH|free expires s held ws h _ IH]; rewrite ?Hq; try done.
  - by apply tracks_release.
  - by apply tracks_release.
  - apply gpath_asks, Forall_app in Hp as [_ [[Hnd Hpos] _]%Forall_cons].
    enough (H : wp (hook_decides owner requested began a u) s h (fun r s' h' =>
      tracks s' (held ++ match r with Ok gs => gs | Err _ => [] end) (clock_at h'))).
    { unfold wp in H. by rewrite E in H. }
    apply wp_hook_decides with (held := held); [done..| | |]; intros; rewrite ?app_nil_r; try done.
    destruct (free_from _ _ _ _).1.1 as [[|]|]; rewrite ?app_nil_r; done.
  - enough (H : wp (grants_in_flight svc resource) s h (fun _ s' h' => tracks s' held (clock_at h'))).
    { unfold wp in H. by rewrite E in H. }
    by apply wp_in_flight with (held := held).
  - rewrite clock_read. by apply (tracks_later _ _ (clock_at h)).
Qed.

(** What the answers to a hook's queries show to be free: as many of each resource as are
    allocatable and not used, [None] where an answer is missing or shows no GPU at all. *)
Definition shows_free (a u : option json) (o : option FreeGpus) : Prop :=
  match a ≫= samples_of, u ≫= samples_of with
  | Some (x :: xs), Some used =>
      exists free, mapM (free_of (x :: xs) used) GPU_METRICS = Some free /\ o = Some free
  | _, _ => o = None
  end.
Lemma free_cases a u s h : match (free_from (a ≫= samples_of) (u ≫= samples_of) s h).1.1 with
  | Ok o => shows_free a u o
  | Err e => e = BadValue /\ forall o, ~ shows_free a u o
  end.
Proof.
  unfold free_from, shows_free, or_raise. destruct (a ≫= samples_of) as [[|x xs]|]; [done| |done].
  destruct (u ≫= samples_of) as [used|]; [|done]. unfold mbind, m_bind. destruct (mapM _ _) as [free|]; [by exists free|].
  split; [done|]. by intros o (free & [=] & _).
Qed.
Lemma free_shown a u s h o : (free_from (a ≫= samples_of) (u ≫= samples_of) s h).1.1 = Ok o -> shows_free a u o.
Proof. intros E. pose proof (free_cases a u s h) as H. by rewrite E in H. Qed.

(** C39: spawns fit in what is observed. However hooks, forms and stopped sessions
    interleave, a hook that has the answers to its own two queries lets its spawn in only
    if, of every resource that the pod asks for, what was reserved in the last [GRANT_TTL]
    and not given up, with its own part, is at most what these answers show to be free, and
    stays so; it is reserved under its own name, as many as it asks for. It refuses only if
    some resource had no room, or an answer could not be read, and then nothing is
    reserved. Where an answer is missing, or shows no GPU at all, the spawn is let in, with
    nothing reserved. *)
Theorem spawns_within_observed owner requested began a u s held ws1 ws2 h :
  gpath s held (ws1 ++ mkWaiting owner requested began (Some a) (Some u) :: ws2) h ->
  wp (hook_decides owner requested began a u) s h (fun r s' h' =>
    gpath s' (held ++ match r with Ok gs => gs | Err _ => [] end) (ws1 ++ ws2) h' /\
    match r with
    | Ok gs => shows_free a u None /\ gs = [] \/
        exists observed, shows_free a u (Some observed) /\ Forall (fun g => g_owner g = owner) gs /\
          fits_observed observed requested held gs (clock_at h')
    | Err (GPUsUnavailable text) => exists observed r n now, shows_free a u (Some observed) /\ (r, n) ∈ requested /\ text = refusal r /\
        (clock_at h <= now <= clock_at h')%Q /\ dget_or r 0 observed < in_flight r held now + n
    | Err _ => forall o, ~ shows_free a u o
    end).
Proof.
  intros Hp. pose proof (gpath_tracks _ _ _ _ Hp) as Ht.
  pose proof (gpath_asks _ _ _ _ Hp) as [_ [[Hnd Hpos] _]%Forall_cons]%Forall_app. cbn [w_requested] in *.
  match goal with |- wp ?c ?s ?h (fun r s' h' => _ /\ @?Q r s' h') => assert (H : wp c s h Q) end.
  { apply wp_hook_decides with (held := held); [done..| | |].
    - intros s' _. pose proof (free_cases a u s h) as Hs. destruct (free_from _ _ _ _).1.1 as [[free|]|e]; [done|by left|].
      destruct Hs as [-> Hs]. exact Hs.
    - intros observed gs s' h' Hf%free_shown _ _ Ho Hfit. right. by exists observed.
    - intros observed s' h' r n now Hf%free_shown Hnow _ Hin Hlt. by exists observed, r, n, now. }
  unfold wp in *. destruct (hook_decides _ _ _ _ _ _ _) as [[r s'] h'] eqn:E. split; [|done].
  eapply path_decide; [exact Hp|exact E].
Qed.
End Clock.

(** A pod that asks for no GPU sees none of the node's: the hook, which then asks for
    nothing and changes nothing, hides them from each container that does not say what
    it sees. *)
Lemma no_gpu_hidden svc user server pod requested s h :
  requests_of pod = Some (false, requested) ->
  refuse_gpu_spawn_if_unavailable svc user server pod s h = (Ok (hide_gpus_from_pod pod), s, h) /\
  Forall2 (fun c c' => c_limits c' = c_limits c /\ existsb (fun e => String.eqb e.1 VISIBLE) (c_env c') = true /\
    exists added, c_env c' = c_env c ++ added /\ (added = [] \/ added = [(VISIBLE, "void"%string)])) pod (hide_gpus_from_pod pod).
Proof.
  intros Hr. split; [unfold refuse_gpu_spawn_if_unavailable; by rewrite Hr|].
  clear Hr. induction pod as [|c pod IH]; cbn; constructor; [|exact IH].
  unfold hide_gpus. destruct (existsb _ _) eqn:E.
  - split; [done|]. split; [done|]. exists []. rewrite app_nil_r. auto.
  - cbn. split; [done|]. split; [by rewrite existsb_app, E|]. eexists. auto.
Qed.

(** A clock that stands still, and one T4 that is observed free: alice's spawn is let in,
    and then bob's, whose hook began before, is not. *)
Definition sample (resource value : string) : json :=
  JObj [("metric", JObj [("resource", JStr resource)]); ("value", JArr [JInt 0; JStr value])]%string.
Definition payload (l : list json) : json := JObj [("data", JObj [("result", JArr l)])]%string.
Definition one_t4 : option json := Some (payload [sample "nvidia_com_gpu" "1"]).
Definition still : service Req Ans := fun h r =>
  match r return Ans r with
  | Monotonic => clock_at h
  | PromQuery q => if String.eqb q ALLOC_QUERY then one_t4 else Some (payload [])
  end.
Definition t4_pod : list Container := [mkContainer [("cpu", JStr "4"); ("nvidia.com/gpu", JStr "1")]%string []].
Definition alice : Grant := mkGrant 0 "nvidia.com/gpu" "alice/".
Definition asked_t4 : list (string * Z) := [("nvidia.com/gpu", 1)]%string.
Definition both : list Ev := [existT (PromQuery ALLOC_QUERY) one_t4; existT (PromQuery USED_QUERY) (Some (payload []))].
Definition alice_let_in := hook_decides still "alice/" asked_t4 0 one_t4 (Some (payload [])) gate0 (both ++ both).
Definition bob_after := hook_decides still "bob/" asked_t4 0 one_t4 (Some (payload [])) alice_let_in.1.2 alice_let_in.2.
Definition answered (owner : string) : Waiting := mkWaiting owner asked_t4 0 (Some one_t4) (Some (Some (payload []))).
Lemma both_wait : gpath still gate0 [] [answered "bob/"; answered "alice/"] (both ++ both).
Proof.
  refine (path_used still "alice/" asked_t4 0 (Some one_t4) gate0 [] [answered "bob/"] [] (both ++ [existT (PromQuery ALLOC_QUERY) one_t4]) _).
  refine (path_allocatable still "alice/" asked_t4 0 None gate0 [] [answered "bob/"] [] both _).
  refine (path_used still "bob/" asked_t4 0 (Some one_t4) gate0 [] [] [mkWaiting "alice/" asked_t4 0 None None] [existT (PromQuery ALLOC_QUERY) one_t4] _).
  refine (path_allocatable still "bob/" asked_t4 0 None gate0 [] [] [mkWaiting "alice/" asked_t4 0 None None] [] _).
  refine (path_begin still "bob/" t4_pod asked_t4 0 gate0 [] [mkWaiting "alice/" asked_t4 0 None None] [] _ _); [|vm_compute; reflexivity].
  refine (path_begin still "alice/" t4_pod asked_t4 0 gate0 [] [] [] (path_start still []) _). vm_compute. reflexivity.
Qed.
Lemma spawns_within_observed_witness :
  alice_let_in.1.1 = Ok [alice] /\ bob_after.1.1 = Err (GPUsUnavailable (refusal "nvidia.com/gpu")) /\
  gpath still bob_after.1.2 ([alice] ++ match bob_after.1.1 with Ok gs => gs | Err _ => [] end) [] bob_after.2.
Proof.
  split; [vm_compute; reflexivity|]. split; [vm_compute; reflexivity|].
  assert (Hp : gpath still alice_let_in.1.2 ([] ++ [alice]) ([answered "bob/"] ++ []) alice_let_in.2).
  { refine (path_decide still "alice/" asked_t4 0 one_t4 (Some (payload [])) gate0 [] [answered "bob/"] [] (both ++ both) (Ok [alice]) _ _ both_wait _).
    vm_compute. reflexivity. }
  pose proof (wp_run _ _ _ _ (spawns_within_observed still (fun h => Qle_refl _) "bob/" asked_t4 0 one_t4 (Some (payload [])) _ _ [] [] _ Hp)) as [H _].
  exact H.
Defined.
