(* ===== verification/HubCull.v ===== *)
(** The Hub's service that stops idle sessions with a GPU,
    [apps/jupyterhub/jupyterhub/extraFiles/cull-gpu-sessions.py]. *)
From S2P Require Import Prelude PyJson PyText PyTime PyValue.
Open Scope Z_scope.

Definition POD_SELECTOR : string := "username_unescaped".

(** A pod, as far as it is read; the limits of each container. *)
Record Pod := mkPod { p_phase : string; p_limits : list (list (string * json)); p_annotations : list (string * string) }.
Inductive Exc := Raised.
Inductive Req :=
| ListPods (namespace selector : string)
| HubApi (method path : string)
| UtcNow
| Sleep (seconds : Q)
| ReadSource.
(** [None] where the call raises; [JNull] is an answer without a body. *)
Definition Ans (r : Req) : Type :=
  match r with
  | ListPods _ _ => option (list Pod)
  | HubApi _ _ => option json
  | UtcNow => Q
  | Sleep _ => unit
  | ReadSource => option string
  end.
Definition Ev : Type := sigT Ans.
Definition CM (A : Type) : Type := M Ev unit Exc A.

(** [None] where an amount is no number: the first that is positive ends the loop. *)
Fixpoint limits_gpu (limits : list (string * json)) : option bool :=
  match limits with
  | [] => Some false
  | (resource, amount) :: rest =>
      if startswith "nvidia.com/" resource then
        n ← int_of amount; if 0 <? n then Some true else limits_gpu rest
      else limits_gpu rest
  end.
Definition pod_holds_gpu (pod : Pod) : option bool := limits_gpu (concat (p_limits pod)).
Definition pod_server (pod : Pod) : option string * string :=
  (dget "hub.jupyter.org/username" (p_annotations pod), dget_or "hub.jupyter.org/servername" "" (p_annotations pod)).
(** The servers of the running pods that hold a GPU. *)
Definition pod_step (servers : list (string * string)) (pod : Pod) : option (list (string * string)) :=
  if negb (String.eqb (p_phase pod) "Running") then Some servers else
  holds ← pod_holds_gpu pod;
  match pod_server pod with
  | (Some username, servername) => Some (if holds : bool then servers ++ [(username, servername)] else servers)
  | (None, _) => Some servers
  end.
Definition servers_of (pods : list Pod) : option (list (string * string)) := ofold pod_step [] pods.

(** [None] where it raises: the instant is no text, not of the form, or without an offset. *)
Definition idle_seconds (server : json) (now : Q) : option Q :=
  let timestamp := j_or (jget "last_activity" server) (jget "started" server) in
  if negb (truthy timestamp) then Some 0%Q else
  match timestamp with
  | JStr text =>
      match fromisoformat (str_replace "Z" "+00:00" text) with
      | Some (last, true) => Some (now - last)%Q
      | _ => None
      end
  | _ => None
  end.
Definition user_path (username : string) : string := "/users/" ++ quote "~" username.
Definition server_path (username servername : string) : string :=
  user_path username ++ (if String.eqb servername "" then "/server" else "/servers/" ++ quote "~" servername).
(** Whether a user's model says that the server is due to stop; [None] where that raises. *)
Definition due (servername : string) (now timeout : Q) (user : json) : option bool :=
  guard (is_obj user = true);;
  let servers := j_or (jget "servers" user) (JObj []) in
  guard (is_obj servers = true);;
  match jget servername servers with
  | JNull => Some false
  | server =>
      guard (is_obj server = true);;
      if truthy (jget "pending" server) then Some false else
      idle ← idle_seconds server now; Some (timeout <=?q idle)
  end.

Section Cull.
Context (svc : service Req Ans).

Definition or_raised {A} (a : option A) : CM A := match a with Some a => mret a | None => raise Raised end.
Definition gpu_servers (namespace : string) : CM (list (string * string)) :=
  pods ← (mcall svc (ListPods namespace POD_SELECTOR) : CM (option (list Pod)));
  pods ← or_raised pods; or_raised (servers_of pods).
Definition hub_api (method path : string) : CM json :=
  a ← (mcall svc (HubApi method path) : CM (option json)); or_raised a.
Definition cull_server (username servername : string) (now timeout : Q) : CM unit :=
  user ← hub_api "GET" (user_path username);
  stop ← or_raised (due servername now timeout user);
  if stop : bool then hub_api "DELETE" (server_path username servername) ≫= fun _ => mret tt else mret tt.
Definition cull_once (namespace : string) (timeout : Q) : CM unit :=
  now ← (mcall svc UtcNow : CM Q);
  servers ← gpu_servers namespace;
  mfor servers (fun us => mcatch (cull_server us.1 us.2 now timeout) (fun _ => mret tt)).
Definition read_source : CM string := a ← (mcall svc ReadSource : CM (option string)); or_raised a.
(** [passes] of the loop; [true] once the source has changed. *)
Fixpoint cull_loop (passes : nat) (namespace : string) (timeout every : Q) (running : string) : CM bool :=
  match passes with
  | O => mret false
  | S passes =>
      mcatch (cull_once namespace timeout) (fun _ => mret tt) ≫= fun _ =>
      (mcall svc (Sleep every) : CM unit) ≫= fun _ =>
      source ← read_source;
      if String.eqb source running then cull_loop passes namespace timeout every running else mret true
  end.
Definition main (passes : nat) (namespace : string) (timeout every : Q) : CM bool :=
  running ← read_source; cull_loop passes namespace timeout every running.
End Cull.

(** ** A pass *)

(** The events of one server: it is asked for, and stopped if it is due. *)
Inductive visit (now timeout : Q) (us : string * string) : list Ev -> Prop :=
| spared a : a ≫= due us.2 now timeout <> Some true -> visit now timeout us [existT (HubApi "GET" (user_path us.1)) a]
| stopped user b : due us.2 now timeout user = Some true ->
    visit now timeout us [existT (HubApi "GET" (user_path us.1)) (Some user); existT (HubApi "DELETE" (server_path us.1 us.2)) b].

Lemma wp_cull_server svc us now timeout s h (P : res Exc unit -> unit -> list Ev -> Prop) :
  (forall t, visit now timeout us t -> P (Ok tt) s (h ++ t)) ->
  wp (mcatch (cull_server svc us.1 us.2 now timeout) (fun _ => mret tt)) s h P.
Proof.
  intros HP. unfold cull_server, hub_api. wp_step. wp_step. wp_step. wp_step. destruct (svc h _) as [user|] eqn:E; cbn [or_raised].
  2:{ apply wp_raise, wp_ret, HP. by apply spared. }
  apply wp_ret. wp_step. destruct (due us.2 now timeout user) as [[]|] eqn:Ed; cbn [or_raised].
  - apply wp_ret. wp_step. wp_step. wp_step. rewrite <- app_assoc. cbn [app].
    destruct (svc (h ++ _) _) as [b|]; cbn [or_raised].
    + apply wp_ret. apply wp_ret. apply HP. by apply stopped.
    + apply wp_raise. apply wp_ret. apply HP. by apply stopped.
  - apply wp_ret. apply wp_ret. apply HP. apply spared. cbn. congruence.
  - apply wp_raise. apply wp_ret. apply HP. apply spared. cbn. congruence.
Qed.
Lemma wp_visits svc servers now timeout s h (P : res Exc unit -> unit -> list Ev -> Prop) :
  (forall tss, Forall2 (visit now timeout) servers tss -> P (Ok tt) s (h ++ concat tss)) ->
  wp (mfor servers (fun us => mcatch (cull_server svc us.1 us.2 now timeout) (fun _ => mret tt))) s h P.
Proof.
  revert s h P. induction servers as [|us servers IH]; intros s h P HP; cbn [mfor].
  - apply wp_ret. specialize (HP [] ltac:(constructor)). cbn in HP. by rewrite app_nil_r in HP.
  - wp_step. apply wp_cull_server. intros t Ht. apply IH. intros tss Htss. rewrite <- app_assoc.
    apply (HP (t :: tss)). by constructor.
Qed.

(** One pass stops exactly the sessions that are due. A pass lists the pods once;
    then each server of a running pod that holds a GPU is asked for, in turn and
    whatever the Hub answered for the others, and stopped just when the Hub's answer
    says that it is there, not pending, and without activity for [timeout]; of the Hub
    nothing else is asked. A pass fails only where the pods cannot be listed or a limit
    is no number. *)
Theorem cull_pass_exact svc namespace timeout s h :
  wp (cull_once svc namespace timeout) s h (fun r s' h' =>
    exists now pods t, h' = h ++ [existT UtcNow now; existT (ListPods namespace POD_SELECTOR) pods] ++ t /\
    match pods ≫= servers_of with
    | Some servers => r = Ok tt /\ exists tss, Forall2 (visit now timeout) servers tss /\ t = concat tss
    | None => r = Err Raised /\ t = []
    end).
Proof.
  unfold cull_once, gpu_servers. do 5 wp_step. generalize (svc h UtcNow). intros now. wp_step.
  destruct (svc (h ++ [existT UtcNow now]) (ListPods namespace POD_SELECTOR)) as [pods|]; cbn [or_raised].
  2:{ apply wp_raise. exists now, None, []. split; [by rewrite <- app_assoc|done]. }
  apply wp_ret. destruct (servers_of pods) as [servers|] eqn:Es; cbn [or_raised].
  2:{ apply wp_raise. exists now, (Some pods), []. split; [by rewrite <- app_assoc|]. cbn. by rewrite Es. }
  apply wp_ret. apply wp_visits. intros tss Htss. exists now, (Some pods), (concat tss).
  split; [by rewrite <- !app_assoc|]. cbn. rewrite Es. split; [done|]. by exists tss.
Qed.

(** The path of a request to stop names one server of one user. *)
Lemma server_path_inj u v s t : server_path u s = server_path v t -> u = v /\ s = t.
Proof.
  unfold server_path, user_path. rewrite !str_app_assoc. intros H. apply str_app_inv_head in H.
  set (rest := fun s => if String.eqb s "" then "server"%string else ("servers/" ++ quote "~" s)%string).
  assert (Hr : forall s, (if String.eqb s "" then "/server" else "/servers/" ++ quote "~" s)%string = String "/" (rest s)).
  { intros x. unfold rest. by destruct (String.eqb x ""). }
  rewrite !Hr in H. apply first_slash_inj in H as [Hu Hs]; [|apply quote_no_slash..]. split; [by apply quote_inj|].
  unfold rest in Hs. destruct (String.eqb_spec s ""), (String.eqb_spec t ""); [by subst|done..|].
  apply str_app_inv_head in Hs. by apply quote_inj.
Qed.
