(* ===== verification/HubUsers.v ===== *)
(** Who a user of the Hub is, [apps/jupyterhub/jupyterhub/extraFiles/custom-spawner.py]
    and [set-user-info.py], what a spawn is asked for, and the activity of the sessions,
    [session-activity.py]. *)
From S2P Require Import Prelude PyJson PyText PyTime PyValue.
Open Scope Z_scope.

(** What a function raises: [web.HTTPError], or another exception. *)
Inductive Exc := HTTPError (status : Z) (message : string) | Raised.

(** ** The name of a user *)
Module Login.
Definition SUFFIXES : list (string * string) := [("purdue.edu", ""); ("cern.ch", "-cern"); ("fnal.gov", "-fnal")]%string.
(** The path of a list, and the message of a denial. *)
Definition USERLISTS : list (string * (string * (string -> string))) :=
  [("purdue.edu", ("/etc/secrets/af-auth-purdue/userlist",
     fun username => ("Access denied! User " ++ username ++ " is not in the list of authorized users.")%string));
   ("cern.ch", ("/etc/secrets/af-auth-cern/userlist",
     fun _ => "Access denied! Only CMS members are allowed to log in with CERN credentials."))]%string.
(** [readlines] of a text as it is read: each line with its end. *)
Fixpoint readlines_from (line : string) (s : string) : list string :=
  match s with
  | EmptyString => if String.eqb line "" then [] else [line]
  | String c s =>
      if Ascii.eqb c "010" then (line ++ String "010" "")%string :: readlines_from "" s
      else readlines_from (line ++ String c "")%string s
  end.
Definition readlines (s : string) : list string := readlines_from "" s.

(** [super().user_info_to_username] is CILogon's, and gives the [eppn]; a list is read by
    its path, and [None] is a file that is not there. *)
Definition _af_identity (eppn : res Exc string) : res Exc (string * string) :=
  match eppn with
  | Err e => Err e
  | Ok eppn =>
      let '(username, rest) := str_partition "@" eppn in
      let domain := default "" rest in
      if negb (dhas domain SUFFIXES) then Err (HTTPError 403 "Failed to get username from CILogon") else Ok (username, domain)
  end.
Definition user_info_to_username (open : string -> option string) (eppn : res Exc string) : res Exc string :=
  match _af_identity eppn with
  | Err e => Err e
  | Ok (username, domain) =>
      let name := Ok (username ++ dget_or domain "" SUFFIXES)%string in
      match dget domain USERLISTS with
      | None => name
      | Some (path, message) =>
          match open path with
          | None => Err Raised
          | Some text => if negb (existsb (String.eqb (username ++ String "010" "")) (readlines text)) then Err (HTTPError 403 (message username)) else name
          end
      end
  end.
(** [built] is what CILogon's own [build_auth_state_dict] gives, and [normalize_username]
    is the Hub's. *)
Definition build_auth_state_dict (normalize_username : string -> string) (built : res Exc (list (string * json))) (eppn : res Exc string) : res Exc (list (string * json)) :=
  match built with
  | Err e => Err e
  | Ok auth_state =>
      match _af_identity eppn with
      | Err e => Err e
      | Ok (username, domain) =>
          Ok (dset "domain" (JStr domain) (dset "name" (JStr (normalize_username (username ++ dget_or domain "" SUFFIXES)%string)) auth_state))
      end
  end.
Definition lists (path : string) : option string :=
  match path with
  | "/etc/secrets/af-auth-purdue/userlist" => Some ("ada" ++ String "010" ("grace" ++ String "010" "last"))%string
  | "/etc/secrets/af-auth-cern/userlist" => Some ("ada" ++ String "010" "")%string
  | _ => None
  end%string.
Example logins :
  map (user_info_to_username lists) [Ok "ada@purdue.edu"; Ok "ada@cern.ch"; Ok "eve@fnal.gov"; Ok "grace@cern.ch"; Ok "last@purdue.edu"; Ok "ada@mit.edu"; Ok "a@b@cern.ch"]%string
  = [Ok "ada"; Ok "ada-cern"; Ok "eve-fnal"; Err (HTTPError 403 "Access denied! Only CMS members are allowed to log in with CERN credentials.");
     Err (HTTPError 403 "Access denied! User last is not in the list of authorized users."); Err (HTTPError 403 "Failed to get username from CILogon");
     Err (HTTPError 403 "Failed to get username from CILogon")]%string.
Proof. reflexivity. Qed.

(** *** Lemmas *)
Lemma partition_spec c s l r : str_partition c s = (l, r) -> str_existsb (Ascii.eqb c) l = false /\
  s = (l ++ match r with None => "" | Some r => String c r end)%string.
Proof.
  revert l r. induction s as [|a s IH]; intros l r; [intros [= <- <-]; done|]. cbn.
  destruct (Ascii.eqb_spec a c) as [->|Hne]; [intros [= <- <-]; done|].
  destruct (str_partition c s) as [l' r'] eqn:E. intros [= <- <-]. destruct (IH _ _ eq_refl) as [H1 H2]. split.
  - cbn. destruct (Ascii.eqb_spec c a) as [->|]; [done|]. exact H1.
  - by rewrite H2 at 1.
Qed.
Lemma suffix_domain domain : dhas domain SUFFIXES = true -> domain ∈ ["purdue.edu"; "cern.ch"; "fnal.gov"]%string.
Proof.
  unfold dhas, SUFFIXES. cbn [dget]. repeat (case_decide; [subst; set_solver|]). done.
Qed.
Definition eppn_of (identity : string * string) : string := (identity.1 ++ String "@" identity.2)%string.
Lemma identity_spec eppn username domain : _af_identity (Ok eppn) = Ok (username, domain) ->
  eppn = eppn_of (username, domain) /\ str_existsb (Ascii.eqb "@") username = false /\
  domain ∈ ["purdue.edu"; "cern.ch"; "fnal.gov"]%string.
Proof.
  unfold _af_identity. destruct (str_partition "@" eppn) as [l r] eqn:E.
  destruct (dhas _ _) eqn:Hd; [|done]. cbn [negb]. intros [= <- <-].
  apply partition_spec in E as [Hl Hs]. apply suffix_domain in Hd. split; [|done].
  destruct r as [r|]; [exact Hs|]. exfalso. cbn [default from_option] in Hd. unfold id in Hd. set_solver.
Qed.
Lemma in_lines line text : existsb (String.eqb line) (readlines text) = true <-> line ∈ readlines text.
Proof.
  rewrite existsb_exists. split.
  - intros (l & Hl & ->%String.eqb_eq). by apply list_elem_of_In.
  - intros H. exists line. split; [by apply list_elem_of_In|apply String.eqb_refl].
Qed.
(** What lets an identity in, and the name it is given. *)
Definition listed (open : string -> option string) (username domain : string) : Prop :=
  match dget domain USERLISTS with
  | None => True
  | Some (path, _) => exists text, open path = Some text /\ (username ++ String "010" "")%string ∈ readlines text
  end.
Lemma username_spec open eppn name : user_info_to_username open (Ok eppn) = Ok name <->
  exists username domain, _af_identity (Ok eppn) = Ok (username, domain) /\ listed open username domain /\
    name = (username ++ dget_or domain "" SUFFIXES)%string.
Proof.
  unfold user_info_to_username, listed. destruct (_af_identity (Ok eppn)) as [[username domain]|e].
  2: { split; [done|]. by intros (? & ? & ? & _). }
  split.
  - intros H. exists username, domain. split; [done|]. destruct (dget domain USERLISTS) as [[path message]|].
    + destruct (open path) as [text|]; [|done]. destruct (existsb _ _) eqn:Hl; [|done].
      injection H as <-. split; [|done]. exists text. split; [done|]. by apply in_lines.
    + injection H as <-. done.
  - intros (? & ? & [= <- <-] & Hl & ->). destruct (dget domain USERLISTS) as [[path message]|]; [|done].
    destruct Hl as (text & -> & Hin). apply in_lines in Hin. by rewrite Hin.
Qed.

Lemma lower_app s t : str_lower (s ++ t)%string = (str_lower s ++ str_lower t)%string.
Proof. induction s as [|c s IH]; [done|]. change (String (chr_lower c) (str_lower (s ++ t)) = String (chr_lower c) (str_lower s ++ str_lower t))%string. by rewrite IH. Qed.

Section Distinct.
Context (open : string -> option string).
(** No account of Purdue's list has a name that ends as the names of the other homes do. *)
Definition no_suffixes : Prop := forall text line, open "/etc/secrets/af-auth-purdue/userlist"%string = Some text -> line ∈ readlines text ->
  forall s, s ∈ ["-cern"; "-fnal"]%string -> endswith (s ++ String "010" "")%string (str_lower line) = false.
Context (Hlist : no_suffixes).
Lemma no_clash s username name : s ∈ ["-cern"; "-fnal"]%string -> listed open username "purdue.edu" ->
  str_lower username = (str_lower name ++ s)%string -> False.
Proof.
  intros Hs (text & Ho & Hin) E. pose proof (Hlist text _ Ho Hin s Hs) as H.
  rewrite lower_app, E, str_app_assoc in H. change (str_lower (String "010" "")) with (String "010" "") in H. by rewrite endswith_app in H.
Qed.
Lemma same_name u1 d1 u2 d2 : d1 ∈ ["purdue.edu"; "cern.ch"; "fnal.gov"]%string -> d2 ∈ ["purdue.edu"; "cern.ch"; "fnal.gov"]%string ->
  listed open u1 d1 -> listed open u2 d2 -> str_lower (u1 ++ dget_or d1 "" SUFFIXES)%string = str_lower (u2 ++ dget_or d2 "" SUFFIXES)%string ->
  str_lower u1 = str_lower u2 /\ d1 = d2.
Proof.
  intros D1 D2. repeat setoid_rewrite elem_of_cons in D1. repeat setoid_rewrite elem_of_cons in D2. rewrite !lower_app.
  destruct D1 as [->|[->|[->|[]%elem_of_nil]]], D2 as [->|[->|[->|[]%elem_of_nil]]]; intros L1 L2.
  all: lazymatch goal with |- (_ ++ ?s)%string = (_ ++ ?t)%string -> _ =>
    let s := eval vm_compute in s in let t := eval vm_compute in t in change (str_lower (dget_or _ _ _)) with s at 1; change (str_lower (dget_or _ _ _)) with t end.
  all: rewrite ?str_app_nil; try (intros [-> _]%str_app_inv_tail; done); try (by intros [_ ?]%str_app_inv_tail).
  all: try (intros ->; done).
  all: intros E; exfalso; first [eapply no_clash; [|exact L1|exact E]; set_solver | eapply no_clash; [|exact L2|exact (eq_sym E)]; set_solver].
Qed.
End Distinct.

(** *** Theorems *)

(** C14: A name of the Hub, which normalizes what it is given to lower case, goes to one
    identity but for its case: a user that is let in has an eppn of a home the facility knows
    and stands in the list of that home, Fermilab having none; two users that are let in under
    one name have the same home and the same eppn but for the case of its account, as long
    as no account of Purdue's list has a name that ends as the names of the other homes do; and
    the session is told of that name and home. *)
Theorem usernames_distinct open normalize_username eppn1 eppn2 name1 name2
  (Hnormal : forall name, normalize_username name = str_lower name) (Hlist : no_suffixes open)
  (H1 : user_info_to_username open (Ok eppn1) = Ok name1) (H2 : user_info_to_username open (Ok eppn2) = Ok name2)
  (Hsame : normalize_username name1 = normalize_username name2) :
  exists username1 username2 domain, eppn1 = eppn_of (username1, domain) /\ eppn2 = eppn_of (username2, domain) /\
    str_lower username1 = str_lower username2 /\ str_existsb (Ascii.eqb "@") username1 = false /\
    domain ∈ ["purdue.edu"; "cern.ch"; "fnal.gov"]%string /\ listed open username1 domain /\ listed open username2 domain /\
    name1 = (username1 ++ dget_or domain "" SUFFIXES)%string /\
    (forall built, exists auth_state, build_auth_state_dict normalize_username (Ok built) (Ok eppn2) = Ok auth_state /\
       dget "name"%string auth_state = Some (JStr (normalize_username name1)) /\ dget "domain"%string auth_state = Some (JStr domain)).
Proof.
  apply username_spec in H1 as (u1 & d1 & I1 & L1 & N1), H2 as (u2 & d2 & I2 & L2 & N2).
  pose proof I2 as I3. apply identity_spec in I1 as (-> & A1 & D1), I2 as (-> & _ & D2). rewrite !Hnormal in Hsame.
  assert (E : str_lower (u1 ++ dget_or d1 "" SUFFIXES)%string = str_lower (u2 ++ dget_or d2 "" SUFFIXES)%string) by congruence.
  destruct (same_name open Hlist u1 d1 u2 d2 D1 D2 L1 L2 E) as [Hu ->]. exists u1, u2, d2. do 8 (split; [done|]).
  intros built. unfold build_auth_state_dict. rewrite I3. eexists. split; [reflexivity|]. rewrite dget_dset, dget_dset_ne, dget_dset by done.
  by rewrite !Hnormal, N1, E.
Qed.
(** Two eppns of Fermilab, which has no list, that differ in case have one name. *)
Lemma case_shares_name open : user_info_to_username open (Ok "Dave@fnal.gov"%string) = Ok "Dave-fnal"%string /\
  user_info_to_username open (Ok "dave@fnal.gov"%string) = Ok "dave-fnal"%string /\ str_lower "Dave-fnal" = str_lower "dave-fnal".
Proof. repeat split. Qed.
Lemma usernames_distinct_witness :
  user_info_to_username lists (Ok "ada@cern.ch"%string) = Ok "ada-cern"%string /\
  exists username1 username2 domain, "ada@cern.ch"%string = eppn_of (username1, domain) /\ "ada@cern.ch"%string = eppn_of (username2, domain) /\
    str_lower username1 = str_lower username2 /\ listed lists username1 domain.
Proof.
  assert (Hl : no_suffixes lists).
  { intros text line [= <-] Hl. assert (forallb (fun s => forallb (fun line => negb (endswith (s ++ String "010" "")%string (str_lower line))) (readlines ("ada" ++ String "010" ("grace" ++ String "010" "last"))%string)) ["-cern"; "-fnal"]%string = true) as H by reflexivity.
    rewrite forallb_forall in H. intros s Hs. apply list_elem_of_In in Hs, Hl. specialize (H _ Hs).
    rewrite forallb_forall in H. by apply negb_true_iff, H. }
  split; [reflexivity|].
  destruct (usernames_distinct lists str_lower "ada@cern.ch" "ada@cern.ch" "ada-cern" "ada-cern" (fun _ => eq_refl) Hl eq_refl eq_refl eq_refl)
    as (u1 & u2 & d & E1 & E2 & Eu & _ & _ & L & _).
  exists u1, u2, d. split; [exact E1|]. split; [exact E2|]. by split.
Defined.
End Login.

(** ** What a spawn is asked for *)
Module Options.
(** A profile as KubeSpawner has initialised it: the options with the keys of their choices. *)
Record Profile := mkProfile { slug : string; p_default : bool; profile_options : list (string * list json) }.
(** [{str(key): key for key in choices}] *)
Definition choices_of (keys : list json) : list (string * json) := foldl (fun d key => dset (str_of key) key d) [] keys.
Definition settle_option (options : list (string * json)) (option : string * list json) : list (string * json) :=
  let '(name, keys) := option in
  let value := dget_or name JNull options in
  if negb (truthy value) then options else
  match dget (str_of value) (choices_of keys) with
  | Some key => dset name key options
  | None => ddel name options
  end.
Definition next_slug (slug' : json) (profiles : list Profile) : option Profile := List.find (fun p => jeq_str slug' (slug p)) profiles.
(** [profiles] is KubeSpawner's initialised list of profiles; nothing is set where it is
    empty. *)
Definition drop_stale_user_options (profiles : list Profile) (user_options : list (string * json)) : res Exc (option (list (string * json))) :=
  match profiles with
  | [] => Ok None
  | _ =>
      let slug' := dget_or "profile" JNull user_options in
      match List.find p_default profiles with
      | None => Err Raised
      | Some dflt =>
          match (if truthy slug' then next_slug slug' profiles else Some dflt) with
          | Some profile => Ok (Some (foldl settle_option user_options (profile_options profile)))
          | None => Ok (Some (foldl settle_option (dset "profile" (JStr (slug dflt)) user_options) (profile_options dflt)))
          end
      end
  end.
Definition small : Profile := mkProfile "small" true [("cpu", [JInt 4; JInt 8]); ("gpu", [JStr "none"; JStr "A100"])]%string.
Definition big : Profile := mkProfile "big" false [("cpu", [JInt 64])]%string.
Example stale_options :
  map (drop_stale_user_options [small; big])
    [[("profile", JStr "big"); ("cpu", JStr "64")]; [("profile", JStr "gone"); ("cpu", JInt 8); ("gpu", JStr "T4"); ("note", JInt 1)]; []]%string
  = [Ok (Some [("profile", JStr "big"); ("cpu", JInt 64)]); Ok (Some [("profile", JStr "small"); ("cpu", JInt 8); ("note", JInt 1)]); Ok (Some [])]%string.
Proof. vm_compute. reflexivity. Qed.

(** *** Lemmas *)
Lemma choices_from keys d s key : dget s (foldl (fun d key => dset (str_of key) key d) d keys) = Some key ->
  dget s d = Some key \/ key ∈ keys /\ str_of key = s.
Proof.
  revert d. induction keys as [|k keys IH]; intros d; [by left|]. cbn [foldl]. intros [H|[H E]]%IH.
  - destruct (decide (str_of k = s)) as [<-|Hne]; [|rewrite dget_dset_ne in H by done; by left].
    rewrite dget_dset in H. injection H as ->. right. split; [left|done].
  - right. split; [by right|done].
Qed.
Lemma choices_in keys s key : dget s (choices_of keys) = Some key -> key ∈ keys /\ str_of key = s.
Proof. intros [H|H]%choices_from; [done|exact H]. Qed.
(** What becomes of one option, and that the others stay. *)
Definition settled (keys : list json) (value : option json) : option json :=
  if truthy (default JNull value) then dget (str_of (default JNull value)) (choices_of keys) else value.
Lemma settle_one options name keys k : dget k (settle_option options (name, keys)) =
  if decide (k = name) then settled keys (dget name options) else dget k options.
Proof.
  unfold settle_option, settled, dget_or. case_decide as Hk.
  - subst k. destruct (truthy _); cbn [negb]; [|done]. destruct (dget (str_of _) _); [apply dget_dset|apply dget_ddel].
  - destruct (truthy _); cbn [negb]; [|done]. destruct (dget (str_of _) _); [by apply dget_dset_ne|by apply dget_ddel_ne].
Qed.
Lemma settle_others l options k : k ∉ l.*1 -> dget k (foldl settle_option options l) = dget k options.
Proof.
  revert options. induction l as [|[name keys] l IH]; intros options; [done|].
  rewrite fmap_cons, not_elem_of_cons. cbn [foldl fst]. intros [Hk Hl].
  rewrite IH, settle_one by done. by rewrite decide_False.
Qed.
Lemma settle_all l options name keys : NoDup l.*1 -> (name, keys) ∈ l ->
  dget name (foldl settle_option options l) = settled keys (dget name options).
Proof.
  revert options. induction l as [|[n ks] l IH]; intros options; [by intros _ ?%elem_of_nil|].
  rewrite fmap_cons, NoDup_cons. cbn [foldl fst]. intros [Hn Hl] [[= <- <-]|Hin]%elem_of_cons.
  - rewrite settle_others by done. rewrite settle_one. by rewrite decide_True.
  - rewrite IH, settle_one by done. rewrite decide_False; [done|]. intros ->. apply Hn, list_elem_of_fmap. by exists (n, keys).
Qed.
Lemma dset_same (k : string) (v : json) d : dget k d = Some v -> dset k v d = d.
Proof.
  induction d as [|[k' v'] d IH]; [done|]. cbn. case_decide as E; [by intros [= ->]; subst|]. intros H. by rewrite IH.
Qed.
(** A choice that is a key of the option settles as itself. *)
Lemma settled_again keys v w : settled keys v = Some w -> truthy w = true -> dget (str_of w) (choices_of keys) = Some w.
Proof.
  unfold settled. destruct (truthy _) eqn:Ht.
  - intros H _. pose proof (choices_in _ _ _ H) as [_ E]. by rewrite E.
  - intros -> Hw. cbn in Ht. congruence.
Qed.
Lemma settle_id l options : (forall name keys w, (name, keys) ∈ l -> dget name options = Some w -> truthy w = true ->
  dget (str_of w) (choices_of keys) = Some w) -> foldl settle_option options l = options.
Proof.
  induction l as [|[name keys] l IH]; intros H; [done|]. cbn [foldl]. rewrite <- IH at 2 by (intros; eapply H; [by right|done..]). f_equal.
  unfold settle_option, dget_or. destruct (dget name options) as [w|] eqn:E; [|done]. cbn [default from_option]. unfold id.
  destruct (truthy w) eqn:Ht; [|done]. cbn [negb]. rewrite (H name keys w) by (done || left). by apply dset_same.
Qed.
(** The options of each profile are a dict, none of them the profile itself, and the slugs
    tell the profiles apart. *)
Definition profiles_ok (profiles : list Profile) : Prop :=
  NoDup (map slug profiles) /\ Forall (fun p => NoDup (profile_options p).*1 /\ "profile"%string ∉ (profile_options p).*1 /\ slug p <> ""%string) profiles.
Lemma find_in {A} (f : A -> bool) l x : List.find f l = Some x -> x ∈ l /\ f x = true.
Proof. intros [H1 H2]%List.find_some. split; [by apply list_elem_of_In|done]. Qed.
Lemma find_slug profiles p : NoDup (map slug profiles) -> p ∈ profiles -> next_slug (JStr (slug p)) profiles = Some p.
Proof.
  unfold next_slug. induction profiles as [|q profiles IH]; [by intros _ ?%elem_of_nil|].
  cbn [map]. rewrite NoDup_cons. intros [Hq Hn] [->|Hin]%elem_of_cons; cbn [List.find jeq_str].
  - by rewrite String.eqb_refl.
  - destruct (String.eqb_spec (slug p) (slug q)) as [E|]; [|auto]. destruct Hq. rewrite <- E. apply list_elem_of_In, in_map, list_elem_of_In, Hin.
Qed.
Lemma jeq_str_inv j s : jeq_str j s = true -> j = JStr s.
Proof. destruct j; try done. cbn. by intros ->%String.eqb_eq. Qed.
(** What the answer is: the options of one profile, settled from where they were. *)
Lemma dropped profiles options options' : drop_stale_user_options profiles options = Ok (Some options') -> exists p from,
  options' = foldl settle_option from (profile_options p) /\ p ∈ profiles /\
  (from = options \/ from = dset "profile" (JStr (slug p)) options)%string /\
  (if truthy (dget_or "profile" JNull from) then dget "profile" from = Some (JStr (slug p)) else List.find p_default profiles = Some p)%string.
Proof.
  unfold drop_stale_user_options. destruct profiles as [|p0 ps]; [done|]. set (profiles := p0 :: ps) in *. clearbody profiles.
  destruct (List.find p_default profiles) as [dflt|] eqn:Ed; [|done]. pose proof (find_in _ _ _ Ed) as [Hin _].
  destruct (truthy (dget_or "profile" JNull options)) eqn:Et.
  - destruct (next_slug _ profiles) as [p|] eqn:Ef; intros [= <-].
    + apply find_in in Ef as [Hp Heq%jeq_str_inv]. exists p, options. rewrite Et.
      unfold dget_or in Heq. destruct (dget "profile" options) as [v|]; [|done]. cbn in Heq. unfold id in Heq. subst v. split_and!; auto.
    + exists dflt, (dset "profile" (JStr (slug dflt)) options)%string. unfold dget_or. rewrite dget_dset. split_and!; auto. by destruct (truthy (default _ _)).
  - intros [= <-]. exists dflt, options. rewrite Et. split_and!; auto.
Qed.
Lemma profile_settled l from : "profile"%string ∉ l.*1 ->
  dget_or "profile" JNull (foldl settle_option from l) = dget_or "profile" JNull from.
Proof. intros H. unfold dget_or. by rewrite settle_others. Qed.
Lemma settled_key keys v key : settled keys v = Some key -> truthy key = true ->
  key ∈ keys /\ str_of key = str_of (default JNull v).
Proof.
  unfold settled. destruct (truthy (default JNull v)) eqn:Ht; [intros H _; by apply choices_in|].
  intros ->. cbn in Ht. unfold id in Ht. congruence.
Qed.
Lemma drop_again profiles p options' : NoDup (map slug profiles) -> p ∈ profiles ->
  (if truthy (dget_or "profile" JNull options') then dget "profile" options' = Some (JStr (slug p)) else List.find p_default profiles = Some p)%string ->
  (exists dflt, List.find p_default profiles = Some dflt) ->
  foldl settle_option options' (profile_options p) = options' ->
  drop_stale_user_options profiles options' = Ok (Some options').
Proof.
  intros Hn Hp Hprof [dflt Hd] Hid. unfold drop_stale_user_options.
  destruct profiles as [|p0 ps]; [by apply elem_of_nil in Hp|]. set (profiles := p0 :: ps) in *. clearbody profiles.
  rewrite Hd. destruct (truthy _) eqn:Ht.
  - unfold dget_or. rewrite Hprof. cbn [default from_option]. unfold id. rewrite find_slug by done. by rewrite Hid.
  - rewrite Hd in Hprof. injection Hprof as ->. by rewrite Hid.
Qed.
Lemma default_found profiles options options' : drop_stale_user_options profiles options = Ok (Some options') ->
  exists dflt, List.find p_default profiles = Some dflt.
Proof. unfold drop_stale_user_options. destruct profiles; [done|]. destruct (List.find _ _); [eauto|done]. Qed.

(** *** Theorem *)

(** A spawn is asked only for what there is: the options it is left with name a profile of
    the list, or none where the first default one is meant; of each option of that profile
    they name a key of its choices or nothing, and the key they named if there is still one
    that is written the same; whatever else they hold is as it was; and options that were
    gone through once are left as they are. *)
Theorem options_exist profiles options options' (Hok : profiles_ok profiles)
  (H : drop_stale_user_options profiles options = Ok (Some options')) :
  (exists p, p ∈ profiles /\
    (if truthy (dget_or "profile" JNull options') then dget "profile" options' = Some (JStr (slug p)) else List.find p_default profiles = Some p)%string /\
    (forall name keys, (name, keys) ∈ profile_options p ->
       dget name options' = settled keys (dget name options) /\
       forall key, dget name options' = Some key -> truthy key = true -> key ∈ keys /\ str_of key = str_of (dget_or name JNull options)) /\
    (forall k, k <> "profile"%string -> k ∉ (profile_options p).*1 -> dget k options' = dget k options)) /\
  drop_stale_user_options profiles options' = Ok (Some options').
Proof.
  destruct Hok as [Hslug Hok]. pose proof H as (p & from & -> & Hp & Hfrom & Hprof)%dropped.
  pose proof (proj1 (Forall_forall _ _) Hok p Hp) as (Hn & Hprofile & Hs).
  assert (forall k, k <> "profile"%string -> dget k from = dget k options) as Hsame.
  { intros k Hk. destruct Hfrom as [->| ->]; [done|]. by apply dget_dset_ne, not_eq_sym. }
  rewrite <- (profile_settled _ from Hprofile), <- (settle_others _ from _ Hprofile) in Hprof.
  assert (forall name keys, (name, keys) ∈ profile_options p -> dget name (foldl settle_option from (profile_options p)) = settled keys (dget name options)) as Hset.
  { intros name keys Hin. rewrite (settle_all _ _ name keys Hn Hin), Hsame; [done|]. intros ->. apply Hprofile, list_elem_of_fmap. by exists ("profile"%string, keys). }
  split.
  - exists p. split; [done|]. split; [done|]. split; [|intros k Hk Hl; by rewrite settle_others, Hsame].
    intros name keys Hin. split; [auto|]. intros key. rewrite (Hset _ _ Hin). apply settled_key.
  - apply (drop_again _ p); [done..|by eapply default_found|]. apply settle_id. intros name keys w Hin Hw. rewrite (Hset _ _ Hin) in Hw. exact (settled_again _ _ _ Hw).
Qed.
Lemma options_exist_witness :
  let options := [("profile", JStr "gone"); ("cpu", JStr "8"); ("gpu", JStr "T4"); ("note", JInt 1)]%string in
  let options' := [("profile", JStr "small"); ("cpu", JInt 8); ("note", JInt 1)]%string in
  drop_stale_user_options [small; big] options = Ok (Some options') /\
  drop_stale_user_options [small; big] options' = Ok (Some options').
Proof.
  split; [vm_compute; reflexivity|].
  eapply (options_exist [small; big] [("profile", JStr "gone"); ("cpu", JStr "8"); ("gpu", JStr "T4"); ("note", JInt 1)]%string).
  - split; [|repeat constructor; try discriminate]; try (cbn; repeat (constructor; [set_solver|]); constructor); cbn; set_solver.
  - vm_compute. reflexivity.
Defined.
End Options.

(** ** The account a session runs as *)
Module Account.
Definition LDAP_TLS (env : option string) : bool := negb (String.eqb (str_lower (default "true" env)) "false").
Definition LDAP_HOST (env : option string) : string := default "geddes-auth.rcac.purdue.edu" env.
Definition BASE_DN : string := "ou=AllPeople,dc=geddes,dc=rcac,dc=purdue,dc=edu".
(** The calls of [ldap3]; [Response] is what [response_to_json] holds. *)
Inductive Req := Connection (host : string) (tls : bool) | StartTls | Bind | Search (base : string) | Response | Unbind.
(** [None] where the call raises. *)
Definition Ans (r : Req) : Type := match r with Response => option json | _ => option unit end.
Definition Ev : Type := sigT Ans.
(** The state is the environment of the session. *)
Definition UM (A : Type) : Type := M Ev (list (string * json)) Exc A.

Section Account.
Context (svc : service Req Ans) (tls : bool) (host : string).
Definition ask (r : Req) (must : Ans r -> option unit) : UM unit :=
  a ← (mcall svc r : UM (Ans r)); match must a with Some _ => mret tt | None => raise Raised end.
Definition or_raise {A} (v : option A) : UM A := match v with Some v => mret v | None => raise Raised end.
Definition search (base : string) : UM json :=
  (if tls then ask StartTls (fun a => a) else ask Bind (fun a => a)) ≫= fun _ =>
  ask (Search base) (fun a => a) ≫= fun _ =>
  answer ← (mcall svc Response : UM (option json));
  answer ← or_raise answer;
  or_raise (item_of "entries" answer).
Definition ldap_lookup (username : json) : UM (Z * Z) :=
  ask (Connection host tls) (fun a => a) ≫= fun _ =>
  entries ← mfinally (search ("uid=" ++ str_of username ++ "," ++ BASE_DN)%string) (ask Unbind (fun a => a));
  if negb (truthy entries) then raise Raised else
  result ← or_raise (nth_of 0 entries);
  result ← or_raise (item_of "attributes" result);
  uid ← or_raise (item_of "uidNumber" result ≫= int_of);
  gid ← or_raise (item_of "gidNumber" result ≫= int_of);
  mret (uid, gid).
(** [{:04d}] *)
Definition format_04d (n : Z) : string := if n <? 0 then String "-" (padded 3 (- n)) else padded 4 n.
Definition setenv (name : string) (value : json) : UM unit := mmod (dset name value).
Definition passthrough_auth_state_hook (user_id : Z) (auth_state : json) : UM unit :=
  domain ← or_raise (item_of "domain" auth_state);
  username ← or_raise (item_of "name" auth_state);
  setenv "NB_USER" username ≫= fun _ =>
  account ← (if negb (jeq_str domain "purdue.edu") then
               if 399 <? user_id then raise Raised else mret (JStr ("paf" ++ format_04d user_id)%string)
             else mret username);
  ids ← ldap_lookup account;
  setenv "NB_UID" (JStr (pretty ids.1)) ≫= fun _ =>
  setenv "NB_GID" (JStr (pretty ids.2)) ≫= fun _ =>
  env ← mget;
  user ← or_raise (dget "NB_USER" env);
  setenv "PIXI_HOME" (JStr ("/work/users/" ++ str_of user ++ "/.pixi-home")%string).

(** *** Lemmas *)
(** The account of the directory a user's sessions run as. *)
Definition account_of (user_id : Z) (domain name : string) : option string :=
  if String.eqb domain "purdue.edu" then Some name
  else if 399 <? user_id then None else Some ("paf" ++ format_04d user_id)%string.
Lemma pooled_value : forallb (fun n => digits_value 0 (format_04d (Z.of_nat n)) =? Z.of_nat n) (seq 0 400) = true.
Proof. vm_compute. reflexivity. Qed.
Lemma pooled_distinct m n : 0 <= m <= 399 -> 0 <= n <= 399 -> format_04d m = format_04d n -> m = n.
Proof.
  assert (forall k, 0 <= k <= 399 -> digits_value 0 (format_04d k) = k) as Hv.
  { intros k Hk. pose proof pooled_value as Hv. rewrite forallb_forall in Hv. specialize (Hv (Z.to_nat k)).
    rewrite Z2Nat.id in Hv by lia. apply Z.eqb_eq, Hv, in_seq. lia. }
  intros Hm Hn H. rewrite <- (Hv m), <- (Hv n) by done. by rewrite H.
Qed.
(** The directory in use: opened once at a time, asked for one entry only, and closed. *)
Definition in_use (base : string) (opened : bool) (e : Ev) : option bool :=
  match e with
  | existT (Connection _ _) a => if opened then None else Some (bool_decide (a = Some tt))
  | existT Unbind _ => if opened then Some false else None
  | existT (Search b) _ => if opened && String.eqb b base then Some opened else None
  | existT _ _ => if opened then Some opened else None
  end.
Lemma or_raise_mon {A} base q (v : option A) Q : (forall v', v = Some v' -> Q (Ok v') q) -> (v = None -> Q (Err Raised) q) ->
  mon (in_use base) q (or_raise v) Q.
Proof. destruct v; intros H1 H2; [apply mon_ret|apply mon_raise]; auto. Qed.
Lemma search_mon base : mon (in_use base) true (search base) (fun _ q => q = true).
Proof.
  unfold search, ask. repeat first [mon_step | apply or_raise_mon; [intros ? ?|intros ?] | progress cbn [in_use andb] | done | rewrite String.eqb_refl].
  all: refine (mon_call (in_use base) true svc Response _ _); intros answer; eexists; (split; [reflexivity|]).
  all: repeat first [mon_step | apply or_raise_mon; [intros ? ?|intros ?] | done].
Qed.
Definition entry_of (account : string) : string := ("uid=" ++ account ++ "," ++ BASE_DN)%string.
Lemma lookup_mon account : mon (in_use (entry_of account)) false (ldap_lookup (JStr account)) (fun _ q => q = false).
Proof.
  unfold ldap_lookup. cbn [str_of]. fold (entry_of account). apply mon_bind. unfold ask at 1. apply mon_bind, mon_call.
  intros [[]|]; eexists; (split; [reflexivity|]); [apply mon_ret|by apply mon_raise]. apply mon_bind, mon_finally.
  eapply mon_mono; [apply search_mon|]. intros r q ->. unfold ask. apply mon_bind, mon_call. intros a. eexists. split; [reflexivity|].
  destruct a as [[]|]; [apply mon_ret|apply mon_raise; done]. destruct r as [entries|]; [|done].
  repeat first [mon_step | apply or_raise_mon; [intros ? ?|intros ?] | done].
Qed.
(** What the lookup reads, and that it leaves the environment as it is. *)
Lemma or_raise_wp {A} (v : option A) env h (Q : res Exc A -> list (string * json) -> list Ev -> Prop) :
  (forall v', v = Some v' -> Q (Ok v') env h) -> Q (Err Raised) env h -> wp (or_raise v) env h Q.
Proof. destruct v; intros H1 H2; [apply wp_ret|apply wp_raise]; auto. Qed.
Definition read_from (h : list Ev) (ids : Z * Z) : Prop := exists answer entries entry attributes uid gid,
  (existT Response (Some answer) : Ev) ∈ h /\ item_of "entries" answer = Some entries /\ nth_of 0 entries = Some entry /\
  item_of "attributes" entry = Some attributes /\ item_of "uidNumber" attributes = Some uid /\ item_of "gidNumber" attributes = Some gid /\
  int_of uid = Some ids.1 /\ int_of gid = Some ids.2.
Lemma ask_wp r must env h (Q : res Exc unit -> list (string * json) -> list Ev -> Prop) :
  (forall result, result = Ok tt \/ result = Err Raised -> Q result env (h ++ [existT r (svc h r)])) -> wp (ask r must) env h Q.
Proof. intros H. unfold ask. do 2 wp_step. destruct (must _); [apply wp_ret|apply wp_raise]; auto. Qed.
Lemma search_wp base env h : wp (search base) env h (fun r env' h' => env' = env /\
  (forall entries, r = Ok entries -> exists answer, (existT Response (Some answer) : Ev) ∈ h' /\ item_of "entries" answer = Some entries)).
Proof.
  unfold search. apply wp_bind.
  assert (forall h, wp (ask (Search base) (fun a => a) ≫= fun _ => (mcall svc Response : UM (option json)) ≫= fun answer => or_raise answer ≫= fun answer => or_raise (item_of "entries" answer)) env h (fun r env' h' => env' = env /\
  (forall entries, r = Ok entries -> exists answer, (existT Response (Some answer) : Ev) ∈ h' /\ item_of "entries" answer = Some entries))) as Hrest.
  { intros h0. apply wp_bind, ask_wp. intros r [->| ->]; [|done]. apply wp_bind. wp_step. apply wp_bind, or_raise_wp; [|done].
    intros answer Ha. apply or_raise_wp; [|done]. intros entries He. split; [done|]. intros ? [= <-]. exists answer. split; [|done].
    apply elem_of_app. right. apply list_elem_of_singleton. by rewrite Ha. }
  destruct tls; apply ask_wp; intros r [->| ->]; done || apply Hrest.
Qed.
Lemma lookup_wp account env h : wp (ldap_lookup account) env h (fun r env' h' => env' = env /\ (forall ids, r = Ok ids -> read_from h' ids)).
Proof.
  unfold ldap_lookup. apply wp_bind, ask_wp. intros r [->| ->]; [|done]. apply wp_bind, wp_finally.
  eapply wp_mono; [apply search_wp|]. intros r env' h' [-> Hr]. apply ask_wp. intros r' [->| ->]; [|done].
  destruct r as [entries|e]; [|done]. destruct (Hr _ eq_refl) as (answer & Hin & He). destruct (negb (truthy entries)); [done|].
  do 2 (apply wp_bind, or_raise_wp; [intros ? ?|done]).
  apply wp_bind, or_raise_wp; [intros uid Hu|done]. apply wp_bind, or_raise_wp; [intros gid Hg|done].
  apply bind_Some in Hu as (ju & ? & ?), Hg as (jg & ? & ?). apply wp_ret. split; [done|]. intros ? [= <-].
  repeat eexists; [|done..]. apply elem_of_app. by left.
Qed.
(** What the hook leaves in the environment of the session. *)
Definition session_env (name : string) (ids : Z * Z) (env : list (string * json)) : list (string * json) :=
  dset "PIXI_HOME" (JStr ("/work/users/" ++ name ++ "/.pixi-home"))%string
    (dset "NB_GID" (JStr (pretty ids.2)) (dset "NB_UID" (JStr (pretty ids.1)) (dset "NB_USER" (JStr name) env)))%string.
Lemma nb_user name (ids : Z * Z) env :
  dget "NB_USER"%string (dset "NB_GID" (JStr (pretty ids.2)) (dset "NB_UID" (JStr (pretty ids.1)) (dset "NB_USER" (JStr name) env)))%string = Some (JStr name).
Proof. rewrite !dget_dset_ne by done. apply dget_dset. Qed.
Lemma hook_wp user_id auth_state domain name env h : item_of "domain" auth_state = Some (JStr domain) -> item_of "name" auth_state = Some (JStr name) ->
  wp (passthrough_auth_state_hook user_id auth_state) env h (fun r env' h' => match r with
    | Ok _ => exists ids account, account_of user_id domain name = Some account /\ read_from h' ids /\ env' = session_env name ids env
    | Err _ => env' = dset "NB_USER"%string (JStr name) env
    end).
Proof.
  intros Hd Hn. unfold passthrough_auth_state_hook. rewrite Hd, Hn. cbn [or_raise]. apply wp_bind, wp_ret, wp_bind, wp_ret.
  apply wp_bind, wp_mod. cbn [jeq_str]. apply wp_bind. unfold account_of.
  assert (forall account, wp (ldap_lookup (JStr account)) (dset "NB_USER"%string (JStr name) env) h (fun r env' h' => match r with
    | Ok ids => read_from h' ids | Err _ => True end /\ env' = dset "NB_USER"%string (JStr name) env)) as Hl.
  { intros account. eapply wp_mono; [apply lookup_wp|]. intros [ids|e] env' h' [-> Hr]; auto. }
  destruct (String.eqb domain "purdue.edu"); cbn [negb]; [|destruct (399 <? user_id); [by apply wp_raise|]].
  all: apply wp_ret, wp_bind; eapply wp_mono; [apply Hl|]; intros [ids|e] env' h' [Hr ->]; [|done].
  all: apply wp_bind, wp_mod, wp_bind, wp_mod, wp_bind, wp_get; rewrite nb_user; apply wp_bind, wp_ret, wp_mod.
  all: exists ids; eexists; split; [done|]; by split.
Qed.
Lemma hook_mon user_id auth_state domain name account : item_of "domain" auth_state = Some (JStr domain) -> item_of "name" auth_state = Some (JStr name) ->
  default account (account_of user_id domain name) = account ->
  mon (in_use (entry_of account)) false (passthrough_auth_state_hook user_id auth_state) (fun _ q => q = false).
Proof.
  intros Hd Hn Ha. unfold passthrough_auth_state_hook. rewrite Hd, Hn. cbn [or_raise jeq_str]. apply mon_bind, mon_ret, mon_bind, mon_ret.
  apply mon_bind, mon_mod, mon_bind. cbn [jeq_str]. unfold account_of in Ha.
  destruct (String.eqb domain "purdue.edu"); cbn [negb]; [|destruct (399 <? user_id); [by apply mon_raise|]].
  all: cbn [default from_option] in Ha; unfold id in Ha; subst account.
  all: apply mon_ret, mon_bind; eapply mon_mono; [apply lookup_mon|]; intros [ids|e] q ->; [|done].
  all: apply mon_bind, mon_mod, mon_bind, mon_mod, mon_bind, mon_get; intros env; apply mon_bind, or_raise_mon; [intros ? _; by apply mon_mod|done].
Qed.

(** *** Theorem *)

(** A session runs as the account its user has, and as no one else: the directory is asked
    for one entry only, that of the user's name at Purdue and of [paf] and the number of the
    user elsewhere, which is none past 399; it is closed whatever comes of it; the session
    starts with the ids of an answer of that lookup and the home of the user's name, and is
    told no more than its name where it does not start; and two numbers have two accounts. *)
Theorem session_account user_id auth_state domain name env h
  (Hd : item_of "domain" auth_state = Some (JStr domain)) (Hn : item_of "name" auth_state = Some (JStr name)) :
  (wp (passthrough_auth_state_hook user_id auth_state) env h (fun r env' h' => match r with
     | Ok _ => exists ids account, account_of user_id domain name = Some account /\ read_from h' ids /\ env' = session_env name ids env
     | Err _ => env' = dset "NB_USER"%string (JStr name) env
     end)) /\
  (forall account, default account (account_of user_id domain name) = account ->
     mon (in_use (entry_of account)) false (passthrough_auth_state_hook user_id auth_state) (fun _ q => q = false)) /\
  (forall other name' account, String.eqb domain "purdue.edu" = false -> 0 <= user_id -> 0 <= other ->
     account_of user_id domain name = Some account -> account_of other domain name' = Some account -> user_id = other).
Proof.
  split; [by eapply hook_wp|]. split; [intros account; by eapply hook_mon|]. unfold account_of.
  intros other name' account -> H1 H2. destruct (Z.ltb_spec 399 user_id), (Z.ltb_spec 399 other); try done.
  intros [= <-] [= E]. apply pooled_distinct; [lia..|done].
Qed.
End Account.
Definition directory (h : list Ev) (r : Req) : Ans r :=
  match r with
  | Response => Some (JObj [("entries", JArr [JObj [("attributes", JObj [("uidNumber", JInt 6); ("gidNumber", JStr "7")])]])])
  | Connection _ _ => Some tt | StartTls => Some tt | Bind => Some tt | Search _ => Some tt | Unbind => Some tt
  end%string.
Example an_external_session :
  let auth := JObj [("name", JStr "ada-cern"); ("domain", JStr "cern.ch")]%string in
  let '(r, env, h) := passthrough_auth_state_hook directory true "ldap" 17 auth [] [] in
  (r, env) = (Ok tt, [("NB_USER", JStr "ada-cern"); ("NB_UID", JStr "6"); ("NB_GID", JStr "7"); ("PIXI_HOME", JStr "/work/users/ada-cern/.pixi-home")]%string) /\
  map (fun e : Ev => projT1 e) h = [Connection "ldap" true; StartTls; Search "uid=paf0017,ou=AllPeople,dc=geddes,dc=rcac,dc=purdue,dc=edu"; Response; Unbind]%string.
Proof. vm_compute. split; reflexivity. Qed.
Lemma session_account_witness :
  let auth := JObj [("name", JStr "ada-cern"); ("domain", JStr "cern.ch")]%string in
  account_of 17 "cern.ch" "ada-cern" = Some "paf0017"%string /\
  mon (in_use (entry_of "paf0017")) false (passthrough_auth_state_hook directory true "ldap" 17 auth) (fun _ q => q = false).
Proof.
  split; [vm_compute; reflexivity|].
  apply (session_account directory true "ldap" 17 (JObj [("name", JStr "ada-cern"); ("domain", JStr "cern.ch")]%string) "cern.ch" "ada-cern" [] []);
    [reflexivity|reflexivity|vm_compute; reflexivity].
Defined.
End Account.

(** ** The activity of the sessions *)
Module Activity.
Definition LABELS : list string := ["username"; "servername"; "pod"]%string.
(** A datetime: its fields read as UTC, in seconds since the epoch, and its offset if it is
    aware of one. *)
Record Datetime := mkDatetime { fields : Q; utcoffset : option Q }.
Definition to_timestamp (value : option Datetime) : option Q :=
  match value with
  | None => None
  | Some value => Some (fields value - default 0 (utcoffset value))%Q
  end.
(** The template of a pod's name, as the text and the fields it is made of. *)
Inductive Piece := Text (s : string) | Field (name : string).
Definition POD_NAME_TEMPLATE (configured : option (list Piece)) : list Piece :=
  match configured with Some (_ :: _ as template) => template | _ => [Text "purdue-af-"; Field "userid"] end.
Definition str_format (template : list Piece) (args : list (string * string)) : option string :=
  str_join "" <$> mapM (fun piece => match piece with Text s => Some s | Field name => dget name args end) template.
Definition pod_name (template : list Piece) (username : string) (userid : Z) (servername : string) : option string :=
  str_format template [("userid", pretty userid); ("username", username); ("servername", servername)]%string.
(** A spawner of the Hub's database that has a server attached; a user is its name and id. *)
Record Spawner := mkSpawner { user : option (string * Z); name : option string; started : option Datetime; last_activity : option Datetime }.
Definition session (template : list Piece) (spawner : Spawner) : option (option (list string * Q)) :=
  match user spawner with
  | None => Some None
  | Some (username, userid) =>
      let servername := default "" (name spawner) in
      match to_timestamp (started spawner) with
      | None => Some None
      | Some started =>
          let last := match to_timestamp (last_activity spawner) with Some t => if Qeq_bool t 0 then started else t | None => started end in
          pod ← pod_name template username userid servername;
          Some (Some ([username; servername; pod], last))
      end
  end.
(** [None] where the database raises. *)
Definition sessions (template : list Piece) (running : option (list Spawner)) : option (list (list string * Q)) :=
  spawners ← running; rows ← mapM (session template) spawners; Some (omap (fun row => row) rows).
Definition collect (template : list Piece) (running : option (list Spawner)) : list (list string * Q) := default [] (sessions template running).
Example two_sessions :
  collect (POD_NAME_TEMPLATE None)
    (Some [mkSpawner (Some ("ada"%string, 7)) None (Some (mkDatetime 100 None)) (Some (mkDatetime 3700 (Some 3600%Q))); mkSpawner None None None None;
           mkSpawner (Some ("grace"%string, 8)) (Some "gpu"%string) (Some (mkDatetime 50 None)) None])
  = [(["ada"; ""; "purdue-af-7"]%string, (3700 - 3600)%Q); (["grace"; "gpu"; "purdue-af-8"]%string, (50 - 0)%Q)] /\
  collect [Field "user_server"] (Some [mkSpawner (Some ("ada"%string, 7)) None (Some (mkDatetime 100 None)) None]) = [].
Proof. split; reflexivity. Qed.

(** A row for each session that has a user and has started, and for no other, in the order
    of the database; a session that has reported nothing is as active as its spawn. *)
Definition shown (spawner : Spawner) : bool := match user spawner, started spawner with Some _, Some _ => true | _, _ => false end.
Definition row_is (template : list Piece) (spawner : Spawner) (row : list string * Q) : Prop :=
  exists username userid started' pod, user spawner = Some (username, userid) /\ to_timestamp (started spawner) = Some started' /\
    pod_name template username userid (default "" (name spawner)) = Some pod /\ row.1 = [username; default "" (name spawner); pod]%string /\
    (to_timestamp (last_activity spawner) = None -> row.2 = started') /\
    (forall t, to_timestamp (last_activity spawner) = Some t -> ~ (t == 0)%Q -> row.2 = t).
Lemma session_row template spawner row : session template spawner = Some row ->
  if shown spawner then exists r, row = Some r /\ row_is template spawner r else row = None.
Proof.
  unfold session, shown, row_is. destruct (user spawner) as [[username userid]|]; [|by intros [= <-]].
  destruct (started spawner) as [st|]; [|by intros [= <-]]. cbn [to_timestamp].
  intros (pod & Hp & [= <-])%bind_Some. eexists. split; [done|]. do 4 eexists. do 4 (split; [done|]). cbn [snd].
  split; [by intros ->|]. intros t -> Ht. destruct (Qeq_bool t 0) eqn:E; [|done]. by apply Qeq_bool_iff in E.
Qed.
Lemma rows_of_sessions template spawners rows : sessions template (Some spawners) = Some rows ->
  Forall2 (row_is template) (filter shown spawners) rows.
Proof.
  unfold sessions. cbn [mbind option_bind]. intros (l & Hl & [= <-])%bind_Some. apply mapM_Some_1 in Hl.
  induction Hl as [|spawner row spawners l Hrow _ IH]; [constructor|]. apply session_row in Hrow.
  rewrite filter_cons. cbn [omap list_omap]. destruct (shown spawner) eqn:E.
  - destruct Hrow as (r & -> & Hr). rewrite decide_True by done. by constructor.
  - subst row. by case_decide.
Qed.
End Activity.
