(* ===== verification/NodeJob.v ===== *)
(** One check of one mount, [docker/af-node-monitor/job_runner.py]: the timed read of a file,
    the listing of a directory, the throughput from time to time, and the result that is
    written for the supervisor ([NodeAgent]). *)
From S2P Require Import Prelude PyJson PyText PyFloat PyValue.
Open Scope Z_scope.

(** The environment, as it is read once. *)
Record Settings := mkSettings { check_file : string; checksum : string; metadata_dir : string; fio_file : string;
  ping_timeout_s : Q; metadata_timeout_s : Q; fio_timeout_s : Q; fio_interval_s : Q; fio_interval_tolerance_s : Q;
  enable_fio : bool; node_name : string }.

(** A command: that it cannot be started raises; its time is up, whatever becomes of it
    when it is killed; its output cannot be read; or its exit code and what it wrote. *)
Inductive RunOut := NotStarted | TimeUp | Unread (reason : string) | Exited (code : Z) (out err : string).
Inductive Req :=
| Clock | Uniform (hi : Q)
| Prev                                       (** the previous result: what [json.load] reads, if it reads it *)
| Popen (cmd : list string) (timeout : Q)
| Loads (text : string)                      (** [json.loads] of a command's output *)
| WriteResult (data : json).
Definition Ans (r : Req) : Type :=
  match r with
  | Clock | Uniform _ => Q
  | Prev | Loads _ => option json
  | Popen _ _ => RunOut
  | WriteResult _ => bool
  end.
Definition Ev : Type := sigT Ans.
(** An exception that ends the program: the exit code is not 0, whatever it is. *)
Inductive Exc := Crash.
Definition JM (A : Type) : Type := M Ev unit Exc A.

(** [str.split()] *)
Fixpoint words_at (w : string) (s : string) : list string :=
  let flush rest := if String.eqb w "" then rest else w :: rest in
  match s with
  | EmptyString => flush []
  | String c s' => if is_space c then flush (words_at "" s') else words_at (w ++ String c "")%string s'
  end.
Definition py_words : string -> list string := words_at "".
(** A number as JSON has it; what is not finite would be written and read back as it is,
    and is not modelled. *)
Definition json_of (f : float) : json := match f with Fin q => JFloat q | _ => JNull end.
Definition json_opt {A} (f : A -> json) (o : option A) : json := match o with Some a => f a | None => JNull end.

(** [data["jobs"][0]["read"]["bw_bytes"] * 8 / 1e9]; [None] where that raises one of the
    errors that are caught. *)
Definition number_of (j : json) : option Q :=
  match j with JInt n => Some (qz n) | JFloat q => Some q | JBool b => Some (qz (Z.b2z b)) | _ => None end.
Definition gbps_of (data : json) : option Q :=
  jobs ← item_of "jobs" data; job ← nth_of 0 jobs; read ← item_of "read" job; bw ← item_of "bw_bytes" read;
  option_map (fun n => (n * 8 / qz (10 ^ 9))%Q) (number_of bw).

Section Job.
Context (svc : service Req Ans) (s : Settings).

(** Whether it went well, whether the time was up, and the output. *)
Definition run_outcome (r : RunOut) : option (bool * bool * string) :=
  match r with
  | NotStarted => None
  | TimeUp => Some (false, true, ""%string)
  | Unread _ => Some (false, false, ""%string)
  | Exited code out _ => Some (code =? 0, false, out)
  end.
Definition _run_bounded (cmd : list string) (timeout : Q) : JM (bool * bool * string) :=
  r ← (mcall svc (Popen cmd timeout) : JM RunOut);
  match run_outcome r with Some outcome => mret outcome | None => raise Crash end.
Definition _run_subprocess (cmd : list string) (timeout : Q) : JM (bool * bool) :=
  '(ok, timeout, _) ← _run_bounded cmd timeout; mret (ok, timeout).

Definition ping_cmd : list string :=
  if String.eqb (checksum s) "" then ["cat"; check_file s]%string else ["/usr/bin/md5sum"; check_file s]%string.
Definition elapsed_ms (start finish : Q) : Q := ((finish - start) * 1000)%Q.
Definition checksum_ok (out : string) : bool :=
  match py_words (str_strip out) with actual :: _ => String.eqb actual (checksum s) | [] => false end.
Definition _check_ping : JM (bool * bool * Q) :=
  start ← (mcall svc Clock : JM Q);
  '(ok, timeout, out) ← _run_bounded ping_cmd (ping_timeout_s s);
  finish ← (mcall svc Clock : JM Q);
  let ms := elapsed_ms start finish in
  if negb ok || timeout then mret (false, timeout, ms)
  else if negb (String.eqb (checksum s) "") && negb (checksum_ok out) then mret (false, false, ms)
  else mret (true, false, ms).
Definition _check_metadata : JM (bool * bool * option Q) :=
  if String.eqb (metadata_dir s) "" then mret (true, false, None) else
  start ← (mcall svc Clock : JM Q);
  '(ok, timeout) ← _run_subprocess ["ls"; "-la"; metadata_dir s]%string (metadata_timeout_s s);
  finish ← (mcall svc Clock : JM Q);
  mret (ok, timeout, Some (elapsed_ms start finish)).

Definition measures : bool := enable_fio s && negb (String.eqb (fio_file s) "").
Definition _fio_due (last_fio_ts : option float) (now : Q) : bool :=
  if negb measures then false else
  match last_fio_ts with
  | None => true
  | Some last => float_le (Fin (fio_interval_s s - fio_interval_tolerance_s s)) (float_sub (Fin now) last)
  end.
Definition fio_cmd : list string :=
  ["fio"; "--name=read_test"; "--filename=" ++ fio_file s; "--rw=read"; "--bs=1M"; "--size=1G"; "--numjobs=1"; "--direct=1"; "--readonly";
   "--output-format=json"]%string.
(** Whether it went well, whether the time was up, the rate, and when it was last measured. *)
Definition Throughput : Type := bool * bool * option Q * option float.
Definition _check_throughput (last_fio_ts : option float) : JM Throughput :=
  now ← (mcall svc Clock : JM Q);
  if negb (_fio_due last_fio_ts now) then mret (true, false, None, last_fio_ts) else
  '(ok, timeout, out) ← _run_bounded fio_cmd (fio_timeout_s s);
  if timeout : bool then mret (false, true, Some 0%Q, last_fio_ts)
  else if negb ok then mret (false, false, Some 0%Q, last_fio_ts)
  else
    data ← (mcall svc (Loads out) : JM (option json));
    match data ≫= gbps_of with
    | Some gbps => mret (true, false, Some gbps, Some (Fin now))
    | None => mret (false, false, Some 0%Q, last_fio_ts)
    end.

Definition result_json (timestamp : Q) (ok timeout : bool) (ping_ms : Q) (metadata_ms : option Q) (throughput last_fio_ts : json) : json :=
  JObj [("timestamp", JFloat timestamp); ("ok", JBool ok); ("timeout", JBool timeout); ("ping_ms", JFloat ping_ms);
        ("metadata_ms", json_opt JFloat metadata_ms); ("throughput_gbps", throughput); ("last_fio_ts", last_fio_ts); ("node", JStr (node_name s))]%string.
Definition write_result (data : json) : JM unit :=
  written ← (mcall svc (WriteResult data) : JM bool); if written : bool then mret tt else raise Crash.
(** [prev.get(k)] of what may be no dictionary. *)
Definition prev_get (prev : json) (k : string) : JM json := match get_of k prev with Some v => mret v | None => raise Crash end.
(** When the throughput was last measured; the first measurement is put off at random. *)
Definition last_fio (prev : json) : JM (option float) :=
  last ← prev_get prev "last_fio_ts";
  match (match last with JNull => None | j => float_of j end) with
  | None => if measures then
              now ← (mcall svc Clock : JM Q); back ← (mcall svc (Uniform (fio_interval_s s)) : JM Q); mret (Some (Fin (now - back)%Q))
            else mret None
  | Some t => mret (Some t)
  end.
(** The rate that was measured, or else the previous one as a number. *)
Definition rate_of (fio_gbps : option Q) (throughput : json) : JM json :=
  match fio_gbps with
  | Some gbps => mret (JFloat gbps)
  | None => match throughput with
            | JNull => mret JNull
            | j => match float_of j with Some f => mret (json_of f) | None => raise Crash end
            end
  end.
(** The rest of [main], once the mount is known to be responsive or not. *)
Definition conclude (prev : json) (last_fio_ts : option float) (ok : bool) (now ping_ms : Q) (meta_ms : option Q) : JM unit :=
  throughput ← prev_get prev "throughput_gbps";
  if negb ok then
    write_result (result_json now false true ping_ms meta_ms throughput (json_opt json_of last_fio_ts))
  else
    '(fio_ok, fio_timeout, fio_gbps, new_last_fio_ts) ← _check_throughput last_fio_ts;
    let last_fio_ts := match new_last_fio_ts with Some t => Some t | None => last_fio_ts end in
    throughput ← rate_of fio_gbps throughput;
    write_result (result_json now (fio_ok && negb fio_timeout) fio_timeout ping_ms meta_ms throughput (json_opt json_of last_fio_ts)).
Definition main : JM unit :=
  read ← (mcall svc Prev : JM (option json));
  let prev := default (JObj []) read in
  last_fio_ts ← last_fio prev;
  '(ping_ok, ping_timeout, ping_ms) ← _check_ping;
  '(meta_ok, meta_timeout, meta_ms) ← _check_metadata;
  let timeout := (ping_timeout || meta_timeout : bool) in
  let ok := ping_ok && meta_ok && negb timeout in
  now ← (mcall svc Clock : JM Q);
  conclude prev last_fio_ts ok now ping_ms meta_ms.
End Job.

(** ** The verdict *)

(** An event of a check that went well: a command that ended with 0, the file's with the
    checksum that it should have, and fio's output with a rate. *)
Definition fine (s : Settings) (e : Ev) : bool :=
  match e with
  | existT (Popen cmd _) a =>
      match (a : RunOut) with
      | Exited code out _ => (code =? 0) && (negb (bool_decide (cmd = ping_cmd s)) || String.eqb (checksum s) "" || checksum_ok s out)
      | _ => false
      end
  | existT (Loads _) a => match (a : option json) ≫= gbps_of with Some _ => true | None => false end
  | _ => true
  end.
(** One that makes the mount count as unresponsive: of fio only its time. *)
Definition unresponsive (s : Settings) (e : Ev) : bool :=
  match e with
  | existT (Popen cmd t) a =>
      if bool_decide (cmd = fio_cmd s) then match (a : RunOut) with TimeUp => true | _ => false end else negb (fine s (existT (Popen cmd t) a))
  | _ => false
  end.
Definition is_write (e : Ev) : bool := match e with existT (WriteResult _) _ => true | _ => false end.
Definition is_fio (s : Settings) (e : Ev) : bool := match e with existT (Popen cmd _) _ => bool_decide (cmd = fio_cmd s) | _ => false end.
(** Events without a result written and without fio. *)
Definition quiet (s : Settings) (t : list Ev) : Prop := forallb (fun e => negb (is_write e) && negb (is_fio s e)) t = true.
Lemma quiet_app s t t' : quiet s t -> quiet s t' -> quiet s (t ++ t').
Proof. unfold quiet. rewrite forallb_app. by intros -> ->. Qed.
Lemma quiet_cons s e t : negb (is_write e) && negb (is_fio s e) = true -> quiet s t -> quiet s (e :: t).
Proof. unfold quiet. cbn. by intros -> ->. Qed.
(** A check that was responsive just when all was fine. *)
Definition checked (s : Settings) (t : list Ev) (ok timeout : bool) : Prop :=
  quiet s t /\ forallb (fine s) t = ok && negb timeout /\ existsb (unresponsive s) t = negb (ok && negb timeout).

Section Verdict.
Context (svc : service Req Ans) (s : Settings).
Lemma wp_bounded cmd timeout u h (P : res Exc (bool * bool * string) -> unit -> list Ev -> Prop) :
  (forall r, P (match run_outcome r with Some o => Ok o | None => Err Crash end) u (h ++ [existT (Popen cmd timeout) r])) ->
  wp (_run_bounded svc cmd timeout) u h P.
Proof.
  intros HP. unfold _run_bounded. do 2 wp_step. specialize (HP (svc h (Popen cmd timeout))).
  destruct (run_outcome _); [by apply wp_ret|by apply wp_raise].
Qed.
Lemma ping_is_not_fio : bool_decide (ping_cmd s = fio_cmd s) = false.
Proof. apply bool_decide_eq_false_2. unfold ping_cmd, fio_cmd. by destruct (String.eqb _ ""). Qed.
Lemma checked_ping a b r : quiet s [existT Clock a; existT (Popen (ping_cmd s) (ping_timeout_s s)) r] /\
  match run_outcome r with
  | None => True
  | Some (ok, timeout, out) => checked s [existT Clock a; existT (Popen (ping_cmd s) (ping_timeout_s s)) r; existT Clock b]
      (ok && (timeout || String.eqb (checksum s) "" || checksum_ok s out)) timeout
  end.
Proof.
  unfold checked, quiet, is_fio, unresponsive. cbn -[bool_decide]. rewrite ping_is_not_fio, bool_decide_true by done. split; [done|].
  destruct r as [| |reason|code out err]; cbn -[bool_decide]; try done. by destruct (code =? 0), (String.eqb _ ""), (checksum_ok s out).
Qed.
Lemma wp_ping u h (P : res Exc (bool * bool * Q) -> unit -> list Ev -> Prop) :
  (forall t ok timeout ms, checked s t ok timeout -> P (Ok (ok, timeout, ms)) u (h ++ t)) ->
  (forall t, quiet s t -> P (Err Crash) u (h ++ t)) -> wp (_check_ping svc s) u h P.
Proof.
  intros HO HE. unfold _check_ping. do 3 wp_step. apply wp_bounded. intros r. destruct (checked_ping (svc h Clock) 0%Q r) as [Hq _].
  pose proof (fun b => proj2 (checked_ping (svc h Clock) b r)) as Hc.
  destruct (run_outcome r) as [[[ok timeout] out]|]; [|rewrite <- app_assoc; by apply HE]. cbv beta iota. do 2 wp_step. rewrite <- !app_assoc. cbn [app].
  set (b := svc _ Clock). specialize (Hc b). destruct ok, timeout; cbn [negb orb andb] in *; try (apply wp_ret; by apply HO).
  destruct (String.eqb (checksum s) ""), (checksum_ok s out); cbn [negb orb andb] in *; apply wp_ret; by apply HO.
Qed.
Lemma wp_metadata u h (P : res Exc (bool * bool * option Q) -> unit -> list Ev -> Prop) :
  (forall t ok timeout ms, checked s t ok timeout -> P (Ok (ok, timeout, ms)) u (h ++ t)) ->
  (forall t, quiet s t -> P (Err Crash) u (h ++ t)) -> wp (_check_metadata svc s) u h P.
Proof.
  intros HO HE. unfold _check_metadata. destruct (String.eqb (metadata_dir s) "").
  { apply wp_ret. specialize (HO [] true false None). rewrite app_nil_r in HO. by apply HO. }
  set (cmd := ["ls"; "-la"; metadata_dir s]%string).
  assert (Hp : bool_decide (cmd = ping_cmd s) = false) by (apply bool_decide_eq_false_2; unfold ping_cmd; by destruct (String.eqb _ "")).
  assert (Hf : bool_decide (cmd = fio_cmd s) = false) by (by apply bool_decide_eq_false_2).
  do 3 wp_step. unfold _run_subprocess. wp_step. apply wp_bounded. intros r. rewrite <- app_assoc. cbn [app].
  destruct (run_outcome r) as [[[ok timeout] out]|] eqn:E.
  - apply wp_ret. cbv beta iota. do 2 wp_step. rewrite <- app_assoc. apply wp_ret. apply HO. unfold checked, quiet, is_fio, unresponsive.
    cbn -[bool_decide]. rewrite Hf, Hp. destruct r as [| |reason|code o err]; try done; injection E as <- <- <-; try done.
    cbn. by destruct (code =? 0).
  - apply HE. unfold quiet, is_fio. cbn -[bool_decide]. by rewrite Hf.
Qed.
(** What a measurement leaves: its rate or not, and that it is made only when due. *)
Definition measured (last : option float) (t : list Ev) (ok timeout : bool) : Prop :=
  forallb (fun e => negb (is_write e)) t = true /\ forallb (fine s) t = ok && negb timeout /\ existsb (unresponsive s) t = timeout /\
  (existsb (is_fio s) t = true -> exists now t', t = existT Clock now :: t' /\ _fio_due s last now = true).
Lemma wp_throughput last u h (P : res Exc Throughput -> unit -> list Ev -> Prop) :
  (forall t ok timeout gbps last', measured last t ok timeout -> P (Ok (ok, timeout, gbps, last')) u (h ++ t)) ->
  (forall t, forallb (fun e => negb (is_write e)) t = true -> P (Err Crash) u (h ++ t)) -> wp (_check_throughput svc s last) u h P.
Proof.
  intros HO HE. unfold _check_throughput. do 2 wp_step. set (now := svc h Clock). destruct (_fio_due s last now) eqn:Ed; cbn [negb].
  2:{ apply wp_ret. apply HO. by split_and!. }
  wp_step. apply wp_bounded. intros r. rewrite <- app_assoc. cbn [app].
  assert (Hm : forall t ok timeout, forallb (fine s) t = ok && negb timeout -> existsb (unresponsive s) t = timeout ->
    forallb (fun e => negb (is_write e)) t = true -> head t = Some (existT Clock now) -> measured last t ok timeout).
  { intros t ok timeout H1 H2 H3 H4. split_and!; try done. intros _. destruct t as [|e t]; [done|]. injection H4 as ->. by exists now, t. }
  assert (Hp : bool_decide (fio_cmd s = ping_cmd s) = false).
  { rewrite <- ping_is_not_fio. by apply bool_decide_ext. }
  destruct r as [| |reason|code out err]; cbn [run_outcome].
  - by apply HE.
  - apply wp_ret. apply HO, Hm; try done. cbn -[bool_decide]. by rewrite bool_decide_true.
  - apply wp_ret. apply HO, Hm; try done. cbn -[bool_decide]. by rewrite bool_decide_true.
  - cbv beta iota. destruct (code =? 0) eqn:Ec; cbn [negb].
    + do 2 wp_step. rewrite <- app_assoc. cbn [app]. set (data := svc _ (Loads out)).
      destruct (data ≫= gbps_of) as [g|] eqn:Eg; apply wp_ret; apply HO, Hm; try done; cbn -[bool_decide]; rewrite ?Ec, ?Hp, ?Eg; try done.
      all: by rewrite bool_decide_true.
    + apply wp_ret. apply HO, Hm; try done; cbn -[bool_decide]; rewrite ?Ec; [done|by rewrite bool_decide_true].
Qed.
Lemma wp_prev_get prev k u h (P : res Exc json -> unit -> list Ev -> Prop) :
  (forall j, P (Ok j) u h) -> P (Err Crash) u h -> wp (prev_get prev k) u h P.
Proof. intros HO HE. unfold prev_get. destruct (get_of k prev); [by apply wp_ret|by apply wp_raise]. Qed.
(** Events that are nobody's fault. *)
Definition idle (t : list Ev) : Prop := checked s t true false.
Lemma wp_last_fio prev u h (P : res Exc (option float) -> unit -> list Ev -> Prop) :
  (forall t last, idle t -> P (Ok last) u (h ++ t)) -> P (Err Crash) u h -> wp (last_fio svc s prev) u h P.
Proof.
  intros HO HE. unfold last_fio. wp_step. apply wp_prev_get; [|exact HE]. intros j. cbv beta iota.
  destruct (match j with JNull => None | j => float_of j end) as [t|].
  - apply wp_ret. specialize (HO [] (Some t)). rewrite app_nil_r in HO. by apply HO.
  - destruct (measures s).
    + do 4 wp_step. rewrite <- app_assoc. apply wp_ret. by apply HO.
    + apply wp_ret. specialize (HO [] None). rewrite app_nil_r in HO. by apply HO.
Qed.
Lemma wp_rate g j u h (P : res Exc json -> unit -> list Ev -> Prop) : (forall j, P (Ok j) u h) -> P (Err Crash) u h -> wp (rate_of g j) u h P.
Proof.
  intros HO HE. unfold rate_of. destruct g; [by apply wp_ret|]. destruct j; try (by apply wp_ret).
  all: destruct (float_of _); [by apply wp_ret|by apply wp_raise].
Qed.

Lemma checked_app t t' ok timeout ok' timeout' : checked s t ok timeout -> checked s t' ok' timeout' ->
  checked s (t ++ t') (ok && ok') (timeout || timeout').
Proof.
  intros (H1 & H2 & H3) (H1' & H2' & H3'). unfold checked. rewrite forallb_app, existsb_app, H2, H2', H3, H3'.
  split; [by apply quiet_app|]. by destruct ok, timeout, ok', timeout'.
Qed.
Lemma checked_event e : negb (is_write e) && negb (is_fio s e) = true -> fine s e = true -> unresponsive s e = false -> idle [e].
Proof. unfold idle, checked, quiet. cbn [forallb existsb]. by intros -> -> ->. Qed.
(** A run's end: a result, or none and an error. *)
Definition ended (h : list Ev) (r : res Exc unit) (h' : list Ev) : Prop :=
  exists t, h' = h ++ t /\
    match r with
    | Err Crash => forallb (fun e => negb (is_write e)) (removelast t) = true /\ (forall data, last t <> Some (existT (WriteResult data) true))
    | Ok _ => exists data t0, t = t0 ++ [existT (WriteResult data) true] /\ forallb (fun e => negb (is_write e)) t0 = true /\
        jget "ok" data = JBool (forallb (fine s) t0) /\ jget "timeout" data = JBool (existsb (unresponsive s) t0) /\
        (existsb (is_fio s) t0 = true -> exists t1 t2 last now, t0 = t1 ++ existT Clock now :: t2 /\
           quiet s t1 /\ forallb (fine s) t1 = true /\ _fio_due s last now = true)
    end.
Lemma crashed h t : forallb (fun e => negb (is_write e)) t = true -> ended h (Err Crash) (h ++ t).
Proof.
  intros H. exists t. split; [done|]. split.
  - destruct t as [|e t] using rev_ind; [done|]. rewrite removelast_last. rewrite forallb_app in H. by apply andb_true_iff in H as [? _].
  - intros data Hl. destruct t as [|e t] using rev_ind; [done|]. rewrite last_snoc in Hl. injection Hl as ->.
    rewrite forallb_app in H. by apply andb_true_iff in H as [_ ?].
Qed.
Lemma quiet_no_write t : quiet s t -> forallb (fun e => negb (is_write e)) t = true.
Proof. unfold quiet. rewrite !forallb_forall. intros H e He. by apply H, andb_true_iff in He as [? _]. Qed.
Lemma quiet_no_fio t : quiet s t -> existsb (is_fio s) t = false.
Proof.
  unfold quiet. rewrite forallb_forall. intros H. apply not_true_iff_false. intros (e & He & Hf)%existsb_exists.
  apply H, andb_true_iff in He as [_ He]. by rewrite Hf in He.
Qed.
Lemma wp_write data t u h : forallb (fun e => negb (is_write e)) t = true ->
  ended h (Ok tt) ((h ++ t) ++ [existT (WriteResult data) true]) ->
  wp (write_result svc data) u (h ++ t) (fun r _ h' => ended h r h').
Proof.
  intros Ht HP. unfold write_result. do 2 wp_step. destruct (svc _ _) eqn:E; [by apply wp_ret|]. apply wp_raise. clear HP.
  exists (t ++ [existT (WriteResult data) false]). rewrite app_assoc. split; [done|]. rewrite removelast_last. split; [done|].
  intros d Hl. rewrite last_snoc in Hl. pose proof (f_equal (fun o => match o with Some (existT (WriteResult _) b) => b | _ => true end) Hl) as Hb. done.
Qed.
End Verdict.


Lemma wp_conclude svc s prev last now ping_ms meta_ms h T ok timeout : checked s T ok timeout ->
  wp (conclude svc s prev last (ok && negb timeout) now ping_ms meta_ms) tt (h ++ T) (fun r _ h' => ended s h r h').
Proof.
  intros (Hq & Hf & Hu). rewrite <- Hf in *. unfold conclude. wp_step. apply wp_prev_get; [|by apply crashed, (quiet_no_write s)]. intros thr. cbv beta iota.
  assert (Hw : forallb (fun e => negb (is_write e)) T = true) by (by apply (quiet_no_write s)).
  destruct (forallb (fine s) T) eqn:Ef; cbn [negb] in *.
  - wp_step. apply wp_throughput; [|intros t Ht; rewrite <- app_assoc; apply crashed; by rewrite forallb_app, Ht, Hw].
    intros t4 ok4 to4 g last4 (M1 & M2 & M3 & M4). rewrite <- app_assoc. cbv beta iota.
    assert (Hw4 : forallb (fun e => negb (is_write e)) (T ++ t4) = true) by (by rewrite forallb_app, M1, Hw).
    wp_step. apply wp_rate; [|by apply crashed]. intros rate. cbv beta iota. apply wp_write; [done|].
    eexists. split; [by rewrite <- app_assoc|]. eexists _, (T ++ t4). split; [done|]. split; [done|]. cbn. rewrite !forallb_app, !existsb_app, Ef, Hu, M2, M3.
    split_and!; [done|done|]. rewrite (quiet_no_fio s) by done. intros Hfio. destruct (M4 Hfio) as (n & t' & -> & Hdue). by exists T, t', last, n.
  - apply wp_write; [done|]. eexists. split; [by rewrite <- app_assoc|]. eexists _, T. split; [done|]. split; [done|].
    rewrite Ef, Hu. split_and!; [done|done|]. by rewrite (quiet_no_fio s).
Qed.
(** A check's verdict is what its commands say. A run writes one result, at its end, or
    none and fails; nothing is guessed. The mount is ok in it exactly if every command
    that was run ended with 0, the file has the checksum that it should have, and what fio
    says has a rate in it; it counts as timed out exactly if the file or the directory
    was not read in order, or fio's time was up; and fio runs only if it is due and after a
    file and a directory that were read in order. *)
Theorem verdict_exact svc s h : wp (main svc s) tt h (fun r _ h' => ended s h r h').
Proof.
  assert (Hcrash : forall t, quiet s t -> ended s h (Err Crash) (h ++ t)) by (intros t Ht; by apply crashed, (quiet_no_write s)).
  unfold main. do 3 wp_step. set (read := svc h Prev). assert (H0 : idle s [existT Prev read]) by (by apply checked_event).
  apply wp_last_fio; [|by apply Hcrash, H0]. intros t1 last H1. rewrite <- app_assoc. pose proof (checked_app _ _ _ _ _ _ _ H0 H1) as HT1. cbv beta iota.
  wp_step. apply wp_ping; [|intros t Ht; rewrite <- app_assoc; apply Hcrash, quiet_app; [apply HT1|done]]. intros t2 ok2 to2 ms2 H2.
  rewrite <- app_assoc. pose proof (checked_app _ _ _ _ _ _ _ HT1 H2) as HT2. cbv beta iota.
  wp_step. apply wp_metadata; [|intros t Ht; rewrite <- app_assoc; apply Hcrash, quiet_app; [apply HT2|done]]. intros t3 ok3 to3 ms3 H3.
  rewrite <- app_assoc. pose proof (checked_app _ _ _ _ _ _ _ HT2 H3) as HT3. cbv beta iota.
  do 2 wp_step. set (now := svc _ Clock). assert (Hc : idle s [existT Clock now]) by (by apply checked_event). rewrite <- app_assoc.
  pose proof (checked_app _ _ _ _ _ _ _ HT3 Hc) as HT. cbn [andb orb] in HT. rewrite andb_true_r, orb_false_r in HT. cbv zeta.
  exact (wp_conclude svc s _ last now ms2 ms3 h _ _ _ HT).
Qed.
