(* ===== verification/NodeAgent.v ===== *)
(** The supervisor of a mount's checks, [docker/af-node-monitor/probe_agent.py]: each cycle
    runs the check ([NodeJob]) as a child under a deadline, takes over the result of a
    child that ended well, and serves the latest verdict. The reader of a file through
    XCache, [xcache_probe.py], is here as well. *)
From S2P Require Import Prelude PyJson PyText PyValue.
Open Scope Z_scope.

(** ** The supervisor *)

(** The verdict that the server's thread serves, the pod's Ready marker, [result.json] and
    the files of the attempts. A file that [json.load] cannot read is [None]. *)
Record Agent := mkAgent { published : option json; ready : bool; stored : option (option json); attempts : list (string * option json) }.
#[export] Instance eta_agent : Eta Agent := {| eta_of := fun a => mkAgent (published a) (ready a) (stored a) (attempts a) |}.

(** How a child's output is waited for: to its end, in vain, or with an error. *)
Inductive Wait := Ended (code : Z) | Expired | Broke.
(** What a call of the file system or of a process answers. [Spawn] and [Communicate] also
    tell which attempt files children have written meanwhile, each its own. *)
Inductive Req :=
| ReapOrphans | Touch (heartbeat : bool) | ClearReady | ListAttempts | Sweep (name : string) | MakeAttempts
| Spawn (attempt : string) | Communicate (attempt : string) (timeout : Q) | AfterKill (attempt : string) (timeout : Q)
| WriteResult (data : json) | Promote (attempt : string)
| Clock | Uniform (hi : Q) | Sleep (seconds : Q) | ReadCode | Pid.
Definition Ans (r : Req) : Type :=
  match r with
  | ReapOrphans | Sleep _ => unit
  | Touch _ | ClearReady | ListAttempts | Sweep _ | MakeAttempts | Spawn _ | AfterKill _ _ | WriteResult _ | Promote _ => bool
  | Communicate _ _ => Wait * list (string * option json)
  | Clock | Uniform _ => Q
  | ReadCode => option string
  | Pid => Z
  end%type.
Definition Ev : Type := sigT Ans.
Inductive Exc := Raised.
Definition AM (A : Type) : Type := M Ev Agent Exc A.
Inductive Outcome := Verdict | Timeout | Failed.

Definition attempt_path (pid seq : Z) : string := (pretty pid ++ "-" ++ pretty seq ++ ".json")%string.
(** [load_json]: nothing where the file is not there or cannot be read. *)
Definition load_json (file : option (option json)) : json := match file with Some (Some j) => j | _ => JObj [] end.
(** [prev.get(k)], of what may be no dictionary. *)
Definition timeout_result (node_name : string) (now : Q) (prev : json) : option json :=
  throughput ← get_of "throughput_gbps" prev; last ← get_of "last_fio_ts" prev;
  Some (JObj [("timestamp", JFloat now); ("ok", JBool false); ("timeout", JBool true); ("ping_ms", JNull); ("metadata_ms", JNull);
              ("throughput_gbps", throughput); ("last_fio_ts", last); ("node", JStr node_name)]%string).

Section Agent.
Context (svc : service Req Ans) (node_name : string) (interval deadline jitter_s kill_grace : Q).

(** [touch] and [set_ready] never raise: an [OSError] is only logged. *)
Definition touch_heartbeat : AM unit := (mcall svc (Touch true) : AM bool) ≫= fun _ => mret tt.
Definition set_ready (r : bool) : AM unit :=
  if r then touched ← (mcall svc (Touch false) : AM bool); if touched : bool then mmod (fun a => a <| ready := true |>) else mret tt
  else cleared ← (mcall svc ClearReady : AM bool); if cleared : bool then mmod (fun a => a <| ready := false |>) else mret tt.
Definition keep_name (keep name : string) : bool := String.eqb name keep || String.eqb name (keep ++ ".tmp").
(** Each other file, unless it cannot be removed; none where the directory cannot be listed. *)
Fixpoint sweep_each (l : list (string * option json)) : AM unit :=
  match l with
  | [] => mret tt
  | (name, _) :: l' =>
      removed ← (mcall svc (Sweep name) : AM bool);
      (if removed : bool then mmod (fun a => a <| attempts := ddel name (attempts a) |>) else mret tt) ≫= fun _ => sweep_each l'
  end.
Definition sweep_attempts (keep : string) : AM unit :=
  listed ← (mcall svc ListAttempts : AM bool);
  if negb listed then mret tt else
  a ← mget; sweep_each (List.filter (fun f => negb (keep_name keep f.1)) (attempts a)).
Definition publish (data : json) : AM unit := mmod (fun a => a <| published := Some data |>).
Definition children_write (files : list (string * option json)) : AM unit := mmod (fun a => a <| attempts := dupdate (attempts a) files |>).

(** A check whose time is up: its result says so. *)
Definition give_timeout : AM Outcome :=
  a ← mget;
  now ← (mcall svc Clock : AM Q);
  match timeout_result node_name now (load_json (stored a)) with
  | None => raise Raised
  | Some result =>
      written ← (mcall svc (WriteResult result) : AM bool);
      if negb written then mret Failed else
      mmod (fun a => a <| stored := Some (Some result) |>) ≫= fun _ => publish result ≫= fun _ => mret Timeout
  end.
(** A check that ended well: its own file becomes the result. *)
Definition promote (attempt : string) : AM Outcome :=
  a ← mget;
  let result := load_json (dget attempt (attempts a)) in
  if negb (truthy result) then mret Failed else
  if negb (is_obj result) then raise Raised else
  replaced ← (mcall svc (Promote attempt) : AM bool);
  if negb replaced then mret Failed else
  mmod (fun a => (a <| stored := Some (Some result) |>) <| attempts := ddel attempt (attempts a) |>) ≫= fun _ =>
  publish result ≫= fun _ => mret Verdict.
Definition run_attempt (seq : Z) : AM Outcome :=
  pid ← (mcall svc Pid : AM Z);
  let attempt := attempt_path pid seq in
  sweep_attempts attempt ≫= fun _ =>
  made ← (mcall svc MakeAttempts : AM bool);
  if negb made then mret Failed else
  started ← (mcall svc (Spawn attempt) : AM bool);
  if negb started then mret Failed else
  '(ended, files) ← (mcall svc (Communicate attempt deadline) : AM (Wait * list (string * option json)));
  children_write files ≫= fun _ =>
  match ended with
  | Broke => mret Failed
  | Expired => (mcall svc (AfterKill attempt kill_grace) : AM bool) ≫= fun _ => give_timeout
  | Ended code => if negb (code =? 0) then mret Failed else promote attempt
  end.
Definition cycle (seq : Z) : AM Outcome :=
  (mcall svc ReapOrphans : AM unit) ≫= fun _ =>
  touch_heartbeat ≫= fun _ =>
  outcome ← mcatch (run_attempt seq) (fun _ => mret Failed);
  set_ready (match outcome with Failed => false | _ => true end) ≫= fun _ =>
  touch_heartbeat ≫= fun _ => mret outcome.
Definition start : AM unit :=
  set_ready false ≫= fun _ =>
  touch_heartbeat ≫= fun _ =>
  a ← mget;
  let prev := load_json (stored a) in
  if truthy prev then publish prev else mret tt.
(** What the server's thread answers: a status and a body. *)
Definition do_GET (a : Agent) (path : string) : Z * option json :=
  match (if String.eqb path "/result" then published a else None) with Some body => (200, Some body) | None => (404, None) end.
Definition read_code : AM string := a ← (mcall svc ReadCode : AM (option string)); match a with Some c => mret c | None => raise Raised end.
(** [cycles] of the loop; [true] once the code has changed. *)
Fixpoint probe_loop (cycles : nat) (seq : Z) (jitter : Q) (running : string) : AM bool :=
  match cycles with
  | O => mret false
  | S cycles =>
      code ← read_code;
      if negb (String.eqb code running) then mret true else
      started ← (mcall svc Clock : AM Q);
      cycle seq ≫= fun _ =>
      let delay := (interval + (if seq =? 0 then jitter else 0))%Q in
      now ← (mcall svc Clock : AM Q);
      (mcall svc (Sleep (Qmax 0 (started + delay - now))) : AM unit) ≫= fun _ =>
      probe_loop cycles (seq + 1) jitter running
  end.
Definition main (cycles : nat) : AM bool :=
  running ← read_code;
  start ≫= fun _ =>
  jitter ← (mcall svc (Uniform jitter_s) : AM Q);
  probe_loop cycles 0 jitter running.
End Agent.

(** ** A cycle *)

(** A child that ends with 0 has written its own file, as [NodeJob.verdict_exact] has it of
    the check. *)
Definition child_writes (svc : service Req Ans) : Prop :=
  forall h attempt d files, svc h (Communicate attempt d) = (Ended 0, files) -> NoDup files.*1 /\ is_Some (dget attempt files).
Lemma dget_dupdate {K V} `{EqDecision K} (k : K) (d d' : list (K * V)) : NoDup d'.*1 ->
  dget k (dupdate d d') = match dget k d' with Some v => Some v | None => dget k d end.
Proof.
  unfold dupdate. revert d. induction d' as [|[k' v'] d' IH]; intros d; [done|]. rewrite fmap_cons. intros [Hni Hnd]%NoDup_cons.
  cbn [foldl fst snd dget]. rewrite IH by done. case_decide as Hk.
  - subst k'. destruct (dget k d') eqn:E; [|by rewrite dget_dset]. apply dget_elem in E. exfalso. apply Hni. apply list_elem_of_fmap. by exists (k, v).
  - destruct (dget k d'); [done|]. by apply dget_dset_ne.
Qed.
(** What an attempt's outcome says of what is served and stored. *)
Definition truthful (a a' : Agent) (node_name : string) (deadline : Q) (outcome : Outcome) (t : list Ev) : Prop :=
  match outcome with
  | Failed => published a' = published a /\ stored a' = stored a
  | Timeout => exists attempt files now v, existT (Communicate attempt deadline) (Expired, files) ∈ t /\
      timeout_result node_name now (load_json (stored a)) = Some v /\ published a' = Some v /\ stored a' = Some (Some v)
  | Verdict => exists attempt files v, existT (Communicate attempt deadline) (Ended 0, files) ∈ t /\ dget attempt files = Some (Some v) /\
      is_obj v = true /\ truthy v = true /\ published a' = Some v /\ stored a' = Some (Some v)
  end.
(** The same but for the files of the attempts, and the marker. *)
Definition same_verdict (a a' : Agent) : Prop := published a' = published a /\ stored a' = stored a.

Section Cycle.
Context (svc : service Req Ans) (node_name : string) (deadline kill_grace : Q) (writes : child_writes svc).
(** A run that leaves the verdict and the marker, whatever it does else. *)
Definition leaves (a a' : Agent) : Prop := same_verdict a a' /\ ready a' = ready a.
Lemma wp_sweep_each l a h (P : res Exc unit -> Agent -> list Ev -> Prop) :
  (forall a' t, leaves a a' -> P (Ok tt) a' (h ++ t)) -> wp (sweep_each svc l) a h P.
Proof.
  revert a h. induction l as [|[name f] l IH]; intros a h HP; cbn [sweep_each].
  - apply wp_ret. specialize (HP a []). rewrite app_nil_r in HP. by apply HP.
  - do 3 wp_step. destruct (svc h (Sweep name)); cbv beta iota; [apply wp_mod|apply wp_ret]; cbv beta iota; apply IH; intros a' t Ha;
      rewrite <- app_assoc; by apply HP.
Qed.
Lemma wp_sweep keep a h (P : res Exc unit -> Agent -> list Ev -> Prop) :
  (forall a' t, leaves a a' -> P (Ok tt) a' (h ++ t)) -> wp (sweep_attempts svc keep) a h P.
Proof.
  intros HP. unfold sweep_attempts. do 2 wp_step. destruct (svc h ListAttempts); cbn [negb]; [|by apply wp_ret, HP].
  wp_step. apply wp_get. cbv beta iota. apply wp_sweep_each. intros a' t Ha. rewrite <- app_assoc. by apply HP.
Qed.
(** The end of an attempt: after [a0] some files of attempts were written. *)
Definition attempted (a0 : Agent) (h : list Ev) (r : res Exc Outcome) (a' : Agent) (h' : list Ev) : Prop :=
  ready a' = ready a0 /\ exists t, h' = h ++ t /\
    match r with Ok outcome => truthful a0 a' node_name deadline outcome t | Err Raised => same_verdict a0 a' end.
Lemma attempted_leaves a0 a h r a' h' : leaves a0 a -> attempted a h r a' h' -> attempted a0 h r a' h'.
Proof.
  intros [[H1 H2] H3] (Hr & t & -> & H). split; [congruence|]. exists t. split; [done|].
  destruct r as [[]|[]]; cbn in *; unfold same_verdict in *; rewrite ?H1, ?H2 in H; done.
Qed.
Lemma wp_timeout a h attempt files (e := existT (Communicate attempt deadline) (Expired, files) : Ev) t :
  e ∈ t -> wp (give_timeout svc node_name) a (h ++ t) (attempted a h).
Proof.
  intros He. unfold give_timeout. wp_step. apply wp_get. cbv beta iota. do 2 wp_step. set (now := svc _ Clock).
  destruct (timeout_result _ _ _) as [v|] eqn:Ev'.
  2:{ apply wp_raise. split; [done|]. eexists. split; [by rewrite <- app_assoc|done]. }
  do 2 wp_step. destruct (svc _ (WriteResult v)); cbn [negb].
  2:{ apply wp_ret. split; [done|]. eexists. split; [by rewrite <- !app_assoc|done]. }
  wp_step. apply wp_mod. cbv beta iota. unfold publish. wp_step. apply wp_mod. cbv beta iota. apply wp_ret. split; [done|].
  eexists. split; [by rewrite <- !app_assoc|]. exists attempt, files, now, v. split; [|done]. apply elem_of_app. by left.
Qed.
Lemma wp_promote a h attempt files (e := existT (Communicate attempt deadline) (Ended 0, files) : Ev) t :
  e ∈ t -> dget attempt (attempts a) = dget attempt files -> wp (promote svc attempt) a (h ++ t) (attempted a h).
Proof.
  intros He Hd. unfold promote. wp_step. apply wp_get. cbv beta iota zeta. rewrite Hd.
  destruct (truthy _) eqn:Et; cbn [negb]; [|apply wp_ret; split; [done|]; by exists t].
  destruct (is_obj _) eqn:Eo; cbn [negb]; [|apply wp_raise; split; [done|]; by exists t].
  do 2 wp_step. destruct (svc _ (Promote attempt)); cbn [negb].
  2:{ apply wp_ret. split; [done|]. eexists. split; [by rewrite <- app_assoc|done]. }
  wp_step. apply wp_mod. cbv beta iota. unfold publish. wp_step. apply wp_mod. cbv beta iota. apply wp_ret. split; [done|].
  eexists. split; [by rewrite <- !app_assoc|]. exists attempt, files, (load_json (dget attempt files)). split; [apply elem_of_app; by left|].
  split_and!; try done. destruct (dget attempt files) as [[v|]|]; done.
Qed.
Lemma wp_run_attempt seq a h : wp (run_attempt svc node_name deadline kill_grace seq) a h (attempted a h).
Proof.
  unfold run_attempt. do 2 wp_step. set (attempt := attempt_path _ seq). wp_step. apply wp_sweep. intros a1 t1 H1. rewrite <- app_assoc. cbv beta iota.
  set (t := _ ++ t1). do 2 wp_step. destruct (svc _ MakeAttempts); cbn [negb].
  2:{ rewrite <- app_assoc. apply wp_ret. destruct H1 as [H1 Hr]. split; [done|]. by eexists. }
  do 2 wp_step. destruct (svc _ (Spawn attempt)); cbn [negb].
  2:{ rewrite <- !app_assoc. apply wp_ret. destruct H1 as [H1 Hr]. split; [done|]. by eexists. }
  do 2 wp_step. rewrite <- !app_assoc. set (hist := h ++ _). pose proof (writes hist attempt deadline) as Hw.
  destruct (svc hist _) as [ended files]. set (e := existT (Communicate attempt deadline) (ended, files) : Ev). set (t2 := t ++ _).
  assert (He : e ∈ t2) by (unfold t2; rewrite !elem_of_app; right; right; right; by left). unfold children_write. wp_step. apply wp_mod. cbv beta iota.
  set (a2 := a1 <| attempts := dupdate (attempts a1) files |>). assert (H2 : leaves a a2) by exact H1.
  assert (Hfail : attempted a h (Ok Failed) a2 (h ++ t2)) by (apply (attempted_leaves a a2); [done|]; split; [done|]; by exists t2).
  destruct ended as [code| |]; [|do 2 wp_step; rewrite <- app_assoc|by apply wp_ret].
  - destruct (code =? 0) eqn:Ec; cbn [negb]; [|by apply wp_ret]. apply Z.eqb_eq in Ec as ->. destruct (Hw files eq_refl) as [Hnd [v Hv]].
    eapply wp_mono; [apply (wp_promote a2 h attempt files t2 He)|intros r a' h'; by apply attempted_leaves].
    unfold a2. cbn. by rewrite dget_dupdate, Hv.
  - eapply wp_mono; [apply (wp_timeout a2 h attempt files)|intros r a' h'; by apply attempted_leaves]. apply elem_of_app. by left.
Qed.

Lemma wp_heartbeat a h (P : res Exc unit -> Agent -> list Ev -> Prop) :
  (forall b, P (Ok tt) a (h ++ [existT (Touch true) b])) -> wp (touch_heartbeat svc) a h P.
Proof. intros HP. unfold touch_heartbeat. do 2 wp_step. apply wp_ret, HP. Qed.
Lemma wp_set_ready b a h (P : res Exc unit -> Agent -> list Ev -> Prop) :
  (forall a' t, same_verdict a a' -> ready a' = b \/ (if b then existT (Touch false) false ∈ t else existT ClearReady false ∈ t) -> P (Ok tt) a' (h ++ t)) ->
  wp (set_ready svc b) a h P.
Proof.
  intros HP. unfold set_ready. destruct b; do 2 wp_step.
  - destruct (svc h (Touch false)) eqn:E; [apply wp_mod|apply wp_ret]; apply HP; try done; [by left|right; by left].
  - destruct (svc h ClearReady) eqn:E; [apply wp_mod|apply wp_ret]; apply HP; try done; [by left|right; by left].
Qed.
(** How a cycle ends. *)
Definition cycled (a : Agent) (h : list Ev) (r : res Exc Outcome) (a' : Agent) (h' : list Ev) : Prop := exists outcome t,
  r = Ok outcome /\ h' = h ++ t /\ truthful a a' node_name deadline outcome t /\
  match outcome with
  | Failed => ready a' = false \/ existT ClearReady false ∈ t
  | _ => ready a' = true \/ existT (Touch false) false ∈ t
  end.
(** What is served is what was checked. A cycle never raises. It serves a new verdict
    only if its own child ended with 0 within the deadline, and then exactly the one
    that this child wrote; or if the time was up, and then a timeout, with the rate of
    before; what it serves it has stored. In any other case, whatever broke, what is served
    and stored stays what it was. The marker is set after a verdict and cleared after a
    failure, unless the file system refuses. *)
Theorem cycle_truthful seq a h : wp (cycle svc node_name deadline kill_grace seq) a h (cycled a h).
Proof.
  unfold cycle. do 3 wp_step. apply wp_heartbeat. intros b0. cbv beta iota. rewrite <- app_assoc.
  set (h0 := h ++ _). assert (Hh : forall t : list Ev, exists t', h0 ++ t = h ++ t' /\ (forall e, e ∈ t -> e ∈ t')).
  { intros t. eexists. split; [unfold h0; by rewrite <- app_assoc|]. intros e He. apply elem_of_app. by right. }
  do 2 wp_step. eapply wp_mono; [apply (wp_run_attempt seq a h0)|]. intros r a1 h1 (Hr & t & -> & Hcase).
  assert (Hend : forall outcome, truthful a a1 node_name deadline outcome t ->
    wp (set_ready svc (match outcome with Failed => false | _ => true end) ≫= fun _ => touch_heartbeat svc ≫= fun _ => mret outcome) a1 (h0 ++ t) (cycled a h)).
  { intros outcome Ht. wp_step. apply wp_set_ready. intros a2 t2 Hs Hm. cbv beta iota. wp_step. apply wp_heartbeat. intros b1. apply wp_ret.
    rewrite <- !app_assoc. destruct (Hh (t ++ t2 ++ [existT (Touch true) b1])) as (t' & -> & Hin). exists outcome, t'. split; [done|]. split; [done|].
    destruct Hs as [Hs1 Hs2]. split.
    - destruct outcome; cbn in *; rewrite ?Hs1, ?Hs2.
      + destruct Ht as (att & fs & v & He & Ht). exists att, fs, v. split; [apply Hin, elem_of_app; by left|done].
      + destruct Ht as (att & fs & now & v & He & Ht). exists att, fs, now, v. split; [apply Hin, elem_of_app; by left|done].
      + done.
    - assert (Hin2 : forall e, e ∈ t2 -> e ∈ t') by (intros e He; apply Hin; rewrite !elem_of_app; auto).
      destruct outcome; (destruct Hm as [Hm|Hm]; [by left|right; by apply Hin2]). }
  destruct r as [outcome|[]]; [by apply Hend|]. apply wp_ret. by apply (Hend Failed).
Qed.
End Cycle.
(** The child of the witness ends well each time, with a result of its own. *)
Definition well (h : list Ev) (r : Req) : Ans r :=
  match r with
  | Communicate attempt _ => (Ended 0, [(attempt, Some (JObj [("ok"%string, JBool true)]))])
  | Clock | Uniform _ => 0%Q
  | ReadCode => Some "code"%string
  | Pid => 1
  | ReapOrphans | Sleep _ => tt
  | Touch _ | ClearReady | ListAttempts | Sweep _ | MakeAttempts | Spawn _ | AfterKill _ _ | WriteResult _ | Promote _ => true
  end.
Definition agent0 : Agent := mkAgent None false None [("1-9.json"%string, None)].
Lemma cycle_truthful_witness :
  (cycle well "n" 180 5 3 agent0 []).1.1 = Ok Verdict /\ cycled "n" 180 agent0 [] (Ok Verdict)
    (cycle well "n" 180 5 3 agent0 []).1.2 (cycle well "n" 180 5 3 agent0 []).2.
Proof.
  assert (Hw : child_writes well).
  { intros h attempt d files H. injection H as <-. split; [apply NoDup_singleton|]. cbn. case_decide; [by eexists|done]. }
  pose proof (cycle_truthful well "n" 180 5 Hw 3 agent0 []) as H. unfold wp in H.
  split; [vm_compute; reflexivity|]. revert H. generalize (eq_refl (cycle well "n" 180 5 3 agent0 []).1.1).
  change ((cycle well "n" 180 5 3 agent0 []).1.1) with (Ok Verdict : res Exc Outcome) at 2. destruct (cycle well "n" 180 5 3 agent0 []) as [[r a'] h'].
  cbn [fst snd]. intros ->. done.
Defined.

(** ** Reading through XCache *)
Module Xcache.
Inductive Read := NoClient | TimeUp | Done (code : Z).
Inductive XReq := Monotonic | Time | Xrdcp (url : string) (timeout : Q) | XSleep (seconds : Q) | XCode.
Definition XAns (r : XReq) : Type :=
  match r with Monotonic | Time => Q | Xrdcp _ _ => Read | XSleep _ => unit | XCode => option string end.
(** The gauges, unset at first. *)
Record Gauges := mkGauges { read_ok : option bool; read_duration : option Q; last_read_ts : option Q }.
Definition XM (A : Type) : Type := M (sigT XAns) Gauges Exc A.
Section Xcache.
Context (svc : service XReq XAns) (url : string) (read_timeout interval : Q).
Definition read_file : XM (option bool) :=
  r ← (mcall svc (Xrdcp url read_timeout) : XM Read);
  mret (match r with NoClient => None | TimeUp => Some false | Done code => Some (code =? 0) end).
Definition probe_once : XM unit :=
  started ← (mcall svc Monotonic : XM Q);
  verdict ← read_file;
  match verdict with
  | None => mret tt
  | Some ok =>
      finished ← (mcall svc Monotonic : XM Q);
      now ← (mcall svc Time : XM Q);
      mput (mkGauges (Some ok) (Some (finished - started)%Q) (Some now))
  end.
Definition xcache_code : XM string := a ← (mcall svc XCode : XM (option string)); match a with Some c => mret c | None => raise Raised end.
Fixpoint xcache_loop (reads : nat) (running : string) : XM bool :=
  match reads with
  | O => mret false
  | S reads =>
      code ← xcache_code;
      if negb (String.eqb code running) then mret true else
      probe_once ≫= fun _ => (mcall svc (XSleep interval) : XM unit) ≫= fun _ => xcache_loop reads running
  end.
Definition xcache_main (reads : nat) : XM bool := running ← xcache_code; xcache_loop reads running.
(** The three gauges are set together, and a client that is missing is no failed read. *)
Lemma probe_once_gauges g h : wp probe_once g h (fun r g' _ => r = Ok tt /\
  (g' = g \/ exists ok d t, g' = mkGauges (Some ok) (Some d) (Some t))).
Proof.
  unfold probe_once, read_file. do 6 wp_step. destruct (svc _ (Xrdcp _ _)) as [| |code]; [apply wp_ret; auto| |].
  all: do 4 wp_step; apply wp_put; eauto 10.
Qed.
End Xcache.
End Xcache.
