(* ===== verification/NodeProbe.v ===== *)
(** What the node monitor reads of Kubernetes and of its probes,
    [docker/af-node-monitor/node_healthcheck.py]: nodes, probe pods and Flux objects. *)
From S2P Require Import Prelude PyJson PyText PyValue.
Open Scope Z_scope.

(** ** Settings *)

(** The settings that the environment may give. *)
Record Settings := mkSettings {
  PING_TIMEOUT_S : Q; METADATA_TIMEOUT_S : Q; POD_NAMESPACE : string;
  RESULT_STALE_WINDOW_S : Q; CLOCK_SKEW_TOLERANCE_S : Q; NODE_CACHE_TTL_S : Q; POD_CACHE_TTL_S : Q;
  REGISTRY_URL : string; MOUNT_SETUP_GRACE_S : Q; MOUNT_SETUP_RESTARTS : Z; CHECK_INTERVAL_S : Q }.
Definition default_settings : Settings := mkSettings 3 10 "default" 1800 300 300 300 "" 600 3 60.
Definition MOUNTS : list string := ["/depot/"; "/work/"; "eos"; "cvmfs"]%string.
Definition DEFAULT_PROBE_PORT : Z := 8080.
Definition FLUX_KINDS : list (string * (string * string * string)) :=
  [("Kustomization", ("kustomize.toolkit.fluxcd.io", "v1", "kustomizations"));
   ("GitRepository", ("source.toolkit.fluxcd.io", "v1", "gitrepositories"));
   ("HelmRelease", ("helm.toolkit.fluxcd.io", "v2", "helmreleases"))]%string.

Definition is_slash (c : ascii) : bool := Ascii.eqb c "/".
Definition sanitized_mount_name (name : string) : string :=
  let t := str_replace "/" "_" (str_strip_of is_slash name) in
  if String.eqb t "" then "root"%string else t.

(** ** Nodes *)

(** A condition's type and status. *)
Definition Conditions := list (string * string).
Record NodeObj := mkNodeObj { n_name : string; n_conditions : Conditions }.
Definition node_is_ready (node : NodeObj) : bool :=
  existsb (fun c => String.eqb c.1 "Ready" && String.eqb c.2 "True") (n_conditions node).
(** The nodes of one pool, after those already found: a node of both is production. *)
Definition add_nodes (pool : string) (acc : list (string * (string * bool))) (nodes : list NodeObj)
    : list (string * (string * bool)) :=
  foldl (fun acc n =>
    if String.eqb (n_name n) "" || dhas (n_name n) acc then acc
    else dset (n_name n) (pool, node_is_ready n) acc) acc nodes.
Definition nodes_by_name (prod dev : list NodeObj) : list (string * (string * bool)) :=
  add_nodes "dev" (add_nodes "prod" [] prod) dev.
Definition other_pool (pool : string) : string := if String.eqb pool "prod" then "dev" else "prod".

(** A row of [_af_nodes_cache]: the node, its pool and whether it is Ready. *)
Definition Row : Type := string * string * bool.
Fixpoint insert_row (r : Row) (l : list Row) : list Row :=
  match l with
  | [] => [r]
  | x :: l' => if String.ltb r.1.1 x.1.1 then r :: l else x :: insert_row r l'
  end.
Definition rows_of (by_name : list (string * (string * bool))) : list Row :=
  foldl (fun acc n => insert_row (n.1, n.2.1, n.2.2) acc) [] by_name.

(** ** Probe pods *)

(** A container's status: whether it runs, why it waits, why it ended last, its restarts. *)
Record CStatus := mkCStatus { cs_running : bool; cs_waiting : string; cs_terminated : string; cs_restarts : Z }.
Record PodObj := mkPodObj {
  pd_labels : list (string * string); pd_deleting : bool; pd_created : option Q; pd_node : string;
  pd_ports : list (list (string * Z)); pd_phase : string; pd_ip : string;
  pd_conditions : Conditions; pd_statuses : list CStatus }.
Record Probe := mkProbe { pr_ready : bool; pr_ip : string; pr_port : Z; pr_setup_failed : bool }.
#[export] Instance eta_Probe : Eta Probe := {| eta_of r :=
  mkProbe (pr_ready r) (pr_ip r) (pr_port r) (pr_setup_failed r) |}.
Definition probe0 : Probe := mkProbe false "" DEFAULT_PROBE_PORT false.
(** A probe's mount and node. *)
Definition Key : Type := string * string.
Definition Probes := list (Key * Probe).

Definition probe_pod_ready (pod : PodObj) : bool :=
  negb (pd_deleting pod) && String.eqb (pd_phase pod) "Running"
  && match dget "Ready" (pd_conditions pod) with Some s => String.eqb s "True" | None => false end.
Definition probe_port (pod : PodObj) : Z := dget_or "http" DEFAULT_PROBE_PORT (concat (pd_ports pod)).

Section Setup.
Context (cf : Settings).

Definition bind_failed (c : CStatus) : bool :=
  negb (cs_running c) && (String.eqb (cs_waiting c) "RunContainerError" || String.eqb (cs_terminated c) "ContainerCannotRun")
  && (MOUNT_SETUP_RESTARTS cf <=? cs_restarts c).
Definition mount_setup_failed (pod : PodObj) (now : Q) : bool :=
  if pd_deleting pod then false else
  let waited := match pd_created pod with Some t => (now - t)%Q | None => 0%Q end in
  (String.eqb (pd_phase pod) "Pending"
   && existsb (fun c => String.eqb c.1 "PodReadyToStartContainers" && String.eqb c.2 "False"
                        && (waited >?q MOUNT_SETUP_GRACE_S cf)) (pd_conditions pod))
  || existsb bind_failed (pd_statuses pod).

(** One pod of the list: of two for one node, the one that is Ready wins. *)
Definition probe_step (now : Q) (acc : Probes * list (Key * bool)) (pod : PodObj) : Probes * list (Key * bool) :=
  let '(probes, failed) := acc in
  let mount := dget_or "mount" ""%string (pd_labels pod) in
  if String.eqb mount "" || String.eqb (pd_node pod) "" then acc else
  let key := (mount, pd_node pod) in
  let probe := dget_or key probe0 probes in
  let ready := probe_pod_ready pod in
  let probe :=
    if negb (String.eqb (pd_ip pod) "") && negb (pd_deleting pod) && (ready || String.eqb (pr_ip probe) "")
    then probe <| pr_ip := pd_ip pod |> <| pr_port := probe_port pod |> else probe in
  (dset key (probe <| pr_ready := pr_ready probe || ready |>) probes,
   dset key (dget_or key false failed || mount_setup_failed pod now) failed).
Definition probes_of (now : Q) (pods : list PodObj) : Probes :=
  let '(probes, failed) := foldl (probe_step now) ([], []) pods in
  map (fun kp => (kp.1, kp.2 <| pr_setup_failed := dget_or kp.1 false failed && negb (pr_ready kp.2) |>)) probes.
End Setup.

(** ** Flux *)

(** [None] where it raises. *)
Fixpoint any_ready (conditions : list json) : option bool :=
  match conditions with
  | [] => Some false
  | c :: rest =>
      guard (is_obj c = true);;
      if jeq_str (jget "type" c) "Ready" && jeq_str (jget "status" c) "True" then Some true else any_ready rest
  end.
Definition flux_object_ready (item : json) : option bool :=
  let spec := jget_or "spec" (JObj []) item in
  guard (is_obj spec = true);;
  if truthy (jget "suspend" spec) then Some false else
  let status := jget_or "status" (JObj []) item in
  guard (is_obj status = true);;
  match jget_or "conditions" (JArr []) status with
  | JArr l => any_ready l
  | _ => None
  end.
Definition flux_name (item : json) : option string :=
  metadata ← item_of "metadata" item; name ← item_of "name" metadata;
  match name with JStr s => Some s | _ => None end.
