(* ===== verification/NodeMonitor.v ===== *)
(** The node monitor's passes, [docker/af-node-monitor/node_healthcheck.py]: its caches,
    the gauges it publishes, [update_metrics], [update_flux] and [main]. *)
From S2P Require Import Prelude PyJson PyText PyValue NodeProbe.
Open Scope Z_scope.

(** ** Gauges *)

(** A series of a mount gauge: mount, node and pool. *)
Definition Labels : Type := string * string * string.
Abbreviation gauge := (gmap Labels float).
Record Gauges := mkGauges {
  mount_valid : gauge; mount_ping_ms : gauge; mount_data_rate_gbps : gauge;
  mount_metadata_latency_ms : gauge; mount_result_fresh : gauge; mount_probe_up : gauge }.
#[export] Instance eta_Gauges : Eta Gauges := {| eta_of r :=
  mkGauges (mount_valid r) (mount_ping_ms r) (mount_data_rate_gbps r) (mount_metadata_latency_ms r)
    (mount_result_fresh r) (mount_probe_up r) |}.
Definition no_gauges : Gauges := mkGauges ∅ ∅ ∅ ∅ ∅ ∅.

Definition set_valid (l : Labels) (v : float) (g : Gauges) : Gauges := g <| mount_valid := <[l:=v]> (mount_valid g) |>.
Definition set_ping (l : Labels) (v : float) (g : Gauges) : Gauges := g <| mount_ping_ms := <[l:=v]> (mount_ping_ms g) |>.
Definition set_rate (l : Labels) (v : float) (g : Gauges) : Gauges := g <| mount_data_rate_gbps := <[l:=v]> (mount_data_rate_gbps g) |>.
Definition set_meta (l : Labels) (v : float) (g : Gauges) : Gauges := g <| mount_metadata_latency_ms := <[l:=v]> (mount_metadata_latency_ms g) |>.
Definition set_fresh (l : Labels) (v : float) (g : Gauges) : Gauges := g <| mount_result_fresh := <[l:=v]> (mount_result_fresh g) |>.
Definition set_probe_up (l : Labels) (v : float) (g : Gauges) : Gauges := g <| mount_probe_up := <[l:=v]> (mount_probe_up g) |>.
Definition clear_rate (l : Labels) (g : Gauges) : Gauges := g <| mount_data_rate_gbps := delete l (mount_data_rate_gbps g) |>.
Definition clear_probe_up (l : Labels) (g : Gauges) : Gauges := g <| mount_probe_up := delete l (mount_probe_up g) |>.
Definition clear_mount_gauges (l : Labels) (g : Gauges) : Gauges :=
  mkGauges (delete l (mount_valid g)) (delete l (mount_ping_ms g)) (delete l (mount_data_rate_gbps g))
    (delete l (mount_metadata_latency_ms g)) (delete l (mount_result_fresh g)) (delete l (mount_probe_up g)).
Definition clear_node_pool_gauges (node pool : string) (g : Gauges) : Gauges :=
  foldl (fun g m => clear_mount_gauges (m, node, pool) g) g MOUNTS.

Definition b2f (b : bool) : float := Fin (qz (Z.b2z b)).
Definition publish_probe_up (l : Labels) (ready : option bool) (g : Gauges) : Gauges :=
  match ready with None => clear_probe_up l g | Some r => set_probe_up l (b2f r) g end.

(** ** State *)

Record Monitor := mkMonitor {
  k8s_ready : bool;
  af_nodes : list Row; last_node_refresh : Q; node_pools : list (string * string);
  probe_cache : option Probes; probe_cache_ts : Q;
  result_cache : list (Key * json);
  gauges : Gauges;
  results_available : option Q; last_iteration : option Q; registry_up : option bool;
  flux_ready : gmap (string * string) bool; flux_published : list (string * list string) }.
#[export] Instance eta_Monitor : Eta Monitor := {| eta_of r :=
  mkMonitor (k8s_ready r) (af_nodes r) (last_node_refresh r) (node_pools r) (probe_cache r) (probe_cache_ts r)
    (result_cache r) (gauges r) (results_available r) (last_iteration r) (registry_up r) (flux_ready r) (flux_published r) |}.
Definition monitor0 : Monitor := mkMonitor false [] 0 [] None 0 [] no_gauges None None None ∅ [].

Inductive Exc := Raised.
Inductive Req :=
| InitK8s
| ListNodes (selector : string)
| ListPods
| ListFlux (plural : string)
| Fetch (url : string)
| OpenRegistry
| ReadCode
| Time
| Sleep (seconds : Q).
(** [None] where the call raises, or a fetch is not done in time. The registry answers
    with a status, as an [HTTPError] or not. *)
Definition Ans (r : Req) : Type :=
  match r with
  | InitK8s => bool
  | ListNodes _ => option (list NodeObj)
  | ListPods => option (list PodObj)
  | ListFlux _ => option (list json)
  | Fetch _ => option json
  | OpenRegistry => option Z
  | ReadCode => option string
  | Time => Q
  | Sleep _ => unit
  end.
Definition Ev : Type := sigT Ans.
Definition NM (A : Type) : Type := M Ev Monitor Exc A.
Definition or_raised {A} (a : option A) : NM A := match a with Some a => mret a | None => raise Raised end.
Definition on_gauges (f : Gauges -> Gauges) : NM unit := mmod (fun s => s <| gauges := f (gauges s) |>).

Section Monitor.
Context (cf : Settings) (svc : service Req Ans).

Definition time : NM Q := mcall svc Time.
Definition init_k8s : NM unit :=
  s ← mget;
  if k8s_ready s then mret tt else
  ok ← (mcall svc InitK8s : NM bool); mmod (fun s => s <| k8s_ready := ok |>).

(** ** [_refresh_node_caches] *)

(** What a new list of nodes changes. *)
Definition take_nodes (now : Q) (by_name : list (string * (string * bool))) (s : Monitor) : Monitor :=
  let g := foldl (fun g n => clear_node_pool_gauges n.1 (other_pool n.2.1) g) (gauges s) by_name in
  let g := foldl (fun g np => if dhas np.1 by_name then g else clear_node_pool_gauges np.1 np.2 g) g (node_pools s) in
  s <| gauges := g |> <| node_pools := map (fun n => (n.1, n.2.1)) by_name |>
    <| af_nodes := rows_of by_name |> <| last_node_refresh := now |>.
Definition refresh_node_caches : NM unit :=
  init_k8s ≫= fun _ =>
  s ← mget;
  if negb (k8s_ready s) then mret tt else
  now ← time;
  if match af_nodes s with [] => false | _ => true end && ((now - last_node_refresh s)%Q <?q NODE_CACHE_TTL_S cf)
  then mret tt else
  prod ← (mcall svc (ListNodes "cms-af-prod=true") : NM (option (list NodeObj)));
  match prod with
  | None => mret tt
  | Some prod =>
      dev ← (mcall svc (ListNodes "cms-af-dev=true") : NM (option (list NodeObj)));
      match dev with None => mret tt | Some dev => mmod (take_nodes now (nodes_by_name prod dev)) end
  end.
Definition list_af_nodes : NM (list Row) :=
  refresh_node_caches ≫= fun _ =>
  s ← mget; mret (if k8s_ready s then af_nodes s else []).

(** ** Probes and their results *)

Definition list_probe_pods (now : Q) : NM (option Probes) :=
  init_k8s ≫= fun _ =>
  s ← mget;
  if negb (k8s_ready s) then mret None else
  pods ← (mcall svc ListPods : NM (option (list PodObj)));
  mret (probes_of cf now <$> pods).
Definition probe_pods (now : Q) : NM (option Probes) :=
  probes ← list_probe_pods now;
  match probes with
  | Some p => mmod (fun s => s <| probe_cache := Some p |> <| probe_cache_ts := now |>) ≫= fun _ => mret probes
  | None =>
      s ← mget;
      match probe_cache s with
      | Some p => mret (if (now - probe_cache_ts s)%Q <?q POD_CACHE_TTL_S cf then Some p else None)
      | None => mret None
      end
  end.
Definition result_url (probe : Probe) : string :=
  let host := if str_existsb (Ascii.eqb ":") (pr_ip probe) then ("[" ++ pr_ip probe ++ "]")%string else pr_ip probe in
  ("http://" ++ host ++ ":" ++ pretty (pr_port probe) ++ "/result")%string.
Definition fetch_result (probe : Probe) : NM (option json) :=
  data ← (mcall svc (Fetch (result_url probe)) : NM (option json));
  mret (match data with Some d => if is_obj d then Some d else None | None => None end).
Fixpoint fetch_all (targets : Probes) : NM (list (Key * json)) :=
  match targets with
  | [] => mret []
  | (key, probe) :: rest =>
      data ← fetch_result probe; results ← fetch_all rest;
      mret (match data with Some d => (key, d) :: results | None => results end)
  end.

(** ** [update_metrics] *)

Definition timeout_ping_ms : float := Fin (PING_TIMEOUT_S cf * 1000)%Q.
Definition timeout_metadata_ms : float := Fin (METADATA_TIMEOUT_S cf * 1000)%Q.
Definition publish_sentinels (l : Labels) (fresh : bool) (g : Gauges) : Gauges :=
  set_fresh l (b2f fresh) (set_rate l (Fin 0) (set_meta l timeout_metadata_ms (set_ping l timeout_ping_ms (set_valid l (Fin 0) g)))).
(** Sets a gauge to a reading, which raises if it is no number. *)
Definition publish_reading (set_ : Labels -> float -> Gauges -> Gauges) (l : Labels) (reading : json) (absent : Gauges -> Gauges) : NM unit :=
  match reading with
  | JNull => on_gauges absent
  | _ => v ← or_raised (float_of reading); on_gauges (set_ l v)
  end.
Definition timestamp_of (data : json) : float := default (Fin 0) (float_of (jget_or "timestamp" (JInt 0) data)).
(** A timestamp that is missing or in the future says nothing. *)
Definition undated (now : Q) (data : json) : bool :=
  float_le (timestamp_of data) (Fin 0) || float_lt (Fin (now + CLOCK_SKEW_TOLERANCE_S cf)%Q) (timestamp_of data).
Definition timed_out (data : json) : bool := truthy (jget "timeout" data).
Definition is_fine (data : json) : bool := truthy (jget "ok" data) && negb (timed_out data).
Definition is_stale (now : Q) (data : json) : bool :=
  float_lt (Fin (RESULT_STALE_WINDOW_S cf)) (float_sub (Fin now) (timestamp_of data)).
Definition publish_result (l : Labels) (now : Q) (data : json) : NM unit :=
  if undated now data then on_gauges (publish_sentinels l false) else
  let ok := is_fine data in
  if is_stale now data && ok then on_gauges (publish_sentinels l false) else
  let ping_ms := jget "ping_ms" data in
  let meta_ms := jget "metadata_ms" data in
  let gbps := jget "throughput_gbps" data in
  on_gauges (set_valid l (b2f ok)) ≫= fun _ =>
  on_gauges (set_fresh l (Fin 1)) ≫= fun _ =>
  if timed_out data then
    publish_reading set_ping l ping_ms (set_ping l timeout_ping_ms) ≫= fun _ =>
    on_gauges (set_meta l timeout_metadata_ms) ≫= fun _ =>
    on_gauges (set_rate l (Fin 0))
  else
    publish_reading set_ping l ping_ms id ≫= fun _ =>
    publish_reading set_meta l meta_ms id ≫= fun _ =>
    publish_reading set_rate l gbps (if ok then clear_rate l else set_rate l (Fin 0)) ≫= fun _ =>
    if ok then mret tt else
    on_gauges (match ping_ms with JNull => set_ping l timeout_ping_ms | _ => id end) ≫= fun _ =>
    on_gauges (match meta_ms with JNull => set_meta l timeout_metadata_ms | _ => id end).

Definition labels_for (mount : string) (row : Row) : Labels := (mount, row.1.1, row.1.2).
(** The series of one mount on one node. *)
Definition publish_series (now : Q) (probes : option Probes) (fetched : list (Key * json)) (working : list string)
    (mount : string) (row : Row) : NM unit :=
  let l := labels_for mount row in
  let '(node, pool, ready) := row in
  if negb ready then on_gauges (clear_mount_gauges l) else
  let key := (sanitized_mount_name mount, node) in
  let probe := probes ≫= dget key in
  let probe_up := match probes with
    | None => None
    | Some _ => Some (match probe with Some p => pr_ready p && dhas key fetched | None => false end)
    end in
  if match probe with Some p => pr_setup_failed p && bool_decide (node ∈ working) | None => false end then
    on_gauges (publish_probe_up l probe_up) ≫= fun _ => on_gauges (publish_sentinels l true)
  else
    s ← mget;
    on_gauges (publish_probe_up l probe_up) ≫= fun _ =>
    match dget key (result_cache s) with
    | Some data => if truthy data then publish_result l now data else on_gauges (publish_sentinels l false)
    | None => on_gauges (publish_sentinels l false)
    end.
Definition series : list Row -> list (string * Row) := fun rows => flat_map (fun m => map (pair m) rows) MOUNTS.

Definition targets_of (rows : list Row) (probes : option Probes) : Probes :=
  let ready_nodes := map (fun r => r.1.1) (List.filter (fun r => r.2) rows) in
  List.filter (fun kp => negb (String.eqb (pr_ip kp.2) "") && bool_decide (kp.1.2 ∈ ready_nodes)) (default [] probes).
(** The Ready probes, those of them that answered, and the nodes of those. *)
Definition expected_of (targets : Probes) : list Key := map fst (List.filter (fun kp => pr_ready kp.2) targets).
Definition answered_of (targets : Probes) (fetched : list (Key * json)) : list Key :=
  List.filter (fun key => dhas key fetched) (expected_of targets).
Definition working_of (targets : Probes) (fetched : list (Key * json)) : list string :=
  map snd (answered_of targets fetched).
Definition available_of (rows : list Row) (targets : Probes) (fetched : list (Key * json)) : Q :=
  match expected_of targets with
  | [] => if existsb (fun r => r.2) rows then 0%Q else 1%Q
  | expected => (qz (Z.of_nat (List.length (answered_of targets fetched))) / qz (Z.of_nat (List.length expected)))%Q
  end.
Definition update_metrics : NM unit :=
  now ← time;
  rows ← list_af_nodes;
  probes ← probe_pods now;
  let targets := targets_of rows probes in
  fetched ← fetch_all targets;
  mmod (fun s => s <| result_cache := dupdate (result_cache s) fetched |>) ≫= fun _ =>
  mfor (series rows) (fun mr => publish_series now probes fetched (working_of targets fetched) mr.1 mr.2) ≫= fun _ =>
  mmod (fun s => s <| results_available := Some (available_of rows targets fetched) |>).

(** ** [update_flux] and [main] *)

(** One kind's objects, published; those that it had and has no more are removed. *)
Definition publish_flux (kind : string) (items : list json) : NM unit :=
  names ← or_raised (mapM flux_name items);
  mfor items (fun item =>
    name ← or_raised (flux_name item); ready ← or_raised (flux_object_ready item);
    mmod (fun s => s <| flux_ready := <[(kind, name) := ready]> (flux_ready s) |>)) ≫= fun _ =>
  s ← mget;
  let gone := List.filter (fun n => bool_decide (n ∉ names)) (dget_or kind [] (flux_published s)) in
  mmod (fun s => s <| flux_ready := foldl (fun g n => delete (kind, n) g) (flux_ready s) gone |>
                   <| flux_published := dset kind names (flux_published s) |>).
Definition update_flux : NM unit :=
  init_k8s ≫= fun _ =>
  s ← mget;
  if negb (k8s_ready s) then mret tt else
  mfor FLUX_KINDS (fun k =>
    items ← (mcall svc (ListFlux k.2.2) : NM (option (list json)));
    publish_flux k.1 (default [] items)).

Definition registry_answers : NM bool :=
  status ← (mcall svc OpenRegistry : NM (option Z));
  mret (match status with Some n => n <? 500 | None => false end).
Definition one_pass : NM unit :=
  (if String.eqb (REGISTRY_URL cf) "" then mret tt else
   up ← registry_answers; mmod (fun s => s <| registry_up := Some up |>)) ≫= fun _ =>
  update_flux ≫= fun _ =>
  mcatch (update_metrics ≫= fun _ => now ← time; mmod (fun s => s <| last_iteration := Some now |>)) (fun _ => mret tt) ≫= fun _ =>
  (mcall svc (Sleep (CHECK_INTERVAL_S cf)) : NM unit).
Definition read_code : NM string := a ← (mcall svc ReadCode : NM (option string)); or_raised a.
(** [passes] of the loop; [true] once the code has changed. *)
Fixpoint run_passes (passes : nat) (running : string) : NM bool :=
  match passes with
  | O => mret false
  | S passes =>
      code ← read_code;
      if String.eqb code running then one_pass ≫= fun _ => run_passes passes running else mret true
  end.
Definition main (passes : nat) : NM bool := running ← read_code; run_passes passes running.
End Monitor.
