(* ===== verification/NodeSafe.v ===== *)
(** What the node monitor publishes ([docker/af-node-monitor/node_healthcheck.py]): of
    which nodes there are series, and what a pass says of each mount. *)
From S2P Require Import Prelude PyJson PyText PyValue NodeProbe NodeMonitor.
Open Scope Z_scope.

(** ** The series that there are *)

Definition shows (g : Gauges) (l : Labels) : Prop :=
  is_Some (mount_valid g !! l) \/ is_Some (mount_ping_ms g !! l) \/ is_Some (mount_data_rate_gbps g !! l) \/
  is_Some (mount_metadata_latency_ms g !! l) \/ is_Some (mount_result_fresh g !! l) \/ is_Some (mount_probe_up g !! l).
(** A change of the gauges that concerns no series but [l]. *)
Definition same_at (g g' : Gauges) (l : Labels) : Prop :=
  mount_valid g' !! l = mount_valid g !! l /\ mount_ping_ms g' !! l = mount_ping_ms g !! l /\
  mount_data_rate_gbps g' !! l = mount_data_rate_gbps g !! l /\
  mount_metadata_latency_ms g' !! l = mount_metadata_latency_ms g !! l /\
  mount_result_fresh g' !! l = mount_result_fresh g !! l /\ mount_probe_up g' !! l = mount_probe_up g !! l.
Definition touches (l : Labels) (f : Gauges -> Gauges) : Prop := forall g l', l' <> l -> same_at g (f g) l'.

Lemma same_at_refl g l : same_at g g l.
Proof. by repeat split. Qed.
Lemma same_at_trans g1 g2 g3 l : same_at g1 g2 l -> same_at g2 g3 l -> same_at g1 g3 l.
Proof. unfold same_at. intuition congruence. Qed.
Lemma same_shows g g' l : same_at g g' l -> shows g' l -> shows g l.
Proof. unfold same_at, shows. intros (-> & -> & -> & -> & -> & ->). done. Qed.

Ltac touching := intros g l' Hne; unfold same_at; cbn; rewrite ?lookup_insert_ne, ?lookup_delete_ne by congruence; by repeat split.
Lemma touches_id l : touches l id.
Proof. intros g l' _. apply same_at_refl. Qed.
Lemma touches_comp l f f' : touches l f -> touches l f' -> touches l (fun g => f (f' g)).
Proof. intros Hf Hf' g l' Hne. eapply same_at_trans; [by apply Hf'|by apply Hf]. Qed.
Lemma touches_valid l v : touches l (set_valid l v).
Proof. touching. Qed.
Lemma touches_ping l v : touches l (set_ping l v).
Proof. touching. Qed.
Lemma touches_rate l v : touches l (set_rate l v).
Proof. touching. Qed.
Lemma touches_meta l v : touches l (set_meta l v).
Proof. touching. Qed.
Lemma touches_fresh l v : touches l (set_fresh l v).
Proof. touching. Qed.
Lemma touches_clear_rate l : touches l (clear_rate l).
Proof. touching. Qed.
Lemma touches_up l r : touches l (publish_probe_up l r).
Proof. destruct r; touching. Qed.
Lemma touches_clear l : touches l (clear_mount_gauges l).
Proof. touching. Qed.
Create HintDb touches.
#[export] Hint Resolve touches_id touches_valid touches_ping touches_rate touches_meta touches_fresh touches_clear_rate
  touches_up touches_clear : touches.
Lemma touches_sentinels cf l b : touches l (publish_sentinels cf l b).
Proof. unfold publish_sentinels. repeat (apply touches_comp; [auto with touches|]). auto with touches. Qed.
#[export] Hint Resolve touches_sentinels : touches.

Lemma cleared l g : ~ shows (clear_mount_gauges l g) l.
Proof. unfold shows. cbn. rewrite !lookup_delete_eq. intros [[? [=]]|[[? [=]]|[[? [=]]|[[? [=]]|[[? [=]]|[? [=]]]]]]]. Qed.
Lemma shows_cleared l g l' : shows (clear_mount_gauges l g) l' -> l' <> l /\ shows g l'.
Proof.
  intros H. destruct (decide (l' = l)) as [->|Hne]; [by apply cleared in H|]. split; [done|].
  by apply (same_shows _ _ _ (touches_clear l g l' Hne)).
Qed.
Lemma clear_node_pool_shows m n p node pool g :
  shows (clear_node_pool_gauges node pool g) (m, n, p) ->
  shows g (m, n, p) /\ ~ (m ∈ MOUNTS /\ n = node /\ p = pool).
Proof.
  unfold clear_node_pool_gauges. generalize MOUNTS. intros ms. revert g.
  induction ms as [|m' ms IH]; intros g; cbn [foldl].
  { intros H. split; [done|]. by intros [?%elem_of_nil _]. }
  intros H. apply IH in H as [H Hn]. apply shows_cleared in H as [Hne H]. split; [done|].
  rewrite elem_of_cons. intros ([-> | Hm] & -> & ->); [done|by apply Hn].
Qed.

(** ** Nodes *)

Lemma insert_row_perm r l : insert_row r l ≡ₚ r :: l.
Proof. induction l as [|x l IH]; cbn; [done|]. destruct (String.ltb _ _); [done|]. rewrite IH. constructor. Qed.
Lemma rows_of_perm by_name : rows_of by_name ≡ₚ map (fun n => (n.1, n.2.1, n.2.2)) by_name.
Proof.
  unfold rows_of. change (map (fun n => (n.1, n.2.1, n.2.2)) by_name) with (@nil Row ++ map (fun n => (n.1, n.2.1, n.2.2)) by_name).
  generalize (@nil Row). induction by_name as [|n l IH]; intros acc; cbn.
  - by rewrite app_nil_r.
  - rewrite IH, insert_row_perm. cbn. apply Permutation_middle.
Qed.
Lemma added_nodes_keys pool acc nodes : NoDup acc.*1 -> NoDup (add_nodes pool acc nodes).*1.
Proof.
  unfold add_nodes. revert acc. induction nodes as [|n nodes IH]; intros acc H; cbn; [done|]. apply IH.
  destruct (_ || _); [done|]. by apply dset_keys.
Qed.
Lemma nodes_by_name_keys prod dev : NoDup (nodes_by_name prod dev).*1.
Proof. apply added_nodes_keys, added_nodes_keys. constructor. Qed.
Definition is_pool (pool : string) : Prop := pool = "prod"%string \/ pool = "dev"%string.
Lemma add_nodes_pools pool acc nodes : is_pool pool -> (forall n, n ∈ acc -> is_pool n.2.1) ->
  forall n, n ∈ add_nodes pool acc nodes -> is_pool n.2.1.
Proof.
  intros Hp. unfold add_nodes. revert acc. induction nodes as [|x nodes IH]; intros acc H; cbn; [done|]. apply IH.
  destruct (_ || _) eqn:E; [done|]. apply orb_false_iff in E as [_ E]. unfold dhas in E.
  rewrite dset_new by by destruct (dget _ _). intros n [Hn| ->%list_elem_of_singleton]%elem_of_app; [by apply H|done].
Qed.
Lemma nodes_by_name_pools prod dev n : n ∈ nodes_by_name prod dev -> is_pool n.2.1.
Proof.
  unfold nodes_by_name. apply add_nodes_pools; [by right|]. apply add_nodes_pools; [by left|]. by intros ? ?%elem_of_nil.
Qed.

(** ** The invariant *)

(** Every series is of a mount and of a node of the last list, in its pool; the rows are
    that list's, each node once; and there are none before Kubernetes is there. *)
Record current (s : Monitor) : Prop := mkCurrent {
  cur_series : forall m n p, shows (gauges s) (m, n, p) -> m ∈ MOUNTS /\ dget n (node_pools s) = Some p;
  cur_rows : forall row, row ∈ af_nodes s -> dget row.1.1 (node_pools s) = Some row.1.2;
  cur_nodup : NoDup (map (fun row : Row => row.1.1) (af_nodes s));
  cur_pools : NoDup (node_pools s).*1 /\ (forall np, np ∈ node_pools s -> is_pool np.2);
  cur_ready : k8s_ready s = false -> af_nodes s = [] }.
Lemma current_start : current monitor0.
Proof.
  split; cbn; [|by intros ? ?%elem_of_nil|constructor|split; [constructor|by intros ? ?%elem_of_nil]|done].
  intros m n p. unfold shows. cbn. rewrite !lookup_empty. intros [[? [=]]|[[? [=]]|[[? [=]]|[[? [=]]|[[? [=]]|[? [=]]]]]]].
Qed.

Lemma other_pool_ne p : is_pool p -> other_pool p <> p /\ forall q, is_pool q -> q <> p -> q = other_pool p.
Proof. intros [-> | ->]; (split; [done|]); intros q [-> | ->]; done. Qed.
Lemma dget_map {K A B} `{EqDecision K} (f : A -> B) k (d : list (K * A)) :
  dget k (map (fun n => (n.1, f n.2)) d) = f <$> dget k d.
Proof. induction d as [|[k' a] d IH]; cbn; [done|]. by case_decide. Qed.
Lemma map_fst_map {K A B} (f : A -> B) (d : list (K * A)) : (map (fun n => (n.1, f n.2)) d).*1 = d.*1.
Proof. induction d as [|[k a] d IH]; cbn; [done|]. by rewrite IH. Qed.

(** After a list of the nodes, there is no series but of those in it, in their pools. *)
Lemma shows_foldl {A} (f : Gauges -> A -> Gauges) (l : list A) g lab :
  (forall g a, shows (f g a) lab -> shows g lab) -> shows (foldl f g l) lab -> shows g lab.
Proof. intros Hf. revert g. induction l as [|a l IH]; intros g; cbn; [done|]. intros H. eapply Hf, IH, H. Qed.
Lemma shows_foldl_ex {A} (f : Gauges -> A -> Gauges) (l : list A) a g lab :
  (forall g a, shows (f g a) lab -> shows g lab) -> (forall g, ~ shows (f g a) lab) -> a ∈ l -> ~ shows (foldl f g l) lab.
Proof.
  intros Hf Ha. revert g. induction l as [|x l IH]; intros g; cbn; [by intros ?%elem_of_nil|].
  intros [->|Hin]%elem_of_cons H; [|by eapply IH]. apply (Ha g). by eapply shows_foldl.
Qed.
Lemma take_nodes_current now by_name s :
  NoDup by_name.*1 -> (forall n, n ∈ by_name -> is_pool n.2.1) -> current s -> k8s_ready s = true ->
  current (take_nodes now by_name s).
Proof.
  intros Hnd Hpools [Hser Hrows Hndr [Hpk Hpp] Hk] Hready. unfold take_nodes.
  set (clear1 := fun g (n : string * (string * bool)) => clear_node_pool_gauges n.1 (other_pool n.2.1) g).
  set (clear2 := fun g (np : string * string) => if dhas np.1 by_name then g else clear_node_pool_gauges np.1 np.2 g).
  assert (H1 : forall m n p g a, shows (clear1 g a) (m, n, p) -> shows g (m, n, p)).
  { intros m n p g a H. unfold clear1 in H. by apply clear_node_pool_shows in H as [? _]. }
  assert (H2 : forall m n p g a, shows (clear2 g a) (m, n, p) -> shows g (m, n, p)).
  { intros m n p g a. unfold clear2. destruct (dhas _ _); [done|]. intros H. by apply clear_node_pool_shows in H as [? _]. }
  split; cbn [gauges node_pools af_nodes k8s_ready set_field].
  - intros m n p H. rewrite (dget_map fst). pose proof (shows_foldl _ _ _ _ (H2 m n p) H) as Ha.
    pose proof (shows_foldl _ _ _ _ (H1 m n p) Ha) as Hs. apply Hser in Hs as [Hm Hp]. split; [done|].
    assert (Hip : is_pool p) by (apply dget_elem in Hp; by apply Hpp in Hp).
    destruct (dget n by_name) as [[q ready]|] eqn:E; cbn.
    + f_equal. destruct (decide (q = p)) as [|Hne]; [done|]. exfalso. apply dget_elem in E.
      pose proof (Hpools _ E) as Hq. cbn in Hq. destruct (other_pool_ne q Hq) as [_ Ho].
      revert Ha. eapply shows_foldl_ex; [apply H1| |exact E]. intros g Hg. unfold clear1 in Hg. cbn in Hg.
      apply clear_node_pool_shows in Hg as [_ Hn]. apply Hn. split; [done|]. split; [done|]. apply Ho; [done|]. by apply not_eq_sym.
    + exfalso. revert H. apply dget_elem in Hp. eapply shows_foldl_ex; [apply H2| |exact Hp]. intros g Hg. unfold clear2 in Hg.
      cbn in Hg. unfold dhas in Hg. rewrite E in Hg. apply clear_node_pool_shows in Hg as [_ Hn]. by apply Hn.
  - intros row Hrow. rewrite (dget_map fst). rewrite rows_of_perm in Hrow. apply list_elem_of_fmap in Hrow as ([n [p b]] & -> & Hin).
    cbn. by rewrite (elem_dget _ _ _ Hnd Hin).
  - rewrite (Permutation_map _ (rows_of_perm by_name)), map_map. exact Hnd.
  - rewrite (map_fst_map fst). split; [done|]. intros np H. apply list_elem_of_fmap in H as (n & -> & Hin). by apply Hpools in Hin.
  - congruence.
Qed.

(** ** What each part of a pass leaves *)

(** Of the state, only gauges change, and of them only the series [allowed]. *)
Definition publishes (allowed : Labels -> Prop) (s s' : Monitor) : Prop :=
  node_pools s' = node_pools s /\ af_nodes s' = af_nodes s /\ k8s_ready s' = k8s_ready s /\
  result_cache s' = result_cache s /\ probe_cache s' = probe_cache s /\
  forall l, ~ allowed l -> same_at (gauges s) (gauges s') l.
#[export] Instance publishes_preorder allowed : PreOrder (publishes allowed).
Proof.
  split; [intros s; repeat split|]. intros s1 s2 s3 (? & ? & ? & ? & ? & Hg1) (? & ? & ? & ? & ? & Hg2).
  repeat (split; [congruence|]). intros l Hl. eapply same_at_trans; eauto.
Qed.
Lemma publishes_mono (a b : Labels -> Prop) s s' : (forall l, a l -> b l) -> publishes a s s' -> publishes b s s'.
Proof. intros Hab (? & ? & ? & ? & ? & H). repeat (split; [done|]). intros l Hl. apply H. auto. Qed.
Lemma keeps_on_gauges l f : touches l f -> keeps (publishes (eq l)) (on_gauges f).
Proof.
  intros Hf. apply keeps_mod. intros s. repeat (split; [done|]). intros l' Hl. cbn. apply Hf. by apply not_eq_sym.
Qed.
#[export] Hint Resolve keeps_on_gauges : keeps.
Lemma keeps_or_raised {A} (R : Monitor -> Monitor -> Prop) `{!PreOrder R} (a : option A) : keeps R (or_raised a).
Proof. destruct a; [apply keeps_ret|apply keeps_raise]; exact _. Qed.
#[export] Hint Resolve keeps_or_raised : keeps.

(** A raised exception or not, what one series' publication changes is its own. *)
Lemma keeps_reading l set_ reading absent : (forall v, touches l (set_ l v)) -> touches l absent ->
  keeps (publishes (eq l)) (publish_reading set_ l reading absent).
Proof. intros Hs Ha. unfold publish_reading. keep; auto with keeps touches. Qed.
#[export] Hint Resolve keeps_reading : keeps.
Lemma keeps_result cf l now data : keeps (publishes (eq l)) (publish_result cf l now data).
Proof.
  unfold publish_result. keep; try (apply keeps_on_gauges; auto with touches);
    try (apply keeps_reading; auto with touches); try (destruct (is_fine data); auto with touches).
  all: destruct (jget _ data); auto with touches.
Qed.
#[export] Hint Resolve keeps_result : keeps.
Lemma keeps_series cf now probes fetched working mount row :
  keeps (publishes (eq (labels_for mount row))) (publish_series cf now probes fetched working mount row).
Proof.
  unfold publish_series. set (l := labels_for mount row). destruct row as [[node pool] ready]. keep; auto with keeps touches.
Qed.
Lemma in_series m row rows : (m, row) ∈ series rows <-> m ∈ MOUNTS /\ row ∈ rows.
Proof.
  unfold series. rewrite list_elem_of_In, in_flat_map. split.
  - intros (m' & Hm & H). apply in_map_iff in H as (r & [= -> ->] & Hr). by rewrite !list_elem_of_In.
  - intros [Hm Hr]. exists m. rewrite !list_elem_of_In in *. split; [done|]. apply in_map_iff. eauto.
Qed.
Definition allowed_of (rows : list Row) (l : Labels) : Prop := exists m row, (m, row) ∈ series rows /\ l = labels_for m row.
Lemma keeps_all_series cf now probes fetched working rows :
  keeps (publishes (allowed_of rows)) (mfor (series rows) (fun mr => publish_series cf now probes fetched working mr.1 mr.2)).
Proof.
  apply keeps_for_in; [exact _|]. intros [m row] Hin s h. eapply wp_mono; [apply keeps_series|].
  intros r s' h' H. eapply publishes_mono; [|exact H]. intros l <-. by exists m, row.
Qed.
Lemma publishes_current s s' : publishes (allowed_of (af_nodes s)) s s' -> current s -> current s'.
Proof.
  intros (Hp & Ha & Hk & _ & _ & Hg) [Hser Hrows Hnd Hpools Hready].
  split; rewrite ?Hp, ?Ha, ?Hk; try done. intros m n p Hs.
  destruct (decide (m ∈ MOUNTS /\ dget n (node_pools s) = Some p)) as [|Hno]; [done|]. apply Hser.
  eapply same_shows; [apply Hg|exact Hs]. intros (m' & row & Hin & [= -> -> ->]). apply Hno.
  apply in_series in Hin as [Hm Hrow]. split; [done|]. by apply Hrows.
Qed.

(** ** What a pass says of a mount on a node *)

Inductive Verdict := Absent | Unknown | Failing | Healthy.
(** As the gauges say it: [Absent] is no series at all. *)
Definition shown (g : Gauges) (l : Labels) (v : Verdict) : Prop :=
  match v with
  | Absent => ~ shows g l
  | Unknown => mount_valid g !! l = Some (Fin 0) /\ mount_result_fresh g !! l = Some (Fin 0)
  | Failing => mount_valid g !! l = Some (Fin 0) /\ mount_result_fresh g !! l = Some (Fin 1)
  | Healthy => mount_valid g !! l = Some (Fin 1) /\ mount_result_fresh g !! l = Some (Fin 1)
  end.
Section Verdict.
Context (cf : Settings) (now : Q) (probes : option Probes) (fetched : list (Key * json)) (working : list string).

(** A result that is missing, undated or an old success says nothing. *)
Definition verdict_of_result (result : option json) : Verdict :=
  match result with
  | Some data =>
      if negb (truthy data) || undated cf now data then Unknown
      else if is_fine data then if is_stale cf now data then Unknown else Healthy
      else Failing
  | None => Unknown
  end.
Definition verdict_of (results : list (Key * json)) (mount : string) (row : Row) : Verdict :=
  if negb row.2 then Absent else
  let key := (sanitized_mount_name mount, row.1.1) in
  match probes ≫= dget key with
  | Some p => if pr_setup_failed p && bool_decide (row.1.1 ∈ working) then Failing else verdict_of_result (dget key results)
  | None => verdict_of_result (dget key results)
  end.
(** The probe's own gauge: absent where the pods are not known. *)
Definition probe_up_of (mount : string) (row : Row) : option float :=
  let key := (sanitized_mount_name mount, row.1.1) in
  if negb row.2 then None else
  match probes with
  | None => None
  | Some ps => Some (b2f (match dget key ps with Some p => pr_ready p && dhas key fetched | None => false end))
  end.
End Verdict.

(** Gauges that a verdict does not depend on may change. *)
Definition same_verdict (s s' : Monitor) : Prop :=
  mount_valid (gauges s') = mount_valid (gauges s) /\ mount_result_fresh (gauges s') = mount_result_fresh (gauges s) /\
  mount_probe_up (gauges s') = mount_probe_up (gauges s).
#[export] Instance same_verdict_preorder : PreOrder same_verdict.
Proof. split; [by intros s|]. intros s1 s2 s3 (E1 & E2 & E3) (E4 & E5 & E6). unfold same_verdict. by rewrite E4, E5, E6. Qed.
Lemma keeps_reading_verdict set_ l reading absent :
  (forall f, f = absent \/ (exists v, f = set_ l v) -> forall s, same_verdict s (s <| gauges := f (gauges s) |>)) ->
  keeps same_verdict (publish_reading set_ l reading absent).
Proof.
  intros H. unfold publish_reading, on_gauges.
  assert (Hr : keeps same_verdict (v ← or_raised (float_of reading); mmod (fun s => s <| gauges := set_ l v (gauges s) |>))).
  { apply keeps_bind; [exact _|apply keeps_or_raised; exact _|]. intros v. apply keeps_mod. intros s.
    apply (H (set_ l v)). right. by exists v. }
  destruct reading; [|exact Hr..]. apply keeps_mod. intros s. apply (H absent). by left.
Qed.
Lemma wp_result cf l now data s h :
  wp (publish_result cf l now data) s h (fun r s' _ => match r with
    | Ok _ => shown (gauges s') l (if undated cf now data then Unknown else if is_fine data then if is_stale cf now data then Unknown else Healthy else Failing)
        /\ mount_probe_up (gauges s') = mount_probe_up (gauges s)
    | Err _ => True end).
Proof.
  assert (Hs : shown (publish_sentinels cf l false (gauges s)) l Unknown).
  { cbn. rewrite !lookup_insert_eq. done. }
  unfold publish_result. destruct (undated cf now data); [by apply wp_mod|].
  destruct (is_stale cf now data && is_fine data) eqn:E; [apply andb_true_iff in E as [-> ->]; by apply wp_mod|].
  wp_step. apply wp_mod. cbv beta iota. wp_step. apply wp_mod. cbv beta iota. set (s1 := _ <| gauges := _ |>).
  assert (H1 : shown (gauges s1) l (if is_fine data then if is_stale cf now data then Unknown else Healthy else Failing)
    /\ mount_probe_up (gauges s1) = mount_probe_up (gauges s)).
  { split; [|done]. destruct (is_fine data), (is_stale cf now data); [done| |..]; cbn; rewrite ?lookup_insert_eq; done. }
  eapply wp_mono with (P := fun _ s' _ => same_verdict s1 s').
  - assert (Hk : forall c : NM unit, keeps same_verdict c -> wp c s1 h (fun _ s' _ => same_verdict s1 s')) by (intros c Hc; apply Hc).
    apply Hk. unfold on_gauges. keep; try (apply keeps_mod; intros s'; repeat split; repeat case_match; done).
    all: apply keeps_reading_verdict; intros f [-> | [v ->]] s'; repeat split; repeat case_match; done.
  - intros [[]|e] s' _ Hsv; [|done]. destruct H1 as [Hv Hup]. destruct Hsv as (E1 & E2 & E3). split; [|by rewrite E3].
    destruct (is_fine data), (is_stale cf now data); cbn in Hv |- *; rewrite E1, E2; done.
Qed.

Lemma shown_same g g' l v : same_at g g' l -> shown g l v -> shown g' l v.
Proof.
  intros Hs. pose proof Hs as (E1 & _ & _ & _ & E5 & _). destruct v; cbn; rewrite ?E1, ?E5; try done.
  intros Hn H. apply Hn. by apply (same_shows _ _ _ Hs).
Qed.
Lemma up_shown l r g : mount_probe_up (publish_probe_up l r g) !! l = option_map b2f r.
Proof. destruct r; cbn; [apply lookup_insert_eq|apply lookup_delete_eq]. Qed.
Lemma sentinels_shown cf l b g :
  shown (publish_sentinels cf l b g) l (if b then Failing else Unknown) /\
  mount_probe_up (publish_sentinels cf l b g) = mount_probe_up g.
Proof. split; [|done]. destruct b; cbn; by rewrite !lookup_insert_eq. Qed.

Lemma wp_series cf now probes fetched working mount row s h :
  wp (publish_series cf now probes fetched working mount row) s h (fun r s' _ => match r with
    | Ok _ => shown (gauges s') (labels_for mount row) (verdict_of cf now probes working (result_cache s) mount row)
        /\ mount_probe_up (gauges s') !! labels_for mount row = probe_up_of probes fetched mount row
    | Err _ => True end).
Proof.
  unfold publish_series, verdict_of, probe_up_of. set (l := labels_for mount row). destruct row as [[node pool] ready].
  cbn [fst snd]. destruct (negb ready); [apply wp_mod; split; [apply cleared|apply lookup_delete_eq]|].
  set (key := (sanitized_mount_name mount, node)).
  set (up := match probes with Some _ => Some _ | None => None end).
  assert (Hup : option_map b2f up = match probes with None => None | Some ps =>
    Some (b2f (match dget key ps with Some p => pr_ready p && dhas key fetched | None => false end)) end) by by destruct probes.
  set (failed := match probes ≫= dget key with Some p => _ | None => false end).
  assert (Hf : match probes ≫= dget key with
     | Some p => if pr_setup_failed p && bool_decide (node ∈ working) then Failing else verdict_of_result cf now (dget key (result_cache s))
     | None => verdict_of_result cf now (dget key (result_cache s)) end =
     if failed then Failing else verdict_of_result cf now (dget key (result_cache s))).
  { unfold failed. by destruct (probes ≫= dget key). }
  rewrite Hf, <- Hup. destruct failed.
  - wp_step. apply wp_mod. cbv beta iota. apply wp_mod.
    split; [apply (sentinels_shown cf l true)|]. apply up_shown.
  - wp_step. apply wp_get. cbv beta iota. wp_step. apply wp_mod. cbv beta iota.
    set (s1 := s <| gauges := _ |>). assert (H1 : mount_probe_up (gauges s1) !! l = option_map b2f up) by apply up_shown.
    assert (Hno : wp (on_gauges (publish_sentinels cf l false)) s1 h (fun r s' _ => match r with
      | Ok _ => shown (gauges s') l Unknown /\ mount_probe_up (gauges s') !! l = option_map b2f up | Err _ => True end)).
    { apply wp_mod. split; [apply (sentinels_shown cf l false)|exact H1]. }
    unfold verdict_of_result. destruct (dget key (result_cache s)) as [data|]; [|exact Hno].
    destruct (truthy data); cbn [negb orb]; [|exact Hno]. eapply wp_mono; [apply wp_result|].
    intros [[]|e] s' h'; [|done]. intros [Hv Hp]. split; [exact Hv|]. by rewrite Hp.
Qed.

Lemma wp_all_series cf now probes fetched working l s h :
  NoDup (map (fun mr => labels_for mr.1 mr.2) l) ->
  wp (mfor l (fun mr => publish_series cf now probes fetched working mr.1 mr.2)) s h (fun r s' _ => match r with
    | Ok _ => forall mr, mr ∈ l ->
        shown (gauges s') (labels_for mr.1 mr.2) (verdict_of cf now probes working (result_cache s) mr.1 mr.2)
        /\ mount_probe_up (gauges s') !! labels_for mr.1 mr.2 = probe_up_of probes fetched mr.1 mr.2
    | Err _ => True end).
Proof.
  revert s h. induction l as [|[m row] l IH]; intros s h; [by intros _ ? ?%elem_of_nil|]. cbn [map fst snd].
  intros [Hni Hnd]%NoDup_cons. cbn [mfor]. wp_step. pose proof (wp_series cf now probes fetched working m row s h) as Hs.
  pose proof (keeps_series cf now probes fetched working m row s h) as Hk. unfold wp in Hs, Hk |- *. cbn [fst snd].
  destruct (publish_series _ _ _ _ _ _ _ s h) as [[[[]|e] s1] h1]; [|done]. destruct Hs as [Hv Hu].
  pose proof (IH s1 h1 Hnd) as Hrest.
  pose proof (keeps_for_in (publishes (fun lab => lab ∈ map (fun mr => labels_for mr.1 mr.2) l)) l
    (fun mr => publish_series cf now probes fetched working mr.1 mr.2)) as Hkr.
  assert (Hkr' : keeps (publishes (fun lab => lab ∈ map (fun mr => labels_for mr.1 mr.2) l))
    (mfor l (fun mr => publish_series cf now probes fetched working mr.1 mr.2))).
  { apply Hkr. intros mr Hin s0 h0. eapply wp_mono; [apply keeps_series|]. intros r s' h' H. eapply publishes_mono; [|exact H].
    intros lab <-. apply list_elem_of_In, in_map_iff. exists mr. by rewrite <- list_elem_of_In. }
  specialize (Hkr' s1 h1). unfold wp in Hrest, Hkr'. destruct (mfor l _ s1 h1) as [[[[]|e] s2] h2]; [|done].
  destruct Hkr' as (_ & _ & _ & _ & _ & Hg). destruct Hk as (_ & _ & _ & Hrc & _).
  specialize (Hg _ Hni). intros mr [->|Hin]%elem_of_cons.
  - cbn [fst snd]. split; [by eapply shown_same|]. destruct Hg as (_ & _ & _ & _ & _ & E). by rewrite E.
  - specialize (Hrest _ Hin). by rewrite Hrc in Hrest.
Qed.
Lemma series_labels rows : NoDup (map (fun row : Row => row.1.1) rows) ->
  NoDup (map (fun mr => labels_for mr.1 mr.2) (series rows)).
Proof.
  intros Hnd. unfold series. assert (Hm : NoDup MOUNTS) by (repeat (apply NoDup_cons; split; [set_solver|]); constructor).
  induction Hm as [|m ms Hni Hm IH]; cbn [flat_map map]; [constructor|]. rewrite map_app. apply NoDup_app.
  split; [|split; [|exact IH]].
  - rewrite map_map. clear Hni Hm IH. induction rows as [|row rows IH]; cbn [map] in *; [constructor|].
    apply NoDup_cons in Hnd as [Hr Hnd]. apply NoDup_cons. split; [|by apply IH].
    intros H. apply Hr. apply list_elem_of_fmap in H as (row' & [= E _] & Hin). apply list_elem_of_fmap. by exists row'.
  - intros lab H1 H2. apply list_elem_of_fmap in H1 as ([m1 r1] & -> & H1), H2 as ([m2 r2] & E & H2).
    rewrite list_elem_of_In, in_map_iff in H1. destruct H1 as (r & [= <- <-] & _). injection E as <- _ _.
    rewrite list_elem_of_In, in_flat_map in H2. destruct H2 as (m3 & Hm3 & H2). apply in_map_iff in H2 as (r3 & [= -> ->] & _).
    by apply Hni, list_elem_of_In.
Qed.

(** ** A pass *)

Lemma current_same s s' : gauges s' = gauges s -> node_pools s' = node_pools s -> af_nodes s' = af_nodes s ->
  (k8s_ready s = true -> k8s_ready s' = true) -> current s -> current s'.
Proof.
  intros Eg Ep Ea Ek [Hser Hrows Hnd Hpools Hready]. split; rewrite ?Eg, ?Ep, ?Ea; try done.
  intros Hf. apply Hready. destruct (k8s_ready s); [|done]. rewrite Ek in Hf by done. done.
Qed.

Section Pass.
Context (cf : Settings) (svc : service Req Ans).

(** The rows that a pass goes over are those it keeps. *)
Definition keeps_results (s s' : Monitor) : Prop := result_cache s' = result_cache s.
Lemma wp_init s h (P : res Exc unit -> Monitor -> list Ev -> Prop) : current s ->
  (forall s' t, current s' -> af_nodes s' = af_nodes s -> keeps_results s s' -> (k8s_ready s = true -> s' = s) -> P (Ok tt) s' (h ++ t)) ->
  wp (init_k8s svc) s h P.
Proof.
  intros Hc HP. unfold init_k8s. wp_step. apply wp_get. cbv beta iota. destruct (k8s_ready s) eqn:E.
  - apply wp_ret. specialize (HP s []). rewrite app_nil_r in HP. by apply HP.
  - wp_step. wp_step. apply wp_mod. apply HP; [|done|done|done].
    apply (current_same s); [done|done|done| |done]. by rewrite E.
Qed.
Lemma wp_list_nodes s h (P : res Exc (list Row) -> Monitor -> list Ev -> Prop) : current s ->
  (forall s' t, current s' -> keeps_results s s' -> P (Ok (af_nodes s')) s' (h ++ t)) -> wp (list_af_nodes cf svc) s h P.
Proof.
  intros Hc HP. unfold list_af_nodes, refresh_node_caches, time. wp_step. wp_step.
  assert (Hend : forall s' t, current s' -> keeps_results s s' ->
    wp (s0 ← mget; mret (if k8s_ready s0 then af_nodes s0 else [])) s' (h ++ t) P).
  { intros s' t Hc' Hr. wp_step. apply wp_get. apply wp_ret. destruct (k8s_ready s') eqn:E; [by apply HP|].
    pose proof (cur_ready _ Hc' E) as Ha. specialize (HP s' t Hc' Hr). by rewrite Ha in HP. }
  apply wp_init; [done|]. intros s1 t1 Hc1 _ Hr1 _. wp_step. apply wp_get. cbv beta iota.
  destruct (k8s_ready s1) eqn:Ek; cbn [negb]; [|apply wp_ret; by apply Hend].
  wp_step. wp_step. destruct (_ && _); [apply wp_ret; rewrite <- app_assoc; by apply Hend|].
  wp_step. wp_step. destruct (svc _ (ListNodes "cms-af-prod=true")) as [prod|]; [|apply wp_ret; rewrite <- !app_assoc; by apply Hend].
  wp_step. wp_step. destruct (svc _ (ListNodes "cms-af-dev=true")) as [dev|]; [|apply wp_ret; rewrite <- !app_assoc; by apply Hend].
  apply wp_mod. cbv beta iota. rewrite <- !app_assoc. apply Hend; [|done].
  apply take_nodes_current; [apply nodes_by_name_keys|apply nodes_by_name_pools|done|done].
Qed.
Lemma wp_probes now s h (P : res Exc (option Probes) -> Monitor -> list Ev -> Prop) : current s ->
  (forall probes s' t, current s' -> af_nodes s' = af_nodes s -> keeps_results s s' ->
     probes = None \/ probes = probe_cache s' -> P (Ok probes) s' (h ++ t)) -> wp (probe_pods cf svc now) s h P.
Proof.
  intros Hc HP. unfold probe_pods, list_probe_pods. wp_step. wp_step. apply wp_init; [done|]. intros s1 t1 Hc1 Ha1 Hr1 _.
  assert (Hold : forall t, wp (s ← mget; match probe_cache s with
      | Some p => mret (if (now - probe_cache_ts s)%Q <?q POD_CACHE_TTL_S cf then Some p else None)
      | None => mret None end) s1 (h ++ t) P).
  { intros t. wp_step. apply wp_get. cbv beta iota. destruct (probe_cache s1) as [p|] eqn:E; apply wp_ret; apply HP; try done; auto.
    destruct (_ <?q _); rewrite ?E; auto. }
  wp_step. apply wp_get. cbv beta iota. destruct (k8s_ready s1); cbn [negb].
  2:{ apply wp_ret. apply Hold. }
  wp_step. wp_step. destruct (svc _ ListPods) as [pods|]; apply wp_ret; cbn [fmap option_fmap option_map]; rewrite <- app_assoc.
  - wp_step. apply wp_mod. apply wp_ret. apply HP; [|done|done|by right]. by apply (current_same s1).
  - apply Hold.
Qed.
(** The results fetched, and the events that they were fetched in. *)
Inductive fetches : Probes -> list (Key * json) -> list Ev -> Prop :=
| fetches_none : fetches [] [] []
| fetches_one key probe rest a results t : fetches rest results t ->
    fetches ((key, probe) :: rest)
      (match a with Some d => if is_obj d then (key, d) :: results else results | None => results end)
      (existT (Fetch (result_url probe)) a :: t).
Lemma wp_fetch targets s h (P : res Exc (list (Key * json)) -> Monitor -> list Ev -> Prop) :
  (forall fetched t, fetches targets fetched t -> P (Ok fetched) s (h ++ t)) -> wp (fetch_all svc targets) s h P.
Proof.
  revert h P. induction targets as [|[key probe] rest IH]; intros h P HP; cbn [fetch_all].
  - apply wp_ret. specialize (HP [] [] fetches_none). by rewrite app_nil_r in HP.
  - wp_step. unfold fetch_result. wp_step. wp_step. apply wp_ret. wp_step. apply IH. intros fetched t Hf. apply wp_ret.
    rewrite <- app_assoc. cbn [app]. pose proof (fetches_one key probe rest (svc h (Fetch (result_url probe))) fetched t Hf) as H1.
    apply HP in H1. destruct (svc h _) as [d|]; [destruct (is_obj d)|]; exact H1.
Qed.
(** Whatever a pass raises, the series stay those of current nodes. *)
Lemma update_current s h : current s -> wp (update_metrics cf svc) s h (fun _ s' _ => current s').
Proof.
  intros Hc. unfold update_metrics, time. wp_step. wp_step. wp_step. apply wp_list_nodes; [done|]. intros s1 t1 Hc1 _.
  wp_step. apply wp_probes; [done|]. intros probes s2 t2 Hc2 Ha2 _ _. rewrite <- Ha2. wp_step. apply wp_fetch. intros fetched t3 _.
  wp_step. apply wp_mod. cbv beta iota. wp_step. set (s3 := s2 <| result_cache := _ |>).
  assert (Hc3 : current s3) by by apply (current_same s2). change (af_nodes s2) with (af_nodes s3).
  eapply wp_mono; [apply keeps_all_series|]. intros [[]|e] s4 h4 Hp; apply publishes_current in Hp; try done.
  apply wp_mod. by apply (current_same s4).
Qed.

(** The rest of a pass leaves the mounts' series and the nodes alone. *)
Definition quiet (s s' : Monitor) : Prop :=
  gauges s' = gauges s /\ node_pools s' = node_pools s /\ af_nodes s' = af_nodes s /\ k8s_ready s' = k8s_ready s.
#[local] Instance quiet_preorder : PreOrder quiet.
Proof.
  split; [by intros s|]. intros s1 s2 s3 (E1 & E2 & E3 & E4) (E5 & E6 & E7 & E8). repeat split; congruence.
Qed.
Lemma quiet_current s s' : quiet s s' -> current s -> current s'.
Proof. intros (E1 & E2 & E3 & E4). apply current_same; try done. by rewrite E4. Qed.
Lemma keeps_flux kind items : keeps quiet (publish_flux kind items).
Proof.
  unfold publish_flux. keep; auto using keeps_or_raised; try (apply keeps_or_raised; exact _); by apply keeps_mod.
Qed.
Lemma flux_current s h : current s -> wp (update_flux svc) s h (fun _ s' _ => current s').
Proof.
  intros Hc. unfold update_flux. wp_step. apply wp_init; [done|]. intros s1 t Hc1 _ _ _. wp_step. apply wp_get. cbv beta iota.
  destruct (negb _); [by apply wp_ret|]. eapply wp_mono with (P := fun _ s' _ => quiet s1 s').
  - apply keeps_for; [exact _|]. intros k. apply keeps_bind; [exact _|apply (keeps_call quiet svc (ListFlux k.2.2))|]. intros items. apply keeps_flux.
  - intros r s' _ H. by apply (quiet_current s1).
Qed.
Lemma pass_current s h : current s -> wp (one_pass cf svc) s h (fun _ s' _ => current s').
Proof.
  intros Hc. unfold one_pass, registry_answers, time. wp_step.
  eapply wp_mono with (P := fun _ s' _ => current s').
  { destruct (String.eqb _ _); [by apply wp_ret|]. wp_step. wp_step. wp_step. apply wp_ret. apply wp_mod. by apply (current_same s). }
  intros [[]|e] s1 h1 Hc1; [|done]. wp_step. eapply wp_mono; [by apply flux_current|].
  intros [[]|e] s2 h2 Hc2; [|done]. wp_step. wp_step. wp_step. eapply wp_mono; [by apply update_current|].
  intros [[]|e] s3 h3 Hc3.
  - wp_step. wp_step. apply wp_mod. cbv beta iota. wp_step. by apply (current_same s3).
  - apply wp_ret. wp_step. done.
Qed.
End Pass.

(** The series are those of the nodes there are. Through every pass that the monitor
    makes, whatever fails and wherever a pass breaks off, each series of a mount's gauges
    is of a known mount and of a node of the last list of nodes that was read, in the
    pool that it has there: a node that left, or that changed its pool, has no series
    left of before. *)
Theorem monitor_current cf svc passes h :
  wp (main cf svc passes) monitor0 h (fun _ s' _ => current s').
Proof.
  unfold main, read_code. wp_step. wp_step. wp_step. destruct (svc h ReadCode) as [code|]; cbn [or_raised];
    [|apply wp_raise; apply current_start]. apply wp_ret.
  generalize (h ++ [existT ReadCode (Some code)]), current_start. generalize monitor0.
  induction passes as [|passes IH]; intros s h' Hc; cbn [run_passes]; [by apply wp_ret|].
  unfold read_code. wp_step. wp_step. wp_step. destruct (svc h' ReadCode) as [code'|]; cbn [or_raised]; [|by apply wp_raise].
  apply wp_ret. destruct (String.eqb code' code); [|by apply wp_ret]. wp_step.
  eapply wp_mono; [by apply pass_current|]. intros [[]|e] s2 h2 Hc2; [|done]. by apply IH.
Qed.

(** The publication of the series asks nothing. *)
Lemma series_asks_nothing cf now probes fetched working l s h :
  (mfor l (fun mr => publish_series cf now probes fetched working mr.1 mr.2) s h).2 = h.
Proof.
  assert (H : asks_only (fun _ : Req => false) (mfor l (fun mr => publish_series cf now probes fetched working mr.1 mr.2))).
  { apply only_for. intros [m [[node pool] ready]]. unfold publish_series, publish_result, publish_reading, on_gauges, or_raised. asks. }
  apply (wp_run _ s h _) in H. destruct H as (t & q & E & Ht & _). rewrite E. destruct t as [|e t]; [apply app_nil_r|].
  by apply ofold_cons in Ht as (? & [=] & _).
Qed.

(** The result that is known of a probe after a pass: what the pass fetched of it, or else
    what was known before. *)
Definition known_result (before fetched : list (Key * json)) (key : Key) : option json :=
  match dget key (rev fetched) with Some data => Some data | None => dget key before end.
Lemma dget_snoc (key : Key) (l : list (Key * json)) kv :
  dget key (l ++ [kv]) = match dget key l with Some v => Some v | None => if decide (key = kv.1) then Some kv.2 else None end.
Proof. destruct kv as [k v]. induction l as [|[k1 v1] l IH]; cbn [app dget fst snd]; [done|]. destruct (decide (key = k1)); [done|exact IH]. Qed.
Lemma known_updated before fetched key : dget key (dupdate before fetched) = known_result before fetched key.
Proof.
  unfold dupdate, known_result. revert before. induction fetched as [|[k v] l IH]; intros before; cbn [foldl rev fst snd]; [done|].
  rewrite IH, dget_snoc. cbn [fst snd]. destruct (dget key (rev l)) as [w|]; [done|]. case_decide as E.
  - subst. by rewrite dget_dset.
  - by rewrite dget_dset_ne.
Qed.

(** C40: A pass says of each mount what is known of it. After a pass that did not break
    off, every mount on every node that was listed shows the verdict of the table
    [verdict_of]: nothing on a node that is not Ready; a failure where the volume cannot
    be mounted while a probe beside it answers; else what the probe's last result says,
    green only if it is fine and not older than the window, unknown if it is missing,
    undated or an old success, a failure otherwise, however old. The last result of a probe
    is the one that this pass fetched from it, or else the one known before. The probe's
    own gauge and the share of probes that answered are those of the pass. *)
Theorem pass_verdicts cf svc s h :
  current s ->
  wp (update_metrics cf svc) s h (fun r s' h' => r = Ok tt -> exists now t probes fetched t',
    let targets := targets_of (af_nodes s') probes in
    h' = h ++ [existT Time now] ++ t ++ t' /\ (probes = None \/ probes = probe_cache s') /\ fetches targets fetched t' /\
    (forall key, dget key (result_cache s') = known_result (result_cache s) fetched key) /\
    (forall m row, m ∈ MOUNTS -> row ∈ af_nodes s' ->
       shown (gauges s') (labels_for m row) (verdict_of cf now probes (working_of targets fetched) (result_cache s') m row) /\
       mount_probe_up (gauges s') !! labels_for m row = probe_up_of probes fetched m row) /\
    results_available s' = Some (available_of (af_nodes s') targets fetched)).
Proof.
  intros Hc. unfold update_metrics, time. wp_step. wp_step. generalize (svc h Time). intros now. wp_step.
  apply wp_list_nodes; [done|]. intros s1 t1 Hc1 Hr1.
  wp_step. apply wp_probes; [done|]. intros probes s2 t2 Hc2 Ha2 Hr2 Hpc. rewrite <- Ha2. wp_step. apply wp_fetch. intros fetched t3 Hf.
  wp_step. apply wp_mod. cbv beta iota. wp_step. set (s3 := s2 <| result_cache := _ |>). change (af_nodes s2) with (af_nodes s3) in *.
  assert (Hc3 : current s3) by by apply (current_same s2).
  change (probe_cache s2) with (probe_cache s3) in Hpc. set (h3 := (((h ++ _) ++ t1) ++ t2) ++ t3).
  set (working := working_of _ _).
  pose proof (wp_all_series cf now probes fetched working (series (af_nodes s3)) s3 h3 (series_labels _ (cur_nodup _ Hc3))) as Hv.
  pose proof (keeps_all_series cf now probes fetched working (af_nodes s3) s3 h3) as Hk.
  pose proof (series_asks_nothing cf now probes fetched working (series (af_nodes s3)) s3 h3) as Hh.
  unfold wp in Hv, Hk |- *. destruct (mfor _ _ s3 h3) as [[[[]|e] s4] h4]; [|done]. cbn in Hh. subst h4.
  destruct Hk as (_ & Ea & _ & Er & Ep & _). cbn [mmod set_field]. intros _. exists now, (t1 ++ t2), probes, fetched, t3.
  cbn. rewrite Ea, Ep, Er. unfold h3. rewrite <- !app_assoc. cbn. split; [done|]. split; [done|]. split; [done|].
  split; [intros key; rewrite known_updated; unfold keeps_results in *; by rewrite Hr2, Hr1|]. split; [|done].
  intros m row Hm Hrow. apply (Hv (m, row)). by apply in_series.
Qed.

(** One Ready node with two probes, of which the first says what [depot] is. *)
Definition demo_pod (mount ip : string) : PodObj :=
  mkPodObj [("mount", mount)]%string false (Some 0%Q) "n1" [] "Running" ip [("Ready", "True")]%string [].
Definition fine_result : json :=
  JObj [("timestamp", JInt 990); ("ok", JBool true); ("ping_ms", JInt 2); ("metadata_ms", JInt 5); ("throughput_gbps", JInt 1)]%string.
Definition demo_svc (depot : json) : service Req Ans := fun _ r =>
  match r return Ans r with
  | InitK8s => true
  | ListNodes s => Some (if String.eqb s "cms-af-prod=true" then [mkNodeObj "n1" [("Ready", "True")]]%string else [])
  | ListPods => Some [demo_pod "depot" "10.0.0.1"; demo_pod "work" "10.0.0.2"]%string
  | ListFlux _ => Some []
  | Fetch url => Some (if String.eqb url "http://10.0.0.1:8080/result" then depot else fine_result)
  | OpenRegistry => Some 401
  | ReadCode => Some "v1"%string
  | Time => 1000%Q
  | Sleep _ => tt
  end.
Definition demo_pass (depot : json) := update_metrics default_settings (demo_svc depot) monitor0 [].
Definition depot_n1 : Labels := ("/depot/", "n1", "prod")%string.
Definition work_n1 : Labels := ("/work/", "n1", "prod")%string.
Definition eos_n1 : Labels := ("eos", "n1", "prod")%string.
Definition time_of (e : Ev) : Q :=
  let '(existT r a) := e in match r return Ans r -> Q with Time => fun x => x | _ => fun _ => 0%Q end a.
Lemma pass_verdicts_witness :
  (demo_pass fine_result).1.1 = Ok tt /\ af_nodes (demo_pass fine_result).1.2 = [("n1", "prod", true)]%string /\
  shown (gauges (demo_pass fine_result).1.2) depot_n1 Healthy /\ shown (gauges (demo_pass fine_result).1.2) eos_n1 Unknown /\
  exists probes working, shown (gauges (demo_pass fine_result).1.2) work_n1
    (verdict_of default_settings 1000 probes working (result_cache (demo_pass fine_result).1.2) "/work/" ("n1", "prod", true)%string).
Proof.
  assert (Ha : af_nodes (demo_pass fine_result).1.2 = [("n1", "prod", true)]%string) by (vm_compute; reflexivity).
  assert (Hr : (demo_pass fine_result).1.1 = Ok tt) by (vm_compute; reflexivity).
  assert (Ht : match (demo_pass fine_result).2 with e :: _ => time_of e | [] => 0%Q end = 1000%Q) by (vm_compute; reflexivity).
  split; [exact Hr|]. split; [exact Ha|]. split; [vm_compute; split; reflexivity|]. split; [vm_compute; split; reflexivity|].
  revert Ha Hr Ht. cut (forall run, update_metrics default_settings (demo_svc fine_result) monitor0 [] = run ->
    af_nodes run.1.2 = [("n1", "prod", true)]%string -> run.1.1 = Ok tt ->
    match run.2 with e :: _ => time_of e | [] => 0%Q end = 1000%Q ->
    exists probes working, shown (gauges run.1.2) work_n1
      (verdict_of default_settings 1000 probes working (result_cache run.1.2) "/work/" ("n1", "prod", true)%string)).
  { intros H. exact (H (demo_pass fine_result) eq_refl). }
  intros [[r s'] h'] E Ha Hr Ht.
  pose proof (pass_verdicts default_settings (demo_svc fine_result) monitor0 [] current_start) as H. unfold wp in H. rewrite E in H.
  cbn [fst snd] in *. destruct (H Hr) as (now & t & probes & fetched & t' & -> & _ & _ & _ & Hv & _).
  cbn in Ht. subst now. rewrite Ha in Hv. destruct (Hv "/work/"%string ("n1", "prod", true)%string) as [Hs _];
    [by right; left|by left|]. exists probes, (working_of (targets_of [("n1", "prod", true)%string] probes) fetched). exact Hs.
Defined.

(** A result with a reading that is no number breaks the pass off, at every pass: what
    comes after it, here a mount that is fine, has no series, though an odd timestamp is
    caught. *)
Lemma odd_reading_stops_pass :
  let odd := JObj [("timestamp", JInt 990); ("ok", JBool true); ("ping_ms", JStr "fast")]%string in
  (demo_pass odd).1.1 = Err Raised /\ ~ shows (gauges (demo_pass odd).1.2) work_n1 /\
  results_available (demo_pass odd).1.2 = None.
Proof.
  split; [vm_compute; reflexivity|]. split; [|vm_compute; reflexivity].
  unfold shows. vm_compute. intros [[? [=]]|[[? [=]]|[[? [=]]|[[? [=]]|[[? [=]]|[? [=]]]]]]].
Qed.
