(* ===== verification/PixiSync.v ===== *)
(** The daemon that keeps the shared pixi environment in sync,
    [apps/af-utils/pixi-global-sync/sync-global-env.py]: the lock, installs and checks,
    [reconcile], [deep_verify] and [main]. The thread that keeps the heartbeat while a
    command runs is part of the command's answer. *)
From S2P Require Import Prelude PyJson PyText PyTime PyFloat PyValue.
Open Scope Z_scope.

(** ** Constants and state *)

Definition POLL_SECONDS : Q := 60.
Definition VERIFY_SECONDS : Q := 6 * 3600.
Definition FAIL_COOLDOWN : Q := 30 * 60.
Definition LOCK_FROZEN_SECONDS : Q := 90.
Definition attempts : nat := 3.

(** The two manifests, by their bytes. *)
Record Manifests := mkManifests { m_toml : string; m_lock : string }.
#[export] Instance manifests_eq : EqDecision Manifests.
Proof. solve_decision. Defined.
Definition manifest_files (m : Manifests) : list (string * string) := [("pixi.toml", m_toml m); ("pixi.lock", m_lock m)]%string.

Record Metrics := mkMetrics {
  in_sync : Q; paused : Q; env_healthy : Q; last_success : Q; syncs_total : Q; sync_failures_total : Q;
  last_sync_duration : Q; loop_heartbeat : Q }.
#[export] Instance eta_Metrics : Eta Metrics := {| eta_of r :=
  mkMetrics (in_sync r) (paused r) (env_healthy r) (last_success r) (syncs_total r) (sync_failures_total r)
    (last_sync_duration r) (loop_heartbeat r) |}.
Definition metrics0 : Metrics := mkMetrics 0 0 1 0 0 0 0 0.
Record Daemon := mkDaemon {
  metrics : Metrics; last_failure : Q; was_paused : bool; installed : option Manifests }.
#[export] Instance eta_Daemon : Eta Daemon := {| eta_of r :=
  mkDaemon (metrics r) (last_failure r) (was_paused r) (installed r) |}.
Definition daemon0 : Daemon := mkDaemon metrics0 0 false None.

Inductive Exc := Raised | OutOfFuel.
Inductive Cmd := Install | CheckEnv.
Inductive Made := Created | AlreadyThere | MakeFailed.
Inductive Req :=
| RevisionDir | ReadConfig (dir name : string)
| PauseExists | ReadLive (name : string) | LiveTomlExists
| MkLive | WriteTmp (name data : string) | Replace (name : string)
| PrefixExists | RemovePrefix
| DistInfos | RemoveDist (path : string)
| PythonIsFile | Spawn (c : Cmd)
| StopIsSet | StopWait (seconds : Q)
| Time | Monotonic | Sleep (seconds : Q)
| MkLock | ReadHeartbeat | WriteHeartbeat | RemoveLock
| ReadCode.
(** [None] and [false] are exceptions, but for what asks a question. A command's answer
    is the last beat of the heartbeat while it ran, and its exit code unless it was not
    started or was killed at its timeout. *)
Definition Ans (r : Req) : Type :=
  match r with
  | RevisionDir | ReadConfig _ _ | ReadLive _ | ReadCode => option string
  | PauseExists | LiveTomlExists | PrefixExists | PythonIsFile | StopIsSet | StopWait _ => bool
  | MkLive | WriteTmp _ _ | Replace _ | RemovePrefix | WriteHeartbeat => bool
  | DistInfos => list (string * bool)
  | RemoveDist _ | Sleep _ | RemoveLock => unit
  | Spawn _ => option Q * option Z
  | Time | Monotonic => Q
  | MkLock => Made
  | ReadHeartbeat => option json
  end.
Definition Ev : Type := sigT Ans.
Definition PM (A : Type) : Type := M Ev Daemon Exc A.

Definition on_metrics (f : Metrics -> Metrics) : PM unit := mmod (fun s => s <| metrics := f (metrics s) |>).
Definition or_raised {A} (a : option A) : PM A := match a with Some a => mret a | None => raise Raised end.
Definition unless_raised (ok : bool) : PM unit := if ok then mret tt else raise Raised.
Definition q_of_bool (b : bool) : Q := qz (Z.b2z b).

(** ** [FrozenHeartbeatObserver] *)

(** What was seen last, and since when. *)
Definition Seen := option (option Q * Q).
Definition same_ts (a b : option Q) : bool :=
  match a, b with Some x, Some y => Qeq_bool x y | None, None => true | _, _ => false end.
Definition frozen (threshold : Q) (seen : Seen) (heartbeat_ts : option Q) (now_monotonic : Q) : bool * Seen :=
  match seen with
  | Some (ts, since) =>
      if same_ts ts heartbeat_ts then (threshold <?q (now_monotonic - since)%Q, seen)
      else (false, Some (heartbeat_ts, now_monotonic))
  | None => (false, Some (heartbeat_ts, now_monotonic))
  end.
(** The [ts] of a heartbeat that was read; anything but a number counts as none. *)
Definition ts_of (heartbeat : option json) : option Q :=
  match heartbeat with
  | Some h => match jget "ts" h with JFloat q => Some q | JInt n => Some (qz n) | _ => None end
  | None => None
  end.

Section Sync.
Context (svc : service Req Ans).

Definition time : PM Q := mcall svc Time.
Definition write_heartbeat : PM unit := ok ← (mcall svc WriteHeartbeat : PM bool); unless_raised ok.
(** [tries] of the loop. *)
Fixpoint acquire (tries : nat) (seen : Seen) : PM unit :=
  match tries with
  | O => raise OutOfFuel
  | S tries =>
      made ← (mcall svc MkLock : PM Made);
      match made with
      | Created => write_heartbeat
      | MakeFailed => raise Raised
      | AlreadyThere =>
          heartbeat ← (mcall svc ReadHeartbeat : PM (option json));
          now ← (mcall svc Monotonic : PM Q);
          let '(dead, seen) := frozen LOCK_FROZEN_SECONDS seen (ts_of heartbeat) now in
          if dead then write_heartbeat else
          (mcall svc (Sleep 30) : PM unit) ≫= fun _ => acquire tries seen
      end
  end.
Definition acquire_lock (tries : nat) : PM unit := acquire tries None.
Definition release_lock : PM unit := mcall svc RemoveLock.

(** ** Manifests *)

Definition read_desired : PM Manifests :=
  dir ← (mcall svc RevisionDir : PM (option string)); dir ← or_raised dir;
  toml ← (mcall svc (ReadConfig dir "pixi.toml") : PM (option string)); toml ← or_raised toml;
  lock ← (mcall svc (ReadConfig dir "pixi.lock") : PM (option string)); lock ← or_raised lock;
  mret (mkManifests toml lock).
Fixpoint all_equal (files : list (string * string)) : PM bool :=
  match files with
  | [] => mret true
  | (name, data) :: rest =>
      live ← (mcall svc (ReadLive name) : PM (option string));
      match live with
      | Some live => if String.eqb live data then all_equal rest else mret false
      | None => mret false
      end
  end.
Definition is_in_sync (desired : Manifests) : PM bool := all_equal (manifest_files desired).
Definition is_paused : PM bool := mcall svc PauseExists.
Definition stage_manifests (files : Manifests) : PM unit :=
  ok ← (mcall svc MkLive : PM bool); unless_raised ok ≫= fun _ =>
  mfor (manifest_files files) (fun f =>
    ok ← (mcall svc (WriteTmp f.1 f.2) : PM bool); unless_raised ok ≫= fun _ =>
    ok ← (mcall svc (Replace f.1) : PM bool); unless_raised ok).

(** ** Commands *)

Definition stop_if_set : PM unit :=
  stop ← (mcall svc StopIsSet : PM bool); if stop : bool then raise Raised else mret tt.
Definition run_with_heartbeat (c : Cmd) : PM Z :=
  stop_if_set ≫= fun _ =>
  '(beat, code) ← (mcall svc (Spawn c) : PM (option Q * option Z));
  on_metrics (fun m => match beat with Some t => m <| loop_heartbeat := t |> | None => m end) ≫= fun _ =>
  code ← or_raised code;
  stop_if_set ≫= fun _ => mret code.
(** What is left of the attempts; the pause before the next is 60 s more each time. *)
Fixpoint install_attempts (attempt more : nat) : PM unit :=
  match more with
  | O => raise Raised
  | S more =>
      code ← run_with_heartbeat Install;
      if code =? 0 then mret tt else
      match more with
      | O => raise Raised
      | S _ =>
          stop ← (mcall svc (StopWait (60 * qz (Z.of_nat attempt))%Q) : PM bool);
          if stop : bool then raise Raised else install_attempts (S attempt) more
      end
  end.
Definition pixi_install : PM unit := install_attempts 1 attempts.
Definition purge_incomplete_dist_infos : PM unit :=
  dists ← (mcall svc DistInfos : PM (list (string * bool)));
  mfor dists (fun d => if d.2 : bool then mret tt else (mcall svc (RemoveDist d.1) : PM unit)).
Definition wipe_env_prefix : PM unit :=
  there ← (mcall svc PrefixExists : PM bool);
  if there : bool then ok ← (mcall svc RemovePrefix : PM bool); unless_raised ok else mret tt.
Definition validate_env : PM bool :=
  python ← (mcall svc PythonIsFile : PM bool);
  if negb python then mret false else
  code ← run_with_heartbeat CheckEnv; mret (code =? 0).

(** ** [reconcile] *)

(** The body of its [try]. *)
Definition sync (desired : Manifests) : PM unit :=
  stage_manifests desired ≫= fun _ =>
  s ← mget;
  (if env_healthy (metrics s) <?q (1 # 2)%Q then wipe_env_prefix else mret tt) ≫= fun _ =>
  pixi_install ≫= fun _ =>
  purge_incomplete_dist_infos ≫= fun _ =>
  ok ← validate_env;
  if ok : bool then mret tt else
  wipe_env_prefix ≫= fun _ =>
  pixi_install ≫= fun _ =>
  purge_incomplete_dist_infos ≫= fun _ =>
  ok ← validate_env;
  if ok : bool then mret tt else
  on_metrics (fun m => m <| env_healthy := 0%Q |>) ≫= fun _ => raise Raised.
Definition sync_now (desired : Manifests) : PM bool :=
  on_metrics (fun m => m <| syncs_total := (syncs_total m + 1)%Q |>) ≫= fun _ =>
  mmod (fun s => s <| installed := None |>) ≫= fun _ =>
  started ← time;
  done_ ← mfinally
    (mcatch (sync desired ≫= fun _ => mret true)
       (fun _ => on_metrics (fun m => m <| sync_failures_total := (sync_failures_total m + 1)%Q |>) ≫= fun _ =>
                 now ← time; mmod (fun s => s <| last_failure := now |>) ≫= fun _ => mret false))
    (now ← time; on_metrics (fun m => m <| last_sync_duration := (now - started)%Q |>));
  if negb done_ then mret false else
  mmod (fun s => s <| installed := Some desired |>) ≫= fun _ =>
  on_metrics (fun m => m <| in_sync := 1%Q |> <| env_healthy := 1%Q |>) ≫= fun _ =>
  now ← time; on_metrics (fun m => m <| last_success := now |>) ≫= fun _ =>
  (time : PM Q) ≫= fun _ => mret true.
Definition reconcile (force : bool) : PM bool :=
  desired ← read_desired;
  pause ← is_paused;
  mmod (fun s => s <| was_paused := pause |>) ≫= fun _ =>
  if pause : bool then
    mmod (fun s => s <| installed := None |>) ≫= fun _ =>
    on_metrics (fun m => m <| paused := 1%Q |>) ≫= fun _ =>
    synced ← is_in_sync desired;
    on_metrics (fun m => m <| in_sync := q_of_bool synced |>) ≫= fun _ => mret true
  else
  on_metrics (fun m => m <| paused := 0%Q |>) ≫= fun _ =>
  s ← mget;
  live ← is_in_sync desired;
  let synced := live && bool_decide (installed s = Some desired) in
  on_metrics (fun m => m <| in_sync := q_of_bool synced |>) ≫= fun _ =>
  if synced && negb force && ((1 # 2)%Q <=?q env_healthy (metrics s)) then mret true else
  (if force then mret false else now ← time; s ← mget; mret ((now - last_failure s)%Q <?q FAIL_COOLDOWN)) ≫= fun cooling =>
  if cooling : bool then mret false else
  (mcall svc (ReadLive "pixi.lock") : PM (option string)) ≫= fun _ =>
  sync_now desired.

(** ** [deep_verify] and [main] *)

Definition deep_verify : PM unit :=
  pause ← is_paused;
  if pause : bool then mret tt else
  there ← (mcall svc LiveTomlExists : PM bool);
  if negb there then mret tt else
  healthy ← validate_env;
  on_metrics (fun m => m <| env_healthy := q_of_bool healthy |>) ≫= fun _ =>
  if healthy : bool then mret tt else reconcile true ≫= fun _ => mret tt.
Definition read_code : PM string := a ← (mcall svc ReadCode : PM (option string)); or_raised a.
(** One cycle; the new time of the last deep verification. *)
Definition cycle (last_verify : Q) : PM Q :=
  now ← time; on_metrics (fun m => m <| loop_heartbeat := now |>) ≫= fun _ =>
  (mcall svc WriteHeartbeat : PM bool) ≫= fun _ =>
  synced ← mcatch (reconcile false ≫= fun _ => mret true) (fun _ => mret false);
  if negb synced then mret last_verify else
  now ← time;
  if negb (VERIFY_SECONDS <?q (now - last_verify)%Q) then mret last_verify else
  last ← time;
  mcatch deep_verify (fun _ => mret tt) ≫= fun _ => mret last.
(** [cycles] of the loop. *)
Fixpoint run_cycles (cycles : nat) (running : string) (last_verify : Q) : PM unit :=
  match cycles with
  | O => mret tt
  | S cycles =>
      stop ← (mcall svc StopIsSet : PM bool);
      if stop : bool then mret tt else
      code ← read_code;
      if negb (String.eqb code running) then mret tt else
      last ← cycle last_verify;
      (mcall svc (StopWait POLL_SECONDS) : PM bool) ≫= fun _ =>
      run_cycles cycles running last
  end.
Definition main (tries cycles : nat) : PM unit :=
  running ← read_code;
  acquire_lock tries ≫= fun _ =>
  mfinally (run_cycles cycles running 0) release_lock.
End Sync.

(** ** The metrics page *)

Section Page.
Definition metric_lines (m : Metrics) : list (string * Q) :=
  [("env_healthy", env_healthy m); ("in_sync", in_sync m); ("last_success_timestamp_seconds", last_success m);
   ("last_sync_duration_seconds", last_sync_duration m); ("loop_heartbeat_timestamp_seconds", loop_heartbeat m);
   ("paused", paused m); ("sync_failures_total", sync_failures_total m); ("syncs_total", syncs_total m)]%string.
Definition newline : string := String "010" "".
Definition render_metrics (m : Metrics) : string :=
  (str_join newline (map (fun kv => "pixi_global_sync_" ++ kv.1 ++ " " ++ float_repr kv.2) (metric_lines m)) ++ newline)%string.
Definition do_GET (path : string) (now : Q) (m : Metrics) : Z * string :=
  if String.eqb path "/metrics" then (200, render_metrics m)
  else if String.eqb path "/healthz" then
    let fresh := (now - loop_heartbeat m)%Q <?q Qmax (POLL_SECONDS * 5) 600 in
    (if fresh then 200 else 500, (if fresh then "ok" else "stalled") ++ newline)%string
  else (404, "not found" ++ newline)%string.
End Page.
