(* ===== verification/PixiSafe.v ===== *)
(** What the pixi daemon promises ([apps/af-utils/pixi-global-sync/sync-global-env.py]):
    what it reports as in sync was installed and checked, when it touches the
    environment, when it takes over a lock and how long that of a dead holder lasts; and
    concrete cycles. *)
From S2P Require Import Prelude PyJson PyText PyValue PixiSync.
Open Scope Z_scope.

(** ** What was done to the environment *)

Inductive Phase := Dirty | Installed | Validated.
(** The manifests written beside and in place, and what was done with them since. *)
Record Env := mkEnv { e_tmp : list (string * string); e_live : list (string * string); e_phase : Phase }.
Definition env_step (e : Env) (ev : Ev) : Env :=
  let '(existT r a) := ev in
  match r return Ans r -> Env with
  | WriteTmp name data => fun ok => mkEnv (if ok : bool then dset name data (e_tmp e) else ddel name (e_tmp e)) (e_live e) (e_phase e)
  | Replace name => fun ok =>
      mkEnv (e_tmp e) (match ok : bool, dget name (e_tmp e) with true, Some data => dset name data (e_live e) | _, _ => ddel name (e_live e) end) Dirty
  | RemovePrefix => fun _ => mkEnv (e_tmp e) (e_live e) Dirty
  | RemoveDist _ => fun _ => mkEnv (e_tmp e) (e_live e) (match e_phase e with Validated => Dirty | p => p end)
  | Spawn Install => fun a => mkEnv (e_tmp e) (e_live e) (if bool_decide (a.2 = Some 0) then Installed else Dirty)
  | Spawn CheckEnv => fun a =>
      mkEnv (e_tmp e) (e_live e) (if bool_decide (a.2 = Some 0) then match e_phase e with Dirty => Dirty | _ => Validated end else e_phase e)
  | _ => fun _ => e
  end a.
Definition env_at (h : list Ev) : Env := foldl env_step (mkEnv [] [] Dirty) h.
(** The manifests are in place, and since then the last install succeeded and a check after it too. *)
Definition live_is (e : Env) (m : Manifests) : Prop :=
  dget "pixi.toml"%string (e_live e) = Some (m_toml m) /\ dget "pixi.lock"%string (e_live e) = Some (m_lock m).
Definition synced (e : Env) (m : Manifests) : Prop := live_is e m /\ e_phase e = Validated.
(** The daemon's record of what it installed is true of what was done. *)
Definition honest (s : Daemon) (h : list Ev) : Prop := forall m, installed s = Some m -> synced (env_at h) m.

Lemma env_at_snoc h e : env_at (h ++ [e]) = env_step (env_at h) e.
Proof. unfold env_at. by rewrite foldl_app. Qed.
Lemma wp_both {Ev' St' E' A} (c : M Ev' St' E' A) s h P Q :
  wp c s h P -> wp c s h Q -> wp c s h (fun r s' h' => P r s' h' /\ Q r s' h').
Proof. unfold wp. destruct (c s h) as [[r s'] h']. auto. Qed.

(** Requests that leave the environment as it is. *)
Definition idle (r : Req) : bool :=
  match r with WriteTmp _ _ | Replace _ | RemovePrefix | RemoveDist _ | Spawn _ | MkLive => false | _ => true end.
Lemma idle_step e r a : idle r = true -> env_step e (existT r a) = e.
Proof. by destruct r. Qed.
Lemma idle_env {A} (c : PM A) s h : asks_only idle c -> wp c s h (fun _ _ h' => env_at h' = env_at h).
Proof.
  intros H. eapply wp_mono; [apply H|]. intros r s' h' (t & q & -> & Ht & _). clear r s'.
  revert h q Ht. induction t as [|[r a] t IH]; intros h q Ht; [by rewrite app_nil_r|].
  apply ofold_cons in Ht as (q' & Hr & Ht). unfold only in Hr. cbn in Hr. destruct (idle r) eqn:E; [|done].
  rewrite cons_middle, app_assoc.
  destruct q'. rewrite (IH _ _ Ht), env_at_snoc. by apply idle_step.
Qed.

(** ** Parts that change neither *)

Section Parts.
Context (svc : service Req Ans).

Lemma keeps_raised {A} (R : Daemon -> Daemon -> Prop) `{!PreOrder R} (a : option A) : keeps R (or_raised a).
Proof. destruct a; [apply keeps_ret|apply keeps_raise]; exact _. Qed.
Lemma keeps_unless (R : Daemon -> Daemon -> Prop) `{!PreOrder R} ok : keeps R (unless_raised ok).
Proof. destruct ok; [apply keeps_ret|apply keeps_raise]; exact _. Qed.
Lemma only_raised {A} p (a : option A) : asks_only p (or_raised a : PM A).
Proof. destruct a; [apply only_ret|apply only_raise]. Qed.

(** A part that changes neither the state nor the environment. *)
Definition still {A} (c : PM A) : Prop := keeps eq c /\ asks_only idle c.
Lemma wp_still {A} (c : PM A) s h (P : res Exc A -> Daemon -> list Ev -> Prop) :
  still c -> (forall r h', env_at h' = env_at h -> P r s h') -> wp c s h P.
Proof.
  intros [Hk Ho] HP. pose proof (wp_both _ _ _ _ _ (Hk s h) (idle_env _ s h Ho)) as H. eapply wp_mono; [exact H|].
  intros r s' h' [<- E]. by apply HP.
Qed.
Lemma still_call {A} r (f : Ans r -> A) : idle r = true -> still (a ← mcall svc r; mret (f a)).
Proof. intros H. split; [keep; apply (keeps_call eq svc r)|]. apply only_bind; [by apply only_call|intros; apply only_ret]. Qed.
Lemma still_in_sync m : still (is_in_sync svc m).
Proof.
  unfold is_in_sync. generalize (manifest_files m). intros l. induction l as [|[n d] l [IH1 IH2]]; cbn [all_equal].
  - split; [keep|asks].
  - split; [keep|asks].
Qed.
Lemma still_desired : still (read_desired svc).
Proof.
  unfold read_desired. split.
  - unfold or_raised. keep.
  - unfold or_raised. asks.
Qed.
End Parts.

(** ** Commands and their phases *)

Section Commands.
Context (svc : service Req Ans).

(** What [installed] and the manifests in place are, a part leaves. *)
Definition leaves {A} (c : PM A) (s : Daemon) (h : list Ev) (Q : res Exc A -> Phase -> Prop) : Prop :=
  wp c s h (fun r s' h' => installed s' = installed s /\ e_live (env_at h') = e_live (env_at h) /\ Q r (e_phase (env_at h'))).

Lemma leaves_bind {A B} (c : PM A) (f : A -> PM B) s h Q :
  leaves c s h (fun r p => match r with
    | Ok a => forall s' h', e_phase (env_at h') = p -> leaves (f a) s' h' Q
    | Err e => Q (Err e) p end) -> leaves (c ≫= f) s h Q.
Proof.
  intros H. unfold leaves. wp_step. eapply wp_mono; [exact H|]. intros [a|e] s1 h1 (Ei & El & Hq); [|done].
  specialize (Hq s1 h1 eq_refl). eapply wp_mono; [exact Hq|]. intros r s2 h2 (Ei2 & El2 & Hq2). split; [congruence|]. by split; [congruence|].
Qed.
Lemma leaves_mono {A} (c : PM A) s h (Q Q' : res Exc A -> Phase -> Prop) :
  leaves c s h Q -> (forall r p, Q r p -> Q' r p) -> leaves c s h Q'.
Proof. intros H HQ. eapply wp_mono; [exact H|]. intros r s' h' (? & ? & ?). auto. Qed.
Lemma leaves_ret {A} (a : A) s h (Q : res Exc A -> Phase -> Prop) : Q (Ok a) (e_phase (env_at h)) -> leaves (mret a) s h Q.
Proof. intros H. apply wp_ret. auto. Qed.
Lemma leaves_raise {A} e s h (Q : res Exc A -> Phase -> Prop) : Q (Err e) (e_phase (env_at h)) -> leaves (raise e) s h Q.
Proof. intros H. apply wp_raise. auto. Qed.
Lemma leaves_metrics f s h (Q : res Exc unit -> Phase -> Prop) : Q (Ok tt) (e_phase (env_at h)) -> leaves (on_metrics f) s h Q.
Proof. intros H. apply wp_mod. auto. Qed.
Lemma leaves_call r s h (Q : res Exc (Ans r) -> Phase -> Prop) :
  (forall a, e_live (env_step (env_at h) (existT r a)) = e_live (env_at h)) ->
  (forall a, Q (Ok a) (e_phase (env_step (env_at h) (existT r a)))) -> leaves (mcall svc r) s h Q.
Proof. intros Hl HQ. apply wp_call. rewrite env_at_snoc. split; [done|]. split; [apply Hl|apply HQ]. Qed.
Lemma leaves_raised {A} (a : option A) s h (Q : res Exc A -> Phase -> Prop) :
  match a with Some x => Q (Ok x) (e_phase (env_at h)) | None => Q (Err Raised) (e_phase (env_at h)) end -> leaves (or_raised a) s h Q.
Proof. destruct a; [apply leaves_ret|apply leaves_raise]. Qed.

Ltac leaves_step :=
  lazymatch goal with
  | |- leaves (mbind _ _) _ _ _ => apply leaves_bind
  | |- leaves (mret _) _ _ _ => apply leaves_ret
  | |- leaves (raise _) _ _ _ => apply leaves_raise
  | |- leaves (on_metrics _) _ _ _ => apply leaves_metrics
  | |- leaves (or_raised _) _ _ _ => apply leaves_raised
  | |- leaves (mcall _ ?r) _ _ _ => apply (leaves_call r); [by intros ?|intros ?]
  | |- leaves (if ?b then _ else _) _ _ _ => destruct b
  | |- leaves (match ?b with _ => _ end) _ _ _ => destruct b
  end; cbv beta iota.

Definition any_end {A} (r : res Exc A) (p : Phase) : Prop := True.
(** A stop leaves the phase; a command changes it as it ends. *)
Lemma leaves_stop s h : leaves (stop_if_set svc) s h (fun r p => r = Ok tt -> p = e_phase (env_at h)).
Proof. unfold stop_if_set. leaves_step. leaves_step. intros s' h' E. cbn in E. leaves_step; leaves_step; intros; congruence. Qed.
Lemma leaves_install s h :
  leaves (run_with_heartbeat svc Install) s h (fun r p => match r with Ok code => code = 0 -> p = Installed | Err _ => True end).
Proof.
  unfold run_with_heartbeat. leaves_step. eapply leaves_mono; [apply leaves_stop|]. intros [[]|e] p _; [|done]. intros s1 h1 _.
  leaves_step. apply (leaves_call (Spawn Install)); [by intros a|]. intros [beat code] s2 h2 Hp.
  leaves_step. leaves_step. intros s3 h3 Hp3. leaves_step. leaves_step. destruct code as [code|]; [|done]. intros s4 h4 Hp4.
  leaves_step. eapply leaves_mono; [apply leaves_stop|]. intros [[]|e] p2 Hs; [|done]. intros s5 h5 Hp5. leaves_step.
  intros ->. rewrite Hp5, Hs, Hp4, Hp3, Hp by done. done.
Qed.
Lemma leaves_check s h :
  leaves (run_with_heartbeat svc CheckEnv) s h (fun r p => match r with
    | Ok code => code = 0 -> e_phase (env_at h) = Installed -> p = Validated | Err _ => True end).
Proof.
  unfold run_with_heartbeat. leaves_step. eapply leaves_mono; [apply leaves_stop|]. intros [[]|e] p H0; [|done]. intros s1 h1 H1.
  leaves_step. apply (leaves_call (Spawn CheckEnv)); [by intros a|]. intros [beat code] s2 h2 Hp.
  leaves_step. leaves_step. intros s3 h3 Hp3. leaves_step. leaves_step. destruct code as [code|]; [|done]. intros s4 h4 Hp4.
  leaves_step. eapply leaves_mono; [apply leaves_stop|]. intros [[]|e] p2 Hs; [|done]. intros s5 h5 Hp5. leaves_step.
  intros -> Hi. rewrite Hp5, Hs, Hp4, Hp3, Hp by done. cbn. by rewrite H1, H0, Hi.
Qed.
Lemma leaves_attempts attempt more s h :
  leaves (install_attempts svc attempt more) s h (fun r p => r = Ok tt -> p = Installed).
Proof.
  revert attempt s h. induction more as [|more IH]; intros attempt s h; cbn [install_attempts]; [by leaves_step|].
  leaves_step. eapply leaves_mono; [apply leaves_install|]. intros [code|e] p Hc; [|done]. intros s1 h1 <-.
  destruct (code =? 0) eqn:E; [breflect; leaves_step; auto|]. destruct more as [|more]; [by leaves_step|].
  leaves_step. leaves_step. intros s2 h2 _. leaves_step; [by leaves_step|]. apply IH.
Qed.
Lemma leaves_purge s h :
  leaves (purge_incomplete_dist_infos svc) s h (fun r p => e_phase (env_at h) = Installed -> p = Installed).
Proof.
  unfold purge_incomplete_dist_infos. leaves_step. apply (leaves_call DistInfos); [by intros a|]. cbn [env_step]. intros dists s1 h1 <-.
  revert s1 h1. induction dists as [|[path whole] dists IH]; intros s1 h1; cbn [mfor]; [leaves_step; auto|]. leaves_step. cbn [snd fst].
  destruct whole; [leaves_step; intros s2 h2 <-; apply IH|]. leaves_step. cbn [env_step]. intros s2 h2 E.
  eapply leaves_mono; [apply IH|]. intros r p Hp Hi. apply Hp. rewrite E. cbn. by rewrite Hi.
Qed.
Lemma leaves_wipe s h : leaves (wipe_env_prefix svc) s h (fun _ _ => True).
Proof.
  unfold wipe_env_prefix, unless_raised. leaves_step. leaves_step. intros s1 h1 _. leaves_step; [|by leaves_step].
  leaves_step. leaves_step. intros s2 h2 _. leaves_step; by leaves_step.
Qed.
Lemma leaves_validate s h :
  leaves (validate_env svc) s h (fun r p => r = Ok true -> e_phase (env_at h) = Installed -> p = Validated).
Proof.
  unfold validate_env. leaves_step. leaves_step. intros s1 h1 E1. leaves_step; [by leaves_step|]. leaves_step.
  eapply leaves_mono; [apply leaves_check|]. intros [code|e] p Hc; [|done]. intros s2 h2 E2. leaves_step.
  intros [= Hz] Hi. rewrite E2. apply Hc; [by apply Z.eqb_eq|]. by rewrite E1.
Qed.
(** An install, with what follows it, validated. *)
Lemma leaves_installed {A} (k : bool -> PM A) s h (Q : res Exc A -> Phase -> Prop) :
  (forall e p, Q (Err e) p) ->
  (forall ok s' h', (ok = true -> e_phase (env_at h') = Validated) -> leaves (k ok) s' h' Q) ->
  leaves (pixi_install svc ≫= fun _ => purge_incomplete_dist_infos svc ≫= fun _ => ok ← validate_env svc; k ok) s h Q.
Proof.
  intros He Hk. leaves_step. eapply leaves_mono; [apply leaves_attempts|]. intros [[]|e] p Hi; [|auto]. intros s1 h1 E1.
  leaves_step. eapply leaves_mono; [apply leaves_purge|]. intros [[]|e] p1 Hp; [|auto]. intros s2 h2 E2.
  leaves_step. eapply leaves_mono; [apply leaves_validate|]. intros [ok|e] p2 Hv; [|auto]. intros s3 h3 E3. apply Hk.
  intros ->. rewrite E3. apply Hv; [done|]. rewrite E2. apply Hp. rewrite E1. auto.
Qed.
Lemma wp_stage m s h : wp (stage_manifests svc m) s h (fun r s' h' =>
  installed s' = installed s /\ (r = Ok tt -> live_is (env_at h') m)).
Proof.
  unfold stage_manifests, unless_raised. wp_step. wp_step. wp_step. destruct (svc h MkLive); [apply wp_ret|by apply wp_raise].
  cbn [mfor manifest_files fst snd]. generalize (h ++ [existT MkLive true]). clear h. intros h.
  wp_step. wp_step. wp_step. wp_step. destruct (svc h (WriteTmp _ _)); [apply wp_ret|by apply wp_raise].
  wp_step. wp_step. destruct (svc _ (Replace "pixi.toml")); [apply wp_ret|by apply wp_raise].
  wp_step. wp_step. wp_step. wp_step. destruct (svc _ (WriteTmp "pixi.lock" _)); [apply wp_ret|by apply wp_raise].
  wp_step. wp_step. destruct (svc _ (Replace "pixi.lock")); [apply wp_ret|by apply wp_raise]. apply wp_ret.
  split; [done|]. intros _. unfold live_is. rewrite !env_at_snoc. cbn. rewrite !dget_dset. cbn.
  rewrite (dget_dset_ne "pixi.lock"%string "pixi.toml"%string) by done. by rewrite !dget_dset.
Qed.
Lemma wp_sync m s h : wp (sync svc m) s h (fun r s' h' =>
  installed s' = installed s /\ (r = Ok tt -> synced (env_at h') m)).
Proof.
  unfold sync. wp_step. eapply wp_mono; [apply wp_stage|]. intros [[]|e] s1 h1 [E1 Hl]; [|done].
  specialize (Hl eq_refl). wp_step. apply wp_get. cbv beta iota.
  enough (H : leaves ((if env_healthy (metrics s1) <?q (1 # 2)%Q then wipe_env_prefix svc else mret tt) ≫= fun _ =>
    pixi_install svc ≫= fun _ => purge_incomplete_dist_infos svc ≫= fun _ => ok ← validate_env svc;
    if ok : bool then mret tt else wipe_env_prefix svc ≫= fun _ =>
    pixi_install svc ≫= fun _ => purge_incomplete_dist_infos svc ≫= fun _ => ok ← validate_env svc;
    if ok : bool then mret tt else on_metrics (fun m => m <| env_healthy := 0%Q |>) ≫= fun _ => raise Raised) s1 h1
    (fun r p => r = Ok tt -> p = Validated)).
  { eapply wp_mono; [exact H|]. intros r s2 h2 (Ei & El & Hp). split; [congruence|]. intros Hr. split; [|auto].
    unfold live_is in *. by rewrite El. }
  leaves_step. eapply leaves_mono with (Q := fun r _ => True); [destruct (_ <?q _); [apply leaves_wipe|by leaves_step]|].
  intros [[]|e] p _; [|done]. intros s2 h2 _. apply leaves_installed; [done|]. intros [] s3 h3 Hv; [leaves_step; auto|].
  leaves_step. eapply leaves_mono; [apply leaves_wipe|]. intros [[]|e] p3 _; [|done]. intros s4 h4 _.
  apply leaves_installed; [done|]. intros [] s5 h5 Hv5; [leaves_step; auto|]. leaves_step. leaves_step. intros s6 h6 _. by leaves_step.
Qed.
End Commands.

(** ** [reconcile] *)

(** What a run adds to the history. *)
Definition adds {A} (c : PM A) (s : Daemon) (h : list Ev) (P : res Exc A -> Daemon -> list Ev -> Prop) : Prop :=
  wp c s h (fun r s' h' => exists t, h' = h ++ t /\ P r s' t).
Lemma adds_bind {A B} (c : PM A) (f : A -> PM B) s h P :
  adds c s h (fun r s' t => match r with
    | Ok a => adds (f a) s' (h ++ t) (fun r s'' t' => P r s'' (t ++ t'))
    | Err e => P (Err e) s' t end) -> adds (c ≫= f) s h P.
Proof.
  intros H. unfold adds. wp_step. eapply wp_mono; [exact H|]. intros [a|e] s1 h1 (t & -> & Ht); [|by exists t].
  eapply wp_mono; [exact Ht|]. intros r s2 h2 (t2 & -> & HP). exists (t ++ t2). by rewrite app_assoc.
Qed.
Lemma adds_mono {A} (c : PM A) s h (P P' : res Exc A -> Daemon -> list Ev -> Prop) :
  adds c s h P -> (forall r s' t, P r s' t -> P' r s' t) -> adds c s h P'.
Proof. intros H HP. eapply wp_mono; [exact H|]. intros r s' h' (t & ? & ?). exists t. auto. Qed.
Lemma adds_ret {A} (a : A) s h (P : res Exc A -> _) : P (Ok a) s [] -> adds (mret a) s h P.
Proof. intros H. exists []. by rewrite app_nil_r. Qed.
Lemma adds_raise {A} e s h (P : res Exc A -> _) : P (Err e) s [] -> adds (raise e) s h P.
Proof. intros H. exists []. by rewrite app_nil_r. Qed.
Lemma adds_mod f s h P : P (Ok tt) (f s) [] -> adds (mmod f) s h P.
Proof. intros H. exists []. by rewrite app_nil_r. Qed.
Lemma adds_get s h P : P (Ok s) s [] -> adds mget s h P.
Proof. intros H. exists []. by rewrite app_nil_r. Qed.
Lemma adds_call svc r s h (P : res Exc (Ans r) -> Daemon -> list Ev -> Prop) :
  (forall a, P (Ok a) s [existT r a]) -> adds (mcall svc r) s h P.
Proof. intros H. exists [existT r (svc h r)]. split; [done|]. apply H. Qed.
Lemma adds_and {A} (c : PM A) s h P (Q : res Exc A -> Daemon -> list Ev -> Prop) :
  adds c s h P -> wp c s h Q -> adds c s h (fun r s' t => P r s' t /\ Q r s' (h ++ t)).
Proof.
  intros H1 H2. unfold adds, wp in *. destruct (c s h) as [[r s'] h']. destruct H1 as (t & -> & HP). by exists t.
Qed.
Lemma only_adds {A} p (c : PM A) s h : asks_only p c -> adds c s h (fun _ _ t => Forall (fun e => p (projT1 e) = true) t).
Proof.
  intros H. eapply wp_mono; [apply H|]. intros r s' h' (t & q & -> & Ht & _). exists t. split; [done|]. clear r s' H.
  revert q Ht. generalize tt. induction t as [|e t IH]; intros q0 q Ht; [constructor|].
  apply ofold_cons in Ht as (q1 & E & Ht). unfold only in E. destruct (p (projT1 e)) eqn:Ep; [|done]. constructor; [done|].
  destruct q1. by eapply IH.
Qed.
Ltac adds_step :=
  lazymatch goal with
  | |- adds (mbind _ _) _ _ _ => apply adds_bind
  | |- adds (mret _) _ _ _ => apply adds_ret
  | |- adds (raise _) _ _ _ => apply adds_raise
  | |- adds (mmod _) _ _ _ => apply adds_mod
  | |- adds (on_metrics _) _ _ _ => apply adds_mod
  | |- adds mget _ _ _ => apply adds_get
  | |- adds (mcall _ _) _ _ _ => apply adds_call; intros ?
  end; cbv beta iota.

Section Reconcile.
Context (svc : service Req Ans).

Lemma adds_still {A} (c : PM A) s h P :
  still c -> (forall r t, Forall (fun e : Ev => idle (projT1 e) = true) t -> P r s t) -> adds c s h P.
Proof.
  intros [Hk Ho] HP. eapply adds_mono; [apply adds_and; [by apply only_adds|apply Hk]|]. intros r s' t [Ht <-]. by apply HP.
Qed.
(** The manifests that were read, and the events that read them. *)
Definition reads (dir : string) (m : Manifests) : list Ev :=
  [existT RevisionDir (Some dir); existT (ReadConfig dir "pixi.toml") (Some (m_toml m));
   existT (ReadConfig dir "pixi.lock") (Some (m_lock m))].
Lemma adds_desired s h P :
  (forall t, Forall (fun e : Ev => idle (projT1 e) = true) t -> P (Err Raised) s t) ->
  (forall dir m, P (Ok m) s (reads dir m)) -> adds (read_desired svc) s h P.
Proof.
  intros He Hok. unfold read_desired, or_raised.
  adds_step. apply (adds_call svc RevisionDir). intros [dir|]; adds_step; adds_step; [|apply He; by constructor].
  adds_step. apply (adds_call svc (ReadConfig dir "pixi.toml")). intros [toml|]; adds_step; adds_step; [|apply He; by repeat constructor].
  adds_step. apply (adds_call svc (ReadConfig dir "pixi.lock")). intros [lock|]; adds_step; adds_step; [|apply He; by repeat constructor].
  adds_step. apply (Hok dir (mkManifests toml lock)).
Qed.
(** A file that is not as it should be was seen. *)
Definition drift (m : Manifests) (t : list Ev) : Prop :=
  exists name data a, (name, data) ∈ manifest_files m /\ existT (ReadLive name) a ∈ t /\ a <> Some data.
Lemma adds_in_sync m s h P :
  (forall live t, Forall (fun e : Ev => idle (projT1 e) = true) t -> (live = false -> drift m t) -> P (Ok live) s t) ->
  adds (is_in_sync svc m) s h P.
Proof.
  unfold is_in_sync, drift. generalize (manifest_files m). intros l. revert h P.
  induction l as [|[n d] l IH]; intros h P HP; cbn [all_equal]; [adds_step; by apply HP|].
  assert (Hno : forall a : option string, a <> Some d -> P (Ok false) s [existT (ReadLive n) a]).
  { intros a Ha. apply HP; [by repeat constructor|]. intros _. exists n, d, a. split; [by left|]. split; [by left|done]. }
  adds_step. apply (adds_call svc (ReadLive n)). intros [live|]; [|adds_step; by apply Hno].
  destruct (String.eqb_spec live d) as [->|Hne]; [|adds_step; apply Hno; congruence].
  apply IH. intros b t Ht Hd. apply HP; [by constructor|]. intros E. destruct (Hd E) as (n' & d' & a & H1 & H2 & H3).
  exists n', d', a. split; [by right|]. split; [by right|done].
Qed.

Lemma wp_sync_now m s h : wp (sync_now svc m) s h (fun r s' h' =>
  match r with
  | Ok true => installed s' = Some m /\ synced (env_at h') m /\ in_sync (metrics s') = 1%Q /\ env_healthy (metrics s') = 1%Q
  | Ok false => installed s' = None
  | Err _ => False
  end).
Proof.
  unfold sync_now, time. wp_step. apply wp_mod. cbv beta iota. wp_step. apply wp_mod. cbv beta iota. wp_step. wp_step.
  wp_step. apply wp_finally, wp_catch. wp_step. eapply wp_mono; [apply wp_sync|]. intros [[]|e] s1 h1 [Ei Hs].
  - specialize (Hs eq_refl). apply wp_ret. cbv beta iota. wp_step. wp_step. apply wp_mod. cbv beta iota. cbn [negb].
    wp_step. apply wp_mod. cbv beta iota. wp_step. apply wp_mod. cbv beta iota. wp_step. wp_step. wp_step. apply wp_mod.
    cbv beta iota. wp_step. wp_step. apply wp_ret. cbn. split; [done|]. split; [|done]. by rewrite !env_at_snoc.
  - cbv beta iota. wp_step. apply wp_mod. cbv beta iota. wp_step. wp_step. wp_step. apply wp_mod. cbv beta iota.
    apply wp_ret. cbv beta iota. wp_step. wp_step. apply wp_mod. cbv beta iota. cbn [negb]. apply wp_ret. exact Ei.
Qed.
Lemma attempts_ask attempt more : asks_only (fun _ => true) (install_attempts svc attempt more).
Proof.
  revert attempt. induction more as [|more IH]; intros attempt; cbn [install_attempts]; [asks|].
  unfold run_with_heartbeat, stop_if_set, on_metrics, or_raised. apply only_bind; [asks|]. intros code. destruct (code =? 0); [asks|].
  destruct more; [asks|]. apply only_bind; [asks|]. intros []; [asks|apply IH].
Qed.
Lemma sync_asks m : asks_only (fun _ => true) (sync svc m).
Proof.
  unfold sync, stage_manifests, wipe_env_prefix, purge_incomplete_dist_infos, validate_env, run_with_heartbeat, stop_if_set,
    on_metrics, or_raised, unless_raised, pixi_install.
  repeat first [apply attempts_ask | apply only_bind; [|intros ?] | apply only_for; intros ? | progress asks].
  all: unfold on_metrics, or_raised; asks.
Qed.
Lemma only_finally {A} p (c : PM A) f : asks_only p c -> asks_only p f -> asks_only p (mfinally c f).
Proof. intros Hc Hf. apply mon_finally. eapply mon_mono; [exact Hc|]. intros r [] _. eapply mon_mono; [exact Hf|done]. Qed.
Lemma sync_now_asks m : asks_only (fun _ => true) (sync_now svc m).
Proof.
  unfold sync_now, time, on_metrics.
  repeat first [apply sync_asks | apply only_finally | apply only_bind; [|intros ?] | apply only_catch; [|intros ?] | progress asks].
Qed.
Lemma adds_sync_now m s h : adds (sync_now svc m) s h (fun r s' t =>
  match r with
  | Ok true => installed s' = Some m /\ synced (env_at (h ++ t)) m /\ in_sync (metrics s') = 1%Q /\ env_healthy (metrics s') = 1%Q
  | Ok false => installed s' = None
  | Err _ => False
  end).
Proof.
  eapply adds_mono; [apply adds_and; [apply only_adds, sync_now_asks|apply wp_sync_now]|]. by intros r s' t [_ H].
Qed.

Definition idles (t : list Ev) : Prop := Forall (fun e : Ev => idle (projT1 e) = true) t.
Lemma env_idles h t : idles t -> env_at (h ++ t) = env_at h.
Proof.
  intros Ht. revert h. induction Ht as [|[r a] t Hr Ht IH]; intros h; [by rewrite app_nil_r|].
  rewrite cons_middle, app_assoc, IH, env_at_snoc. by apply idle_step.
Qed.
Lemma reads_idle dir m : idles (reads dir m).
Proof. by repeat constructor. Qed.
(** Why the environment may be touched: nothing is paused, and a sync is forced, or is
    due and the last failure is long enough ago. *)
Definition cause (force : bool) (s : Daemon) (m : Manifests) (t : list Ev) : Prop :=
  existT PauseExists false ∈ t /\
  (force = true \/
   (exists now, existT Time now ∈ t /\ (FAIL_COOLDOWN <= now - last_failure s)%Q) /\
   ((env_healthy (metrics s) < 1 # 2)%Q \/ installed s <> Some m \/ drift m t)).

Lemma adds_go force s h (P : res Exc bool -> Daemon -> list Ev -> Prop) dir m t s2 h2 (Q : res Exc bool -> Daemon -> list Ev -> Prop) :
  idles t -> cause force s m t ->
  (forall dir m t t' b s', idles t -> cause force s m t ->
     (if b : bool then installed s' = Some m /\ synced (env_at (h ++ reads dir m ++ t ++ t')) m /\
        in_sync (metrics s') = 1%Q /\ env_healthy (metrics s') = 1%Q else installed s' = None) ->
     P (Ok b) s' (reads dir m ++ t ++ t')) ->
  h2 = h ++ reads dir m ++ t -> (forall r s' t', P r s' (reads dir m ++ t ++ t') -> Q r s' t') ->
  adds (sync_now svc m) s2 h2 Q.
Proof.
  intros Ht Hc Hnow -> HQ. eapply adds_mono; [apply adds_sync_now|]. intros [b|e] s' t' H; [|done].
  apply HQ. apply Hnow; [done|done|]. destruct b; [|done]. by rewrite <- !app_assoc in H.
Qed.
(** The ways that [reconcile] ends. *)
Lemma adds_reconcile force s h P :
  (forall t, idles t -> P (Err Raised) s t) ->
  (forall dir m t s', idles t -> installed s' = None -> paused (metrics s') = 1%Q -> P (Ok true) s' (reads dir m ++ t)) ->
  (forall dir m t s', idles t -> installed s' = installed s -> installed s' = Some m ->
     in_sync (metrics s') = 1%Q -> (1 # 2 <= env_healthy (metrics s'))%Q -> P (Ok true) s' (reads dir m ++ t)) ->
  (forall dir m t s', idles t -> installed s' = installed s -> P (Ok false) s' (reads dir m ++ t)) ->
  (forall dir m t t' b s', idles t -> cause force s m t ->
     (if b : bool then installed s' = Some m /\ synced (env_at (h ++ reads dir m ++ t ++ t')) m /\
        in_sync (metrics s') = 1%Q /\ env_healthy (metrics s') = 1%Q else installed s' = None) ->
     P (Ok b) s' (reads dir m ++ t ++ t')) ->
  adds (reconcile svc force) s h P.
Proof.
  intros He Hpaused Hin Hcool Hnow. unfold reconcile, is_paused. adds_step. apply adds_desired; [done|]. intros dir m.
  adds_step. apply (adds_call svc PauseExists). intros pause. adds_step. adds_step. destruct pause.
  - adds_step. adds_step. adds_step. adds_step. adds_step. apply adds_in_sync. intros live t Ht _. adds_step. adds_step.
    adds_step. cbn [app]. rewrite !app_nil_r. apply (Hpaused dir m (existT PauseExists true :: t)); [by constructor|done|done].
  - adds_step. adds_step. adds_step. adds_step. adds_step. apply adds_in_sync. intros live t Ht Hd.
    adds_step. adds_step. set (s1 := _ <| metrics := _ |>). cbn [app]. destruct (_ && negb force && _) eqn:E.
    + apply andb_true_iff in E as [[E1 E2]%andb_true_iff E3]. pose proof E1 as [_ Hm%bool_decide_eq_true]%andb_true_iff.
      adds_step. rewrite !app_nil_r.
      apply (Hin dir m (existT PauseExists false :: t)); [by constructor|done|done| |by apply qle_true].
      change (q_of_bool (live && bool_decide (installed s1 = Some m)) = 1%Q). by rewrite E1.
    + assert (Hcause : force = false -> (env_healthy (metrics s) < 1 # 2)%Q \/ installed s <> Some m \/ drift m t).
      { intros ->. cbn [negb] in E. rewrite andb_true_r in E. apply andb_false_iff in E as [E|E]; [|left; by apply qle_false].
        apply andb_false_iff in E as [E|E]; [right; right; by apply Hd|]. right. left. by apply bool_decide_eq_false in E. }
      adds_step. unfold time. destruct force; [adds_step; adds_step; apply (adds_call svc (ReadLive _)); intros a|].
      2: adds_step; apply (adds_call svc Time); intros now; adds_step; adds_step; adds_step;
        destruct (now - _ <?q _)%Q eqn:Ec; [adds_step|adds_step; apply (adds_call svc (ReadLive _)); intros a].
      * eapply (adds_go true s h P dir m (existT PauseExists false :: t ++ [existT (ReadLive "pixi.lock") a]));
          [by constructor; [|apply Forall_app; split; [|repeat constructor]]|split; [by left|by left]|done| |].
        -- by rewrite !app_nil_r, <- !app_assoc.
        -- intros r s' t'. cbn [app]. by rewrite <- ?app_assoc, ?app_nil_r.
      * rewrite !app_nil_r. apply (Hcool dir m (existT PauseExists false :: t ++ [existT Time now])); [|done].
        constructor; [done|]. apply Forall_app. split; [done|]. by repeat constructor.
      * eapply (adds_go false s h P dir m (existT PauseExists false :: t ++ [existT Time now; existT (ReadLive "pixi.lock") a]));
          [constructor; [done|]; apply Forall_app; split; [done|]; by repeat constructor| |done| |].
        -- split; [by left|]. right. split.
           ++ exists now. split; [right; apply elem_of_app; right; by left|]. by apply qlt_false in Ec.
           ++ destruct (Hcause eq_refl) as [?|[?|Hdr]]; [by left|by right; left|]. right. right.
              destruct Hdr as (n & d & x & Hn & Hin' & Hx). exists n, d, x. split; [done|]. split; [|done].
              right. apply elem_of_app. by left.
        -- by rewrite !app_nil_r, <- !app_assoc.
        -- intros r s' t'. cbn [app]. by rewrite <- ?app_assoc, ?app_nil_r.
Qed.

Lemma honest_same s s' h t : honest s h -> idles t -> installed s' = installed s -> honest s' (h ++ t).
Proof. intros H Ht E m. rewrite E, env_idles by done. apply H. Qed.
Lemma honest_none s h : installed s = None -> honest s h.
Proof. intros E m. by rewrite E. Qed.

(** What is reported as in sync was installed and checked. If what the daemon
    remembers to have installed is what is in place, installed and validated, a cycle
    leaves it so, whatever fails. When it reports success and is not paused, the
    manifests that it read at its start are in place, an install of them succeeded, and a
    check of the environment after that, with nothing done to it since; and the gauge
    says so. Where it does not, it remembers nothing or what it did before. *)
Theorem sync_honest force s h :
  honest s h ->
  adds (reconcile svc force) s h (fun r s' t =>
    honest s' (h ++ t) /\
    match r with
    | Ok true => paused (metrics s') = 1%Q /\ installed s' = None \/
        exists dir m t', t = reads dir m ++ t' /\ installed s' = Some m /\ synced (env_at (h ++ t)) m /\
          in_sync (metrics s') = 1%Q /\ (1 # 2 <= env_healthy (metrics s'))%Q
    | _ => installed s' = None \/ installed s' = installed s
    end).
Proof.
  intros Hh. pose proof reads_idle as Hr. unfold idles in Hr.
  assert (Hi : forall dir m t, idles t -> idles (reads dir m ++ t)) by (intros; apply Forall_app; auto).
  apply adds_reconcile.
  - intros t Ht. split; [by apply (honest_same s)|by right].
  - intros dir m t s' Ht Hn Hp. split; [by apply honest_none|by left].
  - intros dir m t s' Ht Hn Hm Hs He. assert (Hh' : honest s' (h ++ reads dir m ++ t)) by (apply (honest_same s); auto).
    split; [done|]. right. exists dir, m, t. split; [done|]. split; [done|]. split; [by apply Hh'|done].
  - intros dir m t s' Ht Hn. split; [apply (honest_same s); auto|by right].
  - intros dir m t t' b s' Ht _. destruct b; [|intros Hn; split; [by apply honest_none|by left]].
    intros (Hm & Hs & Hin & He). split; [intros m' E; by rewrite Hm in E; simplify_eq|].
    right. exists dir, m, (t ++ t'). split; [done|]. split; [done|]. split; [done|]. split; [done|]. by rewrite He.
Qed.

(** Hands off. A cycle writes manifests, installs, wipes or runs anything only if the
    environment is not paused, as it found on asking, and only if it is forced to, or the
    last failure is [FAIL_COOLDOWN] ago and something is to be done: a live manifest
    differs from the one wanted or cannot be read, or the one wanted is not what was
    installed last, or the environment is known to be unhealthy. *)
Theorem touched_only_if force s h :
  adds (reconcile svc force) s h (fun r s' t =>
    Exists (fun e : Ev => idle (projT1 e) = false) t ->
    exists dir m t1 t2, t = reads dir m ++ t1 ++ t2 /\ idles t1 /\ cause force s m t1).
Proof.
  assert (Hno : forall t, idles t -> ~ Exists (fun e : Ev => idle (projT1 e) = false) t).
  { intros t Ht He. apply Exists_exists in He as (e & Hin & He). unfold idles in Ht. rewrite Forall_forall in Ht. specialize (Ht _ Hin). congruence. }
  assert (Hi : forall dir m t, idles t -> idles (reads dir m ++ t)) by (intros; apply Forall_app; split; [apply reads_idle|done]).
  apply adds_reconcile.
  - intros t Ht He. by apply Hno in He.
  - intros dir m t s' Ht _ _ He. by apply Hno in He; auto.
  - intros dir m t s' Ht _ _ _ _ He. by apply Hno in He; auto.
  - intros dir m t s' Ht _ He. by apply Hno in He; auto.
  - intros dir m t t' b s' Ht Hc _ _. by exists dir, m, t, t'.
Qed.
End Reconcile.

(** ** The lock *)

(** What a waiting daemon saw: the heartbeat's [ts] and when. *)
Definition Observed := list (option Q * Q).
Definition seen_in (obs : Observed) (seen : Seen) : Prop :=
  match seen with
  | None => obs = []
  | Some (ts, since) => exists l1 l2, obs = l1 ++ (ts, since) :: l2 /\ Forall (fun o => same_ts ts o.1 = true) l2
  end.
(** The same [ts], or none, at every look for longer than the threshold. *)
Definition frozen_since (threshold : Q) (obs : Observed) (ts : option Q) (now : Q) : Prop :=
  exists l1 l2 ts0 since, obs = l1 ++ (ts0, since) :: l2 /\ Forall (fun o => same_ts ts0 o.1 = true) l2 /\
    same_ts ts0 ts = true /\ (threshold < now - since)%Q.
Lemma frozen_seen threshold obs seen ts now : seen_in obs seen ->
  seen_in (obs ++ [(ts, now)]) (frozen threshold seen ts now).2 /\
  ((frozen threshold seen ts now).1 = true -> frozen_since threshold obs ts now).
Proof.
  destruct seen as [[ts0 since]|]; cbn [frozen].
  - intros (l1 & l2 & -> & Hl). destruct (same_ts ts0 ts) eqn:E; cbn [fst snd].
    + split.
      * exists l1, (l2 ++ [(ts, now)]). rewrite <- app_assoc. split; [done|]. apply Forall_app. split; [done|]. by repeat constructor.
      * intros Hlt%qlt_true. by exists l1, l2, ts0, since.
    + split; [|done]. exists (l1 ++ (ts0, since) :: l2), []. split; [done|constructor].
  - intros ->. split; [|done]. cbn. exists [], []. split; [done|constructor].
Qed.

Section Lock.
Context (svc : service Req Ans).

(** The looks of a daemon that waits, and their events. *)
Inductive waits : Observed -> list Ev -> Prop :=
| waits_none : waits [] []
| waits_look obs t hb now : waits obs t ->
    waits (obs ++ [(ts_of hb, now)])
      (t ++ [existT MkLock AlreadyThere; existT ReadHeartbeat hb; existT Monotonic now; existT (Sleep 30) tt]).
Definition taken (obs : Observed) (t0 t : list Ev) : Prop :=
  t = t0 ++ [existT MkLock Created; existT WriteHeartbeat true] \/
  exists hb now, t = t0 ++ [existT MkLock AlreadyThere; existT ReadHeartbeat hb; existT Monotonic now; existT WriteHeartbeat true] /\
    frozen_since LOCK_FROZEN_SECONDS obs (ts_of hb) now.
Lemma adds_heartbeat s h P : P (Ok tt) s [existT WriteHeartbeat true] -> (forall t, P (Err Raised) s t) ->
  adds (write_heartbeat svc) s h P.
Proof.
  intros Hok He. unfold write_heartbeat. adds_step. apply (adds_call svc WriteHeartbeat). intros [].
  - by apply adds_ret.
  - apply adds_raise, He.
Qed.
Lemma adds_acquire tries seen obs t0 s h : waits obs t0 -> seen_in obs seen ->
  adds (acquire svc tries seen) s h (fun r s' t => s' = s /\ (r = Ok tt -> exists obs' t0', waits obs' t0' /\ taken obs' t0' (t0 ++ t))).
Proof.
  revert seen obs t0 h. induction tries as [|tries IH]; intros seen obs t0 h Hw Hs; cbn [acquire]; [by adds_step|].
  adds_step. apply (adds_call svc MkLock). intros [].
  - apply adds_heartbeat; [|done]. split; [done|]. intros _. exists obs, t0. split; [done|]. by left.
  - adds_step. apply (adds_call svc ReadHeartbeat). intros hb. adds_step. apply (adds_call svc Monotonic). intros now.
    destruct (frozen_seen LOCK_FROZEN_SECONDS obs seen (ts_of hb) now Hs) as [Hs' Hf].
    destruct (frozen _ _ _ _) as [dead seen'] eqn:E. cbn [fst snd] in *. destruct dead.
    + apply adds_heartbeat; [|done]. split; [done|]. intros _. exists obs, t0. split; [done|]. right. exists hb, now. auto.
    + adds_step. apply (adds_call svc (Sleep 30)). intros [].
      eapply adds_mono; [apply (IH seen' _ _ _ (waits_look _ _ hb now Hw) Hs')|]. intros r s' t [-> H]. split; [done|].
      intros Hr. destruct (H Hr) as (obs' & t0' & Hw' & Ht). exists obs', t0'. split; [done|].
      rewrite <- app_assoc in Ht. exact Ht.
  - by adds_step.
Qed.

(** A lock is taken over from the dead only. A daemon that comes past
    [acquire_lock] either made the lock directory itself, or saw at every look for longer
    than [LOCK_FROZEN_SECONDS] the same heartbeat, or none that can be read: one that is
    rewritten more often than that is never taken over. *)
Theorem lock_taken_from_dead tries s h :
  adds (acquire_lock svc tries) s h (fun r s' t => s' = s /\
    (r = Ok tt -> exists obs t0, waits obs t0 /\ taken obs t0 t)).
Proof.
  eapply adds_mono; [apply (adds_acquire tries None [] [] s h waits_none); done|]. intros r s' t [-> H]. split; [done|exact H].
Qed.
End Lock.


(** ** The lock of a dead holder *)

(** The last reading of the monotonic clock. *)
Definition last_reading (t : instant) (e : Ev) : instant :=
  let '(existT r a) := e in
  match r return Ans r -> instant with Monotonic => fun now => Some now | _ => fun _ => t end a.
Definition last_look (h : list Ev) : instant := foldl last_reading None h.
Lemma last_look_snoc h e : last_look (h ++ [e]) = last_reading (last_look h) e.
Proof. unfold last_look. by rewrite foldl_app. Qed.
Definition sleeps_whole (svc : service Req Ans) : Prop :=
  forall h, match last_look h with Some t => (t + 30 <= svc h Monotonic)%Q | None => True end.

Lemma same_ts_refl ts : same_ts ts ts = true.
Proof. destruct ts as [q|]; [|done]. cbn. apply Qeq_bool_iff. reflexivity. Qed.

Section Dead.
Context (svc : service Req Ans) (ts : option Q).
Context (dead : forall h, ts_of (svc h ReadHeartbeat) = ts) (clock : sleeps_whole svc).

(** After [k] looks more than the first, and with [S more] tries to come. *)
Lemma acquire_dead more k s h since last : 3 <= k + Z.of_nat more -> 0 <= k ->
  last_look h = Some last -> (since + 30 * qz k <= last)%Q ->
  wp (acquire svc (S more) (Some (ts, since))) s h (fun r _ _ => r <> Err OutOfFuel).
Proof.
  revert k s h last. induction more as [|more IH]; intros k s h last Hk Hk0 Hl Hle; cbn [acquire];
    wp_step; wp_step; destruct (svc h MkLock);
    try (unfold write_heartbeat, unless_raised; repeat (wp_step; try done); fail).
  all: wp_step; wp_step; wp_step; wp_step; rewrite dead; cbn [frozen]; rewrite same_ts_refl.
  all: set (h2 := (h ++ _) ++ _); assert (Hl2 : last_look h2 = Some last) by (unfold h2; by rewrite !last_look_snoc).
  all: pose proof (clock h2) as Hc; rewrite Hl2 in Hc; set (now := svc h2 Monotonic) in *.
  - assert (E : (LOCK_FROZEN_SECONDS <?q now - since)%Q = true).
    { apply qlt_true. unfold LOCK_FROZEN_SECONDS. assert (Hq : (3 <= qz k)%Q) by (change (inject_Z 3 <= inject_Z k)%Q; rewrite <- Zle_Qle; lia). lra. }
    rewrite E. unfold write_heartbeat, unless_raised. repeat (wp_step; try done).
  - destruct (LOCK_FROZEN_SECONDS <?q now - since)%Q.
    + unfold write_heartbeat, unless_raised. repeat (wp_step; try done).
    + wp_step. wp_step. apply (IH (k + 1) _ _ now); [lia|lia| |].
      * by rewrite !last_look_snoc.
      * unfold qz in *. rewrite inject_Z_plus. change (inject_Z 1) with 1%Q. lra.
Qed.

(** The lock of a dead holder is not waited for long. While the heartbeat that is
    read stays as it is, and each look comes 30 s or more after the one before, as the
    sleep between them makes it, [acquire_lock] ends within five tries: with the lock, or
    with an error of the file system. *)
Theorem dead_lock_ends tries s h : (5 <= tries)%nat ->
  wp (acquire_lock svc tries) s h (fun r _ _ => r <> Err OutOfFuel).
Proof.
  intros Ht. destruct tries as [|[|more]]; [lia|lia|]. unfold acquire_lock. remember (S more) as tries. cbn [acquire].
  wp_step. wp_step. destruct (svc h MkLock); [|subst|by apply wp_raise].
  - unfold write_heartbeat, unless_raised. repeat (wp_step; try done).
  - wp_step. wp_step. wp_step. wp_step. rewrite dead. cbn [frozen]. wp_step. wp_step.
    eapply (acquire_dead more 0); [lia|lia|by rewrite !last_look_snoc|]. change (qz 0) with 0%Q. lra.
Qed.
End Dead.

(** A holder that died at 7 s, and looks 30 s apart: the fifth takes the lock over. *)
Definition dead_svc : service Req Ans := fun h r =>
  match r return Ans r with
  | MkLock => AlreadyThere
  | ReadHeartbeat => Some (JObj [("ts", JFloat 7)]%string)
  | Monotonic => match last_look h with Some t => (t + 30)%Q | None => 0%Q end
  | WriteHeartbeat => true
  | RevisionDir | ReadConfig _ _ | ReadLive _ | ReadCode => None
  | PauseExists | LiveTomlExists | PrefixExists | PythonIsFile | StopIsSet | StopWait _ => false
  | MkLive | WriteTmp _ _ | Replace _ | RemovePrefix => false
  | DistInfos => []
  | Spawn _ => (None, None)
  | Time => 0%Q
  | RemoveDist _ | Sleep _ | RemoveLock => tt
  end.
Lemma dead_lock_ends_witness :
  (acquire_lock dead_svc 5 daemon0 []).1.1 = Ok tt /\ (acquire_lock dead_svc 4 daemon0 []).1.1 = Err OutOfFuel /\
  (acquire_lock dead_svc 7 daemon0 []).1.1 <> Err OutOfFuel.
Proof.
  split; [vm_compute; reflexivity|]. split; [vm_compute; reflexivity|].
  assert (Hc : sleeps_whole dead_svc).
  { intros h. cbn. destruct (last_look h); [apply Qle_refl|done]. }
  pose proof (wp_run _ _ _ _ (dead_lock_ends dead_svc (Some 7%Q) (fun h => eq_refl) Hc 7 daemon0 [] ltac:(lia))) as H.
  exact H.
Defined.

(** ** Cycles *)

(** A world of one revision of the manifests, where commands exit with [install] and
    [check]; the live manifests are there if [live], and the clock stands at [now]. *)
Definition world (now : Q) (live : bool) (install check : Z) : service Req Ans := fun _ r =>
  match r return Ans r with
  | RevisionDir => Some "..2026"%string
  | ReadConfig _ name => Some (if String.eqb name "pixi.toml" then "toml v2" else "lock v2")%string
  | ReadLive name => if live then Some (if String.eqb name "pixi.toml" then "toml v2" else "lock v2")%string else None
  | ReadCode => Some "code"%string
  | PauseExists | StopIsSet | StopWait _ => false
  | LiveTomlExists | PrefixExists | PythonIsFile => true
  | MkLive | WriteTmp _ _ | Replace _ | RemovePrefix | WriteHeartbeat => true
  | DistInfos => [("awkward.dist-info", false)]%string
  | Spawn Install => (None, Some install)
  | Spawn CheckEnv => (None, Some check)
  | Time | Monotonic => now
  | MkLock => Created
  | ReadHeartbeat => None
  | RemoveDist _ | Sleep _ | RemoveLock => tt
  end.
Definition v2 : Manifests := mkManifests "toml v2" "lock v2".
Definition first_cycle := reconcile (world 10000 false 0 0) false daemon0 [].
Lemma sync_honest_witness :
  first_cycle.1.1 = Ok true /\ installed first_cycle.1.2 = Some v2 /\ synced (env_at first_cycle.2) v2.
Proof.
  assert (Hr : first_cycle.1.1 = Ok true) by (vm_compute; reflexivity).
  assert (Hi : installed first_cycle.1.2 = Some v2) by (vm_compute; reflexivity).
  split; [exact Hr|]. split; [exact Hi|].
  cut (forall run, reconcile (world 10000 false 0 0) false daemon0 [] = run -> run.1.1 = Ok true -> installed run.1.2 = Some v2 ->
    synced (env_at run.2) v2).
  { intros H. exact (H first_cycle eq_refl Hr Hi). }
  clear Hr Hi. intros [[r s'] h'] E Hr Hi. cbn [fst snd] in *.
  pose proof (sync_honest (world 10000 false 0 0) false daemon0 [] (honest_none daemon0 [] eq_refl)) as H.
  unfold adds, wp in H. rewrite E in H. destruct H as (t & -> & _ & H). rewrite Hr in H.
  destruct H as [[_ Hn]|(dir & m & t' & _ & Hm & Hs & _)]; [congruence|]. rewrite Hi in Hm. injection Hm as <-. exact Hs.
Defined.

(** A failed install that was forced leaves [in_sync] at 1, which is to say that the
    manifests are live and installed, through the install and until the next cycle; the
    environment was wiped, and nothing is installed. *)
Lemma forced_failure_in_sync :
  let healed := daemon0 <| installed := Some v2 |> <| metrics := metrics0 <| env_healthy := 0%Q |> |> in
  let run := reconcile (world 10000 true 1 0) true healed [] in
  run.1.1 = Ok false /\ in_sync (metrics run.1.2) = 1%Q /\ installed run.1.2 = None /\ existT RemovePrefix true ∈ run.2.
Proof. repeat split; [vm_compute; reflexivity..|]. vm_compute. repeat first [by left|right]. Qed.

(** Between the second attempt of an install and the third the holder of the lock waits
    120 s, in which nothing writes the heartbeat: longer than [LOCK_FROZEN_SECONDS], after
    which another daemon takes the lock over. *)
Lemma retry_pause_frozen :
  let run := pixi_install (world 10000 false 1 0) daemon0 [] in
  existT (StopWait 120) false ∈ run.2 /\ (LOCK_FROZEN_SECONDS < 120)%Q /\ ~ (existT WriteHeartbeat true ∈ run.2).
Proof.
  split; [vm_compute; repeat first [by left|right]|]. split; [reflexivity|]. vm_compute. intros H.
  repeat (apply elem_of_cons in H as [H|H]; [done|]). by apply elem_of_nil in H.
Qed.
