(* ===== verification/AgErrors.v ===== *)
(** The failures of the agentic interface's tools,
    [docker/agentic-interface/errors.py]: their kinds and the texts that say what failed. *)
From S2P Require Import Prelude PyJson PyText PyValue.
Open Scope Z_scope.
Open Scope string_scope.

(** The subclasses of [Failure], by whose fault it was, with the message. *)
Inductive Failure := UserError (message : string) | AuthError (message : string) | UpstreamError (message : string) | ServiceFault (message : string).
Definition outcome (f : Failure) : string :=
  match f with UserError _ => "user_error" | AuthError _ => "auth_error" | UpstreamError _ => "upstream_error" | ServiceFault _ => "exception" end.
Definition message (f : Failure) : string :=
  match f with UserError m | AuthError m | UpstreamError m | ServiceFault m => m end.

(** An exception of a request: those of httpx that are told apart, or another by its name; its [str()]. *)
Inductive ExcKind := ConnectTimeout | ReadTimeout | WriteTimeout | PoolTimeout | RemoteProtocolError | ConnectError | OtherExc (name : string).
Record RequestExc := mkExc { x_kind : ExcKind; x_str : string }.
Definition exc_name (k : ExcKind) : string :=
  match k with
  | ConnectTimeout => "ConnectTimeout" | ReadTimeout => "ReadTimeout" | WriteTimeout => "WriteTimeout" | PoolTimeout => "PoolTimeout"
  | RemoteProtocolError => "RemoteProtocolError" | ConnectError => "ConnectError" | OtherExc name => name
  end.
(** A response: its status, its text unless that cannot be decoded, and its JSON if it is JSON. *)
Record Resp := mkResp { status_code : Z; r_text : option string; r_json : option json }.

(** [_TAG_RE.sub(" ", s)]: a [<], at least one character that is no [>], up to a [>]. *)
Fixpoint after_tag (s : string) : option string :=
  match s with EmptyString => None | String c s' => if Ascii.eqb c ">" then Some s' else after_tag s' end.
Definition tag_end (s : string) : option string :=
  match s with String c s' => if Ascii.eqb c ">" then None else after_tag s' | EmptyString => None end.
Fixpoint strip_tags (fuel : nat) (s : string) : string :=
  match fuel, s with
  | S fuel, String c s' =>
      match (if Ascii.eqb c "<" then tag_end s' else None) with
      | Some rest => String " " (strip_tags fuel rest)
      | None => String c (strip_tags fuel s')
      end
  | _, _ => EmptyString
  end.
Definition sub_tags (s : string) : string := strip_tags (String.length s) s.
(** [_WS_RE.sub(" ", s)] *)
Fixpoint sub_spaces (in_run : bool) (s : string) : string :=
  match s with
  | EmptyString => EmptyString
  | String c s' => if is_space c then (if in_run then sub_spaces true s' else String " " (sub_spaces true s'))
                   else String c (sub_spaces false s')
  end.
Definition one_spaces : string -> string := sub_spaces false.

Definition _STATUS_HINTS : list (Z * string) :=
  [(502, "it is down or restarting behind its proxy"); (503, "it is down, restarting, or overloaded"); (504, "it did not answer in time")]%string.
Definition RETRY_LATER : string :=
  "Try again in a minute; if it keeps failing, get_facility_health shows whether the facility itself is degraded.".
Definition _REPORT_IF_PERSISTENT : string :=
  "This is a fault between the agentic interface and the facility, not in the request; report it to AF support if it persists.".

Definition describe_exception (e : RequestExc) : string :=
  let detail := str_strip (x_str e) in
  match x_kind e with
  | ConnectTimeout => "connection timed out"
  | ReadTimeout | WriteTimeout | PoolTimeout => "timed out waiting for a response"
  | RemoteProtocolError => "the connection was dropped before a response arrived"
  | ConnectError => if String.eqb detail "" then "connection refused" else "connection failed (" ++ detail ++ ")"
  | k => if String.eqb detail "" then exc_name k else exc_name k ++ ": " ++ detail
  end.

(** The first of the keys with a text that is not blank. *)
Definition DETAIL_KEYS : list string := ["message"; "error"; "detail"; "reason"; "error_description"]%string.
Fixpoint detail_in (keys : list string) (payload : json) : option string :=
  match keys with
  | [] => None
  | key :: keys' =>
      let value := jget key payload in
      let value := if is_obj value then jget "message" value else value in
      match value with
      | JStr s => if String.eqb (str_strip s) "" then detail_in keys' payload else Some s
      | _ => detail_in keys' payload
      end
  end.
Definition json_detail (resp : Resp) : option string :=
  match r_json resp with Some payload => if is_obj payload then detail_in DETAIL_KEYS payload else None | None => None end.
Definition response_detail (resp : Resp) (limit : nat) : string :=
  match r_text resp with
  | None => ""
  | Some text =>
      match json_detail resp with
      | Some value => str_take limit (one_spaces (str_strip value))
      | None =>
          let text := if str_contains "<" text && str_contains ">" text then sub_tags text else text in
          str_take limit (str_strip (one_spaces text))
      end
  end.
Definition json_body (resp : Resp) : option json := r_json resp.

Definition _finish (message next_step : string) : string :=
  let message := str_rstrip (fun c => Ascii.eqb c " " || Ascii.eqb c ".") message ++ "." in
  if String.eqb next_step "" then message else message ++ " " ++ next_step.
Definition or_else (a b : string) : string := if String.eqb a "" then b else a.
Definition unreachable (service : string) (e : RequestExc) (next_step : string) : Failure :=
  UpstreamError (_finish ("Error: " ++ service ++ " unreachable — " ++ describe_exception e) (or_else next_step RETRY_LATER)).
Definition http_error (service : string) (resp : Resp) (action next_step : string) : Failure :=
  let code := status_code resp in
  let message := ("Error: " ++ service ++ " returned HTTP " ++ pretty code)%string in
  let message := if String.eqb action "" then message else message ++ " while trying to " ++ action in
  let hint := match dget code _STATUS_HINTS with
    | Some hint => hint
    | None => if (500 <=? code)%Z then "it hit an internal error"%string else ""%string
    end in
  let message := if String.eqb hint "" then message else message ++ " (" ++ hint ++ ")" in
  let detail := response_detail resp 300 in
  let message := if String.eqb detail "" then message else message ++ " — " ++ detail in
  let next_step := if String.eqb next_step "" && (500 <=? code)%Z then RETRY_LATER else next_step in
  UpstreamError (_finish message next_step).
Definition malformed_response (service : string) (resp : Resp) (expected next_step : string) : Failure :=
  let detail := response_detail resp 120 in
  let message := ("Error: " ++ service ++ " returned HTTP " ++ pretty (status_code resp) ++ " but the response was not " ++ expected)%string in
  let message := if String.eqb detail "" then message else message ++ " — " ++ detail in
  UpstreamError (_finish message (or_else next_step _REPORT_IF_PERSISTENT)).
Definition invalid_arguments (tool exc : string) : Failure :=
  UserError (_finish ("Error: " ++ tool ++ " was called with invalid arguments — " ++ str_strip (one_spaces exc))
    "Check the argument names and types in the tool description and call it again.").
Definition unexpected_failure (tool exc_type exc : string) : Failure :=
  let detail := or_else (str_strip exc) exc_type in
  ServiceFault (_finish ("Error: " ++ tool ++ " failed unexpectedly (" ++ exc_type ++ ": " ++ detail ++ ")")
    "This is a fault in the AF agentic interface, not in the request — report it to AF support with the tool name and the time it happened.").

Example response_detail_values :
  map (fun r => response_detail r 12)
    [mkResp 500 (Some "x"%string) (Some (JObj [("message", JStr " "); ("error", JObj [("message", JStr " it   broke ")])])); mkResp 502 (Some "<html> <b>Bad</b>  gateway <> </html>"%string) None; mkResp 200 None None]%string
  = ["it broke"; "Bad gateway "; ""]%string.
Proof. vm_compute. reflexivity. Qed.

(** Every failure made here says that it is one, and its detail is short and on one line. *)
Lemma detail_length resp limit : (String.length (response_detail resp limit) <= limit)%nat.
Proof.
  unfold response_detail. destruct (r_text resp); [|cbn; lia]. destruct (json_detail resp); apply str_take_length.
Qed.
Definition plain_space (c : ascii) : bool := negb (is_space c) || Ascii.eqb c " ".
Lemma one_spaces_plain b s : str_forallb plain_space (sub_spaces b s) = true.
Proof.
  revert b. induction s as [|c s IH]; intros b; cbn; [done|]. destruct (is_space c) eqn:E.
  - destruct b; [apply IH|]. cbn. apply IH.
  - cbn [str_forallb]. unfold plain_space at 1. by rewrite E, IH.
Qed.
Lemma detail_one_line resp limit : str_forallb plain_space (response_detail resp limit) = true.
Proof.
  unfold response_detail. destruct (r_text resp) as [text|]; [|done].
  destruct (json_detail resp); apply str_forallb_take; [|apply str_forallb_strip]; apply one_spaces_plain.
Qed.
