(* ===== verification/AgScope.v ===== *)
(** What a caller's PromQL may see, [docker/agentic-interface/promql_scope.py]: the
    matchers that every selector of a query gets, the regular expressions that they are made
    of, and the objects of a caller that are looked up for them. Prometheus gives each
    matcher the whole value of its label, and the empty text for a label that a series
    lacks; that, and the syntax that a pattern is written in, is RE2's and Prometheus's. *)
From S2P Require Import Prelude PyJson PyText PyTime PyValue AgErrors.
Open Scope Z_scope.
Open Scope string_scope.

(** ** Regular expressions *)

(** A pattern is its alternatives, each a sequence of items. *)
Inductive item :=
| Lit (c : ascii)                      (** a character, escaped where it has to be *)
| Raw (c : ascii)                      (** a character as it is, which stands for itself *)
| NotIn (chars : list ascii)           (** [[^...]] *)
| AnyStar                              (** [.*] *)
| Group (alts : list (list item))      (** [(?:...|...)] *)
| Opt (alts : list (list item)).       (** [(?:...|...)?] *)
Definition pattern : Type := list (list item).

(** [re.escape] of a character, and [_class]. *)
Definition special_char (c : ascii) : bool :=
  existsb (Ascii.eqb c) (list_ascii_of_string "()[]{}?*+-|^$\.&~# ") || ((9 <=? chr_code c) && (chr_code c <=? 13))%Z.
Definition escape_char (c : ascii) : string := if special_char c then String "092" (String c "") else String c "".
Definition class_char (c : ascii) : string :=
  if existsb (Ascii.eqb c) (list_ascii_of_string "\]^-[") then String "092" (String c "") else String c "".
(** [sorted] of characters. *)
Definition chr_key (c : ascii) : string := String c "".
Definition _class (chars : list ascii) : string := str_join "" (map class_char (sort_by chr_key chars)).
Fixpoint item_text (i : item) : string :=
  match i with
  | Lit c => escape_char c
  | Raw c => String c ""
  | NotIn chars => "[^" ++ _class chars ++ "]"
  | AnyStar => ".*"
  | Group alts => "(?:" ++ str_join "|" (map (fun alt => str_join "" (map item_text alt)) alts) ++ ")"
  | Opt alts => "(?:" ++ str_join "|" (map (fun alt => str_join "" (map item_text alt)) alts) ++ ")?"
  end.
(** The pattern as it is written. *)
Definition text_of (p : pattern) : string := str_join "|" (map (fun alt => str_join "" (map item_text alt)) p).

(** Matching with backtracking: what is left of the text is given to [k]. The dot is any
    character but a newline. *)
Definition dot_char (c : ascii) : bool := negb (Ascii.eqb c "010").
Fixpoint any_star (k : string -> bool) (w : string) : bool :=
  k w || match w with EmptyString => false | String c w' => dot_char c && any_star k w' end.
Fixpoint match_item (i : item) (k : string -> bool) (w : string) : bool :=
  let match_alt := fix match_alt (alt : list item) (k : string -> bool) (w : string) : bool :=
    match alt with [] => k w | i :: alt' => match_item i (fun v => match_alt alt' k v) w end in
  match i with
  | Lit c | Raw c => match w with String d w' => Ascii.eqb d c && k w' | EmptyString => false end
  | NotIn chars => match w with String d w' => negb (existsb (Ascii.eqb d) chars) && k w' | EmptyString => false end
  | AnyStar => any_star k w
  | Group alts => existsb (fun alt => match_alt alt k w) alts
  | Opt alts => existsb (fun alt => match_alt alt k w) alts || k w
  end.
Fixpoint match_alt (alt : list item) (k : string -> bool) (w : string) : bool :=
  match alt with [] => k w | i :: alt' => match_item i (fun v => match_alt alt' k v) w end.
Definition at_end (w : string) : bool := String.eqb w "".
Definition fullmatch (p : pattern) (w : string) : bool := existsb (fun alt => match_alt alt at_end w) p.

(** [re.escape(s)], and a text that is written as it is. *)
Definition literal_of (s : string) : list item := map Lit (list_ascii_of_string s).
Definition raw_of (s : string) : list item := map Raw (list_ascii_of_string s).

(** ** The texts that start with none of some prefixes *)

(** The nested dictionaries: whether there is a [""] in one, and the rest by its characters. *)
Inductive trie := Node (ends : bool) (kids : list (ascii * trie)).
Definition ends (t : trie) : bool := let '(Node e _) := t in e.
Definition kids (t : trie) : list (ascii * trie) := let '(Node _ ks) := t in ks.
Definition leaf : trie := Node false [].
Fixpoint insert_prefix (prefix : string) (t : trie) : trie :=
  match prefix with
  | EmptyString => Node true (kids t)
  | String char prefix' => Node (ends t) (dset char (insert_prefix prefix' (dget_or char leaf (kids t))) (kids t))
  end.
(** The children in the order of their characters, those that end a prefix left out. *)
Definition by_char {A} (l : list (ascii * A)) : list (ascii * A) := sort_by (fun kv => chr_key kv.1) l.
Fixpoint walk (t : trie) : item :=
  match t with
  | Node _ kids =>
      let walked := map (fun kv => (kv.1, if ends kv.2 then None else Some (walk kv.2))) kids in
      Group ([[]; [NotIn (map fst kids); AnyStar]]
             ++ omap (fun kv => option_map (fun r => [Lit kv.1; r]) kv.2) (by_char walked))
  end.
Definition trie_of (prefixes : list string) : trie := foldl (fun t p => insert_prefix p t) leaf prefixes.
Definition without_prefixes (prefixes : list string) : item := walk (trie_of prefixes).

Example without_prefixes_text : item_text (without_prefixes ["ab"; "abc-"; "b"; "c-d"])
  = "(?:|[^abc].*|a(?:|[^b].*)|c(?:|[^\-].*|\-(?:|[^d].*)))".
Proof. vm_compute. reflexivity. Qed.

(** ** The matchers *)

Definition NAMESPACE : string := "cms".
Definition NAMESPACE_LABELS : list string := ["namespace"; "exported_namespace"; "claim_namespace"; "service_namespace"].
Definition IDENTITY_LABELS : list string := ["username"; "user"].
Definition SHARED_IDENTITIES : list string := ["fake"].
Definition OBJECT_LABELS : list string :=
  ["configmap"; "created_by_name"; "deployment"; "endpoint"; "exported_job"; "exported_pod"; "exported_service"; "job"; "job_name";
   "name"; "networkpolicy"; "owner"; "owner_name"; "persistentvolumeclaim"; "pod"; "ray_cluster"; "replicaset"; "secret"; "service";
   "service_account"; "volume"; "workload"].
Definition chars_of (s : string) : list string := map chr_key (list_ascii_of_string s).
Definition USER_PREFIXES : list string :=
  (map (fun d => "purdue-af-" ++ d)%string (chars_of "0123456789") ++ ["dask-scheduler-"; "dask-worker-"]
   ++ map (fun h => "dask-" ++ h)%string (chars_of "0123456789abcdef") ++ ["ray-job-"; "ray-train-"; "claim-"; "volume-"])%list.
Definition SHARED_PREFIXES : list string := ["ray-train-gateway"].
Definition NOT_A_PERSONS : item := without_prefixes USER_PREFIXES.

Record Owned := mkOwned { username : string; pods : gset string; dask_clusters : gset string; claims : gset string; volumes : gset string }.
#[export] Instance eta_owned : Eta Owned := {| eta_of := fun o => mkOwned (username o) (pods o) (dask_clusters o) (claims o) (volumes o) |}.
Definition sorted_set (s : gset string) : list string := str_sorted (elements s).
Definition dask_names : list string := ["scheduler-"; "worker-"; "credentials-"].
Definition dask_pattern (c : string) : list item :=
  (raw_of "dask-" ++ [Opt (map raw_of dask_names)] ++ literal_of c ++ [Opt [[Raw "-"; AnyStar]]])%list.
Definition object_names (o : Owned) : pattern :=
  (map literal_of (sorted_set (pods o ∪ claims o ∪ volumes o)) ++ map dask_pattern (sorted_set (dask_clusters o)))%list.

Record Matcher := mkMatcher { m_name : string; m_value : pattern }.
Definition people (o : Owned) : list string := List.filter (fun p => negb (String.eqb p "")) (SHARED_IDENTITIES ++ [username o]).
Definition allowed_objects (o : Owned) : pattern :=
  ([[NOT_A_PERSONS]] ++ map (fun p => literal_of p ++ [AnyStar]) SHARED_PREFIXES ++ object_names o)%list.
Definition matchers (o : Owned) : list Matcher :=
  (map (fun n => mkMatcher n [[]; raw_of NAMESPACE]) NAMESPACE_LABELS
   ++ map (fun n => mkMatcher n ([] :: map literal_of (people o))) IDENTITY_LABELS
   ++ map (fun n => mkMatcher n (allowed_objects o)) OBJECT_LABELS)%list.

(** Whether a series, by its labels, is selected by each matcher. *)
Definition selected (ms : list Matcher) (labels : string -> string) : bool :=
  forallb (fun m => fullmatch (m_value m) (labels (m_name m))) ms.

(** ** The scoping program, and the caller's objects *)

Inductive Exc := Fails (f : Failure) | Uncaught.
Inductive Req := RunScope (query : string) (ms : list Matcher) | Series (match_ : list string) (start end_ : Q).
(** The program's output, which may be no JSON, or that it could not be run in time; an
    HTTP answer, or that there is none. *)
Inductive ScopeOut := Output (answer : option json) | NotRun (e : RequestExc).
Definition Ans (r : Req) : Type := match r with RunScope _ _ => ScopeOut | Series _ _ _ => Resp + RequestExc end%type.
Definition Ev : Type := sigT Ans.
Definition AM (A : Type) : Type := M Ev unit Exc A.

(** [json.dumps] of an ASCII text. *)
Definition hex4 (n : Z) : string :=
  let h k := String (hex_lower (n / k mod 16)) "" in h 4096%Z ++ h 256%Z ++ h 16%Z ++ h 1%Z.
Definition json_char (c : ascii) : string :=
  let n := chr_code c in
  if (n =? 34)%Z || (n =? 92)%Z then String "092" (String c "")
  else if (n =? 10)%Z then "\n" else if (n =? 13)%Z then "\r" else if (n =? 9)%Z then "\t" else if (n =? 8)%Z then "\b" else if (n =? 12)%Z then "\f"
  else if (n <? 32)%Z then "\u" ++ hex4 n else String c "".
Definition _quote (value : string) : string :=
  String "034" (str_join "" (map json_char (list_ascii_of_string value)) ++ String "034" "").
Definition SESSION_POD (pod : string) : bool :=
  startswith "purdue-af-" pod && negb (String.eqb (str_drop 10 pod) "") && str_forallb is_digit (str_drop 10 pod).
Definition hex_digit (c : ascii) : bool := is_digit c || chr_between "a" "f" c.
(** The cluster that the pattern's group takes. *)
Definition DASK_SCHEDULER (pod : string) : option string :=
  let m := str_drop 15 pod in
  if startswith "dask-scheduler-" pod && negb (String.eqb m "") && str_forallb hex_digit m then Some m else None.
Definition OWNED_PVC_QUERY : string := "kube_pod_spec_volumes_persistentvolumeclaims_info".
Definition regex_escape (s : string) : string := str_join "" (map escape_char (list_ascii_of_string s)).

Section Scope.
Context (svc : service Req Ans).
Definition fail {A} (f : Failure) : AM A := raise (Fails f).
Definition scope (query : string) (owned : Owned) : AM string :=
  out ← (mcall svc (RunScope query (matchers owned)) : AM ScopeOut);
  match out with
  | NotRun e => fail (UpstreamError ("Error: could not check the query — " ++ describe_exception e ++ "."))
  | Output None => fail (UpstreamError "Error: could not check the query.")
  | Output (Some (JObj answer)) =>
      let answer := JObj answer in
      if truthy (jget "error" answer) then fail (UserError ("Error: the query does not parse — " ++ str_of (jget "error" answer) ++ "."))
      else if jhas "query" answer then mret (str_of (jget "query" answer)) else raise Uncaught
  | Output (Some _) => raise Uncaught
  end.
Definition _series (match_ : list string) (start end_ : Q) : AM (list json) :=
  reply ← (mcall svc (Series match_ start end_) : AM (Resp + RequestExc));
  match reply with
  | inr e => fail (UpstreamError ("Error: could not tell which series are yours — Prometheus is unreachable (" ++ describe_exception e ++ ")."))
  | inl resp =>
      let data := match json_body resp with Some body => jget "data" body | None => JNull end in
      if negb (status_code resp =? 200)%Z || negb (is_arr data)
      then fail (UpstreamError ("Error: could not tell which series are yours — Prometheus returned HTTP " ++ pretty (status_code resp) ++ "."))
      else mret (List.filter is_obj (jlist data))
  end.
(** A series of the caller's: its pod is their session's, or their Dask scheduler's. The
    labels' values are texts; another kind raises. *)
Definition add_pod (owned : Owned) (series : json) : res Exc Owned :=
  match jget_or "pod" (JStr "") series with
  | JStr pod =>
      if SESSION_POD pod then Ok (owned <| pods := {[ pod ]} ∪ pods owned |>)
      else match DASK_SCHEDULER pod with
           | Some c => Ok (owned <| dask_clusters := {[ c ]} ∪ dask_clusters owned |>)
           | None => Ok owned
           end
  | _ => Err Uncaught
  end.
Definition added (value : json) (names : gset string) : res Exc (gset string) :=
  if negb (truthy value) then Ok names else match value with JStr n => Ok ({[ n ]} ∪ names) | _ => Err Uncaught end.
Definition add_claims (owned : Owned) (series : json) : res Exc Owned :=
  cs ← added (jget "persistentvolumeclaim" series) (claims owned);
  vs ← added (jget "volume" series) (volumes owned);
  Ok ((owned <| claims := cs |>) <| volumes := vs |>).
Fixpoint rfold {A B E} (f : A -> B -> res E A) (acc : A) (l : list B) : res E A :=
  match l with [] => Ok acc | x :: l' => acc' ← f acc x; rfold f acc' l' end.
Definition nobody (name : string) : Owned := mkOwned name ∅ ∅ ∅ ∅.
Definition owned_pvcs (owned : Owned) : string :=
  OWNED_PVC_QUERY ++ "{namespace=" ++ _quote NAMESPACE ++ ",pod=~" ++ _quote (str_join "|" (map regex_escape (sorted_set (pods owned)))) ++ "}".
Definition of_caller (name : string) : list string :=
  ["{username=" ++ _quote name ++ "}"; "{user=" ++ _quote name ++ "}"].
Definition resolve (name : string) (start end_ : Q) : AM Owned :=
  series ← _series (of_caller name) start end_;
  owned ← (mlift (rfold add_pod (nobody name) series) : AM Owned);
  if bool_decide (pods owned = ∅) then mret owned else
  series ← _series [owned_pvcs owned] start end_;
  mlift (rfold add_claims owned series).
End Scope.
Example owned_pvcs_text : owned_pvcs (mkOwned "alice" {[ "purdue-af-7" ]} ∅ ∅ ∅)
  = OWNED_PVC_QUERY ++ "{namespace=" ++ quoted "'cms'" ++ ",pod=~" ++ quoted "'purdue\\-af\\-7'" ++ "}".
Proof. vm_compute. reflexivity. Qed.

(** ** What the patterns match *)

Definition one_line (w : string) : Prop := str_forallb dot_char w = true.
Lemma startswith_cons c d p w : startswith (String c p) (String d w) = Ascii.eqb d c && startswith p w.
Proof.
  unfold startswith. cbn [String.prefix]. destruct (ascii_dec c d) as [->|Hne]; [by rewrite Ascii.eqb_refl|].
  destruct (Ascii.eqb_spec d c); [congruence|done].
Qed.
Lemma startswith_nil w : startswith "" w = true.
Proof. by destruct w. Qed.
Lemma startswith_iff p w : startswith p w = true <-> exists t, w = p ++ t.
Proof.
  split; [|intros [t ->]; apply startswith_app]. revert w. induction p as [|c p IH]; intros w H; [by exists w|].
  destruct w as [|d w]; [done|]. rewrite startswith_cons in H. apply andb_true_iff in H as [Hc%Ascii.eqb_eq H]. destruct (IH w H) as [t ->].
  exists t. by subst.
Qed.
Lemma any_star_end w : one_line w -> any_star at_end w = true.
Proof.
  unfold one_line. induction w as [|c w IH]; cbn [any_star str_forallb]; [done|]. intros [Hc Hw]%andb_true_iff. by rewrite Hc, (IH Hw), orb_true_r.
Qed.
Lemma existsb_permutation {A} (f : A -> bool) l l' : l ≡ₚ l' -> existsb f l = existsb f l'.
Proof. induction 1; cbn; [done|congruence| |congruence]. by rewrite !orb_assoc, (orb_comm (f _) (f _)). Qed.
Lemma existsb_omap {A B} (f : B -> bool) (g : A -> option B) l :
  existsb f (omap g l) = existsb (fun x => match g x with Some y => f y | None => false end) l.
Proof. induction l as [|x l IH]; [done|]. cbn. destruct (g x); cbn; by rewrite <- IH. Qed.
Lemma existsb_of_map {A B} (f : B -> bool) (g : A -> B) l : existsb f (map g l) = existsb (fun x => f (g x)) l.
Proof. induction l as [|x l IH]; [done|]. cbn. by rewrite IH. Qed.

Lemma match_group alts k w : match_item (Group alts) k w = existsb (fun alt => match_alt alt k w) alts.
Proof. reflexivity. Qed.
Lemma match_opt alts k w : match_item (Opt alts) k w = existsb (fun alt => match_alt alt k w) alts || k w.
Proof. reflexivity. Qed.
(** A character, written either way. *)
Definition one_char (lit : ascii -> item) : Prop :=
  forall c k w, match_item (lit c) k w = match w with String d w' => Ascii.eqb d c && k w' | EmptyString => false end.
Lemma match_chars lit p rest k w : one_char lit ->
  match_alt (map lit (list_ascii_of_string p) ++ rest) k w = startswith p w && match_alt rest k (str_drop (String.length p) w).
Proof.
  intros Hlit. revert w. induction p as [|c p IH]; intros w; [by rewrite startswith_nil|].
  cbn [list_ascii_of_string map app match_alt]. rewrite Hlit. destruct w as [|d w]; [done|]. rewrite startswith_cons. cbn [String.length str_drop].
  by rewrite IH, andb_assoc.
Qed.
Lemma literal_chars : one_char Lit. Proof. done. Qed.
Lemma raw_chars : one_char Raw. Proof. done. Qed.
Lemma drop_end p w : startswith p w = true -> at_end (str_drop (String.length p) w) = String.eqb w p.
Proof.
  intros [t ->]%startswith_iff. rewrite str_drop_app. unfold at_end. destruct (String.eqb_spec t "") as [->|Hne].
  - rewrite str_app_nil. by rewrite String.eqb_refl.
  - symmetry. apply String.eqb_neq. intros H. apply Hne. apply (str_app_inv_head p). by rewrite str_app_nil.
Qed.
Lemma match_whole lit p w : one_char lit -> match_alt (map lit (list_ascii_of_string p)) at_end w = String.eqb w p.
Proof.
  intros Hlit. pose proof (match_chars lit p [] at_end w Hlit) as H. rewrite app_nil_r in H. rewrite H. cbn [match_alt].
  destruct (startswith p w) eqn:E; [by apply drop_end|]. symmetry. apply String.eqb_neq. intros ->.
  rewrite <- (str_app_nil p) in E at 2. by rewrite startswith_app in E.
Qed.

(** Whether a text goes on from one of the prefixes in a trie. *)
Fixpoint hits (w : string) (t : trie) : bool :=
  match w with
  | EmptyString => false
  | String c w' => match dget c (kids t) with Some t' => ends t' || hits w' t' | None => false end
  end.
Inductive wf : trie -> Prop :=
| wf_node e ks : NoDup ks.*1 -> (forall c t, (c, t) ∈ ks -> wf t) -> wf (Node e ks).
Lemma wf_leaf : wf leaf.
Proof. constructor; [constructor|]. by intros c t ?%elem_of_nil. Qed.
Lemma wf_child c e ks t : wf (Node e ks) -> dget c ks = Some t -> wf t.
Proof. inversion 1; subst. intros Hd%dget_elem. eauto. Qed.
Lemma wf_insert p t : wf t -> wf (insert_prefix p t).
Proof.
  revert t. induction p as [|c p IH]; intros [e ks] Hw; inversion Hw as [? ? Hnd Hk]; subst; cbn; [by constructor|].
  constructor; [by apply dset_keys|]. intros d t Hin. destruct (decide (d = c)) as [->|Hne].
  - apply elem_dget in Hin; [|by apply dset_keys]. rewrite dget_dset in Hin. injection Hin as <-. apply IH.
    unfold dget_or. destruct (dget c ks) as [t'|] eqn:E; [by eapply wf_child|apply wf_leaf].
  - apply dset_elem_ne in Hin; [|done]. by eapply Hk.
Qed.
Lemma ends_insert p t : ends (insert_prefix p t) = String.eqb p "" || ends t.
Proof. by destruct p, t. Qed.
Lemma hits_insert p t w : p <> "" -> hits w (insert_prefix p t) = startswith p w || hits w t.
Proof.
  revert t w. induction p as [|c p IH]; [done|]. intros [e ks] [|d w] _; [done|]. rewrite startswith_cons. cbn [insert_prefix hits kids].
  destruct (Ascii.eqb_spec d c) as [->|Hne]; [|by rewrite dget_dset_ne by congruence]. rewrite dget_dset, ends_insert. unfold dget_or.
  assert (Hold : forall t', ends t' || hits w (insert_prefix p t') || String.eqb p "" = startswith p w || (ends t' || hits w t')).
  { intros t'. destruct (String.eqb_spec p "") as [->|Hp]; [by rewrite startswith_nil, orb_true_r|]. rewrite IH, orb_false_r by done.
    by destruct (ends t'), (startswith p w). }
  destruct (dget c ks) as [t'|]; cbn [default from_option]; unfold id; cbn [andb].
  - rewrite <- Hold. by destruct (String.eqb p ""), (ends t'), (hits w _).
  - pose proof (Hold leaf) as H. assert (Hl : hits w leaf = false) by (by destruct w). rewrite Hl in H. cbn in H. rewrite orb_false_r in H |- *.
    rewrite <- H. unfold id. by destruct (String.eqb p ""), (hits w _).
Qed.
(** The alternatives that follow a character of the trie. *)
Lemma match_kids ks c k w : NoDup ks.*1 ->
  existsb (fun alt => match_alt alt k (String c w))
    (omap (fun kv => option_map (fun r => [Lit kv.1; r]) kv.2) (by_char (map (fun kv => (kv.1, if ends kv.2 then None else Some (walk kv.2))) ks)))
  = match dget c ks with Some t => negb (ends t) && match_item (walk t) k w | None => false end.
Proof.
  intros Hnd. rewrite existsb_omap. unfold by_char. erewrite existsb_permutation by apply sort_by_perm. rewrite existsb_of_map. cbn [fst snd].
  induction ks as [|[d t] ks IH]; [done|]. apply NoDup_cons in Hnd as [Hni Hnd]. cbn [existsb fst snd dget].
  rewrite (IH Hnd). case_decide as Hd.
  - subst d. destruct (dget c ks) eqn:E; [apply dget_elem in E; exfalso; apply Hni; apply list_elem_of_fmap; by exists (c, t0)|].
    rewrite orb_false_r. destruct (ends t); cbn [option_map negb andb]; [done|]. cbn [match_alt match_item]. by rewrite Ascii.eqb_refl.
  - destruct (ends t); cbn [option_map]; [done|]. cbn [match_alt match_item].
    destruct (Ascii.eqb_spec c d); [congruence|]. done.
Qed.
Lemma match_walk t w : wf t -> one_line w -> match_item (walk t) at_end w = negb (hits w t).
Proof.
  revert t. induction w as [|c w IH]; intros [e ks] Hw Hl.
  - cbn [walk]. by rewrite match_group.
  - inversion Hw as [? ? Hnd Hk]; subst. cbn [walk]. rewrite match_group. cbn [existsb app]. rewrite match_kids by done.
    unfold one_line in Hl. cbn [str_forallb] in Hl. apply andb_true_iff in Hl as [_ Hl].
    cbn [match_alt match_item at_end String.eqb orb hits kids]. change (fun v : string => match_alt [] at_end v) with at_end.
    rewrite any_star_end, andb_true_r by done.
    assert (Hm : existsb (Ascii.eqb c) (map fst ks) = bool_decide (is_Some (dget c ks))).
    { apply eq_true_iff_eq. rewrite bool_decide_eq_true, existsb_exists. split.
      - intros (x & Hx & ->%Ascii.eqb_eq). apply list_elem_of_In in Hx. destruct (dget x ks) eqn:E; [by eexists|]. by apply dget_none_names in E.
      - intros [t Ht]. exists c. split; [|apply Ascii.eqb_refl]. apply list_elem_of_In, list_elem_of_fmap. exists (c, t). split; [done|by apply dget_elem]. }
    rewrite Hm. destruct (dget c ks) as [t|] eqn:E.
    + rewrite bool_decide_true by (by eexists). cbn [negb orb]. rewrite IH by (done || by eapply wf_child). by destruct (ends t), (hits w t).
    + rewrite bool_decide_false; [done|]. by intros [? ?].
Qed.
Lemma without_prefixes_match prefixes w : Forall (fun p => p <> "") prefixes -> one_line w ->
  match_item (without_prefixes prefixes) at_end w = negb (existsb (fun p => startswith p w) prefixes).
Proof.
  intros Hp Hl. unfold without_prefixes, trie_of. assert (Hgen : forall t, wf t ->
    wf (foldl (fun t p => insert_prefix p t) t prefixes) /\
    hits w (foldl (fun t p => insert_prefix p t) t prefixes) = existsb (fun p => startswith p w) prefixes || hits w t).
  { induction Hp as [|p prefixes Hne _ IH]; intros t Ht; [done|]. cbn. destruct (IH (insert_prefix p t) (wf_insert p t Ht)) as [H1 H2].
    split; [done|]. rewrite H2, hits_insert by done. by rewrite orb_assoc, (orb_comm (startswith p w)). }
  destruct (Hgen leaf wf_leaf) as [H1 H2]. rewrite match_walk, H2 by done. by destruct w; rewrite orb_false_r.
Qed.

(** ** What a caller sees *)

(** The name of a Dask cluster's object: [dask-], perhaps its kind, the cluster, and perhaps
    a hyphen and more. *)
Definition dask_object (c w : string) : Prop :=
  exists m t, m ∈ "" :: dask_names /\ (t = "" \/ exists t', t = "-" ++ t') /\ w = "dask-" ++ m ++ c ++ t.
Lemma one_line_app p t : one_line (p ++ t) -> one_line t.
Proof. unfold one_line. rewrite str_forallb_app. by intros [_ H]%andb_true_iff. Qed.
Lemma match_rest r : one_line r -> match_alt [Opt [[Raw "-"; AnyStar]]] at_end r = true <-> r = "" \/ exists t', r = "-" ++ t'.
Proof.
  intros Hr. cbn [match_alt]. rewrite match_opt. cbn [existsb]. rewrite orb_false_r, orb_true_iff.
  change [Raw "-"; AnyStar] with (map Raw (list_ascii_of_string "-") ++ [AnyStar])%list. rewrite match_chars by apply raw_chars.
  rewrite andb_true_iff, startswith_iff. unfold at_end at 2. rewrite String.eqb_eq. split; [intros [[H _]|H]; auto|].
  intros [->|[t ->]]; [by right|]. left. split; [by eexists|]. cbn [String.length]. change 1%nat with (String.length "-"). rewrite str_drop_app.
  cbn [match_alt match_item]. apply any_star_end. by apply (one_line_app "-").
Qed.
Lemma match_cluster c v : one_line v -> match_alt (literal_of c ++ [Opt [[Raw "-"; AnyStar]]]) at_end v = true
  <-> exists t, (t = "" \/ exists t', t = "-" ++ t') /\ v = c ++ t.
Proof.
  intros Hv. unfold literal_of. rewrite match_chars by apply literal_chars. rewrite andb_true_iff, startswith_iff. split.
  - intros [[t ->] Ht]. rewrite str_drop_app in Ht. apply match_rest in Ht; [|by apply one_line_app in Hv]. eauto.
  - intros (t & Ht & ->). split; [by eexists|]. rewrite str_drop_app. apply match_rest; [by apply one_line_app in Hv|done].
Qed.
Lemma match_kind alt m k w : alt = raw_of m -> match_alt alt k w = true <-> exists v, w = m ++ v /\ k v = true.
Proof.
  intros ->. pose proof (match_chars Raw m [] k w raw_chars) as H. rewrite app_nil_r in H. unfold raw_of. rewrite H. cbn [match_alt].
  rewrite andb_true_iff, startswith_iff. split; [intros [[t ->] Hk]; rewrite str_drop_app in Hk; eauto|].
  intros (v & -> & Hk). rewrite str_drop_app. eauto.
Qed.
Lemma match_dask c w : one_line w -> match_alt (dask_pattern c) at_end w = true <-> dask_object c w.
Proof.
  intros Hw. unfold dask_pattern, raw_of at 1. rewrite match_chars by apply raw_chars. rewrite andb_true_iff, startswith_iff.
  assert (Hk : forall v, one_line v -> match_alt ([Opt (map raw_of dask_names)] ++ literal_of c ++ [Opt [[Raw "-"; AnyStar]]]) at_end v = true
    <-> exists m t, m ∈ "" :: dask_names /\ (t = "" \/ exists t', t = "-" ++ t') /\ v = m ++ c ++ t).
  { intros v Hv. cbn [app match_alt]. rewrite match_opt, orb_true_iff, existsb_exists. fold match_alt. split.
    - intros [(alt & Hin & Hm)|Hm].
      + apply in_map_iff in Hin as (m & <- & Hin). apply (match_kind _ m) in Hm as (u & -> & Hm); [|done]. apply one_line_app in Hv.
        apply match_cluster in Hm as (t & Ht & ->); [|done]. exists m, t. split; [right; by apply list_elem_of_In|done].
      + apply match_cluster in Hm as (t & Ht & ->); [|done]. exists "", t. split; [by left|done].
    - intros (m & t & [->|Hin]%elem_of_cons & Ht & ->).
      + right. apply match_cluster; [done|]. by exists t.
      + left. exists (raw_of m). split; [by apply in_map, list_elem_of_In|]. apply (match_kind _ m); [done|]. exists (c ++ t). split; [done|].
        apply match_cluster; [by apply one_line_app in Hv|]. by exists t. }
  split.
  - intros [[v ->] Hm]. rewrite str_drop_app in Hm. apply Hk in Hm as (m & t & H1 & H2 & ->); [|by apply one_line_app in Hw].
    by exists m, t.
  - intros (m & t & H1 & H2 & ->). split; [by eexists|]. rewrite str_drop_app. apply Hk; [by apply one_line_app in Hw|]. by exists m, t.
Qed.
Lemma sorted_set_elem n X : n ∈ sorted_set X <-> n ∈ X.
Proof. unfold sorted_set. by rewrite str_sorted_perm, elem_of_elements. Qed.
Lemma user_prefixes_plain : Forall (fun p => p <> "") USER_PREFIXES.
Proof. apply (bool_decide_unpack _). vm_compute. exact I. Qed.
(** A name that shows no other person's object. *)
Definition visible_object (o : Owned) (w : string) : Prop :=
  (forall p, p ∈ USER_PREFIXES -> startswith p w = false) \/ (exists p, p ∈ SHARED_PREFIXES /\ startswith p w = true) \/
  w ∈ pods o ∪ claims o ∪ volumes o \/ exists c, c ∈ dask_clusters o /\ dask_object c w.
Lemma match_objects o w : one_line w -> fullmatch (allowed_objects o) w = true <-> visible_object o w.
Proof.
  intros Hw. unfold fullmatch, allowed_objects, object_names, visible_object. rewrite !existsb_app, !orb_true_iff. repeat f_equiv.
  - cbn [existsb match_alt]. change (fun v : string => match_alt [] at_end v) with at_end. rewrite orb_false_r. unfold NOT_A_PERSONS.
    rewrite without_prefixes_match, negb_true_iff by (done || apply user_prefixes_plain). split.
    + intros H p Hp. apply not_true_iff_false. intros Hs. apply not_true_iff_false in H. apply H, existsb_exists. exists p. by rewrite <- list_elem_of_In.
    + intros H. apply not_true_iff_false. intros (p & Hp & Hs)%existsb_exists. apply list_elem_of_In in Hp. by rewrite (H p Hp) in Hs.
  - rewrite existsb_of_map, existsb_exists. setoid_rewrite list_elem_of_In. split; intros (p & Hp & Hm); exists p; (split; [done|]).
    + unfold literal_of in Hm. rewrite match_chars in Hm by apply literal_chars. by apply andb_true_iff in Hm as [? _].
    + unfold literal_of. rewrite match_chars by apply literal_chars. rewrite Hm. apply startswith_iff in Hm as [t ->]. rewrite str_drop_app.
      cbn [match_alt match_item]. apply any_star_end. by apply one_line_app in Hw.
  - rewrite existsb_of_map, existsb_exists. setoid_rewrite <- list_elem_of_In. setoid_rewrite sorted_set_elem. split.
    + intros (n & Hn & Hm). unfold literal_of in Hm. rewrite match_whole in Hm by apply literal_chars. by apply String.eqb_eq in Hm as ->.
    + intros Hn. exists w. split; [done|]. unfold literal_of. rewrite match_whole by apply literal_chars. apply String.eqb_refl.
  - rewrite existsb_of_map, existsb_exists. setoid_rewrite <- list_elem_of_In. setoid_rewrite sorted_set_elem.
    split; intros (c & Hc & Hm); exists c; (split; [done|]); by apply match_dask.
Qed.
Lemma fullmatch_words words w : fullmatch ([] :: map literal_of words) w = true <-> w = "" \/ w ∈ words.
Proof.
  unfold fullmatch. cbn [existsb match_alt]. rewrite existsb_of_map, orb_true_iff, existsb_exists. unfold at_end at 1. rewrite String.eqb_eq. f_equiv.
  split.
  - intros (p & Hp & Hm). unfold literal_of in Hm. rewrite match_whole in Hm by apply literal_chars. apply String.eqb_eq in Hm as ->. by apply list_elem_of_In.
  - intros Hin. exists w. split; [by apply list_elem_of_In|]. unfold literal_of. rewrite match_whole by apply literal_chars. apply String.eqb_refl.
Qed.
Lemma forallb_of_map {A B} (f : B -> bool) (g : A -> B) l : forallb f (map g l) = forallb (fun x => f (g x)) l.
Proof. induction l as [|x l IH]; [done|]. cbn. by rewrite IH. Qed.
Lemma all_of {A} (f : A -> bool) l : forallb f l = true <-> forall n, n ∈ l -> f n = true.
Proof. rewrite forallb_forall. by setoid_rewrite list_elem_of_In. Qed.
Lemma all_iff {A} (l : list A) (P Q : A -> Prop) : (forall n, P n <-> Q n) -> (forall n, n ∈ l -> P n) <-> (forall n, n ∈ l -> Q n).
Proof. intros H. split; intros Hp n Hn; by apply H, Hp. Qed.
(** C9: a series is shown exactly if it is the facility's or the caller's. Of the series
    that a query names, whatever it is, those are kept whose every namespace label is
    absent or this namespace, whose every label for a person is absent, shared or
    the caller, and whose every object is named like no person's, like a shared
    component, or is one of the caller's own: their pod, claims, volumes, or an object of
    one of their Dask clusters. The regular expression for the names without the
    prefixes of persons' objects matches just these names. *)
Theorem scope_exact o labels : (forall n, one_line (labels n)) ->
  selected (matchers o) labels = true <->
    (forall n, n ∈ NAMESPACE_LABELS -> labels n = "" \/ labels n = NAMESPACE) /\
    (forall n, n ∈ IDENTITY_LABELS -> labels n = "" \/ labels n ∈ SHARED_IDENTITIES \/ labels n = username o) /\
    (forall n, n ∈ OBJECT_LABELS -> visible_object o (labels n)).
Proof.
  intros Hl. unfold selected, matchers. rewrite !forallb_app, !andb_true_iff, !forallb_of_map. cbn [m_name m_value].
  rewrite !all_of. repeat f_equiv; apply all_iff; intros n.
  - pose proof (match_whole Raw NAMESPACE (labels n) raw_chars) as Hm. unfold fullmatch. cbn [existsb].
    unfold raw_of. rewrite Hm, orb_false_r, orb_true_iff. cbn [match_alt]. unfold at_end. by rewrite !String.eqb_eq.
  - rewrite fullmatch_words. unfold people. rewrite list_elem_of_In, filter_In, <- list_elem_of_In, elem_of_app, list_elem_of_singleton.
    rewrite negb_true_iff, String.eqb_neq. destruct (decide (labels n = "")); tauto.
  - by apply match_objects.
Qed.

(** ** Whose objects the caller's are *)

Definition hex_name (c : string) : Prop := c <> "" /\ str_forallb hex_digit c = true.
Fixpoint hex_run (w : string) : string :=
  match w with String c w' => if hex_digit c then String c (hex_run w') else "" | EmptyString => "" end.
Lemma hex_run_app c t : str_forallb hex_digit c = true -> t = "" \/ (exists t', t = "-" ++ t') -> hex_run (c ++ t) = c.
Proof.
  intros Hc Ht. induction c as [|a c IH].
  - by destruct Ht as [->|[t' ->]].
  - cbn [str_forallb] in Hc. apply andb_true_iff in Hc as [Ha Hc]. change (String a c ++ t) with (String a (c ++ t)). cbn [hex_run].
    by rewrite Ha, (IH Hc).
Qed.
(** The cluster that an object is named after. *)
Definition cluster_of (w : string) : string :=
  let w := str_drop 5 w in
  match List.find (fun m => startswith m w) dask_names with Some m => hex_run (str_drop (String.length m) w) | None => hex_run w end.
Lemma no_kind c t : hex_name c -> t = "" \/ (exists t', t = "-" ++ t') -> List.find (fun m => startswith m (c ++ t)) dask_names = None.
Proof.
  intros [Hne Hc] Ht. destruct c as [|a c]; [done|]. change (String a c ++ t) with (String a (c ++ t)). cbn [str_forallb] in Hc.
  apply andb_true_iff in Hc as [Ha Hc]. unfold dask_names. cbn [List.find]. rewrite !startswith_cons.
  destruct (Ascii.eqb_spec a "s") as [->|_]; [done|]. destruct (Ascii.eqb_spec a "w") as [->|_]; [done|]. cbn [andb].
  destruct (Ascii.eqb_spec a "c") as [->|_]; [|done]. cbn [andb].
  assert (Hr : startswith "redentials-" (c ++ t) = false); [|by rewrite Hr].
  destruct c as [|b c].
  - by destruct Ht as [->|[t' ->]].
  - change (String b c ++ t) with (String b (c ++ t)). rewrite startswith_cons. destruct (Ascii.eqb_spec b "r") as [->|_]; [|done].
    by vm_compute in Hc.
Qed.
Lemma dask_cluster c w : hex_name c -> dask_object c w -> cluster_of w = c.
Proof.
  intros Hc (m & t & Hm & Ht & ->). unfold cluster_of. change 5%nat with (String.length "dask-"). rewrite str_drop_app.
  apply elem_of_cons in Hm as [->|Hm].
  - change ("" ++ c ++ t) with (c ++ t). rewrite no_kind by done. by apply hex_run_app; [apply Hc|].
  - unfold dask_names in Hm. assert (Hf : List.find (fun k => startswith k (m ++ c ++ t)) dask_names = Some m).
    { repeat (apply elem_of_cons in Hm as [->|Hm]; [clear; by destruct c, t|]). by apply elem_of_nil in Hm. }
    rewrite Hf, str_drop_app. by apply hex_run_app; [apply Hc|].
Qed.
(** A person's names have a person's prefix, and none that is shared. *)
Lemma session_prefix w : SESSION_POD w = true -> exists p, p ∈ USER_PREFIXES /\ startswith p w = true.
Proof.
  unfold SESSION_POD. rewrite !andb_true_iff, negb_true_iff, String.eqb_neq. intros [[[t ->]%startswith_iff Hne] Hd].
  change 10%nat with (String.length "purdue-af-") in *. rewrite str_drop_app in *. destruct t as [|d t]; [done|].
  cbn [str_forallb] in Hd. apply andb_true_iff in Hd as [Hd _]. exists ("purdue-af-" ++ String d ""). split.
  - unfold USER_PREFIXES. apply elem_of_app. left. apply list_elem_of_In, in_map_iff. exists (String d ""). split; [done|].
    apply list_elem_of_In. destruct d as [[] [] [] [] [] [] [] []]; try done; apply (bool_decide_unpack _); by vm_compute.
  - change (String d t) with (String d "" ++ t). rewrite <- str_app_assoc. apply startswith_app.
Qed.
Lemma dask_prefix c w : hex_name c -> dask_object c w -> exists p, p ∈ USER_PREFIXES /\ startswith p w = true.
Proof.
  intros [Hne Hc] (m & t & Hm & _ & ->). assert (Hhex : forall d x, hex_digit d = true -> exists p, p ∈ USER_PREFIXES /\ startswith p ("dask-" ++ String d x) = true).
  { intros d x Hd. exists ("dask-" ++ String d ""). split; [|change (String d x) with (String d "" ++ x); rewrite <- str_app_assoc; apply startswith_app].
    destruct d as [[] [] [] [] [] [] [] []]; try done; apply (bool_decide_unpack _); by vm_compute. }
  apply elem_of_cons in Hm as [->|Hm].
  - destruct c as [|d c]; [done|]. cbn [str_forallb] in Hc. apply andb_true_iff in Hc as [Hd _]. exact (Hhex d (c ++ t) Hd).
  - unfold dask_names in Hm. apply elem_of_cons in Hm as [->|Hm]; [|apply elem_of_cons in Hm as [->|Hm]].
    + exists "dask-scheduler-". split; [apply (bool_decide_unpack _); by vm_compute|]. apply (startswith_app "dask-scheduler-").
    + exists "dask-worker-". split; [apply (bool_decide_unpack _); by vm_compute|]. apply (startswith_app "dask-worker-").
    + apply list_elem_of_singleton in Hm as ->. exact (Hhex "c"%char ("redentials-" ++ c ++ t) eq_refl).
Qed.
Lemma rfold_keeps {A B Er} (I : A -> Prop) (f : A -> B -> res Er A) l acc r :
  (forall acc x acc', x ∈ l -> I acc -> f acc x = Ok acc' -> I acc') -> I acc -> rfold f acc l = Ok r -> I r.
Proof.
  revert acc. induction l as [|x l IH]; intros acc Hs Ha; [by intros [= <-]|]. cbn. destruct (f acc x) as [acc'|e] eqn:E; [|done].
  intros H. apply (IH acc'); [|by eapply Hs; [left| |]|exact H]. intros a y a' Hy. apply Hs. by right.
Qed.
(** The caller's names are those that their own series give. *)
Definition from_series (name : string) (l : list json) (o : Owned) : Prop :=
  username o = name /\
  (forall p, p ∈ pods o -> SESSION_POD p = true /\ exists s, s ∈ l /\ jget "pod" s = JStr p) /\
  (forall c, c ∈ dask_clusters o -> hex_name c /\ exists s, s ∈ l /\ jget "pod" s = JStr ("dask-scheduler-" ++ c)).
Lemma add_pod_from name l o s o' : s ∈ l -> from_series name l o -> add_pod o s = Ok o' -> from_series name l o'.
Proof.
  intros Hs (Hn & Hp & Hc). unfold add_pod. destruct (jget_or "pod" (JStr "") s) as [| | | |pod| |] eqn:E; try done.
  assert (Hpod : pod <> "" -> jget "pod" s = JStr pod).
  { intros Hne. destruct s as [| | | | | |d]; cbn in *; try (injection E as <-; done). destruct (dget "pod" d); cbn in *; [done|by injection E as <-]. }
  destruct (SESSION_POD pod) eqn:Ep.
  - intros [= <-]. split_and!; cbn; [done| |done]. intros p [->%elem_of_singleton|H]%elem_of_union; [|by apply Hp].
    split; [done|]. exists s. split; [done|]. apply Hpod. by intros ->.
  - unfold DASK_SCHEDULER. destruct (_ && _) eqn:Ed; [|by intros [= <-]]. apply andb_true_iff in Ed as [[Ed He]%andb_true_iff Hh].
    apply startswith_iff in Ed as [t ->]. rewrite (str_drop_app "dask-scheduler-" t : str_drop 15 _ = t) in *.
    intros [= <-]. split_and!; cbn; [done|done|]. intros c [->%elem_of_singleton|H]%elem_of_union; [|by apply Hc].
    split; [split; [by intros ->|done]|]. exists s. split; [done|]. by apply Hpod.
Qed.
(** The claims and volumes that series give, over what was there. *)
Definition claims_from (l : list json) (o o' : Owned) : Prop :=
  username o' = username o /\ pods o' = pods o /\ dask_clusters o' = dask_clusters o /\
  (forall n, n ∈ claims o' -> n ∈ claims o \/ exists s, s ∈ l /\ jget "persistentvolumeclaim" s = JStr n) /\
  (forall n, n ∈ volumes o' -> n ∈ volumes o \/ exists s, s ∈ l /\ jget "volume" s = JStr n).
Lemma added_spec value names names' n : added value names = Ok names' -> n ∈ names' -> n ∈ names \/ value = JStr n.
Proof.
  unfold added. destruct (negb (truthy value)); [intros [= <-]; by left|]. destruct value; try done.
  intros [= <-] [->%elem_of_singleton|Hn]%elem_of_union; [by right|by left].
Qed.
Lemma add_claims_from l o0 s o o' : s ∈ l -> claims_from l o0 o -> add_claims o s = Ok o' -> claims_from l o0 o'.
Proof.
  unfold add_claims, mbind, res_bind. intros Hs (Hu & Hp & Hd & Hc & Hv).
  destruct (added (jget "persistentvolumeclaim" s) _) as [cs|] eqn:E1; [|done]. destruct (added (jget "volume" s) _) as [vs|] eqn:E2; [|done].
  intros [= <-]. do 3 (split; [done|]). cbn. split.
  - intros n Hn. destruct (added_spec _ _ _ n E1 Hn) as [H|H]; [by apply Hc|right; by exists s].
  - intros n Hn. destruct (added_spec _ _ _ n E2 Hn) as [H|H]; [by apply Hv|right; by exists s].
Qed.
Lemma selected_objects o labels n : (forall n, one_line (labels n)) -> selected (matchers o) labels = true ->
  n ∈ OBJECT_LABELS -> visible_object o (labels n).
Proof.
  intros Hl. unfold selected, matchers. rewrite !forallb_app, !andb_true_iff, !forallb_of_map. cbn [m_name m_value]. rewrite !all_of.
  intros (_ & _ & H) Hn. apply match_objects; [done|]. by apply H.
Qed.
(** The series of an answer. *)
Definition answered (a : Resp + RequestExc) : list json :=
  match a with inl resp => jlist (match json_body resp with Some body => jget "data" body | None => JNull end) | inr _ => [] end.
Lemma selected_people o labels n : selected (matchers o) labels = true -> n ∈ ["username"; "user"] ->
  labels n = "" \/ labels n = "fake" \/ labels n = username o.
Proof.
  unfold selected, matchers. rewrite !forallb_app, !andb_true_iff, !forallb_of_map. cbn [m_name m_value]. rewrite !all_of.
  intros (_ & H & _) Hn. specialize (H n Hn). apply fullmatch_words in H as [H|H]; [by left|]. right. unfold people in H.
  apply list_elem_of_In, filter_In in H as [H _]. apply list_elem_of_In, elem_of_app in H as [H%list_elem_of_singleton|H%list_elem_of_singleton]; auto.
Qed.
(** A person's object, by its name: a session, an object of a Dask cluster, a claim or a
    volume, a RayJob, or a Ray cluster, but not the gateway's own. *)
Definition personal (w : string) : Prop :=
  SESSION_POD w = true \/ (exists c, hex_name c /\ dask_object c w) \/
  startswith "claim-" w = true \/ startswith "volume-" w = true \/ startswith "ray-job-" w = true \/
  startswith "ray-train-" w = true /\ startswith "ray-train-gateway" w = false.
Lemma personal_prefix w : personal w -> exists p, p ∈ USER_PREFIXES /\ startswith p w = true.
Proof.
  intros [H|[(c & Hc & H)|[H|[H|[H|[H _]]]]]]; [by apply session_prefix|by eapply dask_prefix|..]; eexists; (split; [|exact H]);
    apply (bool_decide_unpack _); by vm_compute.
Qed.
Lemma gateway_impersonal w : startswith "ray-train-gateway" w = true -> ~ personal w.
Proof.
  intros Hg [H|[(c & _ & m & t & _ & _ & H)|[H|[H|[H|[_ H]]]]]]; [|subst w; discriminate Hg| | | |congruence];
    apply startswith_iff in Hg as [t ->]; discriminate H.
Qed.
Lemma personal_selected o labels n : (forall n, one_line (labels n)) -> n ∈ OBJECT_LABELS -> selected (matchers o) labels = true ->
  personal (labels n) -> labels n ∈ pods o ∪ claims o ∪ volumes o \/ exists c, c ∈ dask_clusters o /\ dask_object c (labels n).
Proof.
  intros Hl Hn Hsel Hp. apply (selected_objects _ _ n) in Hsel as [H|[(p & ->%list_elem_of_singleton & H)|H]]; [| |done..].
  - destruct (personal_prefix _ Hp) as (p & Hin & Hs). by rewrite (H p Hin) in Hs.
  - by apply gateway_impersonal in H.
Qed.
(** The claims and volumes are those of the caller's pods, by an answer to a query for just
    these pods, which is asked if there are any. *)
Definition pvc_selector (p : pattern) : string :=
  "kube_pod_spec_volumes_persistentvolumeclaims_info{namespace=" ++ _quote "cms" ++ ",pod=~" ++ _quote (text_of p) ++ "}".
Definition claims_shown (start end_ : Q) (rest : list Ev) (o : Owned) : Prop :=
  (rest = [] /\ pods o = ∅ /\ claims o = ∅ /\ volumes o = ∅) \/
  exists p a, rest = [existT (Series [pvc_selector p] start end_) a] /\ (forall w, fullmatch p w = true <-> w ∈ pods o) /\
    (forall n, n ∈ claims o -> exists s, s ∈ answered a /\ jget "persistentvolumeclaim" s = JStr n) /\
    (forall n, n ∈ volumes o -> exists s, s ∈ answered a /\ jget "volume" s = JStr n).
Definition of_person (name : string) : list string := map (fun label => "{" ++ label ++ "=" ++ _quote name ++ "}") ["username"; "user"].
Lemma pods_pattern o : exists p, owned_pvcs o = pvc_selector p /\ forall w, fullmatch p w = true <-> w ∈ pods o.
Proof.
  exists (map literal_of (sorted_set (pods o))). split.
  - unfold owned_pvcs, pvc_selector, text_of. rewrite (map_map literal_of (fun alt => str_join "" (map item_text alt))).
    rewrite (map_ext (fun w => str_join "" (map item_text (literal_of w))) regex_escape); [reflexivity|].
    intros w. unfold regex_escape, literal_of. by rewrite map_map.
  - intros w. unfold fullmatch. rewrite existsb_of_map, existsb_exists. setoid_rewrite <- list_elem_of_In. setoid_rewrite sorted_set_elem. split.
    + intros (n & Hn & Hm). unfold literal_of in Hm. rewrite match_whole in Hm by apply literal_chars. by apply String.eqb_eq in Hm as ->.
    + intros Hn. exists w. split; [done|]. unfold literal_of. rewrite match_whole by apply literal_chars. apply String.eqb_refl.
Qed.
Lemma series_asked svc match_ start end_ h :
  wp (_series svc match_ start end_) tt h (fun r _ h' => exists a, h' = (h ++ [existT (Series match_ start end_) a])%list /\
    forall l, r = Ok l -> forall x, x ∈ l -> x ∈ answered a).
Proof.
  unfold _series. do 2 wp_step. set (a := svc h _). destruct a as [resp|e] eqn:Ea; [|apply wp_raise; by exists (inr e)].
  destruct (_ || _); [apply wp_raise; by exists (inl resp)|]. apply wp_ret. exists (inl resp). split; [done|]. intros l [= <-] x Hx.
  apply list_elem_of_In, filter_In in Hx as [Hx _]. by apply list_elem_of_In.
Qed.
Lemma nobody_from name l : from_series name l (nobody name).
Proof. by split_and!; [|intros ? ?%elem_of_empty..]. Qed.
Lemma resolve_shown svc name start end_ h :
  wp (resolve svc name start end_) tt h (fun r _ h' => exists t, h' = (h ++ t)%list /\ forall o, r = Ok o ->
    exists a rest, t = existT (Series (of_person name) start end_) a :: rest /\ from_series name (answered a) o /\ claims_shown start end_ rest o).
Proof.
  unfold resolve. change (of_caller name) with (of_person name). apply wp_bind. eapply wp_mono; [apply series_asked|].
  intros [l|e] [] h1 (a & -> & Hl); [|by eexists]. specialize (Hl l eq_refl). wp_step. wp_step.
  destruct (rfold add_pod (nobody name) l) as [o1|] eqn:E1; [|by eexists].
  assert (Hf : from_series name (answered a) o1).
  { eapply (rfold_keeps (from_series name (answered a))); [|apply nobody_from|exact E1].
    intros acc x acc' Hx Hacc. apply add_pod_from; [|done]. by apply Hl. }
  assert (H0 : claims o1 = ∅ /\ volumes o1 = ∅).
  { refine (rfold_keeps (fun o => claims o = ∅ /\ volumes o = ∅) add_pod l (nobody name) o1 _ (conj eq_refl eq_refl) E1). clear. intros acc x acc' _ H. unfold add_pod.
    destruct (jget_or _ _ _); try done. destruct (SESSION_POD _); [by intros [= <-]|]. destruct (DASK_SCHEDULER _); by intros [= <-]. }
  destruct H0 as [Hc Hv]. case_bool_decide as Hp.
  - apply wp_ret. eexists. split; [done|]. intros o [= <-]. exists a, []. split; [done|]. split; [done|]. by left.
  - apply wp_bind. eapply wp_mono; [apply series_asked|]. intros [l2|e] [] h2 (a2 & -> & Hl2); [|eexists; by rewrite <- app_assoc].
    specialize (Hl2 l2 eq_refl). wp_step. eexists. split; [by rewrite <- app_assoc|]. intros o Ho.
    assert (Hcl : claims_from (answered a2) o1 o).
    { eapply (rfold_keeps (claims_from (answered a2) o1)); [|by split_and!; auto|exact Ho]. intros acc x acc' Hx. apply add_claims_from. by apply Hl2. }
    destruct Hcl as (Hu & Hpo & Hd & Hcs & Hvs). eexists a, _. split; [done|]. split.
    { unfold from_series. by rewrite Hu, Hpo, Hd. }
    right. destruct (pods_pattern o1) as (p & E & Hpat). exists p, a2. rewrite E. split; [done|]. rewrite Hpo. split; [done|]. split.
    + intros n Hn. destruct (Hcs n Hn) as [H|H]; [rewrite Hc in H; by apply elem_of_empty in H|exact H].
    + intros n Hn. destruct (Hvs n Hn) as [H|H]; [rewrite Hv in H; by apply elem_of_empty in H|exact H].
Qed.
Lemma resolve_from svc name start end_ h :
  wp (resolve svc name start end_) tt h (fun r _ h' => exists t, h' = (h ++ t)%list /\ forall o, r = Ok o ->
    exists a t', t = existT (Series (of_caller name) start end_) a :: t' /\ from_series name (answered a) o).
Proof.
  eapply wp_mono; [apply resolve_shown|]. intros r [] h' (t & -> & H). exists t. split; [done|]. intros o Ho.
  destruct (H o Ho) as (a & rest & -> & Hf & _). by exists a, rest.
Qed.
Lemma scope_asks svc query owned h :
  wp (scope svc query owned) tt h (fun r _ h' => exists out, h' = (h ++ [existT (RunScope query (matchers owned)) out])%list /\ forall text, r = Ok text ->
    exists answer, out = Output (Some (JObj answer)) /\ truthy (jget "error" (JObj answer)) = false /\ text = str_of (jget "query" (JObj answer))).
Proof.
  unfold scope. do 2 wp_step. generalize (svc h (RunScope query (matchers owned))). intros out. cbn [Ans] in out.
  destruct out as [[[| | | | | |answer]|]|]; try (apply wp_raise; eexists; split; [done|done]). cbv zeta.
  destruct (truthy (jget "error" _)) eqn:E; [apply wp_raise; eexists; split; [done|done]|].
  destruct (jhas _ _); [|apply wp_raise; eexists; split; [done|done]]. apply wp_ret. eexists. split; [done|]. intros text [= <-]. by exists answer.
Qed.
(** C7: nobody sees what is another person's. What counts as a caller's own is what
    Prometheus shows as theirs: the session pods and the Dask schedulers of the series under
    their own name, and the claims and volumes of a query for just these pods, which is asked
    if there are any. With the matchers made of it, a series is selected, whatever the query,
    only if each of its labels for a person is empty, shared or the caller's name, and each of
    its labels for an object that names a person's, a session, an object of a Dask cluster, a
    claim, a volume, a RayJob or a person's Ray cluster, names one that is the caller's own. *)
Theorem others_hidden svc name start end_ h :
  wp (resolve svc name start end_) tt h (fun r _ h' => forall o, r = Ok o ->
    (exists a rest, h' = h ++ existT (Series (of_person name) start end_) a :: rest /\ from_series name (answered a) o /\ claims_shown start end_ rest o) /\
    (forall labels, (forall n, one_line (labels n)) -> selected (matchers o) labels = true ->
      (forall n, n ∈ ["username"; "user"] -> labels n = "" \/ labels n = "fake" \/ labels n = name) /\
      (forall n, n ∈ OBJECT_LABELS -> personal (labels n) ->
         labels n ∈ pods o ∪ claims o ∪ volumes o \/ exists c, c ∈ dask_clusters o /\ dask_object c (labels n))))%list.
Proof.
  eapply wp_mono; [apply resolve_shown|]. intros r [] h' (t & -> & H) o Ho. destruct (H o Ho) as (a & rest & -> & Hf & Hc).
  split; [by exists a, rest|]. intros labels Hl Hsel. split; [|intros n Hn; by apply personal_selected].
  intros n Hn. destruct Hf as [<- _]. by apply selected_people.
Qed.
Definition alice : Owned := mkOwned "alice" {[ "purdue-af-7" ]} {[ "0a1b2c" ]} {[ "claim-alice" ]} {[ "volume-alice" ]}.
Definition labels_of (l : list (string * string)) (n : string) : string := dget_or n "" l.
Definition mine : list (string * string) := [("pod", "dask-worker-0a1b2c-17"); ("namespace", "cms"); ("username", "alice")].
Lemma scope_exact_witness : selected (matchers alice) (labels_of mine) = true /\ visible_object alice (labels_of mine "pod") /\
  selected (matchers alice) (labels_of [("pod", "dask-worker-ffff-1")]) = false.
Proof.
  assert (Hone : forall n, one_line (labels_of mine n)).
  { intros n. unfold labels_of, dget_or. destruct (dget n mine) as [v|] eqn:E; [|reflexivity].
    assert (H : forallb (fun kv => str_forallb dot_char kv.2) mine = true) by reflexivity.
    apply dget_elem, list_elem_of_In in E. rewrite forallb_forall in H. exact (H _ E). }
  split; [vm_compute; reflexivity|]. split; [|vm_compute; reflexivity].
  assert (Hs : selected (matchers alice) (labels_of mine) = true) by (vm_compute; reflexivity).
  apply (proj1 (scope_exact alice (labels_of mine) Hone) Hs). apply (bool_decide_unpack _). vm_compute. exact I.
Defined.
