(* ===== verification/AgAuth.v ===== *)
(** Who calls the agentic interface: the check of a token with the Hub and its caches,
    [docker/agentic-interface/auth.py], and the middleware of [server.py] that lets a
    request through to the tools, with whom it is of. Texts of headers are ASCII. *)
From S2P Require Import Prelude PyJson PyText PyValue Sha256 AgErrors.
Open Scope Z_scope.

Record User := mkUser { u_name : string; u_token : string }.
Definition _CACHE_TTL : Q := 60.
Definition _NEG_CACHE_TTL : Q := 5.
Definition _hash_token : string -> string := sha256_hex.

(** ** [resolve_user] *)

(** What was put in a cache, and when: the [TTLCache] of [cachetools] holds some of it,
    [get puts now key]. *)
Definition Puts (A : Type) : Type := list (Q * string * A).
Record Caches := mkCaches { user_puts : Puts User; negative_puts : Puts unit }.
#[export] Instance eta_caches : Eta Caches := {| eta_of := fun c => mkCaches (user_puts c) (negative_puts c) |}.
(** [Ask]: neither cache knows the token; or [Known], what one of them says. *)
Inductive Looked := Ask | Known (user : option User).
(** The user, none for a token that the Hub rejected; or [HubUnavailable]. *)
Inductive Resolved := Resolves (user : option User) | HubUnavailable (detail : string).

Section Resolve.
Context (user_get : Puts User -> Q -> string -> option User) (negative_get : Puts unit -> Q -> string -> option unit) (hub_api_url : string).
(** Up to the request, and from its answer on: in between others run. *)
Definition resolve_enter (c : Caches) (now : Q) (token : string) : Looked :=
  let key := _hash_token token in
  match user_get (user_puts c) now key with
  | Some cached => Known (Some cached)
  | None => match negative_get (negative_puts c) now key with Some _ => Known None | None => Ask end
  end.
Definition username_in (data : option json) : option string :=
  match data with
  | Some data => match jget "name" data with JStr username => if String.eqb username "" then None else Some username | _ => None end
  | None => None
  end.
Definition resolve_leave (c : Caches) (now : Q) (token : string) (reply : Resp + RequestExc) : Resolved * Caches :=
  let key := _hash_token token in
  match reply with
  | inr exc => (HubUnavailable ("JupyterHub API unreachable — " ++ describe_exception exc), c)
  | inl resp =>
      let code := status_code resp in
      if (code =? 401) || (code =? 403) then (Resolves None, c <| negative_puts := (now, key, tt) :: negative_puts c |>)
      else if negb (code =? 200) then
        let detail := response_detail resp 120 in
        let problem := ("JupyterHub API returned HTTP " ++ pretty code)%string in
        let problem := if code =? 404 then (problem ++ " for " ++ hub_api_url ++ "/user (JUPYTERHUB_API_URL misconfigured?)")%string else problem in
        (HubUnavailable (if String.eqb detail "" then problem else (problem ++ " — " ++ detail)%string), c)
      else
        match username_in (json_body resp) with
        | None => (HubUnavailable "JupyterHub API returned HTTP 200 but no user record for the token", c)
        | Some username =>
            let user := mkUser username token in
            (Resolves (Some user), c <| user_puts := (now, key, user) :: user_puts c |>)
        end
  end.
End Resolve.

(** ** The middleware *)

(** [_PLACEHOLDER_RE.match], whose letters are of either case, of a text without blanks
    around it. *)
Definition is_letter_ (c : ascii) : bool := is_lower (chr_lower c) || Ascii.eqb c "_".
Definition is_word (s : string) : bool :=
  match s with EmptyString => false | String c s' => is_letter_ c && str_forallb (fun c => is_letter_ c || is_digit c) s' end.
(** An optional first character, an optional prefix. *)
Definition drop_char (p : ascii -> bool) (s : string) : string := match s with String c s' => if p c then s' else s | EmptyString => s end.
Definition mark_ (c : ascii) : bool := Ascii.eqb c "_" || Ascii.eqb c "-".
Definition your_token (s : string) : bool :=
  let ending s := startswith "token" s && (let r := str_drop 5 s in String.eqb r "" || String.eqb (drop_char mark_ r) "here") in
  startswith "your" s &&
  (let r := drop_char mark_ (str_drop 4 s) in ending r || (startswith "api" r && ending (drop_char mark_ (str_drop 3 r)))).
Definition _PLACEHOLDER_RE (token : string) : bool :=
  match token with
  | EmptyString => false
  | String c s =>
      (Ascii.eqb c "$" && is_word (let s := drop_char (fun c => Ascii.eqb c "{") s in removesuffix "}" s))
      || (Ascii.eqb c "%" && endswith "%" s && is_word (removesuffix "%" s))
      || (Ascii.eqb c "<" && endswith ">" s && str_forallb (fun c => negb (Ascii.eqb c ">")) (removesuffix ">" s))
  end || your_token (str_lower token) || String.eqb token "...".
Example placeholders :
  map _PLACEHOLDER_RE ["$TOKEN"; "${JUPYTERHUB_API_TOKEN}"; "$"; "$1A"; "%af_token%"; "%%"; "<your token>"; "<a>b>"; "YOUR_API_TOKEN_HERE"; "your-token"; "yourtokenher"; "YOUR_API"; "..."; "0a1b2c"]%string
  = [true; true; false; false; true; false; true; false; true; true; false; false; true; false].
Proof. reflexivity. Qed.

Inductive Route := Health | MetricsRoute | Mcp | Other.
(** What a request ends in before its token is looked up, if it does; why it is refused,
    whether as a credential that cannot be used. *)
Inductive Refusal := MissingToken | UnsupportedScheme (scheme : string) | EmptyToken | Placeholder (token : string) | InvalidToken.
Inductive Answer := Public (route : Route) | NotFound | Reject (why : Refusal) (invalid : bool) | Unavailable (detail : string) | Called (user : User).
Definition _route_for (prefix path : string) : Route :=
  if String.eqb path "/health" || String.eqb path (prefix ++ "/health") then Health
  else if String.eqb path "/metrics" then MetricsRoute
  else if startswith (prefix ++ "/mcp") path then Mcp else Other.
Definition _token_problem (token : string) : option Refusal :=
  if String.eqb token "" then Some EmptyToken else if _PLACEHOLDER_RE token then Some (Placeholder token) else None.
(** The last header of the name. *)
Definition authorization (headers : list (string * string)) : string :=
  str_strip (dget_or "authorization" ""%string (foldl (fun d kv => dset (str_lower kv.1) kv.2 d) [] headers)).
(** Either an answer, or the token to look up. *)
Definition credential (headers : list (string * string)) : Answer + string :=
  let auth := authorization headers in
  if String.eqb auth "" then inl (Reject MissingToken false) else
  let '(scheme, rest) := str_partition " " auth in
  let token := str_strip (default ""%string rest) in
  if negb (String.eqb (str_lower scheme) "bearer") then inl (Reject (UnsupportedScheme scheme) false) else
  match _token_problem token with
  | Some problem => inl (Reject problem true)
  | None => inr token
  end.
Definition dispatch_enter (prefix path : string) (headers : list (string * string)) : Answer + string :=
  match _route_for prefix path with
  | Health => inl (Public Health) | MetricsRoute => inl (Public MetricsRoute) | Other => inl NotFound
  | Mcp => credential headers
  end.
Definition dispatch_leave (resolved : Resolved) : Answer :=
  match resolved with
  | HubUnavailable detail => Unavailable detail
  | Resolves None => Reject InvalidToken true
  | Resolves (Some user) => Called user
  end.
(** The status of an answer, and of the challenge whether it says that the token is invalid;
    the tools answer for themselves. *)
Definition status_of (a : Answer) : option Z :=
  match a with Public _ => Some 200 | NotFound => Some 404 | Reject _ _ => Some 401 | Unavailable _ => Some 503 | Called _ => None end.
Example credentials :
  map credential [[]; [("Authorization", "token abc")]; [("AUTHORIZATION", " Bearer   abc ")]; [("Authorization", "bearer")]; [("authorization", "Bearer $TOKEN")]]%string
  = [inl (Reject MissingToken false); inl (Reject (UnsupportedScheme "token") false); inr "abc"; inl (Reject EmptyToken true); inl (Reject (Placeholder "$TOKEN") true)]%string.
Proof. reflexivity. Qed.

(** ** Requests at the same time *)

Record Arrival := mkArrival { path : string; headers : list (string * string) }.
(** The caches, the time, the requests that wait for the Hub with their tokens; and, for
    what is said below, what the Hub replied of which token and what each request got. *)
Record Sys := mkSys { caches : Caches; now : Q; asking : list (Arrival * string);
  replies : list (Q * string * (Resp + RequestExc)); answers : list (Q * Arrival * Answer) }.
Section System.
Context (user_get : Puts User -> Q -> string -> option User) (negative_get : Puts unit -> Q -> string -> option unit) (hub_api_url prefix : string).
(** What [cachetools] documents: a cache gives only what was put under the key, and no more
    once its time is over. *)
Definition within {A} (get : Puts A -> Q -> string -> option A) (ttl : Q) : Prop :=
  forall puts now key a, get puts now key = Some a -> exists t, (t, key, a) ∈ puts /\ (now < t + ttl)%Q.
Hypothesis users_within : within user_get _CACHE_TTL.
Hypothesis negatives_within : within negative_get _NEG_CACHE_TTL.
Definition sys0 : Sys := mkSys (mkCaches [] []) 0 [] [] [].
Inductive step : Sys -> Sys -> Prop :=
| s_time s t : (now s <= t)%Q -> step s (mkSys (caches s) t (asking s) (replies s) (answers s))
| s_answered s r a : dispatch_enter prefix (path r) (headers r) = inl a ->
    step s (mkSys (caches s) (now s) (asking s) (replies s) ((now s, r, a) :: answers s))
| s_known s r token user : dispatch_enter prefix (path r) (headers r) = inr token ->
    resolve_enter user_get negative_get (caches s) (now s) token = Known user ->
    step s (mkSys (caches s) (now s) (asking s) (replies s) ((now s, r, dispatch_leave (Resolves user)) :: answers s))
| s_asks s r token : dispatch_enter prefix (path r) (headers r) = inr token ->
    resolve_enter user_get negative_get (caches s) (now s) token = Ask ->
    step s (mkSys (caches s) (now s) ((r, token) :: asking s) (replies s) (answers s))
| s_reply s l1 r token l2 reply resolved caches' : asking s = (l1 ++ (r, token) :: l2)%list ->
    resolve_leave hub_api_url (caches s) (now s) token reply = (resolved, caches') ->
    step s (mkSys caches' (now s) (l1 ++ l2)%list ((now s, token, reply) :: replies s) ((now s, r, dispatch_leave resolved) :: answers s)).

(** The Hub said at [t] that a token is of a user, or that it is none. *)
Definition hub_named (l : list (Q * string * (Resp + RequestExc))) (t : Q) (token name : string) : Prop :=
  exists resp, (t, token, inl resp) ∈ l /\ status_code resp = 200 /\ username_in (json_body resp) = Some name.
Definition hub_rejected (l : list (Q * string * (Resp + RequestExc))) (t : Q) (token : string) : Prop :=
  exists resp, (t, token, inl resp) ∈ l /\ (status_code resp = 401 \/ status_code resp = 403).
(** What an answer at [t] to a request rests on. *)
Definition rests_on (l : list (Q * string * (Resp + RequestExc))) (t : Q) (r : Arrival) (a : Answer) : Prop :=
  match a with
  | Called user => _route_for prefix (path r) = Mcp /\ exists token t0, credential (headers r) = inr token /\
      _hash_token (u_token user) = _hash_token token /\ hub_named l t0 (u_token user) (u_name user) /\ (t0 <= t)%Q /\ (t < t0 + _CACHE_TTL)%Q
  | Reject InvalidToken _ => exists token token' t0, credential (headers r) = inr token /\
      _hash_token token' = _hash_token token /\ hub_rejected l t0 token' /\ (t0 <= t)%Q /\ (t < t0 + _NEG_CACHE_TTL)%Q
  | Unavailable _ => exists token reply, credential (headers r) = inr token /\ (t, token, reply) ∈ l /\
      forall resp, reply = inl resp -> status_code resp <> 401 /\ status_code resp <> 403 /\ (status_code resp = 200 -> username_in (json_body resp) = None)
  | Public Health => _route_for prefix (path r) = Health
  | Public _ => _route_for prefix (path r) = MetricsRoute
  | NotFound => _route_for prefix (path r) = Other
  | Reject _ _ => credential (headers r) = inl a
  end.
Record Inv (s : Sys) : Prop := {
  i_users : forall t key user, (t, key, user) ∈ user_puts (caches s) -> key = _hash_token (u_token user) /\ hub_named (replies s) t (u_token user) (u_name user) /\ (t <= now s)%Q;
  i_negatives : forall t key u, (t, key, u) ∈ negative_puts (caches s) -> exists token, key = _hash_token token /\ hub_rejected (replies s) t token /\ (t <= now s)%Q;
  i_asking : forall r token, (r, token) ∈ asking s -> dispatch_enter prefix (path r) (headers r) = inr token;
  i_answers : forall t r a, (t, r, a) ∈ answers s -> rests_on (replies s) t r a }.

(** *** Lemmas *)
Lemma enter_token r token : dispatch_enter prefix (path r) (headers r) = inr token ->
  _route_for prefix (path r) = Mcp /\ credential (headers r) = inr token.
Proof. unfold dispatch_enter. by destruct (_route_for prefix (path r)). Qed.
Lemma hub_named_more l e t token name : hub_named l t token name -> hub_named (e :: l) t token name.
Proof. intros (resp & H & ?). exists resp. split; [by right|done]. Qed.
Lemma hub_rejected_more l e t token : hub_rejected l t token -> hub_rejected (e :: l) t token.
Proof. intros (resp & H & ?). exists resp. split; [by right|done]. Qed.
Lemma rests_more l e t r a : rests_on l t r a -> rests_on (e :: l) t r a.
Proof.
  destruct a as [[]| |[]?| |]; cbn; try done.
  - intros (tk & tk' & t0 & ? & ? & ? & ?). exists tk, tk', t0. eauto using hub_rejected_more.
  - intros (tk & reply & ? & ? & ?). exists tk, reply. split; [done|]. split; [by right|done].
  - intros (? & tk & t0 & ? & ? & ? & ?). split; [done|]. exists tk, t0. eauto using hub_named_more.
Qed.
Lemma answered_rests l t r a : dispatch_enter prefix (path r) (headers r) = inl a -> rests_on l t r a.
Proof.
  unfold dispatch_enter. destruct (_route_for prefix (path r)) eqn:Hr; try (by intros [= <-]).
  unfold credential at 1. cbv zeta. intros H. destruct (String.eqb (authorization (headers r)) "") eqn:E; [injection H as <-; cbn; unfold credential; by rewrite E|].
  destruct (str_partition " " _) as [scheme rest] eqn:Ep. destruct (negb _) eqn:Es; [injection H as <-; cbn; unfold credential; by rewrite E, Ep, Es|].
  destruct (_token_problem _) as [p|] eqn:Et; [|done]. injection H as <-.
  assert (credential (headers r) = inl (Reject p true)) as Hc by (unfold credential; by rewrite E, Ep, Es, Et).
  unfold _token_problem in Et. repeat case_match; simplify_eq; exact Hc.
Qed.
(** What a cache knows rests on the Hub. *)
Lemma known_rests s r token user : Inv s -> dispatch_enter prefix (path r) (headers r) = inr token ->
  resolve_enter user_get negative_get (caches s) (now s) token = Known user ->
  rests_on (replies s) (now s) r (dispatch_leave (Resolves user)).
Proof.
  intros I [Hr Hc]%enter_token. unfold resolve_enter.
  destruct (user_get _ _ _) as [u|] eqn:Eu.
  - intros [= <-]. apply users_within in Eu as (t0 & Hin & Ht). apply (i_users _ I) in Hin as (Hk & Hn & Hle).
    split; [done|]. exists token, t0. repeat split; try done.
  - destruct (negative_get _ _ _) as [u|] eqn:En; [|done]. intros [= <-].
    apply negatives_within in En as (t0 & Hin & Ht). apply (i_negatives _ I) in Hin as (tk & Hk & Hn & Hle).
    exists token, tk, t0. repeat split; done.
Qed.
Lemma resolve_leave_spec c t token reply resolved c' : resolve_leave hub_api_url c t token reply = (resolved, c') ->
  (exists user, resolved = Resolves (Some user) /\ u_token user = token /\ hub_named [(t, token, reply)] t token (u_name user) /\
     c' = c <| user_puts := (t, _hash_token token, user) :: user_puts c |>) \/
  (resolved = Resolves None /\ hub_rejected [(t, token, reply)] t token /\ c' = c <| negative_puts := (t, _hash_token token, tt) :: negative_puts c |>) \/
  (exists detail, resolved = HubUnavailable detail /\ c' = c /\
     forall resp, reply = inl resp -> status_code resp <> 401 /\ status_code resp <> 403 /\ (status_code resp = 200 -> username_in (json_body resp) = None)).
Proof.
  unfold resolve_leave. destruct reply as [resp|exc]; [|intros [= <- <-]; right; right; eexists; split; [done|]; split; [done|]; by intros].
  destruct (Z.eqb_spec (status_code resp) 401) as [E1|E1], (Z.eqb_spec (status_code resp) 403) as [E2|E2]; cbn [orb].
  1-3: intros [= <- <-]; right; left; split; [done|]; split; [|done]; exists resp; split; [by apply list_elem_of_singleton|auto].
  destruct (Z.eqb_spec (status_code resp) 200) as [E3|E3]; cbn [negb].
  - destruct (username_in (json_body resp)) as [name|] eqn:En; intros [= <- <-].
    + left. exists (mkUser name token). split; [done|]. split; [done|]. split; [|done]. exists resp. split; [by apply list_elem_of_singleton|auto].
    + right. right. eexists. split; [done|]. split; [done|]. by intros ? [= <-].
  - intros [= <- <-]. right. right. eexists. split; [done|]. split; [done|]. by intros ? [= <-].
Qed.
Lemma hub_named_in l e t token name : hub_named [e] t token name -> hub_named (e :: l) t token name.
Proof. intros (resp & H%list_elem_of_singleton & ?). exists resp. rewrite H. split; [left|done]. Qed.
Lemma hub_rejected_in l e t token : hub_rejected [e] t token -> hub_rejected (e :: l) t token.
Proof. intros (resp & H%list_elem_of_singleton & ?). exists resp. rewrite H. split; [left|done]. Qed.
Lemma ttl_after (t d : Q) : (0 < d)%Q -> (t < t + d)%Q.
Proof. intros H. rewrite <- (Qplus_0_r t) at 1. by apply Qplus_lt_r. Qed.
(** What the reply to a request leaves is in order, and what the request gets rests on it. *)
Lemma reply_rests s r token reply resolved caches' : Inv s -> dispatch_enter prefix (path r) (headers r) = inr token ->
  resolve_leave hub_api_url (caches s) (now s) token reply = (resolved, caches') ->
  rests_on ((now s, token, reply) :: replies s) (now s) r (dispatch_leave resolved).
Proof.
  intros I [Hr Hc]%enter_token [(user & -> & Ht & Hn & _)|[(-> & Hn & _)|(detail & -> & _ & Hu)]]%resolve_leave_spec; cbn [dispatch_leave rests_on].
  - split; [done|]. exists token, (now s). subst token. split; [done|]. split; [done|]. split; [by apply hub_named_in|]. split; [apply Qle_refl|by apply ttl_after].
  - exists token, token, (now s). split; [done|]. split; [done|]. split; [by apply hub_rejected_in|]. split; [apply Qle_refl|by apply ttl_after].
  - exists token, reply. split; [done|]. split; [left|exact Hu].
Qed.
Lemma reply_caches s token reply resolved caches' : Inv s ->
  resolve_leave hub_api_url (caches s) (now s) token reply = (resolved, caches') ->
  (forall t key user, (t, key, user) ∈ user_puts caches' -> key = _hash_token (u_token user) /\ hub_named ((now s, token, reply) :: replies s) t (u_token user) (u_name user) /\ (t <= now s)%Q) /\
  (forall t key u, (t, key, u) ∈ negative_puts caches' -> exists token', key = _hash_token token' /\ hub_rejected ((now s, token, reply) :: replies s) t token' /\ (t <= now s)%Q).
Proof.
  intros I [(user & -> & <- & Hn & ->)|[(-> & Hn & ->)|(detail & -> & -> & Hu)]]%resolve_leave_spec; (split; [intros t key u Hin|intros t key u Hin]).
  1: apply elem_of_cons in Hin as [[= -> -> ->]|Hin]; [split; [done|]; split; [by apply hub_named_in|apply Qle_refl]|].
  4: apply elem_of_cons in Hin as [[= -> -> ->]|Hin]; [exists token; split; [done|]; split; [by apply hub_rejected_in|apply Qle_refl]|].
  1,3,5: apply (i_users _ I) in Hin as (? & ? & ?); eauto using hub_named_more.
  all: apply (i_negatives _ I) in Hin as (tk & ? & ? & ?); exists tk; eauto using hub_rejected_more.
Qed.
Lemma step_inv s s' : step s s' -> Inv s -> Inv s'.
Proof.
  intros Hs I. destruct Hs as [s t Ht|s r a Ha|s r token user He Hk|s r token He Hk|s l1 r token l2 reply resolved caches' Ha Hl]; constructor; cbn [caches now asking replies answers];
    try (by apply I).
  - intros t0 key user (? & ? & ?)%(i_users _ I). split; [done|]. split; [done|]. by eapply Qle_trans.
  - intros t0 key u (tk & ? & ? & ?)%(i_negatives _ I). exists tk. split; [done|]. split; [done|]. by eapply Qle_trans.
  - intros t r' a' [[= -> -> ->]|Hin]%elem_of_cons; [by apply answered_rests|by apply I].
  - intros t r' a' [[= -> -> ->]|Hin]%elem_of_cons; [by eapply known_rests|by apply I].
  - intros r' token' [[= -> ->]|Hin]%elem_of_cons; [done|by apply I].
  - by eapply reply_caches.
  - by eapply reply_caches.
  - intros r' token' Hin. apply (i_asking _ I). rewrite Ha. set_solver.
  - intros t r' a' [[= -> -> ->]|Hin]%elem_of_cons; [|by apply rests_more, I].
    eapply reply_rests; [done| |done]. apply (i_asking _ I). rewrite Ha. set_solver.
Qed.
Lemma inv0 : Inv sys0.
Proof. by constructor; cbn; intros *; intros H; apply elem_of_nil in H. Qed.
Lemma reachable_inv s : rtc step sys0 s -> Inv s.
Proof. assert (forall a b, rtc step a b -> Inv a -> Inv b) as H by (induction 1; eauto using step_inv). intros Hr. eapply H; [done|apply inv0]. Qed.

(** *** Theorem *)

(** C8: The tools are called for whom the Hub vouched: however requests interleave, with one
    another and with the caches forgetting, a request reaches the tools only on the
    endpoint, with a Bearer token, and as the user whom the Hub named, at most a minute
    before, for a token of the same hash; it is told that its token is invalid only if the
    Hub rejected one of that hash in the last five seconds; and that the Hub does not
    answer only if what it replied was no verdict. *)
Theorem called_as_vouched s t r a : rtc step sys0 s -> (t, r, a) ∈ answers s -> rests_on (replies s) t r a.
Proof. intros Hs Hin. by apply (i_answers _ (reachable_inv s Hs)). Qed.
End System.
(** A cache that forgets nothing before its time. *)
Fixpoint holds {A} (ttl : Q) (puts : Puts A) (now : Q) (key : string) : option A :=
  match puts with
  | [] => None
  | (t, k, a) :: puts => if String.eqb k key && (now <?q t + ttl)%Q then Some a else holds ttl puts now key
  end.
Lemma holds_within {A} ttl : within (@holds A ttl) ttl.
Proof.
  intros puts now key a. induction puts as [|[[t k] b] puts IH]; [done|]. cbn [holds].
  destruct (String.eqb_spec k key) as [->|]; cbn [andb].
  - destruct (_ <?q _) eqn:E; [intros [= <-]; exists t; split; [left|by apply qlt_true]|]. intros (t' & ? & ?)%IH. exists t'. split; [by right|done].
  - intros (t' & ? & ?)%IH. exists t'. split; [by right|done].
Qed.
Definition call_ada : Arrival := mkArrival "/x/mcp" [("Authorization", "Bearer abc")]%string.
Definition hub_ada : Resp + RequestExc := inl (mkResp 200 (Some ""%string) (Some (JObj [("name", JStr "ada")])))%string.
Definition ada : User := mkUser "ada" "abc".
Definition after_two : Sys :=
  mkSys (mkCaches [(0%Q, _hash_token "abc", ada)] []) 30 [] [(0%Q, "abc"%string, hub_ada)] [(30%Q, call_ada, Called ada); (0%Q, call_ada, Called ada)].
Lemma called_as_vouched_witness :
  rtc (step (holds _CACHE_TTL) (holds _NEG_CACHE_TTL) "hub" "/x") sys0 after_two /\
  rests_on "/x" (replies after_two) 30 call_ada (Called ada).
Proof.
  assert (Hs : rtc (step (holds _CACHE_TTL) (holds _NEG_CACHE_TTL) "hub" "/x") sys0 after_two).
  { eapply rtc_l; [eapply (s_asks _ _ _ _ sys0 call_ada "abc"); [reflexivity|vm_compute; reflexivity]|].
    eapply rtc_l; [eapply (s_reply _ _ _ _ _ [] call_ada "abc" [] hub_ada); reflexivity|].
    eapply rtc_l; [apply (s_time _ _ _ _ _ 30); cbn; discriminate|].
    eapply rtc_l; [eapply (s_known _ _ _ _ _ call_ada "abc" (Some ada)); [reflexivity|vm_compute; reflexivity]|]. apply rtc_refl. }
  split; [exact Hs|].
  apply (called_as_vouched _ _ "hub" "/x" (holds_within _) (holds_within _) after_two 30 call_ada (Called ada) Hs). left.
Defined.
