(* ===== verification/AgTools.v ===== *)
(** What the tools of the agentic interface share: where the backends are
    ([docker/agentic-interface/config.py]), queries of Prometheus and quoting
    ([shared.py]), questions to the user ([tools/elicitation.py]) and the free GPUs
    ([tools/gpu.py]). *)
From S2P Require Import Prelude PyJson PyText PyTime PyFloat PyValue PyFormat GpuQueries AgErrors AgAuth.
Open Scope Z_scope.

(** ** Configuration *)

Record Config := mkConfig { SERVICE_PREFIX : string; NAMESPACE : string; HUB_API_URL : string; PUBLIC_URL : string; TOKEN_URL : string;
  PROMETHEUS_URL : string; CLUSTER_PROMETHEUS_URL : string; LOKI_URL : string; DASK_GATEWAY_URL : string; RAY_GATEWAY_URL : string;
  GLOBAL_PIXI_PROJECT : string; DASHBOARD_PATH : string; SKILL_PATH : string; STATELESS_HTTP : bool }.
Definition PROMETHEUS_NAME : string := "Prometheus".
Definition CLUSTER_PROMETHEUS_NAME : string := "the monitoring system".
Definition rstrip_slashes (s : string) : string := str_rstrip (fun c => Ascii.eqb c "/") s.
(** What the environment makes of the configuration. *)
Definition config (env : string -> option string) : Config :=
  let get name d := default d (env name) in
  let public := rstrip_slashes (get "AF_PUBLIC_URL" "https://cms.geddes.rcac.purdue.edu")%string in
  mkConfig (rstrip_slashes (get "JUPYTERHUB_SERVICE_PREFIX" "/services/agentic-interface")) (get "NAMESPACE" "cms")
    (get "JUPYTERHUB_API_URL" "http://hub:8081/hub/api") public (public ++ "/hub/token")
    (get "PROMETHEUS_URL" "http://prometheus-server:9090")
    (get "CLUSTER_PROMETHEUS_URL" "http://rancher-monitoring-prometheus.cattle-monitoring-system.svc.cluster.local:9090")
    (get "LOKI_URL" "http://loki.cms.svc.cluster.local:3100") (get "DASK_GATEWAY_URL" "http://api-dask-gateway.cms.svc.cluster.local:8000")
    (get "RAY_GATEWAY_URL" "http://ray-train-gateway.cms.svc.cluster.local:8265") (get "DASK_GLOBAL_PIXI_PROJECT" "/work/pixi/global")
    (get "DASHBOARD_PATH" "/dashboards/default.json") (get "SKILL_PATH" "/app/SKILL.md")
    (bool_decide (str_lower (get "MCP_STATELESS_HTTP" "true") ∈ ["1"; "true"; "yes"]))%string.

(** ** Requests *)

(** A call of an HTTP API: of which backend's client, with which credentials, and what is
    sent along. *)
Record Call := mkCall { c_client : string; c_method : string; c_url : string; c_authorization : string;
  c_headers : list (string * string); c_params : list (string * string); c_json : option json; c_content : option string; c_timeout : Q }.
(** A form: its fields by name, each a text, a text for which choices are shown with their
    labels, a number above 0, or an integer from 0 on. *)
Inductive FieldType := TextField | ChoiceField (description : string) (choices : list (string * string)) (dflt : string) | Positive | Natural.
Record Schema := mkSchema { sc_name : string; sc_fields : list (string * FieldType) }.
Definition field_valid (data : list (string * json)) (field : string * FieldType) : bool :=
  match dget field.1 data, field.2 with
  | Some (JStr _), TextField | Some (JStr _), ChoiceField _ _ _ | None, ChoiceField _ _ _ => true
  | Some (JFloat q), Positive => 0 <?q q
  | Some (JInt n), Natural => 0 <=? n
  | _, _ => false
  end.
(** A response or none; a query's; the data of a form that was submitted, or none; the clock; the free
    GPUs in the cache, if there are any, where none are also what is known; the time; the
    dashboard's file, if there is one, if it is JSON. *)
Inductive Req := Http (call : Call) | PromGet (base query : string) (timeout : Q) | Elicit (message : string) (schema : Schema) | Monotonic | Sleep (seconds : Q)
| FreeCached | FreeStore (free : option (list (string * Z))) | Time | Dashboard.
Definition Ans (r : Req) : Type :=
  match r with
  | Http _ | PromGet _ _ _ => (Resp + RequestExc)%type
  | Elicit _ _ => option (list (string * json))
  | Monotonic | Time => Q
  | Dashboard => option (option json)
  | FreeCached => option (option (list (string * Z)))
  | Sleep _ | FreeStore _ => unit
  end.
Definition Ev : Type := sigT Ans.
(** What a tool may raise: a [Failure]; [NeedsChoices], which is told as a result; another
    exception; and that it waited longer than the fuel of its model. *)
Inductive Exc := Fails (f : Failure) | NeedsChoices (help : string) | Uncaught | OutOfFuel.
Definition TM (A : Type) : Type := M Ev unit Exc A.
Definition fails {A} (f : Failure) : TM A := raise (Fails f).
(** What raises [Uncaught] where it is nothing. *)
Definition must {A} (o : option A) : TM A := match o with Some a => mret a | None => raise Uncaught end.

(** ** Prometheus *)

Definition quote_label (value : string) : string :=
  str_replace "034" (String "092" (String "034" "")) (str_replace "092" (String "092" (String "092" "")) value).

(** [float(row["value"][1])]: none where it raises what is caught. *)
Definition second_in (j : json) : option json :=
  match j with
  | JArr (_ :: x :: _) => Some x
  | JStr (String _ (String c _)) => Some (JStr (String c ""))
  | _ => None
  end.
Definition sample_of (row : json) : option float := value ← item_of "value" row; value ← second_in value; option_map f_near (float_of value).
Definition prom_scalar (rows : list json) : option float := match rows with row :: _ => sample_of row | [] => None end.
Definition prom_vector (rows : list json) : list (json * float) :=
  omap (fun row => value ← sample_of row; Some (j_or (jget "metric" row) (JObj []), value)) rows.

Section Tools.
Context (svc : service Req Ans) (cf : Config).

Definition rows_of (reply : Resp + RequestExc) : list json * option string :=
  match reply with
  | inr exc => ([], Some ("is unreachable — " ++ describe_exception exc)%string)
  | inl resp =>
      if negb (status_code resp =? 200) then
        let detail := response_detail resp 160 in
        let problem := ("returned HTTP " ++ pretty (status_code resp))%string in
        ([], Some (if String.eqb detail "" then problem else (problem ++ " — " ++ detail)%string))
      else
        let data := match json_body resp with Some payload => jget "data" payload | None => JNull end in
        if negb (is_obj data) then ([], Some "returned HTTP 200 but the body was not a query result"%string)
        else (List.filter is_obj (jlist (jget "result" data)), None)
  end.
Definition prom_query (base query : string) (timeout : Q) : TM (list json * option string) :=
  reply ← (mcall svc (PromGet base query timeout) : TM (Resp + RequestExc)); mret (rows_of reply).
Definition prom_value (base query : string) (timeout : Q) : TM (option float * option string) :=
  '(rows, problem) ← prom_query base query timeout; mret (prom_scalar rows, problem).
Definition prom_samples (base query : string) (timeout : Q) : TM (list (json * float) * option string) :=
  '(rows, problem) ← prom_query base query timeout; mret (prom_vector rows, problem).

(** ** Questions *)

(** A form that is not valid is as good as none: the library raises within [elicit]. *)
Definition ask (message : string) (schema : Schema) (help : string) : TM (list (string * json)) :=
  data ← (mcall svc (Elicit message schema) : TM (option (list (string * json))));
  match data with
  | Some data => if forallb (field_valid data) (sc_fields schema) then mret data else raise (NeedsChoices help)
  | None => raise (NeedsChoices help)
  end.
(** The first key where the one meant is none of them. *)
Definition default_choice (keys : list string) (dflt : option string) : option string :=
  match dflt with Some d => if bool_decide (d ∈ keys) then Some d else head keys | None => head keys end.
(** A form of one field; that none can be made without choices raises. *)
Definition single_choice_model (name field description : string) (choices : list (string * string)) (dflt : option string) : TM Schema :=
  d ← must (default_choice (map fst choices) dflt); mret (mkSchema name [(field, ChoiceField description choices d)]).
(** What was chosen: any text, and the default if none was. *)
Definition chosen (schema : Schema) (data : list (string * json)) : TM string :=
  match sc_fields schema with
  | (field, ChoiceField _ _ dflt) :: _ => match dget field data with Some (JStr s) => mret s | None => mret dflt | _ => raise Uncaught end
  | _ => raise Uncaught
  end.

(** ** Free GPUs *)

(** What a label may be a key of a dict by: a list and a dict are none. *)
Definition label_key (label : json) : option (option string) :=
  match label with JStr s => Some (Some s) | JArr _ | JObj _ => None | _ => Some None end.
Definition count_at (sample : json * float) : option (option string * float) :=
  if is_obj sample.1 then key ← label_key (jget_or "resource" (JStr "") sample.1); Some (key, sample.2) else None.
Definition _resource_counts (query : string) : TM (list (option string * float) * option string) :=
  '(rows, problem) ← prom_query (PROMETHEUS_URL cf) query 5;
  let samples := prom_vector rows in
  let problem := if (List.length samples <? List.length rows)%nat
    then Some (default "returned GPU metrics in an unexpected shape"%string problem) else problem in
  counts ← must (mapM count_at samples);
  mret (foldl (fun d kv => dset kv.1 kv.2 d) [] counts, problem).
(** [max(int(allocatable.get(m, 0) - used.get(m, 0)), 0)] *)
Definition free_count (allocatable used : list (option string * float)) (rm : string * string) : option (string * Z) :=
  let count d := dget_or (Some rm.2) (Fin 0) d in
  n ← int_of_float (float_sub (count allocatable) (count used)); Some (rm.1, Z.max n 0).
(** Of each resource how many are free, or that it is not known and why. *)
Definition free_gpus : TM (option (list (string * Z)) * option string) :=
  cached ← (mcall svc FreeCached : TM (option (option (list (string * Z)))));
  match cached with
  | Some free => mret (free, None)
  | None =>
      '(allocatable, problem) ← _resource_counts ALLOC_QUERY;
      '(used, used_problem) ← _resource_counts USED_QUERY;
      '(free, error) ←
        match (match problem with Some _ => problem | None => used_problem end), allocatable with
        | Some problem, _ => mret (None, Some (PROMETHEUS_NAME ++ " " ++ problem)%string)
        | None, [] => mret (None, Some (PROMETHEUS_NAME ++ " has no GPU capacity metrics (kube-state-metrics may be down)")%string)
        | None, _ => free ← must (mapM (free_count allocatable used) GPU_METRICS); mret (Some free, None)
        end;
      (mcall svc (FreeStore free) : TM unit) ≫= fun _ => mret (free, error)
  end.
End Tools.

(** The labels of the choices that are shown, in their order. *)
Definition apply_choice (gpu_map : list (string * string)) (free : option (list (string * Z))) (choice : string * string) : option (string * string) :=
  let '(key, label) := choice in
  match dget key gpu_map, free with
  | Some resource, Some free =>
      let count := dget_or resource 0 free in
      if count <=? 0 then None
      else Some (key, (removesuffix " - subject to availability" label ++ " — " ++ pretty count ++ " available now")%string)
  | _, _ => Some (key, label)
  end.
Definition apply_availability (choices gpu_map : list (string * string)) (free : option (list (string * Z))) : list (string * string) * list string :=
  let labels := omap (apply_choice gpu_map free) choices in (labels, map fst labels).
Example shown_choices :
  apply_availability [("none", "No GPU"); ("a", "A100 - subject to availability"); ("t", "T4")]%string [("a", "nvidia.com/gpu"); ("t", "nvidia.com/t4")]%string
    (Some [("nvidia.com/gpu", 3)]%string)
  = ([("none", "No GPU"); ("a", "A100 — 3 available now")], ["none"; "a"])%string.
Proof. reflexivity. Qed.

(** Nothing is hidden while the counts are unknown, and a choice without a GPU never. *)
Lemma unknown_shows_all choices gpu_map : apply_availability choices gpu_map None = (choices, map fst choices).
Proof.
  unfold apply_availability. assert (omap (apply_choice gpu_map None) choices = choices) as ->; [|done].
  induction choices as [|[k l] choices IH]; [done|]. cbn. destruct (dget k gpu_map); by rewrite IH.
Qed.
Lemma hidden_only_exhausted choices gpu_map free key label : (key, label) ∈ choices -> key ∉ (apply_availability choices gpu_map free).2 ->
  exists resource counts, dget key gpu_map = Some resource /\ free = Some counts /\ dget_or resource 0 counts <= 0.
Proof.
  unfold apply_availability. cbn [snd]. intros Hin Hn. destruct (apply_choice gpu_map free (key, label)) as [[k l]|] eqn:E.
  - exfalso. apply Hn. assert (k = key) as <-.
    { revert E. cbn. intros E. repeat case_match; congruence. }
    apply list_elem_of_fmap. exists (k, l). split; [done|]. apply list_elem_of_omap. eauto.
  - revert E. cbn. destruct (dget key gpu_map) as [r|], free as [c|]; try done. destruct (Z.leb_spec (dget_or r 0 c) 0); [|done]. intros _. by exists r, c.
Qed.

(** *** Waiting *)

Section Clock.
Context (svc : service Req Ans) (clock : list Ev -> Q).
(** The clock is the loop's, and goes on by what is slept at least. *)
Definition clock_ok : Prop := (forall h, svc h Monotonic = clock h) /\ (forall h e, (clock h <= clock (h ++ [e])%list)%Q) /\
  (forall h q u, (clock h + q <= clock (h ++ [existT (Sleep q) u : Ev])%list)%Q).
Hypothesis Hclock : clock_ok.
Lemma loop_clock_mono h t : (clock h <= clock (h ++ t)%list)%Q.
Proof.
  revert h. induction t as [|e t IH]; intros h; [rewrite app_nil_r; apply Qle_refl|].
  eapply Qle_trans; [apply Hclock|]. change (e :: t) with ([e] ++ t)%list. rewrite app_assoc. apply IH.
Qed.
(** A sleep of a loop that looks every so often, and not past its deadline. *)
Lemma after_sleep interval deadline k h e q u : (0 <= interval)%Q -> (deadline - clock h <= interval * qz (Z.of_nat (S k)))%Q ->
  q = (if (deadline - clock h)%Q <?q interval then (deadline - clock h)%Q else interval) ->
  (deadline - clock ((h ++ [e]) ++ [existT (Sleep q) u : Ev])%list <= interval * qz (Z.of_nat k))%Q.
Proof.
  intros Hi Hk Hq. rewrite Nat2Z.inj_succ, <- Z.add_1_r in Hk. unfold qz in *. rewrite inject_Z_plus in Hk. change (inject_Z 1) with 1%Q in Hk.
  assert (0 <= interval * inject_Z (Z.of_nat k))%Q as H0 by (apply Qmult_le_0_compat; [done|change 0%Q with (inject_Z 0); rewrite <- Zle_Qle; lia]).
  pose proof (proj1 (proj2 Hclock) h e) as H1. pose proof (proj2 (proj2 Hclock) (h ++ [e])%list q u) as H2.
  subst q. revert H0 H1 H2. destruct (_ <?q interval); intros H0 H1 H2; lra.
Qed.
End Clock.
(** A clock that only sleeps move. *)
Definition slept (e : Ev) : Q := match e with existT (Sleep q) _ => if q <?q 0 then 0%Q else q | _ => 0%Q end.
Definition sleep_clock (h : list Ev) : Q := foldr (fun e acc => (slept e + acc)%Q) 0%Q h.
Lemma sleep_clock_app h e : (sleep_clock (h ++ [e])%list == sleep_clock h + slept e)%Q.
Proof. unfold sleep_clock. induction h as [|x h IH]; cbn [app foldr]; [ring|]. rewrite IH. ring. Qed.
Lemma slept_at_least e : (0 <= slept e)%Q.
Proof. unfold slept. destruct e as [[| | | |q| | | |] ?]; try apply Qle_refl. destruct (q <?q 0) eqn:E; [apply Qle_refl|by apply qlt_false]. Qed.
Lemma sleep_clock_ok (svc : service Req Ans) : (forall h, svc h Monotonic = sleep_clock h) -> clock_ok svc sleep_clock.
Proof.
  intros Hs. split; [exact Hs|]. split; [intros h e|intros h q u]; rewrite sleep_clock_app.
  - pose proof (slept_at_least e). lra.
  - cbn [slept]. destruct (q <?q 0) eqn:E; [apply qlt_true in E; lra|apply Qle_refl].
Qed.
Definition somewhere : Config := config (fun _ => None).
