(* ===== verification/AgDask.v ===== *)
(** The Dask tools of the agentic interface, [docker/agentic-interface/tools/dask.py]:
    clusters of the Dask gateway are listed, made, scaled and stopped for the caller. A
    worker's cores and memory are finite. *)
From S2P Require Import Prelude PyJson PyText PyTime PyFloat PyValue AgErrors AgAuth AgTools.
Open Scope Z_scope.

Definition _SERVICE : string := "Dask Gateway".
Definition SCHEDULER_READY_TIMEOUT : Q := 120.
Definition SCHEDULER_POLL_INTERVAL : Q := 3.
Definition _TERMINAL_STATUSES : list string := ["STOPPING"; "STOPPED"; "FAILED"]%string.
Definition newline : string := String "010" "".
Definition lines_of (l : list string) : string := str_join newline l.

(** [_CLUSTER_NAME_RE.match]: its [$] is also before a last newline. *)
Definition name_char (c : ascii) : bool := is_alnum_lower (chr_lower c) || bool_decide (c ∈ ["."; "_"; "-"]%char).
Definition _CLUSTER_NAME_RE (s : string) : bool :=
  let s := removesuffix newline s in negb (String.eqb s "") && str_forallb name_char s.
Definition _validate_cluster_name (cluster_name : string) : TM unit :=
  if _CLUSTER_NAME_RE cluster_name then mret tt
  else fails (UserError ("Error: invalid cluster name " ++ str_repr cluster_name ++ " — use a name returned by list_dask_clusters.")).
Definition _gateway_http_error (resp : Resp) (action : string) (cluster_name : option string) : Failure :=
  let code := status_code resp in
  if (code =? 401) || (code =? 403) then
    AuthError ("Error: not authorised on " ++ _SERVICE ++ " to " ++ action ++ " (HTTP " ++ pretty code ++ "). If you believe you should have access, contact AF support.")
  else match (if code =? 404 then cluster_name else None) with
  | Some cluster_name => UserError ("Cluster '" ++ cluster_name ++ "' not found. Call list_dask_clusters for the current names.")
  | None =>
      if (code =? 409) || (code =? 422) then
        UserError ("Error: " ++ _SERVICE ++ " rejected the request to " ++ action ++ " — " ++ or_else (response_detail resp 400) "no reason given" ++ ".")
      else http_error _SERVICE resp action ""
  end.
(** What follows the last point of a name. *)
Definition _cluster_id (cluster_name : string) : string := after_last "." cluster_name.
Definition _parse_clusters (payload : json) : list json :=
  match payload with
  | JObj o => List.filter is_obj (map snd o) | JArr l => List.filter is_obj l | _ => []
  end.
(** [None] where a field of another kind than the gateway's raises. *)
Definition _fmt_cluster (c : json) : option string :=
  let name := str_of (jget_or "name" (JStr "?") c) in
  let status := str_of (jget_or "status" (JStr "?") c) in
  let workers := j_or (jget "workers" c) (JObj []) in
  n_workers ← match workers with JObj o => Some (Z.of_nat (List.length o)) | _ => int_of workers end;
  let adaptive := jget "adaptive" c in
  scale_info ← (if truthy adaptive then
      minimum ← get_else "minimum" (JStr "?") adaptive; maximum ← get_else "maximum" (JStr "?") adaptive;
      Some ("  adaptive(" ++ str_of minimum ++ "–" ++ str_of maximum ++ ")")
    else Some ("  workers=" ++ pretty n_workers))%string;
  let scheduler := jget_or "scheduler_address" (JStr "") c in
  Some (lines_of (("**" ++ name ++ "**  status=" ++ status ++ scale_info)%string
    :: (if truthy scheduler then ["  scheduler: " ++ str_of scheduler]%string else []))).

(** ** Calls of the gateway *)

Section Dask.
Context (svc : service Req Ans) (cf : Config) (user : User).

Definition gateway_call (method path : string) (timeout : Q) (body : option json) : Call :=
  mkCall "dask-gateway" method (DASK_GATEWAY_URL cf ++ path) ("jupyterhub " ++ u_token user) [] [] body None timeout.
Definition _gateway (method path action : string) (cluster_name : option string) (ok : list Z) (timeout : Q) (body : option json) : TM Resp :=
  reply ← (mcall svc (Http (gateway_call method path timeout body)) : TM (Resp + RequestExc));
  match reply with
  | inr exc => fails (unreachable _SERVICE exc "")
  | inl resp =>
      if bool_decide (status_code resp ∈ ok) then mret resp else fails (_gateway_http_error resp action cluster_name)
  end.
Definition cluster_path (cluster_name : string) : string := "/api/v1/clusters/" ++ cluster_name.
Definition _cluster_record (cluster_name action : string) : TM json :=
  resp ← _gateway "GET" (cluster_path cluster_name) action (Some cluster_name) [200] 10 None;
  match json_body resp with
  | Some record => if is_obj record then mret record else fails (malformed_response _SERVICE resp "a cluster record" "")
  | None => fails (malformed_response _SERVICE resp "a cluster record" "")
  end.
Definition status_in (record : json) : string := str_upper (str_of (j_or (jget "status" record) (JStr "UNKNOWN"))).
Definition _cluster_status (cluster_name : string) : TM string :=
  record ← _cluster_record cluster_name ("check the state of cluster '" ++ cluster_name ++ "'"); mret (status_in record).
Definition monotonic : TM Q := mcall svc Monotonic.
Fixpoint await_loop (fuel : nat) (cluster_name : string) (start deadline : Q) : TM (string * Q) :=
  match fuel with
  | O => raise OutOfFuel
  | S fuel =>
      status ← _cluster_status cluster_name;
      if String.eqb status "RUNNING" then t ← monotonic; mret (status, (t - start)%Q)
      else if bool_decide (status ∈ _TERMINAL_STATUSES) then
        fails (UserError ("Error: cluster '" ++ cluster_name ++ "' is " ++ status ++ " — it will not accept workers. Call list_dask_clusters to confirm, then create_dask_cluster for a fresh one; query_dask_logs shows why the scheduler stopped."))
      else
        t ← monotonic;
        let remaining := (deadline - t)%Q in
        if remaining <=?q 0 then t ← monotonic; mret (status, (t - start)%Q)
        else (mcall svc (Sleep (if remaining <?q SCHEDULER_POLL_INTERVAL then remaining else SCHEDULER_POLL_INTERVAL)) : TM unit) ≫= fun _ =>
             await_loop fuel cluster_name start deadline
  end.
Definition _await_scheduler (fuel : nat) (cluster_name : string) : TM (string * Q) :=
  t ← monotonic; start ← monotonic; await_loop fuel cluster_name start (t + SCHEDULER_READY_TIMEOUT)%Q.
Definition _require_owned_cluster (cluster_name : string) : TM unit :=
  _cluster_record cluster_name ("access cluster '" ++ cluster_name ++ "'") ≫= fun _ => mret tt.
(** What the gateway said if it did not take the count. *)
Definition clamped_in (answer : option json) : option string :=
  match answer with
  | Some answer =>
      match jget "ok" answer with
      | JBool false => Some (str_of (j_or (jget "msg" answer) (JStr (_SERVICE ++ " did not take that worker count."))))
      | _ => None
      end
  | None => None
  end.
Definition scale_path (cluster_name : string) : string := cluster_path cluster_name ++ "/scale".
Definition _scale (cluster_name : string) (n_workers : Z) : TM (option string) :=
  resp ← _gateway "POST" (scale_path cluster_name) ("scale to " ++ pretty n_workers ++ " worker(s)") (Some cluster_name) [200; 204] 30
    (Some (JObj [("count"%string, JInt n_workers)]));
  mret (clamped_in (json_body resp)).
Definition _check_worker_count (n_workers : Z) : TM unit :=
  if n_workers <? 0 then fails (UserError "Error: n_workers must be ≥ 0.") else mret tt.

(** ** Creating one *)

Definition DEFAULT_WORKER_CORES : Q := 1.
Definition DEFAULT_WORKER_MEMORY : Q := 4.
Definition _COUNT_CHOICES : list string := ["0"; "10"; "50"]%string.
Definition CREATE_MENU : string :=
  "1) worker environment — one of:" ++ newline ++ "   • global (default): shared pixi env at " ++ GLOBAL_PIXI_PROJECT cf
  ++ " — pass env_source='global'." ++ newline ++ "   • your pixi project: pass pixi_project='/path' (+ optional pixi_env)." ++ newline
  ++ "   • your conda env: pass conda_env='/path'." ++ newline
  ++ "2) worker size: default (" ++ fmt_g DEFAULT_WORKER_CORES ++ " core / " ++ fmt_g DEFAULT_WORKER_MEMORY ++ " GiB) or custom (pass worker_cores + worker_memory in GiB)." ++ newline
  ++ "3) worker count to start with: " ++ str_join ", " _COUNT_CHOICES ++ ", or a custom number (pass n_workers).".
Definition _CREATE_CHOICES_HELP : string :=
  "create_dask_cluster needs these choices from the user. Ask them (use the client's multiple-choice UI if available), then call create_dask_cluster again with explicit arguments:"
  ++ newline ++ CREATE_MENU.

(** The forms. *)
Definition _EnvChoice : Schema := mkSchema "_EnvChoice" [("env_source", TextField)].
Definition _PixiChoice : Schema := mkSchema "_PixiChoice" [("pixi_project", TextField); ("pixi_env", TextField)].
Definition _CondaChoice : Schema := mkSchema "_CondaChoice" [("conda_env", TextField)].
Definition _SizeChoice : Schema := mkSchema "_SizeChoice" [("size", TextField)].
Definition _CustomSize : Schema := mkSchema "_CustomSize" [("worker_cores", Positive); ("worker_memory", Positive)].
Definition _CountChoice : Schema := mkSchema "_CountChoice" [("count", TextField)].
Definition _CustomCount : Schema := mkSchema "_CustomCount" [("n_workers", Natural)].
Definition text_field (name : string) (data : list (string * json)) : TM string :=
  match dget name data with Some (JStr s) => mret s | _ => raise Uncaught end.
Definition number_field (name : string) (data : list (string * json)) : TM Q :=
  match dget name data with Some (JFloat q) => mret q | _ => raise Uncaught end.
Definition int_field (name : string) (data : list (string * json)) : TM Z :=
  match dget name data with Some (JInt n) => mret n | _ => raise Uncaught end.
Definition ask_ (message : string) (schema : Schema) : TM (list (string * json)) := ask svc message schema _CREATE_CHOICES_HELP.

Definition given (o : option string) : bool := match o with Some s => negb (String.eqb s "") | None => false end.
Definition _resolve_env (env_source pixi_project : option string) (pixi_env : string) (conda_env : option string) : TM (option string * string * option string) :=
  env_source ←
    (if given pixi_project then mret (Some "pixi"%string) else if given conda_env then mret (Some "conda"%string)
     else match env_source with
     | None => data ← ask_ "Choose the worker environment." _EnvChoice; s ← text_field "env_source" data; mret (Some s)
     | Some s => mret (Some s)
     end);
  let env_source := default ""%string env_source in
  if String.eqb env_source "global" then mret (Some (GLOBAL_PIXI_PROJECT cf), "default"%string, conda_env)
  else if String.eqb env_source "pixi" then
    if given pixi_project then mret (pixi_project, pixi_env, conda_env)
    else data ← ask_ "Provide the path to your pixi project." _PixiChoice;
         pixi_project ← text_field "pixi_project" data; pixi_env ← text_field "pixi_env" data;
         mret (Some pixi_project, pixi_env, conda_env)
  else if String.eqb env_source "conda" then
    if given conda_env then mret (pixi_project, pixi_env, conda_env)
    else data ← ask_ "Provide the path to your conda environment." _CondaChoice;
         conda_env ← text_field "conda_env" data; mret (pixi_project, pixi_env, Some conda_env)
  else fails (UserError ("Error: unknown env_source '" ++ env_source ++ "'. Use 'global', 'pixi', or 'conda'.")).
Definition _resolve_size (worker_cores worker_memory : option Q) : TM (Q * Q) :=
  '(worker_cores, worker_memory) ←
    match worker_cores, worker_memory with
    | None, None =>
        data ← ask_ "Choose the worker size." _SizeChoice;
        size ← text_field "size" data;
        if String.eqb size "custom" then
          data ← ask_ "Specify the resources per worker." _CustomSize;
          cores ← number_field "worker_cores" data; memory ← number_field "worker_memory" data; mret (Some cores, Some memory)
        else mret (None, None)
    | _, _ => mret (worker_cores, worker_memory)
    end;
  mret (default DEFAULT_WORKER_CORES worker_cores, default DEFAULT_WORKER_MEMORY worker_memory).
Definition _resolve_count (n_workers : option Z) : TM Z :=
  match n_workers with
  | Some n => mret n
  | None =>
      data ← ask_ "How many workers should the cluster start with?" _CountChoice;
      count ← text_field "count" data;
      if negb (String.eqb count "custom") then must (int_of_str count)
      else data ← ask_ "Specify the number of workers to start with." _CustomCount; int_field "n_workers" data
  end.
Definition _base_worker_env (username : string) (extra : option (list (string * json))) : list (string * string) :=
  foldl (fun env kv => match kv.2 with JNull => env | v => dset kv.1 (str_of v) env end)
    [("PATH", "/usr/local/sbin:/usr/local/bin:/usr/sbin:/usr/bin:/sbin:/bin"); ("HOME", "/home/" ++ username); ("USER", username); ("LOGNAME", username)]%string
    (default [] extra).
Definition _build_cluster_options (pixi_project : option string) (pixi_env : string) (conda_env : option string) (worker_cores worker_memory : Q)
    (env : option (list (string * json))) : res Failure (list (string * json)) :=
  let pixi := str_strip (default ""%string pixi_project) in
  let conda := str_strip (default ""%string conda_env) in
  if negb (String.eqb pixi "") && negb (String.eqb conda "") then
    Err (UserError "Error: pixi_project and conda_env are mutually exclusive — specify only one.")
  else if String.eqb pixi "" && String.eqb conda "" then
    Err (UserError "Error: provide either pixi_project (directory with pixi.toml) or conda_env (path to a conda/pixi env prefix).")
  else
    let options := [("worker_cores", JFloat worker_cores); ("worker_memory", JFloat worker_memory);
      ("env", JObj (map (fun kv => (kv.1, JStr kv.2)) (_base_worker_env (u_name user) env)))]%string in
    Ok (options ++ if negb (String.eqb pixi "")
      then [("pixi_project", JStr pixi); ("pixi_env", JStr (or_else (str_strip (or_else pixi_env "default")) "default")); ("conda_env", JStr "")]%string
      else [("conda_env", JStr conda); ("pixi_project", JStr ""); ("pixi_env", JStr "default")]%string)%list.
Definition _WORKERS_PENDING_NEXT : list string :=
  [""; "Workers start asynchronously: the pods are scheduled first, then register with the scheduler. get_dask_worker_count reads Prometheus, so its numbers trail reality by up to one scrape interval — a low or zero count in the first minute is expected, not a failed scale.";
   "Next: get_dask_worker_count after ~30-60 s. If it is still short after that, query_dask_logs shows what the workers are doing and get_facility_health shows whether the facility is short of capacity."]%string.
(** [f"{seconds:.0f}"] *)
Definition seconds_of (q : Q) : string := pretty (half_even q).
Definition catching {A} (c : TM A) (f : Failure -> TM A) : TM A :=
  mcatch c (fun e => match e with Fails failure => f failure | _ => raise e end).
Definition scale_lines (cluster_name : string) (n_workers : Z) (waited : Q) : TM (list string) :=
  catching
    (clamped ← _scale cluster_name n_workers;
     mret ((if SCHEDULER_POLL_INTERVAL <=?q waited then ["Scheduler became RUNNING after " ++ seconds_of waited ++ " s."]%string else [])
           ++ [default ("Scaling to " ++ pretty n_workers ++ " worker(s).")%string clamped] ++ _WORKERS_PENDING_NEXT)%list)
    (fun exc => mret [""; "Created with 0 workers — the scale request failed: " ++ message exc;
       "Retry with scale_dask_cluster('" ++ cluster_name ++ "', " ++ pretty n_workers ++ ")."]%string).
(** The wait has an outcome, or failed with a text. *)
Definition wait_outcome (fuel : nat) (cluster_name : string) : TM (res string (string * Q)) :=
  catching (r ← _await_scheduler fuel cluster_name; mret (Ok r)) (fun exc => mret (Err (message exc))).
Definition _start_workers (fuel : nat) (cluster_name : string) (n_workers : Z) : TM (list string) :=
  outcome ← wait_outcome fuel cluster_name;
  match outcome with
  | Err exc => mret [""; "Created with 0 workers — waiting for the scheduler failed: " ++ exc]%string
  | Ok (status, waited) =>
      if negb (String.eqb status "RUNNING") then
        mret [""; "Created with 0 workers: the scheduler was still " ++ status ++ " after " ++ seconds_of waited ++ " s, and the gateway only accepts workers once the cluster is RUNNING.";
          "Next: scale_dask_cluster('" ++ cluster_name ++ "', " ++ pretty n_workers ++ ") — it waits for the scheduler too, so calling it again is usually all that is needed."]%string
      else scale_lines cluster_name n_workers waited
  end.

(** ** The tools *)

Record CreateArgs := mkCreate { a_env_source : option string; a_pixi_project : option string; a_pixi_env : string; a_conda_env : option string;
  a_worker_cores : option Q; a_worker_memory : option Q; a_n_workers : option Z; a_env : option (list (string * json)) }.
Definition positive (what : string) (q : option Q) : TM unit :=
  match q with Some q => if q <=?q 0 then fails (UserError what) else mret tt | None => mret tt end.
Definition check_args (args : CreateArgs) : TM unit :=
  (match a_n_workers args with Some n => _check_worker_count n | None => mret tt end) ≫= fun _ =>
  positive "Error: worker_cores must be > 0." (a_worker_cores args) ≫= fun _ =>
  positive "Error: worker_memory must be > 0 (GiB)." (a_worker_memory args).
Definition lift_failure {A} (r : res Failure A) : TM A := match r with Ok a => mret a | Err f => fails f end.
Definition created_name (resp : Resp) : json :=
  match json_body resp with Some payload => if is_obj payload then jget_or "name" (JStr "") payload else JStr "" | None => JStr "" end.
Definition option_text (key : string) (options : list (string * json)) : string := str_of (dget_or key JNull options).
Definition created_lines (cluster_name : string) (worker_cores worker_memory : Q) (options : list (string * json)) : list string :=
  ["Cluster '" ++ cluster_name ++ "' created."; "workers: cores=" ++ float_repr worker_cores ++ " memory=" ++ float_repr worker_memory ++ " GiB each";
   if truthy (dget_or "pixi_project" JNull options)
   then "env: pixi_project=" ++ option_text "pixi_project" options ++ " pixi_env=" ++ option_text "pixi_env" options
   else "env: conda_env=" ++ option_text "conda_env" options]%string.
(** What is left once a cluster was asked for. *)
Definition tell_created (fuel : nat) (resp : Resp) (worker_cores worker_memory : Q) (n_workers : Z) (options : list (string * json)) : TM string :=
  let name := created_name resp in
  if negb (truthy name) then
    fails (UpstreamError (message (malformed_response _SERVICE resp "a cluster record with a name" "")
      ++ " The cluster may have been created anyway — check list_dask_clusters before creating another."))
  else
    let cluster_name := str_of name in
    let lines := created_lines cluster_name worker_cores worker_memory options in
    if n_workers =? 0 then mret (lines_of (lines ++ [""; "Cluster starts with 0 workers. Next: scale_dask_cluster(...)."]%string)%list)
    else more ← _start_workers fuel cluster_name n_workers; mret (lines_of (lines ++ more)%list).
Definition create_dask_cluster (fuel : nat) (args : CreateArgs) : TM string :=
  check_args args ≫= fun _ =>
  '(pixi_project, pixi_env, conda_env) ← _resolve_env (a_env_source args) (a_pixi_project args) (a_pixi_env args) (a_conda_env args);
  '(worker_cores, worker_memory) ← _resolve_size (a_worker_cores args) (a_worker_memory args);
  n_workers ← _resolve_count (a_n_workers args);
  options ← lift_failure (_build_cluster_options pixi_project pixi_env conda_env worker_cores worker_memory (a_env args));
  resp ← _gateway "POST" "/api/v1/clusters/" "create the cluster" None [200; 201] 60 (Some (JObj [("cluster_options"%string, JObj options)]));
  tell_created fuel resp worker_cores worker_memory n_workers options.
Definition list_dask_clusters : TM string :=
  resp ← _gateway "GET" "/api/v1/clusters/" "list clusters" None [200] 10 None;
  match json_body resp with
  | Some payload =>
      if is_obj payload || is_arr payload then
        let clusters := _parse_clusters payload in
        match clusters with
        | [] => mret "No running Dask clusters."%string
        | _ => texts ← must (mapM _fmt_cluster clusters);
               mret ("# " ++ pretty (Z.of_nat (List.length clusters)) ++ " Dask cluster(s)" ++ newline ++ str_join (newline ++ newline) texts)%string
        end
      else fails (malformed_response _SERVICE resp "a cluster list" "")
  | None => fails (malformed_response _SERVICE resp "a cluster list" "")
  end.
(** A field's two lines. *)
Definition option_lines (field : json) : option (list string) :=
  name ← get_else "field" (JStr "?") field;
  label ← get_else "label" name field;
  dflt ← get_of "default" field;
  spec ← get_of "spec" field;
  Some ["- " ++ str_of name ++ ": " ++ str_of label; "    default=" ++ repr_of dflt ++ "  type=" ++ str_of (j_or spec (JObj []))]%string.
Definition list_dask_cluster_options : TM string :=
  resp ← _gateway "GET" "/api/v1/options" "list cluster options" None [200] 10 None;
  match (match json_body resp with Some payload => if is_obj payload then Some payload else None | None => None end) with
  | Some payload =>
      fields ← must (iter_of (j_or (jget "cluster_options" payload) (JArr [])));
      texts ← must (mapM option_lines fields);
      mret (lines_of (["# Dask cluster options"; "Pass these as arguments to create_dask_cluster."; ""]%string ++ concat texts
        ++ [""; "Notes:"; "  • Provide exactly one of pixi_project or conda_env."]%string)%list)
  | None => fails (malformed_response _SERVICE resp "a cluster-options document" "")
  end.
Definition worker_line (w : string * json) : string :=
  "  " ++ w.1 ++ ": " ++ (if is_obj w.2 then str_of (jget_or "status" (JStr "?") w.2) else "?").
Definition get_dask_cluster_info (cluster_name : string) : TM string :=
  _validate_cluster_name cluster_name ≫= fun _ =>
  c ← _cluster_record cluster_name ("inspect cluster '" ++ cluster_name ++ "'");
  let workers := jitems (j_or (jget "workers" c) (JObj [])) in
  let worker_lines := (map worker_line (firstn 20 workers)
    ++ if (20 <? List.length workers)%nat then ["  … " ++ pretty (Z.of_nat (List.length workers) - 20) ++ " more"]%string else [])%list in
  let opts := jget_or "options" (JObj []) c in
  text ← must (_fmt_cluster c);
  opt_lines ← (if truthy opts then match opts with
      | JObj o => mret ["Options:" ++ newline ++ lines_of (map (fun kv => "  " ++ kv.1 ++ ": " ++ str_of kv.2)%string o)]%string
      | _ => raise Uncaught end
    else mret []);
  mret (str_join (newline ++ newline) ([text] ++ opt_lines
    ++ if (0 <? List.length worker_lines)%nat
       then ["Workers (" ++ pretty (Z.of_nat (List.length workers)) ++ "):" ++ newline ++ lines_of worker_lines]%string else [])%list).
Definition scale_dask_cluster (fuel : nat) (cluster_name : string) (n_workers : Z) : TM string :=
  _validate_cluster_name cluster_name ≫= fun _ =>
  _check_worker_count n_workers ≫= fun _ =>
  '(status, waited) ← _await_scheduler fuel cluster_name;
  if negb (String.eqb status "RUNNING") then
    mret ("No scale request was sent: cluster '" ++ cluster_name ++ "' was still " ++ status ++ " after " ++ seconds_of waited
      ++ " s, and the gateway only accepts workers once the cluster is RUNNING." ++ newline
      ++ "Next: get_dask_cluster_info for the current status, or query_dask_logs if it stays pending — the scheduler pod may be waiting for capacity. Calling scale_dask_cluster again resumes the wait.")
  else
    clamped ← _scale cluster_name n_workers;
    mret (lines_of ((if SCHEDULER_POLL_INTERVAL <=?q waited then ["Scheduler became RUNNING after " ++ seconds_of waited ++ " s."]%string else [])
      ++ [default ("Cluster '" ++ cluster_name ++ "' scaling to " ++ pretty n_workers ++ " worker(s).")%string clamped]
      ++ if n_workers =? 0 then [] else _WORKERS_PENDING_NEXT)%list).
Definition stop_dask_cluster (cluster_name : string) : TM string :=
  _validate_cluster_name cluster_name ≫= fun _ =>
  resp ← _gateway "DELETE" (cluster_path cluster_name) ("stop cluster '" ++ cluster_name ++ "'") (Some cluster_name) [200; 204; 404] 10 None;
  mret (if status_code resp =? 404 then "Cluster '" ++ cluster_name ++ "' not found (may have already stopped)."
        else "Cluster '" ++ cluster_name ++ "' stopped.").
End Dask.

(** ** What a tool may ask of the gateway *)

(** Up to the request for a cluster; from then on the cluster's name, if one was given, and
    whether the gateway's last word on it was that it is running. *)
Inductive Phase := Asking | Has (name : option string) (running : bool).
Definition record_status (reply : Resp + RequestExc) : option string :=
  match reply with
  | inl resp =>
      if status_code resp =? 200 then
        match json_body resp with Some record => if is_obj record then Some (status_in record) else None | None => None end
      else None
  | inr _ => None
  end.
Definition is_running (reply : Resp + RequestExc) : bool := bool_decide (record_status reply = Some "RUNNING"%string).
(** The name that the gateway gave a new cluster, none where it refused or gave none. *)
Definition name_given (reply : Resp + RequestExc) : option string :=
  match reply with
  | inl resp => if bool_decide (status_code resp ∈ [200; 201]) && truthy (created_name resp) then Some (str_of (created_name resp)) else None
  | inr _ => None
  end.
Definition positive_field (name : string) (o : list (string * json)) : bool := match dget name o with Some (JFloat q) => 0 <?q q | _ => false end.
Definition named_field (name : string) (o : list (string * json)) : bool := match dget name o with Some (JStr s) => negb (String.eqb s "") | _ => false end.
(** Options that are good: workers of some size, in one environment of the two kinds. *)
Definition options_good (options : json) : bool :=
  let o := jitems options in
  positive_field "worker_cores" o && positive_field "worker_memory" o && xorb (named_field "pixi_project" o) (named_field "conda_env" o)
  && dhas "PATH"%string (jitems (dget_or "env" JNull o)).
Section Watch.
Context (svc : service Req Ans) (cf : Config) (user : User).
Definition own (c : Call) : bool := String.eqb (c_client c) "dask-gateway" && String.eqb (c_authorization c) ("jupyterhub " ++ u_token user).
Definition to_ (c : Call) (method path : string) : bool := String.eqb (c_method c) method && String.eqb (c_url c) (DASK_GATEWAY_URL cf ++ path).
(** One request for a cluster, with good options; then only that cluster is looked at, and
    scaled only right after it was seen running. All calls are the caller's own. *)
Definition may (p : Phase) (e : Ev) : option Phase :=
  match p with
  | Asking =>
      match e with
      | existT (Elicit _ _) _ => Some Asking
      | existT (Http c) reply =>
          if own c && to_ c "POST" "/api/v1/clusters/" && options_good (jget "cluster_options" (default JNull (c_json c)))
          then Some (Has (name_given reply) false) else None
      | _ => None
      end
  | Has None _ => None
  | Has (Some name) running =>
      match e with
      | existT Monotonic _ => Some p
      | existT (Sleep _) _ => Some (Has (Some name) false)
      | existT (Http c) reply =>
          if negb (own c) then None
          else if to_ c "GET" (cluster_path name) then Some (Has (Some name) (is_running reply))
          else if running && to_ c "POST" (scale_path name) then Some (Has (Some name) false)
          else None
      | _ => None
      end
  end.

(** *** Lemmas *)
Lemma own_call method path timeout body : own (gateway_call cf user method path timeout body) = true.
Proof. unfold own. cbn [gateway_call c_client c_authorization]. by rewrite !String.eqb_refl. Qed.
Lemma to_call method path timeout body : to_ (gateway_call cf user method path timeout body) method path = true.
Proof. unfold to_. cbn [gateway_call c_method c_url]. by rewrite !String.eqb_refl. Qed.
(** A call of the gateway, if what follows it is right for every reply. *)
Lemma gateway_mon p method path action cluster ok timeout body (Q : res Exc Resp -> Phase -> Prop) :
  (forall reply, exists p', may p (existT (Http (gateway_call cf user method path timeout body)) reply) = Some p' /\
     match reply with
     | inl resp => if bool_decide (status_code resp ∈ ok) then Q (Ok resp) p' else forall f, Q (Err (Fails f)) p'
     | inr _ => forall f, Q (Err (Fails f)) p'
     end) -> mon may p (_gateway svc cf user method path action cluster ok timeout body) Q.
Proof.
  intros H. unfold _gateway. apply mon_bind. refine (mon_call may p svc (Http _) _ _). intros reply.
  destruct (H reply) as (p' & Hp & HQ). exists p'. split; [exact Hp|]. destruct reply as [resp|exc].
  - destruct (bool_decide _); [by apply mon_ret|apply mon_raise, HQ].
  - apply mon_raise, HQ.
Qed.
Lemma record_call name running timeout reply :
  may (Has (Some name) running) (existT (Http (gateway_call cf user "GET" (cluster_path name) timeout None)) reply) = Some (Has (Some name) (is_running reply)).
Proof. unfold may. by rewrite own_call, to_call. Qed.
Lemma status_mon name running : mon may (Has (Some name) running) (_cluster_status svc cf user name) (fun r p =>
  match r with Ok status => p = Has (Some name) (String.eqb status "RUNNING") | Err e => (exists f, e = Fails f) /\ exists b, p = Has (Some name) b end).
Proof.
  unfold _cluster_status, _cluster_record. apply mon_bind, mon_bind, gateway_mon. intros reply.
  eexists. split; [apply record_call|]. destruct reply as [resp|exc]; [|by eauto].
  destruct (bool_decide _) eqn:Ek; [|by eauto]. apply bool_decide_eq_true, list_elem_of_singleton in Ek.
  destruct (json_body resp) as [record|] eqn:Eb; [|apply mon_raise; eauto].
  destruct (is_obj record) eqn:Eo; [|apply mon_raise; eauto]. apply mon_ret, mon_ret. f_equal.
  unfold is_running, record_status. rewrite Ek, Eb, Eo. cbn. destruct (String.eqb_spec (status_in record) "RUNNING") as [->|Hne]; [done|].
  apply bool_decide_eq_false. congruence.
Qed.
Definition failed (e : Exc) : Prop := exists f, e = Fails f.
(** A wait ends running, or not; or it is told why not, or runs out of fuel. *)
Lemma await_loop_mon fuel name running start deadline : mon may (Has (Some name) running) (await_loop svc cf user fuel name start deadline)
  (fun r p => match r with
   | Ok (status, _) => if String.eqb status "RUNNING" then p = Has (Some name) true else exists b, p = Has (Some name) b
   | Err e => (failed e \/ e = OutOfFuel) /\ exists b, p = Has (Some name) b end).
Proof.
  revert running. induction fuel as [|fuel IH]; intros running; cbn [await_loop]; [apply mon_raise; eauto|].
  apply mon_bind. eapply mon_mono; [apply status_mon|]. intros [status|e] p; [intros ->|intros [? ?]; unfold failed; eauto].
  destruct (String.eqb status "RUNNING") eqn:Er.
  - apply mon_bind. unfold monotonic. refine (mon_call may _ svc Monotonic _ _). intros t. eexists. split; [reflexivity|]. apply mon_ret. by rewrite Er.
  - destruct (bool_decide _); [apply mon_raise; unfold failed; eauto|].
    apply mon_bind. unfold monotonic. refine (mon_call may _ svc Monotonic _ _). intros t. eexists. split; [reflexivity|]. cbv beta iota zeta.
    destruct (_ <=?q _).
    + apply mon_bind. refine (mon_call may _ svc Monotonic _ _). intros t'. eexists. split; [reflexivity|]. apply mon_ret. rewrite Er. eauto.
    + apply mon_bind. refine (mon_call may _ svc (Sleep _) _ _). intros u. eexists. split; [reflexivity|]. apply IH.
Qed.
Lemma await_mon fuel name running : mon may (Has (Some name) running) (_await_scheduler svc cf user fuel name)
  (fun r p => match r with
   | Ok (status, _) => if String.eqb status "RUNNING" then p = Has (Some name) true else exists b, p = Has (Some name) b
   | Err e => (failed e \/ e = OutOfFuel) /\ exists b, p = Has (Some name) b end).
Proof.
  unfold _await_scheduler, monotonic. do 2 (apply mon_bind; refine (mon_call may _ svc Monotonic _ _); intros ?; eexists; (split; [reflexivity|])).
  apply await_loop_mon.
Qed.
Lemma scale_call name body timeout reply :
  may (Has (Some name) true) (existT (Http (gateway_call cf user "POST" (scale_path name) timeout body)) reply) = Some (Has (Some name) false).
Proof.
  unfold may. rewrite own_call, to_call. cbn [negb andb]. unfold to_ at 1. cbn [gateway_call c_method]. reflexivity.
Qed.
Lemma scale_mon name n_workers : mon may (Has (Some name) true) (_scale svc cf user name n_workers)
  (fun r p => p = Has (Some name) false /\ match r with Ok _ => True | Err e => failed e end).
Proof.
  unfold _scale. apply mon_bind, gateway_mon. intros reply. eexists. split; [apply scale_call|].
  unfold failed. destruct reply as [resp|exc]; [|eauto]. destruct (bool_decide _); [|eauto]. by apply mon_ret.
Qed.
Lemma catching_mon {A} p (c : TM A) f (Q : res Exc A -> Phase -> Prop) :
  mon may p c (fun r p' => match r with Ok a => Q (Ok a) p' | Err (Fails x) => mon may p' (f x) Q | Err e => Q (Err e) p' end) ->
  mon may p (catching c f) Q.
Proof.
  intros H. unfold catching. apply mon_catch. eapply mon_mono; [exact H|]. intros [a|[x| | |]] p' HQ; try done; by apply mon_raise.
Qed.
(** Once there is a cluster nothing is raised about it. *)
Lemma start_workers_mon fuel name n_workers : mon may (Has (Some name) false) (_start_workers svc cf user fuel name n_workers)
  (fun r p => match r with Ok _ => True | Err e => e = OutOfFuel end /\ exists b, p = Has (Some name) b).
Proof.
  unfold _start_workers, wait_outcome. apply mon_bind, catching_mon, mon_bind. eapply mon_mono; [apply await_mon|].
  intros [[status waited]|e] p.
  - destruct (String.eqb status "RUNNING") eqn:Er.
    + intros ->. apply mon_ret. cbv beta iota. rewrite Er. cbn [negb]. unfold scale_lines. apply catching_mon, mon_bind.
      eapply mon_mono; [apply scale_mon|]. intros [c|e'] p' [-> Hf]; [apply mon_ret; eauto|]. destruct Hf as [f ->]. apply mon_ret. eauto.
    + intros [b ->]. apply mon_ret. cbv beta iota. rewrite Er. cbn [negb]. apply mon_ret. eauto.
  - intros [[[f ->]| ->] [b ->]]; [apply mon_ret; cbv beta iota; apply mon_ret; eauto|]. eauto.
Qed.
Lemma ask_mon message schema (Q : res Exc (list (string * json)) -> Phase -> Prop) :
  (forall data, forallb (field_valid data) (sc_fields schema) = true -> Q (Ok data) Asking) -> (forall help, Q (Err (NeedsChoices help)) Asking) ->
  mon may Asking (ask_ svc cf message schema) Q.
Proof.
  intros H1 H2. unfold ask_, ask. apply mon_bind. refine (mon_call may _ svc (Elicit _ _) _ _). intros data. eexists. split; [reflexivity|].
  destruct data as [data|]; [|by apply mon_raise]. destruct (forallb _ _) eqn:E; [by apply mon_ret, H1|by apply mon_raise].
Qed.
(** Nothing was asked of the gateway, and the user's answer is none. *)
Definition unasked {A} (post : A -> Prop) (r : res Exc A) (p : Phase) : Prop := p = Asking /\ match r with Ok a => post a | Err _ => True end.
Lemma unasked_bind {A B} (c : TM A) (f : A -> TM B) (P : A -> Prop) (Q : res Exc B -> Phase -> Prop) : mon may Asking c (unasked P) ->
  (forall a, P a -> mon may Asking (f a) Q) -> (forall e, Q (Err e) Asking) -> mon may Asking (c ≫= f) Q.
Proof. intros H1 H2 H3. apply mon_bind. eapply mon_mono; [exact H1|]. intros [a|e] p [-> HP]; auto. Qed.
Lemma text_field_mon name data : mon may Asking (text_field name data) (unasked (fun _ => True)).
Proof. unfold text_field. destruct (dget name data) as [[]|]; first [by apply mon_ret|by apply mon_raise]. Qed.
Lemma resolve_env_mon env_source pixi_project pixi_env conda_env : mon may Asking (_resolve_env svc cf env_source pixi_project pixi_env conda_env) (unasked (fun _ => True)).
Proof.
  unfold _resolve_env. apply (unasked_bind _ _ (fun _ => True)).
  { destruct (given pixi_project); [by apply mon_ret|]. destruct (given conda_env); [by apply mon_ret|]. destruct env_source; [by apply mon_ret|].
    apply mon_bind, ask_mon; [|done]. intros data _. eapply unasked_bind; [apply text_field_mon|by intros; apply mon_ret|done]. }
  2: done. intros source _. cbv zeta. destruct (String.eqb _ "global"); [by apply mon_ret|]. destruct (String.eqb _ "pixi").
  { destruct (given pixi_project); [by apply mon_ret|]. apply mon_bind, ask_mon; [|done]. intros data _.
    eapply unasked_bind; [apply text_field_mon| |done]. intros ? _. eapply unasked_bind; [apply text_field_mon|by intros; apply mon_ret|done]. }
  destruct (String.eqb _ "conda"); [|by apply mon_raise]. destruct (given conda_env); [by apply mon_ret|]. apply mon_bind, ask_mon; [|done]. intros data _.
  eapply unasked_bind; [apply text_field_mon|by intros; apply mon_ret|done].
Qed.
Definition above (o : option Q) : Prop := match o with Some q => (0 < q)%Q | None => True end.
Lemma resolve_size_mon cores memory : above cores -> above memory ->
  mon may Asking (_resolve_size svc cf cores memory) (unasked (fun sizes => (0 < sizes.1)%Q /\ (0 < sizes.2)%Q)).
Proof.
  intros Hc Hm. unfold _resolve_size. apply (unasked_bind _ _ (fun sizes => above sizes.1 /\ above sizes.2)).
  2: { intros [[c|] [m|]] [? ?]; apply mon_ret; split; cbn; auto; split; cbn in *; done. }
  2: done. destruct cores as [c|], memory as [m|]; try by apply mon_ret.
  apply mon_bind, ask_mon; [|done]. intros data _. eapply unasked_bind; [apply text_field_mon| |done]. intros size _.
  destruct (String.eqb size "custom"); [|by apply mon_ret]. apply mon_bind, ask_mon; [|done]. intros sizes. cbn.
  unfold field_valid, number_field. cbn [fst snd]. destruct (dget "worker_cores" sizes) as [[| | |c| | |]|]; try done.
  destruct (dget "worker_memory" sizes) as [[| | |m| | |]|]; try by rewrite andb_false_r.
  intros [Hc' [Hm' _]%andb_true_iff]%andb_true_iff. apply mon_bind, mon_ret, mon_bind, mon_ret, mon_ret. split; [done|]. by split; apply qlt_true.
Qed.
Lemma resolve_count_mon n_workers : mon may Asking (_resolve_count svc cf n_workers) (unasked (fun _ => True)).
Proof.
  unfold _resolve_count. destruct n_workers; [by apply mon_ret|]. apply mon_bind, ask_mon; [|done]. intros data _.
  eapply unasked_bind; [apply text_field_mon| |done]. intros count _. destruct (negb _).
  - destruct (int_of_str count); [by apply mon_ret|by apply mon_raise].
  - apply mon_bind, ask_mon; [|done]. intros d _. unfold int_field. destruct (dget _ d) as [[]|]; first [by apply mon_ret|by apply mon_raise].
Qed.
Lemma base_env_path username extra : dhas "PATH"%string (map (fun kv => (kv.1, JStr kv.2)) (_base_worker_env username extra)) = true.
Proof.
  unfold _base_worker_env. match goal with |- context [foldl ?f ?d0 ?l] => set (g := f); generalize l; set (d := d0) end.
  assert (dhas "PATH"%string d = true) as Hd by reflexivity. clearbody d. intros l. revert d Hd.
  assert (forall d : list (string * string), dhas "PATH"%string (map (fun kv => (kv.1, JStr kv.2)) d) = dhas "PATH"%string d) as Hmap.
  { intros d. unfold dhas. induction d as [|[k v] d IH]; [done|]. cbn. by case_decide. }
  induction l as [|[k v] l IH]; intros d Hd; [by rewrite Hmap|]. cbn [foldl]. apply IH. subst g. cbn [fst snd].
  destruct v; try done; unfold dhas in *; (destruct (decide (k = "PATH"%string)) as [->|]; [by rewrite dget_dset|by rewrite dget_dset_ne]).
Qed.
Lemma build_good pixi_project pixi_env conda_env cores memory env options : (0 < cores)%Q -> (0 < memory)%Q ->
  _build_cluster_options user pixi_project pixi_env conda_env cores memory env = Ok options -> options_good (JObj options) = true.
Proof.
  intros Hc Hm. apply qlt_true in Hc, Hm. unfold _build_cluster_options. cbv zeta.
  generalize (str_strip (default "" pixi_project)%string) (str_strip (default "" conda_env)%string). intros pixi conda.
  destruct (String.eqb pixi "") eqn:Ep, (String.eqb conda "") eqn:Ec; cbn [negb andb]; try done.
  all: intros [= <-]; unfold options_good, positive_field, named_field, jitems; cbn -[dhas _base_worker_env String.eqb qlt].
  all: repeat first [rewrite decide_True by done | rewrite decide_False by done]; cbn [default from_option]; unfold id.
  all: rewrite Hc, Hm, base_env_path, ?Ep, ?Ec; reflexivity.
Qed.
(** What is told of a cluster that there is. *)
Definition told (name : string) (r : res Exc string) : Prop :=
  match r with Ok text => startswith ("Cluster '" ++ name ++ "' created.") text = true | Err e => e = OutOfFuel end.
Lemma lines_told name cores memory options more : startswith ("Cluster '" ++ name ++ "' created.") (lines_of (created_lines name cores memory options ++ more)%list) = true.
Proof.
  unfold lines_of, str_join, created_lines. cbn [app String.concat]. exact (startswith_app _ _).
Qed.
Lemma tell_created_mon fuel resp cores memory n_workers options : bool_decide (status_code resp ∈ [200; 201]) = true ->
  mon may (Has (name_given (inl resp)) false) (tell_created svc cf user fuel resp cores memory n_workers options)
    (fun r p => match name_given (inl resp) with Some name => told name r | None => exists f, r = Err (Fails f) end /\ exists b, p = Has (name_given (inl resp)) b).
Proof.
  intros Hok. unfold tell_created, name_given. rewrite Hok. cbn [andb]. destruct (truthy (created_name resp)) eqn:Et; cbn [negb].
  2: { apply mon_raise. split; eauto. }
  destruct (n_workers =? 0); [apply mon_ret; split; [apply lines_told|eauto]|].
  apply mon_bind. eapply mon_mono; [apply start_workers_mon|]. intros [more|e] p [H [b ->]]; [|by split; eauto].
  apply mon_ret. split; [apply lines_told|eauto].
Qed.

Lemma check_mon args : mon may Asking (check_args args) (unasked (fun _ => above (a_worker_cores args) /\ above (a_worker_memory args))).
Proof.
  unfold check_args. apply (unasked_bind _ _ (fun _ => True)); [|intros _ _|by split].
  { destruct (a_n_workers args) as [n|]; [|by apply mon_ret]. unfold _check_worker_count. destruct (n <? 0); [by apply mon_raise|by apply mon_ret]. }
  assert (forall what q, mon may Asking (positive what q) (unasked (fun _ => above q))) as H.
  { intros what [q|]; cbn [positive]; [|by apply mon_ret]. destruct (q <=?q 0) eqn:E; [by apply mon_raise|]. apply mon_ret. split; [done|]. by apply qle_false. }
  eapply unasked_bind; [apply H| |by split]. intros ? Hc. eapply mon_mono; [apply H|]. intros [[]|e] p [-> Hm]; by split.
Qed.
Lemma create_call timeout options reply : options_good (JObj options) = true ->
  may Asking (existT (Http (gateway_call cf user "POST" "/api/v1/clusters/" timeout (Some (JObj [("cluster_options"%string, JObj options)])))) reply)
  = Some (Has (name_given reply) false).
Proof.
  intros H. unfold may. rewrite own_call, to_call. cbn [andb gateway_call c_json default from_option]. unfold id.
  assert (jget "cluster_options" (JObj [("cluster_options"%string, JObj options)]) = JObj options) as -> by reflexivity. by rewrite H.
Qed.

(** *** Theorem *)

(** C15: A cluster is made once and is told of: a run asks the gateway for one cluster at most,
    with the caller's own token, for workers of some size in one environment; from then on
    it looks at that cluster only, and scales it only right after the gateway said that it
    is running; and if the gateway gave it a name, no failure hides it: the caller is told
    of the cluster, whatever the wait or the scaling came to. *)
Theorem cluster_told fuel args : mon may Asking (create_dask_cluster svc cf user fuel args)
  (fun r p => match p with
   | Asking => exists e, r = Err e
   | Has (Some name) _ => told name r
   | Has None _ => exists f, r = Err (Fails f)
   end).
Proof.
  unfold create_dask_cluster. apply mon_bind. eapply mon_mono; [apply check_mon|]. intros [?|e] p [-> Hargs]; [|eauto].
  cbv beta iota in Hargs. destruct Hargs as [Hc Hm].
  eapply unasked_bind; [apply resolve_env_mon| |eauto]. intros [[pixi_project pixi_env] conda_env] _.
  eapply unasked_bind; [by apply resolve_size_mon| |eauto]. intros [cores memory] [Hcores Hmemory].
  eapply unasked_bind; [apply resolve_count_mon| |eauto]. intros n_workers _.
  apply mon_bind. destruct (_build_cluster_options _ _ _ _ _ _ _) as [options|f] eqn:Eo; cbn [lift_failure]; [apply mon_ret|apply mon_raise; eauto].
  apply mon_bind, gateway_mon. intros reply. eexists. split; [by apply create_call, (build_good _ _ _ _ _ _ _ Hcores Hmemory Eo)|].
  destruct reply as [resp|exc]; [|cbn [name_given]; eauto]. destruct (bool_decide (status_code resp ∈ [200; 201])) eqn:Eok.
  - eapply mon_mono; [by apply tell_created_mon|]. intros r p [H [b ->]]. destruct (name_given (inl resp)); exact H.
  - unfold name_given. rewrite Eok. cbn [andb]. eauto.
Qed.
End Watch.

(** ** Waits end *)

Section Waits.
Context (svc : service Req Ans) (cf : Config) (user : User) (clock : list Ev -> Q).
Hypothesis Hclock : clock_ok svc clock.
(** Up to a deadline that is [k] polls away the loop takes [k + 1] passes, and it gives up
    on a cluster that is not running only past the deadline. *)
Definition waited_out (deadline : Q) (r : res Exc (string * Q)) (h' : list Ev) : Prop :=
  match r with
  | Ok (status, _) => status = "RUNNING"%string \/ (deadline <= clock h')%Q
  | Err e => failed e
  end.
Lemma loop_ends fuel name start deadline k h : (deadline - clock h <= SCHEDULER_POLL_INTERVAL * qz (Z.of_nat k))%Q -> (k < fuel)%nat ->
  wp (await_loop svc cf user fuel name start deadline) tt h (fun r _ h' => waited_out deadline r h').
Proof.
  revert k h. induction fuel as [|fuel IH]; intros k h Hk Hf; [lia|]. cbn [await_loop]. apply wp_bind.
  eapply wp_mono; [apply (status_mon svc cf user name false)|]. intros [status|e] [] h1 (t & p & Hh & _ & Hp); [|exact (proj1 Hp)].
  assert (clock h <= clock h1)%Q as H1 by (rewrite Hh; by apply (loop_clock_mono svc)).
  destruct (String.eqb_spec status "RUNNING") as [->|Hne]; [unfold monotonic; do 2 wp_step; apply wp_ret; by left|].
  destruct (bool_decide _); [apply wp_raise; by eexists|]. unfold monotonic. do 2 wp_step. cbv zeta.
  rewrite (proj1 Hclock).
  destruct (_ <=?q 0) eqn:Er.
  - do 2 wp_step. apply wp_ret. right. apply qle_true in Er. do 2 (eapply Qle_trans; [|apply (proj1 (proj2 Hclock))]). lra.
  - apply qle_false in Er. destruct k as [|k]; [exfalso; change (qz (Z.of_nat 0)) with 0%Q in Hk; unfold SCHEDULER_POLL_INTERVAL in Hk; lra|].
    do 2 wp_step. apply IH with k; [|lia].
    eapply (after_sleep svc clock Hclock); [discriminate|lra|reflexivity].
Qed.
(** *** Theorem *)

(** A wait for a scheduler ends: however the gateway answers, the loop is over after 41
    looks at the cluster; and it gives up on one that is not running, without a failure,
    only once the whole wait is over. *)
Theorem wait_ends name h : wp (_await_scheduler svc cf user 41 name) tt h (fun r _ h' => waited_out (clock h + SCHEDULER_READY_TIMEOUT) r h').
Proof.
  unfold _await_scheduler, monotonic. do 4 wp_step. rewrite !(proj1 Hclock). apply loop_ends with 40%nat; [|lia].
  match goal with |- (_ + _ - clock ?h2 <= _)%Q => assert (clock h <= clock h2)%Q as H end.
  { do 2 (eapply Qle_trans; [|apply (proj1 (proj2 Hclock))]). apply Qle_refl. }
  unfold SCHEDULER_READY_TIMEOUT, SCHEDULER_POLL_INTERVAL, qz. change (inject_Z (Z.of_nat 40)) with 40%Q. lra.
Qed.
End Waits.
(** A gateway whose clusters never start. *)
Definition never_up (h : list Ev) (r : Req) : Ans r :=
  match r with
  | Monotonic => sleep_clock h
  | Http _ => inl (mkResp 200 (Some "") (Some (JObj [("name", JStr "cms.0a"); ("status", JStr "pending")])))
  | PromGet _ _ _ => inl (mkResp 200 (Some "") None) | Elicit _ _ => None | Sleep _ => tt | FreeCached => None | FreeStore _ => tt | Time => 0%Q | Dashboard => None
  end.
Lemma never_up_clock : clock_ok never_up sleep_clock.
Proof. by apply sleep_clock_ok. Qed.
Lemma wait_ends_witness :
  (match (_await_scheduler never_up somewhere ada 41 "cms.0a" tt []).1.1 with Ok (status, waited) => bool_decide (status = "PENDING"%string) && Qeq_bool waited 120 | Err _ => false end) = true /\
  wp (_await_scheduler never_up somewhere ada 41 "cms.0a") tt [] (fun r _ h' => waited_out sleep_clock (sleep_clock [] + SCHEDULER_READY_TIMEOUT) r h').
Proof. split; [vm_compute; reflexivity|]. apply (wait_ends never_up somewhere ada sleep_clock never_up_clock). Defined.

(** ** Scaling and stopping *)

(** The tool that scales: it looks at the cluster that was named, and scales it only right
    after the gateway said that it is running. *)
Theorem scale_waits svc cf user fuel name n_workers : mon (may cf user) (Has (Some name) false) (scale_dask_cluster svc cf user fuel name n_workers)
  (fun r _ => n_workers < 0 -> exists f, r = Err (Fails f)).
Proof.
  unfold scale_dask_cluster, _validate_cluster_name, _check_worker_count. apply mon_bind.
  destruct (_CLUSTER_NAME_RE name); [apply mon_ret|apply mon_raise; eauto]. apply mon_bind.
  destruct (Z.ltb_spec n_workers 0) as [|Hn]; [apply mon_raise; eauto|apply mon_ret]. apply mon_bind.
  eapply mon_mono; [apply await_mon|]. intros [[status waited]|e] p; [|intros; lia]. destruct (String.eqb status "RUNNING"); cbn [negb].
  - intros ->. apply mon_bind. eapply mon_mono; [apply scale_mon|]. intros [clamped|e] p [-> _]; [|lia]. apply mon_ret. lia.
  - intros _. apply mon_ret. lia.
Qed.
(** A name that the tools take stays within the path of one cluster, but for a last newline. *)
Lemma cluster_name_plain name : _CLUSTER_NAME_RE name = true -> str_existsb (Ascii.eqb "/") name = false.
Proof.
  unfold _CLUSTER_NAME_RE. intros [_ H]%andb_true_iff. unfold removesuffix in H. destruct (endswith newline name) eqn:E.
  - unfold endswith in E. apply andb_true_iff in E as [Hl Hd]. apply String.eqb_eq in Hd. apply Nat.leb_le in Hl. cbn [newline String.length] in *.
    rewrite <- (str_take_drop (String.length name - 1) name), Hd, str_existsb_app. cbn. rewrite orb_false_r.
    eapply (exists_of_forall name_char); [|exact H]. by intros c; destruct c as [[] [] [] [] [] [] [] []].
  - eapply (exists_of_forall name_char); [|exact H]. by intros c; destruct c as [[] [] [] [] [] [] [] []].
Qed.
(** Two names that are none of the gateway's are taken: one with a newline, and [..]. *)
Lemma odd_cluster_names : map _CLUSTER_NAME_RE ["cms.0a" ++ newline; ".."; "a/b"; ""]%string = [true; true; false; false].
Proof. reflexivity. Qed.
(** A gateway whose clusters run at once, and a user who asks for fewer workers than none. *)
Definition eager (h : list Ev) (r : Req) : Ans r :=
  match r with
  | Monotonic => 0%Q
  | Http c => inl (mkResp 200 (Some "") (Some (JObj [("name", JStr "cms.0a"); ("status", JStr "running")])))
  | PromGet _ _ _ => inl (mkResp 200 (Some "") None)
  | Elicit _ schema => if String.eqb (sc_name schema) "_CountChoice" then Some [("count", JStr "-5")] else if String.eqb (sc_name schema) "_SizeChoice" then Some [("size", JStr "default")] else Some [("env_source", JStr "global")]
  | Sleep _ => tt | FreeCached => None | FreeStore _ => tt | Time => 0%Q | Dashboard => None
  end%string.
Definition counts_asked (h : list Ev) : list json :=
  omap (fun e : Ev => match e with existT (Http c) _ => if endswith "/scale" (c_url c) then c_json c else None | _ => None end) h.
(** A count that is given is refused below 0 before anything is made; one that the user is
    asked for is a text, is not looked at, and is asked of a cluster that is there by then. *)
Lemma asked_count_unchecked :
  let '(r, _, h) := create_dask_cluster eager somewhere ada 1 (mkCreate None None "default" None None None None None) tt [] in
  (match r with Ok text => startswith "Cluster 'cms.0a' created." text | Err _ => false end) = true /\ counts_asked h = [JObj [("count"%string, JInt (-5))]].
Proof. vm_compute. split; reflexivity. Qed.
