(* ===== verification/AgProfiles.v ===== *)
(** The session profiles that the agentic interface knows,
    [docker/agentic-interface/tools/profiles.py]: they are read from the Hub's
    configuration, kept for five minutes, and the last good ones for as long as no other
    are read. [yaml.safe_load] gives a JSON value, its keys as texts; where a value is of
    another kind than a profile has, an error is raised. *)
From S2P Require Import Prelude PyJson PyText PyTime PyFloat PyValue AgErrors AgAuth AgTools.
Open Scope Z_scope.

Definition _K8S_API : string := "https://kubernetes.default.svc".
Definition _CONFIGMAP : string := "jupyterhub-config".

(** An option's choices by key, with their labels, and the GPUs that some ask for. *)
Record Choices := mkChoices { o_display_name : string; o_choices : list (string * string); o_default : option string; o_gpu : list (string * string) }.
Record Profile := mkProfile { display_name : string; slug : string; is_default : bool; description : string; options : list (string * Choices) }.

Definition _slug (name : string) : string :=
  str_strip_of (fun c => Ascii.eqb c "-") (sub_runs is_alnum_lower false (str_lower name)).
Definition _gpu_label (label : string) (resource : option string) (free : option (list (string * Z))) : string :=
  match resource, free with
  | Some resource, Some free =>
      if String.eqb resource "" then label else
      let base := removesuffix " - subject to availability" label in
      let count := dget_or resource 0 free in
      if count <=? 0 then base ++ " — none available right now (do not select)" else base ++ " — " ++ pretty count ++ " available now"
  | _, _ => label
  end.
(** [None] where it raises. *)
Fixpoint gpu_in (limits : list (string * json)) : option string :=
  match limits with
  | [] => None
  | (resource, amount) :: limits =>
      if startswith "nvidia.com/" resource && (match int_of amount with Some n => 0 <? n | None => false end) then Some resource else gpu_in limits
  end.
Definition _gpu_resource (override : json) : option (option string) :=
  limits ← get_of "extra_resource_limits" (j_or override (JObj []));
  match j_or limits (JObj []) with JObj o => Some (gpu_in o) | _ => None end.

(** [re.sub(r"<[^>]+>", "", s)] *)
Fixpoint drop_tags (fuel : nat) (s : string) : string :=
  match fuel, s with
  | S fuel, String c s' =>
      match (if Ascii.eqb c "<" then tag_end s' else None) with Some rest => drop_tags fuel rest | None => String c (drop_tags fuel s') end
  | _, _ => ""
  end.
(** One choice: its label, whether it is a default, and the GPU that it asks for. *)
Definition choice_of (ck : string) (cv : json) : option (string * bool * option string) :=
  if is_obj cv then gpu ← _gpu_resource (jget "kubespawner_override" cv); Some (str_of (jget_or "display_name" (JStr ck) cv), truthy (jget "default" cv), gpu)
  else Some (str_of cv, false, None).
Definition add_choice (acc : Choices) (kv : string * json) : option Choices :=
  '(label, dflt, gpu) ← choice_of kv.1 kv.2;
  Some (mkChoices (o_display_name acc) (dset kv.1 label (o_choices acc))
    (match o_default acc with Some d => Some d | None => if dflt : bool then Some kv.1 else None end)
    (match gpu with Some resource => if String.eqb resource "" then o_gpu acc else dset kv.1 resource (o_gpu acc) | None => o_gpu acc end)).
(** The items of [j or {}]. *)
Definition items_or (j : json) : option (list (string * json)) := match j_or j (JObj []) with JObj o => Some o | _ => None end.
Definition option_of (kv : string * json) : option (string * Choices) :=
  choices ← get_of "choices" kv.2; items ← items_or choices;
  name ← get_else "display_name" (JStr kv.1) kv.2;
  parsed ← ofold add_choice (mkChoices (str_of name) [] None []) items;
  Some (kv.1, parsed).
Definition profile_of (p : json) : option Profile :=
  match jget_or "display_name" (JStr "") p, jget_or "description" (JStr "") p with
  | JStr name, JStr raw_desc =>
      items ← items_or (jget "profile_options" p);
      opts ← mapM option_of items;
      Some (mkProfile name (match jget "slug" p with JStr s => or_else s (_slug name) | _ => _slug name end)
        (truthy (jget "default" p)) (str_strip (drop_tags (String.length raw_desc) raw_desc)) opts)
  | _, _ => None
  end.
Section Profiles.
Context (safe_load : string -> option json).
Definition _parse_profiles (values_yaml : string) : option (list Profile) :=
  match safe_load values_yaml with
  | Some values =>
      let singleuser := j_or (jget "singleuser" values) (JObj []) in
      match jget "profileList" singleuser with JArr raw => mapM profile_of (List.filter is_obj raw) | _ => Some [] end
  | None => Some []
  end.

(** ** Reading them *)

(** The cached profiles, if they are fresh; the token of the service account, if there is
    one; the Hub's ConfigMap. *)
Inductive PReq := Fresh | Store (profiles : list Profile) | ReadToken | GetConfigMap (url token : string).
Definition PAns (r : PReq) : Type :=
  match r with Fresh => option (list Profile) | Store _ => unit | ReadToken => option string | GetConfigMap _ _ => (Resp + RequestExc)%type end.
(** What was read last, and why the last read failed. *)
Record Kept := mkKept { _last_good : list Profile; _last_error : option string }.
#[local] Instance eta_kept : Eta Kept := {| eta_of := fun k => mkKept (_last_good k) (_last_error k) |}.
Definition PM (A : Type) : Type := M (sigT PAns) Kept Exc A.
Context (svc : service PReq PAns) (namespace : string).
Definition failing (why : string) : PM (option string) := mmod (fun k => k <| _last_error := Some why |>) ≫= fun _ => mret None.
Definition values_in (resp : Resp) : json :=
  match json_body resp with Some payload => jget "values.yaml" (jget "data" payload) | None => JNull end.
Definition _read_configmap : PM (option string) :=
  token ← (mcall svc ReadToken : PM (option string));
  match token with
  | None => failing "this service is not running inside Kubernetes (no service-account token), so the JupyterHub configuration cannot be read"
  | Some token =>
      reply ← (mcall svc (GetConfigMap (_K8S_API ++ "/api/v1/namespaces/" ++ namespace ++ "/configmaps/" ++ _CONFIGMAP) (str_strip token)) : PM (Resp + RequestExc));
      match reply with
      | inr exc => failing ("Kubernetes API unreachable — " ++ describe_exception exc)
      | inl resp =>
          let code := status_code resp in
          if code =? 403 then failing ("the agentic-interface service account is not allowed to read ConfigMap '" ++ _CONFIGMAP ++ "' in namespace '" ++ namespace ++ "' (Kubernetes API HTTP 403) — an RBAC problem on the facility side")
          else if code =? 404 then failing ("ConfigMap '" ++ _CONFIGMAP ++ "' does not exist in namespace '" ++ namespace ++ "' (Kubernetes API HTTP 404)")
          else if negb (code =? 200) then
            let detail := response_detail resp 120 in
            failing ("Kubernetes API returned HTTP " ++ pretty code ++ (if String.eqb detail "" then "" else " — " ++ detail))
          else match values_in resp with
          | JNull => failing ("ConfigMap '" ++ _CONFIGMAP ++ "' has no values.yaml entry")
          | values => mmod (fun k => k <| _last_error := None |>) ≫= fun _ => mret (Some (str_of values))
          end
      end
  end.
(** With the lock held: another task may have read them meanwhile. *)
Definition refresh : PM (list Profile) :=
  fresh ← (mcall svc Fresh : PM (option (list Profile)));
  match fresh with
  | Some profiles => mret profiles
  | None =>
      raw ← _read_configmap;
      let stale : PM (list Profile) := k ← mget; mret (_last_good k) in
      match raw with
      | Some raw =>
          if String.eqb raw "" then stale else
          match _parse_profiles raw with
          | None => raise Uncaught
          | Some [] => mmod (fun k => k <| _last_error := Some "the JupyterHub configuration was read but contains no parseable singleuser.profileList"%string |>) ≫= fun _ => stale
          | Some profiles => (mcall svc (Store profiles) : PM unit) ≫= fun _ => mmod (fun k => k <| _last_good := profiles |>) ≫= fun _ => mret profiles
          end
      | None => stale
      end
  end.
Definition get_profiles : PM (list Profile) :=
  fresh ← (mcall svc Fresh : PM (option (list Profile)));
  match fresh with Some profiles => mret profiles | None => refresh end.
End Profiles.

Definition labelled_choices (option : Choices) : list (string * string) :=
  map (fun kv => (kv.1, if bool_decide (o_default option = Some kv.1) then (kv.2 ++ " (default)")%string else kv.2)) (o_choices option).
(** By slug or display name; of the name alone the case does not matter. *)
Definition find_profile (profiles : list Profile) (name : string) : option Profile :=
  let key := str_lower (str_strip name) in
  List.find (fun p => String.eqb (slug p) key || String.eqb (str_lower (display_name p)) key) profiles.
Definition in_quotes (s : string) : string := String "034" (s ++ String "034" "").
Definition choice_lines (free : option (list (string * Z))) (option : Choices) : list string :=
  map (fun kv => "    `" ++ in_quotes kv.1 ++ "` → " ++ _gpu_label kv.2 (dget kv.1 (o_gpu option)) free)%string (labelled_choices option).
Definition profile_text (free : option (list (string * Z))) (p : Profile) : string :=
  str_join (String "010" "")
    ([("## " ++ display_name p ++ if is_default p then "  *(default)*" else "")%string; ("slug: `" ++ in_quotes (slug p) ++ "`")%string]
     ++ (if String.eqb (description p) "" then [] else ["_" ++ description p ++ "_"]%string)
     ++ match options p with
        | [] => []
        | opts => (String "010" "" ++ "Option keys and valid values:")%string
            :: concat (map (fun kv => ("  **" ++ in_quotes kv.1 ++ "** — " ++ o_display_name kv.2)%string :: choice_lines free kv.2) opts)
        end)%list.
Definition has_gpu (profiles : list Profile) : bool := existsb (fun p => existsb (fun kv => match o_gpu kv.2 with [] => false | _ => true end) (options p)) profiles.
(** The tool's answer, from the profiles, why there are none, and the GPUs that are free. *)
Definition list_af_profiles (profiles : list Profile) (error : option string) (free : option (list (string * Z))) (gpu_error : option string) : res Exc string :=
  match profiles with
  | [] => Err (Fails (UpstreamError ("Could not read profile list — " ++ or_else (default ""%string error) "unknown reason"
            ++ ". This is a problem on the facility side, not with the request: try again in a minute, and contact AF support if it persists. start_af_session(use_defaults=True) still works — the Hub applies its own default profile.")))
  | _ =>
      let free := if has_gpu profiles then free else None in
      Ok (str_join (String "010" (String "010" ""))
        (("# " ++ pretty (Z.of_nat (List.length profiles)) ++ " available profile(s)" ++ String "010" "")%string :: map (profile_text free) profiles
         ++ if has_gpu profiles && negb (match free with Some _ => true | None => false end)
            then ["Note: live GPU availability is unknown right now (" ++ or_else (default "" gpu_error) (PROMETHEUS_NAME ++ " did not answer")
                  ++ "), so GPU choices are listed without live counts and a GPU flavour may turn out to be exhausted when the session starts."]%string
            else [])%list)
  end.
Example parsed :
  option_map (map (fun p => (slug p, is_default p, description p, map (fun kv => (kv.1, o_choices kv.2, o_default kv.2, o_gpu kv.2)) (options p))))
    (_parse_profiles (fun _ => Some (JObj [("singleuser", JObj [("profileList", JArr [JObj [("display_name", JStr "A GPU -- big"); ("description", JStr "<b>fast</b> "); ("default", JBool true);
      ("profile_options", JObj [("0-gpu", JObj [("choices", JObj [("none", JStr "No GPU"); ("a", JObj [("display_name", JStr "A100"); ("default", JBool true); ("kubespawner_override", JObj [("extra_resource_limits", JObj [("nvidia.com/gpu", JStr "1")])])])])])])]])])])) "")
  = Some [("a-gpu-big", true, "fast", [("0-gpu", [("none", "No GPU"); ("a", "A100")], Some "a", [("a", "nvidia.com/gpu")])])]%string.
Proof. vm_compute. reflexivity. Qed.

(** *** Lemmas *)

Section Reasons.
Context (safe_load : string -> option json) (svc : service PReq PAns) (namespace : string).
(** The configuration that was read is an empty text. *)
Definition read_empty : Prop := exists h url token resp, svc h (GetConfigMap url token) = inl resp /\ str_of (values_in resp) = ""%string.
Definition read_told (k : Kept) (r : res Exc (option string)) (k' : Kept) : Prop :=
  _last_good k' = _last_good k /\
  match r with Ok None => _last_error k' <> None | Ok (Some raw) => raw = ""%string -> read_empty | Err _ => True end.
Lemma failing_told why k h : wp (failing why) k h (fun r k' _ => read_told k r k').
Proof. unfold failing. by apply wp_bind, wp_mod, wp_ret. Qed.
Lemma configmap_told k h : wp (_read_configmap svc namespace) k h (fun r k' _ => read_told k r k').
Proof.
  unfold _read_configmap. do 2 wp_step. destruct (svc _ ReadToken); [|apply failing_told]. do 2 wp_step.
  destruct (svc _ (GetConfigMap _ _)) as [resp|exc] eqn:Er; [|apply failing_told]. cbv zeta. repeat (case_match; [by apply failing_told|]).
  destruct (values_in resp) eqn:Ev; [apply failing_told|..]; apply wp_bind, wp_mod, wp_ret; (split; [done|]); intros E; rewrite <- Ev in E.
  all: do 4 eexists; split; [exact Er|exact E].
Qed.
(** A list that is empty has a reason, unless what was read is an empty text; and what was
    good once is given as long as nothing else is. The cache never holds an empty list. *)
Lemma refresh_reason k h : (forall h, svc h Fresh <> Some []) ->
  wp (refresh safe_load svc namespace) k h (fun r k' _ => forall l, r = Ok l ->
    (_last_good k <> [] -> l <> []) /\ (l = [] -> _last_error k' <> None \/ read_empty)).
Proof.
  intros Hfresh. unfold refresh. do 2 wp_step. destruct (svc _ Fresh) as [profiles|] eqn:Ef.
  { apply wp_ret. intros l [= <-]. assert (profiles <> []) by (intros ->; by apply (Hfresh h)). by split. }
  apply wp_bind. eapply wp_mono; [apply configmap_told|]. intros [[raw|]|e] k' h' [Hg Hr]; [|do 2 wp_step; apply wp_ret; intros l [= <-]; rewrite Hg; auto|done].
  destruct (String.eqb_spec raw ""); [do 2 wp_step; apply wp_ret; intros l [= <-]; rewrite Hg; auto|].
  destruct (_parse_profiles safe_load raw) as [[|p ps]|]; [| |by apply wp_raise].
  - apply wp_bind, wp_mod, wp_bind, wp_get, wp_ret. intros l [= <-]. cbn. rewrite Hg. split; [done|]. by left.
  - do 2 wp_step. apply wp_bind, wp_mod, wp_ret. by intros l [= <-].
Qed.
End Reasons.
(** An empty configuration: no profiles, and no reason. *)
Definition empty_config (h : list (sigT PAns)) (r : PReq) : PAns r :=
  match r with
  | Fresh => None | Store _ => tt | ReadToken => Some "t"
  | GetConfigMap _ _ => inl (mkResp 200 (Some "") (Some (JObj [("data", JObj [("values.yaml", JStr "")])])))
  end%string.
Lemma empty_config_no_reason : (get_profiles (fun _ => None) empty_config "cms" (mkKept [] None) []).1 = (Ok [], mkKept [] None).
Proof. reflexivity. Qed.
