(* ===== verification/AgUsage.v ===== *)
(** What the agentic interface's tools tell a caller of what they use, from Prometheus:
    their storage, [docker/agentic-interface/tools/storage.py], and the workers of their
    Dask clusters, the last two tools of [tools/dask.py]. *)
From S2P Require Import Prelude PyJson PyText PyFloat PyValue PyFormat AgErrors AgAuth AgTools AgScope AgDask.
Open Scope Z_scope.

Notation fails := AgTools.fails.
Notation TM := AgTools.TM.
Notation service_of := (service AgTools.Req AgTools.Ans).
Definition eol : string := String "010" "".
Definition dquote (s : string) : string := (String "034" s ++ String "034" "")%string.

(** ** Storage *)

Definition _DIRS : list string := ["home"; "work"]%string.
Definition dir_reading_query (prefix metric selector : string) : string :=
  "af_" ++ prefix ++ "_dir_" ++ metric ++ "{" ++ selector ++ "} and on(pod) af_" ++ prefix ++ "_dir_ok{" ++ selector ++ "} == 1".
Fixpoint repeated (n : nat) (s : string) : string := match n with O => "" | S n => s ++ repeated n s end.
(** What is not finite raises. *)
Definition _bar (fraction : float) : option string :=
  n ← f_round (f_mul fraction (Fin 20));
  let filled := Z.to_nat (Z.max 0 (Z.min 20 n)) in
  Some (repeated filled "█" ++ repeated (20 - filled) "░")%string.
Definition selector_of (username : string) : string := "username=" ++ dquote (quote_label username).
Definition Reading : Type := option float * option string.
Definition kib_to_gib (x : float) : option float := x ← f_div x (Fin 1024); f_div x (Fin 1024).
Definition dir_row (prefix : string) (used_kb size_kb util : float + unit) : option string :=
  match used_kb, size_kb with
  | inl used_kb, inl size_kb =>
      used_gb ← kib_to_gib used_kb; size_gb ← kib_to_gib size_kb;
      share ← match util with inl u => Some u | inr _ => if f_true size_kb then f_div used_kb size_kb else Some (Fin 0) end;
      let pct := f_mul share (Fin 100) in
      fraction ← f_div pct (Fin 100); bar ← _bar fraction;
      Some ("/" ++ prefix ++ "/" ++ eol ++ "  " ++ fixed_f 2 used_gb ++ " GB / " ++ fixed_f 2 size_gb ++ " GB  [" ++ bar ++ "]  " ++ fixed_f 1 pct ++ "%" ++ eol)%string
  | _, _ => Some ("/" ++ prefix ++ "/: no data" ++ eol)%string
  end.
Definition or_none (r : Reading) : float + unit := match r.1 with Some x => inl x | None => inr tt end.
Definition has_data (readings : Reading * Reading * Reading) : bool :=
  match readings.1.1.1, readings.1.2.1 with Some _, Some _ => true | _, _ => false end.
Definition problems_of (readings : Reading * Reading * Reading) : list string := omap snd [readings.1.1; readings.1.2; readings.2].
(** A reading that failed is none of no data. *)
Definition storage_report (per_dir : list (string * (Reading * Reading * Reading))) : TM string :=
  let problems := concat (map (fun d => problems_of d.2) per_dir) in
  rows ← must (mapM (fun d => dir_row d.1 (or_none d.2.1.1) (or_none d.2.1.2) (or_none d.2.2)) per_dir);
  if negb (existsb (fun d => has_data d.2) per_dir) then
    match problems with
    | problem :: _ => fails (UpstreamError ("Error: could not read storage metrics — " ++ PROMETHEUS_NAME ++ " " ++ problem
        ++ ". This is a monitoring problem, not a quota problem: your storage is unaffected. Try again in a minute; get_facility_health shows whether the facility itself is degraded."))
    | [] => mret "No storage metrics in Prometheus for this user — the session may not be running, or af-pod-monitor may still be initialising (first reading takes up to 5 minutes after pod start)."%string
    end
  else mret (str_join eol (("# Storage usage (data age ≤ 5 min)" ++ eol)%string :: rows
    ++ match problems with
       | problem :: _ => ["Note: some readings could not be fetched — " ++ PROMETHEUS_NAME ++ " " ++ problem ++ ". Missing figures above are a monitoring gap, not empty storage."]%string
       | [] => [] end)%list).
Section Usage.
Context (svc : service_of) (cf : AgTools.Config) (user : AgAuth.User).
Definition dir_metrics (prefix : string) : TM (Reading * Reading * Reading) :=
  let ask_ metric := prom_value svc (PROMETHEUS_URL cf) (dir_reading_query prefix metric (selector_of (u_name user))) 5 in
  used ← ask_ "used_kb"%string; size ← ask_ "size_kb"%string; util ← ask_ "util"%string; mret (used, size, util).
Fixpoint each_dir (dirs : list string) : TM (list (string * (Reading * Reading * Reading))) :=
  match dirs with [] => mret [] | d :: dirs => r ← dir_metrics d; rest ← each_dir dirs; mret ((d, r) :: rest) end.
Definition query_storage_usage : TM string := per_dir ← each_dir _DIRS; storage_report per_dir.

(** ** Dask workers *)

Definition first_problem (l : list (option string)) : option string := List.hd_error (omap id l).
(** The labels of a series; of another kind they raise. *)
Definition state_name (metric : json) : option string := if is_obj metric then Some (let s := jget "state" metric in if truthy s then str_of s else ""%string) else None.
Definition state_parts (by_state : list (json * float)) : option (list string) :=
  named ← mapM (fun mv => state ← state_name mv.1; Some (state, mv.2)) by_state;
  mapM (fun sv => n ← int_of_float sv.2; Some (or_else sv.1 "?" ++ "=" ++ pretty n)%string) (List.filter (fun sv => f_true sv.2) (sort_by fst named)).
Definition get_dask_worker_count (cluster_name : string) : TM string :=
  _validate_cluster_name cluster_name ≫= fun _ =>
  _require_owned_cluster svc cf user cluster_name ≫= fun _ =>
  let matcher := ("{user=" ++ dquote (quote_label (u_name user)) ++ ",pod=" ++ dquote ("dask-scheduler-" ++ _cluster_id cluster_name) ++ "}")%string in
  let base := PROMETHEUS_URL cf in
  '(total, p1) ← prom_value svc base ("sum(dask_scheduler_workers" ++ matcher ++ ")")%string 8;
  '(by_state, p2) ← prom_samples svc base ("sum by (state) (dask_scheduler_workers" ++ matcher ++ ")")%string 8;
  '(desired, p3) ← prom_value svc base ("sum(dask_scheduler_desired_workers" ++ matcher ++ ")")%string 8;
  match first_problem [p1; p2; p3], total with
  | Some problem, _ => fails (UpstreamError ("Error: could not read worker metrics for '" ++ cluster_name ++ "' — " ++ PROMETHEUS_NAME ++ " " ++ problem
      ++ ". The cluster itself may be fine: get_dask_cluster_info shows the gateway's own view of its workers."))
  | None, None => mret ("No worker metrics for cluster '" ++ cluster_name ++ "' (scheduler may still be starting, or metrics are stale).")%string
  | None, Some total =>
      n ← must (int_of_float total);
      desired_lines ← (match desired with Some d => d ← must (int_of_float d); mret ["desired: " ++ pretty d]%string | None => mret [] end : TM (list string));
      parts ← must (state_parts by_state);
      mret (str_join eol (["# Workers for " ++ cluster_name; "total: " ++ pretty n]%string ++ desired_lines
        ++ match parts with [] => [] | _ => ["by state: " ++ str_join ", " parts]%string end)%list)
  end.
Definition _stats (values : list float) : option (option (float * float * float)) :=
  match values with
  | [] => Some None
  | x :: l => avg ← f_div (f_sum values) (Fin (qz (Z.of_nat (List.length values)))); Some (Some (f_min x l, f_max x l, avg))
  end.
(** Each divided by [unit]. *)
Definition stats_lines (title : string) (n : nat) (unit : Q) (values : list float) : option (list string) :=
  stats ← _stats values;
  match stats with
  | None => Some [title ++ ": no data"]%string
  | Some (lo, hi, avg) =>
      texts ← mapM (fun x => x ← f_div x (Fin unit); Some (fixed_f n x)) [lo; hi; avg; f_sum values];
      match texts with
      | [lo; hi; avg; total] => Some [title ++ ":"; "  min=" ++ lo ++ "  max=" ++ hi ++ "  avg=" ++ avg ++ "  total=" ++ total]%string
      | _ => None
      end
  end.
(** [re.escape] of the ID; only the pods that run. *)
Definition worker_pods (cluster_name : string) : string := "dask-worker-" ++ regex_escape (_cluster_id cluster_name) ++ "-.+".
Definition usage_queries (cluster_name : string) : string * string :=
  let ns := ("{namespace=" ++ dquote (AgTools.NAMESPACE cf))%string in
  let pods := ("pod=~" ++ dquote (worker_pods cluster_name))%string in
  let running := (" * on(namespace,pod) group_left kube_pod_status_phase" ++ ns ++ ",phase=" ++ dquote "Running" ++ "," ++ pods ++ "}")%string in
  let workers := (ns ++ "," ++ pods ++ ",container=" ++ dquote "dask-worker" ++ "}")%string in
  ("sum by (pod) (rate(container_cpu_usage_seconds_total" ++ workers ++ "[2m])" ++ running ++ ")",
   "sum by (pod) (container_memory_working_set_bytes" ++ workers ++ running ++ ")")%string.
Definition get_dask_cluster_usage (cluster_name : string) : TM string :=
  _validate_cluster_name cluster_name ≫= fun _ =>
  _require_owned_cluster svc cf user cluster_name ≫= fun _ =>
  let '(cpu_q, mem_q) := usage_queries cluster_name in
  '(cpu_rows, p1) ← prom_samples svc (CLUSTER_PROMETHEUS_URL cf) cpu_q 8;
  '(mem_rows, p2) ← prom_samples svc (CLUSTER_PROMETHEUS_URL cf) mem_q 8;
  match first_problem [p1; p2] with
  | Some problem => fails (UpstreamError ("Error: could not read resource usage for '" ++ cluster_name ++ "' — " ++ CLUSTER_PROMETHEUS_NAME ++ " " ++ problem
      ++ ". The cluster itself may be fine: get_dask_worker_count and get_dask_cluster_info do not depend on this data."))
  | None =>
      let cpu_vals := map snd cpu_rows in let mem_vals := map snd mem_rows in
      let n := Nat.max (List.length cpu_vals) (List.length mem_vals) in
      if (n =? 0)%nat then
        mret ("No Running worker pods with usage metrics for '" ++ cluster_name ++ "'. The cluster may have zero workers, or metrics are not scraped yet.")%string
      else
        cpu ← must (stats_lines "CPU (cores)" 3 1 cpu_vals);
        mem ← must (stats_lines "Memory (GiB)" 2 (qz (1024 ^ 3)) mem_vals);
        mret (str_join eol (["# Resource usage for " ++ cluster_name; "running workers sampled: " ++ pretty (Z.of_nat n)]%string ++ cpu ++ mem)%list)
  end.
End Usage.

(** ** A caller's name within a query *)

(** A label's text in quotation marks as PromQL and LogQL read it: up to the mark that ends
    it, a backslash before what it escapes. *)
Fixpoint read_label (s : string) : option (string * string) :=
  match s with
  | EmptyString => None
  | String c s' =>
      if Ascii.eqb c "034" then Some (EmptyString, s')
      else if Ascii.eqb c "092" then
        match s' with
        | String d s'' =>
            if Ascii.eqb d "034" || Ascii.eqb d "092" then '(t, rest) ← read_label s''; Some (String d t, rest) else None
        | EmptyString => None
        end
      else '(t, rest) ← read_label s'; Some (String c t, rest)
  end.
Lemma quote_label_cons c s : quote_label (String c s) =
  if Ascii.eqb c "034" || Ascii.eqb c "092" then String "092" (String c (quote_label s)) else String c (quote_label s).
Proof.
  unfold quote_label. cbn [str_replace]. destruct (Ascii.eqb_spec c "092") as [->|Hb]; [reflexivity|]. rewrite orb_false_r.
  cbn [str_replace]. destruct (Ascii.eqb_spec c "034") as [->|Hq]; reflexivity.
Qed.
(** Whatever a name holds, it ends where it is meant to in the query that it is put in, and
    is read back as it is. *)
Theorem label_reads_back name rest : read_label (quote_label name ++ String "034" rest) = Some (name, rest).
Proof.
  induction name as [|c s IH]; [done|]. rewrite quote_label_cons.
  destruct (Ascii.eqb_spec c "034") as [->|Hq]; cbn [orb].
  - change (String "092" (String "034" (quote_label s)) ++ String "034" rest)%string with (String "092" (String "034" (quote_label s ++ String "034" rest))).
    cbn [read_label]. cbn [Ascii.eqb Bool.eqb orb]. by rewrite IH.
  - destruct (Ascii.eqb_spec c "092") as [->|Hb].
    + change (String "092" (String "092" (quote_label s)) ++ String "034" rest)%string with (String "092" (String "092" (quote_label s ++ String "034" rest))).
      cbn [read_label]. cbn [Ascii.eqb Bool.eqb orb]. by rewrite IH.
    + change (String c (quote_label s) ++ String "034" rest)%string with (String c (quote_label s ++ String "034" rest)). cbn [read_label].
      rewrite (proj2 (Ascii.eqb_neq _ _) Hq), (proj2 (Ascii.eqb_neq _ _) Hb). by rewrite IH.
Qed.
(** No data is told of only where every reading was made: a reading that failed is a failure
    if there is no data, and is named if there is some. *)
Lemma storage_honest per_dir : (exists p, p ∈ concat (map (fun d => problems_of d.2) per_dir)) ->
  match (storage_report per_dir tt []).1.1 with
  | Ok text => existsb (fun d => has_data d.2) per_dir = true
  | Err e => (exists m, e = AgTools.Fails (UpstreamError m)) \/ e = AgTools.Uncaught
  end.
Proof.
  intros [p Hp]. unfold storage_report. destruct (mapM _ per_dir) as [rows|]; [|by right]. cbn [must]. unfold mbind, m_bind, mret, m_ret.
  destruct (existsb _ per_dir) eqn:E; [done|]. cbn [negb]. destruct (concat _) as [|q l]; [by apply elem_of_nil in Hp|]. left. by eexists.
Qed.
