(* ===== verification/AgLogs.v ===== *)
(** The log tools of the agentic interface, [docker/agentic-interface/tools/logs.py]: the
    lines that Loki keeps of the caller's pods. A year has four digits; what
    [datetime.fromisoformat] makes of a text is a parameter: the instant, UTC's where the
    text names no zone. *)
From S2P Require Import Prelude PyJson PyText PyTime PyFloat PyValue PyFormat AgErrors AgAuth AgTools AgUsage.
Open Scope Z_scope.

Definition _SERVICE : string := "the log store (Loki)".

(** ** Times *)

Section Times.
Context (isoformat : string -> option Q).
Definition billion : float := Fin (qz (10 ^ 9)).
(** [str(int(t * 1e9))]: of what is not finite it raises. *)
Definition nanoseconds (t : float) : option string := option_map pretty (int_of_float (f_mul t billion)).
Definition unit_of (c : ascii) : option Z :=
  if Ascii.eqb c "d" then Some 86400 else if Ascii.eqb c "h" then Some 3600 else if Ascii.eqb c "m" then Some 60 else if Ascii.eqb c "s" then Some 1 else None.
(** [re.fullmatch(r"(\d+)([dhms])", value)]: the number and the unit. *)
Fixpoint duration_of (units : ascii -> option Z) (acc : Z) (digits : bool) (value : string) : option (Z * Z) :=
  match value with
  | EmptyString => None
  | String c rest =>
      if is_digit c then duration_of units (10 * acc + (chr_code c - 48)) true rest
      else if digits && String.eqb rest "" then unit ← units c; Some (acc, unit) else None
  end.
(** An int too large for a float raises. *)
Definition float_int (n : Z) : option float := match f_of (qz n) with Fin q => Some (Fin q) | _ => None end.
Definition _to_ns (value : string) (now_s : float) : option string :=
  let value := str_strip value in
  if String.eqb (str_lower value) "now" then nanoseconds now_s
  else match duration_of unit_of 0 false value with
  | Some (n, unit) => ago ← float_int (n * unit); nanoseconds (f_minus now_s ago)
  | None =>
      match isoformat (str_replace "Z" "+00:00" value) with
      | Some t => nanoseconds (f_of t)
      | None => Some value
      end
  end.
End Times.

(** ** Lines *)

(** What follows the first [] ], if there is one. *)
Fixpoint after_stamp (line : string) : option string :=
  match line with
  | EmptyString => None
  | String c rest => if startswith "] " line then Some (str_drop 2 line) else after_stamp rest
  end.
Definition _msg_key (line : string) : string := default line (after_stamp line).
Definition omitted (run : Z) : list string := if 1 <? run then ["  ↑ × " ++ pretty run ++ " identical lines omitted"]%string else [].
(** One more line after [prev]. *)
Fixpoint dedup_from (prev : string) (run : Z) (lines : list string) : list string :=
  match lines with
  | [] => omitted run
  | line :: lines =>
      if String.eqb (_msg_key line) (_msg_key prev) then dedup_from line (run + 1) lines
      else (omitted run ++ line :: dedup_from line 1 lines)%list
  end.
Definition _dedup (lines : list string) : list string :=
  match lines with [] => [] | line :: lines => line :: dedup_from line 1 lines end.
(** [datetime.fromtimestamp(t, tz=utc).strftime('%Y-%m-%dT%H:%M:%SZ')], of the years that
    a date may have: a time is rounded to microseconds. *)
Definition utc_stamp (t : float) : option string :=
  match t with
  | Fin q =>
      let s := half_even (q * qz (10 ^ 6)) / 10 ^ 6 in
      if (-62135596800 <=? s) && (s <? 253402300800) then Some (iso_stamp s) else None
  | _ => None
  end.
Definition log_stamp (ts_ns : json) : option string := n ← int_of ts_ns; n ← float_int n; t ← f_div n billion; utc_stamp t.
Definition line_of (pod container : string) (value : json) : option string :=
  parts ← iter_of value;
  match parts with
  | [ts_ns; log_line] => stamp ← log_stamp ts_ns; Some ("[" ++ stamp ++ "] " ++ pod ++ "/" ++ container ++ ": " ++ str_of log_line)%string
  | _ => None
  end.
(** Nothing where a stream is of another kind than Loki's, which raises. *)
Definition stream_lines (stream : json) : option (list string) :=
  labels ← get_else "stream" (JObj []) stream;
  pod ← get_else "pod" (JStr "unknown") labels; container ← get_else "container" (JStr "unknown") labels;
  values ← get_else "values" (JArr []) stream; values ← iter_of values;
  mapM (line_of (str_of pod) (str_of container)) values.

(** ** Queries *)

Section Logs.
Context (svc : service Req Ans) (cf : Config) (user : User) (isoformat : string -> option Q).
Definition loki_call (params : list (string * string)) : Call :=
  mkCall "loki" "GET" (LOKI_URL cf ++ "/loki/api/v1/query_range") "" [] params None None 30.
Definition capped (limit : Z) : Z := Z.min limit 5000.
Definition given_text (o : option string) : option string := match o with Some s => if String.eqb s "" then None else Some s | None => None end.
Definition log_report (lines : list string) (limit : Z) (dedup : bool) : string :=
  match lines with
  | [] => "No logs found for the specified time range."
  | _ =>
      let truncated := capped limit <=? Z.of_nat (List.length lines) in
      let shown := if dedup then _dedup lines else lines in
      "# " ++ pretty (Z.of_nat (List.length shown)) ++ " line(s)"
      ++ (if truncated then " (limit=" ++ pretty limit ++ " reached — narrow the time range or add a filter)" else "") ++ eol ++ eol ++ str_join eol shown
  end.
Definition streams_in (resp : Resp) : option (list json) :=
  match json_body resp with Some payload => match jget "result" (jget "data" payload) with JArr streams => Some streams | _ => None end | None => None end.
Definition _loki_query (selector start : string) (end_ : option string) (limit : Z) (direction : string) (dedup : bool) : TM string :=
  now ← (mcall svc Time : TM Q);
  let now_s := f_of now in
  start_param ← must (_to_ns isoformat start now_s);
  end_param ← (match given_text end_ with Some e => p ← must (_to_ns isoformat e now_s); mret (Some p) | None => mret None end : TM (option string));
  let params := ([("query", selector); ("start", start_param); ("limit", pretty (capped limit)); ("direction", direction)]%string
    ++ match given_text end_param with Some e => [("end"%string, e)] | None => [] end)%list in
  reply ← (mcall svc (Http (loki_call params)) : TM (Resp + RequestExc));
  match reply with
  | inr exc => fails (unreachable _SERVICE exc "")
  | inl resp =>
      if status_code resp =? 400 then
        fails (UserError ("Error: " ++ _SERVICE ++ " rejected the query (HTTP 400) — " ++ or_else (response_detail resp 400) "no reason given"
          ++ ". The filter argument must be a LogQL pipe expression such as '|= " ++ dquote "ERROR" ++ "' or '|~ " ++ dquote "timeout|refused"
          ++ "', and start/end must be durations ('1h', '2d') or ISO-8601 timestamps."))
      else if negb (status_code resp =? 200) then fails (http_error _SERVICE resp "query logs" "")
      else
        match streams_in resp with
        | None => fails (malformed_response _SERVICE resp "a log query result" "")
        | Some streams => lines ← must (mapM stream_lines streams); mret (log_report (concat lines) limit dedup)
        end
  end.
Definition user_selector (container_matcher : string) : string :=
  "{namespace=" ++ dquote (NAMESPACE cf) ++ ",username=" ++ dquote (quote_label (u_name user)) ++ "," ++ container_matcher ++ "}".
Definition _user_logs (container_matcher start : string) (end_ : option string) (limit : Z) (direction : string) (pipeline : option string) (dedup : bool) : TM string :=
  let selector := user_selector container_matcher in
  let selector := match given_text pipeline with Some p => selector ++ " " ++ p | None => selector end%string in
  _loki_query selector start end_ limit direction dedup.
Definition query_notebook_logs := _user_logs ("container=" ++ dquote "notebook").
Definition query_dask_logs := _user_logs ("container!=" ++ dquote "notebook").
End Logs.
Example to_ns_values :
  map (fun v => _to_ns (fun _ => None) v (Fin 1000)) ["now"; " 90s "; "1h"; "x"; "h"]%string
  = [Some "1000000000000"; Some "910000000000"; Some "-2600000000000"; Some "x"; Some "h"]%string.
Proof. vm_compute. reflexivity. Qed.

(** ** Lines that repeat *)

(** A text as its runs of lines of one message, the longest ones. *)
Inductive msg_runs : option string -> list (list string) -> Prop :=
| runs_nil before : msg_runs before []
| runs_cons before line more groups :
    before <> Some (_msg_key line) -> Forall (fun l => _msg_key l = _msg_key line) more ->
    msg_runs (Some (_msg_key line)) groups -> msg_runs before ((line :: more) :: groups).
(** What is shown of a run: its first line, and how long it is if that is not all of it. *)
Definition shown (group : list string) : list string :=
  match group with [] => [] | line :: more => line :: omitted (1 + Z.of_nat (List.length more)) end.
Lemma dedup_from_runs lines prev run : exists more groups,
  lines = (more ++ concat groups)%list /\ Forall (fun l => _msg_key l = _msg_key prev) more /\ msg_runs (Some (_msg_key prev)) groups /\
  dedup_from prev run lines = (omitted (run + Z.of_nat (List.length more)) ++ concat (map shown groups))%list.
Proof.
  revert prev run. induction lines as [|line lines IH]; intros prev run; cbn [dedup_from].
  - exists [], []. cbn [List.length app concat map]. rewrite Z.add_0_r, app_nil_r. split; [done|]. split; [constructor|]. by split; [constructor|].
  - destruct (String.eqb_spec (_msg_key line) (_msg_key prev)) as [E|E].
    + destruct (IH line (run + 1)) as (more & groups & -> & Hm & Hg & ->). exists (line :: more), groups. rewrite E in Hm, Hg.
      split; [done|]. split; [by constructor|]. split; [done|]. do 2 f_equal. cbn. lia.
    + destruct (IH line 1) as (more & groups & -> & Hm & Hg & ->). exists [], ((line :: more) :: groups).
      split; [done|]. split; [constructor|]. split; [constructor; [congruence|done..]|]. cbn [concat map shown List.length]. by rewrite Z.add_0_r.
Qed.
(** Of lines that repeat the first of each run is kept, in order, with how long the run is;
    no line of another message is lost, and lines of two pods are never one run. *)
Theorem dedup_shows_runs lines : exists groups, msg_runs None groups /\ concat groups = lines /\ _dedup lines = concat (map shown groups).
Proof.
  destruct lines as [|line lines]; [exists []; by repeat constructor|]. cbn [_dedup].
  destruct (dedup_from_runs lines line 1) as (more & groups & -> & Hm & Hg & ->). exists ((line :: more) :: groups). by repeat constructor.
Qed.
(** A run of three has two lines left out, and says three. *)
Lemma omitted_counts_first : _dedup ["[t] p/c: a"; "[u] p/c: a"; "[v] p/c: a"]%string = ["[t] p/c: a"; "  ↑ × 3 identical lines omitted"]%string.
Proof. reflexivity. Qed.

(** ** Whose lines are asked for *)

Section Watch.
Context (svc : service Req Ans) (cf : Config) (user : User) (isoformat : string -> option Q) (matcher : string).
Definition own_start : string := "{namespace=" ++ dquote (NAMESPACE cf) ++ ",username=" ++ String "034" "".
(** The query is of the namespace's lines whose label is the caller's name, as Loki reads
    it, and of the tool's containers; what the caller adds comes after. *)
Definition of_caller (query : string) : bool :=
  startswith own_start query &&
  match read_label (str_drop (String.length own_start) query) with
  | Some (name, rest) => String.eqb name (u_name user) && startswith ("," ++ matcher ++ "}") rest
  | None => false
  end.
Definition may (asked : bool) (e : Ev) : option bool :=
  match e with
  | existT Time _ => if asked then None else Some false
  | existT (Http c) _ =>
      if negb asked && String.eqb (c_client c) "loki" && String.eqb (c_method c) "GET" && of_caller (default "" (dget "query" (c_params c))) then Some true else None
  | _ => None
  end.
Lemma of_caller_selector rest : of_caller (user_selector cf user matcher ++ rest) = true.
Proof.
  unfold of_caller, user_selector.
  assert (E : (("{namespace=" ++ dquote (NAMESPACE cf) ++ ",username=" ++ dquote (quote_label (u_name user)) ++ "," ++ matcher ++ "}") ++ rest
    = own_start ++ (quote_label (u_name user) ++ String "034" (("," ++ matcher ++ "}") ++ rest)))%string).
  { unfold own_start, dquote. rewrite !str_app_assoc. reflexivity. }
  rewrite E, startswith_app, str_drop_app, label_reads_back, String.eqb_refl, startswith_app. done.
Qed.
(** C18: Loki is asked once at most, and only for lines of the caller's own pods, whatever their
    name, the times and the filter are; without an answer of it no lines are given. *)
Theorem logs_own start end_ limit direction pipeline dedup :
  mon may false (_user_logs svc cf user isoformat matcher start end_ limit direction pipeline dedup)
    (fun r asked => match r with Err Uncaught => True | _ => asked = true end).
Proof.
  unfold _user_logs, _loki_query. cbv zeta. apply mon_bind. refine (mon_call may false svc Time _ _). intros now. exists false. split; [done|].
  apply mon_bind. destruct (_to_ns _ start _) as [t|]; [|by apply mon_raise]. apply mon_ret.
  apply mon_bind. apply (mon_mono may false _ (fun r asked => asked = false /\ match r with Err e => e = Uncaught | _ => True end)).
  { destruct (given_text end_); [|by apply mon_ret]. apply mon_bind. destruct (_to_ns _ _ _); [apply mon_ret; by apply mon_ret|by apply mon_raise]. }
  intros [endp|e] asked [-> He]; [clear He|by rewrite He].
  apply mon_bind. refine (mon_call may false svc (Http _) _ _). intros reply. exists true. split.
  - cbn [may negb loki_call c_client c_method c_params app dget]. rewrite decide_True by done. cbn [default from_option]. unfold id.
    assert (of_caller (match given_text pipeline with Some p => user_selector cf user matcher ++ " " ++ p | None => user_selector cf user matcher end)%string = true) as ->; [|done].
    destruct (given_text pipeline) as [p|]; [exact (of_caller_selector (" " ++ p))|]. rewrite <- (of_caller_selector ""). f_equal. symmetry. apply str_app_nil.
  - destruct reply as [resp|exc]; [|by apply mon_raise]. destruct (status_code resp =? 400)%Z; [by apply mon_raise|].
    destruct (negb _); [by apply mon_raise|]. destruct (streams_in resp) as [streams|]; [|by apply mon_raise].
    apply mon_bind. destruct (mapM stream_lines streams); [apply mon_ret; by apply mon_ret|by apply mon_raise].
Qed.
End Watch.
(** Lines of several pods are not merged: each pod's come together, whatever their times. *)
Definition stream_at (pod t line : string) : json :=
  JObj [("stream", JObj [("pod", JStr pod); ("container", JStr "c")]); ("values", JArr [JArr [JStr t; JStr line]])]%string.
Lemma streams_apart : mapM stream_lines [stream_at "b" "2000000000" "later"; stream_at "a" "1000000000" "sooner"]
  = Some [["[1970-01-01T00:00:02Z] b/c: later"]; ["[1970-01-01T00:00:01Z] a/c: sooner"]]%string.
Proof. vm_compute. reflexivity. Qed.
