(* ===== verification/AgPromql.v ===== *)
(** The PromQL tools of the agentic interface, [docker/agentic-interface/tools/promql.py]:
    a caller's query is scoped by [AgScope] before Prometheus is asked, and the answer is
    printed. What [datetime.fromisoformat] makes of a text is a parameter, as in [AgLogs].
    A text's length is that of its bytes. *)
From S2P Require Import Prelude PyJson PyText PyTime PyFloat PyValue PyFormat AgErrors AgTools AgUsage AgLogs AgScope.
Open Scope Z_scope.

Notation Exc := AgScope.Exc.
Notation Fails := AgScope.Fails.
Notation Uncaught := AgScope.Uncaught.

(** ** Sources, times and limits *)

Definition DURATION_UNITS (c : ascii) : option Z := if Ascii.eqb c "w" then Some (7 * 86400) else unit_of c.
Definition MAX_RANGE : Z := 30 * 86400.
Definition MAX_POINTS : Z := 600.
Definition DEFAULT_POINTS : Z := 60.
Definition MIN_STEP : Z := 15.
Definition OWNED_LOOKBACK : Z := 86400.
Definition QUERY_TIMEOUT : Z := 30.
Definition MAX_SERIES : nat := 50.
Definition MAX_METRICS : nat := 100.
Definition MAX_CHARS : nat := Z.to_nat 30000.
Definition SCOPE_NOTE : string := "Series of other people's sessions, Dask clusters, Ray jobs and home directories are left out; get_facility_metrics has the facility's totals.".
Definition duration (text : string) : option (Z * Z) := duration_of DURATION_UNITS 0 false text.
Definition user_error (text : string) : Exc := Fails (UserError text).
Definition seconds (text what : string) : res Exc Z :=
  match duration (str_strip text) with
  | Some (n, unit) => Ok (n * unit)
  | None => Err (user_error ("Error: " ++ what ++ " " ++ str_repr text ++ " is not a duration like 30m, 6h or 7d."))
  end.
Definition uncaught {A} (o : option A) : res Exc A := match o with Some a => Ok a | None => Err Uncaught end.
Section Times.
Context (isoformat : string -> option Q).
Definition when (text : string) (now : float) (what : string) : res Exc float :=
  let text := str_strip text in
  if String.eqb (str_lower text) "now" then Ok now
  else if bool_decide (is_Some (duration text)) then n ← seconds text what; ago ← uncaught (float_int n); Ok (f_minus now ago)
  else match isoformat (str_replace "Z" "+00:00" text) with
       | Some t => Ok (f_of t)
       | None => Err (user_error ("Error: " ++ what ++ " " ++ str_repr text ++ " is neither 'now', a duration like 6h, nor an ISO 8601 time."))
       end.
End Times.
(** The client that is shared, its address, and how messages name it. *)
Record Source := mkSource { s_client : string; s_url : string; s_name : string }.
Definition SOURCES (cf : AgTools.Config) : list (string * Source) :=
  [("af", mkSource "prometheus" (PROMETHEUS_URL cf) PROMETHEUS_NAME);
   ("cluster", mkSource "cluster-prometheus" (CLUSTER_PROMETHEUS_URL cf) CLUSTER_PROMETHEUS_NAME)]%string.
Definition source_of (cf : AgTools.Config) (name : string) : res Exc Source :=
  match dget (str_lower (str_strip name)) (SOURCES cf) with
  | Some found => Ok found
  | None => Err (user_error ("Error: source " ++ str_repr name ++ " is neither 'af' nor 'cluster'."))
  end.

(** ** Results as texts; nothing where a value is of another kind than Prometheus's, which
    raises. *)

Definition dict_or_empty (j : json) : option (list (string * json)) := match j_or j (JObj []) with JObj o => Some o | _ => None end.
Definition labels_text (metric : list (string * json)) : string :=
  let name := dget_or "__name__"%string (JStr "") metric in
  let rest := str_join ", " (omap (fun kv => if String.eqb kv.1 "__name__" then None else Some (kv.1 ++ "=" ++ dquote (str_of kv.2))%string) (sort_by fst metric)) in
  if negb (String.eqb rest "") || negb (truthy name) then (str_of name ++ "{" ++ rest ++ "}")%string else str_of name.
(** [float(value)], which raises what is not caught for an int that no float is as large as. *)
Definition number (value : json) : option string :=
  match value with
  | JInt n => option_map general_f (float_int n)
  | _ => Some (match float_of value with Some x => general_f (f_near x) | None => str_of value end)
  end.
Definition iso : float -> option string := utc_stamp.
(** [text.rsplit("\n", 1)[0]] *)
Fixpoint before_last_eol (s : string) : option string :=
  match s with
  | EmptyString => None
  | String c s' => match before_last_eol s' with
                   | Some t => Some (String c t)
                   | None => if Ascii.eqb c "010" then Some EmptyString else None
                   end
  end.
Definition clip (lines : list string) : string :=
  let text := str_join eol lines in
  if (String.length text <=? MAX_CHARS)%nat then text
  else let text := str_take MAX_CHARS text in (default text (before_last_eol text) ++ eol ++ "… (cut; narrow the query)")%string.
Definition vector_row (row : json) : option (string * json) := metric ← get_of "metric" row; metric ← dict_or_empty metric; Some (labels_text metric, row).
Definition vector_line (labelled : string * json) : option string :=
  value ← second_in (j_or (jget "value" labelled.2) (JArr [JNull; JNull])); text ← number value;
  Some ("- " ++ labelled.1 ++ ": " ++ text)%string.
Definition point_value (point : json) : option string := parts ← iter_of point; match parts with [_; v] => number v | _ => None end.
Definition first_in (j : json) : option json :=
  match j with JArr (x :: _) => Some x | JStr (String c _) => Some (JStr (String c "")) | _ => None end.
Definition range_line (row : json) : option string :=
  points ← get_of "values" row;
  points ← iter_of (j_or points (JArr [])); values ← mapM point_value points;
  first ← match points with
          | [] => Some "-"%string
          | _ => point ← first_in (jget "values" row); t ← first_in point; t ← float_of t; iso (f_near t)
          end;
  metric ← get_of "metric" row; metric ← dict_or_empty metric;
  Some ("- " ++ labels_text metric ++ " from " ++ first ++ ": " ++ str_join ", " values)%string.
Definition render (data : json) : option (list string) :=
  let kind := jget "resultType" data in
  let scalar := jeq_str kind "scalar" || jeq_str kind "string" in
  match jget "result" data with
  | JArr result =>
      match scalar, result with
      | true, [_; v] => text ← number v; Some [str_of kind ++ ": " ++ text]%string
      | _, [] => Some ["No series match."%string]
      | _, _ =>
          let n := List.length result in
          let head := (pretty (Z.of_nat n) ++ " series" ++ if (MAX_SERIES <? n)%nat then ", first " ++ pretty (Z.of_nat MAX_SERIES) ++ ":" else ":")%string in
          lines ← if jeq_str kind "vector" then
                    rows ← mapM vector_row result; mapM vector_line (firstn MAX_SERIES (sort_by fst rows))
                  else mapM range_line (firstn MAX_SERIES result);
          Some (head :: lines)
      end
  | _ => Some ["(no result)"%string]
  end.

(** ** Asking Prometheus *)

(** What the scoping asks; a form that is posted; the names' help texts; the time. *)
Inductive PReq := Scoping (r : AgScope.Req) | Post (client url : string) (form : list (string * string)) (timeout : Z) | Metadata (client url : string) | Now.
Definition PAns (r : PReq) : Type :=
  match r with Scoping r => AgScope.Ans r | Post _ _ _ _ | Metadata _ _ => (Resp + RequestExc)%type | Now => Q end.
Definition PEv : Type := sigT PAns.
Definition PM (A : Type) : Type := M PEv unit Exc A.
Definition scoping_event (e : AgScope.Ev) : PEv := let '(existT r a) := e in existT (Scoping r) a.
Section Promql.
Context (svc : service PReq PAns) (cf : AgTools.Config) (username : string) (isoformat : string -> option Q).
(** What [promql_scope] does, as a part of a tool. *)
Definition scoping_svc (h : list PEv) : service AgScope.Req AgScope.Ans := fun h1 r => svc (h ++ map scoping_event h1)%list (Scoping r).
Definition within {A} (part : service AgScope.Req AgScope.Ans -> AM A) : PM A :=
  fun s h => let '(r, _, h1) := part (scoping_svc h) tt [] in (r, s, h ++ map scoping_event h1)%list.
Definition ask (source : Source) (path : string) (form : list (string * string)) : PM json :=
  reply ← (mcall svc (Post (s_client source) (s_url source ++ path) form (QUERY_TIMEOUT + 5)) : PM (Resp + RequestExc));
  let name := s_name source in
  let upstream (text : string) : PM json := raise (Fails (UpstreamError text)) in
  match reply with
  | inr exc => upstream ("Error: " ++ name ++ " is unreachable — " ++ describe_exception exc ++ ".")%string
  | inl resp =>
      let code := status_code resp in
      match json_body resp with
      | Some (JObj body) =>
          let error := str_of (jget "error" (JObj body)) in
          if (code =? 400) || (code =? 422) then raise (user_error ("Error: " ++ name ++ " refused the query — " ++ error ++ "."))
          else if (code =? 503) || jeq_str (jget "errorType" (JObj body)) "timeout" then
            upstream ("Error: " ++ name ++ " could not answer in time — " ++ error ++ ". Narrow the query: fewer series, a shorter range or a larger step.")%string
          else
            let data := jget "data" (JObj body) in
            if (code =? 200) && is_obj data then mret data else upstream ("Error: " ++ name ++ " returned HTTP " ++ pretty code ++ ".")%string
      | _ => upstream ("Error: " ++ name ++ " returned HTTP " ++ pretty code ++ ".")%string
      end
  end.
(** The time that a query is for, and how far back it goes. *)
Definition window (start end_ : option string) (now : float) : res Exc (float * Z) :=
  until ← match given_text end_ with Some e => when isoformat e now "end" | None => Ok now end;
  span ← match given_text start with Some s => from ← when isoformat s now "start"; uncaught (f_round (f_minus until from)) | None => Ok 0 end;
  if bool_decide (is_Some (given_text start)) && (span <=? 0) then Err (user_error "Error: start must come before end.")
  else if MAX_RANGE <? span then Err (user_error "Error: a range query covers at most 30d.")
  else Ok (until, span).
Definition finite (x : float) : option Q := match x with Fin q => Some q | _ => None end.
Definition earlier (t : float) (n : Z) : res Exc float := d ← uncaught (float_int n); Ok (f_minus t d).
Definition points_step (step : option string) (span : Z) : res Exc Z :=
  every ← match given_text step with Some s => seconds s "step" | None => Ok (Z.max MIN_STEP (span / DEFAULT_POINTS)) end;
  if every <? 1 then Err (user_error "Error: step must be at least 1s.")
  else if MAX_POINTS <? span / every then
    Err (user_error ("Error: this range needs a step of at least " ++ pretty (span / MAX_POINTS) ++ "s (" ++ pretty MAX_POINTS ++ " points)."))
  else Ok every.
Definition query_form (scoped : string) (until : float) : list (string * string) :=
  [("query", scoped); ("time", fixed_f 3 until); ("timeout", pretty QUERY_TIMEOUT ++ "s")]%string.
Definition range_form (scoped : string) (from until : float) (every : Z) : list (string * string) :=
  [("query", scoped); ("start", fixed_f 3 from); ("end", fixed_f 3 until); ("step", pretty every); ("timeout", pretty QUERY_TIMEOUT ++ "s")]%string.
Definition owned_over (from until : float) : PM Owned :=
  from ← mlift (uncaught (finite from)); until ← mlift (uncaught (finite until)); within (fun s => resolve s username from until).
Definition query_prometheus (query source : string) (start end_ step : option string) : PM string :=
  asked ← mlift (source_of cf source);
  now ← (mcall svc Now : PM Q);
  '(until, span) ← mlift (window start end_ (f_of now));
  from ← mlift (earlier until span);
  lookback ← mlift (earlier from OWNED_LOOKBACK);
  owned ← owned_over lookback until;
  scoped ← within (fun s => scope s query owned);
  '(data, head) ←
    (if span =? 0 then
       data ← ask asked "/api/v1/query" (query_form scoped until);
       at_ ← mlift (uncaught (iso until)); mret (data, "**" ++ source ++ "**, at " ++ at_)%string
     else
       every ← mlift (points_step step span);
       data ← ask asked "/api/v1/query_range" (range_form scoped from until every);
       at_ ← mlift (uncaught (iso from)); to ← mlift (uncaught (iso until));
       mret (data, "**" ++ source ++ "**, " ++ at_ ++ " to " ++ to ++ ", every " ++ pretty every ++ "s")%string : PM (json * string));
  lines ← mlift (uncaught (render data));
  mret (clip (head :: lines ++ [""; SCOPE_NOTE]%string)%list).

Definition metric_name (row : json) : option string :=
  metric ← get_of "metric" row; metric ← dict_or_empty metric; Some (str_of (jget "__name__" (JObj metric))).
Definition about_text (meta : json) (metric : string) : option string :=
  about ← first_in (j_or (jget metric meta) (JArr [JObj []]));
  kind ← get_else "type" (JStr "?") about; help ← get_else "help" (JStr "") about;
  Some (str_strip (metric ++ " (" ++ str_of kind ++ "): " ++ str_of help))%string.
Definition names_query : string := "group by (__name__) ({__name__=~" ++ dquote ".+" ++ "})".
Definition metrics_report (search source : string) (names : list string) (meta : json) : option string :=
  texts ← mapM (about_text meta) (str_sorted names);
  let words := str_words (str_lower search) in
  let lines := map (fun t => "- " ++ t)%string (List.filter (fun t => forallb (fun w => str_contains w (str_lower t)) words) texts) in
  let n := List.length lines in
  Some (match lines with
        | [] => ("No metric on " ++ source ++ " matches " ++ str_repr search ++ ".")%string
        | _ => clip ((pretty (Z.of_nat n) ++ " metric(s) on " ++ source ++ ":")%string :: firstn MAX_METRICS lines
                 ++ (if (MAX_METRICS <? n)%nat then ["… and " ++ pretty (Z.of_nat (n - MAX_METRICS)) ++ " more; search for narrower words."]%string else []))%list
        end).
Definition list_prometheus_metrics (search source : string) : PM string :=
  asked ← mlift (source_of cf source);
  now ← (mcall svc Now : PM Q);
  let now := f_of now in
  from ← mlift (earlier now 3600);
  owned ← owned_over from now;
  scoped ← within (fun s => scope s names_query owned);
  data ← ask asked "/api/v1/query" [("query", scoped); ("timeout", pretty QUERY_TIMEOUT ++ "s")]%string;
  names ← mlift (uncaught (rows ← iter_of (j_or (jget "result" data) (JArr [])); mapM metric_name rows));
  reply ← (mcall svc (Metadata (s_client asked) (s_url asked ++ "/api/v1/metadata")) : PM (Resp + RequestExc));
  match reply with
  | inr exc => raise (Fails (UpstreamError ("Error: " ++ s_name asked ++ " is unreachable — " ++ describe_exception exc ++ ".")))
  | inl resp =>
      let meta := match json_body resp with Some body => jget "data" body | None => JNull end in
      mlift (uncaught (metrics_report search source names (if is_obj meta then meta else JObj [])))
  end.
End Promql.

(** ** What Prometheus is asked *)

Section Watch.
Context (svc : service PReq PAns) (cf : AgTools.Config) (username : string) (isoformat : string -> option Q).
(** Before it a program has made the query that is sent of the one that was given, with the
    matchers for what Prometheus says is the caller's. *)
Definition scoped_in (query : string) (t : list PEv) (form : list (string * string)) : Prop := exists from until a o answer,
  existT (Scoping (Series (of_caller username) from until)) a ∈ t /\ from_series username (answered a) o /\
  existT (Scoping (RunScope query (matchers o))) (Output (Some (JObj answer))) ∈ t /\
  truthy (jget "error" (JObj answer)) = false /\ dget "query"%string form = Some (str_of (jget "query" (JObj answer))).
Definition is_post (e : PEv) : bool := match e with existT (Post _ _ _ _) _ => true | _ => false end.
Definition no_post (t : list PEv) : Prop := forallb (fun e => negb (is_post e)) t = true.
Definition posts_scoped (query : string) (t : list PEv) : Prop :=
  forall t1 client url form timeout a t2, t = (t1 ++ existT (Post client url form timeout) a :: t2)%list -> scoped_in query t1 form.
Lemma no_post_app t1 t2 : no_post t1 -> no_post t2 -> no_post (t1 ++ t2)%list.
Proof. unfold no_post. rewrite forallb_app. by intros -> ->. Qed.
Lemma no_post_scoping t : no_post (map scoping_event t).
Proof. unfold no_post. by induction t as [|[r a] t IH]. Qed.
Lemma none_scoped query t : no_post t -> posts_scoped query t.
Proof. unfold no_post. intros H t1 client url form timeout a t2 ->. rewrite forallb_app in H. cbn in H. by rewrite andb_false_r in H. Qed.
(** One post, after what makes it right. *)
Lemma one_scoped query t e t' : no_post t -> no_post t' ->
  (forall client url form timeout a, e = existT (Post client url form timeout) a -> scoped_in query t form) -> posts_scoped query (t ++ e :: t')%list.
Proof.
  intros Ht Ht' He t1 client url form timeout a t2 E. apply app_eq_inv in E as [(k & Ek & E)|(k & Ek & E)].
  - destruct k as [|x k]; [rewrite app_nil_r in Ek; subst t1|].
    + injection E as <- <-. by eapply He.
    + injection E as <- E. exfalso. revert Ht. unfold no_post. rewrite Ek, forallb_app. cbn. by rewrite andb_false_r.
  - destruct k as [|x k]; [rewrite app_nil_r in Ek; subst t1; injection E as -> ->; by eapply He|].
    injection E as -> E. exfalso. revert Ht'. unfold no_post. rewrite E, forallb_app. cbn. by rewrite andb_false_r.
Qed.
Lemma wp_within {A} (part : service AgScope.Req AgScope.Ans -> AM A) s h (Q : res Exc A -> unit -> list PEv -> Prop) :
  wp (part (scoping_svc svc h)) tt [] (fun r _ h1 => Q r s (h ++ map scoping_event h1)%list) -> wp (within svc part) s h Q.
Proof. unfold wp, within. by destruct (part _ tt []) as [[r u] h1]. Qed.
Lemma wp_lifted {A} (r : res Exc A) s h (Q : res Exc A -> unit -> list PEv -> Prop) : Q r s h -> wp (mlift r) s h Q.
Proof. by destruct r. Qed.
(** What scopes a query, and what is done with it then. *)
Lemma wp_scoped {A} query from until (f : string -> PM A) h (Q : res Exc A -> unit -> list PEv -> Prop) :
  (forall e t, no_post t -> Q (Err e) tt (h ++ t)%list) ->
  (forall text t, no_post t -> (forall form, dget "query"%string form = Some text -> scoped_in query t form) -> wp (f text) tt (h ++ t)%list Q) ->
  wp (owned ← owned_over svc username from until; scoped ← within svc (fun s => scope s query owned); f scoped) tt h Q.
Proof.
  intros He Hf. assert (He0 : forall e, Q (Err e) tt h) by (intros e; rewrite <- (app_nil_r h); by apply He).
  apply wp_bind. unfold owned_over. apply wp_bind, wp_lifted. destruct (uncaught (finite from)) as [q1|e]; [|done].
  apply wp_bind, wp_lifted. destruct (uncaught (finite until)) as [q2|e]; [|done].
  apply wp_within. eapply wp_mono; [apply resolve_from|]. intros r [] h1 (t1 & -> & Ho). cbn [app].
  pose proof (no_post_scoping t1) as H1. destruct r as [o|e]; [|by apply He]. destruct (Ho o eq_refl) as (a & t' & -> & Ha).
  apply wp_bind, wp_within. eapply wp_mono; [apply scope_asks|]. intros r [] h2 (out & -> & Ht). cbn [app].
  pose proof (no_post_app _ _ H1 (no_post_scoping [existT (RunScope query (matchers o)) out])) as H2. rewrite <- app_assoc.
  destruct r as [text|e]; [|by apply He]. destruct (Ht text eq_refl) as (answer & -> & Herr & ->). apply Hf; [done|].
  intros form Hform. exists q1, q2, a, o, answer. split; [apply elem_of_app; left; by left|]. split; [done|].
  split; [apply elem_of_app; right; by left|]. by split.
Qed.
Lemma wp_ask source path form s h (Q : res Exc json -> unit -> list PEv -> Prop) :
  (forall r a, Q r s (h ++ [existT (Post (s_client source) (s_url source ++ path) form (QUERY_TIMEOUT + 5)) a])%list) -> wp (ask svc source path form) s h Q.
Proof.
  intros H. unfold ask. apply wp_bind. apply (wp_call svc (Post _ _ _ _)). generalize (svc h (Post (s_client source) (s_url source ++ path) form (QUERY_TIMEOUT + 5))).
  intros [resp|exc]; cbv zeta; [|by apply wp_raise]. destruct (json_body resp) as [[| | | | | |body]|]; try by apply wp_raise.
  destruct (_ || _); [by apply wp_raise|]. destruct (_ || _); [by apply wp_raise|]. destruct (_ && _); [by apply wp_ret|by apply wp_raise].
Qed.
(** What a tool asks is scoped, and a result is of what it asked. *)
Definition scoped_run {A} (query : string) (h : list PEv) (r : res Exc A) (h' : list PEv) : Prop :=
  exists t, h' = (h ++ t)%list /\ posts_scoped query t /\ match r with Ok _ => existsb is_post t = true | Err _ => True end.
Lemma failed_before {A} query h t (e : Exc) : no_post t -> scoped_run (A := A) query h (Err e) (h ++ t)%list.
Proof. intros H. exists t. split; [done|]. split; [by apply none_scoped|done]. Qed.

Lemma posted_run query text h now t : no_post (now :: t) -> (forall form, dget "query"%string form = Some text -> scoped_in query t form) ->
  forall (r : res Exc string) client url form timeout a t', dget "query"%string form = Some text -> no_post t' ->
    scoped_run query h r (((h ++ now :: t) ++ [existT (Post client url form timeout) a]) ++ t')%list.
Proof.
  intros Ht Hs r client url form timeout a t' Hq Ht'. eexists. split; [by rewrite <- !app_assoc|]. split.
  - apply (one_scoped query (now :: t)); [done|done|]. intros c u f' tm a' E. assert (f' = form) as -> by congruence.
    destruct (Hs form Hq) as (x1 & x2 & x3 & x4 & x5 & H1 & H2 & H3 & H4). exists x1, x2, x3, x4, x5. split; [by right|]. split; [done|]. split; [by right|done].
  - destruct r; [|done]. rewrite existsb_app. cbn. by rewrite orb_true_r.
Qed.
Lemma posted_last query text h now t : no_post (now :: t) -> (forall form, dget "query"%string form = Some text -> scoped_in query t form) ->
  forall (r : res Exc string) client url form timeout a, dget "query"%string form = Some text ->
    scoped_run query h r ((h ++ now :: t) ++ [existT (Post client url form timeout) a])%list.
Proof. intros Ht Hs r client url form timeout a Hq. rewrite <- (app_nil_r (_ ++ [_])%list). by eapply posted_run. Qed.

(** *** Theorem *)

(** C10: Whatever is asked of Prometheus for a caller is their query as the scoping made it, with
    the matchers for what Prometheus itself says is theirs; nothing is asked where the
    scoping fails, and nothing is told that was not asked. *)
Theorem query_scoped query source start end_ step h :
  wp (query_prometheus svc cf username isoformat query source start end_ step) tt h (fun r _ h' => scoped_run query h r h').
Proof.
  unfold query_prometheus. apply wp_bind, wp_lifted.
  assert (He0 : forall e, scoped_run (A := string) query h (Err e) h) by (intros e; rewrite <- (app_nil_r h) at 2; by apply failed_before).
  destruct (source_of cf source) as [asked|e]; [|done]. apply wp_bind, (wp_call svc Now). set (now := existT Now _).
  assert (He1 : forall e, scoped_run (A := string) query h (Err e) (h ++ [now])%list) by (intros e; by apply failed_before).
  apply wp_bind, wp_lifted. destruct (window _ _ _ _) as [[until span]|e]; [|done]. apply wp_bind, wp_lifted. destruct (earlier until span) as [from|e]; [|done].
  apply wp_bind, wp_lifted. destruct (earlier from _) as [lookback|e]; [|done].
  apply wp_scoped; [intros e t Ht; rewrite <- app_assoc; by apply failed_before|]. intros text t Ht Hs. rewrite <- app_assoc. cbn [app].
  pose proof (posted_last query text h now t Ht Hs) as Hpost.
  apply wp_bind. destruct (span =? 0).
  - apply wp_bind, wp_ask. intros [data|e] a; [|by apply Hpost]. apply wp_bind, wp_lifted. destruct (uncaught (iso until)); [|by apply Hpost].
    apply wp_ret. apply wp_bind, wp_lifted. destruct (uncaught (render data)); [|by apply Hpost]. apply wp_ret. by apply Hpost.
  - apply wp_bind, wp_lifted. destruct (points_step step span) as [every|e]; [|exact (failed_before query h (now :: t) e Ht)].
    apply wp_bind, wp_ask. intros [data|e] a; [|by apply Hpost]. apply wp_bind, wp_lifted. destruct (uncaught (iso from)); [|by apply Hpost].
    apply wp_bind, wp_lifted. destruct (uncaught (iso until)); [|by apply Hpost].
    apply wp_ret. apply wp_bind, wp_lifted. destruct (uncaught (render data)); [|by apply Hpost]. apply wp_ret. by apply Hpost.
Qed.
Lemma metrics_scoped search source h :
  wp (list_prometheus_metrics svc cf username search source) tt h (fun r _ h' => scoped_run names_query h r h').
Proof.
  unfold list_prometheus_metrics. apply wp_bind, wp_lifted.
  assert (He0 : forall e, scoped_run (A := string) names_query h (Err e) h) by (intros e; rewrite <- (app_nil_r h) at 2; by apply failed_before).
  destruct (source_of cf source) as [asked|e]; [|done]. apply wp_bind, (wp_call svc Now). set (now := existT Now _).
  apply wp_bind, wp_lifted. destruct (earlier _ _) as [from|e]; [|by apply failed_before].
  apply wp_scoped; [intros e t Ht; rewrite <- app_assoc; by apply failed_before|]. intros text t Ht Hs. rewrite <- app_assoc. cbn [app].
  pose proof (posted_run names_query text h now t Ht Hs) as Hpost. pose proof (posted_last names_query text h now t Ht Hs) as Hend.
  apply wp_bind, wp_ask. intros [data|e] a; [|by apply Hend]. apply wp_bind, wp_lifted. destruct (uncaught _) as [names|]; [|by apply Hend].
  apply wp_bind, (wp_call svc (Metadata _ _)).
  destruct (svc _ (Metadata _ _) : Resp + RequestExc) as [resp|exc]; [|apply wp_raise; by apply Hpost]. apply wp_lifted. by apply Hpost.
Qed.
End Watch.

(** ** Limits *)

(** A range has at most as many points as it may; but the step that is named where there
    are too many can be one that is refused again. *)
Lemma points_bounded step span every : 0 < span -> points_step step span = Ok every -> 1 <= every /\ span / every <= MAX_POINTS.
Proof.
  intros Hs. unfold points_step. destruct (match given_text step with Some _ => _ | None => _ end) as [n|]; [|done]. cbn [mbind res_bind].
  destruct (Z.ltb_spec n 1); [done|]. destruct (Z.ltb_spec MAX_POINTS (span / n)); [done|]. by intros [= <-].
Qed.
Lemma named_step_refused : points_step (Some "1s"%string) 1199
  = Err (user_error "Error: this range needs a step of at least 1s (600 points).").
Proof. reflexivity. Qed.
(** The default step is never refused. *)
Lemma default_step_fits span : 0 < span <= MAX_RANGE -> exists every, points_step None span = Ok every.
Proof.
  intros [H1 H2]. unfold points_step. cbn [given_text mbind res_bind]. set (n := Z.max MIN_STEP (span / DEFAULT_POINTS)).
  assert (15 <= n) as Hn by (unfold n, MIN_STEP; lia). destruct (Z.ltb_spec n 1); [lia|]. destruct (Z.ltb_spec MAX_POINTS (span / n)) as [Hp|]; [|by exists n].
  exfalso. unfold MAX_POINTS in Hp. assert (span / DEFAULT_POINTS <= n) as Hd by (unfold n; lia). unfold DEFAULT_POINTS in Hd.
  pose proof (Z.mul_div_le span n ltac:(lia)). pose proof (Z.mul_succ_div_gt span 60 ltac:(lia)). unfold MAX_RANGE in H2. nia.
Qed.

(** A run in which Prometheus answers. *)
Definition answers (j : json) : Resp := mkResp 200 (Some "") (Some j).
Definition promql_svc : service PReq PAns := fun h r =>
  match r return PAns r with
  | Scoping (Series _ _ _) => inl (answers (JObj [("data", JArr [])]%string))
  | Scoping (RunScope q _) => Output (Some (JObj [("query", JStr ("scoped " ++ q))]%string))
  | Post _ _ _ _ => inl (answers (JObj [("data", JObj [("resultType", JStr "vector");
      ("result", JArr [JObj [("metric", JObj [("__name__", JStr "up"); ("job", JStr "b")]); ("value", JArr [JInt 0; JStr "1.50"])];
                       JObj [("metric", JObj [("__name__", JStr "up"); ("job", JStr "a")]); ("value", JArr [JInt 0; JStr "NaN"])]])])]%string))
  | Metadata _ _ => inr (mkExc ReadTimeout "")
  | Now => 86400%Q
  end.
Example query_run :
  (query_prometheus promql_svc somewhere "alice" (fun _ => None) "up" "AF " None (Some "1h") None tt []).1.1
  = Ok ("**AF **, at 1970-01-01T23:00:00Z" ++ eol ++ "2 series:" ++ eol ++ "- up{job=" ++ dquote "a" ++ "}: nan" ++ eol
    ++ "- up{job=" ++ dquote "b" ++ "}: 1.5" ++ eol ++ eol ++ SCOPE_NOTE)%string.
Proof. vm_compute. reflexivity. Qed.
