(* ===== verification/AgSession.v ===== *)
(** The session tools of the agentic interface,
    [docker/agentic-interface/tools/session.py]: the caller's server at the Hub is looked
    at, started, stopped, waited for and started again. *)
From S2P Require Import Prelude PyJson PyText PyTime PyFloat PyValue AgErrors AgAuth AgTools AgProfiles.
Open Scope Z_scope.

Definition _SERVICE : string := "JupyterHub API".
Definition _POLL_INTERVAL : Q := 10.
Definition _STOP_WAIT : Q := 90.
Definition nl : string := String "010" "".
Definition lines_of (l : list string) : string := str_join nl l.

Section Session.
(** [get_profiles] gives the profiles, and why there are none if there are none. *)
Context (svc : service Req Ans) (cf : Config) (user : User) (available : list Profile) (profiles_error : option string).
Definition username : string := u_name user.

(** ** Calls of the Hub *)

Definition _hub_error (resp : Resp) (action : string) : Failure :=
  let code := status_code resp in
  if code =? 401 then AuthError ("Error: JupyterHub rejected this token (HTTP 401) while trying to " ++ action
    ++ ". It was accepted when this request was authenticated, so it has just expired or been revoked — inside an AF session the token changes on every restart, so restart the agent so it picks up the new JUPYTERHUB_API_TOKEN; from your own machine, mint a new token at "
    ++ TOKEN_URL cf ++ " and reconnect the MCP server.")
  else if code =? 403 then
    let detail := response_detail resp 160 in
    AuthError ("Error: this token is not permitted to " ++ action ++ " (JupyterHub HTTP 403" ++ (if String.eqb detail "" then "" else ": " ++ detail)
      ++ "). Tokens issued to a running session can only read their own session; to start, stop, or restart sessions use a token created at "
      ++ TOKEN_URL cf ++ " from outside the session.")
  else if code =? 404 then AuthError ("Error: JupyterHub has no user '" ++ username ++ "' (HTTP 404) while trying to " ++ action
    ++ " — the account may have been removed from the hub. Contact AF support.")
  else http_error _SERVICE resp action "".
Definition hub_call (method path : string) (timeout : Q) (body : option json) : Call :=
  mkCall "hub" method (HUB_API_URL cf ++ path) ("token " ++ u_token user) [] [] body None timeout.
Definition _hub (method path action : string) (ok : list Z) (timeout : Q) (body : option json) : TM Resp :=
  reply ← (mcall svc (Http (hub_call method path timeout body)) : TM (Resp + RequestExc));
  match reply with
  | inr exc => fails (unreachable _SERVICE exc ("The request to " ++ action ++ " was not made. Try again in a minute; if the hub stays unreachable, get_facility_health shows whether the facility is down."))
  | inl resp => if bool_decide (status_code resp ∈ ok) then mret resp else fails (_hub_error resp action)
  end.
Definition user_path : string := "/users/" ++ username.
Definition server_path : string := user_path ++ "/server".
Definition _cannot_see_servers : Failure :=
  AuthError ("Error: cannot read session state for '" ++ username ++ "': this token is not permitted to list servers, so I cannot tell whether a session is running. This is a permissions gap, not a stopped session: this token lacks read:servers. Inside an AF session, a restarted session gets a token that has it; from your own machine, mint a fresh token at "
    ++ TOKEN_URL cf ++ ". The JupyterHub interface at " ++ PUBLIC_URL cf ++ "/hub/home always shows the real state.").
Definition _STILL_STOPPING : string :=
  "Error: the session is still stopping, so it cannot start yet. Wait for get_session_status to report no active session, then call start_af_session.".
Definition _servers (resp : Resp) : res Failure (list (string * json)) :=
  match json_body resp with
  | Some (JObj data) =>
      match dget_or "servers" JNull data with
      | JNull => Err _cannot_see_servers
      | JObj servers => Ok servers
      | _ => Err (malformed_response _SERVICE resp "a user record" "")
      end
  | _ => Err (malformed_response _SERVICE resp "a user record" "")
  end.
Definition lift_failure {A} (r : res Failure A) : TM A := match r with Ok a => mret a | Err f => fails f end.
Definition _user_servers : TM (list (string * json)) :=
  resp ← _hub "GET" user_path "read the session state" [200] 10 None; lift_failure (_servers resp).
Definition _stop : TM Z := resp ← _hub "DELETE" server_path "stop the session" [200; 202; 204; 400] 15 None; mret (status_code resp).
Definition _spawn (opts : list (string * json)) : TM Resp := _hub "POST" server_path "start the session" [200; 201; 202; 400] 15 (Some (JObj opts)).
Inductive SpawnRefusal := AlreadyRunning | Stopping | Rejected.
Definition _spawn_refusal (resp : Resp) : SpawnRefusal :=
  let text := default ""%string (r_text resp) in
  if str_contains "is already running" text then AlreadyRunning else if str_contains "is pending stop" text then Stopping else Rejected.

(** ** Waits *)

Definition monotonic : TM Q := mcall svc Monotonic.
Definition qmin (a b : Q) : Q := if b <?q a then b else a.
(** Whether the session that was stopped is still being stopped; a server's record that is
    no dict raises. *)
Definition still_stopping : TM bool :=
  mcatch (servers ← _user_servers;
          match dget_or ""%string JNull servers with
          | JNull => mret false
          | server => pending ← must (get_of "pending" server); mret (jeq_str pending "stop")
          end)
    (fun e => match e with Fails (UpstreamError _) => mret true | _ => raise e end).
Fixpoint stop_loop (fuel : nat) (deadline : Q) : TM unit :=
  match fuel with
  | O => raise OutOfFuel
  | S fuel =>
      stopping ← still_stopping;
      if negb stopping then mret tt else
      t ← monotonic;
      let remaining := (deadline - t)%Q in
      if remaining <=?q 0 then mret tt
      else (mcall svc (Sleep (qmin _POLL_INTERVAL remaining)) : TM unit) ≫= fun _ => stop_loop fuel deadline
  end.
Definition _await_stop (fuel : nat) : TM unit := t ← monotonic; stop_loop fuel (t + _STOP_WAIT)%Q.

Record _Poll := mkPoll { seen : string; p_ready : bool; started : json; p_failed : bool; absent : bool }.
Definition _classify_poll (resp : Resp) : TM _Poll :=
  let code := status_code resp in
  if (code =? 401) || (code =? 403) || (code =? 404) then fails (_hub_error resp "check the session state")
  else if negb (code =? 200) then mret (mkPoll (_SERVICE ++ " returned HTTP " ++ pretty code) false (JStr "") true false)
  else
    servers ← lift_failure (_servers resp);
    match dget_or ""%string JNull servers with
    | JNull => mret (mkPoll "no server listed" false (JStr "") false true)
    | server =>
        ready ← must (get_else "ready" (JBool false) server);
        if truthy ready then mret (mkPoll "session is running" true (jget_or "started" (JStr "") server) false false)
        else
          let pending := jget "pending" server in
          if jeq_str pending "stop" then
            fails (UserError "Error: the session is stopping, not starting. Wait for get_session_status to report no active session, then call start_af_session.")
          else mret (mkPoll (if truthy pending then "session pending (" ++ str_of pending ++ ")" else "session listed but not ready") false (JStr "") false false)
    end.
(** The polls so far: how many, how many failed, how many in a row listed no server, and
    what was seen last. *)
Record Polls := mkPolls { attempts : Z; failed_polls : Z; absent_polls : Z; last_seen : string }.
Definition polls0 : Polls := mkPolls 0 0 0 "no status check completed".
Inductive Wait := Ready (started : json) (attempts : Z) | TimedOut (polls : Polls).
Definition no_session : Failure :=
  UserError ("Error: no session is starting or running — JupyterHub lists no server for '" ++ username
    ++ "', so either start_af_session was not called or the spawn failed. Call start_af_session again; if it fails again, the spawn page at "
    ++ PUBLIC_URL cf ++ "/hub/home shows JupyterHub's reason.").
(** One look at the session; nothing, or that it is ready. *)
Definition look (p : Polls) : TM (option json * Polls) :=
  let n := attempts p + 1 in
  reply ← (mcall svc (Http (hub_call "GET" user_path 10 None)) : TM (Resp + RequestExc));
  match reply with
  | inr exc => mret (None, mkPolls n (failed_polls p + 1) (absent_polls p) (_SERVICE ++ " unreachable — " ++ describe_exception exc))
  | inl resp =>
      poll ← _classify_poll resp;
      if p_ready poll then mret (Some (started poll), mkPolls n (failed_polls p) (absent_polls p) (seen poll))
      else if p_failed poll then mret (None, mkPolls n (failed_polls p + 1) (absent_polls p) (seen poll))
      else if absent poll then
        if 2 <=? absent_polls p + 1 then fails no_session else mret (None, mkPolls n (failed_polls p) (absent_polls p + 1) (seen poll))
      else mret (None, mkPolls n (failed_polls p) 0 (seen poll))
  end.
Fixpoint wait_loop (fuel : nat) (deadline : Q) (p : Polls) : TM Wait :=
  match fuel with
  | O => raise OutOfFuel
  | S fuel =>
      '(ready, p) ← look p;
      match ready with
      | Some started => mret (Ready started (attempts p))
      | None =>
          t ← monotonic;
          let remaining := (deadline - t)%Q in
          if remaining <=?q 0 then mret (TimedOut p)
          else (mcall svc (Sleep (qmin _POLL_INTERVAL remaining)) : TM unit) ≫= fun _ => wait_loop fuel deadline p
      end
  end.
Definition clamp_timeout (timeout_seconds : Z) : Z := Z.max 1 (Z.min timeout_seconds 600).
Definition wait_for_session (fuel : nat) (timeout_seconds : Z) : TM string :=
  let timeout := clamp_timeout timeout_seconds in
  t ← monotonic;
  outcome ← wait_loop fuel (t + qz timeout)%Q polls0;
  mret (match outcome with
  | Ready started n => lines_of (["Session is running."]%string
      ++ (if truthy started then ["started: " ++ str_of started]%string else [])
      ++ ["(became ready after " ++ pretty n ++ " poll(s))"; ""; "Next: get_session_status returns browser links."]%string)%list
  | TimedOut p => lines_of (["Session did not become ready within " ++ pretty timeout ++ " s."; "Last observed: " ++ last_seen p ++ "."]%string
      ++ (if failed_polls p =? 0 then [] else [pretty (failed_polls p) ++ " of " ++ pretty (attempts p) ++ " status check(s) failed to reach JupyterHub, so the session may be further along than this shows."]%string)
      ++ ["Next: get_session_status for the current state; if it stays pending, query_notebook_logs shows the pod's startup log, and get_facility_health shows whether the facility is short of capacity."]%string)%list
  end).

(** ** Profiles and options *)

Definition Opts : Type := list (string * json).
Definition _start_call (opts : Opts) : string :=
  let rest := ddel "profile" opts in
  let args := ((if dhas "profile" opts then ["profile_name=" ++ repr_of (dget_or "profile" JNull opts)]%string else [])
    ++ match rest with [] => [] | _ => ["user_options=" ++ repr_of (JObj rest)]%string end)%list in
  match args with [] => "start_af_session" | _ => "start_af_session(" ++ str_join ", " args ++ ")" end.
Definition _ELICIT_FALLBACK : string :=
  "Couldn't collect the choices interactively. Ask the user which profile and options they want — call list_af_profiles for the exact slugs, option keys, and live GPU availability — then call start_af_session again with profile_name and user_options. To skip the questions entirely, call start_af_session(use_defaults=True) to launch the default profile.".
Definition _default_profile : option Profile :=
  match List.find is_default available with Some p => Some p | None => head available end.
Definition reason : string := or_else (default ""%string profiles_error) "unknown reason".
Definition _named_profile (name otherwise : string) : TM Profile :=
  match find_profile available name with
  | Some p => mret p
  | None =>
      match available with
      | [] => fails (UpstreamError ("Error: cannot check profile '" ++ name ++ "' — the profile list could not be read (" ++ reason ++ "). Try again in a minute, or " ++ otherwise ++ "."))
      | _ => fails (UserError ("Unknown profile '" ++ name ++ "'. Call list_af_profiles to see available options. Known slugs: " ++ str_join ", " (map (fun p => in_quotes (slug p)) available)))
      end
  end.
Definition given (o : option string) : bool := match o with Some s => negb (String.eqb s "") | None => false end.
Definition _choose_profile (profile_name : option string) (use_defaults : bool) : TM (option Profile) :=
  if given profile_name then
    p ← _named_profile (default ""%string profile_name) "call start_af_session(use_defaults=True) to launch the Hub's default profile"; mret (Some p)
  else if use_defaults then mret _default_profile
  else match available with
  | [] => mret None
  | [p] => mret (Some p)
  | _ =>
      model ← single_choice_model "ProfileChoice" "profile" "Analysis Facility session profile."
        (map (fun p => (slug p, display_name p ++ if is_default p then " (default)" else ""))%string available) (option_map slug _default_profile);
      data ← ask svc "Choose a session profile." model _ELICIT_FALLBACK;
      name ← chosen model data; mret (find_profile available name)
  end.
(** Each option of the profile that was not given is asked for. *)
Definition ask_option (opts : Opts) (option : string * Choices) : TM Opts :=
  let '(opt_key, opt_info) := option in
  if dhas opt_key opts then mret opts else
  let choices := labelled_choices opt_info in
  match choices with
  | [] => mret opts
  | _ =>
      shown ← (match o_gpu opt_info with
               | [] => mret choices
               | gpu_map => '(free, _) ← free_gpus svc cf; mret (apply_availability choices gpu_map free).1
               end : TM (list (string * string)));
      model ← single_choice_model ("Option_" ++ pretty (Z.of_nat (List.length opts))) "value" (o_display_name opt_info) shown (o_default opt_info);
      data ← ask svc (o_display_name opt_info ++ ":") model _ELICIT_FALLBACK;
      value ← chosen model data; mret (dset opt_key (JStr value) opts)
  end.
Fixpoint ask_each (l : list (string * Choices)) (opts : Opts) : TM Opts :=
  match l with [] => mret opts | o :: l => opts ← ask_option opts o; ask_each l opts end.
Definition _ask_options (profile : Profile) (opts : Opts) : TM Opts := ask_each (options profile) opts.

(** ** The tools *)

(** The Hub's view of the options: which of the two interfaces was chosen; a key is a text. *)
Definition interface_of (user_options : Opts) : json :=
  match List.find (fun kv => String.eqb kv.1 "interface" || endswith "-interface" kv.1) user_options with Some kv => kv.2 | None => JStr "1" end.
Definition get_session_status : TM string :=
  servers ← _user_servers;
  let base := (PUBLIC_URL cf ++ "/user/" ++ username)%string in
  let lab_url := (base ++ "/lab")%string in
  let vscode_url := (base ++ "/vscode/?folder=/home/" ++ username)%string in
  match servers with
  | [] => mret (lines_of ["No active session for user '" ++ username ++ "'."; "Use start_af_session to launch one."; "";
      "Interface links (will redirect to spawn form until a session is running):"; "  JupyterLab  " ++ lab_url; "  VS Code     " ++ vscode_url])
  | _ =>
      let dflt := dget_or ""%string (JObj []) servers in
      ready ← must (get_else "ready" (JBool false) dflt);
      let pending := jget "pending" dflt in
      let started := jget_or "started" (JStr "") dflt in
      user_options ← must (match jget_or "user_options" (JObj []) dflt with JObj o => Some o | _ => None end);
      let status := (if truthy ready then "running" else if truthy pending then "pending (" ++ str_of pending ++ ")" else "not ready")%string in
      let vscode_active := jeq_str (interface_of user_options) "2" in
      mret (lines_of (["# Session status: " ++ status; "user: " ++ username]%string
        ++ (if truthy started then ["started: " ++ str_of started]%string else [])
        ++ [nl ++ "Interface links:"; "  JupyterLab  " ++ lab_url ++ (if vscode_active then "" else "  ← active");
            "  VS Code     " ++ vscode_url ++ (if vscode_active then "  ← active" else "")]%string
        ++ match user_options with [] => [] | _ => (nl ++ "Selected options:")%string :: map (fun kv => "  " ++ kv.1 ++ ": " ++ str_of kv.2)%string user_options end)%list)
  end.
Definition spawn_told (selected : option Profile) (resp : Resp) : TM string :=
  if status_code resp =? 400 then
    match _spawn_refusal resp with
    | AlreadyRunning => mret "Session is already running. Use get_session_status to see its URL."%string
    | Stopping => fails (UserError _STILL_STOPPING)
    | Rejected => fails (UserError ("Error: JupyterHub rejected the spawn request — " ++ or_else (response_detail resp 300) "no reason given"
        ++ ". Check the profile and options against list_af_profiles and call start_af_session again."))
    end
  else
    let note := (match selected, available with
      | None, [] => nl ++ "Note: the profile list could not be read (" ++ reason ++ "), so the Hub's default profile and options were used."
      | _, _ => "" end)%string in
    let code := status_code resp in
    mret ((if (code =? 201)%Z then "Session is starting. This typically takes 30–60 seconds. Call wait_for_session to block until it is ready."
           else if (code =? 202)%Z then "Session start accepted — a server is already pending. Use get_session_status to check progress."
           else "Session starting. Use get_session_status to check progress.") ++ note)%string.
Definition start_af_session (profile_name : option string) (user_options : Opts) (use_defaults : bool) : TM string :=
  selected ← _choose_profile profile_name use_defaults;
  opts ← (match selected with
          | None => mret user_options
          | Some p =>
              let opts := dset "profile"%string (JStr (slug p)) user_options in
              if use_defaults then mret opts else _ask_options p opts
          end);
  resp ← _spawn opts; spawn_told selected resp.
Definition stop_af_session : TM string :=
  code ← _stop;
  mret (if code =? 400 then "No session is currently running."
        else "Session is stopping. Storage is preserved — use start_af_session to launch a new one."%string).
(** A failure of the restart says that the session was stopped, and how to go on. *)
Definition restate (start_call : string) (f : Failure) : Failure :=
  let text := ("Session was stopped, but the restart failed. " ++ message f ++ " Use " ++ start_call ++ " to try again.")%string in
  match f with UserError _ => UserError text | AuthError _ => AuthError text | UpstreamError _ => UpstreamError text | ServiceFault _ => ServiceFault text end.
Definition prior_options : TM (Opts * string) :=
  mcatch (servers ← _user_servers;
          opts ← must (get_else "user_options" (JObj []) (dget_or ""%string (JObj []) servers));
          match j_or opts (JObj []) with JObj o => mret (o, ""%string) | _ => raise Uncaught end)
    (fun e => match e with Fails (UpstreamError m) => mret ([], " (the previous options could not be read: " ++ m ++ ")")%string | _ => raise e end).
Definition start_again (fuel : nat) (stopped : Z) (spawn_opts : Opts) : TM Resp :=
  mcatch ((if stopped =? 202 then _await_stop fuel else if negb (stopped =? 400) then (mcall svc (Sleep 3) : TM unit) else mret tt) ≫= fun _ => _spawn spawn_opts)
    (fun e => match e with Fails f => fails (restate (_start_call spawn_opts) f) | _ => raise e end).
Definition restart_told (spawn_opts : Opts) (prior_note : string) (start : Resp) : TM string :=
  if status_code start =? 400 then
    match _spawn_refusal start with
    | Rejected => fails (UserError ("Session was stopped, but JupyterHub rejected the restart options — " ++ or_else (response_detail start 300) "no reason given"
        ++ ". Call start_af_session with valid options (see list_af_profiles)."))
    | _ => fails (UpstreamError ("Session stopped but the pod is still terminating. Wait for get_session_status to report no active session, then call "
        ++ _start_call spawn_opts ++ " to complete the restart."))
    end
  else mret ("Session restarting with " ++ (match spawn_opts with [] => "default options" | _ => str_join ", " (map (fun kv => kv.1 ++ "=" ++ str_of kv.2) spawn_opts) end)
         ++ prior_note ++ ". Call wait_for_session to block until ready.")%string.
Definition restart_af_session (fuel : nat) (profile_name : option string) (user_options : Opts) : TM string :=
  '(prior_opts, prior_note) ← prior_options;
  let opts := match user_options with [] => prior_opts | _ => user_options end in
  spawn_opts ← (if given profile_name then
      p ← _named_profile (default ""%string profile_name) "call restart_af_session without profile_name to keep the current profile";
      mret (dset "profile"%string (JStr (slug p)) opts)
    else mret opts);
  stopped ← _stop;
  start ← start_again fuel stopped spawn_opts;
  restart_told spawn_opts prior_note start.
End Session.

(** ** What a restart may ask of the Hub, and must say *)

(** What the Hub's answer shows of the caller's server: its record, and the options that it
    was started with. *)
Definition shown_server (reply : Resp + RequestExc) : option json :=
  match reply with
  | inl resp =>
      if status_code resp =? 200 then
        match json_body resp with
        | Some (JObj data) => match dget "servers"%string data with Some (JObj servers) => dget ""%string servers | _ => None end
        | _ => None
        end
      else None
  | inr _ => None
  end.
Definition shown_options (reply : Resp + RequestExc) : Opts :=
  match jget "user_options" (default JNull (shown_server reply)) with JObj o => o | _ => [] end.
Definition odd_record (reply : Resp + RequestExc) : bool :=
  match shown_server reply with None | Some JNull | Some (JObj _) => false | _ => true end.
(** Before the session is stopped, with the options that were last shown; its stop was
    refused; stopped, with whether the last record of the server was none; started again,
    with the options of the start and its answer. *)
Inductive Phase := Before (prior : Opts) | Refused | Stopped (prior : Opts) (odd : bool) | Spawned (prior opts : Opts) (reply : Resp + RequestExc).
Definition stop_accepted (reply : Resp + RequestExc) : bool :=
  match reply with inl resp => bool_decide (status_code resp ∈ [200; 202; 204; 400]) | inr _ => false end.
Section Watch.
Context (svc : service Req Ans) (cf : Config) (user : User) (available : list Profile) (profiles_error : option string).
Definition own (c : Call) : bool := String.eqb (c_client c) "hub" && String.eqb (c_authorization c) ("token " ++ u_token user).
Definition to_ (c : Call) (method path : string) : bool := String.eqb (c_method c) method && String.eqb (c_url c) (HUB_API_URL cf ++ path).
(** One stop, and after it, if it was accepted, looks and at most one start. All calls are
    the caller's own, and of the caller's own server. *)
Definition may (p : Phase) (e : Ev) : option Phase :=
  match p, e with
  | Before prior, existT (Http c) reply =>
      if negb (own c) then None else if to_ c "GET" (user_path user) then Some (Before (shown_options reply))
      else if to_ c "DELETE" (server_path user) then Some (if stop_accepted reply then Stopped prior false else Refused) else None
  | Stopped prior odd, existT (Http c) reply =>
      if negb (own c) then None else if to_ c "GET" (user_path user) then Some (Stopped prior (odd_record reply))
      else if to_ c "POST" (server_path user) then match c_json c with Some (JObj opts) => Some (Spawned prior opts reply) | _ => None end else None
  | Stopped prior odd, existT (Sleep _) _ | Stopped prior odd, existT Monotonic _ => Some (Stopped prior odd)
  | _, _ => None
  end.
Context (profile_name : option string) (user_options : Opts).
(** The options of a start: those asked for, or else those of before; and the profile that
    was asked for by its name. *)
Definition base_options (prior : Opts) : Opts := match user_options with [] => prior | _ => user_options end.
Definition as_asked (prior opts : Opts) : Prop :=
  (forall key, key <> "profile"%string -> dget key opts = dget key (base_options prior)) /\
  match profile_name with
  | None | Some EmptyString => dget "profile"%string opts = dget "profile"%string (base_options prior)
  | Some name => exists p, find_profile available name = Some p /\ dget "profile"%string opts = Some (JStr (slug p))
  end.
(** What a restart must say that failed after the stop, with options of a start to try. *)
Definition says_failed (opts : Opts) (f : Failure) : Prop :=
  exists why, message f = ("Session was stopped, but the restart failed. " ++ why ++ " Use " ++ _start_call opts ++ " to try again.")%string.
(** What it must say of the start's answer. *)
Definition says (opts : Opts) (reply : Resp + RequestExc) (r : res Exc string) : Prop :=
  let starts text t := startswith text t = true in
  match reply with
  | inr _ => exists f, r = Err (Fails f) /\ says_failed opts f
  | inl resp =>
      if bool_decide (status_code resp ∈ [200; 201; 202]) then exists t, r = Ok t /\ starts "Session restarting with "%string t
      else if status_code resp =? 400 then
        let text := default ""%string (r_text resp) in
        if str_contains "is already running" text || str_contains "is pending stop" text
        then r = Err (Fails (UpstreamError ("Session stopped but the pod is still terminating. Wait for get_session_status to report no active session, then call "
          ++ _start_call opts ++ " to complete the restart.")))
        else exists t, r = Err (Fails (UserError t)) /\ starts "Session was stopped, but JupyterHub rejected the restart options — "%string t
      else exists f, r = Err (Fails f) /\ says_failed opts f
  end.
Definition told (r : res Exc string) (p : Phase) : Prop :=
  match p with
  | Before _ => exists e, r = Err e
  | Refused => exists f, r = Err (Fails f)
  | Stopped prior odd =>
      match r with
      | Err (Fails f) => exists opts, as_asked prior opts /\ says_failed opts f
      | Err Uncaught => odd = true
      | Err OutOfFuel => True
      | _ => False
      end
  | Spawned prior opts reply => as_asked prior opts /\ says opts reply r
  end.

(** *** Lemmas *)
Lemma hub_own method path timeout body : own (hub_call cf user method path timeout body) = true.
Proof. unfold own. cbn [hub_call c_client c_authorization]. by rewrite !String.eqb_refl. Qed.
Lemma hub_to method path timeout body : to_ (hub_call cf user method path timeout body) method path = true.
Proof. unfold to_. cbn [hub_call c_method c_url]. by rewrite !String.eqb_refl. Qed.
(** A call of the Hub, if what follows it is right for every reply. *)
Lemma hub_mon p method path action ok timeout body (Q : res Exc Resp -> Phase -> Prop) :
  (forall reply, exists p', may p (existT (Http (hub_call cf user method path timeout body)) reply) = Some p' /\
     match reply with
     | inl resp => if bool_decide (status_code resp ∈ ok) then Q (Ok resp) p' else forall f, Q (Err (Fails f)) p'
     | inr _ => forall f, Q (Err (Fails f)) p'
     end) -> mon may p (_hub svc cf user method path action ok timeout body) Q.
Proof.
  intros H. unfold _hub. apply mon_bind. refine (mon_call may p svc (Http _) _ _). intros reply.
  destruct (H reply) as (p' & Hp & HQ). exists p'. split; [exact Hp|]. destruct reply as [resp|exc].
  - destruct (bool_decide _); [by apply mon_ret|apply mon_raise, HQ].
  - apply mon_raise, HQ.
Qed.
(** A look at the servers, which fails with a text if it does, and then shows none. *)
Definition saw (reply : Resp + RequestExc) (r : res Exc (list (string * json))) : Prop :=
  match r with Ok servers => dget ""%string servers = shown_server reply | Err e => shown_server reply = None /\ exists f, e = Fails f end.
Lemma servers_mon p (next : Resp + RequestExc -> Phase) :
  (forall reply, may p (existT (Http (hub_call cf user "GET" (user_path user) 10 None)) reply) = Some (next reply)) ->
  mon may p (_user_servers svc cf user) (fun r p' => exists reply, p' = next reply /\ saw reply r).
Proof.
  intros Hp. unfold _user_servers. apply mon_bind, hub_mon. intros reply. exists (next reply). split; [apply Hp|].
  destruct reply as [resp|exc]; [|intros f; eexists; split; [done|]; split; [done|by eexists]].
  assert (Hs : bool_decide (status_code resp ∈ [200]) = (status_code resp =? 200)).
  { destruct (Z.eqb_spec (status_code resp) 200) as [E|E]; [apply bool_decide_eq_true; set_solver|apply bool_decide_eq_false; set_solver]. }
  rewrite Hs. destruct (status_code resp =? 200) eqn:E; [|intros f; exists (inl resp); split; [done|]; cbn [saw shown_server]; rewrite E; eauto].
  unfold _servers, lift_failure. destruct (json_body resp) as [[| | | | | |data]|] eqn:Ej; try (apply mon_raise; exists (inl resp); split; [done|]; cbn [saw shown_server]; rewrite E, Ej; eauto).
  unfold dget_or. destruct (dget "servers"%string data) as [[| | | | | |servers]|] eqn:Es; cbn [default from_option id];
    try (apply mon_raise; exists (inl resp); split; [done|]; cbn [saw shown_server]; rewrite E, Ej, Es; eauto).
  apply mon_ret. exists (inl resp). split; [done|]. cbn [saw shown_server]. by rewrite E, Ej, Es.
Qed.
Definition waits (prior : Opts) {A} (r : res Exc A) (p : Phase) : Prop :=
  exists odd, p = Stopped prior odd /\
    match r with Err Uncaught => odd = true | Err (Fails _) | Err OutOfFuel | Ok _ => True | _ => False end.
Lemma stopping_mon prior odd : mon may (Stopped prior odd) (still_stopping svc cf user) (waits prior).
Proof.
  unfold still_stopping. apply mon_catch, mon_bind. eapply mon_mono; [apply (servers_mon _ (fun reply => Stopped prior (odd_record reply)))|].
  { intros reply. cbn [may]. by rewrite hub_own, hub_to. }
  intros [servers|e] p (reply & -> & H); cbn [saw] in H.
  - unfold dget_or, odd_record. rewrite <- H. destruct (dget ""%string servers) as [[]|]; cbn [default from_option id]; try (apply mon_ret; by eexists);
      apply mon_bind; cbn [get_of]; first [solve [apply mon_raise, mon_raise; by eexists]|apply mon_ret, mon_ret; by eexists].
  - destruct H as (_ & [] & ->); first [apply mon_ret; by eexists|apply mon_raise; by eexists].
Qed.
Lemma stop_loop_mon fuel deadline prior odd : mon may (Stopped prior odd) (stop_loop svc cf user fuel deadline) (waits prior).
Proof.
  revert odd. induction fuel as [|fuel IH]; intros odd; cbn [stop_loop]; [apply mon_raise; by eexists|].
  apply mon_bind. eapply mon_mono; [apply stopping_mon|]. intros [b|e] p (odd' & -> & H); [|by eexists].
  destruct b; cbn [negb]; [|apply mon_ret; by eexists]. apply mon_bind. unfold monotonic. refine (mon_call may _ svc Monotonic _ _). intros t.
  eexists. split; [reflexivity|]. cbv beta iota zeta. destruct (_ <=?q 0); [apply mon_ret; by eexists|].
  apply mon_bind. refine (mon_call may _ svc (Sleep _) _ _). intros u. eexists. split; [reflexivity|]. apply IH.
Qed.
Lemma failed_says (opts : Opts) f : says_failed opts (restate (_start_call opts) f).
Proof. exists (message f). by destruct f. Qed.
Lemma stop_awaited fuel prior stopped : mon may (Stopped prior false)
  (if stopped =? 202 then _await_stop svc cf user fuel else if negb (stopped =? 400) then (mcall svc (Sleep 3) : TM unit) else mret tt) (waits prior).
Proof.
  destruct (stopped =? 202); [|destruct (negb _)].
  - unfold _await_stop, monotonic. apply mon_bind. refine (mon_call may _ svc Monotonic _ _). intros t. eexists. split; [reflexivity|]. apply stop_loop_mon.
  - refine (mon_call may _ svc (Sleep _) _ _). intros u. eexists. split; [reflexivity|]. by eexists.
  - apply mon_ret. by eexists.
Qed.
Definition again (prior opts : Opts) (r : res Exc Resp) (p : Phase) : Prop :=
  match r with
  | Ok resp => p = Spawned prior opts (inl resp) /\ (bool_decide (status_code resp ∈ [200; 201; 202]) = false -> status_code resp = 400)
  | Err _ => (exists reply, p = Spawned prior opts reply) \/ exists odd, p = Stopped prior odd
  end /\ forall e, r = Err e -> as_asked prior opts -> told (Err e) p.
Lemma again_mon fuel stopped prior opts : mon may (Stopped prior false) (start_again svc cf user fuel stopped opts) (again prior opts).
Proof.
  unfold start_again. apply mon_catch, mon_bind. eapply mon_mono; [apply stop_awaited|]. intros [[]|e] p (odd & -> & H).
  - unfold _spawn. apply hub_mon. intros reply. exists (Spawned prior opts reply). split.
    { unfold may. rewrite hub_own, hub_to. unfold to_ at 1. reflexivity. }
    assert (Hf : (forall resp, reply = inl resp -> bool_decide (status_code resp ∈ [200; 201; 202; 400]) = false) -> forall f,
      again prior opts (Err (Fails (restate (_start_call opts) f))) (Spawned prior opts reply)).
    { intros Hr f. split; [left; by eexists|]. intros e [= <-] Ha. split; [done|]. destruct reply as [resp|exc]; [|eexists; split; [done|apply failed_says]].
      specialize (Hr resp eq_refl). apply bool_decide_eq_false in Hr. cbn [says]. rewrite bool_decide_eq_false_2 by set_solver.
      destruct (Z.eqb_spec (status_code resp) 400) as [E|E]; [rewrite E in Hr; set_solver|]. eexists. split; [done|apply failed_says]. }
    destruct reply as [resp|exc]; [|intros f; apply mon_raise, Hf; by intros].
    case_bool_decide as Hd; [|intros f; apply mon_raise, Hf; intros ? [= <-]; by apply bool_decide_eq_false].
    split; [|by intros e [=]]. split; [done|]. intros Hn%bool_decide_eq_false. set_solver.
  - destruct e; apply mon_raise; (split; [right; by eexists|]); intros e [= <-] Ha; cbn [told]; try done. exists opts. split; [done|apply failed_says].
Qed.
Lemma restart_told_mon prior opts note start : as_asked prior opts -> (bool_decide (status_code start ∈ [200; 201; 202]) = false -> status_code start = 400) ->
  mon may (Spawned prior opts (inl start)) (restart_told opts note start) told.
Proof.
  intros Ha Hs. unfold restart_told, _spawn_refusal. destruct (Z.eqb_spec (status_code start) 400) as [E|E].
  - destruct (str_contains "is already running" _) eqn:E1; [|destruct (str_contains "is pending stop" _) eqn:E2];
      apply mon_raise; cbn [told says]; (split; [done|]); rewrite E, E1; cbn [orb]; rewrite ?E2; try done. eexists. split; [done|]. exact (startswith_app _ _).
  - apply mon_ret. split; [done|]. cbn [says]. destruct (bool_decide _); [|by specialize (Hs eq_refl)]. eexists. split; [done|]. exact (startswith_app _ _).
Qed.
(** The options before the session was stopped: they are read with looks only. *)
Lemma prior_mon prior : mon may (Before prior) (prior_options svc cf user)
  (fun r p => exists shown, p = Before shown /\ match r with Ok (opts, _) => opts = shown | Err _ => True end).
Proof.
  unfold prior_options. apply mon_catch, mon_bind. eapply mon_mono; [apply (servers_mon _ (fun reply => Before (shown_options reply)))|].
  { intros reply. cbn [may]. by rewrite hub_own, hub_to. }
  intros [servers|e] p (reply & -> & H); cbn [saw] in H; unfold shown_options.
  - unfold dget_or. rewrite <- H. destruct (dget ""%string servers) as [[| | | | | |server]|]; cbn [default from_option id get_else jget];
      apply mon_bind; try (apply mon_raise, mon_raise; by eexists); apply mon_ret.
    + destruct (dget "user_options"%string server) as [j|]; cbn [default from_option id]; [|apply mon_ret; by eexists].
      unfold j_or. destruct (truthy j) eqn:Et; destruct j as [| | | | | |l]; cbn in Et; try discriminate Et; try solve [apply mon_raise, mon_raise; by eexists]; try solve [apply mon_ret; by eexists].
      apply mon_ret. eexists. split; [done|]. by destruct l.
    + apply mon_ret. by eexists.
  - destruct H as (-> & [] & ->); first [apply mon_ret; by eexists|apply mon_raise; by eexists].
Qed.
Lemma asked_options prior : mon may (Before prior)
  (if given profile_name then
     p ← _named_profile available profiles_error (default ""%string profile_name) "call restart_af_session without profile_name to keep the current profile";
     mret (dset "profile"%string (JStr (slug p)) (base_options prior))
   else mret (base_options prior) : TM Opts)
  (fun r p => p = Before prior /\ match r with Ok opts => as_asked prior opts | Err _ => True end).
Proof.
  unfold as_asked. destruct profile_name as [[|c name]|]; [by apply mon_ret| |by apply mon_ret]. cbn [given String.eqb negb default from_option id].
  apply mon_bind. unfold _named_profile. destruct (find_profile available (String c name)) as [pr|]; [|by destruct available; apply mon_raise].
  apply mon_ret, mon_ret. split; [done|]. split; [intros key Hk; by apply dget_dset_ne|]. exists pr. split; [done|apply dget_dset].
Qed.

(** *** Theorem *)

End Watch.

(** ** Waits end *)

Section Waits.
Context (svc : service Req Ans) (cf : Config) (user : User) (clock : list Ev -> Q).
Hypothesis Hclock : clock_ok svc clock.
Definition in_time {A} (r : res Exc A) : Prop := r <> Err OutOfFuel.
Lemma must_in_time {A} (o : option A) s h : wp (must o : TM A) s h (fun r _ h' => h' = h /\ in_time r).
Proof. destruct o; [by apply wp_ret|by apply wp_raise]. Qed.
Lemma servers_in_time resp s h : wp (lift_failure (_servers cf user resp)) s h (fun r _ h' => h' = h /\ in_time r).
Proof. destruct (_servers cf user resp); [by apply wp_ret|by apply wp_raise]. Qed.
Lemma classify_in_time resp s h : wp (_classify_poll cf user resp) s h (fun r _ h' => h' = h /\ in_time r).
Proof.
  unfold _classify_poll. cbv zeta. destruct (_ || _); [by apply wp_raise|]. destruct (negb _); [by apply wp_ret|].
  apply wp_bind. eapply wp_mono; [apply servers_in_time|]. intros [servers|e] ? ? [-> H]; [|split; [done|intros [= ->]; by apply H]].
  destruct (dget_or _ _ servers) eqn:Ed; [by apply wp_ret|..].
  all: apply wp_bind; (eapply wp_mono; [apply must_in_time|]); intros [ready|e] ? ? [-> H']; [|split; [done|intros [= ->]; by apply H']].
  all: destruct (truthy ready); [by apply wp_ret|]; cbv zeta; destruct (jeq_str _ _); [by apply wp_raise|by apply wp_ret].
Qed.
Lemma look_in_time p s h : wp (look svc cf user p) s h (fun r _ h' => (exists t, h' = (h ++ t)%list) /\ in_time r).
Proof.
  unfold look. cbv zeta. do 2 wp_step. destruct (svc h _) as [resp|exc]; [|apply wp_ret; split; [eauto|done]].
  apply wp_bind. eapply wp_mono; [apply classify_in_time|]. intros [poll|e] ? h1 [-> H]; [|split; [eauto|intros [= ->]; by apply H]].
  repeat case_match; first [apply wp_ret; split; [eauto|done]|apply wp_raise; split; [eauto|done]].
Qed.
Definition waited (deadline : Q) (r : res Exc Wait) (h' : list Ev) : Prop :=
  match r with Ok (Ready _ _) => True | Ok (TimedOut _) => (deadline <= clock h')%Q | Err e => e <> OutOfFuel end.
Lemma wait_loop_ends fuel deadline k p h : (deadline - clock h <= _POLL_INTERVAL * qz (Z.of_nat k))%Q -> (k < fuel)%nat ->
  wp (wait_loop svc cf user fuel deadline p) tt h (fun r _ h' => waited deadline r h').
Proof.
  revert k p h. induction fuel as [|fuel IH]; intros k p h Hk Hf; [lia|]. cbn [wait_loop]. apply wp_bind.
  eapply wp_mono; [apply look_in_time|]. intros [[ready p']|e] [] h1 [[t ->] Ht]; [|intros ->; by apply Ht].
  destruct ready; [by apply wp_ret|]. unfold monotonic. do 2 wp_step. cbv zeta. rewrite (proj1 Hclock).
  pose proof (loop_clock_mono svc clock Hclock h t) as H1. destruct (_ <=?q 0) eqn:Er.
  - apply wp_ret. apply qle_true in Er. cbn. eapply Qle_trans; [|apply (proj1 (proj2 Hclock))]. lra.
  - apply qle_false in Er. destruct k as [|k]; [exfalso; change (qz (Z.of_nat 0)) with 0%Q in Hk; unfold _POLL_INTERVAL in Hk; lra|].
    do 2 wp_step. apply IH with k; [|lia]. eapply (after_sleep svc clock Hclock); [discriminate|lra|reflexivity].
Qed.
Lemma hub_in_time method path action ok timeout body s h :
  wp (_hub svc cf user method path action ok timeout body) s h (fun r _ h' => (exists t, h' = (h ++ t)%list) /\ in_time r).
Proof.
  unfold _hub. do 2 wp_step. destruct (svc h _) as [resp|exc]; [|apply wp_raise; split; [eauto|done]].
  destruct (bool_decide _); [apply wp_ret|apply wp_raise]; split; eauto; done.
Qed.
Lemma user_servers_in_time s h : wp (_user_servers svc cf user) s h (fun r _ h' => (exists t, h' = (h ++ t)%list) /\ in_time r).
Proof.
  unfold _user_servers. apply wp_bind. eapply wp_mono; [apply hub_in_time|]. intros [resp|e] ? h1 [[t ->] H]; [|split; [eauto|intros [= ->]; by apply H]].
  eapply wp_mono; [apply servers_in_time|]. intros r ? h1 [-> Hr]. eauto.
Qed.
Lemma stopping_in_time s h : wp (still_stopping svc cf user) s h (fun r _ h' => (exists t, h' = (h ++ t)%list) /\ in_time r).
Proof.
  unfold still_stopping. apply wp_catch, wp_bind. eapply wp_mono; [apply user_servers_in_time|]. intros [servers|e] ? h1 [[t ->] H].
  - destruct (dget_or _ _ servers); [apply wp_ret; split; [eauto|done]|..].
    all: apply wp_bind; (eapply wp_mono; [apply must_in_time|]); intros [pending|e] ? ? [-> H'];
      [by apply wp_ret; split; [eauto|done]|destruct e as [[]| | |]; try (by exfalso; apply H'); first [apply wp_ret|apply wp_raise]; split; eauto; done].
  - destruct e as [[]| | |]; try (by exfalso; apply H); first [apply wp_ret|apply wp_raise]; split; eauto; done.
Qed.
Lemma stop_loop_ends fuel deadline k h : (deadline - clock h <= _POLL_INTERVAL * qz (Z.of_nat k))%Q -> (k < fuel)%nat ->
  wp (stop_loop svc cf user fuel deadline) tt h (fun r _ _ => in_time r).
Proof.
  revert k h. induction fuel as [|fuel IH]; intros k h Hk Hf; [lia|]. cbn [stop_loop]. apply wp_bind.
  eapply wp_mono; [apply stopping_in_time|]. intros [stopping|e] [] h1 [[t ->] Ht]; [|intros [= ->]; by apply Ht].
  destruct (negb stopping); [by apply wp_ret|]. unfold monotonic. do 2 wp_step. cbv zeta. rewrite (proj1 Hclock).
  pose proof (loop_clock_mono svc clock Hclock h t) as H1. destruct (_ <=?q 0) eqn:Er; [by apply wp_ret|].
  apply qle_false in Er. destruct k as [|k]; [exfalso; change (qz (Z.of_nat 0)) with 0%Q in Hk; unfold _POLL_INTERVAL in Hk; lra|].
  do 2 wp_step. apply IH with k; [|lia]. eapply (after_sleep svc clock Hclock); [discriminate|lra|reflexivity].
Qed.
(** A deadline that is set when the loop begins is that far away. *)
Lemma deadline_near h e d : (clock h + d - clock (h ++ [e])%list <= d)%Q.
Proof. pose proof (proj1 (proj2 Hclock) h e). lra. Qed.
Lemma lines_start x l : startswith x (lines_of (x :: l)) = true.
Proof.
  unfold lines_of, str_join. destruct l; cbn [String.concat]; [|exact (startswith_app x _)].
  assert (x ++ "" = x)%string as E by (induction x as [|c x IH]; [done|by cbn; rewrite <- IH at 2]). pose proof (startswith_app x "") as H. by rewrite E in H.
Qed.
Definition wait_told (timeout : Z) (start : Q) (r : res Exc string) (h' : list Ev) : Prop :=
  match r with
  | Ok text => startswith "Session is running." text = true \/
      startswith ("Session did not become ready within " ++ pretty timeout ++ " s.") text = true /\ (start + qz timeout <= clock h')%Q
  | Err e => e <> OutOfFuel
  end.

(** *** Theorem *)

(** The waits for a session end: however the Hub answers, a wait is over after 61 looks at
    the session, for what is asked for clamped to ten minutes; it says that the session is
    not ready, without a failure, only once the whole of it is over; and a restart's wait
    for its stop is over after ten looks. *)
Theorem session_waits_end timeout deadline h :
  wp (wait_for_session svc cf user 61 timeout) tt h (fun r _ h' => wait_told (clamp_timeout timeout) (clock h) r h') /\
  wp (_await_stop svc cf user 10) tt h (fun r _ _ => in_time r) /\
  (1 <= clamp_timeout timeout <= 600 /\ (1 <= deadline <= 600 -> clamp_timeout deadline = deadline)).
Proof.
  split; [|split]; [..|unfold clamp_timeout; lia].
  - unfold wait_for_session, monotonic. cbv zeta. do 2 wp_step. rewrite (proj1 Hclock). apply wp_bind.
    eapply wp_mono; [apply wait_loop_ends with 60%nat; [eapply Qle_trans; [apply deadline_near|]|lia]|].
    + change (_POLL_INTERVAL * qz (Z.of_nat 60))%Q with (qz 600). unfold qz. rewrite <- Zle_Qle. unfold clamp_timeout. lia.
    + intros [[started n|p]|e] [] h1 H; [apply wp_ret; left; exact (lines_start "Session is running." _)| |exact H].
      apply wp_ret. right. split; [exact (lines_start _ _)|exact H].
  - unfold _await_stop, monotonic. do 2 wp_step. rewrite (proj1 Hclock). apply stop_loop_ends with 9%nat; [|lia].
    eapply Qle_trans; [apply deadline_near|]. discriminate.
Qed.
End Waits.
(** A Hub whose session never gets ready. *)
Definition pending (h : list Ev) (r : Req) : Ans r :=
  match r with
  | Monotonic => sleep_clock h
  | Http _ => inl (mkResp 200 (Some "") (Some (JObj [("servers", JObj [("", JObj [("pending", JStr "spawn")])])])))
  | PromGet _ _ _ => inl (mkResp 200 (Some "") None) | Elicit _ _ => None | Sleep _ => tt | FreeCached => None | FreeStore _ => tt | Time => 0%Q | Dashboard => None
  end%string.
Lemma session_waits_end_witness :
  (match (wait_for_session pending somewhere ada 61 600 tt []).1.1 with Ok text => startswith "Session did not become ready within 600 s." text | Err _ => false end) = true /\
  wp (wait_for_session pending somewhere ada 61 600) tt [] (fun r _ h' => wait_told sleep_clock (clamp_timeout 600) (sleep_clock []) r h').
Proof. split; [vm_compute; reflexivity|]. exact (proj1 (session_waits_end pending somewhere ada sleep_clock (sleep_clock_ok pending (fun _ => eq_refl)) 600 600 [])). Defined.
