(* ===== verification/AgRay.v ===== *)
(** The Ray tools of the agentic interface, [docker/agentic-interface/tools/ray.py]: the
    GPUs that are free, the caller's jobs and their own cluster, by calls of the Ray gateway
    with the caller's token. The bytes of a zip file are its members' as [zipfile] writes
    them; a log's lines end as those of ASCII texts do. *)
From S2P Require Import Prelude PyJson PyText PyTime PyFloat PyValue PyFormat Sha256 AgErrors AgAuth AgTools.
Open Scope Z_scope.

Definition _SERVICE : string := "the Ray gateway".
Definition _ENDED : list string := ["SUCCEEDED"; "FAILED"; "STOPPED"]%string.
Definition _MAX_CODE_BYTES : Z := 10 * 2 ^ 20.
Definition _MAX_LOG_CHARS : nat := Z.to_nat 20000.
Definition _SUBMIT_TIMEOUT : Q := 300.
Definition eol : string := String "010" "".
Definition lines_of (l : list string) : string := str_join eol l.

Definition _http_failure (resp : Resp) (action : string) : Failure :=
  let code := status_code resp in
  let detail := str_rstrip (fun c => Ascii.eqb c ".") (or_else (response_detail resp 500) "no reason given") in
  if (code =? 401) || (code =? 403) then AuthError ("Error: not authorised to " ++ action ++ " — " ++ detail ++ ".")
  else if code =? 429 then UserError ("Error: could not " ++ action ++ " — " ++ detail ++ ". get_ray_capacity shows what is free now.")
  else if (400 <=? code) && (code <? 500) then UserError ("Error: could not " ++ action ++ " — " ++ detail ++ ".")
  else if code =? 503 then UpstreamError ("Error: could not " ++ action ++ " — " ++ detail ++ ".")
  else http_error _SERVICE resp action "".
Definition is_success (resp : Resp) : bool := (200 <=? status_code resp) && (status_code resp <=? 299).

(** [_JOB_ID_RE.match]: its [$] is also before a last newline. *)
Definition id_char (c : ascii) : bool := is_alnum_lower (chr_lower c) || Ascii.eqb c "_" || Ascii.eqb c "-".
Definition _JOB_ID_RE (s : string) : bool :=
  let s := removesuffix eol s in negb (String.eqb s "") && str_forallb id_char s.
Definition _job_path (job_id : string) : res Failure string :=
  if _JOB_ID_RE job_id then Ok ("/api/jobs/" ++ job_id)%string
  else Err (UserError ("Error: invalid job ID " ++ str_repr job_id ++ " — use an ID list_ray_jobs returns.")).

(** ** The package of a job's files *)

(** [f"{q:.1f}"] of [q] not negative. *)
Definition fixed1 (q : Q) : string := let t := half_even (q * 10) in (pretty (t / 10) ++ "." ++ pretty (t mod 10))%string.
Fixpoint until_nul (s : string) : string :=
  match s with String c s' => if Ascii.eqb c "000" then EmptyString else String c (until_nul s') | EmptyString => EmptyString end.
Definition leads_out (name path : string) : bool := startswith "/" name || String.eqb path ".." || startswith "../" path.
(** The members of the package, by name in their order: [ZipInfo] cuts a name at a NUL. *)
Definition add_member (files : list (string * string)) (members : list (string * string)) (name : string) : res Failure (list (string * string)) :=
  let path := normpath name in
  if leads_out name path then Err (UserError ("Error: " ++ str_repr name ++ " in files is not a path inside the job's directory: use a relative path."))
  else Ok (members ++ [(until_nul path, dget_or name ""%string files)])%list.
Fixpoint add_members (files members : list (string * string)) (names : list string) : res Failure (list (string * string)) :=
  match names with
  | [] => Ok members
  | name :: names => members ← add_member files members name; add_members files members names
  end.
Section Zip.
Context (zipped : list (string * string) -> string).
Definition package_name (data : string) : string := "_ray_pkg_" ++ str_take 16 (sha256_hex data) ++ ".zip".
Definition _package (files : list (string * string)) : res Failure (string * string) :=
  members ← add_members files [] (str_sorted (map fst files));
  let data := zipped members in
  let size := Z.of_nat (String.length data) in
  if _MAX_CODE_BYTES <? size then
    Err (UserError ("Error: files come to " ++ fixed1 (qz size / qz (2 ^ 20)) ++ " MiB compressed, over the " ++ pretty (_MAX_CODE_BYTES / 2 ^ 20)
      ++ " MiB limit. Keep data out of them: name it with inputs, or read it from /work at Purdue."))
  else Ok (package_name data, data).
End Zip.

(** ** Settings *)

Definition dashes : string -> string := str_map (fun c => if Ascii.eqb c "_" then "-"%char else c).
(** Those that are given, as texts. *)
Definition _settings (settings : list (string * json)) : list (string * string) :=
  omap (fun kv => match kv.2 with JNull => None | v => Some (("af-" ++ dashes kv.1)%string, str_of v) end) settings.
Definition opt_json {A} (f : A -> json) (o : option A) : json := match o with Some a => f a | None => JNull end.

(** ** What is told of jobs, clusters and GPUs; nothing where a record is of another kind
    than the gateway's, which raises. *)

Definition num_of (j : json) : option Q :=
  match j with JBool b => Some (qz (Z.b2z b)) | JInt n => Some (qz n) | JFloat q => Some q | _ => None end.
(** [f"{j:g}"], [j >= n], [n <= j], [j != 1]. *)
Definition g_of (j : json) : option string := option_map (fun q => general_f (f_of q)) (num_of j).
Definition at_least (j : json) (n : Z) : option bool := option_map (fun q => qz n <=?q q) (num_of j).
Definition is_one (j : json) : bool := match num_of j with Some q => Qeq_bool q 1 | None => false end.

Definition job_field (job : json) (key : string) : list string :=
  let v := jget key job in if truthy v then ["  " ++ key ++ ": " ++ str_of v]%string else [].
Definition _fmt_job (job : json) : option string :=
  if is_obj job then
    Some (lines_of (("**" ++ str_of (jget "submission_id" job) ++ "**  status=" ++ str_of (jget "status" job))%string
      :: job_field job "entrypoint" ++ job_field job "message")%list)
  else None.
Definition kind_line (kind : json) : option string :=
  memory ← item_of "memory_gb" kind; memory ← g_of memory; free ← item_of "workers_free" kind; held ← item_of "workers_preemptible" kind;
  Some ("  " ++ memory ++ " GB GPU: " ++ str_of free ++ " free, " ++ str_of held ++ " on GPUs other users' preemptible workers hold")%string.
(** No number of workers is asked about if it is 0. *)
Definition asked_about (workers : option Z) : option Z := match workers with Some 0 => None | o => o end.
Definition _fmt_purdue (purdue : json) (workers : option Z) : option (list string) :=
  known ← get_of "known" purdue;
  if negb (truthy known) then
    Some ["Purdue: free workers unknown now, the monitoring system does not answer. A job there has at most " ++ str_of (jget "workers_most" purdue) ++ " workers."]%string
  else
    free ← item_of "workers_free" purdue; most ← item_of "workers_most" purdue;
    kinds ← item_of "kinds" purdue; kinds ← iter_of kinds; kinds ← mapM kind_line kinds;
    fits ← match asked_about workers with
           | None => Some []
           | Some n => fits ← at_least free n; Some ["  " ++ pretty n ++ " workers: " ++ (if fits : bool then "fit now" else "do not fit now") ++ "."]%string
           end;
    Some (("Purdue: " ++ str_of free ++ " workers free now, of at most " ++ str_of most ++ " for a job.")%string :: kinds ++ fits)%list.
(** [l[:5]] *)
Definition first_five (j : json) : option (list json) :=
  match j with JArr l => Some (firstn 5 l) | JStr _ => option_map (firstn 5) (iter_of j) | _ => None end.
Definition model_line (model : json) : option (list string) :=
  workers ← item_of "workers" model;
  if truthy workers then name ← item_of "model" model; Some ["  " ++ str_of workers ++ " on " ++ str_of name]%string else Some [].
Definition _fmt_nrp (nrp : json) (workers : option Z) : option (list string) :=
  match nrp with
  | JNull => Some ["NRP: not for this shape, whose workers have one GPU each."]%string
  | _ =>
      known ← get_of "known" nrp;
      if negb (truthy known) then Some ["NRP: unknown now, its monitoring shows none of its GPU nodes."]%string
      else
        size ← item_of "worker" nrp; free ← item_of "workers_free" nrp; most ← item_of "workers_most" nrp;
        gpus ← item_of "gpus" size; cpus ← item_of "cpus" size; cpus ← g_of cpus; memory ← item_of "memory_gb" size; memory ← g_of memory;
        models ← item_of "models" nrp; models ← first_five models; models ← mapM model_line models;
        fits ← match asked_about workers with
               | None => Some []
               | Some n =>
                   fits ← at_least free n; ever ← at_least most n;
                   Some ["  " ++ pretty n ++ " workers: " ++ (if fits : bool then "fit now" else "do not fit now") ++ (if ever : bool then "." else ", and never would.")]%string
               end;
        Some (("NRP: " ++ str_of free ++ " workers free now for one job, of at most " ++ str_of most ++ " once its nodes are empty; each has " ++ str_of gpus
          ++ " GPU, " ++ cpus ++ " CPU cores and " ++ memory ++ " GB. A job's GPUs may be of several models, each with the GPU memory it asks for.")%string
          :: concat models ++ fits)%list
  end.
Definition dq (s : string) : string := (String "034" s ++ String "034" "")%string.
Definition _connect (cluster : json) : option string :=
  workers ← item_of "workers" cluster; each ← item_of "gpus_per_worker" cluster; env ← item_of "environment" cluster;
  let settings := ([("af-max-workers"%string, workers)] ++ (if is_one each then [] else [("af-gpus-per-worker"%string, each)])
    ++ (if truthy env then [("af-env"%string, env)] else []))%list in
  Some ("ray.init(" ++ dq "ray://ray-train-gateway:10001" ++ ", _metadata=[" ++ str_join ", " (map (fun kv => "(" ++ dq kv.1 ++ ", " ++ dq (str_of kv.2) ++ ")")%string settings) ++ "])")%string.
Definition _fmt_cluster (cluster : json) : option string :=
  name ← item_of "name" cluster; ready ← item_of "ready" cluster; busy ← item_of "busy" cluster;
  workers_ready ← item_of "workers_ready" cluster; workers ← item_of "workers" cluster; each ← item_of "gpus_per_worker" cluster;
  memory ← item_of "min_gpu_memory_gb" cluster; memory ← g_of memory; cpus ← item_of "cpus_per_worker" cluster; ram ← item_of "ram_per_worker_gb" cluster;
  env ← item_of "environment" cluster; call ← _connect cluster;
  Some (lines_of ["**" ++ str_of name ++ "**  ready=" ++ str_of ready ++ "  busy=" ++ str_of busy;
    "  workers: " ++ str_of workers_ready ++ " ready of " ++ str_of workers ++ ", " ++ str_of each ++ " GPU(s) of " ++ memory ++ " GB or more, " ++ str_of cpus
      ++ " CPU cores and " ++ str_of ram ++ " GB each";
    "  environment: " ++ (if truthy env then str_of env else "the global environment"); "";
    "From a notebook of a session without a GPU:"; "  " ++ call; "A cluster is removed once idle, with its GPUs."]%string).
Definition _cluster_body (resp : Resp) : res Failure json :=
  match json_body resp with
  | Some body => if jhas "exists" body then Ok body else Err (malformed_response _SERVICE resp "a Ray cluster" "")
  | None => Err (malformed_response _SERVICE resp "a Ray cluster" "")
  end.

(** [s.splitlines()]: without the ends of lines, and no last line that is empty. *)
Definition line_end (c : ascii) : bool := bool_decide (c ∈ ["010"; "011"; "012"; "013"; "028"; "029"; "030"]%char).
Fixpoint split_lines (line : string) (s : string) : list string :=
  match s with
  | EmptyString => if String.eqb line "" then [] else [line]
  | String c s' =>
      if line_end c then
        line :: match s' with
                | String d s'' => if Ascii.eqb c "013" && Ascii.eqb d "010" then split_lines "" s'' else split_lines "" s'
                | EmptyString => []
                end
      else split_lines (line ++ String c "") s'
  end.
(** [l[-n:]]: of 0 it is all of [l], and below 0 what follows the first. *)
Definition last_of {A} (n : Z) (l : list A) : list A :=
  if n =? 0 then l else if n <? 0 then skipn (Z.to_nat (- n)) l else skipn (List.length l - Z.to_nat n) l.
Definition log_tail (logs : string) (log_lines : Z) : string :=
  let text := lines_of (last_of log_lines (split_lines "" logs)) in str_drop (String.length text - _MAX_LOG_CHARS) text.
Example log_tails :
  (split_lines "" ("a" ++ String "013" (String "010" "b") ++ eol ++ eol ++ "c"), map (log_tail ("a" ++ eol ++ "b" ++ eol ++ "c" ++ eol)) [2; 0; -1; 9])%string
  = (["a"; "b"; ""; "c"], ["b" ++ eol ++ "c"; "a" ++ eol ++ "b" ++ eol ++ "c"; "b" ++ eol ++ "c"; "a" ++ eol ++ "b" ++ eol ++ "c"])%string.
Proof. reflexivity. Qed.

(** ** The tools *)

Section Ray.
Context (svc : service Req Ans) (cf : Config) (user : User) (zipped : list (string * string) -> string).
Definition ray_call (method path : string) (headers params : list (string * string)) (body : option json) (content : option string) (timeout : Q) : Call :=
  mkCall "ray-gateway" method (RAY_GATEWAY_URL cf ++ path) ("Bearer " ++ u_token user) headers params body content timeout.
Definition _gateway (call : Call) (action : string) : TM Resp :=
  reply ← (mcall svc (Http call) : TM (Resp + RequestExc));
  match reply with
  | inr exc => fails (unreachable _SERVICE exc "")
  | inl resp => if is_success resp then mret resp else fails (_http_failure resp action)
  end.
(** A call without more than its path. *)
Definition plain (method path : string) : Call := ray_call method path [] [] None None 30.
Definition or_fail {A} (r : res Failure A) : TM A := match r with Ok a => mret a | Err f => fails f end.

Definition get_ray_capacity (min_gpu_memory_gb : option Q) (gpus_per_worker : Z) (workers : option Z) : TM string :=
  let params := _settings [("min_gpu_memory_gb", opt_json JFloat min_gpu_memory_gb); ("gpus_per_worker", JInt gpus_per_worker)]%string in
  resp ← _gateway (ray_call "GET" "/af/capacity" [] params None None 30) "read Ray capacity";
  match (match json_body resp with Some body => if jhas "purdue" body then Some body else None | None => None end) with
  | None => fails (malformed_response _SERVICE resp "Ray capacity" "")
  | Some body =>
      purdue ← must (_fmt_purdue (jget "purdue" body) workers);
      nrp ← must (_fmt_nrp (jget "nrp" body) workers);
      mret (lines_of (purdue ++ nrp ++ [""; "Next: submit_ray_job, with workers and site from the above. Free counts are a moment's reading: a submission is judged when it arrives."]%string)%list)
  end.

Inductive Site := Purdue | Nrp.
Definition site_name (s : Site) : string := match s with Purdue => "purdue" | Nrp => "nrp" end.
(** The settings of workers that jobs and clusters share, and a job's arguments. *)
Record Workers := mkWorkers { w_workers : Z; w_exact : bool; w_memory : option Q; w_gpus : option Z; w_cpus : option Z; w_ram : option Z; w_environment : option string }.
Record JobArgs := mkJob { j_entrypoint : string; j_site : Site; j_files : list (string * string); j_workers : Workers; j_entrypoint_gpus : Z;
  j_inputs : option string; j_output : option string; j_pip : list string; j_env_vars : list (string * string) }.
Definition count_of (w : Workers) : string * json := ((if w_exact w then "n_workers" else "max_workers")%string, JInt (w_workers w)).
Definition job_settings (a : JobArgs) : list (string * string) :=
  let w := j_workers a in
  _settings [("site", JStr (site_name (j_site a))); ("min_gpu_memory_gb", opt_json JFloat (w_memory w)); ("gpus_per_worker", opt_json JInt (w_gpus w));
    ("cpus_per_worker", opt_json JInt (w_cpus w)); ("ram_per_worker_gb", opt_json JInt (w_ram w)); ("env", opt_json JStr (w_environment w));
    ("inputs", opt_json JStr (j_inputs a)); ("output", opt_json JStr (j_output a)); count_of w]%string.
Definition cluster_settings (w : Workers) : list (string * string) :=
  _settings [("min_gpu_memory_gb", opt_json JFloat (w_memory w)); ("gpus_per_worker", opt_json JInt (w_gpus w)); ("cpus_per_worker", opt_json JInt (w_cpus w));
    ("ram_per_worker_gb", opt_json JInt (w_ram w)); ("env", opt_json JStr (w_environment w)); count_of w]%string.
(** The package is there before the job that runs in it. *)
Definition upload_files (a : JobArgs) : TM (list (string * json)) :=
  match j_files a with
  | [] => mret []
  | files =>
      '(name, data) ← or_fail (_package zipped files);
      _gateway (ray_call "PUT" ("/api/packages/gcs/" ++ name) (job_settings a) [] None (Some data) _SUBMIT_TIMEOUT) "upload the job's files" ≫= fun _ =>
      mret [("working_dir", JStr ("gcs://" ++ name))]%string
  end.
Definition job_body (a : JobArgs) (working_dir : list (string * json)) : json :=
  let runtime_env := (working_dir ++ match j_pip a with [] => [] | pip => [("pip"%string, JArr (map JStr pip))] end
    ++ match j_env_vars a with [] => [] | vars => [("env_vars"%string, JObj (map (fun kv => (kv.1, JStr kv.2)) vars))] end)%list in
  JObj ([("entrypoint", JStr (j_entrypoint a)); ("runtime_env", JObj runtime_env)]%string
    ++ if j_entrypoint_gpus a =? 0 then [] else [("entrypoint_num_gpus"%string, JInt (j_entrypoint_gpus a))])%list.
Definition submit_ray_job (a : JobArgs) : TM string :=
  working_dir ← upload_files a;
  resp ← _gateway (ray_call "POST" "/api/jobs/" (job_settings a) [] (Some (job_body a working_dir)) None _SUBMIT_TIMEOUT) "submit the job";
  let id := match json_body resp with Some body => jget "submission_id" body | None => JNull end in
  if truthy id then
    mret ("Submitted job " ++ str_of id ++ " at " ++ site_name (j_site a) ++ ". It can take "
      ++ (match j_site a with Nrp => "up to half an hour" | Purdue => "a minute or two" end) ++ " to start." ++ eol
      ++ "Next: get_ray_job('" ++ str_of id ++ "') for its status and log.")%string
  else fails (malformed_response _SERVICE resp "a submitted job" "").
Definition list_ray_jobs : TM string :=
  resp ← _gateway (plain "GET" "/api/jobs/") "list your Ray jobs";
  match json_body resp with
  | Some (JArr []) => mret "No Ray jobs."%string
  | Some (JArr jobs) =>
      texts ← must (mapM _fmt_job jobs);
      mret ("# " ++ pretty (Z.of_nat (List.length jobs)) ++ " Ray job(s)" ++ eol ++ str_join (eol ++ eol) texts)%string
  | _ => fails (malformed_response _SERVICE resp "a job list" "")
  end.
Definition get_ray_job (job_id : string) (log_lines : Z) : TM string :=
  path ← or_fail (_job_path job_id);
  resp ← _gateway (plain "GET" path) ("read job " ++ job_id);
  match (match json_body resp with Some job => if is_obj job then Some job else None | None => None end) with
  | None => fails (malformed_response _SERVICE resp "a job record" "")
  | Some job =>
      report ← must (_fmt_job job);
      if jeq_str (jget "status" job) "PENDING" then mret (report ++ eol ++ eol ++ "Next: ask again in a minute; it has no log yet.")%string
      else
        resp ← _gateway (plain "GET" (path ++ "/logs")) ("read job " ++ job_id ++ "'s log");
        let logs := match json_body resp with Some body => if is_obj body then str_of (jget_or "logs" (JStr "") body) else "" | None => "" end in
        let tail := log_tail logs log_lines in
        let report := (report ++ if String.eqb tail "" then eol ++ eol ++ "Its log is empty." else eol ++ eol ++ "--- log ---" ++ eol ++ tail)%string in
        ended ← must (match jget "status" job with JArr _ | JObj _ => None | s => Some (existsb (jeq_str s) _ENDED) end);
        mret (report ++ eol ++ eol ++ if ended : bool then "Next: delete_ray_job when its record is not needed." else "Next: ask again later, or stop_ray_job to end it.")%string
  end.
Definition cluster_told_of (cluster : json) : TM string := must (_fmt_cluster cluster).
Definition get_ray_cluster : TM string :=
  resp ← _gateway (plain "GET" "/af/cluster") "read your Ray cluster";
  cluster ← or_fail (_cluster_body resp);
  if truthy (jget "exists" cluster) then cluster_told_of cluster
  else mret ("You have no Ray cluster." ++ eol ++ "Next: start_ray_cluster for interactive work, or submit_ray_job, which needs none.")%string.
Definition start_ray_cluster (w : Workers) : TM string :=
  resp ← _gateway (ray_call "POST" "/af/cluster" (cluster_settings w) [] None None _SUBMIT_TIMEOUT) "start your Ray cluster";
  cluster ← or_fail (_cluster_body resp); text ← cluster_told_of cluster; mret ("Started." ++ eol ++ text)%string.
Definition stop_ray_cluster (force : bool) : TM string :=
  _gateway (ray_call "DELETE" "/af/cluster" [] (if force then [("force", "true")]%string else []) None None 30) "stop your Ray cluster" ≫= fun _ =>
  mret "Stopping your Ray cluster. Notebooks connected to it must ray.init() again."%string.
Definition stop_ray_job (job_id : string) : TM string :=
  path ← or_fail (_job_path job_id);
  _gateway (plain "POST" (path ++ "/stop")) ("stop job " ++ job_id) ≫= fun _ =>
  mret ("Stopping job " ++ job_id ++ "." ++ eol ++ "Next: get_ray_job to see it end; on NRP its outputs are copied back first.")%string.
Definition delete_ray_job (job_id : string) : TM string :=
  path ← or_fail (_job_path job_id);
  _gateway (plain "DELETE" path) ("delete job " ++ job_id) ≫= fun _ => mret ("Deleted job " ++ job_id ++ ".")%string.
End Ray.

(** ** The package stays inside *)

(** Components that lead up, after which all lead down. *)
Definition ups_then_downs (kept : list string) : Prop := exists downs n, kept = (downs ++ replicate n ".."%string)%list /\ Forall plain_comp downs.
Lemma norm_comp_shape kept c : str_forallb no_slash c = true -> ups_then_downs kept -> ups_then_downs (norm_comp false kept c).
Proof.
  intros Hc (downs & n & -> & Hd). unfold norm_comp. destruct (String.eqb_spec c ""); [by exists downs, n|]. destruct (String.eqb_spec c "."); [by exists downs, n|].
  cbn [orb]. destruct (String.eqb_spec c ".."); cbn [negb].
  - subst c. destruct downs as [|d downs]; cbn.
    + destruct n as [|n]; cbn; [by exists [], 1%nat|]. by exists [], (S (S n)).
    + inversion_clear Hd as [|? ? (_ & _ & Hdd & _) Hds]. destruct (String.eqb_spec d ".."); [done|]. by exists downs, n.
  - exists (c :: downs), n. split; [done|]. by constructor.
Qed.
Lemma norm_comps_shape s : exists n downs, norm_comps false s = (replicate n ".."%string ++ downs)%list /\ Forall plain_comp downs.
Proof.
  assert (H : ups_then_downs (foldl (norm_comp false) [] (str_split "/" s))).
  { assert (H0 : ups_then_downs []) by (by exists [], 0%nat). revert H0. generalize ([] : list string) as kept. pose proof (str_split_no_slash s) as Hs. revert Hs.
    induction (str_split "/" s) as [|c l IH]; intros Hs kept Hk; cbn [foldl]; [done|]. inversion_clear Hs. apply IH; [done|]. by apply norm_comp_shape. }
  destruct H as (downs & n & E & Hd). exists n, (rev downs). unfold norm_comps. rewrite E, rev_app_distr. split; [|by apply Forall_rev].
  f_equal. clear E. induction n as [|n IH]; [done|]. cbn [replicate rev]. rewrite IH. clear. induction n as [|n IH]; [done|]. cbn. by rewrite <- IH.
Qed.
(** A relative path that is let through leads only down. *)
Definition inside_path (path : string) : Prop := path = "."%string \/ exists downs, downs <> [] /\ path = str_join "/" downs /\ Forall plain_comp downs.
Lemma path_inside name : leads_out name (normpath name) = false -> inside_path (normpath name).
Proof.
  unfold leads_out. intros [[Hr Hd]%orb_false_iff Hu]%orb_false_iff. apply String.eqb_neq in Hd. revert Hd Hu. unfold normpath.
  destruct (String.eqb_spec name ""); [by left|]. assert (root_slashes name = ""%string) as ->.
  { unfold root_slashes. rewrite Hr. assert (startswith "//" name = false) as ->; [|done].
    destruct (startswith "//" name) eqn:E; [|done]. unfold startswith in *. destruct name as [|c name]; [done|]. cbn [String.prefix] in *.
    destruct (ascii_dec "/" c); [|done]. by destruct name. }
  cbn [String.eqb negb]. cbv zeta. change (negb true) with false.
  repeat match goal with |- context [String.append "" ?x] => change (String.append "" x) with x end. destruct (norm_comps_shape name) as (n' & downs & -> & Hdn).
  destruct n' as [|n']; cbn [replicate app].
  - destruct downs as [|d downs]; [by left|]. intros _ _. destruct (String.eqb_spec (str_join "/" (d :: downs)) ""); [by left|]. right. by exists (d :: downs).
  - destruct (replicate n' ".."%string ++ downs)%list as [|x l]; [done|].
    change (str_join "/" (".."%string :: x :: l)) with (".." ++ "/" ++ str_join "/" (x :: l))%string. intros _ H. exfalso.
    exact (Bool.diff_true_false (eq_trans (eq_sym (startswith_app "../" (str_join "/" (x :: l)))) H)).
Qed.
(** The members of a package are the files, each by its path inside the job's directory. *)
Definition members_of (files : list (string * string)) (names : list string) : list (string * string) :=
  map (fun name => (until_nul (normpath name), dget_or name ""%string files)) names.
Lemma add_members_spec files names members : (forall name, name ∈ names -> leads_out name (normpath name) = false) /\
    add_members files members names = Ok (members ++ members_of files names)%list \/
  exists name, name ∈ names /\ leads_out name (normpath name) = true /\ exists f, add_members files members names = Err f.
Proof.
  revert members. induction names as [|name names IH]; intros members; cbn [add_members members_of map].
  - left. split; [by intros ? ?%elem_of_nil|]. by rewrite app_nil_r.
  - unfold add_member. destruct (leads_out name (normpath name)) eqn:E.
    + right. exists name. split; [left|]. split; [done|]. by eexists.
    + cbn [mbind res_bind]. destruct (IH (members ++ [(until_nul (normpath name), dget_or name ""%string files)])%list) as [[H1 H2]|(n & H1 & H2 & H3)].
      * left. split; [by intros n [->|?]%elem_of_cons; auto|]. etransitivity; [exact H2|]. by rewrite <- app_assoc.
      * right. exists n. split; [by right|]. done.
Qed.
Definition sorted_names (files : list (string * string)) : list string := str_sorted (map fst files).
(** A package's bytes hold the files: they are of a zip file with a member for each of them
    and no other, with its text, by a path inside the job's directory, cut at a NUL. *)
Definition holds (zipped : list (string * string) -> string) (files : list (string * string)) (data : string) : Prop :=
  exists members, data = zipped members /\ members ≡ₚ map (fun file => (until_nul (normpath file.1), file.2)) files /\
    Forall (fun file => inside_path (normpath file.1)) files.
(** There can be no package: a name leads out of the directory, or it is over the limit. *)
Definition no_package (zipped : list (string * string) -> string) (files : list (string * string)) : Prop :=
  (exists name, name ∈ map fst files /\ leads_out name (normpath name) = true) \/
  exists data, holds zipped files data /\ _MAX_CODE_BYTES < Z.of_nat (String.length data).
Definition package_right (zipped : list (string * string) -> string) (files : list (string * string)) (r : res Failure (string * string)) : Prop :=
  match r with
  | Ok p => p.1 = package_name p.2 /\ Z.of_nat (String.length p.2) <= _MAX_CODE_BYTES /\ holds zipped files p.2
  | Err (UserError _) => no_package zipped files
  | Err _ => False
  end.
Lemma members_all files : NoDup (map fst files) ->
  members_of files (sorted_names files) ≡ₚ map (fun file => (until_nul (normpath file.1), file.2)) files.
Proof.
  intros Hnd. unfold members_of, sorted_names. rewrite (str_sorted_perm (map fst files)), map_map.
  assert (H : forall file, file ∈ files -> dget_or file.1 ""%string files = file.2).
  { intros [name text] Hin. unfold dget_or. cbn. by rewrite (elem_dget name text files Hnd Hin). }
  erewrite map_ext_in; [reflexivity|]. intros file Hin%list_elem_of_In. cbn. by rewrite H.
Qed.
Lemma add_members_user files members names f : add_members files members names = Err f -> exists text, f = UserError text.
Proof.
  revert members. induction names as [|name names IH]; intros members; cbn [add_members]; [done|]. unfold add_member.
  destruct (leads_out _ _); cbn [mbind res_bind]; [intros [= <-]; eauto|apply IH].
Qed.
Lemma package_spec zipped files : NoDup (map fst files) -> package_right zipped files (_package zipped files).
Proof.
  intros Hnd. unfold package_right, _package. cbv zeta. fold (sorted_names files).
  assert (Hperm : forall name, name ∈ sorted_names files <-> name ∈ map fst files) by (intros name; unfold sorted_names; by rewrite str_sorted_perm).
  destruct (add_members_spec files (sorted_names files) []) as [[Hin ->]|(name & Hn & Hl & f & E)].
  - cbn [app mbind res_bind]. set (data := zipped _). assert (Hh : holds zipped files data).
    { eexists. split; [reflexivity|]. split; [by apply members_all|]. apply Forall_forall. intros file Hf. apply path_inside, Hin, Hperm. by apply list_elem_of_fmap_2. }
    destruct (Z.ltb_spec _MAX_CODE_BYTES (Z.of_nat (String.length data))); [right; by exists data|]. split; [done|]. by split.
  - rewrite E. cbn [mbind res_bind]. destruct (add_members_user _ _ _ _ E) as [text ->]. left. exists name. by rewrite <- Hperm.
Qed.
(** A name with a NUL is looked at whole and cut after. *)
Lemma nul_leads_out :
  let name := (".." ++ String "000" "/a")%string in
  leads_out name (normpath name) = false /\ add_members [(name, "x")] [] [name] = Ok [("..", "x")]%string.
Proof. split; reflexivity. Qed.

(** ** What submitting a job may ask of the gateway *)

(** Nothing was sent; a package of those bytes is there, or was refused; the job was sent, in
    the package of those bytes or in none. *)
Inductive Sending := Preparing | Uploaded (data : string) | Stopped (data : string) | Sent (data : option string).
Definition accepted (reply : Resp + RequestExc) : bool := match reply with inl resp => is_success resp | inr _ => false end.
Section Watch.
Context (svc : service Req Ans) (cf : Config) (user : User) (zipped : list (string * string) -> string).
Definition own (c : Call) : bool := String.eqb (c_client c) "ray-gateway" && String.eqb (c_authorization c) ("Bearer " ++ u_token user).
Definition to_ (c : Call) (method path : string) : bool := String.eqb (c_method c) method && String.eqb (c_url c) (RAY_GATEWAY_URL cf ++ path).
Definition runs_in (c : Call) : json := jget "working_dir" (jget "runtime_env" (default JNull (c_json c))).
Definition runs (c : Call) (a : JobArgs) : bool := jeq_str (jget "entrypoint" (default JNull (c_json c))) (j_entrypoint a).
(** A package first, named by its bytes; then the job, in that package's directory, with the
    entrypoint; both for the site that was asked for, and with the caller's own token. *)
Definition may (a : JobArgs) (p : Sending) (e : Ev) : option Sending :=
  match e with
  | existT (Http c) reply =>
      if negb (own c && bool_decide (dget "af-site"%string (c_headers c) = Some (site_name (j_site a)))) then None else
      match p with
      | Preparing =>
          let data := default ""%string (c_content c) in
          if to_ c "PUT" ("/api/packages/gcs/" ++ package_name data) then Some (if accepted reply then Uploaded data else Stopped data)
          else if to_ c "POST" "/api/jobs/" && runs c a && negb (truthy (runs_in c)) then Some (Sent None) else None
      | Uploaded data => if to_ c "POST" "/api/jobs/" && runs c a && jeq_str (runs_in c) ("gcs://" ++ package_name data) then Some (Sent (Some data)) else None
      | _ => None
      end
  | _ => None
  end.
Context (a : JobArgs).
Notation may_ := (may a).
Lemma ray_own method path headers params body content timeout : own (ray_call cf user method path headers params body content timeout) = true.
Proof. unfold own. cbn [ray_call c_client c_authorization]. by rewrite !String.eqb_refl. Qed.
Lemma ray_to method path headers params body content timeout : to_ (ray_call cf user method path headers params body content timeout) method path = true.
Proof. unfold to_. cbn [ray_call c_method c_url]. by rewrite !String.eqb_refl. Qed.
Lemma job_site : dget "af-site"%string (job_settings a) = Some (site_name (j_site a)).
Proof. unfold job_settings, _settings. by destruct (j_site a). Qed.
(** A call of the gateway, if what follows it is right for every reply. *)
Lemma ray_mon p call action (Q : res Exc Resp -> Sending -> Prop) :
  (forall reply, exists p', may_ p (existT (Http call) reply) = Some p' /\
     match reply with inl resp => if is_success resp then Q (Ok resp) p' else forall f, Q (Err (Fails f)) p' | inr _ => forall f, Q (Err (Fails f)) p' end) ->
  mon may_ p (_gateway svc call action) Q.
Proof.
  intros H. unfold _gateway. apply mon_bind. refine (mon_call may_ p svc (Http _) _ _). intros reply.
  destruct (H reply) as (p' & Hp & HQ). exists p'. split; [exact Hp|]. destruct reply as [resp|exc]; [|apply mon_raise, HQ].
  destruct (is_success resp); [by apply mon_ret|apply mon_raise, HQ].
Qed.
(** What is sent, and told, at the end: no package where there can be none or no files,
    else one that holds the files. *)
Definition told (r : res Exc string) (p : Sending) : Prop :=
  let answered := match r with Ok text => startswith "Submitted job " text = true | Err e => exists f, e = Fails f end in
  match p with
  | Preparing => (exists text, r = Err (Fails (UserError text))) /\ no_package zipped (j_files a)
  | Uploaded _ => False
  | Stopped data => (exists f, r = Err (Fails f)) /\ holds zipped (j_files a) data
  | Sent None => j_files a = [] /\ answered
  | Sent (Some data) => holds zipped (j_files a) data /\ answered
  end.
(** Where the job runs, once what it runs in is there. *)
Definition uploaded (r : res Exc (list (string * json))) (p : Sending) : Prop :=
  match r with
  | Ok dir => (j_files a = [] /\ p = Preparing /\ dir = []) \/
      exists data, holds zipped (j_files a) data /\ p = Uploaded data /\ dir = [("working_dir", JStr ("gcs://" ++ package_name data))]%string
  | Err e => told (Err e) p
  end.
Lemma upload_mon : NoDup (map fst (j_files a)) -> mon may_ Preparing (upload_files svc cf user zipped a) uploaded.
Proof.
  intros Hnd. unfold upload_files. pose proof (package_spec zipped (j_files a) Hnd) as Hp. unfold uploaded, told.
  destruct (j_files a) as [|file files] eqn:Ef; [apply mon_ret; by left|].
  apply mon_bind. destruct (_package zipped (file :: files)) as [[name data]|[]]; cbn [or_fail]; try done.
  2: { apply mon_raise. split; [by eexists|done]. }
  apply mon_ret. destruct Hp as (Hn & _ & Hh). cbn [fst snd] in Hn, Hh. subst name. apply mon_bind, ray_mon. intros reply.
  exists (if accepted reply then Uploaded data else Stopped data). split.
  - unfold may. rewrite ray_own. cbn [ray_call c_headers c_content default from_option]. rewrite job_site, bool_decide_true by done. cbn [andb negb]. cbv zeta. unfold id.
    by rewrite ray_to.
  - destruct reply as [resp|exc]; cbn [accepted]; [|intros f; split; [by eexists|done]]. destruct (is_success resp); [|intros f; split; [by eexists|done]].
    apply mon_ret. right. by exists data.
Qed.
Lemma runs_in_submission method path headers params content timeout dir :
  runs_in (ray_call cf user method path headers params (Some (job_body a dir)) content timeout)
  = match dget "working_dir"%string dir with Some v => v | None => JNull end.
Proof.
  unfold runs_in. cbn [ray_call c_json default from_option]. unfold id, job_body, jget. cbn [app dget].
  rewrite decide_False, decide_True by done. cbn [default from_option]. unfold id. induction dir as [|[k v] dir IH]; cbn [app dget].
  - by destruct (j_pip a), (j_env_vars a).
  - case_decide; [done|exact IH].
Qed.

(** *** Theorem *)

(** C17: A job is sent once, whole. Its files, by distinct names, are sent as one package that
    holds each of them with its text and nothing else, by paths inside the job's directory,
    and that is named by its bytes; the package is there before the job is sent, which runs
    its entrypoint in that package and no other, or in none if it has no files. A package that
    is refused sends no job, and one that cannot be made, as a name leads out or it is over
    the limit, sends nothing. All calls are the caller's own and name the site that was asked
    for. *)
Theorem job_sent_whole : NoDup (map fst (j_files a)) -> mon may_ Preparing (submit_ray_job svc cf user zipped a) told.
Proof.
  intros Hnd. unfold submit_ray_job. apply mon_bind. eapply mon_mono; [by apply upload_mon|]. intros [dir|e] p Hu; [|exact Hu].
  apply mon_bind, ray_mon. intros reply. cbn [uploaded] in Hu.
  exists (Sent (match p with Uploaded data => Some data | _ => None end)). split.
  - unfold may. rewrite ray_own. cbn [ray_call c_headers]. rewrite job_site, bool_decide_true by done. cbn [andb negb].
    fold (ray_call cf user "POST" "/api/jobs/" (job_settings a) [] (Some (job_body a dir)) None _SUBMIT_TIMEOUT).
    assert (Hr : runs (ray_call cf user "POST" "/api/jobs/" (job_settings a) [] (Some (job_body a dir)) None _SUBMIT_TIMEOUT) a = true) by apply String.eqb_refl.
    destruct Hu as [(_ & -> & ->)|(data & _ & -> & ->)]; cbv zeta; rewrite ray_to, Hr, runs_in_submission; [done|].
    cbn [dget]. rewrite decide_True by done. cbn [jeq_str andb]. by rewrite String.eqb_refl.
  - assert (Hans : forall (r : res Exc string), match r with Ok text => startswith "Submitted job " text = true | Err e => exists f, e = Fails f end ->
      told r (Sent (match p with Uploaded data => Some data | _ => None end))) by (intros r Hr; by destruct Hu as [(? & -> & _)|(data & ? & -> & _)]).
    destruct reply as [resp|exc]; [|intros f; apply Hans; eauto]. destruct (is_success resp); [|intros f; apply Hans; eauto]. cbv zeta.
    destruct (truthy _); [|apply mon_raise, Hans; eauto]. apply mon_ret, Hans. exact (startswith_app "Submitted job " _).
Qed.
End Watch.
(** No lines are asked for, and all are given. *)
Lemma zero_lines_all logs : (String.length (lines_of (split_lines "" logs)) <= _MAX_LOG_CHARS)%nat -> log_tail logs 0 = lines_of (split_lines "" logs).
Proof. intros H. unfold log_tail. cbn [last_of Z.eqb]. rewrite (proj2 (Nat.sub_0_le _ _) H). by destruct (lines_of _). Qed.
(** A job's ID that is taken stays within the path of one job, but for a last newline. *)
Lemma odd_job_id : map _JOB_ID_RE ["raysubmit_1a"; "raysubmit_1a" ++ eol; ".."; ""]%string = [true; true; false; false].
Proof. reflexivity. Qed.

(** ** A job of two files *)

Definition demo_config : Config := config (fun _ => None).
Definition demo_zip (members : list (string * string)) : string := str_join eol (map (fun m => m.1 ++ ":" ++ m.2) members)%string.
Definition demo_gateway : service Req Ans := fun _ r =>
  match r return Ans r with
  | Http c => inl (mkResp 200 None (Some (JObj (if String.eqb (c_method c) "POST" then [("submission_id", JStr "raysubmit_1")] else []))))%string
  | PromGet _ _ _ => inl (mkResp 200 None None)
  | Elicit _ _ | FreeCached | Dashboard => None
  | Monotonic | Time => 0%Q
  | Sleep _ | FreeStore _ => tt
  end.
Definition demo_job : JobArgs :=
  mkJob "python a/train.py" Nrp [("a/train.py", "import lib"); ("./lib.py", "")]%string (mkWorkers 2 true None None None None None) 0 None None [] [].
Lemma job_sent_whole_witness :
  mon (may demo_config (mkUser "alice" "t1") demo_job) Preparing (submit_ray_job demo_gateway demo_config (mkUser "alice" "t1") demo_zip demo_job)
    (told demo_zip demo_job) /\
  startswith "Submitted job raysubmit_1 at nrp." (match (submit_ray_job demo_gateway demo_config (mkUser "alice" "t1") demo_zip demo_job tt []).1.1 with Ok text => text | Err _ => "" end) = true.
Proof.
  split; [|vm_compute; reflexivity]. apply (job_sent_whole demo_gateway demo_config (mkUser "alice" "t1") demo_zip demo_job).
  apply (bool_decide_eq_true_1 (NoDup (map fst (j_files demo_job)))). vm_compute. reflexivity.
Defined.
