(* ===== verification/AgMetrics.v ===== *)
(** The facility's numbers, [docker/agentic-interface/tools/metrics.py]: the queries of the
    public dashboard's file, and their results with no labels but those that are allowed.
    The queries that are made at the same time are asked one after another here. Titles,
    legends and lists of mappings are of the kinds that Grafana writes; another raises. *)
From S2P Require Import Prelude PyJson PyText PyFloat PyValue PyFormat AgErrors AgAuth AgTools AgUsage AgRay AgLogs.
Open Scope Z_scope.

Notation Req := AgTools.Req.
Notation Ans := AgTools.Ans.
Definition ALLOWED_LABELS : list string :=
  ["code"; "GPU_I_ID"; "GPU_I_PROFILE"; "gpu"; "kubernetes_node"; "mount_name"; "node"; "node_pool"; "resource"; "state"; "type"]%string.
Definition DROPPED_LABELS : list string := ["__name__"; "instance"; "job"]%string.
Definition COMPONENTS_PANEL : string := "Components".
Definition WINDOW : string := "1h".
Definition MAX_SERIES : nat := 30.
(** [j or []], gone through, and [j or {}], which has to be a dict. *)
Definition items (j : json) : option (list json) := iter_of (j_or j (JArr [])).
Definition dict (j : json) : option json := if is_obj (j_or j (JObj [])) then Some (j_or j (JObj [])) else None.
Definition text_or_none (j : json) : option (option string) :=
  if truthy j then match j with JStr s => Some (Some s) | _ => None end else Some None.

(** ** The dashboard's file *)

Definition Section_ : Type := string * list json.
Definition extend (name : string) (panels : list json) (found : list Section_) : list Section_ :=
  dset name (dget_or name [] found ++ panels)%list found.
Definition add_panel (acc : string * list Section_) (panel : json) : option (string * list Section_) :=
  let '(current, found) := acc in
  kind ← get_of "type" panel;
  if jeq_str kind "row" then
    title ← text_or_none (jget "title" panel);
    let current := default current title in
    members ← items (jget "panels" panel); Some (current, extend current members found)
  else Some (current, extend current [panel] found).
Fixpoint add_panels (acc : string * list Section_) (panels : list json) : option (string * list Section_) :=
  match panels with [] => Some acc | p :: panels => acc ← add_panel acc p; add_panels acc panels end.
Definition has_targets (panel : json) : option bool := option_map truthy (get_of "targets" panel).
Definition filterM {A} (f : A -> option bool) (l : list A) : option (list A) :=
  kept ← mapM (fun x => b ← f x; Some (if b : bool then [x] else [])) l; Some (concat kept).
Definition sections (dashboard : json) : option (list Section_) :=
  panels ← item_of "panels" dashboard; panels ← iter_of panels;
  '(_, found) ← add_panels ("Overview"%string, []) panels;
  mapM (fun s => members ← filterM has_targets s.2; Some (s.1, members)) found.

(** [GRAFANA_VARIABLE.sub(WINDOW, expr)], a name of the letters and digits of ASCII. *)
Definition word_char (c : ascii) : bool := is_letter_ c || is_digit c.
Fixpoint word_of (s : string) : string * string :=
  match s with
  | String c s' => if word_char c then let '(w, rest) := word_of s' in (String c w, rest) else (EmptyString, s)
  | EmptyString => (EmptyString, EmptyString)
  end.
Fixpoint sub_variables (fuel : nat) (s : string) : string :=
  match fuel, s with
  | S fuel, String c s' =>
      let '(w, rest) := word_of (str_drop 3 s) in
      if startswith "$__" s && negb (String.eqb w "") then WINDOW ++ sub_variables fuel rest else String c (sub_variables fuel s')
  | _, _ => s
  end.
Definition GRAFANA_VARIABLE (expr : string) : string := sub_variables (String.length expr) expr.
Definition DATASOURCES (cf : AgTools.Config) (uid : json) : option (option string) :=
  match uid with
  | JStr s => Some (if String.eqb s "prometheus" then Some (PROMETHEUS_URL cf)
                    else if String.eqb s "prometheus-rancher" then Some (CLUSTER_PROMETHEUS_URL cf) else None)
  | JArr _ | JObj _ => None
  | _ => Some None
  end.
(** Where a query goes, the query, and its legend. *)
Record Query := mkQuery { q_base : string; q_query : string; q_legend : string }.
Definition query_of (cf : AgTools.Config) (panel target : json) : option (list Query) :=
  at_target ← get_of "datasource" target; at_panel ← get_of "datasource" panel;
  source ← dict (j_or at_target at_panel); uid ← get_else "uid" (JStr "") source; backend ← DATASOURCES cf uid;
  let expr := jget "expr" target in
  match backend with
  | Some base =>
      if truthy expr && negb (truthy (jget "hide" target)) then
        legend ← text_or_none (jget "legendFormat" target);
        match expr with JStr e => Some [mkQuery base (GRAFANA_VARIABLE e) (default ""%string legend)] | _ => None end
      else Some []
  | None => Some []
  end.
Definition _queries (cf : AgTools.Config) (panel : json) : option (list Query) :=
  targets ← get_of "targets" panel; targets ← items targets; qs ← mapM (query_of cf panel) targets; Some (concat qs).

(** ** Values as texts *)

Definition float_num (j : json) : option float := option_map (fun q => match j with JFloat _ => f_of q | _ => Fin q end) (num_of j).
Definition bound_ok (cmp : float -> bool) (bound : json) : option bool :=
  match bound with JNull => Some true | _ => option_map cmp (float_num bound) end.
Definition map_text (value : float) (mapping : json) : option json :=
  kind ← get_of "type" mapping; options ← dict (jget "options" mapping);
  if jeq_str kind "value" then option_ ← dict (jget (general_f value) options); Some (jget "text" option_)
  else if jeq_str kind "range" then
    low ← bound_ok (fun b => float_le b value) (jget "from" options);
    high ← (if low : bool then bound_ok (fun b => float_le value b) (jget "to" options) else Some false);
    if high : bool then result ← dict (jget "result" options); Some (jget "text" result) else Some JNull
  else Some JNull.
Fixpoint _mapped (value : float) (mappings : list json) : option (option string) :=
  match mappings with
  | [] => Some None
  | m :: mappings => text ← map_text value m; if truthy text then Some (Some (str_of text)) else _mapped value mappings
  end.
Definition Named : Type := list (string * list json).
Definition add_property (key : string) (named : Named) (prop : json) : option Named :=
  id_ ← get_of "id" prop;
  if jeq_str id_ "mappings" then values ← items (jget "value" prop); Some (dset key (dget_or key [] named ++ values)%list named) else Some named.
Definition add_override (named : Named) (override : json) : option Named :=
  matcher ← get_of "matcher" override; matcher ← dict matcher;
  if jeq_str (jget "id" matcher) "byName" then
    props ← items (jget "properties" override);
    foldl (fun acc p => named ← acc; add_property (str_of (jget "options" matcher)) named p) (Some named) props
  else Some named.
Definition _named_mappings (panel : json) : option Named :=
  config ← get_of "fieldConfig" panel; config ← dict config; overrides ← items (jget "overrides" config);
  foldl (fun acc o => named ← acc; add_override named o) (Some []) overrides.
Definition _value (value : float) (unit_ : json) (mappings : list json) : option string :=
  word ← _mapped value mappings;
  match word with
  | Some word => Some word
  | None =>
      if jeq_str unit_ "percentunit" then Some (fixed_f 0 (f_mul value (Fin 100)) ++ "%")%string
      else if jeq_str unit_ "percent" then Some (fixed_f 0 value ++ "%")%string
      else if jeq_str unit_ "bytes" || jeq_str unit_ "decbytes" then gib ← f_div value (Fin (qz (2 ^ 30))); Some (grouped_f 1 gib ++ " GiB")%string
      else
        let text := str_rstrip (fun c => Ascii.eqb c ".") (str_rstrip (fun c => Ascii.eqb c "0") (grouped_f 2 value)) in
        Some (if jeq_str unit_ "s" || jeq_str unit_ "ms" then text ++ " " ++ str_of unit_ else text)%string
  end.
(** [LEGEND_LABEL]: at two braces, a label within them, and what follows. *)
Definition legend_label (s : string) : option (string * string) :=
  if startswith "{{" s then
    let '(w, rest) := word_of (str_lstrip is_space (str_drop 2 s)) in
    let rest := str_lstrip is_space rest in
    if negb (String.eqb w "") && startswith "}}" rest then Some (w, str_drop 2 rest) else None
  else None.
Fixpoint sub_labels (fuel : nat) (labels : json) (s : string) : string :=
  match fuel, s with
  | S fuel, String c s' =>
      match legend_label s with
      | Some (w, rest) => str_of (jget_or w (JStr "") labels) ++ sub_labels fuel labels rest
      | None => String c (sub_labels fuel labels s')
      end
  | _, _ => s
  end.
Definition LEGEND_LABEL (labels : json) (legend : string) : string := sub_labels (String.length legend) labels legend.
Example grafana_texts :
  (GRAFANA_VARIABLE "rate(x[$__rate_interval]) $__ ", LEGEND_LABEL (JObj [("node", JStr "n1")]) "on {{ node }} {{pool}}{{")%string
  = ("rate(x[1h]) $__ ", "on n1 {{")%string.
Proof. reflexivity. Qed.

(** ** Series *)

Definition shown_names (labels : json) : list string :=
  List.filter (fun n => negb (bool_decide (n ∈ DROPPED_LABELS))) (map fst (match labels with JObj o => o | _ => [] end)).
Definition labels_allowed (labels : json) : bool := forallb (fun n => bool_decide (n ∈ ALLOWED_LABELS)) (shown_names labels).
Definition series_line (legend : string) (unit_ : json) (mappings : list json) (named : Named) (labels : json) (value : float) : option string :=
  let shown := LEGEND_LABEL labels legend in
  let shown := if String.eqb shown "" || String.eqb shown "__auto"
    then str_join ", " (map (fun n => str_of (jget n labels)) (str_sorted (shown_names labels))) else shown in
  text ← _value value unit_ (dget_or shown [] named ++ mappings)%list;
  Some (if String.eqb shown "" then text else shown ++ ": " ++ text)%string.
(** Of rows one of which has another label nothing is shown. *)
Fixpoint series_lines (legend : string) (unit_ : json) (mappings : list json) (named : Named) (samples : list (json * float)) : option (option (list string)) :=
  match samples with
  | [] => Some (Some [])
  | (labels, value) :: samples =>
      if negb (is_obj labels) then None
      else if negb (labels_allowed labels) then Some None
      else
        line ← match value with NaN => Some [] | _ => line ← series_line legend unit_ mappings named labels value; Some [line] end;
        rest ← series_lines legend unit_ mappings named samples;
        Some (option_map (fun lines => line ++ lines)%list rest)
  end.
Definition _series (rows : list json) (legend : string) (unit_ : json) (mappings : list json) (named : Named) : option (list string) :=
  option_map (default []) (series_lines legend unit_ mappings named (prom_vector rows)).

(** ** The tools *)

Section Metrics.
Context (svc : service Req Ans) (cf : AgTools.Config).
(** A file that is not there raises, but where it is caught. *)
Definition read_dashboard : TM (option (list Section_)) :=
  file ← (mcall svc Dashboard : TM (option (option json)));
  match file with
  | None => mret None
  | Some content => dashboard ← must content; found ← must (sections dashboard); mret (Some found)
  end.
(** The rows in trouble, and those that could not be read. *)
Definition Problems : Type := list (string * float) * list string.
Definition below_one (value : float) : bool := float_lt value (Fin 1).
Definition row_problems (legend : string) (samples : list (json * float)) (problem : option string) (acc : Problems) : Problems :=
  (foldl (fun d s => if below_one s.2 then dset legend s.2 d else d) acc.1 samples,
   match problem with Some _ => acc.2 ++ [legend] | None => acc.2 end)%list.
Fixpoint ask_rows (queries : list Query) (acc : Problems) : TM Problems :=
  match queries with
  | [] => mret acc
  | q :: queries =>
      '(samples, problem) ← prom_samples svc (q_base q) (q_query q) 8;
      ask_rows queries (row_problems (q_legend q) samples problem acc)
  end.
Fixpoint ask_panels (panels : list json) (acc : Problems) : TM Problems :=
  match panels with
  | [] => mret acc
  | panel :: panels =>
      title ← must (get_of "title" panel);
      if jeq_str title COMPONENTS_PANEL then queries ← must (_queries cf panel); acc ← ask_rows queries acc; ask_panels panels acc
      else ask_panels panels acc
  end.
Definition component_problems : TM Problems :=
  found ← read_dashboard;
  match found with
  | None => mret ([], [])
  | Some found => ask_panels (concat (map snd found)) ([], [])
  end.

Fixpoint ask_queries (queries : list Query) (unit_ : json) (mappings : list json) (named : Named) (acc : list string * bool) : TM (list string * bool) :=
  match queries with
  | [] => mret acc
  | q :: queries =>
      '(rows, problem) ← prom_query svc (q_base q) (q_query q) 8;
      lines ← must (_series rows (q_legend q) unit_ mappings named);
      ask_queries queries unit_ mappings named (acc.1 ++ lines, acc.2 && match problem with None => true | Some _ => false end)%list
  end.
(** The lines of a panel, and whether each of its queries could be asked. *)
Definition _panel (panel : json) : TM (list string * bool) :=
  config ← must (config ← get_of "fieldConfig" panel; dict config);
  defaults ← must (get_else "defaults" (JObj []) config);
  unit_ ← must (get_of "unit" defaults); named ← must (_named_mappings panel);
  mappings ← must (match j_or (jget "mappings" defaults) (JArr []) with JArr l => Some l | _ => None end);
  queries ← must (_queries cf panel);
  ask_queries queries unit_ mappings named ([], true).
Fixpoint each_panel (panels : list json) : TM (list (json * (list string * bool))) :=
  match panels with [] => mret [] | p :: panels => r ← _panel p; rest ← each_panel panels; mret ((p, r) :: rest) end.
Definition panel_lines (title : string) (lines : list string) : list string :=
  match firstn MAX_SERIES lines with
  | [] => []
  | [line] => ["- " ++ title ++ ": " ++ line]%string
  | shown => (("- " ++ title ++ ":")%string :: map (fun l => "  - " ++ l)%string shown
      ++ if (MAX_SERIES <? List.length lines)%nat then ["  - and " ++ pretty (Z.of_nat (List.length lines - MAX_SERIES)) ++ " more"]%string else [])%list
  end.
(** The last section of a name, in small letters. *)
Definition wanted_section (found : list Section_) (section : string) : option Section_ :=
  List.find (fun s => String.eqb (str_lower s.1) (str_lower (str_strip section))) (rev found).
Definition metrics_text (name : string) (results : list (json * (list string * bool))) : string :=
  str_join eol (("**" ++ name ++ "**, now (rates and totals over " ++ WINDOW ++ ")")%string
    :: concat (map (fun r => panel_lines (str_of (jget "title" r.1)) r.2.1) results)
    ++ if forallb (fun r => r.2.2) results then [] else [(eol ++ "Some panels could not be read just now, so they are missing.")%string])%list.
(** A plain [Failure] is as a [UserError]. *)
Definition get_facility_metrics (section : option string) : TM string :=
  found ← read_dashboard;
  available ← must found;
  match section with
  | None => mret ("Sections of the dashboard:" ++ eol ++ str_join eol (map (fun s => "- " ++ s.1)%string available) ++ eol ++ eol ++ "Next: call this with a section.")%string
  | Some section =>
      match wanted_section available section with
      | None => fails (UserError ("Error: no section " ++ str_repr section ++ ". Sections: " ++ str_join ", " (map fst available) ++ "."))
      | Some (name, panels) =>
          results ← each_panel panels;
          asked ← must (filterM (fun r => qs ← _queries cf r.1; Some (negb (List.length qs =? 0)%nat)) results);
          if negb (List.length asked =? 0)%nat && negb (existsb (fun r => r.2.2) asked) then fails (UpstreamError "Error: the monitoring system is unreachable.")
          else mret (metrics_text name results)
      end
  end.
End Metrics.

(** ** Nothing of a person *)

(** The labels of a series, all of which are allowed or say nothing. *)
Definition harmless (labels : json) : Prop := forall n v, labels = JObj v -> n ∈ map fst v -> n ∈ ALLOWED_LABELS \/ n ∈ DROPPED_LABELS.
Lemma allowed_harmless labels : labels_allowed labels = true -> harmless labels.
Proof.
  unfold labels_allowed, shown_names. intros H n v -> Hn. destruct (decide (n ∈ DROPPED_LABELS)) as [|Hd]; [by right|left].
  rewrite forallb_forall in H. apply list_elem_of_In in Hn. specialize (H n). rewrite filter_In, bool_decide_false in H by done.
  apply (bool_decide_unpack _), Is_true_true, H. by split.
Qed.
Lemma series_harmless legend unit_ mappings named samples lines :
  series_lines legend unit_ mappings named samples = Some (Some lines) -> Forall (fun s => harmless s.1) samples.
Proof.
  revert lines. induction samples as [|[labels value] samples IH]; intros lines; cbn [series_lines]; [constructor|].
  destruct (is_obj labels); [|done]. cbn [negb]. destruct (labels_allowed labels) eqn:E; [|done]. cbn [negb].
  destruct (match value with NaN => _ | _ => _ end) as [line|]; [|done]. cbn [mbind option_bind].
  destruct (series_lines _ _ _ _ samples) as [[rest|]|] eqn:Er; try done. intros _. constructor; [by apply allowed_harmless|by eapply IH].
Qed.
Lemma shown_harmless rows legend unit_ mappings named line lines :
  _series rows legend unit_ mappings named = Some (line :: lines) -> Forall (fun s => harmless s.1) (prom_vector rows).
Proof.
  unfold _series. destruct (series_lines _ _ _ _ _) as [[ls|]|] eqn:E; cbn; [|done|done]. intros _. by eapply series_harmless.
Qed.

Section Watch.
Context (svc : service Req Ans) (cf : AgTools.Config).
(** Whether a query is one of the file's panels'. *)
Definition query_eqb (base query : string) (q : Query) : bool := String.eqb (q_base q) base && String.eqb (q_query q) query.
Definition in_panel (base query : string) (panel : json) : bool :=
  match _queries cf panel with Some qs => existsb (query_eqb base query) qs | None => false end.
Definition in_file (found : list Section_) (base query : string) : bool := existsb (fun s => existsb (in_panel base query) s.2) found.
(** The file is read once; then only what is in it is asked. *)
Definition may (known : option (list Section_)) (e : AgTools.Ev) : option (option (list Section_)) :=
  match e with
  | existT Dashboard file =>
      match known with Some _ => None | None => Some (Some (match file with Some (Some j) => default [] (sections j) | _ => [] end)) end
  | existT (PromGet base query _) _ =>
      match known with Some found => if in_file found base query then Some known else None | None => None end
  | _ => None
  end.
Definition panels_of (found : list Section_) (panels : list json) : Prop :=
  forall p base query, p ∈ panels -> in_panel base query p = true -> in_file found base query = true.
Lemma own_panels (found : list Section_) (s : Section_) : s ∈ found -> panels_of found s.2.
Proof.
  intros Hs p base query Hp Hin. unfold in_file. apply existsb_exists. exists s. split; [by apply list_elem_of_In|].
  apply existsb_exists. exists p. split; [by apply list_elem_of_In|done].
Qed.
Lemma query_mon {A} found base query (f : list json * option string -> TM A) (Q : res AgTools.Exc A -> option (list Section_) -> Prop) :
  in_file found base query = true -> (forall r, mon may (Some found) (f r) Q) -> mon may (Some found) (prom_query svc base query 8 ≫= f) Q.
Proof.
  intros Hin Hf. apply mon_bind. unfold prom_query. apply mon_bind. refine (mon_call may (Some found) svc (PromGet _ _ _) _ _). intros reply.
  exists (Some found). cbn [may]. rewrite Hin. split; [done|]. by apply mon_ret.
Qed.
Lemma read_mon : mon may None (read_dashboard svc) (fun r known => match r with Ok (Some found) => known = Some found | _ => True end).
Proof.
  unfold read_dashboard. apply mon_bind. refine (mon_call may None svc Dashboard _ _). intros file. eexists. split; [done|].
  destruct file as [[j|]|]; [|by apply mon_raise|by apply mon_ret]. cbn [must]. apply mon_bind, mon_ret. destruct (sections j) as [found|]; [|by apply mon_raise].
  apply mon_bind, mon_ret. by apply mon_ret.
Qed.
Definition in_queries (found : list Section_) (qs : list Query) : Prop := forall q, q ∈ qs -> in_file found (q_base q) (q_query q) = true.
Lemma panel_queries found panels p qs : panels_of found panels -> p ∈ panels -> _queries cf p = Some qs -> in_queries found qs.
Proof.
  intros Hf Hp Hq q Hin. apply (Hf p); [done|]. unfold in_panel. rewrite Hq. apply existsb_exists. exists q.
  split; [by apply list_elem_of_In|]. unfold query_eqb. by rewrite !String.eqb_refl.
Qed.
Lemma ask_queries_mon found qs unit_ mappings named acc : in_queries found qs ->
  mon may (Some found) (ask_queries svc qs unit_ mappings named acc) (fun r known => known = Some found).
Proof.
  revert acc. induction qs as [|q qs IH]; intros acc Hq; cbn [ask_queries]; [by apply mon_ret|].
  apply query_mon; [apply Hq; by left|]. intros [rows problem]. apply mon_bind. destruct (_series _ _ _ _ _); [apply mon_ret|by apply mon_raise].
  apply IH. intros q' H'. apply Hq. by right.
Qed.
(** What reads no more than a value. *)
Lemma must_mon {A B} found (o : option A) (f : A -> TM B) :
  (forall a, o = Some a -> mon may (Some found) (f a) (fun r known => known = Some found)) ->
  mon may (Some found) (must o ≫= f) (fun r known => known = Some found).
Proof. intros H. apply mon_bind. destruct o as [a|]; [apply mon_ret; by apply H|by apply mon_raise]. Qed.
Lemma panel_mon found panels p : panels_of found panels -> p ∈ panels -> mon may (Some found) (_panel svc cf p) (fun r known => known = Some found).
Proof.
  intros Hf Hp. unfold _panel. do 5 (apply must_mon; intros ? _). apply must_mon. intros qs Hq. apply ask_queries_mon. by eapply panel_queries.
Qed.
Lemma each_panel_mon found panels : panels_of found panels -> mon may (Some found) (each_panel svc cf panels) (fun r known => known = Some found).
Proof.
  induction panels as [|p panels IH]; intros Hf; cbn [each_panel]; [by apply mon_ret|]. apply mon_bind. eapply mon_mono; [eapply panel_mon; [exact Hf|by left]|].
  intros [r|e] known ->; [|done]. apply mon_bind. eapply mon_mono; [apply IH; intros q b u Hq; apply Hf; by right|]. intros [rest|e] known ->; [by apply mon_ret|done].
Qed.

(** *** Theorem *)

(** The caller is told of no person, and chooses nothing of what is asked: whatever section
    is asked for, only queries of the dashboard's own file are made, which is read first;
    and a query gives no line unless every label of every series of its answer is one of
    those that are allowed, or that say nothing. *)
Theorem metrics_public section :
  mon may None (get_facility_metrics svc cf section) (fun r known => True) /\
  (forall rows legend unit_ mappings named lines, _series rows legend unit_ mappings named = Some lines ->
     lines = [] \/ Forall (fun s => harmless s.1) (prom_vector rows)).
Proof.
  split; [|intros rows legend unit_ mappings named [|line lines] H; [by left|right; by eapply shown_harmless]].
  unfold get_facility_metrics. apply mon_bind. eapply mon_mono; [apply read_mon|]. intros [[found|]|e] known H; [subst known| |done].
  2: { apply mon_bind. by apply mon_raise. }
  apply mon_bind, mon_ret. destruct section as [section|]; [|by apply mon_ret].
  destruct (wanted_section found section) as [[name panels]|] eqn:Ew; [|by apply mon_raise].
  assert (Hs : (name, panels) ∈ found) by (unfold wanted_section in Ew; apply find_some in Ew as [Ew _]; apply in_rev in Ew; by apply list_elem_of_In).
  apply mon_bind. eapply mon_mono; [exact (each_panel_mon found panels (own_panels found _ Hs))|]. intros [results|e] known ->; [|done].
  apply mon_bind. destruct (filterM _ results) as [asked|]; [apply mon_ret|by apply mon_raise].
  destruct (_ && _); [by apply mon_raise|by apply mon_ret].
Qed.
(** Neither do the rows of the Components panel. *)
Lemma ask_rows_mon found qs acc : in_queries found qs -> mon may (Some found) (ask_rows svc qs acc) (fun r known => known = Some found).
Proof.
  revert acc. induction qs as [|q qs IH]; intros acc Hq; cbn [ask_rows]; [by apply mon_ret|]. unfold prom_samples. apply mon_bind.
  apply query_mon; [apply Hq; by left|]. intros [rows problem]. apply mon_ret. apply IH. intros q' H'. apply Hq. by right.
Qed.
End Watch.
Definition board : json :=
  JObj [("panels", JArr [JObj [("type", JStr "row"); ("title", JStr "GPUs")];
    JObj [("type", JStr "stat"); ("title", JStr "Free"); ("datasource", JObj [("uid", JStr "prometheus")]);
          ("fieldConfig", JObj [("defaults", JObj [("mappings", JArr [JObj [("type", JStr "value"); ("options", JObj [("0", JObj [("text", JStr "none")])])]])])]);
          ("targets", JArr [JObj [("expr", JStr "free[$__range]"); ("legendFormat", JStr "{{gpu}}")]; JObj [("expr", JStr "by_pod")]])]])]%string.
Definition row_of (labels : list (string * json)) (v : string) : json := JObj [("metric", JObj labels); ("value", JArr [JInt 0; JStr v])]%string.
Definition board_svc : service Req Ans := fun h r =>
  match r return Ans r with
  | Dashboard => Some (Some board)
  | PromGet _ q _ =>
      let rows := if String.eqb q "free[1h]" then [row_of [("gpu", JStr "A100"); ("job", JStr "x")]%string "2.50"; row_of [("gpu", JStr "T4")]%string "0"]
        else [row_of [("gpu", JStr "T4")]%string "1"; row_of [("pod", JStr "purdue-af-7")]%string "1"] in
      inl (mkResp 200 (Some ""%string) (Some (JObj [("data", JObj [("result", JArr rows)])]%string)))
  | Http _ => inr (mkExc ReadTimeout "")
  | Elicit _ _ => None | Monotonic | Time => 0%Q | FreeCached => None | Sleep _ | FreeStore _ => tt
  end.
Example metrics_run : (get_facility_metrics board_svc somewhere (Some " gpus"%string) tt []).1.1
  = Ok ("**GPUs**, now (rates and totals over 1h)" ++ eol ++ "- Free:" ++ eol ++ "  - A100: 2.5" ++ eol ++ "  - T4: none")%string.
Proof. vm_compute. reflexivity. Qed.
