(* ===== verification/AgHealth.v ===== *)
(** The report on the facility's health, [docker/agentic-interface/tools/health.py]: what
    the firing alerts, the dashboard's Components rows and the caller's own quota say.
    Labels of alerts are texts, as Prometheus's are, and another kind raises; three queries
    that are made at the same time are asked one after another here. Parameters: an
    instant's text in Eastern time, and what [datetime.fromisoformat] makes of a text. *)
From S2P Require Import Prelude PyJson PyText PyFloat PyValue PyFormat AgErrors AgAuth AgTools AgUsage AgMetrics.
Open Scope Z_scope.

Definition COMPONENT_TITLES : list (string * string) :=
  [("access", "Facility access"); ("compute", "Compute capacity"); ("data", "Data access"); ("scale-out", "Scale-out");
   ("environment", "Software environment"); ("storage", "User storage"); ("observability", "Logs and monitoring")]%string.
Definition BLOCKING : list string := ["error"; "critical"]%string.
Definition HEALTHY : string := "**Healthy**".
Definition DEGRADED : string := "**Degraded**".
Definition PARTLY : string := "**Partly unknown**".
Definition IMPAIRED : string := "**Impaired**".
Definition HIDDEN_COMPONENTS : list string := ["dev"; "delivery"]%string.
Definition OPERATORS : string := "operators".
Definition MOUNT_UNKNOWN : string := "AFMountHealthUnknown".
Definition _HISTORY_QUERY : string :=
  "count by (alertname) (count_over_time(ALERTS{alertstate=" ++ dquote "firing" ++ ",component!~" ++ dquote (str_join "|" (str_sorted HIDDEN_COMPONENTS))
  ++ ",audience!=" ++ dquote OPERATORS ++ ",username=" ++ dquote "" ++ ",node_pool!=" ++ dquote "dev" ++ "}[6h]))".
Definition _UNKNOWN : string := "I cannot tell you whether the facility is healthy. This is a monitoring problem, not necessarily a facility problem — try your work and see.".
Definition blocking (severity : string) : bool := bool_decide (severity ∈ BLOCKING).

(** ** Alerts *)

(** A label's text, if there is one; a label of another kind raises. *)
Definition label_of (key : string) (labels : json) : option (option string) :=
  match jget_or key (JStr "") labels with JStr s => Some (if jhas key labels then Some s else None) | _ => None end.
(** An alert: its name, whose it is, its labels for whom and of what it is, and how severe,
    and what else is told of it. *)
Record Alert := mkAlert { al_name : string; al_owner : string; al_component : string; al_hidden : bool; al_severity : string; al_node : string; al_alert : json }.
Definition alert_of (alert : json) : option Alert :=
  labels ← get_of "labels" alert; labels ← dict labels;
  name ← label_of "alertname" labels; owner ← label_of "username" labels; component ← label_of "component" labels;
  audience ← label_of "audience" labels; pool ← label_of "node_pool" labels; severity ← label_of "severity" labels;
  exported ← label_of "exported_node" labels; node ← label_of "node" labels;
  let hidden := match component with Some c => bool_decide (c ∈ HIDDEN_COMPONENTS) | None => false end
    || bool_decide (audience = Some OPERATORS) || bool_decide (pool = Some "dev"%string) in
  Some (mkAlert (default "unknown"%string name) (default ""%string owner) (default "other"%string component) hidden (default "warning"%string severity)
    (or_else (default ""%string exported) (default ""%string node)) alert).
Definition annotation (alert : Alert) : option json := notes ← get_of "annotations" (al_alert alert); notes ← dict notes; Some (jget "summary" notes).
(** The alerts as this caller sees them. *)
Definition Groups : Type := list (string * list (string * list Alert)).
Record Alerts := mkAlerts { by_component : Groups; severities : list (string * string); names : gset string; own_quota_alert : bool }.
#[export] Instance eta_alerts : Eta Alerts := {| eta_of := fun a => mkAlerts (by_component a) (severities a) (names a) (own_quota_alert a) |}.
Definition group_alert (a : Alert) (groups : Groups) : Groups :=
  let named := dget_or (al_component a) [] groups in
  dset (al_component a) (dset (al_name a) (dget_or (al_name a) [] named ++ [a])%list named) groups.
Definition theirs (username : string) (a : Alert) : bool := negb (String.eqb (al_owner a) "") && negb (String.eqb (al_owner a) username).
Definition quota_alert (a : Alert) : bool := String.eqb (al_component a) "storage" && negb (String.eqb (al_owner a) "").
Definition see (username : string) (seen : Alerts) (a : Alert) : Alerts :=
  let seen := seen <| names := {[ al_name a ]} ∪ names seen |> in
  if theirs username a then seen
  else if al_hidden a then seen
  else if quota_alert a then seen <| own_quota_alert := true |>
  else (seen <| by_component := group_alert a (by_component seen) |>) <| severities := dset (al_name a) (al_severity a) (severities seen) |>.
Definition nothing_seen : Alerts := mkAlerts [] [] ∅ false.
Definition _visible_alerts (firing : list Alert) (username : string) : Alerts := foldl (see username) nothing_seen firing.
Definition shown_alerts (groups : Groups) : list Alert := concat (map (fun g => concat (map snd g.2)) groups).

(** ** The rows of the dashboard, and the verdict *)

Definition _uncovered_rows (problems : list (string * float)) (groups : Groups) : option (list (string * float)) :=
  summaries ← mapM (fun a => option_map str_of (annotation a)) (shown_alerts groups);
  Some (List.filter (fun p => negb (str_contains p.1 (str_join " " summaries))) problems).
Definition row_down (value : float) : bool := float_le value (Fin 0).
Definition row_partial (value : float) : bool := float_lt (Fin 0) value.
Definition _verdict (sevs : list (string * string)) (rows : list (string * float)) (unread : list string) : string :=
  if existsb (fun r => row_down r.2) rows || existsb (fun s => blocking s.2) sevs then DEGRADED
  else if negb (List.length unread =? 0)%nat || dhas MOUNT_UNKNOWN sevs then PARTLY
  else if existsb (fun s => negb (blocking s.2) && negb (String.eqb s.1 MOUNT_UNKNOWN)) sevs || existsb (fun r => row_partial r.2) rows then IMPAIRED
  else HEALTHY.

(** ** Lines *)

Definition _row_lines (rows : list (string * float)) (unread : list string) : list string :=
  (omap (fun r => if row_down r.2 then Some ("! **" ++ r.1 ++ "** is down on the facility dashboard.")%string else None) rows
   ++ omap (fun r => if row_partial r.2 then Some ("- **" ++ r.1 ++ "** is partly failing on the facility dashboard: some of its checks fail.")%string else None) rows
   ++ match unread with [] => [] | _ => ["- Could not read: " ++ str_join ", " unread ++ "."]%string end)%list.
Definition _nodes (alerts : list Alert) : list string := remove_dups (List.filter (fun n => negb (String.eqb n "")) (map al_node alerts)).
(** [_FRACTION_RE.sub(r".\1", raw)] *)
Fixpoint digits_of (s : string) : string * string :=
  match s with
  | String c s' => if is_digit c then let '(d, rest) := digits_of s' in (String c d, rest) else (EmptyString, s)
  | EmptyString => (EmptyString, EmptyString)
  end.
Fixpoint micro_fractions (fuel : nat) (s : string) : string :=
  match fuel, s with
  | S fuel, String c s' =>
      let '(d, rest) := digits_of s' in
      if Ascii.eqb c "." && (6 <? String.length d)%nat then "." ++ str_take 6 d ++ micro_fractions fuel rest else String c (micro_fractions fuel s')
  | _, _ => s
  end.
Definition _FRACTION_RE (s : string) : string := micro_fractions (String.length s) s.
Definition _normal_line (groups : Groups) : string :=
  let clean := omap (fun ct => if dhas ct.1 groups || String.eqb ct.1 "storage" || bool_decide (ct.1 ∈ HIDDEN_COMPONENTS) then None else Some ct.2) (sort_by fst COMPONENT_TITLES) in
  match clean with [] => "" | _ => eol ++ "Normal: " ++ str_lower (str_join ", " clean) ++ "." end.
Definition _quota_line (util size_kb : option float) (problem : option string) (near_limit : bool) : option string :=
  let note := if near_limit then "  Approaching the limit — a full home directory stops sessions from starting."%string else ""%string in
  match util with
  | Some util =>
      quota ← match size_kb with None => Some "quota"%string | Some kb => gib ← kib_to_gib kb; Some (fixed_f 0 gib ++ " GB quota")%string end;
      Some (eol ++ "Your home directory is at " ++ fixed_f 0 (f_mul util (Fin 100)) ++ "% of its " ++ quota ++ "." ++ note)%string
  | None =>
      Some (match problem with
            | Some _ => eol ++ "Your home directory quota could not be read just now (query_storage_usage tries again)." ++ note
            | None => eol ++ "No reading of your home directory quota right now — it is reported by your running session, so this is expected while no session is running (query_storage_usage has the details)." ++ note
            end)%string
  end.
Definition _history_line (settled : list string) (problem : option string) (any_blocking : bool) : string :=
  match problem, settled with
  | Some _, _ => eol ++ "The last 6 hours of alert history could not be read."
  | None, _ :: _ =>
      eol ++ "In the last 6 hours, " ++ pretty (Z.of_nat (List.length settled)) ++ " issue" ++ (if (List.length settled =? 1)%nat then "" else "s") ++ " came and went."
  | None, [] => if any_blocking then eol ++ "This has been steady for the last 6 hours, not intermittent." else ""
  end.

Section Health.
Context (svc : service Req Ans) (cf : AgTools.Config) (user : AgAuth.User) (eastern : float -> option string) (isoformat : string -> option Q).
Definition et_text (when : string) (delta : Q) : string :=
  let hours := Qfloor (delta / 3600)%Q in
  let minutes := Qfloor ((delta - qz (3600 * hours)) / 60)%Q in
  (when ++ " (" ++ (if (hours =? 0)%Z then pretty minutes ++ "m" else pretty hours ++ "h " ++ padded 2 minutes ++ "m") ++ " ago)")%string.
Definition _et (ts : float) : TM string :=
  when ← must (eastern ts);
  now ← (mcall svc Time : TM Q);
  delta ← must (match f_minus (f_of now) ts with Fin q => Some q | _ => None end);
  mret (et_text when delta).
Definition _active_at (alert : json) : option float :=
  match jget "activeAt" alert with JStr raw => option_map f_of (isoformat (_FRACTION_RE raw)) | _ => None end.
Definition firing_in (resp : Resp) : option (list json) :=
  match json_body resp with
  | Some payload =>
      match jget "alerts" (jget "data" payload) with
      | JArr alerts => Some (List.filter (fun a => is_obj a && jeq_str (jget "state" a) "firing") alerts)
      | _ => None
      end
  | None => None
  end.
Definition alerts_call : Call := mkCall "prometheus" "GET" (PROMETHEUS_URL cf ++ "/api/v1/alerts") "" [] [] None None 10.
Definition _firing_alerts : TM (list json) :=
  reply ← (mcall svc (Http alerts_call) : TM (Resp + RequestExc));
  match reply with
  | inr exc => fails (unreachable PROMETHEUS_NAME exc _UNKNOWN)
  | inl resp =>
      if negb (status_code resp =? 200) then fails (http_error PROMETHEUS_NAME resp "read the firing alerts" _UNKNOWN)
      else match firing_in resp with
           | Some firing => mret firing
           | None => fails (malformed_response PROMETHEUS_NAME resp "an alert list" _UNKNOWN)
           end
  end.
Definition scale_text (matched : list Alert) : string :=
  match matched with
  | _ :: _ :: _ =>
      let nodes := List.length (_nodes matched) in
      " (and " ++ pretty (Z.of_nat (List.length matched) - 1) ++ " more" ++ (if (nodes =? 0)%nat then ")" else ", " ++ pretty (Z.of_nat nodes) ++ " nodes affected)")
  | _ => ""
  end.
Definition alert_line (sevs : list (string * string)) (title name : string) (matched : list Alert) : TM string :=
  let mark := if blocking (dget_or name ""%string sevs) then "!"%string else "-"%string in
  summary ← must (match matched with a :: _ => annotation a | [] => None end);
  let starts := omap (fun a => _active_at (al_alert a)) matched in
  since ← (match starts with t :: starts => et ← _et (f_min t starts); mret (" Since " ++ et ++ ".")%string | [] => mret ""%string end : TM string);
  mret (mark ++ " **" ++ title ++ "**: " ++ (if truthy summary then str_of summary else name) ++ scale_text matched ++ "." ++ since)%string.
Fixpoint named_lines (sevs : list (string * string)) (title : string) (named : list (string * list Alert)) : TM (list string) :=
  match named with
  | [] => mret []
  | (name, matched) :: named => line ← alert_line sevs title name matched; rest ← named_lines sevs title named; mret (line :: rest)
  end.
Fixpoint component_lines (sevs : list (string * string)) (groups : Groups) : TM (list string) :=
  match groups with
  | [] => mret []
  | (component, named) :: groups =>
      lines ← named_lines sevs (dget_or component component COMPONENT_TITLES) (sort_by fst named);
      rest ← component_lines sevs groups; mret (lines ++ rest)%list
  end.
Definition _alert_lines (alerts : Alerts) : TM (list string) := component_lines (severities alerts) (sort_by fst (by_component alerts)).
(** The names that fired in the last hours and do not now. *)
Definition settled_name (names : gset string) (labels : json) : option (list string) :=
  match labels with
  | JObj _ => name ← label_of "alertname" labels;
      Some (match name with Some n => if bool_decide (n ∈ names) then [] else [n] | None => ["None"%string] end)
  | _ => None
  end.
Definition get_facility_health : TM string :=
  let selector := selector_of (u_name user) in
  firing ← _firing_alerts;
  '(recent, history_problem) ← prom_samples svc (PROMETHEUS_URL cf) _HISTORY_QUERY 10;
  '(home_util, util_problem) ← prom_value svc (PROMETHEUS_URL cf) (dir_reading_query "home" "util" selector) 8;
  '(home_size, _) ← prom_value svc (PROMETHEUS_URL cf) (dir_reading_query "home" "size_kb" selector) 8;
  firing ← must (mapM alert_of firing);
  let alerts := _visible_alerts firing (u_name user) in
  '(problems, unread) ← component_problems svc cf;
  rows ← must (_uncovered_rows problems (by_component alerts));
  let verdict := _verdict (severities alerts) rows unread in
  alert_lines ← _alert_lines alerts;
  quota ← must (_quota_line home_util home_size util_problem (own_quota_alert alerts));
  settled ← must (mapM (fun s => settled_name (names alerts) s.1) recent);
  let any_blocking := existsb (fun s => blocking s.2) (severities alerts) in
  let lines := ([verdict ++ " — Purdue Analysis Facility" ++ eol]%string
    ++ (if String.eqb verdict HEALTHY then ["Nothing is failing across the facility."]%string else [])
    ++ _row_lines rows unread ++ alert_lines
    ++ (match rows, unread with [], [] => [_normal_line (by_component alerts)] | _, _ => [] end)
    ++ [quota; _history_line (concat settled) history_problem any_blocking])%list in
  mret (str_join eol (List.filter (fun l => negb (String.eqb l "")) lines) ++ eol)%string.
End Health.

(** ** What is shown, and what is concluded *)

(** An alert of the facility, as this caller may see it; one of their own quota. *)
Definition facility (username : string) (a : Alert) : bool := negb (theirs username a) && negb (al_hidden a) && negb (quota_alert a).
Definition own_quota (username : string) (a : Alert) : bool := negb (theirs username a) && negb (al_hidden a) && quota_alert a.
(** The severity of the last alert of a name. *)
Definition severity_in (name : string) (alerts : list Alert) : option string :=
  option_map al_severity (List.find (fun a => String.eqb (al_name a) name) (rev alerts)).
Lemma dset_concat {V} (f : V -> list Alert) k v d :
  concat (map (fun kv => f kv.2) (dset k v d)) ++ (match dget k d with Some old => f old | None => [] end) ≡ₚ
  f v ++ concat (map (fun kv : string * V => f kv.2) d).
Proof.
  induction d as [|[k' v'] d IH]; cbn [dset dget]; [cbn; by rewrite !app_nil_r|]. case_decide; cbn [map concat fst snd].
  - rewrite <- !app_assoc. f_equiv. apply Permutation_app_comm.
  - rewrite <- app_assoc, IH, !app_assoc. f_equiv. apply Permutation_app_comm.
Qed.
Lemma group_shown a groups : shown_alerts (group_alert a groups) ≡ₚ a :: shown_alerts groups.
Proof.
  unfold shown_alerts, group_alert. set (named := dget_or (al_component a) [] groups).
  set (of_named := fun named : list (string * list Alert) => concat (map snd named)).
  assert (H1 : of_named (dset (al_name a) (dget_or (al_name a) [] named ++ [a])%list named) ≡ₚ a :: of_named named).
  { pose proof (dset_concat (fun l => l) (al_name a) (dget_or (al_name a) [] named ++ [a])%list named) as H. unfold of_named. unfold dget_or in *.
    destruct (dget (al_name a) named) as [old|] eqn:E; cbn [default from_option] in *; unfold id in *.
    - apply (Permutation_app_inv_l old). rewrite Permutation_app_comm, H, <- app_assoc. done.
    - by rewrite app_nil_r in H. }
  pose proof (dset_concat of_named (al_component a) (dset (al_name a) (dget_or (al_name a) [] named ++ [a])%list named) groups) as H2.
  unfold named, dget_or in *. destruct (dget (al_component a) groups) as [old|] eqn:E; cbn [default from_option] in *; unfold id in *.
  - apply (Permutation_app_inv_l (of_named old)). rewrite Permutation_app_comm. etransitivity; [exact H2|]. rewrite H1. cbn. by rewrite Permutation_middle.
  - rewrite app_nil_r in H2. etransitivity; [exact H2|]. by rewrite H1.
Qed.
Lemma visible_snoc l a u : _visible_alerts (l ++ [a])%list u = see u (_visible_alerts l u) a.
Proof. unfold _visible_alerts. by rewrite foldl_app. Qed.
(** One more alert is of the facility, of the caller's quota, or nothing but a name. *)
Lemma see_cases u s a :
  (facility u a = true /\ own_quota u a = false /\ by_component (see u s a) = group_alert a (by_component s) /\
     severities (see u s a) = dset (al_name a) (al_severity a) (severities s) /\ own_quota_alert (see u s a) = own_quota_alert s) \/
  (facility u a = false /\ by_component (see u s a) = by_component s /\ severities (see u s a) = severities s /\
     own_quota_alert (see u s a) = own_quota_alert s || own_quota u a).
Proof.
  unfold facility, own_quota, see. destruct (theirs u a); [right; by rewrite orb_false_r|]. destruct (al_hidden a); [right; by rewrite orb_false_r|].
  destruct (quota_alert a); [right; by rewrite orb_true_r|by left].
Qed.
Lemma visible_shown l u : shown_alerts (by_component (_visible_alerts l u)) ≡ₚ List.filter (facility u) l.
Proof.
  induction l as [|a l IH] using rev_ind; [done|]. rewrite visible_snoc, List.filter_app. cbn [List.filter].
  destruct (see_cases u (_visible_alerts l u) a) as [(-> & _ & -> & _)|(-> & -> & _)]; [|by rewrite app_nil_r].
  rewrite group_shown, IH. by rewrite Permutation_app_comm.
Qed.
Lemma visible_severity name l u : dget name (severities (_visible_alerts l u)) = severity_in name (List.filter (facility u) l).
Proof.
  unfold severity_in. induction l as [|a l IH] using rev_ind; [done|]. rewrite visible_snoc, List.filter_app. cbn [List.filter].
  destruct (see_cases u (_visible_alerts l u) a) as [(-> & _ & _ & -> & _)|(-> & _ & -> & _)]; [|by rewrite app_nil_r].
  rewrite rev_app_distr. cbn [rev app List.find]. destruct (String.eqb_spec (al_name a) name) as [<-|Hne]; [by rewrite dget_dset|].
  by rewrite dget_dset_ne by congruence.
Qed.
Lemma visible_quota l u : own_quota_alert (_visible_alerts l u) = existsb (own_quota u) l.
Proof.
  induction l as [|a l IH] using rev_ind; [done|]. rewrite visible_snoc, existsb_app. cbn [existsb]. rewrite orb_false_r, <- IH.
  destruct (see_cases u (_visible_alerts l u) a) as [(_ & -> & _ & _ & ->)|(_ & _ & _ & ->)]; [by rewrite orb_false_r|done].
Qed.
Lemma severities_keys l u : NoDup (severities (_visible_alerts l u)).*1.
Proof.
  induction l as [|a l IH] using rev_ind; [constructor|]. rewrite visible_snoc.
  destruct (see_cases u (_visible_alerts l u) a) as [(_ & _ & _ & -> & _)|(_ & _ & -> & _)]; [by apply dset_keys|done].
Qed.
(** Some alert of the facility is blocking, by the last of its name. *)
Definition blocked (alerts : list Alert) : Prop := exists name sev, severity_in name alerts = Some sev /\ blocking sev = true.
Lemma blocked_iff l u : existsb (fun s => blocking s.2) (severities (_visible_alerts l u)) = true <-> blocked (List.filter (facility u) l).
Proof.
  unfold blocked. setoid_rewrite <- visible_severity. rewrite existsb_exists. split.
  - intros ([name sev] & Hin & Hb). exists name, sev. split; [|done]. apply elem_dget; [apply severities_keys|by apply list_elem_of_In].
  - intros (name & sev & Hd%dget_elem & Hb). exists (name, sev). split; [by apply list_elem_of_In|done].
Qed.
Lemma severities_none l u : severities (_visible_alerts l u) = [] <-> List.filter (facility u) l = [].
Proof.
  split; intros H.
  - destruct (List.filter (facility u) l) as [|a al] eqn:E using rev_ind; [done|]. exfalso.
    pose proof (visible_severity (al_name a) l u) as Hs. rewrite E, H in Hs. unfold severity_in in Hs. rewrite rev_app_distr in Hs. cbn in Hs.
    by rewrite String.eqb_refl in Hs.
  - destruct (severities _) as [|[name sev] d] eqn:E; [done|]. pose proof (visible_severity name l u) as Hs. rewrite E, H in Hs. cbn in Hs. by rewrite decide_True in Hs.
Qed.
(** A row that is neither down nor partly failing. *)
Definition row_fine (r : string * float) : Prop := row_down r.2 = false /\ row_partial r.2 = false.
Lemma existsb_none {A} (f : A -> bool) l : existsb f l = false <-> Forall (fun x => f x = false) l.
Proof. induction l as [|x l IH]; cbn; [by split|]. by rewrite orb_false_iff, IH, Forall_cons. Qed.
Lemma healthy_iff sevs rows unread : _verdict sevs rows unread = HEALTHY <-> sevs = [] /\ unread = [] /\ Forall row_fine rows.
Proof.
  unfold _verdict, row_fine. split.
  - destruct (existsb (fun r => row_down r.2) rows || _) eqn:E1; [done|]. destruct (negb _ || _) eqn:E2; [done|].
    destruct (_ || existsb (fun r => row_partial r.2) rows) eqn:E3; [done|]. intros _.
    apply orb_false_iff in E1 as [Hd%existsb_none Hb%existsb_none], E2 as [Hu Hm], E3 as [Hi%existsb_none Hp%existsb_none].
    split; [|split; [by destruct unread|]].
    + destruct sevs as [|[name sev] sevs]; [done|]. apply Forall_cons in Hb as [Hb _], Hi as [Hi _]. cbn in Hb, Hi. rewrite Hb in Hi. cbn in Hi.
      apply negb_false_iff, String.eqb_eq in Hi as ->. unfold dhas in Hm. cbn in Hm. by rewrite decide_True in Hm.
    + apply Forall_and. split; [done|done].
  - intros (-> & -> & [Hd Hp]%Forall_and). apply existsb_none in Hd, Hp. by rewrite Hd, Hp.
Qed.
Lemma degraded_iff sevs rows unread : _verdict sevs rows unread = DEGRADED <-> existsb (fun r => row_down r.2) rows = true \/ existsb (fun s => blocking s.2) sevs = true.
Proof. unfold _verdict. rewrite <- orb_true_iff.
  destruct (existsb (fun r => row_down r.2) rows || _); [done|]. destruct (negb _ || _); [done|]. by destruct (_ || existsb (fun r => row_partial r.2) rows). Qed.

(** *** Theorem *)

(** C19: What is reported is what fires, as this caller may see it: every alert of the facility
    is told of once, under its component; the caller's own quota is told of apart, and no
    other person's alert counts; the verdict is healthy just if no alert of the facility
    fires, every row that no alert covers is fine and each could be read, and degraded
    just if such a row is down or the last alert of some name blocks. *)
Theorem health_exact firing user rows unread :
  let alerts := _visible_alerts firing user in
  shown_alerts (by_component alerts) ≡ₚ List.filter (facility user) firing /\
  own_quota_alert alerts = existsb (own_quota user) firing /\
  (_verdict (severities alerts) rows unread = HEALTHY <-> List.filter (facility user) firing = [] /\ unread = [] /\ Forall row_fine rows) /\
  (_verdict (severities alerts) rows unread = DEGRADED <-> existsb (fun r => row_down r.2) rows = true \/ blocked (List.filter (facility user) firing)).
Proof.
  cbv zeta. split; [apply visible_shown|]. split; [apply visible_quota|]. split; [by rewrite healthy_iff, severities_none|].
  by rewrite degraded_iff, blocked_iff.
Qed.
(** An alert about another person, or that is kept from users, is none of the facility's. *)
Lemma others_left_out user a : theirs user a = true \/ al_hidden a = true -> facility user a = false /\ own_quota user a = false.
Proof. unfold facility, own_quota. intros [->| ->]; [done|]. by rewrite andb_false_r. Qed.
(** A row whose query gives no series is neither in trouble nor unread: nothing is told of it. *)
Lemma silent_row_passes legend : row_problems legend [] None ([], []) = ([], []) /\ _verdict [] [] [] = HEALTHY.
Proof. by split. Qed.
Definition fired (labels : list (string * json)) (summary : string) : json :=
  JObj [("state", JStr "firing"); ("labels", JObj labels); ("annotations", JObj [("summary", JStr summary)]); ("activeAt", JStr "2026-01-01T00:00:00.123456789Z")]%string.
Definition health_svc : service Req Ans := fun h r =>
  match r return Ans r with
  | Http _ => inl (mkResp 200 (Some ""%string) (Some (JObj [("data", JObj [("alerts", JArr
      [fired [("alertname", JStr "Slow"); ("component", JStr "data"); ("severity", JStr "warning"); ("node", JStr "n1")] "reads are slow";
       fired [("alertname", JStr "Slow"); ("component", JStr "data"); ("node", JStr "n2")] "reads are slow there";
       fired [("alertname", JStr "Quota"); ("component", JStr "storage"); ("username", JStr "bob"); ("severity", JStr "critical")] "full"])])]%string)))
  | PromGet _ q _ => if str_contains "_util" q then inl (mkResp 200 (Some ""%string) (Some (JObj [("data", JObj [("result", JArr [row_of [] "0.25"])])]%string))) else inr (mkExc ReadTimeout "")
  | Dashboard => None
  | Elicit _ _ => None | Time => 7260%Q | Monotonic => 0%Q | FreeCached => None | Sleep _ | FreeStore _ => tt
  end.
Example health_run :
  (get_facility_health health_svc somewhere (mkUser "alice" "t") (fun _ => Some "00:00 ET, 01 Jan"%string)
     (fun s => if String.eqb s "2026-01-01T00:00:00.123456Z" then Some 0%Q else None) tt []).1.1
  = Ok ("**Impaired** — Purdue Analysis Facility" ++ eol ++ eol
    ++ "- **Data access**: reads are slow (and 1 more, 2 nodes affected). Since 00:00 ET, 01 Jan (2h 01m ago)." ++ eol
    ++ eol ++ "Normal: facility access, compute capacity, software environment, logs and monitoring, scale-out." ++ eol
    ++ eol ++ "Your home directory is at 25% of its quota." ++ eol
    ++ eol ++ "The last 6 hours of alert history could not be read." ++ eol)%string.
Proof. vm_compute. reflexivity. Qed.
