(* ===== verification/RayNames.v ===== *)
(** Who calls the Ray gateway ([apps/ray-train/gateway.py]): the names of clusters,
    the declarations of workload accounts, and the tokens that callers carry. *)
From S2P Require Import Prelude PyJson PyText Sha256.
Open Scope Z_scope.

(** ** Refusals *)

Inductive StatusCode :=
| INVALID_ARGUMENT | UNAUTHENTICATED | PERMISSION_DENIED | NOT_FOUND | FAILED_PRECONDITION
| ABORTED | RESOURCE_EXHAUSTED | UNAVAILABLE.
#[export] Instance StatusCode_eq_dec : EqDecision StatusCode.
Proof. solve_decision. Defined.
Definition HTTP_STATUS (c : StatusCode) : Z :=
  match c with
  | INVALID_ARGUMENT => 400 | UNAUTHENTICATED => 401 | PERMISSION_DENIED => 403 | NOT_FOUND => 404
  | FAILED_PRECONDITION => 409 | ABORTED => 409 | RESOURCE_EXHAUSTED => 429 | UNAVAILABLE => 503
  end.
Record Refused := mkRefused { refused_code : StatusCode; refused_text : string }.
Definition refuse {A} (c : StatusCode) (text : string) : res Refused A := Err (mkRefused c text).

(** ** Names *)

Definition MAX_CLUSTER_NAME : nat := 53.
Definition CLUSTER_PREFIX : string := "ray-train-".
Definition ACCOUNT_NAME_MAX : nat := MAX_CLUSTER_NAME - String.length CLUSTER_PREFIX.

(** [DNS_LABEL.fullmatch] and [ACCOUNT_NAME.fullmatch] *)
Definition dns_label (s : string) : bool :=
  first_is is_lower s && str_forallb label_char s && last_is is_alnum_lower s.
Definition account_name (s : string) : bool :=
  first_is is_alnum_lower s && str_forallb label_char s && last_is is_alnum_lower s.

Definition is_hyphen (c : ascii) : bool := Ascii.eqb c "-".
Definition hash8 (username : string) : string := str_take 8 (sha256_hex username).
Definition stem (username : string) : string :=
  str_strip_of is_hyphen (sub_runs is_alnum_lower false (str_lower username)).
Definition cluster_name (username : string) : string :=
  let name := (CLUSTER_PREFIX ++ username)%string in
  if (String.length name <=? MAX_CLUSTER_NAME)%nat && dns_label name then name
  else
    let suffix := ("---" ++ hash8 username)%string in
    (str_take (MAX_CLUSTER_NAME - String.length suffix) (CLUSTER_PREFIX ++ stem username) ++ suffix)%string.

(** ** Workload accounts *)

Record Account := mkAccount { a_name : string; a_uid : Z; a_gid : Z; a_token_sha256 : string }.
#[export] Instance Account_eq_dec : EqDecision Account.
Proof. solve_decision. Defined.

Definition RESERVED_NAMES : list string :=
  ["bin"; "boot"; "dev"; "etc"; "home"; "lib"; "lib32"; "lib64"; "libx32"; "media"; "mnt"; "opt";
   "proc"; "root"; "run"; "sbin"; "srv"; "sys"; "tmp"; "usr"; "var"; "work"; "depot"; "eos"; "cvmfs";
   "af-shared-storage"; "hub-db-dir"; "jovyan"; "dask-credentials"; "log-volume"]%string.
Definition RESERVED_PREFIX : string := "claim-".
Definition EXTERNAL_SUFFIXES : list string := ["-cern"; "-fnal"]%string.
Definition external (name : string) : bool := existsb (fun suffix => endswith suffix name) EXTERNAL_SUFFIXES.
Definition reserved (name : string) : bool :=
  bool_decide (name ∈ RESERVED_NAMES) || startswith RESERVED_PREFIX name || external name.
Definition account_id (n : Z) : bool := (1000 <=? n) && (n <? 2000).
Definition token_hash (s : string) : bool :=
  (String.length s =? 64)%nat && str_forallb is_hexdigit s.

Definition ACCOUNT_KEYS : list string := ["name"; "uid"; "gid"; "tokenSha256"]%string.
(** [set(declared) == ACCOUNT_KEYS] of a dict, whose keys are distinct. *)
Definition exact_keys (o : list (string * json)) : bool :=
  bool_decide (Forall (fun k => k ∈ ACCOUNT_KEYS) o.*1) && forallb (fun k => dhas k o) ACCOUNT_KEYS.
(** An ID of a declaration, or the key it breaks the rule of: a [bool] is no [int] here. *)
Definition checked_id (key : string) (declared : json) : res string Z :=
  match jget key declared with JInt n => if account_id n then Ok n else Err key | _ => Err key end.
(** The reason of [AccountRefused] is its error. *)
Definition checked_account (declared : json) : res string Account :=
  match declared with
  | JObj o =>
      if negb (exact_keys o) then Err "keys" else
      match jget "name" declared with
      | JStr name =>
          if (ACCOUNT_NAME_MAX <? String.length name)%nat || negb (account_name name) then Err "name"
          else if reserved name then Err "reserved-name"
          else
            uid ← checked_id "uid" declared;
            gid ← checked_id "gid" declared;
            match jget "tokenSha256" declared with
            | JStr h => if token_hash h then Ok (mkAccount name uid gid h) else Err "token-hash"
            | _ => Err "token-hash"
            end
      | _ => Err "name"
      end
  | _ => Err "keys"
  end%string.

(** What [yaml.safe_load] makes of a declaration, [None] if it cannot be read. *)
Definition found_accounts (files : list (option json)) : list Account :=
  omap (fun f => match f with
                 | Some declared => match checked_account declared with Ok a => Some a | Err _ => None end
                 | None => None
                 end) files.
(** [collections.Counter(f(a) for a in l)[k]] *)
Definition counter (f : Account -> string) (k : string) (l : list Account) : nat :=
  List.length (List.filter (fun a => String.eqb (f a) k) l).
Definition lone (found : list Account) (a : Account) : bool :=
  negb ((1 <? counter a_name (a_name a) found)%nat || (1 <? counter a_token_sha256 (a_token_sha256 a) found)%nat).
Definition read_accounts (files : list (option json)) : list (string * Account) :=
  let found := found_accounts files in
  foldl (fun valid a => if lone found a then dset (a_name a) a valid else valid) [] found.

(** [accounts]: a declaration is read again when its file's path, inode, time or
    size changes; a file that cannot be looked at is left out. *)
Definition Stamp := list (string * (Z * Z * Z)).
Record File := mkFile { f_path : string; f_stat : option (Z * Z * Z); f_declared : option json }.
Definition AccountsCache : Type := option Stamp * list (string * Account).
Definition stamp_of (files : list File) : Stamp :=
  omap (fun f => option_map (pair (f_path f)) (f_stat f)) files.
(** [path.read_text()] of each path of a stamp. *)
Definition declared_at (files : list File) (s : Stamp) : list (option json) :=
  map (fun e => match List.find (fun f => String.eqb (f_path f) e.1) files with
                | Some f => f_declared f | None => None end) s.
Definition accounts (files : list File) (cache : AccountsCache) : AccountsCache :=
  let stamp := stamp_of files in
  if bool_decide (cache.1 = Some stamp) then cache
  else (Some stamp, read_accounts (declared_at files stamp)).

Definition token_account (accts : list (string * Account)) (token : string) : option Account :=
  let digest := sha256_hex token in
  foldl (fun owner na => if String.eqb digest (a_token_sha256 na.2) then Some na.2 else owner) None accts.

Definition refuse_account_name (accts : list (string * Account)) (name : string) : res Refused unit :=
  if bool_decide (cluster_name name ∈ map (fun na => cluster_name na.1) accts)
  then refuse PERMISSION_DENIED
         (name ++ " is the name of a workload account: no Ray cluster runs for a Hub user of it.")
  else Ok tt.

(** ** Tokens and sessions *)

(** ASCII text; [isprintable] leaves the space as its one blank. *)
Definition printable (c : ascii) : bool := (32 <=? chr_code c) && (chr_code c <=? 126).
Definition bearer_token (header : string) : option string :=
  let '(scheme, rest) := str_partition " " header in
  let token := str_strip (default "" rest)%string in
  if negb (bool_decide (str_lower scheme ∈ ["bearer"; "token"]%string)) || String.eqb token "" then None
  else if str_forallb printable token then Some token else None.

Definition POD_PREFIX : string := "purdue-af-".
(** [SESSION_POD.fullmatch]: the pod's name, and the AF ID in it. *)
Definition session_pod (user_model : json) : option (string * Z) :=
  let server := j_or (jget "" (j_or (jget "servers" user_model) (JObj []))) (JObj []) in
  let pod_name := jstr (jget "pod_name" (j_or (jget "state" server) (JObj []))) in
  if startswith POD_PREFIX pod_name
  then option_map (pair pod_name) (py_digits (str_drop (String.length POD_PREFIX) pod_name))
  else None.

Definition pooled_account (af_id : Z) : res Refused string :=
  if 399 <? af_id
  then refuse PERMISSION_DENIED ("There is no pooled account for AF user " ++ pretty af_id ++ ".")
  else Ok ("paf" ++ padded 4 af_id)%string.

Record User := mkUser {
  u_name : string; u_account : string; u_uid : Z; u_gid : Z; session_gpu : bool; workload : bool }.
#[export] Instance eta_user : Eta User := {| eta_of u :=
  mkUser (u_name u) (u_account u) (u_uid u) (u_gid u) (session_gpu u) (workload u) |}.
Definition user_cluster (u : User) : string := cluster_name (u_name u).
Definition user_owner (u : User) : string := if workload u then u_name u else "".

Definition cluster_token (key cluster : string) : string := hmac_sha256_hex key cluster.

(** ** Cluster names *)

Lemma hash8_length u : String.length (hash8 u) = 8%nat.
Proof. apply str_take_length_ge. rewrite sha256_hex_length. lia. Qed.
Lemma hash8_ne u : hash8 u <> ""%string.
Proof. intros H. pose proof (hash8_length u) as Hl. by rewrite H in Hl. Qed.
Lemma hexdigit_alnum c : is_hexdigit c = true -> is_alnum_lower c = true.
Proof.
  unfold is_hexdigit, is_alnum_lower, is_lower. intros [H|H]%orb_true_iff; [by rewrite H, orb_true_r|].
  apply orb_true_iff. left. unfold chr_between in *. breflect.
  apply andb_true_iff. split; [by apply Z.leb_le|]. apply Z.leb_le.
  change (chr_code "f") with 102 in *. change (chr_code "z") with 122. lia.
Qed.
Lemma hash8_alnum u : str_forallb is_alnum_lower (hash8 u) = true.
Proof.
  apply str_forallb_take. eapply str_forallb_mono; [exact hexdigit_alnum|]. apply sha256_hex_digits.
Qed.
Lemma alnum_label c : is_alnum_lower c = true -> label_char c = true.
Proof. unfold label_char. by intros ->. Qed.
Lemma stem_label u : str_forallb label_char (stem u) = true.
Proof. apply str_forallb_strip, sub_runs_label. Qed.

(** A name that cannot be part of a Kubernetes name: its first part, and its hash. *)
Definition mangled (u : string) : string :=
  (str_take 42 (CLUSTER_PREFIX ++ stem u) ++ "---" ++ hash8 u)%string.
Lemma cluster_name_cases u :
  (cluster_name u = (CLUSTER_PREFIX ++ u)%string /\
   (String.length (cluster_name u) <= MAX_CLUSTER_NAME)%nat /\ dns_label (cluster_name u) = true) \/
  cluster_name u = mangled u.
Proof.
  unfold cluster_name. set (name := (CLUSTER_PREFIX ++ u)%string).
  destruct (_ && _) eqn:E; [left; breflect; split; [done|]; split; [by apply Nat.leb_le | done]|right].
  unfold mangled. rewrite str_length_app, hash8_length. done.
Qed.
Lemma mangled_prefix u : exists t, mangled u = (CLUSTER_PREFIX ++ t)%string /\ (11 <= String.length t)%nat /\
  exists t', t = (t' ++ "---" ++ hash8 u)%string.
Proof.
  unfold mangled. destruct (str_take_app_le 42 CLUSTER_PREFIX (stem u)) as [w ->]; [vm_compute; lia|].
  exists (w ++ "---" ++ hash8 u)%string. split; [|split; [|by exists w]].
  - apply str_app_assoc.
  - rewrite !str_length_app, hash8_length. cbn. lia.
Qed.

(** Every user can have a cluster.  Whatever a username is, [cluster_name] is a
    DNS label that KubeRay's Services can be named after: a lower-case letter first,
    then lower-case letters, digits and hyphens, a letter or digit last, and no more
    than 53 characters. *)
Theorem cluster_name_valid u :
  dns_label (cluster_name u) = true /\ (String.length (cluster_name u) <= MAX_CLUSTER_NAME)%nat.
Proof.
  destruct (cluster_name_cases u) as [(_ & Hl & Hd)| ->]; [done|]. split.
  - unfold dns_label. rewrite !andb_true_iff. split; [split|].
    + by destruct (mangled_prefix u) as (t & -> & _).
    + unfold mangled. rewrite !str_forallb_app, str_forallb_take.
      * cbn. eapply str_forallb_mono; [exact alnum_label|]. apply hash8_alnum.
      * rewrite str_forallb_app, stem_label. done.
    + unfold mangled. rewrite last_is_app by done. rewrite last_is_app by apply hash8_ne.
      apply last_is_forall; [apply hash8_ne | apply hash8_alnum].
  - unfold mangled. rewrite !str_length_app, hash8_length.
    pose proof (str_take_length 42 (CLUSTER_PREFIX ++ stem u)). change (String.length "---") with 3%nat. unfold MAX_CLUSTER_NAME. lia.
Qed.

(** Users do not share a cluster.  Two usernames of the same cluster name are the
    same, or their SHA-256 hashes start alike, or one of them already ends in three
    hyphens and the start of the other's hash. *)
Theorem cluster_name_apart u v :
  cluster_name u = cluster_name v ->
  u = v \/ hash8 u = hash8 v \/
  endswith ("---" ++ hash8 v) u = true \/ endswith ("---" ++ hash8 u) v = true.
Proof.
  assert (Hmix : forall a b, (CLUSTER_PREFIX ++ a)%string = mangled b -> endswith ("---" ++ hash8 b) a = true).
  { intros a b. destruct (mangled_prefix b) as (t & -> & _ & t' & ->).
    intros ->%str_app_inv_head. apply endswith_app. }
  destruct (cluster_name_cases u) as [(-> & _)| ->], (cluster_name_cases v) as [(-> & _)| ->]; intros H.
  - left. by apply str_app_inv_head in H.
  - right; right; left. by apply Hmix.
  - right; right; right. by apply Hmix.
  - right; left. unfold mangled in H. apply str_app_inv_tail in H as [_ H].
    + by apply str_app_inv_head in H.
    + by rewrite !str_length_app, !hash8_length.
Qed.
Definition demo_username : string := "Jo.Doe@example.org".
Lemma cluster_name_apart_witness :
  cluster_name demo_username = "ray-train-jo-doe-example-org---42acae94"%string /\
  (demo_username = demo_username \/ hash8 demo_username = hash8 demo_username \/
   endswith ("---" ++ hash8 demo_username) demo_username = true \/
   endswith ("---" ++ hash8 demo_username) demo_username = true).
Proof. split; [vm_compute; reflexivity|]. apply (cluster_name_apart demo_username demo_username). reflexivity. Defined.

(** ** Accounts *)

(** The rules a declaration keeps. *)
Record account_ok (a : Account) : Prop := {
  ok_length : (String.length (a_name a) <= ACCOUNT_NAME_MAX)%nat;
  ok_name : account_name (a_name a) = true;
  ok_free : reserved (a_name a) = false;
  ok_uid : 1000 <= a_uid a < 2000;
  ok_gid : 1000 <= a_gid a < 2000;
  ok_hash : token_hash (a_token_sha256 a) = true }.

Lemma checked_id_ok key d n : checked_id key d = Ok n -> 1000 <= n < 2000.
Proof.
  unfold checked_id, account_id. destruct (jget key d); try done.
  destruct (_ && _) eqn:E; [|done]. intros [= <-]. breflect. lia.
Qed.
Lemma checked_account_ok d a : checked_account d = Ok a -> account_ok a.
Proof.
  unfold checked_account. destruct d; try done. destruct (exact_keys o); [|done]. cbn [negb].
  destruct (jget "name" (JObj o)) as [| | | |name| |]; try done.
  destruct (_ || _) eqn:En; [done|]. destruct (reserved name) eqn:Er; [done|].
  unfold mbind, res_bind.
  destruct (checked_id "uid" (JObj o)) as [uid|] eqn:Eu; [|done].
  destruct (checked_id "gid" (JObj o)) as [gid|] eqn:Eg; [|done].
  destruct (jget "tokenSha256" (JObj o)) as [| | | |h| |]; try done.
  destruct (token_hash h) eqn:Eh; [|done]. intros [= <-].
  apply orb_false_iff in En as [Hl Hn]. apply negb_false_iff in Hn. apply Nat.ltb_ge in Hl.
  split; cbn; try done; by eapply checked_id_ok.
Qed.
Lemma found_accounts_ok files : Forall account_ok (found_accounts files).
Proof.
  unfold found_accounts. apply Forall_forall. intros a. rewrite list_elem_of_omap.
  intros ([d|] & _ & Hd); [|done]. destruct (checked_account d) eqn:E; [|done].
  injection Hd as <-. by eapply checked_account_ok.
Qed.

Lemma counter_two f k a b l :
  a ∈ l -> b ∈ l -> a <> b -> f a = k -> f b = k -> (2 <= counter f k l)%nat.
Proof.
  intros Ha Hb Hne Hfa Hfb. unfold counter. set (l' := List.filter _ l).
  assert (Hin : forall x, x ∈ l -> f x = k -> x ∈ l').
  { intros x Hx Hf. apply list_elem_of_In, filter_In. split; [by apply list_elem_of_In|].
    by apply String.eqb_eq. }
  pose proof (Hin a Ha Hfa) as H1. pose proof (Hin b Hb Hfb) as H2.
  destruct l' as [|x [|y l']]; [by apply elem_of_nil in H1| |cbn; lia].
  apply list_elem_of_singleton in H1, H2. congruence.
Qed.
Lemma lone_name found a b : lone found a = true -> a ∈ found -> b ∈ found ->
  a_name b = a_name a \/ a_token_sha256 b = a_token_sha256 a -> a = b.
Proof.
  intros Hl Ha Hb He. destruct (decide (a = b)) as [|Hne]; [done|]. exfalso.
  apply negb_true_iff, orb_false_iff in Hl as [Hn Hh]. apply Nat.ltb_ge in Hn, Hh.
  destruct He as [He|He].
  - pose proof (counter_two a_name (a_name a) a b found Ha Hb Hne eq_refl He). lia.
  - pose proof (counter_two a_token_sha256 (a_token_sha256 a) a b found Ha Hb Hne eq_refl He). lia.
Qed.

Lemma dset_elem {V} (k : string) (v : V) k' v' l :
  (k', v') ∈ dset k v l -> (k' = k /\ v' = v) \/ (k', v') ∈ l.
Proof.
  induction l as [|[k0 v0] l IH]; cbn.
  - intros [= -> ->]%list_elem_of_singleton. by left.
  - case_decide as Hk; intros [H|H]%elem_of_cons.
    + left. by injection H.
    + right. by right.
    + right. rewrite H. by left.
    + destruct (IH H); [by left|right; by right].
Qed.
Lemma dset_keeps (k : string) v n (b : Account) l :
  (n, b) ∈ l -> n <> k -> (n, b) ∈ dset k v l.
Proof.
  induction l as [|[k' v'] l IH]; [by intros ?%elem_of_nil|]. cbn.
  intros [?|H]%elem_of_cons Hne; case_decide; simplify_eq.
  - by left.
  - by right.
  - right. auto.
Qed.
Lemma dset_has {V} (k : string) (v : V) l : (k, v) ∈ dset k v l.
Proof. apply dget_elem, dget_dset. Qed.

Definition add_lone (found : list Account) (valid : list (string * Account)) (a : Account) :=
  if lone found a then dset (a_name a) a valid else valid.
Lemma read_loop found l valid :
  (forall n b, (n, b) ∈ valid -> n = a_name b) ->
  (forall n b, (n, b) ∈ valid -> b ∈ found /\ lone found b = true) ->
  (forall a, a ∈ l -> a ∈ found) ->
  forall n b, (n, b) ∈ foldl (add_lone found) valid l <->
    n = a_name b /\ lone found b = true /\ ((n, b) ∈ valid \/ b ∈ l).
Proof.
  revert valid. induction l as [|a l IH]; intros valid Hn Hok Hl n b; cbn [foldl].
  { rewrite elem_of_nil. split; [intros H|intros (_ & _ & [H|[]])]; [|done].
    split; [by apply Hn|]. split; [by eapply Hok|by left]. }
  assert (Ha : a ∈ found) by (apply Hl; by left).
  unfold add_lone at 2. destruct (lone found a) eqn:Ea.
  - rewrite IH; [|..].
    + split; intros (He & Hb & Hor); (split; [done|]; split; [done|]).
      * destruct Hor as [H|H]; [|right; by right].
        apply dset_elem in H as [[_ ->]|H]; [right; by left|by left].
      * destruct Hor as [H|[->|H]%elem_of_cons]; [|left; subst n; apply dset_has|by right].
        left. destruct (decide (n = a_name a)) as [->|Hne]; [|by apply dset_keeps].
        assert (a = b) as <-; [|apply dset_has].
        apply (lone_name found a b Ea Ha); [by eapply Hok|left; congruence].
    + intros n' b' [[-> ->]|H]%dset_elem; auto.
    + intros n' b' [[-> ->]|H]%dset_elem; eauto.
    + intros x Hx. apply Hl. by right.
  - rewrite IH; [|done|done|intros x Hx; apply Hl; by right].
    split; intros (He & Hb & Hor); (split; [done|]; split; [done|]); destruct Hor as [H|H]; auto.
    + right. by right.
    + apply elem_of_cons in H as [->|H]; [congruence|by right].
Qed.
Lemma read_accounts_elem files n a :
  (n, a) ∈ read_accounts files <->
  n = a_name a /\ lone (found_accounts files) a = true /\ a ∈ found_accounts files.
Proof.
  unfold read_accounts. change (fun valid a => if lone (found_accounts files) a then dset (a_name a) a valid else valid)
    with (add_lone (found_accounts files)). rewrite (read_loop _ _ []); [|by intros ?? ?%elem_of_nil..|done].
  rewrite elem_of_nil. naive_solver.
Qed.

Lemma account_cluster a : account_ok a -> cluster_name (a_name a) = (CLUSTER_PREFIX ++ a_name a)%string.
Proof.
  intros [Hl Hn _ _ _ _]. unfold cluster_name. rewrite str_length_app.
  assert (String.length CLUSTER_PREFIX + String.length (a_name a) <=? MAX_CLUSTER_NAME = true)%nat as ->.
  { apply Nat.leb_le. unfold ACCOUNT_NAME_MAX in Hl. change (String.length CLUSTER_PREFIX) with 10%nat in *.
    unfold MAX_CLUSTER_NAME in *. lia. }
  assert (dns_label (CLUSTER_PREFIX ++ a_name a)%string = true) as ->; [|done].
  unfold account_name in Hn. apply andb_true_iff in Hn as [[_ Hf]%andb_true_iff Hlast].
  unfold dns_label. rewrite str_forallb_app, Hf. rewrite last_is_app; [by rewrite Hlast|].
  intros E. by rewrite E in Hlast.
Qed.

(** Which declarations count.  Every account that [read_accounts] keeps states
    a name within the rules, IDs of the range and a SHA-256 hash, under its own
    name; no two share a name, a token hash or a cluster name; and one is left out
    only if its declaration breaks a rule or shares its name or token with another. *)
Theorem read_accounts_valid files :
  let kept := read_accounts files in
  (forall n a, (n, a) ∈ kept -> n = a_name a /\ account_ok a) /\
  (forall n a n' a', (n, a) ∈ kept -> (n', a') ∈ kept ->
     n = n' \/ a_token_sha256 a = a_token_sha256 a' \/ cluster_name n = cluster_name n' -> a = a') /\
  (forall d a, Some d ∈ files -> checked_account d = Ok a -> (a_name a, a) ∉ kept ->
     (1 < counter a_name (a_name a) (found_accounts files) \/
      1 < counter a_token_sha256 (a_token_sha256 a) (found_accounts files))%nat).
Proof.
  cbv zeta. assert (Hok : forall n a, (n, a) ∈ read_accounts files -> n = a_name a /\ account_ok a).
  { intros n a (-> & _ & Ha)%read_accounts_elem. split; [done|].
    pose proof (found_accounts_ok files) as H. by eapply Forall_forall in H. }
  split; [done|]. split.
  - intros n a n' a' H H' He. destruct (Hok _ _ H) as [-> Ho], (Hok _ _ H') as [-> Ho'].
    rewrite !account_cluster in He by done.
    apply read_accounts_elem in H as (_ & Hl & Ha), H' as (_ & _ & Ha').
    apply (lone_name (found_accounts files)); try done.
    destruct He as [He|[He|He]]; [by left|by right|left]. by apply str_app_inv_head in He.
  - intros d a Hd Ha Hni. assert (Hin : a ∈ found_accounts files).
    { apply list_elem_of_omap. exists (Some d). by rewrite Ha. }
    assert (lone (found_accounts files) a <> true) as Hl by (intros Hl; by apply Hni, read_accounts_elem).
    apply not_true_iff_false, negb_false_iff, orb_true_iff in Hl as [H|H]; apply Nat.ltb_lt in H; auto.
Qed.

(** The last account of that hash, of accounts that all have theirs alone. *)
Lemma token_fold d a l acc :
  (forall n b, (n, b) ∈ l -> d = a_token_sha256 b -> b = a) -> acc = None \/ acc = Some a ->
  let owner := foldl (fun owner (na : string * Account) =>
    if String.eqb d (a_token_sha256 na.2) then Some na.2 else owner) acc l in
  (owner = None \/ owner = Some a) /\
  (owner = Some a <-> acc = Some a \/ exists n b, (n, b) ∈ l /\ d = a_token_sha256 b).
Proof.
  revert acc. induction l as [|[n b] l IH]; intros acc Hl Hacc; cbn [foldl snd].
  { split; [done|]. split; [by left|]. by intros [?|(? & ? & ?%elem_of_nil & _)]. }
  assert (Hl' : forall n b, (n, b) ∈ l -> d = a_token_sha256 b -> b = a).
  { intros n' b' H. apply (Hl n' b'). by right. }
  destruct (String.eqb_spec d (a_token_sha256 b)) as [E|E].
  - assert (b = a) as -> by (apply (Hl n b); [by left|done]).
    destruct (IH (Some a) Hl' (or_intror eq_refl)) as [H1 H2]. split; [done|]. split; intros _.
    + right. exists n, a. split; [by left|done].
    + apply H2. by left.
  - destruct (IH acc Hl' Hacc) as [H1 H2]. split; [done|]. rewrite H2.
    split; (intros [?|(n' & b' & Hin & Hd)]; [by left|right; exists n', b']); (split; [|done]).
    + by right.
    + by apply elem_of_cons in Hin as [?|?]; simplify_eq.
Qed.

(** C24: a token is of at most one account.  Of the accounts that are kept, a token
    opens exactly the one that declares its SHA-256 hash; and a Hub user whom
    [refuse_account_name] lets pass has another cluster than any of them. *)
Theorem token_account_exact files token a :
  let kept := read_accounts files in
  (token_account kept token = Some a <->
     (a_name a, a) ∈ kept /\ sha256_hex token = a_token_sha256 a) /\
  forall name, refuse_account_name kept name = Ok tt -> (a_name a, a) ∈ kept ->
    cluster_name name <> cluster_name (a_name a).
Proof.
  cbv zeta. destruct (read_accounts_valid files) as (Hok & Huniq & _). split.
  - set (d := sha256_hex token).
    assert (Hdec : (exists n b, (n, b) ∈ read_accounts files /\ d = a_token_sha256 b) \/
                   forall n b, (n, b) ∈ read_accounts files -> d <> a_token_sha256 b).
    { destruct (List.find (fun na => String.eqb d (a_token_sha256 na.2)) (read_accounts files)) as [[n b]|] eqn:E.
      - apply List.find_some in E as [Hin He]. left. exists n, b.
        split; [by apply list_elem_of_In | by apply String.eqb_eq].
      - right. intros n b Hin. pose proof (List.find_none _ _ E (n, b)) as He. cbn in He.
        apply String.eqb_neq, He. by apply list_elem_of_In. }
    unfold token_account. fold d. destruct Hdec as [(n & b & Hin & Hd)|Hnone].
    + assert (Hall : forall n' b', (n', b') ∈ read_accounts files -> d = a_token_sha256 b' -> b' = b).
      { intros n' b' H' Hd'. eapply Huniq; [exact H'|exact Hin|]. right; left. congruence. }
      destruct (token_fold d b _ None Hall (or_introl eq_refl)) as [_ H2].
      rewrite (proj2 H2) by (right; by exists n, b). split.
      * intros [= <-]. destruct (Hok _ _ Hin) as [<- _]. done.
      * intros [Ha Hda]. f_equal. symmetry. by apply (Hall (a_name a)).
    + destruct (token_fold d a _ None (fun n b H Hd => False_ind _ (Hnone n b H Hd)) (or_introl eq_refl)) as [_ H2].
      rewrite H2. split; [intros [?|(n & b & H & Hd)]; [done|by destruct (Hnone n b)]|].
      intros [Ha Hd]. by destruct (Hnone _ _ Ha).
  - intros name Hn Hin E. unfold refuse_account_name in Hn. case_bool_decide as Hb; [done|].
    apply Hb. rewrite E. apply list_elem_of_fmap. by exists (a_name a, a).
Qed.

(** Declarations are read again when they change.  If a declaration's content
    changes only with its file's inode, time or size, then [accounts], after calls
    with the directory in any states before, has the valid accounts of the
    directory as it is now. *)
Theorem accounts_fresh before files :
  (forall fs, fs ∈ before -> stamp_of fs = stamp_of files ->
     declared_at fs (stamp_of fs) = declared_at files (stamp_of files)) ->
  (accounts files (foldl (fun cache fs => accounts fs cache) (None, []) before)).2
  = read_accounts (declared_at files (stamp_of files)).
Proof.
  intros Hsame. set (cache := foldl _ _ before).
  assert (Hc : cache.1 = None \/ exists fs, fs ∈ before /\ cache.1 = Some (stamp_of fs) /\
    cache.2 = read_accounts (declared_at fs (stamp_of fs))).
  { unfold cache. clear. induction before as [|fs before IH] using rev_ind; [by left|].
    rewrite foldl_app. cbn [foldl]. set (c := foldl _ _ before) in *. unfold accounts.
    case_bool_decide as E.
    - destruct IH as [H|(fs' & Hin & H)]; [by left|]. right. exists fs'. split; [set_solver|done].
    - right. exists fs. split; [set_solver|done]. }
  unfold accounts. case_bool_decide as E; [|done]. destruct Hc as [Hc|(fs & Hin & Hs & ->)]; [congruence|].
  rewrite Hs in E. injection E as E. by rewrite (Hsame fs Hin E).
Qed.

Definition demo_declared (name : string) (hash : string) : json :=
  JObj [("name", JStr name); ("uid", JInt 1001); ("gid", JInt 1001); ("tokenSha256", JStr hash)]%string.
Definition demo_files : list (option json) :=
  [Some (demo_declared "cms-prod" (sha256_hex "secret")); None; Some (demo_declared "work" (sha256_hex "x"));
   Some (demo_declared "twin" (sha256_hex "y")); Some (demo_declared "twin" (sha256_hex "z"))].
Example demo_accounts_kept : map fst (read_accounts demo_files) = ["cms-prod"%string] /\
  option_map a_name (token_account (read_accounts demo_files) "secret") = Some "cms-prod"%string.
Proof. vm_compute. auto. Qed.
Definition demo_dir (time : Z) (hash : string) : list File :=
  [mkFile "/etc/af-accounts/a.yaml" (Some (1, time, 90)) (Some (demo_declared "cms-prod" (sha256_hex hash)))].
Lemma accounts_fresh_witness :
  (accounts (demo_dir 8 "new") (accounts (demo_dir 7 "old") (None, []))).2
  = read_accounts [Some (demo_declared "cms-prod" (sha256_hex "new"))].
Proof.
  apply (accounts_fresh [demo_dir 7 "old"] (demo_dir 8 "new")).
  intros fs ->%list_elem_of_singleton. discriminate.
Defined.
