(* ===== verification/RayShape.v ===== *)
(** The settings of a call to the Ray gateway ([apps/ray-train/gateway.py]), and the
    shape of the cluster they ask for: [Flavor], [Shape], the [requested_*]
    functions, the places an environment or a job's data may be, and [caller] from
    the user on. *)
From S2P Require Import Prelude PyJson PyText RayNames.
Open Scope Z_scope.

(** A kind of GPU, and the gateway's configuration as far as it is used here. *)
Record Flavor := mkFlavor { resource : string; memory : Q; budget : Z; per_worker_most : Z }.
Record GwConfig := mkGwConfig {
  FLAVORS : list Flavor; WORKER_CPUS_MAX : Z; WORKER_MEMORY_GB_MIN : Z; WORKER_MEMORY_GB_MAX : Z;
  DEFAULT_ENV : string; ACCOUNT_KEPT_VOLUMES : list string }.

(** [Flavor.group]: what follows the resource's last slash, its other characters as hyphens. *)
Definition group (f : Flavor) : string := sub_runs is_alnum_lower false (after_last "/" (resource f)).

Record Shape := mkShape {
  env : string; workers : string; sh_memory : string; cpus : string; ram : string;
  per_worker : string; least : string; site : string }.
#[export] Instance Shape_eq_dec : EqDecision Shape.
Proof. solve_decision. Defined.

(** [int(s)] and [float(s)] of a field of a shape, which holds a number. *)
Definition int_field (s : string) : Z := default 0 (int_of_str s).
Definition float_field (s : string) : Q := default 0%Q (parse_float s).

(** ** The settings *)

Definition SETTING_PREFIX : string := "af-".
Definition ENV_METADATA : string := "af-env".
Definition WORKERS_METADATA : string := "af-n-workers".
Definition MOST_METADATA : string := "af-max-workers".
Definition PER_WORKER_METADATA : string := "af-gpus-per-worker".
Definition MEMORY_METADATA : string := "af-min-gpu-memory-gb".
Definition CPUS_METADATA : string := "af-cpus-per-worker".
Definition RAM_METADATA : string := "af-ram-per-worker-gb".
Definition SITE_METADATA : string := "af-site".
Definition INPUTS_METADATA : string := "af-inputs".
Definition OUTPUT_METADATA : string := "af-output".
Definition SITES : list string := ["purdue"; "nrp"]%string.
Definition SETTINGS : list string :=
  [ENV_METADATA; WORKERS_METADATA; MOST_METADATA; PER_WORKER_METADATA; MEMORY_METADATA; CPUS_METADATA;
   RAM_METADATA; SITE_METADATA; INPUTS_METADATA; OUTPUT_METADATA].
Definition NRP_SETTINGS : list string :=
  [WORKERS_METADATA; MOST_METADATA; MEMORY_METADATA; SITE_METADATA; INPUTS_METADATA; OUTPUT_METADATA].
Definition UNPREFIXED : list string := map (removeprefix SETTING_PREFIX) SETTINGS.

(** Whether [s] is [[1-9][0-9]{0,8}], and within bounds. *)
Definition plain_number (s : string) : bool :=
  first_is (fun c => is_digit c && negb (Ascii.eqb c "0")) s && str_forallb is_digit s
  && (String.length s <=? 9)%nat.
Definition whole (value : string) (least_ : Z) (most : option Z) : bool :=
  plain_number value && (least_ <=? int_field value)
  && match most with None => true | Some m => int_field value <=? m end.

Definition requested_size (name value dflt : string) (least_ most : Z) : res Refused string :=
  if String.eqb value "" then Ok dflt
  else if whole value least_ (Some most) then Ok value
  else refuse INVALID_ARGUMENT
         (name ++ " is a whole number from " ++ pretty least_ ++ " to " ++ pretty most ++ ".").

(** Text that [float] reads as infinite or as no number is refused as other text is. *)
Definition gpu_memory (value : string) : res Refused Q :=
  let wanted := if String.eqb value "" then Some 0%Q else parse_float value in
  match wanted with
  | Some q => if 0 <=?q q then Ok q else refuse INVALID_ARGUMENT (MEMORY_METADATA ++ " is a number of GB.")
  | None => refuse INVALID_ARGUMENT (MEMORY_METADATA ++ " is a number of GB.")
  end.

Definition qmin_list (x : Q) (l : list Q) : Q := foldl (fun m y => if y <?q m then y else m) x l.
Definition qmax_list (x : Q) (l : list Q) : Q := foldl (fun m y => if m <?q y then y else m) x l.
Definition zmax_list (l : list Z) : Z := foldr Z.max 0 l.

Section Config.
Context (cfg : GwConfig).

Definition flavors (s : Shape) : list Flavor :=
  List.filter (fun f => (float_field (sh_memory s) <=?q memory f)
                        && (int_field (per_worker s) <=? per_worker_most f)) (FLAVORS cfg).

Definition requested_memory (value : string) : res Refused string :=
  wanted ← gpu_memory value;
  match map memory (List.filter (fun f => wanted <=?q memory f) (FLAVORS cfg)) with
  | [] => refuse INVALID_ARGUMENT
      ("No GPU of a Ray cluster has " ++ fmt_g wanted ++ " GB: the largest has "
       ++ fmt_g (qmax_list 0 (map memory (FLAVORS cfg))) ++ " GB.")
  | m :: ms => Ok (fmt_g (qmin_list m ms))
  end.

(** [max(f.per_worker for ...)] of flavors that are given: their numbers are positive. *)
Definition most_per_worker (mem : string) : Z :=
  zmax_list (map per_worker_most (List.filter (fun f => float_field mem <=?q memory f) (FLAVORS cfg))).
Definition requested_per_worker (value mem : string) : res Refused string :=
  if String.eqb value "" then Ok "1"%string
  else
    let most := most_per_worker mem in
    if whole value 1 (Some most) then Ok value
    else refuse INVALID_ARGUMENT
           (PER_WORKER_METADATA ++ " is a number of GPUs from 1 to " ++ pretty most ++ ".").

Definition requested_workers (exactly at_most : string) (most : option Z) : res Refused (string * string) :=
  if negb (String.eqb exactly "") && negb (String.eqb at_most "") then
    refuse INVALID_ARGUMENT
      (WORKERS_METADATA ++ " asks for a number of workers and " ++ MOST_METADATA
       ++ " for up to as many: set one of them.")
  else
    let value := if String.eqb exactly "" then at_most else exactly in
    if String.eqb value "" then Ok ("1", "1")%string
    else if whole value 1 most then Ok (value, if String.eqb exactly "" then "1" else exactly)%string
    else
      let name := if String.eqb exactly "" then MOST_METADATA else WORKERS_METADATA in
      refuse INVALID_ARGUMENT
        (match most with
         | None => name ++ " is a whole number of workers, 1 or more, on NRP."
         | Some m => name ++ " is a number of workers from 1 to " ++ pretty m ++ "."
         end).

(** ** Storage *)

(** The names of a pod's volumes that are its own scratch, and where the first
    container of the head mounts the others. *)
Definition volume_name (v : json) : string := jstr (jget "name" v).
Definition head_pod (template : json) : json :=
  jget "spec" (jget "template" (jget "headGroupSpec" (jget "spec" template))).
Definition env_roots (template : json) : list string :=
  let pod := head_pod template in
  let scratch := map volume_name (List.filter (jhas "emptyDir") (jlist (jget "volumes" pod))) in
  let container := hd JNull (jlist (jget "containers" pod)) in
  map (fun m => jstr (jget "mountPath" m))
      (List.filter (fun m => negb (bool_decide (volume_name m ∈ scratch))) (jlist (jget "volumeMounts" container))).

Definition slash_end (c : ascii) : bool := Ascii.eqb c "/".
Definition under (root path : string) : bool := startswith (str_rstrip slash_end root ++ "/") path.
Definition mounted_env (value : string) (template : json) : res Refused string :=
  let path := normpath value in
  let roots := env_roots template in
  if negb (startswith "/" value) || negb (existsb (fun root => String.eqb path root || under root path) roots)
  then refuse INVALID_ARGUMENT
         (value ++ " is not on storage your Ray cluster mounts: " ++ str_join ", " roots ++ ".")
  else Ok path.
Definition requested_env (value : string) (template : json) : res Refused string :=
  if String.eqb value "" then Ok (DEFAULT_ENV cfg) else mounted_env value template.

Definition setting (name : string) (values : list (string * string)) : string := dget_or name ""%string values.

(** One of a job's directories, or none: [output] is made by the job, so its parent
    is not a root of storage that all users share. *)
Definition data_path (roots : list string) (output : bool) (name value : string)
    : res Refused (option string) :=
  if String.eqb value "" then Ok None else
  let path := normpath value in
  if negb (startswith "/" value) || negb (existsb (fun root => under root path) roots)
  then refuse INVALID_ARGUMENT
         (name ++ ": " ++ value ++ " is not on storage your jobs mount: " ++ str_join ", " roots ++ ".")
  else if output && bool_decide (dirname path ∈ map (str_rstrip slash_end) roots)
  then refuse INVALID_ARGUMENT
         (name ++ ": " ++ value ++ " would be made at the top of " ++ dirname path
          ++ ", which is shared: name a directory inside your own, such as one under /work/users.")
  else Ok (Some path).
(** The template of a user's cluster is [cluster_template]'s. *)
Definition data_paths (template : json) (headers : list (string * string))
    : res Refused (option string * option string) :=
  let roots := env_roots template in
  inputs ← data_path roots false INPUTS_METADATA (setting INPUTS_METADATA headers);
  output ← data_path roots true OUTPUT_METADATA (setting OUTPUT_METADATA headers);
  Ok (inputs, output).

(** [worker_size]: the CPUs and memory of the template's one worker, texts in it. *)
Definition worker_size (template : json) : string * string :=
  let grp := hd JNull (jlist (jget "workerGroupSpecs" (jget "spec" template))) in
  let container := hd JNull (jlist (jget "containers" (jget "spec" (jget "template" grp)))) in
  let limits := jget "limits" (jget "resources" container) in
  (jstr (jget "cpu" limits), removesuffix "Gi" (jstr (jget "memory" limits))).

(** ** [caller] *)

(** [sorted()] of texts is by their order; the names are distinct. *)
Definition unknown_settings (values : list (string * string)) : list string :=
  str_sorted (List.filter (fun name =>
    bool_decide (name ∈ UNPREFIXED)
    || (startswith SETTING_PREFIX name && negb (bool_decide (name ∈ SETTINGS)))) values.*1).

(** The checks of [caller] before it asks who calls: [enabled] is whether the Hub
    has given the gateway its token. *)
Definition caller_token (enabled : bool) (values : list (string * string)) : res Refused (string * string) :=
  if negb enabled then
    refuse UNAVAILABLE "Ray is not enabled: JupyterHub has not registered the ray-train-gateway service."
  else match bearer_token (setting "authorization" values) with
  | None => refuse UNAUTHENTICATED
      "No token: RAY_AUTH_MODE=token and RAY_AUTH_TOKEN=$JUPYTERHUB_API_TOKEN must be set."
  | Some token =>
      match unknown_settings values with
      | [] =>
          let asked := setting SITE_METADATA values in
          let site_ := if String.eqb asked "" then "purdue"%string else asked in
          if bool_decide (site_ ∈ SITES) then Ok (token, site_)
          else refuse INVALID_ARGUMENT (SITE_METADATA ++ " is one of " ++ str_join ", " SITES ++ ".")
      | unknown => refuse INVALID_ARGUMENT
          (str_join ", " unknown ++ " is no setting of a Ray cluster: the settings are "
           ++ str_join ", " (str_sorted SETTINGS) ++ ".")
      end
  end.

(** [worker]: the GPUs, CPUs and memory of the NRP template's worker. *)
Definition nrp_shape (worker : Z * Q * Q) (values : list (string * string)) : res Refused Shape :=
  match List.filter (fun name => bool_decide (name ∈ SETTINGS) && negb (bool_decide (name ∈ NRP_SETTINGS)))
          values.*1 with
  | [] =>
      '(n, l) ← requested_workers (setting WORKERS_METADATA values) (setting MOST_METADATA values) None;
      mem ← gpu_memory (setting MEMORY_METADATA values);
      Ok (mkShape "" n (fmt_g mem) "" "" "1" l "nrp")
  | others => refuse INVALID_ARGUMENT
      (str_join ", " (str_sorted others)
       ++ " sets a Ray cluster at Purdue: a job on NRP runs the AF's global environment on workers of "
       ++ pretty worker.1.1 ++ " GPU, " ++ fmt_g worker.1.2 ++ " CPUs and " ++ fmt_g worker.2
       ++ " GB, and takes only " ++ WORKERS_METADATA ++ ", " ++ MOST_METADATA ++ " or " ++ MEMORY_METADATA ++ ".")
  end%string.

(** The most workers of [n] GPUs each that the flavors of a shape have. *)
Definition most_workers (s : Shape) : Z :=
  zsum (map (fun f => budget f / int_field (per_worker s)) (flavors s)).
Definition purdue_shape (template : json) (values : list (string * string)) : res Refused Shape :=
  let '(cpus0, ram0) := worker_size template in
  mem ← requested_memory (setting MEMORY_METADATA values);
  env_ ← requested_env (setting ENV_METADATA values) template;
  cpus_ ← requested_size CPUS_METADATA (setting CPUS_METADATA values) cpus0 1 (WORKER_CPUS_MAX cfg);
  ram_ ← requested_size RAM_METADATA (setting RAM_METADATA values) ram0
           (WORKER_MEMORY_GB_MIN cfg) (WORKER_MEMORY_GB_MAX cfg);
  each ← requested_per_worker (setting PER_WORKER_METADATA values) mem;
  let shape := mkShape env_ "1" mem cpus_ ram_ each "1" "purdue" in
  '(n, l) ← requested_workers (setting WORKERS_METADATA values) (setting MOST_METADATA values)
              (Some (most_workers shape));
  Ok (mkShape env_ n mem cpus_ ram_ each l "purdue").
Definition caller_shape (worker : Z * Q * Q) (site_ : string) (template : json) (values : list (string * string))
    : res Refused Shape :=
  if String.eqb site_ "nrp" then nrp_shape worker values else purdue_shape template values.
End Config.

(** ** Numbers as text *)

Lemma plain_number_inv s : plain_number s = true ->
  str_forallb is_digit s = true /\ s <> ""%string /\ int_of_str s = Some (digits_value 0 s) /\
  10 ^ Z.of_nat (String.length s - 1) <= digits_value 0 s < 10 ^ Z.of_nat (String.length s).
Proof.
  unfold plain_number. intros [[Hf Hd]%andb_true_iff _]%andb_true_iff.
  destruct s as [|c s]; [done|]. split; [done|]. split; [done|]. split; [by apply int_of_digits|].
  split; [|by apply digits_value_bounds].
  cbn [str_forallb] in Hd. apply andb_true_iff in Hd as [Hc Hs].
  cbn [first_is] in Hf. apply andb_true_iff in Hf as [_ Hz]. apply negb_true_iff, Ascii.eqb_neq in Hz.
  pose proof (is_digit_code c Hc) as Hr. pose proof (digits_value_bounds s Hs) as [Hb _].
  cbn [digits_value String.length]. rewrite digits_value_acc, Nat.sub_succ, Nat.sub_0_r.
  assert (chr_code c <> 48).
  { intros E. apply Hz. rewrite <- (ascii_nat_embedding c). unfold chr_code in E.
    replace (nat_of_ascii c) with 48%nat by lia. done. }
  assert (0 < 10 ^ Z.of_nat (String.length s)) by (apply Z.pow_pos_nonneg; lia). nia.
Qed.

(** Two plain numbers of the same value are the same text: a shape compares them as text. *)
Lemma plain_number_inj s t : plain_number s = true -> plain_number t = true ->
  int_field s = int_field t -> s = t.
Proof.
  intros Hs Ht. destruct (plain_number_inv s Hs) as (Hds & Hns & Es & Bs).
  destruct (plain_number_inv t Ht) as (Hdt & Hnt & Et & Bt).
  unfold int_field. rewrite Es, Et. change (digits_value 0 s = digits_value 0 t -> s = t). intros E.
  apply digits_value_inj; try done. rewrite E in Bs.
  destruct (Nat.lt_trichotomy (String.length s) (String.length t)) as [H|[H|H]]; [|done|]; exfalso.
  - assert (10 ^ Z.of_nat (String.length s) <= 10 ^ Z.of_nat (String.length t - 1))
      by (apply Z.pow_le_mono_r; lia). lia.
  - assert (10 ^ Z.of_nat (String.length t) <= 10 ^ Z.of_nat (String.length s - 1))
      by (apply Z.pow_le_mono_r; lia). lia.
Qed.
Lemma whole_bounds v l m : whole v l m = true ->
  plain_number v = true /\ l <= int_field v /\ match m with Some m => int_field v <= m | None => True end.
Proof. unfold whole. intros [[? ?]%andb_true_iff ?]%andb_true_iff. breflect. destruct m; breflect; auto. Qed.

(** ** Where environments and data may be *)

(** [path] is [root] or below it, and no component of it leads elsewhere. *)
Definition inside (strictly : bool) (root path : string) : Prop :=
  (startswith (str_rstrip slash_end root ++ "/") path = true \/ strictly = false /\ path = root) /\
  exists slashes comps, path = (slashes ++ str_join "/" comps)%string /\
    (slashes = "/" \/ slashes = "//")%string /\ Forall plain_comp comps.

(** Environments and data stay on storage the user's pods mount.  A path that
    [mounted_env] or [data_paths] accepts is absolute and normal, so that no ".."
    leads out of it, and is a mounted root or below one; data is strictly below
    one, and a job's output is not made at the top of one. *)
Theorem paths_stay_mounted value template path :
  (mounted_env value template = Ok path ->
     exists root, root ∈ env_roots template /\ inside false root path) /\
  forall output name, data_path (env_roots template) output name value = Ok (Some path) ->
    (exists root, root ∈ env_roots template /\ inside true root path) /\
    (output = true -> forall root, root ∈ env_roots template ->
       dirname path <> str_rstrip slash_end root).
Proof.
  assert (Hn : forall strictly root, startswith "/" value = true -> path = normpath value ->
    under root path || (negb strictly && String.eqb path root) = true -> inside strictly root path).
  { intros strictly root Hs Hp Hu. split.
    - apply orb_true_iff in Hu as [Hu|[Hf Hu]%andb_true_iff]; [by left|right].
      split; [by destruct strictly | by apply String.eqb_eq].
    - destruct (normpath_rooted value Hs) as (comps & E & Hc & Hr). exists (root_slashes value), comps.
      by rewrite Hp, E. }
  split.
  - unfold mounted_env. destruct (negb _ || negb _) eqn:E; [done|]. intros [= <-].
    apply orb_false_iff in E as [Hs He]. apply negb_false_iff in Hs, He.
    apply existsb_exists in He as (root & Hin & Hu). exists root. split; [by apply list_elem_of_In|].
    apply Hn; [done|done|]. cbn. by rewrite orb_comm.
  - intros output name. unfold data_path. destruct (String.eqb value ""); [done|].
    destruct (negb _ || negb _) eqn:E; [done|]. destruct (output && _) eqn:Eo; [done|]. intros [= <-].
    apply orb_false_iff in E as [Hs He]. apply negb_false_iff in Hs, He.
    apply existsb_exists in He as (root & Hin & Hu). split.
    + exists root. split; [by apply list_elem_of_In|]. apply Hn; [done|done|]. by rewrite Hu.
    + intros -> root' Hin' Hd. cbn in Eo. apply bool_decide_eq_false in Eo. apply Eo.
      rewrite Hd. apply list_elem_of_fmap. by exists root'.
Qed.

(** ** What [caller] accepts *)

(** A configuration of flavors with GPUs, whose memory's text reads back as itself. *)
Definition flavor_ok (f : Flavor) : bool :=
  (0 <? budget f) && (0 <? per_worker_most f) && (0 <?q memory f)
  && Qeq_bool (float_field (fmt_g (memory f))) (memory f).
Definition cfg_ok (cfg : GwConfig) : Prop := forallb flavor_ok (FLAVORS cfg) = true.

Lemma cfg_flavor cfg f : cfg_ok cfg -> In f (FLAVORS cfg) ->
  0 < budget f /\ 0 < per_worker_most f /\ (float_field (fmt_g (memory f)) == memory f)%Q.
Proof.
  intros H Hf. unfold cfg_ok in H. rewrite forallb_forall in H. specialize (H f Hf).
  unfold flavor_ok in H. breflect. split; [done|]. split; [done|]. by apply Qeq_bool_eq.
Qed.
Lemma qmin_list_spec x l : In (qmin_list x l) (x :: l) /\ forall y, In y (x :: l) -> (qmin_list x l <= y)%Q.
Proof.
  unfold qmin_list. revert x. induction l as [|z l IH]; intros x; cbn [foldl].
  { split; [by left|]. intros y [->|[]]. apply Qle_refl. }
  destruct (IH (if z <?q x then z else x)) as [Hi Hm]. destruct (z <?q x) eqn:E; breflect.
  - split; [destruct Hi as [<-|Hi]; cbn; auto|]. intros y [->|[->|Hy]]; [|by apply Hm; left|by apply Hm; right].
    eapply Qle_trans; [apply (Hm z); by left|]. by apply Qlt_le_weak.
  - split; [destruct Hi as [<-|Hi]; cbn; auto|]. intros y [->|[->|Hy]]; [by apply Hm; left| |by apply Hm; right].
    eapply Qle_trans; [apply (Hm x); by left|done].
Qed.
Lemma zmax_list_elem x l : In x l -> (forall x, In x l -> 0 < x) -> In (zmax_list l) l.
Proof.
  intros Hx Hp. assert (Hne : l <> []) by (by destruct l). clear x Hx.
  unfold zmax_list. induction l as [|y l IH]; [done|]. cbn [foldr].
  destruct l as [|z l]; [cbn; left; specialize (Hp y (or_introl eq_refl)); lia|].
  destruct (Z.max_spec y (foldr Z.max 0 (z :: l))) as [[_ ->]|[_ ->]]; [right|by left].
  apply IH; [|done]. intros w Hw. apply Hp. by right.
Qed.

(** What a shape that is asked for is. *)
Definition shape_ok (cfg : GwConfig) (template : json) (wanted : Q) (s : Shape) : Prop :=
  site s = "purdue"%string /\
  1 <= int_field (workers s) <= most_workers cfg s /\
  (least s = "1"%string \/ least s = workers s) /\
  1 <= int_field (per_worker s) /\ flavors cfg s <> [] /\
  (wanted <= float_field (sh_memory s))%Q /\
  (cpus s = (worker_size template).1 \/ plain_number (cpus s) = true /\ int_field (cpus s) <= WORKER_CPUS_MAX cfg) /\
  (ram s = (worker_size template).2 \/ plain_number (ram s) = true /\
     WORKER_MEMORY_GB_MIN cfg <= int_field (ram s) <= WORKER_MEMORY_GB_MAX cfg) /\
  (env s = DEFAULT_ENV cfg \/ exists root, root ∈ env_roots template /\ inside false root (env s)).

Lemma plain_one : plain_number "1" = true /\ int_field "1" = 1.
Proof. by vm_compute. Qed.

Lemma requested_memory_ok cfg value mem :
  cfg_ok cfg -> requested_memory cfg value = Ok mem ->
  exists f wanted, In f (FLAVORS cfg) /\ gpu_memory value = Ok wanted /\ mem = fmt_g (memory f) /\
    (wanted <= memory f)%Q.
Proof.
  intros Hc. unfold requested_memory, mbind, res_bind. destruct (gpu_memory value) as [wanted|]; [|done].
  set (l := List.filter _ _). destruct (map memory l) as [|m ms] eqn:E; [done|]. intros [= <-].
  destruct (qmin_list_spec m ms) as [Hi _]. rewrite <- E in Hi.
  apply in_map_iff in Hi as (f & Hf & Hin). apply filter_In in Hin as [Hin Hw]. exists f, wanted.
  rewrite Hf. split; [done|]. split; [done|]. split; [done|]. rewrite <- Hf. by apply qle_true.
Qed.

Lemma requested_size_ok name v d l m r : requested_size name v d l m = Ok r ->
  r = d \/ plain_number r = true /\ l <= int_field r <= m.
Proof.
  unfold requested_size. destruct (String.eqb v ""); [intros [= <-]; by left|].
  destruct (whole v l (Some m)) eqn:E; [|done]. intros [= <-]. right.
  apply whole_bounds in E as (? & ? & ?). done.
Qed.
Lemma requested_workers_ok e a m n l : requested_workers e a m = Ok (n, l) ->
  1 <= int_field n /\ plain_number n = true /\ (l = "1"%string \/ l = n) /\
  (n = "1"%string \/ match m with Some m => int_field n <= m | None => True end).
Proof.
  unfold requested_workers. destruct (negb _ && negb _) eqn:E0; [done|].
  set (value := if String.eqb e "" then a else e).
  destruct (String.eqb value "") eqn:E1.
  { intros [= <- <-]. destruct plain_one as [? ->]. split; [lia|]. auto. }
  destruct (whole value 1 m) eqn:E; [|done]. intros [= <- <-].
  apply whole_bounds in E as (Hp & Hl & Hm). split; [done|]. split; [done|]. split; [|by right].
  unfold value. destruct (String.eqb e ""); auto.
Qed.

Lemma requested_per_worker_ok cfg f value mem each :
  cfg_ok cfg -> In f (FLAVORS cfg) -> (float_field mem <=?q memory f) = true ->
  requested_per_worker cfg value mem = Ok each ->
  1 <= int_field each /\ exists g, In g (FLAVORS cfg) /\
    (float_field mem <=?q memory g) && (int_field each <=? per_worker_most g) = true.
Proof.
  intros Hc Hf Hm. unfold requested_per_worker. destruct (cfg_flavor _ _ Hc Hf) as (_ & Hp & _).
  destruct (String.eqb value "").
  - intros [= <-]. destruct plain_one as [_ H1]. rewrite H1. split; [lia|]. exists f. split; [done|].
    apply andb_true_iff. split; [done | apply Z.leb_le; lia].
  - destruct (whole _ 1 _) eqn:E; [|done]. intros [= <-].
    apply whole_bounds in E as (_ & Hl & Hmost). split; [done|]. unfold most_per_worker in Hmost.
    set (cand := map per_worker_most _) in *. assert (Hin : In (zmax_list cand) cand).
    { apply (zmax_list_elem (per_worker_most f)); [by apply in_map, filter_In|].
      intros x Hx. apply in_map_iff in Hx as (g & <- & Hg). apply filter_In in Hg as [Hg _].
      by destruct (cfg_flavor _ _ Hc Hg) as (_ & ? & _). }
    apply in_map_iff in Hin as (g & Hg & Hgin). apply filter_In in Hgin as [Hgin Hgm].
    exists g. split; [done|]. apply andb_true_iff. split; [done|]. apply Z.leb_le. lia.
Qed.

(** A budget that holds one worker of a flavor makes for a worker at least. *)
Definition budgets_ok (cfg : GwConfig) : Prop :=
  Forall (fun f => per_worker_most f <= budget f) (FLAVORS cfg).
Lemma most_workers_pos cfg s g :
  cfg_ok cfg -> budgets_ok cfg -> 1 <= int_field (per_worker s) -> In g (flavors cfg s) ->
  1 <= most_workers cfg s.
Proof.
  intros Hc Hb H1 Hg. unfold most_workers.
  assert (Hpos : forall h, In h (flavors cfg s) -> 0 <= budget h / int_field (per_worker s)).
  { intros h Hh. apply filter_In in Hh as [Hh _]. destruct (cfg_flavor _ _ Hc Hh) as (? & _).
    apply Z.div_pos; lia. }
  assert (Hone : 1 <= budget g / int_field (per_worker s)).
  { apply filter_In in Hg as [Hgin Hgp]. apply andb_true_iff in Hgp as [_ Hgp]. apply Z.leb_le in Hgp.
    pose proof (proj1 (Forall_forall _ _) Hb g) as Hbg. cbn in Hbg.
    specialize (Hbg (proj2 (list_elem_of_In _ _) Hgin)). apply Z.div_le_lower_bound; lia. }
  induction (flavors cfg s) as [|h l IH]; [done|]. cbn [map].
  change (zsum (?x :: ?y)) with (x + zsum y).
  assert (0 <= zsum (map (fun f => budget f / int_field (per_worker s)) l)).
  { apply zsum_nonneg, Forall_forall. intros x Hx. apply list_elem_of_In, in_map_iff in Hx as (k & <- & Hk).
    apply Hpos. by right. }
  destruct Hg as [->|Hg]; [lia|]. specialize (Hpos h (or_introl eq_refl)) as Hh.
  assert (1 <= zsum (map (fun f => budget f / int_field (per_worker s)) l)); [|lia].
  apply IH; [done|]. intros k Hk. apply Hpos. by right.
Qed.

(** What a call may ask for at Purdue.  A shape that [caller] makes asks for a
    GPU that the gateway has, of at least the memory that was asked; for from one
    worker to as many as the budgets of its GPUs allow, to start with one or all;
    for CPUs and memory within the limits or the template's; and for an environment
    on storage the cluster mounts or the global one. *)
Theorem purdue_shape_ok cfg template values s :
  cfg_ok cfg -> budgets_ok cfg ->
  purdue_shape cfg template values = Ok s ->
  exists wanted, gpu_memory (setting MEMORY_METADATA values) = Ok wanted /\ shape_ok cfg template wanted s.
Proof.
  intros Hc Hbud. unfold purdue_shape. destruct (worker_size template) as [cpus0 ram0] eqn:Ew.
  unfold mbind, res_bind.
  destruct (requested_memory _ _) as [mem|] eqn:Em; [|done].
  destruct (requested_env _ _ _) as [env_|] eqn:Ee; [|done].
  destruct (requested_size CPUS_METADATA _ _ _ _) as [cpus_|] eqn:Ecpu; [|done].
  destruct (requested_size RAM_METADATA _ _ _ _) as [ram_|] eqn:Eram; [|done].
  destruct (requested_per_worker _ _ _) as [each|] eqn:Eeach; [|done].
  set (sh := mkShape env_ "1" mem cpus_ ram_ each "1" "purdue").
  destruct (requested_workers _ _ _) as [[n l]|] eqn:En; [|done]. intros [= <-].
  destruct (requested_memory_ok _ _ _ Hc Em) as (f & wanted & Hf & Hw & -> & Hle).
  exists wanted. split; [done|]. destruct (cfg_flavor _ _ Hc Hf) as (_ & _ & Hm).
  assert (Hmf : (float_field (fmt_g (memory f)) <=?q memory f) = true).
  { apply qle_true. rewrite Hm. apply Qle_refl. }
  destruct (requested_per_worker_ok _ _ _ _ _ Hc Hf Hmf Eeach) as (Heach & g & Hg & Hgok).
  assert (Hin : In g (flavors cfg sh)) by (by apply filter_In).
  pose proof (most_workers_pos cfg sh g Hc Hbud Heach Hin) as Hmost.
  destruct (requested_workers_ok _ _ _ _ _ En) as (Hn1 & _ & Hl & Hn2).
  repeat split; cbn [site workers least per_worker sh_memory cpus ram env]; try done.
  - change (int_field n <= most_workers cfg sh).
    destruct Hn2 as [->|Hn2]; [destruct plain_one as [_ ->]; done|done].
  - change (flavors cfg sh <> []). intros E. by rewrite E in Hin.
  - by rewrite Hm.
  - rewrite Ew. destruct (requested_size_ok _ _ _ _ _ _ Ecpu) as [->|[? [? ?]]]; auto.
  - rewrite Ew. destruct (requested_size_ok _ _ _ _ _ _ Eram) as [->|[? [? ?]]]; auto.
  - unfold requested_env in Ee. destruct (String.eqb _ ""); [injection Ee as <-; by left|right].
    destruct (paths_stay_mounted (setting ENV_METADATA values) template env_) as [H _]. by apply H.
Qed.

(** The gateway's [config.yaml], and its template as far as it is read here. *)
Definition af_config : GwConfig := {|
  FLAVORS := [mkFlavor "nvidia.com/mig-1g.5gb" 5 14 1; mkFlavor "nvidia.com/gpu" 16 8 2];
  WORKER_CPUS_MAX := 16; WORKER_MEMORY_GB_MIN := 4; WORKER_MEMORY_GB_MAX := 64;
  DEFAULT_ENV := "/work/pixi/global/.pixi/envs/default"; ACCOUNT_KEPT_VOLUMES := ["log-volume"; "cvmfs"] |}%string.
Definition demo_volumes : json :=
  JArr [JObj [("name", JStr "log-volume"); ("emptyDir", JObj [])]; JObj [("name", JStr "work")]]%string.
Definition demo_mounts : json :=
  JArr [JObj [("name", JStr "log-volume"); ("mountPath", JStr "/tmp/ray")];
        JObj [("name", JStr "work"); ("mountPath", JStr "/work")]]%string.
Definition demo_amounts : json :=
  JObj [("cpu", JStr "8"); ("memory", JStr "32Gi"); ("nvidia.com/gpu", JInt 1)]%string.
Definition demo_container : json :=
  JObj [("env", JArr [JObj [("name", JStr "PATH"); ("value", JStr "/usr/bin")]]);
        ("resources", JObj [("limits", demo_amounts); ("requests", demo_amounts)]);
        ("volumeMounts", demo_mounts)]%string.
Definition demo_pod : json :=
  JObj [("metadata", JObj [("labels", JObj [("app", JStr "ray-train-cluster")])]);
        ("spec", JObj [("containers", JArr [demo_container]); ("volumes", demo_volumes)])]%string.
Definition demo_template : json :=
  JObj [("metadata", JObj [("name", JStr "ray-train-template")]);
        ("spec", JObj [("authOptions", JObj [("secretName", JStr "ray-train-template")]);
                       ("headGroupSpec", JObj [("template", demo_pod)]);
                       ("workerGroupSpecs", JArr [JObj [("groupName", JStr "gpu"); ("template", demo_pod)]])])]%string.
Definition demo_settings : list (string * string) :=
  [("af-max-workers", "3"); ("af-gpus-per-worker", "2"); ("af-env", "/work/users/me/../me/env")]%string.
Definition demo_shape : Shape :=
  mkShape "/work/users/me/env" "3" "16" "8" "32" "2" "1" "purdue".

Example demo_caller : purdue_shape af_config demo_template
  (("af-min-gpu-memory-gb", "10") :: demo_settings)%string = Ok demo_shape.
Proof. vm_compute. reflexivity. Qed.
Lemma paths_stay_mounted_witness :
  mounted_env "/work/users/me/../me/env" demo_template = Ok "/work/users/me/env"%string /\
  exists root, root ∈ env_roots demo_template /\ inside false root "/work/users/me/env".
Proof.
  assert (H : mounted_env "/work/users/me/../me/env" demo_template = Ok "/work/users/me/env"%string)
    by (vm_compute; reflexivity).
  split; [exact H|].
  exact (proj1 (paths_stay_mounted "/work/users/me/../me/env" demo_template "/work/users/me/env") H).
Defined.
Lemma purdue_shape_ok_witness :
  exists wanted, gpu_memory "10" = Ok wanted /\ shape_ok af_config demo_template wanted demo_shape.
Proof.
  apply (purdue_shape_ok af_config demo_template (("af-min-gpu-memory-gb", "10") :: demo_settings)%string demo_shape).
  - vm_compute. reflexivity.
  - repeat constructor; vm_compute; congruence.
  - vm_compute. reflexivity.
Defined.
