(* ===== verification/RayBuild.v ===== *)
(** The objects the Ray gateway ([apps/ray-train/gateway.py]) gives Kubernetes, and
    what it reads back of them: [cluster_template], [build_cluster], [worker_group],
    [build_job], [stage_job] and [token_secret]; [held_gpus], [cluster_shape],
    [cluster_owner], [owns] and [job_details].  A template has the keys that the code
    subscripts; where one were missing, Python raises and [jget] is [JNull]. *)
From S2P Require Import Prelude PyJson PyText Sha256 GpuQueries RayNames RayShape.
Open Scope Z_scope.

Definition MANAGED_BY : string := "ray-train-gateway".
Definition MANAGED_LABEL : string := "app.kubernetes.io/managed-by".
Definition PART_OF : string := "app.kubernetes.io/part-of".
Definition OWNER_LABEL : string := "purdue-af/ray-owner".
Definition MOST_VARIABLE : string := "AF_MAX_WORKERS".
Definition ENV_ANNOTATION : string := "purdue-af/ray-env".
Definition WORKERS_ANNOTATION : string := "purdue-af/ray-workers".
Definition LEAST_ANNOTATION : string := "purdue-af/ray-min-workers".
Definition PER_WORKER_ANNOTATION : string := "purdue-af/ray-gpus-per-worker".
Definition MEMORY_ANNOTATION : string := "purdue-af/ray-gpu-memory".
Definition CPUS_ANNOTATION : string := "purdue-af/ray-worker-cpus".
Definition RAM_ANNOTATION : string := "purdue-af/ray-worker-memory".
Definition STOPPED_ANNOTATION : string := "purdue-af/ray-stopped".
Definition ENTRYPOINT_ANNOTATION : string := "purdue-af/ray-entrypoint".
Definition STAGE_ANNOTATION : string := "purdue-af/ray-stage".
Definition OUTPUT_ANNOTATION : string := "purdue-af/ray-output".
Definition OUTPUT_FAILED : string := "Copying its outputs back failed: they stay on NRP until the job is deleted, and the AF's admins can fetch them.".
Definition JOB_STARTING : string := "Its Ray cluster is starting.".

(** [{key: getattr(shape, field) for field, key in SHAPE_ANNOTATIONS.items()}] *)
Definition shape_annotations (s : Shape) : list (string * json) :=
  [(ENV_ANNOTATION, JStr (env s)); (WORKERS_ANNOTATION, JStr (workers s));
   (MEMORY_ANNOTATION, JStr (sh_memory s)); (CPUS_ANNOTATION, JStr (cpus s));
   (RAM_ANNOTATION, JStr (ram s)); (PER_WORKER_ANNOTATION, JStr (per_worker s));
   (LEAST_ANNOTATION, JStr (least s))].

(** ** [cluster_template] *)

Definition kept_volumes (cfg : GwConfig) (volumes : json) : list json :=
  List.filter (fun v => bool_decide (volume_name v ∈ ACCOUNT_KEPT_VOLUMES cfg)) (jlist volumes).
(** A pod of a workload account's cluster, with the account's own volume. *)
Definition account_pod (cfg : GwConfig) (name : string) (pod : json) : json :=
  let volume := JObj [("name", JStr name); ("persistentVolumeClaim", JObj [("claimName", JStr name)])]%string in
  let mount := JObj [("name", JStr name); ("mountPath", JStr ("/" ++ name))]%string in
  let pod := jupd "metadata" (jupd "labels" (jset PART_OF (JStr name))) pod in
  jupd "spec" (fun spec =>
    let spec := jupd "volumes" (fun v => JArr (kept_volumes cfg v ++ [volume])) spec in
    jupd "containers" (jmap (jupd "volumeMounts" (fun m => JArr (kept_volumes cfg m ++ [mount])))) spec) pod.
Definition cluster_template (cfg : GwConfig) (template : json) (u : User) : json :=
  if negb (workload u) then template else
  jupd "spec" (fun spec =>
    let spec := jupd "headGroupSpec" (jupd "template" (account_pod cfg (u_name u))) spec in
    jupd "workerGroupSpecs" (jmap (jupd "template" (account_pod cfg (u_name u)))) spec) template.

(** ** [build_cluster] *)

(** [container["resources"]]'s amounts, each with the shape's CPUs and memory. *)
Definition sized (s : Shape) (container : json) : json :=
  jupd "resources" (jvalues (jupdate [("cpu", JStr (cpus s)); ("memory", JStr (ram s ++ "Gi"))]))%string container.

Definition path_variable (s : Shape) (variable : json) : json :=
  if jeq_str (jget "name" variable) "PATH"
  then jset "value" (JStr (env s ++ "/bin:" ++ jstr (jget "value" variable))) variable else variable.
Definition variable (name value : string) : json := JObj [("name", JStr name); ("value", JStr value)]%string.
Definition container_env (u : User) (s : Shape) (container : json) : json :=
  let container := jsetdefault "env" (JArr []) container in
  jupd "env" (fun variables => JArr (map (path_variable s) (jlist variables)
    ++ [variable "CONDA_PREFIX" (env s); variable "USER" (u_account u); variable MOST_VARIABLE (workers s)]))
    container.
Definition user_pod (u : User) (s : Shape) (template : json) : json :=
  jupd "spec" (fun pod =>
    let pod := jsetdefault "securityContext" (JObj []) pod in
    let pod := jupd "securityContext"
                 (jupdate [("runAsUser", JInt (u_uid u)); ("runAsGroup", JInt (u_gid u))])%string pod in
    jupd "containers" (jmap (container_env u s)) pod) template.

(** [other] resources are dropped and [flavor]'s is set. *)
Definition gpu_amounts (cfg : GwConfig) (f : Flavor) (per_worker : Z) (amounts : json) : json :=
  jset (resource f) (JInt per_worker) (foldl (fun a other => jdel (resource other) a) amounts (FLAVORS cfg)).
Definition worker_group (cfg : GwConfig) (template : json) (f : Flavor) (per_worker replicas : Z)
    (preemptible : bool) : json :=
  let grp := jset "groupName" (JStr (group f ++ (if preemptible then "-preemptible" else "")))%string template in
  let grp := jupdate [("replicas", JInt replicas); ("minReplicas", JInt replicas);
                      ("maxReplicas", JInt replicas)]%string grp in
  jupd "template" (jupd "spec" (fun pod =>
    let pod := if preemptible then jset "priorityClassName" (JStr PREEMPTIBLE_PRIORITY_CLASS) pod else pod in
    jupd "containers" (jmap (jupd "resources" (jvalues (gpu_amounts cfg f per_worker)))) pod)) grp.

Definition Mix := list (string * Z).
(** The groups of a flavor's [workers], of which the first [kept] of all are not preemptible. *)
Definition flavor_groups (cfg : GwConfig) (grp : json) (f : Flavor) (per_worker workers kept : Z) : list json :=
  (if 0 <? Z.min kept workers then [worker_group cfg grp f per_worker (Z.min kept workers) false] else [])
  ++ (if 0 <? workers - kept then [worker_group cfg grp f per_worker (workers - kept) true] else []).
Fixpoint worker_groups (cfg : GwConfig) (grp : json) (per_worker : Z) (mix : Mix) (kept : Z)
    (l : list Flavor) : list json :=
  match l with
  | [] => []
  | f :: l' =>
      let workers := dget_or (resource f) 0 mix in
      flavor_groups cfg grp f per_worker workers kept
      ++ worker_groups cfg grp per_worker mix (Z.max (kept - workers) 0) l'
  end.

Definition build_cluster (cfg : GwConfig) (template : json) (u : User) (s : Shape) (mix : Mix) : json :=
  let cluster := jupd "metadata" (fun metadata =>
    let metadata := jset "name" (JStr (user_cluster u)) metadata in
    let metadata := jupd "labels" (jset MANAGED_LABEL (JStr MANAGED_BY)) (jsetdefault "labels" (JObj []) metadata) in
    jupd "annotations" (jupdate (shape_annotations s)) (jsetdefault "annotations" (JObj []) metadata)) template in
  jupd "spec" (fun spec =>
    let spec := jupd "authOptions" (jset "secretName" (JStr (user_cluster u))) spec in
    let grp := hd JNull (jlist (jget "workerGroupSpecs" spec)) in
    let grp := jupd "template" (jupd "spec" (jupd "containers" (jmap (sized s)))) grp in
    let grp := jupd "template" (user_pod u s) grp in
    let spec := jupd "headGroupSpec" (jupd "template" (user_pod u s)) spec in
    jset "workerGroupSpecs" (JArr (worker_groups cfg grp (int_field (per_worker s)) mix 1 (FLAVORS cfg))) spec)
    cluster.

(** ** [build_job], [token_secret], [stage_job] *)

Definition build_job (cfg : GwConfig) (idle_timeout : Z) (template : json) (u : User) (s : Shape) (mix : Mix)
    (name : string) : json :=
  let cluster := build_cluster cfg template u s mix in
  let cluster := jupd "spec" (jupd "authOptions" (jset "secretName" (JStr name))) cluster in
  let metadata := jget "metadata" cluster in
  JObj [("apiVersion", JStr "ray.io/v1"); ("kind", JStr "RayJob");
        ("metadata", JObj [("name", JStr name);
           ("labels", jset OWNER_LABEL (JStr (user_cluster u)) (jget "labels" metadata));
           ("annotations", jget "annotations" metadata)]);
        ("spec", JObj [("submissionMode", JStr "InteractiveMode"); ("shutdownAfterJobFinishes", JBool true);
                       ("ttlSecondsAfterFinished", JInt idle_timeout);
                       ("rayClusterSpec", jget "spec" cluster)])]%string.

Definition token_secret (name kind owner_uid token : string) : json :=
  JObj [("apiVersion", JStr "v1"); ("kind", JStr "Secret");
        ("metadata", JObj [("name", JStr name); ("labels", JObj [(MANAGED_LABEL, JStr MANAGED_BY)]);
           ("ownerReferences", JArr [JObj [("apiVersion", JStr "ray.io/v1"); ("kind", JStr kind);
                                           ("name", JStr name); ("uid", JStr owner_uid)]])]);
        ("stringData", JObj [("auth_token", JStr token)])]%string.

Definition stage_container (head : json) (direction source target : string) : json :=
  JObj [("name", JStr "stage"); ("image", jget "image" head);
        ("command", JArr (map JStr ["python"; "/stage/stage.py"; direction; source; target]));
        ("envFrom", JArr [JObj [("secretRef", JObj [("name", JStr "nrp-s3")])]]);
        ("resources", JObj [("requests", JObj [("cpu", JStr "1"); ("memory", JStr "2Gi")]);
                            ("limits", JObj [("cpu", JStr "2"); ("memory", JStr "4Gi")])]);
        ("volumeMounts", JArr (jlist (jget "volumeMounts" head)
           ++ [JObj [("name", JStr "stage"); ("mountPath", JStr "/stage"); ("readOnly", JBool true)]]))]%string.
Definition stage_volume : json :=
  JObj [("name", JStr "stage");
        ("configMap", JObj [("name", JStr "ray-train-gateway");
           ("items", JArr [JObj [("key", JStr "stage.py"); ("path", JStr "stage.py")]])])]%string.
Definition stage_job (template : json) (u : User) (name direction source target : string) : json :=
  let pod := jget "template" (jget "headGroupSpec" (jget "spec" template)) in
  let pod := jupd "spec" (fun spec =>
    let spec := jset "restartPolicy" (JStr "Never") spec in
    let spec := jsetdefault "securityContext" (JObj []) spec in
    let spec := jupd "securityContext"
                  (jupdate [("runAsUser", JInt (u_uid u)); ("runAsGroup", JInt (u_gid u))])%string spec in
    let head := hd JNull (jlist (jget "containers" spec)) in
    let spec := jset "containers" (JArr [stage_container head direction source target]) spec in
    jset "volumes" (JArr (jlist (jget "volumes" spec) ++ [stage_volume])) spec) pod in
  let pod := jset "metadata" (JObj [("labels", JObj [("app", JStr "ray-train-stage")])])%string pod in
  JObj [("apiVersion", JStr "batch/v1"); ("kind", JStr "Job");
        ("metadata", JObj [("name", JStr (name ++ "-" ++ direction));
           ("labels", JObj [(MANAGED_LABEL, JStr MANAGED_BY); (OWNER_LABEL, JStr (user_cluster u))])]);
        ("spec", JObj [("suspend", JBool (String.eqb direction "out")); ("backoffLimit", JInt 1);
                       ("template", pod)])]%string.

(** ** What is read back *)

Definition or_obj (j : json) : json := j_or j (JObj []).
Definition annotations_of (object : json) : json := or_obj (jget "annotations" (jget "metadata" object)).
Definition labels_of (object : json) : json := or_obj (jget "labels" (jget "metadata" object)).

(** [str(annotations.get(key, ""))] of annotations, whose values are texts. *)
Definition cluster_shape (cluster : json) : Shape :=
  let at_ key := jstr (jget key (annotations_of cluster)) in
  mkShape (at_ ENV_ANNOTATION) (at_ WORKERS_ANNOTATION) (at_ MEMORY_ANNOTATION) (at_ CPUS_ANNOTATION)
    (at_ RAM_ANNOTATION) (at_ PER_WORKER_ANNOTATION) (at_ LEAST_ANNOTATION) "purdue".
Definition cluster_owner (cluster : json) : string :=
  let head := jget "template" (jget "headGroupSpec" (jget "spec" cluster)) in
  jstr (jget PART_OF (or_obj (jget "labels" (or_obj (jget "metadata" head))))).
Definition live (cluster : option json) : bool :=
  match cluster with
  | Some c => negb (truthy (jget "deletionTimestamp" (jget "metadata" c)))
  | None => false
  end.
Definition runs (cluster : json) (s : Shape) : bool :=
  live (Some cluster) && bool_decide (cluster_shape cluster = s).
Definition refuse_others (cluster : json) (u : User) : res Refused unit :=
  if String.eqb (cluster_owner cluster) (user_owner u) then Ok tt
  else refuse PERMISSION_DENIED (user_cluster u ++ " is someone else's Ray cluster.").

Definition conditions_of (cluster : json) : list json :=
  jlist (j_or (jget "conditions" (or_obj (jget "status" cluster))) (JArr [])).
Definition has_condition (type_ status_ : string) (cluster : json) : bool :=
  existsb (fun c => jeq_str (jget "type" c) type_ && jeq_str (jget "status" c) status_) (conditions_of cluster).
Definition head_ready (cluster : json) : bool := has_condition "HeadPodReady" "True" cluster.

(** [int(j)] of a count, a number or its text. *)
Definition int_json (j : json) : Z :=
  match j with JInt n => n | JStr s => int_field s | JFloat q => py_int q | JBool b => if b then 1 else 0 | _ => 0 end.
Definition count_gpus (cfg : GwConfig) (replicas : Z) (limits : json) (held : Mix) : Mix :=
  foldl (fun held f =>
    if jhas (resource f) limits
    then dset (resource f) (dget_or (resource f) 0 held + replicas * int_json (jget (resource f) limits)) held
    else held) held (FLAVORS cfg).
Definition count_group (cfg : GwConfig) (held : Mix) (grp : json) : Mix :=
  foldl (fun held container =>
    count_gpus cfg (int_json (jget_or "replicas" (JInt 0) grp))
      (or_obj (jget "limits" (or_obj (jget "resources" container)))) held)
    held (jlist (jget "containers" (jget "spec" (jget "template" grp)))).
Definition held_gpus (cfg : GwConfig) (cluster : json) : Mix :=
  foldl (count_group cfg) [] (jlist (j_or (jget "workerGroupSpecs" (jget "spec" cluster)) (JArr []))).

Definition job_ended (job : json) : bool :=
  bool_decide (jstr (jget "jobStatus" (or_obj (jget "status" job))) ∈ ["SUCCEEDED"; "FAILED"; "STOPPED"]%string).
Definition owns (u : User) (job : json) : bool :=
  jeq_str (jget OWNER_LABEL (labels_of job)) (user_cluster u)
  && String.eqb (cluster_owner (JObj [("spec", jget "rayClusterSpec" (jget "spec" job))])%string) (user_owner u).

(** ** What is built is what is counted *)

(** A template as the code takes one apart: one worker group, of pods with one
    container, whose resources have limits. *)
Definition the_group (template : json) : json := hd JNull (jlist (jget "workerGroupSpecs" (jget "spec" template))).
Definition the_container (grp : json) : json := hd JNull (jlist (jget "containers" (jget "spec" (jget "template" grp)))).
Record group_ok (grp : json) : Prop := {
  gr_obj : is_obj grp = true;
  gr_template : is_obj (jget "template" grp) = true;
  gr_spec : is_obj (jget "spec" (jget "template" grp)) = true;
  gr_containers : jget "containers" (jget "spec" (jget "template" grp)) = JArr [the_container grp];
  gr_container : is_obj (the_container grp) = true;
  gr_limits : jhas "limits" (jget "resources" (the_container grp)) = true;
  gr_amounts : is_obj (jget "limits" (jget "resources" (the_container grp))) = true;
  gr_class : jget "priorityClassName" (jget "spec" (jget "template" grp)) = JNull }.
Record template_ok (template : json) : Prop := {
  te_obj : is_obj template = true;
  te_metadata : is_obj (jget "metadata" template) = true;
  te_spec : is_obj (jget "spec" template) = true;
  te_group : group_ok (the_group template) }.

Lemma jhas_obj k j : jhas k j = true -> is_obj j = true.
Proof. by destruct j. Qed.
Lemma jhas_jset k k' v j : jhas k (jset k' v j) = is_obj j && (bool_decide (k = k') || jhas k j).
Proof.
  destruct j as [| | | | | |o]; try done. cbn. unfold dhas. case_bool_decide as E.
  - subst. by rewrite dget_dset.
  - by rewrite dget_dset_ne by congruence.
Qed.
Lemma jhas_jdel k k' j : jhas k (jdel k' j) = negb (bool_decide (k = k')) && jhas k j.
Proof.
  destruct j as [| | | | | |o]; try by rewrite andb_false_r. cbn. unfold dhas. case_bool_decide as E.
  - subst. by rewrite dget_ddel.
  - by rewrite dget_ddel_ne by congruence.
Qed.
Lemma jhas_jvalues k f j : jhas k (jvalues f j) = jhas k j.
Proof.
  destruct j as [| | | | | |o]; try done. cbn. unfold dhas.
  induction o as [|[k' v] o IH]; cbn; [done|]. by case_decide.
Qed.
Lemma jhas_jsetdefault_ne k k' d j : k <> k' -> jhas k (jsetdefault k' d j) = jhas k j.
Proof.
  intros. unfold jsetdefault. destruct (jhas k' j); [done|]. rewrite jhas_jset, bool_decide_eq_false_2 by done.
  cbn. by destruct j.
Qed.

(** Changing the one container of a group keeps the rest. *)
Lemma group_containers f grp : group_ok grp ->
  (forall c, is_obj c = true -> jhas "limits" (jget "resources" c) = true ->
     is_obj (jget "limits" (jget "resources" c)) = true ->
     is_obj (f c) = true /\ jhas "limits" (jget "resources" (f c)) = true /\
     is_obj (jget "limits" (jget "resources" (f c))) = true) ->
  group_ok (jupd "template" (jupd "spec" (jupd "containers" (jmap f))) grp) /\
  the_container (jupd "template" (jupd "spec" (jupd "containers" (jmap f))) grp) = f (the_container grp).
Proof.
  intros [] Hf. assert (E : the_container (jupd "template" (jupd "spec" (jupd "containers" (jmap f))) grp)
    = f (the_container grp)).
  { unfold the_container at 1. read_json. by rewrite gr_containers0. }
  split; [|exact E]. destruct (Hf _ gr_container0 gr_limits0 gr_amounts0) as (H1 & H2 & H3).
  split; rewrite ?E; read_json; rewrite ?gr_containers0; try done; is_object.
Qed.

Lemma container_env_resources u s c : jget "resources" (container_env u s c) = jget "resources" c.
Proof. unfold container_env. by read_json. Qed.
Lemma container_env_obj u s c : is_obj (container_env u s c) = is_obj c.
Proof. unfold container_env. by rewrite is_obj_jupd, is_obj_jsetdefault. Qed.

Lemma user_pod_group u s grp : group_ok grp ->
  group_ok (jupd "template" (user_pod u s) grp) /\
  the_container (jupd "template" (user_pod u s) grp) = container_env u s (the_container grp).
Proof.
  intros [].
  assert (E : the_container (jupd "template" (user_pod u s) grp) = container_env u s (the_container grp)).
  { unfold the_container at 1. unfold user_pod. read_json. by rewrite gr_containers0. }
  split; [|exact E]. split; rewrite ?E, ?container_env_resources, ?container_env_obj; try done;
    unfold user_pod; read_json; rewrite ?gr_containers0; try done; is_object.
Qed.

Lemma sized_ok s c : is_obj c = true -> jhas "limits" (jget "resources" c) = true ->
  is_obj (jget "limits" (jget "resources" c)) = true ->
  is_obj (sized s c) = true /\ jhas "limits" (jget "resources" (sized s c)) = true /\
  is_obj (jget "limits" (jget "resources" (sized s c))) = true.
Proof.
  intros Hc Hl Ha. unfold sized. read_json. rewrite jhas_jvalues, jget_jvalues by done.
  split; [is_object|]. split; [done|]. is_object.
Qed.

(** The group that [build_cluster] makes its worker groups of. *)
Definition group_of (template : json) (u : User) (s : Shape) : json :=
  jupd "template" (user_pod u s)
    (jupd "template" (jupd "spec" (jupd "containers" (jmap (sized s)))) (the_group template)).
Lemma group_of_ok template u s : template_ok template -> group_ok (group_of template u s).
Proof.
  intros []. apply user_pod_group. apply group_containers; [done|]. intros c. apply sized_ok.
Qed.

Lemma build_cluster_groups cfg template u s mix : template_ok template ->
  jget "workerGroupSpecs" (jget "spec" (build_cluster cfg template u s mix)) =
  JArr (worker_groups cfg (group_of template u s) (int_field (per_worker s)) mix 1 (FLAVORS cfg)).
Proof. intros []. unfold build_cluster. read_json. done. Qed.

(** ** The plan of the worker groups *)

(** The groups as flavors, workers and whether they are preemptible. *)
Definition part (f : Flavor) (n : Z) (preemptible : bool) : list (Flavor * Z * bool) :=
  if 0 <? n then [(f, n, preemptible)] else [].
Fixpoint plan (mix : Mix) (kept : Z) (l : list Flavor) : list (Flavor * Z * bool) :=
  match l with
  | [] => []
  | f :: l' =>
      let workers := dget_or (resource f) 0 mix in
      part f (Z.min kept workers) false ++ part f (workers - kept) true ++ plan mix (Z.max (kept - workers) 0) l'
  end.
Definition planned (cfg : GwConfig) (grp : json) (per_worker : Z) (p : Flavor * Z * bool) : json :=
  worker_group cfg grp p.1.1 per_worker p.1.2 p.2.
Lemma worker_groups_plan cfg grp pw mix kept l :
  worker_groups cfg grp pw mix kept l = map (planned cfg grp pw) (plan mix kept l).
Proof.
  revert kept. induction l as [|f l IH]; intros kept; cbn [worker_groups plan]; [done|].
  rewrite !map_app, IH, app_assoc. unfold flavor_groups, part.
  by destruct (0 <? Z.min kept _), (0 <? _ - kept).
Qed.

(** What is read of a worker group. *)
Definition group_replicas (grp : json) : Z := int_json (jget "replicas" grp).
Definition group_preemptible (grp : json) : bool :=
  jeq_str (jget "priorityClassName" (jget "spec" (jget "template" grp))) PREEMPTIBLE_PRIORITY_CLASS.

Lemma worker_group_replicas cfg grp f pw n p : group_ok grp -> jhas "replicas" (worker_group cfg grp f pw n p) = true /\
  jget "replicas" (worker_group cfg grp f pw n p) = JInt n.
Proof.
  intros []. unfold worker_group. cbn [jupdate foldl fst snd]. read_json. split; [|done].
  unfold jupd. rewrite !jhas_jset, !bool_decide_eq_false_2 by done.
  rewrite bool_decide_eq_true_2 by done. cbn [orb]. rewrite !andb_true_iff. repeat split; is_object.
Qed.
Lemma worker_group_class cfg grp f pw n p : group_ok grp ->
  group_preemptible (worker_group cfg grp f pw n p) = p.
Proof.
  intros []. unfold group_preemptible, worker_group. cbn [jupdate foldl fst snd]. read_json.
  destruct p; read_json; [done|]. by rewrite gr_class0.
Qed.
Lemma dels_other k l j : (forall f, In f l -> resource f <> k) ->
  jget k (foldl (fun a other => jdel (resource other) a) j l) = jget k j.
Proof.
  revert j. induction l as [|f l IH]; intros j H; cbn; [done|].
  rewrite IH by (intros; apply H; by right). apply jget_jdel_ne. apply H. by left.
Qed.
Lemma dels_has k l j : (exists f, In f l /\ resource f = k) ->
  jhas k (foldl (fun a other => jdel (resource other) a) j l) = false.
Proof.
  assert (Hk : forall l j, jhas k j = false -> jhas k (foldl (fun a other => jdel (resource other) a) j l) = false).
  { clear. induction l as [|f l IH]; intros j H; cbn; [done|]. apply IH. by rewrite jhas_jdel, H, andb_false_r. }
  revert j. induction l as [|f l IH]; intros j (g & Hg & E); [done|]. cbn.
  destruct Hg as [->|Hg]; [apply Hk; by rewrite jhas_jdel, bool_decide_eq_true_2 by done|].
  apply IH. by exists g.
Qed.
Lemma dels_obj l j : is_obj (foldl (fun a other => jdel (resource other) a) j l) = is_obj j.
Proof. revert j. induction l as [|f l IH]; intros j; cbn; [done|]. by rewrite IH, is_obj_jdel. Qed.

(** A worker group's limits name one of the flavors' resources, its own. *)
Lemma gpu_amounts_has cfg f pw amounts g : In f (FLAVORS cfg) -> In g (FLAVORS cfg) -> is_obj amounts = true ->
  jhas (resource g) (gpu_amounts cfg f pw amounts) = bool_decide (resource g = resource f).
Proof.
  intros Hf Hg Ho. unfold gpu_amounts. rewrite jhas_jset, dels_obj, Ho.
  rewrite dels_has by (by exists g). by rewrite orb_false_r.
Qed.
Lemma worker_group_limits cfg grp f pw n p : group_ok grp ->
  jlist (jget "containers" (jget "spec" (jget "template" (worker_group cfg grp f pw n p)))) =
    [jupd "resources" (jvalues (gpu_amounts cfg f pw)) (the_container grp)] /\
  jget "limits" (jget "resources" (jupd "resources" (jvalues (gpu_amounts cfg f pw)) (the_container grp)))
    = gpu_amounts cfg f pw (jget "limits" (jget "resources" (the_container grp))).
Proof.
  intros []. split.
  - unfold worker_group. cbn [jupdate foldl fst snd]. read_json. destruct p; read_json; by rewrite gr_containers0.
  - read_json. by apply jget_jvalues.
Qed.

Definition amount (r : string) (m : Mix) : Z := dget_or r 0 m.
Lemma amount_dset r k v m : amount r (dset k v m) = if decide (r = k) then v else amount r m.
Proof.
  unfold amount, dget_or. case_decide as E; [subst; by rewrite dget_dset|]. by rewrite dget_dset_ne by congruence.
Qed.

(** Counting limits that name one resource adds its GPUs, once. *)
Lemma count_gpus_one f n limits (l : list Flavor) held r :
  NoDup (map resource l) ->
  (forall g, In g l -> jhas (resource g) limits = bool_decide (resource g = resource f)) ->
  amount r (foldl (fun held f => if jhas (resource f) limits
      then dset (resource f) (dget_or (resource f) 0 held + n * int_json (jget (resource f) limits)) held
      else held) held l)
  = amount r held + if bool_decide (r = resource f) && bool_decide (resource f ∈ map resource l)
                    then n * int_json (jget (resource f) limits) else 0.
Proof.
  revert held. induction l as [|g l IH]; intros held Hnd Hl; cbn [foldl map].
  { rewrite (bool_decide_eq_false_2 (_ ∈ [])) by (by intros ?%elem_of_nil). rewrite andb_false_r. lia. }
  cbn [map] in Hnd. apply NoDup_cons in Hnd as [Hni Hnd].
  rewrite IH by (done || intros; apply Hl; by right). rewrite (Hl g) by (by left).
  destruct (decide (resource g = resource f)) as [Eg|Eg].
  - rewrite (bool_decide_eq_true_2 (resource g = _)) by done. rewrite amount_dset, Eg. rewrite Eg in Hni.
    rewrite (bool_decide_eq_false_2 _ Hni), andb_false_r.
    rewrite (bool_decide_eq_true_2 (_ ∈ _ :: _)) by (by left). rewrite andb_true_r, bool_decide_decide.
    unfold amount. destruct (decide (r = resource f)) as [->|]; lia.
  - rewrite (bool_decide_eq_false_2 (resource g = _)) by done. f_equal.
    assert (bool_decide (resource f ∈ resource g :: map resource l)
      = bool_decide (resource f ∈ map resource l)) as ->; [|done].
    apply bool_decide_ext. rewrite elem_of_cons. naive_solver.
Qed.

Definition gpus_of (pw : Z) (r : string) (p : Flavor * Z * bool) : Z :=
  if decide (r = resource p.1.1) then p.1.2 * pw else 0.
Lemma count_group_one cfg grp pw p held r :
  NoDup (map resource (FLAVORS cfg)) -> group_ok grp -> In p.1.1 (FLAVORS cfg) ->
  amount r (count_group cfg held (planned cfg grp pw p)) = amount r held + gpus_of pw r p.
Proof.
  intros Hnd Hg Hf. destruct p as [[f n] b]. unfold planned, gpus_of. cbn [fst snd] in *.
  unfold count_group. destruct (worker_group_limits cfg grp f pw n b Hg) as [-> Hlim]. cbn [foldl].
  destruct (worker_group_replicas cfg grp f pw n b Hg) as [Hhas Hrep].
  assert (jget_or "replicas" (JInt 0) (worker_group cfg grp f pw n b) = JInt n) as ->.
  { revert Hhas Hrep. destruct (worker_group cfg grp f pw n b); try done. cbn. unfold dhas.
    destruct (dget _ o); [|done]. intros _ Hv; exact Hv. }
  destruct Hg. set (limits := or_obj _).
  assert (limits = gpu_amounts cfg f pw (jget "limits" (jget "resources" (the_container grp)))) as ->.
  { unfold limits, or_obj, j_or. set (c := jupd "resources" _ _).
    assert (jhas "limits" (jget "resources" c) = true) as Hl.
    { unfold c. read_json. by rewrite jhas_jvalues. }
    assert (truthy (jget "resources" c) = true) as ->.
    { destruct (jget "resources" c) as [| | | | | |[|]]; done. }
    unfold c. rewrite Hlim. unfold gpu_amounts. set (a := foldl _ _ _).
    assert (is_obj a = true) as Ha by (unfold a; by rewrite dels_obj).
    destruct (is_obj_inv a Ha) as [o ->]. cbn [jset truthy].
    by destruct (dset (resource f) (JInt pw) o) eqn:E; [destruct o as [|[]]; cbn in E; try case_decide|]. }
  unfold count_gpus. rewrite (count_gpus_one f); [|done|intros g Hgin; by apply gpu_amounts_has].
  f_equal. assert (bool_decide (resource f ∈ map resource (FLAVORS cfg)) = true) as ->.
  { apply bool_decide_eq_true_2, list_elem_of_In. by apply in_map. }
  rewrite andb_true_r, bool_decide_decide. case_decide; [|done]. unfold gpu_amounts.
  rewrite jget_jset_obj by (by rewrite dels_obj). done.
Qed.

Lemma count_groups cfg grp pw l held r :
  NoDup (map resource (FLAVORS cfg)) -> group_ok grp -> (forall p, In p l -> In p.1.1 (FLAVORS cfg)) ->
  amount r (foldl (count_group cfg) held (map (planned cfg grp pw) l))
  = amount r held + zsum (map (gpus_of pw r) l).
Proof.
  intros Hnd Hg. revert held. induction l as [|p l IH]; intros held Hl; cbn [map foldl].
  { cbn. lia. }
  rewrite IH by (intros; apply Hl; by right). rewrite count_group_one by (done || apply Hl; by left).
  change (zsum (?x :: ?y)) with (x + zsum y). lia.
Qed.

(** ** Sums over a plan *)

Lemma part_sum (g : Flavor * Z * bool -> Z) f n b : 0 <= n -> g (f, 0, b) = 0 ->
  zsum (map g (part f n b)) = g (f, n, b).
Proof.
  intros Hn H0. unfold part. destruct (0 <? n) eqn:E; breflect; [cbn; lia|].
  replace n with 0 by lia. by rewrite H0.
Qed.
Definition part_neg f n b : n <= 0 -> part f n b = [].
Proof. unfold part. intros. destruct (0 <? n) eqn:E; breflect; [lia|done]. Defined.

Definition mix_ok (m : Mix) : Prop := forall r, 0 <= amount r m.

Lemma plan_flavors mix kept l p : In p (plan mix kept l) -> In p.1.1 l.
Proof.
  revert kept. induction l as [|f l IH]; intros kept; cbn [plan]; [done|].
  rewrite !in_app_iff. unfold part. intros [H|[H|H]].
  - destruct (0 <? _); [destruct H as [<-|[]]; by left|done].
  - destruct (0 <? _); [destruct H as [<-|[]]; by left|done].
  - right. by eapply IH.
Qed.
(** A sum that a flavor adds to in proportion to its workers. *)
Lemma plan_sum (g : Flavor -> Z) mix kept l : mix_ok mix -> 0 <= kept ->
  zsum (map (fun p : Flavor * Z * bool => p.1.2 * g p.1.1) (plan mix kept l))
  = zsum (map (fun f => amount (resource f) mix * g f) l).
Proof.
  intros Hm. revert kept. induction l as [|f l IH]; intros kept Hk; cbn [plan map]; [done|].
  change (zsum (?x :: ?y)) with (x + zsum y). fold (amount (resource f) mix). pose proof (Hm (resource f)) as Hf.
  rewrite !map_app, !zsum_app, IH by lia.
  rewrite part_sum by (cbn [fst snd]; lia). cbn [fst snd].
  destruct (Z.leb_spec (amount (resource f) mix) kept).
  - rewrite part_neg by lia. cbn [map]. change (zsum []) with 0. rewrite Z.min_r by lia. lia.
  - rewrite part_sum by (cbn [fst snd]; lia). cbn [fst snd]. rewrite Z.min_l by lia. lia.
Qed.
Lemma plan_kept mix kept l : mix_ok mix -> 0 <= kept ->
  zsum (map (fun p : Flavor * Z * bool => if p.2 then 0 else p.1.2) (plan mix kept l))
  = Z.min kept (zsum (map (fun f => amount (resource f) mix) l)).
Proof.
  intros Hm. assert (Hpos : forall l, 0 <= zsum (map (fun f => amount (resource f) mix) l)).
  { intros l'. apply zsum_nonneg, Forall_forall. intros x Hx. apply list_elem_of_In, in_map_iff in Hx as (f & <- & _).
    apply Hm. }
  revert kept. induction l as [|f l IH]; intros kept Hk; cbn [plan map]; [cbn; lia|].
  change (zsum (amount (resource f) mix :: ?y)) with (amount (resource f) mix + zsum y).
  fold (amount (resource f) mix). pose proof (Hm (resource f)) as Hf. specialize (Hpos l).
  rewrite !map_app, !zsum_app, IH by lia. rewrite part_sum by (cbn [fst snd]; lia). cbn [fst snd].
  assert (zsum (map (fun p : Flavor * Z * bool => if p.2 then 0 else p.1.2)
    (part f (amount (resource f) mix - kept) true)) = 0) as ->.
  { unfold part. by destruct (0 <? _). }
  lia.
Qed.

Definition distinct_resources (cfg : GwConfig) : Prop := NoDup (map resource (FLAVORS cfg)).

Lemma held_gpus_groups cfg cluster l :
  jget "workerGroupSpecs" (jget "spec" cluster) = JArr l ->
  held_gpus cfg cluster = foldl (count_group cfg) [] l.
Proof. intros H. unfold held_gpus. rewrite H. by destruct l. Qed.
Lemma gpus_of_sum pw f l :
  In f l -> NoDup (map resource l) -> forall mix,
  zsum (map (fun g => amount (resource g) mix * (if decide (resource f = resource g) then pw else 0)) l)
  = amount (resource f) mix * pw.
Proof.
  intros Hf Hnd mix. induction l as [|g l IH]; [done|]. cbn [map] in *.
  change (zsum (?x :: ?y)) with (x + zsum y). apply NoDup_cons in Hnd as [Hni Hnd].
  destruct Hf as [->|Hf].
  - rewrite decide_True by done.
    assert (zsum (map (fun g => amount (resource g) mix * (if decide (resource f = resource g) then pw else 0)) l) = 0) as ->; [|lia].
    clear IH Hnd. induction l as [|h l IH]; [done|]. cbn [map] in *. apply not_elem_of_cons in Hni as [Hne Hni].
    change (zsum (?x :: ?y)) with (x + zsum y). rewrite decide_False by done. rewrite IH by done. lia.
  - rewrite IH by done. rewrite decide_False; [lia|]. intros E. apply Hni. rewrite <- E.
    apply list_elem_of_In. by apply in_map.
Qed.

(** What admission grants is what it counts.  The GPUs that [held_gpus] reads off
    a cluster that [build_cluster] makes, of each resource, are those of the workers
    it was admitted with. *)
Theorem build_cluster_held cfg template u s mix f :
  template_ok template -> distinct_resources cfg -> mix_ok mix -> f ∈ FLAVORS cfg ->
  amount (resource f) (held_gpus cfg (build_cluster cfg template u s mix))
  = amount (resource f) mix * int_field (per_worker s).
Proof.
  intros Ht Hnd Hm Hf%list_elem_of_In. rewrite (held_gpus_groups _ _ _ (build_cluster_groups cfg template u s mix Ht)).
  rewrite worker_groups_plan, count_groups; [|done|by apply group_of_ok|by intros p; apply plan_flavors].
  change (amount (resource f) []) with 0.
  rewrite <- (gpus_of_sum (int_field (per_worker s)) f (FLAVORS cfg) Hf Hnd mix).
  rewrite <- (plan_sum (fun g => if decide (resource f = resource g) then int_field (per_worker s) else 0) mix 1)
    by (done || lia).
  rewrite Z.add_0_l. f_equal. apply map_ext. intros p. unfold gpus_of. case_decide; lia.
Qed.

(** One worker of a cluster is kept.  The worker groups that [build_cluster] makes
    have as many workers in all as the cluster was admitted with; exactly one of
    them, if there is any, is not preemptible, and every other gives way to pods of
    the default priority. *)
Theorem build_cluster_preemptible cfg template u s mix :
  template_ok template -> mix_ok mix ->
  let groups := jlist (jget "workerGroupSpecs" (jget "spec" (build_cluster cfg template u s mix))) in
  let total := zsum (map (fun f => amount (resource f) mix) (FLAVORS cfg)) in
  zsum (map group_replicas groups) = total /\
  zsum (map (fun g => if group_preemptible g then 0 else group_replicas g) groups) = Z.min 1 total.
Proof.
  intros Ht Hm groups total. unfold groups. rewrite (build_cluster_groups cfg template u s mix Ht).
  cbn [jlist]. rewrite worker_groups_plan, !map_map.
  pose proof (group_of_ok template u s Ht) as Hg.
  assert (Hr : forall p, group_replicas (planned cfg (group_of template u s) (int_field (per_worker s)) p) = p.1.2).
  { intros [[f n] b]. unfold group_replicas, planned. cbn [fst snd].
    by rewrite (proj2 (worker_group_replicas cfg _ f _ n b Hg)). }
  split.
  - rewrite (map_ext _ (fun p : Flavor * Z * bool => p.1.2 * 1)) by (intros p; rewrite Hr; lia).
    rewrite (plan_sum (fun _ => 1)) by (done || lia). unfold total. f_equal. apply map_ext. intros f. lia.
  - rewrite (map_ext _ (fun p : Flavor * Z * bool => if p.2 then 0 else p.1.2)).
    + apply plan_kept; [done|lia].
    + intros p. rewrite Hr. destruct p as [[f n] b]. unfold planned. cbn [fst snd].
      by rewrite worker_group_class by done.
Qed.

(** ** Whose a cluster is, and in what shape *)

(** A template that has no owner, and whose metadata is a new cluster's. *)
Record template_plain (template : json) : Prop := {
  tp_ok : template_ok template;
  tp_groups : jget "workerGroupSpecs" (jget "spec" template) = JArr [the_group template];
  tp_head : is_obj (jget "headGroupSpec" (jget "spec" template)) = true;
  tp_pod : is_obj (jget "template" (jget "headGroupSpec" (jget "spec" template))) = true;
  tp_pod_metadata : is_obj (jget "metadata" (jget "template" (jget "headGroupSpec" (jget "spec" template)))) = true;
  tp_labels : is_obj (jget "labels" (jget "metadata" (jget "template" (jget "headGroupSpec" (jget "spec" template))))) = true;
  tp_unowned : jget PART_OF (jget "labels" (jget "metadata" (jget "template" (jget "headGroupSpec" (jget "spec" template))))) = JNull;
  tp_annotations : jhas "annotations" (jget "metadata" template) = false;
  tp_meta_labels : jhas "labels" (jget "metadata" template) = false;
  tp_deletion : jget "deletionTimestamp" (jget "metadata" template) = JNull }.

Lemma or_obj_obj j : is_obj j = true -> or_obj j = j.
Proof. destruct j as [| | | | | |[|]]; done. Qed.
Lemma jsetdefault_new k d j : is_obj j = true -> jhas k j = false -> jget k (jsetdefault k d j) = d.
Proof. intros Ho Hk. unfold jsetdefault. rewrite Hk. by apply jget_jset_obj. Qed.

Lemma build_annotations cfg template u s mix : is_obj template = true -> is_obj (jget "metadata" template) = true ->
  jhas "annotations" (jget "metadata" template) = false ->
  jget "annotations" (jget "metadata" (build_cluster cfg template u s mix))
  = jupdate (shape_annotations s) (JObj []).
Proof.
  intros Ho Hm Ha. unfold build_cluster. read_json. f_equal. apply jsetdefault_new; [is_object|].
  unfold jupd. rewrite jhas_jset, bool_decide_eq_false_2 by done. cbn [orb].
  rewrite jhas_jsetdefault_ne by done. rewrite jhas_jset, bool_decide_eq_false_2 by done. cbn [orb].
  by rewrite Ha, !andb_false_r.
Qed.
Lemma shape_annotations_read s key v : dget key (shape_annotations s) = Some v ->
  jget key (jupdate (shape_annotations s) (JObj [])) = v.
Proof.
  apply jget_jupdate; [done|]. cbn. repeat (apply NoDup_cons; split; [
    rewrite ?not_elem_of_cons; repeat split; (discriminate || apply not_elem_of_nil)|]). apply NoDup_nil_2.
Qed.
Lemma build_shape cfg template u s mix : is_obj template = true -> is_obj (jget "metadata" template) = true ->
  jhas "annotations" (jget "metadata" template) = false ->
  site s = "purdue"%string -> cluster_shape (build_cluster cfg template u s mix) = s.
Proof.
  intros Ho Hm Ha Hs. unfold cluster_shape, annotations_of. rewrite build_annotations by done.
  rewrite or_obj_obj by reflexivity. cbv zeta.
  rewrite (shape_annotations_read s ENV_ANNOTATION _ eq_refl),
    (shape_annotations_read s WORKERS_ANNOTATION _ eq_refl),
    (shape_annotations_read s MEMORY_ANNOTATION _ eq_refl),
    (shape_annotations_read s CPUS_ANNOTATION _ eq_refl),
    (shape_annotations_read s RAM_ANNOTATION _ eq_refl),
    (shape_annotations_read s PER_WORKER_ANNOTATION _ eq_refl),
    (shape_annotations_read s LEAST_ANNOTATION _ eq_refl).
  destruct s. cbn in *. by rewrite Hs.
Qed.

Lemma user_pod_metadata u s pod : jget "metadata" (user_pod u s pod) = jget "metadata" pod.
Proof. unfold user_pod. by read_json. Qed.
Lemma build_head_metadata cfg template u s mix :
  is_obj template = true -> is_obj (jget "spec" template) = true ->
  is_obj (jget "headGroupSpec" (jget "spec" template)) = true ->
  jget "metadata" (jget "template" (jget "headGroupSpec" (jget "spec" (build_cluster cfg template u s mix))))
  = jget "metadata" (jget "template" (jget "headGroupSpec" (jget "spec" template))).
Proof. intros Ho Hs Hh. unfold build_cluster. read_json. apply user_pod_metadata. Qed.
Lemma build_metadata_key cfg template u s mix k :
  is_obj template = true -> is_obj (jget "metadata" template) = true ->
  k <> "annotations"%string -> k <> "labels"%string -> k <> "name"%string ->
  jget k (jget "metadata" (build_cluster cfg template u s mix)) = jget k (jget "metadata" template).
Proof.
  intros Ho Hm Ha Hl Hn. unfold build_cluster. read_json.
  by rewrite jget_jupd_ne, jget_jsetdefault_ne, jget_jupd_ne, jget_jsetdefault_ne, jget_jset_ne by congruence.
Qed.

Lemma build_labels cfg template u s mix : is_obj template = true -> is_obj (jget "metadata" template) = true ->
  jhas "labels" (jget "metadata" template) = false ->
  jget "labels" (jget "metadata" (build_cluster cfg template u s mix))
  = JObj [(MANAGED_LABEL, JStr MANAGED_BY)].
Proof.
  intros Ho Hm Ha. unfold build_cluster. read_json.
  rewrite jsetdefault_new; [done|is_object|].
  rewrite jhas_jset, bool_decide_eq_false_2 by done. cbn [orb]. by rewrite Ha, andb_false_r.
Qed.

Definition head_metadata (template : json) : json :=
  jget "metadata" (jget "template" (jget "headGroupSpec" (jget "spec" template))).
Lemma account_pod_group cfg name grp : group_ok grp -> group_ok (jupd "template" (account_pod cfg name) grp).
Proof.
  intros []. set (f := jupd "volumeMounts" (fun m => JArr (kept_volumes cfg m ++
    [JObj [("name"%string, JStr name); ("mountPath"%string, JStr ("/" ++ name))]]))).
  assert (E : the_container (jupd "template" (account_pod cfg name) grp) = f (the_container grp)).
  { unfold the_container at 1. unfold account_pod. read_json. by rewrite gr_containers0. }
  assert (Hf : jget "resources" (f (the_container grp)) = jget "resources" (the_container grp)).
  { unfold f. by read_json. }
  split; rewrite ?E, ?Hf; try done; unfold account_pod; read_json; rewrite ?gr_containers0; try done; unfold f; is_object.
Qed.
Lemma cluster_template_ok cfg template u : template_plain template ->
  template_ok (cluster_template cfg template u).
Proof.
  intros [[] ? ? ? ? ? ? ? ? ?]. unfold cluster_template. destruct (workload u); [|by split].
  cbn [negb]. split; read_json; try done; [is_object..|].
  unfold the_group. read_json. rewrite tp_groups0. cbn [jmap map jlist hd].
  by apply account_pod_group.
Qed.
Lemma cluster_template_metadata cfg template u : is_obj template = true ->
  jget "metadata" (cluster_template cfg template u) = jget "metadata" template.
Proof. intros. unfold cluster_template. destruct (workload u); [|done]. cbn [negb]. by read_json. Qed.
Lemma cluster_template_owner cfg template u : template_plain template ->
  jstr (jget PART_OF (or_obj (jget "labels" (or_obj (head_metadata (cluster_template cfg template u))))))
  = user_owner u.
Proof.
  intros [[] ? ? ? ? ? ? ? ? ?]. unfold user_owner, head_metadata, cluster_template.
  destruct (workload u); cbn [negb].
  - unfold account_pod. read_json. rewrite (or_obj_obj (jupd _ _ _)) by is_object. read_json.
    rewrite or_obj_obj by is_object. by read_json.
  - rewrite (or_obj_obj (jget "metadata" _)) by done. rewrite or_obj_obj by done. by rewrite tp_unowned0.
Qed.
Lemma cluster_template_head cfg template u : template_plain template ->
  is_obj (jget "headGroupSpec" (jget "spec" (cluster_template cfg template u))) = true.
Proof.
  intros [[] ? ? ? ? ? ? ? ? ?]. unfold cluster_template. destruct (workload u); [|done]. cbn [negb].
  read_json. is_object.
Qed.

(** A cluster is known again.  A cluster that the gateway makes for a user, from
    the template as it is for them, is in the shape it was made in, so that the next
    call of that shape finds it; it is theirs, workload account or Hub user, and no
    one else's of the same cluster name; and the RayJobs made for a user are exactly
    those that their calls about jobs find. *)
Theorem cluster_known_again cfg template u s mix idle name v :
  template_plain template -> site s = "purdue"%string ->
  let cluster := build_cluster cfg (cluster_template cfg template u) u s mix in
  let job := build_job cfg idle (cluster_template cfg template u) u s mix name in
  runs cluster s = true /\ cluster_owner cluster = user_owner u /\
  (refuse_others cluster v = Ok tt <-> user_owner v = user_owner u) /\
  (owns v job = true <-> user_cluster v = user_cluster u /\ user_owner v = user_owner u).
Proof.
  intros Ht Hs cluster job. pose proof (cluster_template_ok cfg template u Ht) as [].
  pose proof (cluster_template_head cfg template u Ht) as Hh.
  pose proof (cluster_template_owner cfg template u Ht) as Hown.
  set (t := cluster_template cfg template u) in *.
  assert (Hmd : jget "metadata" t = jget "metadata" template) by (apply cluster_template_metadata, Ht).
  assert (Ho : cluster_owner cluster = user_owner u).
  { unfold cluster_owner, cluster. by rewrite build_head_metadata. }
  split; [|split; [done|split]].
  - unfold runs, cluster. rewrite build_shape by (done || by rewrite Hmd; apply Ht).
    rewrite bool_decide_eq_true_2 by done. unfold live.
    rewrite build_metadata_key, Hmd by done. by rewrite (tp_deletion _ Ht).
  - unfold refuse_others. rewrite Ho. destruct (String.eqb_spec (user_owner u) (user_owner v)) as [E|E]; [done|].
    split; [done|]. intros E'. by destruct E.
  - unfold owns. rewrite andb_true_iff, String.eqb_eq.
    assert (jget OWNER_LABEL (labels_of job) = JStr (user_cluster u)) as ->.
    { unfold labels_of. set (labels := jget "labels" (jget "metadata" job)).
      assert (labels = JObj [(MANAGED_LABEL, JStr MANAGED_BY); (OWNER_LABEL, JStr (user_cluster u))]) as ->; [|done].
      transitivity (jset OWNER_LABEL (JStr (user_cluster u)) (jget "labels" (jget "metadata" cluster))).
      - change labels with (jset OWNER_LABEL (JStr (user_cluster u)) (jget "labels" (jget "metadata"
          (jupd "spec" (jupd "authOptions" (jset "secretName" (JStr name))) cluster)))).
        f_equal. by read_json.
      - unfold cluster. rewrite build_labels by (done || rewrite Hmd; apply Ht). done. }
    set (spec := jget "rayClusterSpec" (jget "spec" job)).
    assert (cluster_owner (JObj [("spec"%string, spec)]) = cluster_owner cluster) as ->.
    { change spec with (jget "spec" (jupd "spec" (jupd "authOptions" (jset "secretName" (JStr name))) cluster)).
      unfold cluster_owner. cbn [jget dget default]. rewrite decide_True by done. cbn [default id].
      assert (is_obj cluster = true) as Hc by (unfold cluster, build_cluster; is_object). by read_json. }
    rewrite Ho. cbn [jeq_str]. rewrite String.eqb_eq. naive_solver.
Qed.

Definition demo_user : User := mkUser "ray" "ray" 1234 1234 false false.
Definition demo_mix : Mix := [("nvidia.com/mig-1g.5gb", 0); ("nvidia.com/gpu", 3)]%string.
Definition demo_cluster : json :=
  build_cluster af_config (cluster_template af_config demo_template demo_user) demo_user demo_shape demo_mix.

Lemma demo_template_ok : template_ok demo_template.
Proof. repeat split; vm_compute; reflexivity. Qed.
Lemma demo_template_plain : template_plain demo_template.
Proof. split; [apply demo_template_ok | vm_compute; reflexivity ..]. Qed.
Lemma af_distinct : distinct_resources af_config.
Proof.
  unfold distinct_resources. cbn. apply NoDup_cons. split; [|apply NoDup_singleton].
  rewrite list_elem_of_singleton. discriminate.
Qed.
Lemma demo_mix_ok : mix_ok demo_mix.
Proof. intros r. unfold amount, dget_or, demo_mix. cbn. repeat case_decide; cbn; lia. Qed.
Lemma build_cluster_held_witness :
  amount "nvidia.com/gpu" (held_gpus af_config demo_cluster) = 6 /\
  amount "nvidia.com/gpu" (held_gpus af_config demo_cluster) = amount "nvidia.com/gpu" demo_mix * 2.
Proof.
  split; [vm_compute; reflexivity|].
  exact (build_cluster_held af_config demo_template demo_user demo_shape demo_mix (mkFlavor "nvidia.com/gpu" 16 8 2)
    demo_template_ok af_distinct demo_mix_ok (list_elem_of_further _ _ _ (list_elem_of_here _ _))).
Defined.
Lemma build_cluster_preemptible_witness :
  zsum (map (fun g => if group_preemptible g then 0 else group_replicas g)
    (jlist (jget "workerGroupSpecs" (jget "spec" demo_cluster)))) = 1.
Proof.
  exact (proj2 (build_cluster_preemptible af_config demo_template demo_user demo_shape demo_mix
    demo_template_ok demo_mix_ok)).
Defined.
Lemma cluster_known_again_witness :
  runs demo_cluster demo_shape = true /\ cluster_owner demo_cluster = ""%string.
Proof.
  destruct (cluster_known_again af_config demo_template demo_user demo_shape demo_mix 900 "ray-job-1" demo_user
    demo_template_plain eq_refl) as (H1 & H2 & _).
  split; [exact H1 | exact H2].
Defined.
