(* ===== verification/RayAdmit.v ===== *)
(** Admission to the GPUs: [Gateway.free_gpus] and [Gateway.admit] of
    [apps/ray-train/gateway.py].  The lock [admitting] makes an admission one step;
    what it reads, of Kubernetes, Prometheus and the clock, are its arguments. *)
From S2P Require Import Prelude PyJson PyText GpuQueries RayNames RayShape RayBuild.
Open Scope Z_scope.

(** ** [free_gpus] *)

(** Samples by metric, [None] where the query fails or its answer is not one. *)
Definition Samples := option (list (string * Q)).
(** Of each resource, the GPUs that no pod holds, and those that preemptible pods hold. *)
Definition Free := list (string * (Z * Z)).

Definition free_of (allocatable used preemptible : list (string * Q)) (f : Flavor) : option (string * (Z * Z)) :=
  match dget (resource f) GPU_METRICS with
  | None => None
  | Some metric =>
      match dget metric allocatable with
      | None => None
      | Some a =>
          let evictable := py_int (dget_or metric 0%Q preemptible) in
          let held := (dget_or metric 0 used + qz evictable)%Q in
          Some (resource f, (Z.max (py_int (a - held)) 0, evictable))
      end
  end.
Definition free_gpus (cfg : GwConfig) (allocatable used preemptible : Samples) : option Free :=
  match allocatable, used, preemptible with
  | Some a, Some u, Some p => mapM (free_of a u p) (FLAVORS cfg)
  | _, _, _ => None
  end.

(** ** [admit] *)

(** The GPUs a cluster was admitted with, and until when they count as taken. *)
Definition Grants := list (string * (Mix * Q)).
Definition GRANT_S : Q := 120.

Definition ORIGIN_LABEL : string := "ray.io/originated-from-cr-name".
(** A RayJob's cluster counts under the name of its RayJob. *)
Definition counted_name (cluster : json) : string :=
  jstr (jget_or ORIGIN_LABEL (jget "name" (jget "metadata" cluster)) (labels_of cluster)).
Definition others_of (cfg : GwConfig) (name : string) (items : list json) : list (string * Mix) :=
  ddel name (foldl (fun acc c => dset (counted_name c) (held_gpus cfg c) acc) [] items).

Definition unexpired (now : Q) (grants : Grants) : Grants :=
  List.filter (fun g => now <?q g.2.2) grants.
Definition granted_of (name : string) (grants : Grants) : list (string * Mix) :=
  map (fun g => (g.1, g.2.1)) (List.filter (fun g => negb (String.eqb g.1 name)) grants).

Definition total (r : string) (l : list (string * Mix)) : Z := zsum (map (fun c => amount r c.2) l).
Definition mix_total (m : Mix) : Z := zsum (map snd m).

(** The workers of each flavor in turn, and the resource whose preemptible worker
    may be evicted. *)
Definition MixState : Type := Mix * option string.
Definition mix_step (each wanted : Z) (replaced : Mix) (granted others : list (string * Mix))
    (free : option Free) (st : MixState) (f : Flavor) : MixState :=
  let '(mix, evicting) := st in
  let r := resource f in
  let taken := total r granted in
  let '(available, evicting) :=
    match free with
    | None => (budget f - total r (dupdate granted others), evicting)
    | Some free =>
        let '(unheld, preemptible) := dget_or r (0, 0) free in
        (unheld + amount r replaced - taken,
         if 0 <? unheld + preemptible - amount r replaced - taken
         then match evicting with None => Some r | _ => evicting end else evicting)
    end in
  (dset r (Z.max (Z.min (available / each) (wanted - mix_total mix)) 0) mix, evicting).
Definition mix_of (cfg : GwConfig) (s : Shape) (replaced : Mix) (granted others : list (string * Mix))
    (free : option Free) : MixState :=
  foldl (mix_step (int_field (per_worker s)) (int_field (workers s)) replaced granted others free)
    ([], None) (flavors cfg s).
(** One worker, and no more, may evict a preemptible one. *)
Definition evict (each : Z) (st : MixState) : Mix :=
  let '(mix, evicting) := st in
  match evicting with
  | Some r => if (each =? 1) && (mix_total mix =? 0) then dset r 1 mix else mix
  | None => mix
  end.

Definition too_few (s : Shape) (available : Z) : string :=
  let each := int_field (per_worker s) in
  let least_ := int_field (least s) in
  "Your Ray cluster asks for " ++ pretty least_ ++ " workers with "
  ++ (if each =? 1 then "a GPU" else pretty each ++ " GPUs") ++ " of " ++ sh_memory s
  ++ " GB or more each, and Ray clusters can take " ++ pretty available ++ " more now: "
  ++ (if 1 <? least_ then "ask for fewer with " ++ WORKERS_METADATA ++ ", for those that are free with "
                          ++ MOST_METADATA ++ ", or " else "") ++ "try again later.".

(** [name] is the RayJob's, or the user's own cluster's; [listing] what Kubernetes
    answers of the clusters. *)
Definition admit_ (cfg : GwConfig) (name : string) (s : Shape) (replaced : Mix) (listing : Z * list json)
    (now : Q) (free : option Free) (grants : Grants) : res Refused Mix * Grants :=
  let '(status, items) := listing in
  if negb (status =? 200) then
    (refuse UNAVAILABLE ("Kubernetes answered HTTP " ++ pretty status ++ " for the Ray clusters."), grants)
  else
    let grants := unexpired now grants in
    let others := others_of cfg name items in
    let granted := granted_of name grants in
    let each := int_field (per_worker s) in
    let mix := evict each (mix_of cfg s replaced granted others free) in
    if mix_total mix <? int_field (least s) then
      (refuse RESOURCE_EXHAUSTED (too_few s (mix_total mix)), grants)
    else
      (Ok mix, dset name (map (fun rn => (rn.1, rn.2 * each)) mix, (now + GRANT_S)%Q) grants).

(** ** Dictionaries as sums *)

Section DictSum.
Context {V : Type}.
Implicit Types d : list (string * V).

Lemma dset_perm k (v : V) d : NoDup d.*1 -> dset k v d ≡ₚ (k, v) :: ddel k d.
Proof.
  induction d as [|[k' v'] d IH]; intros Hnd; [done|]. apply NoDup_cons in Hnd as [Hni Hnd].
  cbn [dset]. unfold ddel in *. rewrite filter_cons. cbn [fst]. case_decide as E.
  - subst k'. rewrite decide_False by (intros H; by apply H). f_equiv.
    pose proof (ddel_notin k d Hni) as Hd. unfold ddel in Hd. cbn in Hd |- *. by rewrite Hd.
  - rewrite decide_True by (by apply not_eq_sym). rewrite IH by done. by rewrite Permutation_swap.
Qed.
Lemma ddel_perm k d d' : d ≡ₚ d' -> ddel k d ≡ₚ ddel k d'.
Proof. unfold ddel. by intros ->. Qed.
Lemma keys_perm d d' : d ≡ₚ d' -> NoDup d.*1 -> NoDup d'.*1.
Proof. by intros ->. Qed.
Lemma dupdate_keys d d' : NoDup d.*1 -> NoDup (dupdate d d').*1.
Proof. unfold dupdate. revert d. induction d' as [|kv d' IH]; intros d H; cbn; [done|]. apply IH. by apply dset_keys. Qed.
(** An update is what it sets, and of the rest what it does not. *)
Definition beside d d' : list (string * V) := filter (fun kv => kv.1 ∉ d'.*1) d.
Lemma dupdate_split d d' : NoDup d.*1 -> NoDup d'.*1 -> dupdate d d' ≡ₚ d' ++ beside d d'.
Proof.
  intros Hd. induction d' as [|[k v] d' IH] using rev_ind; intros Hd'.
  { unfold beside. cbn. induction d as [|kv d IHd]; [done|]. rewrite filter_cons, decide_True by apply not_elem_of_nil.
    f_equiv. apply IHd. by apply NoDup_cons in Hd as [_ ?]. }
  rewrite fmap_app in Hd'. apply NoDup_app in Hd' as (Hd' & Hk & _).
  unfold dupdate. rewrite foldl_app. cbn [foldl fst snd]. fold (dupdate d d').
  rewrite dset_perm by by apply dupdate_keys. rewrite (ddel_perm k _ _ (IH Hd')).
  unfold ddel. rewrite filter_app. fold (ddel k d'). rewrite ddel_notin.
  2:{ intros H. apply (Hk _ H). by left. }
  rewrite <- app_assoc. cbn [app]. etrans; [|apply Permutation_middle]. f_equiv. f_equiv.
  unfold beside. rewrite list_filter_filter. apply reflexive_eq. apply list_filter_iff. intros [k' v'].
  cbn [fst]. rewrite fmap_app, elem_of_app. cbn. rewrite list_elem_of_singleton. naive_solver.
Qed.
End DictSum.

Lemma total_perm r l l' : l ≡ₚ l' -> total r l = total r l'.
Proof. intros H. unfold total. apply zsum_permutation. by apply Permutation_map. Qed.
Lemma total_app r l l' : total r (l ++ l') = total r l + total r l'.
Proof. unfold total. by rewrite map_app, zsum_app. Qed.
Lemma total_cons r c l : total r (c :: l) = amount r c.2 + total r l.
Proof. done. Qed.

(** ** The workers of a mix *)

Section MixOf.
Context (each wanted : Z) (replaced : Mix) (granted others : list (string * Mix)) (free : option Free).
Context (Heach : 1 <= each) (Hwanted : 1 <= wanted).
Local Abbreviation step := (mix_step each wanted replaced granted others free).

(** The GPUs of a flavor that are not taken. *)
Definition limit (f : Flavor) : Z :=
  match free with
  | None => budget f - total (resource f) (dupdate granted others)
  | Some fr => (dget_or (resource f) (0, 0) fr).1 + amount (resource f) replaced - total (resource f) granted
  end.
(** Whether a preemptible worker of a flavor may give way. *)
Definition evictable (f : Flavor) : Prop :=
  match free with
  | None => False
  | Some fr => let '(unheld, preemptible) := dget_or (resource f) (0, 0) fr in
      0 < unheld + preemptible - amount (resource f) replaced - total (resource f) granted
  end.

(** What holds of a mix after the flavors [done_]. *)
Definition mix_inv (done_ : list Flavor) (st : MixState) : Prop :=
  st.1.*1 = map resource done_ /\ (forall r, 0 <= amount r st.1) /\ 0 <= mix_total st.1 <= wanted /\
  (forall f, In f done_ -> 0 < amount (resource f) st.1 -> amount (resource f) st.1 * each <= limit f) /\
  match st.2 with Some r => exists f, In f done_ /\ resource f = r /\ evictable f | None => True end.

Lemma mix_total_new r v (m : Mix) : r ∉ m.*1 -> mix_total (dset r v m) = mix_total m + v.
Proof.
  unfold mix_total. induction m as [|[k n] m IH]; cbn; [lia|]. rewrite not_elem_of_cons. intros [Hne Hni].
  rewrite decide_False by done. cbn. unfold zsum in *. cbn. rewrite IH by done. lia.
Qed.
Lemma dset_new_keys r v (m : Mix) : r ∉ m.*1 -> (dset r v m).*1 = m.*1 ++ [r].
Proof.
  induction m as [|[k n] m IH]; cbn; [done|]. rewrite not_elem_of_cons. intros [Hne Hni].
  rewrite decide_False by done. cbn. by rewrite IH.
Qed.

Lemma mix_step_inv done_ f st : NoDup (map resource (done_ ++ [f])) ->
  mix_inv done_ st -> mix_inv (done_ ++ [f]) (step st f).
Proof.
  destruct st as [mix evicting]. rewrite map_app. cbn [map]. intros Hnd (Hk & Hpos & Htot & Hlim & Hev).
  cbn [fst snd] in *. assert (Hni : resource f ∉ mix.*1).
  { rewrite Hk. apply NoDup_app in Hnd as (_ & Hd & _). intros H. apply (Hd _ H). by left. }
  unfold mix_step.
  assert (Hst : exists a e, (match free with
      | None => (budget f - total (resource f) (dupdate granted others), evicting)
      | Some fr => let '(u, p) := dget_or (resource f) (0, 0) fr in
         (u + amount (resource f) replaced - total (resource f) granted,
          if 0 <? u + p - amount (resource f) replaced - total (resource f) granted
          then match evicting with None => Some (resource f) | _ => evicting end else evicting)
      end) = (a, e) /\ a = limit f /\
      match e with Some r => exists g, In g (done_ ++ [f]) /\ resource g = r /\ evictable g | None => True end).
  { assert (Hev' : match evicting with Some r => exists g, In g (done_ ++ [f]) /\ resource g = r /\ evictable g | None => True end).
    { destruct evicting as [r|]; [|done]. destruct Hev as (g & Hg & ?). exists g. split; [|done].
      apply in_app_iff. by left. }
    unfold limit, evictable in *. destruct free as [fr|].
    - destruct (dget_or (resource f) (0, 0) fr) as [u p] eqn:E. cbn [fst].
      eexists _, _. split; [done|]. split; [done|]. destruct (0 <? _) eqn:Ep; [|done].
      destruct evicting as [r|]; [done|]. exists f. split; [apply in_app_iff; right; by left|].
      split; [done|]. rewrite E. by apply Z.ltb_lt.
    - eexists _, _. split; [done|]. split; [done|]. done. }
  destruct Hst as (a & e & -> & -> & He). set (v := Z.max _ 0).
  assert (Hv : 0 <= v /\ (0 < v -> v * each <= limit f) /\ v <= wanted - mix_total mix).
  { unfold v. split; [lia|]. split; [|lia]. intros Hv0.
    pose proof (Z.mul_div_le (limit f) each ltac:(lia)). nia. }
  destruct Hv as (Hv0 & Hvl & Hvw). split; [|split; [|split; [|split]]]; cbn [fst snd].
  - rewrite dset_new_keys, Hk, map_app by done. done.
  - intros r. rewrite amount_dset. case_decide; [done|apply Hpos].
  - rewrite mix_total_new by done. lia.
  - intros g Hg. rewrite amount_dset. case_decide as E.
    + apply in_app_iff in Hg as [Hg|[->|[]]]; [|done]. exfalso. apply Hni. rewrite Hk, <- E.
      apply list_elem_of_In. by apply in_map.
    + apply in_app_iff in Hg as [Hg|[->|[]]]; [by apply Hlim|done].
  - exact He.
Qed.
Lemma mix_fold_inv l : NoDup (map resource l) -> mix_inv l (foldl step ([], None) l).
Proof.
  induction l as [|f l IH] using rev_ind; intros Hnd.
  { repeat split; cbn; try done; try lia. }
  rewrite foldl_app. cbn [foldl]. apply mix_step_inv; [done|]. apply IH.
  rewrite map_app in Hnd. by apply NoDup_app in Hnd as [? _].
Qed.
End MixOf.

Lemma flavors_distinct cfg s : distinct_resources cfg -> NoDup (map resource (flavors cfg s)).
Proof.
  unfold distinct_resources, flavors. set (p := fun f => _ && _). generalize (FLAVORS cfg). intros l.
  induction l as [|f l IH]; cbn; [done|]. intros [Hni Hnd]%NoDup_cons.
  destruct (p f); cbn; [|by apply IH]. apply NoDup_cons. split; [|by apply IH].
  intros H. apply Hni. apply list_elem_of_In, in_map_iff in H as (g & Hg & Hin).
  apply filter_In in Hin as [Hin _]. apply list_elem_of_In. rewrite <- Hg. by apply in_map.
Qed.
Lemma mix_total_dset r v m : mix_total (dset r v m) = mix_total m - amount r m + v.
Proof.
  unfold mix_total, amount, dget_or. induction m as [|[k n] m IH]; cbn; [lia|].
  case_decide; cbn; [lia|]. unfold zsum in *. rewrite IH. lia.
Qed.
Lemma amount_elem k v (m : Mix) : NoDup m.*1 -> (k, v) ∈ m -> amount k m = v.
Proof. intros Hnd Hin. unfold amount, dget_or. by rewrite (elem_dget _ _ _ Hnd Hin). Qed.
Lemma mix_total_ge r (m : Mix) : (forall r, 0 <= amount r m) -> NoDup m.*1 -> amount r m <= mix_total m.
Proof.
  intros Hp Hnd. assert (Hf : Forall (fun kv => 0 <= kv.2) m).
  { apply Forall_forall. intros [k v] Hin. rewrite <- (amount_elem k v m Hnd Hin). apply Hp. }
  clear Hp Hnd. unfold mix_total, amount, dget_or. induction Hf as [|[k v] m Hv Hf IH]; [done|].
  cbn [dget map snd] in *. change (zsum (?x :: ?y)) with (x + zsum y).
  assert (0 <= zsum (map snd m)).
  { apply zsum_nonneg, Forall_forall. intros x Hx. apply list_elem_of_In, in_map_iff in Hx as (kv & <- & Hk).
    rewrite Forall_forall in Hf. apply Hf. by apply list_elem_of_In. }
  case_decide; cbn [default id]; lia.
Qed.
Lemma amount_key r (m : Mix) : 0 < amount r m -> r ∈ m.*1.
Proof.
  unfold amount, dget_or. destruct (dget r m) as [v|] eqn:E; [|cbn; lia]. intros _.
  apply dget_elem in E. apply list_elem_of_fmap. by exists (r, v).
Qed.

(** A mix with a worker that evicts, or without. *)
Lemma evict_inv cfg s replaced granted others free :
  distinct_resources cfg -> 1 <= int_field (per_worker s) -> 1 <= int_field (workers s) ->
  let each := int_field (per_worker s) in
  let mix := evict each (mix_of cfg s replaced granted others free) in
  mix_total mix <= int_field (workers s) /\
  (forall r, 0 <= amount r mix /\ (0 < amount r mix -> r ∈ map resource (flavors cfg s))) /\
  (forall f, In f (flavors cfg s) -> 0 < amount (resource f) mix ->
     amount (resource f) mix * each <= limit replaced granted others free f \/
     each = 1 /\ mix_total mix = 1 /\ exists g, resource g = resource f /\ evictable replaced granted free g).
Proof.
  intros Hd He Hw each mix.
  pose proof (mix_fold_inv _ _ replaced granted others free He Hw _ (flavors_distinct cfg s Hd)) as Hinv.
  fold (mix_of cfg s replaced granted others free) in Hinv. unfold mix, evict. clear mix.
  destruct (mix_of cfg s replaced granted others free) as [m evicting].
  destruct Hinv as (Hk & Hpos & Htot & Hlim & Hev). cbn [fst snd] in *.
  assert (Hkeys : NoDup m.*1) by (rewrite Hk; by apply flavors_distinct).
  assert (Hbase : mix_total m <= int_field (workers s) /\
    (forall r, 0 <= amount r m /\ (0 < amount r m -> r ∈ map resource (flavors cfg s)))).
  { split; [lia|]. intros r. split; [apply Hpos|]. intros H. rewrite <- Hk. by apply amount_key. }
  destruct evicting as [r|]; [destruct (_ && _) eqn:Eb|];
    try (split; [apply Hbase|]; split; [apply Hbase|]; intros f Hf Ha; left; by apply Hlim).
  apply andb_true_iff in Eb as [E1%Z.eqb_eq E2%Z.eqb_eq]. destruct Hev as (g & Hg & <- & Hv).
  pose proof (mix_total_ge (resource g) m Hpos Hkeys) as Hge. pose proof (Hpos (resource g)) as Hge0.
  rewrite mix_total_dset. split; [lia|]. split.
  - intros r. rewrite amount_dset. case_decide as E; [|by apply Hbase]. split; [lia|]. intros _. rewrite E.
    apply list_elem_of_In. by apply in_map.
  - intros f Hf. rewrite amount_dset. case_decide as E; [|by left; apply Hlim]. intros _. right.
    split; [done|]. split; [lia|]. by exists g.
Qed.
Lemma amount_map_mul r each (m : Mix) : amount r (map (fun rn => (rn.1, rn.2 * each)) m) = amount r m * each.
Proof.
  unfold amount, dget_or. induction m as [|[k n] m IH]; cbn; [done|]. case_decide; [done|exact IH].
Qed.

(** An admission is of what is free.  A cluster that [admit] lets in gets, of the
    GPUs its shape allows and of no other, at most the workers it asks for and at
    least those it starts with; the GPUs of each kind fit in what is not taken, by
    Prometheus or by the gateway's own budget while that does not answer, but for a
    cluster of one worker of one GPU, which may get that of a preemptible worker;
    and they count as taken, under its name, for [GRANT_S]. *)
Theorem admit_within cfg name s replaced listing now free grants mix grants' :
  distinct_resources cfg -> 1 <= int_field (per_worker s) -> 1 <= int_field (workers s) ->
  admit_ cfg name s replaced listing now free grants = (Ok mix, grants') ->
  let each := int_field (per_worker s) in
  let granted := granted_of name (unexpired now grants) in
  let others := others_of cfg name listing.2 in
  int_field (least s) <= mix_total mix <= int_field (workers s) /\
  (forall r, 0 <= amount r mix /\ (0 < amount r mix -> r ∈ map resource (flavors cfg s))) /\
  (forall f, In f (flavors cfg s) -> 0 < amount (resource f) mix ->
     amount (resource f) mix * each <= limit replaced granted others free f \/
     each = 1 /\ mix_total mix = 1 /\ exists g, resource g = resource f /\ evictable replaced granted free g) /\
  exists gpus, dget name grants' = Some (gpus, (now + GRANT_S)%Q) /\
    (forall r, amount r gpus = amount r mix * each) /\
    forall n, n <> name -> dget n grants' = dget n (unexpired now grants).
Proof.
  intros Hd He Hw. destruct listing as [status items]. unfold admit_. destruct (negb (status =? 200)); [done|].
  cbn [snd]. set (granted := granted_of _ _). set (others := others_of _ _ _).
  destruct (evict_inv cfg s replaced granted others free Hd He Hw) as (Htot & Hamt & Hlim).
  set (m := evict _ _) in *. destruct (mix_total m <? _) eqn:El; [done|]. intros [= <- <-].
  apply Z.ltb_ge in El. split; [done|]. split; [done|]. split; [done|].
  exists (map (fun rn => (rn.1, rn.2 * int_field (per_worker s))) m). split; [apply dget_dset|].
  split; [intros r; apply amount_map_mul|]. intros n Hn. apply dget_dset_ne. by apply not_eq_sym.
Qed.

(** ** The gateway's own budget *)

(** The GPUs of a resource that grants and clusters hold: a cluster that is listed
    counts by what it has, one that is not created yet by its grant. *)
Definition granted_all (grants : Grants) : list (string * Mix) := map (fun g => (g.1, g.2.1)) grants.
Definition others_all (cfg : GwConfig) (items : list json) : list (string * Mix) :=
  foldl (fun acc c => dset (counted_name c) (held_gpus cfg c) acc) [] items.
Definition committed (cfg : GwConfig) (r : string) (grants : Grants) (items : list json) : Z :=
  total r (dupdate (granted_all grants) (others_all cfg items)).

Lemma others_all_keys cfg items : NoDup (others_all cfg items).*1 /\
  forall k, k ∈ (others_all cfg items).*1 -> k ∈ map counted_name items.
Proof.
  unfold others_all. induction items as [|c items [IH1 IH2]] using rev_ind; [split; [constructor|done]|].
  rewrite foldl_app. cbn [foldl]. set (o := foldl _ _ items) in *. split; [by apply dset_keys|].
  intros k Hk. rewrite map_app, elem_of_app. apply list_elem_of_fmap in Hk as ([k0 v0] & -> & Hin). cbn [fst].
  destruct (decide (k0 = counted_name c)) as [->|Hne]; [right; by left|left].
  apply dset_elem_ne in Hin; [|done]. apply IH2. apply list_elem_of_fmap. by exists (k0, v0).
Qed.
Lemma granted_all_keys grants : (granted_all grants).*1 = grants.*1.
Proof. unfold granted_all. induction grants as [|g gs IH]; cbn; [done|]. by rewrite IH. Qed.
Lemma unexpired_keys now grants : NoDup grants.*1 -> NoDup (unexpired now grants).*1.
Proof.
  unfold unexpired. induction grants as [|g gs IH]; cbn; [done|]. intros [Hni Hnd]%NoDup_cons.
  destruct (now <?q _); [|by apply IH]. cbn. apply NoDup_cons. split; [|by apply IH].
  intros H. apply Hni. apply list_elem_of_fmap in H as (g' & E & Hin). apply list_elem_of_In, filter_In in Hin as [Hin _].
  apply list_elem_of_fmap. exists g'. split; [done|]. by apply list_elem_of_In.
Qed.
Lemma granted_of_ddel name grants : granted_of name grants = ddel name (granted_all grants).
Proof.
  unfold granted_of, granted_all, ddel. induction grants as [|[k g] gs IH]; cbn [List.filter map]; [done|].
  rewrite filter_cons. cbn [fst snd]. destruct (String.eqb_spec k name) as [->|Hne]; cbn [negb].
  - rewrite decide_False by (intros H; by apply H). exact IH.
  - rewrite decide_True by done. cbn [map fst snd]. by rewrite IH.
Qed.
Lemma total_nonneg r l : (forall n m, (n, m) ∈ l -> 0 <= amount r m) -> 0 <= total r l.
Proof.
  intros H. apply zsum_nonneg, Forall_forall. intros x Hx. apply list_elem_of_In, in_map_iff in Hx as ([n m] & <- & Hc).
  apply (H n m). by apply list_elem_of_In.
Qed.

Lemma filter_sublist_mono {A} (P : A -> Prop) `{forall x, Decision (P x)} l l' :
  l `sublist_of` l' -> filter P l `sublist_of` filter P l'.
Proof.
  intros Hs. induction Hs as [|x k k' Hs IH|x k k' Hs IH]; [done|..]; rewrite !filter_cons;
    case_decide; by try constructor.
Qed.
Lemma total_sublist r l l' : (forall n m, (n, m) ∈ l' -> 0 <= amount r m) -> l `sublist_of` l' -> total r l <= total r l'.
Proof.
  intros Hp Hs. induction Hs as [|[n m] k k' Hs IH|[n m] k k' Hs IH]; [done|..]; rewrite !total_cons; cbn [snd].
  - assert (total r k <= total r k'); [|lia]. apply IH. intros n' m' Hin. apply (Hp n'). by right.
  - pose proof (Hp n m (list_elem_of_here _ _)).
    assert (total r k <= total r k'); [|lia]. apply IH. intros n' m' Hin. apply (Hp n'). by right.
Qed.
Lemma granted_all_dset name g t grants : granted_all (dset name (g, t) grants) = dset name g (granted_all grants).
Proof.
  unfold granted_all. induction grants as [|[k v] gs IH]; cbn; [done|]. case_decide; cbn; [done|]. by rewrite IH.
Qed.
Lemma granted_all_unexpired now grants : granted_all (unexpired now grants) `sublist_of` granted_all grants.
Proof.
  unfold granted_all, unexpired. induction grants as [|g gs IH]; cbn; [done|].
  destruct (now <?q _); cbn; by constructor.
Qed.

(** C4: the budget holds while Prometheus is silent.  When the gateway does not know
    what is free, an admission of a cluster that is not listed yet leaves what is
    granted or held of each GPU its shape allows within the budget of that GPU, if
    it was so before: for one admission after another, in any order, with grants
    that run out in between. *)
Theorem no_overcommit cfg name s replaced items now grants mix grants' f :
  distinct_resources cfg -> 1 <= int_field (per_worker s) -> 1 <= int_field (workers s) ->
  NoDup grants.*1 -> (forall n g, (n, g) ∈ grants -> forall r, 0 <= amount r g.1) ->
  name ∉ map counted_name items -> In f (flavors cfg s) ->
  admit_ cfg name s replaced (200, items) now None grants = (Ok mix, grants') ->
  committed cfg (resource f) grants items <= budget f ->
  committed cfg (resource f) grants' items <= budget f /\
  NoDup grants'.*1 /\ (forall n g, (n, g) ∈ grants' -> forall r, 0 <= amount r g.1).
Proof.
  intros Hd He Hw Hnd Hpos Hni Hf Hadm Hc. unfold admit_ in Hadm. cbn [negb Z.eqb Pos.eqb] in Hadm.
  set (live_ := unexpired now grants) in *. set (O := others_all cfg items).
  destruct (others_all_keys cfg items) as [HO HOk]. fold O in HO, HOk.
  assert (Hothers : others_of cfg name items = O) by (apply ddel_notin; intros H; by apply Hni, HOk).
  rewrite Hothers, granted_of_ddel in Hadm.
  destruct (evict_inv cfg s replaced (ddel name (granted_all live_)) O None Hd He Hw) as (_ & Hamt & Hlim).
  set (m := evict _ _) in *. destruct (mix_total m <? _); [done|]. injection Hadm as <- <-.
  set (gpus := map _ m). assert (Hlive : NoDup live_.*1) by (by apply unexpired_keys).
  assert (Hlive' : NoDup (granted_all live_).*1) by (by rewrite granted_all_keys).
  assert (Hg0 : forall n v, (n, v) ∈ granted_all grants -> 0 <= amount (resource f) v).
  { intros n v H. unfold granted_all in H. apply list_elem_of_In, in_map_iff in H as ([n' g] & [= <- <-] & Hin).
    apply (Hpos n' g). by apply list_elem_of_In. }
  split; [|split].
  - assert (Hcom : committed cfg (resource f) (dset name (gpus, (now + GRANT_S)%Q) live_) items
      = amount (resource f) m * int_field (per_worker s)
        + total (resource f) (dupdate (ddel name (granted_all live_)) O)).
    { unfold committed. fold O. rewrite granted_all_dset.
      rewrite (total_perm _ _ _ (dupdate_split _ _ (dset_keys _ _ _ Hlive') HO)).
      rewrite (total_perm _ _ _ (dupdate_split _ _ (ddel_nodup _ _ Hlive') HO)).
      rewrite !total_app. unfold beside.
      rewrite (total_perm _ (filter _ (dset _ _ _)) (filter (fun kv => kv.1 ∉ O.*1) ((name, gpus) :: ddel name (granted_all live_))))
        by (by rewrite dset_perm).
      rewrite filter_cons, decide_True by (intros H; by apply Hni, HOk). rewrite total_cons. cbn [snd].
      unfold gpus. rewrite amount_map_mul. apply Z.add_shuffle3. }
    rewrite Hcom. destruct (Z.ltb_spec 0 (amount (resource f) m)) as [Hm|Hm].
    + destruct (Hlim f Hf Hm) as [H|(_ & _ & g & _ & [])]. unfold limit in H. lia.
    + assert (amount (resource f) m = 0) as -> by (destruct (Hamt (resource f)); lia).
      unfold committed in Hc. fold O in Hc.
      rewrite (total_perm _ _ _ (dupdate_split _ _ (ddel_nodup _ _ Hlive') HO)), total_app.
      assert (Hall : NoDup (granted_all grants).*1) by (by rewrite granted_all_keys).
      rewrite (total_perm _ _ _ (dupdate_split _ _ Hall HO)), total_app in Hc.
      assert (total (resource f) (beside (ddel name (granted_all live_)) O)
        <= total (resource f) (beside (granted_all grants) O)); [|lia].
      apply total_sublist.
      * intros n v H. unfold beside in H. apply list_elem_of_filter in H as [_ H]. by apply (Hg0 n).
      * unfold beside. apply filter_sublist_mono. etrans; [apply ddel_sublist|]. apply granted_all_unexpired.
  - by apply dset_keys.
  - intros n g Hin r. apply dset_elem in Hin as [[_ ->]|Hin]; cbn [fst].
    + unfold gpus. rewrite amount_map_mul. destruct (Hamt r). nia.
    + apply (Hpos n g). unfold live_, unexpired in Hin. apply list_elem_of_In, filter_In in Hin as [Hin _].
      by apply list_elem_of_In.
Qed.

(** A user's cluster of up to three workers of two T4s, of which Prometheus shows five free. *)
Definition demo_free : Free := [("nvidia.com/mig-1g.5gb", (3, 0)); ("nvidia.com/gpu", (5, 1))]%string.
Definition demo_admit (free : option Free) : res Refused Mix * Grants :=
  admit_ af_config "ray-train-ray" demo_shape [] (200, []) 1000 free [].
Example demo_admitted : (demo_admit (Some demo_free)).1 = Ok [("nvidia.com/gpu"%string, 2)] /\
  (demo_admit None).1 = Ok [("nvidia.com/gpu"%string, 3)].
Proof. vm_compute. auto. Qed.

Lemma admit_within_witness :
  int_field (least demo_shape) <= mix_total [("nvidia.com/gpu"%string, 2)] <= int_field (workers demo_shape).
Proof.
  refine (proj1 (admit_within af_config "ray-train-ray" demo_shape [] (200, []) 1000 (Some demo_free) []
    [("nvidia.com/gpu"%string, 2)] (demo_admit (Some demo_free)).2 af_distinct _ _ _));
    vm_compute; first [congruence | reflexivity].
Defined.
Lemma no_overcommit_witness :
  committed af_config "nvidia.com/gpu" (demo_admit None).2 [] = 6 /\
  committed af_config "nvidia.com/gpu" (demo_admit None).2 [] <= 8.
Proof.
  split; [vm_compute; reflexivity|].
  refine (proj1 (no_overcommit af_config "ray-train-ray" demo_shape [] [] 1000 []
    [("nvidia.com/gpu"%string, 3)] (demo_admit None).2 (mkFlavor "nvidia.com/gpu" 16 8 2) af_distinct _ _ _ _ _ _ _ _)).
  - vm_compute. congruence.
  - vm_compute. congruence.
  - constructor.
  - intros n g H. by apply elem_of_nil in H.
  - apply not_elem_of_nil.
  - vm_compute. auto.
  - vm_compute. reflexivity.
  - vm_compute. congruence.
Defined.
