(* ===== verification/NrpJobs.v ===== *)
(** Ray jobs on NRP, [apps/ray-train/nrp_jobs.py]: the RayJob a submission becomes
    there, where its code and data are in the bucket, and the bucket's operations. *)
From S2P Require Import Prelude PyJson PyText Sha256 NrpGpus RayNames RayShape RayBuild.
Open Scope Z_scope.

Definition JOBS_PREFIX : string := "ray-nrp/jobs".
Definition PACKAGE_SCHEME : string := "gcs://".
Definition ENTRYPOINT_RESOURCES : list (string * string) :=
  [("entrypoint_num_cpus", "entrypointNumCpus"); ("entrypoint_num_gpus", "entrypointNumGpus")]%string.

Definition owner_key (cluster owner : string) : string :=
  str_take 32 (sha256_hex (owner ++ "/" ++ cluster)%string).
Definition code_prefix (job : string) : string := JOBS_PREFIX ++ "/" ++ job.
Definition data_uri (bucket job part : string) : string :=
  "s3://" ++ bucket ++ "/" ++ code_prefix job ++ "/" ++ part.

(** ** The submission *)

Definition with_env_vars (runtime_env : json) (env_vars : list (string * json)) : json :=
  jset "env_vars" (jmerge (or_obj (jget "env_vars" runtime_env)) (JObj env_vars)) runtime_env.
(** [str(j)] of a text or a number. *)
Definition entrypoint_of (submission : json) : string :=
  str_take 4096 (json_text (jget_or "entrypoint" (JStr "") submission)).
Definition moved (bucket job : string) (uri : json) : json :=
  match uri with
  | JStr u =>
      if startswith PACKAGE_SCHEME u
      then JStr ("s3://" ++ bucket ++ "/" ++ code_prefix job ++ "/" ++ removeprefix PACKAGE_SCHEME u)%string
      else uri
  | _ => uri
  end.
Definition to_s3 (runtime_env : json) (bucket job : string) : json :=
  let out := runtime_env in
  let out := if jhas "working_dir" out then jupd "working_dir" (moved bucket job) out else out in
  if is_arr (jget "py_modules" out) then jupd "py_modules" (jmap (moved bucket job)) out else out.

(** ** [build_job] *)
Section BuildJob.
(** PyYAML's [safe_dump], and [json.dumps], whose text of a float is its [repr]. *)
Context (safe_dump dumps : json -> string).

(** [dict(submission.get("runtime_env") or {})], with the job's own variables. *)
Definition runtime_env_of (submission : json) (data : list (string * string)) : option json :=
  let env := or_obj (jget "runtime_env" submission) in
  if negb (is_obj env) then None else
  Some (match data with [] => env | _ => with_env_vars env (map (fun kv => (kv.1, JStr kv.2)) data) end).
Definition asked_resource (submission : json) (spec : json) (asked_field : string * string) : json :=
  match jget asked_field.1 submission with JNull => spec | amount => jset asked_field.2 amount spec end.
Definition gpu_affinity (models : list string) : json :=
  JObj [("nodeAffinity", JObj [("requiredDuringSchedulingIgnoredDuringExecution", JObj [("nodeSelectorTerms",
    JArr [JObj [("matchExpressions", JArr [JObj [("key", JStr PRODUCT_LABEL); ("operator", JStr "In");
      ("values", JArr (map JStr (str_sorted (map product models))))]])]])])])]%string.
Definition told (n : Z) (container : json) : json :=
  jset "env" (JArr (List.filter (fun e => negb (jeq_str (jget "name" e) MOST_VARIABLE)) (jlist (jget "env" container))
                    ++ [variable MOST_VARIABLE (pretty n)])) container.
Definition told_pod (n : Z) (pod : json) : json := jupd "spec" (jupd "containers" (jmap (told n))) pod.
Definition job_group (n : Z) (models : option (list string)) (grp : json) : json :=
  let grp := jupdate [("replicas", JInt n); ("minReplicas", JInt n); ("maxReplicas", JInt n)]%string grp in
  let grp := match models with
             | None => grp
             | Some models => jupd "template" (jupd "spec" (jset "affinity" (gpu_affinity models))) grp
             end in
  jupd "template" (told_pod n) grp.
Definition job_cluster (n : Z) (models : option (list string)) (cluster : json) : json :=
  let grp := hd JNull (jlist (jget "workerGroupSpecs" cluster)) in
  let cluster := jupd "headGroupSpec" (jupd "template" (told_pod n)) cluster in
  jset "workerGroupSpecs" (JArr [job_group n models grp]) cluster.
Definition job_spec (bucket name : string) (submission entrypoint : json) (n : Z) (models : option (list string))
    (ttl : Z) (data : list (string * string)) (env spec : json) : json :=
  let spec := jset "suspend" (JBool (dhas "AF_INPUTS" data)) spec in
  let spec := jset "jobId" (jget "submission_id" submission) spec in
  let spec := jset "entrypoint" (JStr (json_text entrypoint)) spec in
  let spec := jset "ttlSecondsAfterFinished" (JInt ttl) spec in
  let spec := if truthy env then jset "runtimeEnvYAML" (JStr (safe_dump (to_s3 env bucket name))) spec else spec in
  let spec := foldl (asked_resource submission) spec ENTRYPOINT_RESOURCES in
  let resources := jget "entrypoint_resources" submission in
  let spec := if truthy resources then jset "entrypointResources" (JStr (dumps resources)) spec else spec in
  jupd "rayClusterSpec" (job_cluster n models) spec.
(** [None]: no [entrypoint], or a [runtime_env] that is no object, which raise. *)
Definition build_job (template : json) (name owner : string) (submission : json) (bucket : string) (workers : Z)
    (models : option (list string)) (ttl : Z) (data : list (string * string)) : option json :=
  if negb (jhas "entrypoint" submission) then None else
  env ← runtime_env_of submission data;
  let job := jupd "metadata" (fun metadata =>
    let metadata := jset "name" (JStr name) metadata in
    let metadata := jupd "labels" (jset OWNER_LABEL (JStr owner)) metadata in
    jset "annotations" (JObj [(ENTRYPOINT_ANNOTATION, JStr (entrypoint_of submission))]) metadata) template in
  Some (jupd "spec" (job_spec bucket name submission (jget "entrypoint" submission) workers models ttl data env) job).
End BuildJob.

Definition workers_of (job : json) : Z :=
  int_json (jget "replicas" (hd JNull (jlist (jget "workerGroupSpecs" (jget "rayClusterSpec" (jget "spec" job)))))).

(** ** [Bucket] *)
Section Bucket.
(** boto3's client: [list_objects_v2], the keys under a prefix, at most so many;
    [delete_objects], the keys it could not delete; and all keys under a prefix,
    with the times they were written. *)
Context {Store : Type} (list_objects : Store -> string -> nat -> list string)
  (delete_objects : Store -> list string -> list string * Store)
  (all_objects : Store -> string -> list (string * Q)).

Definition exists_ (s : Store) (key : string) : bool :=
  existsb (String.eqb key) (list_objects s key 1).
(** How many were deleted, or the keys S3 kept, which raises. *)
Inductive Deleted := AllDeleted (n : Z) | Kept (keys : list string) | OutOfFuel.
(** S3 lists 1000 keys unless asked for fewer. *)
Definition PAGE : nat := 1000.
Fixpoint delete_prefix (fuel : nat) (prefix : string) (deleted : Z) (s : Store) : Deleted * Store :=
  match fuel with
  | O => (OutOfFuel, s)
  | S fuel' =>
      let keys := list_objects s (prefix ++ "/")%string PAGE in
      if bool_decide (keys = []) then (AllDeleted deleted, s) else
      let '(errors, s) := delete_objects s keys in
      if negb (bool_decide (errors = [])) then (Kept errors, s) else
      delete_prefix fuel' prefix (deleted + Z.of_nat (List.length keys)) s
  end.
Definition job_of (key : string) : string :=
  (str_partition "/" (removeprefix (JOBS_PREFIX ++ "/") key)).1.
Definition jobs (s : Store) : list (string * Q) :=
  foldl (fun newest o =>
    let job := job_of o.1 in
    if String.eqb job "" then newest else
    let seen := dget_or job 0%Q newest in
    dset job (if seen <?q o.2 then o.2 else seen) newest) [] (all_objects s (JOBS_PREFIX ++ "/")%string).
End Bucket.

(** ** What is deleted *)
Section DeletePrefix.
Context {Store : Type} (list_objects : Store -> string -> nat -> list string)
  (delete_objects : Store -> list string -> list string * Store) (keys : Store -> list string).
(** What S3 documents: a listing is the first of the keys with the prefix; a deletion
    takes the keys it is given but for those it reports. *)
Definition lists : Prop := forall s p n, list_objects s p n = take n (List.filter (startswith p) (keys s)).
Definition deletes : Prop := forall s ks, let '(errors, s') := delete_objects s ks in
  errors ⊆ ks /\
  keys s' = List.filter (fun k => negb (bool_decide (k ∈ ks)) || bool_decide (k ∈ errors)) (keys s).
Context (Hlist : lists) (Hdelete : deletes).

Definition beneath (prefix : string) (s : Store) : list string :=
  List.filter (startswith (prefix ++ "/")%string) (keys s).
Definition outside (prefix : string) (s : Store) : list string :=
  List.filter (fun k => negb (startswith (prefix ++ "/") k)) (keys s).

Lemma filter_comm {A} (p q : A -> bool) l : List.filter p (List.filter q l) = List.filter q (List.filter p l).
Proof.
  induction l as [|x l IH]; [done|]. cbn. destruct (p x) eqn:Ep, (q x) eqn:Eq; cbn; rewrite ?Ep, ?Eq, IH; done.
Qed.
Lemma filter_all {A} (p : A -> bool) l : (forall x, x ∈ l -> p x = true) -> List.filter p l = l.
Proof.
  induction l as [|x l IH]; intros H; [done|]. cbn. rewrite (H x) by by left. f_equal. apply IH. intros y Hy. apply H. by right.
Qed.
Lemma filter_none {A} (p : A -> bool) l : (forall x, x ∈ l -> p x = false) -> List.filter p l = [].
Proof.
  induction l as [|x l IH]; intros H; [done|]. cbn. rewrite (H x) by by left. apply IH. intros y Hy. apply H. by right.
Qed.
Lemma elem_filter {A} (p : A -> bool) x l : x ∈ List.filter p l <-> x ∈ l /\ p x = true.
Proof. by rewrite !list_elem_of_In, filter_In. Qed.
(** The rest of a list without its first elements. *)
Lemma filter_rest (n : nat) (l : list string) : NoDup l ->
  List.filter (fun k => negb (bool_decide (k ∈ take n l))) l = drop n l.
Proof.
  intros Hnd. assert (Hl : l = take n l ++ drop n l) by (symmetry; apply take_drop). revert Hl.
  generalize (take n l) (drop n l). intros l1 l2 ->. rewrite List.filter_app. apply NoDup_app in Hnd as (_ & Hd & _). rewrite filter_none, filter_all; [done| |].
  - intros k Hk. rewrite bool_decide_eq_false_2; [done|]. intros H. by apply (Hd k H).
  - intros k Hk. by rewrite bool_decide_eq_true_2.
Qed.

(** A page that is deleted whole: the keys beneath the prefix are the rest, the others stay. *)
Lemma page_deleted prefix s s' : NoDup (keys s) ->
  delete_objects s (take PAGE (beneath prefix s)) = ([], s') ->
  NoDup (keys s') /\ beneath prefix s' = drop PAGE (beneath prefix s) /\ outside prefix s' = outside prefix s.
Proof.
  intros Hnd Hd. pose proof (Hdelete s (take PAGE (beneath prefix s))) as H. rewrite Hd in H. destruct H as [_ Hk].
  unfold beneath at 1, outside at 1. rewrite Hk. split; [by apply NoDup_ListNoDup, List.NoDup_filter, NoDup_ListNoDup|].
  rewrite !(filter_comm _ (fun k => negb _ || _)). fold (beneath prefix s) (outside prefix s). split.
  - rewrite <- filter_rest by (by apply NoDup_ListNoDup, List.NoDup_filter, NoDup_ListNoDup).
    apply List.filter_ext. intros k. rewrite (bool_decide_eq_false_2 (k ∈ [])); [apply orb_false_r|apply not_elem_of_nil].
  - apply filter_all. intros k Hk'. apply elem_filter in Hk' as [_ Hk'].
    rewrite bool_decide_eq_false_2; [done|]. intros Hin. apply elem_of_take in Hin as (i & Hi & _).
    apply list_elem_of_lookup_2, elem_filter in Hi as [_ Hi]. by rewrite Hi in Hk'.
Qed.

(** [delete_prefix] deletes everything beneath a prefix and nothing else, a page
    at a time, and counts it; it returns, however much there is; and where S3 keeps a
    key, it raises rather than list the same keys for ever. *)
Theorem delete_prefix_sound prefix s fuel deleted :
  NoDup (keys s) -> (List.length (beneath prefix s) < fuel)%nat ->
  let '(r, s') := delete_prefix list_objects delete_objects fuel prefix deleted s in
  outside prefix s' = outside prefix s /\
  match r with
  | AllDeleted n => beneath prefix s' = [] /\ n = deleted + Z.of_nat (List.length (beneath prefix s))
  | Kept errors => errors <> [] /\ forall k, k ∈ errors -> k ∈ beneath prefix s'
  | OutOfFuel => False
  end.
Proof.
  revert s deleted. induction fuel as [|fuel IH]; intros s deleted Hnd Hf; [lia|]. cbn [delete_prefix].
  rewrite Hlist. fold (beneath prefix s). case_bool_decide as Hp.
  { assert (Hb : beneath prefix s = []) by (destruct (beneath prefix s); [done|discriminate Hp]).
    rewrite Hb. cbn. repeat split. lia. }
  pose proof (Hdelete s (take PAGE (beneath prefix s))) as Hd.
  destruct (delete_objects s _) as [errors s1] eqn:E. destruct Hd as [Hsub Hk]. case_bool_decide as He; cbn [negb].
  - subst errors. destruct (page_deleted _ _ _ Hnd E) as (Hnd1 & Hb1 & Ho1).
    assert (Hlen : (List.length (take PAGE (beneath prefix s)) + List.length (beneath prefix s1)
                    = List.length (beneath prefix s))%nat) by (rewrite Hb1, <- length_app; by rewrite take_drop).
    assert (0 < List.length (take PAGE (beneath prefix s)))%nat by (destruct (take PAGE (beneath prefix s)); cbn; [done|lia]).
    specialize (IH s1 (deleted + Z.of_nat (List.length (take PAGE (beneath prefix s)))) Hnd1 ltac:(lia)).
    destruct (delete_prefix _ _ fuel prefix _ s1) as [r s']. rewrite Ho1 in IH. destruct IH as [Ho Hr].
    split; [done|]. destruct r as [n|l|]; [|done..]. destruct Hr as [Hb ->]. split; [done|]. lia.
  - assert (Hin : forall k, k ∈ errors -> k ∈ beneath prefix s).
    { intros k Hk'. apply Hsub, elem_of_take in Hk' as (i & Hi & _). by apply list_elem_of_lookup_2 in Hi. }
    unfold beneath, outside. rewrite Hk, !(filter_comm _ (fun k => negb _ || _)).
    fold (beneath prefix s) (outside prefix s). split; [|split; [done|]].
    + apply filter_all. intros k Hk'. apply elem_filter in Hk' as [_ Hk']. rewrite bool_decide_eq_false_2; [done|].
      intros H. apply elem_of_take in H as (i & Hi & _). apply list_elem_of_lookup_2, elem_filter in Hi as [_ Hi].
      by rewrite Hi in Hk'.
    + intros k Hk'. apply elem_filter. split; [by apply Hin|]. rewrite (bool_decide_eq_true_2 (k ∈ errors)) by done.
      apply orb_true_r.
Qed.
End DeletePrefix.

(** A bucket that answers as documented. *)
Definition demo_list (s : list string) (p : string) (n : nat) : list string := take n (List.filter (startswith p) s).
Definition demo_delete (s ks : list string) : list string * list string :=
  ([], List.filter (fun k => negb (bool_decide (k ∈ ks))) s).
Lemma demo_deletes : deletes demo_delete id.
Proof.
  intros s ks. split; [intros k Hk; by apply not_elem_of_nil in Hk|]. apply List.filter_ext. intros k.
  rewrite (bool_decide_eq_false_2 (k ∈ [])); [by rewrite orb_false_r|apply not_elem_of_nil].
Qed.
Definition demo_bucket : list string :=
  ["ray-nrp/jobs/a/code.zip"; "ray-nrp/jobs/a/output/x"; "ray-nrp/jobs/ab/code.zip"]%string.
Lemma delete_prefix_sound_witness :
  delete_prefix demo_list demo_delete 5 (code_prefix "a") 0 demo_bucket = (AllDeleted 2, ["ray-nrp/jobs/ab/code.zip"]%string)
  /\ beneath id (code_prefix "a") (delete_prefix demo_list demo_delete 5 (code_prefix "a") 0 demo_bucket).2 = [].
Proof.
  split; [vm_compute; reflexivity|].
  pose proof (delete_prefix_sound demo_list demo_delete id (fun _ _ _ => eq_refl) demo_deletes (code_prefix "a") demo_bucket 5 0)
    as H.
  destruct (delete_prefix demo_list demo_delete 5 (code_prefix "a") 0 demo_bucket) as [r s'] eqn:E.
  assert (Hr : r = AllDeleted 2) by (vm_compute in E; by injection E).
  rewrite Hr in H. refine (proj1 (proj2 (H _ _))); [|vm_compute; lia].
  apply NoDup_ListNoDup. vm_compute. repeat (constructor; [cbn; intuition discriminate|]). constructor.
Defined.

(** ** The RayJob of a submission *)

(** A template as [build_job] takes one apart: one worker group. *)
Definition nrp_cluster (job : json) : json := jget "rayClusterSpec" (jget "spec" job).
Definition nrp_group (job : json) : json := hd JNull (jlist (jget "workerGroupSpecs" (nrp_cluster job))).
Definition pod_containers (pod : json) : list json := jlist (jget "containers" (jget "spec" (jget "template" pod))).
Definition pod_ok (pod : json) : Prop :=
  is_obj pod = true /\ is_obj (jget "template" pod) = true /\ is_obj (jget "spec" (jget "template" pod)) = true /\
  is_arr (jget "containers" (jget "spec" (jget "template" pod))) = true.
Record nrp_template_ok (t : json) : Prop := {
  nt_obj : is_obj t = true;
  nt_metadata : is_obj (jget "metadata" t) = true;
  nt_labels : is_obj (jget "labels" (jget "metadata" t)) = true;
  nt_spec : is_obj (jget "spec" t) = true;
  nt_cluster : is_obj (nrp_cluster t) = true;
  nt_head : pod_ok (jget "headGroupSpec" (nrp_cluster t));
  nt_group : pod_ok (nrp_group t) }.

Lemma told_containers n pod : pod_ok pod ->
  pod_containers (jupd "template" (told_pod n) pod) = map (told n) (pod_containers pod).
Proof.
  intros (H1 & H2 & H3 & H4). unfold pod_containers, told_pod. read_json.
  by destruct (jget "containers" _) as [| | | | |l|].
Qed.
Lemma group_containers_told n models grp : pod_ok grp ->
  pod_containers (job_group n models grp) = map (told n) (pod_containers grp) /\ jget "replicas" (job_group n models grp) = JInt n.
Proof.
  intros (H1 & H2 & H3 & H4). unfold job_group. cbv zeta.
  set (g1 := jupdate _ grp). assert (Hk : forall k, k ∉ ["replicas"; "minReplicas"; "maxReplicas"]%string -> jget k g1 = jget k grp)
    by (intros k Hk; by apply jget_jupdate_ne).
  assert (Ho : is_obj g1 = true) by (unfold g1; by rewrite is_obj_jupdate).
  assert (Ht : jget "template" g1 = jget "template" grp) by (apply Hk; set_solver).
  assert (Hr : jget "replicas" g1 = JInt n).
  { unfold g1. apply jget_jupdate; [done| |done]. apply NoDup_ListNoDup.
    repeat (constructor; [cbn; intuition discriminate|]). constructor. }
  destruct models as [models|].
  - rewrite told_containers.
    + unfold pod_containers. rewrite jget_jupd by done. rewrite Ht. read_json. done.
    + repeat split; rewrite ?is_obj_jupd, ?jget_jupd by done; rewrite ?Ht; read_json; is_object.
  - rewrite told_containers by (repeat split; by rewrite ?Ht). unfold pod_containers. rewrite Ht. by read_json.
Qed.

(** The variable that [told] sets is there once, with its value. *)
Lemma told_once n c : is_obj c = true ->
  List.filter (fun e => jeq_str (jget "name" e) MOST_VARIABLE) (jlist (jget "env" (told n c))) = [variable MOST_VARIABLE (pretty n)].
Proof.
  intros Ho. unfold told. read_json. cbn [jlist]. rewrite List.filter_app.
  assert (List.filter (fun e => jeq_str (jget "name" e) MOST_VARIABLE)
    (List.filter (fun e => negb (jeq_str (jget "name" e) MOST_VARIABLE)) (jlist (jget "env" c))) = []) as ->; [|done].
  induction (jlist (jget "env" c)) as [|e l IH]; [done|]. cbn [List.filter].
  destruct (jeq_str (jget "name" e) MOST_VARIABLE) eqn:E; cbn [negb List.filter]; [done|]. by rewrite E.
Qed.

Section Built.
Context (safe_dump dumps : json -> string).
Lemma job_spec_reads bucket name submission entrypoint n models ttl data env spec : is_obj spec = true ->
  let built := job_spec safe_dump dumps bucket name submission entrypoint n models ttl data env spec in
  is_obj built = true /\ jget "rayClusterSpec" built = job_cluster n models (jget "rayClusterSpec" spec) /\
  jget "suspend" built = JBool (dhas "AF_INPUTS"%string data) /\ jget "jobId" built = jget "submission_id" submission /\
  jget "entrypoint" built = JStr (json_text entrypoint).
Proof.
  intros Ho. cbv zeta. unfold job_spec. cbv zeta.
  set (s4 := jset "ttlSecondsAfterFinished" _ _).
  assert (H4 : is_obj s4 = true /\ forall k, k ∉ ["suspend"; "jobId"; "entrypoint"; "ttlSecondsAfterFinished"]%string ->
    jget k s4 = jget k spec).
  { split; [unfold s4; is_object|]. intros k Hk. rewrite !not_elem_of_cons in Hk. destruct Hk as (Ha & Hb & Hc & Hd & _).
    unfold s4. by rewrite !jget_jset_ne by done. }
  assert (Hread : jget "suspend" s4 = JBool (dhas "AF_INPUTS"%string data) /\ jget "jobId" s4 = jget "submission_id" submission /\
    jget "entrypoint" s4 = JStr (json_text entrypoint)) by (unfold s4; split; [|split]; by read_json).
  clearbody s4. destruct H4 as [H4 Hk]. assert (Hc : jget "rayClusterSpec" s4 = jget "rayClusterSpec" spec) by (apply Hk; set_solver).
  set (s5 := if truthy env then _ else s4).
  assert (H5 : is_obj s5 = true /\ forall k, k <> "runtimeEnvYAML"%string -> jget k s5 = jget k s4).
  { unfold s5. destruct (truthy env); [|done]. split; [is_object|]. intros k Hne. by rewrite jget_jset_ne by congruence. }
  clearbody s5. destruct H5 as [H5 H5k]. set (s6 := foldl _ s5 _).
  assert (H6 : is_obj s6 = true /\ forall k, k ∉ ["entrypointNumCpus"; "entrypointNumGpus"]%string -> jget k s6 = jget k s5).
  { assert (Ha : forall sp af, is_obj sp = true -> is_obj (asked_resource submission sp af) = true /\
      forall k, k <> af.2 -> jget k (asked_resource submission sp af) = jget k sp).
    { intros sp af Hsp. unfold asked_resource. destruct (jget af.1 submission); try done;
        (split; [is_object|intros k Hne; by rewrite jget_jset_ne by congruence]). }
    unfold s6, ENTRYPOINT_RESOURCES. cbn [foldl]. destruct (Ha s5 ("entrypoint_num_cpus", "entrypointNumCpus")%string H5) as [Ho1 Hk1].
    destruct (Ha _ ("entrypoint_num_gpus", "entrypointNumGpus")%string Ho1) as [Ho2 Hk2]. split; [done|].
    intros k Hni. rewrite !not_elem_of_cons in Hni. destruct Hni as (N1 & N2 & _). by rewrite Hk2, Hk1. }
  clearbody s6. destruct H6 as [H6 H6k]. set (s7 := if truthy (jget "entrypoint_resources" submission) then _ else s6).
  assert (H7 : is_obj s7 = true /\ forall k, k <> "entrypointResources"%string -> jget k s7 = jget k s6).
  { unfold s7. destruct (truthy _); [|done]. split; [is_object|]. intros k Hne. by rewrite jget_jset_ne by congruence. }
  clearbody s7. destruct H7 as [H7 H7k]. destruct Hread as (R1 & R2 & R3).
  assert (Hall : forall k, k ∈ ["suspend"; "jobId"; "entrypoint"; "rayClusterSpec"]%string -> jget k s7 = jget k s4).
  { intros k Hin. rewrite !elem_of_cons in Hin.
    destruct Hin as [->|[->|[->|[->|Hin]]]]; [..|by apply not_elem_of_nil in Hin];
      (rewrite H7k, H6k, H5k; [done|discriminate|by apply (bool_decide_unpack _)|discriminate]). }
  split; [is_object|]. rewrite jget_jupd by done. rewrite !(jget_jupd_ne "rayClusterSpec") by discriminate.
  rewrite !Hall by by apply (bool_decide_unpack _). by rewrite Hc.
Qed.

(** The RayJob of a submission on NRP is the template's, with what was asked.  It
    has the job's name, its owner's key, the submission's ID and entrypoint; it is
    created suspended exactly when its inputs are still to be copied; its one group has
    as many workers as were granted; and every container of its head and workers has
    the template's environment, the number of workers told once and truly, whatever the
    template said of it. *)
Theorem nrp_job_built t name owner submission bucket n models ttl data job : nrp_template_ok t ->
  build_job safe_dump dumps t name owner submission bucket n models ttl data = Some job ->
  jget "name" (jget "metadata" job) = JStr name /\
  jget OWNER_LABEL (jget "labels" (jget "metadata" job)) = JStr owner /\
  jget "jobId" (jget "spec" job) = jget "submission_id" submission /\
  jget "entrypoint" (jget "spec" job) = JStr (json_text (jget "entrypoint" submission)) /\
  jget "suspend" (jget "spec" job) = JBool (dhas "AF_INPUTS"%string data) /\
  workers_of job = n /\
  pod_containers (nrp_group job) = map (told n) (pod_containers (nrp_group t)) /\
  pod_containers (jget "headGroupSpec" (nrp_cluster job)) = map (told n) (pod_containers (jget "headGroupSpec" (nrp_cluster t))) /\
  forall c, is_obj c = true ->
    List.filter (fun e => jeq_str (jget "name" e) MOST_VARIABLE) (jlist (jget "env" (told n c)))
    = [variable MOST_VARIABLE (pretty n)].
Proof.
  intros [] H. unfold build_job in H. destruct (jhas "entrypoint" submission); [|done].
  destruct (runtime_env_of submission data) as [env|]; [|done]. cbn in H. apply (inj Some) in H as <-.
  match goal with |- context [job_spec ?sd ?du ?b ?nm ?sub ?en ?k ?mo ?tt' ?da ?ev] =>
    pose proof (job_spec_reads b nm sub en k mo tt' da ev (jget "spec" t) nt_spec0) as (B1 & B2 & B3 & B4 & B5);
    set (built := job_spec sd du b nm sub en k mo tt' da ev (jget "spec" t)) in * end.
  set (job := jupd "spec" _ _).
  assert (Hs : jget "spec" job = built).
  { unfold job. rewrite jget_jupd by is_object. rewrite jget_jupd_ne by discriminate. reflexivity. }
  assert (Hm : jget "metadata" job = (fun metadata => jset "annotations" (JObj [(ENTRYPOINT_ANNOTATION, JStr (entrypoint_of submission))])
      (jupd "labels" (jset OWNER_LABEL (JStr owner)) (jset "name" (JStr name) metadata))) (jget "metadata" t)).
  { unfold job. rewrite jget_jupd_ne by discriminate. by rewrite jget_jupd. }
  clearbody job. clearbody built. destruct nt_head0 as (P1 & P2 & P3 & P4).
  assert (Hc : nrp_cluster job = job_cluster n models (nrp_cluster t)) by (unfold nrp_cluster; by rewrite Hs, B2).
  assert (Hg : nrp_group job = job_group n models (nrp_group t)).
  { unfold nrp_group at 1. rewrite Hc. unfold job_cluster. cbv zeta. by rewrite jget_jset_obj by is_object. }
  destruct (group_containers_told n models (nrp_group t) nt_group0) as [G1 G2].
  split; [rewrite Hm; by read_json|]. split; [rewrite Hm; by read_json|].
  rewrite Hs. split; [done|]. split; [done|]. split; [done|].
  split; [change (workers_of job) with (int_json (jget "replicas" (nrp_group job))); by rewrite Hg, G2|].
  split; [by rewrite Hg|]. split; [|apply told_once].
  rewrite Hc. unfold job_cluster. cbv zeta. rewrite jget_jset_ne by discriminate. rewrite jget_jupd by done. by apply told_containers.
Qed.
End Built.

(** The shape of [rayjob-nrp.yaml], whose head and worker share their environment. *)
Definition demo_nrp_container (name : string) : json :=
  JObj [("name", JStr name); ("env", JArr [variable "NCCL_IB_DISABLE" "1"; variable MOST_VARIABLE "9"]);
        ("resources", JObj [("requests", JObj [("cpu", JStr "8"); ("memory", JStr "32Gi"); ("nvidia.com/gpu", JInt 1)])])]%string.
Definition demo_nrp_pod (name : string) : list (string * json) :=
  [("template", JObj [("spec", JObj [("containers", JArr [demo_nrp_container name])])])]%string.
Definition demo_nrp_template : json :=
  JObj [("metadata", JObj [("labels", JObj [(MANAGED_LABEL, JStr MANAGED_BY)])]);
        ("spec", JObj [("rayClusterSpec", JObj [("headGroupSpec", JObj (demo_nrp_pod "ray-head"));
           ("workerGroupSpecs", JArr [JObj (demo_nrp_pod "ray-worker")])])])]%string.
Definition demo_submission : json :=
  JObj [("entrypoint", JStr "python train.py"); ("submission_id", JStr "raysubmit_1")]%string.
Definition demo_built : option json :=
  build_job json_text json_text demo_nrp_template "ray-job-1" "key" demo_submission "af" 3 None 0 [("AF_INPUTS", "s3://x")]%string.
Lemma nrp_job_built_witness : exists job, demo_built = Some job /\
  jget "suspend" (jget "spec" job) = JBool true /\ workers_of job = 3.
Proof.
  destruct demo_built as [job|] eqn:E; [|vm_compute in E; discriminate]. exists job. split; [reflexivity|].
  destruct (nrp_job_built json_text json_text demo_nrp_template "ray-job-1" "key" demo_submission "af" 3 None 0
    [("AF_INPUTS", "s3://x")]%string job ltac:(by constructor; try done; vm_compute) E) as (_ & _ & _ & _ & H5 & H6 & _).
  split; [exact H5|exact H6].
Defined.
