(* ===== verification/RayState.v ===== *)
(** The Ray gateway's state, what it asks of Kubernetes, NRP, S3, Prometheus, the Hub
    and the clusters' heads, and the calls that its operations share
    ([apps/ray-train/gateway.py], class Gateway).  One operation's run is sequential;
    the locks [admitting] and [submitting] are held by whole runs. *)
From S2P Require Import Prelude PyJson PyText PyTime PyValue NrpGpus Sha256 RayNames RayShape RayBuild RayAdmit.
Open Scope Z_scope.

(** ** Requests and answers *)

(** What a run may raise: a refusal; [ClientError] or [TimeoutError]; anything else.
    [OutOfFuel] is no exception: it says that a loop's fuel was too little. *)
Inductive Exc := Refusal (r : Refused) | NoAnswer | Failure | OutOfFuel.
(** A head's answer to a GET: JSON, an HTTP error, or none. *)
Inductive HeadAnswer := HeadJson (j : json) | HeadError (status : Z) | HeadSilent.
Inductive Req :=
| Kube (method path : string) (body : json)              (** [Gateway.kube] *)
| Nrp (method path : string) (body : json)               (** [NrpApi.call] *)
| Prom (url query : string)                              (** a query to a Prometheus *)
| Hub (path token : string)                              (** a GET of the Hub's API *)
| Ldap (account : string)                                (** [ldap_ids] *)
| HeadGet (cluster keyed path : string)
| HeadStatus (cluster keyed : string) (authorized : bool)  (** the status of its /api/version *)
| HeadTail (cluster keyed submission : string)           (** the texts of a job's log tail *)
| HeadPost (cluster keyed path : string)                 (** its errors are suppressed *)
| S3Clear (prefix : string) | S3Jobs | S3Put (key : string) | S3Exists (key : string)
| Now | Monotonic | Sleep (seconds : Q) | NewSubmission
| CloseChannel (cluster : string).
(** [None] where the call raises; an HTTP answer is its status and its JSON. *)
Definition Ans (r : Req) : Type :=
  match r with
  | Kube _ _ _ | Nrp _ _ _ | Hub _ _ => option (Z * json)
  | Ldap _ => res Refused (Z * Z)
  | HeadGet _ _ _ => HeadAnswer
  | HeadStatus _ _ _ => option Z
  | HeadTail _ _ _ => option (list string)
  | HeadPost _ _ _ => unit
  | Prom _ _ => option (list Sample)
  | S3Clear _ | S3Put _ => bool
  | S3Exists _ => option bool
  | S3Jobs => option (list (string * Q))
  | Now | Monotonic => Q
  | Sleep _ | CloseChannel _ => unit
  | NewSubmission => string
  end.
Definition Ev : Type := sigT Ans.

(** ** Settings and state *)

(** [config.yaml]'s times and the names that the environment gives. *)
Record Settings := mkSettings {
  NAMESPACE : string; NRP_NAMESPACE : string; BUCKET : string;
  PROMETHEUS_URL : string; NRP_PROMETHEUS_URL : string;
  IDLE_TIMEOUT_S : Q; START_TIMEOUT_S : Q; START_POLL_S : Q; PROVISION_TIMEOUT_S : Q;
  USER_CACHE_S : Q; GONE_S : Q; JOB_RECORD_S : Q;
  NRP_START_TIMEOUT_S : Q; NRP_MIN_UTILIZATION : Q; NRP_UTILIZATION_WINDOW_S : Z }.
(** What a job on NRP holds. *)
Record NrpUsage := mkUsage {
  nu_cluster : string; nu_user : string; nu_gpus : list (string * Z); nu_utilization : option Q }.
(** [Waiting]: a user's job that waits for its submission, the head it waits on, in which shape, and since when. *)
Record Waiting := mkWaiting { w_name : string; w_head : string; w_shape : Shape; w_since : Q }.
Record Gateway := mkGateway {
  last_used : list (string * Q);
  started : list (string * (string * Shape));
  clients : list (string * list string);
  gone : list (string * (Q * string));
  never_started : list (string * string);
  grants : Grants;
  users : list (string * (Q * User));
  waiting : list (string * Waiting);
  nrp_waiting : list (string * (string * Q));
  nrp_cleaned : list string;
  nrp_owners : list (string * string);
  nrp_owners_asked : instant;
  nrp_held : option (list NrpUsage) }.
#[export] Instance eta_Gateway : Eta Gateway := {| eta_of r :=
  mkGateway (last_used r) (started r) (clients r) (gone r) (never_started r) (grants r) (users r) (waiting r)
    (nrp_waiting r) (nrp_cleaned r) (nrp_owners r) (nrp_owners_asked r) (nrp_held r) |}.
Definition gateway0 : Gateway := mkGateway [] [] [] [] [] [] [] [] [] [] [] None None.

Definition GW (A : Type) : Type := M Ev Gateway Exc A.

(** ** Texts *)

Definition MANAGED_SELECTOR : string := MANAGED_LABEL ++ "=" ++ MANAGED_BY.
Definition SINCE_ANNOTATION : string := "purdue-af/ray-since".
Definition LOGS_ANNOTATION : string := "purdue-af/ray-logs".
Definition FROM_CRD : string := "ray.io/originated-from-crd".
(** [stamp(when)]: whole seconds. *)
Definition stamp (when_ : Q) : string := iso_stamp (Qfloor when_).
(** [datetime.fromisoformat(text).timestamp()], of the form that [stamp] and Kubernetes write. *)
Definition read_stamp (text : string) : option Q := option_map qz (iso_parse text).
Definition epoch_ms (j : json) : option (option Z) :=
  if truthy j then option_map (fun t => Some (py_int (t * 1000)%Q)) (read_stamp (jstr j)) else Some None.

(** ** Calls *)
Section Calls.
Context (cf : Settings) (svc : service Req Ans).

Definition namespaced (api kind : string) : string :=
  (api ++ "/namespaces/" ++ NAMESPACE cf ++ "/" ++ kind)%string.
Definition RAYCLUSTERS : string := namespaced "/apis/ray.io/v1" "rayclusters".
Definition RAYJOBS : string := namespaced "/apis/ray.io/v1" "rayjobs".
Definition SECRETS : string := namespaced "/api/v1" "secrets".
Definition CONFIGMAPS : string := namespaced "/api/v1" "configmaps".
Definition JOBS : string := namespaced "/apis/batch/v1" "jobs".
(** [NrpApi.path] *)
Definition nrp_path (kind : string) : string :=
  ((if String.eqb kind "pods" then "/api/v1" else "/apis/ray.io/v1")
   ++ "/namespaces/" ++ NRP_NAMESPACE cf ++ "/" ++ kind)%string.

Definition refused {A} (c : StatusCode) (text : string) : GW A := raise (Refusal (mkRefused c text)).
Definition or_raise {A} (e : Exc) (a : option A) : GW A :=
  match a with Some x => mret x | None => raise e end.
Definition kube (method path : string) (body : json) : GW (Z * json) :=
  a ← (mcall svc (Kube method path body) : GW (option (Z * json))); or_raise NoAnswer a.
Definition nrp_call (method path : string) (body : json) : GW (Z * json) :=
  a ← (mcall svc (Nrp method path body) : GW (option (Z * json))); or_raise NoAnswer a.
Definition time : GW Q := mcall svc Now.
Definition monotonic : GW Q := mcall svc Monotonic.
Definition sleep (seconds : Q) : GW unit := mcall svc (Sleep seconds).
Definition delete_prefix (prefix : string) : GW unit :=
  ok ← (mcall svc (S3Clear prefix) : GW bool); if ok : bool then mret tt else raise Failure.

Definition kube_get (collection name what : string) : GW (option json) :=
  '(status, body) ← kube "GET" (collection ++ "/" ++ name) JNull;
  if status =? 404 then mret None
  else if negb (status =? 200) then
    refused UNAVAILABLE ("Kubernetes answered HTTP " ++ pretty status ++ " for " ++ what ++ ".")
  else mret (Some body).
Definition listed (collection selector : string) : GW (Z * json) :=
  kube "GET" (collection ++ "?labelSelector=" ++ quote "~" selector) JNull.
Definition propagation (policy : string) : json := JObj [("propagationPolicy", JStr policy)]%string.
Definition delete_rayjob (name : string) : GW Z :=
  '(status, _) ← kube "DELETE" (RAYJOBS ++ "/" ++ name) (propagation "Background"); mret status.
Definition cluster (name : string) : GW (option json) := kube_get RAYCLUSTERS name "the Ray cluster".
End Calls.

Example stamp_value : stamp (1709251199 + (1 # 2)) = "2024-02-29T23:59:59Z"%string /\
  quote "~" "purdue-af/ray-owner=a b" = "purdue-af%2Fray-owner%3Da%20b"%string.
Proof. vm_compute. split; reflexivity. Qed.

(** ** Calls under a monitor *)
Section CallMonitors.
Context {S : Type} (step : S -> Ev -> option S) (cf : Settings) (svc : service Req Ans).

Lemma mon_nrp_call {A} q m path body (f : Z * json -> GW A) (Q : res Exc A -> S -> Prop) :
  (forall a, exists q', step q (existT (Nrp m path body) a) = Some q' /\
     match a with Some x => mon step q' (f x) Q | None => Q (Err NoAnswer) q' end) ->
  mon step q (nrp_call svc m path body ≫= f) Q.
Proof.
  intros H. unfold nrp_call. do 2 apply mon_bind. refine (mon_call _ q svc (Nrp m path body) _ _). intros a. destruct (H a) as (q' & Hq & Ha).
  exists q'. split; [done|]. destruct a as [x|]; cbn; [by apply mon_ret|by apply mon_raise].
Qed.
Lemma mon_kube {A} q m path body (f : Z * json -> GW A) (Q : res Exc A -> S -> Prop) :
  (forall a, exists q', step q (existT (Kube m path body) a) = Some q' /\
     match a with Some x => mon step q' (f x) Q | None => Q (Err NoAnswer) q' end) ->
  mon step q (kube svc m path body ≫= f) Q.
Proof.
  intros H. unfold kube. do 2 apply mon_bind. refine (mon_call _ q svc (Kube m path body) _ _). intros a. destruct (H a) as (q' & Hq & Ha).
  exists q'. split; [done|]. destruct a as [x|]; cbn; [by apply mon_ret|by apply mon_raise].
Qed.
Lemma mon_time {A} q (f : Q -> GW A) (R : res Exc A -> S -> Prop) :
  (forall t, step q (existT Now t) = Some q /\ mon step q (f t) R) -> mon step q (time svc ≫= f) R.
Proof. intros H. apply mon_bind. refine (mon_call _ q svc Now _ _). intros t. exists q. apply H. Qed.

Lemma mon_clear q prefix (R : res Exc unit -> S -> Prop) :
  (forall ok : bool, exists q', step q (existT (S3Clear prefix) ok) = Some q' /\
     R (if ok then Ok tt else Err Failure) q') ->
  mon step q (delete_prefix svc prefix) R.
Proof.
  intros H. unfold delete_prefix. apply mon_bind. refine (mon_call _ q svc (S3Clear prefix) _ _). intros ok.
  destruct (H ok) as (q' & Hq & Ha). exists q'. split; [done|]. destruct ok; [by apply mon_ret|by apply mon_raise].
Qed.
Lemma mon_kube_get {A} q collection name what (f : option json -> GW A) (R : res Exc A -> S -> Prop) :
  (forall a, exists q', step q (existT (Kube "GET" (collection ++ "/" ++ name) JNull) a) = Some q' /\
     match a with
     | Some (status, body) =>
         if status =? 404 then mon step q' (f None) R
         else if status =? 200 then mon step q' (f (Some body)) R else forall e, R (Err e) q'
     | None => R (Err NoAnswer) q'
     end) ->
  mon step q (kube_get svc collection name what ≫= f) R.
Proof.
  intros H. unfold kube_get. apply mon_bind, mon_kube. intros a. destruct (H a) as (q' & Hq & Ha). exists q'.
  split; [done|]. destruct a as [[status body]|]; [|exact Ha]. destruct (status =? 404); [by apply mon_ret|].
  destruct (status =? 200); cbn; [by apply mon_ret|by apply mon_raise].
Qed.
Lemma mon_done {A} q (c : GW A) : mon step q c (fun _ _ => True) -> mon step q (_ ← c; mret tt) (fun _ _ => True).
Proof. intros H. apply mon_bind. eapply mon_mono; [exact H|]. intros [a|err] q' _; [by apply mon_ret|done]. Qed.
Lemma mon_or_raise {A B} q e (a : option A) (f : A -> GW B) (R : res Exc B -> S -> Prop) :
  match a with Some x => mon step q (f x) R | None => R (Err e) q end -> mon step q (or_raise e a ≫= f) R.
Proof. intros H. apply mon_bind. destruct a; cbn; [by apply mon_ret|by apply mon_raise]. Qed.
End CallMonitors.

(** ** Runs that ask no head *)

(** A property of runs that holds of all that the operations are made of, but for the
    calls [watched] and running out of fuel. *)
Record closed (watched : Req -> bool) (svc : service Req Ans) (P : forall A, GW A -> Prop) : Prop := {
  cl_ret : forall A (a : A), P A (mret a);
  cl_raise : forall A e, e <> OutOfFuel -> P A (raise e);
  cl_bind : forall A B (c : GW A) (f : A -> GW B), P A c -> (forall a, P B (f a)) -> P B (c ≫= f);
  cl_mod : forall f, P unit (mmod f);
  cl_put : forall g, P unit (mput g);
  cl_get : P Gateway mget;
  cl_call : forall r, watched r = false -> P (Ans r) (mcall svc r) }.
(** Takes a run apart down to its calls. *)
Ltac quiet :=
  repeat first
    [ assumption
    | eapply cl_bind; [eassumption | | intros ?]
    | eapply cl_ret; eassumption
    | eapply cl_raise; [eassumption | discriminate]
    | eapply cl_mod; eassumption
    | eapply cl_put; eassumption
    | eapply cl_get; eassumption
    | match goal with |- ?P _ (if ?b then _ else _) => destruct b end
    | match goal with |- ?P _ (match ?x with _ => _ end) => destruct x end
    | match goal with |- ?P _ (let _ := _ in _) => cbv zeta end ].

Section Quiet.
Context {watched : Req -> bool} {svc : service Req Ans} {P : forall A, GW A -> Prop} (HP : closed watched svc P).
Context (cf : Settings).
Lemma q_kube m path body : watched (Kube m path body) = false -> P _ (kube svc m path body).
Proof. intros H. unfold kube, or_raise. quiet. by apply (cl_call _ _ _ HP (Kube m path body)). Qed.
Lemma q_nrp m path body : watched (Nrp m path body) = false -> P _ (nrp_call svc m path body).
Proof. intros H. unfold nrp_call, or_raise. quiet. by apply (cl_call _ _ _ HP (Nrp m path body)). Qed.
Lemma q_monotonic : watched Monotonic = false -> P _ (monotonic svc).
Proof. apply (cl_call _ _ _ HP Monotonic). Qed.
Lemma q_time : watched Now = false -> P _ (time svc).
Proof. apply (cl_call _ _ _ HP Now). Qed.
Lemma q_sleep s : watched (Sleep s) = false -> P _ (sleep svc s).
Proof. apply (cl_call _ _ _ HP (Sleep s)). Qed.
Lemma q_kube_get collection name what : watched (Kube "GET" (collection ++ "/" ++ name) JNull) = false ->
  P _ (kube_get svc collection name what).
Proof. intros H. unfold kube_get, refused. quiet. by apply q_kube. Qed.
End Quiet.

(** Runs that a monitor lets pass without a change. *)
Lemma closed_same {S} (step : S -> Ev -> option S) watched svc q :
  (forall r a, watched r = false -> step q (existT r a) = Some q) ->
  closed watched svc (fun A c => mon step q c (fun _ q' => q' = q)).
Proof.
  intros Hs. constructor; intros; try by first [apply mon_ret | apply mon_raise | apply mon_mod | apply mon_put].
  - apply mon_bind. eapply mon_mono; [eassumption|]. intros [a|e] q' ->; [auto|done].
  - by apply mon_get.
  - refine (mon_call _ q svc r _ _). intros a. exists q. auto.
Qed.
(** Runs that do not run out of fuel. *)
Definition ends {A} (c : GW A) : Prop :=
  forall g h, wp c g h (fun r _ h' => r <> Err OutOfFuel /\ exists t, h' = h ++ t).
Lemma ends_bind {A B} (c : GW A) (f : A -> GW B) : ends c -> (forall a, ends (f a)) -> ends (c ≫= f).
Proof.
  intros Hc Hf g h. apply wp_bind. eapply wp_mono; [apply Hc|]. intros [a|e] g' h' [He [t ->]].
  - eapply wp_mono; [apply Hf|]. intros r g2 h2 [Hr [t2 ->]]. split; [done|]. exists (t ++ t2). by rewrite app_assoc.
  - split; [congruence|by exists t].
Qed.
Lemma closed_ends svc : closed (fun _ => false) svc (@ends).
Proof.
  constructor.
  - intros A a g h. split; [done|]. exists []. by rewrite app_nil_r.
  - intros A e He g h. split; [congruence|]. exists []. by rewrite app_nil_r.
  - intros A B c f. apply ends_bind.
  - intros f g h. split; [done|]. exists []. by rewrite app_nil_r.
  - intros g' g h. split; [done|]. exists []. by rewrite app_nil_r.
  - intros g h. split; [done|]. exists []. by rewrite app_nil_r.
  - intros r _ g h. split; [done|]. by exists [existT r (svc h r)].
Qed.

(** A clock that does not go back, and sleeps that last as long as they are asked to. *)
Definition sleeps (e : Ev) : Q := match e with existT (Sleep s) _ => if 0 <=?q s then s else 0 | _ => 0 end%Q.
Definition slept (t : list Ev) : Q := qsum (map sleeps t).
Definition clock_ok (svc : service Req Ans) : Prop :=
  forall h t, (svc h Monotonic + slept t <= svc (h ++ t) Monotonic)%Q.

Lemma sleeps_nonneg e : (0 <= sleeps e)%Q.
Proof. unfold sleeps. destruct e as [[] a]; try apply Qle_refl. destruct (0 <=?q seconds)%Q eqn:E; [by apply qle_true|apply Qle_refl]. Qed.
Lemma slept_nonneg t : (0 <= slept t)%Q.
Proof.
  unfold slept. induction t as [|e t IH]; [apply Qle_refl|]. cbn [map]. change (qsum (?x :: ?l)) with (x + qsum l)%Q.
  pose proof (sleeps_nonneg e). lra.
Qed.
Lemma clock_mono svc h t : clock_ok svc -> (svc h Monotonic <= svc (h ++ t) Monotonic)%Q.
Proof. intros Hc. pose proof (Hc h t). pose proof (slept_nonneg t). lra. Qed.

(** The settings of [config.yaml], in the AF's namespaces. *)
Definition af_settings : Settings := {|
  NAMESPACE := "cms"; NRP_NAMESPACE := "purdue-af"; BUCKET := "af";
  PROMETHEUS_URL := "http://prometheus-server:9090"; NRP_PROMETHEUS_URL := "https://prometheus.nrp-nautilus.io";
  IDLE_TIMEOUT_S := 900; START_TIMEOUT_S := 600; START_POLL_S := 5; PROVISION_TIMEOUT_S := 600;
  USER_CACHE_S := 300; GONE_S := 300; JOB_RECORD_S := 604800;
  NRP_START_TIMEOUT_S := 1800; NRP_MIN_UTILIZATION := 40; NRP_UTILIZATION_WINDOW_S := 1800 |}.
