(* ===== verification/RayNrp.v ===== *)
(** Jobs on NRP in the gateway ([apps/ray-train/gateway.py]): [start_nrp_job] and
    [advance_nrp], which moves a job through its stages; [stop_nrp], [delete_nrp]
    and [reap_nrp].  A job is the RayJob's JSON; where the code changes the object it
    was given, the changed one is returned. *)
From S2P Require Import Prelude PyJson PyText PyTime NrpGpus NrpJobs RayNames RayShape RayBuild RayState.
Open Scope Z_scope.

Definition STOPPED_BY_USER : string := "The job was stopped.".
Definition STOPPED_INPUTS : string := "Copying its inputs to NRP failed: is it a directory you can read?".
Definition STOPPED_NOT_STARTED : string := "Its Ray cluster on NRP did not start in time.".
(** [f"{q:.0f}"] *)
Definition fmt_0f (q : Q) : string := pretty (half_even q).
Definition STOPPED_IDLE (busy : Q) (minutes : Z) (least_ : Q) : string :=
  "Its idlest GPU was " ++ fmt_0f busy ++ "% busy over the last " ++ pretty minutes
  ++ " minutes, and NRP asks each GPU for " ++ fmt_0f least_
  ++ "%: keep them busier, with more data loaders or larger batches, or run it at Purdue.".

Definition name_of (job : json) : string := jstr (jget "name" (jget "metadata" job)).
Definition annotation (key : string) (annotations : json) : string := jstr (jget key annotations).
(** [job["metadata"].setdefault("annotations", {}).update(more)] *)
Definition annotate (more : list (string * json)) (job : json) : json :=
  jupd "metadata" (fun metadata =>
    jupd "annotations" (jupdate more) (jsetdefault "annotations" (JObj []) metadata)) job.
(** The local [annotations] once the job was changed: the job's own object, or the
    empty one that stood in for it. *)
Definition aliased (annotations job : json) : json :=
  if truthy annotations then annotations_of job else annotations.
Definition stages (stage : string) (at_ : Q) (more : list (string * json)) : list (string * json) :=
  [(STAGE_ANNOTATION, JStr stage); (SINCE_ANNOTATION, JStr (stamp at_))] ++ more.
Definition status_of (job : json) : json := or_obj (jget "status" job).
Definition job_info (job : json) : json := or_obj (jget "rayJobInfo" (status_of job)).

Section Nrp.
Context (cfg : GwConfig) (cf : Settings) (svc : service Req Ans).
Local Abbreviation kube := (kube svc).
Local Abbreviation nrp_call := (nrp_call svc).

(** ** Stages *)

Definition nrp_patch (name : string) (body : json) : GW unit :=
  '(status, _) ← nrp_call "PATCH" (nrp_path cf "rayjobs" ++ "/" ++ name) body;
  if negb (status =? 200)
  then refused UNAVAILABLE ("NRP answered HTTP " ++ pretty status ++ " changing the Ray job.")
  else mret tt.
Definition patch_annotations (more : list (string * json)) : list (string * json) :=
  [("metadata", JObj [("annotations", JObj more)])]%string.
Definition set_stage (job : json) (stage : string) (more : list (string * json)) : GW json :=
  t ← time svc;
  let job := annotate (stages stage t more) job in
  t' ← time svc;
  nrp_patch (name_of job) (JObj (patch_annotations (stages stage t' more))) ≫= fun _ => mret job.
Definition resume_nrp (job : json) : GW json :=
  t ← time svc;
  let stage := stages "running" t [] in
  nrp_patch (name_of job) (JObj (patch_annotations stage ++ [("spec", JObj [("suspend", JBool false)])]%string)) ≫= fun _ =>
  mret (jupd "spec" (jset "suspend" (JBool false)) (annotate stage job)).
Definition stop_nrp (job : json) (why : string) : GW json :=
  let annotations := annotations_of job in
  (if negb (job_ended job)
   then nrp_patch (name_of job) (JObj [("spec", JObj [("suspend", JBool true)])]%string) else mret tt) ≫= fun _ =>
  let wrote := jeq_str (jget OUTPUT_ANNOTATION annotations) "true" && truthy (jget "startTime" (job_info job)) in
  set_stage job (if wrote then "outputs" else "done") [(STOPPED_ANNOTATION, JStr why)].

(** Where the Geddes Job of that name is; [None] if there is none. *)
Inductive Copied := Suspended | Running | Succeeded | Failed.
#[export] Instance Copied_dec : EqDecision Copied.
Proof. solve_decision. Defined.
Definition copied_of (body : json) : Copied :=
  let conditions := jlist (j_or (jget "conditions" (or_obj (jget "status" body))) (JArr [])) in
  match List.find (fun c => jeq_str (jget "status" c) "True"
                            && (jeq_str (jget "type" c) "Complete" || jeq_str (jget "type" c) "Failed")) conditions with
  | Some c => if jeq_str (jget "type" c) "Complete" then Succeeded else Failed
  | None => if truthy (jget "suspend" (jget "spec" body)) then Suspended else Running
  end.
Definition stage_state (name : string) : GW (option Copied) :=
  body ← kube_get svc (JOBS cf) name ("the Job " ++ name);
  mret (option_map copied_of body).

(** ** [idle_utilization] *)

Definition utilization_query (cluster : string) : string :=
  let series := ("DCGM_FI_DEV_GPU_UTIL{namespace=" ++ quoted (NRP_NAMESPACE cf) ++ ", pod=~" ++ quoted (cluster ++ "-.*") ++ "}")%string in
  let window := (pretty (NRP_UTILIZATION_WINDOW_S cf) ++ "s")%string in
  "avg_over_time(" ++ series ++ "[" ++ window ++ "]) and " ++ series ++ " and (" ++ series ++ " offset " ++ window ++ ")".
Definition qmin (l : list Q) : option Q :=
  match l with [] => None | x :: l' => Some (qmin_list x l') end.
Definition idle_utilization (job : json) (now : Q) : GW (option Q) :=
  let state := status_of job in
  started ← or_raise Failure (epoch_ms (jget "startTime" (job_info job)));
  let cluster := jget "rayClusterName" state in
  match started with
  | None => mret None
  | Some started =>
      if negb (jeq_str (jget "jobStatus" state) "RUNNING") || negb (truthy cluster)
         || ((now - qz started / 1000)%Q <?q qz (NRP_UTILIZATION_WINDOW_S cf)) then mret None
      else
        samples ← (mcall svc (Prom (NRP_PROMETHEUS_URL cf) (utilization_query (jstr cluster))) : GW (option (list Sample)));
        match samples with
        | None | Some [] => mret None
        | Some samples =>
            values ← or_raise Failure (mapM (fun s => parse_float (value s)) samples);
            mret (match qmin values with
                  | Some busy => if busy <?q NRP_MIN_UTILIZATION cf then Some busy else None
                  | None => None
                  end)
        end
  end.

(** ** [delete_nrp] *)

Definition delete_nrp (name : string) : GW unit :=
  _ ← nrp_call "DELETE" (nrp_path cf "rayjobs" ++ "/" ++ name) (propagation "Background");
  mfor ["in"; "out"]%string (fun direction =>
    _ ← kube "DELETE" (JOBS cf ++ "/" ++ name ++ "-" ++ direction) (propagation "Background"); mret tt) ≫= fun _ =>
  mmod (fun g => g <| nrp_cleaned := List.filter (fun n => negb (String.eqb n name)) (nrp_cleaned g) |>) ≫= fun _ =>
  delete_prefix svc (code_prefix name).

(** ** [advance_nrp] *)

(** [if stage == "done":], with the [annotations] and the [since] it has there. *)
Definition at_done (name : string) (annotations : json) (since now : Q) : GW unit :=
  g ← mget;
  (if negb (bool_decide (name ∈ nrp_cleaned g)) && negb (jeq_str (jget OUTPUT_ANNOTATION annotations) OUTPUT_FAILED)
   then delete_prefix svc (code_prefix name) ≫= fun _ =>
        mmod (fun g => g <| nrp_cleaned := name :: nrp_cleaned g |>)
   else mret tt) ≫= fun _ =>
  if JOB_RECORD_S cf <=?q (now - since)%Q then delete_nrp name else mret tt.
(** [if stage == "outputs":] *)
Definition at_outputs (job : json) (name : string) (annotations : json) (now : Q) : GW unit :=
  copied ← stage_state (name ++ "-out");
  match copied with
  | Some Suspended =>
      _ ← kube "PATCH" (JOBS cf ++ "/" ++ name ++ "-out") (JObj [("spec", JObj [("suspend", JBool false)])]%string); mret tt
  | Some Running => mret tt
  | _ =>
      let failed := if bool_decide (copied = Some Succeeded) then [] else [(OUTPUT_ANNOTATION, JStr OUTPUT_FAILED)] in
      job ← set_stage job "done" failed;
      at_done name (aliased annotations job) now now
  end.
(** [if stage == "running":] *)
Definition not_deployed (job : json) : bool :=
  match jget "jobDeploymentStatus" (status_of job) with
  | JNull => true
  | JStr s => String.eqb s "" || String.eqb s "Initializing"
  | _ => false
  end.
Definition at_running (job : json) (name : string) (annotations : json) (since now : Q) : GW unit :=
  if job_ended job then
    if jeq_str (jget OUTPUT_ANNOTATION annotations) "true" then
      job ← set_stage job "outputs" [];
      at_outputs job name (aliased annotations job) now
    else
      job ← set_stage job "done" [];
      at_done name (aliased annotations job) since now
  else if not_deployed job && (NRP_START_TIMEOUT_S cf <=?q (now - since)%Q) then
    _ ← stop_nrp job STOPPED_NOT_STARTED; mret tt
  else
    busy ← idle_utilization job now;
    match busy with
    | Some busy =>
        _ ← stop_nrp job (STOPPED_IDLE busy (NRP_UTILIZATION_WINDOW_S cf / 60) (NRP_MIN_UTILIZATION cf)); mret tt
    | None => mret tt
    end.
Definition stage_of (job : json) : string :=
  jstr (j_or (jget STAGE_ANNOTATION (annotations_of job)) (JStr "running")).
Definition since_of (job : json) : option Q :=
  read_stamp (jstr (j_or (jget SINCE_ANNOTATION (annotations_of job)) (jget "creationTimestamp" (jget "metadata" job)))).
Definition advance_nrp (job : json) : GW unit :=
  let name := name_of job in
  let annotations := annotations_of job in
  let stage := stage_of job in
  since ← or_raise Failure (since_of job);
  now ← time svc;
  if String.eqb stage "inputs" then
    copied ← stage_state (name ++ "-in");
    match copied with
    | Some Failed | None => _ ← stop_nrp job STOPPED_INPUTS; mret tt
    | Some Succeeded => _ ← resume_nrp job; mret tt
    | _ => mret tt
    end
  else if String.eqb stage "placing" then _ ← resume_nrp job; mret tt
  else if String.eqb stage "running" then at_running job name annotations since now
  else if String.eqb stage "outputs" then at_outputs job name annotations now
  else if String.eqb stage "done" then at_done name annotations since now
  else mret tt.
End Nrp.

(** ** A job's stages, and what may be done at each *)

(** The stages that may follow one. *)
Definition follows (s s' : string) : bool :=
  bool_decide ((s, s') ∈ [("inputs", "running"); ("inputs", "outputs"); ("inputs", "done"); ("placing", "running");
                          ("running", "outputs"); ("running", "done"); ("outputs", "done")]%string).
(** The stage that a patch sets. *)
Definition patched_stage (body : json) : option string :=
  match jget STAGE_ANNOTATION (annotations_of body) with JStr s => Some s | _ => None end.
(** The objects of a job: its RayJob on NRP, its two Jobs at Purdue, its prefix in S3. *)
Definition rayjob_path (cf : Settings) (name : string) : string := nrp_path cf "rayjobs" ++ "/" ++ name.
Definition copy_path (cf : Settings) (name direction : string) : string := JOBS cf ++ "/" ++ name ++ "-" ++ direction.

Definition answered_ok (a : option (Z * json)) : bool :=
  match a with Some (status, _) => status =? 200 | None => false end.
(** A monitor of one job's events, at a stage: they concern the job's own objects,
    change its stage only to one that may follow, and delete nothing before it is done. *)
Definition stage_step (cf : Settings) (name stage : string) (e : Ev) : option string :=
  match e with
  | existT (Nrp m path body) a =>
      if negb (String.eqb path (rayjob_path cf name)) then None
      else if String.eqb m "PATCH" then
        match patched_stage body with
        | Some s' => if negb (follows stage s') then None
                     else Some (if answered_ok a then s' else stage)
        | None => Some stage
        end
      else if String.eqb stage "done" then Some stage else None
  | existT (Kube m path _) _ =>
      if negb (bool_decide (path ∈ [copy_path cf name "in"; copy_path cf name "out"])) then None
      else if String.eqb m "DELETE" && negb (String.eqb stage "done") then None else Some stage
  | existT (S3Clear prefix) _ =>
      if String.eqb prefix (code_prefix name) && String.eqb stage "done" then Some stage else None
  | existT (Prom _ _) _ | existT Now _ => Some stage
  | _ => None
  end.

Lemma name_annotate more job : name_of (annotate more job) = name_of job.
Proof.
  unfold name_of, annotate. f_equal. destruct job as [| | | | | |o]; try done.
  rewrite jget_jupd by done. by rewrite jget_jupd_ne, jget_jsetdefault_ne by discriminate.
Qed.

(** Asking Prometheus how busy a job is changes nothing, under a monitor that lets it. *)
Lemma mon_idle {S} (step : S -> Ev -> option S) cf svc q job now (R : res Exc (option Q) -> S -> Prop) :
  (forall url query a, step q (existT (Prom url query) a) = Some q) -> (forall r, R r q) ->
  mon step q (idle_utilization cf svc job now) R.
Proof.
  intros Hs HR. unfold idle_utilization. apply mon_or_raise. destruct (epoch_ms _) as [[t|]|]; [|by apply mon_ret|done].
  destruct (_ || _); [by apply mon_ret|]. apply mon_bind. set (query := utilization_query _ _).
  refine (mon_call _ q svc (Prom (NRP_PROMETHEUS_URL cf) query) _ _). intros a. exists q. split; [apply Hs|].
  destruct a as [[|x samples]|]; try by apply mon_ret. apply mon_or_raise. destruct (mapM _ _); [by apply mon_ret|done].
Qed.

Section StageProofs.
Context (cfg : GwConfig) (cf : Settings) (svc : service Req Ans) (name : string).
Local Abbreviation smon := (mon (stage_step cf name)).

(** A patch of the job's: the stage it sets may follow, and is the job's once it is taken. *)
Lemma mon_patch {A} q s' body (f : unit -> GW A) (R : res Exc A -> string -> Prop) :
  (patched_stage body = Some s' /\ follows q s' = true \/ patched_stage body = None /\ s' = q) ->
  smon s' (f tt) R -> (forall e q', R (Err e) q') ->
  smon q (nrp_patch cf svc name body ≫= f) R.
Proof.
  intros Hb Hf Hr. unfold nrp_patch. apply mon_bind. apply mon_nrp_call. intros a.
  exists (if answered_ok a then s' else q). split.
  - cbn [stage_step]. unfold rayjob_path. rewrite String.eqb_refl. cbn [negb].
    change (String.eqb "PATCH" "PATCH") with true. cbn iota.
    destruct Hb as [[-> ->]|[-> ->]]; [done|]. by destruct (answered_ok a).
  - destruct a as [[status b]|]; [|apply Hr]. cbn. destruct (status =? 200); cbn; [by apply mon_ret|by apply mon_raise].
Qed.
Lemma mon_set_stage q job s' more (R : res Exc json -> string -> Prop) :
  name_of job = name -> follows q s' = true ->
  (forall t, R (Ok (annotate (stages s' t more) job)) s') -> (forall e q', R (Err e) q') ->
  smon q (set_stage cf svc job s' more) R.
Proof.
  intros Hn Hf HR He. unfold set_stage. apply mon_time. intros t. split; [done|]. apply mon_time. intros t'. split; [done|].
  rewrite name_annotate, Hn. apply (mon_patch _ s'); [by left| |done]. apply mon_ret, HR.
Qed.
(** Reading where a Job of the job's is changes nothing. *)
Lemma mon_stage_state {A} q direction (f : option Copied -> GW A) (R : res Exc A -> string -> Prop) :
  direction = "in"%string \/ direction = "out"%string -> (forall c, smon q (f c) R) -> (forall e, R (Err e) q) ->
  smon q (stage_state cf svc (name ++ "-" ++ direction) ≫= f) R.
Proof.
  intros Hd Hf He. apply mon_bind. unfold stage_state. apply mon_kube_get. intros a. exists q. split.
  - cbn [stage_step]. rewrite bool_decide_eq_true_2; [done|]. unfold copy_path.
    destruct Hd as [-> | ->]; rewrite !elem_of_cons; tauto.
  - destruct a as [[status body]|]; [|done]. destruct (status =? 404); [by apply mon_ret|].
    destruct (status =? 200); [by apply mon_ret|done].
Qed.
Lemma mon_stop q job why (R : res Exc json -> string -> Prop) : name_of job = name ->
  follows q "outputs" = true -> follows q "done" = true ->
  (forall j q', R (Ok j) q') -> (forall e q', R (Err e) q') -> smon q (stop_nrp cf svc job why) R.
Proof.
  intros Hn Ho Hd HR He. unfold stop_nrp. cbv zeta. rewrite Hn.
  assert (Hset : smon q (set_stage cf svc job (if jeq_str (jget OUTPUT_ANNOTATION (annotations_of job)) "true"
      && truthy (jget "startTime" (job_info job)) then "outputs" else "done") [(STOPPED_ANNOTATION, JStr why)])%string R).
  { destruct (_ && _); by apply mon_set_stage. }
  destruct (job_ended job); cbn [negb]; [by apply mon_bind, mon_ret|]. apply (mon_patch _ q); [by right|done|done].
Qed.
Lemma mon_resume q job (R : res Exc json -> string -> Prop) : name_of job = name -> follows q "running" = true ->
  (forall j q', R (Ok j) q') -> (forall e q', R (Err e) q') -> smon q (resume_nrp cf svc job) R.
Proof.
  intros Hn Hf HR He. unfold resume_nrp. apply mon_time. intros t. split; [done|]. rewrite Hn.
  apply (mon_patch _ "running"); [by left|by apply mon_ret|done].
Qed.
Lemma mon_delete (R : res Exc unit -> string -> Prop) :
  R (Ok tt) "done"%string -> (forall e, R (Err e) "done"%string) -> smon "done" (delete_nrp cf svc name) R.
Proof.
  intros HR He. unfold delete_nrp. apply mon_nrp_call. intros a. exists "done"%string. split.
  { cbn [stage_step]. unfold rayjob_path. by rewrite String.eqb_refl. }
  destruct a as [x|]; [|done]. apply mon_bind.
  apply (mon_for _ _ _ _ (fun q => q = "done"%string)); [done| |].
  - intros d q Hd ->. apply mon_kube. intros a. exists "done"%string. split.
    + cbn [stage_step]. rewrite bool_decide_eq_true_2; [by rewrite andb_false_r|]. unfold copy_path.
      rewrite !elem_of_cons in *. destruct Hd as [->|[->|Hd]]; [tauto..|by apply not_elem_of_nil in Hd].
    + destruct a; [by apply mon_ret|done].
  - intros q ->. apply mon_bind, mon_mod, mon_clear. intros ok. exists "done"%string. split.
    + cbn [stage_step]. by rewrite String.eqb_refl.
    + by destruct ok.
Qed.
Lemma mon_at_done annotations since now :
  smon "done" (at_done cf svc name annotations since now) (fun _ _ => True).
Proof.
  unfold at_done. apply mon_bind, mon_get. intros g.
  assert (Hlast : smon "done" (if JOB_RECORD_S cf <=?q (now - since) then delete_nrp cf svc name else mret tt)%Q
                    (fun _ _ => True)) by (destruct (_ <=?q _); [by apply mon_delete|by apply mon_ret]).
  destruct (negb _ && negb _); [|by apply mon_bind, mon_ret]. do 2 apply mon_bind. apply mon_clear. intros ok.
  exists "done"%string. split; [cbn [stage_step]; by rewrite String.eqb_refl|].
  destruct ok; [by apply mon_mod|done].
Qed.
Lemma mon_at_outputs job annotations now : name_of job = name ->
  smon "outputs" (at_outputs cf svc job name annotations now) (fun _ _ => True).
Proof.
  intros Hn. unfold at_outputs. change (name ++ "-out")%string with (name ++ "-" ++ "out")%string.
  apply mon_stage_state; [by right| |done]. intros c.
  assert (Hdone : forall failed, smon "outputs" (job ← set_stage cf svc job "done" failed;
      at_done cf svc name (aliased annotations job) now now) (fun _ _ => True)).
  { intros failed. apply mon_bind, mon_set_stage; [done..| |done]. intros t. apply mon_at_done. }
  destruct c as [[]|]; try apply Hdone; [|by apply mon_ret].
  apply mon_kube. intros a. exists "outputs"%string. split; [|destruct a; [by apply mon_ret|done]].
  cbn [stage_step]. rewrite bool_decide_eq_true_2; [done|]. right. by left.
Qed.
Lemma mon_at_running job annotations since now : name_of job = name ->
  smon "running" (at_running cf svc job name annotations since now) (fun _ _ => True).
Proof.
  intros Hn. unfold at_running. destruct (job_ended job).
  { destruct (jeq_str _ _); (apply mon_bind, mon_set_stage; [done..| |done]); intros t;
      [apply mon_at_outputs; by rewrite name_annotate|apply mon_at_done]. }
  destruct (_ && _); [apply mon_bind, mon_stop; done || (intros; by apply mon_ret)|].
  apply mon_bind, mon_idle; [done|]. intros [[busy|]|?]; [|by apply mon_ret|done].
  apply mon_bind, mon_stop; done || (intros; by apply mon_ret).
Qed.
End StageProofs.

(** C28: the stages of a job on NRP.  In a pass of [advance_nrp] over a job, whatever
    Kubernetes, NRP, Prometheus and S3 answer: every call is about the job's own
    RayJob, Jobs and prefix; the stage goes only from [inputs] or [placing] to
    [running], from [running] (or [inputs], if the copy failed) to [outputs] or [done], and
    from [outputs] to [done], as NRP takes each change; and neither the RayJob, nor
    its Jobs, nor its code and data are deleted before the job is [done]. *)
Theorem advance_stages cf svc job :
  mon (stage_step cf (name_of job)) (stage_of job) (advance_nrp cf svc job) (fun _ _ => True).
Proof.
  unfold advance_nrp. cbv zeta. apply mon_or_raise. destruct (since_of job) as [since|]; [|done].
  apply mon_time. intros now. split; [done|]. set (stage := stage_of job).
  destruct (String.eqb_spec stage "inputs") as [->|_].
  { change (name_of job ++ "-in")%string with (name_of job ++ "-" ++ "in")%string.
    apply mon_stage_state; [by left| |done]. intros [[]|]; try by apply mon_ret.
    - apply mon_bind, mon_resume; done || (intros; by apply mon_ret).
    - apply mon_bind, mon_stop; done || (intros; by apply mon_ret).
    - apply mon_bind, mon_stop; done || (intros; by apply mon_ret). }
  destruct (String.eqb_spec stage "placing") as [->|_].
  { apply mon_bind, mon_resume; done || (intros; by apply mon_ret). }
  destruct (String.eqb_spec stage "running") as [->|_]; [by apply mon_at_running|].
  destruct (String.eqb_spec stage "outputs") as [->|_]; [by apply mon_at_outputs|].
  destruct (String.eqb_spec stage "done") as [->|_]; [by apply mon_at_done|by apply mon_ret].
Qed.

(** ** What is kept *)

(** A monitor of one job's outputs: nothing of the job's is deleted before its Job at
    Purdue was seen to have copied them back. *)
Definition keep_step (cf : Settings) (name : string) (copied : bool) (e : Ev) : option bool :=
  match e with
  | existT (Kube m path _) a =>
      Some (copied || (String.eqb m "GET" && String.eqb path (copy_path cf name "out")
                       && match a with
                          | Some (status, body) => (status =? 200) && bool_decide (copied_of body = Succeeded)
                          | None => false
                          end))
  | existT (S3Clear _) _ => if copied then Some true else None
  | existT (Nrp m _ _) _ => if String.eqb m "DELETE" then None else Some copied
  | _ => Some copied
  end.
(** A monitor of a job's record, from the stage since [since]: the record is deleted
    only [JOB_RECORD_S] after it, by the time that the pass began with; so are, if [failed],
    the outputs. *)
Definition record_step (cf : Settings) (since : Q) (failed : bool) (now : option Q) (e : Ev) : option (option Q) :=
  let old := match now with Some t => JOB_RECORD_S cf <=?q (t - since)%Q | None => false end in
  match e with
  | existT Now t => Some (match now with None => Some t | _ => now end)
  | existT (Nrp m _ _) _ => if String.eqb m "DELETE" && negb old then None else Some now
  | existT (S3Clear _) _ => if failed && negb old then None else Some now
  | _ => Some now
  end.

Section Kept.
Context {S : Type} (step : S -> Ev -> option S) (cf : Settings) (svc : service Req Ans).
(** A monitor that lets the gateway change a stage. *)
Definition lets_patch (q : S) : Prop :=
  (forall t, step q (existT Now t) = Some q) /\ (forall path body a, step q (existT (Nrp "PATCH" path body) a) = Some q).

Lemma mon_set_stage_any q job s more (R : res Exc json -> S -> Prop) : lets_patch q ->
  (forall t, R (Ok (annotate (stages s t more) job)) q) -> (forall e, R (Err e) q) ->
  mon step q (set_stage cf svc job s more) R.
Proof.
  intros [Ht Hp] HR He. unfold set_stage. apply mon_time. intros t. split; [done|]. apply mon_time. intros t'. split; [done|].
  apply mon_bind. unfold nrp_patch. apply mon_nrp_call. intros a. exists q. split; [apply Hp|].
  destruct a as [[status b]|]; [|apply He]. destruct (status =? 200); cbn; [apply mon_ret, mon_ret, HR|apply mon_raise, He].
Qed.
Lemma mon_stop_any q job why (R : res Exc json -> S -> Prop) : lets_patch q -> (forall r, R r q) ->
  mon step q (stop_nrp cf svc job why) R.
Proof.
  intros Hl HR. unfold stop_nrp. cbv zeta. apply mon_bind.
  assert (Hset : forall a, mon step q (set_stage cf svc job a [(STOPPED_ANNOTATION, JStr why)]) R).
  { intros a. by apply mon_set_stage_any. }
  destruct (job_ended job); cbn [negb]; [by apply mon_ret|]. destruct Hl as [Ht Hp].
  unfold nrp_patch. apply mon_nrp_call. intros a. exists q. split; [apply Hp|].
  destruct a as [[status b]|]; [|apply HR]. destruct (status =? 200); cbn; [apply mon_ret, Hset|apply mon_raise, HR].
Qed.
Lemma mon_resume_any q job (R : res Exc json -> S -> Prop) : lets_patch q -> (forall r, R r q) ->
  mon step q (resume_nrp cf svc job) R.
Proof.
  intros [Ht Hp] HR. unfold resume_nrp. apply mon_time. intros t. split; [done|]. apply mon_bind. unfold nrp_patch.
  apply mon_nrp_call. intros a. exists q. split; [apply Hp|].
  destruct a as [[status b]|]; [|apply HR]. destruct (status =? 200); cbn; [apply mon_ret, mon_ret, HR|apply mon_raise, HR].
Qed.
Lemma mon_at_done_any q name annotations since now (R : res Exc unit -> S -> Prop) :
  (jeq_str (jget OUTPUT_ANNOTATION annotations) OUTPUT_FAILED = false ->
     forall ok, step q (existT (S3Clear (code_prefix name)) ok) = Some q) ->
  ((JOB_RECORD_S cf <=?q (now - since)%Q) = true -> mon step q (delete_nrp cf svc name) R) -> (forall r, R r q) ->
  mon step q (at_done cf svc name annotations since now) R.
Proof.
  intros Hc Hd HR. unfold at_done. apply mon_bind, mon_get. intros g.
  assert (Hlast : mon step q (if JOB_RECORD_S cf <=?q (now - since) then delete_nrp cf svc name else mret tt)%Q R)
    by (destruct (_ <=?q _); [by apply Hd|by apply mon_ret]).
  destruct (jeq_str _ OUTPUT_FAILED); [rewrite andb_false_r; by apply mon_bind, mon_ret|].
  destruct (negb (bool_decide _)); cbn [andb negb]; [|by apply mon_bind, mon_ret].
  do 2 apply mon_bind. apply mon_clear. intros ok. exists q. split; [by apply Hc|]. destruct ok; [by apply mon_mod|apply HR].
Qed.
(** Reading where a Job is, under a monitor that lets it. *)
Lemma mon_stage_state_any q q' name (f : option Copied -> GW unit) (R : res Exc unit -> S -> Prop) :
  (forall a, step q (existT (Kube "GET" (JOBS cf ++ "/" ++ name) JNull) a) = Some (q' a)) ->
  (forall a, mon step (q' a) (f None) R) ->
  (forall status body, (status =? 200) = true -> mon step (q' (Some (status, body))) (f (Some (copied_of body))) R) ->
  (forall r q, R r q) -> mon step q (stage_state cf svc name ≫= f) R.
Proof.
  intros Hs Hn Hf HR. apply mon_bind. unfold stage_state. apply mon_kube_get. intros a. exists (q' a). split; [apply Hs|].
  destruct a as [[status body]|]; [|apply HR]. destruct (status =? 404); [by apply mon_ret|].
  destruct (status =? 200) eqn:E; [apply mon_ret; by apply Hf|intros e; apply HR].
Qed.
End Kept.

(** Annotations that a job has are read as they were changed. *)
Lemma annotations_inv job : truthy (annotations_of job) = true ->
  is_obj job = true /\ is_obj (jget "metadata" job) = true /\
  jhas "annotations" (jget "metadata" job) = true /\ annotations_of job = jget "annotations" (jget "metadata" job).
Proof.
  unfold annotations_of, or_obj, j_or. destruct (truthy (jget "annotations" (jget "metadata" job))) eqn:E; [|done].
  intros _. destruct job as [| | | | | |o]; try done.
  destruct (jget "metadata" (JObj o)) as [| | | | | |o'] eqn:E'; try done.
  repeat split. cbn in *. unfold dhas. by destruct (dget "annotations" o').
Qed.
Lemma annotations_annotate more job : truthy (annotations_of job) = true -> is_obj (annotations_of job) = true ->
  annotations_of (annotate more job) = jupdate more (annotations_of job).
Proof.
  intros Ht Ho. destruct (annotations_inv job Ht) as (H1 & H2 & H3 & H4). rewrite H4 in *.
  unfold annotations_of, annotate. rewrite jget_jupd by done. unfold jsetdefault. rewrite H3.
  rewrite jget_jupd by done. unfold or_obj, j_or.
  assert (Hu : is_obj (jupdate more (jget "annotations" (jget "metadata" job))) = true) by by rewrite is_obj_jupdate.
  assert (truthy (jupdate more (jget "annotations" (jget "metadata" job))) = true) as ->; [|done].
  revert Ht Ho. generalize (jget "annotations" (jget "metadata" job)). clear. intros j Ht Ho.
  unfold jupdate. revert j Ht Ho. induction more as [|[k v] more IH]; intros j Ht Ho; [done|]. cbn [foldl].
  apply IH; [|by rewrite is_obj_jset]. destruct j as [| | | | | |[|[k' w] o]]; try done. cbn. by case_decide.
Qed.
Lemma annotation_truthy k job v : jget k (annotations_of job) = v -> v <> JNull ->
  truthy (annotations_of job) = true /\ is_obj (annotations_of job) = true.
Proof. intros <-. by destruct (annotations_of job) as [| | | | | |[|kv o]]. Qed.
(** What the code reads in its local [annotations] after a change. *)
Lemma aliased_annotate k v more job : jget k (annotations_of job) = v -> v <> JNull ->
  aliased (annotations_of job) (annotate more job) = jupdate more (annotations_of job).
Proof.
  intros Hk Hv. destruct (annotation_truthy _ _ _ Hk Hv) as [Ht Ho]. unfold aliased. rewrite Ht.
  by apply annotations_annotate.
Qed.

Section OutputsKept.
Context (cf : Settings) (svc : service Req Ans) (job : json).
Context (Hrecord : (0 < JOB_RECORD_S cf)%Q).
Local Abbreviation kmon := (mon (keep_step cf (name_of job))).
Local Abbreviation any := (fun _ _ => True).

Lemma keep_lets q : lets_patch (keep_step cf (name_of job)) q.
Proof. done. Qed.
Lemma record_not_now now : (JOB_RECORD_S cf <=?q (now - now)%Q) = true -> False.
Proof. intros H. breflect. unfold Qminus in H. rewrite Qplus_opp_r in H. by apply (Qlt_not_le _ _ Hrecord). Qed.
Lemma kept_at_outputs q now job' : jget OUTPUT_ANNOTATION (annotations_of job') = JStr "true" ->
  kmon q (at_outputs cf svc job' (name_of job) (annotations_of job') now) any.
Proof.
  intros Ho.
  assert (Hdone : forall (q : bool) failed,
    (if q then True else failed = [(OUTPUT_ANNOTATION, JStr OUTPUT_FAILED)]) -> kmon q (
      changed ← set_stage cf svc job' "done" failed;
      at_done cf svc (name_of job) (aliased (annotations_of job') changed) now now) any).
  { intros q' failed Hq. apply mon_bind, mon_set_stage_any; [apply keep_lets| |done]. intros t.
    rewrite (aliased_annotate _ _ _ _ Ho) by done. apply mon_at_done_any; [|intros H; by apply record_not_now in H|done].
    destruct q'; [done|]. subst failed. intros H. unfold stages in H. cbn [app] in H.
    rewrite (jget_jupdate _ _ _ (JStr OUTPUT_FAILED)) in H; [done|by eapply annotation_truthy| |done].
    apply NoDup_ListNoDup. repeat (constructor; [cbn; intuition discriminate|]). constructor. }
  unfold at_outputs. eapply mon_stage_state_any; [reflexivity| | |done].
  - intros a. rewrite bool_decide_eq_false_2 by done. apply Hdone. by destruct (q || _).
  - intros status body Hst. change (JOBS cf ++ "/" ++ name_of job ++ "-out")%string with (copy_path cf (name_of job) "out").
    rewrite !String.eqb_refl. cbv beta iota. rewrite Hst. cbn [andb].
    destruct (copied_of body) eqn:E; try (apply mon_kube; intros a; eexists; split; [reflexivity|destruct a; [by apply mon_ret|done]]).
    + by apply mon_ret.
    + rewrite !bool_decide_eq_true_2, orb_true_r by done. by apply Hdone.
    + rewrite (bool_decide_eq_false_2 (Some Failed = _)) by done. apply Hdone. by destruct (q || _).
Qed.
End OutputsKept.

(** Outputs are kept until they are back.  In a pass over a job that has outputs
    to copy back and was not [done] before it, nothing of the job in S3 is deleted, and
    neither is its record, unless Kubernetes had answered in that pass that the Job
    which copies them back is complete. *)
Theorem outputs_kept cf svc job :
  (0 < JOB_RECORD_S cf)%Q -> jget OUTPUT_ANNOTATION (annotations_of job) = JStr "true" -> stage_of job <> "done"%string ->
  mon (keep_step cf (name_of job)) false (advance_nrp cf svc job) (fun _ _ => True).
Proof.
  intros Hr Ho Hs. unfold advance_nrp. cbv zeta. apply mon_or_raise. destruct (since_of job) as [since|]; [|done].
  apply mon_time. intros now. split; [done|].
  destruct (String.eqb_spec (stage_of job) "inputs").
  { eapply mon_stage_state_any; [reflexivity| | |done]; intros; [|destruct (copied_of body); try by apply mon_ret];
      apply mon_done; by first [apply mon_stop_any | apply mon_resume_any]. }
  destruct (String.eqb_spec (stage_of job) "placing").
  { by apply mon_done, mon_resume_any. }
  destruct (String.eqb_spec (stage_of job) "running").
  { unfold at_running. rewrite Ho. change (jeq_str (JStr "true") "true") with true. destruct (job_ended job).
    - apply mon_bind, mon_set_stage_any; [done| |done]. intros t. destruct (annotation_truthy _ _ _ Ho ltac:(done)) as [Ht Hob].
      unfold aliased. rewrite Ht. apply kept_at_outputs; [done|].
      rewrite annotations_annotate by done. rewrite jget_jupdate_ne; [done|].
      cbn. rewrite !not_elem_of_cons. repeat split; try discriminate. apply not_elem_of_nil.
    - destruct (_ && _); [by apply mon_done, mon_stop_any|].
      apply mon_bind, mon_idle; [done|]. intros [[busy|]|?]; [|by apply mon_ret|done].
      by apply mon_done, mon_stop_any. }
  destruct (String.eqb_spec (stage_of job) "outputs"); [by apply kept_at_outputs|].
  destruct (String.eqb_spec (stage_of job) "done"); [done|by apply mon_ret].
Qed.

(** The bound that [record_kept] gives from the start of a run. *)
Lemma mon_record_delete cf svc since failed now name (R : res Exc unit -> option Q -> Prop) :
  (JOB_RECORD_S cf <=?q (now - since)%Q) = true -> (forall r q, R r q) ->
  mon (record_step cf since failed) (Some now) (delete_nrp cf svc name) R.
Proof.
  intros Hold HR. unfold delete_nrp. apply mon_nrp_call. intros a. exists (Some now). split.
  { cbn [record_step]. by rewrite Hold, andb_false_r. }
  destruct a as [x|]; [|apply HR]. apply mon_bind.
  apply (mon_for _ _ _ _ (fun q => q = Some now)); [done| |].
  - intros d q _ ->. apply mon_kube. intros a. exists (Some now). split; [done|]. destruct a; [by apply mon_ret|apply HR].
  - intros q ->. apply mon_bind, mon_mod, mon_clear. intros ok. exists (Some now). split.
    + cbn [record_step]. by rewrite Hold, andb_false_r.
    + apply HR.
Qed.
Lemma mon_record_done cf svc since now annotated at_ failed (name : string) : (0 < JOB_RECORD_S cf)%Q ->
  at_ = since \/ at_ = now -> (failed = true -> jeq_str (jget OUTPUT_ANNOTATION annotated) OUTPUT_FAILED = true) ->
  mon (record_step cf since failed) (Some now) (at_done cf svc name annotated at_ now) (fun _ _ => True).
Proof.
  intros Hr Hat Hf. apply mon_at_done_any; [| |done].
  - intros H ok. cbn [record_step]. destruct failed; [|done]. by rewrite Hf in H.
  - intros H. destruct Hat as [-> | ->]; [by apply mon_record_delete|by apply record_not_now in H].
Qed.

(** How long a job's record is kept.  A pass over a job deletes its record, with
    the Jobs that copied its data, only [JOB_RECORD_S] after the stage began in which
    the pass finds it, by the clock at the pass's start; and outputs that could not be
    copied back, which a [done] job may have left in S3, are deleted only with it. *)
Theorem record_kept cf svc job since :
  (0 < JOB_RECORD_S cf)%Q -> since_of job = Some since ->
  let failed := String.eqb (stage_of job) "done"
                && jeq_str (jget OUTPUT_ANNOTATION (annotations_of job)) OUTPUT_FAILED in
  mon (record_step cf since failed) None (advance_nrp cf svc job) (fun _ _ => True).
Proof.
  intros Hr Hs failed. unfold advance_nrp. cbv zeta. rewrite Hs. apply mon_or_raise. apply mon_bind.
  refine (mon_call _ None svc Now _ _). intros now. exists (Some now). split; [done|].
  assert (Hl : lets_patch (record_step cf since failed) (Some now)) by done.
  assert (Hout : failed = false -> forall job' annotated, mon (record_step cf since failed) (Some now)
    (at_outputs cf svc job' (name_of job) annotated now) (fun _ _ => True)).
  { intros Hf job' annotated. unfold at_outputs. apply (mon_stage_state_any _ _ _ _ (fun _ => Some now)); [reflexivity| | |done].
    - intros a. apply mon_bind, mon_set_stage_any; [done| |done]. intros t. eapply mon_mono; [|done].
      apply (mon_record_done _ _ _ _ _ _ _ _ Hr); [by right|by rewrite Hf].
    - intros status body _. assert (Hset : forall more, mon (record_step cf since failed) (Some now)
          (changed ← set_stage cf svc job' "done" more; at_done cf svc (name_of job) (aliased annotated changed) now now)
          (fun _ _ => True)).
      { intros more. apply mon_bind, mon_set_stage_any; [done| |done]. intros t.
        apply (mon_record_done _ _ _ _ _ _ _ _ Hr); [by right|by rewrite Hf]. }
      destruct (copied_of body); try apply Hset; [|by apply mon_ret].
      apply mon_kube. intros a. exists (Some now). split; [done|]. destruct a; [by apply mon_ret|done]. }
  destruct (String.eqb_spec (stage_of job) "inputs") as [E|_].
  { apply (mon_stage_state_any _ _ _ _ (fun _ => Some now)); [done| | |done]; intros;
      [|destruct (copied_of body); try by apply mon_ret]; apply mon_done; by first [apply mon_stop_any | apply mon_resume_any]. }
  destruct (String.eqb_spec (stage_of job) "placing") as [E|_]; [by apply mon_done, mon_resume_any|].
  destruct (String.eqb_spec (stage_of job) "running") as [E|_].
  { assert (Hf : failed = false) by (unfold failed; by rewrite E). clearbody failed.
    unfold at_running. destruct (job_ended job).
    - destruct (jeq_str _ "true"); (apply mon_bind, mon_set_stage_any; [done| |done]); intros t; [by apply Hout|].
      apply (mon_record_done _ _ _ _ _ _ _ _ Hr); [by left|by rewrite Hf].
    - destruct (_ && _); [by apply mon_done, mon_stop_any|].
      apply mon_bind, mon_idle; [done|]. intros [[busy|]|?]; [|by apply mon_ret|done]. by apply mon_done, mon_stop_any. }
  destruct (String.eqb_spec (stage_of job) "outputs") as [E|_]; [apply Hout; unfold failed; by rewrite E|].
  destruct (String.eqb_spec (stage_of job) "done") as [E|_]; [|by apply mon_ret].
  apply (mon_record_done _ _ _ _ _ _ _ _ Hr); [by left|]. unfold failed. intros H. by apply andb_true_iff in H as [_ H].
Qed.

(** ** A job that ended *)

Definition demo_nrp_job (stage since output : string) (status : json) : json :=
  JObj [("metadata", JObj [("name", JStr "ray-job-1");
          ("annotations", JObj [(STAGE_ANNOTATION, JStr stage); (SINCE_ANNOTATION, JStr since);
                                (OUTPUT_ANNOTATION, JStr output)])]);
        ("spec", JObj [("jobId", JStr "raysubmit_1"); ("suspend", JBool false)]); ("status", status)]%string.
Definition demo_ended : json :=
  JObj [("jobStatus", JStr "SUCCEEDED"); ("rayJobInfo", JObj [("startTime", JStr "2026-01-01T00:10:00Z")])]%string.
(** Services that take every call; a Job they are asked for is complete; it is 2026-01-09. *)
Definition demo_now : Q := qz (days_of_civil 2026 1 9 * 86400).
Definition demo_complete : json :=
  JObj [("spec", JObj []); ("status", JObj [("conditions", JArr [JObj [("type", JStr "Complete"); ("status", JStr "True")]])])]%string.
Definition demo_services : service Req Ans := fun _ r =>
  match r as r return Ans r with
  | Kube _ _ _ => Some (200, demo_complete)
  | Nrp _ _ _ => Some (200, JObj [])
  | Hub _ _ => None | Ldap _ => Ok (1000, 1000) | HeadGet _ _ _ => HeadSilent | HeadStatus _ _ _ => None
  | HeadTail _ _ _ => None | HeadPost _ _ _ => tt | Prom _ _ => None
  | S3Clear _ => true | S3Put _ => true | S3Exists _ => Some true | S3Jobs => None
  | Now => demo_now | Monotonic => 0%Q
  | Sleep _ => tt | CloseChannel _ => tt
  | NewSubmission => "raysubmit_1"%string
  end.
(** The deletions of a pass, in turn. *)
Definition deletions (h : list Ev) : list string :=
  omap (fun e => match e with
    | existT (Nrp "DELETE" path _) _ => Some path
    | existT (S3Clear prefix) _ => Some prefix
    | _ => None
    end)%string h.
Definition demo_pass (job : json) : list Ev := (advance_nrp af_settings demo_services job gateway0 []).2.

(** A job without outputs that ran for eight days loses its record in the pass that
    finds it ended: [since] is still when it began to run. *)
Lemma record_lost_at_end : deletions (demo_pass (demo_nrp_job "running" "2026-01-01T00:00:00Z" "" demo_ended))
  = ["ray-nrp/jobs/ray-job-1"; "/apis/ray.io/v1/namespaces/purdue-af/rayjobs/ray-job-1"; "ray-nrp/jobs/ray-job-1"]%string.
Proof. vm_compute. reflexivity. Qed.

Lemma outputs_kept_witness :
  let job := demo_nrp_job "running" "2026-01-01T00:00:00Z" "true" demo_ended in
  deletions (demo_pass job) = ["ray-nrp/jobs/ray-job-1"]%string /\
  mon (keep_step af_settings (name_of job)) false (advance_nrp af_settings demo_services job) (fun _ _ => True).
Proof.
  intros job. split; [vm_compute; reflexivity|].
  exact (outputs_kept af_settings demo_services job ltac:(done) ltac:(vm_compute; reflexivity) ltac:(vm_compute; discriminate)).
Defined.
Lemma record_kept_witness :
  let job := demo_nrp_job "done" "2026-01-08T00:00:00Z" OUTPUT_FAILED demo_ended in
  deletions (demo_pass job) = [] /\ mon (record_step af_settings (qz (days_of_civil 2026 1 8 * 86400)) true) None
    (advance_nrp af_settings demo_services job) (fun _ _ => True).
Proof.
  intros job. split; [vm_compute; reflexivity|].
  exact (record_kept af_settings demo_services job _ ltac:(done) ltac:(vm_compute; reflexivity)).
Defined.
