(* ===== verification/RayUser.v ===== *)
(** Who calls the gateway ([apps/ray-train/gateway.py]): [user_for], with its cache,
    [whoami], [hub_user], [session_holds_gpu] and [caller]; and [prometheus]. *)
From S2P Require Import Prelude PyJson PyText PyValue NrpGpus GpuQueries Sha256 RayNames RayShape RayBuild RayAdmit RayState.
Open Scope Z_scope.

Section RayUser.
Context (cfg : GwConfig) (cf : Settings) (accts : list (string * Account)) (service_token : string)
  (svc : service Req Ans).

Definition lift {A} (r : res Refused A) : GW A :=
  match r with Ok a => mret a | Err e => raise (Refusal e) end.
Definition hub_get (path token : string) : GW (Z * json) :=
  a ← (mcall svc (Hub path token) : GW (option (Z * json))); or_raise NoAnswer a.

(** ** [prometheus] *)

(** By resource, the last sample of each; [None] if it raises. *)
Definition by_resource (acc : list (string * Q)) (s : Sample) : option (list (string * Q)) :=
  r ← label "resource" s; v ← parse_float (value s); Some (dset r v acc).
Definition prometheus (query : string) : GW Samples :=
  samples ← (mcall svc (Prom (PROMETHEUS_URL cf) query) : GW (option (list Sample)));
  mret (samples ≫= ofold by_resource []).
Definition ask_free : GW (option Free) :=
  allocatable ← prometheus ALLOC_QUERY; used ← prometheus USED_QUERY; preemptible ← prometheus PREEMPTIBLE_QUERY;
  mret (free_gpus cfg allocatable used preemptible).
Definition session_gpus_query (pod : string) : string :=
  "sum by (resource) (kube_pod_container_resource_requests{namespace=" ++ quoted (NAMESPACE cf)
  ++ ",pod=" ++ quoted pod ++ ",resource=~" ++ quoted (str_join "|" (map snd GPU_METRICS)) ++ "})".
Definition session_holds_gpu (pod : string) : GW bool :=
  held ← prometheus (session_gpus_query pod);
  mret (match held with Some held => existsb (fun kv => 0 <?q kv.2) held | None => false end).

(** ** [user_for] *)

Definition NOT_ACCEPTED : string :=
  "No workload account has RAY_AUTH_TOKEN, and JupyterHub did not accept it: in a session, it must be the session's JUPYTERHUB_API_TOKEN.".
Definition whoami (token : string) : GW (string * string) :=
  '(status, model) ← hub_get "/user" token;
  if (status =? 401) || (status =? 403) then refused UNAUTHENTICATED NOT_ACCEPTED
  else if negb (status =? 200) then refused UNAVAILABLE ("JupyterHub answered HTTP " ++ pretty status ++ ".")
  else if negb (jhas "name" model) then raise Failure
  else mret (str_of (jget "kind" model), str_of (jget "name" model)).
Definition hub_user (name : string) : GW json :=
  '(status, model) ← hub_get ("/users/" ++ quote "~" name) service_token;
  if negb (status =? 200)
  then refused UNAVAILABLE ("JupyterHub answered HTTP " ++ pretty status ++ " for the user's session.")
  else mret model.
Definition ldap_ids (account : string) : GW (Z * Z) :=
  ids ← (mcall svc (Ldap account) : GW (res Refused (Z * Z))); lift ids.

Definition has_colon (name : string) : bool := str_existsb (Ascii.eqb ":") name.
Definition remember (key : string) (now : Q) (u : User) : GW User :=
  mmod (fun g => g <| users := dset key ((now + USER_CACHE_S cf)%Q, u)
                                 (List.filter (fun kv => now <?q kv.2.1) (users g)) |>) ≫= fun _ =>
  mret u.
Definition new_user (key : string) (now : Q) (name : string) (pod : option (string * Z)) (account : string) : GW User :=
  '(uid, gid) ← ldap_ids account;
  holds ← match pod with Some (pod, _) => session_holds_gpu pod | None => mret false end;
  remember key now (mkUser name account uid gid holds false).
(** A user whom the Hub knows, as the cache has none. *)
Definition hub_user_for (token key : string) (now : Q) : GW User :=
  '(kind, name) ← whoami token;
  if negb (String.eqb kind "user") then
    refused PERMISSION_DENIED ("A Ray cluster is for a JupyterHub user, not a " ++ kind ++ ".")
  else if has_colon name then refused PERMISSION_DENIED (name ++ " is no name a Ray cluster runs for.")
  else
    _ ← lift (refuse_account_name accts name);
    model ← hub_user name;
    let pod := session_pod model in
    account ← (if negb (external name) then mret name
               else match pod with
                    | None => refused FAILED_PRECONDITION
                        "Start your AF session first: a Ray cluster runs as the user of a running session."
                    | Some (_, af_id) => lift (pooled_account af_id)
                    end);
    new_user key now name pod account.
Definition user_for (token : string) : GW User :=
  match token_account accts token with
  | Some a => mret (mkUser (a_name a) (a_name a) (a_uid a) (a_gid a) false true)
  | None =>
      let key := sha256_hex token in
      now ← monotonic svc; g ← mget;
      match dget key (users g) with
      | Some (until, u) =>
          if now <?q until then _ ← lift (refuse_account_name accts (u_name u)); mret u
          else hub_user_for token key now
      | None => hub_user_for token key now
      end
  end.

(** [caller]; [worker] is the NRP template's, and [template] the cluster template. *)
Definition caller (worker : Z * Q * Q) (template : json) (values : list (string * string)) : GW (User * Shape) :=
  '(token, site_) ← lift (caller_token (negb (String.eqb service_token "")) values);
  u ← user_for token;
  s ← lift (caller_shape cfg worker site_ (cluster_template cfg template u) values);
  mret (u, s).
End RayUser.

(** ** Whose a caller's cluster is *)

(** What holds of a user that the gateway runs anything for. *)
Definition user_ok (accts : list (string * Account)) (token : string) (u : User) : Prop :=
  if workload u
  then exists a, token_account accts token = Some a /\
         u = mkUser (a_name a) (a_name a) (a_uid a) (a_gid a) false true
  else has_colon (u_name u) = false /\
       (forall n a, (n, a) ∈ accts -> cluster_name (u_name u) <> cluster_name n) /\
       (external (u_name u) = false -> u_account u = u_name u) /\
       (external (u_name u) = true -> exists af_id, pooled_account af_id = Ok (u_account u)).
(** What the cache holds: users of the Hub, whatever the accounts were. *)
Definition cached_ok (u : User) : Prop :=
  workload u = false /\ has_colon (u_name u) = false /\
  (external (u_name u) = false -> u_account u = u_name u) /\
  (external (u_name u) = true -> exists af_id, pooled_account af_id = Ok (u_account u)).
Definition cache_ok (g : Gateway) : Prop := forall k e, (k, e) ∈ users g -> cached_ok e.2.

Lemma account_name_refused accts name : refuse_account_name accts name = Ok tt ->
  forall n a, (n, a) ∈ accts -> cluster_name name <> cluster_name n.
Proof.
  unfold refuse_account_name. case_bool_decide as H; [done|]. intros _ n a Hin He. apply H. rewrite He.
  apply list_elem_of_In, in_map_iff. exists (n, a). split; [done|by apply list_elem_of_In].
Qed.
Lemma wp_lift {A} (r : res Refused A) g h (Q : res Exc A -> Gateway -> list Ev -> Prop) :
  match r with Ok a => Q (Ok a) g h | Err e => Q (Err (Refusal e)) g h end -> wp (lift r) g h Q.
Proof. by destruct r. Qed.
(** A call, whatever its answer. *)
Lemma wp_hub_get svc path token g h (Q : res Exc (Z * json) -> Gateway -> list Ev -> Prop) :
  (forall r h', Q r g h') -> wp (hub_get svc path token) g h Q.
Proof. intros H. unfold hub_get. apply wp_bind. wp_step. destruct (svc h (Hub path token)); apply H. Qed.
Lemma wp_prometheus cf svc query g h (Q : res Exc Samples -> Gateway -> list Ev -> Prop) :
  (forall r h', Q (Ok r) g h') -> wp (prometheus cf svc query) g h Q.
Proof. intros H. unfold prometheus. apply wp_bind. wp_step. apply H. Qed.

Section Caller.
Context (cf : Settings) (accts : list (string * Account)) (service_token : string) (svc : service Req Ans).

Lemma cache_ok_add g key e now : cache_ok g -> cached_ok e.2 ->
  cache_ok (g <| users := dset key e (List.filter (fun kv => now <?q kv.2.1) (users g)) |>).
Proof.
  intros Hg He k e' Hin. apply dset_elem in Hin as [[-> ->]|Hin]; [done|].
  apply list_elem_of_In, filter_In in Hin as [Hin _]. apply (Hg k). by apply list_elem_of_In.
Qed.
Lemma user_ok_cached token u : cached_ok u ->
  (forall n a, (n, a) ∈ accts -> cluster_name (u_name u) <> cluster_name n) -> user_ok accts token u.
Proof. intros (Hw & Hc & H1 & H2) Hn. unfold user_ok. by rewrite Hw. Qed.

Definition found_ok (token : string) (r : res Exc User) (g : Gateway) (_ : list Ev) : Prop :=
  cache_ok g /\ match r with Ok u => user_ok accts token u | Err _ => True end.
Lemma new_user_ok token key now name pod account g h : cache_ok g ->
  has_colon name = false -> (forall n a, (n, a) ∈ accts -> cluster_name name <> cluster_name n) ->
  (external name = false -> account = name) -> (external name = true -> exists af_id, pooled_account af_id = Ok account) ->
  wp (new_user cf svc key now name pod account) g h (found_ok token).
Proof.
  intros Hg Hc Hn H1 H2. unfold new_user, ldap_ids. do 2 apply wp_bind. wp_step. apply wp_lift.
  destruct (svc h (Ldap account)) as [[uid gid]|]; [|done]. apply wp_bind.
  assert (Hend : forall holds h', wp (remember cf key now (mkUser name account uid gid holds false)) g h' (found_ok token)).
  { intros holds h'. apply wp_bind, wp_mod, wp_ret. split; [by apply cache_ok_add|]. by apply user_ok_cached. }
  destruct pod as [[pod af]|]; [|apply wp_ret, Hend]. unfold session_holds_gpu. apply wp_bind, wp_prometheus.
  intros r h'. apply wp_ret, Hend.
Qed.
Lemma hub_user_for_ok token key now g h : cache_ok g ->
  wp (hub_user_for cf accts service_token svc token key now) g h (found_ok token).
Proof.
  intros Hg. unfold hub_user_for, whoami, hub_user. do 2 apply wp_bind. apply wp_hub_get.
  intros [[status model]|] h1; [|done]. cbv beta iota.
  destruct (_ || _); [done|]. destruct (negb (status =? 200)); [done|]. destruct (negb (jhas "name" model)); [done|].
  apply wp_ret. cbv beta iota. set (name := str_of (jget "name" model)). destruct (negb (String.eqb _ "user")); [done|].
  destruct (has_colon name) eqn:Hc; [done|]. apply wp_bind, wp_lift.
  destruct (refuse_account_name accts name) as [[]|] eqn:Ha; [|done]. pose proof (account_name_refused _ _ Ha) as Hapart.
  do 2 apply wp_bind. apply wp_hub_get. intros [[status2 model2]|] h2; [|done]. cbv beta iota.
  destruct (negb (status2 =? 200)); [done|]. apply wp_ret. cbv zeta beta iota. apply wp_bind.
  destruct (external name) eqn:Ee; cbn [negb]; [|apply wp_ret, new_user_ok; done || congruence].
  destruct (session_pod model2) as [[pod af]|] eqn:Ep; [|done]. apply wp_lift.
  destruct (pooled_account af) as [account|] eqn:Epool; [|done]. apply new_user_ok; [done..|congruence|by exists af].
Qed.

(** Whose cluster a call gets.  A user that [user_for] finds, new or in its cache,
    is the workload account whose token it is, running as that account; or a user of
    the Hub whose cluster is no account's as the accounts are now, with no colon in
    their name, who runs as their own account, or as a pooled one if they are from
    outside; and the cache keeps users of the Hub only. *)
Theorem user_for_apart token g h : cache_ok g ->
  wp (user_for cf accts service_token svc token) g h (found_ok token).
Proof.
  intros Hg. unfold user_for. destruct (token_account accts token) as [a|] eqn:Et.
  { apply wp_ret. split; [done|]. by exists a. }
  apply wp_bind. unfold monotonic. wp_step. apply wp_bind. wp_step.
  destruct (dget (sha256_hex token) (users g)) as [[until u]|] eqn:Eu; [|by apply hub_user_for_ok].
  destruct (_ <?q until); [|by apply hub_user_for_ok]. apply wp_bind, wp_lift.
  destruct (refuse_account_name accts (u_name u)) as [[]|] eqn:Ha; [|done]. apply wp_ret. split; [done|].
  apply user_ok_cached; [|by apply account_name_refused]. apply dget_elem in Eu. by apply (Hg _ _ Eu).
Qed.
End Caller.

Definition demo_hub : service Req Ans := fun _ r =>
  match r as r return Ans r with
  | Kube _ _ _ | Nrp _ _ _ => None
  | Hub path _ => Some (200, if String.eqb path "/user" then JObj [("kind", JStr "user"); ("name", JStr "jdoe")]%string else JObj [])
  | Ldap _ => Ok (5000, 5001) | HeadGet _ _ _ => HeadSilent | HeadStatus _ _ _ => None
  | HeadTail _ _ _ => None | HeadPost _ _ _ => tt | Prom _ _ => None
  | S3Clear _ => true | S3Put _ => true | S3Exists _ => Some true | S3Jobs => None
  | Now => 0%Q | Monotonic => 0%Q
  | Sleep _ => tt | CloseChannel _ => tt
  | NewSubmission => "raysubmit_1"%string
  end.
Lemma user_for_apart_witness :
  (user_for af_settings [] "service" demo_hub "secret" gateway0 []).1.1 = Ok (mkUser "jdoe" "jdoe" 5000 5001 false false)
  /\ wp (user_for af_settings [] "service" demo_hub "secret") gateway0 [] (found_ok [] "secret").
Proof.
  split; [vm_compute; reflexivity|]. apply user_for_apart. intros k e He. by apply not_elem_of_nil in He.
Defined.
