(* ===== verification/RayCluster.v ===== *)
(** The users' own clusters ([apps/ray-train/gateway.py]): [cluster_for] and
    [start_cluster], [head_up], [delete], [busy], [running], [reap_idle] and
    [own_cluster].  A loop that waits takes as many passes as its fuel at most. *)
From S2P Require Import Prelude PyJson PyText PyTime PyValue NrpGpus GpuQueries RayNames RayShape RayBuild RayAdmit RayState RayUser.
Open Scope Z_scope.

Definition REMOVED_IDLE : string :=
  "Your Ray cluster was removed after it went idle: run ray.shutdown(), then ray.init() again.".
Definition REMOVED_BY_USER : string :=
  "Your Ray cluster was stopped: run ray.shutdown(), then ray.init() again.".
Definition REMOVED_UNPROVISIONED : string :=
  "Your Ray cluster was removed, as not all of its GPUs started in time: ask for fewer workers, or try again later.".
Definition OPEN_HEAD : string := "The Ray in that environment does not enforce the cluster's token.".
Definition NO_CLUSTER : string :=
  "You have no Ray cluster: one is removed once idle, with the records and logs of its jobs.".
Definition session_gpu_refusal (what : string) : Refused := mkRefused FAILED_PRECONDITION
  ("Your session holds a GPU, and " ++ what
   ++ " are for sessions without one: train on your session's GPU, or start a session without a GPU.").
Definition SHUTTING_DOWN : string := "Your previous Ray cluster is still shutting down: try again in a minute.".
Definition OTHER_SETTINGS : string :=
  "Your Ray cluster runs other settings, and tasks or jobs: wait for them, or stop them.".
Definition REPLACED : string := "Another call is replacing your Ray cluster: try again in a minute.".

(** [body.get("message", status)] *)
Definition message_of (status : Z) (body : json) : string :=
  str_of (jget_or "message" (JInt status) body).
(** [unprovisioned]; [None] where the time it was made does not read. *)
Definition unprovisioned (cf : Settings) (cluster : json) (now : Q) : option bool :=
  let metadata := jget "metadata" cluster in
  if truthy (jget "deletionTimestamp" metadata) || negb (has_condition "RayClusterProvisioned" "False" cluster)
  then Some false
  else option_map (fun created => PROVISION_TIMEOUT_S cf <=?q (now - created)%Q)
         (read_stamp (jstr (jget "creationTimestamp" metadata))).
Definition HEAD_TASKS : string :=
  "/api/v0/tasks?filter_keys=state&filter_predicates=%3D&filter_values=RUNNING&limit=1".
Definition is_200 (status : option Z) : bool := bool_decide (status = Some 200).
Definition job_running (job : json) : bool :=
  jeq_str (jget "type" job) "SUBMISSION"
  && (jeq_str (jget "status" job) "PENDING" || jeq_str (jget "status" job) "RUNNING").

Section Cluster.
Context (cfg : GwConfig) (cf : Settings) (template : json) (service_token : string) (fuel : nat)
  (svc : service Req Ans).
Local Abbreviation kube := (kube svc).

Definition head_status (head keyed : string) (authorized : bool) : GW (option Z) :=
  mcall svc (HeadStatus head keyed authorized).
Definition head_get (head keyed path : string) : GW HeadAnswer := mcall svc (HeadGet head keyed path).

(** [Gateway.admit]: what it asks, then [admit_] on the answers. *)
Definition admit_cluster (u : User) (s : Shape) (replaced : Mix) (name : option string) : GW Mix :=
  let name := default (user_cluster u) name in
  '(status, listing) ← listed svc (RAYCLUSTERS cf) MANAGED_SELECTOR;
  let items := jlist (jget_or "items" (JArr []) listing) in
  if negb (status =? 200) then
    refused UNAVAILABLE ("Kubernetes answered HTTP " ++ pretty status ++ " for the Ray clusters.")
  else
    now ← monotonic svc; free ← ask_free cfg cf svc; g ← mget;
    let '(r, granted) := admit_ cfg name s replaced (status, items) now free (grants g) in
    mput (g <| grants := granted |>) ≫= fun _ =>
    match r with Ok mix => mret mix | Err e => raise (Refusal e) end.

(** [Gateway.busy].  A job that is no object raises AttributeError, which [busy] lets out. *)
Fixpoint any_running (jobs : list json) : option bool :=
  match jobs with
  | [] => Some false
  | j :: l => if negb (is_obj j) then None else if job_running j then Some true else any_running l
  end.
Definition busy (cluster : json) : GW bool :=
  let name := jstr (jget "name" (jget "metadata" cluster)) in
  let failed (a : HeadAnswer) : bool :=
    match a with HeadError status => negb ((status =? 401) || (status =? 403)) && head_ready cluster
               | _ => head_ready cluster end in
  tasks ← head_get name name HEAD_TASKS;
  match tasks with
  | HeadJson tasks =>
      jobs ← head_get name name "/api/jobs/";
      match jobs with
      | HeadJson jobs =>
          (** [tasks["data"]["result"]["result"]] *)
          let running := jget "result" (jget "data" tasks) in
          if negb (jhas "result" running) then mret (head_ready cluster)
          else if truthy (jget "result" running) then mret true
          else match jobs with
               | JArr l => or_raise Failure (any_running l)
               | JObj o => if bool_decide (o.*1 = []) then mret false else raise Failure
               | JStr t => if String.eqb t "" then mret false else raise Failure
               | _ => mret (head_ready cluster)
               end
      | a => mret (failed a)
      end
  | a => mret (failed a)
  end.

(** [Gateway.delete] *)
Definition forget (name why : string) (until : Q) (g : Gateway) : Gateway :=
  let known := dget_or name [] (clients g) in
  g <| started := ddel name (started g) |>
    <| gone := foldl (fun acc c => dset c (until, why) acc) (gone g) known |>
    <| clients := ddel name (clients g) |>.
Definition delete_cluster (name why : string) : GW unit :=
  '(status, _) ← kube "DELETE" (RAYCLUSTERS cf ++ "/" ++ name) (propagation "Foreground");
  if negb ((status =? 200) || (status =? 202) || (status =? 404)) then
    refused UNAVAILABLE ("Kubernetes answered HTTP " ++ pretty status ++ " deleting the Ray cluster.")
  else
    now ← monotonic svc;
    mmod (forget name why (now + GONE_S cf)%Q) ≫= fun _ => mcall svc (CloseChannel name).

Fixpoint wait_gone (n : nat) (name : string) (deadline : Q) : GW unit :=
  match n with
  | O => raise OutOfFuel
  | S n' =>
      found ← cluster cf svc name;
      match found with
      | None => mret tt
      | Some _ =>
          now ← monotonic svc;
          if deadline <?q now then refused UNAVAILABLE SHUTTING_DOWN
          else sleep svc (START_POLL_S cf) ≫= fun _ => wait_gone n' name deadline
      end
  end.
Definition wait_until_gone (name : string) : GW unit :=
  now ← monotonic svc; wait_gone fuel name (now + START_TIMEOUT_S cf)%Q.

(** [Gateway.head_up] *)
Fixpoint head_loop (n : nat) (secret : json) (find_head : GW (option string)) (keyed noun : string) (deadline : Q)
    : GW string :=
  match n with
  | O => raise OutOfFuel
  | S n' =>
      '(status, body) ← kube "POST" (SECRETS cf) secret;
      if negb ((status =? 201) || (status =? 409)) then
        refused UNAVAILABLE ("Could not create your " ++ noun ++ "'s token: " ++ message_of status body)
      else
        head ← find_head;
        answered ← match head with
                   | Some h => if String.eqb h "" then mret None else head_status h keyed true
                   | None => mret None
                   end;
        if is_200 answered then mret (default "" head) else
        now ← monotonic svc;
        if deadline <?q now
        then refused UNAVAILABLE ("Your " ++ noun ++ "'s head did not start in time: try again later.")
        else sleep svc (START_POLL_S cf) ≫= fun _ => head_loop n' secret find_head keyed noun deadline
  end.
Definition head_up (secret : json) (find_head : GW (option string)) (keyed noun : string) : GW string :=
  now ← monotonic svc; head_loop fuel secret find_head keyed noun (now + START_TIMEOUT_S cf)%Q.

(** ** [start_cluster] *)

Definition refuse_other (c : json) (u : User) : GW unit :=
  match refuse_others c u with Ok _ => mret tt | Err e => raise (Refusal e) end.
Definition used_now (name : string) : GW unit :=
  now ← monotonic svc; mmod (fun g => g <| last_used := dset name now (last_used g) |>).
(** What becomes of the cluster found: it stays, or goes for one that [mix] was admitted for. *)
Definition make_room (found : option json) (u : User) (s : Shape) : GW (option json * Mix) :=
  match found with
  | Some c =>
      if runs c s then mret (Some c, [])
      else
        mix ← (if live (Some c) then
          b ← busy c;
          if b : bool then refused FAILED_PRECONDITION OTHER_SETTINGS
          else
            mix ← admit_cluster u s (held_gpus cfg c) None;
            delete_cluster (user_cluster u) REMOVED_IDLE ≫= fun _ => mret mix
        else admit_cluster u s [] None);
        wait_until_gone (user_cluster u) ≫= fun _ => mret (None, mix)
  | None => mix ← admit_cluster u s [] None; mret (None, mix)
  end.
Definition create_cluster (u : User) (s : Shape) (mix : Mix) : GW (option json) :=
  '(status, created) ← kube "POST" (RAYCLUSTERS cf) (build_cluster cfg (cluster_template cfg template u) u s mix);
  if status =? 201 then
    mmod (fun g => g <| never_started := ddel (user_cluster u) (never_started g) |>) ≫= fun _ => mret (Some created)
  else if status =? 409 then
    found ← cluster cf svc (user_cluster u);
    match found with
    | Some c => refuse_other c u ≫= fun _ => mret (Some c)
    | None => mret None
    end
  else
    mmod (fun g => g <| grants := ddel (user_cluster u) (grants g) |>) ≫= fun _ =>
    refused UNAVAILABLE ("Could not create your Ray cluster: " ++ message_of status created).
Definition start_cluster (u : User) (s : Shape) : GW unit :=
  let name := user_cluster u in
  found ← cluster cf svc name;
  (if live found then match found with Some c => refuse_other c u | None => mret tt end else mret tt) ≫= fun _ =>
  used_now name ≫= fun _ =>
  '(kept, mix) ← make_room found u s;
  now_there ← match kept with Some c => mret (Some c) | None => create_cluster u s mix end;
  match now_there with
  | Some c =>
      if negb (runs c s) then refused ABORTED REPLACED
      else
        let secret := token_secret name "RayCluster" (jstr (jget "uid" (jget "metadata" c)))
                        (cluster_token service_token name) in
        _ ← head_up secret (mret (Some name)) name "Ray cluster";
        open_ ← head_status name name false;
        if is_200 open_ then delete_cluster name REMOVED_IDLE ≫= fun _ => refused INVALID_ARGUMENT OPEN_HEAD
        else mret tt
  | None => refused ABORTED REPLACED
  end.

(** [Gateway.cluster_for]: the shape started in is remembered with its owner. *)
Definition owner_shape_eqb (known : option (string * Shape)) (u : User) (s : Shape) : bool :=
  bool_decide (known = Some (user_owner u, s)).
Definition cluster_for (u : User) (s : Shape) : GW string :=
  if negb (String.eqb (site s) "purdue") then
    refused INVALID_ARGUMENT (SITE_METADATA ++ ": " ++ site s
      ++ " is for jobs a JobSubmissionClient submits: Ray Client reaches your own cluster at Purdue.")
  else if session_gpu u then raise (Refusal (session_gpu_refusal "Ray clusters"))
  else
    _ ← match mounted_env (env s) (cluster_template cfg template u) with
        | Ok e => mret e | Err e => raise (Refusal e) end;
    g ← mget;
    (if owner_shape_eqb (dget (user_cluster u) (started g)) u s then mret tt
     else start_cluster u s ≫= fun _ =>
          mmod (fun g => g <| started := dset (user_cluster u) (user_owner u, s) (started g) |>)) ≫= fun _ =>
    used_now (user_cluster u) ≫= fun _ => mret (user_cluster u).

(** [Gateway.running] *)
Definition running (u : User) : GW string :=
  g ← mget;
  let known := match dget (user_cluster u) (started g) with
               | Some (owner, _) => String.eqb owner (user_owner u) | None => false end in
  (if known then mret tt else
   found ← cluster cf svc (user_cluster u);
   match found with
   | Some c => if live (Some c) then refuse_other c u
               else g ← mget; refused NOT_FOUND (dget_or (user_cluster u) NO_CLUSTER (never_started g))
   | None => g ← mget; refused NOT_FOUND (dget_or (user_cluster u) NO_CLUSTER (never_started g))
   end) ≫= fun _ =>
  used_now (user_cluster u) ≫= fun _ => mret (user_cluster u).

(** ** [reap_idle] *)

Definition reap_cluster (now : Q) (c : json) : GW unit :=
  let name := jstr (jget "name" (jget "metadata" c)) in
  t ← time svc;
  late ← or_raise Failure (unprovisioned cf c t);
  if late : bool then
    delete_cluster name REMOVED_UNPROVISIONED ≫= fun _ =>
    mmod (fun g => g <| last_used := ddel name (last_used g) |>
                     <| never_started := dset name REMOVED_UNPROVISIONED (never_started g) |>)
  else
    b ← busy c;
    if b : bool then mmod (fun g => g <| last_used := dset name now (last_used g) |>)
    else
      g ← mget;
      let since := dget_or name now (last_used g) in
      mput (g <| last_used := dset name since (last_used g) |>) ≫= fun _ =>
      if IDLE_TIMEOUT_S cf <=?q (now - since)%Q then
        delete_cluster name REMOVED_IDLE ≫= fun _ => mmod (fun g => g <| last_used := ddel name (last_used g) |>)
      else mret tt.
Definition of_rayjob (c : json) : bool := jeq_str (jget FROM_CRD (labels_of c)) "RayJob".
Definition reap_idle : GW unit :=
  '(status, listing) ← listed svc (RAYCLUSTERS cf) MANAGED_SELECTOR;
  if negb (status =? 200) then mret tt else
  now ← monotonic svc;
  mfor (jlist (jget_or "items" (JArr []) listing)) (fun c =>
    if of_rayjob c then mret tt else mcatch (reap_cluster now c) (fun _ => mret tt)).

(** ** [own_cluster] and [relay] *)

(** [who] is [caller]; a refusal is answered with [HTTP_STATUS] of its code. *)
Definition described (u : User) (c : json) (b : bool) : json :=
  let s := cluster_shape c in
  JObj [("exists", JBool true); ("name", JStr (user_cluster u)); ("ready", JBool (head_ready c)); ("busy", JBool b);
        ("workers", JInt (int_field (workers s)));
        ("workers_ready", JInt (int_json (j_or (jget "readyWorkerReplicas" (or_obj (jget "status" c))) (JInt 0))));
        ("min_gpu_memory_gb", JFloat (float_field (sh_memory s))); ("gpus_per_worker", JInt (int_field (per_worker s)));
        ("cpus_per_worker", JStr (cpus s)); ("ram_per_worker_gb", JStr (ram s)); ("environment", JStr (env s))]%string.
Definition no_cluster : json := JObj [("exists", JBool false)]%string.
Definition own_cluster (who : GW (User * Shape)) (method : string) (force : bool) : GW json :=
  '(u, s) ← who;
  (if String.eqb method "POST" then _ ← cluster_for u s; mret tt else mret tt) ≫= fun _ =>
  found ← cluster cf svc (user_cluster u);
  match (if live found then found else None) with
  | None =>
      if String.eqb method "DELETE" then refused NOT_FOUND "You have no Ray cluster." else mret no_cluster
  | Some c =>
      refuse_other c u ≫= fun _ =>
      if String.eqb method "DELETE" then
        b ← (if force then mret false else busy c);
        if b : bool then
          refused FAILED_PRECONDITION "Your Ray cluster runs tasks or jobs: wait for them, or stop it anyway."
        else
          delete_cluster (user_cluster u) REMOVED_BY_USER ≫= fun _ =>
          mmod (fun g => g <| last_used := ddel (user_cluster u) (last_used g) |>) ≫= fun _ => mret no_cluster
      else b ← busy c; mret (described u c b)
  end.
(** [relay], as far as the call it passes on: the cluster that serves the client. *)
Definition relay (who : GW (User * Shape)) (client : string) : GW string :=
  '(u, s) ← who;
  now ← monotonic svc;
  mmod (fun g => g <| gone := List.filter (fun e => now <?q e.2.1) (gone g) |>) ≫= fun _ =>
  g ← mget;
  match dget client (gone g) with
  | Some (_, why) => refused NOT_FOUND why
  | None =>
      name ← cluster_for u s;
      mmod (fun g => g <| clients := dset name (client :: dget_or name [] (clients g)) (clients g) |>
                       <| gone := ddel client (gone g) |>) ≫= fun _ =>
      mret name
  end.
End Cluster.

(** ** A cluster that is started *)

(** What a monitor of a cluster's head has seen: that it answered with the token, and
    how it last answered without. *)
Definition ready_step (name : string) (q : bool * option bool) (e : Ev) : option (bool * option bool) :=
  match e with
  | existT (HeadStatus head keyed authorized) a =>
      if negb (String.eqb head name && String.eqb keyed name) then None
      else Some (if authorized then (q.1 || is_200 a, q.2) else (q.1, Some (is_200 a)))
  | _ => Some q
  end.

(** The calls that ask a head for its status. *)
Definition asks_head (r : Req) : bool := match r with HeadStatus _ _ _ => true | _ => false end.

Section QuietCluster.
Context {svc : service Req Ans} {P : forall A, GW A -> Prop} (HP : closed asks_head svc P).
Context (cfg : GwConfig) (cf : Settings) (template : json) (fuel : nat).
Lemma q_cluster n : P _ (cluster cf svc n).
Proof. by apply (q_kube_get HP). Qed.
Lemma q_prometheus query : P _ (prometheus cf svc query).
Proof. unfold prometheus. quiet. by apply (cl_call _ _ _ HP (Prom _ _)). Qed.
Lemma q_admit u s replaced n : P _ (admit_cluster cfg cf svc u s replaced n).
Proof.
  unfold admit_cluster, listed, ask_free, refused. quiet; by first [apply (q_kube HP) | apply (q_monotonic HP) | apply q_prometheus].
Qed.
Lemma q_delete n why : P _ (delete_cluster cf svc n why).
Proof.
  unfold delete_cluster, refused. quiet;
    by first [apply (q_kube HP) | apply (q_monotonic HP) | apply (cl_call _ _ _ HP (CloseChannel n))].
Qed.
Lemma q_busy c : P _ (busy svc c).
Proof. unfold busy, head_get, or_raise. quiet; by apply (cl_call _ _ _ HP (HeadGet _ _ _)). Qed.
Lemma q_refuse_other c u : P _ (refuse_other c u).
Proof. unfold refuse_other. quiet. Qed.
Lemma q_used_now n : P _ (used_now svc n).
Proof. unfold used_now. quiet. by apply (q_monotonic HP). Qed.
Lemma q_create u s mix : P _ (create_cluster cfg cf template svc u s mix).
Proof. unfold create_cluster, refused. quiet; by first [apply (q_kube HP) | apply q_cluster | apply q_refuse_other]. Qed.
Lemma q_make_room found u s : (forall n, P _ (wait_until_gone cf fuel svc n)) -> P _ (make_room cfg cf fuel svc found u s).
Proof. intros Hw. unfold make_room, refused. quiet; by first [apply q_admit | apply q_busy | apply q_delete | apply Hw]. Qed.
(** Where the loop itself may run out of fuel, so may the rest. *)
Lemma q_wait n k deadline : (forall A, P A (raise OutOfFuel)) -> P _ (wait_gone cf svc k n deadline).
Proof.
  intros He. induction k as [|k IH]; [apply He|]. cbn [wait_gone]. unfold refused.
  quiet; by first [apply q_cluster | apply (q_monotonic HP) | apply (q_sleep HP)].
Qed.
End QuietCluster.

Section Ready.
Context (cfg : GwConfig) (cf : Settings) (template : json) (service_token : string) (fuel : nat)
  (svc : service Req Ans) (name : string).
Local Abbreviation rmon := (mon (ready_step name)).
Local Abbreviation same q := (fun _ q' => q' = q).

Lemma ready_same q : closed asks_head svc (fun A c => rmon q c (same q)).
Proof. apply closed_same. intros r a H. by destruct r. Qed.
Lemma ready_then {A B} q (c : GW A) (f : A -> GW B) (R : res Exc B -> bool * option bool -> Prop) :
  rmon q c (same q) -> (forall a, rmon q (f a) R) -> (forall e, R (Err e) q) -> rmon q (c ≫= f) R.
Proof. intros Hc Hf HR. apply mon_bind. eapply mon_mono; [exact Hc|]. intros [a|e] q' ->; [apply Hf|done]. Qed.
(** The loop ends only once the head answered with the token. *)
Lemma ready_head_loop q secret noun deadline k :
  rmon q (head_loop cf svc k secret (mret (Some name)) name noun deadline)
    (fun r q' => match r with Ok _ => q' = (true, q.2) | Err _ => True end).
Proof.
  revert q. induction k as [|k IH]; intros q; [by apply mon_raise|]. cbn [head_loop].
  assert (Hwait : rmon q (now ← monotonic svc;
      if deadline <?q now
      then refused UNAVAILABLE ("Your " ++ noun ++ "'s head did not start in time: try again later.")
      else sleep svc (START_POLL_S cf) ≫= fun _ => head_loop cf svc k secret (mret (Some name)) name noun deadline)
    (fun r q' => match r with Ok _ => q' = (true, q.2) | Err _ => True end)).
  { apply ready_then; [by apply (q_monotonic (ready_same q))| |done]. intros now.
    destruct (_ <?q _); [by apply mon_raise|]. apply ready_then; [by apply (q_sleep (ready_same q))|intros _; apply IH|done]. }
  apply ready_then; [by apply (q_kube (ready_same q))| |done]. intros [status body]. destruct (negb _); [by apply mon_raise|].
  apply mon_bind, mon_ret, mon_bind. destruct (String.eqb_spec name "") as [Hn|Hn]; [apply mon_ret, Hwait|].
  unfold head_status. refine (mon_call _ q svc (HeadStatus name name true) _ _). intros a.
  exists (q.1 || is_200 a, q.2). split; [cbn [ready_step]; by rewrite String.eqb_refl|].
  destruct (is_200 a) eqn:Ea; [rewrite orb_true_r; by apply mon_ret|].
  rewrite orb_false_r. destruct q. exact Hwait.
Qed.
End Ready.

(** C25: a cluster is started only closed.  When [start_cluster] returns, the head of
    the user's cluster, and no other head was asked, has answered a call that carried
    the cluster's token, and to one without it last answered something else than 200.
    (A call to a cluster that is up already is relayed by [running] with no such check.) *)
Theorem start_cluster_closed cfg cf template service_token fuel svc u s :
  mon (ready_step (user_cluster u)) (false, None) (start_cluster cfg cf template service_token fuel svc u s)
    (fun r q => match r with Ok _ => q = (true, Some false) | Err _ => True end).
Proof.
  unfold start_cluster. cbv zeta. set (name := user_cluster u). set (q0 := (false, None)).
  pose proof (ready_same svc name q0) as HP.
  apply ready_then; [by apply (q_cluster HP)| |done]. intros found.
  apply ready_then; [|intros _|done].
  { destruct (live found); [|by apply mon_ret]. destruct found; [by apply (q_refuse_other HP)|by apply mon_ret]. }
  apply ready_then; [by apply (q_used_now HP)|intros _|done].
  apply ready_then; [|intros [kept mix]|done].
  { apply (q_make_room HP). intros n. unfold wait_until_gone. apply (cl_bind _ _ _ HP); [by apply (q_monotonic HP)|].
    intros now. apply (q_wait HP). intros A. by apply mon_raise. }
  apply ready_then; [destruct kept; [by apply mon_ret|by apply (q_create HP)]| |done]. intros [c|]; [|by apply mon_raise].
  destruct (negb _); [by apply mon_raise|]. apply mon_bind. unfold head_up.
  apply ready_then; [by apply (q_monotonic HP)| |done].
  intros now. eapply mon_mono; [apply ready_head_loop|]. intros [h|e] q; [|done]. intros ->. apply mon_bind.
  unfold head_status. refine (mon_call _ _ svc (HeadStatus name name false) _ _). intros a.
  exists (true, Some (is_200 a)). split; [cbn [ready_step]; by rewrite String.eqb_refl|].
  destruct (is_200 a); [|by apply mon_ret].
  apply ready_then; [by apply (q_delete (ready_same svc name (true, Some true)))| |done]. intros _. by apply mon_raise.
Qed.

(** ** The waits end *)

Section Waits.
Context (cfg : GwConfig) (cf : Settings) (template : json) (service_token : string) (fuel : nat)
  (svc : service Req Ans) (Hclock : clock_ok svc) (Hpoll : (0 < START_POLL_S cf)%Q).
Local Abbreviation clock h := (svc h Monotonic).

(** Passes enough for a wait until [deadline] that goes on after [h]. *)
Definition enough (n : nat) (deadline : Q) (h : list Ev) : Prop :=
  (1 <= n)%nat /\ (deadline < clock h + START_POLL_S cf * (qz (Z.of_nat n) - 1))%Q.
Lemma enough_later n deadline h t : enough n deadline h -> enough n deadline (h ++ t).
Proof. intros [Hn Hd]. split; [done|]. pose proof (clock_mono svc h t Hclock) as Hm.
  eapply Qlt_le_trans; [exact Hd|]. apply Qplus_le_compat; [exact Hm|apply Qle_refl]. Qed.
Lemma enough_next n deadline h t : enough (S n) deadline h -> (clock h <= deadline)%Q ->
  (slept t == START_POLL_S cf)%Q -> enough n deadline (h ++ t).
Proof.
  intros [_ Hd] Hle Hv. pose proof (Hclock h t) as Hs. rewrite Hv in Hs.
  rewrite Nat2Z.inj_succ in Hd. unfold Z.succ, qz in Hd. rewrite inject_Z_plus in Hd.
  change (inject_Z 1) with 1%Q in Hd. set (N := inject_Z (Z.of_nat n)) in *.
  assert (E : (START_POLL_S cf * (N + 1 - 1) == START_POLL_S cf + START_POLL_S cf * (N - 1))%Q) by ring.
  rewrite E in Hd. clear E. destruct n as [|n].
  - exfalso. change N with 0%Q in Hd. assert (E : (START_POLL_S cf * (0 - 1) == - START_POLL_S cf)%Q) by ring.
    rewrite E in Hd. assert (Hl : forall c : Q, (c <= deadline -> deadline < c + (START_POLL_S cf + - START_POLL_S cf) -> False)%Q)
      by (intros; lra). exact (Hl _ Hle Hd).
  - split; [lia|]. unfold qz. fold N.
    assert (Hl : forall c c' p : Q, (deadline < c + (START_POLL_S cf + p) -> c + START_POLL_S cf <= c' -> deadline < c' + p)%Q)
      by (intros; lra). exact (Hl _ _ _ Hd Hs).
Qed.
Local Abbreviation stays := (fun h0 r h' => r <> Err OutOfFuel /\ exists t : list Ev, h' = h0 ++ t).
(** The end of a pass: refuse past the deadline, or sleep and go on. *)
Lemma pass_ends {A} n deadline text (next : GW A) g h :
  enough (S n) deadline h ->
  (forall g h, enough n deadline h -> wp next g h (fun r _ h' => stays h r h')) ->
  wp (now ← monotonic svc; if deadline <?q now then refused UNAVAILABLE text
      else sleep svc (START_POLL_S cf) ≫= fun _ => next) g h (fun r _ h' => stays h r h').
Proof.
  intros Hn Hnext. apply wp_bind. unfold monotonic. wp_step. destruct (deadline <?q _) eqn:E.
  { split; [done|]. by eexists. }
  breflect. apply wp_bind. unfold sleep. wp_step. eapply wp_mono.
  - apply Hnext. rewrite <- app_assoc. apply enough_next; [done..|]. unfold slept, sleeps. cbn.
    assert ((0 <=?q START_POLL_S cf)%Q = true) as -> by (apply qle_true; lra). lra.
  - intros r g' h' [Hr [t ->]]. split; [done|]. eexists. rewrite <- !app_assoc. reflexivity.
Qed.
(** What runs before it in a pass. *)
Lemma then_ends {A B} n deadline (c : GW A) (f : A -> GW B) g h : ends c -> enough n deadline h ->
  (forall a g h, enough n deadline h -> wp (f a) g h (fun r _ h' => stays h r h')) ->
  wp (c ≫= f) g h (fun r _ h' => stays h r h').
Proof.
  intros Hc Hn Hf. apply wp_bind. eapply wp_mono; [apply Hc|]. intros [a|e] g' h' [He [t ->]].
  - eapply wp_mono; [apply Hf; by apply enough_later|]. intros r g2 h2 [Hr [t2 ->]]. split; [done|].
    exists (t ++ t2). by rewrite app_assoc.
  - split; [congruence|by exists t].
Qed.
Local Abbreviation HE := (closed_ends svc).

Lemma wait_gone_ends name deadline n g h : enough n deadline h ->
  wp (wait_gone cf svc n name deadline) g h (fun r _ h' => stays h r h').
Proof.
  revert g h. induction n as [|n IH]; intros g h Hn; [destruct Hn; lia|]. cbn [wait_gone].
  apply (then_ends (S n) deadline); [by apply (q_kube_get HE)|done|]. clear g h Hn. intros [c|] g h Hn.
  - by apply (pass_ends n).
  - apply wp_ret. split; [done|]. exists []. by rewrite app_nil_r.
Qed.
Lemma head_loop_ends secret find_head keyed noun deadline n g h : ends find_head -> enough n deadline h ->
  wp (head_loop cf svc n secret find_head keyed noun deadline) g h (fun r _ h' => stays h r h').
Proof.
  intros Hf. revert g h. induction n as [|n IH]; intros g h Hn; [destruct Hn; lia|]. cbn [head_loop].
  apply (then_ends (S n) deadline); [by apply (q_kube HE)|done|]. clear g h Hn. intros [status body] g h Hn.
  destruct (negb _). { split; [done|]. exists []. by rewrite app_nil_r. }
  apply (then_ends (S n) deadline); [done|done|]. clear g h Hn. intros head g h Hn.
  apply (then_ends (S n) deadline); [|done|].
  { destruct head as [hd|]; [destruct (String.eqb hd "")|]; try apply (cl_ret _ _ _ HE).
    by apply (cl_call _ _ _ HE (HeadStatus hd keyed true)). }
  clear g h Hn. intros answered g h Hn. destruct (is_200 answered); [|by apply (pass_ends n)].
  apply wp_ret. split; [done|]. exists []. by rewrite app_nil_r.
Qed.
Context (Hfuel : (START_TIMEOUT_S cf < START_POLL_S cf * (qz (Z.of_nat fuel) - 1))%Q).
Context (Htimeout : (0 <= START_TIMEOUT_S cf)%Q).
(** A wait from now on has fuel enough. *)
Lemma from_now {A} (f : Q -> GW A) :
  (forall deadline g h, enough fuel deadline h -> wp (f deadline) g h (fun r _ h' => stays h r h')) ->
  ends (now ← monotonic svc; f (now + START_TIMEOUT_S cf)%Q).
Proof.
  intros Hf g h. apply wp_bind. unfold monotonic. wp_step. eapply wp_mono.
  - apply Hf. apply enough_later. split.
    + destruct (Nat.eq_dec fuel O) as [E|]; [|lia]. exfalso. revert Hfuel. rewrite E.
      change (qz (Z.of_nat 0)) with 0%Q. intros H. assert (Hm : (START_POLL_S cf * (0 - 1) == - START_POLL_S cf)%Q) by ring.
      rewrite Hm in H. pose proof Htimeout. lra.
    + assert (Hl : forall c p : Q, (START_TIMEOUT_S cf < p -> c + START_TIMEOUT_S cf < c + p)%Q) by (intros; lra).
      exact (Hl _ _ Hfuel).
  - intros r g' h' [Hr [t ->]]. split; [done|]. eexists. rewrite <- app_assoc. reflexivity.
Qed.

Definition quiet_all {P : forall A, GW A -> Prop} (HP : closed (fun _ => false) svc P) : closed asks_head svc P :=
  {| cl_ret := cl_ret _ _ _ HP; cl_raise := cl_raise _ _ _ HP; cl_bind := cl_bind _ _ _ HP; cl_mod := cl_mod _ _ _ HP;
     cl_put := cl_put _ _ _ HP; cl_get := cl_get _ _ _ HP; cl_call := fun r _ => cl_call _ _ _ HP r eq_refl |}.
Lemma start_cluster_ends u s : ends (start_cluster cfg cf template service_token fuel svc u s).
Proof.
  pose proof (quiet_all HE) as HP. unfold start_cluster, head_status, refused. cbv zeta.
  assert (Hw : forall n, ends (wait_until_gone cf fuel svc n)).
  { intros n. unfold wait_until_gone. apply (from_now (fun deadline => wait_gone cf svc fuel n deadline)).
    intros deadline g h. apply wait_gone_ends. }
  assert (Hup : forall secret keyed noun, ends (head_up cf fuel svc secret (mret (Some (user_cluster u))) keyed noun)).
  { intros secret keyed noun. apply (from_now (fun deadline => head_loop cf svc fuel secret _ _ _ deadline)).
    intros deadline g h. apply head_loop_ends, (cl_ret _ _ _ HE). }
  quiet; first [by apply (q_cluster HP) | by apply (q_refuse_other HP) | by apply (q_used_now HP) | by apply (q_create HP)
    | by apply (q_make_room HP) | by apply Hup | by apply (q_delete HP) | by apply (cl_call _ _ _ HE (HeadStatus _ _ _))].
Qed.
End Waits.

(** A call that starts a cluster returns.  However Kubernetes and the head answer,
    if the clock does not go back and a sleep lasts as long as it is asked to, the wait
    for an old cluster to go and that for a head to start end within a pass for each
    [START_POLL_S] of [START_TIMEOUT_S], and two more. *)
Theorem start_cluster_returns cfg cf template service_token fuel svc u s g h :
  clock_ok svc -> (0 < START_POLL_S cf)%Q -> (0 <= START_TIMEOUT_S cf)%Q ->
  (START_TIMEOUT_S cf < START_POLL_S cf * (qz (Z.of_nat fuel) - 1))%Q ->
  (start_cluster cfg cf template service_token fuel svc u s g h).1.1 <> Err OutOfFuel.
Proof.
  intros Hc Hp Ht Hf. pose proof (start_cluster_ends cfg cf template service_token fuel svc Hc Hp Hf Ht u s g h) as H.
  unfold wp in H. destruct (start_cluster _ _ _ _ _ _ _ _ _ _) as [[r g'] h']. by destruct H.
Qed.

(** ** A cluster that is removed *)

Lemma dget_filter_keep {V} (p : string * V -> bool) k v l :
  dget k l = Some v -> p (k, v) = true -> dget k (List.filter p l) = Some v.
Proof.
  induction l as [|[k' v'] l IH]; cbn [dget List.filter]; [done|]. case_decide as E.
  - intros [= ->] Hp. subst k'. rewrite Hp. cbn [dget]. by rewrite decide_True.
  - intros H Hp. destruct (p (k', v')); [cbn [dget]; rewrite decide_False by done|]; by apply IH.
Qed.
Lemma told_gone (l : list string) (until : Q) (why : string) acc client : client ∈ l ->
  dget client (foldl (fun acc c => dset c (until, why) acc) acc l) = Some (until, why).
Proof.
  revert acc. induction l as [|c l IH] using rev_ind; intros acc Hin; [by apply not_elem_of_nil in Hin|].
  rewrite foldl_app. cbn [foldl]. destruct (decide (client = c)) as [->|Hne]; [by rewrite dget_dset|].
  rewrite dget_dset_ne by congruence. apply IH. apply elem_of_app in Hin as [Hin|Hin]; [done|].
  by apply list_elem_of_singleton in Hin.
Qed.

(** A client hears that its cluster was removed.  Once [delete] has removed a
    cluster, for the next [GONE_S] a Ray Client that it served is refused with the
    reason of the removal, whatever user and shape its call is of, without any call to
    Kubernetes: it does not start another cluster. *)
Theorem removed_client_told cfg cf template service_token fuel svc name why client g h g1 h1 :
  delete_cluster cf svc name why g h = (Ok tt, g1, h1) -> client ∈ dget_or name [] (clients g) ->
  exists e now e', h1 = h ++ [e; existT Monotonic now; e'] /\
    forall u s h2, (svc h2 Monotonic < now + GONE_S cf)%Q ->
    exists g2, relay cfg cf template service_token fuel svc (mret (u, s)) client g1 h2
      = (Err (Refusal (mkRefused NOT_FOUND why)), g2, h2 ++ [existT Monotonic (svc h2 Monotonic)]).
Proof.
  unfold delete_cluster, kube, mbind, m_bind. unfold mcall at 1. set (e1 := existT (A := Req) (Kube "DELETE" _ _) _).
  destruct (svc h _) as [[status body]|]; cbn [or_raise]; [|done]. unfold mret, m_ret. cbv beta iota.
  destruct (negb _); [done|]. unfold monotonic, mcall, mmod. intros [= _ <- <-] Hin.
  set (now := svc (h ++ [e1]) Monotonic) in *. eexists e1, now, _. split; [by rewrite <- !app_assoc|]. intros u s h2 Hlt.
  unfold relay, mbind, m_bind, mret, m_ret, monotonic, mcall, mmod, mget. cbv beta iota.
  eexists. set (g2 := set_field gone _ _).
  assert (Hg : dget client (gone g2) = Some ((now + GONE_S cf)%Q, why)).
  { unfold g2. cbn. apply dget_filter_keep; [by apply told_gone|]. by apply qlt_true. }
  rewrite Hg. reflexivity.
Qed.

Definition demo_open : service Req Ans := fun h r =>
  match r as r return Ans r with
  | Kube _ _ _ => Some (200, JObj []) | Nrp _ _ _ => None
  | Hub _ _ => None | Ldap _ => Ok (5000, 5001) | HeadGet _ _ _ => HeadSilent | HeadStatus _ _ _ => None
  | HeadTail _ _ _ => None | HeadPost _ _ _ => tt | Prom _ _ => None
  | S3Clear _ => true | S3Put _ => true | S3Exists _ => Some true | S3Jobs => None
  | Now => 0%Q | Monotonic => slept h
  | Sleep _ => tt | CloseChannel _ => tt
  | NewSubmission => "raysubmit_1"%string
  end%string.
Definition demo_serving : Gateway := gateway0 <| clients := [("ray-train-jdoe", ["c1"; "c2"])]%string |>.
Definition demo_deleted : res Exc unit * Gateway * list Ev :=
  delete_cluster af_settings demo_open "ray-train-jdoe" REMOVED_IDLE demo_serving [].
Lemma removed_client_told_witness :
  demo_deleted.1.1 = Ok tt /\
  exists e now e', demo_deleted.2 = [e; existT Monotonic now; e'] /\ forall u s h2,
    (demo_open h2 Monotonic < now + GONE_S af_settings)%Q ->
    exists g2, relay af_config af_settings demo_template "service" 122 demo_open (mret (u, s)) "c2" demo_deleted.1.2 h2
      = (Err (Refusal (mkRefused NOT_FOUND REMOVED_IDLE)), g2, h2 ++ [existT Monotonic (demo_open h2 Monotonic)]).
Proof.
  split; [vm_compute; reflexivity|].
  apply (removed_client_told af_config af_settings demo_template "service" 122 demo_open "ray-train-jdoe" REMOVED_IDLE "c2"
    demo_serving []); [vm_compute; reflexivity|]. cbn. right. by left.
Defined.

(** ** Witnesses *)

(** A clock that a sleep sets on by what it is asked to, in a world where every call of
    Kubernetes fails for want of an answer. *)
Definition demo_asleep : service Req Ans := fun h r =>
  match r as r return Ans r with
  | Kube "POST" _ _ => Some (409, JObj []) | Kube _ _ _ => Some (404, JObj []) | Nrp _ _ _ => None
  | Hub _ _ => None | Ldap _ => Ok (5000, 5001) | HeadGet _ _ _ => HeadSilent | HeadStatus _ _ _ => None
  | HeadTail _ _ _ => None | HeadPost _ _ _ => tt | Prom _ _ => None
  | S3Clear _ => true | S3Put _ => true | S3Exists _ => Some true | S3Jobs => None
  | Now => 0%Q | Monotonic => slept h
  | Sleep _ => tt | CloseChannel _ => tt
  | NewSubmission => "raysubmit_1"%string
  end%string.
Lemma demo_clock : clock_ok demo_asleep.
Proof.
  intros h t. cbn. unfold slept. induction h as [|e h IH]; cbn [map app].
  - change (qsum []) with 0%Q. rewrite Qplus_0_l. apply Qle_refl.
  - change (qsum (?x :: ?l)) with (x + qsum l)%Q. lra.
Qed.
Definition demo_user : User := mkUser "jdoe" "jdoe" 5000 5001 false false.
Lemma start_cluster_returns_witness :
  (START_TIMEOUT_S af_settings < START_POLL_S af_settings * (qz (Z.of_nat 122) - 1))%Q /\
  (start_cluster af_config af_settings demo_template "service" 122 demo_asleep demo_user demo_shape gateway0 []).1.1 <> Err OutOfFuel.
Proof.
  split; [vm_compute; reflexivity|].
  apply (start_cluster_returns af_config af_settings demo_template "service" 122 demo_asleep demo_user demo_shape gateway0 []);
    [apply demo_clock|vm_compute; reflexivity|vm_compute; discriminate|vm_compute; reflexivity].
Defined.
