(* ===== verification/RayJobs.v ===== *)
(** The users' jobs at Purdue ([apps/ray-train/gateway.py]): [submission] and
    [start_job], [job], [recorded], [job_details], [reap_jobs] with [follow_on_head],
    [free_workers], [keep_logs] and [stop_unprovisioned]. *)
From S2P Require Import Prelude PyJson PyText PyTime PyValue Sha256 NrpGpus RayNames RayShape RayBuild RayAdmit NrpJobs.
From S2P Require Import RayState RayNrp RayUser RayCluster.
Open Scope Z_scope.

Definition STOPPED_UNPROVISIONED : string :=
  "The job was stopped, as not all of its GPUs started in time: ask for fewer workers, or try again later.".
Definition duplicate_refusal (submission : string) : Refused := mkRefused FAILED_PRECONDITION
  ("You have a job " ++ submission ++ " already: submit it under another ID, or without one.").
Definition job_name (u : User) (key : string) : string :=
  "ray-job-" ++ str_take 16 (sha256_hex (user_owner u ++ "/" ++ user_cluster u ++ "/" ++ key)).

(** ** [job_details] *)

Definition job_state (job : json) : string * string :=
  let status := or_obj (jget "status" job) in
  let annotations := annotations_of job in
  let stopped := jget STOPPED_ANNOTATION annotations in
  let state := if truthy stopped then "STOPPED"%string else jstr (j_or (jget "jobStatus" status) (JStr "PENDING")) in
  let message := jstr (j_or stopped (j_or (jget "message" status) (JStr JOB_STARTING))) in
  let stage := jget STAGE_ANNOTATION annotations in
  if jeq_str stage "inputs" then ("PENDING", "Copying its inputs to NRP.")%string
  else if jeq_str stage "outputs"
       || (jeq_str stage "running" && job_ended job && jeq_str (jget OUTPUT_ANNOTATION annotations) "true")
  then ("RUNNING", "The job is " ++ state ++ ": copying its outputs back.")%string
  else if jeq_str stage "done" && jeq_str (jget OUTPUT_ANNOTATION annotations) OUTPUT_FAILED
  then (state, message ++ " " ++ OUTPUT_FAILED)%string
  else (state, message).
Definition ms_json (ms : option Z) : json := match ms with Some n => JInt n | None => JNull end.
(** [None] where a time does not read. *)
Definition job_details (job : json) : option json :=
  let status := or_obj (jget "status" job) in
  let ran := or_obj (jget "rayJobInfo" status) in
  let '(state, message) := job_state job in
  start ← epoch_ms (j_or (jget "startTime" ran) (jget "startTime" status));
  end_ ← epoch_ms (j_or (jget "endTime" ran) (jget "endTime" status));
  Some (JObj [("type", JStr "SUBMISSION"); ("job_id", JNull); ("submission_id", jget "jobId" (jget "spec" job));
    ("driver_info", JNull); ("status", JStr state);
    ("entrypoint", jget_or ENTRYPOINT_ANNOTATION (JStr "") (annotations_of job)); ("message", JStr message);
    ("error_type", JNull); ("start_time", ms_json start); ("end_time", ms_json end_); ("metadata", JObj []);
    ("runtime_env", JObj []); ("driver_agent_http_address", JNull); ("driver_node_id", JNull);
    ("driver_exit_code", JNull)])%string.

(** ** The logs that are kept *)

(** [kept[-n:]] *)
Definition last_n (n : nat) (s : string) : string := str_drop (String.length s - n) s.
(** [kept += data; if len(kept) > 2 * LOG_BYTES: del kept[:-LOG_BYTES]] *)
Definition keep_text (limit : nat) (kept text : string) : string :=
  let kept := (kept ++ text)%string in
  if (2 * limit <? String.length kept)%nat then last_n limit kept else kept.
Definition LF : ascii := ascii_of_nat 10.
(** [decode], its errors ignored, of the end of a text in UTF-8: a character cut by the start is left out. *)
Definition continuation (c : ascii) : bool := (128 <=? chr_code c) && (chr_code c <? 192).
Definition decode_end (s : string) : string := str_lstrip continuation s.
Definition CUT (kib : Z) : string :=
  "[the first lines are cut: only the last " ++ pretty kib ++ " KiB are kept]" ++ String LF "".
Definition marked (limit : nat) (logs : string) : string :=
  CUT (Z.of_nat limit / 1024) ++ default "" (str_partition LF logs).2.
(** The ConfigMap's text, of what the log's messages left in [kept]. *)
Definition logs_of (limit : nat) (kept : string) : string :=
  let logs := decode_end (last_n limit kept) in
  if (limit <? String.length kept)%nat then marked limit logs else logs.
Definition tail_logs (limit : nat) (texts : list string) : string :=
  logs_of limit (foldl (keep_text limit) "" texts).

(** What the gateway answers an HTTP call with. *)
Inductive Answer :=
| AJson (j : json)                                     (** [web.json_response] *)
| ATexts (l : list string)                             (** the texts of a WebSocket *)
| AStatus (status : Z)                                 (** an empty response *)
| ARelay (head keyed : string) (body : option json)    (** passed on to a head *)
| ATail (name : string).                               (** the log of a job on NRP, as it is printed *)
Record Request := mkRequest {
  rq_method : string; rq_path : string; rq_headers : list (string * string); rq_upgrade : string; rq_json : option json }.

(** [submitted_json]: the body's JSON, [None] if it is none. *)
Definition submitted_json (body : option json) : res Refused json :=
  match body with
  | Some (JObj o) => Ok (JObj o)
  | _ => refuse INVALID_ARGUMENT "A job submission is a JSON object."
  end.
Definition str_upper : string -> string :=
  str_map (fun c => if is_lower c then ascii_of_nat (nat_of_ascii c - 32) else c).
(** [data_paths]'s dict. *)
Definition data_items (data : option string * option string) : list (string * string) :=
  option_list (option_map (pair "inputs"%string) data.1) ++ option_list (option_map (pair "output"%string) data.2).
Definition af_variable (key : string) : string := "AF_" ++ str_upper key.

Section Jobs.
Context (cfg : GwConfig) (cf : Settings) (template : json) (service_token : string) (fuel log_bytes : nat)
  (nrp_on : bool) (svc : service Req Ans).
Local Abbreviation kube := (kube svc).

(** ** The jobs on NRP, where [nrp_on] says that the gateway has NRP's API *)

Definition nrp_listing (selector : string) : GW (list json) :=
  '(status, listing) ← nrp_call svc "GET" (nrp_path cf "rayjobs" ++ "?labelSelector=" ++ quote "/" selector) JNull;
  if negb (status =? 200)
  then refused UNAVAILABLE ("NRP answered HTTP " ++ pretty status ++ " for the Ray jobs.")
  else mret (jlist (jget_or "items" (JArr []) listing)).
Definition owner_selector (u : User) : string := OWNER_LABEL ++ "=" ++ owner_key (user_cluster u) (user_owner u).
Definition nrp_jobs (u : User) : GW (list json) :=
  if negb nrp_on then mret [] else
  mcatch (nrp_listing (owner_selector u)) (fun e =>
    match e with Refusal _ | NoAnswer => mret [] | e => raise e end).
Definition of_submission (submission : string) (job : json) : bool :=
  jeq_str (jget "jobId" (jget "spec" job)) submission.
Definition nrp_job (u : User) (submission : string) : GW (option json) :=
  found ← nrp_jobs u; mret (List.find (of_submission submission) found).

(** ** [start_job] *)

Definition rayjob (name : string) : GW (option json) := kube_get svc (RAYJOBS cf) name "the Ray job".
Definition job_head (name : string) : GW (option string) :=
  job ← rayjob name;
  mret (match jget "rayClusterName" (or_obj (jget "status" (default JNull job))) with
        | JStr head => Some head | _ => None end).
Definition drop_grant (name : string) : GW unit :=
  mmod (fun g => g <| grants := ddel name (grants g) |>).
Definition closed_head (secret : json) (name : string) : GW string :=
  head ← head_up cf fuel svc secret (job_head name) name "Ray job";
  open_ ← head_status svc head head false;
  if is_200 open_ then refused INVALID_ARGUMENT OPEN_HEAD else mret head.
Definition start_job (u : User) (s : Shape) : GW Waiting :=
  submission ← (mcall svc NewSubmission : GW string);
  let name := job_name u submission in
  mix ← admit_cluster cfg cf svc u s [] (Some name);
  '(status, created) ← kube "POST" (RAYJOBS cf)
    (RayBuild.build_job cfg (py_int (IDLE_TIMEOUT_S cf)) (cluster_template cfg template u) u s mix name);
  if negb (status =? 201) then
    drop_grant name ≫= fun _ =>
    refused UNAVAILABLE ("Could not create your Ray job: " ++ message_of status created)
  else
    let secret := token_secret name "RayJob" (jstr (jget "uid" (jget "metadata" created)))
                    (cluster_token service_token name) in
    head ← mcatch (closed_head secret name) (fun e =>
      match e with
      | Refusal r => _ ← delete_rayjob cf svc name; raise (Refusal r)
      | e => raise e
      end);
    now ← monotonic svc;
    mret (mkWaiting name head s now).

(** ** [jobs], [job], [submitted_before] *)

Definition jobs (u : User) : GW (list json) :=
  '(status, listing) ← listed svc (RAYJOBS cf) (OWNER_LABEL ++ "=" ++ user_cluster u);
  if negb (status =? 200)
  then refused UNAVAILABLE ("Kubernetes answered HTTP " ++ pretty status ++ " for your Ray jobs.")
  else mret (List.filter (fun job => owns u job && truthy (jget "jobId" (jget "spec" job)))
               (jlist (jget_or "items" (JArr []) listing))).
Definition job (u : User) (submission : string) : GW (option (json * option string)) :=
  found ← jobs u;
  match List.find (of_submission submission) found with
  | None => mret None
  | Some job =>
      let head := jget "rayClusterName" (or_obj (jget "status" job)) in
      if truthy head then
        up ← cluster cf svc (jstr head);
        mret (Some (job, if live up then Some (jstr head) else None))
      else mret (Some (job, None))
  end.
Definition submitted_before (u : User) (submission : string) : GW bool :=
  found ← jobs u;
  if existsb (of_submission submission) found then mret true
  else on_nrp ← nrp_job u submission; mret (match on_nrp with Some _ => true | None => false end).

(** ** [submission] *)

Definition asked_id (submitted : json) : GW string :=
  let asked := jget "submission_id" submitted in
  if truthy asked then mret (str_of asked) else (mcall svc NewSubmission : GW string).
Definition fresh_waiting (s : Shape) (w : Waiting) : GW (option Waiting) :=
  if negb (bool_decide (w_shape w = s)) then mret None
  else now ← monotonic svc; mret (if START_TIMEOUT_S cf <?q (now - w_since w)%Q then None else Some w).
(** The waiting job of the user, if it is of that shape and not too old; it waits no more. *)
Definition take_waiting (u : User) (s : Shape) : GW Waiting :=
  g ← mget;
  let found := dget (user_cluster u) (waiting g) in
  mput (g <| waiting := ddel (user_cluster u) (waiting g) |>) ≫= fun _ =>
  kept ← match found with Some w => fresh_waiting s w | None => mret None end;
  match kept with Some w => mret w | None => start_job u s end.
Definition submit (waited : Waiting) (submitted : json) (asked : string) (data : list (string * string)) : GW json :=
  let submitted := jset "submission_id" (JStr asked) submitted in
  let submitted := match data with
    | [] => submitted
    | _ => jset "runtime_env" (with_env_vars (or_obj (jget "runtime_env" submitted))
             (map (fun kv => (af_variable kv.1, JStr kv.2)) data)) submitted
    end in
  '(status, answer) ← kube "PATCH" (RAYJOBS cf ++ "/" ++ w_name waited)
    (JObj [("metadata", JObj [("annotations", JObj [(ENTRYPOINT_ANNOTATION, JStr (entrypoint_of submitted))])]);
           ("spec", JObj [("jobId", JStr asked)])])%string;
  if negb (status =? 200) then
    _ ← delete_rayjob cf svc (w_name waited);
    refused UNAVAILABLE ("Could not start your Ray job: " ++ message_of status answer)
  else mret submitted.
Definition submission (u : User) (s : Shape) (rq : Request)
    : GW (string * string * option json) :=
  if session_gpu u then raise (Refusal (session_gpu_refusal "Ray jobs")) else
  let own := cluster_template cfg template u in
  _ ← lift (mounted_env (env s) own);
  submitted ← (if String.eqb (rq_method rq) "POST" then j ← lift (submitted_json (rq_json rq)); mret (Some j) else mret None);
  asked ← match submitted with
    | None => mret ""%string
    | Some j =>
        asked ← asked_id j;
        before ← submitted_before u asked;
        if before : bool then raise (Refusal (duplicate_refusal asked)) else mret asked
    end;
  data ← lift (data_paths own (rq_headers rq));
  let data := data_items data in
  waited ← take_waiting u s;
  match submitted with
  | None =>
      mmod (fun g => g <| waiting := dset (user_cluster u) waited (waiting g) |>) ≫= fun _ =>
      mret (w_head waited, w_name waited, None)
  | Some j =>
      sent ← submit waited j asked data;
      mret (w_head waited, w_name waited, Some sent)
  end.

(** ** [recorded] and [kept_logs] *)

Definition delete_record (name : string) : GW unit :=
  status ← delete_rayjob cf svc name;
  if negb ((status =? 200) || (status =? 202) || (status =? 404))
  then refused UNAVAILABLE ("Kubernetes answered HTTP " ++ pretty status ++ " deleting the Ray job.") else mret tt.
Definition recorded (job : json) (method rest : string) : GW Answer :=
  let name := jstr (jget "name" (jget "metadata" job)) in
  let ended := job_ended job in
  if String.eqb method "GET" && String.eqb rest "" then details ← or_raise Failure (job_details job); mret (AJson details)
  else if String.eqb method "DELETE" && String.eqb rest "" then
    if negb ended then refused INVALID_ARGUMENT "The job has not ended: stop it first"
    else delete_record name ≫= fun _ => mret (AJson (JObj [("deleted", JBool true)]%string))
  else if String.eqb method "POST" && String.eqb rest "/stop" then
    (if negb ended then delete_record name else mret tt) ≫= fun _ =>
    mret (AJson (JObj [("stopped", JBool (negb ended))]%string))
  else refused NOT_FOUND
    (if ended
     then "The job's Ray cluster was removed " ++ pretty (floordiv (IDLE_TIMEOUT_S cf) 60)
          ++ " minutes after the job ended, and its logs with it"
     else "The job's Ray cluster is starting: ask again in a minute").
Definition kept_logs (configmap rest : string) : GW Answer :=
  '(status, body) ← kube "GET" (CONFIGMAPS cf ++ "/" ++ configmap) JNull;
  if negb (status =? 200)
  then refused UNAVAILABLE ("The job's logs could not be read: Kubernetes answered HTTP " ++ pretty status)
  else
    let logs := str_of (jget_or "logs" (JStr "") (or_obj (jget "data" body))) in
    mret (if String.eqb rest "/logs" then AJson (JObj [("logs", JStr logs)]%string)
          else ATexts (if String.eqb logs "" then [] else [logs])).

(** ** The reaper of the jobs *)

Definition log_message (configmap : string) (labels : json) (name uid logs : string) : json :=
  JObj [("metadata", JObj [("name", JStr configmap);
           ("labels", JObj [(MANAGED_LABEL, JStr MANAGED_BY); (OWNER_LABEL, jget OWNER_LABEL labels)]);
           ("ownerReferences", JArr [JObj [("apiVersion", JStr "ray.io/v1"); ("kind", JStr "RayJob");
                                           ("name", JStr name); ("uid", JStr uid)]])]);
        ("data", JObj [("logs", JStr logs)])]%string.
Definition annotate_rayjob (name key value : string) : GW (Z * json) :=
  kube "PATCH" (RAYJOBS cf ++ "/" ++ name)
    (JObj [("metadata", JObj [("annotations", JObj [(key, JStr value)])])])%string.
Definition spec_submission (job : json) : string := jstr (jget "jobId" (jget "spec" job)).
Definition keep_logs (job : json) (head : string) : GW unit :=
  let metadata := jget "metadata" job in
  if jhas LOGS_ANNOTATION (annotations_of job) then mret tt else
  let name := name_of job in
  texts ← (mcall svc (HeadTail head name (spec_submission job)) : GW (option (list string)));
  match texts with
  | None => mret tt
  | Some texts =>
      if negb (jhas OWNER_LABEL (jget "labels" metadata)) then raise Failure else
      let configmap := (name ++ "-logs")%string in
      '(status, _) ← kube "POST" (CONFIGMAPS cf) (log_message configmap (jget "labels" metadata) name
          (jstr (jget "uid" metadata)) (tail_logs log_bytes texts));
      if negb ((status =? 201) || (status =? 409)) then mret tt
      else annotate_rayjob name LOGS_ANNOTATION configmap ≫= fun _ => mret tt
  end.

(** The JSON patch that suspends each group that is not suspended. *)
Definition suspend_op (i : nat) : json :=
  JObj [("op", JStr "add"); ("path", JStr ("/spec/workerGroupSpecs/" ++ pretty (Z.of_nat i) ++ "/suspend"));
        ("value", JBool true)]%string.
Fixpoint suspends (i : nat) (groups : list json) : list json :=
  match groups with
  | [] => []
  | grp :: l => (if truthy (jget "suspend" grp) then [] else [suspend_op i]) ++ suspends (S i) l
  end.
Definition free_workers (job : json) (head : option string) : GW unit :=
  match head with
  | None => mret tt
  | Some h =>
      if String.eqb h "" then mret tt else
      found ← cluster cf svc h;
      if negb (live found) then mret tt else
      keep_logs job h ≫= fun _ =>
      match suspends O (jlist (jget "workerGroupSpecs" (jget "spec" (default JNull found)))) with
      | [] => mret tt
      | ops => kube "PATCH" (RAYCLUSTERS cf ++ "/" ++ h) (JArr ops) ≫= fun _ => mret tt
      end
  end.

(** [None] if the head does not answer. *)
Definition head_job_status (head keyed submission : string) : GW (option string) :=
  a ← head_get svc head keyed ("/api/jobs/" ++ submission);
  match a with
  | HeadJson (JObj o) => mret (Some (str_of (j_or (jget "status" (JObj o)) (JStr ""))))
  | HeadJson _ => raise Failure
  | HeadError status => mret (if status =? 404 then Some ""%string else None)
  | HeadSilent => mret None
  end.
Definition is_ended (state : option string) : bool :=
  bool_decide (state ∈ [Some "SUCCEEDED"; Some "FAILED"; Some "STOPPED"]%string).
Definition head_name (job : json) : option string :=
  let head := jget "rayClusterName" (status_of job) in if truthy head then Some (jstr head) else None.
Definition follow_on_head (job : json) (submission : string) (created now : Q) : GW unit :=
  let name := name_of job in
  up ← match head_name job with
       | Some h => found ← cluster cf svc h; mret (if live found then Some h else None)
       | None => mret None
       end;
  match up with
  | None =>
      if JOB_RECORD_S cf <=?q (now - created)%Q then delete_rayjob cf svc name ≫= fun _ => mret tt else mret tt
  | Some head =>
      state ← head_job_status head name submission;
      if is_ended state then free_workers job (Some head)
      else if bool_decide (state = Some ""%string) && (2 * START_TIMEOUT_S cf <=?q (now - created)%Q)
      then delete_rayjob cf svc name ≫= fun _ => mret tt
      else mret tt
  end.
Definition stop_unprovisioned (job : json) (head : string) : GW unit :=
  let name := name_of job in
  (mcall svc (HeadPost head name ("/api/jobs/" ++ spec_submission job ++ "/stop")) : GW unit) ≫= fun _ =>
  annotate_rayjob name STOPPED_ANNOTATION STOPPED_UNPROVISIONED ≫= fun _ =>
  keep_logs job head ≫= fun _ =>
  delete_cluster cf svc head REMOVED_IDLE.

(** One job of a pass of [reap_jobs]; [waited] says whether an upload waits on it. *)
Definition reap_job (waited : bool) (now : Q) (job : json) : GW unit :=
  let metadata := jget "metadata" job in
  let name := name_of job in
  let state := status_of job in
  created ← or_raise Failure (read_stamp (jstr (jget "creationTimestamp" metadata)));
  if truthy (jget "deletionTimestamp" metadata) then mret tt
  else if negb (truthy (jget "jobId" (jget "spec" job))) then
    if negb waited && (2 * START_TIMEOUT_S cf <=?q (now - created)%Q)
    then delete_rayjob cf svc name ≫= fun _ => mret tt else mret tt
  else if negb (truthy (jget "jobStatus" state)) then follow_on_head job (spec_submission job) created now
  else if job_ended job then
    free_workers job (head_name job) ≫= fun _ =>
    ended ← or_raise Failure (epoch_ms (jget "endTime" state));
    match ended with
    | Some ms => if JOB_RECORD_S cf <=?q (now - qz ms / 1000)%Q
                 then delete_rayjob cf svc name ≫= fun _ => mret tt else mret tt
    | None => mret tt
    end
  else match head_name job with
  | None => mret tt
  | Some head =>
      found ← cluster cf svc head;
      match found with
      | None => mret tt
      | Some c =>
          late ← or_raise Failure (unprovisioned cf c now);
          if late : bool then stop_unprovisioned job head else mret tt
      end
  end.
Definition waited_for (fresh : Q) (g : Gateway) (name : string) : bool :=
  existsb (fun kw => String.eqb (w_name kw.2) name && (fresh <?q w_since kw.2)) (waiting g).
Definition reap_jobs : GW unit :=
  '(status, listing) ← listed svc (RAYJOBS cf) MANAGED_SELECTOR;
  if negb (status =? 200) then mret tt else
  now ← time svc;
  mono ← monotonic svc;
  g ← mget;
  mfor (jlist (jget_or "items" (JArr []) listing)) (fun job =>
    mcatch (reap_job (waited_for (mono - START_TIMEOUT_S cf)%Q g (name_of job)) now job) (fun _ => mret tt)).

(** The cluster of each RayJob that has one, and its owner's own cluster. *)
Definition job_owners : GW (list (string * string)) :=
  '(status, listing) ← listed svc (RAYJOBS cf) MANAGED_SELECTOR;
  if negb (status =? 200) then raise Failure else
  mret (foldl (fun acc job =>
      let owner := jget OWNER_LABEL (labels_of job) in
      match head_name job with
      | Some c => if truthy owner then dset c (jstr owner) acc else acc
      | None => acc
      end) [] (jlist (jget_or "items" (JArr []) listing))).
End Jobs.

(** ** The log tail *)

Lemma laos_drop n s : list_ascii_of_string (str_drop n s) = drop n (list_ascii_of_string s).
Proof. revert s. induction n as [|n IH]; intros [|c s]; cbn; [done..|apply IH]. Qed.
Lemma laos_last_n n s :
  list_ascii_of_string (last_n n s) = drop (String.length s - n) (list_ascii_of_string s).
Proof. apply laos_drop. Qed.
Lemma last_n_length n s : String.length (last_n n s) = Nat.min n (String.length s).
Proof. rewrite <- laos_length, laos_last_n, length_drop, laos_length. lia. Qed.
Lemma last_n_all n s : (String.length s <= n)%nat -> last_n n s = s.
Proof. intros H. unfold last_n. by replace (String.length s - n)%nat with O by lia. Qed.
(** The end of a text is that of any end of it that is long enough. *)
Lemma last_n_app n m s t : (n <= m + String.length t)%nat -> (m <= String.length s)%nat ->
  last_n n (last_n m s ++ t) = last_n n (s ++ t).
Proof.
  intros Hn Hm. apply laos_inj. rewrite !laos_last_n, !laos_app, laos_last_n, !str_length_app, last_n_length, Nat.min_l by done.
  rewrite !drop_app, drop_drop, length_drop, laos_length. f_equal; f_equal; lia.
Qed.

Section LogTail.
Context (limit : nat).
Definition log_text (texts : list string) : string := foldl String.append "" texts.
Definition tail_ok (kept total : string) : Prop :=
  kept = last_n (String.length kept) total /\
  (String.length kept <= String.length total /\ String.length kept <= 2 * limit)%nat /\
  ((String.length total <= 2 * limit)%nat -> kept = total) /\
  (kept = total \/ (limit <= String.length kept)%nat).
Lemma last_n_last n m s : (n <= m)%nat -> (m <= String.length s)%nat -> last_n n (last_n m s) = last_n n s.
Proof. intros Hn Hm. pose proof (last_n_app n m s "" ltac:(lia) Hm) as H. by rewrite !str_app_nil in H. Qed.
Lemma keep_text_ok kept total text : tail_ok kept total -> tail_ok (keep_text limit kept text) (total ++ text).
Proof.
  intros (Hk & [Hl Hb] & Hs & Hd). unfold keep_text.
  assert (E : (kept ++ text)%string = last_n (String.length (kept ++ text)) (total ++ text)).
  { rewrite <- (last_n_app _ (String.length kept)), <- Hk by (rewrite ?str_length_app; lia).
    by rewrite last_n_all. }
  destruct (Nat.ltb_spec (2 * limit) (String.length (kept ++ text))) as [Hlt|Hge].
  - assert (Hlen : String.length (last_n limit (kept ++ text)) = limit) by (rewrite last_n_length; lia).
    assert (Hle : (String.length (kept ++ text) <= String.length (total ++ text))%nat) by (rewrite !str_length_app; lia).
    split; [|split; [|split]].
    + rewrite Hlen, E. apply last_n_last; lia.
    + lia.
    + intros. lia.
    + right. lia.
  - split; [done|]. rewrite !str_length_app in *. split; [lia|split].
    + intros. rewrite Hs by lia. done.
    + destruct Hd as [->|Hd]; [by left|right; lia].
Qed.
Lemma keep_texts_ok texts : tail_ok (foldl (keep_text limit) "" texts) (log_text texts).
Proof.
  unfold log_text. assert (H : tail_ok "" "") by (split; [done|split; [cbn; lia|auto]]). revert H.
  generalize ""%string at 1 3 as kept. generalize ""%string as total.
  induction texts as [|t l IH]; intros total kept H; [done|]. by apply IH, keep_text_ok.
Qed.
End LogTail.

(** An ended job's kept log is the end of what it printed.  Though the lines come
    one by one and no more than twice the limit is ever held, what is kept is computed
    from the last [limit] bytes of all of them: a log within the limit is kept whole; of
    a longer one the last [limit] bytes stay, or these less the line they cut, under a
    line that says so, which a log within twice the limit always has. *)
Theorem log_tail_kept limit texts :
  let all := log_text texts in
  let tail := decode_end (last_n limit all) in
  ((String.length all <= limit)%nat -> tail_logs limit texts = decode_end all) /\
  ((limit < String.length all)%nat ->
     tail_logs limit texts = tail \/ tail_logs limit texts = marked limit tail) /\
  ((limit < String.length all <= 2 * limit)%nat -> tail_logs limit texts = marked limit tail) /\
  forall before, before `prefix_of` texts -> (String.length (foldl (keep_text limit) "" before) <= 2 * limit)%nat.
Proof.
  cbv zeta. pose proof (keep_texts_ok limit texts) as (Hk & [Hl Hb] & Hs & Hd). unfold tail_logs, logs_of.
  set (kept := foldl _ _ texts) in *. assert (E : (limit <= String.length kept)%nat \/ kept = log_text texts ->
    last_n limit kept = last_n limit (log_text texts)).
  { intros [H | ->]; [|done]. rewrite Hk. by apply last_n_last. }
  rewrite E by tauto. split; [|split; [|split]].
  - intros H. rewrite Hs by lia. rewrite (last_n_all limit) by done. by destruct (Nat.ltb_spec limit (String.length (log_text texts))); [lia|].
  - intros _. destruct (Nat.ltb_spec limit (String.length kept)); [by right|by left].
  - intros H. rewrite (Hs ltac:(lia)). by destruct (Nat.ltb_spec limit (String.length (log_text texts))); [|lia].
  - intros before _. apply keep_texts_ok.
Qed.
(** A log that is trimmed to the limit at its last line loses its start, and no line says so. *)
Lemma log_cut_unmarked : exists limit texts,
  (limit < String.length (log_text texts))%nat /\ tail_logs limit texts = last_n limit (log_text texts).
Proof. exists 4%nat, ["abc"; "defghi"]%string. split; [vm_compute; lia|vm_compute; reflexivity]. Qed.
