(* ===== verification/RayReap.v ===== *)
(** What a pass of [reap_jobs] may remove: a monitor of the calls about one job, and
    the JSON patch that frees its workers. *)
From S2P Require Import Prelude PyJson PyText PyTime PyValue NrpGpus RayNames RayShape RayBuild RayAdmit NrpJobs.
From S2P Require Import RayState RayNrp RayUser RayCluster RayJobs.
Open Scope Z_scope.

(** ** The workers freed *)

Lemma suspend_op_inj : Inj (=) (=) suspend_op.
Proof.
  intros i j H. apply (f_equal (fun op => jstr (jget "path" op))) in H. unfold suspend_op in H.
  change (("/spec/workerGroupSpecs/" ++ pretty (Z.of_nat i) ++ "/suspend")%string
          = ("/spec/workerGroupSpecs/" ++ pretty (Z.of_nat j) ++ "/suspend")%string) in H.
  apply str_app_inv_head, str_app_inv_tail in H as [H _]; [|done]. apply (inj pretty) in H. lia.
Qed.
Lemma suspends_from i groups op : op ∈ suspends i groups <->
  exists k grp, groups !! k = Some grp /\ truthy (jget "suspend" grp) = false /\ op = suspend_op (i + k).
Proof.
  revert i. induction groups as [|grp l IH]; intros i; cbn [suspends].
  { split; [intros H; by apply not_elem_of_nil in H|intros (k & ? & H & _); done]. }
  rewrite elem_of_app, IH. split.
  - intros [H|(k & g & Hk & Hg & ->)]; [|exists (S k), g; split; [done|]; split; [done|]; f_equal; lia].
    destruct (truthy _) eqn:E; [by apply not_elem_of_nil in H|]. apply list_elem_of_singleton in H as ->.
    exists O, grp. split; [done|]. split; [done|]. f_equal. lia.
  - intros ([|k] & g & Hk & Hg & ->); cbn in Hk.
    + left. injection Hk as <-. rewrite Hg. apply list_elem_of_singleton. f_equal. lia.
    + right. exists k, g. split; [done|]. split; [done|]. f_equal. lia.
Qed.

(** The patch that frees a job's workers is exact.  It sets [suspend] on the worker
    group at a place if, and only if, the cluster has a group there that is not
    suspended, so it is empty just when every group is. *)
Theorem suspends_exact groups :
  (forall i, suspend_op i ∈ suspends O groups <->
     exists grp, groups !! i = Some grp /\ truthy (jget "suspend" grp) = false) /\
  (suspends O groups = [] <-> Forall (fun grp => truthy (jget "suspend" grp) = true) groups).
Proof.
  assert (H : forall i, suspend_op i ∈ suspends O groups <->
     exists grp, groups !! i = Some grp /\ truthy (jget "suspend" grp) = false).
  { intros i. rewrite suspends_from. split.
    - intros (k & grp & Hk & Hg & He). apply suspend_op_inj in He as ->. by exists grp.
    - intros (grp & Hk & Hg). by exists i, grp. }
  split; [exact H|]. rewrite Forall_lookup. split.
  - intros He i grp Hi. destruct (truthy _) eqn:E; [done|].
    assert (Hin : suspend_op i ∈ suspends O groups) by (apply H; by exists grp). rewrite He in Hin. by apply not_elem_of_nil in Hin.
  - intros Hall. destruct (suspends O groups) as [|op l] eqn:E; [done|]. exfalso.
    assert (Hin : op ∈ suspends O groups) by (rewrite E; by left).
    apply suspends_from in Hin as (k & grp & Hk & Hg & _). rewrite (Hall _ _ Hk) in Hg. done.
Qed.

(** ** What a pass removes *)

(** What the calls about a job have shown: its cluster is down, or its workers came too
    late; its head knows no such job, or that it ended. *)
Record Seen := mkSeen { sn_down : bool; sn_late : bool; sn_none : bool; sn_ended : bool }.
Definition unseen : Seen := mkSeen false false false false.
Definition status_said (a : HeadAnswer) : option string :=
  match a with
  | HeadJson (JObj o) => Some (str_of (j_or (jget "status" (JObj o)) (JStr "")))
  | HeadError status => if status =? 404 then Some ""%string else None
  | _ => None
  end.
Definition down_of (a : option (Z * json)) : bool :=
  match a with Some (status, body) => (status =? 404) || ((status =? 200) && negb (live (Some body))) | None => false end.
Definition late_of (cf : Settings) (now : Q) (a : option (Z * json)) : bool :=
  match a with
  | Some (status, body) => (status =? 200) && bool_decide (unprovisioned cf body now = Some true)
  | None => false
  end.
Definition created_of (job : json) : option Q := read_stamp (jstr (jget "creationTimestamp" (jget "metadata" job))).
Definition older (now : Q) (since : option Q) (d : Q) : bool :=
  match since with Some t => d <=?q (now - t)%Q | None => false end.
(** When the record of a job may go. *)
Definition may_go (cf : Settings) (waited : bool) (now : Q) (job : json) (q : Seen) : bool :=
  if negb (truthy (jget "jobId" (jget "spec" job)))
  then negb waited && older now (created_of job) (2 * START_TIMEOUT_S cf)%Q
  else if negb (truthy (jget "jobStatus" (status_of job)))
  then (sn_down q || bool_decide (head_name job = None)) && older now (created_of job) (JOB_RECORD_S cf)
       || sn_none q && older now (created_of job) (2 * START_TIMEOUT_S cf)%Q
  else job_ended job
       && match epoch_ms (jget "endTime" (status_of job)) with
          | Some (Some ms) => older now (Some (qz ms / 1000)%Q) (JOB_RECORD_S cf)
          | _ => false
          end.
(** When its cluster may go. *)
Definition may_stop (job : json) (q : Seen) : bool :=
  truthy (jget "jobStatus" (status_of job)) && negb (job_ended job) && sn_late q.
Definition reap_step (cf : Settings) (waited : bool) (now : Q) (job : json) (q : Seen) (e : Ev) : option Seen :=
  match e with
  | existT (Kube m path body) a =>
      let head := (RAYCLUSTERS cf ++ "/" ++ default "" (head_name job))%string in
      if String.eqb m "DELETE" then
        if String.eqb path (RAYJOBS cf ++ "/" ++ name_of job)%string && may_go cf waited now job q
           || String.eqb path head && may_stop job q
        then Some q else None
      else if is_arr body then
        if String.eqb path head && (job_ended job || sn_ended q) then Some q else None
      else if String.eqb m "GET" then Some (mkSeen (down_of a) (late_of cf now a) (sn_none q) (sn_ended q)) else Some q
  | existT (HeadGet _ _ _) a =>
      Some (mkSeen (sn_down q) (sn_late q) (bool_decide (status_said a = Some ""%string)) (is_ended (status_said a)))
  | _ => Some q
  end.
(** The calls that this monitor takes note of. *)
Definition reaps (r : Req) : bool :=
  match r with
  | Kube m _ body => String.eqb m "DELETE" || is_arr body || String.eqb m "GET"
  | HeadGet _ _ _ => true
  | _ => false
  end.

Section QuietLogs.
Context {svc : service Req Ans} {P : forall A, GW A -> Prop} (HP : closed reaps svc P) (cf : Settings) (log_bytes : nat).
Lemma q_annotate_rayjob n key v : P _ (annotate_rayjob cf svc n key v).
Proof. by apply (q_kube HP). Qed.
Lemma q_keep_logs job head : P _ (keep_logs cf log_bytes svc job head).
Proof.
  unfold keep_logs. quiet; by first [apply (cl_call _ _ _ HP (HeadTail _ _ _)) | apply (q_kube HP) | apply q_annotate_rayjob].
Qed.
End QuietLogs.

Section Reap.
Context (cf : Settings) (log_bytes : nat) (svc : service Req Ans) (waited : bool) (now : Q) (job : json).
Local Abbreviation pmon q c := (mon (reap_step cf waited now job) q c (fun _ _ => True)).

Lemma reap_same q : closed reaps svc (fun A c => mon (reap_step cf waited now job) q c (fun _ q' => q' = q)).
Proof.
  apply closed_same. intros r a H. destruct r; try done. cbn [reaps reap_step] in *.
  apply orb_false_iff in H as [[H1 H2]%orb_false_iff H3]. by rewrite H1, H2, H3.
Qed.
Lemma pmon_then {A B} q (c : GW A) (f : A -> GW B) :
  mon (reap_step cf waited now job) q c (fun _ q' => q' = q) -> (forall a, pmon q (f a)) -> pmon q (c ≫= f).
Proof. intros Hc Hf. apply mon_bind. eapply mon_mono; [exact Hc|]. intros [a|e] q' ->; [apply Hf|done]. Qed.
Lemma pmon_remove q : may_go cf waited now job q = true ->
  pmon q (delete_rayjob cf svc (name_of job) ≫= fun _ => mret tt).
Proof.
  intros H. apply mon_bind. unfold delete_rayjob. apply mon_kube. intros a. exists q.
  split; [cbn [reap_step]; by rewrite String.eqb_refl, (String.eqb_refl (RAYJOBS _ ++ _)), H|].
  destruct a as [[status b]|]; [|done]. by apply mon_ret, mon_ret.
Qed.
(** Asking for a job's cluster shows whether it is down, or late. *)
Lemma mon_cluster {B} q h (f : option json -> GW B) (R : res Exc B -> Seen -> Prop) :
  head_name job = Some h -> (forall e q', R (Err e) q') ->
  (forall found d l, (found = None \/ live found = false -> d = true) ->
     (forall c, found = Some c -> unprovisioned cf c now = Some true -> l = true) ->
     mon (reap_step cf waited now job) (mkSeen d l (sn_none q) (sn_ended q)) (f found) R) ->
  mon (reap_step cf waited now job) q (cluster cf svc h ≫= f) R.
Proof.
  intros Hh He Hf. unfold cluster. apply mon_kube_get. intros a. eexists. split; [reflexivity|].
  destruct a as [[status b]|]; [|apply He]. destruct (status =? 404) eqn:E4.
  - apply Hf; [|done]. intros _. cbn [down_of]. by rewrite E4.
  - destruct (status =? 200) eqn:E2; [|intros; apply He]. apply Hf.
    + intros [?|Hl]; [done|]. cbn [down_of]. by rewrite E2, Hl, orb_true_r.
    + intros c [= <-] Hu. cbn [late_of]. by rewrite E2, bool_decide_true.
Qed.
Lemma pmon_free q h : head_name job = h -> job_ended job || sn_ended q = true ->
  pmon q (free_workers cf log_bytes svc job h).
Proof.
  intros Hh He. unfold free_workers. destruct h as [h|]; [|by apply mon_ret].
  destruct (String.eqb h ""); [by apply mon_ret|]. apply mon_cluster; [done..|]. intros found d l _ _.
  destruct (negb (live found)); [by apply mon_ret|]. apply pmon_then; [apply (q_keep_logs (reap_same _))|intros _].
  destruct (suspends _ _) as [|op ops]; [by apply mon_ret|]. apply mon_kube. intros a. eexists.
  split; [|destruct a as [[status b]|]; [by apply mon_ret|done]].
  cbn [reap_step String.eqb Ascii.eqb is_arr]. rewrite Hh. cbn [default sn_ended]. by rewrite String.eqb_refl, He.
Qed.
Lemma pmon_delete_cluster q h why : head_name job = Some h -> may_stop job q = true -> pmon q (delete_cluster cf svc h why).
Proof.
  intros Hh Hm. unfold delete_cluster. apply mon_kube. intros a. exists q. split.
  - cbn [reap_step]. rewrite Hh. cbn [default]. by rewrite String.eqb_refl, (String.eqb_refl (RAYCLUSTERS _ ++ _)), Hm, orb_true_r.
  - destruct a as [[status b]|]; [|done]. destruct (negb _); [by apply mon_raise|].
    apply pmon_then; [by apply (q_monotonic (reap_same q))|intros t]. apply mon_bind, mon_mod.
    refine (mon_call _ q svc (CloseChannel h) _ _). intros []. by exists q.
Qed.
Lemma stop_spares q h : head_name job = Some h -> may_stop job q = true ->
  pmon q (stop_unprovisioned cf log_bytes svc job h).
Proof.
  intros Hh Hm. unfold stop_unprovisioned. cbv zeta.
  apply pmon_then; [by apply (cl_call _ _ _ (reap_same q) (HeadPost _ _ _))|intros _].
  apply pmon_then; [apply (q_annotate_rayjob (reap_same q))|intros _].
  apply pmon_then; [apply (q_keep_logs (reap_same q))|intros _]. by apply pmon_delete_cluster.
Qed.
Lemma pmon_status {B} q h name submission (f : option string -> GW B) :
  (forall said, pmon (mkSeen (sn_down q) (sn_late q) (bool_decide (said = Some ""%string)) (is_ended said)) (f said)) ->
  pmon q (head_job_status svc h name submission ≫= f).
Proof.
  intros Hf. unfold head_job_status, head_get. do 2 apply mon_bind. refine (mon_call _ q svc (HeadGet _ _ _) _ _).
  intros a. eexists. split; [reflexivity|]. destruct a as [[]|status|]; try (by apply mon_raise); try by apply mon_ret, Hf.
Qed.
Lemma follow_spares q created submission : truthy (jget "jobId" (jget "spec" job)) = true ->
  truthy (jget "jobStatus" (status_of job)) = false ->
  (forall d, (d <=?q now - created)%Q = true -> older now (created_of job) d = true) ->
  pmon q (follow_on_head cf log_bytes svc job submission created now).
Proof.
  intros Hi Hs Hold. unfold follow_on_head. cbv zeta.
  assert (Hdown : forall q, sn_down q || bool_decide (head_name job = None) = true ->
    pmon q (if JOB_RECORD_S cf <=?q (now - created)%Q then delete_rayjob cf svc (name_of job) ≫= fun _ => mret tt else mret tt)).
  { intros q' Hd. destruct (_ <=?q _) eqn:Et; [|by apply mon_ret]. apply pmon_remove. unfold may_go. rewrite Hi, Hs. cbn [negb].
    by rewrite Hd, Hold. }
  apply mon_bind. destruct (head_name job) as [h|] eqn:Eh; [|apply mon_ret, Hdown; by rewrite orb_true_r].
  apply mon_cluster; [done..|]. intros found d l Hd _. apply mon_ret.
  destruct (live found) eqn:El; [|apply Hdown; cbn [sn_down]; rewrite Hd; auto].
  apply pmon_status. intros said. destruct (is_ended said) eqn:Ed; [by apply pmon_free; [|cbn [sn_ended]; rewrite orb_true_r]|].
  destruct (bool_decide (said = Some ""%string) && _) eqn:En; [|by apply mon_ret].
  apply andb_true_iff in En as [En Et]. apply pmon_remove. unfold may_go. rewrite Hi, Hs. cbn [negb sn_none].
  rewrite En, (Hold _ Et). apply orb_true_r.
Qed.
End Reap.

(** The reaper removes no job's record or cluster before its time.  Whatever
    Kubernetes and the heads answer, the only calls of a pass over a job that delete
    anything delete its RayJob, and only if no job came to it in twice the start's time
    and no upload waits on it, or its job ended longer ago than a record is kept, or its
    cluster is down that long after it was made, or its head, asked in this pass, does
    not know the job; or delete its cluster, and only while its job has not ended and
    Kubernetes said, in this pass, that its workers came too late.  Workers are
    suspended only in its own cluster and only once the job ended. *)
Theorem reap_job_spares cf log_bytes svc waited now job :
  mon (reap_step cf waited now job) unseen (reap_job cf log_bytes svc waited now job) (fun _ _ => True).
Proof.
  unfold reap_job. cbv zeta. apply mon_or_raise.
  destruct (read_stamp _) as [created|] eqn:Ec; [|done].
  assert (Hold : forall d, (d <=?q now - created)%Q = true -> older now (created_of job) d = true).
  { intros d Hd. unfold created_of. by rewrite Ec. }
  destruct (truthy (jget "deletionTimestamp" _)); [by apply mon_ret|].
  destruct (truthy (jget "jobId" _)) eqn:Ei; cbn [negb].
  2:{ destruct (negb waited && _) eqn:Eg; [|by apply mon_ret]. apply pmon_remove. unfold may_go. rewrite Ei. cbn [negb].
      apply andb_true_iff in Eg as [-> Hd]. by rewrite Hold. }
  destruct (truthy (jget "jobStatus" _)) eqn:Es; cbn [negb].
  2:{ by apply follow_spares. }
  destruct (job_ended job) eqn:Ee.
  - apply mon_bind. eapply mon_mono; [apply pmon_free; [done|by rewrite Ee]|]. intros [a|e] q _; [|done].
    apply mon_or_raise. destruct (epoch_ms _) as [[ms|]|] eqn:Em; [|by apply mon_ret|done].
    destruct (JOB_RECORD_S cf <=?q _) eqn:Ed; [|by apply mon_ret]. apply pmon_remove.
    unfold may_go. rewrite Ei, Es, Ee, Em. exact Ed.
  - destruct (head_name job) as [h|] eqn:Eh; [|by apply mon_ret]. apply mon_cluster; [done..|]. intros [c|] d l _ Hl; [|by apply mon_ret].
    apply mon_or_raise. destruct (unprovisioned cf c now) as [[]|] eqn:Eu; [|by apply mon_ret|done].
    apply stop_spares; [done|]. unfold may_stop. rewrite Es, Ee. cbn. by apply (Hl c).
Qed.
