(* ===== verification/RaySubmit.v ===== *)
(** A job's submission ([start_job] and [submission]): what it leaves behind when it
    is refused, and the job that an ID names. *)
From S2P Require Import Prelude PyJson PyText PyTime PyValue NrpGpus GpuQueries RayNames RayShape RayBuild RayAdmit NrpJobs.
From S2P Require Import RayState RayNrp RayUser RayCluster RayJobs.
Open Scope Z_scope.

(** ** Paths *)

Lemma rayjobs_not_clusters cf x y : (RAYJOBS cf ++ x)%string <> (RAYCLUSTERS cf ++ y)%string.
Proof.
  unfold RAYJOBS, RAYCLUSTERS, namespaced. rewrite !str_app_assoc. intros H.
  do 4 apply str_app_inv_head in H. discriminate.
Qed.
Lemma rayjobs_not_secrets cf x : (RAYJOBS cf ++ x)%string <> SECRETS cf.
Proof. unfold RAYJOBS, SECRETS, namespaced. discriminate. Qed.
Lemma rayjob_not_listing cf x y : (RAYJOBS cf ++ "/" ++ x)%string <> (RAYJOBS cf ++ "?" ++ y)%string.
Proof. intros H. apply str_app_inv_head in H. discriminate. Qed.
Lemma one_not_all cf x : (RAYJOBS cf ++ "/" ++ x)%string <> RAYJOBS cf.
Proof.
  intros H. apply (f_equal String.length) in H. rewrite !str_length_app in H. cbn [String.length] in H. lia.
Qed.

(** ** A start that is refused *)

(** What became of the RayJob that a start makes: it is there; it is gone, for Kubernetes
    took the call that deletes it, or knows none of its name; or Kubernetes refused that call. *)
Inductive Made := NotMade | There (name : string) | Gone (name : string) | Undeleted (name : string).
Definition deleted_by (a : option (Z * json)) (name : string) : Made :=
  match a with
  | Some (status, _) => if (status =? 200) || (status =? 202) || (status =? 404) then Gone name else Undeleted name
  | None => There name
  end.
Definition made_step (cf : Settings) (q : Made) (e : Ev) : option Made :=
  match e with
  | existT (Kube m path body) a =>
      if String.eqb m "POST" && String.eqb path (RAYJOBS cf)
      then Some (match a with Some (status, _) => if status =? 201 then There (name_of body) else q | None => q end)
      else match q with
           | There name =>
               if String.eqb m "DELETE" && String.eqb path (RAYJOBS cf ++ "/" ++ name)
               then Some (deleted_by a name) else Some q
           | q => Some q
           end
  | _ => Some q
  end.
Definition makes (cf : Settings) (r : Req) : bool :=
  match r with Kube m path _ => String.eqb m "POST" && String.eqb path (RAYJOBS cf) || String.eqb m "DELETE" | _ => false end.

Section QuietStart.
Context {watched : Req -> bool} {svc : service Req Ans} {P : forall A, GW A -> Prop} (HP : closed watched svc P)
  (cfg : GwConfig) (cf : Settings) (Hfuel : forall A, P A (raise OutOfFuel)).
Context (Hprom : forall url query, watched (Prom url query) = false)
  (Hclock : watched Monotonic = false) (Hsleep : forall s, watched (Sleep s) = false)
  (Hhead : forall h k b, watched (HeadStatus h k b) = false)
  (Hsecret : forall body, watched (Kube "POST" (SECRETS cf) body) = false)
  (Hclusters : forall x, watched (Kube "GET" (RAYCLUSTERS cf ++ x) JNull) = false).
Lemma q_admit_cluster u s replaced n : P _ (admit_cluster cfg cf svc u s replaced n).
Proof.
  unfold admit_cluster, listed, ask_free, prometheus, refused. quiet;
    first [apply (q_kube HP); rewrite ?str_app_assoc; apply Hclusters
          | by apply (q_monotonic HP) | by apply (cl_call _ _ _ HP (Prom _ _))].
Qed.
Lemma q_head_loop n secret find keyed noun deadline : P _ find -> P _ (head_loop cf svc n secret find keyed noun deadline).
Proof.
  intros Hf. induction n as [|n IH]; [apply Hfuel|]. cbn [head_loop]. unfold head_status, refused.
  quiet; first [by apply (q_kube HP) | by apply (q_monotonic HP) | by apply (q_sleep HP) | by apply (cl_call _ _ _ HP (HeadStatus _ _ _))].
Qed.
Context (Hone : forall n, watched (Kube "GET" (RAYJOBS cf ++ "/" ++ n) JNull) = false).
Lemma q_closed_head fuel secret n : P _ (closed_head cf fuel svc secret n).
Proof.
  unfold closed_head, head_up, head_status, job_head, rayjob, refused. quiet;
    first [by apply (q_monotonic HP) | by apply (cl_call _ _ _ HP (HeadStatus _ _ _)) | apply q_head_loop].
  quiet. by apply (q_kube_get HP).
Qed.
Context (Hnew : watched NewSubmission = false)
  (Hpost : forall body, watched (Kube "POST" (RAYJOBS cf) body) = false)
  (Hdelete : forall n body, watched (Kube "DELETE" (RAYJOBS cf ++ "/" ++ n) body) = false)
  (Hcatch : forall A (c : GW A) f, P A c -> (forall e, P A (f e)) -> P A (mcatch c f)).
Lemma q_start_job template service_token fuel u s : P _ (start_job cfg cf template service_token fuel svc u s).
Proof.
  unfold start_job, drop_grant, delete_rayjob, refused. cbv zeta.
  quiet; first [by apply (cl_call _ _ _ HP NewSubmission) | by apply q_admit_cluster | by apply (q_kube HP)
    | by apply (q_monotonic HP) | apply Hcatch; [apply q_closed_head|intros e]].
  destruct e; try (apply Hfuel); quiet. by apply (q_kube HP).
Qed.
Lemma q_take_waiting template service_token fuel u s : P _ (take_waiting cfg cf template service_token fuel svc u s).
Proof.
  unfold take_waiting, fresh_waiting. cbv zeta. pose proof (q_start_job template service_token fuel u s).
  quiet. by apply (q_monotonic HP).
Qed.
End QuietStart.

Section Start.
Context (cfg : GwConfig) (cf : Settings) (template : json) (service_token : string) (fuel : nat) (svc : service Req Ans).
Local Abbreviation step := (made_step cf).
Lemma made_same q : closed (makes cf) svc (fun A c => mon step q c (fun _ q' => q' = q)).
Proof.
  apply closed_same. intros r a H. destruct r; try done. cbn [makes made_step] in *.
  apply orb_false_iff in H as [-> H]. rewrite H. by destruct q.
Qed.
Lemma made_then {A B} q (c : GW A) (f : A -> GW B) (R : res Exc B -> Made -> Prop) :
  mon step q c (fun _ q' => q' = q) -> (forall a, mon step q (f a) R) -> (forall e, R (Err e) q) -> mon step q (c ≫= f) R.
Proof. intros Hc Hf HR. apply mon_bind. eapply mon_mono; [exact Hc|]. intros [a|e] q' ->; [apply Hf|done]. Qed.
Lemma made_get q x : mon step q (kube svc "GET" x JNull) (fun _ q' => q' = q).
Proof. by apply (q_kube (made_same q)). Qed.
Lemma made_admit q u s replaced n : mon step q (admit_cluster cfg cf svc u s replaced n) (fun _ q' => q' = q).
Proof. by apply (q_admit_cluster (made_same q)). Qed.
Lemma made_closed_head q secret n : mon step q (closed_head cf fuel svc secret n) (fun _ q' => q' = q).
Proof. apply (q_closed_head (made_same q)); try done. intros A. by apply mon_raise. Qed.
End Start.

(** C36: a start that is refused cleans up.  When [start_job] returns, the
    RayJob it made is there, and the one that it names; when it refuses, for whatever reason,
    it made none, or the one it made is gone, or Kubernetes has refused to delete it. *)
Theorem start_job_cleans cfg cf template service_token fuel svc u s :
  mon (made_step cf) NotMade (start_job cfg cf template service_token fuel svc u s)
    (fun r q => match r with
      | Ok w => q = There (w_name w)
      | Err (Refusal _) => q = NotMade \/ exists name, q = Gone name \/ q = Undeleted name
      | Err _ => True
      end).
Proof.
  assert (Hno : forall e, match e with Refusal _ => NotMade = NotMade \/ exists name, NotMade = Gone name \/ NotMade = Undeleted name | _ => True end)
    by (intros []; auto).
  pose proof (made_same cf svc NotMade) as HN. unfold start_job. cbv zeta.
  apply made_then; [by apply (cl_call _ _ _ HN NewSubmission)| |exact Hno]. intros asked. set (name := job_name u asked).
  apply made_then; [apply made_admit| |exact Hno]. intros mix.
  apply mon_kube. intros a. eexists. split; [cbn [made_step]; by rewrite (String.eqb_refl (RAYJOBS cf))|].
  destruct a as [[status created]|]; [|exact I]. destruct (status =? 201); cbn [negb].
  2:{ apply made_then; [by apply mon_mod| |exact Hno]. intros _. apply mon_raise. by left. }
  assert (Hname : name_of (RayBuild.build_job cfg (py_int (IDLE_TIMEOUT_S cf)) (cluster_template cfg template u) u s mix name) = name)
    by done.
  rewrite Hname. apply mon_bind, mon_catch. eapply mon_mono; [apply made_closed_head|]. intros [head|e] q ->.
  - apply mon_bind. refine (mon_call _ _ svc Monotonic _ _). intros now. exists (There name). split; [done|]. by apply mon_ret.
  - destruct e as [r| | |]; try by apply mon_raise. apply mon_bind. unfold delete_rayjob. apply mon_kube. intros a.
    exists (deleted_by a name). split; [cbn [made_step String.eqb Ascii.eqb Bool.eqb andb]; by rewrite (String.eqb_refl (RAYJOBS cf ++ "/" ++ name))|].
    destruct a as [[st b]|]; [|exact I].
    apply mon_ret, mon_raise. right. exists name. unfold deleted_by. destruct (_ || _); auto.
Qed.

(** ** The job that an ID names *)

(** What a submission has seen: whether the user's jobs were listed, the jobs listed, at
    Purdue and on NRP, and the RayJob that was given an ID. *)
Record Ids := mkIds { id_listed : bool; id_taken : list json; id_given : option (string * json) }.
Definition listing_path (cf : Settings) (u : User) : string :=
  RAYJOBS cf ++ "?labelSelector=" ++ quote "~" (OWNER_LABEL ++ "=" ++ user_cluster u).
Definition mine (u : User) (listing : json) : list json :=
  List.filter (fun job => owns u job && truthy (jget "jobId" (jget "spec" job))) (jlist (jget_or "items" (JArr []) listing)).
Definition free_id (id : json) (taken : list json) : bool :=
  match id with JStr s => negb (existsb (of_submission s) taken) | _ => false end.
Definition ids_step (cf : Settings) (u : User) (q : Ids) (e : Ev) : option Ids :=
  match e with
  | existT (Kube m path body) a =>
      if String.eqb m "GET" && String.eqb path (listing_path cf u) then
        match a with
        | Some (status, l) => Some (if status =? 200 then mkIds true (id_taken q ++ mine u l) (id_given q) else q)
        | None => Some q
        end
      else if String.eqb m "PATCH" then
        let id := jget "jobId" (jget "spec" body) in
        if id_listed q && free_id id (id_taken q) then Some (mkIds (id_listed q) (id_taken q) (Some (path, id))) else None
      else Some q
  | existT (Nrp m _ _) a =>
      match a with
      | Some (status, l) =>
          Some (if status =? 200 then mkIds (id_listed q) (id_taken q ++ jlist (jget_or "items" (JArr []) l)) (id_given q) else q)
      | None => Some q
      end
  | _ => Some q
  end.
Definition names_job (cf : Settings) (u : User) (r : Req) : bool :=
  match r with
  | Kube m path _ => String.eqb m "GET" && String.eqb path (listing_path cf u) || String.eqb m "PATCH"
  | Nrp _ _ _ => true
  | _ => false
  end.

Section Ids.
Context (cfg : GwConfig) (cf : Settings) (template : json) (service_token : string) (fuel : nat) (nrp_on : bool)
  (svc : service Req Ans) (u : User).
Local Abbreviation imon := (mon (ids_step cf u)).
Lemma ids_same q : closed (names_job cf u) svc (fun A c => imon q c (fun _ q' => q' = q)).
Proof.
  apply closed_same. intros r a H. destruct r; try done. cbn [names_job ids_step] in *.
  apply orb_false_iff in H as [-> ->]. done.
Qed.
Lemma imon_then {A B} q (c : GW A) (f : A -> GW B) (R : res Exc B -> Ids -> Prop) : (forall e q, R (Err e) q) ->
  imon q c (fun _ q' => q' = q) -> (forall a, imon q (f a) R) -> imon q (c ≫= f) R.
Proof. intros HR Hc Hf. apply mon_bind. eapply mon_mono; [exact Hc|]. intros [a|e] q' ->; [apply Hf|apply HR]. Qed.
Lemma one_not_listing name : names_job cf u (Kube "GET" (RAYJOBS cf ++ "/" ++ name) JNull) = false.
Proof.
  cbn [names_job]. destruct (String.eqb_spec (RAYJOBS cf ++ "/" ++ name) (listing_path cf u)) as [E|]; [|done].
  by apply rayjob_not_listing in E.
Qed.
Lemma cluster_not_listing x : names_job cf u (Kube "GET" (RAYCLUSTERS cf ++ x) JNull) = false.
Proof.
  cbn [names_job]. destruct (String.eqb_spec (RAYCLUSTERS cf ++ x) (listing_path cf u)) as [E|]; [|done].
  symmetry in E. by apply rayjobs_not_clusters in E.
Qed.
(** Taking the job that waits, or starting one, names none. *)
Lemma ids_take_waiting q s : imon q (take_waiting cfg cf template service_token fuel svc u s) (fun _ q' => q' = q).
Proof.
  apply (q_take_waiting (ids_same q)); try done.
  - intros A. by apply mon_raise.
  - apply cluster_not_listing.
  - apply one_not_listing.
  - intros A c f Hc Hf. apply mon_catch. eapply mon_mono; [exact Hc|]. intros [a|e] q' ->; [done|apply Hf].
Qed.
Local Abbreviation errs R := (forall e q, R (Err e) q).
(** What is listed is remembered. *)
Lemma imon_jobs {B} taken (f : list json -> GW B) (R : res Exc B -> Ids -> Prop) : errs R ->
  (forall l, imon (mkIds true (taken ++ l) None) (f l) R) -> imon (mkIds false taken None) (jobs cf svc u ≫= f) R.
Proof.
  intros HR Hf. apply mon_bind. unfold jobs, listed. apply mon_kube.
  intros [[status l]|]; eexists; (split; [cbn [ids_step]; unfold listing_path; rewrite !String.eqb_refl; reflexivity|]); [|apply HR].
  destruct (status =? 200); [apply mon_ret, Hf|apply mon_raise, HR].
Qed.
Lemma imon_nrp_job {B} taken id (f : option json -> GW B) (R : res Exc B -> Ids -> Prop) : errs R ->
  existsb (of_submission id) taken = false ->
  (forall q job, imon q (f (Some job)) R) ->
  (forall taken', existsb (of_submission id) taken' = false -> imon (mkIds true taken' None) (f None) R) ->
  imon (mkIds true taken None) (nrp_job cf nrp_on svc u id ≫= f) R.
Proof.
  intros HR Ht Hs Hn. apply mon_bind. unfold nrp_job, nrp_jobs.
  assert (Hgo : forall l, imon (mkIds true (taken ++ l) None) (mret (List.find (of_submission id) l) : GW (option json))
      (fun r q' => match r with Ok a => imon q' (f a) R | Err e => R (Err e) q' end)).
  { intros l. apply mon_ret. destruct (List.find _ l) as [job|] eqn:E; [apply Hs|]. apply Hn.
    rewrite existsb_app, Ht. apply not_true_iff_false. intros (x & Hx & Hid)%existsb_exists.
    by rewrite (find_none _ _ E _ Hx) in Hid. }
  assert (Hnone := Hgo []). rewrite app_nil_r in Hnone.
  destruct (negb nrp_on); [apply mon_bind, mon_ret, Hnone|]. apply mon_bind, mon_catch.
  unfold nrp_listing. apply mon_nrp_call.
  intros [[status l]|]; (eexists; split; [reflexivity|]); cbn beta iota; [|apply mon_ret, Hnone].
  destruct (status =? 200); cbn [negb]; [apply mon_ret, Hgo|apply mon_raise, mon_ret, Hnone].
Qed.
Lemma imon_submitted_before {B} id (f : bool -> GW B) (R : res Exc B -> Ids -> Prop) : errs R ->
  (forall q, imon q (f true) R) ->
  (forall taken, existsb (of_submission id) taken = false -> imon (mkIds true taken None) (f false) R) ->
  imon (mkIds false [] None) (submitted_before cf nrp_on svc u id ≫= f) R.
Proof.
  intros HR Ht Hf. unfold submitted_before. apply mon_bind. apply imon_jobs; [done|]. intros l. cbn [app].
  destruct (existsb (of_submission id) l) eqn:E; [apply mon_ret, Ht|].
  apply imon_nrp_job; [done|done| |]; [intros q job; apply mon_ret, Ht|intros taken' Ht'; by apply mon_ret, Hf].
Qed.
Definition named (r : res Exc (string * string * option json)) (q : Ids) : Prop :=
  match r with
  | Ok (_, name, Some sent) => exists id, jget "submission_id" sent = JStr id /\
      id_given q = Some ((RAYJOBS cf ++ "/" ++ name)%string, JStr id)
  | Ok (_, _, None) => id_given q = None
  | Err _ => True
  end.
Lemma imon_submit taken w submitted id data : is_obj submitted = true -> existsb (of_submission id) taken = false ->
  imon (mkIds true taken None) (sent ← submit cf svc w submitted id data; mret (w_head w, w_name w, Some sent)) named.
Proof.
  intros Ho Ht. apply mon_bind. unfold submit. cbv zeta. apply mon_kube. intros a. eexists.
  split; [cbn [ids_step id_listed id_taken]; change (free_id _ taken) with (negb (existsb (of_submission id) taken)); rewrite Ht;
    reflexivity|]. destruct a as [[status b]|]; [|done].
  destruct (status =? 200); cbn [negb].
  - apply mon_ret, mon_ret. exists id. split; [|done]. destruct data; read_json; reflexivity.
  - apply mon_bind. unfold delete_rayjob. apply mon_kube. intros a2. eexists. split; [reflexivity|].
    destruct a2 as [[st b2]|]; [|done]. by apply mon_ret, mon_raise.
Qed.
End Ids.

(** An ID names one job of a user.  A submission sets the ID of a RayJob only once
    Kubernetes, asked in the same call, has listed the user's jobs and none of these has
    that ID, nor any that NRP listed; it does so once at most, and the submission that
    it then passes on to the job's head carries this ID.  A call that only asks for a
    head, or that is refused before, gives no RayJob an ID. *)
Theorem submission_id_fresh cfg cf template service_token fuel nrp_on svc u s rq :
  mon (ids_step cf u) (mkIds false [] None) (submission cfg cf template service_token fuel nrp_on svc u s rq) (named cf).
Proof.
  assert (HR : forall e q, named cf (Err e) q) by done. unfold submission. cbv zeta.
  destruct (session_gpu u); [by apply mon_raise|].
  assert (Hlift : forall A (r : res Refused A) q, mon (ids_step cf u) q (lift r) (fun _ q' => q' = q))
    by (intros A [a|e] q; [by apply mon_ret|by apply mon_raise]).
  apply imon_then; [done|apply Hlift|intros _]. destruct (String.eqb _ "POST").
  - apply mon_bind. apply mon_bind. unfold lift at 1. destruct (submitted_json _) as [j|e] eqn:Ej; [|by apply mon_raise].
    apply mon_ret, mon_ret. assert (Ho : is_obj j = true) by (destruct (rq_json rq) as [[]|]; simplify_eq/=; done).
    apply mon_bind. apply imon_then; [done| |intros id].
    { unfold asked_id. destruct (truthy _); [by apply mon_ret|]. refine (mon_call _ _ svc NewSubmission _ _). intros a. by eexists. }
    apply imon_submitted_before; [done|intros q; by apply mon_raise|]. intros taken Ht. apply mon_ret.
    apply imon_then; [done|apply Hlift|intros data]. apply imon_then; [done|apply ids_take_waiting|]. intros w. by apply imon_submit.
  - apply mon_bind, mon_ret, mon_bind, mon_ret. apply imon_then; [done|apply Hlift|intros data].
    apply imon_then; [done|apply ids_take_waiting|]. intros w. apply mon_bind, mon_mod. by apply mon_ret.
Qed.
