(* ===== verification/RayNrpRun.v ===== *)
(** Jobs on NRP from their submission to their record ([apps/ray-train/gateway.py]):
    [nrp_submission] and [start_nrp_job], [nrp_recorded] and the logs, what the jobs
    hold ([nrp_usage], [nrp_usage_lines], [read_nrp_usage], [nrp_owner_names],
    [hub_names]), and [reap_nrp]. *)
From S2P Require Import Prelude PyJson PyText PyTime PyValue NrpGpus RayNames RayShape RayBuild RayAdmit NrpJobs.
From S2P Require Import RayState RayNrp RayUser RayCluster RayJobs.
Open Scope Z_scope.

(** ** What jobs on NRP hold *)

Definition pods_of (namespace : string) : string :=
  "namespace=" ++ quoted namespace ++ ", pod=~" ++ quoted "ray-job-.+".
Definition nrp_usage_queries (namespace : string) : string * string :=
  let pods := pods_of namespace in
  ("sum by (pod, phase) (kube_pod_container_resource_requests{" ++ pods ++ ", resource=" ++ quoted "nvidia_com_gpu" ++ "}"
   ++ " * on(pod) group_left(phase) (kube_pod_status_phase{" ++ pods ++ ", phase=~" ++ quoted "Pending|Running" ++ "} == 1))",
   "DCGM_FI_DEV_GPU_UTIL{" ++ pods ++ "}")%string.

Definition of_cluster (cluster : string) (s : Sample) : bool :=
  startswith (cluster ++ "-") (default ""%string (label "pod" s)).
(** [gpus[phase] += round(float(value))], of a sample of the cluster's pods. *)
Definition count_phase (cluster : string) (acc : list (string * Z)) (s : Sample) : option (list (string * Z)) :=
  if of_cluster cluster s then
    phase ← label "phase" s; v ← parse_float (value s);
    Some (dset phase (dget_or phase 0 acc + half_even v) acc)
  else Some acc.
Definition mean (percents : list Q) : Q := qsum percents / qz (Z.of_nat (List.length percents)).
(** [None] where a sample lacks a label or a value: KeyError or ValueError. *)
Definition usage_of (held busy : list Sample) (owners : list (string * string)) (job : json)
    : option (option NrpUsage) :=
  match head_name job with
  | None => Some None
  | Some cluster =>
      gpus ← ofold (count_phase cluster) [] held;
      percents ← mapM (fun s => parse_float (value s)) (List.filter (of_cluster cluster) busy);
      if negb (existsb (fun kv => negb (kv.2 =? 0)) gpus) && bool_decide (percents = []) then Some None
      else Some (Some (mkUsage cluster (dget_or (jstr (jget OWNER_LABEL (labels_of job))) "" owners) gpus
        (match percents with [] => None | _ => Some (mean percents / 100)%Q end)))
  end.
Definition nrp_usage (jobs : list json) (held busy : list Sample) (owners : list (string * string))
    : option (list NrpUsage) :=
  found ← mapM (usage_of held busy owners) jobs; Some (omap id found).

Definition BACKSLASH : ascii := ascii_of_nat 92.
Definition QUOTE : ascii := ascii_of_nat 34.
Definition label_value (value : string) : string :=
  str_replace LF (String BACKSLASH "n")
    (str_replace QUOTE (String BACKSLASH (String QUOTE ""))
       (str_replace BACKSLASH (String BACKSLASH (String BACKSLASH "")) value)).
Definition in_quotes (s : string) : string := String QUOTE (s ++ String QUOTE "").
Definition usage_labels (u : NrpUsage) : string :=
  "ray_cluster=" ++ in_quotes (label_value (nu_cluster u)) ++ ",user=" ++ in_quotes (label_value (nu_user u)).
Fixpoint insert_phase (kv : string * Z) (l : list (string * Z)) : list (string * Z) :=
  match l with [] => [kv] | kv' :: l' => if String.ltb kv.1 kv'.1 then kv :: l else kv' :: insert_phase kv l' end.
Definition sorted_phases (l : list (string * Z)) : list (string * Z) := foldl (fun acc kv => insert_phase kv acc) [] l.
Definition gpu_lines (u : NrpUsage) : list string :=
  map (fun kv => "ray_train_nrp_job_gpus{" ++ usage_labels u ++ ",phase=" ++ in_quotes kv.1 ++ "} " ++ pretty (kv.2 : Z))%string
    (sorted_phases (nu_gpus u)).
Definition utilization_lines (u : NrpUsage) : list string :=
  match nu_utilization u with
  | Some q => ["ray_train_nrp_job_gpu_utilization{" ++ usage_labels u ++ "} " ++ fmt_g q]%string
  | None => []
  end.
Definition nrp_usage_lines (usage : list NrpUsage) : list string :=
  ["# HELP ray_train_nrp_job_gpus The GPUs a job on NRP holds, by the phase of the pods that hold them.";
   "# TYPE ray_train_nrp_job_gpus gauge"]%string
  ++ mjoin (map gpu_lines usage)
  ++ ["# HELP ray_train_nrp_job_gpu_utilization How busy the GPUs of a job on NRP are, on average, 0 to 1.";
      "# TYPE ray_train_nrp_job_gpu_utilization gauge"]%string
  ++ mjoin (map utilization_lines usage).

Section NrpRun.
Context (safe_dump dumps : json -> string) (cfg : GwConfig) (cf : Settings) (accts : list (string * Account))
  (template nrp_template : json) (service_token : string) (fuel : nat) (nrp_on : bool) (svc : service Req Ans).
Local Abbreviation kube := (kube svc).
Local Abbreviation nrp_call := (nrp_call svc).

Definition nrp_query (query : string) : GW (option (list Sample)) := mcall svc (Prom (NRP_PROMETHEUS_URL cf) query).
(** [free_gpus] of nrp_gpus.py: the five queries, then [by_model]; [None] if any raises. *)
Definition nrp_models (worker : option Worker) : GW (option Models) :=
  allocatable ← nrp_query ALLOCATABLE; requested ← nrp_query REQUESTED; unschedulable ← nrp_query UNSCHEDULABLE;
  models ← nrp_query MODELS; memory ← nrp_query MEMORY;
  mret (w ← worker; a ← allocatable; r ← requested; u ← unschedulable; m ← models; mem ← memory; by_model a r u m mem w).

(** ** [start_nrp_job] *)

Definition nrp_data (name : string) (data : list (string * string)) : list (string * string) :=
  map (fun kv => (af_variable kv.1, data_uri (BUCKET cf) name kv.1)) data.
Definition first_stage (data : list (string * string)) (at_ : Q) : list (string * json) :=
  stages (if dhas "inputs"%string data then "inputs" else "running") at_
    [(OUTPUT_ANNOTATION, JStr (if dhas "output"%string data then "true" else ""))].
(** The Jobs that copy: the direction, the source and the target of each that has both. *)
Definition copies (name : string) (data : list (string * string)) : list (string * string * string) :=
  option_list (option_map (fun source => ("in", source, data_uri (BUCKET cf) name "inputs")%string) (dget "inputs"%string data))
  ++ option_list (option_map (fun target => ("out", data_uri (BUCKET cf) name "output", target)%string) (dget "output"%string data)).
(** What the room there is says of a job that asks for so many workers. *)
Definition room_refusal (r : Room) (least_ : Z) (memory : Q) : option Refused :=
  if bool_decide (r_models r = Some []) then
    Some (mkRefused INVALID_ARGUMENT ("No GPU on NRP has " ++ fmt_g memory ++ " GB."))
  else if r_workers_empty r <? least_ then
    Some (mkRefused RESOURCE_EXHAUSTED
      ("Your job asks for " ++ pretty least_ ++ " workers, and NRP's "
       ++ (if Qeq_bool memory 0 then "GPU nodes" else "GPUs of " ++ fmt_g memory ++ " GB or more")
       ++ " have room for at most " ++ pretty (r_workers_empty r) ++ ", empty: ask for fewer."))
  else None.
Definition started_workers (wanted least_ : Z) (r : Room) : Z := Z.min wanted (Z.max (r_workers r) least_).
Definition start_copies (u : User) (name : string) (created : json) (data : list (string * string)) : GW unit :=
  mfor (copies name data) (fun '(direction, source, target) =>
    '(status, body) ← kube "POST" (JOBS cf)
      (stage_job (cluster_template cfg template u) u name direction source target);
    if negb (status =? 201) then
      _ ← stop_nrp cf svc created STOPPED_INPUTS;
      refused UNAVAILABLE ("Could not create the Job that copies your job's data: " ++ message_of status body)
    else mret tt).
Definition start_nrp_job (u : User) (s : Shape) (name : string) (submitted : json) (data : list (string * string)) : GW unit :=
  let wanted := int_field (RayShape.workers s) in
  let least_ := int_field (least s) in
  let memory := float_field (sh_memory s) in
  models ← nrp_models (worker_of nrp_template);
  match default [] models with
  | [] => refused UNAVAILABLE "NRP's Prometheus shows none of its GPU nodes now: try again later."
  | models =>
      let r := room models memory in
      match room_refusal r least_ memory with
      | Some e => raise (Refusal e)
      | None =>
          job ← or_raise Failure (NrpJobs.build_job safe_dump dumps nrp_template name
                  (owner_key (user_cluster u) (user_owner u)) submitted (BUCKET cf) (started_workers wanted least_ r)
                  (r_models r) 0 (nrp_data name data));
          t ← time svc;
          '(status, created) ← nrp_call "POST" (nrp_path cf "rayjobs") (annotate (first_stage data t) job);
          if negb (status =? 201) then refused UNAVAILABLE ("NRP did not take your job: " ++ message_of status created)
          else start_copies u name created data ≫= fun _ => advance_nrp cf svc created
      end
  end.

(** ** [nrp_submission] *)

Definition put (key : string) : GW unit :=
  ok ← (mcall svc (S3Put key) : GW bool); if ok : bool then mret tt else raise Failure.
Definition has_key (key : string) : GW bool :=
  a ← (mcall svc (S3Exists key) : GW (option bool)); or_raise Failure a.
(** The RayJob whose code the user's calls upload now: the last one's, unless it is too old. *)
Definition nrp_name (u : User) : GW string :=
  g ← mget;
  let '(name, since) := dget_or (user_cluster u) (""%string, 0%Q) (nrp_waiting g) in
  let fresh := (asked ← (mcall svc NewSubmission : GW string); mret (job_name u asked)) in
  if String.eqb name "" then fresh
  else now ← monotonic svc; if START_TIMEOUT_S cf <?q (now - since)%Q then fresh else mret name.
Definition nrp_submission (u : User) (s : Shape) (rq : Request) : GW Answer :=
  if negb nrp_on then
    refused UNAVAILABLE "Jobs on NRP are not enabled: the gateway has no NRP kubeconfig or S3 keys."
  else
    name ← nrp_name u;
    if startswith "/api/packages/" (rq_path rq) then
      now ← monotonic svc;
      mmod (fun g => g <| nrp_waiting := dset (user_cluster u) (name, now) (nrp_waiting g) |>) ≫= fun _ =>
      let key := (code_prefix name ++ "/" ++ after_last "/" (rq_path rq))%string in
      if String.eqb (rq_method rq) "PUT" then put key ≫= fun _ => mret (AStatus 200)
      else there ← has_key key; mret (AStatus (if there : bool then 200 else 404))
    else
      submitted ← lift (submitted_json (rq_json rq));
      data ← lift (data_paths (cluster_template cfg template u) (rq_headers rq));
      mmod (fun g => g <| nrp_waiting := ddel (user_cluster u) (nrp_waiting g) |>) ≫= fun _ =>
      asked ← asked_id svc submitted;
      before ← submitted_before cf nrp_on svc u asked;
      if before : bool then raise (Refusal (duplicate_refusal asked)) else
      start_nrp_job u s name (jset "submission_id" (JStr asked) submitted) (data_items data) ≫= fun _ =>
      mret (AJson (JObj [("job_id", JStr asked); ("submission_id", JStr asked)]%string)).

(** ** Records and logs *)

Definition submitter_ran (pod : json) : bool :=
  let phase := jget "phase" (or_obj (jget "status" pod)) in
  jeq_str phase "Running" || jeq_str phase "Succeeded" || jeq_str phase "Failed".
Definition nrp_submitter (name : string) : GW (option string) :=
  '(status, listing) ← nrp_call "GET" (nrp_path cf "pods" ++ "?labelSelector=" ++ quote "/" ("job-name=" ++ name)) JNull;
  if negb (status =? 200) then mret None else
  mret (option_map name_of (List.find submitter_ran (jlist (jget_or "items" (JArr []) listing)))).
Definition nrp_log (name : string) : GW string :=
  pod ← nrp_submitter name;
  match pod with
  | None => mret ""%string
  | Some pod =>
      '(status, text) ← nrp_call "GET" (nrp_path cf "pods" ++ "/" ++ pod ++ "/log") JNull;
      mret (if status =? 200 then jstr text else ""%string)
  end.
(** The wait of [nrp_tail] for the submitter; its pod's log is then passed on line by line. *)
Fixpoint tail_loop (n : nat) (name : string) (deadline : Q) : GW (option string) :=
  match n with
  | O => raise OutOfFuel
  | S n' =>
      pod ← nrp_submitter name;
      match pod with
      | Some pod => mret (Some pod)
      | None =>
          now ← monotonic svc;
          if now <?q deadline then sleep svc (START_POLL_S cf) ≫= fun _ => tail_loop n' name deadline else mret None
      end
  end.
Definition nrp_tail (name : string) : GW Answer :=
  now ← monotonic svc;
  pod ← tail_loop fuel name (now + NRP_START_TIMEOUT_S cf)%Q;
  mret (match pod with Some pod => ATail pod | None => ATexts [] end).
Definition NOT_ENDED : string :=
  "The job has not ended, or its outputs are being copied back: stop it, or wait".
Definition nrp_recorded (rq : Request) (job : json) (rest : string) : GW Answer :=
  let name := name_of job in
  let ended := job_ended job in
  let m := rq_method rq in
  let websocket := String.eqb (str_lower (rq_upgrade rq)) "websocket" in
  if String.eqb m "GET" && String.eqb rest "" then details ← or_raise Failure (job_details job); mret (AJson details)
  else if String.eqb m "GET" && String.eqb rest "/logs" && negb websocket then
    log ← nrp_log name; mret (AJson (JObj [("logs", JStr log)]%string))
  else if String.eqb m "GET" && String.eqb rest "/logs/tail" then nrp_tail name
  else
    let annotations := annotations_of job in
    let finished := ended || jhas STOPPED_ANNOTATION annotations in
    if String.eqb m "POST" && String.eqb rest "/stop" then
      (if negb finished then _ ← stop_nrp cf svc job STOPPED_BY_USER; mret tt else mret tt) ≫= fun _ =>
      mret (AJson (JObj [("stopped", JBool (negb finished))]%string))
    else if String.eqb m "DELETE" && String.eqb rest "" then
      if negb (jeq_str (jget_or STAGE_ANNOTATION (JStr "done") annotations) "done") then refused INVALID_ARGUMENT NOT_ENDED
      else delete_nrp cf svc name ≫= fun _ => mret (AJson (JObj [("deleted", JBool true)]%string))
    else refused NOT_FOUND "Not found".

(** ** Usage *)

(** All pages of the Hub's users; [None] where a page lacks a key, KeyError. *)
Definition named_user (j : json) : option string := if jhas "name" j then Some (str_of (jget "name" j)) else None.
Fixpoint hub_pages (n : nat) (offset : Z) (names : list string) : GW (option (list string)) :=
  match n with
  | O => raise OutOfFuel
  | S n' =>
      '(status, page) ← hub_get svc ("/users?offset=" ++ pretty offset ++ "&limit=200") service_token;
      if negb (status =? 200) then refused UNAVAILABLE ("JupyterHub answered HTTP " ++ pretty status ++ " for its users.")
      else if negb (jhas "items" page) then mret None
      else match mapM named_user (jlist (jget "items" page)) with
      | None => mret None
      | Some more =>
          let following := jget "next" (or_obj (jget "_pagination" page)) in
          if negb (truthy following) then mret (Some (names ++ more))
          else if negb (jhas "offset" following) then mret None
          else offset ← or_raise Failure (json_int (jget "offset" following)); hub_pages n' offset (names ++ more)
      end
  end.
Definition hub_names : GW (option (list string)) := hub_pages fuel 0 [].
Definition own_key (name owner : string) : string := owner_key (cluster_name name) owner.
Definition with_names (owner : string -> string) (names : list string) (owners : list (string * string)) :=
  foldl (fun acc name => dset (own_key name (owner name)) name acc) owners names.
Definition nrp_owner_names (keys : list string) : GW (list (string * string)) :=
  mmod (fun g => g <| nrp_owners := with_names id (map fst accts) (nrp_owners g) |>) ≫= fun _ =>
  now ← monotonic svc;
  g ← mget;
  (if existsb (fun k => negb (dhas k (nrp_owners g))) keys && elapsed_ge now (nrp_owners_asked g) (USER_CACHE_S cf) then
     mput (g <| nrp_owners_asked := Some now |>) ≫= fun _ =>
     names ← mcatch hub_names (fun e => match e with Refusal _ | NoAnswer => mret None | e => raise e end);
     mmod (fun g => g <| nrp_owners := with_names (fun _ => ""%string) (default [] names) (nrp_owners g) |>)
   else mret tt) ≫= fun _ =>
  g ← mget; mret (nrp_owners g).
Definition owner_keys (jobs : list json) : list string :=
  List.filter (fun k => negb (String.eqb k "")) (map (fun job => jstr (jget OWNER_LABEL (labels_of job))) jobs).
Definition read_nrp_usage (jobs : list json) : GW (list NrpUsage) :=
  let '(held, busy) := nrp_usage_queries (NRP_NAMESPACE cf) in
  held ← nrp_query held; busy ← nrp_query busy;
  held ← or_raise NoAnswer held; busy ← or_raise NoAnswer busy;
  owners ← nrp_owner_names (owner_keys jobs);
  or_raise Failure (nrp_usage jobs held busy owners).

(** ** [reap_nrp] *)

Definition set_held (held : option (list NrpUsage)) : GW unit := mmod (fun g => g <| nrp_held := held |>).
Definition clear_untaken (taken : list string) (now : Q) (written : list (string * Q)) : GW unit :=
  mfor written (fun nw : string * Q =>
    if negb (bool_decide (nw.1 ∈ taken)) && (2 * START_TIMEOUT_S cf <=?q (now - nw.2)%Q)
    then delete_prefix svc (code_prefix nw.1) else mret tt).
Definition reap_nrp : GW unit :=
  if negb nrp_on then mret tt else
  jobs ← mcatch (l ← nrp_listing cf svc MANAGED_SELECTOR; mret (Some l)) (fun e =>
    match e with Refusal _ | NoAnswer => mret None | e => raise e end);
  match jobs with
  | None => set_held None
  | Some jobs =>
      held ← mcatch (usage ← read_nrp_usage jobs; mret (Some usage)) (fun e =>
        match e with NoAnswer | Failure => mret None | e => raise e end);
      set_held held ≫= fun _ =>
      now ← time svc;
      mfor jobs (fun job => mcatch (advance_nrp cf svc job) (fun _ => mret tt)) ≫= fun _ =>
      g ← mget;
      let taken := map name_of jobs ++ map (fun kv => kv.2.1) (nrp_waiting g) in
      written ← (mcall svc S3Jobs : GW (option (list (string * Q))));
      written ← or_raise Failure written;
      clear_untaken taken now written
  end.
End NrpRun.

(** ** What Prometheus reads *)

Lemma str_replace_app c by_ s t : str_replace c by_ (s ++ t) = (str_replace c by_ s ++ str_replace c by_ t)%string.
Proof.
  induction s as [|a s IH]; [done|].
  change (str_replace c by_ (String a (s ++ t)) = (str_replace c by_ (String a s) ++ str_replace c by_ t)%string).
  cbn [str_replace]. destruct (Ascii.eqb a c); rewrite IH; [by rewrite str_app_assoc|done].
Qed.
(** A label's value in Prometheus's text format, up to the quote that ends it. *)
Fixpoint read_label (s : string) : option (string * string) :=
  match s with
  | EmptyString => None
  | String c s' =>
      if Ascii.eqb c QUOTE then Some (EmptyString, s')
      else if Ascii.eqb c LF then None
      else if Ascii.eqb c BACKSLASH then
        match s' with
        | String d s'' =>
            let after := read_label s'' in
            if Ascii.eqb d "n" then option_map (fun vr => (String LF vr.1, vr.2)) after
            else if Ascii.eqb d BACKSLASH || Ascii.eqb d QUOTE
            then option_map (fun vr => (String d vr.1, vr.2)) after else None
        | EmptyString => None
        end
      else option_map (fun vr => (String c vr.1, vr.2)) (read_label s')
  end.
Lemma label_value_cons c s : label_value (String c s) =
  ((if Ascii.eqb c BACKSLASH then String BACKSLASH (String BACKSLASH "")
    else if Ascii.eqb c QUOTE then String BACKSLASH (String QUOTE "")
    else if Ascii.eqb c LF then String BACKSLASH "n" else String c "") ++ label_value s)%string.
Proof.
  unfold label_value. cbn [str_replace]. destruct (Ascii.eqb_spec c BACKSLASH) as [->|Hb].
  - rewrite !str_replace_app. reflexivity.
  - cbn [str_replace]. destruct (Ascii.eqb_spec c QUOTE) as [->|Hq]; [rewrite !str_replace_app; reflexivity|].
    cbn [str_replace]. by destruct (Ascii.eqb_spec c LF) as [->|Hl].
Qed.

(** A label is read as it was written.  Whatever a name holds, quotes, backslashes
    and line ends among it, Prometheus reads a label that [label_value] wrote back as
    that name, and goes on right after the label's closing quote: no name can end its
    label early or start another line. *)
Theorem label_value_reads_back value rest :
  read_label (label_value value ++ String QUOTE rest) = Some (value, rest) /\
  str_existsb (Ascii.eqb LF) (label_value value) = false.
Proof.
  induction value as [|c s [IH1 IH2]]; [done|]. rewrite label_value_cons, str_app_assoc.
  destruct (Ascii.eqb_spec c BACKSLASH) as [->|Hb]; [|destruct (Ascii.eqb_spec c QUOTE) as [->|Hq]];
    [..|destruct (Ascii.eqb_spec c LF) as [->|Hl]].
  1-3: split; [|exact IH2].
  - change (option_map (fun vr => (String BACKSLASH vr.1, vr.2)) (read_label (label_value s ++ String QUOTE rest)) = Some (String BACKSLASH s, rest)).
    by rewrite IH1.
  - change (option_map (fun vr => (String QUOTE vr.1, vr.2)) (read_label (label_value s ++ String QUOTE rest)) = Some (String QUOTE s, rest)).
    by rewrite IH1.
  - change (option_map (fun vr => (String LF vr.1, vr.2)) (read_label (label_value s ++ String QUOTE rest)) = Some (String LF s, rest)).
    by rewrite IH1.
  - split.
    + change (read_label (String c (label_value s ++ String QUOTE rest)) = Some (String c s, rest)). cbn [read_label].
      apply Ascii.eqb_neq in Hb, Hq, Hl. rewrite Hq, Hl, Hb. by rewrite IH1.
    + change (str_existsb (Ascii.eqb LF) (String c (label_value s)) = false). cbn [str_existsb]. rewrite IH2, orb_false_r.
      rewrite Ascii.eqb_sym. by apply Ascii.eqb_neq.
Qed.

(** ** What a job's pods add up to *)

Definition of_phase (cluster phase : string) (s : Sample) : bool :=
  of_cluster cluster s && bool_decide (label "phase" s = Some phase).
Lemma count_phases cluster l acc gpus phase : ofold (count_phase cluster) acc l = Some gpus ->
  dget_or phase 0 gpus
  = dget_or phase 0 acc + zsum (map (fun s => half_even (sample_value s)) (List.filter (of_phase cluster phase) l)).
Proof.
  revert acc. induction l as [|s l IH]; intros acc.
  - cbn. intros [= ->]. lia.
  - intros (acc' & Hs & Hl)%ofold_cons. rewrite (IH _ Hl). clear IH Hl. cbn [List.filter]. unfold count_phase in Hs.
    unfold of_phase at 2. destruct (of_cluster cluster s); cbn [andb]; [|by injection Hs as <-].
    destruct (label "phase" s) as [ph|] eqn:Ep; [|done]. cbn in Hs.
    destruct (parse_float (value s)) as [v|] eqn:Ev; [|done]. cbn in Hs. injection Hs as <-. rewrite dget_or_dset.
    case_bool_decide as E.
    + injection E as ->. rewrite decide_True by done. cbn [map]. rewrite zsum_cons. unfold sample_value at 2.
      rewrite Ev. change (default 0%Q (Some v)) with v. lia.
    + rewrite decide_False by congruence. done.
Qed.
Lemma mapM_values l vs : mapM (fun s => parse_float (value s)) l = Some vs -> vs = map sample_value l.
Proof.
  revert vs. induction l as [|s l IH]; intros vs; cbn; [by intros [= <-]|].
  destruct (parse_float (value s)) as [v|] eqn:E; cbn; [|done].
  destruct (mapM _ l) as [vs'|]; cbn; [|done]. intros [= <-]. rewrite (IH vs' eq_refl). unfold sample_value. by rewrite E.
Qed.

(** What a job on NRP is said to hold is what its pods hold.  For every phase its
    GPUs are the sum, over the samples of the pods that KubeRay named after its cluster
    in that phase, of their rounded values, and no other cluster's sample counts; its
    utilization is the mean of its GPUs' percents, as a share of 1, and is missing just
    when no GPU of it reports one; and a job that neither holds a GPU nor reports one,
    or has no cluster, is left out. *)
Theorem usage_sums held busy owners job u :
  usage_of held busy owners job = Some u ->
  match head_name job with
  | None => u = None
  | Some cluster =>
      let gpus phase := zsum (map (fun s => half_even (sample_value s)) (List.filter (of_phase cluster phase) held)) in
      let percents := map sample_value (List.filter (of_cluster cluster) busy) in
      match u with
      | None => percents = [] /\ forall phase, gpus phase = 0
      | Some u => nu_cluster u = cluster /\ (forall phase, dget_or phase 0 (nu_gpus u) = gpus phase) /\
          nu_utilization u = match percents with [] => None | _ => Some (mean percents / 100)%Q end
      end
  end.
Proof.
  unfold usage_of. destruct (head_name job) as [cluster|]; [|by intros [= <-]]. cbv zeta.
  destruct (ofold (count_phase cluster) [] held) as [gpus|] eqn:Eg; [|done]. cbn [mbind option_bind].
  destruct (mapM _ _) as [percents|] eqn:Ep; [|done]. apply mapM_values in Ep. rewrite <- Ep. cbn [mbind option_bind].
  assert (Hg : forall phase, dget_or phase 0 gpus
    = zsum (map (fun s => half_even (sample_value s)) (List.filter (of_phase cluster phase) held))).
  { intros phase. rewrite (count_phases _ _ _ _ phase Eg). cbn. lia. }
  destruct (negb (existsb (fun kv : string * Z => negb (kv.2 =? 0)) gpus) && bool_decide (percents = [])) eqn:E; intros [= <-].
  - apply andb_true_iff in E as [E1 E2]. apply bool_decide_eq_true in E2. split; [done|]. intros phase. rewrite <- Hg.
    unfold dget_or. destruct (dget phase gpus) as [n|] eqn:Ed; [|done]. cbn. apply dget_elem in Ed.
    apply negb_true_iff in E1. destruct (Z.eqb_spec n 0) as [|Hn]; [done|]. exfalso. apply not_true_iff_false in E1. apply E1.
    apply existsb_exists. exists (phase, n). split; [by apply list_elem_of_In|]. cbn. by apply negb_true_iff, Z.eqb_neq.
  - split; [done|]. split; [exact Hg|done].
Qed.

(** ** A start, step by step *)

Section QuietNrp.
Context {watched : Req -> bool} {svc : service Req Ans} {P : forall A, GW A -> Prop} (HP : closed watched svc P) (cf : Settings).
Context (Hnow : watched Now = false)
  (Hnrp : forall m path body, String.eqb m "POST" = false -> watched (Nrp m path body) = false)
  (Hkube : forall m path body, String.eqb m "POST" = false -> watched (Kube m path body) = false)
  (Hprom : forall url query, watched (Prom url query) = false) (Hclear : forall prefix, watched (S3Clear prefix) = false).
Lemma q_mfor {A} (l : list A) body : (forall x, P _ (body x)) -> P _ (mfor l body).
Proof. intros Hb. induction l as [|x l IH]; cbn [mfor]; [apply (cl_ret _ _ _ HP)|]. apply (cl_bind _ _ _ HP); auto. Qed.
Lemma q_set_stage job stage more : P _ (set_stage cf svc job stage more).
Proof. unfold set_stage, nrp_patch, refused. quiet; first [by apply (q_time HP) | by apply (q_nrp HP), Hnrp]. Qed.
Lemma q_stop_nrp job why : P _ (stop_nrp cf svc job why).
Proof. unfold stop_nrp, nrp_patch, refused. cbv zeta. quiet; first [by apply (q_nrp HP), Hnrp | apply q_set_stage]. Qed.
Lemma q_clear prefix : P _ (delete_prefix svc prefix).
Proof. unfold delete_prefix. quiet. by apply (cl_call _ _ _ HP (S3Clear prefix)). Qed.
Lemma q_delete_nrp name : P _ (delete_nrp cf svc name).
Proof.
  unfold delete_nrp. quiet; first [by apply (q_nrp HP), Hnrp | apply q_clear | apply q_mfor; intros direction].
  quiet. by apply (q_kube HP), Hkube.
Qed.
Lemma q_at_done name annotations since now : P _ (at_done cf svc name annotations since now).
Proof. unfold at_done. quiet; first [apply q_clear | apply q_delete_nrp]. Qed.
Lemma q_at_outputs job name annotations now : P _ (at_outputs cf svc job name annotations now).
Proof.
  unfold at_outputs, stage_state. cbv zeta. quiet;
    first [by apply (q_kube HP), Hkube | by apply (q_kube_get HP), Hkube | apply q_set_stage | apply q_at_done].
Qed.
Lemma q_idle job now : P _ (idle_utilization cf svc job now).
Proof. unfold idle_utilization, or_raise. cbv zeta. quiet. by apply (cl_call _ _ _ HP (Prom _ _)). Qed.
Lemma q_advance_nrp job : P _ (advance_nrp cf svc job).
Proof.
  unfold advance_nrp, or_raise, at_running, stage_state, resume_nrp, nrp_patch, refused. cbv zeta. quiet;
    first [by apply (q_time HP) | by apply (q_nrp HP), Hnrp | by apply (q_kube_get HP), Hkube | apply q_set_stage | apply q_stop_nrp
          | apply q_at_done | apply q_at_outputs | apply q_idle].
Qed.
End QuietNrp.

(** Whether the RayJob is there: it is created once, under its name, with no fewer
    workers than it starts with and no more than it asks for, and nothing is created at
    Purdue before it. *)
Definition start_step (cf : Settings) (name : string) (least_ wanted : Z) (made : bool) (e : Ev) : option bool :=
  match e with
  | existT (Nrp m path body) a =>
      if String.eqb m "POST" then
        let n := workers_of body in
        if negb made && String.eqb path (nrp_path cf "rayjobs") && String.eqb (name_of body) name
           && (least_ <=? n) && (n <=? wanted)
        then Some (match a with Some (status, _) => status =? 201 | None => false end) else None
      else Some made
  | existT (Kube m _ _) _ => if String.eqb m "POST" && negb made then None else Some made
  | _ => Some made
  end.
Definition posts (r : Req) : bool :=
  match r with Nrp m _ _ | Kube m _ _ => String.eqb m "POST" | _ => false end.

Lemma started_workers_bounds wanted least_ r : least_ <= wanted -> least_ <= started_workers wanted least_ r <= wanted.
Proof. unfold started_workers. lia. Qed.
Lemma workers_annotate more job : workers_of (annotate more job) = workers_of job.
Proof. unfold workers_of, annotate. by rewrite jget_jupd_ne by discriminate. Qed.

Section StartNrp.
Context (safe_dump dumps : json -> string) (cfg : GwConfig) (cf : Settings) (template nrp_template : json) (svc : service Req Ans)
  (name : string) (least_ wanted : Z).
Local Abbreviation step := (start_step cf name least_ wanted).
Lemma start_same q : closed posts svc (fun A c => mon step q c (fun _ q' => q' = q)).
Proof. apply closed_same. intros r a H. destruct r; try done; cbn [posts start_step] in *; by rewrite H. Qed.
Lemma start_then {A B} q (c : GW A) (f : A -> GW B) (R : res Exc B -> bool -> Prop) : (forall e q, R (Err e) q) ->
  mon step q c (fun _ q' => q' = q) -> (forall a, mon step q (f a) R) -> mon step q (c ≫= f) R.
Proof. intros HR Hc Hf. apply mon_bind. eapply mon_mono; [exact Hc|]. intros [a|e] q' ->; [apply Hf|apply HR]. Qed.
Lemma start_copies_made u created data :
  mon step true (start_copies cfg cf template svc u name created data)
    (fun r q => match r with Ok _ => q = true | Err _ => True end).
Proof.
  unfold start_copies. apply mon_for with (I := fun q => q = true); [done| |by intros q ->].
  intros [[direction source] target] q _ ->. apply mon_kube. intros a. exists true. split; [reflexivity|].
  destruct a as [[status b]|]; [|done]. destruct (negb _); [|by apply mon_ret].
  apply start_then; [done| |intros j; by apply mon_raise].
  by apply (q_stop_nrp (start_same true)).
Qed.
End StartNrp.

(** A job starts on NRP with the workers there is room for, in order.  Its RayJob is
    created once, under the job's name, of no fewer workers than the job starts with and
    no more than it asks for; no Job that copies is created before NRP has taken the
    RayJob; and the start returns only if NRP took it. *)
Theorem start_nrp_ordered safe_dump dumps cfg cf template nrp_template svc u s name submitted data :
  nrp_template_ok nrp_template -> int_field (least s) <= int_field (RayShape.workers s) ->
  mon (start_step cf name (int_field (least s)) (int_field (RayShape.workers s))) false
    (start_nrp_job safe_dump dumps cfg cf template nrp_template svc u s name submitted data)
    (fun r q => match r with Ok _ => q = true | Err _ => True end).
Proof.
  intros Ht Hle. unfold start_nrp_job. cbv zeta.
  set (lo := int_field (least s)) in *. set (hi := int_field (RayShape.workers s)) in *.
  apply start_then; [done| |].
  { unfold nrp_models, nrp_query. pose proof (start_same cf svc name lo hi false) as HP.
    repeat (apply (cl_bind _ _ _ HP); [by apply (cl_call _ _ _ HP (Prom _ _))|intros ?]). apply (cl_ret _ _ _ HP). }
  intros models. destruct (default [] models) as [|m l]; [by apply mon_raise|].
  destruct (room_refusal _ _ _); [by apply mon_raise|]. apply mon_or_raise.
  destruct (NrpJobs.build_job _ _ _ _ _ _ _ _ _ _ _) as [job|] eqn:Eb; [|done].
  destruct (nrp_job_built _ _ _ _ _ _ _ _ _ _ _ _ Ht Eb) as (Hn & _ & _ & _ & _ & Hw & _).
  apply mon_time. intros t. split; [done|]. apply mon_nrp_call. intros a. eexists. split.
  { cbn [start_step]. rewrite workers_annotate, Hw, name_annotate. unfold name_of at 1. rewrite Hn. cbn [jstr].
    pose proof (started_workers_bounds hi lo (room (m :: l) (float_field (sh_memory s))) Hle) as [H1%Z.leb_le H2%Z.leb_le].
    rewrite !String.eqb_refl, H1, H2. reflexivity. }
  destruct a as [[status created]|]; [|done]. destruct (status =? 201); cbn [negb]; [|by apply mon_raise].
  apply mon_bind. eapply mon_mono; [apply start_copies_made|]. intros [[]|e] q; [|done]. intros ->.
  eapply mon_mono; [by apply (q_advance_nrp (start_same cf svc name lo hi true))|]. by intros [[]|e] q ->.
Qed.

(** ** Witnesses *)

Definition demo_held : list Sample :=
  [mkSample [("pod", "ray-job-1-abc-worker-x"); ("phase", "Running")] "2";
   mkSample [("pod", "ray-job-1-abc-worker-y"); ("phase", "Pending")] "1";
   mkSample [("pod", "ray-job-2-def-worker-z"); ("phase", "Running")] "4"]%string.
Definition demo_busy : list Sample :=
  [mkSample [("pod", "ray-job-1-abc-worker-x")] "90"; mkSample [("pod", "ray-job-1-abc-worker-x")] "30"]%string.
Definition demo_job : json :=
  JObj [("metadata", JObj [("name", JStr "ray-job-1"); ("labels", JObj [(OWNER_LABEL, JStr "k")])]);
        ("status", JObj [("rayClusterName", JStr "ray-job-1-abc")])]%string.
Definition demo_usage : NrpUsage :=
  mkUsage "ray-job-1-abc" "jdoe" [("Running", 2); ("Pending", 1)]%string (Some (mean [90; 30] / 100)%Q).
Lemma usage_sums_witness :
  usage_of demo_held demo_busy [("k", "jdoe")]%string demo_job = Some (Some demo_usage) /\
  nu_cluster demo_usage = "ray-job-1-abc"%string.
Proof.
  assert (E : usage_of demo_held demo_busy [("k", "jdoe")]%string demo_job = Some (Some demo_usage)) by (vm_compute; reflexivity).
  split; [exact E|]. exact (proj1 (usage_sums demo_held demo_busy [("k", "jdoe")]%string demo_job (Some demo_usage) E)).
Defined.
Definition demo_ask : Shape := mkShape "" "4" "0" "" "" "1" "2" "nrp".
Lemma start_nrp_ordered_witness :
  int_field (least demo_ask) <= int_field (RayShape.workers demo_ask) /\
  mon (start_step af_settings "ray-job-1" 2 4) false
    (start_nrp_job json_text json_text af_config af_settings demo_template demo_nrp_template demo_services
       RayCluster.demo_user demo_ask "ray-job-1" demo_submission [("inputs", "/work/users/jdoe/in")]%string)
    (fun r q => match r with Ok _ => q = true | Err _ => True end).
Proof.
  split; [vm_compute; discriminate|].
  exact (start_nrp_ordered json_text json_text af_config af_settings demo_template demo_nrp_template demo_services
    RayCluster.demo_user demo_ask "ray-job-1" demo_submission [("inputs", "/work/users/jdoe/in")]%string
    ltac:(by constructor; try done; vm_compute) ltac:(vm_compute; discriminate)).
Defined.
