(* ===== verification/RayHttp.v ===== *)
(** The gateway's HTTP side ([apps/ray-train/gateway.py]): [handle], which tells a
    submission, a call about a job and a call to the caller's own cluster apart,
    [capacity] and [nrp_capacity], the metrics, the routes and the reaper's passes. *)
From S2P Require Import Prelude PyJson PyText PyTime PyValue NrpGpus RayNames RayShape RayBuild RayAdmit NrpJobs.
From S2P Require Import RayState RayNrp RayUser RayCluster RayJobs RayNrpRun.
Open Scope Z_scope.

(** ** Headers and paths *)

Definition NOT_PASSED_ON : list string :=
  ["authorization"; "host"]%string ++ SETTINGS
  ++ ["connection"; "keep-alive"; "upgrade"; "transfer-encoding"; "content-length"]%string.
Definition passed (key : string) : bool :=
  negb (bool_decide (str_lower key ∈ NOT_PASSED_ON)) && negb (startswith "sec-websocket-" (str_lower key)).
Definition passed_on (headers : list (string * string)) : list (string * string) :=
  List.filter (fun kv => passed kv.1) headers.
Definition submits (rq : Request) : bool :=
  startswith "/api/packages/" (rq_path rq)
  || (String.eqb (rq_method rq) "POST" && String.eqb (rq_path rq) "/api/jobs/").
(** [JOB_PATH.fullmatch]: the ID, and what follows it. *)
Definition job_path (path : string) : option (string * string) :=
  if startswith "/api/jobs/" path then
    let '(id, rest) := str_partition "/" (str_drop 10 path) in
    if String.eqb id "" then None else
    match rest with
    | None => Some (id, ""%string)
    | Some rest => if str_existsb (Ascii.eqb LF) rest then None else Some (id, String "/" rest)
    end
  else None.
Definition DASHBOARD_PORT : Z := 8265.
Definition CLIENT_PORT : Z := 10001.
Definition head_service (cf : Settings) (cluster : string) (port : Z) : string :=
  cluster ++ "-head-svc." ++ NAMESPACE cf ++ ".svc.cluster.local:" ++ pretty port.
Definition head_url (cf : Settings) (cluster : string) : string := "http://" ++ head_service cf cluster DASHBOARD_PORT.
Definition client_address (cf : Settings) (cluster : string) : string := head_service cf cluster CLIENT_PORT.

Example job_path_values : map job_path ["/api/jobs/raysubmit_1"; "/api/jobs/x/logs/tail"; "/api/jobs/"; "/api/jobs//stop"; "/api/job"]%string
  = [Some ("raysubmit_1", ""); Some ("x", "/logs/tail"); None; None; None]%string.
Proof. vm_compute. reflexivity. Qed.

Section Http.
Context (safe_dump dumps : json -> string) (cfg : GwConfig) (cf : Settings) (accts : list (string * Account))
  (template nrp_template : json) (service_token : string) (fuel log_bytes : nat) (nrp_on : bool) (svc : service Req Ans).

(** ** [handle] *)

Definition JOB_GONE (id : string) : string :=
  "You have no job " ++ id ++ ": a job's record goes when it is deleted, or "
  ++ pretty (floordiv (JOB_RECORD_S cf) 86400) ++ " days after the job ends.".
(** The refusal of a call that its cluster did not answer, which then counts as not started. *)
Definition head_silent (name : string) : GW Answer :=
  mmod (fun g => g <| started := ddel name (started g) |>) ≫= fun _ =>
  refused UNAVAILABLE "Your Ray cluster did not answer: try again in a minute.".
(** A call about a job. *)
Definition about_job (u : User) (rq : Request) (id rest : string) : GW Answer :=
  found ← job cf svc u id;
  match found with
  | None =>
      on_nrp ← nrp_job cf nrp_on svc u id;
      match on_nrp with
      | Some j => nrp_recorded cf fuel svc rq j rest
      | None =>
          head ← mcatch (running cf svc u) (fun e =>
            match e with
            | Refusal r =>
                g ← mget;
                if negb (bool_decide (refused_code r = NOT_FOUND)) || dhas (user_cluster u) (never_started g)
                then raise (Refusal r) else refused NOT_FOUND (JOB_GONE id)
            | e => raise e
            end);
          mret (ARelay head head None)
      end
  | Some (j, up) =>
      let kept := jget LOGS_ANNOTATION (annotations_of j) in
      if truthy kept && String.eqb (rq_method rq) "GET" && (String.eqb rest "/logs" || String.eqb rest "/logs/tail")
      then kept_logs cf svc (jstr kept) rest
      else match up with
      | Some head =>
          if String.eqb (rq_method rq) "DELETE" then recorded cf svc j (rq_method rq) rest
          else mret (ARelay head (name_of j) None)
      | None => recorded cf svc j (rq_method rq) rest
      end
  end.
Definition job_listing (u : User) : GW Answer :=
  here ← jobs cf svc u; on_nrp ← nrp_jobs cf nrp_on svc u;
  details ← or_raise Failure (mapM job_details (here ++ on_nrp)); mret (AJson (JArr details)).
Definition handled (who : GW (User * Shape)) (rq : Request) : GW Answer :=
  '(u, s) ← who;
  if String.eqb (rq_path rq) "/api/version" then
    mret (AJson (JObj [("ray_version", jget "rayVersion" (jget "spec" template))]%string))
  else if submits rq && String.eqb (site s) "nrp" then
    nrp_submission safe_dump dumps cfg cf template nrp_template nrp_on svc u s rq
  else if submits rq then
    '(head, keyed, body) ← submission cfg cf template service_token fuel nrp_on svc u s rq;
    mret (ARelay head keyed body)
  else match job_path (rq_path rq) with
  | Some (id, rest) => about_job u rq id rest
  | None =>
      if String.eqb (rq_method rq) "GET" && String.eqb (rq_path rq) "/api/jobs/" then job_listing u
      else head ← running cf svc u; mret (ARelay head head None)
  end.
(** The answer, or the status and the text of a refusal. *)
Definition handle (who : GW (User * Shape)) (rq : Request) : GW (Answer + Z * string) :=
  mcatch (a ← handled who rq; mret (inl a)) (fun e =>
    match e with
    | Refusal r => mret (inr (HTTP_STATUS (refused_code r), removesuffix "." (refused_text r)))
    | e => raise e
    end).

(** ** [capacity] *)

Definition opt_int (n : option Z) : json := match n with Some n => JInt n | None => JNull end.
(** The shape asked about, and its GPUs per worker. *)
Definition capacity_shape (wanted : Q) (per_worker_ : string) : res Refused (Shape * Z) :=
  let at_purdue := existsb (fun f => wanted <=?q memory f) (FLAVORS cfg) in
  mem ← (if at_purdue then requested_memory cfg (fmt_g wanted) else Ok (fmt_g wanted));
  each ← (if at_purdue then requested_per_worker cfg per_worker_ mem
          else Ok (if String.eqb per_worker_ "" then "1"%string else per_worker_));
  Ok (mkShape "" "1" mem "" "" each "1" "purdue", if whole each 1 None then int_field each else 0).
(** [Shape.flavors] reads [per_worker] of each flavor with the memory, and [//] divides by it. *)
Definition capacity_raises (s : Shape) (each : Z) : bool :=
  existsb (fun f => float_field (sh_memory s) <=?q memory f) (FLAVORS cfg)
  && bool_decide (int_of_str (per_worker s) = None)
  || (each =? 0) && negb (bool_decide (flavors cfg s = [])).
Definition fit_of (free : option Free) (each : Z) (f : Flavor) : option (Z * Z) :=
  free ← free; let '(unheld, evictable) := dget_or (resource f) (0, 0) free in Some (unheld / each, evictable / each).
Definition kind_of (free : option Free) (each : Z) (f : Flavor) : json :=
  JObj [("resource", JStr (resource f)); ("memory_gb", JFloat (memory f)); ("workers_most", JInt (budget f / each));
        ("workers_free", opt_int (option_map fst (fit_of free each f)));
        ("workers_preemptible", opt_int (option_map snd (fit_of free each f)))]%string.
Definition purdue_capacity (free : option Free) (s : Shape) (each : Z) : json :=
  let kinds := flavors cfg s in
  JObj [("known", JBool (bool_decide (free <> None)));
        ("workers_free", JInt (zsum (map (fun f => default 0 (option_map fst (fit_of free each f))) kinds)));
        ("workers_preemptible", JInt (zsum (map (fun f => default 0 (option_map snd (fit_of free each f))) kinds)));
        ("workers_most", JInt (zsum (map (fun f => budget f / each) kinds)));
        ("kinds", JArr (map (kind_of free each) kinds))]%string.
Definition worker_json (w : Worker) : json :=
  JObj [("gpus", JInt (w_gpus w)); ("cpus", JFloat (w_cpus w)); ("memory_gb", JFloat (w_memory_gb w))]%string.
(** [sorted(models.items(), key=lambda m: -m[1].workers)], which keeps the order of equals. *)
Fixpoint insert_most (nm : string * Model) (l : Models) : Models :=
  match l with
  | [] => [nm]
  | nm' :: l' => if NrpGpus.workers nm'.2 <? NrpGpus.workers nm.2 then nm :: l else nm' :: insert_most nm l'
  end.
Definition most_first (l : Models) : Models := foldl (fun acc nm => insert_most nm acc) [] l.
Definition model_json (nm : string * Model) : json :=
  JObj [("model", JStr nm.1); ("memory_gb", match memory_gb nm.2 with Some q => JFloat q | None => JNull end);
        ("workers", JInt (NrpGpus.workers nm.2))]%string.
Definition nrp_capacity (w : Worker) (memory : Q) : GW json :=
  models ← nrp_models cf svc (Some w);
  match models with
  | None => mret (JObj [("known", JBool false); ("worker", worker_json w)]%string)
  | Some models =>
      let r := room models memory in
      mret (JObj [("known", JBool (bool_decide (models <> []))); ("worker", worker_json w);
                  ("workers_free", JInt (r_workers r)); ("workers_most", JInt (r_workers_empty r));
                  ("models", JArr (map model_json (List.filter (fun nm : string * Model =>
                     negb (String.eqb nm.1 "") && allowed (r_models r) nm.1) (most_first models))))]%string)
  end.
Definition capacity (w : Worker) (values : list (string * string)) : GW json :=
  wanted ← lift (gpu_memory (setting MEMORY_METADATA values));
  '(s, each) ← lift (capacity_shape wanted (setting PER_WORKER_METADATA values));
  free ← ask_free cfg cf svc;
  if capacity_raises s each then raise Failure else
  on_nrp ← (if each =? w_gpus w then nrp_capacity w wanted else mret JNull);
  mret (JObj [("purdue", purdue_capacity free s each); ("nrp", on_nrp)]%string).

(** ** Metrics and passes *)

Fixpoint insert_owner (kv : string * string) (l : list (string * string)) : list (string * string) :=
  match l with [] => [kv] | kv' :: l' => if String.ltb kv.1 kv'.1 then kv :: l else kv' :: insert_owner kv l' end.
Definition owner_lines (owners : list (string * string)) : list string :=
  map (fun kv => "ray_train_job_owner{ray_cluster=" ++ in_quotes kv.1 ++ ",owner=" ++ in_quotes kv.2 ++ "} 1")%string
    (foldl (fun acc kv => insert_owner kv acc) [] owners).
(** The text, or the status of what did not answer. *)
Definition metrics : GW (string + Z) :=
  mcatch
    (owners ← job_owners cf svc;
     g ← mget;
     let lines := (["# HELP ray_train_job_owner The owner's own cluster of each Ray job cluster.";
                    "# TYPE ray_train_job_owner gauge"]%string ++ owner_lines owners
                   ++ match nrp_held g with Some held => nrp_usage_lines held | None => [] end) in
     mret (inl (str_join (String LF "") lines ++ String LF "")%string))
    (fun e => match e with NoAnswer | Failure => mret (inr 503) | e => raise e end).
(** One round of [reap_forever]: each pass is tried, whatever the others did. *)
Definition reap_round : GW unit :=
  let tried (pass : GW unit) := mcatch pass (fun _ => mret tt) in
  tried (reap_idle cf svc) ≫= fun _ => tried (reap_jobs cf log_bytes svc) ≫= fun _ =>
  tried (reap_nrp cf accts service_token fuel nrp_on svc).
End Http.

(** ** Whose cluster a call reaches *)

(** Kubernetes said, of the user's cluster, that it is up and theirs. *)
Definition said_own (cf : Settings) (u : User) (e : Ev) : Prop :=
  exists status c, e = existT (Kube "GET" (RAYCLUSTERS cf ++ "/" ++ user_cluster u)%string JNull) (Some (status, c)) /\
    live (Some c) = true /\ cluster_owner c = user_owner u.
Definition known_own (u : User) (g : Gateway) : Prop := exists s, dget (user_cluster u) (started g) = Some (user_owner u, s).
Definition own_now (cf : Settings) (u : User) (g : Gateway) (h : list Ev) : Prop := known_own u g \/ Exists (said_own cf u) h.
(** Kubernetes listed the RayJob among the user's; it said that the cluster is up. *)
Definition listed_job (cf : Settings) (u : User) (j : json) (e : Ev) : Prop :=
  exists listing, e = existT (Kube "GET" (RAYJOBS cf ++ "?labelSelector=" ++ quote "~" (OWNER_LABEL ++ "=" ++ user_cluster u))%string JNull) (Some (200, listing)) /\
    j ∈ jlist (jget_or "items" (JArr []) listing).
Definition said_up (cf : Settings) (name : string) (e : Ev) : Prop :=
  exists c, e = existT (Kube "GET" (RAYCLUSTERS cf ++ "/" ++ name)%string JNull) (Some (200, c)) /\ live (Some c) = true.
(** The head and the token are of the job that the path names, which Kubernetes showed. *)
Definition job_now (cf : Settings) (u : User) (path head keyed : string) (h : list Ev) : Prop :=
  exists id rest j, job_path path = Some (id, rest) /\ Exists (listed_job cf u j) h /\ owns u j = true /\ of_submission id j = true /\
    head_name j = Some head /\ Exists (said_up cf head) h /\ keyed = name_of j.

Lemma wp_any {A} (c : GW A) g h : wp c g h (fun _ _ _ => True).
Proof. unfold wp. by destruct (c g h) as [[r g'] h']. Qed.
Lemma wp_then {A B} (c : GW A) (f : A -> GW B) g h (Q : res Exc B -> Gateway -> list Ev -> Prop) :
  (forall e g h, Q (Err e) g h) -> (forall a g h, wp (f a) g h Q) -> wp (c ≫= f) g h Q.
Proof. intros He Hf. apply wp_bind. eapply wp_mono; [apply wp_any|]. intros [a|e] g' h' _; [apply Hf|apply He]. Qed.

(** Steps through a run whose every end the goal allows. *)
Ltac wp_skip :=
  repeat lazymatch goal with
  | |- wp (mbind _ _) _ _ _ => apply wp_then; [intros ? ? ?; exact I|intros ? ? ?]
  | |- wp (mret _) _ _ _ => apply wp_ret; exact I
  | |- wp (refused _ _) _ _ _ => exact I
  | |- wp (raise _) _ _ _ => exact I
  | |- wp (if ?b then _ else _) _ _ _ => destruct b
  | |- wp (match ?b with _ => _ end) _ _ _ => destruct b
  end.

Section Reaches.
Context (safe_dump dumps : json -> string) (cfg : GwConfig) (cf : Settings) (accts : list (string * Account))
  (template nrp_template : json) (service_token : string) (fuel : nat) (nrp_on : bool) (svc : service Req Ans) (u : User).

Definition runs_own (r : res Exc string) (g : Gateway) (h : list Ev) : Prop :=
  match r with Ok name => name = user_cluster u /\ own_now cf u g h | Err _ => True end.
Lemma used_own g h : own_now cf u g h ->
  wp (used_now svc (user_cluster u) ≫= fun _ => mret (user_cluster u)) g h runs_own.
Proof.
  intros Ho. apply wp_bind. unfold used_now. apply wp_bind. unfold monotonic. wp_step. apply wp_mod, wp_ret.
  split; [done|]. destruct Ho as [Hk|He]; [left; exact Hk|right]. by apply Exists_app; left.
Qed.
Lemma running_own g h : wp (running cf svc u) g h runs_own.
Proof.
  unfold running. apply wp_bind, wp_get. cbv beta iota zeta.
  destruct (match dget (user_cluster u) (started g) with Some (owner, _) => String.eqb owner (user_owner u) | None => false end) eqn:E.
  { apply wp_bind, wp_ret, used_own. left. destruct (dget (user_cluster u) (started g)) as [[owner s]|] eqn:Ed; [|done].
    apply String.eqb_eq in E as ->. by exists s. }
  clear E. apply wp_bind. unfold cluster, kube_get, kube. do 3 apply wp_bind. wp_step.
  set (a := svc h (Kube "GET" _ JNull)). set (e := existT (A := Req) _ a).
  assert (He : forall status c, a = Some (status, c) -> live (Some c) = true -> cluster_owner c = user_owner u -> said_own cf u e)
    by (intros status c Ha; exists status, c; unfold e; by rewrite Ha).
  clearbody a. destruct a as [[status c]|]; [|done]. cbn [or_raise]. apply wp_ret. destruct (status =? 404); [apply wp_ret, wp_bind, wp_get; done|].
  destruct (status =? 200); cbn [negb]; [|done]. apply wp_ret. destruct (live (Some c)) eqn:El; [|apply wp_bind, wp_get; done].
  unfold refuse_other, refuse_others. destruct (String.eqb_spec (cluster_owner c) (user_owner u)) as [Eo|]; [|done].
  apply wp_ret, used_own. right. apply Exists_app. right. constructor. by eapply He.
Qed.
(** The job that is found is the user's, of that name, and its head the one that its RayJob
    names and that is up. *)
Lemma cluster_up name g h : wp (cluster cf svc name) g h (fun r _ h' => (exists t, h' = (h ++ t)%list) /\
  forall up, r = Ok up -> live up = true -> Exists (said_up cf name) h').
Proof.
  unfold cluster, kube_get, kube. do 2 apply wp_bind. wp_step.
  destruct (svc h _) as [[status c]|] eqn:Ea; [|split; [by eexists|done]]. cbn [or_raise]. apply wp_ret.
  destruct (status =? 404); [apply wp_ret; split; [by eexists|by intros ? [= <-]]|].
  destruct (Z.eqb_spec status 200) as [->|]; cbn [negb]; [|split; [by eexists|done]]. apply wp_ret. split; [by eexists|].
  intros up [= <-] Hl. apply Exists_app. right. constructor. by exists c.
Qed.
Lemma job_own id g h : wp (job cf svc u id) g h (fun r _ h' =>
  match r with
  | Ok (Some (j, up)) => Exists (listed_job cf u j) h' /\ owns u j = true /\ of_submission id j = true /\
      forall head, up = Some head -> head_name j = Some head /\ Exists (said_up cf head) h'
  | _ => True
  end).
Proof.
  unfold job. apply wp_bind. unfold jobs, listed, kube. do 2 apply wp_bind. wp_step.
  destruct (svc h _) as [[status l]|] eqn:Ea; [|done]. cbn [or_raise]. apply wp_ret.
  destruct (Z.eqb_spec status 200) as [->|]; cbn [negb]; [|done]. apply wp_ret.
  destruct (List.find (of_submission id) _) as [j|] eqn:E; [|done]. apply find_some in E as [Hin Hid].
  apply filter_In in Hin as [Hl [Ho _]%andb_true_iff]. set (h1 := (h ++ _)%list).
  assert (H1 : Exists (listed_job cf u j) h1) by (apply Exists_app; right; constructor; exists l; split; [done|by apply list_elem_of_In]).
  cbv zeta. destruct (truthy _) eqn:Et; [|apply wp_ret; by do 3 (split; [done|])].
  apply wp_bind. eapply wp_mono; [apply cluster_up|]. intros [up|e] g' h' [[t ->] Hup]; [|done]. apply wp_ret.
  split; [by apply Exists_app; left|]. do 2 (split; [done|]). intros head. destruct (live up) eqn:El; [|done]. intros [= <-].
  split; [unfold head_name, status_of; by rewrite Et|by eapply Hup].
Qed.
End Reaches.

(** C11: a call reaches only its caller's clusters.  Whatever the services answer, a
    call that submits nothing is passed on, if at all, to the cluster named after the
    caller, under its own token, and only if Kubernetes said during this call that the
    cluster is up and the caller's, or the gateway knows it as started by them; or, for a
    path of a job, to the head of the RayJob of that ID that Kubernetes listed during this
    call, that is the caller's and that names this head, which Kubernetes said is up, under
    that job's token. *)
Theorem handle_own safe_dump dumps cfg cf template nrp_template service_token fuel nrp_on svc u s rq g :
  submits rq = false ->
  wp (handled safe_dump dumps cfg cf template nrp_template service_token fuel nrp_on svc (mret (u, s)) rq) g []
    (fun r g' events => match r with
       | Ok (ARelay head keyed _) =>
           (head = user_cluster u /\ keyed = user_cluster u /\ own_now cf u g' events) \/ job_now cf u (rq_path rq) head keyed events
       | _ => True
       end).
Proof.
  intros Hs. unfold handled. apply wp_bind, wp_ret. destruct (String.eqb _ "/api/version"); [done|]. rewrite Hs. cbn [andb].
  set (Q := fun r g' h' => _). assert (Hrun : forall g h, wp (head ← running cf svc u; mret (ARelay head head None)) g h Q).
  { intros g' h'. apply wp_bind. eapply wp_mono; [apply running_own|]. intros [name|e] g2 h2; [|done]. intros [-> Ho].
    apply wp_ret. left. done. }
  destruct (job_path (rq_path rq)) as [[id rest]|] eqn:Ep.
  2:{ destruct (_ && _); [|apply Hrun]. unfold job_listing. wp_skip. }
  unfold about_job. apply wp_bind. eapply wp_mono; [apply job_own|]. intros [[[j up]|]|e] g1 h1; [| |done].
  - intros (Hl & Ho & Hid & Hh).
    assert (Hrec : forall g h, wp (recorded cf svc j (rq_method rq) rest) g h Q)
      by (intros g2 h2; unfold recorded; cbv zeta; wp_skip).
    cbv zeta. destruct (truthy _ && _ && _); [unfold kept_logs; cbv zeta; wp_skip; destruct (String.eqb rest "/logs"); exact I|].
    destruct up as [head|]; [|apply Hrec]. destruct (String.eqb _ "DELETE"); [apply Hrec|]. apply wp_ret.
    destruct (Hh head eq_refl) as [Hn Hup]. right. by exists id, rest, j.
  - intros _. apply wp_then; [done|]. intros [j|] g2 h2.
    + unfold nrp_recorded, nrp_tail. cbv zeta. wp_skip. apply wp_ret. match goal with |- context [match ?x with _ => _ end] => by destruct x end.
    + apply wp_bind, wp_catch. eapply wp_mono; [apply running_own|]. intros [name|e] g3 h3; [intros [-> Ho]; apply wp_ret; by left|].
      intros _. destruct e as [r| | |]; try done. apply wp_bind, wp_get. destruct (_ || _); done.
Qed.

(** ** Witnesses *)

Definition demo_call (method path : string) : Request := mkRequest method path [] "" None.
Definition demo_rayjob : json :=
  JObj [("metadata", JObj [("name", JStr "rayjob-1"); ("labels", JObj [(OWNER_LABEL, JStr "ray-train-jdoe")])]);
        ("spec", JObj [("jobId", JStr "raysubmit_1")]); ("status", JObj [("rayClusterName", JStr "raycluster-1")])]%string.
(** One RayJob, of the user's, whose cluster is up. *)
Definition demo_jobs : service Req Ans := fun h r =>
  match r return Ans r -> Ans r with
  | Kube _ path _ => fun answer => if str_contains "?" path then Some (200, JObj [("items", JArr [demo_rayjob])])%string else answer
  | _ => fun answer => answer
  end (demo_open h r).
Definition demo_relayed (path : string) : res Exc Answer * Gateway * list Ev :=
  handled json_text json_text af_config af_settings demo_template demo_nrp_template "service" 122 false demo_jobs
    (mret (RayCluster.demo_user, demo_shape)) (demo_call "GET" path)
    (gateway0 <| started := [("ray-train-jdoe", ("", demo_shape))]%string |>) [].
Lemma handle_own_witness : let path := "/api/jobs/raysubmit_1/logs"%string in
  exists g' events, demo_relayed path = (Ok (ARelay "raycluster-1" "rayjob-1" None), g', events) /\
    job_now af_settings RayCluster.demo_user path "raycluster-1" "rayjob-1" events.
Proof.
  intros path. pose proof (handle_own json_text json_text af_config af_settings demo_template demo_nrp_template "service" 122 false demo_jobs
    RayCluster.demo_user demo_shape (demo_call "GET" path) (gateway0 <| started := [("ray-train-jdoe", ("", demo_shape))]%string |>) eq_refl) as H.
  unfold wp in H. change (handled _ _ _ _ _ _ _ _ _ _ _ _ _ _) with (demo_relayed path) in H.
  assert (E : (demo_relayed path).1.1 = Ok (ARelay "raycluster-1" "rayjob-1" None)) by (vm_compute; reflexivity).
  destruct (demo_relayed path) as [[r g'] h']. cbn in E. subst r. exists g', h'. split; [reflexivity|].
  destruct H as [(H1 & _)|H]; [discriminate H1|exact H].
Defined.
(** A memory that reads as more than any GPU has but is written as one's: [capacity] then
    divides by the zero GPUs of a worker that it did not check. *)
Lemma capacity_unchecked : exists s, capacity_shape af_config (float_field "16.0000001") "0" = Ok (s, 0)
  /\ capacity_raises af_config s 0 = true.
Proof. eexists. split; [vm_compute; reflexivity|vm_compute; reflexivity]. Qed.
