(* ===== verification/RayCalls.v ===== *)
(** The Ray tools of the agentic interface and the gateway that they call: what [AgRay]
    sends, [RayShape] reads as it was meant. *)
From S2P Require Import Prelude PyJson PyText PyFloat PyValue RayNames RayShape AgErrors AgAuth AgTools AgRay.
Open Scope Z_scope.

(** ** Settings as headers *)

Definition is_null (j : json) : bool := match j with JNull => true | _ => false end.
(** What a setting is given as, if it is. *)
Fixpoint given_as (name : string) (l : list (string * json)) : option string :=
  match l with
  | [] => None
  | (k, v) :: l => if String.eqb ("af-" ++ dashes k) name && negb (is_null v) then Some (str_of v) else given_as name l
  end.
Lemma settings_get name l : dget name (_settings l) = given_as name l.
Proof.
  induction l as [|[k v] l IH]; [done|]. unfold _settings in *. cbn [omap list_omap given_as fst snd].
  destruct v; cbn [is_null negb andb]; rewrite ?andb_false_r, ?andb_true_r; [exact IH|..]; cbn [dget]; rewrite IH;
    (destruct (String.eqb_spec ("af-" ++ dashes k) name) as [->|]; [by rewrite decide_True|by rewrite decide_False by congruence]).
Qed.
Lemma settings_names l (P : string -> Prop) : Forall (fun kv => P ("af-" ++ dashes kv.1)%string) l -> Forall P (_settings l).*1.
Proof. induction 1 as [|[k v] l H Hl IH]; [constructor|]. unfold _settings in *. cbn. destruct v; [done|..]; by constructor. Qed.
Lemma whole_pretty n : 1 <= n < 10 ^ 9 -> whole (pretty n) 1 None = true.
Proof.
  intros Hn. destruct (pretty_numeral n) as [Hd _ Hf Hl]; [lia|]. unfold whole, plain_number, int_field. rewrite int_of_pretty by lia. rewrite Hf, Hd by lia.
  assert (String.length (pretty n) <=? 9 = true)%nat as -> by (apply Nat.leb_le, Hl; cbn; lia). cbn. rewrite andb_true_r. lia.
Qed.

(** ** A job's settings at the gateway *)

Definition token_char (c : ascii) : bool := printable c && negb (is_space c).
Lemma bearer_plain token : token <> ""%string -> str_forallb token_char token = true -> bearer_token ("Bearer " ++ token) = Some token.
Proof.
  intros Hne Ht. unfold bearer_token. change (str_partition " " ("Bearer " ++ token)) with ("Bearer"%string, Some token).
  cbn [default from_option]. unfold id. assert (str_strip token = token) as ->.
  { apply strip_plain. eapply exists_of_forall; [|exact Ht]. intros c. unfold token_char. by destruct (printable c), (is_space c). }
  rewrite bool_decide_true by (apply list_elem_of_In; cbn; auto). cbn [negb orb]. destruct (String.eqb_spec token ""); [done|].
  assert (str_forallb printable token = true) as ->; [|done]. clear Hne n. induction token as [|c s IH]; [done|]. cbn in *. apply andb_true_iff in Ht as [Hc Hs].
  unfold token_char in Hc. apply andb_true_iff in Hc as [-> _]. by apply IH.
Qed.
(** The headers of a call with the settings. *)
Definition at_gateway (token : string) (settings : list (string * string)) : list (string * string) := ("authorization"%string, ("Bearer " ++ token)%string) :: settings.
Definition strange (name : string) : bool := bool_decide (name ∈ UNPREFIXED) || (startswith SETTING_PREFIX name && negb (bool_decide (name ∈ SETTINGS))).
Lemma strange_none l : Forall (fun name => strange name = false) l -> List.filter strange l = [].
Proof. induction 1 as [|n l H Hl IH]; [done|]. cbn. by rewrite H. Qed.
Lemma job_known token a : unknown_settings (at_gateway token (job_settings a)) = [].
Proof.
  unfold unknown_settings. fold strange. rewrite strange_none; [done|]. constructor; [done|]. unfold job_settings. apply settings_names.
  unfold count_of. destruct (w_exact (j_workers a)); repeat constructor.
Qed.
Definition text_or {A} (f : A -> string) (o : option A) : string := match o with Some a => f a | None => "" end.
Lemma at_gateway_get token name l : name <> "authorization"%string -> setting name (at_gateway token (_settings l)) = default ""%string (given_as name l).
Proof. intros H. unfold setting, at_gateway, dget_or. cbn [dget]. rewrite decide_False by congruence. by rewrite settings_get. Qed.
(** Each setting is read as the argument that it was made of. *)
Lemma job_settings_read token a : let values := at_gateway token (job_settings a) in let w := j_workers a in
  (setting SITE_METADATA values = site_name (j_site a) /\ setting ENV_METADATA values = text_or id (w_environment w) /\
   setting PER_WORKER_METADATA values = text_or pretty (w_gpus w) /\ setting CPUS_METADATA values = text_or pretty (w_cpus w) /\
   setting RAM_METADATA values = text_or pretty (w_ram w) /\ setting MEMORY_METADATA values = text_or float_repr (w_memory w) /\
   setting INPUTS_METADATA values = text_or id (j_inputs a) /\ setting OUTPUT_METADATA values = text_or id (j_output a) /\
   setting WORKERS_METADATA values = (if w_exact w then pretty (w_workers w) else "") /\ setting MOST_METADATA values = if w_exact w then "" else pretty (w_workers w))%string.
Proof.
  cbv zeta. unfold job_settings. split_and!; rewrite at_gateway_get by done; unfold count_of; destruct (w_exact (j_workers a)); cbn [fst snd].
  all: try reflexivity.
  all: first [destruct (w_environment (j_workers a)) | destruct (j_site a)]; try reflexivity.
  all: first [destruct (w_gpus (j_workers a)); reflexivity | destruct (w_cpus (j_workers a)); reflexivity | destruct (w_ram (j_workers a)); reflexivity
    | destruct (w_memory (j_workers a)); reflexivity | destruct (j_inputs a); reflexivity | destruct (j_output a); reflexivity].
Qed.
(** Nothing is set of workers but their number and their GPUs' memory, as NRP has it. *)
Definition nrp_workers (w : Workers) : Prop := w_gpus w = None /\ w_cpus w = None /\ w_ram w = None /\ w_environment w = None.
Lemma nrp_names token a : nrp_workers (j_workers a) ->
  List.filter (fun name => bool_decide (name ∈ SETTINGS) && negb (bool_decide (name ∈ NRP_SETTINGS))) (at_gateway token (job_settings a)).*1 = [].
Proof.
  intros (Hg & Hc & Hr & He). unfold job_settings, count_of. rewrite Hg, Hc, Hr, He. destruct a as [e s f [n [] m g c r en] eg i o p v]; cbn [j_workers w_memory w_exact w_workers j_inputs j_output j_site].
  all: destruct m, i, o; reflexivity.
Qed.
Lemma workers_read (exact_ : bool) n most : 1 <= n < 10 ^ 9 -> match most with None => True | Some m => n <= m end ->
  requested_workers (if exact_ then pretty n else "")%string (if exact_ then "" else pretty n)%string most = Ok (pretty n, if exact_ then pretty n else "1"%string).
Proof.
  intros Hn Hm. assert (String.eqb (pretty n) "" = false) as He.
  { destruct (pretty_numeral n) as [_ _ Hf _]; [lia|]. specialize (Hf ltac:(lia)). by destruct (pretty n). }
  assert (whole (pretty n) 1 most = true) as Hw.
  { pose proof (whole_pretty n Hn) as H. unfold whole in *. apply andb_true_iff in H as [H _]. rewrite H. destruct most as [m|]; [|done].
    unfold int_field. rewrite int_of_pretty by lia. cbn. lia. }
  unfold requested_workers. by destruct exact_; cbn [String.eqb negb andb]; rewrite ?He; cbn [negb andb]; rewrite ?He, Hw.
Qed.

(** *** Theorem *)

(** C33: What the tool sends the gateway reads as it was meant: a job's call is taken for the
    caller's own token and the site that was asked for, no setting of it is unknown, and the
    number of workers, or the most of them, are those of the call; a job for NRP that sets
    nothing but what NRP has gets the shape of that, whatever the worker there is. *)
Theorem job_call_understood token a worker : token <> ""%string -> str_forallb token_char token = true -> 1 <= w_workers (j_workers a) < 10 ^ 9 ->
  let values := at_gateway token (job_settings a) in let n := pretty (w_workers (j_workers a)) in
  let least_ := if w_exact (j_workers a) then n else "1"%string in
  caller_token true values = Ok (token, site_name (j_site a)) /\
  (forall most, w_workers (j_workers a) <= most ->
     requested_workers (setting WORKERS_METADATA values) (setting MOST_METADATA values) (Some most) = Ok (n, least_)) /\
  (nrp_workers (j_workers a) -> nrp_shape worker values =
     (mem ← gpu_memory (text_or float_repr (w_memory (j_workers a))); Ok (mkShape "" n (fmt_g mem) "" "" "1" least_ "nrp") : res Refused Shape)%string).
Proof.
  intros Hne Ht Hn. cbv zeta. destruct (job_settings_read token a) as (Hsite & _ & _ & _ & _ & Hmem & _ & _ & Hw & Hmost). split; [|split].
  - unfold caller_token. cbn [negb]. assert (setting "authorization" (at_gateway token (job_settings a)) = "Bearer " ++ token)%string as -> by reflexivity.
    rewrite bearer_plain, job_known, Hsite by done. cbv zeta. by destruct (j_site a).
  - intros most Hm. rewrite Hw, Hmost. by apply workers_read.
  - intros Hnrp. unfold nrp_shape. rewrite nrp_names by done. rewrite Hw, Hmost, workers_read, Hmem by done. reflexivity.
Qed.
Definition nrp_args : JobArgs := mkJob "python train.py" Nrp [] (mkWorkers 4 true None None None None None) 0 None (Some "s3://out"%string) [] [].
Lemma job_call_understood_witness :
  nrp_shape (1, 4%Q, 16%Q) (at_gateway "abc" (job_settings nrp_args)) = Ok (mkShape "" "4" "0" "" "" "1" "4" "nrp") /\
  caller_token true (at_gateway "abc" (job_settings nrp_args)) = Ok ("abc", "nrp")%string.
Proof.
  destruct (job_call_understood "abc" nrp_args (1, 4%Q, 16%Q)) as (H1 & _ & H2); [done|done|cbn; lia|]. split; [|exact H1].
  rewrite H2; [reflexivity|]. by repeat split.
Defined.
