(* ===== verification/MmText.v ===== *)
(** Text as the Mattermost agent handles it ([apps/mattermost-agent/agent.py]): code
    points, the agent's regular expressions, and what it may post. *)
From S2P Require Import Prelude.
Open Scope Z_scope.

(** A text is its code points. What Python's Unicode tables say of those past ASCII is
    left open: which are word characters and which are spaces, [str.lower], and the
    character that one stands for where case is ignored. *)
Abbreviation text := (list Z).
Record Unicode := mkUnicode { hi_word : Z -> bool; hi_space : Z -> bool; hi_lower : Z -> text; hi_fold : Z -> Z }.
(** Tables without anything past ASCII. *)
Definition ascii_only : Unicode := mkUnicode (fun _ => false) (fun _ => false) (fun c => [c]) id.

Definition txt (s : string) : text := map chr_code (list_ascii_of_string s).
(** Whether a text is those ASCII characters, and the ASCII characters of a text. *)
Definition text_eqb (t : text) (s : string) : bool := bool_decide (t = txt s).

Definition in_range (lo hi c : Z) : bool := (lo <=? c) && (c <=? hi).
Definition ascii_word (c : Z) : bool :=
  in_range 48 57 c || in_range 65 90 c || in_range 97 122 c || (c =? 95).
(** [str.strip] takes these and the spaces past ASCII. *)
Definition ascii_space (c : Z) : bool := in_range 9 13 c || in_range 28 32 c.
Definition DOT : Z := 46.
Definition DASH : Z := 45.
Definition AT : Z := 64.
Definition NEWLINE : Z := 10.
Definition HASH : Z := 35.
(** The zero-width space that [clean] puts after an @. *)
Definition ZWSP : Z := 8203.

Definition MAX_POST_CHARS : nat := 4000.
Definition CODE_LETTERS : text := txt "ABCDEFGHJKMNPQRSTUVWXYZ23456789".
Definition CODE_LENGTH : nat := 8.
Definition INTENTS : list string := ["link"; "unlink"; "personal"; "general"].

Section Text.
Context (uni : Unicode).

Definition word (c : Z) : bool := if c <? 128 then ascii_word c else hi_word uni c.
Definition space (c : Z) : bool := if c <? 128 then ascii_space c else hi_space uni c.
Definition lower_ascii (c : Z) : Z := if in_range 65 90 c then c + 32 else c.
Definition lower (t : text) : text :=
  flat_map (fun c => if c <? 128 then [lower_ascii c] else hi_lower uni c) t.
Definition fold (c : Z) : Z := if c <? 128 then lower_ascii c else hi_fold uni c.

Fixpoint drop_while (p : Z -> bool) (t : text) : text :=
  match t with c :: t' => if p c then drop_while p t' else t | [] => [] end.
Fixpoint take_while (p : Z -> bool) (t : text) : text :=
  match t with c :: t' => if p c then c :: take_while p t' else [] | [] => [] end.
Definition strip (t : text) : text := rev (drop_while space (rev (drop_while space t))).
(** What a look behind or ahead sees: [None] past an end. *)
Definition sees (p : Z -> bool) (c : option Z) : bool := match c with Some c => p c | None => false end.

(** [AT_NAME] at the start of a text, after the character [prev]. *)
Definition at_name (prev : option Z) (t : text) : bool :=
  match t with
  | c :: t' => (c =? AT) && negb (sees (fun d => word d || (d =? DOT)) prev)
               && sees (fun d => word d || (d =? DOT) || (d =? DASH)) (head t')
  | [] => false
  end.
(** [AT_NAME.search] and [AT_NAME.sub]. *)
Fixpoint names_someone (prev : option Z) (t : text) : bool :=
  match t with c :: t' => at_name prev t || names_someone (Some c) t' | [] => false end.
Fixpoint break_names (prev : option Z) (t : text) : text :=
  match t with
  | c :: t' => if at_name prev t then AT :: ZWSP :: break_names (Some c) t' else c :: break_names (Some c) t'
  | [] => []
  end.
Definition clean (t : text) : text := take MAX_POST_CHARS (break_names None (strip t)).

(** Whether a text starts with another, letters in either case. *)
Fixpoint starts (name t : text) : bool :=
  match name, t with
  | [], _ => true
  | a :: name', c :: t' => (fold a =? fold c) && starts name' t'
  | _, [] => false
  end.
(** [Agent.mention] of the bot's name: an @ and the name, apart from other names. *)
Definition mention_at (name : text) (prev : option Z) (t : text) : bool :=
  match t with
  | c :: t' => (c =? AT) && negb (sees (fun d => word d || (d =? DOT) || (d =? DASH)) prev)
               && starts name t' && negb (sees (fun d => word d || (d =? DASH)) (head (drop (List.length name) t')))
  | [] => false
  end.
Fixpoint mentioned (name : text) (prev : option Z) (t : text) : bool :=
  match t with c :: t' => mention_at name prev t || mentioned name (Some c) t' | [] => false end.
(** [mention.sub("", ...)], [skip] characters into a mention. *)
Fixpoint unmention (name : text) (prev : option Z) (skip : nat) (t : text) : text :=
  match t with
  | [] => []
  | c :: t' =>
      match skip with
      | S k => unmention name (Some c) k t'
      | O => if mention_at name prev t then unmention name (Some c) (List.length name) t'
             else c :: unmention name (Some c) O t'
      end
  end.

(** [CODE_MESSAGE.match]: the end may be just before a last newline. *)
Definition code_message (t : text) : bool :=
  let code := take CODE_LENGTH t in
  Nat.eqb (List.length code) CODE_LENGTH && forallb (fun c => bool_decide (c ∈ CODE_LETTERS)) code
  && match drop CODE_LENGTH t with [] => true | [c] => c =? NEWLINE | _ => false end.

(** [INTENT.match]: the intents are tried in turn, each at the first word character, as
    every letter is one. *)
Definition intent_at (t : text) : option text :=
  match List.find (fun w => starts (txt w) t && negb (sees word (head (drop (String.length w) t)))) INTENTS with
  | Some w => Some (lower (take (String.length w) t))
  | None => None
  end.
Definition intent_of (t : text) : text := default (txt "general") (intent_at (drop_while (fun c => negb (word c)) t)).

(** [DOC_TITLE] at the start of a line: [\s+] takes all the space it can, over lines,
    and gives back what leaves a character of some line for [(.+)]. *)
Definition not_newline (c : Z) : bool := negb (c =? NEWLINE).
Definition title_at (t : text) : option text :=
  match t with
  | c :: t' =>
      if c =? HASH then
        let run := List.length (take_while space t') in
        let tries := map (fun k => take_while not_newline (drop k t')) (rev (seq 1 run)) in
        List.find (fun g => negb (Nat.eqb (List.length g) O)) tries
      else None
  | [] => None
  end.
Fixpoint title_from (line_start : bool) (t : text) : option text :=
  match t with
  | [] => None
  | c :: t' =>
      match (if line_start then title_at t else None) with
      | Some g => Some g
      | None => title_from (c =? NEWLINE) t'
      end
  end.
Definition doc_title : text -> option text := title_from true.
End Text.

Example clean_ex : clean ascii_only (txt " hi @all, mail a@b or @@x @ y ") =
  txt "hi @" ++ [ZWSP] ++ txt "all, mail a@b or @@" ++ [ZWSP] ++ txt "x @ y".
Proof. reflexivity. Qed.
Example unmention_ex : unmention ascii_only (txt "af-bot") None 0 (txt "@AF-Bot: do @af-bots @af-bot") = txt ": do @af-bots ".
Proof. reflexivity. Qed.
Example intent_ex : map (fun s => intent_of ascii_only (txt s)) ["**Personal**."; "linking"; "UNLINK"; ""] =
  map txt ["personal"; "general"; "unlink"; "general"].
Proof. reflexivity. Qed.
Example doc_title_ex : doc_title ascii_only (txt ("intro" ++ String "010" ("#  A page" ++ String "010" "x"))%string) = Some (txt "A page").
Proof. reflexivity. Qed.

(** ** What may be posted *)
Section Clean.
Context (uni : Unicode) (zwsp_no_word : hi_word uni ZWSP = false).
Local Abbreviation word := (word uni).

Lemma zwsp_word : word ZWSP = false.
Proof. exact zwsp_no_word. Qed.
(** A break does not hide or show a name to what follows it. *)
Lemma at_name_prev prev prev' t :
  sees (fun d => word d || (d =? DOT)) prev = sees (fun d => word d || (d =? DOT)) prev' ->
  at_name uni prev t = at_name uni prev' t.
Proof. destruct t; [done|]. cbn. intros ->. done. Qed.
Lemma at_name_head prev c t t' : head t = head t' -> at_name uni prev (c :: t) = at_name uni prev (c :: t').
Proof. cbn. intros ->. done. Qed.
Lemma break_names_head prev t : head (break_names uni prev t) = head t.
Proof.
  destruct t as [|c t]; [done|]. cbn -[at_name]. destruct (at_name uni prev (c :: t)) eqn:E; [|done].
  cbn in E. destruct (c =? AT) eqn:Ec; [|done]. apply Z.eqb_eq in Ec. by subst.
Qed.
Lemma names_prev prev prev' t :
  sees (fun d => word d || (d =? DOT)) prev = sees (fun d => word d || (d =? DOT)) prev' ->
  names_someone uni prev t = names_someone uni prev' t.
Proof. intros H. destruct t; [done|]. cbn -[at_name]. by rewrite (at_name_prev prev prev' _ H). Qed.
Lemma break_names_none prev t : names_someone uni prev (break_names uni prev t) = false.
Proof.
  revert prev. induction t as [|c t IH]; intros prev; [done|]. cbn -[at_name].
  destruct (at_name uni prev (c :: t)) eqn:E.
  - assert (c = AT) as -> by (cbn in E; destruct (c =? AT) eqn:Ec; [by apply Z.eqb_eq|done]).
    cbn -[MmText.word]. rewrite zwsp_word. cbn -[MmText.word]. rewrite andb_false_r. cbn -[MmText.word].
    rewrite <- (names_prev (Some AT)); [apply IH|]. cbn -[MmText.word]. by rewrite zwsp_word.
  - cbn -[at_name]. rewrite (at_name_head prev c _ t) by apply break_names_head. rewrite E. apply IH.
Qed.
Lemma names_take n prev t : names_someone uni prev t = false -> names_someone uni prev (take n t) = false.
Proof.
  revert n prev. induction t as [|c t IH]; intros [|n] prev; [done..|]. cbn -[at_name].
  intros [H1 H2]%orb_false_elim. rewrite IH by done. rewrite orb_false_r.
  destruct n as [|n]; [|by destruct t]. cbn. by rewrite andb_false_r.
Qed.
(** No post written by the model pings anyone, and every one is within a post's
    length: in what [clean] returns, whatever the text was, the pattern of a name after
    an @ is nowhere to be found. *)
Theorem clean_pings_nobody t :
  names_someone uni None (clean uni t) = false /\ (List.length (clean uni t) <= MAX_POST_CHARS)%nat.
Proof. split; [apply names_take, break_names_none|apply firstn_le_length]. Qed.
End Clean.

Lemma clean_pings_nobody_witness :
  names_someone ascii_only None (clean ascii_only (txt "@channel look")) = false.
Proof. apply (clean_pings_nobody ascii_only eq_refl (txt "@channel look")). Defined.
