(* ===== verification/MmLink.v ===== *)
(** The Mattermost agent's accounts ([apps/mattermost-agent/agent.py]): the requests that
    the agent makes, OAuth, which keeps the service account's tokens, and Hub and
    Linking, which tie a Mattermost user to a Hub account. *)
From S2P Require Import Prelude PyJson MmText.
Open Scope Z_scope.

(** ** Requests and answers *)

(** [Unauthorized]; an error of httpx, with the status of an HTTP answer; a [KeyError] or
    [IndexError]; a wait cut short; anything else. *)
Inductive Exc := Unauthorized | HttpError (status : option Z) | Lookup | Cancelled | Failure.
(** A post, a channel and a tool of the MCP server, as far as the agent reads them;
    [p_from_bot] is [str(props.get("from_bot", ""))]. *)
Record Post := mkPost {
  p_id : string; channel_id : string; user_id : string; root_id : string; p_message : text;
  create_at : Z; update_at : Z; delete_at : Z; p_type : string; p_from_bot : text }.
Record Channel := mkChannel { ch_id : string; ch_type : string; display_name : string; team_id : string }.
Record Tool := mkTool { t_name : string; t_description : string; t_schema : json }.
(** A message to the model; [Called] repeats its reply's content and calls. *)
Inductive Msg :=
| Said (role : string) (content : text) | Called (content calls : json) | Result (call_id : json) (content : text).
Inductive Req :=
| Http (method path : string) (fields : list (string * string))  (** of Mattermost, without its tokens *)
| HttpAs (token path : string)                    (** a GET of Mattermost with a token *)
| HubExchange (code : string) | HubMint (name token : string)
| HubGet (token path : string) | HubDelete (token path : string)
| Random (bytes : Z) | NewCode
| SaveTokens | RemoveTokens | SaveLinks
| Now | Monotonic
| GetMe                                           (** of Mattermost, as the service account *)
| GetTeamChannel (team channel : string) | GetTeam (team : string) | GetChannels (user team : string)
| GetPosts (channel : string) (since : option Z) (count : Z) | GetThread (id : string)
| SendPost (channel root : string) (message : text)
| Complete (messages : list Msg) (tools : list json) (session : string)
| McpOpen (token : option string) | McpTools | McpCall (name : string) (arguments : json)
| DocPages | DocText (page : string) | PromptText.
(** An HTTP answer is its status and its JSON; the requests that the agent makes with
    [raise_for_status] answer with what they read of it. *)
Definition Ans (r : Req) : Type :=
  match r with
  | Http _ _ _ | HttpAs _ _ | HubExchange _ | HubMint _ _ | HubGet _ _ => res Exc (Z * json)
  | HubDelete _ _ => res Exc Z
  | Random _ | NewCode => string
  | SaveTokens | RemoveTokens | SaveLinks => unit
  | Now | Monotonic => Q
  | GetMe => res Exc (string * text)
  | GetTeamChannel _ _ => res Exc (Z * Channel)
  | GetTeam _ => res Exc (Z * string)
  | GetChannels _ _ => res Exc (list Channel)
  | GetPosts _ _ _ | GetThread _ => res Exc (list Post)
  | SendPost _ _ _ => res Exc unit
  | Complete _ _ _ => res Exc (Z * json)
  | McpOpen _ => res Exc unit
  | McpTools => res Exc (list Tool)
  | McpCall _ _ => res Exc (list text)
  | DocPages => res Exc (list string)
  | DocText _ | PromptText => res Exc text
  end.
Definition Ev : Type := sigT Ans.

(** ** State *)

Record Tokens := mkTokens { access_token : string; refresh_token : string; expires_at : Q }.
Record OAuth := mkOAuth { o_tokens : option Tokens; logins : list (string * Q); ready : bool }.
#[export] Instance eta_OAuth : Eta OAuth := {| eta_of r := mkOAuth (o_tokens r) (logins r) (ready r) |}.
(** A Mattermost user's link, a link that waits for its Hub login, and a code that waits
    to be sent back. *)
Record Link := mkLink { l_token : string; l_token_id : string; l_hub_user : string; l_expires : Q }.
Record Pending := mkPending { p_user : string; p_expires : Q }.
Record Code := mkCode { c_code : string; c_oauth : string; c_hub_user : string; c_expires : Q; c_attempts : Z }.
#[export] Instance eta_Code : Eta Code := {| eta_of r :=
  mkCode (c_code r) (c_oauth r) (c_hub_user r) (c_expires r) (c_attempts r) |}.
Record Linking := mkLinking {
  linked : list (string * Link); pending : list (string * Pending); codes : list (string * Code) }.
#[export] Instance eta_Linking : Eta Linking := {| eta_of r := mkLinking (linked r) (pending r) (codes r) |}.

Definition LOGIN_SECONDS : Q := 600.
Definition MAX_LOGINS : nat := 32.
Definition EXPIRY_MARGIN_SECONDS : Q := 300.
Definition LINK_SECONDS : Q := 86400.
Definition TOKEN_SECONDS : Q := 2592000.
Definition TOKEN_NOTE : string := "PurdueAF Agent on Mattermost".
Definition CODE_SECONDS : Q := 600.
Definition CODE_LETTERS : string := "ABCDEFGHJKMNPQRSTUVWXYZ23456789".
Definition CODE_LENGTH : nat := 8.
Definition CODE_ATTEMPTS : Z := 3.

(** ** OAuth *)
Section Auth.
Context (svc : service Req Ans) (client_id client_secret username redirect : string).
Definition AM (A : Type) : Type := M Ev OAuth Exc A.

Definition number (j : json) : Q := match j with JInt n => qz n | JFloat q => q | _ => 0 end.
Definition success (status : Z) : bool := (200 <=? status) && (status <? 300).
Definition store (tokens : json) : AM unit :=
  if negb (jhas "access_token" tokens && jhas "refresh_token" tokens) then raise Lookup else
  now ← (mcall svc Now : AM Q);
  if negb (jhas "expires_in" tokens) then raise Lookup else
  mmod (fun o => o <| o_tokens := Some (mkTokens (jstr (jget "access_token" tokens)) (jstr (jget "refresh_token" tokens))
                                          (now + number (jget "expires_in" tokens))%Q) |>) ≫= fun _ =>
  mcall svc SaveTokens.
Definition forget_tokens : AM unit :=
  mmod (fun o => o <| o_tokens := None |>) ≫= fun _ => (mcall svc RemoveTokens : AM unit) ≫= fun _ =>
  mmod (fun o => o <| ready := false |>).

(** [while len(logins) >= MAX_LOGINS: del logins[next(iter(logins))]] *)
Definition newest (limit : nat) (l : list (string * Q)) : list (string * Q) := drop (S (List.length l) - limit) l.
Definition live_logins (now : Q) (l : list (string * Q)) : list (string * Q) :=
  List.filter (fun kv => (now - kv.2)%Q <?q LOGIN_SECONDS) l.
(** The state of the login that the URL starts. *)
Definition authorize_url : AM string :=
  now ← (mcall svc Monotonic : AM Q);
  mmod (fun o => o <| logins := newest MAX_LOGINS (live_logins now (logins o)) |>) ≫= fun _ =>
  state ← (mcall svc (Random 24) : AM string);
  mmod (fun o => o <| logins := dset state now (logins o) |>) ≫= fun _ => mret state.

Definition http (method path : string) (fields : list (string * string)) : AM (Z * json) :=
  a ← (mcall svc (Http method path fields) : AM (res Exc (Z * json))); mlift a.
Definition grant (fields : list (string * string)) : AM (Z * json) :=
  http "POST" "/oauth/access_token"
    (fields ++ [("client_id", client_id); ("client_secret", client_secret)]%string).
Definition callback (state code : string) : AM bool :=
  o ← mget;
  mput (o <| logins := ddel state (logins o) |>) ≫= fun _ =>
  match dget state (logins o) with
  | None => mret false
  | Some at_ =>
      now ← (mcall svc Monotonic : AM Q);
      if LOGIN_SECONDS <=?q (now - at_)%Q then mret false else
      '(status, tokens) ← grant [("grant_type", "authorization_code"); ("code", code); ("redirect_uri", redirect)]%string;
      if negb (success status) then mret false
      else if negb (jhas "access_token" tokens) then raise Lookup
      else
        a ← (mcall svc (HttpAs (jstr (jget "access_token" tokens)) "/api/v4/users/me") : AM (res Exc (Z * json)));
        match a with
        | Err e => raise e
        | Ok (status, me) =>
            if negb (success status) then raise (HttpError (Some status))
            else if negb (jhas "username" me) then raise Lookup
            else if negb (jeq_str (jget "username" me) username) then mret false
            else store tokens ≫= fun _ => mmod (fun o => o <| ready := true |>) ≫= fun _ => mret true
        end
  end.
Definition refresh : AM unit :=
  o ← mget;
  match o_tokens o with
  | None => raise Unauthorized
  | Some t =>
      '(status, tokens) ← grant [("grant_type", "refresh_token"); ("refresh_token", refresh_token t)]%string;
      if bool_decide (status ∈ [400; 401; 403; 404]) then raise Unauthorized
      else if negb (success status) then raise (HttpError (Some status))
      else store tokens
  end.
(** A live token, other than the one that was [rejected]. *)
Definition oauth_token (rejected : string) : AM string :=
  o ← mget;
  now ← (mcall svc Now : AM Q);
  let usable := match o_tokens o with
    | Some t => negb (String.eqb (access_token t) "") && negb (String.eqb (access_token t) rejected)
                && (now <?q (expires_at t - EXPIRY_MARGIN_SECONDS)%Q)
    | None => false
    end in
  (if usable then mret tt else refresh) ≫= fun _ =>
  o ← mget;
  match o_tokens o with Some t => mret (access_token t) | None => raise Failure end.
(** A request with the tokens: tried again once with a new one after a 401. *)
Definition async_auth_flow (path : string) : AM (Z * json) :=
  token ← oauth_token "";
  response ← (mcall svc (HttpAs token path) : AM (res Exc (Z * json)));
  response ← mlift response;
  if response.1 =? 401
  then token ← oauth_token token; again ← (mcall svc (HttpAs token path) : AM (res Exc (Z * json))); mlift again
  else mret response.
End Auth.

(** ** Hub and Linking *)
Section Link.
Context (svc : service Req Ans) (public_url : string).
Definition LM (A : Type) : Type := M Ev Linking Exc A.
Definition PREFIX : string := "/services/mattermost-agent".

Definition answered {A} (call : LM (res Exc A)) : LM A := call ≫= mlift.
(** [raise_for_status] and [response.json()]. *)
Definition checked (answer : Z * json) : LM json :=
  if success answer.1 then mret answer.2 else raise (HttpError (Some answer.1)).
Definition field (key : string) (j : json) : LM json := if jhas key j then mret (jget key j) else raise Lookup.
Definition exchange (code : string) : LM string :=
  body ← answered (mcall svc (HubExchange code)) ≫= checked; token ← field "access_token" body; mret (jstr token).
(** [None]: the Hub no longer takes the token. *)
Definition owner (token : string) : LM (option string) :=
  response ← answered (mcall svc (HubGet token "/user"));
  if bool_decide (response.1 ∈ [401; 403]) then mret None else
  body ← checked response; name ← field "name" body; mret (Some (jstr name)).
Definition mint (name oauth : string) : LM Link :=
  body ← answered (mcall svc (HubMint name oauth)) ≫= checked;
  token ← field "token" body; id ← field "id" body;
  now ← (mcall svc Now : LM Q);
  mret (mkLink (jstr token) (jstr id) name (now + TOKEN_SECONDS)%Q).
Definition tokens_path (name : string) : string := ("/users/" ++ name ++ "/tokens")%string.
Definition retire_token (name oauth keep : string) (token : json) : LM unit :=
  note ← field "note" token;
  if negb (jeq_str note TOKEN_NOTE) then mret tt else
  id ← field "id" token;
  if jeq_str id keep then mret tt else
  status ← answered (mcall svc (HubDelete oauth (tokens_path name ++ "/" ++ jstr id)%string));
  if success status then mret tt else raise (HttpError (Some status)).
Definition retire (name oauth keep : string) : LM unit :=
  body ← answered (mcall svc (HubGet oauth (tokens_path name))) ≫= checked;
  tokens ← field "api_tokens" body;
  mfor (jlist tokens) (retire_token name oauth keep).

Definition save : LM unit := mcall svc SaveLinks.
Definition forget (user : string) : LM unit :=
  l ← mget;
  mput (l <| linked := ddel user (linked l) |>) ≫= fun _ =>
  if dhas user (linked l) then save else mret tt.
Definition link_token (user : string) : LM (option string) :=
  l ← mget;
  match dget user (linked l) with
  | None => mret None
  | Some entry =>
      now ← (mcall svc Now : LM Q);
      if now <?q l_expires entry then mret (Some (l_token entry)) else forget user ≫= fun _ => mret None
  end.
Definition until (user : string) : LM (option Q) :=
  token ← link_token user;
  match token with
  | None => mret None
  | Some _ => l ← mget; mret (option_map l_expires (dget user (linked l)))
  end.
Definition count_linked : LM Z :=
  now ← (mcall svc Now : LM Q); l ← mget;
  mret (Z.of_nat (List.length (List.filter (fun kv : string * Link => now <?q l_expires kv.2) (linked l)))).
(** The state of a new link: the times are those of the same moment. *)
Definition others_links (user : string) (now : Q) (l : list (string * Pending)) : list (string * Pending) :=
  List.filter (fun kv => negb (String.eqb (p_user kv.2) user) && (now <?q p_expires kv.2)) l.
Definition add_link (user state : string) (now : Q) (l : Linking) : Linking :=
  l <| pending := dset state (mkPending user (now + LINK_SECONDS)%Q) (pending l) |>.
Definition drop_links (user : string) (now : Q) (l : Linking) : Linking :=
  l <| pending := others_links user now (pending l) |>.
Definition link_url (user : string) : LM string :=
  now ← (mcall svc Now : LM Q);
  mmod (drop_links user now) ≫= fun _ =>
  state ← (mcall svc (Random 32) : LM string);
  now ← (mcall svc Now : LM Q);
  mmod (add_link user state now) ≫= fun _ =>
  save ≫= fun _ => mret (public_url ++ PREFIX ++ "/link?state=" ++ state)%string.
Definition valid_at (state : string) (now : Q) (l : Linking) : bool :=
  match dget state (pending l) with Some p => now <?q p_expires p | None => false end.
Definition valid (state : string) : LM bool :=
  l ← mget;
  match dget state (pending l) with
  | None => mret false
  | Some p => now ← (mcall svc Now : LM Q); mret (now <?q p_expires p)
  end.

(** [login] up to its first await: the user whose link is taken up; and after its last. *)
Definition login_take (state : string) (l : Linking) : option (string * Linking) :=
  match dget state (pending l) with
  | Some p => Some (p_user p, l <| pending := ddel state (pending l) |>)
  | None => None
  end.
Definition login_keep (user code oauth hub_user : string) (now : Q) (l : Linking) : Linking :=
  l <| codes := dset user (mkCode code oauth hub_user (now + CODE_SECONDS)%Q 0) (codes l) |>.
Definition login (state code : string) : LM (option string) :=
  ok ← valid state;
  if negb ok then mret None else
  l ← mget;
  match login_take state l with
  | None => raise Lookup
  | Some (user, l') =>
      mput l' ≫= fun _ => save ≫= fun _ =>
      oauth ← exchange code;
      hub_user ← owner oauth;
      match hub_user with
      | None => mret None
      | Some hub_user =>
          confirmation ← (mcall svc NewCode : LM string);
          now ← (mcall svc Now : LM Q);
          mmod (login_keep user confirmation oauth hub_user now) ≫= fun _ => mret (Some confirmation)
      end
  end.

(** [confirm] up to its first await: the code is dropped, a wrong guess is counted, or
    the code is taken; and after its last. *)
Definition confirm_check (user code : string) (now : Q) (l : Linking) : option Code * Linking :=
  match dget user (codes l) with
  | None => (None, l)
  | Some entry =>
      if c_expires entry <=?q now then (None, l <| codes := ddel user (codes l) |>)
      else if negb (String.eqb (c_code entry) code) then
        let entry := entry <| c_attempts := c_attempts entry + 1 |> in
        (None, if CODE_ATTEMPTS <=? c_attempts entry then l <| codes := ddel user (codes l) |>
               else l <| codes := dset user entry (codes l) |>)
      else (Some entry, l <| codes := ddel user (codes l) |>)
  end.
Definition confirm_keep (user hub_user : string) (minted : Link) (l : Linking) : Linking :=
  l <| linked := dset user minted (List.filter (fun kv => negb (String.eqb (l_hub_user kv.2) hub_user)) (linked l)) |>.
Definition confirm (user code : string) : LM (option string) :=
  l ← mget;
  match dget user (codes l) with
  | None => mret None
  | Some _ =>
      now ← (mcall svc Now : LM Q);
      let '(taken, l') := confirm_check user code now l in
      mput l' ≫= fun _ =>
      match taken with
      | None => mret None
      | Some entry =>
          let hub_user := c_hub_user entry in
          minted ← mint hub_user (c_oauth entry);
          retire hub_user (c_oauth entry) (l_token_id minted) ≫= fun _ =>
          mmod (confirm_keep user hub_user minted) ≫= fun _ =>
          save ≫= fun _ => mret (Some hub_user)
      end
  end.
End Link.

(** ** Whose tokens are kept *)

(** Only the service account's tokens are kept, and a login's state opens one login.
    [callback] forgets the state that it is called with, so no second call takes it; it
    takes none that was not started within [LOGIN_SECONDS] before; where it answers
    that it kept the tokens, Mattermost has just answered, for these very tokens, the
    service account's name; and in every other case, errors among them, the tokens
    that were kept stay as they were. *)
Theorem callback_keeps_own svc client_id client_secret username redirect state code o h :
  wp (callback svc client_id client_secret username redirect state code) o h (fun r o' h' =>
    logins o' = ddel state (logins o) /\
    match r with
    | Ok true => exists at_ t status me,
        dget state (logins o) = Some at_ /\ (svc h Monotonic - at_ < LOGIN_SECONDS)%Q /\
        o_tokens o' = Some t /\ ready o' = true /\
        existT (HttpAs (access_token t) "/api/v4/users/me") (Ok (status, me)) ∈ h' /\
        jget "username" me = JStr username
    | _ => o_tokens o' = o_tokens o /\ ready o' = ready o
    end).
Proof.
  unfold callback. apply wp_bind, wp_get. cbv beta iota. apply wp_bind, wp_put.
  set (o1 := o <| logins := ddel state (logins o) |>).
  destruct (dget state (logins o)) as [at_|] eqn:E; [|by apply wp_ret]. apply wp_bind. wp_step.
  destruct (LOGIN_SECONDS <=?q _) eqn:Et; [by apply wp_ret|]. breflect.
  apply wp_bind. unfold grant, http. apply wp_bind. wp_step. destruct (svc _ (Http _ _ _)) as [[status tokens]|]; [|done].
  wp_step. destruct (negb (success status)); [by apply wp_ret|].
  destruct (negb (jhas "access_token" tokens)); [done|]. apply wp_bind. wp_step.
  match goal with |- context [svc ?h2 (HttpAs ?t "/api/v4/users/me")] => set (h1 := h2); set (tok := t) end.
  destruct (svc h1 (HttpAs tok _)) as [[st me]|] eqn:Ea; [|done]. destruct (negb (success st)); [done|].
  destruct (negb (jhas "username" me)); [done|]. destruct (jeq_str (jget "username" me) username) eqn:Eu; cbn [negb]; [|by apply wp_ret].
  apply wp_bind. unfold store. destruct (negb (_ && _)); [done|]. apply wp_bind. wp_step.
  destruct (negb (jhas "expires_in" tokens)); [done|]. apply wp_bind, wp_mod. wp_step. apply wp_bind, wp_mod, wp_ret.
  split; [done|]. exists at_. eexists _, st, me. split; [done|]. split; [done|]. split; [reflexivity|]. split; [done|].
  split; [|destruct (jget "username" me); try done; apply String.eqb_eq in Eu; by subst].
  rewrite !elem_of_app. do 2 left. right. apply list_elem_of_singleton. reflexivity.
Qed.
