(* ===== verification/MmLinkSafe.v ===== *)
(** Whose link is whose ([apps/mattermost-agent/agent.py], class Linking): the steps
    that concurrent calls of its operations take, the invariant of every state that they
    reach, and that a call's run is such steps. *)
From S2P Require Import Prelude PyJson MmLink.
Open Scope Z_scope.

(** ** Steps *)

(** The links kept, and the calls of [login] and [confirm] that wait for the Hub: of
    whose link and which state, or of whose code. *)
Record Calls := mkCalls { held : Linking; logging_in : list (string * string); confirming : list (string * Code) }.
Inductive Act :=
| Asked (user state : string)                      (** the user asked for a link *)
| TakenUp (user state : string)                    (** its login came back *)
| LoggedIn (user state code hub_user : string)     (** the login was of that Hub user, who was shown the code *)
| Sent (user code : string)                        (** the user sent a code *)
| LinkedTo (user hub_user : string)
| Gone.                                            (** a link expired or was given up, or a call failed *)
(** What runs without a wait is one step. *)
Inductive lstep : Calls -> Act -> Calls -> Prop :=
| step_link user state now now' l lg cf :
    lstep (mkCalls l lg cf) (Asked user state) (mkCalls (add_link user state now' (drop_links user now l)) lg cf)
| step_take user state now l l' lg cf : valid_at state now l = true -> login_take state l = Some (user, l') ->
    lstep (mkCalls l lg cf) (TakenUp user state) (mkCalls l' ((user, state) :: lg) cf)
| step_login user state code oauth hub_user now l lg lg' cf : lg ≡ₚ (user, state) :: lg' ->
    lstep (mkCalls l lg cf) (LoggedIn user state code hub_user)
      (mkCalls (login_keep user code oauth hub_user now l) lg' cf)
| step_login_fails user state l lg lg' cf : lg ≡ₚ (user, state) :: lg' ->
    lstep (mkCalls l lg cf) Gone (mkCalls l lg' cf)
| step_sent user code now l taken l' lg cf : confirm_check user code now l = (taken, l') ->
    lstep (mkCalls l lg cf) (Sent user code)
      (mkCalls l' lg (match taken with Some e => (user, e) :: cf | None => cf end))
| step_linked user e minted l lg cf cf' : cf ≡ₚ (user, e) :: cf' -> l_hub_user minted = c_hub_user e ->
    lstep (mkCalls l lg cf) (LinkedTo user (c_hub_user e)) (mkCalls (confirm_keep user (c_hub_user e) minted l) lg cf')
| step_confirm_fails user e l lg cf cf' : cf ≡ₚ (user, e) :: cf' ->
    lstep (mkCalls l lg cf) Gone (mkCalls l lg cf')
| step_forget user l lg cf :
    lstep (mkCalls l lg cf) Gone (mkCalls (l <| linked := ddel user (linked l) |>) lg cf).
Inductive lpath : Calls -> list Act -> Calls -> Prop :=
| path_nil c : lpath c [] c
| path_snoc c tr c' a c'' : lpath c tr c' -> lstep c' a c'' -> lpath c (tr ++ [a]) c''.

(** ** What every state keeps *)

Definition logged_in (tr : list Act) (user code hub_user : string) : Prop :=
  exists state, Asked user state ∈ tr /\ LoggedIn user state code hub_user ∈ tr.
Record calls_ok (tr : list Act) (c : Calls) : Prop := {
  ok_pending : forall state p, (state, p) ∈ pending (held c) -> Asked (p_user p) state ∈ tr;
  ok_logging : forall user state, (user, state) ∈ logging_in c -> Asked user state ∈ tr;
  ok_codes : forall user e, (user, e) ∈ codes (held c) ->
    logged_in tr user (c_code e) (c_hub_user e) /\ 0 <= c_attempts e < CODE_ATTEMPTS;
  ok_confirming : forall user e, (user, e) ∈ confirming c ->
    logged_in tr user (c_code e) (c_hub_user e) /\ Sent user (c_code e) ∈ tr;
  ok_linked : forall user l, (user, l) ∈ linked (held c) ->
    exists code, logged_in tr user code (l_hub_user l) /\ Sent user code ∈ tr;
  ok_users : NoDup (linked (held c)).*1;
  ok_hub_users : NoDup (map (fun kv => l_hub_user kv.2) (linked (held c))) }.

Lemma elem_more (a b : Act) tr : a ∈ tr -> a ∈ tr ++ [b].
Proof. rewrite elem_of_app. by left. Qed.
Lemma elem_last (a : Act) tr : a ∈ tr ++ [a].
Proof. rewrite elem_of_app. right. by left. Qed.
Lemma logged_more tr a user code hub_user : logged_in tr user code hub_user -> logged_in (tr ++ [a]) user code hub_user.
Proof. intros (s & H1 & H2). exists s. split; by apply elem_more. Qed.
#[export] Hint Resolve elem_more elem_last logged_more : linking.

Lemma dset_elem_or {V} (k : string) (v : V) k' v' d : (k', v') ∈ dset k v d -> (k', v') = (k, v) \/ (k', v') ∈ d.
Proof.
  induction d as [|[k0 v0] d IH]; cbn; [intros Heq%list_elem_of_singleton; by left|].
  case_decide; intros [Heq|Hin]%elem_of_cons; [by left|right; by right|right; rewrite Heq; by left|].
  destruct (IH Hin); [by left|right; by right].
Qed.
Lemma filter_sub {A} (p : A -> bool) x l : x ∈ List.filter p l -> x ∈ l /\ p x = true.
Proof. rewrite !list_elem_of_In. apply filter_In. Qed.
Lemma nodup_filter {A B} (f : A -> B) p l : NoDup (map f l) -> NoDup (map f (List.filter p l)).
Proof.
  induction l as [|x l IH]; cbn; [done|]. intros [Hni Hnd]%NoDup_cons. destruct (p x); cbn; [|by apply IH].
  apply NoDup_cons. split; [|by apply IH]. intros Hin. apply Hni. apply list_elem_of_fmap in Hin as (y & E & Hy).
  rewrite E. apply list_elem_of_fmap. exists y. split; [done|]. by apply filter_sub in Hy as [Hy _].
Qed.

Lemma hub_dset user l (d : list (string * Link)) : NoDup (map (fun kv => l_hub_user kv.2) d) ->
  (forall kv, kv ∈ d -> l_hub_user kv.2 <> l_hub_user l) -> NoDup (map (fun kv => l_hub_user kv.2) (dset user l d)).
Proof.
  induction d as [|[k v] d IH]; cbn [dset map]; intros Hnd Hne; [by apply NoDup_singleton|].
  apply NoDup_cons in Hnd as [Hni Hnd]. case_decide as E; cbn [map].
  - apply NoDup_cons. split; [|done]. intros Hin. apply list_elem_of_fmap in Hin as (kv & Hkv & Hin).
    apply (Hne kv); [by right|done].
  - apply NoDup_cons. split; [|apply IH; [done|intros kv Hkv; apply Hne; by right]].
    intros Hin. apply list_elem_of_fmap in Hin as ([k' v'] & Hkv & Hin). apply dset_elem_or in Hin as [Hin|Hin].
    + simplify_eq. cbn in Hkv. apply (Hne (k, v)); [by left|done].
    + apply Hni. apply list_elem_of_fmap. by exists (k', v').
Qed.
(** What a code that is sent does to the codes kept. *)
Lemma confirm_check_codes user code now l taken l' (P : string -> Code -> Prop) :
  confirm_check user code now l = (taken, l') ->
  (forall u e, (u, e) ∈ codes l -> P u e /\ 0 <= c_attempts e < CODE_ATTEMPTS) ->
  (forall e, P user e -> P user (e <| c_attempts := c_attempts e + 1 |>)) ->
  linked l' = linked l /\ pending l' = pending l /\
  (forall u e, (u, e) ∈ codes l' -> P u e /\ 0 <= c_attempts e < CODE_ATTEMPTS) /\
  forall e, taken = Some e -> P user e /\ c_code e = code.
Proof.
  unfold confirm_check. intros H Hc Hm. destruct (dget user (codes l)) as [e|] eqn:E; [|by injection H as <- <-].
  apply dget_elem in E. destruct (Hc _ _ E) as [He Ha].
  assert (Hdel : forall u e', (u, e') ∈ ddel user (codes l) -> P u e' /\ 0 <= c_attempts e' < CODE_ATTEMPTS)
    by (intros u e' H'; apply ddel_elem in H' as [_ H']; by apply Hc).
  destruct (c_expires e <=?q now); [by injection H as <- <-|].
  destruct (String.eqb_spec (c_code e) code) as [Ec|]; cbn [negb] in H.
  - injection H as <- <-. split; [done|]. split; [done|]. split; [exact Hdel|]. by intros e' [= <-].
  - cbv zeta in H. set (e1 := e <| c_attempts := c_attempts e + 1 |>) in *.
    destruct (Z.leb_spec CODE_ATTEMPTS (c_attempts e1)); injection H as <- <-; [by split|].
    split; [done|]. split; [done|]. split; [|done]. intros u e' H'. cbn in H'.
    apply dset_elem_or in H' as [H'|H']; [|by apply Hc]. injection H' as -> ->. split; [by apply Hm|].
    assert (E1 : c_attempts e1 = c_attempts e + 1) by done. cbn [c_attempts]. rewrite E1 in *. lia.
Qed.
Lemma hub_ddel user (d : list (string * Link)) : NoDup (map (fun kv => l_hub_user kv.2) d) ->
  NoDup (map (fun kv => l_hub_user kv.2) (ddel user d)).
Proof.
  unfold ddel. induction d as [|kv d IH]; [done|]. cbn [map]. intros [Hni Hnd]%NoDup_cons.
  rewrite filter_cons. case_decide; cbn; [|by apply IH]. apply NoDup_cons. split; [|by apply IH]. intros Hin. apply Hni.
  apply list_elem_of_fmap in Hin as (y & Ey & Hy). apply list_elem_of_fmap. exists y. split; [done|].
  by apply list_elem_of_filter in Hy as [_ Hy].
Qed.
Lemma lstep_ok tr c a c' : calls_ok tr c -> lstep c a c' -> calls_ok (tr ++ [a]) c'.
Proof.
  intros [Hp Hl Hc Hf Hk Hu Hh] Hs.
  assert (Hp' : forall state p, (state, p) ∈ pending (held c) -> Asked (p_user p) state ∈ tr ++ [a]) by eauto with linking.
  assert (Hl' : forall user state, (user, state) ∈ logging_in c -> Asked user state ∈ tr ++ [a]) by eauto with linking.
  assert (Hc' : forall user e, (user, e) ∈ codes (held c) ->
    logged_in (tr ++ [a]) user (c_code e) (c_hub_user e) /\ 0 <= c_attempts e < CODE_ATTEMPTS)
    by (intros user e He; destruct (Hc user e He); eauto with linking).
  assert (Hf' : forall user e, (user, e) ∈ confirming c ->
    logged_in (tr ++ [a]) user (c_code e) (c_hub_user e) /\ Sent user (c_code e) ∈ tr ++ [a])
    by (intros user e He; destruct (Hf user e He); eauto with linking).
  assert (Hk' : forall user l, (user, l) ∈ linked (held c) ->
    exists code, logged_in (tr ++ [a]) user code (l_hub_user l) /\ Sent user code ∈ tr ++ [a])
    by (intros user l He; destruct (Hk user l He) as (code & H1 & H2); eauto with linking).
  clear Hp Hc Hf Hk.
  destruct Hs as [user state now now' l lg cf|user state now l l' lg cf Hv Ht|user state code oauth hub_user now l lg lg' cf Hlg
    |user state l lg lg' cf Hlg|user code now l taken l' lg cf Hcc|user e minted l lg cf cf' Hcf Hm|user e l lg cf cf' Hcf|user l lg cf];
    cbn [held logging_in confirming] in *.
  - split; try done. intros s p Hin. cbn in Hin. apply dset_elem_or in Hin as [Hin|Hin]; [simplify_eq; apply elem_last|].
    apply filter_sub in Hin as [Hin _]. by eapply Hp'.
  - unfold login_take in Ht. destruct (dget state (pending l)) as [p|] eqn:E; [|done]. injection Ht as <- <-.
    split; try done; cbn.
    + intros s q Hin. apply ddel_elem in Hin as [_ Hin]. by eapply Hp'.
    + intros u s [Heq|Hin]%elem_of_cons; [simplify_eq; apply Hp', dget_elem, E|by apply Hl'].
  - assert (Hin : (user, state) ∈ lg) by (rewrite Hlg; by left).
    split; try done; cbn.
    + intros u s Hs. apply Hl'. rewrite Hlg. by right.
    + intros u e He. apply dset_elem_or in He as [He|He]; [|by apply Hc']. simplify_eq. cbn. split; [|split; [done|unfold CODE_ATTEMPTS; lia]].
      exists state. split; [by apply Hl'|apply elem_last].
  - split; try done; cbn. intros u s Hs. apply Hl'. rewrite Hlg. by right.
  - destruct (confirm_check_codes _ _ _ _ _ _ (fun u e => logged_in (tr ++ [Sent user code]) u (c_code e) (c_hub_user e)) Hcc Hc')
      as (El & Ep & Hcodes & Htaken); [done|].
    split; cbn; rewrite ?El, ?Ep; try done. intros u e He. destruct taken as [e0|]; [|by apply Hf'].
    apply elem_of_cons in He as [He|He]; [|by apply Hf']. simplify_eq. destruct (Htaken _ eq_refl) as [Ho <-].
    split; [done|apply elem_last].
  - assert (Hin : (user, e) ∈ cf) by (rewrite Hcf; by left). destruct (Hf' _ _ Hin) as [Ho Hsent].
    split; try done; cbn.
    + intros u e' He. apply Hf'. rewrite Hcf. by right.
    + intros u k Hk2. apply dset_elem_or in Hk2 as [Heq|Hk2]; [|apply filter_sub in Hk2 as [Hk2 _]; by apply Hk'].
      simplify_eq. exists (c_code e). by rewrite Hm.
    + apply dset_keys. by apply nodup_filter.
    + apply hub_dset; [by apply nodup_filter|]. intros kv Hkv. apply filter_sub in Hkv as [_ Hne].
      apply negb_true_iff, String.eqb_neq in Hne. by rewrite Hm.
  - split; try done; cbn. intros u e' He. apply Hf'. rewrite Hcf. by right.
  - split; try done; cbn.
    + intros u k Hk2. apply ddel_elem in Hk2 as [_ Hk2]. by apply Hk'.
    + by apply ddel_nodup.
    + by apply hub_ddel.
Qed.

(** C6: nobody's link is another's.  However the calls of [link_url], [login] and
    [confirm] interleave, from when nobody is linked: a Mattermost user is linked to a
    Hub account only if that user asked for a link, its login was of that Hub account,
    and that same user sent the code which that login was shown; a Hub account is linked
    to one user at most; and a code that is kept was guessed wrong fewer than
    [CODE_ATTEMPTS] times. *)
Theorem links_earned tr c : lpath (mkCalls (mkLinking [] [] []) [] []) tr c ->
  (forall user l, dget user (linked (held c)) = Some l -> exists state code,
     Asked user state ∈ tr /\ LoggedIn user state code (l_hub_user l) ∈ tr /\ Sent user code ∈ tr) /\
  NoDup (map (fun kv => l_hub_user kv.2) (linked (held c))) /\
  (forall user e, dget user (codes (held c)) = Some e -> 0 <= c_attempts e < CODE_ATTEMPTS).
Proof.
  intros Hp. assert (Hok : calls_ok tr c).
  { remember (mkCalls (mkLinking [] [] []) [] []) as c0 eqn:E. induction Hp as [c|c tr c' a c'' Hp IH Hs].
    - subst c. split; cbn; try (by intros ? ? H%not_elem_of_nil); apply NoDup_nil_2.
    - eapply lstep_ok; [by apply IH|done]. }
  destruct Hok. split; [|split; [done|]].
  - intros user l Hl%dget_elem. destruct (ok_linked0 _ _ Hl) as (code & (state & H1 & H2) & H3). by exists state, code.
  - intros user e He%dget_elem. by apply ok_codes0 in He as [_ He].
Qed.

(** ** A call's run is such steps *)

Definition walks (l : Linking) (tr : list Act) (l' : Linking) : Prop :=
  forall lg cf, lpath (mkCalls l lg cf) tr (mkCalls l' lg cf).
Lemma walks_none l : walks l [] l.
Proof. intros lg cf. constructor. Qed.
Lemma walk_two l l1 l2 lg cf lg1 cf1 a b : lstep (mkCalls l lg cf) a (mkCalls l1 lg1 cf1) ->
  lstep (mkCalls l1 lg1 cf1) b (mkCalls l2 lg cf) -> lpath (mkCalls l lg cf) [a; b] (mkCalls l2 lg cf).
Proof.
  intros H1 H2. change [a; b] with (([] ++ [a]) ++ [b]).
  eapply path_snoc; [eapply path_snoc; [constructor|exact H1]|exact H2].
Qed.
Lemma walk_one l l1 lg cf a : lstep (mkCalls l lg cf) a (mkCalls l1 lg cf) -> lpath (mkCalls l lg cf) [a] (mkCalls l1 lg cf).
Proof. intros H. change [a] with ([] ++ [a]). eapply path_snoc; [constructor|exact H]. Qed.
(** The Hub took the login's code for a token that it then said was the user's. *)
Definition hub_said (code hub_user : string) (h : list Ev) : Prop :=
  exists st bought st' about, existT (HubExchange code) (Ok (st, bought)) ∈ h /\
    existT (HubGet (jstr (jget "access_token" bought)) "/user") (Ok (st', about)) ∈ h /\
    success st' = true /\ hub_user = jstr (jget "name" about).

Section Runs.
Context (svc : service Req Ans).
(** The calls of the Hub leave the links alone. *)
Lemma keeps_answered {A} (call : LM (res Exc A)) : keeps eq call -> keeps eq (answered call).
Proof. intros H. unfold answered. keep. Qed.
Lemma keeps_checked answer : keeps eq (checked answer).
Proof. unfold checked. keep. Qed.
Lemma keeps_field key j : keeps eq (field key j).
Proof. unfold field. keep. Qed.
#[local] Hint Resolve keeps_answered keeps_checked keeps_field : keeps.
(** What a code buys, and whose a token is, as the Hub said. *)
Lemma wp_exchange code l h :
  wp (exchange svc code) l h (fun r l' h' => l' = l /\ exists t, h' = h ++ t /\
    forall token, r = Ok token -> exists st bought, existT (HubExchange code) (Ok (st, bought)) ∈ t /\
      token = jstr (jget "access_token" bought)).
Proof.
  unfold exchange, answered. do 3 apply wp_bind. wp_step. set (a := svc h (HubExchange code)). wp_step.
  destruct a as [[st bought]|e] eqn:E; [|split; [done|]; by eexists].
  unfold checked, field. destruct (success _); [|split; [done|]; by eexists]. wp_step. apply wp_bind.
  destruct (jhas _ _); [|split; [done|]; by eexists]. wp_step. wp_step. split; [done|]. eexists. split; [done|].
  intros token [= <-]. exists st, bought. split; [|done]. by apply list_elem_of_singleton.
Qed.
Lemma wp_owner token l h :
  wp (owner svc token) l h (fun r l' h' => l' = l /\ exists t, h' = h ++ t /\
    forall name, r = Ok (Some name) -> exists st about, existT (HubGet token "/user") (Ok (st, about)) ∈ t /\
      success st = true /\ name = jstr (jget "name" about)).
Proof.
  unfold owner, answered. do 2 apply wp_bind. wp_step. set (a := svc h (HubGet token "/user")). wp_step.
  destruct a as [[st about]|e] eqn:E; [|split; [done|]; by eexists].
  destruct (bool_decide _); [split; [done|]; by eexists|]. apply wp_bind. unfold checked, field.
  destruct (success _) eqn:Es; [|split; [done|]; by eexists]. wp_step. apply wp_bind.
  destruct (jhas _ _); [|split; [done|]; by eexists]. wp_step. wp_step. split; [done|]. eexists. split; [done|].
  intros name [= <-]. exists st, about. split; [by apply list_elem_of_singleton|done].
Qed.
Lemma link_url_walks public_url user l h :
  wp (link_url svc public_url user) l h (fun r l' _ => exists state, r = Ok (public_url ++ PREFIX ++ "/link?state=" ++ state)%string
    /\ walks l [Asked user state] l').
Proof.
  unfold link_url. apply wp_bind. wp_step. apply wp_bind, wp_mod. apply wp_bind. wp_step. apply wp_bind. wp_step.
  apply wp_bind, wp_mod. apply wp_bind. unfold save. wp_step. apply wp_ret. eexists. split; [done|].
  intros lg cf. apply walk_one. by apply step_link.
Qed.
Lemma login_walks state code l h :
  wp (login svc state code) l h (fun r l' h' => exists tr, walks l tr l' /\
    match r with
    | Ok (Some shown) => exists user hub_user, tr = [TakenUp user state; LoggedIn user state shown hub_user] /\ hub_said code hub_user h'
    | _ => tr = [] \/ exists user, tr = [TakenUp user state; Gone]
    end).
Proof.
  unfold login. apply wp_bind. unfold valid. apply wp_bind, wp_get. cbv beta iota.
  destruct (dget state (pending l)) as [p|] eqn:E; [|apply wp_ret; exists []; split; [apply walks_none|by left]].
  apply wp_bind. wp_step. set (now := svc h Now). apply wp_ret. destruct (now <?q p_expires p) eqn:Ev; cbn [negb];
    [|apply wp_ret; exists []; split; [apply walks_none|by left]].
  assert (Hv : valid_at state now l = true) by (unfold valid_at; by rewrite E). clearbody now.
  apply wp_bind, wp_get. cbv beta iota. unfold login_take. rewrite E. set (l1 := l <| pending := ddel state (pending l) |>).
  apply wp_bind, wp_put. apply wp_bind. unfold save. wp_step.
  assert (Ht : forall lg cf, lstep (mkCalls l lg cf) (TakenUp (p_user p) state) (mkCalls l1 ((p_user p, state) :: lg) cf)).
  { intros lg cf. eapply step_take; [exact Hv|]. unfold login_take. by rewrite E. }
  assert (Hgone : walks l [TakenUp (p_user p) state; Gone] l1).
  { intros lg cf. eapply walk_two; [apply Ht|]. by eapply step_login_fails. }
  apply wp_bind. eapply wp_mono; [apply wp_exchange|]. intros [oauth|e] ? ? (-> & t1 & -> & Ho);
    [|eexists; split; [exact Hgone|right; by eexists]].
  apply wp_bind. eapply wp_mono; [apply wp_owner|]. intros [[hub_user|]|e] ? ? (-> & t2 & -> & Hh);
    [|eexists; split; [exact Hgone|right; by eexists]..].
  apply wp_bind. wp_step. apply wp_bind. wp_step. apply wp_bind, wp_mod. apply wp_ret.
  eexists. split; [|exists (p_user p), hub_user; split; [reflexivity|]].
  - intros lg cf. eapply walk_two; [apply Ht|]. by apply step_login.
  - destruct (Ho _ eq_refl) as (st & bought & Hb & ->), (Hh _ eq_refl) as (st' & about & Ha & Hs & ->).
    exists st, bought, st', about. rewrite !elem_of_app. auto 10.
Qed.
Lemma keeps_retire name oauth keep : keeps eq (retire svc name oauth keep).
Proof. unfold retire, retire_token. keep. Qed.
Lemma wp_mint name oauth l h :
  wp (mint svc name oauth) l h (fun r l' _ => l' = l /\ forall minted, r = Ok minted -> l_hub_user minted = name).
Proof.
  unfold mint, answered. do 3 apply wp_bind. wp_step. wp_step. destruct (svc _ _) as [[st body]|e]; [|done].
  unfold checked, field. destruct (success _); [|done]. wp_step. apply wp_bind. destruct (jhas "token" _); [|done]. wp_step.
  apply wp_bind. destruct (jhas "id" _); [|done]. wp_step. apply wp_bind. wp_step. wp_step. split; [done|]. by intros ? [= <-].
Qed.
Lemma confirm_walks user code l h :
  wp (confirm svc user code) l h (fun r l' _ => exists tr, walks l tr l' /\
    match r with
    | Ok (Some hub_user) => tr = [Sent user code; LinkedTo user hub_user]
    | _ => tr = [] \/ tr = [Sent user code] \/ tr = [Sent user code; Gone]
    end).
Proof.
  unfold confirm. apply wp_bind, wp_get. cbv beta iota.
  destruct (dget user (codes l)) as [e0|] eqn:E; [|apply wp_ret; exists []; split; [apply walks_none|by left]].
  apply wp_bind. wp_step. destruct (confirm_check user code (svc h Now) l) as [taken l1] eqn:Ec.
  apply wp_bind, wp_put. destruct taken as [e|].
  2:{ apply wp_ret. exists [Sent user code]. split; [|auto]. intros lg cf. apply walk_one. by apply (step_sent _ _ _ _ None _ _ _ Ec). }
  assert (Hs : forall lg cf, lstep (mkCalls l lg cf) (Sent user code) (mkCalls l1 lg ((user, e) :: cf)))
    by (intros lg cf; by apply (step_sent _ _ _ _ (Some e) _ _ _ Ec)).
  assert (Hgone : walks l [Sent user code; Gone] l1).
  { intros lg cf. eapply walk_two; [apply Hs|]. by eapply step_confirm_fails. }
  cbv zeta. apply wp_bind. eapply wp_mono; [apply wp_mint|]. intros [minted|err] ? ? [-> Hm]; [|eexists; split; [exact Hgone|auto]].
  apply wp_bind. eapply wp_mono; [apply keeps_retire|]. intros [[]|err] ? ? <-; [|eexists; split; [exact Hgone|auto]].
  apply wp_bind, wp_mod. apply wp_bind. unfold save. wp_step. apply wp_ret.
  eexists. split; [|reflexivity]. intros lg cf. eapply walk_two; [apply Hs|]. eapply step_linked; [done|by apply Hm].
Qed.
Lemma forget_walks user l h : wp (forget svc user) l h (fun _ l' _ => walks l [Gone] l').
Proof.
  unfold forget. apply wp_bind, wp_get. cbv beta iota. apply wp_bind, wp_put.
  assert (H : walks l [Gone] (l <| linked := ddel user (linked l) |>)) by (intros lg cf; apply walk_one, step_forget).
  destruct (dhas user (linked l)); [unfold save; wp_step; exact H|by apply wp_ret].
Qed.
End Runs.

(** C30: the calls are what the steps say.  A run of [link_url], [login], [confirm] or
    [forget], whatever the Hub answers and wherever it fails, changes the links as those
    steps do that the interleaved calls take: asking for a link; taking one up and, if
    it returns a code, noting it for the Hub user that the Hub named as the owner of the
    token it gave for the login; taking a sent code and, if it returns a Hub user,
    linking the sender to them. *)
Theorem linking_refines svc public_url user state code l h :
  wp (link_url svc public_url user) l h (fun r l' _ => exists s, walks l [Asked user s] l') /\
  wp (login svc state code) l h (fun r l' h' => exists tr, walks l tr l' /\
    match r with
    | Ok (Some shown) => exists u hub_user, tr = [TakenUp u state; LoggedIn u state shown hub_user] /\ hub_said code hub_user h'
    | _ => tr = [] \/ exists u, tr = [TakenUp u state; Gone]
    end) /\
  wp (confirm svc user code) l h (fun r l' _ => exists tr, walks l tr l' /\
    match r with
    | Ok (Some hub_user) => tr = [Sent user code; LinkedTo user hub_user]
    | _ => tr = [] \/ tr = [Sent user code] \/ tr = [Sent user code; Gone]
    end) /\
  wp (forget svc user) l h (fun _ l' _ => walks l [Gone] l').
Proof.
  split; [|split; [apply login_walks|split; [apply confirm_walks|apply forget_walks]]].
  eapply wp_mono; [apply link_url_walks|]. intros r l' h' (s & _ & H). by exists s.
Qed.

(** ** Witness *)

Definition demo_asked : Linking := add_link "u1" "s" 0 (drop_links "u1" 0 (mkLinking [] [] [])).
Definition demo_taken : Linking := mkLinking [] [] [].
Definition demo_shown : Linking := login_keep "u1" "ABCDEFGH" "tok" "jdoe" 1 demo_taken.
Definition demo_code : Code := mkCode "ABCDEFGH" "tok" "jdoe" (1 + CODE_SECONDS)%Q 0.
Definition demo_linked : Linking := confirm_keep "u1" "jdoe" (mkLink "t" "i" "jdoe" TOKEN_SECONDS) demo_taken.
Definition demo_acts : list Act :=
  [Asked "u1" "s"; TakenUp "u1" "s"; LoggedIn "u1" "s" "ABCDEFGH" "jdoe"; Sent "u1" "ABCDEFGH"; LinkedTo "u1" "jdoe"]%string.
Lemma demo_path : lpath (mkCalls (mkLinking [] [] []) [] []) demo_acts (mkCalls demo_linked [] []).
Proof.
  change demo_acts with ((((([] ++ [Asked "u1"%string "s"%string]) ++ [TakenUp "u1"%string "s"%string])
    ++ [LoggedIn "u1"%string "s"%string "ABCDEFGH"%string "jdoe"%string])
    ++ [Sent "u1"%string "ABCDEFGH"%string]) ++ [LinkedTo "u1"%string "jdoe"%string]).
  eapply path_snoc; [eapply path_snoc; [eapply path_snoc; [eapply path_snoc; [eapply path_snoc; [constructor|]|]|]|]|].
  - apply (step_link "u1" "s" 0 0).
  - apply (step_take "u1" "s" 1 demo_asked demo_taken); reflexivity.
  - by apply (step_login "u1" "s" "ABCDEFGH" "tok" "jdoe" 1).
  - by apply (step_sent "u1" "ABCDEFGH" 2 demo_shown (Some demo_code) demo_taken).
  - by apply (step_linked "u1" demo_code (mkLink "t" "i" "jdoe" TOKEN_SECONDS)).
Qed.
Lemma links_earned_witness :
  exists state code, Asked "u1" state ∈ demo_acts /\ LoggedIn "u1" state code "jdoe" ∈ demo_acts /\ Sent "u1" code ∈ demo_acts.
Proof.
  exact (proj1 (links_earned demo_acts (mkCalls demo_linked [] []) demo_path) "u1"%string (mkLink "t" "i" "jdoe" TOKEN_SECONDS) eq_refl).
Defined.
