(* ===== verification/MmAgent.v ===== *)
(** The Mattermost agent's polling ([apps/mattermost-agent/agent.py]): which posts it
    answers, once each, and how often it answers one person. *)
From stdpp Require Import gmap.
From S2P Require Import Prelude PyJson PyText MmText MmLink.
Open Scope Z_scope.

(** ** State *)

(** Agent; its tokens and links with it. [started] are the posts that a task was made
    for, oldest first: those of its tasks that ended stay. *)
Record Agent := mkAgent {
  me : string; bot_name : text; home : option string; direct : gset string; groups : gset string; channels_at : Q;
  cursors : gmap string Z; asked : gmap string (list Q); warned : gset string; started : list Post;
  beat : Q; oauth : OAuth; linking : Linking }.
#[export] Instance eta_Agent : Eta Agent := {| eta_of r :=
  mkAgent (me r) (bot_name r) (home r) (direct r) (groups r) (channels_at r) (cursors r) (asked r) (warned r)
    (started r) (beat r) (oauth r) (linking r) |}.

Definition STALE_SECONDS : Q := 180.
Definition CHANNELS_SECONDS : Q := 60.
Definition USER_LIMIT : nat := 5.
Definition USER_WINDOW_SECONDS : Q := 600.

Definition AgM (A : Type) : Type := M Ev Agent Exc A.
Definition on_linking {A} (c : LM A) : AgM A := fun a h =>
  let '(r, l, h') := c (linking a) h in (r, a <| linking := l |>, h').
Definition on_oauth {A} (c : AM A) : AgM A := fun a h =>
  let '(r, o, h') := c (oauth a) h in (r, a <| oauth := o |>, h').
Definition ask {A} (call : AgM (res Exc A)) : AgM A := call ≫= mlift.

(** [sorted(posts, key=lambda p: p["create_at"])] *)
Fixpoint insert_post (p : Post) (l : list Post) : list Post :=
  match l with
  | [] => [p]
  | q :: l' => if create_at p <? create_at q then p :: l else q :: insert_post p l'
  end.
Definition by_time (l : list Post) : list Post := foldl (fun acc p => insert_post p acc) [] l.

Section Agent.
Context (uni : Unicode) (svc : service Req Ans) (team channel : string).

Definition start : AgM unit :=
  '(id, username) ← ask (mcall svc GetMe);
  mmod (fun a => a <| me := id |> <| bot_name := username |>).

(** ** Mattermost *)

Definition channels (user : string) : AgM (option Channel * gset string * gset string) :=
  '(status, found) ← ask (mcall svc (GetTeamChannel team channel));
  home_team ← (if status =? 200 then mret (Some (Some found, team_id found)) else
    '(status, id) ← ask (mcall svc (GetTeam team));
    mret (if status =? 200 then Some (None, id) else None) : AgM (option (option Channel * string)));
  match home_team with
  | None => mret (None, ∅, ∅)
  | Some (home, team_id) =>
      mine ← ask (mcall svc (GetChannels user team_id));
      let of_type t := list_to_set (map ch_id (List.filter (fun c => String.eqb (ch_type c) t) mine)) in
      mret (home, of_type "D", of_type "G")
  end.
Definition latest (channel : string) : AgM Z :=
  posts ← ask (mcall svc (GetPosts channel None 1));
  mret (match map update_at posts with [] => 0 | u :: us => foldl Z.max u us end).
Definition since (channel : string) (cursor : Z) : AgM (list Post) :=
  posts ← ask (mcall svc (GetPosts channel (Some cursor) 0)); mret (by_time posts).
Definition recent (channel : string) (count : Z) : AgM (list Post) :=
  posts ← ask (mcall svc (GetPosts channel None count)); mret (by_time posts).
Definition thread (post_id : string) : AgM (list Post) :=
  posts ← ask (mcall svc (GetThread post_id)); mret (by_time posts).
Definition reply (post : Post) (root : string) (message : text) : AgM unit :=
  ask (mcall svc (SendPost (channel_id post) root message)).

(** ** Which posts are answered *)

Definition by_a_person (a : Agent) (post : Post) (cursor : Z) : bool :=
  (cursor <? create_at post) && (delete_at post =? 0) && String.eqb (p_type post) ""
  && negb (String.eqb (user_id post) (me a)) && negb (text_eqb (lower uni (p_from_bot post)) "true").
Definition wanted (a : Agent) (post : Post) (cursor : Z) : bool :=
  by_a_person a post cursor
  && (bool_decide (channel_id post ∈ direct a) || mentioned uni (bot_name a) None (p_message post)).
Definition replies_to_bot (post : Post) (cursor : Z) : AgM bool :=
  a ← mget;
  if String.eqb (root_id post) "" || negb (by_a_person a post cursor) then mret false
  else if names_someone uni None (p_message post) then mret false
  else posts ← thread (p_id post); mret (existsb (fun p => String.eqb (user_id p) (me a)) posts).

Definition in_window (now : Q) (l : list Q) : list Q :=
  (fix go l := match l with t :: l' => if USER_WINDOW_SECONDS <?q (now - t)%Q then go l' else l | [] => [] end) l.
Definition allowed (user : string) (now : Q) (a : Agent) : bool * Agent :=
  let times := in_window now (default [] (asked a !! user)) in
  if Nat.leb USER_LIMIT (List.length times) then (false, a <| asked := <[user := times]> (asked a) |>)
  else (true, a <| asked := <[user := times ++ [now]]> (asked a) |> <| warned := warned a ∖ {[user]} |>).

(** ** A poll *)

(** The conversations looked up: one that appeared since the last look is all new. *)
Definition relook (now : Q) (home_ : option Channel) (direct_ groups_ : gset string) (a : Agent) : Agent :=
  let fresh := (direct_ ∪ groups_) ∖ (direct a ∪ groups a) in
  a <| home := option_map ch_id home_ |>
    <| cursors := if Qeq_bool (channels_at a) 0 then cursors a else gset_to_gmap 1 fresh ∪ cursors a |>
    <| direct := direct_ |> <| groups := groups_ |> <| channels_at := now |>.
Definition look (now : Q) : AgM unit :=
  a ← mget;
  if Qeq_bool (channels_at a) 0 || (CHANNELS_SECONDS <?q (now - channels_at a)%Q)
  then '(home, direct, groups) ← channels (me a); mmod (relook now home direct groups)
  else mret tt.
Definition polled (a : Agent) : list string :=
  match home a with Some h => [h] | None => [] end ++ str_sorted (elements (direct a ∪ groups a)).
(** One conversation Mattermost refuses must not stop the others: [None]. *)
Definition or_refused {A} (c : AgM A) : AgM (option A) :=
  mcatch (x ← c; mret (Some x)) (fun e =>
    match e with
    | HttpError (Some status) => if status =? 401 then raise e else mret None
    | _ => raise e
    end).
Definition see (channel : string) (post : Post) (a : Agent) : Agent :=
  a <| cursors := <[channel := Z.max (default 0 (cursors a !! channel)) (update_at post)]> (cursors a) |>.
Definition poll_post (channel : string) (cursor : Z) (post : Post) : AgM unit :=
  mmod (see channel post) ≫= fun _ =>
  a ← mget;
  answer ← (if wanted a post cursor then mret true else replies_to_bot post cursor);
  if answer : bool then mmod (fun a => a <| started := started a ++ [post] |>) else mret tt.
Definition poll_channel (channel : string) : AgM unit :=
  a ← mget;
  match cursors a !! channel with
  | None =>
      newest ← or_refused (latest channel);
      match newest with
      | Some at_ => mmod (fun a => a <| cursors := <[channel := at_]> (cursors a) |>)
      | None => mret tt
      end
  | Some cursor =>
      posts ← or_refused (since channel cursor);
      match posts with Some posts => mfor posts (poll_post channel cursor) | None => mret tt end
  end.
Definition poll : AgM unit :=
  now ← mcall svc Monotonic;
  look now ≫= fun _ =>
  a ← mget;
  mfor (polled a) poll_channel.

(** One pass of [polling], and [run] from the end of a pass that raised: whether it goes
    on, once there are tokens. *)
Definition polling_pass : AgM unit :=
  mcatch poll (fun e =>
    match e with
    | HttpError (Some status) => if status =? 401 then raise Unauthorized else mret tt
    | HttpError None => mret tt
    | _ => raise e
    end) ≫= fun _ =>
  now ← mcall svc Monotonic; mmod (fun a => a <| beat := now |>).
Definition run_ends (e : Exc) : AgM unit :=
  match e with Unauthorized => on_oauth (forget_tokens svc) | _ => raise e end.
Definition alive : AgM bool :=
  now ← mcall svc Monotonic; a ← mget;
  mret (((now - beat a)%Q <?q STALE_SECONDS) || negb (ready (oauth a))).
End Agent.

(** ** How often one person is answered *)

(** The calls of [allowed], one after the other: those that it allowed. *)
Fixpoint asks_allowed (l : list (string * Q)) (a : Agent) : list (string * Q) * Agent :=
  match l with
  | [] => ([], a)
  | (user, now) :: l' =>
      let '(ok, a') := allowed user now a in
      let '(rest, a'') := asks_allowed l' a' in
      (if ok then (user, now) :: rest else rest, a'')
  end.
Definition times_of (user : string) (l : list (string * Q)) : list Q :=
  map snd (List.filter (fun c => String.eqb c.1 user) l).
Fixpoint nondecreasing (from : Q) (l : list Q) : Prop :=
  match l with [] => True | t :: l' => (from <= t)%Q /\ nondecreasing t l' end.

Section Allowed.
Local Abbreviation W := USER_WINDOW_SECONDS.
Lemma in_window_split now l : exists gone, l = gone ++ in_window now l /\ forall t, t ∈ gone -> (W < now - t)%Q.
Proof.
  induction l as [|t l (gone & IH & Hg)]; cbn; [by exists []; split; [|intros t ?%not_elem_of_nil]|].
  destruct (W <?q (now - t)%Q) eqn:E; [|by exists []; split; [|intros u ?%not_elem_of_nil]]. breflect.
  exists (t :: gone). split; [cbn; by f_equal|]. intros u [->|Hu]%elem_of_cons; auto.
Qed.
(** [USER_LIMIT] of the times after each other are more than the window apart. *)
Definition spread (ts : list Q) : Prop :=
  forall i t t', ts !! i = Some t -> ts !! (i + USER_LIMIT)%nat = Some t' -> (W < t' - t)%Q.
Lemma spread_snoc ts now gone times : ts = gone ++ times -> (List.length times < USER_LIMIT)%nat ->
  (forall t, t ∈ gone -> (W < now - t)%Q) -> spread ts -> spread (ts ++ [now]).
Proof.
  intros -> Hlen Hgone Hs i t t' Hi Hj. apply lookup_app_Some in Hj as [Hj|[Hge Hj]].
  - apply (Hs i); [|done]. apply lookup_lt_Some in Hj. rewrite lookup_app_l in Hi; [done|]. unfold USER_LIMIT in *. lia.
  - apply list_lookup_singleton_Some in Hj as [Hz <-]. rewrite length_app in *. apply Hgone.
    rewrite lookup_app_l in Hi by (rewrite length_app; unfold USER_LIMIT in *; lia).
    rewrite lookup_app_l in Hi by (unfold USER_LIMIT in *; lia). by eapply list_elem_of_lookup_2.
Qed.
(** What is kept of a user's times is the end of them that the window may still see. *)
Record asked_ok (user : string) (now : Q) (ts : list Q) (a : Agent) : Prop := {
  ask_spread : spread ts;
  ask_kept : exists gone, ts = gone ++ default [] (asked a !! user) /\ forall t, t ∈ gone -> (W < now - t)%Q }.
Lemma asked_ok_other user user' now now' ts a a' : user <> user' -> (now <= now')%Q ->
  a' = (allowed user' now' a).2 -> asked_ok user now ts a -> asked_ok user now' ts a'.
Proof.
  intros Hne Hle -> [Hs (gone & Hts & Hg)]. split; [done|]. exists gone.
  assert (asked (allowed user' now' a).2 !! user = asked a !! user) as ->.
  { unfold allowed. destruct (Nat.leb _ _); cbn; by rewrite lookup_insert_ne. }
  split; [done|]. intros t Ht. specialize (Hg t Ht). lra.
Qed.
Lemma asked_ok_own user now now' ts a : (now <= now')%Q -> asked_ok user now ts a ->
  asked_ok user now' (if (allowed user now' a).1 then ts ++ [now'] else ts) (allowed user now' a).2.
Proof.
  intros Hle [Hs (gone & Hts & Hg)]. unfold allowed. set (cur := default [] (asked a !! user)) in *.
  destruct (in_window_split now' cur) as (gone' & Hcur & Hg'). set (times := in_window now' cur) in *.
  assert (Hall : forall t, t ∈ gone ++ gone' -> (W < now' - t)%Q).
  { intros t [Ht|Ht]%elem_of_app; [specialize (Hg t Ht); lra|auto]. }
  rewrite Hcur, app_assoc in Hts. destruct (Nat.leb USER_LIMIT (List.length times)) eqn:E; cbn.
  - split; [done|]. exists (gone ++ gone'). cbn [asked]. by rewrite lookup_insert_eq.
  - apply Nat.leb_gt in E. split; [by eapply spread_snoc|]. exists (gone ++ gone').
    cbn [asked]. rewrite lookup_insert_eq. cbn. by rewrite Hts, app_assoc.
Qed.
Lemma asks_spread user from calls ts a : nondecreasing from (map snd calls) -> asked_ok user from ts a ->
  spread (ts ++ times_of user (asks_allowed calls a).1).
Proof.
  revert from ts a. induction calls as [|[u now] calls IH]; intros from ts a Hmono Hok; cbn.
  { rewrite app_nil_r. apply Hok. }
  destruct Hmono as [Hle Hmono]. destruct (allowed u now a) as [ok a'] eqn:E.
  assert (Hcase : asked_ok user now (if ok && String.eqb u user then ts ++ [now] else ts) a').
  { destruct (String.eqb_spec u user) as [->|Hne].
    - pose proof (asked_ok_own user from now ts a Hle Hok) as H. rewrite E in H. by destruct ok.
    - rewrite andb_false_r. eapply asked_ok_other; [by apply not_eq_sym|exact Hle| |exact Hok]. by rewrite E. }
  specialize (IH now _ a' Hmono Hcase). destruct (asks_allowed calls a') as [rest a'']. cbn in IH |- *.
  destruct ok; cbn in *; [|done]. unfold times_of. cbn. destruct (String.eqb u user); [|done].
  cbn. change (now :: ?l) with ([now] ++ l). by rewrite app_assoc.
Qed.
End Allowed.

(** One person is answered at most [USER_LIMIT] times in any [USER_WINDOW_SECONDS]:
    however the questions of all people come, as long as the clock does not go back, a
    question that is allowed is more than the window after the one that was allowed
    [USER_LIMIT] before it; and a question is refused only if that many were allowed
    within the window. *)
Theorem asked_bounded a user from calls : asked a = ∅ -> nondecreasing from (map snd calls) ->
  spread (times_of user (asks_allowed calls a).1) /\
  (forall now a, (allowed user now a).1 = false -> exists times, times `suffix_of` default [] (asked a !! user) /\
     (USER_LIMIT <= List.length times)%nat /\ exists t, head times = Some t /\ (now - t <= USER_WINDOW_SECONDS)%Q).
Proof.
  intros Ha Hmono. split.
  - apply (asks_spread user from calls [] a Hmono). split; [by intros i t t' Hi|]. exists []. rewrite Ha, lookup_empty.
    split; [done|]. by intros t ?%not_elem_of_nil.
  - clear. intros now a. unfold allowed. set (cur := default [] (asked a !! user)).
    destruct (Nat.leb USER_LIMIT _) eqn:E; [|done]. apply Nat.leb_le in E. intros _.
    destruct (in_window_split now cur) as (gone & Hcur & _). exists (in_window now cur).
    split; [by exists gone|]. split; [done|]. revert E. clear. induction cur as [|t cur IH]; cbn; [unfold USER_LIMIT; lia|].
    destruct (USER_WINDOW_SECONDS <?q _)%Q eqn:E; [done|]. breflect. by exists t.
Qed.
Definition idle_agent : Agent :=
  mkAgent "bot" (txt "af-bot") None ∅ ∅ 0 ∅ ∅ ∅ [] 0 (mkOAuth None [] false) (mkLinking [] [] []).
Lemma asked_bounded_witness :
  spread (times_of "u" (asks_allowed (map (fun t => ("u"%string, qz t)) [0; 10; 20; 30; 40; 50; 601]) idle_agent).1) /\
  times_of "u" (asks_allowed (map (fun t => ("u"%string, qz t)) [0; 10; 20; 30; 40; 50; 601]) idle_agent).1
    = [0; 10; 20; 30; 40; 601]%Q.
Proof.
  split; [|vm_compute; reflexivity]. apply (asked_bounded idle_agent "u" 0); [reflexivity|].
  cbn. repeat split; unfold Qle; cbn; lia.
Defined.
