(* ===== verification/MmPoll.v ===== *)
(** The Mattermost agent answers a post once ([apps/mattermost-agent/agent.py],
    [Agent.poll]): over any number of polls, as long as no conversation goes missing
    from the list of them. *)
From stdpp Require Import gmap.
From S2P Require Import Prelude PyJson PyText MmText MmLink MmAgent.
Open Scope Z_scope.

Definition known (a : Agent) : gset string := direct a ∪ groups a.

Lemma by_time_perm l : by_time l ≡ₚ l.
Proof.
  assert (Hins : forall p l, insert_post p l ≡ₚ p :: l).
  { intros p l'. induction l' as [|q l' IH]; cbn; [done|]. destruct (_ <? _); [done|]. rewrite IH. apply perm_swap. }
  unfold by_time. assert (H : forall acc, foldl (fun acc p => insert_post p acc) acc l ≡ₚ acc ++ l).
  { induction l as [|p l IH]; intros acc; cbn; [by rewrite app_nil_r|]. rewrite IH, Hins. apply (Permutation_middle acc l p). }
  apply H.
Qed.

Section Once.
Context (uni : Unicode) (svc : service Req Ans) (team channel : string).
(** What the agent relies on of Mattermost: an ID stands for one post, of one channel and
    one time of creation, which no later change precedes; a page of posts has each once
    and those of its channel only; and the home channel is no direct or group message. *)
Context (born : string -> Z) (of_channel : string -> string) (conversation : string -> Prop).
Definition genuine (p : Post) : Prop :=
  create_at p = born (p_id p) /\ channel_id p = of_channel (p_id p) /\ create_at p <= update_at p.
Record mattermost_ok : Prop := {
  mm_posts : forall h ch c n posts, svc h (GetPosts ch c n) = Ok posts ->
    NoDup (map p_id posts) /\ forall p, p ∈ posts -> genuine p /\ channel_id p = ch;
  mm_home : forall h status found, svc h (GetTeamChannel team channel) = Ok (status, found) -> status = 200 ->
    ~ conversation (ch_id found);
  mm_mine : forall h user t mine, svc h (GetChannels user t) = Ok mine -> forall c, c ∈ mine ->
    ch_type c = "D"%string \/ ch_type c = "G"%string -> conversation (ch_id c) }.
Context (mm : mattermost_ok).

(** Every post that was answered is behind the cursor of its channel, and its channel, if
    a conversation, is known. *)
Record seen (a : Agent) : Prop := {
  seen_nodup : NoDup (map p_id (started a));
  seen_behind : forall p, p ∈ started a -> genuine p /\
    exists c, cursors a !! channel_id p = Some c /\ create_at p <= c;
  seen_known : forall p, p ∈ started a -> conversation (channel_id p) -> channel_id p ∈ known a;
  seen_home : forall h, home a = Some h -> ~ conversation h }.

(** ** One conversation *)

Definition same_look (a a' : Agent) : Prop := known a' = known a /\ home a' = home a.
Lemma see_cursors ch p a : cursors (see ch p a) = <[ch := Z.max (default 0 (cursors a !! ch)) (update_at p)]> (cursors a).
Proof. done. Qed.
Lemma see_seen ch p a : seen a -> seen (see ch p a).
Proof.
  intros [H1 H2 H3 H4]. split; try done. intros q Hq. destruct (H2 q Hq) as (Hg & c & Hc & Hle). split; [done|].
  rewrite see_cursors. destruct (decide (channel_id q = ch)) as [Heq|Hne].
  - rewrite Heq, lookup_insert_eq. rewrite Heq in Hc. rewrite Hc. eexists. split; [done|]. cbn. lia.
  - rewrite lookup_insert_ne by done. by exists c.
Qed.
Lemma start_seen ch p c a : seen a -> genuine p -> channel_id p = ch -> cursors a !! ch = Some c -> create_at p <= c ->
  (conversation ch -> ch ∈ known a) -> p_id p ∉ map p_id (started a) -> seen (a <| started := started a ++ [p] |>).
Proof.
  intros [H1 H2 H3 H4] Hg Hch Hc Hle Hk Hni. split; change (started (a <| started := started a ++ [p] |>)) with (started a ++ [p]); [| | |done].
  - rewrite map_app. apply NoDup_app. split; [done|]. split; [|apply NoDup_singleton].
    intros i Hi Hj. apply list_elem_of_singleton in Hj. by subst i.
  - intros q [Hq|Hq]%elem_of_app; [by apply H2|]. apply list_elem_of_singleton in Hq as ->. split; [done|].
    exists c. by rewrite Hch.
  - intros q [Hq|Hq]%elem_of_app; [by apply H3|]. apply list_elem_of_singleton in Hq as ->. by rewrite Hch.
Qed.
(** What is wanted of a post, and how it was asked, is that it is newer than the cursor. *)
Lemma replies_frames post cursor a h :
  wp (replies_to_bot uni svc post cursor) a h (fun r a' _ => a' = a /\ (r = Ok true -> cursor < create_at post)).
Proof.
  unfold replies_to_bot. apply wp_bind, wp_get. cbv beta iota. destruct (String.eqb _ _ || _) eqn:E; [by apply wp_ret|].
  apply orb_false_elim in E as [_ E]. apply negb_false_iff in E. unfold by_a_person in E.
  do 4 (apply andb_true_iff in E as [E _]). apply Z.ltb_lt in E.
  destruct (names_someone _ _ _); [by apply wp_ret|]. apply wp_bind. unfold thread, ask. do 2 apply wp_bind. wp_step. wp_step.
  destruct (svc _ _); [|done]. by do 2 wp_step.
Qed.
Lemma wanted_newer a post cursor : wanted uni a post cursor = true -> cursor < create_at post.
Proof. intros [E _]%andb_true_iff. unfold by_a_person in E. do 4 (apply andb_true_iff in E as [E _]). by apply Z.ltb_lt. Qed.
Lemma poll_post_seen ch cursor p a h : seen a -> genuine p -> channel_id p = ch -> is_Some (cursors a !! ch) ->
  (conversation ch -> ch ∈ known a) -> (cursor < create_at p -> p_id p ∉ map p_id (started a)) ->
  wp (poll_post uni svc ch cursor p) a h (fun _ a' _ => seen a' /\ same_look a a' /\ is_Some (cursors a' !! ch) /\
    exists more, started a' = started a ++ more /\ forall q, q ∈ more -> q = p).
Proof.
  intros Hs Hg Hch [c Hc] Hk Hnew. unfold poll_post. apply wp_bind, wp_mod. cbv beta iota. apply wp_bind, wp_get. cbv beta iota.
  set (a1 := see ch p a). assert (Hc1 : cursors a1 !! ch = Some (Z.max c (update_at p))).
  { unfold a1. rewrite see_cursors, lookup_insert_eq. by rewrite Hc. }
  assert (Hsame : seen a1 /\ same_look a a1 /\ is_Some (cursors a1 !! ch) /\
    exists more, started a1 = started a ++ more /\ forall q, q ∈ more -> q = p).
  { split; [by apply see_seen|]. split; [done|]. rewrite Hc1. split; [done|]. exists []. rewrite app_nil_r. split; [done|].
    by intros q ?%not_elem_of_nil. }
  apply wp_bind. eapply (wp_mono _ _ _ (fun r a' _ => a' = a1 /\ (r = Ok true -> cursor < create_at p))).
  { destruct (wanted uni a1 p cursor) eqn:E; [|apply replies_frames]. apply wp_ret. split; [done|]. intros _. by eapply wanted_newer. }
  intros [[|]|e] ? h' [-> Hr]; [|by apply wp_ret|done]. apply wp_mod. specialize (Hnew (Hr eq_refl)).
  split; [|split; [done|split]].
  - eapply start_seen; [apply Hsame|done|exact Hch|exact Hc1| |exact Hk|exact Hnew]. destruct Hg as (_ & _ & Hle). lia.
  - eexists. exact Hc1.
  - exists [p]. split; [done|]. by intros q ->%list_elem_of_singleton.
Qed.
Lemma same_look_trans a b c : same_look a b -> same_look b c -> same_look a c.
Proof. intros [H1 H2] [H3 H4]. split; congruence. Qed.
Lemma poll_posts_seen ch cursor posts a h : (forall p, p ∈ posts -> genuine p /\ channel_id p = ch) -> NoDup (map p_id posts) ->
  seen a -> is_Some (cursors a !! ch) -> (conversation ch -> ch ∈ known a) ->
  (forall p, p ∈ posts -> cursor < create_at p -> p_id p ∉ map p_id (started a)) ->
  wp (mfor posts (poll_post uni svc ch cursor)) a h (fun _ a' _ => seen a' /\ same_look a a').
Proof.
  intros Hok Hnd. revert a h. induction posts as [|p posts IH]; intros a h Hs Hc Hk Hnew; cbn [mfor]; [by apply wp_ret|].
  cbn [map] in Hnd. apply NoDup_cons in Hnd as [Hni Hnd]. destruct (Hok p (list_elem_of_here _ _)) as [Hg Hch].
  apply wp_bind. eapply wp_mono; [apply poll_post_seen; [done..|exact (Hnew p (list_elem_of_here _ _))]|].
  intros [[]|e] a' h' (Hs' & Hsame & Hc' & more & Hmore & Hp); [|done].
  eapply wp_mono; [apply IH; [|done|done|done| |]|].
  - intros q Hq. apply Hok. by right.
  - destruct Hsame as [-> _]. done.
  - intros q Hq Hlt. rewrite Hmore, map_app, not_elem_of_app. split; [apply Hnew; [by right|done]|].
    intros (q' & Hid & Hq')%list_elem_of_fmap. apply Hp in Hq' as ->. apply Hni. rewrite <- Hid. by apply list_elem_of_fmap_2.
  - intros r a'' h'' [Hs'' H]. split; [done|]. by eapply same_look_trans.
Qed.
(** A refusal changes nothing, nor does what is read of Mattermost. *)
Lemma refused_frames {A} (c : AgM A) a h (P : A -> Prop) : wp c a h (fun r a' _ => a' = a /\ forall x, r = Ok x -> P x) ->
  wp (or_refused c) a h (fun r a' _ => a' = a /\ forall x, r = Ok (Some x) -> P x).
Proof.
  intros H. unfold or_refused. apply wp_catch, wp_bind. eapply wp_mono; [exact H|]. intros [x|e] ? h' [-> Hx].
  - apply wp_ret. split; [done|]. intros y [= <-]. by apply Hx.
  - destruct e as [|[status|]| | |]; try done. by destruct (status =? 401).
Qed.
Lemma latest_frames ch a h : wp (latest svc ch) a h (fun r a' _ => a' = a /\ forall x, r = Ok x -> True).
Proof. unfold latest, ask. do 2 apply wp_bind. wp_step. wp_step. destruct (svc _ _); [|done]. by apply wp_ret. Qed.
Lemma since_frames ch cursor a h : wp (since svc ch cursor) a h (fun r a' _ => a' = a /\ forall posts, r = Ok posts ->
  NoDup (map p_id posts) /\ forall p, p ∈ posts -> genuine p /\ channel_id p = ch).
Proof.
  unfold since, ask. do 2 apply wp_bind. wp_step. wp_step. destruct (svc _ _) as [posts|e] eqn:E; [|done].
  apply wp_ret. split; [done|]. intros ? [= <-]. destruct (mm_posts mm _ _ _ _ _ E) as [H1 H2].
  rewrite by_time_perm. split; [done|]. intros p Hp. apply H2. by rewrite by_time_perm in Hp.
Qed.
Lemma poll_channel_seen ch a h : seen a -> (conversation ch -> ch ∈ known a) ->
  wp (poll_channel uni svc ch) a h (fun _ a' _ => seen a' /\ same_look a a').
Proof.
  intros Hs Hk. unfold poll_channel. apply wp_bind, wp_get. cbv beta iota. destruct (cursors a !! ch) as [cursor|] eqn:Ec.
  - apply wp_bind. eapply wp_mono; [apply refused_frames, since_frames|]. intros [[posts|]|e] ? h' [-> Hp]; [|by apply wp_ret|done].
    destruct (Hp _ eq_refl) as [Hnd Hok]. apply poll_posts_seen; [done|done|done|by rewrite Ec|done|].
    intros p Hin Hlt (q & Hid & Hq)%list_elem_of_fmap. destruct (Hok p Hin) as [(Hb & Hch & _) Hch'].
    destruct (seen_behind _ Hs q Hq) as [(Hb' & Hchq & _) (c & Hc & Hle)].
    assert (channel_id q = ch) as Hqc by congruence. rewrite Hqc, Ec in Hc. injection Hc as <-. rewrite <- Hid in Hb'. lia.
  - apply wp_bind. eapply wp_mono; [apply refused_frames, latest_frames|]. intros [[at_|]|e] ? h' [-> _]; [|by apply wp_ret|done].
    apply wp_mod. split; [|done]. destruct Hs as [H1 H2 H3 H4]. split; try done. intros p Hp. destruct (H2 p Hp) as (Hg & c & Hc & Hle).
    split; [done|]. exists c. split; [|done]. change (<[ch := at_]> (cursors a) !! channel_id p = Some c).
    rewrite lookup_insert_ne; [done|]. intros ->. congruence.
Qed.

(** ** A poll, and any number of them *)

Lemma channels_ok user a h : wp (channels svc team channel user) a h (fun r a' _ => a' = a /\ forall home d g, r = Ok (home, d, g) ->
  (forall c, home = Some c -> ~ conversation (ch_id c)) /\ forall c, c ∈ d ∪ g -> conversation c).
Proof.
  unfold channels, ask. do 2 apply wp_bind. wp_step. wp_step. destruct (svc _ (GetTeamChannel _ _)) as [[status found]|] eqn:Ef; [|done].
  apply wp_bind. eapply (wp_mono _ _ _ (fun r a' _ => a' = a /\ forall home t, r = Ok (Some (home, t)) ->
    forall c, home = Some c -> ~ conversation (ch_id c))).
  { destruct (status =? 200) eqn:Es.
    - apply wp_ret. split; [done|]. intros ? ? [= <- <-] c [= <-]. apply Z.eqb_eq in Es. by eapply (mm_home mm).
    - do 2 apply wp_bind. wp_step. wp_step. destruct (svc _ (GetTeam _)) as [[status' id]|]; [|done]. apply wp_ret.
      split; [done|]. by destruct (status' =? 200); intros ? ? [= <- <-]. }
  intros [[[home t]|]|e] ? h' [-> Hh]; [| |done].
  - do 2 apply wp_bind. wp_step. wp_step. destruct (svc _ (GetChannels _ _)) as [mine|] eqn:Em; [|done].
    apply wp_ret. split; [done|]. intros ? ? ? [= <- <- <-]. split; [by eapply Hh|]. intros c Hc. revert Hc.
    rewrite elem_of_union, !elem_of_list_to_set, !list_elem_of_fmap.
    intros [(x & -> & Hx)|(x & -> & Hx)]; rewrite list_elem_of_In, filter_In, <- list_elem_of_In in Hx; destruct Hx as [Hx Ht];
      apply String.eqb_eq in Ht; (eapply (mm_mine mm); [exact Em|done|auto]).
  - apply wp_ret. split; [done|]. intros ? ? ? [= <- <- <-]. split; [done|]. set_solver.
Qed.
(** A look loses sight of a conversation, or keeps the posts seen. *)
Lemma relook_seen now home d g a : seen a -> (forall c, home = Some c -> ~ conversation (ch_id c)) ->
  (forall c, c ∈ d ∪ g -> conversation c) -> known a ⊆ d ∪ g -> seen (relook now home d g a).
Proof.
  intros [H1 H2 H3 H4] Hh Hdg Hsub. split; [done| | |].
  - intros p Hp. destruct (H2 p Hp) as (Hg & c & Hc & Hle). split; [done|]. exists c. split; [|done].
    unfold relook. cbn [cursors]. change (match Qeq_bool (channels_at a) 0 with true => cursors a | false =>
      gset_to_gmap 1 ((d ∪ g) ∖ known a) ∪ cursors a end !! channel_id p = Some c).
    destruct (Qeq_bool _ _); [done|]. rewrite lookup_union_r; [done|]. apply lookup_gset_to_gmap_None.
    intros [Hin Hni]%elem_of_difference. apply Hni, H3; [done|]. by apply Hdg.
  - intros p Hp Hc. change (channel_id p ∈ d ∪ g). by apply Hsub, H3.
  - intros c Hc. change (option_map ch_id home = Some c) in Hc. destruct home as [x|]; [|done]. injection Hc as <-. by apply Hh.
Qed.
Lemma look_seen now a h : seen a ->
  wp (look svc team channel now) a h (fun _ a' _ => known a ⊆ known a' -> seen a').
Proof.
  intros Hs. unfold look. apply wp_bind, wp_get. cbv beta iota. destruct (_ || _); [|by apply wp_ret].
  apply wp_bind. eapply wp_mono; [apply channels_ok|]. intros [[[home d] g]|e] ? h' [-> Hok]; [|done].
  destruct (Hok _ _ _ eq_refl) as [Hh Hdg]. apply wp_mod. intros Hsub. by apply relook_seen.
Qed.
Lemma polled_known ch a : seen a -> ch ∈ polled a -> conversation ch -> ch ∈ known a.
Proof.
  intros Hs. unfold polled. rewrite elem_of_app. intros [H|H] Hc.
  - destruct (home a) as [c|] eqn:E; [|by apply not_elem_of_nil in H]. apply list_elem_of_singleton in H as ->.
    by destruct (seen_home _ Hs _ E).
  - rewrite str_sorted_perm in H. by apply elem_of_elements in H.
Qed.
Instance same_look_preorder : PreOrder same_look.
Proof. split; [done|]. intros a b c. apply same_look_trans. Qed.
Lemma poll_channel_looks ch : keeps same_look (poll_channel uni svc ch).
Proof.
  unfold poll_channel, or_refused, latest, since, poll_post, replies_to_bot, thread, ask. keep; by apply keeps_mod.
Qed.
Lemma poll_seen a h : seen a -> wp (poll uni svc team channel) a h (fun _ a' _ => known a ⊆ known a' -> seen a').
Proof.
  intros Hs. unfold poll. apply wp_bind. wp_step. apply wp_bind. eapply wp_mono; [by apply look_seen|].
  intros [[]|e] a1 h1 H1; [|done]. apply wp_bind, wp_get. cbv beta iota. destruct (decide (known a ⊆ known a1)) as [Hsub|Hnot].
  - specialize (H1 Hsub). eapply (wp_mono _ _ _ (fun r a' _ => match r with Ok _ => seen a' /\ same_look a1 a' | Err _ => seen a' end)).
    + eapply wp_mono; [apply (wp_for (polled a1) _ a1 _ (fun a' _ => seen a' /\ same_look a1 a') (fun _ a' _ => seen a'))|]; [done| |by intros [[]|e]].
      intros ch a2 h2 Hin [Hs2 Hsame]. eapply wp_mono; [apply poll_channel_seen; [done|]|].
      * destruct Hsame as [-> _]. by apply polled_known.
      * intros [[]|e] a3 h3 [Hs3 Hsame3]; [|done]. split; [done|]. by eapply same_look_trans.
    + by intros [[]|e] a' h' H; try destruct H.
  - eapply wp_mono; [apply (keeps_for same_look); apply poll_channel_looks|]. intros r a' h' [Hk _] Hsub. by rewrite Hk in Hsub.
Qed.

(** The agent's states: a poll, whole or cut short by an error, or a step of the tasks
    that answer, which leave alone what a poll reads and writes. *)
Inductive polls : Agent -> Agent -> Prop :=
| polls_none a : polls a a
| polls_poll a a' h r h' : polls a a' -> forall a'', poll uni svc team channel a' h = (r, a'', h') ->
    known a' ⊆ known a'' -> polls a a''
| polls_tasks a a' a'' : polls a a' -> same_look a' a'' -> cursors a'' = cursors a' -> started a'' = started a' -> polls a a''.
Lemma polls_seen a a' : polls a a' -> seen a -> seen a'.
Proof.
  intros Hp Ha. induction Hp as [|a a' h r h' Hp IH a'' E Hsub|a a' a'' Hp IH [Hk Hh] Hc Hst]; [done| |].
  - pose proof (poll_seen a' h (IH Ha)) as H. unfold wp in H. rewrite E in H. by apply H.
  - destruct (IH Ha) as [H1 H2 H3 H4]. split; rewrite ?Hc, ?Hst, ?Hk, ?Hh; done.
Qed.
(** C5: no post is answered twice. From a start with nothing answered, over any number
    of polls, each of which may fail anywhere and answers as it likes, no post has two
    tasks made for it, as long as Mattermost's posts are what they are and no poll finds
    a conversation missing that was there before. *)
Theorem polls_answer_once a a' : started a = [] -> (forall h, home a = Some h -> ~ conversation h) -> polls a a' ->
  NoDup (map p_id (started a')).
Proof.
  intros Hst Hh Hp. apply seen_nodup, (polls_seen _ _ Hp). split; rewrite ?Hst; [apply NoDup_nil_2| | |done];
    by intros p ?%not_elem_of_nil.
Qed.
End Once.

(** ** Witness, and what an outage does *)

(** A Mattermost with one direct message in one post; at the polls of [outage] it finds
    neither the channel nor the team. *)
Definition demo_post : Post := mkPost "p" "d" "u" "" (txt "hello") 5 5 0 "" [].
Definition polls_begun (h : list Ev) : nat := List.length (List.filter (fun e : Ev => match projT1 e with Monotonic => true | _ => false end) h).
Definition demo_svc (outage : nat -> bool) : service Req Ans := fun h r =>
  match r return Ans r with
  | Http _ _ _ | HttpAs _ _ | HubExchange _ | HubMint _ _ | HubGet _ _ | HubDelete _ _ | GetMe | SendPost _ _ _
  | Complete _ _ _ | McpOpen _ | McpTools | McpCall _ _ | DocPages | DocText _ | PromptText => Err Failure
  | Random _ | NewCode => ""%string
  | SaveTokens | RemoveTokens | SaveLinks => tt
  | Now => 0%Q
  | Monotonic => qz (100 * Z.of_nat (S (polls_begun h)))
  | GetTeamChannel _ _ => Ok (if outage (polls_begun h) then 500 else 200, mkChannel "home" "O" "Home" "t")
  | GetTeam _ => Ok (500, "t"%string)
  | GetChannels _ _ => Ok [mkChannel "d" "D" "" ""; mkChannel "home" "O" "Home" "t"]
  | GetPosts ch (Some _) _ => Ok (if String.eqb ch "d" then [demo_post] else [])
  | GetPosts _ None _ | GetThread _ => Ok []
  end.
Definition demo_polls (outage : nat -> bool) (n : nat) : Agent * list Ev :=
  Nat.iter n (fun x : Agent * list Ev =>
    let '(_, a, h) := poll ascii_only (demo_svc outage) "team" "home" x.1 x.2 in (a, h)) (idle_agent, []).
Lemma demo_ok : mattermost_ok (demo_svc (fun _ => false)) "team" "home" (fun _ => 5) (fun _ => "d"%string) (fun c => c = "d"%string).
Proof.
  split.
  - intros h ch c n posts. destruct c; cbn; intros [= <-]; [|split; [apply NoDup_nil_2|by intros p ?%not_elem_of_nil]].
    destruct (String.eqb_spec ch "d") as [->|]; [|split; [apply NoDup_nil_2|by intros p ?%not_elem_of_nil]].
    split; [apply NoDup_singleton|]. intros p ->%list_elem_of_singleton. done.
  - by intros h status found [= <- <-].
  - intros h user t mine [= <-] c. rewrite !elem_of_cons. intros [->|[->|?%not_elem_of_nil]]; [done| |done]. by intros [H|H].
Qed.
Lemma polls_answer_once_witness :
  NoDup (map p_id (started (demo_polls (fun _ => false) 3).1)) /\ started (demo_polls (fun _ => false) 3).1 = [demo_post].
Proof.
  split; [|vm_compute; reflexivity].
  apply (polls_answer_once ascii_only (demo_svc (fun _ => false)) "team" "home" (fun _ => 5) (fun _ => "d"%string)
    (fun c => c = "d"%string) demo_ok idle_agent); [reflexivity|by intros h|].
  eapply (polls_poll _ _ _ _ _ (demo_polls (fun _ => false) 2).1 (demo_polls (fun _ => false) 2).2);
    [|vm_compute; reflexivity|by apply (bool_decide_unpack _); vm_compute].
  eapply (polls_poll _ _ _ _ _ (demo_polls (fun _ => false) 1).1 (demo_polls (fun _ => false) 1).2);
    [|vm_compute; reflexivity|by apply (bool_decide_unpack _); vm_compute].
  eapply (polls_poll _ _ _ _ _ idle_agent []);
    [|vm_compute; reflexivity|by apply (bool_decide_unpack _); vm_compute].
  apply polls_none.
Defined.
(** Where one look finds neither the channel nor the team, which [channels] answers with
    no conversations at all, the next takes every conversation for a new one: its cursor
    goes back to 1, and what people wrote there is answered again. *)
Lemma outage_answers_again : started (demo_polls (Nat.eqb 3) 4).1 = [demo_post; demo_post].
Proof. vm_compute. reflexivity. Qed.
