(* ===== verification/MmSafe.v ===== *)
(** On whose account the Mattermost agent acts, and on whose words
    ([apps/mattermost-agent/agent.py]): a monitor of what an answer asks of the model,
    the Hub and the MCP server; and what it posts ([Agent.handle]). *)
From stdpp Require Import gmap.
From S2P Require Import Prelude PyJson MmText MmLink MmAgent MmAnswer.
Open Scope Z_scope.

(** ** The monitor *)

(** The MCP session that is open, with the token it was opened with; whether the Hub last
    said that the asker's own token is someone's; the replies asked of the model. *)
Record Watch := mkWatch { opened : option (option string); vouched : bool; replies : nat }.
Definition watch0 : Watch := mkWatch None false 0.
Definition tools_of (session : option string) : gset string :=
  match session with Some _ => FACILITY_TOOLS ∪ PERSONAL_TOOLS | None => FACILITY_TOOLS end.
Definition offered (session : option (option string)) (tool : json) : bool :=
  match session, jget "name" (jget "function" tool) with
  | Some s, JStr name => String.eqb name "read_doc" || bool_decide (name ∈ tools_of s)
  | _, _ => false
  end.
Definition vouches (a : res Exc (Z * json)) : bool :=
  match a with Ok (status, _) => success status | Err _ => false end.
(** [own] is the token that the asker's link holds, and [dm] whether they ask in a direct
    message. An answer opens one session, as the service, or with that token once the Hub
    vouched for it; it offers and calls only the tools of that session, asks for
    [MAX_TURNS] replies after the first at most, makes a link only in a direct message,
    and neither posts nor finishes a link. *)
Definition answer_step (dm : bool) (own : option string) (w : Watch) (e : Ev) : option Watch :=
  match e with
  | existT r a =>
      match r return Ans r -> option Watch with
      | HubGet token _ => fun a => Some (mkWatch (opened w) (bool_decide (own = Some token) && vouches a) (replies w))
      | McpOpen token => fun _ =>
          if match opened w with Some _ => false | None => true end
             && match token with Some t => vouched w && bool_decide (own = Some t) | None => true end
          then Some (mkWatch (Some token) (vouched w) (replies w)) else None
      | McpCall name _ => fun _ =>
          if match opened w with Some s => bool_decide (name ∈ tools_of s) | None => false end then Some w else None
      | Complete _ tools _ => fun _ =>
          if Nat.leb (replies w) MAX_TURNS && forallb (offered (opened w)) tools
          then Some (mkWatch (opened w) (vouched w) (S (replies w))) else None
      | Random _ => fun _ => if dm then Some w else None
      | SendPost _ _ _ | Http _ _ _ | HttpAs _ _ | HubExchange _ | HubMint _ _ | HubDelete _ _ => fun _ => None
      | _ => fun _ => Some w
      end a
  end.

Section Safe.
Context (uni : Unicode) (svc : service Req Ans) (public_url : string).
Context (loads : string -> option json) (py_str py_repr : json -> text) (repr_text : text -> text).
(** The asker, and the link they have when the answer begins: it stays or goes. *)
Context (user : string) (link0 : option Link).
Definition own : option string := option_map l_token link0.
Context (own_some : own <> Some ""%string).
Definition PL (l : Linking) : Prop := dget user (linked l) = None \/ dget user (linked l) = link0.
Context (asked_in : string) (dm : bool).
Definition P (a : Agent) : Prop := PL (linking a) /\ bool_decide (asked_in ∈ direct a) = dm.
Local Abbreviation step := (answer_step dm own).

(** Runs that are nothing to the monitor. *)
Definition idle (w : Watch) {A} (c : AgM A) : Prop := monp P step w c (fun _ w' => w' = w).
Definition lidle (w : Watch) {A} (c : LM A) : Prop := monp PL step w c (fun _ w' => w' = w).
Lemma idle_ret w {A} (a : A) : idle w (mret a : AgM A).
Proof. by apply monp_ret. Qed.
Lemma idle_raise w {A} e : idle w (raise e : AgM A).
Proof. by apply monp_raise. Qed.
Lemma idle_lift w {A} (r : res Exc A) : idle w (mlift r : AgM A).
Proof. by apply monp_lift. Qed.
Lemma idle_get w : idle w (mget : AgM Agent).
Proof. by apply monp_get. Qed.
Lemma idle_bind w {A B} (c : AgM A) (f : A -> AgM B) : idle w c -> (forall a, idle w (f a)) -> idle w (c ≫= f).
Proof. intros Hc Hf. apply monp_bind. eapply monp_mono; [exact Hc|]. intros [a|e] w' ->; [apply Hf|done]. Qed.
Lemma idle_catch w {A} (c : AgM A) f : idle w c -> (forall e, idle w (f e)) -> idle w (mcatch c f).
Proof. intros Hc Hf. apply monp_catch. eapply monp_mono; [exact Hc|]. intros [a|e] w' ->; [done|apply Hf]. Qed.
Lemma idle_call w r : (forall a, step w (existT r a) = Some w) -> idle w (mcall svc r : AgM (Ans r)).
Proof. intros H. apply monp_call. intros a. by exists w. Qed.
Lemma idle_ask w {A} (c : AgM (res Exc A)) : idle w c -> idle w (ask c).
Proof. intros H. apply idle_bind; [done|]. intros r. apply idle_lift. Qed.
Lemma monp_linking w {A} (c : LM A) (Q : res Exc A -> Watch -> Prop) : monp PL step w c Q -> monp P step w (on_linking c) Q.
Proof.
  intros H a h [Ha Hd]. specialize (H (linking a) h Ha). unfold wp, on_linking in *. destruct (c (linking a) h) as [[r l] h'].
  destruct H as [Hl H]. by split; [split|].
Qed.
Lemma idle_linking w {A} (c : LM A) : lidle w c -> idle w (on_linking c).
Proof. apply monp_linking. Qed.
Lemma lidle_bind w {A B} (c : LM A) (f : A -> LM B) : lidle w c -> (forall a, lidle w (f a)) -> lidle w (c ≫= f).
Proof. intros Hc Hf. apply monp_bind. eapply monp_mono; [exact Hc|]. intros [a|e] w' ->; [apply Hf|done]. Qed.
Lemma lidle_call w r : (forall a, step w (existT r a) = Some w) -> lidle w (mcall svc r : LM (Ans r)).
Proof. intros H. apply monp_call. intros a. by exists w. Qed.
Lemma idle_use w {A} (c : AgM A) (Q : res Exc A -> Watch -> Prop) : idle w c -> (forall r, Q r w) -> monp P step w c Q.
Proof. intros H HQ. eapply monp_mono; [exact H|]. by intros r w' ->. Qed.
Ltac idle :=
  repeat first
    [ solve [auto using idle_ret, idle_raise, idle_lift, idle_get]
    | apply idle_bind | apply idle_catch | apply idle_ask | apply idle_linking | apply lidle_bind
    | lazymatch goal with |- forall _, _ => intro end
    | lazymatch goal with
      | |- idle ?w (mcall _ ?r) => refine (idle_call w r _); intros ?; reflexivity
      | |- lidle ?w (mcall _ ?r) => refine (lidle_call w r _); intros ?; reflexivity
      | |- lidle _ (mret _) => by apply monp_ret
      | |- lidle _ mget => by apply monp_get
      | |- idle _ (if ?b then _ else _) => destruct b
      | |- idle _ (match ?b with _ => _ end) => destruct b
      end ].

(** ** The parts of an answer *)

Lemma PL_forget l : PL l -> PL (l <| linked := ddel user (linked l) |>).
Proof. intros _. left. change (dget user (ddel user (linked l)) = None). apply dget_ddel. Qed.
Lemma forget_idle w : lidle w (forget svc user).
Proof.
  unfold forget, save. apply monp_bind, monp_get. intros l Hl. apply monp_bind, monp_put; [by apply PL_forget|].
  destruct (dhas user (linked l)); [|by apply monp_ret]. by refine (lidle_call w SaveLinks _).
Qed.
(** A token that [link_token] gives is the asker's own. *)
Lemma link_token_own w : monp PL step w (link_token svc user) (fun r w' => w' = w /\ forall t, r = Ok (Some t) -> own = Some t).
Proof.
  unfold link_token. apply monp_bind, monp_get. intros l Hl. destruct (dget user (linked l)) as [entry|] eqn:E; [|by apply monp_ret].
  apply monp_bind. refine (monp_mono _ _ _ _ (fun _ w' => w' = w) _ (lidle_call w Now (fun _ => eq_refl)) _).
  intros [now|e] w' ->; [|done]. destruct (now <?q _).
  - apply monp_ret. split; [done|]. intros t [= <-]. destruct Hl as [Hl|Hl]; [congruence|]. unfold own. by rewrite <- Hl, E.
  - apply monp_bind. eapply monp_mono; [apply forget_idle|]. intros [[]|e] w' ->; [by apply monp_ret|done].
Qed.
Lemma until_idle w : lidle w (until svc user).
Proof.
  unfold until. apply monp_bind. eapply monp_mono; [apply link_token_own|]. intros [[t|]|e] w' [-> _]; [|by apply monp_ret|done].
  apply lidle_bind; idle.
Qed.
Lemma link_url_idle w : dm = true -> lidle w (link_url svc public_url user).
Proof.
  intros Hdm. unfold link_url, save. apply lidle_bind; [idle|]. intros now. apply lidle_bind; [by apply monp_mod|]. intros _.
  apply lidle_bind; [apply (lidle_call w (Random 32)); intros state; cbn; by rewrite Hdm|]. intros state. apply lidle_bind; [idle|]. intros now'. apply lidle_bind; [by apply monp_mod|]. idle.
Qed.
Lemma index_idle w : idle w (index uni svc).
Proof.
  assert (Hl : forall l, idle w (index_lines uni svc l)).
  { induction l as [|name l IH]; cbn [index_lines]; [idle|]. apply idle_bind; [idle|]. intros page. apply idle_bind; [exact IH|]. idle. }
  unfold index, pages. apply idle_bind; [idle|]. intros l. apply idle_bind; [apply Hl|]. idle.
Qed.
Lemma system_idle w personal private_ until_ : idle w (system_text uni svc personal private_ until_).
Proof. unfold system_text. apply idle_bind; [idle|]. intros prompt. apply idle_bind; [apply index_idle|]. idle. Qed.
Lemma read_idle w page : idle w (read svc repr_text page).
Proof. unfold read, pages. idle. Qed.
Lemma item_idle w key j : idle w (item key j).
Proof. unfold item. idle. Qed.
Lemma get_idle w key j : idle w (get key j).
Proof. unfold get. idle. Qed.
Lemma first_item_idle w j : idle w (first_item j).
Proof. unfold first_item. idle. Qed.
Lemma conversation_idle w post : idle w (conversation svc post).
Proof. unfold conversation, recent, thread. idle. Qed.

(** What is asked of the model counts as one more reply, and offers what the session has. *)
Definition counted (w : Watch) : Watch := mkWatch (opened w) (vouched w) (S (replies w)).
Lemma complete_counted w messages tools session : (replies w <= MAX_TURNS)%nat -> forallb (offered (opened w)) tools = true ->
  monp P step w (complete svc messages tools session) (fun _ w' => w' = counted w).
Proof.
  intros Hn Ht. unfold complete, ask. apply monp_bind, monp_bind.
  refine (monp_call _ _ _ svc (Complete messages tools session) _ _). intros a. exists (counted w). split.
  { cbn -[MAX_TURNS offered]. by rewrite (proj2 (Nat.leb_le _ _) Hn), Ht. }
  apply monp_lift. destruct a as [[status body]|e]; [|done].
  assert (H : idle (counted w) (if negb (success status) then raise (HttpError (Some status))
    else choices ← item "choices" body; choice ← first_item choices; item "message" choice)).
  { destruct (negb _); [idle|]. apply idle_bind; [apply item_idle|]. intros c.
    apply idle_bind; [apply first_item_idle|]. intros d. apply item_idle. }
  exact H.
Qed.
Lemma named_in w name names : monp P step w (named name names) (fun r w' => w' = w /\ (r = Ok true -> jstr name ∈ names)).
Proof.
  unfold named. destruct name; first [by apply monp_ret | by apply monp_raise | idtac].
  apply monp_ret. split; [done|]. cbn. intros [= H]. by apply bool_decide_eq_true in H.
Qed.
Lemma call_idle w session allowed name arguments : opened w = Some session -> allowed ⊆ tools_of session ->
  idle w (call svc loads py_str py_repr repr_text name arguments allowed).
Proof.
  intros Ho Hsub. unfold call, parsed. apply idle_catch; [|intros e; idle]. apply idle_bind; [idle|]. intros args.
  destruct (jeq_str name "read_doc"); [apply idle_bind; [apply get_idle|]; intros page; apply idle_bind; [apply read_idle|]; idle|].
  apply monp_bind. eapply monp_mono; [apply named_in|]. intros [ok|e] w' [-> Hok]; [|done].
  destruct ok; cbn [negb]; [|by apply monp_ret]. apply idle_bind; [|idle]. apply idle_ask.
  refine (idle_call w (McpCall (jstr name) args) _). intros a. cbn. rewrite Ho. rewrite bool_decide_true; [done|]. by apply Hsub, Hok.
Qed.
Lemma run_calls_idle w session allowed ran l : opened w = Some session -> allowed ⊆ tools_of session ->
  idle w (run_calls svc loads py_str py_repr repr_text allowed ran l).
Proof.
  intros Ho Hsub. revert ran. induction l as [|c l IH]; intros ran; cbn [run_calls]; [idle|].
  apply idle_bind; [|intros [ran' result]; apply idle_bind; [apply IH|idle]].
  unfold run_call, named. do 2 (apply idle_bind; [apply item_idle|]; intros ?). apply idle_bind; [idle|]. intros personal.
  apply idle_bind; [by eapply call_idle|]. intros content. apply idle_bind; [apply item_idle|]. idle.
Qed.
Lemma turns_safe left session tools allowed root messages ran w : opened w = Some session -> allowed ⊆ tools_of session ->
  forallb (offered (Some session)) tools = true -> (replies w + left <= S MAX_TURNS)%nat ->
  monp P step w (turns uni svc loads py_str py_repr repr_text left tools allowed root messages ran) (fun _ _ => True).
Proof.
  intros Ho Hsub Ht. revert messages ran w Ho. induction left as [|left IH]; intros messages ran w Ho Hn; cbn [turns]; [by apply monp_ret|].
  cbv zeta. apply monp_bind. eapply monp_mono; [apply complete_counted; [lia|]|].
  { rewrite Ho. by destruct (Nat.eqb left 0). }
  intros [reply|e] w' ->; [|done]. apply monp_bind. apply idle_use; [destruct (Nat.eqb left 0); [idle|apply get_idle]|].
  intros [calls|e]; [|done]. apply monp_bind, idle_use; [apply get_idle|]. intros [content|e]; [|done].
  destruct (negb (truthy calls)); [by apply monp_ret|]. destruct calls; try by apply monp_raise.
  apply monp_bind, idle_use; [by eapply run_calls_idle|]. intros [[ran' results]|e]; [|done].
  apply IH; [done|]. cbn. lia.
Qed.
Lemma offered_tools session tools : forallb (offered (Some session)) (read_doc_tool ::
  map openai_tool (List.filter (fun t => bool_decide (t_name t ∈ tools_of session)) tools)) = true.
Proof.
  cbn [forallb]. apply andb_true_iff. split; [done|]. apply forallb_forall. intros j (t & <- & Ht)%in_map_iff. apply filter_In in Ht as [_ Ht].
  change (String.eqb (t_name t) "read_doc" || bool_decide (t_name t ∈ tools_of session) = true). by rewrite Ht, orb_true_r.
Qed.
Lemma converse_safe thread post root token w : user_id post = user -> opened w = None -> (replies w <= 1)%nat ->
  (forall t, token = Some t -> own = Some t /\ vouched w = true) ->
  monp P step w (converse uni svc loads py_str py_repr repr_text thread post root token) (fun _ _ => True).
Proof.
  intros Hu Ho Hn Ht. unfold converse. cbv zeta. rewrite Hu. apply monp_bind, idle_use; [apply idle_linking, until_idle|].
  intros [until_|e]; [|done]. apply monp_bind, monp_get. intros a Ha. apply monp_bind, idle_use; [apply system_idle|].
  intros [system|e]; [|done]. set (asked := match token with Some t => if String.eqb t "" then None else token | None => None end).
  assert (Heq : asked = token).
  { unfold asked. destruct token as [t|]; [|done]. destruct (String.eqb_spec t "") as [->|]; [|done].
    by destruct (Ht _ eq_refl) as [H _]. }
  rewrite Heq. apply monp_bind. unfold ask at 1. apply monp_bind. refine (monp_call _ _ _ svc (McpOpen token) _ _). intros ans.
  exists (mkWatch (Some token) (vouched w) (replies w)). split.
  { cbn. rewrite Ho. destruct token as [t|]; [|done]. destruct (Ht _ eq_refl) as [H1 H2]. rewrite H2, bool_decide_true by done. done. }
  apply monp_lift. destruct ans as [[]|e]; [|done]. set (w1 := mkWatch _ _ _).
  apply monp_bind, idle_use; [idle|]. intros [listed|e]; [|done]. apply monp_bind.
  assert (Hallowed : (if match token with Some _ => true | None => false end then FACILITY_TOOLS ∪ PERSONAL_TOOLS else FACILITY_TOOLS)
    = tools_of token) by (by destruct token).
  rewrite Hallowed. eapply monp_mono; [apply (turns_safe MAX_TURNS token); [done|done|apply offered_tools|cbn; lia]|].
  intros [[[t|] ran]|e] w' _; [by apply monp_ret|by destruct ran; apply monp_ret|done].
Qed.

Lemma intent_counted w thread post : (replies w <= MAX_TURNS)%nat ->
  monp P step w (intent uni svc py_str thread post) (fun _ w' => w' = counted w).
Proof.
  intros Hn. unfold intent. apply monp_bind, monp_get. intros a Ha. cbv zeta. apply monp_bind, monp_catch, monp_bind.
  eapply monp_mono; [by apply complete_counted|]. intros [reply|e] w' ->.
  - apply monp_ret. apply idle_bind; [apply get_idle|]. intros content. idle.
  - destruct e; try (by apply monp_raise); apply monp_ret, idle_ret.
Qed.
Lemma owner_vouches w token :
  monp PL step w (owner svc token) (fun r w' => opened w' = opened w /\ replies w' = replies w /\
    forall name, r = Ok (Some name) -> own = Some token -> vouched w' = true).
Proof.
  unfold owner, answered. apply monp_bind, monp_bind. refine (monp_call _ _ _ svc (HubGet token "/user") _ _).
  intros ans. eexists. split; [reflexivity|]. apply monp_lift. destruct ans as [[status body]|e]; [|done].
  destruct (bool_decide ((status, body).1 ∈ _)); [by apply monp_ret|]. apply monp_bind. unfold checked, field. cbn [fst snd].
  destruct (success status) eqn:Es; [|by apply monp_raise]. apply monp_ret, monp_bind.
  destruct (jhas _ _); [|by apply monp_raise]. do 2 apply monp_ret. split; [done|]. split; [done|]. intros name _ Hown. cbn.
  by rewrite Es, bool_decide_true.
Qed.
Lemma own_token_vouched w post : user_id post = user ->
  monp P step w (own_token svc post) (fun r w' => opened w' = opened w /\ replies w' = replies w /\
    forall t, r = Ok (Some t) -> own = Some t /\ vouched w' = true).
Proof.
  intros Hu. unfold own_token. rewrite Hu. apply monp_bind, monp_linking. eapply monp_mono; [apply link_token_own|].
  intros [[t|]|e] w' [-> Ht]; [|by apply monp_ret|done]. apply monp_bind, monp_linking.
  eapply monp_mono; [apply owner_vouches|]. intros [who|e] w' (Ho & Hr & Hv); [|done]. apply monp_ret.
  split; [done|]. split; [done|]. intros t' H. destruct who as [name|]; [|done]. injection H as <-. split; [by apply Ht|].
  by eapply Hv; [|apply Ht].
Qed.
(** The two commands that the model's word can give. *)
Lemma command_idle w post what : user_id post = user -> channel_id post = asked_in -> text_eqb what "link" || text_eqb what "unlink" = true ->
  idle w (command uni svc public_url post what).
Proof.
  intros Hu Hch Hw. unfold command. cbv zeta. rewrite Hu. apply monp_bind, monp_get. intros a [_ Hd]. rewrite Hch, Hd.
  destruct (negb dm) eqn:Hn; [by apply monp_ret|]. apply negb_false_iff in Hn.
  apply orb_true_iff in Hw. unfold text_eqb in Hw. rewrite !bool_decide_eq_true in Hw. destruct Hw as [-> | ->].
  - change (text_eqb (lower uni (txt "link")) "unlink") with false. change (text_eqb (lower uni (txt "link")) "link") with true.
    apply idle_bind; [by apply idle_linking, link_url_idle|]. idle.
  - change (text_eqb (lower uni (txt "unlink")) "unlink") with true. cbv iota. apply idle_bind.
    + apply idle_linking. eapply monp_mono; [apply link_token_own|]. by intros r w' [-> _].
    + intros [t|]; [|idle]. apply idle_bind; [apply idle_linking, forget_idle|]. idle.
Qed.
Lemma answer_monitored post : user_id post = user -> channel_id post = asked_in ->
  monp P step watch0 (answer uni svc public_url loads py_str py_repr repr_text post) (fun _ _ => True).
Proof.
  intros Hu Hch. unfold answer. cbv zeta. apply monp_bind, idle_use; [apply conversation_idle|]. intros [thread|e]; [|done].
  apply monp_bind. eapply monp_mono; [apply intent_counted; unfold watch0; cbn; lia|]. intros [what|e] w ->; [|done].
  destruct (text_eqb what "link" || _) eqn:Ew; [by apply idle_use; [apply command_idle|]|].
  destruct (text_eqb what "personal"); [|by apply converse_safe].
  apply monp_bind. eapply monp_mono; [by apply own_token_vouched|]. intros [[t|]|e] w' (Ho & Hr & Ht); [| |done].
  - apply converse_safe; [done|done|rewrite Hr; cbn; lia|]. intros t' [= <-]. by apply Ht.
  - rewrite Hu. apply monp_bind, idle_use; [apply idle_linking, forget_idle|]. intros [[]|e]; [by apply monp_ret|done].
Qed.
End Safe.

(** C1: an answer acts for nobody but the asker. Whatever the model replies and however
    long it goes on, one MCP session is opened at most: as the service, which offers and
    runs the facility's tools alone, or with the token of the asker's own link, after
    the Hub, asked about this token, said whose it is; only then are the tools offered or
    run that act on an account. The model gives the intent and [MAX_TURNS] replies at
    most; a link is made only where the question came in a direct message; and no answer
    finishes a link or posts by itself. *)
Theorem answer_acts_for_asker uni svc public_url loads py_str py_repr repr_text post a h :
  option_map l_token (dget (user_id post) (linked (linking a))) <> Some ""%string ->
  wp (answer uni svc public_url loads py_str py_repr repr_text post) a h (fun _ _ h' => exists t w, h' = h ++ t /\
    ofold (answer_step (bool_decide (channel_id post ∈ direct a)) (option_map l_token (dget (user_id post) (linked (linking a))))) watch0 t = Some w).
Proof.
  intros Hown. eapply wp_mono; [apply (answer_monitored uni svc public_url loads py_str py_repr repr_text (user_id post)
    (dget (user_id post) (linked (linking a))) Hown (channel_id post) (bool_decide (channel_id post ∈ direct a)) post eq_refl eq_refl);
    split; [by right|done]|].
  intros r a' h' (_ & t & w & -> & Ht & _). by exists t, w.
Qed.

(** ** Witness *)

(** A linked person asks for their jobs; the model lists them and says so. *)
Definition reply_json (content : json) (calls : list json) : json :=
  JObj [("choices", JArr [JObj [("message", JObj [("content", content); ("tool_calls", JArr calls)])]])]%string.
Definition list_call : json := JObj
  [("id", JStr "c1"); ("function", JObj [("name", JStr "list_ray_jobs"); ("arguments", JStr "")])]%string.
Definition replies_asked (h : list Ev) : nat :=
  List.length (List.filter (fun e : Ev => match projT1 e with Complete _ _ _ => true | _ => false end) h).
Definition my_jobs : Post := mkPost "p" "d" "u" "" (txt "what are my jobs?") 5 5 0 "" [].
Definition linked_agent : Agent :=
  mkAgent "bot" (txt "af-bot") None {["d"%string]} ∅ 0 ∅ ∅ ∅ [] 0 (mkOAuth None [] false)
    (mkLinking [("u"%string, mkLink "tok" "id" "jdoe" 100)] [] []).
Definition jobs_svc : service Req Ans := fun h r =>
  match r return Ans r with
  | Http _ _ _ | HttpAs _ _ | HubExchange _ | HubMint _ _ | HubDelete _ _ | GetMe
  | GetTeamChannel _ _ | GetTeam _ | GetChannels _ _ | GetThread _ => Err Failure
  | SendPost _ _ _ | McpOpen _ => Ok tt
  | HubGet _ _ => Ok (200, JObj [("name", JStr "jdoe")]%string)
  | Random _ | NewCode => ""%string
  | SaveTokens | RemoveTokens | SaveLinks => tt
  | Now | Monotonic => 10%Q
  | GetPosts _ _ _ => Ok [my_jobs]
  | Complete _ _ _ => Ok (200,
      match replies_asked h with
      | O => reply_json (JStr "personal") []
      | S O => reply_json JNull [list_call]
      | _ => reply_json (JStr "You have none.") []
      end)
  | McpTools => Ok [mkTool "list_ray_jobs" "" JNull; mkTool "submit_ray_job" "" JNull]
  | McpCall _ _ => Ok [txt "[]"]
  | DocPages => Ok []
  | DocText _ | PromptText => Ok []
  end.
Definition demo_answer : res Exc text * Agent * list Ev :=
  answer ascii_only jobs_svc "https://af" (fun _ => None) (fun j => txt (jstr j)) (fun j => txt (jstr j)) id my_jobs linked_agent [].
Definition opened_and_called (h : list Ev) : list (string + option string) :=
  flat_map (fun e : Ev => match projT1 e with McpCall name _ => [inl name] | McpOpen token => [inr token] | _ => [] end) h.
Lemma answer_acts_for_asker_witness :
  demo_answer.1.1 = Ok (txt "You have none.") /\
  opened_and_called demo_answer.2 = [inr (Some "tok"); inl "list_ray_jobs"]%string /\
  exists w, ofold (answer_step true (Some "tok"%string)) watch0 demo_answer.2 = Some w.
Proof.
  split; [vm_compute; reflexivity|]. split; [vm_compute; reflexivity|].
  destruct (wp_run _ _ _ _ (answer_acts_for_asker ascii_only jobs_svc "https://af" (fun _ => None) (fun j => txt (jstr j))
    (fun j => txt (jstr j)) id my_jobs linked_agent [] ltac:(discriminate))) as (t & w & Ht & Hw).
  exists w. rewrite <- Hw. apply (f_equal (ofold _ _)). exact Ht.
Defined.

(** * What it posts, and whose words it acts on *)

(** ** Whose words *)

Definition by_author (post p : Post) : bool := String.eqb (user_id p) (user_id post).
Definition by_author_or_bot (a : Agent) (post p : Post) : bool := by_author post p || String.eqb (user_id p) (me a).
Lemma filter_and {A} (p q : A -> bool) l : List.filter (fun x => p x && q x) l = List.filter p (List.filter q l).
Proof. induction l as [|x l IH]; cbn; [done|]. destruct (q x); cbn; destruct (p x); cbn; by rewrite ?IH. Qed.
Lemma filter_swap {A} (p q : A -> bool) l : List.filter p (List.filter q l) = List.filter q (List.filter p l).
Proof. rewrite <- !filter_and. induction l as [|x l IH]; cbn; [done|]. rewrite IH. by rewrite andb_comm. Qed.
Lemma filter_weaker {A} (p q : A -> bool) l : (forall x, p x = true -> q x = true) -> List.filter p (List.filter q l) = List.filter p l.
Proof.
  intros H. rewrite <- filter_and. induction l as [|x l IH]; cbn; [done|]. rewrite IH.
  destruct (p x) eqn:E; [by rewrite (H x E)|done].
Qed.
Lemma bind_same {Ev St E A B} (c : M Ev St E A) (f g : A -> M Ev St E B) s h :
  (forall x s' h', c s h = (Ok x, s', h') -> f x s' h' = g x s' h') -> (c ≫= f) s h = (c ≫= g) s h.
Proof. intros H. unfold mbind, m_bind. destruct (c s h) as [[[x|e] s'] h'] eqn:Er; [by apply H|done]. Qed.

Section Words.
Context (uni : Unicode) (svc : service Req Ans) (public_url : string).
Context (loads : string -> option json) (py_str py_repr : json -> text) (repr_text : text -> text).

Lemma intent_text_same a th th' post :
  List.filter (by_author post) th = List.filter (by_author post) th' -> intent_text uni a th post = intent_text uni a th' post.
Proof.
  intros H. unfold intent_text. do 4 f_equal. rewrite !(filter_and (by_author post)), !(filter_swap (by_author post)). by rewrite H.
Qed.
Lemma thread_messages_same a th th' post :
  List.filter (by_author_or_bot a post) th = List.filter (by_author_or_bot a post) th' ->
  thread_messages uni a th post true = thread_messages uni a th' post true.
Proof.
  intros H. unfold thread_messages. do 2 f_equal. change (List.filter _ (List.filter _ ?l)) with
    (List.filter (by_author_or_bot a post) (List.filter (fun p => create_at p <=? create_at post) l)).
  rewrite !(filter_swap (by_author_or_bot a post)). by rewrite H.
Qed.
(** C27: what acts on a person's account has only that person's words, and the agent's own,
    to go by. Two conversations with the same posts of the asker and of the agent, whatever
    others wrote in them, give the same intent, and the same run with the asker's token:
    the same requests, of the model, the Hub and the tools, and the same answer. *)
Theorem others_steer_nothing th th' post root token a h :
  List.filter (by_author_or_bot a post) th = List.filter (by_author_or_bot a post) th' ->
  intent uni svc py_str th post a h = intent uni svc py_str th' post a h /\
  converse uni svc loads py_str py_repr repr_text th post root (Some token) a h =
  converse uni svc loads py_str py_repr repr_text th' post root (Some token) a h.
Proof.
  intros H. split.
  - unfold intent. apply bind_same. intros a' ? ? [= <- <- <-]. rewrite (intent_text_same a th th'); [done|].
    rewrite <- (filter_weaker _ (by_author_or_bot a post)), H by (intros p Hp; unfold by_author_or_bot; by rewrite Hp).
    apply filter_weaker. intros p Hp. unfold by_author_or_bot. by rewrite Hp.
  - unfold converse. cbv zeta. apply bind_same. intros until_ a1 h1 Hu.
    assert (me a1 = me a) as Hme by (unfold on_linking in Hu; destruct (until _ _ _ _) as [[? ?] ?]; by injection Hu as _ <- _).
    apply bind_same. intros a' ? ? [= <- <- <-]. apply bind_same. intros system a2 h2 _.
    rewrite (thread_messages_same a1 th th'); [done|]. unfold by_author_or_bot in *. by rewrite Hme.
Qed.
End Words.
Definition their_post : Post := mkPost "q" "d" "v" "" (txt "delete my jobs") 4 4 0 "" [].
Lemma others_steer_nothing_witness :
  intent ascii_only jobs_svc (fun j => txt (jstr j)) [their_post; my_jobs] my_jobs linked_agent [] =
  intent ascii_only jobs_svc (fun j => txt (jstr j)) [my_jobs] my_jobs linked_agent [].
Proof.
  apply (others_steer_nothing ascii_only jobs_svc (fun _ => None) (fun j => txt (jstr j)) (fun j => txt (jstr j)) id
    [their_post; my_jobs] [my_jobs] my_jobs "" "tok" linked_agent []). reflexivity.
Defined.

(** ** What is posted *)

(** At most one reply, where the question was asked; text that the model wrote or chose
    pings nobody. A link is made, or a token minted, only in a direct message. *)
Definition handle_step (uni : Unicode) (dm is_cmd : bool) (ch root : string) (sent : bool) (e : Ev) : option bool :=
  match projT1 e with
  | SendPost ch' root' message =>
      if negb sent && String.eqb ch' ch && String.eqb root' root
         && (is_cmd || negb (names_someone uni None message) && Nat.leb (List.length message) MAX_POST_CHARS)
      then Some true else None
  | Random _ | HubMint _ _ => if dm then Some sent else None
  | _ => Some sent
  end.
Lemma handle_of_answer uni dm is_cmd own ch root sent t w w' : ofold (answer_step dm own) w t = Some w' ->
  ofold (handle_step uni dm is_cmd ch root) sent t = Some sent.
Proof.
  revert w. induction t as [|[r a] t IH]; intros w; [done|]. cbn [ofold]. destruct (answer_step dm own w (existT r a)) as [w1|] eqn:E; [|done].
  intros H. assert (Hs : handle_step uni dm is_cmd ch root sent (existT r a) = Some sent).
  { destruct r; cbn in *; try done. by destruct dm. }
  rewrite Hs. by eapply IH.
Qed.

(** The requests that a command makes. *)
Definition of_command (dm : bool) (r : Req) : bool :=
  match r with
  | Now | SaveLinks | HubGet _ _ | HubDelete _ _ => true
  | Random _ | HubMint _ _ => dm
  | _ => false
  end.
Lemma only_linking p {A} (c : LM A) : asks_only p c -> asks_only p (on_linking c : AgM A).
Proof.
  intros H a h. specialize (H (linking a) h). unfold wp, on_linking in *. by destruct (c (linking a) h) as [[r l] h'].
Qed.
Lemma command_asks uni svc public_url post cmd a h : asks_only (of_command true) (command uni svc public_url post cmd) /\
  wp (command uni svc public_url post cmd) a h (fun _ _ h' => bool_decide (channel_id post ∈ direct a) = false -> h' = h).
Proof.
  split.
  - unfold command, link_token, forget, link_url, confirm, mint, retire, retire_token, answered, checked, field, save.
    repeat (asks; try apply only_linking).
  - unfold command. cbv zeta. apply wp_bind, wp_get. cbv beta iota. destruct (bool_decide _); cbn [negb]; [|by apply wp_ret].
    unfold wp. by destruct (_ a h) as [[? ?] ?].
Qed.

Section Handle.
Context (uni : Unicode) (zwsp_no_word : hi_word uni ZWSP = false) (svc : service Req Ans) (public_url : string).
Context (loads : string -> option json) (py_str py_repr : json -> text) (repr_text : text -> text).

Lemma answered_text_ok t : names_someone uni None (answered_text uni t) = false /\
  (List.length (answered_text uni t) <= MAX_POST_CHARS)%nat.
Proof.
  unfold answered_text. destruct (clean uni t) as [|c t'] eqn:E; [split; [reflexivity|vm_compute; lia]|].
  rewrite <- E. split; [apply names_take, break_names_none; done|apply firstn_le_length].
Qed.
Lemma asks_handle_step dm is_cmd ch root sent t : ofold (only (of_command true)) tt t = Some tt -> dm = true ->
  ofold (handle_step uni dm is_cmd ch root) sent t = Some sent.
Proof.
  intros H ->. induction t as [|[r x] t IH]; [done|]. cbn [ofold] in *.
  destruct (only _ tt (existT r x)) as [[]|] eqn:E; [|done]. assert (Hs : handle_step uni true is_cmd ch root sent (existT r x) = Some sent) by (by destruct r).
  rewrite Hs. by apply IH.
Qed.
(** A reply, after which there is nothing. *)
Lemma wp_reply dm is_cmd post root message a h0 t :
  ofold (handle_step uni dm is_cmd (channel_id post) root) false t = Some false ->
  is_cmd || negb (names_someone uni None message) && Nat.leb (List.length message) MAX_POST_CHARS = true ->
  wp (reply svc post root message) a (h0 ++ t) (fun _ _ h' => exists t' sent, h' = h0 ++ t' /\
    ofold (handle_step uni dm is_cmd (channel_id post) root) false t' = Some sent).
Proof.
  intros Ht Hm. unfold reply, ask. apply wp_bind. wp_step. wp_step.
  eexists (t ++ [existT (SendPost (channel_id post) root message) _]), true. split; [by rewrite app_assoc|].
  rewrite ofold_app, Ht. cbn. by rewrite !String.eqb_refl, Hm.
Qed.
Lemma question_replies post root is_cmd a h t :
  option_map l_token (dget (user_id post) (linked (linking a))) <> Some ""%string ->
  ofold (handle_step uni (bool_decide (channel_id post ∈ direct a)) is_cmd (channel_id post) root) false t = Some false ->
  wp (handle_question uni svc public_url loads py_str py_repr repr_text post root) a (h ++ t) (fun _ _ h' => exists t' sent, h' = h ++ t' /\
    ofold (handle_step uni (bool_decide (channel_id post ∈ direct a)) is_cmd (channel_id post) root) false t' = Some sent).
Proof.
  intros Hown Ht. unfold handle_question. cbv zeta. apply wp_bind. wp_step. apply wp_bind, wp_get. cbv beta iota.
  rewrite <- app_assoc. set (t1 := t ++ _).
  assert (Ht1 : ofold (handle_step uni (bool_decide (channel_id post ∈ direct a)) is_cmd (channel_id post) root) false t1 = Some false).
  { unfold t1. by rewrite ofold_app, Ht. }
  set (now := svc _ Monotonic). destruct (allowed (user_id post) now a) as [ok a1] eqn:E.
  assert (linking a1 = linking a /\ direct a1 = direct a) as [Hl Hd].
  { unfold allowed in E. destruct (Nat.leb _ _); by injection E as _ <-. }
  apply wp_bind, wp_put. destruct ok; cbn [negb].
  - apply wp_bind, wp_catch. rewrite <- Hl in Hown. rewrite <- Hd.
    eapply wp_mono; [apply (answer_monitored uni svc public_url loads py_str py_repr repr_text (user_id post)
      (dget (user_id post) (linked (linking a1))) Hown (channel_id post) (bool_decide (channel_id post ∈ direct a1)) post eq_refl eq_refl);
      split; [by right|done]|].
    intros r a2 h2 (_ & t2 & w & -> & Hw & _). rewrite <- app_assoc.
    assert (Ht2 : ofold (handle_step uni (bool_decide (channel_id post ∈ direct a1)) is_cmd (channel_id post) root) false (t1 ++ t2) = Some false).
    { rewrite ofold_app, Hd, Ht1. rewrite <- Hd. by eapply handle_of_answer. }
    assert (Htext : forall x, is_cmd || negb (names_someone uni None (answered_text uni x)) &&
      Nat.leb (List.length (answered_text uni x)) MAX_POST_CHARS = true).
    { intros x. destruct (answered_text_ok x) as [H1 H2]. rewrite H1, (proj2 (Nat.leb_le _ _) H2). apply orb_true_r. }
    destruct r as [x|e]; [|apply wp_ret]; by apply wp_reply.
  - destruct (bool_decide (user_id post ∈ warned a1)); [apply wp_ret; by exists t1, false|].
    apply wp_bind, wp_mod. apply wp_reply; [done|]. apply orb_true_iff. right. reflexivity.
Qed.
(** A post is answered once at most, where it was asked: whatever happens on the way,
    [handle] sends at most one reply, to the post's channel and under its thread's root
    (its own post, in the channel); but for the replies to a command, whose text is
    fixed, no reply pings anyone or is over a post's length; and only for a question in
    a direct message is a link's secret drawn or a token of an account minted. *)
Theorem handle_replies_once post a h :
  option_map l_token (dget (user_id post) (linked (linking a))) <> Some ""%string ->
  wp (handle uni svc public_url loads py_str py_repr repr_text post) a h (fun _ _ h' => exists t sent, h' = h ++ t /\
    ofold (handle_step uni (bool_decide (channel_id post ∈ direct a))
      (is_command uni a post (strip uni (text_of uni a (p_message post)))) (channel_id post) (root_of a post)) false t = Some sent).
Proof.
  intros Hown. unfold handle. cbv zeta. apply wp_bind, wp_get. cbv beta iota. apply wp_catch.
  set (cmd := strip uni _). set (Q := fun (_ : res Exc unit) (_ : Agent) (h' : list Ev) => exists t sent, h' = h ++ t /\ _).
  eapply (wp_mono _ _ _ Q); [|intros [[]|e] a' h' H; [exact H|]; destruct e; exact H].
  destruct (is_command uni a post cmd) eqn:Ec.
  - apply wp_bind. destruct (command_asks uni svc public_url post cmd a h) as [H1 H2]. specialize (H1 a h).
    unfold wp in *. destruct (command uni svc public_url post cmd a h) as [[r a1] h1]. destruct H1 as (t & [] & -> & Ht & _).
    assert (Hs : ofold (handle_step uni (bool_decide (channel_id post ∈ direct a)) true (channel_id post) (root_of a post)) false t = Some false).
    { destruct (bool_decide _); [by apply asks_handle_step|]. specialize (H2 eq_refl). rewrite <- (app_nil_r h) in H2 at 2.
      apply app_inv_head in H2 as ->. done. }
    destruct r as [x|e]; [|by exists t, false]. by apply wp_reply.
  - rewrite <- (app_nil_r h) at 1. by apply question_replies.
Qed.
End Handle.
Lemma handle_replies_once_witness :
  exists t sent, (handle ascii_only jobs_svc "https://af" (fun _ => None) (fun j => txt (jstr j)) (fun j => txt (jstr j)) id
    my_jobs linked_agent []).2 = [] ++ t /\ ofold (handle_step ascii_only true false "d" "") false t = Some sent.
Proof.
  apply (wp_run _ _ _ _ (handle_replies_once ascii_only eq_refl jobs_svc "https://af" (fun _ => None) (fun j => txt (jstr j))
    (fun j => txt (jstr j)) id my_jobs linked_agent [] ltac:(discriminate))).
Defined.
