(* ===== verification/SmConfig.v ===== *)
(** The model manager's configuration,
    [docker/supersonic-model-manager/model_manager/config.py], read from the environment. *)
From S2P Require Import Prelude PyText.
Open Scope Z_scope.

Record Settings := mkSettings {
  repository_path : string; pvc_name : string; namespace : string; max_upload_bytes : Z; read_only : bool;
  auto_load_on_upload : bool;
  triton_discovery : string; triton_namespace : string; triton_label_selector : string; triton_http_port : Z;
  triton_endpoints : list string; triton_timeout_s : Z;
  prometheus_url : string; prometheus_selector : string; prometheus_window : string; prometheus_timeout_s : Z;
  auth_enabled : bool; auth_username : string; auth_password : string;
  kubernetes_host : string; kubernetes_port : string;
  supersonic_release : string; inference_endpoint : string; grafana_url : string;
  instance_name : string; refresh_seconds : Z }.
#[export] Instance eta_settings : Eta Settings := {| eta_of := fun s => mkSettings
  (repository_path s) (pvc_name s) (namespace s) (max_upload_bytes s) (read_only s) (auto_load_on_upload s)
  (triton_discovery s) (triton_namespace s) (triton_label_selector s) (triton_http_port s) (triton_endpoints s)
  (triton_timeout_s s) (prometheus_url s) (prometheus_selector s) (prometheus_window s) (prometheus_timeout_s s)
  (auth_enabled s) (auth_username s) (auth_password s) (kubernetes_host s) (kubernetes_port s) (supersonic_release s)
  (inference_endpoint s) (grafana_url s) (instance_name s) (refresh_seconds s) |}.

Section Environment.
(** [os.environ.get]. *)
Context (environ : string -> option string).

Definition _bool (name : string) (dflt : bool) : bool :=
  match environ name with
  | None => dflt
  | Some raw => if String.eqb raw "" then dflt
                else existsb (String.eqb (str_lower (str_strip raw))) ["1"; "true"; "yes"; "on"]%string
  end.
Definition _int (name : string) (dflt minimum : Z) : Z :=
  match int_of_str (str_strip (default "" (environ name))) with Some value => Z.max value minimum | None => dflt end.
Definition _str (name dflt : string) : string :=
  let value := default dflt (environ name) in str_strip (if String.eqb value "" then dflt else value).
Definition _csv (name : string) : list string :=
  List.filter (fun item => negb (String.eqb item "")) (map str_strip (str_split "," (_str name ""))).

Definition defaults : Settings :=
  {| repository_path := _str "MODEL_REPOSITORY_PATH" "/models";
     pvc_name := _str "PVC_NAME" "supersonic-model-repository";
     namespace := _str "POD_NAMESPACE" "default";
     max_upload_bytes := _int "MAX_UPLOAD_BYTES" (8 * 1024 * 1024 * 1024) 1024;
     read_only := _bool "READ_ONLY" false;
     auto_load_on_upload := _bool "AUTO_LOAD_ON_UPLOAD" true;
     triton_discovery := _str "TRITON_DISCOVERY" "kubernetes";
     triton_namespace := _str "TRITON_NAMESPACE" "";
     triton_label_selector := _str "TRITON_LABEL_SELECTOR" "app.kubernetes.io/component=inference-server";
     triton_http_port := _int "TRITON_HTTP_PORT" 8000 1;
     triton_endpoints := _csv "TRITON_ENDPOINTS";
     triton_timeout_s := _int "TRITON_TIMEOUT_S" 10 1;
     prometheus_url := _str "PROMETHEUS_URL" "";
     prometheus_selector := _str "PROMETHEUS_SELECTOR" "";
     prometheus_window := _str "PROMETHEUS_WINDOW" "5m";
     prometheus_timeout_s := _int "PROMETHEUS_TIMEOUT_S" 8 1;
     auth_enabled := _bool "AUTH_ENABLED" true;
     auth_username := _str "AUTH_USERNAME" "admin";
     auth_password := _str "AUTH_PASSWORD" "";
     kubernetes_host := _str "KUBERNETES_SERVICE_HOST" "";
     kubernetes_port := (let https := _str "KUBERNETES_SERVICE_PORT_HTTPS" "" in
                         if String.eqb https "" then _str "KUBERNETES_SERVICE_PORT" "443" else https);
     supersonic_release := _str "SUPERSONIC_RELEASE" "";
     inference_endpoint := _str "INFERENCE_ENDPOINT" "";
     grafana_url := _str "GRAFANA_URL" "";
     instance_name := _str "INSTANCE_NAME" "SuperSONIC";
     refresh_seconds := _int "REFRESH_SECONDS" 15 3 |}.
Definition known_discovery (d : string) : bool := existsb (String.eqb d) ["kubernetes"; "static"]%string.
Definition post_init (s : Settings) : Settings :=
  let s := if String.eqb (triton_namespace s) "" then s <| triton_namespace := namespace s |> else s in
  let s := if known_discovery (triton_discovery s) then s
           else s <| triton_discovery := "kubernetes"%string |> in
  match triton_endpoints s with [] => s | _ => s <| triton_discovery := "static"%string |> end.
Definition settings : Settings := post_init defaults.
End Environment.

Example settings_of_none :
  let s := settings (fun _ => None) in
  (triton_namespace s, triton_discovery s, triton_http_port s, auth_enabled s, auth_password s, kubernetes_port s)
  = ("default", "kubernetes", 8000, true, "", "443")%string.
Proof. vm_compute. reflexivity. Qed.
Example settings_of_some :
  let env name := dget name [("TRITON_ENDPOINTS", " a:1 ,, b "); ("TRITON_DISCOVERY", "dns"); ("TRITON_HTTP_PORT", "-5");
    ("READ_ONLY", " YES"); ("REFRESH_SECONDS", "soon"); ("AUTH_USERNAME", " ")]%string in
  let s := settings env in
  (triton_endpoints s, triton_discovery s, triton_http_port s, read_only s, refresh_seconds s, auth_username s)
  = (["a:1"; "b"], "static", 1, true, 15, "")%string.
Proof. vm_compute. reflexivity. Qed.

(** ** What every environment gives *)

Lemma int_at_least environ name dflt minimum : minimum <= dflt -> minimum <= _int environ name dflt minimum.
Proof. unfold _int. destruct (int_of_str _); lia. Qed.
Lemma csv_items environ name item : item ∈ _csv environ name -> item <> ""%string.
Proof.
  unfold _csv. intros H. apply list_elem_of_In, filter_In in H as [_ H]. apply negb_true_iff, String.eqb_neq in H. done.
Qed.
#[local] Arguments known_discovery : simpl never.
#[local] Arguments String.eqb : simpl never.
Lemma known_discovery_true d : known_discovery d = true <-> d = "kubernetes"%string \/ d = "static"%string.
Proof. unfold known_discovery, existsb. by rewrite orb_false_r, orb_true_iff, !String.eqb_eq. Qed.
Lemma post_init_others s : let s' := post_init s in
  (max_upload_bytes s', triton_http_port s', triton_timeout_s s', prometheus_timeout_s s', refresh_seconds s', triton_endpoints s', namespace s')
  = (max_upload_bytes s, triton_http_port s, triton_timeout_s s, prometheus_timeout_s s, refresh_seconds s, triton_endpoints s, namespace s).
Proof. destruct s. unfold post_init. cbn. destruct (String.eqb _ ""), (known_discovery _), triton_endpoints0; reflexivity. Qed.
Lemma post_init_namespace s :
  triton_namespace (post_init s) = if String.eqb (triton_namespace s) "" then namespace s else triton_namespace s.
Proof. destruct s. unfold post_init. cbn. destruct (String.eqb _ ""), (known_discovery _), triton_endpoints0; reflexivity. Qed.
Lemma post_init_discovery s :
  (triton_discovery (post_init s) = "kubernetes"%string \/ triton_discovery (post_init s) = "static"%string) /\
  (triton_discovery (post_init s) = "static"%string <-> triton_endpoints s <> [] \/ triton_discovery s = "static"%string).
Proof.
  destruct s as [? ? ? ? ? ? disc tns ? ? endpoints]. unfold post_init. cbn. pose proof (known_discovery_true disc) as Hk.
  destruct (String.eqb tns ""), endpoints as [|e es]; cbn; destruct (known_discovery disc); cbn.
  all: split; [|split]; try tauto; try discriminate; try (by left); try (by right).
  all: intros [?|H]; [done|]; discriminate (proj2 Hk (or_intror H)).
Qed.
(** Whatever the environment says, the settings are usable. The sizes, ports and
    times are not below their least value; Triton's servers are found in one of the two
    ways, by the list just when it says so or names one; without a namespace
    of their own they are looked for in the manager's; and no endpoint named is empty. *)
Theorem settings_usable environ : let s := settings environ in
  1024 <= max_upload_bytes s /\ 1 <= triton_http_port s /\ 1 <= triton_timeout_s s /\ 1 <= prometheus_timeout_s s /\ 3 <= refresh_seconds s /\
  (triton_discovery s = "kubernetes"%string \/ triton_discovery s = "static"%string) /\
  (triton_discovery s = "static"%string <->
     _csv environ "TRITON_ENDPOINTS" <> [] \/ _str environ "TRITON_DISCOVERY" "kubernetes" = "static"%string) /\
  triton_namespace s = (if String.eqb (_str environ "TRITON_NAMESPACE" "") "" then namespace s else _str environ "TRITON_NAMESPACE" "") /\
  Forall (fun e => e <> ""%string) (triton_endpoints s).
Proof.
  cbv zeta. unfold settings. pose proof (int_at_least environ) as Hi. pose proof (post_init_others (defaults environ)) as Ho.
  cbv zeta in Ho. injection Ho as -> -> -> -> -> -> ->. rewrite post_init_namespace.
  destruct (post_init_discovery (defaults environ)) as [H1 H2]. repeat split; try (apply Hi; lia); try done; try apply H2.
  apply Forall_forall. apply csv_items.
Qed.
