(* ===== verification/SmAuth.v ===== *)
(** The model manager's HTTP Basic authentication,
    [docker/supersonic-model-manager/model_manager/auth.py], with the decoding of base64
    and the check of UTF-8 that it relies on, as Python's library makes them. A text is
    its bytes in UTF-8; a header's value is its bytes, one character each. *)
From S2P Require Import Prelude PyText SmConfig.
Open Scope Z_scope.

(** ** Base64 and UTF-8 *)

Definition chr_of (n : Z) : ascii := ascii_of_nat (Z.to_nat n).
Definition sextet (c : ascii) : option Z :=
  let n := chr_code c in
  if is_upper c then Some (n - 65) else if is_lower c then Some (n - 71) else if is_digit c then Some (n + 4)
  else if Ascii.eqb c "+" then Some 62 else if Ascii.eqb c "/" then Some 63 else None.
(** [binascii.a2b_base64], not strict: what is no character of the alphabet is passed over;
    the place in a group of four, the bits left over, and the padding seen. *)
Fixpoint a2b_base64 (s : string) (pos left pads : Z) : option string :=
  match s with
  | EmptyString => if pos =? 0 then Some ""%string else None
  | String c s' =>
      if Ascii.eqb c "=" then
        if 2 <=? pos then if 4 <=? pos + (pads + 1) then Some ""%string else a2b_base64 s' pos left (pads + 1)
        else a2b_base64 s' pos left pads
      else match sextet c with
        | None => a2b_base64 s' pos left pads
        | Some x =>
            if pos =? 0 then a2b_base64 s' 1 x 0
            else if pos =? 1 then option_map (String (chr_of (left * 4 + x / 16))) (a2b_base64 s' 2 (x mod 16) 0)
            else if pos =? 2 then option_map (String (chr_of (left * 16 + x / 4))) (a2b_base64 s' 3 (x mod 4) 0)
            else option_map (String (chr_of (left * 64 + x))) (a2b_base64 s' 0 0 0)
        end
  end.
Definition is_ascii (c : ascii) : bool := chr_code c <? 128.
(** [base64.b64decode] of a [str]: [None] where it raises. *)
Definition b64decode (s : string) : option string := if str_forallb is_ascii s then a2b_base64 s 0 0 0 else None.

(** Whether bytes are UTF-8: those still missing of a character, and where the next one lies. *)
Fixpoint utf8 (s : string) (missing : nat) (lo hi : Z) : bool :=
  match s with
  | EmptyString => match missing with O => true | _ => false end
  | String c s' =>
      let n := chr_code c in
      match missing with
      | S missing => (lo <=? n) && (n <=? hi) && utf8 s' missing 128 191
      | O =>
          if n <? 128 then utf8 s' 0 128 191
          else if n <? 194 then false
          else if n <? 224 then utf8 s' 1 128 191
          else if n <? 240 then utf8 s' 2 (if n =? 224 then 160 else 128) (if n =? 237 then 159 else 191)
          else if n <? 245 then utf8 s' 3 (if n =? 240 then 144 else 128) (if n =? 244 then 143 else 191)
          else false
      end
  end.
Definition is_utf8 (s : string) : bool := utf8 s 0 128 191.

(** ** The middleware *)

Definition PUBLIC_PATHS : list string := ["/healthz"%string].
(** What [str.strip] takes off a text in Latin-1. *)
Definition latin1_space (c : ascii) : bool := is_space c || (chr_code c =? 133) || (chr_code c =? 160).
Definition decoded_of (header : string) : option string :=
  decoded ← b64decode (str_strip_of latin1_space (default ""%string (str_partition " " header).2));
  if is_utf8 decoded then Some decoded else None.
Definition _check (s : Settings) (header : string) : bool :=
  if String.eqb header "" || negb (startswith "basic " (str_lower header)) then false else
  match decoded_of header with
  | None => false
  | Some decoded =>
      let '(username, rest) := str_partition ":" decoded in
      let password := default ""%string rest in
      let user_ok := String.eqb username (auth_username s) in
      let pass_ok := String.eqb password (auth_password s) in
      user_ok && pass_ok
  end.
(** The application is called, or the middleware answers with a status. *)
Inductive Dispatch := CallNext | Refused (status : Z).
Definition dispatch (s : Settings) (path header : string) : Dispatch :=
  if negb (auth_enabled s) || bool_decide (path ∈ PUBLIC_PATHS) then CallNext
  else if String.eqb (auth_password s) "" then Refused 500
  else if negb (_check s header) then Refused 401
  else CallNext.

(** ** What clients send *)

(** RFC 7617: the user's name and password in base64, as RFC 4648 has it. *)
Definition b64_chr (n : Z) : ascii :=
  if n <? 26 then chr_of (n + 65) else if n <? 52 then chr_of (n + 71) else if n <? 62 then chr_of (n - 4)
  else if n =? 62 then "+"%char else "/"%char.
Fixpoint b64encode (s : string) : string :=
  match s with
  | EmptyString => ""
  | String a EmptyString =>
      let x := chr_code a in String (b64_chr (x / 4)) (String (b64_chr (x mod 4 * 16)) "==")
  | String a (String b EmptyString) =>
      let x := chr_code a in let y := chr_code b in
      String (b64_chr (x / 4)) (String (b64_chr (x mod 4 * 16 + y / 16)) (String (b64_chr (y mod 16 * 4)) "="))
  | String a (String b (String c s')) =>
      let x := chr_code a in let y := chr_code b in let z := chr_code c in
      String (b64_chr (x / 4)) (String (b64_chr (x mod 4 * 16 + y / 16))
        (String (b64_chr (y mod 16 * 4 + z / 64)) (String (b64_chr (z mod 64)) (b64encode s'))))
  end.
Definition basic_header (username password : string) : string := ("Basic " ++ b64encode (username ++ ":" ++ password))%string.

Example basic_header_value : basic_header "Aladdin" "open sesame" = "Basic QWxhZGRpbjpvcGVuIHNlc2FtZQ=="%string.
Proof. vm_compute. reflexivity. Qed.
Example b64decode_values : map b64decode ["YQ=="; "YWI="; "YQ"; "Y"; " Y-W I = junk"; "YQ=="; "="; ""]%string
  = [Some "a"; Some "ab"; None; None; Some "ab"; Some "a"; Some ""; Some ""]%string.
Proof. vm_compute. reflexivity. Qed.

(** ** Base64 and back *)

Lemma b64_alphabet n : 0 <= n < 64 -> sextet (b64_chr n) = Some n /\ Ascii.eqb (b64_chr n) "=" = false.
Proof.
  intros Hn. assert (H : forallb (fun k => bool_decide (sextet (b64_chr (Z.of_nat k)) = Some (Z.of_nat k)) &&
    negb (Ascii.eqb (b64_chr (Z.of_nat k)) "=")) (seq 0 64) = true) by (vm_compute; reflexivity).
  rewrite forallb_forall in H. specialize (H (Z.to_nat n) ltac:(apply in_seq; lia)). rewrite Z2Nat.id in H by lia.
  apply andb_true_iff in H as [H1 H2]. apply bool_decide_eq_true in H1. by apply negb_true_iff in H2.
Qed.
Lemma chr_of_code c : chr_of (chr_code c) = c.
Proof. unfold chr_of, chr_code. by rewrite Nat2Z.id, ascii_nat_embedding. Qed.
Lemma code_bounds c : 0 <= chr_code c < 256.
Proof. unfold chr_code. pose proof (nat_ascii_bounded c). lia. Qed.
(** Induction by groups of three characters. *)
Lemma string_ind3 (P : string -> Prop) : P ""%string -> (forall a, P (String a "")) -> (forall a b, P (String a (String b ""))) ->
  (forall a b c s, P s -> P (String a (String b (String c s)))) -> forall s, P s.
Proof.
  intros H0 H1 H2 H3. fix IH 1. intros [|a [|b [|c s]]]; [exact H0|apply H1|apply H2|]. apply H3, IH.
Qed.
(** One sextet read. *)
Lemma a2b_sextet n s pos left pads : 0 <= n < 64 ->
  a2b_base64 (String (b64_chr n) s) pos left pads =
    if pos =? 0 then a2b_base64 s 1 n 0
    else if pos =? 1 then option_map (String (chr_of (left * 4 + n / 16))) (a2b_base64 s 2 (n mod 16) 0)
    else if pos =? 2 then option_map (String (chr_of (left * 16 + n / 4))) (a2b_base64 s 3 (n mod 4) 0)
    else option_map (String (chr_of (left * 64 + n))) (a2b_base64 s 0 0 0).
Proof. intros Hn. destruct (b64_alphabet n Hn) as [H1 H2]. cbn [a2b_base64]. by rewrite H1, H2. Qed.
Ltac euclid := Z.to_euclidean_division_equations; lia.
Lemma a2b_encode s : a2b_base64 (b64encode s) 0 0 0 = Some s.
Proof.
  induction s as [|a|a b|a b c s IH] using string_ind3; cbn [b64encode]; [done| | |].
  all: pose proof (code_bounds a); try pose proof (code_bounds b); try pose proof (code_bounds c).
  all: set (x := chr_code a) in *; try set (y := chr_code b) in *; try set (z := chr_code c) in *.
  all: rewrite !a2b_sextet by euclid; cbn [Z.eqb Pos.eqb].
  all: replace (x / 4 * 4 + _) with x by euclid.
  - subst x. rewrite chr_of_code. done.
  - replace ((x mod 4 * 16 + y / 16) mod 16 * 16 + y mod 16 * 4 / 4) with y by euclid.
    subst x y. rewrite !chr_of_code. done.
  - replace ((x mod 4 * 16 + y / 16) mod 16 * 16 + (y mod 16 * 4 + z / 64) / 4) with y by euclid.
    replace ((y mod 16 * 4 + z / 64) mod 4 * 64 + z mod 64) with z by euclid. rewrite IH. subst x y z. rewrite !chr_of_code. done.
Qed.

Definition b64_text (c : ascii) : bool := match sextet c with Some _ => true | None => Ascii.eqb c "=" end.
Lemma b64_chr_text n : 0 <= n < 64 -> b64_text (b64_chr n) = true.
Proof. intros Hn. unfold b64_text. by destruct (b64_alphabet n Hn) as [-> _]. Qed.
Lemma b64encode_text s : str_forallb b64_text (b64encode s) = true.
Proof.
  induction s as [|a|a b|a b c s IH] using string_ind3; cbn [b64encode str_forallb]; [done| | |].
  all: pose proof (code_bounds a); try pose proof (code_bounds b); try pose proof (code_bounds c).
  all: rewrite !b64_chr_text by euclid; rewrite ?IH; done.
Qed.
Lemma b64_text_plain c : b64_text c = true -> is_ascii c = true /\ latin1_space c = false.
Proof. intros H. destruct c as [[] [] [] [] [] [] [] []]; by vm_compute in H |- *. Qed.
Lemma b64decode_encode s : b64decode (b64encode s) = Some s.
Proof.
  unfold b64decode. rewrite (str_forallb_mono b64_text is_ascii); [apply a2b_encode|by intros c []%b64_text_plain|apply b64encode_text].
Qed.

(** ** Who is let in *)

Lemma utf8_app s t missing lo hi : utf8 s missing lo hi = true -> is_utf8 t = true -> utf8 (s ++ t) missing lo hi = true.
Proof.
  intros Hs Ht. revert missing lo hi Hs. induction s as [|c s IH]; intros missing lo hi; [cbn; destruct missing; [by destruct t|done]|].
  change (String c s ++ t)%string with (String c (s ++ t)). cbn [utf8].
  destruct missing as [|missing]; [|rewrite !andb_true_iff; intros [? ?]; split; [done|by apply IH]].
  destruct (chr_code c <? 128); [apply IH|]. destruct (chr_code c <? 194); [done|]. destruct (chr_code c <? 224); [apply IH|].
  destruct (chr_code c <? 240); [apply IH|]. destruct (chr_code c <? 245); [apply IH|done].
Qed.
Definition no_colon (c : ascii) : bool := negb (Ascii.eqb c ":").
Lemma str_partition_app u p : str_forallb no_colon u = true -> str_partition ":" (u ++ String ":" p) = (u, Some p).
Proof.
  induction u as [|c u IH]; cbn [str_forallb String.append str_partition]; [done|]. rewrite andb_true_iff. intros [Hc Hu].
  change (String c u ++ String ":" p)%string with (String c (u ++ String ":" p)). cbn [str_partition].
  unfold no_colon in Hc. apply negb_true_iff in Hc. by rewrite Hc, IH.
Qed.
Lemma str_partition_some s u p : str_partition ":" s = (u, Some p) -> s = (u ++ String ":" p)%string /\ str_forallb no_colon u = true.
Proof.
  revert u. induction s as [|c s IH]; intros u; cbn [str_partition]; [done|]. destruct (Ascii.eqb c ":") eqn:E.
  - intros [= <- <-]. apply Ascii.eqb_eq in E. by subst.
  - destruct (str_partition ":" s) as [l r]. intros [= <- ->]. destruct (IH l eq_refl) as [-> Hl]. cbn. unfold no_colon at 1. by rewrite E.
Qed.
(** The header carries a name and a password. *)
Definition carries (header username password : string) : Prop :=
  startswith "basic " (str_lower header) = true /\ decoded_of header = Some (username ++ String ":" password)%string /\
  str_forallb no_colon username = true.
Lemma check_carries s header : auth_password s <> ""%string ->
  _check s header = true <-> carries header (auth_username s) (auth_password s).
Proof.
  intros Hp. unfold _check, carries. destruct (String.eqb_spec header "") as [->|_]; cbn [orb]; [split; [done|intros (H & _); vm_compute in H; done]|].
  destruct (startswith "basic " (str_lower header)); cbn [negb]; [|by split; [|intros (? & _)]].
  destruct (decoded_of header) as [d|]; [|by split; [|intros (_ & ? & _)]].
  destruct (str_partition ":" d) as [u [p|]] eqn:E.
  - apply str_partition_some in E as [-> Hu]. cbn [default]. rewrite andb_true_iff, !String.eqb_eq. split; [by intros [<- <-]|].
    intros (_ & [= H] & Hn). pose proof (str_partition_app u p Hu) as H1. rewrite H, str_partition_app in H1 by done. by injection H1.
  - cbn [default]. rewrite andb_true_iff, !String.eqb_eq. split; [intros [_ H]; congruence|].
    intros (_ & [= ->] & Hn). rewrite str_partition_app in E by done. done.
Qed.
Lemma decoded_basic u p : is_utf8 u = true -> is_utf8 p = true -> decoded_of (basic_header u p) = Some (u ++ String ":" p)%string.
Proof.
  intros Hu Hp. unfold decoded_of, basic_header. 
  change (str_partition " " _) with ("Basic"%string, Some (b64encode (u ++ String ":" p))). cbn [snd default].
  pose proof (b64encode_text (u ++ String ":" p)) as Ht.
  pose proof (exists_of_forall b64_text latin1_space _ (fun c H => proj2 (b64_text_plain c H)) Ht) as Hsp.
  rewrite strip_plain by done. unfold id. rewrite b64decode_encode. cbn [mbind option_bind]. pose proof (utf8_app u (String ":" p) 0 128 191 Hu Hp) as H8. unfold is_utf8. by rewrite H8.
Qed.
Lemma basic_prefix u p : startswith "basic " (str_lower (basic_header u p)) = true.
Proof.
  unfold basic_header. change (str_lower _) with ("basic " ++ str_lower (b64encode (u ++ ":" ++ p)))%string. apply startswith_app.
Qed.
(** C12: the manager's pages are only for those with the password. A request reaches the
    application just when authentication is off, or it asks for the health page, or a
    password is set and the header carries exactly the configured name and password; and
    the header that a client makes of a name without a colon and a password carries
    just these, whatever their characters: it is let in exactly if they are the configured ones. *)
Theorem only_authorized s path header :
  (dispatch s path header = CallNext <->
     auth_enabled s = false \/ path = "/healthz"%string \/
     (auth_password s <> ""%string /\ carries header (auth_username s) (auth_password s))) /\
  (auth_enabled s = true -> path <> "/healthz"%string -> auth_password s <> ""%string ->
   forall u p, is_utf8 u = true -> is_utf8 p = true -> str_forallb no_colon u = true ->
     dispatch s path (basic_header u p) = if bool_decide (u = auth_username s /\ p = auth_password s) then CallNext else Refused 401).
Proof.
  assert (Hpub : path ∈ PUBLIC_PATHS <-> path = "/healthz"%string) by (unfold PUBLIC_PATHS; by rewrite list_elem_of_singleton).
  unfold dispatch. split.
  - destruct (auth_enabled s); cbn [negb orb]; [|by split; [left|]]. case_bool_decide as Hb; rewrite Hpub in Hb; [by split; [right; left|]|].
    destruct (String.eqb_spec (auth_password s) "") as [E|E]; [split; [done|by intros [?|[?|[? _]]]]|].
    pose proof (check_carries s header E) as Hc. destruct (_check s header); cbn [negb].
    + split; [intros _; do 2 right; split; [done|by apply Hc]|done].
    + split; [done|]. intros [?|[?|[_ H]]]; [done|done|]. by apply Hc in H.
  - intros -> Hpath Hpw u p Hu Hp Hc. cbn [negb orb]. rewrite bool_decide_false by (by rewrite Hpub).
    destruct (String.eqb_spec (auth_password s) "") as [E|E]; [done|].
    pose proof (check_carries s (basic_header u p) E) as Hcc. unfold carries in Hcc. rewrite decoded_basic in Hcc by done.
    case_bool_decide as Hb; destruct (_check s (basic_header u p)); cbn [negb]; try done; exfalso.
    + destruct Hb as [-> ->]. discriminate (proj2 Hcc (conj (basic_prefix _ _) (conj eq_refl Hc))).
    + apply Hb. destruct Hcc as [Hcc _]. destruct (Hcc eq_refl) as (_ & [= H] & Hn).
      pose proof (str_partition_app u p Hc) as H1. rewrite H, str_partition_app in H1 by done. by injection H1.
Qed.
Definition guarded_settings : Settings :=
  settings (fun name => dget name [("AUTH_USERNAME", "root"); ("AUTH_PASSWORD", "a:b=c")]%string).
Lemma only_authorized_witness :
  dispatch guarded_settings "/" (basic_header "root" "a:b=c") = CallNext /\
  dispatch guarded_settings "/" (basic_header "root" "a:b") = Refused 401 /\ dispatch guarded_settings "/healthz" "" = CallNext.
Proof.
  assert (Hp : auth_password guarded_settings <> ""%string) by (vm_compute; discriminate).
  pose proof (proj2 (only_authorized guarded_settings "/" "") eq_refl ltac:(discriminate) Hp) as H.
  split; [exact (H "root" "a:b=c" eq_refl eq_refl eq_refl)%string|]. split; [exact (H "root" "a:b" eq_refl eq_refl eq_refl)%string|].
  apply (only_authorized guarded_settings "/healthz" ""). right. left. reflexivity.
Defined.
