(* ===== verification/SmKube.v ===== *)
(** The model manager's view of Kubernetes,
    [docker/supersonic-model-manager/model_manager/kube.py]: the capacity of the model
    repository, where inference requests and Grafana are, and Triton's pods. The calls that
    the manager makes over HTTP are the requests of this file. *)
From S2P Require Import Prelude PyJson PyText PyTime PyFloat PyValue SmConfig.
Open Scope Z_scope.

(** An exception: [httpx.HTTPStatusError] of a response, or another by its type and text. *)
Inductive Exc := HTTPStatusError (status : Z) (text : string) | Other (type_name message : string).
(** A response's body may be no JSON; or the call raises. *)
Inductive Reply := Response (status : Z) (text : string) (body : res Exc json) | Raises (e : Exc).
(** What reading the token gives: its text, [OSError], or another error. *)
Inductive Token := ReadToken_ (text : string) | NoToken | OddToken.
Inductive Req :=
| TokenIsFile | CaIsFile | ReadToken
| KubeGet (url : string) (params : list (string * string)) (token : string) (verify : bool)
| Post (url : string) (timeout : Z)
| PromGet (url query : string).
Definition Ans (r : Req) : Type :=
  match r with
  | TokenIsFile | CaIsFile => bool
  | ReadToken => Token
  | KubeGet _ _ _ _ | Post _ _ | PromGet _ _ => Reply
  end.
Definition Ev : Type := sigT Ans.
Definition KM (A : Type) : Type := M Ev unit Exc A.

(** [asyncio.gather] of a call for each of some things, that do not depend on each other. *)
Fixpoint gather {B A} (call : B -> KM A) (l : list B) : KM (list A) :=
  match l with [] => mret [] | x :: l' => r ← call x; results ← gather call l'; mret (r :: results) end.

(** ** Python's operations on JSON, with the errors that they raise *)

Definition type_name (j : json) : string :=
  match j with
  | JNull => "NoneType" | JBool _ => "bool" | JInt _ => "int" | JFloat _ => "float" | JStr _ => "str"
  | JArr _ => "list" | JObj _ => "dict"
  end.
Definition no_attribute (j : json) (name : string) : Exc :=
  Other "AttributeError" ("'" ++ type_name j ++ "' object has no attribute '" ++ name ++ "'").
Definition not_iterable (j : json) : Exc := Other "TypeError" ("'" ++ type_name j ++ "' object is not iterable").
Definition or_raise {A} (e : Exc) (o : option A) : res Exc A := match o with Some a => Ok a | None => Err e end.
Definition get (k : string) (j : json) : res Exc json := or_raise (no_attribute j "get") (get_of k j).
Definition get_default (k : string) (d j : json) : res Exc json := or_raise (no_attribute j "get") (get_else k d j).
Definition iter (j : json) : res Exc (list json) := or_raise (not_iterable j) (iter_of j).
Definition contains (s : string) (j : json) : res Exc bool :=
  or_raise (Other "TypeError" ("argument of type '" ++ type_name j ++ "' is not iterable")) (in_of s j).
(** [j[0]] *)
Definition first_of (j : json) : res Exc json :=
  match j with
  | JArr (x :: _) => Ok x
  | JArr [] => Err (Other "IndexError" "list index out of range")
  | JStr (String c _) => Ok (JStr (String c ""))
  | JStr EmptyString => Err (Other "IndexError" "string index out of range")
  | JObj _ => Err (Other "KeyError" "0")
  | _ => Err (Other "TypeError" ("'" ++ type_name j ++ "' object is not subscriptable"))
  end.
Definition or_dict (j : json) : json := j_or j (JObj []).
Definition or_list (j : json) : json := j_or j (JArr []).

(** ** Quantities *)

Definition _SUFFIXES : list (string * Q) :=
  [("", 1); ("m", 1 # 1000); ("k", qz (10 ^ 3)); ("M", qz (10 ^ 6)); ("G", qz (10 ^ 9)); ("T", qz (10 ^ 12)); ("P", qz (10 ^ 15));
   ("E", qz (10 ^ 18)); ("Ki", qz (2 ^ 10)); ("Mi", qz (2 ^ 20)); ("Gi", qz (2 ^ 30)); ("Ti", qz (2 ^ 40)); ("Pi", qz (2 ^ 50));
   ("Ei", qz (2 ^ 60))]%string%Q.
Definition number_char (c : ascii) : bool := is_digit c || Ascii.eqb c ".".
Definition is_letter (c : ascii) : bool := is_lower c || is_upper c.
(** [_QUANTITY_RE.match] of a text without blanks around it: the two groups. *)
Definition _QUANTITY_RE (t : string) : option (string * string) :=
  let rest := str_lstrip number_char t in
  let number := str_take (String.length t - String.length rest) t in
  let suffix := str_lstrip is_space rest in
  if negb (String.eqb number "") && str_forallb is_letter suffix then Some (number, suffix) else None.
Definition quantity_of (t : string) : Z :=
  match _QUANTITY_RE t with
  | None => 0
  | Some (number, suffix) =>
      match (n ← parse_float number; x ← binary64 n; factor ← binary64 (dget_or suffix 1%Q _SUFFIXES); binary64 (x * factor)) with
      | Some product => py_int product
      | None => 0
      end
  end.
Definition parse_quantity (value : json) : Z :=
  match value with JNull => 0 | _ => quantity_of (str_strip (str_of value)) end.
Example parse_quantity_values :
  map parse_quantity [JStr "1Gi"; JStr " 500M "; JStr "1.5Ki"; JStr "2 k"; JStr "100m"; JStr "4.35k"; JStr "1.1.1"; JStr "-1"; JStr "7x";
    JInt 12; JNull; JBool true; JStr "Gi"; JStr ""; JStr "3000m"; JStr "0.29k"]
  = [1073741824; 500000000; 1536; 2000; 0; 4350; 0; 0; 7; 12; 0; 0; 0; 0; 3; 290].
Proof. vm_compute. reflexivity. Qed.

(** ** The cluster's API *)
Section Kube.
Context (svc : service Req Ans) (s : Settings).

Definition _api_base : string :=
  if String.eqb (kubernetes_host s) "" then "" else "https://" ++ kubernetes_host s ++ ":" ++ kubernetes_port s.
Definition api_available : KM bool :=
  if String.eqb _api_base "" then mret false else (mcall svc TokenIsFile : KM bool).
(** [raise_for_status] and [response.json()], one of whose errors the reply may be. *)
Definition checked_json (reply : Reply) : res Exc json :=
  match reply with
  | Response status text body => if (200 <=? status) && (status <? 300) then body else Err (HTTPStatusError status text)
  | Raises e => Err e
  end.
Definition _get (path : string) (params : list (string * string)) : KM json :=
  available ← api_available;
  if negb available then mret JNull else
  token ← (mcall svc ReadToken : KM Token);
  match token with
  | NoToken => mret JNull
  | OddToken => raise (Other "UnicodeDecodeError" "")
  | ReadToken_ text =>
      verify ← (mcall svc CaIsFile : KM bool);
      reply ← (mcall svc (KubeGet (_api_base ++ path)%string params (str_strip text) verify) : KM Reply);
      mret (match checked_json reply with Ok payload => payload | Err _ => JNull end)
  end.

Definition pvc_path : string :=
  "/api/v1/namespaces/" ++ namespace s ++ "/persistentvolumeclaims/" ++ pvc_name s.
Definition capacity_in (payload : json) : res Exc Z :=
  status ← get "status" payload; capacity ← get "capacity" (or_dict status); bound ← get "storage" (or_dict capacity);
  capacity ← (if truthy bound then Ok bound else
    spec ← get "spec" payload; resources ← get "resources" (or_dict spec);
    requests ← get "requests" (or_dict (or_dict resources)); get "storage" (or_dict requests));
  Ok (parse_quantity capacity).
Definition pvc_capacity_bytes : KM Z :=
  if String.eqb (pvc_name s) "" then mret 0 else
  payload ← _get pvc_path [];
  if negb (truthy payload) then mret 0 else mlift (capacity_in payload).

Definition of_release (release : string) : string := "app.kubernetes.io/instance=" ++ release.
(** An Ingress and its host, if it has one. *)
Definition ingress_host (item : json) : res Exc (option (json * json)) :=
  spec ← get "spec" item; rules ← get "rules" (or_dict spec);
  let rules := or_list rules in
  host ← (if truthy rules then first_of rules ≫= get "host" else Ok JNull);
  Ok (if truthy host then Some (item, host) else None).
Definition items_of (payload : json) : res Exc (list json) :=
  items ← get_default "items" (JArr []) (or_dict payload); iter items.
Definition keep_some {A} (l : list (option A)) : list A := omap id l.
Definition _release_ingresses (release : string) : KM (list (json * json)) :=
  payload ← _get ("/apis/networking.k8s.io/v1/namespaces/" ++ triton_namespace s ++ "/ingresses") [("labelSelector"%string, of_release release)];
  mlift (items ← items_of payload; found ← rmap ingress_host items; Ok (keep_some found)).

(** What was found, and how. *)
Inductive Source := Configured | FromIngress | FromService.
Definition Found : Type := string * option Source.
Definition not_found : Found := (""%string, None).
(** The first item that gives something. *)
Fixpoint first_found {A} (f : A -> res Exc (option Found)) (l : list A) : res Exc (option Found) :=
  match l with
  | [] => Ok None
  | x :: l' => found ← f x; match found with Some v => Ok (Some v) | None => first_found f l' end
  end.
Definition meta_of (item : json) : res Exc json := meta ← get "metadata" item; Ok (or_dict meta).
Definition has_tls (item : json) : res Exc bool := spec ← get "spec" item; tls ← get "tls" (or_dict spec); Ok (truthy tls).
Definition grpc_ingress (ih : json * json) : res Exc (option Found) :=
  meta ← meta_of ih.1; name ← get_default "name" (JStr "") meta;
  is_grpc ← contains "ingress-grpc" name;
  if negb is_grpc then Ok None else
  tls ← has_tls ih.1;
  Ok (Some ((str_of ih.2 ++ ":" ++ (if tls : bool then "443" else "80"))%string, Some FromIngress)).
(** [next((p for p in ports if p.get("name") == "grpc"), dflt)] *)
Fixpoint grpc_port (l : list json) (dflt : json) : res Exc json :=
  match l with
  | [] => Ok dflt
  | p :: l' => name ← get "name" p; if jeq_str name "grpc" then Ok p else grpc_port l' dflt
  end.
Definition envoy_service (item : json) : res Exc (option Found) :=
  meta ← meta_of item; name ← get "name" meta;
  spec ← get "spec" item; ports ← get "ports" (or_dict spec);
  let ports := or_list ports in
  dflt ← (if truthy ports then first_of ports else Ok JNull);
  l ← iter ports;
  grpc ← grpc_port l dflt;
  if truthy name && truthy grpc then
    port ← get "port" grpc;
    Ok (Some ((str_of name ++ "." ++ triton_namespace s ++ ".svc.cluster.local:" ++ str_of port)%string, Some FromService))
  else Ok None.
Definition find_inference_endpoint : KM Found :=
  if negb (String.eqb (inference_endpoint s) "") then mret (inference_endpoint s, Some Configured) else
  let release := supersonic_release s in
  if String.eqb release "" then mret not_found else
  ingresses ← _release_ingresses release;
  from_ingress ← (mlift (first_found grpc_ingress ingresses) : KM (option Found));
  match from_ingress with
  | Some found => mret found
  | None =>
      services ← _get ("/api/v1/namespaces/" ++ triton_namespace s ++ "/services")
        [("labelSelector", of_release release ++ ",app.kubernetes.io/component=envoy")]%string;
      from_service ← (mlift (items ← items_of services; first_found envoy_service items) : KM (option Found));
      mret (default not_found from_service)
  end.
Definition grafana_ingress (ih : json * json) : res Exc (option Found) :=
  meta ← meta_of ih.1; name ← get_default "name" (JStr "") meta;
  labels ← get "labels" meta;
  named ← contains "grafana" name;
  label ← (if named : bool then Ok JNull else get "app.kubernetes.io/name" (or_dict labels));
  if negb named && negb (jeq_str label "grafana") then Ok None else
  tls ← has_tls ih.1;
  Ok (Some (((if tls : bool then "https" else "http") ++ "://" ++ str_of ih.2)%string, Some FromIngress)).
Definition find_grafana_url : KM Found :=
  if negb (String.eqb (grafana_url s) "") then mret (grafana_url s, Some Configured) else
  let release := supersonic_release s in
  if String.eqb release "" then mret not_found else
  ingresses ← _release_ingresses release;
  found ← (mlift (first_found grafana_ingress ingresses) : KM (option Found));
  mret (default not_found found).

(** A pod that can be asked: its name, and its address. *)
Definition triton_pod (pod : json) : res Exc (option (json * json)) :=
  status ← get "status" pod;
  let status := or_dict status in
  pod_ip ← get "podIP" status; phase ← get "phase" status;
  if negb (truthy pod_ip) || negb (jeq_str phase "Running" || jeq_str phase "Pending") then Ok None else
  meta ← meta_of pod; name ← get_default "name" pod_ip meta;
  Ok (Some (name, pod_ip)).
(** [sort] by names, which Kubernetes makes texts; what the code would do with a name of
    another kind is not modelled, but for an error. *)
Definition text_name (p : json * json) : option (string * json) := match p.1 with JStr n => Some (n, p.2) | _ => None end.
Definition sorted_pods (l : list (json * json)) : res Exc (list (string * json)) :=
  named ← or_raise (Other "TypeError" "'<' not supported") (mapM text_name l); Ok (sort_by fst named).
Definition pods_in (payload : json) : res Exc (list (string * json)) :=
  items ← get_default "items" (JArr []) payload; items ← iter items;
  pods ← rmap triton_pod items; sorted_pods (keep_some pods).
Definition list_triton_pods : KM (list (string * json)) :=
  payload ← _get ("/api/v1/namespaces/" ++ triton_namespace s ++ "/pods") [("labelSelector"%string, triton_label_selector s)];
  if negb (truthy payload) then mret [] else
  mlift (pods_in payload).
End Kube.

(** ** Quantities are exact *)

Lemma suffix_letters suffix q : dget suffix _SUFFIXES = Some q -> str_forallb is_letter suffix = true.
Proof.
  intros H%dget_elem. assert (Hall : forallb (fun kv => str_forallb is_letter kv.1) _SUFFIXES = true) by reflexivity.
  rewrite forallb_forall in Hall. by apply (Hall (suffix, q)), list_elem_of_In.
Qed.
Lemma letter_plain c : is_letter c = true -> is_space c = false /\ number_char c = false.
Proof. intros H. destruct c as [[] [] [] [] [] [] [] []]; by vm_compute in H |- *. Qed.
Lemma digit_plain c : is_digit c = true ->
  is_space c = false /\ number_char c = true /\ chr_lower c = c /\ Ascii.eqb c "." = false /\ Ascii.eqb c "e" = false
  /\ Ascii.eqb c "-" = false /\ Ascii.eqb c "+" = false.
Proof. intros H. destruct c as [[] [] [] [] [] [] [] []]; by vm_compute in H |- *. Qed.
Lemma lstrip_number d suffix : str_forallb is_digit d = true -> str_forallb is_letter suffix = true ->
  str_lstrip number_char (d ++ suffix) = suffix.
Proof.
  intros Hd Hs. induction d as [|c d IH].
  - apply lstrip_id, (first_of_forall is_letter); [by intros c []%letter_plain|done].
  - change (String c d ++ suffix)%string with (String c (d ++ suffix)). cbn [str_lstrip str_forallb] in *.
    apply andb_true_iff in Hd as [Hc Hd]. destruct (digit_plain c Hc) as (_ & -> & _). by apply IH.
Qed.
Lemma partition_digits c d : (forall x, is_digit x = true -> Ascii.eqb x c = false) -> str_forallb is_digit d = true -> str_partition c d = (d, None).
Proof.
  intros H. induction d as [|x d IH]; cbn [str_partition str_forallb]; [done|]. intros [Hx Hd]%andb_true_iff. by rewrite (H x Hx), (IH Hd).
Qed.
Lemma lower_digits d : str_forallb is_digit d = true -> str_lower d = d.
Proof.
  unfold str_lower. induction d as [|x d IH]; cbn [str_map str_forallb]; [done|]. intros [Hx Hd]%andb_true_iff.
  destruct (digit_plain x Hx) as (_ & _ & -> & _). by rewrite IH.
Qed.
Lemma parse_float_digits d : str_forallb is_digit d = true -> d <> ""%string ->
  exists q, parse_float d = Some q /\ (q == qz (digits_value 0 d))%Q.
Proof.
  intros Hd Hne. unfold parse_float, str_strip. rewrite strip_plain, lower_digits by (done || by apply digits_no_space).
  destruct d as [|c d]; [done|]. pose proof Hd as [Hc _]%andb_true_iff. destruct (digit_plain c Hc) as (_ & _ & _ & _ & _ & -> & ->).
  unfold unsigned_float, mantissa_of. rewrite (partition_digits "e"), (partition_digits ".") by (done || by intros x (_ & _ & _ & ? & ? & _)%digit_plain).
  cbn [default String.eqb andb]. unfold part_of at 1. rewrite int_digits_value by (done || by right). cbn [String.eqb part_of].
  eexists. split; [reflexivity|]. unfold digit_count. cbn. change (Qpower 10 (Z.of_nat 0)) with 1%Q. change (qz 0) with 0%Q. field.
Qed.
Lemma quantity_re_split d suffix : str_forallb is_digit d = true -> d <> ""%string -> str_forallb is_letter suffix = true ->
  _QUANTITY_RE (d ++ suffix) = Some (d, suffix).
Proof.
  intros Hd Hne Hs. unfold _QUANTITY_RE. rewrite lstrip_number by done. rewrite str_length_app.
  replace (_ + _ - _)%nat with (String.length d) by lia. rewrite str_take_app. rewrite (lstrip_id is_space), Hs.
  - by destruct (String.eqb_spec d "").
  - apply (first_of_forall is_letter); [by intros c []%letter_plain|done].
Qed.
Lemma suffix_binary64 suffix f : dget suffix _SUFFIXES = Some (qz f) -> binary64 (qz f) = Some (qz f).
Proof.
  intros H%dget_elem. assert (Hall : forallb (fun kv => bool_decide (Qden kv.2 <> 1%positive \/ binary64 kv.2 = Some kv.2)) _SUFFIXES = true).
  { vm_compute. reflexivity. }
  rewrite forallb_forall in Hall. apply list_elem_of_In, Hall, bool_decide_eq_true in H. by destruct H.
Qed.
Lemma scaled_bound m j : 0 <= m < 2 ^ 53 -> 0 <= j <= 900 -> m * 2 ^ j < 2 ^ 1024.
Proof.
  intros Hm Hj. apply (Z.lt_le_trans _ (2 ^ 53 * 2 ^ j)); [apply Z.mul_lt_mono_pos_r; [apply Z.pow_pos_nonneg; lia|lia]|].
  rewrite <- Z.pow_add_r by lia. apply Z.pow_le_mono_r; lia.
Qed.
Lemma py_int_qz n : 0 <= n -> py_int (qz n) = n.
Proof.
  intros Hn. unfold py_int. destruct (_ <?q _) eqn:E; [|apply Qfloor_Z]. apply qlt_true in E. unfold qz in E.
  change 0%Q with (inject_Z 0) in E. rewrite <- Zlt_Qlt in E. lia.
Qed.
(** Whole quantities are read exactly. Of digits and any of the suffixes with a whole
    factor, the bytes are their product, without a rounding of floats: where the product
    is [m] times a power of two with [m] below [2^53], as it is of every number below
    [2^53] with a binary suffix. *)
Theorem quantity_exact d suffix f m j :
  str_forallb is_digit d = true -> d <> ""%string -> digits_value 0 d < 2 ^ 53 ->
  dget suffix _SUFFIXES = Some (qz f) -> 0 < f -> digits_value 0 d * f = m * 2 ^ j -> 0 <= m < 2 ^ 53 -> 0 <= j <= 900 ->
  parse_quantity (JStr (d ++ suffix)) = digits_value 0 d * f.
Proof.
  intros Hd Hne Hn Hf Hpos Hp Hm Hj. pose proof (suffix_letters _ _ Hf) as Hs. cbn [parse_quantity str_of]. unfold str_strip.
  rewrite strip_plain by (rewrite str_existsb_app, digits_no_space by done;
    apply (exists_of_forall is_letter); [by intros c []%letter_plain|done]).
  unfold quantity_of. rewrite quantity_re_split by done. destruct (parse_float_digits d Hd Hne) as (q & -> & Hq).
  pose proof (digits_value_bounds d Hd) as Hb. cbn [mbind option_bind]. rewrite Hq, binary64_int by lia. cbn [mbind option_bind].
  assert (Hfac : binary64 (dget_or suffix 1%Q _SUFFIXES) = Some (qz f)).
  { unfold dget_or. rewrite Hf. cbn [default]. by apply (suffix_binary64 suffix). }
  rewrite Hfac. cbn [mbind option_bind]. rewrite <- qz_mul, Hp. rewrite binary64_scaled by (lia || by apply scaled_bound).
  apply py_int_qz. nia.
Qed.
Lemma quantity_exact_witness : parse_quantity (JStr "4503599627370497Gi") = 4503599627370497 * 2 ^ 30.
Proof. apply (quantity_exact "4503599627370497" "Gi" (2 ^ 30) 4503599627370497 30); (lia || reflexivity || discriminate || vm_compute; done). Defined.

(** ** What the cluster says *)

(** Calls that are made for each of some things, and what they answer. *)
Lemma wp_gather {B A} svc (call : B -> KM A) (req : B -> Req) (f : forall b, Ans (req b) -> A) l u h (P : res Exc (list A) -> unit -> list Ev -> Prop) :
  (forall b, call b = (r ← (mcall svc (req b) : KM (Ans (req b))); mret (f b r))) ->
  (forall evs rs, Forall3 (fun b ev r => exists a, ev = existT (req b) a /\ r = f b a) l evs rs -> P (Ok rs) u (h ++ evs)) ->
  wp (gather call l) u h P.
Proof.
  intros Hc. revert h P. induction l as [|b l IH]; intros h P HP; cbn [gather].
  - apply wp_ret. specialize (HP [] [] ltac:(constructor)). by rewrite app_nil_r in HP.
  - rewrite Hc. wp_step. wp_step. wp_step. apply wp_ret. wp_step. apply IH. intros evs rs Hrs. apply wp_ret.
    rewrite <- app_assoc. apply (HP (_ :: evs) (_ :: rs)). constructor; [by eexists|done].
Qed.
(** The pods that are found are exactly those of the answer that have an address and are
    running or about to, in the order of their names. *)
Definition pod_of (item : json) : option (string * json) :=
  match triton_pod item with Ok (Some (JStr n, ip)) => Some (n, ip) | _ => None end.
Lemma mapM_text_name l named : mapM text_name l = Some named -> l = map (fun p => (JStr p.1, p.2)) named.
Proof.
  intros H%mapM_Some_1. induction H as [|[n ip] [m jp] l named Hp _ IH]; [done|]. cbn. rewrite <- IH.
  unfold text_name in Hp. cbn in Hp. destruct n; try done. by injection Hp as -> ->.
Qed.
Lemma pods_in_spec payload pods : pods_in payload = Ok pods ->
  exists items, (get_default "items" (JArr []) payload ≫= iter) = Ok items /\ pods ≡ₚ omap pod_of items /\ Sorted (not_after fst) pods.
Proof.
  unfold pods_in. unfold mbind, res_bind. destruct (get_default _ _ _) as [j|]; [|done]. destruct (iter j) as [items|]; [|done].
  destruct (rmap triton_pod items) as [found|] eqn:E; [|done]. unfold sorted_pods, or_raise, mbind, res_bind.
  destruct (mapM text_name _) as [named|] eqn:En; [|done]. intros [= <-]. exists items. split; [done|]. split; [|apply sort_by_sorted].
  rewrite sort_by_perm. apply mapM_text_name in En. apply rmap_forall2 in E. clear payload j.
  revert named En. induction E as [|item r items found Hr _ IH]; intros named En; [by destruct named|].
  unfold keep_some in En. cbn in En. change (omap id found) with (keep_some found) in En. unfold pod_of at 1. cbn. rewrite Hr.
  destruct r as [[n ip]|]; cbn in En; [|by apply IH]. destruct named as [|[m jp] named]; [done|]. cbn in En.
  injection En as -> -> En. by rewrite (IH named En).
Qed.

(** ** Without the cluster *)

(** No API server is configured, no service account is mounted, or every request to the
    API server fails: an answer that is no success, no JSON, or none. *)
Definition no_cluster (svc : service Req Ans) (s : Settings) : Prop :=
  kubernetes_host s = ""%string \/ (forall h, svc h TokenIsFile = false) \/
  ((forall h, svc h ReadToken <> OddToken) /\
   forall h url params token verify, is_ok (checked_json (svc h (KubeGet url params token verify))) = false).
Section Degrades.
Context (svc : service Req Ans) (s : Settings) (away : no_cluster svc s).
Lemma get_nothing path params u h (P : res Exc json -> unit -> list Ev -> Prop) :
  (forall h', P (Ok JNull) u h') -> wp (_get svc s path params) u h P.
Proof.
  intros HP. unfold _get, api_available, _api_base. wp_step. destruct away as [E|[E|[Et E]]].
  - rewrite E. cbn. apply wp_ret. cbv beta iota. cbn [negb]. by apply wp_ret.
  - destruct (String.eqb _ "").
    + apply wp_ret. cbv beta iota. cbn [negb]. by apply wp_ret.
    + wp_step. rewrite E. cbn [negb]. by apply wp_ret.
  - assert (Hrest : forall b h, wp (if negb b then mret JNull else
      token ← (mcall svc ReadToken : KM Token);
      match token with
      | NoToken => mret JNull
      | OddToken => raise (Other "UnicodeDecodeError" "")
      | ReadToken_ text =>
          verify ← (mcall svc CaIsFile : KM bool);
          reply ← (mcall svc (KubeGet (_api_base s ++ path)%string params (str_strip text) verify) : KM Reply);
          mret (match checked_json reply with Ok payload => payload | Err _ => JNull end)
      end) u h P).
    { intros [] h'; cbn [negb]; [|by apply wp_ret]. wp_step. wp_step. pose proof (Et h') as Hodd.
      destruct (svc h' ReadToken) as [text| |]; [|by apply wp_ret|done]. do 4 wp_step.
      pose proof (E (h' ++ [existT ReadToken (ReadToken_ text)] ++ [existT CaIsFile (svc (h' ++ [existT ReadToken (ReadToken_ text)]) CaIsFile)])
        (_api_base s ++ path)%string params (str_strip text)) as He.
      rewrite app_assoc in He. specialize (He (svc (h' ++ [existT ReadToken (ReadToken_ text)]) CaIsFile)).
      destruct (checked_json _) as [|e]; [done|]. by apply wp_ret. }
    destruct (String.eqb _ ""); [apply wp_ret; apply Hrest|]. wp_step. apply Hrest.
Qed.
Lemma capacity_nothing u h (P : res Exc Z -> unit -> list Ev -> Prop) : (forall h', P (Ok 0) u h') -> wp (pvc_capacity_bytes svc s) u h P.
Proof.
  intros HP. unfold pvc_capacity_bytes. destruct (String.eqb _ ""); [by apply wp_ret|]. wp_step. apply get_nothing. intros h'. by apply wp_ret.
Qed.
Lemma ingresses_nothing release u h (P : res Exc (list (json * json)) -> unit -> list Ev -> Prop) :
  (forall h', P (Ok []) u h') -> wp (_release_ingresses svc s release) u h P.
Proof. intros HP. unfold _release_ingresses. wp_step. apply get_nothing. intros h'. apply HP. Qed.
Lemma endpoint_nothing u h (P : res Exc Found -> unit -> list Ev -> Prop) :
  (forall h', P (Ok (if String.eqb (inference_endpoint s) "" then not_found else (inference_endpoint s, Some Configured))) u h') ->
  wp (find_inference_endpoint svc s) u h P.
Proof.
  intros HP. unfold find_inference_endpoint. destruct (String.eqb (inference_endpoint s) ""); cbn [negb]; [|by apply wp_ret].
  cbv zeta. destruct (String.eqb (supersonic_release s) ""); [by apply wp_ret|]. wp_step. apply ingresses_nothing. intros h1.
  cbv beta iota. wp_step. wp_step. cbn [first_found]. wp_step. apply get_nothing. intros h2. cbv beta iota. wp_step. wp_step. by apply wp_ret.
Qed.
Lemma grafana_nothing u h (P : res Exc Found -> unit -> list Ev -> Prop) :
  (forall h', P (Ok (if String.eqb (grafana_url s) "" then not_found else (grafana_url s, Some Configured))) u h') ->
  wp (find_grafana_url svc s) u h P.
Proof.
  intros HP. unfold find_grafana_url. destruct (String.eqb (grafana_url s) ""); cbn [negb]; [|by apply wp_ret].
  cbv zeta. destruct (String.eqb (supersonic_release s) ""); [by apply wp_ret|]. wp_step. apply ingresses_nothing. intros h1.
  cbv beta iota. wp_step. wp_step. by apply wp_ret.
Qed.
Lemma pods_nothing u h (P : res Exc (list (string * json)) -> unit -> list Ev -> Prop) :
  (forall h', P (Ok []) u h') -> wp (list_triton_pods svc s) u h P.
Proof. intros HP. unfold list_triton_pods. wp_step. apply get_nothing. intros h'. by apply wp_ret. Qed.
End Degrades.
