(* ===== verification/SmTree.v ===== *)
(** The model repository's directory tree, as the SuperSONIC model manager
    ([docker/supersonic-model-manager]) reads and changes it: the calls of [pathlib] and
    [os] that it makes, on a tree of names. *)
From S2P Require Import Prelude PyText.
Open Scope Z_scope.

(** A directory has its entries in the order in which [iterdir] gives them. A file has
    its bytes and whether it can be read. A link leads to a directory, to a file or
    nowhere; [to] is the name in the repository's root that it resolves to, if any. *)
Inductive leads := ToDir | ToFile | Nowhere.
Inductive node :=
| File (readable : bool) (data : list Z) (mtime : Q)
| Dir (entries : list (string * node))
| Link (where_ : leads) (bytes : Z) (mtime : Q) (to : option string).

Definition entries (n : node) : list (string * node) := match n with Dir cs => cs | _ => [] end.
Definition child (name : string) (n : node) : option node := dget name (entries n).
Definition is_dir (n : node) : bool := match n with Dir _ | Link ToDir _ _ _ => true | _ => false end.
Definition is_file (n : node) : bool := match n with File _ _ _ | Link ToFile _ _ _ => true | _ => false end.
Definition is_link (n : node) : bool := match n with Link _ _ _ _ => true | _ => false end.
(** [Path.exists] follows links. *)
Definition exists_node (n : node) : bool := match n with Link Nowhere _ _ _ => false | _ => true end.
Definition is_some_and {A} (p : A -> bool) (o : option A) : bool := match o with Some a => p a | None => false end.

Fixpoint find_node (path : list string) (n : node) : option node :=
  match path with
  | [] => Some n
  | x :: p => match child x n with Some c => find_node p c | None => None end
  end.
(** A node put at a path ([None] takes away what is there); the directories above it
    have to be there. *)
Fixpoint put_node (path : list string) (v : option node) (n : node) : option node :=
  match path, n with
  | [], _ => v
  | [x], Dir cs => Some (Dir (match v with Some w => dset x w cs | None => ddel x cs end))
  | x :: p, Dir cs =>
      match dget x cs with
      | Some c => match put_node p v c with Some c' => Some (Dir (dset x c' cs)) | None => None end
      | None => None
      end
  | _, _ => None
  end.
(** [mkdir(parents=True, exist_ok=True)]: not where a file is in the way. *)
Fixpoint mkdirs (path : list string) (n : node) : option node :=
  match path, n with
  | [], Dir _ => Some n
  | x :: p, Dir cs =>
      match mkdirs p (default (Dir []) (dget x cs)) with Some c => Some (Dir (dset x c cs)) | None => None end
  | _, _ => None
  end.

(** [_dir_stats]: bytes, files and the newest of their times below a directory; links to
    directories are not followed, other links count as files. *)
Definition stats0 : Z * Z * Q := (0, 0, 0%Q).
Definition add_stats (a b : Z * Z * Q) : Z * Z * Q :=
  let '(x, n, t) := a in let '(y, m, u) := b in (x + y, n + m, Qmax t u).
Fixpoint node_stats (n : node) : Z * Z * Q :=
  match n with
  | File _ data t => (Z.of_nat (List.length data), 1, t)
  | Link ToDir _ _ _ => stats0
  | Link _ bytes t _ => (bytes, 1, t)
  | Dir cs => foldr (fun kc acc => add_stats (node_stats kc.2) acc) stats0 cs
  end.
Definition dir_stats (n : node) : Z * Z * Q :=
  match n with Dir cs => foldr (fun kc acc => add_stats (node_stats kc.2) acc) stats0 cs | _ => stats0 end.

(** ** What an operation leaves alone *)

(** The entries of the root but one are the same. *)
Definition others (x : string) (n n' : node) : Prop := forall y, y <> x -> child y n' = child y n.
Lemma others_refl x n : others x n n.
Proof. done. Qed.
Lemma others_trans x a b c : others x a b -> others x b c -> others x a c.
Proof. intros H1 H2 y Hy. by rewrite H2, H1. Qed.
Lemma put_others x p v n n' : put_node (x :: p) v n = Some n' -> others x n n'.
Proof.
  destruct n as [|cs|]; [by destruct p| |by destruct p]. intros H y Hy. unfold child. destruct p as [|z p]; cbn in H.
  - injection H as <-. cbn. destruct v; [by apply dget_dset_ne|by apply dget_ddel_ne].
  - destruct (dget x cs) as [c|]; [|done]. destruct (put_node (z :: p) v c) as [c'|] eqn:E; cbn in E; rewrite E in H; [|done].
    injection H as <-. cbn. by apply dget_dset_ne.
Qed.
Lemma mkdirs_others x p n n' : mkdirs (x :: p) n = Some n' -> others x n n'.
Proof.
  destruct n as [|cs|]; [done| |done]. cbn. destruct (mkdirs p _) as [c|]; [|done]. intros [= <-] y Hy.
  unfold child. cbn. by apply dget_dset_ne.
Qed.
Lemma child_put x v n n' : put_node [x] (Some v) n = Some n' -> child x n' = Some v.
Proof. destruct n; cbn; try done. intros [= <-]. unfold child. cbn. apply dget_dset. Qed.
Lemma child_drop x n n' : put_node [x] None n = Some n' -> child x n' = None.
Proof. destruct n; cbn; try done. intros [= <-]. unfold child. cbn. apply dget_ddel. Qed.
