(* ===== verification/SmValidate.v ===== *)
(** What a model directory must be for Triton
    ([docker/supersonic-model-manager/model_manager/validation.py]). *)
From stdpp Require Import pretty.
From S2P Require Import Prelude PyText MmText SmTree.
Open Scope Z_scope.

Inductive Kind := AFile | ADir | Any.
Definition PLATFORM_ARTIFACTS : list (string * (string * Kind)) :=
  [("tensorrt_plan", ("model.plan", AFile)); ("onnxruntime_onnx", ("model.onnx", Any));
   ("tensorflow_savedmodel", ("model.savedmodel", ADir)); ("tensorflow_graphdef", ("model.graphdef", AFile));
   ("pytorch_libtorch", ("model.pt", AFile)); ("openvino", ("model.xml", AFile));
   ("python", ("model.py", AFile)); ("dali", ("model.dali", AFile))]%string.
(** [None]: the backend accepts several layouts. *)
Definition BACKEND_ARTIFACTS : list (string * option (string * Kind)) :=
  [("tensorrt", Some ("model.plan", AFile)); ("onnxruntime", Some ("model.onnx", Any));
   ("pytorch", Some ("model.pt", AFile)); ("openvino", Some ("model.xml", AFile));
   ("python", Some ("model.py", AFile)); ("dali", Some ("model.dali", AFile));
   ("tensorflow", None); ("fil", None); ("vllm", None)]%string.
Definition ARTIFACT_PLATFORMS : list (string * string) := map (fun p => (p.2.1, p.1)) PLATFORM_ARTIFACTS.
Definition AUTOCOMPLETE_PLATFORMS : list string :=
  ["tensorrt_plan"; "onnxruntime_onnx"; "tensorflow_savedmodel"; "pytorch_libtorch"; "python"]%string.

Record ValidationResult := mkResult { errors : list text; warnings : list text; r_platform : text; r_versions : list string }.
Definition ok (r : ValidationResult) : bool := match errors r with [] => true | _ => false end.

Definition is_version_name (name : string) : bool := negb (String.eqb name "") && str_forallb is_digit name.
(** [int(name)] of a version's name. *)
Definition version_of (name : string) : Z := digits_value 0 name.
(** [sorted(names, key=int)] *)
Fixpoint insert_version (v : string) (l : list string) : list string :=
  match l with [] => [v] | w :: l' => if version_of v <? version_of w then v :: l else w :: insert_version v l' end.
Definition sorted_versions (l : list string) : list string := foldl (fun acc v => insert_version v acc) [] l.
(** [sorted(children, key=lambda p: p.name)] *)
Fixpoint insert_entry (e : string * node) (l : list (string * node)) : list (string * node) :=
  match l with [] => [e] | f :: l' => if String.ltb e.1 f.1 then e :: l else f :: insert_entry e l' end.
Definition sorted_entries (l : list (string * node)) : list (string * node) := foldl (fun acc e => insert_entry e acc) [] l.
(** [Path.suffix]: from the last dot, unless it is the first or the last character. *)
Definition suffix_of (name : string) : string :=
  match rpartition_at "." name with
  | Some (stem, ext) => if String.eqb stem "" || String.eqb ext "" then "" else String "." ext
  | None => ""
  end.

Section Validate.
(** Python's Unicode tables; the text of a file's bytes, its errors replaced; and what is
    at a path below a version's directory that is not just a name. *)
Context (uni : Unicode) (decode : list Z -> text) (at_path : node -> text -> option node).

(** ** config.pbtxt *)

Definition QUOTE : Z := 34.
Definition COLON : Z := 58.
Definition strip_comments : text -> text :=
  (fix go (in_comment : bool) (t : text) : text :=
    match t with
    | [] => []
    | c :: t' =>
        if c =? NEWLINE then c :: go false t'
        else if in_comment then go true t'
        else if c =? HASH then go true t' else c :: go false t'
    end) false.
Fixpoint starts_with (p t : text) : option text :=
  match p, t with
  | [], _ => Some t
  | a :: p', c :: t' => if a =? c then starts_with p' t' else None
  | _, [] => None
  end.
(** The quoted text after [key], spaces and a colon. *)
Definition quoted_value (key t : text) : option text :=
  match starts_with key t with
  | None => None
  | Some t =>
      match drop_while (space uni) t with
      | c :: t =>
          if c =? COLON then
            match drop_while (space uni) t with
            | q :: t =>
                if q =? QUOTE
                then let v := take_while (fun c => negb (c =? QUOTE)) t in
                     if Nat.ltb (List.length v) (List.length t) then Some v else None
                else None
            | [] => None
            end
          else None
      | [] => None
      end
  end.
(** The first line that starts with such a field, after spaces if [indented]. *)
Fixpoint field_from (indented line_start : bool) (key t : text) : option text :=
  match t with
  | [] => None
  | c :: t' =>
      match (if line_start then quoted_value key (if indented then drop_while (space uni) t else t) else None) with
      | Some v => Some v
      | None => field_from indented (c =? NEWLINE) key t'
      end
  end.
Definition scalar (key : string) (t : text) : option text :=
  match field_from false true (txt key) t with Some v => Some v | None => field_from true true (txt key) t end.
Record Declared := mkDeclared {
  d_error : bool; d_name : option text; d_platform : option text; d_backend : option text; d_filename : option text }.
Definition no_config : Declared := mkDeclared false None None None None.
Definition parse_config (config_file : node) : Declared :=
  match config_file with
  | File true data _ =>
      let t := strip_comments (decode data) in
      mkDeclared false (scalar "name" t) (scalar "platform" t) (scalar "backend" t) (scalar "default_model_filename" t)
  | _ => mkDeclared true None None None None
  end.

(** ** What Triton looks for *)

Definition by_text {V} (key : text) (l : list (string * V)) : option V :=
  match List.find (fun kv => text_eqb key kv.1) l with Some kv => Some kv.2 | None => None end.
Definition _expected_artifact (platform backend default_filename : text) : option (text * Kind) :=
  match default_filename with
  | _ :: _ => Some (default_filename, Any)
  | [] =>
      match by_text platform PLATFORM_ARTIFACTS with
      | Some (name, kind) => Some (txt name, kind)
      | None =>
          match by_text backend BACKEND_ARTIFACTS with
          | Some (Some (name, kind)) => Some (txt name, kind)
          | _ => None
          end
      end
  end.
(** [version_dir / name]: one of its entries, unless the name is a path. *)
Definition plain_name (name : text) : bool :=
  negb (existsb (fun c => (c =? 47) || (128 <=? c)) name) && negb (text_eqb name ".") && negb (text_eqb name "..").
Definition artifact (version_dir : node) (name : text) : option node :=
  if plain_name name
  then match List.find (fun kc => text_eqb name kc.1) (entries version_dir) with Some kc => Some kc.2 | None => None end
  else at_path version_dir name.
Definition _infer_platform (version_dir : node) : text :=
  match List.find (fun ap => is_some_and exists_node (child ap.1 version_dir)) ARTIFACT_PLATFORMS with
  | Some (_, platform) => txt platform
  | None => []
  end.

(** ** The check *)

Definition nonempty (t : text) : bool := match t with [] => false | _ => true end.
Definition config_errors (config : Declared) (model_name : string) : list text :=
  (if d_error config then [txt "config.pbtxt could not be read"] else []) ++
  (let declared := strip uni (default [] (d_name config)) in
   if nonempty declared && negb (text_eqb declared model_name)
   then [txt "config.pbtxt declares name: " ++ [QUOTE] ++ declared ++ [QUOTE] ++ txt ", but the model is being installed as "
         ++ [QUOTE] ++ txt model_name ++ [QUOTE] ++ txt ". Triton requires these to match."]
   else []).
Definition config_warnings (platform backend : text) : list text :=
  if negb (nonempty platform) && negb (nonempty backend)
  then [txt ("config.pbtxt sets neither 'platform' nor 'backend'; Triton will have "
             ++ "to infer the backend from the model file.")]
  else [].
Definition is_version_dir (e : string * node) : bool := is_dir e.2 && is_version_name e.1.
Definition entry_warnings (e : string * node) : list text :=
  if is_dir e.2 then
    if is_version_name e.1 || String.eqb e.1 "warmup" then []
    else [txt ("Directory '" ++ e.1 ++ "/' is not a numeric version and will be ignored by Triton.")]
  else if negb (String.eqb e.1 "config.pbtxt") && negb (existsb (String.eqb (suffix_of e.1)) [".txt"; ".json"]%string)
  then [txt ("File '" ++ e.1 ++ "' sits outside a version directory and will be ignored by Triton.")]
  else [].
Definition no_version_error (es : list (string * node)) : text :=
  match List.find (fun e => is_file e.2 && existsb (fun ap => String.eqb ap.1 e.1) ARTIFACT_PLATFORMS) es with
  | Some (stray, _) => txt ("Model file '" ++ stray ++ "' is directly inside the model directory. "
                            ++ "Triton requires a numeric version directory, e.g. 1/" ++ stray ++ ".")
  | None => txt ("No version directory found. A Triton model needs at least one "
                 ++ "directory named with a positive integer, e.g. '1/'.")
  end.
Definition number_errors (versions : list (string * node)) : list text :=
  flat_map (fun v => if version_of v.1 <? 1
    then [txt ("Version directory '" ++ v.1 ++ "/' is invalid: Triton versions start at 1.")] else []) versions.
(** The errors and warnings of one version's contents. *)
Definition version_issues (platform backend : text) (expected : option (text * Kind)) (v : string * node) : list text * list text :=
  let named := if nonempty platform then platform else backend in
  if text_eqb platform "ensemble" then ([], [])
  else if match entries v.2 with [] => true | _ => false end
  then ([txt ("Version directory '" ++ v.1 ++ "/' is empty.")], [])
  else match expected with
  | None => ([], [])
  | Some (name, kind) =>
      let target := artifact v.2 name in
      let at_ := txt ("'" ++ v.1 ++ "/") ++ name ++ txt "' must be a " in
      if negb (is_some_and exists_node target) then
        let present := String.concat ", " (take 6 (str_sorted (map fst (entries v.2)))) in
        ([txt ("Version '" ++ v.1 ++ "/' does not contain '") ++ name ++ txt "', which "
          ++ (if nonempty named then named else txt "this backend") ++ txt " requires (found: " ++ txt present
          ++ txt "). Rename the file, or set default_model_filename in config.pbtxt."], [])
      else match kind with
      | ADir => if is_some_and is_dir target then ([], []) else ([at_ ++ txt "directory for " ++ named ++ txt "."], [])
      | _ =>
          if match kind with AFile => is_some_and is_dir target | _ => false end
          then ([at_ ++ txt "file for " ++ named ++ txt "."], [])
          else if text_eqb name "model.xml" && negb (is_some_and exists_node (child "model.bin" v.2))
          then ([], [txt ("Version '" ++ v.1 ++ "/' has model.xml but no model.bin; OpenVINO models normally need both.")])
          else ([], [])
      end
  end.
Definition missing_config (platform : text) : list text * list text :=
  if existsb (text_eqb platform) AUTOCOMPLETE_PLATFORMS then
    ([], [txt "No config.pbtxt. Triton can autocomplete a " ++ platform
          ++ txt " model, but not on a server that runs with --disable-auto-complete-config."])
  else if nonempty platform then
    ([txt "No config.pbtxt, and " ++ platform ++ txt " models cannot be autocompleted by Triton. Add a config.pbtxt."], [])
  else ([txt ("No config.pbtxt, and the backend could not be inferred from the model "
              ++ "files. Add a config.pbtxt specifying 'platform' or 'backend'.")], []).

Definition config_of (model_dir : node) : option Declared :=
  match child "config.pbtxt" model_dir with
  | Some f => if is_file f then Some (parse_config f) else None
  | None => None
  end.
Definition stripped (field : Declared -> option text) (config : option Declared) : text :=
  strip uni (default [] (match config with Some c => field c | None => None end)).
Definition validate_model_dir (model_dir : node) (model_name : string) : ValidationResult :=
  if negb (is_dir model_dir) then mkResult [txt "The upload does not contain a model directory."] [] [] [] else
  let es := sorted_entries (entries model_dir) in
  let config := config_of model_dir in
  let platform := stripped d_platform config in
  let backend := stripped d_backend config in
  let default_filename := stripped d_filename config in
  let errors1 := match config with Some c => config_errors c model_name | None => [] end in
  let warnings1 := match config with Some _ => config_warnings platform backend | None => [] end in
  let versions := List.filter is_version_dir es in
  let warnings2 := flat_map entry_warnings es in
  match versions with
  | [] => mkResult (errors1 ++ [no_version_error es]) (warnings1 ++ warnings2) [] []
  | first :: _ =>
      let platform := if negb (nonempty platform) && negb (nonempty backend) && negb (nonempty default_filename)
        then _infer_platform first.2 else platform in
      let expected := _expected_artifact platform backend default_filename in
      let issues := map (version_issues platform backend expected) versions in
      let last := match config with None => missing_config platform | Some _ => ([], []) end in
      mkResult (errors1 ++ number_errors versions ++ flat_map fst issues ++ last.1)
        (warnings1 ++ warnings2 ++ flat_map snd issues ++ last.2)
        (if nonempty platform then platform else backend) (sorted_versions (map fst versions))
  end.

(** ** The fields of a config, as the rules of the format have them *)

(** A line that sets [key] to [v]: spaces, where they may be, the key, a colon between
    spaces, and the value in quotes. *)
Definition sets (indented : bool) (key : text) (v t : text) : Prop :=
  exists ws0 ws1 ws2 post, t = ws0 ++ key ++ ws1 ++ COLON :: ws2 ++ QUOTE :: v ++ QUOTE :: post /\
    Forall (fun c => space uni c = true) ws0 /\ Forall (fun c => space uni c = true) ws1 /\ Forall (fun c => space uni c = true) ws2 /\
    QUOTE ∉ v /\ (indented = false -> ws0 = []).
(** It stands after [pre], at the start of the text, where that is a line's, or of a line. *)
Definition set_after (fresh indented : bool) (key t pre v : text) : Prop :=
  (if pre is [] then fresh = true else List.last pre 0 = NEWLINE) /\ exists t', t = pre ++ t' /\ sets indented key v t'.
Definition set_first (fresh indented : bool) (key t v : text) : Prop :=
  exists pre, set_after fresh indented key t pre v /\
    forall pre' v', set_after fresh indented key t pre' v' -> (List.length pre <= List.length pre')%nat.
Definition never_set (fresh indented : bool) (key t : text) : Prop := forall pre v, ~ set_after fresh indented key t pre v.
(** What a config says of a field: the first line that sets it at its start; where there is
    none, the first that does after spaces. *)
Definition config_says (key t : text) (o : option text) : Prop :=
  match o with
  | Some v => set_first true false key t v \/ never_set true false key t /\ set_first true true key t v
  | None => never_set true false key t /\ never_set true true key t
  end.

Lemma space_quote : space uni QUOTE = false. Proof. done. Qed.
Lemma space_colon : space uni COLON = false. Proof. done. Qed.
Lemma drop_spaces ws t : Forall (fun c => space uni c = true) ws -> drop_while (space uni) (ws ++ t) = drop_while (space uni) t.
Proof. induction 1 as [|c ws Hc _ IH]; [done|]. cbn. by rewrite Hc. Qed.
Lemma dropped_spaces t : exists ws, t = ws ++ drop_while (space uni) t /\ Forall (fun c => space uni c = true) ws.
Proof.
  induction t as [|c t [ws [E H]]]; [by exists []|]. cbn. destruct (space uni c) eqn:Ec; [|by exists []].
  exists (c :: ws). cbn. rewrite <- E. split; [done|]. by constructor.
Qed.
Lemma starts_with_iff p t t' : starts_with p t = Some t' <-> t = p ++ t'.
Proof.
  revert t. induction p as [|a p IH]; intros t; cbn; [split; congruence|]. destruct t as [|c t]; [done|].
  destruct (Z.eqb_spec a c) as [->|Hne]; [rewrite IH|]; split; congruence.
Qed.
Lemma quote_ends v post : QUOTE ∉ v -> take_while (fun c => negb (c =? QUOTE)) (v ++ QUOTE :: post) = v.
Proof.
  induction v as [|c v IH]; [done|]. rewrite not_elem_of_cons. intros [Hc Hv]. cbn -[QUOTE].
  destruct (Z.eqb_spec c QUOTE); [congruence|]. cbn. by rewrite IH.
Qed.
Lemma quote_found t : let v := take_while (fun c => negb (c =? QUOTE)) t in
  QUOTE ∉ v /\ ((List.length v < List.length t)%nat -> exists post, t = v ++ QUOTE :: post).
Proof.
  induction t as [|c t [IH1 IH2]]; [split; [apply not_elem_of_nil|cbn; lia]|]. cbn -[QUOTE]. destruct (Z.eqb_spec c QUOTE) as [->|Hne].
  - split; [apply not_elem_of_nil|]. by exists t.
  - cbn -[QUOTE]. split; [by rewrite not_elem_of_cons|]. intros Hl. destruct IH2 as [post E]; [cbn in Hl; lia|]. exists post. congruence.
Qed.
(** A line sets a key just if the code reads the value there. *)
Lemma quoted_iff key t v : quoted_value key t = Some v <-> sets false key v t.
Proof.
  unfold quoted_value, sets. split.
  - destruct (starts_with key t) as [t1|] eqn:E1; [|done]. apply starts_with_iff in E1 as ->.
    destruct (dropped_spaces t1) as (ws1 & E1 & H1). destruct (drop_while _ t1) as [|c t2]; [done|].
    destruct (Z.eqb_spec c COLON) as [->|]; [|done]. destruct (dropped_spaces t2) as (ws2 & E2 & H2).
    destruct (drop_while _ t2) as [|q t3]; [done|]. destruct (Z.eqb_spec q QUOTE) as [->|]; [|done]. cbv zeta.
    destruct (quote_found t3) as [Hq Hp]. destruct (Nat.ltb_spec (List.length (take_while (fun c => negb (c =? QUOTE)) t3)) (List.length t3)) as [Hl|]; [|done].
    intros [= <-]. destruct (Hp Hl) as [post E3]. exists [], ws1, ws2, post. rewrite E1, E2. rewrite E3 at 1. by repeat split.
  - intros (ws0 & ws1 & ws2 & post & -> & _ & H1 & H2 & Hv & H0). rewrite (H0 eq_refl). cbn [app].
    rewrite (proj2 (starts_with_iff key _ _) eq_refl). rewrite drop_spaces by done. cbn [drop_while]. rewrite space_colon, Z.eqb_refl.
    rewrite drop_spaces by done. cbn [drop_while]. rewrite space_quote, Z.eqb_refl. cbv zeta. rewrite quote_ends by done.
    rewrite length_app. cbn [List.length]. by rewrite (proj2 (Nat.ltb_lt _ _)) by lia.
Qed.
Definition starts_plain (key : text) : Prop := exists c key', key = c :: key' /\ space uni c = false.
Lemma line_iff (indented : bool) key t v : starts_plain key ->
  quoted_value key (if indented then drop_while (space uni) t else t) = Some v <-> sets indented key v t.
Proof.
  intros (c & key' & -> & Hc). destruct indented; [|apply quoted_iff]. rewrite quoted_iff. unfold sets. split.
  - intros (ws0 & ws1 & ws2 & post & E & _ & H1 & H2 & Hv & H0). rewrite (H0 eq_refl) in E.
    destruct (dropped_spaces t) as (ws & Et & Hws). exists ws, ws1, ws2, post. rewrite Et, E. by repeat split.
  - intros (ws0 & ws1 & ws2 & post & -> & Hw & H1 & H2 & Hv & _). exists [], ws1, ws2, post. rewrite drop_spaces by done.
    cbn [app drop_while]. rewrite Hc. by repeat split.
Qed.
Lemma field_first indented fresh key t : starts_plain key ->
  match field_from indented fresh key t with
  | Some v => set_first fresh indented key t v
  | None => never_set fresh indented key t
  end.
Proof.
  intros Hk. revert fresh. induction t as [|c t IH]; intros fresh; cbn [field_from].
  { intros pre v (_ & t' & E & ws0 & ws1 & ws2 & post & -> & _). destruct Hk as (k & key' & -> & _). by destruct pre, ws0. }
  destruct (if fresh then _ else None) as [v|] eqn:El.
  - destruct fresh; [|done]. apply line_iff in El; [|done]. exists []. split; [split; [done|by exists (c :: t)]|]. cbn. lia.
  - assert (Hne : forall v, ~ set_after fresh indented key (c :: t) [] v).
    { intros v (Hf & t' & E & Hs). cbn in Hf, E. subst fresh t'. apply line_iff in Hs; [|done]. congruence. }
    assert (Hstep : forall p v, set_after fresh indented key (c :: t) (c :: p) v <-> set_after (c =? NEWLINE) indented key t p v).
    { intros p v. unfold set_after. destruct p as [|x p].
      - cbn [List.last]. rewrite Z.eqb_eq. split; intros (Hc & t' & E & Hs); (split; [done|]); exists t'; (split; [|done]); cbn in *; congruence.
      - change (List.last (c :: x :: p) 0) with (List.last (x :: p) 0).
        split; intros (Hc & t' & E & Hs); (split; [done|]); exists t'; (split; [|done]); cbn in *; congruence. }
    specialize (IH (c =? NEWLINE)). destruct (field_from _ _ _ t) as [v|].
    + destruct IH as (pre & Hp & Hmin). exists (c :: pre). split; [by apply Hstep|]. intros [|c' pre'] v' Hs; [by apply Hne in Hs|].
      assert (c' = c) as -> by (destruct Hs as (_ & t' & E & _); cbn in E; congruence). apply Hstep, Hmin in Hs. cbn. lia.
    + intros [|c' pre'] v' Hs; [by apply Hne in Hs|].
      assert (c' = c) as -> by (destruct Hs as (_ & t' & E & _); cbn in E; congruence). by apply Hstep, IH in Hs.
Qed.
Lemma set_first_unique fresh indented key t v v' : starts_plain key ->
  set_first fresh indented key t v -> set_first fresh indented key t v' -> v = v'.
Proof.
  intros Hk (pre & (Hp & t1 & E1 & H1) & Hm) (pre' & (Hp' & t2 & E2 & H2) & Hm').
  assert (List.length pre = List.length pre') as Hl.
  { apply Nat.le_antisymm; [eapply Hm|eapply Hm']; split; eauto. }
  assert (pre = pre' /\ t1 = t2) as [_ <-] by (apply app_inj_1; [done|congruence]).
  apply line_iff in H1, H2; [|done..]. congruence.
Qed.
Lemma scalar_says key t : starts_plain (txt key) -> config_says (txt key) t (scalar key t).
Proof.
  intros Hk. unfold scalar. pose proof (field_first false true (txt key) t Hk) as H1. pose proof (field_first true true (txt key) t Hk) as H2.
  destruct (field_from false true _ t) as [v|]; [by left|]. destruct (field_from true true _ t) as [v|]; [by right|done].
Qed.
Lemma config_says_unique key t o o' : starts_plain key -> config_says key t o -> config_says key t o' -> o = o'.
Proof.
  intros Hk. assert (Hno : forall i v, set_first true i key t v -> ~ never_set true i key t).
  { intros i v (pre & Hs & _) Hn. by apply Hn in Hs. }
  destruct o as [v|], o' as [v'|]; cbn; [| | |done].
  all: repeat match goal with |- _ \/ _ -> _ => intros [?|[??]] | |- _ /\ _ -> _ => intros [??] end.
  all: try (f_equal; by eapply set_first_unique).
  all: exfalso; match goal with H : set_first true ?i _ _ _, N : never_set true ?i _ _ |- _ => by apply (Hno _ _ H N) end.
Qed.

(** ** What it accepts *)

(** The files that Triton looks for, by platform and by backend. *)
Definition platform_files : list (string * (string * Kind)) :=
  [("dali", ("model.dali", AFile)); ("onnxruntime_onnx", ("model.onnx", Any)); ("openvino", ("model.xml", AFile));
   ("python", ("model.py", AFile)); ("pytorch_libtorch", ("model.pt", AFile)); ("tensorflow_graphdef", ("model.graphdef", AFile));
   ("tensorflow_savedmodel", ("model.savedmodel", ADir)); ("tensorrt_plan", ("model.plan", AFile))]%string.
Definition backend_files : list (string * (string * Kind)) :=
  [("dali", ("model.dali", AFile)); ("onnxruntime", ("model.onnx", Any)); ("openvino", ("model.xml", AFile));
   ("python", ("model.py", AFile)); ("pytorch", ("model.pt", AFile)); ("tensorrt", ("model.plan", AFile))]%string.
(** A file that is named is looked for; else the platform's, where it has one; else the
    backend's, where it has one; else nothing is. *)
Inductive looks_for (platform backend : text) : text -> option (text * Kind) -> Prop :=
| looks_named file : file <> [] -> looks_for platform backend file (Some (file, Any))
| looks_platform p name kind : (p, (name, kind)) ∈ platform_files -> platform = txt p -> looks_for platform backend [] (Some (txt name, kind))
| looks_backend b name kind : (forall p k, (p, k) ∈ platform_files -> platform <> txt p) ->
    (b, (name, kind)) ∈ backend_files -> backend = txt b -> looks_for platform backend [] (Some (txt name, kind))
| looks_nothing : (forall p k, (p, k) ∈ platform_files -> platform <> txt p) -> (forall b k, (b, k) ∈ backend_files -> backend <> txt b) ->
    looks_for platform backend [] None.
(** The platform that a version's files tell, by the first of these that is there. *)
Definition telling_files : list (string * string) :=
  [("model.plan", "tensorrt_plan"); ("model.onnx", "onnxruntime_onnx"); ("model.savedmodel", "tensorflow_savedmodel");
   ("model.graphdef", "tensorflow_graphdef"); ("model.pt", "pytorch_libtorch"); ("model.xml", "openvino");
   ("model.py", "python"); ("model.dali", "dali")]%string.
Definition tells (version : node) (platform : text) : Prop :=
  (exists l1 file p l2, telling_files = l1 ++ (file, p) :: l2 /\ platform = txt p /\ is_some_and exists_node (child file version) = true /\
     Forall (fun fp => is_some_and exists_node (child fp.1 version) = false) l1) \/
  platform = [] /\ Forall (fun fp => is_some_and exists_node (child fp.1 version) = false) telling_files.

(** A version that the rules accept: its number starts at 1 and, but for an ensemble, it
    holds something, and the file or the directory that is looked for. *)
Definition version_ok (platform : text) (expected : option (text * Kind)) (v : string * node) : Prop :=
  1 <= version_of v.1 /\
  (platform = txt "ensemble" \/ entries v.2 <> [] /\
   match expected with
   | None => True
   | Some (name, kind) => exists f, artifact v.2 name = Some f /\ exists_node f = true /\
       match kind with ADir => is_dir f = true | AFile => is_dir f = false | Any => True end
   end).
Definition versions_in (model_dir : node) : list (string * node) := List.filter is_version_dir (sorted_entries (entries model_dir)).
(** What the config says of a field, stripped: nothing where there is no config to read. *)
Definition field_of (model_dir : node) (key : string) (v : text) : Prop :=
  match child "config.pbtxt" model_dir with
  | Some (File true data _) => exists o, config_says (txt key) (strip_comments (decode data)) o /\ v = strip uni (default [] o)
  | _ => v = []
  end.
(** A directory that meets the rules, for the platform, the backend and the file that its
    config names, and the platform that it comes to. *)
Inductive meets_rules (model_dir : node) (name : string) : Prop :=
| meets declared platform backend file come first rest expected :
    is_dir model_dir = true ->
    field_of model_dir "name" declared -> field_of model_dir "platform" platform ->
    field_of model_dir "backend" backend -> field_of model_dir "default_model_filename" file ->
    versions_in model_dir = first :: rest ->
    (if decide (platform = [] /\ backend = [] /\ file = []) then tells first.2 come else come = platform) ->
    looks_for come backend file expected ->
    Forall (version_ok come expected) (first :: rest) ->
    match child "config.pbtxt" model_dir with
    | Some f => if is_file f then (exists data mtime, f = File true data mtime) /\ (declared = [] \/ declared = txt name)
                else come ∈ map txt ["tensorrt_plan"; "onnxruntime_onnx"; "tensorflow_savedmodel"; "pytorch_libtorch"; "python"]%string
    | None => come ∈ map txt ["tensorrt_plan"; "onnxruntime_onnx"; "tensorflow_savedmodel"; "pytorch_libtorch"; "python"]%string
    end -> meets_rules model_dir name.

Lemma by_text_some {V} key (l : list (string * V)) : NoDup (map (fun kv => txt kv.1) l) -> forall v,
  by_text key l = Some v <-> exists k, (k, v) ∈ l /\ key = txt k.
Proof.
  unfold by_text. induction l as [|[k w] l IH]; intros Hnd v; cbn -[txt].
  { split; [done|]. intros (k & H & _). by apply not_elem_of_nil in H. }
  cbn -[txt] in Hnd. apply NoDup_cons in Hnd as [Hni Hnd]. unfold text_eqb. case_bool_decide as E; cbn [snd].
  - split; [intros [= <-]; exists k; split; [by left|done]|]. intros (k' & [[= _ ->]|Hk]%elem_of_cons & E'); [done|].
    exfalso. apply Hni. apply list_elem_of_fmap. exists (k', v). cbn -[txt]. split; [congruence|done].
  - rewrite IH by done. split; intros (k' & Hin & E'); exists k'; (split; [|done]); [by right|].
    apply elem_of_cons in Hin as [[= -> ->]|?]; [done|done].
Qed.
Lemma by_text_none {V} key (l : list (string * V)) : by_text key l = None <-> forall k v, (k, v) ∈ l -> key <> txt k.
Proof.
  unfold by_text. induction l as [|[k w] l IH]; cbn -[txt]; [split; [intros _ k v H; by apply not_elem_of_nil in H|done]|].
  unfold text_eqb. case_bool_decide as E.
  - split; [done|]. intros H. exfalso. eapply H; [by left|done].
  - rewrite IH. split; intros H k' v'; [intros [[= -> ->]|Hin]%elem_of_cons; [done|by eapply H]|intros Hin; eapply H; by right].
Qed.
Lemma flat_map_nil {A B} (f : A -> list B) l : flat_map f l = [] <-> Forall (fun x => f x = []) l.
Proof.
  induction l as [|x l IH]; cbn; [done|]. rewrite app_nil, IH. split; [by intros [? ?]; constructor|]. by inversion 1.
Qed.
Lemma number_errors_nil versions : number_errors versions = [] <-> Forall (fun v => 1 <= version_of v.1) versions.
Proof.
  unfold number_errors. rewrite flat_map_nil. apply Forall_proper; [|done]. intros v.
  destruct (version_of v.1 <? 1) eqn:E; [apply Z.ltb_lt in E|apply Z.ltb_ge in E]; split; try done. lia.
Qed.
Lemma version_issues_nil platform backend expected v :
  (version_issues platform backend expected v).1 = [] <->
  platform = txt "ensemble" \/ entries v.2 <> [] /\
   match expected with
   | None => True
   | Some (name, kind) => exists f, artifact v.2 name = Some f /\ exists_node f = true /\
       match kind with ADir => is_dir f = true | AFile => is_dir f = false | Any => True end
   end.
Proof.
  unfold version_issues, text_eqb. cbv zeta. destruct (bool_decide (platform = txt "ensemble")) eqn:Ep;
    [apply bool_decide_eq_true in Ep; cbn; tauto|apply bool_decide_eq_false in Ep].
  destruct (entries v.2) as [|e es]; [cbn; split; [done|]; intros [?|[? _]]; done|].
  destruct expected as [[name kind]|]; [|cbn; split; [by right|done]]. cbn [fst].
  destruct (artifact v.2 name) as [f|]; cbn [is_some_and negb].
  2:{ cbn. split; [done|]. intros [?|(_ & f & ? & _)]; done. }
  destruct (exists_node f) eqn:Ef; cbn [negb]; [|cbn [fst]; split; [done|]; intros [?|(_ & g & [= <-] & Hg & _)]; congruence].
  assert (Hiff : forall (es' : list text) (X : node -> Prop), (es' = [] <-> X f) -> (es' = [] <-> platform = txt "ensemble" \/
    e :: es <> [] /\ exists f0, Some f = Some f0 /\ exists_node f0 = true /\ X f0)).
  { intros es' X ->. split; [intros H; right; split; [done|]; by exists f|]. by intros [?|(_ & ? & [= <-] & _ & ?)]. }
  destruct kind; [apply (Hiff _ (fun f => is_dir f = false))|apply (Hiff _ (fun f => is_dir f = true))|apply (Hiff _ (fun _ => True))];
    try destruct (is_dir f) eqn:Ed; cbn [fst]; try case_match; done.
Qed.
Lemma missing_config_nil platform : (missing_config platform).1 = [] <-> exists p, In p AUTOCOMPLETE_PLATFORMS /\ platform = txt p.
Proof.
  unfold missing_config. destruct (existsb (text_eqb platform) AUTOCOMPLETE_PLATFORMS) eqn:E.
  - split; [intros _|done]. apply existsb_exists in E as (p & Hp & H). exists p. split; [done|]. by apply bool_decide_eq_true in H.
  - split; [by destruct (nonempty platform)|]. intros (p & Hp & ->). assert (existsb (text_eqb (txt p)) AUTOCOMPLETE_PLATFORMS = true) as H.
    { apply existsb_exists. exists p. split; [done|]. by apply bool_decide_eq_true. }
    congruence.
Qed.
Lemma config_errors_nil c name : config_errors c name = [] <->
  d_error c = false /\ (strip uni (default [] (d_name c)) = [] \/ strip uni (default [] (d_name c)) = txt name).
Proof.
  unfold config_errors. rewrite app_nil. destruct (d_error c); [split; [by intros [? _]|by intros [? _]]|].
  set (t := strip uni _). unfold text_eqb. destruct (bool_decide (t = txt name)) eqn:E.
  - apply bool_decide_eq_true in E. rewrite andb_false_r. split; auto.
  - apply bool_decide_eq_false in E. rewrite andb_true_r. destruct t as [|x t]; cbn [nonempty]; split; auto.
    + by intros [_ ?].
    + intros [_ [?|?]]; done.
Qed.
Lemma flat_map_map {A B C} (f : A -> B) (g : B -> list C) l : flat_map g (map f l) = flat_map (fun x => g (f x)) l.
Proof. induction l as [|x l IH]; cbn; [done|]. by rewrite IH. Qed.

(** *** The code's reading of a directory is that of the rules *)

Lemma field_read model_dir key get : starts_plain (txt key) ->
  (forall data mtime, get (parse_config (File true data mtime)) = scalar key (strip_comments (decode data))) ->
  get (mkDeclared true None None None None) = None ->
  forall v, field_of model_dir key v <-> v = stripped get (config_of model_dir).
Proof.
  intros Hk Hget Hnone v. unfold field_of, stripped, config_of. destruct (child _ model_dir) as [[[] data mtime|cs|[] b m to]|]; try done;
    cbn [is_file]; try (cbn [parse_config]; by rewrite Hnone).
  rewrite Hget. pose proof (scalar_says key (strip_comments (decode data)) Hk) as Hs. split.
  - intros (o & Ho & ->). by rewrite (config_says_unique _ _ _ _ Hk Ho Hs).
  - intros ->. eauto.
Qed.
Lemma platform_files_same (v : string * (string * Kind)) : v ∈ PLATFORM_ARTIFACTS <-> v ∈ platform_files.
Proof. unfold PLATFORM_ARTIFACTS, platform_files. rewrite !elem_of_cons. tauto. Qed.
Lemma backend_files_same b v : (b, Some v) ∈ BACKEND_ARTIFACTS <-> (b, v) ∈ backend_files.
Proof.
  unfold BACKEND_ARTIFACTS, backend_files. rewrite !elem_of_cons.
  split; intros H; repeat match goal with H : _ \/ _ |- _ => destruct H end; simplify_eq; try (by apply not_elem_of_nil in H); auto 12.
Qed.
Lemma looked_for platform backend file expected :
  looks_for platform backend file expected <-> expected = _expected_artifact platform backend file.
Proof.
  assert (Hp : forall v, by_text platform PLATFORM_ARTIFACTS = Some v <-> exists p, (p, v) ∈ platform_files /\ platform = txt p).
  { intros v. rewrite by_text_some by (apply (bool_decide_unpack _); by vm_compute).
    by setoid_rewrite platform_files_same. }
  assert (Hb : forall v, by_text backend BACKEND_ARTIFACTS = Some (Some v) <-> exists b, (b, v) ∈ backend_files /\ backend = txt b).
  { intros v. rewrite by_text_some by (apply (bool_decide_unpack _); by vm_compute). by setoid_rewrite backend_files_same. }
  assert (Hno : forall p k, by_text platform PLATFORM_ARTIFACTS = None -> (p, k) ∈ platform_files -> platform <> txt p).
  { intros p k E Hin ->. assert (by_text (txt p) PLATFORM_ARTIFACTS = Some k) by (apply Hp; eauto). congruence. }
  assert (Hnob : forall b k, by_text backend BACKEND_ARTIFACTS <> Some (Some k) -> (b, k) ∈ backend_files -> backend <> txt b).
  { intros b k E Hin ->. apply E, Hb. eauto. }
  assert (Hnone : (forall p k, (p, k) ∈ platform_files -> platform <> txt p) -> by_text platform PLATFORM_ARTIFACTS = None).
  { intros H. destruct (by_text platform PLATFORM_ARTIFACTS) as [k|]; [|done]. destruct (proj1 (Hp k) eq_refl) as (p & Hin & E). by apply H in Hin. }
  unfold _expected_artifact. split.
  - intros [f Hf|p name kind Hin E|b name kind Hn Hin E|Hn Hn'].
    + by destruct f.
    + by rewrite (proj2 (Hp (name, kind)) (ex_intro _ p (conj Hin E))).
    + by rewrite (Hnone Hn), (proj2 (Hb (name, kind)) (ex_intro _ b (conj Hin E))).
    + rewrite (Hnone Hn). destruct (by_text backend BACKEND_ARTIFACTS) as [[[n k]|]|]; [|done..].
      destruct (proj1 (Hb (n, k)) eq_refl) as (b & Hin & E). by apply Hn' in Hin.
  - intros ->. destruct file as [|c file]; [|by constructor].
    destruct (by_text platform PLATFORM_ARTIFACTS) as [[n k]|].
    { destruct (proj1 (Hp (n, k)) eq_refl) as (p & Hin & E). by eapply looks_platform. }
    assert (Hn : forall p k, (p, k) ∈ platform_files -> platform <> txt p) by (intros p k; by apply Hno).
    destruct (by_text backend BACKEND_ARTIFACTS) as [[[n k]|]|].
    1: { destruct (proj1 (Hb (n, k)) eq_refl) as (b & Hin & E). by eapply looks_backend. }
    all: apply looks_nothing; [done|]; intros b k; by apply Hnob.
Qed.
Lemma told version platform : tells version platform <-> platform = _infer_platform version.
Proof.
  unfold tells, _infer_platform. change ARTIFACT_PLATFORMS with telling_files. set (there := fun file => is_some_and exists_node (child file version)).
  change (fun fp : string * string => is_some_and exists_node (child fp.1 version) = false) with (fun fp : string * string => there fp.1 = false).
  induction telling_files as [|[f p] l IH]; cbn [List.find fst].
  - split; [|by right]. by intros [([|? ?] & ? & ? & ? & ? & _)|[-> _]].
  - fold (there f). destruct (there f) eqn:E.
    + split; [intros [([|x l1] & f' & p' & l2 & El & Ep & _ & Hn)|[_ Hn]]|].
      * by injection El as -> ->.
      * injection El as <- _. apply Forall_cons in Hn as [Hn _]. cbn in Hn. congruence.
      * apply Forall_cons in Hn as [Hn _]. cbn in Hn. congruence.
      * intros ->. left. by exists [], f, p, l.
    + rewrite <- IH. split; (intros [(l1 & f' & p' & l2 & El & Ep & Hf & Hn)|[Hp Hn]]; [left|right]).
      * destruct l1 as [|x l1]; [injection El as -> -> ->; unfold there in E; congruence|]. injection El as <- El.
        apply Forall_cons in Hn as [_ Hn]. by exists l1, f', p', l2.
      * apply Forall_cons in Hn as [_ Hn]. done.
      * exists ((f, p) :: l1), f', p', l2. rewrite El. split; [done|]. split; [done|]. split; [done|]. by constructor.
      * split; [done|]. by constructor.
Qed.
(** The platform that is declared, or told from the first version where nothing is. *)
Definition platform_of (model_dir : node) : text :=
  let config := config_of model_dir in
  let platform := stripped d_platform config in
  match versions_in model_dir with
  | first :: _ =>
      if negb (nonempty platform) && negb (nonempty (stripped d_backend config)) && negb (nonempty (stripped d_filename config))
      then _infer_platform first.2 else platform
  | [] => platform
  end.
Record accepted (model_dir : node) (name : string) : Prop := {
  acc_dir : is_dir model_dir = true;
  acc_versions : versions_in model_dir <> [];
  acc_config : match config_of model_dir with
    | Some c => d_error c = false /\ (strip uni (default [] (d_name c)) = [] \/ strip uni (default [] (d_name c)) = txt name)
    | None => exists p, In p AUTOCOMPLETE_PLATFORMS /\ platform_of model_dir = txt p
    end;
  acc_each : Forall (version_ok (platform_of model_dir) (_expected_artifact (platform_of model_dir)
    (stripped d_backend (config_of model_dir)) (stripped d_filename (config_of model_dir)))) (versions_in model_dir) }.

Lemma validate_accepts model_dir name :
  (ok (validate_model_dir model_dir name) = true <-> accepted model_dir name) /\
  (ok (validate_model_dir model_dir name) = true ->
     r_versions (validate_model_dir model_dir name) = sorted_versions (map fst (versions_in model_dir))).
Proof.
  assert (Hok : forall r, ok r = true <-> errors r = []) by (intros r; unfold ok; by destruct (errors r)).
  rewrite !Hok. unfold validate_model_dir. destruct (is_dir model_dir) eqn:Ed; cbn [negb].
  2:{ split; [|done]. split; [done|]. intros [H _ _ _]. congruence. }
  cbv zeta. change (List.filter is_version_dir _) with (versions_in model_dir).
  set (plat := stripped d_platform (config_of model_dir)). set (back := stripped d_backend (config_of model_dir)).
  set (file := stripped d_filename (config_of model_dir)).
  assert (Hplat : platform_of model_dir = match versions_in model_dir with first :: _ =>
      if negb (nonempty plat) && negb (nonempty back) && negb (nonempty file) then _infer_platform first.2 else plat
    | [] => plat end) by reflexivity.
  destruct (versions_in model_dir) as [|first vs] eqn:Ev; cbn [errors r_versions].
  { split; [|intros H; by apply app_nil in H as [_ ?]]. split; [intros H; by apply app_nil in H as [_ ?]|]. intros [_ H _ _]. congruence. }
  split; [|done]. rewrite <- Hplat. clear Hplat. set (p := platform_of model_dir) in *.
  rewrite !app_nil, flat_map_map, flat_map_nil, number_errors_nil.
  rewrite (Forall_iff _ _ _ (version_issues_nil p back (_expected_artifact p back file))).
  split.
  - intros (H1 & H2 & H3 & H4). split; [done|by rewrite Ev| |].
    + destruct (config_of model_dir) as [c|]; [by apply config_errors_nil|by apply missing_config_nil].
    + rewrite Ev. fold back file p. apply Forall_and. done.
  - intros [_ _ H1 H2]. rewrite Ev in H2. fold back file p in H2. apply Forall_and in H2 as [H2 H3].
    split; [|split; [done|split; [done|]]]; destruct (config_of model_dir) as [c|]; try done;
      [by apply config_errors_nil|by apply missing_config_nil].
Qed.
Lemma one_of t : t ∈ map txt ["tensorrt_plan"; "onnxruntime_onnx"; "tensorflow_savedmodel"; "pytorch_libtorch"; "python"]%string <->
  exists p, In p AUTOCOMPLETE_PLATFORMS /\ t = txt p.
Proof.
  rewrite list_elem_of_fmap. split; intros (p & H1 & H2); exists p; [by rewrite <- list_elem_of_In|by rewrite list_elem_of_In].
Qed.
Lemma accepted_meets model_dir name : accepted model_dir name <-> meets_rules model_dir name.
Proof.
  pose proof (field_read model_dir "name" d_name ltac:(by eexists _, _) ltac:(done) eq_refl) as Hname.
  pose proof (field_read model_dir "platform" d_platform ltac:(by eexists _, _) ltac:(done) eq_refl) as Hplat.
  pose proof (field_read model_dir "backend" d_backend ltac:(by eexists _, _) ltac:(done) eq_refl) as Hback.
  pose proof (field_read model_dir "default_model_filename" d_filename ltac:(by eexists _, _) ltac:(done) eq_refl) as Hfile.
  assert (Hcome : forall first rest come, versions_in model_dir = first :: rest ->
    (if decide (stripped d_platform (config_of model_dir) = [] /\ stripped d_backend (config_of model_dir) = [] /\ stripped d_filename (config_of model_dir) = [])
     then tells first.2 come else come = stripped d_platform (config_of model_dir)) <-> come = platform_of model_dir).
  { intros first rest come E. unfold platform_of. rewrite E. cbv zeta.
    destruct (stripped d_platform _) as [|c1 t1], (stripped d_backend _) as [|c2 t2], (stripped d_filename _) as [|c3 t3];
      case_decide as H; try (by exfalso; apply H); try (by destruct H as (? & ? & ?)); [apply told|done..]. }
  split.
  - intros [Hd Hv Hc He]. destruct (versions_in model_dir) as [|first rest] eqn:E; [done|].
    eapply (meets _ _ _ _ _ _ (platform_of model_dir) first rest); [done|by apply Hname|by apply Hplat|by apply Hback|by apply Hfile|done|by eapply Hcome|by apply looked_for|exact He|].
    unfold config_of in Hc. unfold stripped at 1, config_of. destruct (child "config.pbtxt" model_dir) as [f|]; [destruct (is_file f) eqn:Ef|]; cbn in Hc.
    + destruct Hc as [He1 Hc]. destruct f as [[] data mtime|cs|w b m to]; try done. split; [by eauto|exact Hc].
    + by apply one_of.
    + by apply one_of.
  - intros [declared platform backend file come first rest expected Hd Hdec%Hname Hpl%Hplat Hba%Hback Hfi%Hfile E Hco Hlook He Hc].
    subst declared platform backend file. apply (Hcome _ rest) in Hco; [|done]. subst come. apply looked_for in Hlook as ->.
    split; [done|by rewrite E| |by rewrite E].
    unfold stripped at 1, config_of in Hc. unfold config_of. destruct (child "config.pbtxt" model_dir) as [f|]; [destruct (is_file f) eqn:Ef|].
    + destruct Hc as [(data & mtime & ->) Hc]. split; [done|exact Hc].
    + by apply one_of.
    + by apply one_of.
Qed.

End Validate.

Definition demo_model : node := Dir
  [("config.pbtxt", File true (txt ("backend: " ++ String "034" ("python" ++ String "034" ""))%string) 0);
   ("1", Dir [("model.py", File true [1] 0)])]%string.
(** A config with a name in a nested block only: it is taken for the model's own. *)
Definition nested_name : node := Dir
  [("config.pbtxt", File true (txt ("backend: " ++ String "034" ("python" ++ String "034" (String "010" ("input {" ++ String "010"
      ("  name: " ++ String "034" ("x" ++ String "034" (String "010" "}")))))))%string) 0);
   ("1", Dir [("model.py", File true [1] 0)])]%string.
Lemma nested_name_refused : ok (validate_model_dir ascii_only id (fun _ _ => None) nested_name "echo") = false.
Proof. vm_compute. reflexivity. Qed.
