(* ===== verification/SmRepo.v ===== *)
(** The model repository ([docker/supersonic-model-manager/model_manager/repository.py]):
    names and paths, uploads from the staging area to their place, deletions, and what
    the dashboard shows of it. *)
From stdpp Require Import pretty.
From S2P Require Import Prelude PyJson PyText PyTime PyFloat PyValue MmText SmTree SmValidate.
Open Scope Z_scope.

Definition STAGING_DIRNAME : string := ".uploads".
Definition ARCHIVE_SUFFIXES : list string :=
  [".zip"; ".tar"; ".tar.gz"; ".tgz"; ".tar.bz2"; ".tbz2"; ".tar.xz"; ".txz"]%string.

(** ** Requests and errors *)

(** Each change of the file system may fail, the answer [false]: it is one request, made
    before it. [CopyTree] is [None] for a whole copy, or else what a copy that failed left
    behind. [Mtime] is a directory's own time, [StatVfs] the file system's bytes. *)
Inductive Op :=
| MkDir (path : list string) | Write (path : list string) (bytes : Z) | Rename (from to : list string)
| Remove (path : list string).
Inductive Req := Try (op : Op) | CopyTree (from to : list string) | Clock | Mtime (name : string) | StatVfs | Writable.
Definition Ans (r : Req) : Type :=
  match r with
  | Try _ | Writable => bool
  | CopyTree _ _ => option (option node)
  | Clock | Mtime _ => Q
  | StatVfs => option (Z * Z)
  end.
Definition Ev : Type := sigT Ans.
(** [ValidationFailed] is a [RepositoryError]; anything else is [OsError]. *)
Inductive Exc := RepositoryError (message : text) | ValidationFailed (result : ValidationResult) | OsError.
(** The state is the repository's root directory. *)
Definition FS (A : Type) : Type := M Ev node Exc A.

(** ** Names and paths *)

Definition name_char (c : ascii) : bool :=
  is_digit c || is_lower c || is_upper c || Ascii.eqb c "." || Ascii.eqb c "_" || Ascii.eqb c "-".
Definition is_slash (c : ascii) : bool := Ascii.eqb c "/".
(** [MODEL_NAME_RE.match]: its [$] is also before a last newline. *)
Definition MODEL_NAME_RE (name : string) : bool :=
  let body := if endswith (String "010" "") name then str_take (String.length name - 1) name else name in
  str_forallb name_char body && Nat.leb 1 (String.length body) && Nat.leb (String.length body) 255.
Definition _validate_name (name : string) : option string :=
  let name := str_strip_of is_slash (str_strip name) in
  if negb (MODEL_NAME_RE name) || String.eqb name "." || String.eqb name ".." || startswith "." name
  then None else Some name.
Definition name_error (name : string) : Exc := RepositoryError (txt ("Invalid model name '" ++ name
  ++ "': use letters, digits, '.', '_' or '-' and do not start with a dot.")).
Definition valid_name (name : string) : FS string :=
  match _validate_name name with
  | Some n => mret n
  | None => raise (name_error (str_strip_of is_slash (str_strip name)))
  end.
(** Where the name is in the root once links are followed: the name of the entry. *)
Definition model_path (name : string) : FS string :=
  name ← valid_name name;
  root ← mget;
  match child name root with
  | Some (Link _ _ _ to) =>
      match to with
      | Some other => mret other
      | None => raise (RepositoryError (txt ("Refusing to access '" ++ name ++ "' outside the repository root.")))
      end
  | _ => mret name
  end.
Definition is_internal_name (name : string) : bool :=
  String.eqb name "" || startswith "." name || String.eqb name STAGING_DIRNAME.

(** [_safe_relpath]: the parts of the path, [None] where the code refuses it. *)
Definition unbackslash (s : string) : string := str_map (fun c => if Ascii.eqb c "092" then "/"%char else c) s.
Fixpoint safe_parts (l : list string) : option (list string) :=
  match l with
  | [] => Some []
  | p :: l' =>
      if String.eqb p "" || String.eqb p "." then safe_parts l'
      else if String.eqb p ".." || str_existsb (fun c => Ascii.eqb c ":") p then None
      else option_map (cons p) (safe_parts l')
  end.
Definition _safe_relpath (member_name : string) : option (list string) :=
  match safe_parts (str_split "/" (str_lstrip is_slash (unbackslash member_name))) with
  | Some [] | None => None
  | Some parts => Some parts
  end.
Definition unsafe_path (member_name : string) : Exc := RepositoryError (txt ("Unsafe path in archive: '" ++ member_name ++ "'")).
Definition junk_part (p : string) : bool :=
  String.eqb p "__MACOSX" || startswith "._" p || existsb (String.eqb p) [".DS_Store"; "Thumbs.db"; "desktop.ini"]%string.
Definition _is_junk (relative : list string) : bool := existsb junk_part relative.
Definition is_archive (filename : string) : bool := existsb (fun s => endswith s (str_lower filename)) ARCHIVE_SUFFIXES.
(** The first of the longest suffixes that the name ends with. *)
Definition suffixes_by_length : list string :=
  [".tar.bz2"; ".tar.gz"; ".tar.xz"; ".tbz2"; ".zip"; ".tar"; ".tgz"; ".txz"]%string.
(** [Path(filename).stem], of the last part of the path. *)
Definition stem_of (filename : string) : string :=
  let name := after_last "/" filename in
  str_take (String.length name - String.length (suffix_of name)) name.
Definition _strip_archive_suffix (filename : string) : string :=
  match List.find (fun s => endswith s (str_lower filename)) suffixes_by_length with
  | Some s => str_take (String.length filename - String.length s) filename
  | None => stem_of filename
  end.

(** ** The file system *)
Section Repo.
Context (svc : service Req Ans) (max_upload_bytes : Z) (pid : Z) (uni : Unicode) (decode : list Z -> text)
  (at_path : node -> text -> option node).

Definition try_ (op : Op) : FS unit := done_ ← (mcall svc (Try op) : FS bool); if done_ : bool then mret tt else raise OsError.
Definition change (f : node -> option node) : FS unit :=
  root ← mget; match f root with Some root' => mput root' | None => raise OsError end.
Definition make_dirs (path : list string) : FS unit := try_ (MkDir path) ≫= fun _ => change (mkdirs path).
(** [mkdir(exist_ok=False)] of a new directory, the ones above it made as well. *)
Definition make_new_dir (path : list string) : FS unit :=
  root ← mget;
  match find_node path root with Some _ => raise OsError | None => make_dirs path end.
(** [open(target, "wb")] and its writes, of the bytes that were written in the end. *)
Definition write_file (path : list string) (data : list Z) : FS unit :=
  try_ (Write path (Z.of_nat (List.length data))) ≫= fun _ =>
  now ← (mcall svc Clock : FS Q);
  root ← mget;
  if is_some_and is_dir (find_node path root) then raise OsError
  else change (put_node path (Some (File true data now))).
(** [os.rename] within the repository: whole, or not at all. What is there already gives
    way if it is an empty directory under a directory, or a file under a file. *)
Definition gives_way (n : node) (there : option node) : bool :=
  match there, n with
  | None, _ => true
  | Some (Dir []), Dir _ => true
  | Some (Dir _), _ | Some _, Dir _ => false
  | Some _, _ => true
  end.
Definition moved (from to : list string) (root : node) : option node :=
  match find_node from root with
  | Some n =>
      if gives_way n (find_node to root)
      then match put_node from None root with Some root' => put_node to (Some n) root' | None => None end
      else None
  | None => None
  end.
Definition rename (from to : list string) : FS unit := try_ (Rename from to) ≫= fun _ => change (moved from to).
(** [shutil.move] of a directory: into the target, where that is a directory; and by a
    copy, where the rename fails. *)
Definition last_of (path : list string) : string := List.last path ""%string.
Definition copied (from to : list string) (root : node) : option node :=
  match find_node from root with Some n => put_node to (Some n) root | None => None end.
Definition copy_over (from to : list string) : FS unit :=
  root ← mget;
  match find_node to root with
  | Some _ => raise OsError
  | None =>
      failed ← (mcall svc (CopyTree from to) : FS (option (option node)));
      match failed with
      | None => change (copied from to) ≫= fun _ => try_ (Remove from) ≫= fun _ => change (put_node from None)
      | Some (Some partial) => change (put_node to (Some partial)) ≫= fun _ => raise OsError
      | Some None => raise OsError
      end
  end.
Definition shutil_move (from to : list string) : FS unit :=
  root ← mget;
  let into := is_some_and is_dir (find_node to root) in
  let real_dst := if into then to ++ [last_of from] else to in
  if into && is_some_and exists_node (find_node real_dst root) then raise OsError
  else mcatch (rename from real_dst) (fun _ => copy_over from real_dst).
(** [rmtree(path, ignore_errors=True)]: all of it, or not. *)
Definition remove_quietly (path : list string) : FS unit :=
  mcatch (try_ (Remove path) ≫= fun _ => change (put_node path None)) (fun _ => mret tt).

Definition _staging_dir : FS (list string) :=
  now ← (mcall svc Clock : FS Q);
  let staging := [STAGING_DIRNAME; ("stage-" ++ pretty (py_int (now * 1000)) ++ "-" ++ pretty pid)%string] in
  make_new_dir staging ≫= fun _ => mret staging.

(** ** Uploads *)

(** The chunks that are written before the limit, the running total, and whether the
    limit was passed. *)
Fixpoint read_chunks (chunks : list (list Z)) (written : Z) : list Z * Z * bool :=
  match chunks with
  | [] => ([], written, false)
  | c :: chunks' =>
      let written := written + Z.of_nat (List.length c) in
      if max_upload_bytes <? written then ([], written, true)
      else let '(kept, total, over) := read_chunks chunks' written in (c ++ kept, total, over)
  end.
Definition over_limit : Exc := RepositoryError (txt "Upload exceeds the configured size limit").
Definition copy_with_limit (stream : list (list Z)) (target : list string) (written : Z) : FS Z :=
  let '(kept, total, over) := read_chunks stream written in
  write_file target kept ≫= fun _ => if (over : bool) then raise over_limit else mret total.

(** A member of an archive: its name, kind, size and bytes. *)
Inductive MemberKind := MFile | MDir | MLink | MOther.
Record Member := mkMember { m_name : string; m_kind : MemberKind; m_size : Z; m_data : list Z }.
Definition archive_too_big : Exc := RepositoryError (txt "Archive expands beyond the configured upload size limit.").
(** What both formats do with a file or a directory: the budget left. *)
Definition extract_member (dest : list string) (remaining : Z) (m : Member) : FS Z :=
  match _safe_relpath (m_name m) with
  | None => raise (unsafe_path (m_name m))
  | Some rel =>
      if _is_junk rel then mret remaining else
      match m_kind m with
      | MDir => make_dirs (dest ++ rel) ≫= fun _ => mret remaining
      | _ =>
          let remaining := remaining - m_size m in
          if remaining <? 0 then raise archive_too_big else
          make_dirs (dest ++ removelast rel) ≫= fun _ => write_file (dest ++ rel) (m_data m) ≫= fun _ => mret remaining
      end
  end.
Fixpoint _extract_zip (members : list Member) (dest : list string) (remaining : Z) : FS unit :=
  match members with
  | [] => mret tt
  | m :: members' => remaining ← extract_member dest remaining m; _extract_zip members' dest remaining
  end.
Definition pax_header (name : string) : bool := startswith "PaxHeader" name || str_contains "/PaxHeader" name.
Fixpoint _extract_tar (members : list Member) (dest : list string) (remaining : Z) : FS unit :=
  match members with
  | [] => mret tt
  | m :: members' =>
      if pax_header (m_name m) then _extract_tar members' dest remaining else
      match m_kind m with
      | MLink => raise (RepositoryError (txt ("Archive contains a link ('" ++ m_name m ++ "'); refusing.")))
      | MOther => raise (RepositoryError (txt ("Unsupported archive entry type: '" ++ m_name m ++ "'")))
      | _ => remaining ← extract_member dest remaining m; _extract_tar members' dest remaining
      end
  end.

Definition _looks_like_model_dir (n : node) : bool :=
  is_some_and is_file (child "config.pbtxt" n) || existsb is_version_dir (entries n).
(** The path below the staged directory of the directory that it comes to. *)
Fixpoint _resolve_model_root (depth : nat) (n : node) : list string :=
  match depth with
  | O => []
  | S depth' =>
      if _looks_like_model_dir n then [] else
      match List.filter (fun c => negb (_is_junk [c.1])) (entries n) with
      | [(name, c)] => if is_dir c then name :: _resolve_model_root depth' c else []
      | _ => []
      end
  end.
Definition MAX_DEPTH : nat := 5.

Definition _validate (source : node) (name : string) : FS ValidationResult :=
  let result := validate_model_dir uni decode at_path source name in
  if ok result then mret result else raise (ValidationFailed result).
Record Installed := mkInstalled { i_name : string; i_size : Z; i_files : Z; i_validation : ValidationResult }.
Definition exists_error (name : string) : Exc := RepositoryError (txt ("Model '" ++ name
  ++ "' already exists. Re-upload with overwrite enabled to replace it.")).
Definition backup_name (target : string) (now : Q) : string := ("." ++ target ++ ".replaced-" ++ pretty (py_int now))%string.
Definition _install (source : list string) (name : string) (overwrite : bool) : FS (Z * Z) :=
  target ← model_path name;
  root ← mget;
  (if is_some_and exists_node (child target root) then
     if negb overwrite then raise (exists_error name) else
     now ← (mcall svc Clock : FS Q);
     let backup := [backup_name target now] in
     rename [target] backup ≫= fun _ =>
     mcatch (shutil_move source [target]) (fun e => rename backup [target] ≫= fun _ => raise e) ≫= fun _ =>
     remove_quietly backup
   else shutil_move source [target]) ≫= fun _ =>
  root ← mget;
  let '(size, count, _) := match child target root with Some n => dir_stats n | None => stats0 end in
  mret (size, count).
(** The staged tree at a path of the root, validated and put in place. *)
Definition install_validated (model_root : list string) (name : string) (overwrite : bool) : FS Installed :=
  root ← mget;
  source ← (match find_node model_root root with Some n => mret n | None => raise OsError end : FS node);
  validation ← _validate source name;
  '(size, count) ← _install model_root name overwrite;
  mret (mkInstalled name size count validation).
Definition resolved (staged : list string) (root : node) : list string :=
  staged ++ match find_node staged root with Some n => _resolve_model_root MAX_DEPTH n | None => [] end.
(** [zipfile] and [tarfile] read an archive; [None] where they raise. *)
Context (read_zip read_tar : list Z -> option (list Member)).
Definition install_archive (data : list Z) (original_filename name : string) (overwrite : bool) : FS Installed :=
  staging ← _staging_dir;
  mfinally
    (let extract_to := staging ++ ["extract"%string] in
     make_new_dir extract_to ≫= fun _ =>
     (if endswith ".zip" (str_lower original_filename)
      then match read_zip data with Some ms => _extract_zip ms extract_to max_upload_bytes | None => raise OsError end
      else match read_tar data with Some ms => _extract_tar ms extract_to max_upload_bytes | None => raise OsError end) ≫= fun _ =>
     root ← mget;
     let model_root := resolved extract_to root in
     let name := if negb (String.eqb name "") then name
       else if negb (bool_decide (model_root = extract_to)) then last_of model_root
       else _strip_archive_suffix original_filename in
     name ← valid_name name;
     install_validated model_root name overwrite)
    (remove_quietly staging).

(** DirectoryUpload: made, given its files one by one, and finished or cleaned up. *)
Record DirectoryUpload := mkUpload { u_name : string; u_overwrite : bool; u_staging : list string; u_written : Z }.
Definition u_root (u : DirectoryUpload) : list string := u_staging u ++ ["model"%string].
Definition directory_upload (name : string) (overwrite : bool) : FS DirectoryUpload :=
  name ← valid_name name;
  staging ← _staging_dir;
  make_new_dir (staging ++ ["model"%string]) ≫= fun _ => mret (mkUpload name overwrite staging 0).
Definition add_file (u : DirectoryUpload) (relative_path : string) (stream : list (list Z)) : FS DirectoryUpload :=
  match _safe_relpath relative_path with
  | None => raise (unsafe_path relative_path)
  | Some rel =>
      if _is_junk rel then mret u else
      make_dirs (u_root u ++ removelast rel) ≫= fun _ =>
      written ← copy_with_limit stream (u_root u ++ rel) (u_written u);
      mret (mkUpload (u_name u) (u_overwrite u) (u_staging u) written)
  end.
Definition cleanup (u : DirectoryUpload) : FS unit := remove_quietly (u_staging u).
Definition finish (u : DirectoryUpload) : FS Installed :=
  mfinally
    (root ← mget; install_validated (resolved (u_root u) root) (u_name u) (u_overwrite u))
    (cleanup u).
(** [upload] of several files: added one by one, and finished. *)
Fixpoint add_files (u : DirectoryUpload) (files : list (string * list (list Z))) : FS DirectoryUpload :=
  match files with
  | [] => mret u
  | (relative, stream) :: files' => u ← add_file u relative stream; add_files u files'
  end.
Definition without_model_dir (effective_name relative : string) : string :=
  let parts := List.filter (fun p => negb (String.eqb p "" || String.eqb p ".")) (str_split "/" (unbackslash relative)) in
  String.concat "/" (match parts with
    | p :: (_ :: _) as rest => if String.eqb p effective_name then List.tl parts else parts
    | _ => parts
    end).
Definition upload_directory (effective_name : string) (overwrite : bool) (files : list (string * list (list Z))) : FS Installed :=
  u ← directory_upload effective_name overwrite;
  mcatch
    (u ← add_files u (map (fun f => (without_model_dir effective_name f.1, f.2)) files); finish u)
    (fun e => cleanup u ≫= fun _ => raise e).
(** [upload] of one archive, through a file of its own. *)
Definition upload_archive (uuid filename name : string) (overwrite : bool) (stream : list (list Z)) : FS Installed :=
  let tmp := [STAGING_DIRNAME; ("incoming-" ++ uuid ++ "-" ++ after_last "/" filename)%string] in
  mfinally
    (copy_with_limit stream tmp 0 ≫= fun _ =>
     root ← mget;
     match find_node tmp root with
     | Some (File _ data _) => install_archive data filename (str_strip name) overwrite
     | _ => raise OsError
     end)
    (root ← mget;
     match find_node tmp root with
     | Some _ => try_ (Remove tmp) ≫= fun _ => change (put_node tmp None)
     | None => mret tt
     end).

(** The handler: what it answers with, the model's installation or a status. *)
Inductive Response := Uploaded (installed : Installed) | Refused (status : Z).
Context (read_only : bool) (loads : string -> option json).
Definition relative_paths (paths : string) : FS (list string) :=
  if String.eqb paths "" then mret []
  else match loads paths with
       | Some (JArr l) => mret (map str_of l)
       | _ => raise (RepositoryError (txt "Malformed 'paths' field."))
       end.
Definition named_by (name : string) (relative : list string) : string :=
  let name := str_strip name in
  match relative with
  | r :: _ => if String.eqb name "" then
                let first := str_lstrip is_slash (unbackslash r) in
                if str_contains "/" first then (str_partition "/" first).1 else ""
              else name
  | [] => name
  end.
Fixpoint file_names (index : Z) (files : list (string * list (list Z))) : list (string * list (list Z)) :=
  match files with
  | [] => []
  | (f, stream) :: files' =>
      ((if String.eqb f "" then "file-" ++ pretty index else f)%string, stream) :: file_names (index + 1) files'
  end.
Definition upload_files (files : list (string * list (list Z))) (name paths : string) (overwrite : bool) : FS Installed :=
  relative ← relative_paths paths;
  if negb (Nat.eqb (List.length relative) 0) && negb (Nat.eqb (List.length relative) (List.length files))
  then raise (RepositoryError (txt "'paths' does not match the uploaded files.")) else
  let effective_name := named_by name relative in
  if String.eqb effective_name ""
  then raise (RepositoryError (txt "Provide a model name, or upload a directory / archive that contains one.")) else
  upload_directory effective_name overwrite
    (match relative with [] => file_names 0 files | _ => combine relative (map snd files) end).
Definition upload (uuid : string) (files : list (string * list (list Z))) (name paths : string) (overwrite : bool) : FS Response :=
  if read_only then mret (Refused 403) else
  writable ← mcatch (make_dirs [STAGING_DIRNAME] ≫= fun _ => mret true) (fun _ => mret false);
  if negb (writable : bool) then mret (Refused 500) else
  mcatch
    (installed ← match files with
       | [(filename, stream)] =>
           if is_archive filename then upload_archive uuid filename name overwrite stream
           else upload_files files name paths overwrite
       | _ => upload_files files name paths overwrite
       end; mret (Uploaded installed))
    (fun e => mret (Refused (match e with ValidationFailed _ => 422 | RepositoryError _ => 400 | OsError => 500 end))).

(** ** Deletions, and what is shown *)

Definition delete_model (name : string) : FS unit :=
  target ← model_path name;
  root ← mget;
  if negb (is_some_and is_dir (child target root))
  then raise (RepositoryError (txt ("Model '" ++ name ++ "' is not present on the PVC.")))
  else try_ (Remove [target]) ≫= fun _ => change (put_node [target] None).
Definition cleanup_staging (max_age_s : Z) : FS unit :=
  root ← mget;
  now ← (mcall svc Clock : FS Q);
  if negb (is_some_and is_dir (child STAGING_DIRNAME root)) then mret tt else
  mfor (entries (default (Dir []) (child STAGING_DIRNAME root))) (fun e =>
    mtime ← (mcall svc (Mtime e.1) : FS Q);
    if mtime <?q (now - qz max_age_s)%Q then remove_quietly [STAGING_DIRNAME; e.1] else mret tt).

Record ModelEntry := mkEntry { e_name : string; size_bytes : Z; file_count : Z; versions : list string;
                               has_config : bool; modified : Q; platform : text }.
(** The first line that starts with one of the two fields, of the first 8192 characters. *)
Definition platform_at (t : text) : option text :=
  let t := drop_while (space uni) t in
  match (match quoted_value uni (txt "platform") t with Some v => Some v | None => quoted_value uni (txt "backend") t end) with
  | Some [] | None => None
  | Some v => Some v
  end.
Fixpoint platform_from (line_start : bool) (t : text) : text :=
  match t with
  | [] => []
  | c :: t' => match (if line_start then platform_at t else None) with Some v => v | None => platform_from (c =? NEWLINE) t' end
  end.
Definition _read_platform (config_file : node) : text :=
  match config_file with File true data _ => platform_from true (take 8192 (decode data)) | _ => [] end.
Fixpoint insert_lower (e : string * node) (l : list (string * node)) : list (string * node) :=
  match l with [] => [e] | f :: l' => if String.ltb (str_lower e.1) (str_lower f.1) then e :: l else f :: insert_lower e l' end.
Definition model_dirs (root : node) : list (string * node) :=
  List.filter (fun e => is_dir e.2 && negb (is_link e.2) && negb (is_internal_name e.1))
    (foldl (fun acc e => insert_lower e acc) [] (entries root)).
Definition scan_entry (mtime : Q) (e : string * node) : ModelEntry :=
  let '(size, count, newest) := dir_stats e.2 in
  let config := child "config.pbtxt" e.2 in
  mkEntry e.1 size count (sorted_versions (map fst (List.filter is_version_dir (entries e.2))))
    (is_some_and is_file config) (Qmax newest mtime)
    (match config with Some f => if is_file f then _read_platform f else [] | None => [] end).
Fixpoint scan_entries (l : list (string * node)) : FS (list ModelEntry) :=
  match l with
  | [] => mret []
  | e :: l' => mtime ← (mcall svc (Mtime e.1) : FS Q); rest ← scan_entries l'; mret (scan_entry mtime e :: rest)
  end.
Definition scan_models : FS (list ModelEntry) := root ← mget; scan_entries (model_dirs root).

Inductive Source := Pvc | StatVfsSource | Unknown.
Record Usage := mkUsage { used : Z; models : Z; total : Z; free : option Z; source : Source; writable : bool }.
(** [storage_usage] of the bytes of all blocks and of those available, if [statvfs] tells. *)
Definition usage_of (pvc_capacity_bytes : Z) (models_bytes : Z) (fs : option (Z * Z)) (writable : bool) : Usage :=
  let '(total, source) :=
    if negb (pvc_capacity_bytes =? 0) then (pvc_capacity_bytes, Pvc)
    else match fs with Some (t, _) => if negb (t =? 0) then (t, StatVfsSource) else (0, Unknown) | None => (0, Unknown) end in
  let used := match fs with Some (t, f) => if negb (t =? 0) then Z.max (t - f) models_bytes else models_bytes | None => models_bytes end in
  let free := match fs with
    | Some (_, f) => if negb (total =? 0) then Some (Z.min f (Z.max (total - models_bytes) 0)) else Some f
    | None => if negb (total =? 0) then Some (Z.max (total - used) 0) else None
    end in
  mkUsage used models_bytes total free source writable.
Definition storage_usage (pvc_capacity_bytes : Z) : FS Usage :=
  root ← mget;
  fs ← (mcall svc StatVfs : FS (option (Z * Z)));
  w ← (mcall svc Writable : FS bool);
  mret (usage_of pvc_capacity_bytes (dir_stats root).1.1 fs w).
End Repo.
