(* ===== verification/SmSafe.v ===== *)
(** What the model manager's repository may do to the models
    ([docker/supersonic-model-manager/model_manager/repository.py]): where uploads are
    written and how much, and that they replace a model whole or leave it. *)
From stdpp Require Import pretty.
From S2P Require Import Prelude PyJson PyText MmText SmTree SmValidate SmRepo.
Open Scope Z_scope.

(** ** Paths *)

Lemma safe_parts_plain l parts : safe_parts l = Some parts -> forall p, p ∈ parts ->
  p ∈ l /\ p <> ""%string /\ p <> "."%string /\ p <> ".."%string /\ str_existsb (fun c => Ascii.eqb c ":") p = false.
Proof.
  revert parts. induction l as [|q l IH]; cbn; intros parts H p Hp; [injection H as <-; by apply not_elem_of_nil in Hp|].
  destruct (String.eqb_spec q ""), (String.eqb_spec q "."); cbn in H;
    try (destruct (IH _ H p Hp) as (? & ?); split; [by right|done]).
  destruct (String.eqb_spec q ".."); cbn in H; [done|]. destruct (str_existsb _ q) eqn:Ec; [done|].
  destruct (safe_parts l) as [ps|]; [|done]. injection H as <-. apply elem_of_cons in Hp as [->|Hp]; [by repeat split; [left|..]|].
  destruct (IH _ eq_refl p Hp) as (? & ?). split; [by right|done].
Qed.
Lemma unbackslash_plain s : str_existsb (fun c => Ascii.eqb c "092") (unbackslash s) = false.
Proof.
  induction s as [|c s IH]; [done|]. cbn. destruct (Ascii.eqb c "092") eqn:E; cbn; [exact IH|]. by rewrite E.
Qed.
(** An upload is written inside the directory made for it. Every part of a path that
    [_safe_relpath] lets through is a plain name: not empty, no [..] or [.], without a
    slash or a drive; and there is at least one. What it is joined to a directory as is
    therefore below that directory. *)
Theorem safe_relpath_inside member_name parts : _safe_relpath member_name = Some parts ->
  parts <> [] /\ Forall (fun p => p <> ""%string /\ p <> "."%string /\ p <> ".."%string /\
    str_existsb (fun c => Ascii.eqb c "/" || Ascii.eqb c ":" ) p = false) parts.
Proof.
  unfold _safe_relpath. destruct (safe_parts _) as [[|q l]|] eqn:E; try done. intros [= <-]. split; [done|].
  apply Forall_forall. intros p Hp. destruct (safe_parts_plain _ _ E p Hp) as (Hin & H1 & H2 & H3 & H4).
  repeat (split; [done|]).
  pose proof (str_split_no_slash (str_lstrip is_slash (unbackslash member_name))) as Hs.
  rewrite Forall_forall in Hs. specialize (Hs p Hin). clear -Hs H4. induction p as [|c p IH]; [done|].
  cbn in *. apply andb_true_iff in Hs as [Hc Hs]. apply orb_false_iff in H4 as [H4 H5]. unfold no_slash in Hc.
  rewrite H4. apply negb_true_iff in Hc. rewrite Hc. cbn. by apply IH.
Qed.
Lemma safe_relpath_inside_witness :
  Forall (fun p => p <> ""%string /\ p <> "."%string /\ p <> ".."%string /\
    str_existsb (fun c => Ascii.eqb c "/" || Ascii.eqb c ":") p = false) ["m"; "1"; "model.onnx"]%string.
Proof. apply (safe_relpath_inside "/m\./1//model.onnx" ["m"; "1"; "model.onnx"]%string). vm_compute. reflexivity. Defined.

Lemma validate_name_visible name n : _validate_name name = Some n ->
  n <> ""%string /\ is_internal_name n = false /\ startswith "." n = false.
Proof.
  unfold _validate_name. set (m := str_strip_of _ _). destruct (MODEL_NAME_RE m) eqn:Er; cbn; [|done].
  destruct (String.eqb m "."), (String.eqb m ".."); try done. destruct (startswith "." m) eqn:Es; [done|]. intros [= <-].
  assert (m <> ""%string) as Hne.
  { intros ->. vm_compute in Er. done. }
  split; [done|]. split; [|done]. unfold is_internal_name. rewrite Es. apply String.eqb_neq in Hne. rewrite Hne. cbn.
  apply String.eqb_neq. intros ->. by vm_compute in Es.
Qed.
(** [MODEL_NAME_RE] lets a last newline through, which [strip] has no chance to take where
    a slash follows it. *)
Lemma newline_name_accepted : _validate_name ("a" ++ String "010" "/")%string = Some ("a" ++ String "010" "")%string.
Proof. reflexivity. Qed.

(** ** What an installation leaves *)

Definition visible_kept (t : string) (root root' : node) : Prop :=
  forall y, y <> STAGING_DIRNAME -> y <> t -> child y root' = child y root.
Lemma find_child x p n : find_node (x :: p) n = match child x n with Some c => find_node p c | None => None end.
Proof. done. Qed.
Lemma find_others x y p n n' : others y n n' -> x <> y -> find_node (x :: p) n' = find_node (x :: p) n.
Proof. intros H Hne. by rewrite !find_child, H. Qed.
Lemma put_child x p v n n' : put_node (x :: p) v n = Some n' -> p <> [] ->
  exists c c', child x n = Some c /\ put_node p v c = Some c' /\ child x n' = Some c'.
Proof.
  destruct n as [|cs|]; [by destruct p| |by destruct p]. destruct p as [|z p]; [done|]. intros H _. cbn in H. unfold child. cbn.
  destruct (dget x cs) as [c|]; [|done]. destruct (put_node (z :: p) v c) as [c'|] eqn:E; cbn in E; rewrite E in H; [|done].
  injection H as <-. exists c, c'. cbn. by rewrite dget_dset.
Qed.
(** A move from below one entry of the root to another. *)
Lemma moved_child x p t n root root' : moved (x :: p) [t] root = Some root' -> x <> t -> find_node (x :: p) root = Some n ->
  child t root' = Some n /\ forall y, y <> x -> y <> t -> child y root' = child y root.
Proof.
  unfold moved. intros H Hne Hf. rewrite Hf in H. destruct (gives_way _ _); [|done].
  destruct (put_node (x :: p) None root) as [root1|] eqn:E1; [|done]. split; [by eapply child_put|].
  intros y Hy Ht. rewrite (put_others _ _ _ _ _ H y Ht). by apply (put_others _ _ _ _ _ E1).
Qed.
Lemma moved_away x t root root' : moved [x] [t] root = Some root' -> x <> t -> child x root' = None.
Proof.
  unfold moved. intros H Hne. destruct (find_node [x] root) as [n|]; [|done]. destruct (gives_way _ _); [|done].
  destruct (put_node [x] None root) as [root1|] eqn:E1; [|done].
  rewrite (put_others _ _ _ _ _ H x) by done. by eapply child_drop.
Qed.

Section Install.
Context (svc : service Req Ans) (uni : Unicode) (decode : list Z -> text) (at_path : node -> text -> option node).

Lemma wp_change f root h (Q : res Exc unit -> node -> list Ev -> Prop) :
  (forall root', f root = Some root' -> Q (Ok tt) root' h) -> (f root = None -> Q (Err OsError) root h) ->
  wp (change f) root h Q.
Proof. intros H1 H2. unfold change. apply wp_bind, wp_get. cbv beta iota. destruct (f root); [by apply wp_put, H1|by apply wp_raise, H2]. Qed.
Lemma wp_try op root h (Q : res Exc unit -> node -> list Ev -> Prop) :
  (forall h', h `prefix_of` h' -> Q (Ok tt) root h') -> (forall h', h `prefix_of` h' -> Q (Err OsError) root h') -> wp (try_ svc op) root h Q.
Proof.
  intros H1 H2. unfold try_. apply wp_bind. wp_step. destruct (svc h (Try op)); [apply wp_ret, H1|apply wp_raise, H2]; by eexists.
Qed.
Lemma wp_rename from to root h (Q : res Exc unit -> node -> list Ev -> Prop) :
  (forall root' h', h `prefix_of` h' -> moved from to root = Some root' -> Q (Ok tt) root' h') ->
  (forall h', h `prefix_of` h' -> Q (Err OsError) root h') -> wp (rename svc from to) root h Q.
Proof. intros H1 H2. unfold rename. apply wp_bind, wp_try; intros h' Hp; [|by apply H2]. apply wp_change; intros; [by apply H1|by apply H2]. Qed.
(** A copy to the name broke off, and what is there is the part that it left. *)
Definition partial (t : string) (root' : node) (h' : list Ev) : Prop :=
  exists from part, existT (CopyTree from [t]) (Some (Some part)) ∈ h' /\ child t root' = Some part.
Lemma partial_later t root root' h h' : h `prefix_of` h' -> child t root' = child t root -> partial t root h -> partial t root' h'.
Proof. intros [l ->] Hc (from & part & Hin & Hp). exists from, part. split; [apply elem_of_app; by left|congruence]. Qed.
(** What a move from the staging area to a free name leaves: all of it; or, where it
    failed, nothing, all of it or the part that a copy left. *)
Lemma wp_shutil_move p t n root h (Q : res Exc unit -> node -> list Ev -> Prop) :
  t <> STAGING_DIRNAME -> find_node (STAGING_DIRNAME :: p) root = Some n -> child t root = None ->
  (forall r root' h', visible_kept t root root' ->
     match r with Ok _ => child t root' = Some n | Err _ => child t root' = None \/ child t root' = Some n \/ partial t root' h' end ->
     Q r root' h') ->
  wp (shutil_move svc (STAGING_DIRNAME :: p) [t]) root h Q.
Proof.
  intros Ht Hn Hfree HQ. unfold shutil_move. apply wp_bind, wp_get. cbv beta iota zeta.
  rewrite (find_child t), Hfree. cbn [is_some_and andb]. apply wp_catch, wp_rename.
  { intros root' h' _ Hm. apply HQ; [|eapply moved_child; [exact Hm|by apply not_eq_sym|done]].
    intros y H1 H2. eapply moved_child; [exact Hm|by apply not_eq_sym|done..]. }
  intros h' _. unfold copy_over. apply wp_bind, wp_get. cbv beta iota. rewrite (find_child t), Hfree. apply wp_bind. wp_step.
  destruct (svc h' (CopyTree _ _)) as [[part|]|].
  - apply wp_bind, wp_change; [|intros _; apply HQ; [done|by left]]. intros root' Hp. apply wp_raise, HQ.
    + intros y _ Hy. by apply (put_others _ _ _ _ _ Hp).
    + right; right. eexists _, part. split; [apply elem_of_app; right; by left|by eapply child_put].
  - apply wp_raise, HQ; [done|by left].
  - apply wp_bind, wp_change; [|intros _; apply HQ; [done|by left]]. intros root1 Hc. unfold copied in Hc. rewrite Hn in Hc.
    pose proof (put_others _ _ _ _ _ Hc) as Ho. pose proof (child_put _ _ _ _ Hc) as Hch.
    assert (Hk : visible_kept t root root1) by (intros y _ Hy; by apply Ho).
    apply wp_bind, wp_try; intros h2 _; [|apply HQ; [done|by right; left]]. apply wp_change; [|intros _; apply HQ; [done|by right; left]].
    intros root2 Hd. pose proof (put_others _ _ _ _ _ Hd) as Ho2. apply HQ.
    + intros y H1 H2. rewrite (Ho2 y H1). by apply Ho.
    + by rewrite (Ho2 t Ht).
Qed.
Lemma wp_remove x p root h : wp (remove_quietly svc (x :: p)) root h (fun r root' h' => r = Ok tt /\ others x root root' /\ h `prefix_of` h').
Proof.
  unfold remove_quietly. apply wp_catch, wp_bind, wp_try; intros h' Hp; [|by apply wp_ret].
  apply wp_change; [|intros _; by apply wp_ret]. intros root' Hput. split; [done|]. split; [|done]. by apply (put_others _ _ _ _ _ Hput).
Qed.
Lemma remove_others x p : keeps (others x) (remove_quietly svc (x :: p)).
Proof. intros root h. eapply wp_mono; [apply wp_remove|]. by intros r root' h' (_ & H & _). Qed.

(** The old model is kept under a name that nothing shows. *)
Definition aside (t : string) (root root' : node) : Prop :=
  exists old b, child t root = Some old /\ startswith "." b = true /\ b <> STAGING_DIRNAME /\ child b root' = Some old.
(** The old model, if there was one, is aside, and in its place is nothing, or part of the
    new one that a copy left. *)
Definition unfinished (t : string) (root root' : node) (h' : list Ev) : Prop :=
  (aside t root root' /\ child t root' = None) \/
  ((child t root = None \/ aside t root root') /\ partial t root' h').
Definition models_kept (t : string) (root root' : node) : Prop :=
  forall y, is_internal_name y = false -> y <> t -> child y root' = child y root.
Lemma visible_models t b root root' : is_internal_name b = true ->
  (forall y, y <> STAGING_DIRNAME -> y <> t -> y <> b -> child y root' = child y root) -> models_kept t root root'.
Proof. intros Hb H y Hy Hne. apply H; [|done|]; intros ->; [by vm_compute in Hy|congruence]. Qed.
Definition no_links (root : node) : Prop := forall x n, x <> STAGING_DIRNAME -> child x root = Some n -> is_link n = false.
Definition installed (t : string) (n : node) (root : node) (ok : bool) (root' : node) (h' : list Ev) : Prop :=
  models_kept t root root' /\
  (if ok then child t root' = Some n
   else child t root' = child t root \/ child t root' = Some n \/ unfinished t root root' h').
Definition done_ {A} (r : res Exc A) : bool := match r with Ok _ => true | Err _ => false end.
Lemma backup_internal t now : startswith "." (backup_name t now) = true.
Proof. unfold backup_name. set (s := (t ++ _)%string). change (startswith "." (String "." s) = true). by destruct s. Qed.
Lemma internal_not t b : is_internal_name t = false -> startswith "." b = true -> b <> t.
Proof. intros Ht Hb ->. unfold is_internal_name in Ht. by rewrite Hb, orb_true_r in Ht. Qed.
Lemma internal_dot b : startswith "." b = true -> is_internal_name b = true.
Proof. unfold is_internal_name. intros ->. by rewrite orb_true_r. Qed.
Lemma staging_not t : is_internal_name t = false -> t <> STAGING_DIRNAME.
Proof. by intros H ->. Qed.
(** After the old model is moved aside. *)
Lemma wp_replace p t n b old root root0 h :
  is_internal_name t = false -> startswith "." b = true -> find_node (STAGING_DIRNAME :: p) root = Some n ->
  child t root = None -> child b root = Some old -> child t root0 = Some old -> b <> STAGING_DIRNAME ->
  (forall y, y <> STAGING_DIRNAME -> y <> t -> y <> b -> child y root = child y root0) ->
  wp (mcatch (shutil_move svc (STAGING_DIRNAME :: p) [t]) (fun e => rename svc [b] [t] ≫= fun _ => raise e) ≫= fun _ =>
      remove_quietly svc [b]) root h (fun r root' h' => installed t n root0 (done_ r) root' h').
Proof.
  intros Ht Hb Hn Hfree Hbk Hold Hbs Hother. pose proof (internal_not _ _ Ht Hb) as Hbt. pose proof (internal_dot _ Hb) as Hbi.
  apply wp_bind, wp_catch. apply (wp_shutil_move p t n); [by apply staging_not|done|done|].
  intros r root1 h1 Hk Hr. assert (Hbk1 : child b root1 = Some old) by (rewrite Hk; done).
  assert (Ho1 : forall y, y <> STAGING_DIRNAME -> y <> t -> y <> b -> child y root1 = child y root0).
  { intros y H1 H2 H3. rewrite Hk by done. by apply Hother. }
  destruct r as [[]|e].
  - eapply wp_mono; [apply (wp_remove b [])|]. intros r root2 h2 (-> & Ho2 & _).
    split; [eapply (visible_models t b); [done|]; intros y H1 H2 H3; rewrite (Ho2 y H3); by apply Ho1|].
    cbn [done_]. rewrite (Ho2 t) by (by apply not_eq_sym). exact Hr.
  - assert (Haside : aside t root0 root1) by (by exists old, b).
    apply wp_bind, wp_rename.
    2:{ intros h2 Hp. split; [eapply (visible_models t b); [done|]; exact Ho1|]. right. destruct Hr as [Hr|[Hr|Hr]]; [right|by left|right].
        - left. by split.
        - right. split; [by right|]. by eapply partial_later. }
    intros root2 h2 _ Hm. apply wp_raise.
    destruct (moved_child b [] t old root1 root2 Hm Hbt) as [H1 H2]; [rewrite find_child, Hbk1; done|].
    split; [eapply (visible_models t b); [done|]; intros y ? ? ?; rewrite H2 by done; by apply Ho1|].
    left. congruence.
Qed.
Lemma backup_not_staging t now : backup_name t now <> STAGING_DIRNAME.
Proof.
  intros H. apply (f_equal String.length) in H. unfold backup_name in H. rewrite !str_length_app in H. cbn in H. lia.
Qed.
Lemma install_leaves p name overwrite t n root h :
  _validate_name name = Some t -> no_links root -> find_node (STAGING_DIRNAME :: p) root = Some n ->
  wp (_install svc (STAGING_DIRNAME :: p) name overwrite) root h (fun r root' h' => installed t n root (done_ r) root' h').
Proof.
  intros Hname Hlinks Hn. destruct (validate_name_visible _ _ Hname) as (Hne & Ht & _).
  unfold _install, model_path, valid_name. apply wp_bind. rewrite Hname. apply wp_bind, wp_ret, wp_bind, wp_get. cbv beta iota.
  eapply (wp_mono _ _ _ (fun r root' h' => r = Ok t /\ root' = root)).
  { destruct (child t root) as [c|] eqn:Ec; [|by apply wp_ret]. specialize (Hlinks _ _ (staging_not _ Ht) Ec). destruct c; try done; by apply wp_ret. }
  intros r root' h' [-> ->]. apply wp_bind, wp_get. cbv beta iota.
  apply wp_bind. eapply (wp_mono _ _ _ (fun r root' h' => installed t n root (done_ r) root' h')).
  2:{ intros [[]|e] root' h2 [H1 H2]; [|done]. apply wp_bind, wp_get. cbv beta iota. cbn [done_] in H2. rewrite H2.
      destruct (dir_stats n) as [[size count] newest]. by apply wp_ret. }
  destruct (child t root) as [old|] eqn:Eold; cbn [is_some_and].
  - assert (exists_node old = true) as -> by (specialize (Hlinks _ _ (staging_not _ Ht) Eold); by destruct old).
    destruct (negb overwrite); [apply wp_raise; split; [done|]; by left|].
    apply wp_bind. wp_step. set (now := svc h' Clock). set (b := backup_name t now).
    assert (Hb : startswith "." b = true) by apply backup_internal. pose proof (internal_not _ _ Ht Hb) as Hbt.
    apply wp_bind, wp_rename; [|intros h2 _; split; [done|]; by left]. intros root1 h1 _ Hm.
    destruct (moved_child t [] b old root root1 Hm) as [H1 H2]; [by apply not_eq_sym|rewrite find_child, Eold; done|].
    apply (wp_replace p t n b old); try done.
    + rewrite <- Hn, !find_child, H2; [done|by apply not_eq_sym, staging_not|apply not_eq_sym, backup_not_staging].
    + eapply moved_away; [exact Hm|by apply not_eq_sym].
    + apply backup_not_staging.
    + intros y _ Hy Hyb. by apply H2.
  - apply (wp_shutil_move p t n); [by apply staging_not|done|done|]. intros r root1 h1 Hk Hr.
    split; [apply (visible_models t STAGING_DIRNAME); [done|]; intros y ? ? _; by apply Hk|].
    destruct r as [[]|e]; [exact Hr|]. cbn [done_]. rewrite Eold. destruct Hr as [Hr|[Hr|Hr]]; [by left|by right; left|].
    right; right; right. split; [by left|exact Hr].
Qed.

(** ** The staging area *)

Local Abbreviation S_ := STAGING_DIRNAME.
Instance others_preorder x : PreOrder (others x).
Proof. split; [intros n; apply others_refl|intros a b c; apply others_trans]. Qed.
Ltac at_once := solve [first [apply keeps_ret | apply keeps_raise | apply keeps_get]; exact _].
Lemma keeps_change x f : (forall root root', f root = Some root' -> others x root root') -> keeps (others x) (change f).
Proof. intros H root h. apply wp_change; [by apply H|intros _; apply others_refl]. Qed.
Lemma keeps_try x op : keeps (others x) (try_ svc op).
Proof. intros root h. by apply wp_try. Qed.
Lemma make_dirs_others x p : keeps (others x) (make_dirs svc (x :: p)).
Proof. unfold make_dirs. apply keeps_bind; [exact _|apply keeps_try|]. intros _. apply keeps_change. apply mkdirs_others. Qed.
Lemma make_new_dir_others x p : keeps (others x) (make_new_dir svc (x :: p)).
Proof.
  unfold make_new_dir. apply keeps_bind; [exact _|at_once|]. intros root.
  destruct (find_node _ root); [at_once|apply make_dirs_others].
Qed.
Lemma write_file_others x p data : keeps (others x) (write_file svc (x :: p) data).
Proof.
  unfold write_file. apply keeps_bind; [exact _|apply keeps_try|]. intros _.
  apply keeps_bind; [exact _|exact (keeps_call _ svc Clock)|]. intros now. apply keeps_bind; [exact _|at_once|]. intros root.
  destruct (is_some_and _ _); [at_once|]. apply keeps_change. intros r r'. apply put_others.
Qed.
Lemma copy_others limit x p stream written : keeps (others x) (copy_with_limit svc limit stream (x :: p) written).
Proof.
  unfold copy_with_limit. destruct (read_chunks limit stream written) as [[kept total] over].
  apply keeps_bind; [exact _|apply write_file_others|]. intros _. destruct over; [at_once|at_once].
Qed.
Lemma extract_member_others x p remaining m : keeps (others x) (extract_member svc (x :: p) remaining m).
Proof.
  unfold extract_member. destruct (_safe_relpath _) as [rel|]; [|at_once]. destruct (_is_junk rel); [at_once|].
  destruct (m_kind m); try (cbv zeta; destruct (_ <? 0); [at_once|]);
    (apply keeps_bind; [exact _|apply make_dirs_others|]; intros _); try at_once.
  all: apply keeps_bind; [exact _|apply write_file_others|]; intros _; at_once.
Qed.
Lemma extract_zip_others x p ms remaining : keeps (others x) (_extract_zip svc ms (x :: p) remaining).
Proof.
  revert remaining. induction ms as [|m ms IH]; intros remaining; cbn [_extract_zip]; [at_once|].
  apply keeps_bind; [exact _|apply extract_member_others|exact IH].
Qed.
Lemma extract_tar_others x p ms remaining : keeps (others x) (_extract_tar svc ms (x :: p) remaining).
Proof.
  revert remaining. induction ms as [|m ms IH]; intros remaining; cbn [_extract_tar]; [at_once|].
  destruct (pax_header _); [apply IH|]. destruct (m_kind m); try at_once.
  all: apply keeps_bind; [exact _|apply extract_member_others|exact IH].
Qed.
Lemma wp_staging pid root h : wp (_staging_dir svc pid) root h (fun r root' _ => others S_ root root' /\
  forall s, r = Ok s -> exists x, s = [S_; x]).
Proof.
  unfold _staging_dir. apply wp_bind. wp_step. apply wp_bind. eapply wp_mono; [apply make_new_dir_others|].
  intros [[]|e] root' h' H; [|done]. apply wp_ret. split; [done|]. intros s [= <-]. by eexists.
Qed.

(** ** Whole uploads *)

(** A model that passes the check is in place, whole. *)
Definition whole (n t : string) (root' : node) : Prop :=
  exists m, child t root' = Some m /\ ok (validate_model_dir uni decode at_path m n) = true.
(** How an upload of a model that may be named as [W] says ends: by an error, with all
    models as they were; or one model is concerned, which is in place, or not yet. *)
Definition outcome (W : string -> Prop) (root : node) (r : res Exc Installed) (root' : node) (h' : list Ev) : Prop :=
  (done_ r = false /\ forall y, is_internal_name y = false -> child y root' = child y root) \/
  exists n t, W n /\ _validate_name n = Some t /\ models_kept t root root' /\
  match r with
  | Ok i => i_name i = n /\ whole n t root'
  | Err _ => whole n t root' \/ unfinished t root root' h'
  end.
Lemma outcome_staged W e root root' h' : others S_ root root' -> outcome W root (Err e) root' h'.
Proof. intros H. left. split; [done|]. intros y Hy. apply H. by apply staging_not. Qed.
Lemma unfinished_after t root root1 root' h' : t <> S_ -> others S_ root root1 -> unfinished t root1 root' h' -> unfinished t root root' h'.
Proof.
  intros Ht H. assert (Ha : aside t root1 root' -> aside t root root').
  { intros (old & b & Ho & Hb). exists old, b. split; [|done]. by rewrite <- H. }
  intros [[Hs Hc]|[[Hs|Hs] Hp]]; [left; split; [by apply Ha|done]|right; split; [|done]..]; [left; by rewrite <- H|right; by apply Ha].
Qed.
Lemma unfinished_before t root root1 root' h1 h' : t <> S_ -> others S_ root1 root' -> h1 `prefix_of` h' ->
  unfinished t root root1 h1 -> unfinished t root root' h'.
Proof.
  intros Ht H Hp. assert (Ha : aside t root root1 -> aside t root root').
  { intros (old & b & Ho & Hb & Hbs & Hc). exists old, b. split; [done|]. split; [done|]. split; [done|]. by rewrite H. }
  intros [[Hs Hc]|[Hs Hq]]; [left; split; [by apply Ha|by rewrite H]|right]. split; [destruct Hs; auto|].
  eapply partial_later; [exact Hp|by apply H|exact Hq].
Qed.
Lemma named_visible n t : _validate_name n = Some t -> t <> S_.
Proof. intros H. apply validate_name_visible in H as (_ & Ht & _). by apply staging_not. Qed.
Lemma outcome_after W root root1 r root' h' : others S_ root root1 -> outcome W root1 r root' h' -> outcome W root r root' h'.
Proof.
  intros H [[Hr Hk]|(n & t & Hw & Hn & Hk & Hr)]; [left|right].
  - split; [done|]. intros y Hy. rewrite Hk by done. apply H. by apply staging_not.
  - exists n, t. split; [done|]. split; [done|]. split; [intros y Hy Hne; rewrite Hk by done; apply H; by apply staging_not|].
    destruct r as [i|e]; [done|]. destruct Hr as [Hr|Hr]; [by left|right]. eapply unfinished_after; [by eapply named_visible|done|done].
Qed.
Lemma outcome_before W root r root1 root' h1 h' : outcome W root r root1 h1 -> others S_ root1 root' -> h1 `prefix_of` h' ->
  outcome W root r root' h'.
Proof.
  intros [[Hr Hk]|(n & t & Hw & Hn & Hk & Hr)] H Hp; [left|right].
  - split; [done|]. intros y Hy. rewrite H by (by apply staging_not). by apply Hk.
  - pose proof (named_visible _ _ Hn) as Ht.
    assert (Hwh : whole n t root1 -> whole n t root') by (intros (m & Hm & Hok); exists m; split; [by rewrite H|done]).
    exists n, t. split; [done|]. split; [done|]. split; [intros y Hy Hne; rewrite H by (by apply staging_not); by apply Hk|].
    destruct r as [i|e]; [destruct Hr; auto|]. destruct Hr as [Hr|Hr]; [left; by apply Hwh|right; by eapply unfinished_before].
Qed.
(** An error after it does not undo an installation. *)
Lemma outcome_error W e root r root' h' : outcome W root r root' h' -> outcome W root (Err e) root' h'.
Proof.
  intros [[Hr Hk]|(n & t & Hw & Hn & Hk & Hr)]; [by left|right]. exists n, t. do 3 (split; [done|]).
  destruct r as [i|e']; [left; apply Hr|done].
Qed.
Lemma outcome_named (W W' : string -> Prop) root r root' h' : (forall n, W n -> W' n) -> outcome W root r root' h' -> outcome W' root r root' h'.
Proof. intros HW [H|(n & t & Hw & H)]; [by left|right]. exists n, t. auto. Qed.
Lemma no_links_others root root' : others S_ root root' -> no_links root -> no_links root'.
Proof. intros H Hn x n Hx. rewrite H by done. by apply Hn. Qed.
Lemma wp_prefix {A} (c : FS A) (f : A -> FS Installed) root h (Q : res Exc Installed -> node -> list Ev -> Prop) :
  keeps (others S_) c ->
  (forall e root1 h1, others S_ root root1 -> Q (Err e) root1 h1) ->
  (forall a root1 h1, others S_ root root1 -> wp (f a) root1 h1 Q) -> wp (c ≫= f) root h Q.
Proof. intros Hc He Hf. apply wp_bind. eapply wp_mono; [apply Hc|]. intros [a|e] root1 h1 H; [by apply Hf|by apply He]. Qed.

Lemma validated_outcome p name overwrite root h : no_links root ->
  wp (install_validated svc uni decode at_path (S_ :: p) name overwrite) root h (outcome (eq name) root).
Proof.
  intros Hl. unfold install_validated. apply wp_bind, wp_get. cbv beta iota. apply wp_bind.
  destruct (find_node (S_ :: p) root) as [n|] eqn:En; [|apply wp_raise, outcome_staged; done]. apply wp_ret, wp_bind.
  unfold _validate. destruct (ok _) eqn:Eok; [|apply wp_raise, outcome_staged; done]. apply wp_ret, wp_bind.
  destruct (_validate_name name) as [t|] eqn:Et.
  - eapply wp_mono; [by eapply install_leaves|]. intros r root' h' [Hk Hr].
    assert (Hwh : child t root' = Some n -> whole name t root') by (by exists n).
    destruct r as [[size count]|e]; cbn [done_] in Hr.
    + apply wp_ret. right. exists name, t. do 3 (split; [done|]). auto.
    + destruct Hr as [Hr|Hr]; [left; split; [done|]|right; exists name, t; do 3 (split; [done|]); destruct Hr; auto].
      intros y Hy. destruct (decide (y = t)) as [->|Hne]; [done|by apply Hk].
  - unfold _install, model_path, valid_name. rewrite Et. apply wp_bind, wp_bind, wp_raise. by apply outcome_staged.
Qed.
Context (limit pid : Z) (read_zip read_tar : list Z -> option (list Member)).
Lemma wp_finally_staged W (c : FS Installed) x p root h :
  wp c root h (outcome W root) -> x = S_ ->
  wp (mfinally c (remove_quietly svc (x :: p))) root h (outcome W root).
Proof.
  intros H ->. apply wp_finally. eapply wp_mono; [exact H|]. intros r root1 h1 Ho. eapply wp_mono; [apply wp_remove|].
  intros r' root2 h2 (-> & Hk & Hp). exact (outcome_before _ _ _ _ _ _ _ Ho Hk Hp).
Qed.
(** The name that was asked for, if one was. *)
Definition asked (name n : string) : Prop := name <> ""%string -> _validate_name name = Some n.
Lemma archive_outcome data filename name overwrite root h : no_links root ->
  wp (install_archive svc limit pid uni decode at_path read_zip read_tar data filename name overwrite) root h (outcome (asked name) root).
Proof.
  intros Hl. unfold install_archive. apply wp_bind. eapply wp_mono; [apply wp_staging|].
  intros [staging|e] root1 h1 [Hk Hs]; [|by apply outcome_staged]. destruct (Hs _ eq_refl) as (x & ->).
  eapply wp_mono; [apply wp_finally_staged; [|done]|intros r root' h' Ho; by eapply outcome_after].
  assert (Hl1 : no_links root1) by (by eapply no_links_others). clear root h Hl Hk Hs.
  cbn [app]. apply wp_prefix; [apply make_new_dir_others|by intros; apply outcome_staged|]. intros _ root2 h2 Hk2.
  apply wp_prefix; [|intros; apply outcome_staged; by eapply others_trans|].
  { destruct (endswith ".zip" _); [destruct (read_zip data)|destruct (read_tar data)]; try at_once; [apply extract_zip_others|apply extract_tar_others]. }
  intros _ root3 h3 Hk3. assert (Hk13 : others S_ root1 root3) by (by eapply others_trans).
  apply wp_bind, wp_get. cbv beta iota. cbv zeta. unfold resolved. match goal with |- context [valid_name ?x] => set (the_name := x) end.
  apply wp_bind. unfold valid_name. destruct (_validate_name the_name) as [n|] eqn:Ename; [|by apply wp_raise, outcome_staged].
  apply wp_ret. eapply wp_mono; [apply (validated_outcome (x :: "extract"%string :: match find_node [S_; x; "extract"%string] root3 with
      Some n => _resolve_model_root MAX_DEPTH n | None => [] end)); by eapply no_links_others|].
  intros r root' h' Ho. eapply outcome_after; [exact Hk13|]. eapply outcome_named; [|exact Ho]. intros n' <- Hne. unfold the_name in Ename.
  destruct (String.eqb_spec name ""); [done|]. exact Ename.
Qed.
Lemma wp_directory name overwrite root h :
  wp (directory_upload svc pid name overwrite) root h (fun r root' _ => others S_ root root' /\
    forall u, r = Ok u -> _validate_name name = Some (u_name u) /\ exists x, u_staging u = [S_; x]).
Proof.
  unfold directory_upload, valid_name. apply wp_bind. destruct (_validate_name name) as [n|]; [apply wp_ret|by apply wp_raise].
  apply wp_bind. eapply wp_mono; [apply wp_staging|]. intros [s|e] root1 h1 [Hk Hs]; [|done]. destruct (Hs _ eq_refl) as (x & ->).
  apply wp_bind. eapply wp_mono; [apply make_new_dir_others|]. intros [[]|e] root2 h2 Hk2; [apply wp_ret|];
    (split; [by eapply others_trans|]); [|done]. intros u [= <-]. split; [done|by exists x].
Qed.
Lemma wp_add_files u files x root h : u_staging u = [S_; x] ->
  wp (add_files svc limit u files) root h (fun r root' _ => others S_ root root' /\ forall u', r = Ok u' -> u_staging u' = [S_; x] /\ u_name u' = u_name u).
Proof.
  revert u root h. induction files as [|[relative stream] files IH]; intros u root h Hu; cbn [add_files].
  { apply wp_ret. split; [done|]. by intros u' [= <-]. }
  assert (Hadd : wp (add_file svc limit u relative stream) root h (fun r root' _ => others S_ root root' /\ forall u', r = Ok u' -> u_staging u' = [S_; x] /\ u_name u' = u_name u)).
  { unfold add_file, u_root. rewrite Hu. destruct (_safe_relpath relative) as [rel|]; [|by apply wp_raise].
    destruct (_is_junk rel); [apply wp_ret; split; [done|]; by intros u' [= <-]|]. cbn [app].
    apply wp_bind. eapply wp_mono; [apply make_dirs_others|]. intros [[]|e] root1 h1 Hk1; [|done].
    apply wp_bind. eapply wp_mono; [apply copy_others|]. intros [w|e] root2 h2 Hk2; [apply wp_ret|];
      (split; [by eapply others_trans|]); [|done]. by intros u' [= <-]. }
  apply wp_bind. eapply wp_mono; [exact Hadd|]. intros [u1|e] root1 h1 [Hk Hs]; [|done].
  destruct (Hs _ eq_refl) as [Hx Hu1]. eapply wp_mono; [apply IH, Hx|]. intros r root' h' [Hk' Hs']. split; [by eapply others_trans|].
  by rewrite <- Hu1.
Qed.
Lemma directory_outcome name overwrite files root h : no_links root ->
  wp (upload_directory svc limit pid uni decode at_path name overwrite files) root h (outcome (fun n => _validate_name name = Some n) root).
Proof.
  intros Hl. unfold upload_directory. apply wp_bind. eapply wp_mono; [apply wp_directory|].
  intros [u|e] root1 h1 [Hk Hu]; [|by apply outcome_staged]. destruct (Hu _ eq_refl) as (Hname & x & Hx). apply wp_catch.
  eapply (wp_mono _ _ _ (outcome (fun n => _validate_name name = Some n) root1)).
  - apply wp_bind. eapply wp_mono; [by apply wp_add_files|]. intros [u2|e] root2 h2 [Hk2 Hu2]; [|by apply outcome_staged].
    destruct (Hu2 _ eq_refl) as [Hx2 Hn2]. unfold finish, cleanup, u_root. rewrite Hx2.
    eapply wp_mono; [apply wp_finally_staged; [|done]|intros r root' h' Ho; by eapply outcome_after].
    apply wp_bind, wp_get. cbv beta iota. unfold resolved. cbn [app]. eapply wp_mono; [apply validated_outcome; eapply no_links_others; [|exact Hl]; by eapply others_trans|].
    intros r root' h'. apply outcome_named. intros n <-. congruence.
  - intros [i|e] root2 h2 Ho; [by eapply outcome_after|]. apply wp_bind. unfold cleanup. rewrite Hx.
    eapply wp_mono; [apply wp_remove|]. intros r' root3 h3 (-> & Hk3 & Hp). apply wp_raise. eapply outcome_after; [exact Hk|].
    exact (outcome_before _ _ _ _ _ _ _ Ho Hk3 Hp).
Qed.
Lemma uploaded_outcome uuid filename name overwrite stream root h : no_links root ->
  wp (upload_archive svc limit pid uni decode at_path read_zip read_tar uuid filename name overwrite stream) root h
    (outcome (asked (str_strip name)) root).
Proof.
  intros Hl. unfold upload_archive. cbv zeta. set (tmp := ("incoming-" ++ _)%string). apply wp_finally.
  eapply (wp_mono _ _ _ (outcome (asked (str_strip name)) root)).
  - apply wp_prefix; [apply copy_others|by intros; apply outcome_staged|]. intros _ root1 h1 Hk. apply wp_bind, wp_get. cbv beta iota.
    destruct (find_node _ root1) as [[readable data mtime| |]|]; try (by apply wp_raise, outcome_staged).
    eapply wp_mono; [apply archive_outcome; by eapply no_links_others|]. intros r root' h' Ho. by eapply outcome_after.
  - intros r root1 h1 Ho. eapply (wp_mono _ _ _ (fun _ root' h' => others S_ root1 root' /\ h1 `prefix_of` h')).
    + apply wp_bind, wp_get. cbv beta iota. destruct (find_node _ root1); [|by apply wp_ret].
      apply wp_bind, wp_try; intros h2 Hp; [|done]. apply wp_change; [|done]. intros root2 Hput. split; [|done]. by apply (put_others _ _ _ _ _ Hput).
    + intros [[]|e] root2 h2 [Hk Hp]; [exact (outcome_before _ _ _ _ _ _ _ Ho Hk Hp)|].
      eapply outcome_error. exact (outcome_before _ _ _ _ _ _ _ Ho Hk Hp).
Qed.
Context (read_only : bool) (loads : string -> option json).
Lemma files_outcome files name paths overwrite root h : no_links root ->
  wp (upload_files svc limit pid uni decode at_path loads files name paths overwrite) root h (outcome (asked (str_strip name)) root).
Proof.
  intros Hl. unfold upload_files, relative_paths. apply wp_prefix; [|by intros; apply outcome_staged|].
  { destruct (String.eqb paths ""); [at_once|]. destruct (loads paths) as [[]|]; at_once. }
  intros relative root1 h1 Hk. destruct (_ && _); [by apply wp_raise, outcome_staged|]. cbv zeta.
  destruct (String.eqb _ ""); [by apply wp_raise, outcome_staged|].
  eapply wp_mono; [apply directory_outcome; by eapply no_links_others|]. intros r root' h' Ho. eapply outcome_after; [exact Hk|].
  eapply outcome_named; [|exact Ho]. intros n Hn Hne. revert Hn. unfold named_by.
  destruct relative; [done|]. by destruct (String.eqb_spec (str_strip name) "").
Qed.
End Install.

(** C13: an upload replaces one model whole, or leaves it. In a repository with no links at
    its top, whatever is uploaded and wherever the file system fails, an upload concerns one
    model at most, that of the name asked for if one was, and leaves every other as it was.
    If it answers that it installed the model, one that passes the check is in its place,
    whole. If it answers an error, all models are as they were, or a model that passes the
    check is in place, or the old one is kept under a hidden name and nothing is in its
    place; or else the new one was copied, not moved, the copy broke off in this run,
    and the part that it left is in the model's place. *)
Theorem upload_whole_or_not svc uni decode at_path limit pid read_zip read_tar read_only loads uuid files name paths overwrite root h :
  no_links root ->
  wp (upload svc limit pid uni decode at_path read_zip read_tar read_only loads uuid files name paths overwrite) root h
    (fun r root' h' =>
      ((exists status, r = Ok (Refused status)) /\ forall y, is_internal_name y = false -> child y root' = child y root) \/
      exists n t, asked (str_strip name) n /\ _validate_name n = Some t /\ models_kept t root root' /\
        match r with
        | Ok (Uploaded i) => i_name i = n /\ whole uni decode at_path n t root'
        | Ok (Refused _) => whole uni decode at_path n t root' \/ unfinished t root root' h'
        | Err _ => False
        end).
Proof.
  intros Hl. unfold upload.
  destruct read_only; [apply wp_ret; left; eauto|]. apply wp_bind, wp_catch, wp_bind. eapply wp_mono; [apply (make_dirs_others svc STAGING_DIRNAME [])|].
  assert (Hkeep : forall root1, others STAGING_DIRNAME root root1 -> forall y, is_internal_name y = false -> child y root1 = child y root).
  { intros root1 H y Hy. apply H. by apply staging_not. }
  intros [[]|e] root1 h1 Hk; apply wp_ret; cbn [negb]; [|apply wp_ret; left; split; [eauto|by apply Hkeep]].
  apply wp_catch, wp_bind. eapply (wp_mono _ _ _ (outcome uni decode at_path (asked (str_strip name)) root1)).
  - assert (no_links root1) as Hl1 by (by eapply no_links_others).
    destruct files as [|[filename stream] [|f fs]]; [by apply files_outcome| |by apply files_outcome].
    destruct (is_archive filename); [by apply uploaded_outcome|by apply files_outcome].
  - intros r root' h' Ho. apply (outcome_after _ _ _ _ root root1) in Ho as [[Hr Hm]|(n & t & Hw & Hn & Hm & Hr)]; [..|done].
    + destruct r as [i|e]; [done|]. apply wp_ret. left. eauto.
    + destruct r as [i|e]; apply wp_ret; right; by exists n, t.
Qed.
