(* ===== verification/SmBounds.v ===== *)
(** How much an upload writes, and where
    ([docker/supersonic-model-manager/model_manager/repository.py]); what the dashboard
    shows of the repository. *)
From stdpp Require Import pretty.
From S2P Require Import Prelude PyJson PyText MmText SmTree SmValidate SmRepo SmSafe.
Open Scope Z_scope.

(** ** The monitor: bytes left to write, all of them in the staging area, and the copies of
    a staged tree out of it that are left *)

Definition staged_path (path : list string) : bool := match path with x :: _ => String.eqb x STAGING_DIRNAME | [] => false end.
Definition write_step (left_ : Z * nat) (e : Ev) : option (Z * nat) :=
  match projT1 e with
  | Try (Write path bytes) =>
      if (bytes <=? left_.1) && staged_path path then Some (left_.1 - bytes, left_.2) else None
  | CopyTree from to =>
      match left_.2 with
      | S k => if staged_path from then Some (left_.1, k) else None
      | O => None
      end
  | _ => Some left_
  end.
Definition no_write (r : Req) : bool := match r with Try (Write _ _) | CopyTree _ _ => false | _ => true end.

Section Bounds.
Context (svc : service Req Ans) (uni : Unicode) (decode : list Z -> text) (at_path : node -> text -> option node).
Context (limit pid : Z) (limit_nonneg : 0 <= limit).
Local Abbreviation S_ := STAGING_DIRNAME.

Lemma still {A} b (c : FS A) (Q : res Exc A -> Z * nat -> Prop) : asks_only no_write c -> (forall r, Q r b) -> mon write_step b c Q.
Proof.
  intros Hc HQ. eapply mon_mono; [apply (only_still no_write write_step b c); [|exact Hc]|by intros r b' ->].
  intros r a Hr. destruct r as [[| | |]| | | | |]; done.
Qed.
Lemma change_asks f : asks_only no_write (change f).
Proof. unfold change. asks. Qed.
Lemma try_asks op : no_write (Try op) = true -> asks_only no_write (try_ svc op).
Proof. intros H. unfold try_. eapply only_bind; [exact (only_call (E := Exc) svc no_write (Try op) H)|]. intros done_. asks. Qed.
Ltac plain := repeat first
  [ apply change_asks | apply try_asks; reflexivity | progress asks
  | progress unfold make_dirs, make_new_dir, rename, remove_quietly, model_path, valid_name, _staging_dir ].
Lemma make_dirs_asks p : asks_only no_write (make_dirs svc p).
Proof. plain. Qed.
Lemma staging_asks : asks_only no_write (_staging_dir svc pid).
Proof. plain. Qed.
Lemma make_new_asks p : asks_only no_write (make_new_dir svc p).
Proof. plain. Qed.
Lemma remove_asks p : asks_only no_write (remove_quietly svc p).
Proof. plain. Qed.
(** A move from the staging area copies one tree at most. *)
Lemma move_mon b k p to (Q : res Exc unit -> Z * nat -> Prop) : (forall r q, Q r q) ->
  mon write_step (b, S k) (shutil_move svc (S_ :: p) to) Q.
Proof.
  intros HQ. unfold shutil_move. apply mon_bind, mon_get. intros root. cbv zeta. destruct (_ && _); [by apply mon_raise|].
  apply mon_catch, still; [unfold rename; plain|]. intros [[]|e]; [done|]. unfold copy_over. apply mon_bind, mon_get. intros root'.
  destruct (find_node _ root'); [by apply mon_raise|]. apply mon_bind. refine (mon_call _ _ svc (CopyTree (S_ :: p) _) _ _). intros a.
  exists (b, k). split; [done|]. apply still; [|done]. destruct a as [[part|]|]; plain.
Qed.
Lemma install_mon b k p name overwrite : mon write_step (b, S k) (install_validated svc uni decode at_path (S_ :: p) name overwrite) (fun _ _ => True).
Proof.
  unfold install_validated, _install. apply mon_bind, mon_get. intros root. apply mon_bind, still; [destruct (find_node _ root); plain|].
  intros [n|e]; [|done]. apply mon_bind, still; [unfold _validate; plain|]. intros [v|e]; [|done]. apply mon_bind.
  eapply (mon_mono _ _ _ (fun _ _ => True)); [|intros [[size count]|e] q _; [by apply mon_ret|done]]. apply mon_bind, still; [plain|].
  intros [target|e]; [|done]. apply mon_bind, mon_get. intros root'. apply mon_bind.
  eapply (mon_mono _ _ _ (fun _ _ => True)); [|intros [[]|e] q _; [apply still; [plain|done]|done]].
  destruct (is_some_and _ _); [|by apply move_mon]. destruct (negb overwrite); [by apply mon_raise|].
  apply mon_bind. refine (mon_call _ _ svc Clock _ _). intros now. exists (b, S k). split; [done|].
  apply mon_bind, still; [plain|]. intros [[]|e]; [|done]. apply mon_bind, mon_catch, move_mon.
  intros [[]|e] q; (apply still; [plain|]); [done|]. intros [[]|e']; [apply still; [plain|done]|done].
Qed.

Lemma write_mon b k p data (Q : res Exc unit -> Z * nat -> Prop) : Z.of_nat (List.length data) <= b ->
  (forall r, Q r (b - Z.of_nat (List.length data), k)) -> mon write_step (b, k) (write_file svc (S_ :: p) data) Q.
Proof.
  intros Hb HQ. unfold write_file, try_. do 2 apply mon_bind. refine (mon_call _ _ svc (Try (Write (S_ :: p) _)) _ _). intros a.
  eexists. split; [cbn; rewrite (proj2 (Z.leb_le _ _) Hb); reflexivity|]. destruct a; [apply mon_ret|apply mon_raise, HQ].
  apply still; [|exact HQ]. eapply only_bind; [exact (only_call (E := Exc) svc no_write Clock eq_refl)|]. intros now. apply only_bind; [apply only_get|]. intros root.
  destruct (is_some_and _ _); [apply only_raise|apply change_asks].
Qed.
Lemma read_chunks_bound chunks written : written <= limit ->
  let '(kept, total, over) := read_chunks limit chunks written in
  written + Z.of_nat (List.length kept) <= limit /\ (over = false -> total = written + Z.of_nat (List.length kept)).
Proof.
  revert written. induction chunks as [|c chunks IH]; intros written Hw; cbn [read_chunks]; [cbn; split; [lia|]; lia|].
  destruct (limit <? _) eqn:E; [cbn; split; [lia|done]|]. apply Z.ltb_ge in E. specialize (IH _ E).
  destruct (read_chunks _ _ _) as [[kept total] over]. destruct IH as [H1 H2]. rewrite length_app.
  split; [lia|]. intros Ho. rewrite (H2 Ho). lia.
Qed.
Lemma copy_mon b k stream p written (Q : res Exc Z -> Z * nat -> Prop) : written <= limit -> limit - written <= b ->
  (forall e b', b - b' <= limit - written -> Q (Err e) (b', k)) ->
  (forall total b', total <= limit -> b - b' = total - written -> Q (Ok total) (b', k)) ->
  mon write_step (b, k) (copy_with_limit svc limit stream (S_ :: p) written) Q.
Proof.
  intros Hw Hb He Ho. unfold copy_with_limit. pose proof (read_chunks_bound stream written Hw) as Hr.
  destruct (read_chunks limit stream written) as [[kept total] over]. destruct Hr as [H1 H2].
  apply mon_bind, write_mon; [lia|]. intros [[]|e]; [|apply He; lia].
  destruct over; [apply mon_raise, He; lia|]. specialize (H2 eq_refl). apply mon_ret, Ho; lia.
Qed.
(** The members' bytes are no more than the archive says. *)
Definition honest (ms : list Member) : Prop := forall m, m ∈ ms -> Z.of_nat (List.length (m_data m)) <= m_size m.
Lemma member_mon b k p remaining m : Z.of_nat (List.length (m_data m)) <= m_size m -> remaining <= b ->
  mon write_step (b, k) (extract_member svc (S_ :: p) remaining m) (fun r q => q.2 = k /\ forall rem', r = Ok rem' -> rem' <= q.1).
Proof.
  intros Hm Hb. unfold extract_member. destruct (_safe_relpath _) as [rel|]; [|by apply mon_raise].
  destruct (_is_junk rel); [apply mon_ret; split; [done|by intros ? [= <-]]|].
  assert (Hwrite : mon write_step (b, k) (make_dirs svc ((S_ :: p) ++ removelast rel) ≫= fun _ => write_file svc ((S_ :: p) ++ rel) (m_data m) ≫= fun _ =>
    mret (remaining - m_size m)) (fun r q => q.2 = k /\ forall rem', r = Ok rem' -> rem' <= q.1) \/ remaining - m_size m < 0).
  { destruct (Z.lt_ge_cases (remaining - m_size m) 0); [by right|left]. apply mon_bind, still; [apply make_dirs_asks|].
    intros [[]|e]; [|done]. apply mon_bind. cbn [app]. apply write_mon; [lia|]. intros [[]|e]; [apply mon_ret|done].
    split; [done|]. intros ? [= <-]. cbn. lia. }
  destruct (m_kind m); cbv zeta; [| |destruct (_ <? 0) eqn:E..].
  all: try (apply mon_bind, still; [apply make_dirs_asks|]; intros [[]|e]; [apply mon_ret; split; [done|by intros ? [= <-]]|done]).
  all: try by apply mon_raise.
  all: try (destruct Hwrite as [H|H]; [exact H|apply Z.ltb_ge in E; lia]).
  destruct (_ <? 0) eqn:E; [by apply mon_raise|]. destruct Hwrite as [H|H]; [exact H|apply Z.ltb_ge in E; lia].
Qed.
Lemma zip_mon b k p ms remaining : honest ms -> remaining <= b ->
  mon write_step (b, k) (_extract_zip svc ms (S_ :: p) remaining) (fun _ q => q.2 = k).
Proof.
  revert b remaining. induction ms as [|m ms IH]; intros b remaining Hh Hb; cbn [_extract_zip]; [by apply mon_ret|].
  apply mon_bind. eapply mon_mono; [apply member_mon; [apply Hh; by left|exact Hb]|]. intros [rem'|e] [b' k'] [Hk H]; [|done]. cbn in Hk. subst k'.
  apply IH; [intros m' Hm'; apply Hh; by right|by apply H].
Qed.
Lemma tar_mon b k p ms remaining : honest ms -> remaining <= b ->
  mon write_step (b, k) (_extract_tar svc ms (S_ :: p) remaining) (fun _ q => q.2 = k).
Proof.
  revert b remaining. induction ms as [|m ms IH]; intros b remaining Hh Hb; cbn [_extract_tar]; [by apply mon_ret|].
  assert (Hh' : honest ms) by (intros m' Hm'; apply Hh; by right). destruct (pax_header _); [by apply IH|].
  assert (Hstep : mon write_step (b, k) (remaining' ← extract_member svc (S_ :: p) remaining m; _extract_tar svc ms (S_ :: p) remaining') (fun _ q => q.2 = k)).
  { apply mon_bind. eapply mon_mono; [apply member_mon; [apply Hh; by left|exact Hb]|]. intros [rem'|e] [b' k'] [Hk H]; [|done]. cbn in Hk. subst k'.
    apply IH; [done|by apply H]. }
  destruct (m_kind m); try exact Hstep; by apply mon_raise.
Qed.
Context (read_zip read_tar : list Z -> option (list Member)).
Context (zip_honest : forall data ms, read_zip data = Some ms -> honest ms) (tar_honest : forall data ms, read_tar data = Some ms -> honest ms).
(** What the staging area is, when a directory of it is made. *)
Lemma staging_mon b (Q : res Exc (list string) -> Z * nat -> Prop) :
  (forall x, Q (Ok [S_; x]) b) -> (forall e, Q (Err e) b) -> mon write_step b (_staging_dir svc pid) Q.
Proof.
  intros Ho He. unfold _staging_dir. apply mon_bind. refine (mon_call _ _ svc Clock _ _). intros now. exists b. split; [done|].
  apply mon_bind, still; [apply make_new_asks|]. intros [[]|e]; [apply mon_ret, Ho|apply He].
Qed.
Lemma finally_mon {A} b (c : FS A) p : mon write_step b c (fun _ _ => True) ->
  mon write_step b (mfinally c (remove_quietly svc p)) (fun _ _ => True).
Proof. intros H. apply mon_finally. eapply mon_mono; [exact H|]. intros r b' _. apply still; [apply remove_asks|done]. Qed.
Lemma archive_mon b data filename name overwrite : limit <= b ->
  mon write_step (b, 1%nat) (install_archive svc limit pid uni decode at_path read_zip read_tar data filename name overwrite) (fun _ _ => True).
Proof.
  intros Hb. unfold install_archive. apply mon_bind, staging_mon; [|done]. intros x. apply finally_mon. cbv zeta. cbn [app].
  apply mon_bind, still; [apply make_new_asks|]. intros [[]|e]; [|done]. apply mon_bind. eapply (mon_mono _ _ _ (fun _ q => q.2 = 1%nat)); [|intros r [b' k'] Hk; cbn in Hk; subst k'; destruct r as [[]|e]; [|exact I]].
  - destruct (endswith ".zip" _).
    + destruct (read_zip data) as [ms|] eqn:E; [|by apply mon_raise]. apply zip_mon; [by eapply zip_honest|done].
    + destruct (read_tar data) as [ms|] eqn:E; [|by apply mon_raise]. apply tar_mon; [by eapply tar_honest|done].
  - apply mon_bind, mon_get. intros root. unfold valid_name. apply mon_bind. destruct (_validate_name _) as [n|]; [apply mon_ret|by apply mon_raise].
    unfold resolved. cbn [app]. apply install_mon.
Qed.
Lemma add_files_mon b k u files x : u_staging u = [S_; x] -> u_written u <= limit -> limit - u_written u <= b ->
  mon write_step (b, k) (add_files svc limit u files) (fun r q => q.2 = k /\ forall u', r = Ok u' -> u_staging u' = [S_; x]).
Proof.
  revert b u. induction files as [|[relative stream] files IH]; intros b u Hu Hw Hb; cbn [add_files]; [apply mon_ret; split; [done|by intros ? [= <-]]|].
  apply mon_bind. unfold add_file, u_root. rewrite Hu. destruct (_safe_relpath relative) as [rel|]; [|by apply mon_raise].
  destruct (_is_junk rel); [by apply mon_ret, IH|]. cbn [app].
  apply mon_bind, still; [apply make_dirs_asks|]. intros [[]|e]; [|done]. apply mon_bind, copy_mon; [done|done|done|].
  intros total b' Ht Hb'. apply mon_ret, IH; cbn; [done|done|lia].
Qed.
Lemma directory_mon b name overwrite files : limit <= b ->
  mon write_step (b, 1%nat) (upload_directory svc limit pid uni decode at_path name overwrite files) (fun _ _ => True).
Proof.
  intros Hb. unfold upload_directory, directory_upload, valid_name. do 2 apply mon_bind.
  destruct (_validate_name name) as [n|]; [apply mon_ret|by apply mon_raise]. apply mon_bind, staging_mon; [|done]. intros x.
  apply mon_bind, still; [apply make_new_asks|]. intros [[]|e]; [|done]. apply mon_ret, mon_catch.
  eapply (mon_mono _ _ _ (fun _ _ => True)); [|intros r b' _; destruct r as [i|e]; [exact I|]].
  - apply mon_bind. eapply mon_mono; [eapply add_files_mon; [done|cbn; lia|cbn; lia]|]. intros [u|e] [b' k'] [Hk Hu]; [|done].
    cbn in Hk. subst k'. unfold finish, cleanup, u_root, resolved. rewrite (Hu _ eq_refl). apply finally_mon. apply mon_bind, mon_get. intros root. apply install_mon.
  - unfold cleanup. apply mon_bind, still; [apply remove_asks|]. intros [[]|e']; [by apply mon_raise|done].
Qed.
Context (read_only : bool) (loads : string -> option json).
Lemma files_mon b files name paths overwrite : limit <= b ->
  mon write_step (b, 1%nat) (upload_files svc limit pid uni decode at_path loads files name paths overwrite) (fun _ _ => True).
Proof.
  intros Hb. unfold upload_files, relative_paths. apply mon_bind. apply still.
  { destruct (String.eqb paths ""); [apply only_ret|]. destruct (loads paths) as [[]|]; first [apply only_raise|apply only_ret]. }
  intros [relative|e]; [|done]. destruct (_ && _); [by apply mon_raise|]. cbv zeta. destruct (String.eqb _ ""); [by apply mon_raise|].
  by apply directory_mon.
Qed.
End Bounds.

(** ** Witness, and a race *)

Definition steady : service Req Ans := fun _ r =>
  match r return Ans r with
  | Try _ | Writable => true
  | CopyTree _ _ => None
  | Clock | Mtime _ => 1%Q
  | StatVfs => None
  end.
Definition one_member : list Z -> option (list Member) := fun data =>
  Some [mkMember "echo/config.pbtxt" MFile 17 (txt ("backend: " ++ String "034" ("python" ++ String "034" ""))%string);
        mkMember "echo/1/model.py" MFile 1 [1]].
Definition no_root : node := Dir [].
Definition demo_upload : FS Response :=
  upload steady 1000 7 ascii_only id (fun _ _ => None) one_member one_member false (fun _ => None)
    "u" [("echo.zip"%string, [[1; 2; 3]])] "" "" false.
Lemma one_member_honest data ms : one_member data = Some ms -> honest ms.
Proof. intros [= <-] m. rewrite !elem_of_cons. intros [-> | [-> | H%not_elem_of_nil]]; [by apply Z.leb_le; vm_compute|by apply Z.leb_le; vm_compute|done]. Qed.
Lemma upload_whole_or_not_witness :
  (demo_upload no_root []).1.1 = Ok (Uploaded (mkInstalled "echo" 18 2 (mkResult [] [] (txt "python") ["1"%string]))) /\
  exists n t, _validate_name n = Some t /\ models_kept t no_root (demo_upload no_root []).1.2 /\
    n = "echo"%string /\ whole ascii_only id (fun _ _ => None) n t (demo_upload no_root []).1.2.
Proof.
  assert (E : (demo_upload no_root []).1.1 = Ok (Uploaded (mkInstalled "echo" 18 2 (mkResult [] [] (txt "python") ["1"%string])))) by (vm_compute; reflexivity).
  split; [exact E|].
  pose proof (wp_run _ _ _ _ (upload_whole_or_not steady ascii_only id (fun _ _ => None) 1000 7 one_member one_member false
    (fun _ => None) "u" [("echo.zip"%string, [[1; 2; 3]])] "" "" false no_root [] ltac:(intros x n _; discriminate))) as H.
  change (upload _ _ _ _ _ _ _ _ _ _ _ _ _ _ _) with demo_upload in H. rewrite E in H.
  destruct H as [[[status H] _]|(n & t & _ & Hn & Hk & Hi & Hw)]; [discriminate H|].
  exists n, t. split; [exact Hn|]. split; [exact Hk|]. split; [exact (eq_sym Hi)|exact Hw].
Defined.
(** Where nothing is moved and a copy breaks off, the part that it leaves is the model. *)
Definition broken : service Req Ans := fun h r =>
  match r return Ans r with
  | Try (Rename _ _) => false
  | CopyTree _ _ => Some (Some (Dir [("1", Dir [])]%string))
  | r => steady h r
  end.
Lemma part_in_place :
  let '(r, root', _) := upload broken 1000 7 ascii_only id (fun _ _ => None) one_member one_member false (fun _ => None)
    "u" [("echo.zip"%string, [[1; 2; 3]])] "" "" false no_root [] in
  (exists status, r = Ok (Refused status)) /\ child "echo" root' = Some (Dir [("1", Dir [])]%string).
Proof. vm_compute. split; [by eexists|done]. Qed.
(** A model of the name that another upload put in place since the check: the move goes
    inside it, and succeeds. *)
Lemma late_move_nests :
  let root := Dir [("echo", Dir [("1", Dir [])]); (".uploads", Dir [("s", Dir [("model", demo_model)])])]%string in
  let '(r, root', _) := shutil_move steady [".uploads"; "s"; "model"]%string ["echo"%string] root [] in
  r = Ok tt /\ find_node ["echo"; "model"]%string root' = Some demo_model /\ find_node ["echo"; "1"]%string root' = Some (Dir []).
Proof. vm_compute. done. Qed.

(** ** Deletions, and what is shown *)

(** A deletion takes one model or none. *)
Lemma delete_only svc name root h : wp (delete_model svc name) root h (fun r root' _ => exists t,
  (forall y, y <> t -> child y root' = child y root) /\ (r = Ok tt -> child t root' = None)).
Proof.
  unfold delete_model, model_path, valid_name. apply wp_bind, wp_bind.
  destruct (_validate_name name) as [n|]; [apply wp_ret|apply wp_raise; by exists ""%string].
  apply wp_bind, wp_get. cbv beta iota.
  eapply (wp_mono _ _ _ (fun _ root' _ => root' = root)).
  { destruct (child n root) as [[| |w b m [other|]]|]; try (by apply wp_ret). by apply wp_raise. }
  intros [t|e] root' h' ->; [|by exists ""%string]. apply wp_bind, wp_get. cbv beta iota.
  destruct (negb _); [apply wp_raise; by exists t|]. apply wp_bind, wp_try; intros h2 _; [|by exists t].
  apply wp_change; [|intros _; by exists t]. intros root1 Hp. exists t.
  split; [by apply (put_others _ _ _ _ _ Hp)|intros _; by eapply child_drop].
Qed.
(** What the dashboard says of the space is within what there is. *)
Lemma usage_bounds pvc models_bytes fs w : 0 <= pvc -> 0 <= models_bytes ->
  match fs with Some (t, f) => 0 <= f <= t | None => True end ->
  let u := usage_of pvc models_bytes fs w in
  models_bytes <= used u /\ match free u with Some f => 0 <= f | None => True end /\
  match fs, free u with Some (_, f), Some g => g <= f | _, _ => True end.
Proof.
  intros H1 H2 H3. unfold usage_of. cbv zeta. destruct fs as [[t f]|];
    repeat (cbn -[Z.min Z.max Z.eqb]; match goal with |- context [?x =? 0] => destruct (Z.eqb_spec x 0) end);
    cbn -[Z.min Z.max Z.eqb]; lia.
Qed.
