(* ===== verification/SmTriton.v ===== *)
(** The Triton servers behind the model manager,
    [docker/supersonic-model-manager/model_manager/triton.py]: their discovery, the models
    that each one lists, and loading and unloading a model on all of them. The requests
    that are made of the servers at the same time are made here one after the other: none
    depends on another's answer. *)
From S2P Require Import Prelude PyJson PyText PyValue SmConfig SmTree SmValidate SmRepo SmKube.
Open Scope Z_scope.

Definition _EXPLICIT_HINTS : list string := ["polling is enabled"; "model control mode"; "not allowed"]%string.

Record Server := mkServer { s_name : string; s_address : string; s_url : string }.
(** A model that a server lists, and what a server answered. *)
Record Listed := mkListed { en_name : string; en_version : json; en_state : json; en_reason : json }.
Record ServerState := mkServerState { ss_server : Server; ss_models : list Listed; ss_error : option string; ss_live : bool }.
Record Info := mkInfo { i_state : json; i_version : json; i_reason : json }.
(** Model name to server name to what the server says of the model. *)
Definition Models : Type := list (string * list (string * Info)).
Record State := mkState { st_servers : list ServerState; st_models : Models }.
Record Controlled := mkControlled { c_server : string; c_ok : bool; c_error : option string; control_disabled : bool }.
Record Control := mkControl { ct_action : string; ct_model : string; ct_results : list Controlled; ct_ok : bool; ct_error : option string }.

Section Triton.
Context (svc : service Req Ans) (s : Settings).

(** ** Discovery *)

Definition with_port (address : string) : string := (address ++ ":" ++ pretty (triton_http_port s))%string.
Definition server_at (name address : string) : Server := mkServer name address ("http://" ++ address).
Definition static_server (endpoint : string) : Server :=
  let address := if str_contains ":" endpoint then endpoint else with_port endpoint in server_at address address.
Definition pod_server (pod : string * json) : Server := server_at pod.1 (with_port (str_of pod.2)).
Definition discover_servers : KM (list Server) :=
  if String.eqb (triton_discovery s) "static" then mret (map static_server (triton_endpoints s))
  else pods ← list_triton_pods svc s; mret (map pod_server pods).

(** ** What the servers list *)

Definition _short_error (e : Exc) : string :=
  match e with
  | HTTPStatusError status text => "HTTP " ++ pretty status ++ ": " ++ str_take 200 text
  | Other type_name message => str_take 300 (type_name ++ ": " ++ message)
  end.
(** [repository.is_internal_name] of a name that may be no text. *)
Definition internal (name : json) : res Exc bool :=
  match name with
  | JStr n => Ok (is_internal_name n)
  | _ => if truthy name then Err (no_attribute name "startswith") else Ok true
  end.
Definition entry_of (item : json) : res Exc (option Listed) :=
  name ← get_default "name" (JStr "") item;
  hidden ← internal name;
  if hidden : bool then Ok None else
  version ← get_default "version" (JStr "") item;
  state ← get_default "state" (JStr "UNKNOWN") item;
  reason ← get_default "reason" (JStr "") item;
  Ok (Some (mkListed (jstr name) version state reason)).
Definition entries_of (payload : json) : res Exc (list Listed) :=
  items ← iter payload; found ← rmap entry_of items; Ok (keep_some found).
(** The server is alive once its answer is JSON, even where that lists no models. *)
Definition index_of (server : Server) (reply : Reply) : ServerState :=
  match checked_json reply with
  | Err e => mkServerState server [] (Some (_short_error e)) false
  | Ok payload =>
      match entries_of payload with
      | Ok models => mkServerState server models None true
      | Err e => mkServerState server [] (Some (_short_error e)) true
      end
  end.
Definition _repository_index (server : Server) : KM ServerState :=
  reply ← (mcall svc (Post (s_url server ++ "/v2/repository/index") (triton_timeout_s s)) : KM Reply);
  mret (index_of server reply).

Definition add_entry (server : string) (models : Models) (e : Listed) : Models :=
  dset (en_name e) (dset server (mkInfo (en_state e) (en_version e) (en_reason e)) (dget_or (en_name e) [] models)) models.
Definition add_server (models : Models) (r : ServerState) : Models :=
  foldl (add_entry (s_name (ss_server r))) models (ss_models r).
Definition collect_state : KM State :=
  servers ← discover_servers;
  match servers with
  | [] => mret (mkState [] [])
  | _ => results ← gather _repository_index servers; mret (mkState results (foldl add_server [] results))
  end.

(** ** Loading and unloading *)

Definition EXPLICIT_ERROR : string :=
  "Triton was not started with --model-control-mode=explicit, so models cannot be loaded or unloaded at runtime.".
Definition controlled (server : Server) (reply : Reply) : Controlled :=
  match reply with
  | Raises e => mkControlled (s_name server) false (Some (_short_error e)) false
  | Response status text _ =>
      if 400 <=? status then
        let message := str_take 400 text in
        if existsb (fun hint => str_contains hint (str_lower message)) _EXPLICIT_HINTS
        then mkControlled (s_name server) false (Some EXPLICIT_ERROR) true
        else mkControlled (s_name server) false (Some ("HTTP " ++ pretty status ++ ": " ++ message)%string) false
      else mkControlled (s_name server) true None false
  end.
Definition control_url (server : Server) (model action : string) : string :=
  s_url server ++ "/v2/repository/models/" ++ model ++ "/" ++ action.
Definition _control_one (timeout : Z) (model action : string) (server : Server) : KM Controlled :=
  reply ← (mcall svc (Post (control_url server model action) timeout) : KM Reply);
  mret (controlled server reply).
Definition errors_of (results : list Controlled) : string :=
  str_join "; " (List.filter (fun e => negb (String.eqb e "")) (omap c_error results)).
Definition control_timeout (action : string) : Z := triton_timeout_s s * (if String.eqb action "unload" then 6 else 3).
Definition control_model (model action : string) : KM Control :=
  if negb (existsb (String.eqb action) ["load"; "unload"]%string)
  then raise (Other "ValueError" ("Unsupported action: " ++ action)) else
  servers ← discover_servers;
  match servers with
  | [] => mret (mkControl action model [] false (Some "No Triton servers found."%string))
  | _ =>
      results ← gather (_control_one (control_timeout action) model action) servers;
      let ok := forallb c_ok results in
      mret (mkControl action model results ok (if ok then None else Some (errors_of results)))
  end.

(** [_control] of the manager's two routes: a status, and the outcome if servers were asked. *)
Definition _control (name action : string) : KM (Z * option Control) :=
  if read_only s then mret (403, None) else
  result ← control_model name action;
  mret (if ct_ok result then 200 else 502, Some result).
Definition load_model (name : string) : KM (Z * option Control) := _control name "load".
Definition unload_model (name : string) : KM (Z * option Control) := _control name "unload".

(** After an upload: what the answer says of loading the model, if that is on. *)
Record AutoLoad := mkAutoLoad { al_ok : bool; al_loaded : list string; al_failed : list (string * option string); al_error : option string }.
Definition auto_load (name : string) : KM (option AutoLoad) :=
  if negb (auto_load_on_upload s) then mret None else
  loaded ← control_model name "load";
  mret (Some (mkAutoLoad (ct_ok loaded) (map c_server (List.filter c_ok (ct_results loaded)))
    (map (fun r => (c_server r, c_error r)) (List.filter (fun r => negb (c_ok r)) (ct_results loaded))) (ct_error loaded))).
End Triton.

(** ** Every server, once *)

Definition accepted (reply : Reply) : bool := match reply with Response status _ _ => status <? 400 | Raises _ => false end.
Lemma controlled_ok server reply : c_ok (controlled server reply) = accepted reply.
Proof.
  destruct reply as [status text body|e]; [|done]. unfold controlled, accepted. rewrite Z.ltb_antisym.
  destruct (400 <=? status); [|done]. cbv zeta. by destruct (existsb _ _EXPLICIT_HINTS).
Qed.
(** A request to each server. *)
Definition post_events (url : Server -> string) (timeout : Z) (servers : list Server) (replies : list Reply) : list Ev :=
  zip_with (fun server reply => @existT Req Ans (Post (url server) timeout) reply) servers replies.
Lemma wp_posts {A} svc url timeout (f : Server -> Reply -> A) servers u h (P : res Exc (list A) -> unit -> list Ev -> Prop) :
  (forall replies, List.length replies = List.length servers ->
     P (Ok (zip_with f servers replies)) u (h ++ post_events url timeout servers replies)) ->
  wp (gather (fun server => reply ← (mcall svc (Post (url server) timeout) : KM Reply); mret (f server reply)) servers) u h P.
Proof.
  revert h P. induction servers as [|server servers IH]; intros h P HP; cbn [gather].
  - apply wp_ret. specialize (HP [] eq_refl). cbn in HP. by rewrite app_nil_r in HP.
  - do 3 wp_step. apply wp_ret. wp_step. apply IH. intros replies Hl. apply wp_ret. rewrite <- app_assoc.
    apply (HP (_ :: replies)). cbn. by rewrite Hl.
Qed.
Lemma controlled_all servers replies : List.length replies = List.length servers ->
  forallb c_ok (zip_with controlled servers replies) = forallb accepted replies.
Proof.
  revert replies. induction servers as [|server servers IH]; intros [|reply replies]; try done. intros [= Hl]. cbn.
  by rewrite controlled_ok, IH.
Qed.
(** Loading and unloading reach every server, and are reported as done just when
    every one of them took the request. Whatever is discovered, each server is asked once,
    in turn, for that model and that action, with the time that the action is given, and
    nothing else is asked after the discovery; each outcome is its own server's; the whole
    is fine exactly if there is a server and all answered below 400, and has an error
    otherwise. Of any other action nothing is asked at all. *)
Theorem control_fans_out svc s model action h :
  wp (control_model svc s model action) tt h (fun r _ h' =>
    if negb (bool_decide (action ∈ ["load"; "unload"]%string)) then h' = h /\ exists m, r = Err (Other "ValueError" m) else
    match discover_servers svc s tt h with
    | (Err e, _, h1) => r = Err e /\ h' = h1
    | (Ok servers, _, h1) => exists replies control, r = Ok control /\ List.length replies = List.length servers /\
        h' = h1 ++ post_events (fun server => control_url server model action) (control_timeout s action) servers replies /\
        ct_results control = zip_with controlled servers replies /\
        (ct_ok control = true <-> servers <> [] /\ Forall (fun reply => accepted reply = true) replies) /\
        (ct_ok control = true <-> ct_error control = None)
    end).
Proof.
  unfold control_model. destruct (existsb (String.eqb action) _) eqn:Ea; cbn [negb].
  2:{ rewrite bool_decide_false; [apply wp_raise; split; [done|by eexists]|]. intros Hin. apply not_true_iff_false in Ea. apply Ea, existsb_exists.
      exists action. split; [by apply list_elem_of_In|apply String.eqb_refl]. }
  rewrite bool_decide_true by (apply existsb_exists in Ea as (a & Ha & ->%String.eqb_eq); by apply list_elem_of_In).
  cbn [negb]. wp_step. unfold wp at 1. destruct (discover_servers svc s tt h) as [[[servers|e] []] h1]; [|done].
  destruct servers as [|server servers].
  - apply wp_ret. exists [], (mkControl action model [] false (Some "No Triton servers found."%string)). cbn. rewrite app_nil_r.
    split_and!; try done. by split; [|intros [? _]].
  - wp_step. apply wp_posts. intros replies Hl. apply wp_ret. eexists replies, _. split; [done|]. split; [done|]. split; [done|].
    split; [done|]. cbn [ct_ok ct_error]. rewrite controlled_all by done. split; [|by destruct (forallb accepted replies)].
    rewrite forallb_forall, Forall_forall. split.
    + intros H. split; [done|]. intros x Hx. by apply H, list_elem_of_In.
    + intros [_ H] x Hx. by apply H, list_elem_of_In.
Qed.
