(* ===== verification/SmState.v ===== *)
(** The model manager's state page: each model's metrics
    ([docker/supersonic-model-manager/model_manager/metrics.py]), and the rows that join the
    models of the repository with those of the servers ([state] of [main.py]). *)
From S2P Require Import Prelude PyJson PyText PyFloat PyValue MmText SmConfig SmTree SmValidate SmRepo SmKube SmTriton.
Open Scope Z_scope.

(** ** Metrics *)

Definition rstrip_slash (url : string) : string := str_rstrip (fun c => Ascii.eqb c "/") url.
(** [float(raw)]: an integer beyond the floats raises [OverflowError], which is not caught here. *)
Definition _finite (raw : json) : res Exc (option Q) :=
  match raw with
  | JInt n => match binary64 (qz n) with Some q => Ok (Some q) | None => Err (Other "OverflowError" "int too large to convert to float") end
  | _ => Ok (match float_of raw with Some (Fin q) => binary64 q | _ => None end)
  end.
Definition second_of (j : json) : res Exc json :=
  match j with
  | JArr (_ :: x :: _) => Ok x
  | JArr _ => Err (Other "IndexError" "list index out of range")
  | JStr (String _ (String c _)) => Ok (JStr (String c ""))
  | JStr _ => Err (Other "IndexError" "string index out of range")
  | JObj _ => Err (Other "KeyError" "1")
  | _ => Err (Other "TypeError" ("'" ++ type_name j ++ "' object is not subscriptable"))
  end.
(** A series' model and value, if it has both. Prometheus's labels are texts; another kind
    is not modelled but for an error. *)
Definition series_value (series : json) : res Exc (option (string * Q)) :=
  metric ← get_default "metric" (JObj []) series; model ← get "model" metric;
  if negb (truthy model) then Ok None else
  value ← get "value" series;
  raw ← second_of (j_or value (JArr [JNull; JNull]));
  value ← _finite raw;
  match value, model with
  | None, _ => Ok None
  | Some v, JStr m => Ok (Some (m, v))
  | Some _, _ => Err (Other "TypeError" "unhashable type")
  end.
Definition values_in (payload : json) : res Exc (list (string * Q)) :=
  status ← get "status" payload;
  if negb (jeq_str status "success")
  then message ← get_default "error" (JStr "Prometheus query failed") payload; Err (Other "RuntimeError" (str_of message)) else
  data ← get_default "data" (JObj []) payload; result ← get_default "result" (JArr []) data;
  l ← iter result; found ← rmap series_value l;
  Ok (dupdate [] (keep_some found)).

Definition Metrics : Type := list (string * list (string * Q)).
Record Collected := mkCollected { m_models : Metrics; m_error : option string; m_configured : bool; m_window : option string }.
Definition exc_type (e : Exc) : string := match e with HTTPStatusError _ _ => "HTTPStatusError" | Other t _ => t end.
(** [models.setdefault(model, {})[key] = value] for each model of a query. *)
Definition add_values (key : string) (models : Metrics) (values : list (string * Q)) : Metrics :=
  foldl (fun acc mv => dset mv.1 (dset key mv.2 (dget_or mv.1 [] acc)) acc) models values.
Fixpoint merge_results (models : Metrics) (errors : list string) (l : list (string * res Exc (list (string * Q)))) : Metrics * list string :=
  match l with
  | [] => (models, errors)
  | (key, Err e) :: l' => merge_results models (errors ++ [(key ++ ": " ++ exc_type e)%string]) l'
  | (key, Ok values) :: l' => merge_results (add_values key models values) errors l'
  end.

Section Queries.
Context (svc : service Req Ans) (s : Settings).
Definition _selector : string :=
  if String.eqb (prometheus_selector s) "" then "" else "{" ++ prometheus_selector s ++ "}".
Definition rate (counter : string) : string := "sum by (model) (rate(" ++ counter ++ _selector ++ "[" ++ prometheus_window s ++ "]))".
Definition success_rate : string := rate "nv_inference_request_success".
Definition _queries : list (string * string) :=
  [("throughput", success_rate);
   ("queueLatencyUs", rate "nv_inference_queue_duration_us" ++ " / " ++ success_rate);
   ("computeLatencyUs", rate "nv_inference_compute_infer_duration_us" ++ " / " ++ success_rate);
   ("inferenceCount", "sum by (model) (nv_inference_request_success" ++ _selector ++ ")");
   ("failureCount", "sum by (model) (nv_inference_request_failure" ++ _selector ++ ")");
   ("batchRatio", success_rate ++ " / " ++ rate "nv_inference_exec_count")]%string.
(** Its exception is its result, as [return_exceptions] has it. *)
Definition _instant_query (query : string) : KM (res Exc (list (string * Q))) :=
  reply ← (mcall svc (PromGet (rstrip_slash (prometheus_url s) ++ "/api/v1/query") query) : KM Reply);
  mret (checked_json reply ≫= values_in).
Definition collect_metrics : KM Collected :=
  if String.eqb (prometheus_url s) "" then mret (mkCollected [] None false None) else
  results ← gather _instant_query (map snd _queries);
  let '(models, errors) := merge_results [] [] (combine (map fst _queries) results) in
  mret (mkCollected models (match errors with [] => None | _ => Some (str_join "; " errors) end) true (Some (prometheus_window s))).
End Queries.

(** ** The rows *)

Inductive Origin := Both | OnPvc | External.
Record Row := mkRow { r_name : string; r_source : Origin; r_size : option Z; r_files : option Z; r_versions : list string;
  r_platform : text; r_modified : option Q; r_has_config : option bool; r_states : list (string * Info); r_loaded : Z;
  r_metrics : list (string * Q) }.

Definition ready (info : Info) : bool := String.eqb (str_upper (str_of (i_state info))) "READY".
(** The versions that the servers name, without repetition and sorted; Triton's are texts,
    and another kind is not modelled but for an error. *)
Definition version_of (info : Info) : res Exc (option string) :=
  if negb (truthy (i_version info)) then Ok None else
  match i_version info with JStr v => Ok (Some v) | _ => Err (Other "TypeError" "'<' not supported") end.
Definition versions_of (states : list (string * Info)) : res Exc (list string) :=
  found ← rmap (fun kv => version_of kv.2) states; Ok (str_sorted (remove_dups (keep_some found))).

Section Rows.
(** The order in which a set of texts goes through them. *)
Context (set_order : list string -> list string).
Definition by_name (models_on_pvc : list ModelEntry) : list (string * ModelEntry) :=
  foldl (fun acc e => dset (e_name e) e acc) [] models_on_pvc.
Definition versions_for (entry : option ModelEntry) (states : list (string * Info)) : res Exc (list string) :=
  match entry with Some e => Ok (versions e) | None => versions_of states end.
Definition row_of (pvc : list (string * ModelEntry)) (triton : Models) (metrics : Metrics) (name : string) : res Exc Row :=
  let entry := dget name pvc in
  let states := dget_or name [] triton in
  versions ← versions_for entry states;
  Ok (mkRow name
    (match entry, states with Some _, _ :: _ => Both | Some _, [] => OnPvc | None, _ => External end)
    (option_map size_bytes entry) (option_map file_count entry) versions
    (match entry with Some e => platform e | None => [] end)
    (option_map modified entry) (option_map has_config entry) states
    (Z.of_nat (List.length (List.filter (fun kv => ready kv.2) states)))
    (dget_or name [] metrics)).
Definition names_of (pvc : list (string * ModelEntry)) (triton : Models) : list string :=
  sort_by str_lower (set_order (remove_dups (map fst pvc ++ map fst triton))).
Definition rows_of (models_on_pvc : list ModelEntry) (triton : Models) (metrics : Metrics) : res Exc (list Row) :=
  let pvc := by_name models_on_pvc in
  rmap (row_of pvc triton metrics) (names_of pvc triton).

(** The page. What it asks of the network and what it asks of the repository is asked
    separately: [scanned] and [usage] are the answers of [repository.scan_models] and, of
    the capacity, [repository.storage_usage]. *)
Record Page := mkPage { pg_storage : Usage; pg_inference : Found; pg_grafana : Found; pg_servers : list ServerState;
  pg_models : list Row; pg_prometheus : bool * option string * option string; pg_discovery : string; pg_read_only : bool }.
Context (svc : service Req Ans) (s : Settings).
Definition state_page (scanned : list ModelEntry) (usage : Z -> Usage) : KM Page :=
  pvc_capacity ← pvc_capacity_bytes svc s;
  triton_state ← collect_state svc s;
  prom ← collect_metrics svc s;
  inference ← find_inference_endpoint svc s;
  grafana ← find_grafana_url svc s;
  rows ← (mlift (rows_of scanned (st_models triton_state) (m_models prom)) : KM (list Row));
  mret (mkPage (usage pvc_capacity) inference grafana (st_servers triton_state) rows
    (m_configured prom, m_window prom, m_error prom) (triton_discovery s) (read_only s)).
End Rows.
(** With the repository's own requests made of the file system. *)
Definition state set_order svc s (repo : service SmRepo.Req SmRepo.Ans) uni decode (root : node) (hr : list SmRepo.Ev) (hk : list Ev) : option Page :=
  match scan_models repo uni decode root hr with
  | (Ok scanned, root, hr) =>
      let usage capacity := match storage_usage repo capacity root hr with (Ok u, _, _) => u | _ => mkUsage 0 0 0 None Unknown false end in
      match state_page set_order svc s scanned usage tt hk with (Ok page, _, _) => Some page | _ => None end
  | _ => None
  end.

(** ** What a row says *)

(** What the servers list, in the order in which it is taken in. *)
Definition listed (results : list ServerState) : list (string * Listed) :=
  results ≫= fun r => map (pair (s_name (ss_server r))) (ss_models r).
Definition info_of (e : Listed) : Info := mkInfo (en_state e) (en_version e) (en_reason e).
(** The last that a server says of a model. *)
Definition last_info (server name : string) (l : list (string * Listed)) : option Info :=
  last (omap (fun p => if bool_decide (p.1 = server /\ en_name p.2 = name) then Some (info_of p.2) else None) l).
Definition models_of (l : list (string * Listed)) : Models := foldl (fun acc p => add_entry p.1 acc p.2) [] l.
Lemma add_servers_listed results : foldl add_server [] results = models_of (listed results).
Proof.
  unfold models_of. generalize (@nil (string * list (string * Info))). induction results as [|r results IH]; intros acc; [done|].
  cbn. rewrite foldl_app, IH. f_equal. unfold add_server. generalize (ss_models r). intros l. revert acc.
  induction l as [|e l IHl]; intros acc; [done|]. cbn. apply IHl.
Qed.
Lemma models_of_snoc l p : models_of (l ++ [p]) = add_entry p.1 (models_of l) p.2.
Proof. unfold models_of. by rewrite foldl_app. Qed.
Lemma states_info l name server : dget server (dget_or name [] (models_of l)) = last_info server name l.
Proof.
  induction l as [|p l IH] using rev_ind; [done|]. rewrite models_of_snoc. unfold add_entry. rewrite dget_or_dset.
  unfold last_info in *. rewrite omap_app. case_decide as Hn.
  - subst name. destruct (decide (p.1 = server)) as [Hs|Hs].
    + subst server. rewrite dget_dset. cbn. rewrite bool_decide_true by done. by rewrite last_snoc.
    + rewrite dget_dset_ne by done. cbn. rewrite bool_decide_false by tauto. by rewrite app_nil_r.
  - cbn. rewrite bool_decide_false by (intros [_ ?]; by apply Hn). by rewrite app_nil_r.
Qed.
Lemma models_of_names l name : name ∈ map fst (models_of l) <-> exists p, p ∈ l /\ en_name p.2 = name.
Proof.
  induction l as [|p l IH] using rev_ind; [cbn; split; [by intros ?%elem_of_nil|by intros (? & ?%elem_of_nil & _)]|].
  rewrite models_of_snoc. unfold add_entry. rewrite dset_names. setoid_rewrite elem_of_app. setoid_rewrite list_elem_of_singleton. rewrite IH.
  split; [intros [->|(q & Hq & Hn)]; [exists p|exists q]; auto|]. intros (q & [Hq| ->] & Hn); [right; eauto|by left].
Qed.
Lemma models_of_states l name : NoDup (dget_or name [] (models_of l)).*1.
Proof.
  induction l as [|p l IH] using rev_ind; [by constructor|]. rewrite models_of_snoc. unfold add_entry. rewrite dget_or_dset.
  case_decide as Hn; [|done]. subst name. by apply dset_keys.
Qed.
Lemma dset_cons {K V} `{EqDecision K} (k : K) (v : V) d : dset k v d <> [].
Proof. destruct d as [|[k' v'] d]; cbn; [done|]. by case_decide. Qed.
Lemma models_of_some l name : name ∈ map fst (models_of l) <-> dget_or name [] (models_of l) <> [].
Proof.
  induction l as [|p l IH] using rev_ind; [cbn; split; [by intros ?%elem_of_nil|done]|].
  rewrite models_of_snoc. unfold add_entry. rewrite dset_names, dget_or_dset, IH. case_decide as Hn.
  - split; [intros _; apply dset_cons|by left].
  - split; [by intros [?|?]|by right].
Qed.
(** The entries of the repository, by their names. *)
Lemma by_name_snoc l e : by_name (l ++ [e]) = dset (e_name e) e (by_name l).
Proof. unfold by_name. by rewrite foldl_app. Qed.
Lemma by_name_names l name : name ∈ map fst (by_name l) <-> exists e, e ∈ l /\ e_name e = name.
Proof.
  induction l as [|e l IH] using rev_ind; [cbn; split; [by intros ?%elem_of_nil|by intros (? & ?%elem_of_nil & _)]|].
  rewrite by_name_snoc, dset_names, IH. setoid_rewrite elem_of_app. setoid_rewrite list_elem_of_singleton.
  split; [intros [->|(q & Hq & Hn)]; [exists e|exists q]; auto|]. intros (q & [Hq| ->] & Hn); [right; eauto|by left].
Qed.
Lemma by_name_entry l e : NoDup (map e_name l) -> e ∈ l -> dget (e_name e) (by_name l) = Some e.
Proof.
  induction l as [|e' l IH] using rev_ind; [by intros _ ?%elem_of_nil|].
  rewrite map_app, by_name_snoc. intros (Hnd & Hdis & _)%NoDup_app [Hin|Hin]%elem_of_app.
  - rewrite dget_dset_ne; [by apply IH|]. intros Hn. apply (Hdis (e_name e)); [by apply list_elem_of_fmap_2|]. rewrite <- Hn. by left.
  - apply list_elem_of_singleton in Hin as ->. by rewrite dget_dset.
Qed.
Lemma by_name_none l name : dget name (by_name l) = None <-> ~ exists e, e ∈ l /\ e_name e = name.
Proof.
  by rewrite <- by_name_names, dget_none_names.
Qed.
Lemma row_name pvc triton metrics name row : row_of pvc triton metrics name = Ok row -> r_name row = name.
Proof. unfold row_of. unfold mbind, res_bind. destruct (versions_for _ _); [|done]. by intros [= <-]. Qed.
Lemma row_facts scanned l metrics name row : NoDup (map e_name scanned) ->
  (exists e, e ∈ scanned /\ e_name e = name) \/ (exists p, p ∈ l /\ en_name p.2 = name) ->
  row_of (by_name scanned) (models_of l) metrics name = Ok row ->
    (r_source row = External <-> ~ exists e, e ∈ scanned /\ e_name e = name) /\
    (r_source row = OnPvc <-> ~ exists p, p ∈ l /\ en_name p.2 = name) /\
    (forall e, e ∈ scanned -> e_name e = name -> r_size row = Some (size_bytes e) /\ r_files row = Some (file_count e) /\
       r_versions row = versions e /\ r_has_config row = Some (has_config e)) /\
    NoDup (map fst (r_states row)) /\ (forall server, dget server (r_states row) = last_info server name l) /\
    r_loaded row = Z.of_nat (List.length (List.filter (fun kv => ready kv.2) (r_states row))).
Proof.
  intros Hnd Hor. unfold row_of. rewrite <- (by_name_none scanned name), <- models_of_names, models_of_some.
  rewrite <- models_of_names, models_of_some in Hor. pose proof (states_info l name) as Hinfo. pose proof (models_of_states l name) as Hst.
  assert (Hentry : forall e, e ∈ scanned -> e_name e = name -> dget name (by_name scanned) = Some e) by (intros e He <-; by apply by_name_entry).
  assert (Hno : dget name (by_name scanned) = None -> dget_or name [] (models_of l) <> []).
  { intros Hd. destruct Hor as [Hex|?]; [|done]. by apply by_name_none in Hd. }
  unfold mbind, res_bind. destruct (versions_for _ _) as [vs|] eqn:Ev; [|done].
  intros [= <-]. cbn -[dget]. split_and!; try done.
  - destruct (dget name _) as [e|], (dget_or name _ _); split; done.
  - destruct (dget name _) as [e|], (dget_or name _ _) as [|? ?]; split; try done.
    all: intros H; try (by intros H'); exfalso; first [by apply H|apply H; by apply Hno].
  - intros e He Hn. rewrite (Hentry e He Hn) in Ev |- *. by injection Ev as <-.
Qed.
(** The rows are those of the names. *)
Lemma rows_names set_order scanned triton metrics rows : rows_of set_order scanned triton metrics = Ok rows ->
  map r_name rows = names_of set_order (by_name scanned) triton.
Proof.
  intros Hrows%rmap_forall2. induction Hrows as [|n row ns rows Hr _ IH]; [done|]. cbn. rewrite IH. by rewrite (row_name _ _ _ _ _ Hr).
Qed.
Lemma rows_perm set_order scanned triton metrics rows : (forall l, set_order l ≡ₚ l) -> rows_of set_order scanned triton metrics = Ok rows ->
  map r_name rows ≡ₚ remove_dups (map fst (by_name scanned) ++ map fst triton).
Proof. intros Hset Hrows. rewrite (rows_names _ _ _ _ _ Hrows). unfold names_of. by rewrite sort_by_perm, Hset. Qed.
Lemma rows_each set_order scanned triton metrics rows row : rows_of set_order scanned triton metrics = Ok rows -> row ∈ rows ->
  row_of (by_name scanned) triton metrics (r_name row) = Ok row.
Proof.
  intros Hrows%rmap_forall2 Hrow. destruct (list_elem_of_lookup_1 _ _ Hrow) as [i Hi].
  destruct (Forall2_lookup_r _ _ _ _ _ Hrows Hi) as (n & _ & Hr). by rewrite (row_name _ _ _ _ _ Hr).
Qed.
Lemma by_name_keys scanned : NoDup (map e_name scanned) -> remove_dups (map fst (by_name scanned)) ≡ₚ map e_name scanned.
Proof.
  intros Hnd. apply NoDup_Permutation; [apply NoDup_remove_dups|done|]. intros n. rewrite elem_of_remove_dups, by_name_names.
  rewrite list_elem_of_fmap. split; intros (e & H1 & H2); eauto.
Qed.
(** The state page has one row for each model of the repository or of a server, and
    each says where its model is. Whatever the repository and the servers list, the names
    are those and no others, each once, and in order without regard to case. A row's source is
    what its model is found in; of a model in the repository it gives that entry's
    size, files, versions and configuration; and it counts as loaded the servers, each
    once, whose last word on the model is that it is ready. *)
Theorem rows_exact set_order scanned results metrics rows :
  (forall l, set_order l ≡ₚ l) -> NoDup (map e_name scanned) ->
  rows_of set_order scanned (foldl add_server [] results) metrics = Ok rows ->
  NoDup (map r_name rows) /\ Sorted (not_after str_lower) (map r_name rows) /\
  (forall name, name ∈ map r_name rows <->
     (exists e, e ∈ scanned /\ e_name e = name) \/ (exists p, p ∈ listed results /\ en_name p.2 = name)) /\
  Forall (fun row =>
    (r_source row = External <-> ~ exists e, e ∈ scanned /\ e_name e = r_name row) /\
    (r_source row = OnPvc <-> ~ exists p, p ∈ listed results /\ en_name p.2 = r_name row) /\
    (forall e, e ∈ scanned -> e_name e = r_name row -> r_size row = Some (size_bytes e) /\ r_files row = Some (file_count e) /\
       r_versions row = versions e /\ r_has_config row = Some (has_config e)) /\
    NoDup (map fst (r_states row)) /\ (forall server, dget server (r_states row) = last_info server (r_name row) (listed results)) /\
    r_loaded row = Z.of_nat (List.length (List.filter (fun kv => ready kv.2) (r_states row)))) rows.
Proof.
  intros Hset Hnd. rewrite add_servers_listed. intros Hrows. pose proof (rows_perm _ _ _ _ _ Hset Hrows) as Hperm.
  assert (Hin : forall name, name ∈ map r_name rows <->
     (exists e, e ∈ scanned /\ e_name e = name) \/ (exists p, p ∈ listed results /\ en_name p.2 = name)).
  { intros name. by rewrite Hperm, elem_of_remove_dups, elem_of_app, by_name_names, models_of_names. }
  split; [rewrite Hperm; apply NoDup_remove_dups|]. split; [rewrite (rows_names _ _ _ _ _ Hrows); apply sort_by_sorted|].
  split; [exact Hin|]. apply Forall_forall. intros row Hrow. eapply (row_facts _ _ metrics); [done| |by eapply rows_each].
  by apply Hin, list_elem_of_fmap_2.
Qed.

Definition two_models : list ModelEntry := [mkEntry "b" 10 2 ["1"; "2"] true 0 []; mkEntry "a" 5 1 ["1"] false 0 []]%string.
Definition two_servers : list ServerState :=
  let listing n st := mkListed n (JStr "3") (JStr st) (JStr "") in
  [mkServerState (server_at "s1" "10.0.0.1:8000") [listing "b" "READY"; listing "C" "UNAVAILABLE"] None true;
   mkServerState (server_at "s2" "10.0.0.2:8000") [listing "b" "LOADING"; listing "b" "ready"] None true]%string.
Lemma rows_exact_witness : exists rows, rows_of (fun l => l) two_models (foldl add_server [] two_servers) [] = Ok rows /\
  map (fun row => (r_name row, r_source row, r_loaded row, r_versions row)) rows
    = [("a", OnPvc, 0, ["1"]); ("b", Both, 2, ["1"; "2"]); ("C", External, 0, ["3"])]%string /\ NoDup (map r_name rows).
Proof.
  eexists. split; [vm_compute; reflexivity|]. split; [vm_compute; reflexivity|].
  apply (rows_exact (fun l => l) two_models two_servers []); [done| |vm_compute; reflexivity].
  apply (bool_decide_unpack _). vm_compute. exact I.
Defined.

(** ** Without the cluster *)

Lemma wp_metrics svc s u h (P : res Exc Collected -> unit -> list Ev -> Prop) :
  (forall m h', P (Ok m) u h') -> wp (collect_metrics svc s) u h P.
Proof.
  intros HP. unfold collect_metrics. destruct (String.eqb _ ""); [by apply wp_ret|]. wp_step.
  apply (wp_gather svc _ (PromGet (rstrip_slash (prometheus_url s) ++ "/api/v1/query")) (fun _ reply => checked_json reply ≫= values_in)); [done|].
  intros evs rs _. cbv beta iota. destruct (merge_results _ _ _) as [models errors]. by apply wp_ret.
Qed.
Lemma rows_of_pvc set_order scanned metrics : (forall l, set_order l ≡ₚ l) -> exists rows, rows_of set_order scanned [] metrics = Ok rows.
Proof.
  intros Hset. apply rmap_total. intros name Hin. unfold names_of in Hin.
  rewrite sort_by_perm, Hset, elem_of_remove_dups, app_nil_r in Hin. unfold row_of.
  destruct (dget name (by_name scanned)) as [e|] eqn:E; [by eexists|]. by apply dget_none_names in E.
Qed.
Lemma row_on_pvc pvc metrics name row : dget name pvc <> None -> row_of pvc [] metrics name = Ok row -> r_source row = OnPvc /\ r_states row = [].
Proof. unfold row_of. intros Hd. destruct (dget name pvc); [|done]. by intros [= <-]. Qed.
(** The page does without the cluster. With no API server, no service account or an API
    server that answers with nothing but errors, and whatever Prometheus does, the page
    is shown: no server, no capacity, the endpoints only as configured, and exactly
    the models of the repository, each in its row as there only. *)
Theorem page_without_cluster set_order svc s scanned usage h :
  no_cluster svc s -> triton_discovery s = "kubernetes"%string -> (forall l, set_order l ≡ₚ l) -> NoDup (map e_name scanned) ->
  wp (state_page set_order svc s scanned usage) tt h (fun r _ _ => exists page, r = Ok page /\
    pg_servers page = [] /\ pg_storage page = usage 0 /\
    pg_inference page = (if String.eqb (inference_endpoint s) "" then not_found else (inference_endpoint s, Some Configured)) /\
    pg_grafana page = (if String.eqb (grafana_url s) "" then not_found else (grafana_url s, Some Configured)) /\
    map r_name (pg_models page) ≡ₚ map e_name scanned /\ Forall (fun row => r_source row = OnPvc /\ r_states row = []) (pg_models page)).
Proof.
  intros Haway Hdisc Hset Hnd. unfold state_page. wp_step. apply capacity_nothing; [done|]. intros h1. cbv beta iota.
  wp_step. unfold collect_state. wp_step. unfold discover_servers. rewrite Hdisc. cbn [String.eqb Ascii.eqb Bool.eqb].
  wp_step. apply pods_nothing; [done|]. intros h2. cbv beta iota. apply wp_ret. cbn [map]. apply wp_ret. cbv beta iota.
  wp_step. apply wp_metrics. intros prom h3. cbv beta iota. wp_step. apply endpoint_nothing; [done|]. intros h4. cbv beta iota.
  wp_step. apply grafana_nothing; [done|]. intros h5. cbv beta iota. wp_step. cbn [st_models].
  destruct (rows_of_pvc set_order scanned (m_models prom) Hset) as [rows Hrows]. rewrite Hrows. wp_step. apply wp_ret.
  eexists. split; [done|]. do 4 (split; [done|]). cbn [pg_models].
  split.
  - rewrite (rows_perm _ _ _ _ _ Hset Hrows). cbn [map]. rewrite app_nil_r. by apply by_name_keys.
  - apply Forall_forall. intros row Hrow. pose proof (rows_each _ _ _ _ _ _ Hrows Hrow) as Hr. apply row_on_pvc in Hr; [done|].
    assert (Hn : r_name row ∈ map r_name rows) by (by apply list_elem_of_fmap_2).
    rewrite (rows_perm _ _ _ _ _ Hset Hrows), elem_of_remove_dups, app_nil_r in Hn. by intros ?%dget_none_names.
Qed.
Definition outside (h : list Ev) (r : Req) : Ans r :=
  match r with TokenIsFile | CaIsFile => false | ReadToken => NoToken | _ => Raises (Other "ConnectError" "") end.
Lemma page_without_cluster_witness :
  wp (state_page (fun l => l) outside (settings (fun _ => None)) two_models (fun c => usage_of c 15 None true)) tt [] (fun r _ _ => exists page, r = Ok page /\
    map r_name (pg_models page) = ["a"; "b"]%string /\ pg_servers page = [] /\ pg_inference page = not_found).
Proof.
  assert (H := page_without_cluster (fun l => l) outside (settings (fun _ => None)) two_models (fun c => usage_of c 15 None true) []
    ltac:(right; left; done) eq_refl ltac:(done) ltac:(apply (bool_decide_unpack _); vm_compute; exact I)).
  revert H. vm_compute. intros (page & [= <-] & H1 & H2 & H3 & _). eexists. split; [reflexivity|]. done.
Defined.
