(* ===== verification/AnConfig.v ===== *)
(** The agentic analysis' runner, [workflows/agentic-analysis/agentic_analysis.py]: how
    OpenCode is configured for a turn from the LLM proxy's roles, what is moved out of its
    way, and what is told of its events. Paths are their parts, or texts with slashes. *)
From S2P Require Import Prelude PyJson PyText PyValue AgRay.
Open Scope Z_scope.

Inductive Exc := NonRecoverable (message : string) | Runtime (message : string) | Uncaught.
Definition must {A} (o : option A) : res Exc A := match o with Some a => Ok a | None => Err Uncaught end.

(** ** Constants *)

Definition NAME : string := "agentic-analysis".
Definition ROOT : string := "/agentic-analysis".
Definition PROXY : string := "AF_LLM_PROXY".
Definition TOKEN : string := "AF_LLM_TOKEN".
(** Each agent: the proxy's role, and what it does. *)
Definition AGENTS : list (string * (string * string)) :=
  [("executor", ("executor", "Carries out a phase or one piece of it: plan.md first, then scripts and figures, the artifact last."));
   ("fixer", ("executor", "Makes the smallest fixes that answer an arbiter's ITERATE findings or a regression ticket."));
   ("note_writer", ("note-writer", "Writes the phase-stamped analysis note from the artifacts and results JSON: prose only."));
   ("typesetter", ("typesetter", "Builds the analysis note's PDF with pandoc, postprocess_tex.py and tectonic: layout only."));
   ("physics_reviewer", ("physics-reviewer", "Reviews the physics as a senior collaboration member would, without the methodology or conventions."));
   ("critical_reviewer", ("critical-reviewer", "Finds every flaw of correctness and completeness, against the methodology and conventions."));
   ("constructive_reviewer", ("constructive-reviewer", "Strengthens the analysis' clarity, validation and presentation, and flags real errors as Category A."));
   ("plot_validator", ("plot-validator", "Lints plotting code and inspects the rendered figures it is given; red flags are Category A."));
   ("bibtex_validator", ("bibtex", "Checks that every citation resolves to a real DOI, arXiv or INSPIRE record."));
   ("rendering_reviewer", ("critical-reviewer", "Phase 5: compiles the analysis note to PDF and inspects its rendering, not its physics."));
   ("arbiter", ("arbiter", "Adjudicates the reviews into PASS, ITERATE or ESCALATE, and raises what every reviewer missed."));
   ("investigator", ("arbiter", "On a regression, traces its impact to the phase it started in and writes REGRESSION_TICKET.md; fixes nothing."))]%string.
Definition WAITS : list (string * json) := [("headerTimeout", JInt 60000); ("chunkTimeout", JInt 90000); ("timeout", JInt (3 * 3600000))]%string.
Definition OUTPUT_MAX : Z := 32000.
Definition TOKEN_BYTES : Z := 5.
Definition PERMISSION : json :=
  JObj [("*", JStr "allow"); ("read", JStr "allow"); ("external_directory", JStr "allow"); ("doom_loop", JStr "allow"); ("question", JStr "deny");
    ("edit", JObj [("*", JStr "allow"); ("*.opencode/*", JStr "deny"); ("*opencode.json*", JStr "deny"); ("*AGENTS.md", JStr "deny"); ("*CONTEXT.md", JStr "deny")])]%string.
Definition CONFIGS : list string := [".opencode"; "opencode.json"; "opencode.jsonc"; "AGENTS.md"; "CONTEXT.md"]%string.
Definition XDG : list (string * string) :=
  [("XDG_CONFIG_HOME", ".config"); ("XDG_DATA_HOME", ".local/share"); ("XDG_STATE_HOME", ".local/state"); ("XDG_CACHE_HOME", ".cache")]%string.
Definition SEATS : Z := 8.
Definition PYTHON : string := "3.12".
Definition HOOK : string := "af_profiling.pth".
Definition CORES : Z := 8.
Definition ONGOING : list string := [""; "tool-calls"; "unknown"]%string.
Definition LOG_LINE : nat := 240.
Definition COMMAND_HOURS : Z := 24.
Definition COMMAND_MINUTES : Z := 10.
Definition UNATTENDED : string :=
  "You are running unattended. Nobody can answer a question before the human gate. Do not stop to ask one: decide, note the decision in experiment_log.md, and continue."
  ++ String "010" "At the human gate, end your turn with what you would show the human and where the compiled note is. The reply arrives as your next message."
  ++ String "010" (String "010" "").
Definition INTERRUPTED : string :=
  "The session was interrupted. Check what is on disk and continue from where you left off. If you were waiting for the human, you still are: end your turn again.".
Definition REPLY (reply : string) : string := "The human's reply: " ++ reply.

(** ** OpenCode's configuration *)

Definition Roles : Type := list (string * json).
(** [role[key]], a number. *)
Definition role_int (key : string) (role : json) : res Exc Z :=
  must (match item_of key role with Some (JInt n) => Some n | _ => None end).
Definition wanted_roles : list string := ("orchestrator" :: "compaction" :: map (fun a => a.2.1) AGENTS)%string.
Definition missing_roles (roles : Roles) : list string :=
  str_sorted (remove_dups (List.filter (fun r => negb (dhas r roles)) wanted_roles)).
Definition check_role (name : string) (role : json) : res Exc unit :=
  context ← role_int "context" role; compact ← role_int "compact_at" role;
  if (0 <=? context - compact) && (context - compact <=? OUTPUT_MAX) then Ok tt
  else Err (NonRecoverable ("the LLM proxy's role " ++ name ++ " compacts at " ++ pretty compact ++ " of " ++ pretty context
         ++ " tokens; OpenCode compacts within " ++ pretty OUTPUT_MAX ++ " of a context")).
Definition model_of (name : string) (role : json) : res Exc (string * json) :=
  images ← must (item_of "images" role); context ← role_int "context" role; compact ← role_int "compact_at" role;
  Ok (name, JObj [("name", JStr name); ("tool_call", JBool true);
    ("modalities", JObj [("input", JArr (JStr "text" :: if truthy images then [JStr "image"] else [])); ("output", JArr [JStr "text"])]);
    ("limit", JObj [("context", JInt context); ("output", JInt (context - compact))])])%string.
Definition agent_of (a : string * (string * string)) : string * json :=
  (a.1, JObj [("mode", JStr "subagent"); ("model", JStr ("af/" ++ a.2.1)); ("description", JStr a.2.2); ("permission", JObj [("task", JStr "deny")])])%string.
Definition agents : list (string * json) :=
  (map agent_of AGENTS
   ++ [("orchestrator", JObj [("mode", JStr "primary"); ("model", JStr "af/orchestrator"); ("description", JStr "Runs the analysis through its subagents.");
          ("permission", JObj [("task", JObj (("*", JStr "deny") :: map (fun a => (a.1, JStr "allow")) AGENTS))])]);
       ("compaction", JObj [("model", JStr "af/compaction")])]%string
   ++ map (fun b => (b, JObj [("disable", JBool true)]%string)) ["build"; "plan"; "general"; "explore"; "title"]%string)%list.
Section Config.
Context (environ : list (string * string)).
(** [turn_env] looks up the roles of the agents before it calls this, and raises where one is
    missing. *)
Definition _config (roles : Roles) (facility work : string) : res Exc json :=
  match missing_roles roles with
  | _ :: _ as missing => Err (NonRecoverable ("the LLM proxy has no role " ++ str_join ", " missing))
  | [] =>
      rmap (fun nr => check_role nr.1 nr.2) roles ≫= fun _ =>
      models ← rmap (fun nr => model_of nr.1 nr.2) roles;
      proxy ← must (dget PROXY environ);
      Ok (JObj [("model", JStr "af/orchestrator"); ("default_agent", JStr "orchestrator"); ("enabled_providers", JArr [JStr "af"]); ("autoupdate", JBool false);
        ("share", JStr "disabled"); ("snapshot", JBool false); ("subagent_depth", JInt 1); ("instructions", JArr [JStr facility; JStr (work ++ "/CLAUDE.md")]);
        ("compaction", JObj [("auto", JBool true); ("prune", JBool true)]);
        ("provider", JObj [("af", JObj [("npm", JStr "@ai-sdk/openai-compatible"); ("name", JStr "AF");
           ("options", JObj (("baseURL", JStr (proxy ++ "/v1")) :: ("apiKey", JStr ("{env:" ++ TOKEN ++ "}")) :: WAITS)); ("models", JObj models)])]);
        ("agent", JObj agents)])%string
  end.
(** Rounded down twice, as the code divides. *)
Definition _image_bytes (role : json) : res Exc Z :=
  images ← role_int "images" role;
  if images =? 0 then Ok 0 else
  most ← role_int "max_body_bytes" role; context ← role_int "context" role;
  Ok ((most - context * TOKEN_BYTES) * 3 / 4 / images).

(** ** A turn's environment *)

Definition role_of : list (string * string) := ("orchestrator", "orchestrator")%string :: map (fun a => (a.1, a.2.1)) AGENTS.
(** [roles[role]] of each agent. *)
Definition agent_images (roles : Roles) : res Exc (list (string * json)) :=
  rmap (fun nr => role ← must (dget nr.2 roles); images ← must (item_of "images" role); Ok (nr.1, images)) role_of.
Definition agent_image_bytes (roles : Roles) : res Exc (list (string * json)) :=
  rmap (fun nr => role ← must (dget nr.2 roles); n ← _image_bytes role; Ok (nr.1, JInt n)) role_of.
Context (dumps : json -> string) (home_dir : string).
Definition plugin_of (roles : Roles) (state helpers : string) : res Exc json :=
  images ← agent_images roles; sizes ← agent_image_bytes roles;
  Ok (JObj [("records", JStr (state ++ "/records.jsonl")); ("helpers", JStr helpers); ("hook", JStr HOOK); ("tasks", JStr (state ++ "/tasks")); ("seats", JInt SEATS);
    ("ongoing", JArr (map JStr ONGOING)); ("images", JObj images); ("image_bytes", JObj sizes); ("timeout", JInt (COMMAND_HOURS * 3600000));
    ("env", JObj (map (fun nd => (nd.1, JStr (dget_or nd.1 (home_dir ++ "/" ++ nd.2)%string environ))) XDG))])%string.
Definition last_part (path : string) : string := List.last (str_split "/" path) path.
(** What the turn's OpenCode runs with; [work] and [home] are the analysis' directory and
    the workspace's. *)
Definition turn_env (roles : Roles) (local work home : string) : res Exc (list (string * string)) :=
  let state := (home ++ "/opencode")%string in let config := (local ++ "/config/opencode")%string in
  plugin ← plugin_of roles state (local ++ "/helpers");
  configured ← _config roles (config ++ "/AGENTS.md") work;
  Ok (dupdate environ
    [("OPENCODE_CONFIG_CONTENT", dumps configured); ("OPENCODE_PERMISSION", dumps PERMISSION); ("XDG_CONFIG_HOME", local ++ "/config");
     ("OPENCODE_CONFIG_DIR", config); ("XDG_CACHE_HOME", local ++ "/cache"); ("XDG_STATE_HOME", local ++ "/state"); ("XDG_DATA_HOME", state ++ "/data");
     ("OPENCODE_EXPERIMENTAL_BASH_DEFAULT_TIMEOUT_MS", pretty (COMMAND_MINUTES * 60000)); ("OPENCODE_DISABLE_MODELS_FETCH", "1");
     ("AF_PLUGIN", dumps plugin); ("AF_ANALYSIS", last_part work); ("AF_WORKSPACE", last_part home)])%string.
End Config.

(** ** What is moved aside *)

(** What [os.walk] sees of a directory: its directories, with what is in them where they
    are no links, and its other entries. *)
Inductive Dir := mkDir (directories : list (string * option Dir)) (files : list string).
Definition is_config (name : string) : bool := bool_decide (name ∈ CONFIGS).
Definition walked (name : string) : bool := negb (bool_decide (name ∈ ".git"%string :: ".pixi"%string :: CONFIGS)).
Fixpoint walk_found (top : list string) (dir : Dir) : list (list string) :=
  match dir with
  | mkDir directories files =>
      (map (fun n => top ++ [n]) (List.filter is_config (map fst directories ++ files))
       ++ concat (map (fun nd => match nd.2 with Some d => if walked nd.1 then walk_found (top ++ [nd.1]) d else [] | None => [] end) directories))%list
  end.
(** A relative path's parents, from the nearest to the path itself. *)
Definition parents (parts : list string) : list (list string) := map (fun n => firstn n parts) (rev (seq 0 (List.length parts))).
(** What [_quarantine] looks for, relative to the workspace; [work] is the analysis'
    directory, relative too. *)
Definition quarantined (work : list string) (dir : Dir) : list (list string) :=
  (concat (map (fun up => map (fun name => up ++ [name]) CONFIGS) (parents work)) ++ walk_found work dir)%list.

(** ** A turn's command and prompt *)

(** [session] is what the session's file holds, if it is there. *)
Definition _turn (work : string) (session : option string) (prompt_md reply : string) : list string * string :=
  let command := ["opencode"; "run"; "--format"; "json"; "--dir"; work; "--agent"; "orchestrator"]%string in
  match session with
  | Some id => ((command ++ ["--session"%string; str_strip id])%list, if String.eqb reply "" then INTERRUPTED else REPLY reply)
  | None => (command, (UNATTENDED ++ prompt_md)%string)
  end.

(** ** What is told of an event; nothing where it is of another kind, which raises. *)

Definition dict_in (key : string) (j : json) : option json := v ← get_of key j; if is_obj (j_or v (JObj [])) then Some (j_or v (JObj [])) else None.
Section Narrate.
Context (dumps : json -> string).
Definition said (line : string) : string := str_take LOG_LINE (str_join " " (str_words line)).
Definition out_of_tokens : string := "the reply ran out of output tokens".
Definition text_of (j : json) (key : string) : string := str_of (jget key j).
(** A call of a tool whose output was not pruned. *)
Definition tool_line (part state : json) : string :=
  text_of part "tool" ++ " " ++ dumps (jget "input" state) ++ if jeq_str (jget "status" state) "error" then " failed: " ++ text_of state "error" else "".
Definition line_of (event part state error : json) : option (option string) :=
  let type := j_or (jget "type" event) (jget "kind" event) in
  let other : option (option string) :=
    if jeq_str type "cut" then Some (Some (text_of event "agent" ++ ": " ++ out_of_tokens)%string)
    else if jeq_str type "error" then
      if jhas "kind" event then Some (Some (text_of event "agent" ++ " " ++ text_of event "error" ++ ": " ++ text_of event "message")%string)
      else data ← dict_in "data" error; Some (Some (text_of error "name" ++ ": " ++ text_of data "message")%string)
    else if jeq_str type "tool" then
      Some (Some (text_of event "agent" ++ " " ++ text_of event "tool" ++ " " ++ text_of event "input"
        ++ if jeq_str (jget "status" event) "error" then " failed: " ++ text_of event "error" else "")%string)
    else Some None in
  if jeq_str type "tool_use" then time ← dict_in "time" state; if truthy (jget "compacted" time) then other else Some (Some (tool_line part state))
  else if jeq_str type "text" then
    if truthy (jget "synthetic" part) then other
    else match j_or (jget "text" part) (JStr "") with JStr t => Some (Some t) | _ => None end
  else if jeq_str type "step_finish" then if jeq_str (jget "reason" part) "length" then Some (Some out_of_tokens) else other
  else other.
Definition _narrate (event : json) : option string :=
  part ← dict_in "part" event; state ← dict_in "state" part;
  error ← get_of "error" event;
  line ← line_of event part state (j_or error (JObj []));
  Some (match line with Some line => said line | None => "" end)%string.
End Narrate.
