(* ===== verification/AnTurn.v ===== *)
(** A turn of OpenCode, [workflows/agentic-analysis/agentic_analysis.py]: the watch over it,
    [_Watch], which reads the plugin's records and ends a turn that says nothing, and
    [_opencode], which follows its events to the turn's end. *)
From S2P Require Import Prelude PyJson PyText PyValue AnConfig.
Open Scope Z_scope.

Definition GRACE : Z := 30.
Definition LOADED : Q := 60.
Definition COMMAND_HOURS_S : Z := (COMMAND_HOURS + 1) * 3600.
Definition STALL : Q := qz COMMAND_HOURS_S.

(** ** The plugin's records *)

(** [bytes.splitlines()]: at a newline, a carriage return, or both. *)
Fixpoint byte_lines (line s : string) : list string :=
  match s with
  | EmptyString => if String.eqb line "" then [] else [line]
  | String c s' =>
      if Ascii.eqb c "010" then line :: byte_lines "" s'
      else if Ascii.eqb c "013" then
        line :: match s' with String d s'' => if Ascii.eqb d "010" then byte_lines "" s'' else byte_lines "" s' | EmptyString => [] end
      else byte_lines (line ++ String c "") s'
  end.
(** [s[: s.rfind(b"\n") + 1]] *)
Fixpoint whole_lines (s : string) : string :=
  match s with
  | EmptyString => ""
  | String c s' => let rest := whole_lines s' in if String.eqb rest "" && negb (Ascii.eqb c "010") then "" else String c rest
  end.
Definition Replies : Type := list (string * list string).
Record Watch := mkWatch { offset : nat; loaded : bool; replies : Replies; heard : Q; started : Q }.
#[export] Instance eta_watch : Eta Watch := {| eta_of := fun w => mkWatch (offset w) (loaded w) (replies w) (heard w) (started w) |}.
Section Watched.
Context (loads : string -> option json) (dumps : json -> string).
(** A record; nothing where it is of another kind than the plugin's, which raises. *)
Definition take_record (w : Watch) (record : json) : option Watch :=
  kind ← get_of "kind" record;
  if jeq_str kind "loaded" then Some (w <| loaded := true |>)
  else if jeq_str kind "helpers" then Some w
  else if jeq_str kind "reply" then
    session ← item_of "session" record; text ← item_of "text" record;
    match session, text with
    | JStr s, JStr t => Some (w <| replies := dset s (dget_or s [] (replies w) ++ [t])%list (replies w) |>)
    | _, _ => None
    end
  else if truthy (jget "parent" record) then _narrate dumps record ≫= fun _ => Some w
  else Some w.
Definition take_line (now : Q) (w : Watch) (line : string) : option Watch :=
  let w := w <| heard := now |> in
  match loads line with Some record => take_record w record | None => Some w end.
Fixpoint take_lines (now : Q) (w : Watch) (lines : list string) : option Watch :=
  match lines with [] => Some w | l :: lines => w ← take_line now w l; take_lines now w lines end.
(** [read], of what the file holds. *)
Definition read (now : Q) (content : option string) (w : Watch) : option Watch :=
  match content with
  | None => Some w
  | Some content =>
      let whole := whole_lines (str_drop (offset w) content) in
      take_lines now (w <| offset := (offset w + String.length whole)%nat |>) (byte_lines "" whole)
  end.
(** What a look of [_watch] at the turn does: why it ends it, if it does. *)
Definition verdict (now : Q) (w : Watch) : option string :=
  if negb (loaded w) && (LOADED <?q (now - started w)%Q) then Some ("its plugin did not load within 60 s")%string
  else if STALL <?q (now - heard w)%Q then Some ("it said nothing for " ++ pretty COMMAND_HOURS_S ++ " s")%string
  else None.
(** A look: what the records' file holds then, whether stdout said something since, and the
    time. *)
Record Look := mkLook { l_time : Q; l_content : option string; l_stdout : option Q }.
Definition look (w : Watch) (l : Look) : option (Watch * option string) :=
  let w := match l_stdout l with Some t => w <| heard := t |> | None => w end in
  w ← read (l_time l) (l_content l) w; Some (w, verdict (l_time l) w).
Definition watch_from (now : Q) (content : option string) : Watch := mkWatch (String.length (default ""%string content)) false [] now now.
End Watched.

(** ** A turn *)

(** What a turn's OpenCode left: its lines, as JSON where they are some; what the watch
    made of the records; why the watch ended it, if it did; its exit status. *)
Record Ran := mkRan { ran_lines : list (option json); ran_loaded : bool; ran_replies : Replies; ran_ended : string; ran_code : Z }.
(** What [_opencode] keeps as it goes through the lines. *)
Record Turn := mkTurn { main : json; said : string; finish : json; steps : Z; text : list string; error : json; compacted : Z }.
#[export] Instance eta_turn : Eta Turn :=
  {| eta_of := fun t => mkTurn (main t) (said t) (finish t) (steps t) (text t) (error t) (compacted t) |}.
Definition turn0 : Turn := mkTurn (JStr "") "" (JStr "") 0 [] (JObj []) 0.
Definition par : string := String "010" (String "010" "").
Definition step_event (event part : json) (t : Turn) : option Turn :=
  let type := jget "type" event in
  if jeq_str type "step_start" then Some (t <| text := [] |>)
  else if jeq_str type "text" && negb (truthy (jget "synthetic" part)) then
    match j_or (jget "text" part) (JStr "") with
    | JStr s => let all := (text t ++ [s])%list in Some ((t <| text := all |>) <| said := str_join par all |>)
    | _ => None
    end
  else
    metadata ← dict_in "metadata" part;
    if truthy (jget "compaction_continue" metadata) then Some (t <| said := ""%string |>)
    else if jeq_str type "step_finish" then
      let t := (t <| finish := j_or (jget "reason" part) (JStr "") |>) <| steps := steps t + 1 |> in
      name ← get_of "name" (error t);
      Some (if jeq_str name "ContextOverflowError" then ((t <| error := JObj [] |>) <| compacted := steps t |>) <| said := ""%string |> else t)
    else if jeq_str type "error" then Some (t <| error := j_or (jget "error" event) (JObj []) |>)
    else Some t.
Definition ongoing (finish : json) : bool := existsb (jeq_str finish) ONGOING.
(** What is raised once the turn is over, or what it gave. *)
Definition outcome (ran : Ran) (t : Turn) : res Exc (list string * string * json) :=
  if negb (String.eqb (ran_ended ran) "") then Err (Runtime ("opencode: " ++ ran_ended ran))
  else if negb (ran_loaded ran) then Err (Runtime "opencode: its plugin did not load")
  else if truthy (error t) then
    data ← must (dict_in "data" (error t));
    let detail := str_of (j_or (jget "message" data) (jget "name" (error t))) in
    code ← must (match jget "statusCode" data with JArr _ | JObj _ => Some false | JInt n => Some ((n =? 401) || (n =? 403)) | JFloat q => Some (Qeq_bool q 401 || Qeq_bool q 403) | _ => Some false end);
    Err (if code : bool then NonRecoverable ("opencode: " ++ detail) else Runtime ("opencode: " ++ detail))
  else
    let went_on := (0 <? compacted t) && (compacted t <? steps t) && negb (ongoing (finish t)) in
    if negb (ran_code ran =? 0) && negb ((ran_code ran =? 1) && went_on) then Err (Runtime ("opencode exited " ++ pretty (ran_code ran)))
    else
      let kept := match main t with JStr s => dget_or s [] (ran_replies ran) | _ => [] end in
      Ok (kept, said t, finish t).

(** ** Each record is read once *)

(** What reads of the file take in, each from where the one before it ended; and what the
    file holds at them, as it grows by chunks. *)
Fixpoint seen (offset : nat) (contents : list string) : list string :=
  match contents with
  | [] => []
  | content :: contents =>
      let whole := whole_lines (str_drop offset content) in (byte_lines "" whole ++ seen (offset + String.length whole) contents)%list
  end.
Fixpoint growing (before : string) (chunks : list string) : list string :=
  match chunks with [] => [] | k :: chunks => (before ++ k)%string :: growing (before ++ k) chunks end.
Inductive ended : string -> Prop :=
| ended_nil : ended ""
| ended_last : ended (String "010" "")
| ended_cons c s : s <> ""%string -> ended s -> ended (String c s).
Lemma whole_split s : exists rest, s = (whole_lines s ++ rest)%string /\ ended (whole_lines s).
Proof.
  induction s as [|c s (rest & E & He)]; [exists ""%string; by repeat constructor|]. cbn [whole_lines].
  destruct (String.eqb_spec (whole_lines s) "") as [E0|Hne]; cbn [andb].
  - rewrite E0 in *. destruct (Ascii.eqb_spec c "010") as [->|Hc]; cbn [negb].
    + exists s. split; [done|constructor].
    + exists (String c s). split; [done|constructor].
  - exists rest. split; [by rewrite E at 1|]. by constructor.
Qed.
Lemma whole_app w x : ended w -> whole_lines (w ++ x) = (w ++ whole_lines x)%string.
Proof.
  induction 1 as [| |c s Hne He IH]; [done| |].
  - change (String "010" "" ++ x)%string with (String "010" x). cbn [whole_lines]. by rewrite andb_false_r.
  - change (String c s ++ x)%string with (String c (s ++ x)). cbn [whole_lines]. rewrite IH.
    destruct (String.eqb_spec (s ++ whole_lines x) "") as [E|]; [by destruct s|done].
Qed.
Lemma byte_lines_app w x line : ended w -> w <> ""%string -> byte_lines line (w ++ x) = (byte_lines line w ++ byte_lines "" x)%list.
Proof.
  intros H. revert line. remember (String.length w) as n eqn:En. revert w H En. induction (lt_wf n) as [n _ IH]. intros w H -> line Hne.
  destruct H as [| |c s Hs He]; [done|done|]. change (String c s ++ x)%string with (String c (s ++ x)). cbn [byte_lines].
  assert (IHs : forall line, byte_lines line (s ++ x) = (byte_lines line s ++ byte_lines "" x)%list) by (intros l; eapply IH; [|exact He|reflexivity|exact Hs]; cbn; lia).
  destruct (Ascii.eqb c "010"); [by rewrite IHs|]. destruct (Ascii.eqb c "013"); [|by rewrite IHs].
  destruct s as [|d s']; [done|]. change (String d s' ++ x)%string with (String d (s' ++ x)). cbv iota beta. destruct (Ascii.eqb_spec d "010") as [->|Hd].
  - destruct (String.eqb_spec s' "") as [->|Hs']; [by cbn|]. rewrite (IH (String.length s')); [done|cbn; lia| |done|done].
    inversion He; subst; done.
  - change (String d (s' ++ x)) with (String d s' ++ x)%string. by rewrite IHs.
Qed.
(** However the file grows between the reads, and wherever a read finds a line half
    written, each whole record is taken in once, in its order. *)
Theorem records_once before chunks : seen (String.length before) (growing before chunks) = byte_lines "" (whole_lines (str_join "" chunks)).
Proof.
  assert (Hjoin : forall l, str_join "" l = foldr (fun a b => (a ++ b)%string) ""%string l).
  { induction l as [|a [|b l] IH]; [done|symmetry; apply str_app_nil|]. change (str_join "" (a :: b :: l)) with (a ++ "" ++ str_join "" (b :: l))%string.
    rewrite IH. done. }
  rewrite Hjoin. assert (Hgen : forall p rest, ended (whole_lines rest) -> whole_lines rest = ""%string ->
    seen (String.length p) (growing (p ++ rest) chunks) = byte_lines "" (whole_lines (rest ++ foldr (fun a b => (a ++ b)%string) ""%string chunks))).
  2: { rewrite <- (str_app_nil before) at 2. by apply (Hgen before ""%string ended_nil). }
  induction chunks as [|k chunks IH]; intros p rest He E; cbn [growing seen foldr]; [by rewrite str_app_nil, E|].
  rewrite (str_app_assoc p rest k), str_drop_app. destruct (whole_split (rest ++ k)) as (rest' & Es & Hw). set (w := whole_lines (rest ++ k)) in *.
  assert (Hr : whole_lines rest' = ""%string).
  { pose proof (whole_app w rest' Hw) as H. rewrite <- Es in H. change (whole_lines (rest ++ k)) with w in H. symmetry in H.
    rewrite <- (str_app_nil w) in H at 2. by apply str_app_inv_head in H. }
  rewrite Es, <- str_app_assoc, <- str_length_app, IH by (done || by rewrite Hr; constructor).
  rewrite <- (str_app_assoc rest k), Es, str_app_assoc, (whole_app w) by done.
  destruct (String.eqb_spec w "") as [->|Hne]; [done|]. by rewrite byte_lines_app.
Qed.
