(* ===== verification/AnRun.v ===== *)
(** A run of the agentic analysis, [workflows/agentic-analysis/agentic_analysis.py]: a
    workspace's setup, the agent's turns, and [advance], an attempt of a run. The files
    that the runner alone keeps of a workspace are its state; what else it does on disk and
    in processes is asked of the world. What is logged is left out. *)
From S2P Require Import Prelude PyJson PyText PyValue AnConfig AnTurn.
Open Scope Z_scope.

Definition JFC : string * string := ("https://github.com/jfc-mit/jfc.git", "9eecb0e0b4c95c362053ad6b121760b47379bc54")%string.
Definition CONDA : list string := ["python=" ++ PYTHON; "xrootd"]%string.
Definition PACKAGES : list string := ["pyroscope-io"; "dask-gateway"; "distributed"; "prometheus-client"; "fsspec-xrootd"]%string.
Definition TOKEN_FILE : string := "AF_ACCOUNT_TOKEN_FILE".
Definition RETRIES : Z := 5.
Definition RESUMES : nat := 3.
Record Analysis := mkAnalysis { a_name : string; kind : string; repo : string; ref : string; files : list string; data : string; scope : string; sources : list (string * string) }.

(** ** The world *)

(** What the setup does on disk. *)
Inductive Action :=
| Rmtree (path : string)                       (** errors are ignored *)
| Mkdir (path : string)                        (** raises if it is there *)
| MakeDir (path : string)
| Run (command : list string) (cwd : string)
| WriteText (path text : string)
| Append (path text : string)
| Link (path to : string)
| Fetch (url path : string) | Extract (archive directory : string) | Rename (from to : string)
| CopyTree (from to : string)
| CopyFile (from to : string).
(** The workspace's own files, and what became of writing one: the text; nothing, as it could not
    be opened, or an empty file, as it could not be written, both of which raise. *)
Inductive Own := StagedFile | SessionFile | ToldFile | SaidFile.
Inductive Wrote := Whole | Nothing | Cut.
(** An action is done or raises; [IsDir]; the roles' answer; a turn; a path moved aside if
    it is there; an environment's files written; the lock taken; a pause. *)
Inductive Req := Do (a : Action) | Exists_ (path : string) | IsDir (path : string) | IsFile (path : string) | ReadText (path : string) | AskRoles | Walk (path : string)
| Aside (path : list string) | WriteSetup (local : string) | TempDir | OpenCode (command : list string) (prompt : string) (environment : list (string * string))
| MakeHome | Lock | Sleep (minutes : Z) | Put (file : Own) (text : string).
Definition RolesAnswer : Type := (json + (Z * string) + string)%type.
Definition Ans (r : Req) : Type :=
  match r with
  | Do _ | Aside _ | WriteSetup _ | MakeHome | Lock => bool
  | Exists_ _ | IsDir _ | IsFile _ => bool
  | ReadText _ => option string
  | AskRoles => RolesAnswer                    (** JSON; an HTTP error's code and text; another failure *)
  | Walk _ => Dir
  | TempDir => string
  | OpenCode _ _ _ => Ran
  | Sleep _ => unit
  | Put _ _ => Wrote
  end.
Definition Ev : Type := sigT Ans.
(** The workspace's own files: the session, the reply that the run's turn took, the mark of
    a setup that is whole, and what was said. *)
Record Home := mkHome { session : option string; told : option string; staged : bool; said_md : option string }.
#[export] Instance eta_home : Eta Home := {| eta_of := fun h => mkHome (session h) (told h) (staged h) (said_md h) |}.
Definition RM (A : Type) : Type := M Ev Home Exc A.
Definition lift {A} (r : res Exc A) : RM A := mlift r.

Section Runner.
Context (svc : service Req Ans) (environ : list (string * string)) (dumps : json -> string) (uuid5 : string -> string) (home_dir : string).
(** What raises where it is not done. Roles that are no dict have none; a session's ID is a
    text. *)
Definition done_ (r : Req) (ok : Ans r -> bool) : RM unit :=
  (mcall svc r : RM (Ans r)) ≫= fun b => if ok b then (mret tt : RM unit) else (raise Uncaught : RM unit).
Definition yes (b : bool) : bool := b.
Definition act (a : Action) : RM unit := done_ (Do a) yes.
Definition acts (l : list Action) : RM unit := mfor l act.

Definition hold (file : Own) (text : string) (h : Home) : Home :=
  match file with
  | StagedFile => h <| staged := true |>
  | SessionFile => h <| session := Some text |>
  | ToldFile => h <| told := Some text |>
  | SaidFile => h <| said_md := Some text |>
  end.
(** [write_text] of one of them. *)
Definition put (file : Own) (text : string) : RM unit :=
  wrote ← (mcall svc (Put file text) : RM Wrote);
  match wrote with
  | Whole => mmod (hold file text)
  | Nothing => raise Uncaught
  | Cut => mmod (hold file "") ≫= fun _ => raise Uncaught
  end.

(** ** The setup of a workspace *)

Definition _checkout (source : string * string) (dest : string) : list Action :=
  [Mkdir dest; Run ["git"; "init"; "--quiet"] dest; Run ["git"; "fetch"; "--quiet"; "--depth"; "1"; source.1; source.2] dest;
   Run ["git"; "checkout"; "--quiet"; "FETCH_HEAD"] dest]%string.
Definition parent_of (path : string) : string := removesuffix "/" (str_join "/" (removelast (str_split "/" path))).
Definition source_files (source : string) (sources : list (string * string)) : list Action :=
  concat (map (fun nt => [MakeDir (parent_of (source ++ "/" ++ nt.1)); WriteText (source ++ "/" ++ nt.1) nt.2])%string sources).
Definition copy_named (source work name : string) : RM unit :=
  is_dir ← (mcall svc (IsDir (source ++ "/" ++ name)) : RM bool);
  act (if is_dir : bool then CopyTree (source ++ "/" ++ name) (work ++ "/" ++ name) else CopyFile (source ++ "/" ++ name) (work ++ "/" ++ name)).
Definition until_data (spec source work executable : string) (a : Analysis) : list Action :=
  ([Rmtree spec; Rmtree source] ++ _checkout JFC spec ++ (if String.eqb (repo a) "" then [] else _checkout (repo a, ref a) source)
   ++ source_files source (sources a)
   ++ [Run [executable; "src/scaffold_analysis.py"; "analyses/" ++ a_name a; "--type"; kind a]%string spec;
       Run ["git"; "config"; "user.name"; NAME]%string work; Run ["git"; "config"; "user.email"; NAME ++ "@purdue-af.invalid"]%string work])%list.
(** The analysis's data, fetched once for each URL: whole, as it is moved to its place last. *)
Definition _data (a : Analysis) : RM string :=
  let dir := (ROOT ++ "/data/" ++ a_name a ++ "-" ++ str_take 8 (uuid5 (data a)))%string in
  known ← (mcall svc (Exists_ dir) : RM bool);
  if known : bool then mret dir else
  act (MakeDir (ROOT ++ "/data")) ≫= fun _ =>
  scratch ← (mcall svc TempDir : RM string);
  acts [Fetch (data a) (scratch ++ "/data.tgz"); Extract (scratch ++ "/data.tgz") scratch; Rename (scratch ++ "/data") dir]%string ≫= fun _ => mret dir.
Definition place_data (spec work : string) (a : Analysis) : RM unit :=
  if String.eqb (data a) "" then mret tt else
  dir ← _data a;
  acts [Link (work ++ "/data") dir; WriteText (work ++ "/.analysis_config") ("data_dir=" ++ work ++ "/data" ++ String "010" ("allow=" ++ spec ++ "/src" ++ String "010" ""))]%string.
Definition after_files (work : string) (a : Analysis) : list Action :=
  ((if String.eqb (scope a) "" then [] else [Append (work ++ "/prompt.md") (par ++ scope a)]%string)
   ++ [Run (["pixi"; "add"; "--no-install"]%string ++ CONDA) work; Run (["pixi"; "add"; "--pypi"]%string ++ PACKAGES) work])%list.
Definition work_of (home : string) (a : Analysis) : string := home ++ "/jfc/analyses/" ++ a_name a.
Definition _prepare (home executable : string) (a : Analysis) : RM string :=
  let spec := (home ++ "/jfc")%string in let source := (home ++ "/source")%string in let work := work_of home a in
  h ← (mget : RM Home);
  if staged h then mret work
  else
    acts (until_data spec source work executable a) ≫= fun _ =>
    place_data spec work a ≫= fun _ =>
    mfor (files a ++ ["prompt.md"%string])%list (copy_named source work) ≫= fun _ =>
    acts (after_files work a) ≫= fun _ =>
    put StagedFile "" ≫= fun _ => mret work.

(** ** The agent's turns *)

Definition _roles : RM Roles :=
  must_env ← lift (must (dget PROXY environ)); _ ← lift (must (dget TOKEN environ));
  answer ← (mcall svc AskRoles : RM RolesAnswer);
  match answer with
  | inl (inl (JObj roles)) => mret roles
  | inl (inl _) => mret []
  | inl (inr (code, text)) =>
      if (code =? 401) || (code =? 403) then raise (NonRecoverable ("the LLM proxy refuses " ++ TOKEN ++ ": " ++ text)%string)
      else raise (Runtime ("the LLM proxy's roles: " ++ text)%string)
  | inr text => raise (Runtime ("the LLM proxy's roles: " ++ text)%string)
  end.
Definition _quarantine (work : string) (parts : list string) : RM unit :=
  dir ← (mcall svc (Walk work) : RM Dir);
  mfor (quarantined parts dir ++ [["~"; ".opencode"]%string])%list (fun path => done_ (Aside path) yes).
(** A line of OpenCode's, with the session's file and [taken]: the reply that is still to be
    noted as taken. *)
Definition take_session (taken : option string) (id : string) : RM (option string) :=
  h ← (mget : RM Home);
  (match session h with None => put SessionFile id | Some _ => mret tt end) ≫= fun _ =>
  match taken with Some reply => put ToldFile reply ≫= fun _ => mret None | None => mret None end.
Definition line_step (taken : option string) (t : Turn) (line : option json) : RM (option string * Turn) :=
  match line with
  | Some (JObj o) =>
      let event := JObj o in
      let id := jget "sessionID" event in
      '(taken, t) ← (if truthy id then
                       match id with
                       | JStr s => taken ← take_session taken s; mret (taken, t <| main := id |>)
                       | _ => raise Uncaught
                       end
                     else mret (taken, t) : RM (option string * Turn));
      part ← lift (must (dict_in "part" event));
      t ← lift (must (step_event event part t));
      lift (must (_narrate dumps event)) ≫= fun _ => mret (taken, t)
  | _ => mret (taken, t)
  end.
Fixpoint lines_step (taken : option string) (t : Turn) (lines : list (option json)) : RM Turn :=
  match lines with [] => mret t | l :: lines => '(taken, t) ← line_step taken t l; lines_step taken t lines end.
Definition _opencode (command : list string) (prompt : string) (environment : list (string * string)) (taken : option string) : RM (list string * string * json) :=
  ran ← (mcall svc (OpenCode command prompt environment) : RM Ran);
  t ← lines_step taken turn0 (ran_lines ran); lift (outcome ran t).
Definition joined (texts : list string) : string := str_join par (List.filter (fun s => negb (String.eqb s "")) texts).
Definition one_turn (home work : string) (parts : list string) (roles : Roles) (reply : string) : RM (list string * string * json) :=
  _quarantine work parts ≫= fun _ =>
  h ← (mget : RM Home);
  prompt_md ← (match session h with
               | Some _ => mret ""%string
               | None => text ← (mcall svc (ReadText (work ++ "/prompt.md")) : RM (option string)); lift (must text)
               end : RM string);
  let '(command, prompt) := _turn work (session h) prompt_md reply in
  local ← (mcall svc TempDir : RM string);
  done_ (WriteSetup local) yes ≫= fun _ =>
  environment ← lift (turn_env environ dumps home_dir roles local work home);
  _opencode command prompt environment (if String.eqb reply "" then None else Some reply).
Definition too_long : string := "the agent's replies ran out of output tokens 4 times".
Fixpoint turns (n : nat) (home work : string) (parts : list string) (roles : Roles) (reply : string) (kept : list string) : RM string :=
  match n with
  | O => raise (Runtime too_long)
  | S n =>
      '(replies, said, finish) ← one_turn home work parts roles reply;
      let kept := (kept ++ replies)%list in
      if jeq_str finish "length" then turns n home work parts roles "" kept else mret (joined (kept ++ [said])%list)
  end.
Definition _agent (home work : string) (parts : list string) (reply : string) : RM string :=
  act (MakeDir (home ++ "/opencode")) ≫= fun _ => roles ← _roles; turns (S RESUMES) home work parts roles reply [].

(** ** An attempt of a run *)

Definition pause (attempt : Z) : Z := Z.min (15 * 2 ^ attempt) 240.
Definition work_parts (a : Analysis) : list string := ("jfc" :: "analyses" :: str_split "/" (a_name a))%string.
Definition given (name : string) : bool := match dget name environ with Some s => negb (String.eqb s "") | None => false end.
Definition advance (executable run_name : string) (attempt : Z) (a : Analysis) (workspace reply : string) : RM string :=
  if negb (given PROXY && given TOKEN) then raise (NonRecoverable (PROXY ++ " and " ++ TOKEN ++ " are not both set: see apps/agentic-analysis/README.md")%string) else
  token ← (mcall svc (IsFile (dget_or TOKEN_FILE ""%string environ)) : RM bool);
  if negb token then raise (NonRecoverable (TOKEN_FILE ++ " names no file of the workload account's token: see apps/agentic-analysis/README.md")%string) else
  let home := (ROOT ++ "/" ++ workspace)%string in
  known ← (if String.eqb workspace run_name then mret true else (mcall svc (IsDir home) : RM bool));
  if negb known then raise (NonRecoverable ("no workspace " ++ str_repr workspace)%string) else
  done_ MakeHome yes ≫= fun _ =>
  mcatch
    (done_ Lock yes ≫= fun _ =>
     work ← _prepare home executable a;
     act (MakeDir (home ++ "/replies")) ≫= fun _ =>
     h ← (mget : RM Home);
     said ← _agent home work (work_parts a) (match told h with Some _ => "" | None => reply end);
     put SaidFile said ≫= fun _ => mret said)
    (fun e =>
       match e with
       | Runtime _ => (if attempt <? RETRIES then (mcall svc (Sleep (pause attempt)) : RM unit) else mret tt) ≫= fun _ => raise e
       | _ => raise e
       end).
End Runner.
