(* ===== verification/AnSafe.v ===== *)
(** What a run of the agentic analysis promises: a person's reply reaches the agent once,
    over any number of attempts ([AnRun.advance]). *)
From S2P Require Import Prelude PyJson PyText PyValue AnConfig AnTurn AnRun.
Open Scope Z_scope.

(** ** The reply *)

(** Whether the reply is still to be told, was given in the last turn, which then must note it
    or need not, or is noted. *)
Inductive Note := Open | Given (must : bool) | Noted.
#[export] Instance Note_eq_dec : EqDecision Note.
Proof. solve_decision. Defined.
(** What the events show: the reply's state, whether there is a session, and whether the next
    turn is the first of its attempt. *)
Record Track := mkTrack { t_note : Note; t_sess : bool; t_first : bool }.
#[export] Instance eta_track : Eta Track := {| eta_of := fun t => mkTrack (t_note t) (t_sess t) (t_first t) |}.
Definition is_some {A} (o : option A) : bool := match o with Some _ => true | None => false end.
Definition left_ (w : Wrote) : bool := match w with Nothing => false | _ => true end.

Section Reply.
Context (svc : service Req Ans) (environ : list (string * string)) (dumps : json -> string) (uuid5 : string -> string) (home_dir executable run_name : string) (a : Analysis) (workspace reply : string).
(** OpenCode's first event names its session, so it holds the prompt. *)
Fixpoint names_session (lines : list (option json)) : bool :=
  match lines with
  | [] => false
  | Some (JObj o) :: _ => match jget "sessionID" (JObj o) with JStr s => negb (String.eqb s "") | _ => false end
  | _ :: lines => names_session lines
  end.
(** A turn is to have the reply: the first of an attempt, while it is not noted. *)
Definition due (q : Track) : bool := t_first q && negb (bool_decide (t_note q = Noted)) && negb (String.eqb reply "").
(** On a session that there is, a turn has the reply just if it is due; a new one has the
    analysis's own prompt. *)
Definition prompt_ok (q : Track) (prompt : string) : bool :=
  if t_sess q then String.eqb prompt (if due q then REPLY reply else INTERRUPTED) else startswith UNATTENDED prompt.
(** Between a turn that names its session and the note of the reply it was given, nothing but
    the session's file is written; a note that cannot be made leaves the reply to be told. *)
Definition may (q : Track) (e : Ev) : option Track :=
  match e with
  | existT (Put SessionFile _) w =>
      Some (q <| t_sess := t_sess q || left_ w |>
              <| t_note := match t_note q, w with Given true, Whole => Given true | Given _, _ => Given false | n, _ => n end |>)
  | existT (Put ToldFile text) w =>
      match t_note q with
      | Given _ => if String.eqb text reply then Some (q <| t_note := if left_ w then Noted else Given false |>) else None
      | _ => None
      end
  | existT r answer =>
      if decide (t_note q = Given true) then None else
      match r return Ans r -> option Track with
      | Lock => fun _ => Some (q <| t_first := true |>)
      | OpenCode _ prompt _ => fun ran =>
          if prompt_ok q prompt
          then Some (mkTrack (if due q then Given (names_session (ran_lines ran)) else match t_note q with Given _ => Open | n => n end) (t_sess q) false)
          else None
      | _ => fun _ => Some q
      end answer
  end.
(** What the files say at the end of an attempt, and before one. *)
Definition agrees (q : Track) (h : Home) : Prop :=
  (t_note q = Noted <-> is_Some (told h)) /\ t_sess q = is_some (session h) /\ t_note q <> Given true.

(** *** What has no part in it *)

Definition same (q : Track) (h : Home) (q' : Track) (h' : Home) : Prop := q' = q /\ told h' = told h /\ session h' = session h.
Notation quiet c := (forall q h, t_note q <> Given true -> beside may q h c (fun _ => same q h)).
Lemma call_quiet r : (forall c p e, r <> OpenCode c p e) -> r <> Lock -> (forall t, r <> Put SessionFile t) -> (forall t, r <> Put ToldFile t) ->
  quiet (mcall svc r : RM (Ans r)).
Proof.
  intros H1 H2 H3 H4 q h Hq. apply (beside_call may q h svc r). intros b. exists q. split; [|done].
  destruct r as [| | | | | | | | | |c p e| | | |[] t]; cbn [may]; try (by rewrite decide_False by done);
    [by destruct (H1 c p e)|by destruct (H3 t)|by destruct (H4 t)].
Qed.
Lemma bind_quiet {A B} (c : RM A) (f : A -> RM B) : quiet c -> (forall x, quiet (f x)) -> quiet (c ≫= f).
Proof.
  intros Hc Hf q h H. apply beside_bind. eapply beside_mono; [by apply Hc|]. intros [x|e] q' h' (-> & Ht & Hs); [|done].
  eapply beside_mono; [by apply Hf|]. intros r q2 h2 (-> & Ht2 & Hs2). unfold same. by rewrite Ht2, Hs2.
Qed.
Lemma ret_quiet {A} (x : A) : quiet (mret x : RM A).
Proof. intros q h H. by apply beside_ret. Qed.
Lemma raise_quiet {A} e : quiet (raise e : RM A).
Proof. intros q h H. by apply beside_raise. Qed.
Lemma lift_quiet {A} (r : res Exc A) : quiet (lift r).
Proof. intros q h H. by apply beside_lift. Qed.
Lemma get_quiet : quiet (mget : RM Home).
Proof. intros q h H. by apply beside_get. Qed.
Lemma for_quiet {A} (l : list A) (f : A -> RM unit) : (forall x, quiet (f x)) -> quiet (mfor l f).
Proof. intros Hf. induction l as [|x l IH]; cbn [mfor]; [apply ret_quiet|]. apply bind_quiet; [apply Hf|intros _; apply IH]. Qed.
Ltac quiet_call := apply call_quiet; by intros.
Lemma done_quiet r ok : (forall c p e, r <> OpenCode c p e) -> r <> Lock -> (forall t, r <> Put SessionFile t) -> (forall t, r <> Put ToldFile t) ->
  quiet (done_ svc r ok).
Proof. intros H1 H2 H3 H4. unfold done_. apply bind_quiet; [by apply call_quiet|]. intros b. destruct (ok b); [apply ret_quiet|apply raise_quiet]. Qed.
Lemma act_quiet x : quiet (act svc x).
Proof. apply done_quiet; by intros. Qed.
Lemma acts_quiet l : quiet (acts svc l).
Proof. apply for_quiet, act_quiet. Qed.
Lemma mod_quiet f : (forall h, told (f h) = told h /\ session (f h) = session h) -> quiet (mmod f : RM unit).
Proof. intros Hf q h H. apply beside_mod. split; [done|apply Hf]. Qed.
Lemma put_quiet file text : file = StagedFile \/ file = SaidFile -> quiet (put svc file text).
Proof.
  intros Hf. unfold put. apply bind_quiet; [apply call_quiet; destruct Hf as [-> | ->]; by intros|].
  intros []; [|apply raise_quiet|apply bind_quiet; [|intros _; apply raise_quiet]]; apply mod_quiet; intros h; by destruct Hf as [-> | ->].
Qed.
Lemma place_quiet spec work : quiet (place_data svc uuid5 spec work a).
Proof.
  unfold place_data, _data. destruct (String.eqb _ _); [apply ret_quiet|]. apply bind_quiet; [|intros dir; apply acts_quiet].
  apply bind_quiet; [quiet_call|]. intros known. destruct known; [apply ret_quiet|]. apply bind_quiet; [apply act_quiet|]. intros _.
  apply bind_quiet; [quiet_call|]. intros scratch. apply bind_quiet; [apply acts_quiet|]. intros _. apply ret_quiet.
Qed.
Lemma prepare_quiet home : quiet (_prepare svc uuid5 home executable a).
Proof.
  unfold _prepare. apply bind_quiet; [apply get_quiet|]. intros h. destruct (staged h); [apply ret_quiet|].
  apply bind_quiet; [apply acts_quiet|]. intros _. apply bind_quiet; [apply place_quiet|]. intros _. apply bind_quiet.
  { apply for_quiet. intros name. unfold copy_named. apply bind_quiet; [quiet_call|]. intros b. apply act_quiet. }
  intros _. apply bind_quiet; [apply acts_quiet|]. intros _. apply bind_quiet; [apply put_quiet; by left|intros _; apply ret_quiet].
Qed.
Lemma roles_quiet : quiet (_roles svc environ).
Proof.
  unfold _roles. apply bind_quiet; [apply lift_quiet|]. intros _. apply bind_quiet; [apply lift_quiet|]. intros _.
  apply bind_quiet; [quiet_call|]. intros [[[]|[code text]]|text]; try apply ret_quiet; try apply raise_quiet.
  destruct (_ || _); apply raise_quiet.
Qed.
Lemma quarantine_quiet work parts : quiet (_quarantine svc work parts).
Proof. unfold _quarantine. apply bind_quiet; [quiet_call|]. intros dir. apply for_quiet. intros x. apply done_quiet; by intros. Qed.

(** *** What a turn's lines do *)

(** Before lines: the reply is still to be noted, as it must be where they name a session;
    or there is none to note. *)
Definition before (taken : option string) (lines : list (option json)) (q : Track) (h : Home) : Prop :=
  match taken with
  | Some r => r = reply /\ told h = None /\ t_sess q = is_some (session h) /\
      exists must, t_note q = Given must /\ (must = true -> names_session lines = true)
  | None => agrees q h
  end.
Lemma put_session id q h : session h = None -> forall taken lines, before taken lines q h ->
  beside may q h (put svc SessionFile id) (fun r q' h' => t_first q' = t_first q /\
    match r with Ok _ => before taken lines q' h' /\ is_Some (session h') | Err _ => agrees q' h' end).
Proof.
  intros Hs taken lines Hb. unfold put. apply beside_bind, (beside_call may q h svc (Put SessionFile id)). intros w. eexists. split; [reflexivity|].
  assert (Hag : t_note q <> Given true -> agrees q h \/ exists r, taken = Some r) by (destruct taken; [by right; eexists|by left]).
  destruct w; [apply beside_mod|apply beside_raise|apply beside_bind, beside_mod, beside_raise]; split; try done; unfold before, agrees in *;
    cbn [told session hold t_note t_sess set_field left_]; destruct taken as [r|].
  - destruct Hb as (-> & Ht & Hss & must & Hn & Hm). split; [|by eexists]. split; [done|]. split; [done|]. split; [by rewrite orb_true_r|].
    exists must. rewrite Hn. by destruct must.
  - destruct Hb as (H1 & H2 & H3). split; [|by eexists]. split; [|split; [by rewrite orb_true_r|]].
    + rewrite <- H1. by destruct (t_note q) as [|[]|].
    + by destruct (t_note q) as [|[]|].
  - destruct Hb as (-> & Ht & Hss & must & Hn & Hm). rewrite Hn, Ht, Hss, Hs. split; [|split; [done|by destruct must]].
    split; [by destruct must|by intros [? [=]]].
  - destruct Hb as (H1 & H2 & H3). split; [|split; [by rewrite orb_false_r|]].
    + rewrite <- H1. by destruct (t_note q) as [|[]|].
    + by destruct (t_note q) as [|[]|].
  - destruct Hb as (-> & Ht & Hss & must & Hn & Hm). rewrite Hn, Ht. split; [|split; [by rewrite orb_true_r|by destruct must]].
    split; [by destruct must|by intros [? [=]]].
  - destruct Hb as (H1 & H2 & H3). split; [|split; [by rewrite orb_true_r|]].
    + rewrite <- H1. by destruct (t_note q) as [|[]|].
    + by destruct (t_note q) as [|[]|].
Qed.
Lemma put_told lines q h : before (Some reply) lines q h ->
  beside may q h (put svc ToldFile reply) (fun r q' h' => t_first q' = t_first q /\ agrees q' h').
Proof.
  intros (_ & Ht & Hss & must & Hn & Hm). unfold put. apply beside_bind, (beside_call may q h svc (Put ToldFile reply)). intros w.
  eexists. split; [cbn [may]; by rewrite Hn, String.eqb_refl|].
  destruct w; [apply beside_mod|apply beside_raise|apply beside_bind, beside_mod, beside_raise]; split; try done; unfold agrees;
    cbn [told session hold t_note t_sess set_field left_].
  - rewrite Ht. split; [split; [done|by intros [? [=]]]|done].
Qed.
Lemma session_taken taken id lines q h : before taken lines q h ->
  beside may q h (take_session svc taken id) (fun r q' h' => t_first q' = t_first q /\ agrees q' h' /\ (forall t, r = Ok t -> t = None)).
Proof.
  intros Hb. unfold take_session. apply beside_bind, beside_get. apply beside_bind.
  apply (beside_mono may q h _ (fun r q' h' => t_first q' = t_first q /\ match r with Ok _ => before taken lines q' h' | Err _ => agrees q' h' end)).
  { destruct (session h) as [s|] eqn:Es; [by apply beside_ret|]. eapply beside_mono; [by eapply put_session|].
    intros [[]|e] q' h' [Hf H]; split; try done. by destruct H. }
  intros [[]|e] q1 h1 [Hf1 H1]; [|done]. destruct taken as [r|].
  - destruct H1 as (-> & H1). apply beside_bind. eapply beside_mono; [eapply put_told; by split|]. intros [[]|e] q2 h2 [Hf2 H2].
    + apply beside_ret. split; [congruence|]. split; [done|]. by intros t [= <-].
    + split; [congruence|]. done.
  - apply beside_ret. split; [done|]. split; [done|]. by intros t [= <-].
Qed.
Lemma before_agrees taken lines q h : before taken lines q h -> names_session lines = false -> agrees q h.
Proof.
  destruct taken as [r|]; [|done]. intros (-> & Ht & Hss & must & Hn & Hm) Hno. unfold agrees. rewrite Hn, Ht.
  assert (must = false) as -> by (destruct must; [|done]; specialize (Hm eq_refl); congruence).
  split; [split; [done|by intros [? [=]]]|done].
Qed.
Notation noted_after q0 taken_of lines := (fun r q' h' => t_first q' = t_first q0 /\ match r with Ok x => before (taken_of x) lines q' h' | Err _ => agrees q' h' end).
Lemma rest_noted taken t event lines q h : agrees q h -> before taken lines q h ->
  beside may q h (part ← lift (must (dict_in "part" event)); t ← lift (must (step_event event part t)); lift (must (_narrate dumps event)) ≫= fun _ => mret (taken, t) : RM (option string * Turn))
    (noted_after q fst lines).
Proof.
  intros Ha Hb. apply beside_bind, beside_lift. destruct (AnConfig.must _) as [part|]; [|by split].
  apply beside_bind, beside_lift. destruct (AnConfig.must _) as [t''|]; [|by split]. apply beside_bind, beside_lift.
  destruct (AnConfig.must _); [by apply beside_ret|by split].
Qed.
Lemma unnamed_before taken l lines q h : names_session (l :: lines) = false -> before taken (l :: lines) q h -> before taken lines q h.
Proof.
  intros Hn. destruct taken as [r|]; [|done]. intros (-> & Ht & Hss & must & Hno & Hm). split; [done|]. split; [done|]. split; [done|].
  exists must. split; [done|]. intros ->. specialize (Hm eq_refl). congruence.
Qed.
Lemma line_noted taken t l lines q h : before taken (l :: lines) q h ->
  beside may q h (line_step svc dumps taken t l) (noted_after q fst lines).
Proof.
  intros Hb. assert (Hskip : names_session (l :: lines) = names_session lines -> before taken lines q h).
  { intros E. destruct taken; [|done]. cbn [before] in *. by rewrite E in Hb. }
  unfold line_step. destruct l as [[| | | | | |o]|]; try (apply beside_ret; split; [done|by apply Hskip]). clear Hskip. cbv zeta.
  assert (Hno : names_session (Some (JObj o) :: lines) = false -> agrees q h /\ before taken lines q h).
  { intros E. split; [by eapply before_agrees|by eapply unnamed_before]. }
  apply beside_bind. destruct (truthy (jget "sessionID" (JObj o))) eqn:Et.
  - cbn [names_session] in Hno. destruct (jget "sessionID" (JObj o)) as [| | | |s| |];
      try (apply beside_raise; split; [done|by apply Hno]).
    apply beside_bind. eapply beside_mono; [by eapply session_taken|]. intros [t'|e] q' h' (Hf & Ha & Hn); [|by split].
    rewrite (Hn t' eq_refl). apply beside_ret. rewrite <- Hf. by apply rest_noted.
  - assert (names_session (Some (JObj o) :: lines) = false) as Hn.
    { cbn [names_session]. destruct (jget "sessionID" (JObj o)); done. }
    destruct (Hno Hn) as [Ha Hb']. apply beside_ret. by apply rest_noted.
Qed.
Lemma lines_noted taken t lines q h : before taken lines q h ->
  beside may q h (lines_step svc dumps taken t lines) (fun _ q' h' => t_first q' = t_first q /\ agrees q' h').
Proof.
  revert taken t q h. induction lines as [|l lines IH]; intros taken t q h Hb; cbn [lines_step].
  { apply beside_ret. split; [done|]. by eapply before_agrees. }
  apply beside_bind. eapply beside_mono; [by apply line_noted|]. intros [[taken' t']|e] q' h' [Hf H]; [|done].
  rewrite <- Hf. by apply IH.
Qed.

(** *** Turns *)

Lemma turn_prompt work h md q : t_sess q = is_some (session h) ->
  prompt_ok q (_turn work (session h) md (if due q then reply else "")).2 = true.
Proof.
  intros Hs. unfold prompt_ok. rewrite Hs. destruct (session h) as [id|]; cbn [is_some _turn snd].
  - destruct (due q) eqn:E; [|by rewrite String.eqb_refl].
    unfold due in E. destruct (String.eqb reply ""); [by rewrite !andb_false_r in E|]. by rewrite String.eqb_refl.
  - apply startswith_app.
Qed.
Lemma given_before q h lines : agrees q h ->
  before (if String.eqb (if due q then reply else "") "" then None else Some (if due q then reply else ""))%string lines
    (mkTrack (if due q then Given (names_session lines) else match t_note q with Given _ => Open | n => n end) (t_sess q) false) h.
Proof.
  intros (Hn & Hs & Hg). destruct (due q) eqn:E.
  - unfold due in E. destruct (String.eqb reply ""); [by rewrite andb_false_r in E|]. split; [done|].
    case_bool_decide as Hd; [by rewrite andb_false_r in E|]. split; [|split; [done|by eexists]].
    destruct (told h) as [x|]; [|done]. destruct Hd. apply Hn. by eexists.
  - cbn [String.eqb before]. split; [|split; [done|]]; cbn [t_note]; [rewrite <- Hn|]; by destruct (t_note q) as [|[]|].
Qed.
Definition turned {A} (r : res Exc A) (q : Track) (h : Home) : Prop := agrees q h /\ (forall x, r = Ok x -> t_first q = false).
Lemma turn_noted home work parts roles q h : agrees q h ->
  beside may q h (one_turn svc environ dumps home_dir home work parts roles (if due q then reply else "")%string) turned.
Proof.
  intros Ha. assert (Hq : t_note q <> Given true) by apply Ha. assert (Herr : forall A e q' h', same q h q' h' -> turned (Err e : res Exc A) q' h').
  { intros A e q' h' (-> & Ht & Hs). split; [|by intros x [=]]. unfold agrees. by rewrite Ht, Hs. }
  assert (Hsame : forall q' h', same q h q' h' -> agrees q' h') by (intros q' h' (-> & Ht & Hs); unfold agrees; by rewrite Ht, Hs).
  unfold one_turn. apply beside_bind. eapply beside_mono; [by apply quarantine_quiet|]. intros [[]|e] q1 h1 H1; [|by apply Herr].
  apply beside_bind, beside_get. destruct H1 as (-> & Ht1 & Hs1). apply beside_bind.
  apply (beside_mono may q h1 _ (fun _ => same q h)).
  { assert (H1 : same q h q h1) by done. destruct (session h1) eqn:E; [by apply beside_ret|]. apply beside_bind, (beside_call may q h1 svc (ReadText _)). intros md.
    exists q. split; [cbn [may]; by rewrite decide_False|]. apply beside_lift. by destruct (must md). }
  intros [md|e] q2 h2 H2; [|by apply Herr].
  pose proof (turn_prompt work h1 md q) as Hp. rewrite Hs1 in Hp. specialize (Hp (proj1 (proj2 Ha))).
  rewrite Hs1. destruct (_turn work (session h) md _) as [command prompt]. cbn [snd] in Hp.
  destruct H2 as (-> & Ht2 & Hs2). apply beside_bind, (beside_call may q h2 svc TempDir). intros local. exists q. split; [cbn [may]; by rewrite decide_False|].
  apply beside_bind. eapply beside_mono; [apply done_quiet; by intros|].
  intros [[]|e] q3 h3 (-> & Ht3 & Hs3); [|apply Herr; split; [done|split; congruence]].
  assert (H3 : same q h q h3) by (split; [done|split; congruence]).
  apply beside_bind, beside_lift. destruct (turn_env _ _ _ _ _ _ _) as [env|]; [|by apply Herr].
  unfold _opencode. apply beside_bind, (beside_call may q h3 svc (OpenCode command prompt env)). intros ran. eexists.
  split; [cbn [may]; rewrite decide_False by done; by rewrite Hp|].
  apply beside_bind. eapply beside_mono; [by apply lines_noted, given_before, Hsame|].
  intros [t|e] q4 h4 [Hf H4]; [|split; [done|by intros x [=]]]. by apply beside_lift.
Qed.
Lemma turns_noted n home work parts roles kept q h : agrees q h ->
  beside may q h (turns svc environ dumps home_dir n home work parts roles (if due q then reply else "")%string kept) (fun _ => agrees).
Proof.
  revert kept q h. induction n as [|n IH]; intros kept q h Ha; cbn [turns]; [by apply beside_raise|].
  apply beside_bind. eapply beside_mono; [by apply turn_noted|]. intros [[[replies_ said_] finish_]|e] q' h' [Ha' Hf]; [|done].
  specialize (Hf _ eq_refl). destruct (jeq_str _ _); [|by apply beside_ret].
  specialize (IH (kept ++ replies_)%list q' h' Ha'). unfold due in IH. by rewrite Hf in IH.
Qed.
Lemma quiet_agrees {A} (c : RM A) q h : quiet c -> agrees q h -> beside may q h c (fun _ => agrees).
Proof.
  intros Hc Ha. eapply beside_mono; [apply Hc, Ha|]. intros r q' h' (-> & Ht & Hs). unfold agrees in *. by rewrite Ht, Hs.
Qed.
Lemma agent_noted home work parts q h : agrees q h -> t_first q = true ->
  beside may q h (_agent svc environ dumps home_dir home work parts (match told h with Some _ => "" | None => reply end)%string) (fun _ => agrees).
Proof.
  intros Ha Hf. assert (Hr : (match told h with Some _ => "" | None => reply end)%string = if due q then reply else ""%string).
  { unfold due. rewrite Hf. destruct Ha as (Hn & _). case_bool_decide as Hd.
    - by destruct (proj1 Hn Hd) as [x ->].
    - destruct (told h) as [x|]; [destruct Hd; apply Hn; by eexists|]. by destruct (String.eqb_spec reply ""). }
  rewrite Hr. unfold _agent. apply beside_bind. eapply beside_mono; [apply act_quiet, Ha|].
  intros [[]|e] q1 h1 (-> & Ht1 & Hs1); [|unfold agrees in *; by rewrite Ht1, Hs1].
  apply beside_bind. eapply beside_mono; [apply roles_quiet, Ha|].
  intros [roles|e] q2 h2 (-> & Ht2 & Hs2); [|unfold agrees in *; by rewrite Ht2, Ht1, Hs2, Hs1].
  apply turns_noted. unfold agrees in *. by rewrite Ht2, Ht1, Hs2, Hs1.
Qed.
Lemma locked_noted home q h : agrees q h ->
  beside may q h (done_ svc Lock yes ≫= fun _ =>
     work ← _prepare svc uuid5 home executable a;
     act svc (MakeDir (home ++ "/replies")%string) ≫= fun _ =>
     h ← (mget : RM Home);
     said ← _agent svc environ dumps home_dir home work (work_parts a) (match told h with Some _ => "" | None => reply end)%string;
     put svc SaidFile said ≫= fun _ => mret said) (fun _ => agrees).
Proof.
  intros Ha. unfold done_. apply beside_bind, beside_bind, (beside_call may q h svc Lock). intros b. exists (mkTrack (t_note q) (t_sess q) true).
  split; [cbn [may]; rewrite decide_False by apply Ha; reflexivity|]. set (q0 := mkTrack (t_note q) (t_sess q) true). assert (Ha0 : agrees q0 h) by exact Ha.
  destruct (yes b); [apply beside_ret|by apply beside_raise]. apply beside_bind. eapply beside_mono; [apply prepare_quiet, Ha0|].
  intros [work|e] q1 h1 (-> & Ht1 & Hs1); [|unfold agrees in *; by rewrite Ht1, Hs1].
  apply beside_bind. eapply beside_mono; [apply act_quiet, Ha0|]. intros [[]|e] q2 h2 (-> & Ht2 & Hs2).
  2: unfold agrees in *; by rewrite Ht2, Ht1, Hs2, Hs1.
  assert (Ha2 : agrees q0 h2) by (unfold agrees in *; by rewrite Ht2, Ht1, Hs2, Hs1).
  apply beside_bind, beside_get, beside_bind. eapply beside_mono; [by apply agent_noted|]. intros [said_|e] q3 h3 H3; [|done].
  apply beside_bind. eapply beside_mono; [apply quiet_agrees; [apply put_quiet; by right|exact H3]|].
  intros [[]|e] q4 h4 H4; [by apply beside_ret|done].
Qed.
Lemma attempt_noted attempt q h : agrees q h ->
  beside may q h (advance svc environ dumps uuid5 home_dir executable run_name attempt a workspace reply) (fun _ => agrees).
Proof.
  intros Ha. unfold advance. destruct (negb _); [by apply beside_raise|]. apply beside_bind.
  eapply beside_mono; [apply quiet_agrees; [quiet_call|exact Ha]|]. intros [token|e] q1 h1 H1; [|done].
  destruct (negb _); [by apply beside_raise|]. cbv zeta. apply beside_bind.
  eapply beside_mono; [apply quiet_agrees; [|exact H1]; destruct (String.eqb _ _); [apply ret_quiet|quiet_call]|].
  intros [known|e] q2 h2 H2; [|done]. destruct (negb _); [by apply beside_raise|]. apply beside_bind.
  eapply beside_mono; [apply quiet_agrees; [apply done_quiet; by intros|exact H2]|]. intros [[]|e] q3 h3 H3; [|done].
  apply beside_catch. eapply beside_mono; [by apply locked_noted|]. intros [text|[]] q4 h4 H4; [done|by apply beside_raise| |by apply beside_raise].
  apply beside_bind. eapply beside_mono; [apply quiet_agrees; [|exact H4]; destruct (_ <? _); [quiet_call|apply ret_quiet]|].
  intros [[]|e] q5 h5 H5; [by apply beside_raise|done].
Qed.

(** *** Theorem *)

(** A run's attempts, as the backend starts them, each on what the one before it left,
    however that ended. *)
Fixpoint attempts (l : list Z) : RM unit :=
  match l with
  | [] => mret tt
  | attempt :: l =>
      mcatch (advance svc environ dumps uuid5 home_dir executable run_name attempt a workspace reply ≫= fun _ => mret tt) (fun _ => mret tt) ≫= fun _ => attempts l
  end.
(** C20: A person's reply reaches the agent of a workspace that has a session once it is noted
    just once, over any number of attempts of the run, whatever fails between: the first turn
    of an attempt is given it as long as it is not noted, and no other turn is; it is noted as
    soon as OpenCode has named its session, with nothing done between but the session's file
    written, unless that or the note cannot be written; and from then on no turn is given it.
    A turn of a workspace without a session is given the analysis's own prompt. *)
Theorem reply_told_once l h :
  beside may (mkTrack (if told h then Noted else Open) (is_some (session h)) false) h (attempts l) (fun _ => agrees).
Proof.
  assert (H : agrees (mkTrack (if told h then Noted else Open) (is_some (session h)) false) h).
  { unfold agrees. cbn [t_note t_sess]. destruct (told h); split; try done; split; try done; by intros [? [=]]. }
  revert H. generalize (mkTrack (if told h then Noted else Open) (is_some (session h)) false) as q. revert h.
  induction l as [|n l IH]; intros h q H; cbn [attempts]; [by apply beside_ret|].
  apply beside_bind, beside_catch, beside_bind. eapply beside_mono; [by apply attempt_noted|]. intros [text|e] q' s' H'; apply beside_ret; by apply IH.
Qed.
End Reply.
