(* ===== verification/AnCalls.v ===== *)
(** The agentic analysis' runner and the LLM proxy together: what the runner makes of the
    roles that the proxy serves ([LlmProxy.config_view]); and runs of it that its code means
    not to have. *)
From S2P Require Import Prelude PyJson PyText PyValue LlmConfig LlmProxy AnConfig AnTurn AnRun AnSafe.
Open Scope Z_scope.

Notation Uncaught := AnConfig.Uncaught.
(** ** The proxy's roles as OpenCode's models *)

Definition served (c : LlmConfig.Config) : Roles := jitems (config_view c).
Definition shown_role (c : LlmConfig.Config) (nr : string * Role) : string * json :=
  (nr.1, JObj [("context", JInt (r_context nr.2)); ("compact_at", JInt (compact_at nr.2)); ("images", JInt (r_images nr.2));
    ("max_body_bytes", JInt (max_body_bytes (settings c))); ("backends", JArr (map (fun b => JStr (Backend_str b)) (backends nr.2)))])%string.
Lemma served_roles c : served c = map (shown_role c) (roles c).
Proof. unfold served, config_view. cbn [jitems]. apply map_ext. by intros [name r]. Qed.
Lemma served_keys c name : dhas name (served c) = dhas name (roles c).
Proof.
  rewrite served_roles. unfold dhas. induction (roles c) as [|[n r] l IH]; [done|]. cbn [map shown_role dget fst snd]. by case_decide.
Qed.
(** OpenCode's model of a role: it compacts at its context less its output's limit. *)
Definition opencode_model (nr : string * Role) : string * json :=
  (nr.1, JObj [("name", JStr nr.1); ("tool_call", JBool true);
    ("modalities", JObj [("input", JArr (JStr "text" :: if negb (r_images nr.2 =? 0)%Z then [JStr "image"] else [])); ("output", JArr [JStr "text"])]);
    ("limit", JObj [("context", JInt (r_context nr.2)); ("output", JInt (r_context nr.2 - compact_at nr.2)%Z)])])%string.
Definition compacts_ok (r : Role) : Prop := 0 <= r_context r - compact_at r <= OUTPUT_MAX.
Lemma shown_context c nr : role_int "context" (shown_role c nr).2 = Ok (r_context nr.2). Proof. reflexivity. Qed.
Lemma shown_compact c nr : role_int "compact_at" (shown_role c nr).2 = Ok (compact_at nr.2). Proof. reflexivity. Qed.
Lemma shown_images c nr : item_of "images" (shown_role c nr).2 = Some (JInt (r_images nr.2)). Proof. reflexivity. Qed.
Lemma check_shown c name r : match check_role name (shown_role c (name, r)).2 with
  | Ok _ => compacts_ok r | Err (NonRecoverable _) => ~ compacts_ok r | Err _ => False end.
Proof.
  unfold check_role. rewrite shown_context, shown_compact. cbn [mbind res_bind snd]. unfold compacts_ok.
  destruct (Z.leb_spec 0 (r_context r - compact_at r)), (Z.leb_spec (r_context r - compact_at r) OUTPUT_MAX); cbn [andb]; lia.
Qed.
Lemma checked_roles c l : match rmap (fun nr => check_role nr.1 nr.2) (map (shown_role c) l) with
  | Ok _ => Forall (fun nr => compacts_ok nr.2) l
  | Err (NonRecoverable _) => Exists (fun nr => ~ compacts_ok nr.2) l
  | Err _ => False
  end.
Proof.
  induction l as [|[name r] l IH]; [constructor|]. cbn [map rmap]. change (shown_role c (name, r)).1 with name. pose proof (check_shown c name r) as H.
  destruct (check_role name _) as [u|[]]; cbn [mbind res_bind]; [|by left|done|done].
  destruct (rmap _ _) as [us|[]]; cbn [mbind res_bind]; [by constructor|by right|done|done].
Qed.
Lemma model_shown c nr : model_of (shown_role c nr).1 (shown_role c nr).2 = Ok (opencode_model nr).
Proof.
  unfold model_of. rewrite shown_context, shown_compact, shown_images. reflexivity.
Qed.
Lemma models_made c l : rmap (fun nr => model_of nr.1 nr.2) (map (shown_role c) l) = Ok (map opencode_model l).
Proof. induction l as [|nr l IH]; [done|]. cbn [map rmap]. rewrite model_shown. cbn [mbind res_bind]. by rewrite IH. Qed.
Lemma missing_none rs : missing_roles rs = [] <-> forall r, r ∈ wanted_roles -> dhas r rs = true.
Proof.
  unfold missing_roles. split.
  - intros H r Hr. destruct (dhas r rs) eqn:E; [done|]. exfalso. assert (Hin : r ∈ str_sorted (remove_dups (List.filter (fun r => negb (dhas r rs)) wanted_roles))).
    { rewrite str_sorted_perm, elem_of_remove_dups, list_elem_of_In, filter_In, <- list_elem_of_In. by rewrite E. }
    rewrite H in Hin. by apply elem_of_nil in Hin.
  - intros H. destruct (str_sorted _) as [|r l] eqn:E; [done|]. exfalso. assert (Hin : r ∈ str_sorted (remove_dups (List.filter (fun r => negb (dhas r rs)) wanted_roles))) by (rewrite E; left).
    rewrite str_sorted_perm, elem_of_remove_dups, list_elem_of_In, filter_In, <- list_elem_of_In in Hin. destruct Hin as [Hr Hn]. by rewrite H in Hn.
Qed.
Definition models_in (j : json) : json := jget "models" (jget "af" (jget "provider" j)).

(** *** Theorem *)

(** Where OpenCode compacts a model's session, by the code's comment on [OUTPUT_MAX]: its
    output's limit below its context, or [OUTPUT_MAX] for a limit of 0. *)
Definition limit_of (key : string) (model : json) : Z := match jget key (jget "limit" model) with JInt n => n | _ => 0 end.
Definition compacts_at (model : json) : Z :=
  limit_of "context" model - (if limit_of "output" model =? 0 then OUTPUT_MAX else limit_of "output" model).
Lemma compacts_meant nr : compact_at nr.2 <> r_context nr.2 -> compacts_at (opencode_model nr).2 = compact_at nr.2.
Proof.
  intros Hne. change (compacts_at (opencode_model nr).2) with
    (r_context nr.2 - (if r_context nr.2 - compact_at nr.2 =? 0 then OUTPUT_MAX else r_context nr.2 - compact_at nr.2)).
  destruct (Z.eqb_spec (r_context nr.2 - compact_at nr.2) 0); lia.
Qed.
(** A role that compacts at its whole context is taken, and compacted [OUTPUT_MAX] before. *)
Lemma whole_context_compacts_early nr : compact_at nr.2 = r_context nr.2 ->
  compacts_ok nr.2 /\ compacts_at (opencode_model nr).2 = compact_at nr.2 - OUTPUT_MAX.
Proof.
  intros He. split; [unfold compacts_ok, OUTPUT_MAX; lia|]. change (compacts_at (opencode_model nr).2) with
    (r_context nr.2 - (if r_context nr.2 - compact_at nr.2 =? 0 then OUTPUT_MAX else r_context nr.2 - compact_at nr.2)).
  by rewrite He, Z.sub_diag.
Qed.

(** C21: Given the roles that the proxy serves, [_config] makes a configuration just if each role
    that it needs is among them and each compacts within [OUTPUT_MAX] of its context; then
    there is a model of each role, which takes images just if the role does and which OpenCode
    compacts where the proxy means it to, but for a role that compacts at its whole context;
    else it raises the error that ends the run for good. *)
Theorem roles_understood c environ proxy facility work : dget PROXY environ = Some proxy ->
  match _config environ (served c) facility work with
  | Ok j => (forall r, r ∈ wanted_roles -> dhas r (roles c) = true) /\ Forall (fun nr => compacts_ok nr.2) (roles c) /\
      models_in j = JObj (map opencode_model (roles c)) /\
      (forall nr, nr ∈ roles c -> compact_at nr.2 <> r_context nr.2 -> compacts_at (opencode_model nr).2 = compact_at nr.2)
  | Err (NonRecoverable _) => (exists r, r ∈ wanted_roles /\ dhas r (roles c) = false) \/ Exists (fun nr => ~ compacts_ok nr.2) (roles c)
  | Err _ => False
  end.
Proof.
  intros Hp. unfold _config. destruct (missing_roles (served c)) as [|missing l] eqn:E.
  - pose proof (proj1 (missing_none _) E) as Hw. setoid_rewrite served_keys in Hw. rewrite served_roles. pose proof (checked_roles c (roles c)) as Hc.
    destruct (rmap (fun nr => check_role nr.1 nr.2) _) as [us|[m|m|]]; cbn [mbind res_bind]; [|by right|done|done].
    rewrite models_made. cbn [mbind res_bind]. rewrite Hp. cbn [AnConfig.must mbind res_bind].
    do 3 (split; [done|]). intros nr _. apply compacts_meant.
  - left. destruct (decide (Exists (fun r => dhas r (roles c) = false) wanted_roles)) as [H|H]; [by apply Exists_exists in H|].
    exfalso. assert (missing_roles (served c) = []) as E'; [|congruence]. apply missing_none. intros r Hr. rewrite served_keys.
    destruct (dhas r (roles c)) eqn:Er; [done|]. exfalso. apply H, Exists_exists. by exists r.
Qed.

(** ** Runs that are not meant *)

(** A configuration with a role of each name but one. *)
Definition small (name : string) : string * Role := (name, mkRole name [] 100000 90000 0 0).
Definition all_but (left_out : string) : LlmConfig.Config :=
  mkConfig (mkSettings "" 0 1000000 4 0 0 0 0 0 0 0 0 0 0) [] (map small (List.filter (fun r => negb (String.eqb r left_out)) (remove_dups wanted_roles))).
Definition env1 : list (string * string) := [(PROXY, "http://p"); (TOKEN, "t"); (TOKEN_FILE, "f")]%string.
Lemma roles_understood_witness :
  match _config env1 (served (all_but "")) "f" "w" with
  | Ok j => models_in j = JObj (map opencode_model (roles (all_but "")))
  | Err _ => False
  end.
Proof.
  pose proof (roles_understood (all_but "") env1 "http://p" "f" "w" eq_refl) as H.
  destruct (_config env1 (served (all_but "")) "f" "w") as [j|[m|m|]] eqn:E; [by apply H| |exact H|exact H].
  exfalso. vm_compute in E. discriminate E.
Defined.
(** The check of the roles is after what needs them: without a role of an agent the run
    fails with a [KeyError] and is tried again, though it is meant to end for good. *)
Lemma missing_role_retried :
  (exists m, _config env1 (served (all_but "arbiter")) "f" "w" = Err (NonRecoverable m)) /\
  turn_env env1 (fun _ => ""%string) "h" (served (all_but "arbiter")) "l" "w" "h" = Err Uncaught.
Proof. split; [eexists|]; vm_compute; reflexivity. Qed.
(** A world in which all goes well, and OpenCode's first event names its session. *)
Definition fine : service Req Ans := fun h r =>
  match r return Ans r with
  | Do _ | Aside _ | WriteSetup _ | MakeHome | Lock | Exists_ _ | IsDir _ | IsFile _ => true
  | ReadText _ => Some "analyse"%string
  | AskRoles => inl (inl (config_view (all_but "")))
  | Walk _ => mkDir [] []
  | TempDir => "/tmp/o"%string
  | OpenCode _ _ _ => mkRan [Some (JObj [("sessionID", JStr "s1"); ("type", JStr "text"); ("part", JObj [("text", JStr "done")])]%string)] true [] "" 0
  | Sleep _ => tt
  | Put _ _ => Whole
  end.
Definition prompts (h : list Ev) : list string := omap (fun e => match e with existT (OpenCode _ p _) _ => Some p | _ => None end) h.
Definition demo_analysis : Analysis := mkAnalysis "zpeak" "measurement" "" "" [] "" "" [("prompt.md", "analyse")]%string.
(** A reply to a workspace that has no session is noted as taken, though OpenCode is given
    the analysis' prompt without it. *)
Lemma reply_noted_unsaid :
  let '(r, h, events) := advance fine env1 (fun _ => ""%string) id "/root" "python" "run-2" 0 demo_analysis "ws" "use 2018 data" (mkHome None None false None) [] in
  r = Ok "done"%string /\ told h = Some "use 2018 data"%string /\ prompts events = [(UNATTENDED ++ "analyse")%string].
Proof. vm_compute. by split. Qed.
(** Two attempts of a run with a reply to a session. *)
Definition replied (svc : service Req Ans) : list string :=
  let '(_, _, events) := attempts svc env1 (fun _ => ""%string) id "/root" "python" "run-2" demo_analysis "ws" "use 2018 data" [0; 1] (mkHome (Some "s1"%string) None true None) [] in
  prompts events.
Definition unnoted : service Req Ans := fun h r =>
  match r return Ans r -> Ans r with Put ToldFile _ => fun _ => Nothing | _ => fun x => x end (fine h r).
Example reply_in_first_turn : replied fine = [REPLY "use 2018 data"; INTERRUPTED].
Proof. vm_compute. reflexivity. Qed.
(** Where the note cannot be written, the agent is given the reply again. *)
Lemma unnoted_reply_given_again : replied unnoted = [REPLY "use 2018 data"; REPLY "use 2018 data"].
Proof. vm_compute. reflexivity. Qed.
(** As many images as a role takes, each as large as it may be, can pass the proxy's cap on
    a body: a group of three bytes is rounded up to four characters. *)
Definition base64_length (n : Z) : Z := 4 * ((n + 2) / 3).
Lemma images_over_cap : exists role n, _image_bytes role = Ok n /\ 2 * base64_length n > 27 /\
  role = JObj [("images", JInt 2); ("max_body_bytes", JInt 27); ("context", JInt 0)]%string.
Proof. eexists _, _. split; [|split; [|reflexivity]]; [vm_compute; reflexivity|vm_compute; reflexivity]. Qed.
