(* ===== verification/AnHelp.v ===== *)
(** What an analysis' scripts call, [workflows/agentic-analysis/af_dask.py], [af_ray.py] and
    [af_profiling.py]: one Dask cluster that its scripts share, the headers of its Ray jobs,
    and how a process is profiled. *)
From S2P Require Import Prelude PyJson PyText PyValue PyFormat Sha256.
Open Scope Z_scope.

(** ** [af_profiling] *)

Definition environ : Type := list (string * string).
Definition command (env : environ) : list (string * string) :=
  omap (fun tn => value ← dget tn.2 env; Some (tn.1, value)) [("session", "AF_SESSION"); ("agent", "AF_AGENT"); ("call", "AF_CALL")]%string.
Definition basename (path : string) : string := after_last "/" path.
Definition _script (argv : list string) : string :=
  if bool_decide ("--multiprocessing-fork"%string ∈ argv) then "spawned"
  else match argv with first :: _ => if String.eqb (basename first) "" then "python" else basename first | [] => "python" end.
(** Of the lock file's bytes, if it can be read. *)
Definition _lock (lock : option string) : string := match lock with Some bytes => str_take 12 (sha256_hex bytes) | None => "unknown" end.
(** What Pyroscope is given: the application, the server, the tags. *)
Record Profiling := mkProfiling { application_name : string; server_address : string; tags : list (string * string) }.
(** [start]: whether it has been called with a server, and what it asks Pyroscope for, which
    may fail. *)
Definition start (env : environ) (argv : list string) (lock : option string) (started : bool) : bool * option Profiling :=
  let server := dget_or "PYROSCOPE_SERVER" ""%string env in
  if started || String.eqb server "" then (started, None)
  else
    (true, Some (mkProfiling (dget_or "PYROSCOPE_APP" "agentic-analysis"%string env) server
      (dupdate [("analysis", dget_or "AF_ANALYSIS" "unknown" env); ("workspace", dget_or "AF_WORKSPACE" "unknown" env);
        ("script", _script argv); ("lock", _lock lock)] (command env))%string)).
Lemma profiled_once env argv lock env' argv' lock' : (start env' argv' lock' (start env argv lock true).1).2 = None.
Proof. done. Qed.

(** ** The cluster of an analysis *)

Definition TOKEN_FILE : string := "AF_ACCOUNT_TOKEN_FILE".
Definition PASSED : list string := ["PATH"; "PYROSCOPE_SERVER"; "PYROSCOPE_APP"; "AF_ANALYSIS"; "AF_WORKSPACE"; "X509_CERT_DIR"].
Definition RENEW : Z := 1800.
(** [account_token], of the text of the file, and the header of every request. *)
Definition account_token (text : string) : string := str_strip text.
Definition pre_request (text : string) : list (string * string) := [("Authorization", "Bearer " ++ account_token text)]%string.

(** A cluster of the user's, and its options. *)
Record Report := mkReport { name : string; options : json }.
Definition of_project (project : string) (r : Report) : bool := jeq_str (jget "pixi_project" (options r)) project.
(** The sizes of the workers that are asked for, as JSON numbers. *)
Definition other_size (cores memory : json) (r : Report) : bool :=
  negb (py_eq (jget "worker_cores" (options r)) cores && py_eq (jget "worker_memory" (options r)) memory).
(** The cluster to connect to, with the warning; none to start one; or that another runs. *)
Inductive Running := Connects (cluster : string) (warning : option string) | NoCluster | OtherRuns (cluster : string).
Definition size_text (r : Report) : string :=
  name r ++ " keeps its workers of " ++ str_of (jget "worker_cores" (options r)) ++ " cores and " ++ str_of (jget "worker_memory" (options r)) ++ " GiB until it ends.".
Definition _running (project : string) (cores memory : json) (reports : list Report) : Running :=
  match List.find (of_project project) reports with
  | Some r => Connects (name r) (if other_size cores memory r then Some (size_text r) else None)
  | None => match reports with r :: _ => OtherRuns (name r) | [] => NoCluster end
  end.
Definition parents2 (prefix : string) : string := dirname (dirname (dirname prefix)).
Definition passed (env : environ) : list (string * json) := omap (fun n => value ← dget n env; Some (n, JStr value)) PASSED.
Definition cluster_options (prefix : string) (env : environ) (cores memory : json) : json :=
  JObj [("pixi_project", JStr (parents2 prefix)); ("pixi_env", JStr (basename prefix)); ("worker_cores", cores); ("worker_memory", memory); ("env", JObj (passed env))]%string.

(** A task's function: a function by its name, a class, a function with arguments given, or
    another object by its type. *)
Inductive Fn := Function (fname : string) (coroutine : bool) | Class (fname : string) | Partial (f : Fn) | Object (type : string).
Definition strip_marks (s : string) : string := str_strip_of (fun c => Ascii.eqb c "<" || Ascii.eqb c ">") s.
Fixpoint _name (f : Fn) : string :=
  match f with Partial f => _name f | Function n _ | Class n | Object n => strip_marks n end.
Fixpoint coroutine_function (f : Fn) : bool := match f with Function _ b => b | Partial f => coroutine_function f | _ => false end.
(** What is sent in its place: itself, or with these tags. *)
Definition tagged (env : environ) (f : Fn) : option (list (string * string)) :=
  match f with
  | Class _ => None
  | _ => if coroutine_function f then None else Some (dset "task" (_name f) (command env))%string
  end.

(** What [client] asks of the gateway and the system; what may raise has no answer then. *)
Inductive Req := Lock (path : string) | Unlock | ListClusters | Connect (cluster : string) | NewCluster (opts : json) | Warn (text : string)
  | Adapt (minimum maximum : Z) | GetClient | ReadProxy (path : string) | RegisterProxy (bytes : string) | Print (text : string) | Status | SleepS (seconds : Z).
Definition Ans (r : Req) : Type :=
  match r with
  | Lock _ | Connect _ | NewCluster _ | Adapt _ _ | GetClient | RegisterProxy _ => bool | Unlock | Warn _ | Print _ | SleepS _ => unit
  | ListClusters => option (list Report) | ReadProxy _ => option (option string) | Status => string
  end.
Inductive Exc := Raised | RuntimeError (text : string).
Definition CM (A : Type) : Type := M (sigT Ans) unit Exc A.
Section Client.
Context (svc : service Req Ans) (prefix : string) (env : environ).
Definition succeeds (ok : CM bool) : CM unit := ok ← ok; if ok : bool then mret tt else raise Raised.
Definition connect (cluster : string) : CM unit := succeeds (mcall svc (Connect cluster)).
Definition in_lock (cores memory : json) : CM unit :=
  reports ← (mcall svc ListClusters : CM (option (list Report)));
  match reports with
  | None => raise Raised
  | Some reports =>
      match _running (parents2 prefix) cores memory reports with
      | Connects cluster warning =>
          (match warning with Some text => (mcall svc (Warn text) : CM unit) | None => mret tt end) ≫= fun _ => connect cluster
      | OtherRuns cluster =>
          raise (RuntimeError ("Dask Gateway runs one cluster per user, and " ++ cluster ++ " is running: wait until it ends, and do not stop it."))
      | NoCluster => let opts := cluster_options prefix env cores memory in succeeds (mcall svc (NewCluster opts))
      end
  end.
(** The proxy's bytes, none where it is no file. *)
Definition hand (proxy : string) : CM unit :=
  bytes ← (mcall svc (ReadProxy proxy) : CM (option (option string)));
  match bytes with
  | None => raise Raised
  | Some None => (mcall svc (Print ("af_dask: no proxy at " ++ proxy ++ " to hand the workers")) : CM unit)
  | Some (Some bytes) => succeeds (mcall svc (RegisterProxy bytes))
  end.
(** The thread, for as many turns as it goes on. *)
Fixpoint renew (n : nat) (proxy : string) : CM unit :=
  match n with
  | O => mret tt
  | S n =>
      status ← (mcall svc Status : CM string);
      if String.eqb status "closing" || String.eqb status "closed" then mret tt
      else
        (mcall svc (SleepS RENEW) : CM unit) ≫= fun _ =>
        status ← (mcall svc Status : CM string);
        (if String.eqb status "running" then mcatch (hand proxy) (fun _ => (mcall svc (Print "af_dask: the workers' proxy is not renewed") : CM unit)) else mret tt) ≫= fun _ =>
        renew n proxy
  end.
Definition client (workers : Z) (cores memory : json) : CM unit :=
  succeeds (mcall svc (Lock (prefix ++ "/af_dask.lock"))) ≫= fun _ =>
  mfinally (in_lock cores memory) (mcall svc Unlock) ≫= fun _ =>
  succeeds (mcall svc (Adapt 0 workers)) ≫= fun _ =>
  succeeds (mcall svc GetClient) ≫= fun _ =>
  let proxy := dget_or "X509_USER_PROXY" ""%string env in
  if String.eqb proxy "" then mret tt else hand proxy.
End Client.

(** [Proxy.setup]: into a draft of the owner's alone, which then takes the file's place. *)
Inductive FileOp := WriteOwn (path bytes : string) | ReplaceBy (draft path : string) | SetEnv (var value : string).
Definition setup (tmp data : string) : list FileOp :=
  let path := (tmp ++ "/af-x509up")%string in
  [WriteOwn (path ++ ".new") data; ReplaceBy (path ++ ".new") path; SetEnv "X509_USER_PROXY" path]%string.

(** ** [af_ray] *)

Definition ADDRESS : string := "http://ray-train-gateway:8265".
Definition dashed (key : string) : string := "af-" ++ str_replace "_" "-" key.
Definition ray_headers (token_text realpath : string) (settings : list (string * json)) : list (string * string) :=
  dupdate [("Authorization", "Bearer " ++ account_token token_text); ("af-env", realpath)]%string
    (foldl (fun acc kv => dset (dashed kv.1) (str_of kv.2) acc) [] settings).

(** ** Scripts that ask at the same time *)

(** Where a script is: before the lock, in it, with the clusters that it was told of, with
    what it had to do done, and after. *)
Inductive Phase := Out | In | Saw (reports : list Report) | Settled | After.
Definition inside (ph : Phase) : bool := match ph with In | Saw _ | Settled => true | _ => false end.
Section Scripts.
Context (prefix : string).
Definition project : string := parents2 prefix.
Definition phase_step (ph : Phase) (e : sigT Ans) : option Phase :=
  match e, ph with
  | existT (Lock path) ok, Out => if String.eqb path (prefix ++ "/af_dask.lock") then Some (if ok then In else After) else None
  | existT ListClusters reports, In => Some (match reports with Some reports => Saw reports | None => Settled end)
  | existT (Warn _) _, Saw reports => Some (Saw reports)
  | existT (Connect cluster) _, Saw reports =>
      match List.find (of_project project) reports with Some r => if String.eqb cluster (name r) then Some Settled else None | None => None end
  | existT (NewCluster opts) _, Saw [] => if jeq_str (jget "pixi_project" opts) project then Some Settled else None
  | existT Unlock _, (In | Saw _ | Settled) => Some After
  | existT (Adapt _ _ | GetClient | ReadProxy _ | RegisterProxy _ | Print _) _, After => Some After
  | _, _ => None
  end.

(** A call that may fail. *)
Lemma mon_succeeds ph ph' (ok : CM bool) (Q : res Exc unit -> Phase -> Prop) :
  mon phase_step ph ok (fun _ q => q = ph') -> (forall r, Q r ph') -> mon phase_step ph (succeeds ok) Q.
Proof.
  intros Hok HQ. unfold succeeds. apply mon_bind. eapply mon_mono; [exact Hok|]. intros [[]|e] q ->; [by apply mon_ret|by apply mon_raise|done].
Qed.
Lemma mon_asked ph ph' (svc : service Req Ans) r : (forall a, phase_step ph (existT r a) = Some ph') ->
  mon phase_step ph (mcall svc r : CM (Ans r)) (fun _ q => q = ph').
Proof. intros H. apply mon_call. intros a. exists ph'. by split. Qed.
Lemma handed svc proxy : mon phase_step After (hand svc proxy) (fun _ q => q = After).
Proof.
  unfold hand. apply mon_bind, (mon_call phase_step After svc (ReadProxy proxy)). intros bytes. exists After. split; [done|]. destruct bytes as [[bytes|]|]; [| |by apply mon_raise].
  - eapply mon_succeeds; [by apply (mon_asked After After svc (RegisterProxy bytes))|done].
  - by apply (mon_asked After After svc (Print _)).
Qed.
Lemma settled svc env cores memory : mon phase_step In (in_lock svc prefix env cores memory) (fun _ q => exists e, phase_step q (existT Unlock e) = Some After).
Proof.
  unfold in_lock. apply mon_bind, (mon_call phase_step In svc ListClusters). intros reports. eexists. split; [reflexivity|].
  destruct reports as [reports|]; [|apply mon_raise; by exists tt]. unfold _running. destruct (List.find (of_project (parents2 prefix)) reports) as [r|] eqn:E.
  - assert (Hc : mon phase_step (Saw reports) (connect svc (name r)) (fun _ q => exists e, phase_step q (existT Unlock e) = Some After)).
    { unfold connect. eapply mon_succeeds; [apply (mon_asked _ Settled svc (Connect (name r)))|by exists tt]. intros a. cbn [phase_step]. unfold project. by rewrite E, String.eqb_refl. }
    apply mon_bind. destruct (other_size _ _ _); [|by apply mon_ret]. apply (mon_call phase_step (Saw reports) svc (Warn _)). intros []. exists (Saw reports). by split.
  - destruct reports as [|r reports]; [|apply mon_raise; by exists tt].
    eapply mon_succeeds; [apply (mon_asked _ Settled svc (NewCluster _))|by exists tt]. intros a. cbn [phase_step]. change (jget "pixi_project" _) with (JStr project). unfold jeq_str. by rewrite String.eqb_refl.
Qed.
(** [client] goes through the phases, whatever fails: it starts a cluster only in the lock,
    where it was told of none, and leaves the lock. *)
Lemma client_phases svc env workers cores memory : mon phase_step Out (client svc prefix env workers cores memory) (fun _ q => q = After).
Proof.
  assert (Hok : forall r, (forall a, phase_step After (existT r a) = Some After) -> forall (ok : CM bool), mon phase_step After ok (fun _ q => q = After) ->
    mon phase_step After (succeeds ok) (fun _ q => q = After)) by (intros r _ ok H; by eapply mon_succeeds).
  unfold client. apply mon_bind. unfold succeeds at 1. apply mon_bind, (mon_call phase_step Out svc (Lock _)). intros locked. exists (if locked then In else After).
  split; [cbn [phase_step]; by rewrite String.eqb_refl|]. destruct locked; [|by apply mon_raise]. apply mon_ret. apply mon_bind, mon_finally.
  eapply mon_mono; [apply settled|]. intros r q [e He]. apply (mon_call phase_step q svc Unlock). intros []. destruct e. exists After. split; [done|].
  assert (Hrest : mon phase_step After (succeeds (mcall svc (Adapt 0 workers)) ≫= fun _ => succeeds (mcall svc GetClient) ≫= fun _ =>
    let proxy := dget_or "X509_USER_PROXY" ""%string env in if String.eqb proxy "" then mret tt else hand svc proxy) (fun _ q => q = After)).
  { apply mon_bind. eapply mon_succeeds; [by apply (mon_asked After After svc (Adapt 0 workers))|]. intros [[]|]; [|done].
    apply mon_bind. eapply mon_succeeds; [by apply (mon_asked After After svc GetClient)|]. intros [[]|]; [|done].
    cbv zeta. destruct (String.eqb _ _); [by apply mon_ret|apply handed]. }
  destruct r as [[]|]; done.
Qed.
End Scripts.

(** The scripts of one environment, and the clusters that the gateway lists for the user. *)
Record Sys := mkSys { phases : nat -> Phase; running : list Report }.
Definition at_phase (p : nat) (ph : Phase) (f : nat -> Phase) : nat -> Phase := fun p' => if Nat.eqb p' p then ph else f p'.
Section System.
Context (prefix : string).
Local Abbreviation project := (project prefix).
(** What the file lock and the gateway promise: the lock is had by one at a time; the clusters
    that are listed are those that run; a cluster that is made is one more, with the options
    that were asked for, and one that was not made may be there all the same. *)
Definition answers (s : Sys) (e : sigT Ans) : Prop :=
  match e with
  | existT (Lock _) ok => ok = true -> forall p, inside (phases s p) = false
  | existT ListClusters reports => reports = Some (running s) \/ reports = None
  | _ => True
  end.
Definition leaves (e : sigT Ans) (before after : list Report) : Prop :=
  match e with
  | existT (NewCluster opts) made => (exists n, after = mkReport n opts :: before) \/ made = false /\ after = before
  | _ => after = before
  end.
Inductive sstep : Sys -> Sys -> Prop :=
| ss_asks s p e ph after : phase_step prefix (phases s p) e = Some ph -> answers s e -> leaves e (running s) after ->
    sstep s (mkSys (at_phase p ph (phases s)) after)
| ss_dies s p : sstep s (mkSys (at_phase p After (phases s)) (running s))
| ss_ends s l1 r l2 : running s = (l1 ++ r :: l2)%list -> sstep s (mkSys (phases s) (l1 ++ l2))
| ss_other s r : of_project project r = false -> sstep s (mkSys (phases s) (r :: running s)).
Definition of_this (l : list Report) : nat := length (List.filter (of_project project) l).
Record Good (s : Sys) : Prop := {
  g_one : (of_this (running s) <= 1)%nat;
  g_alone : forall p p', inside (phases s p) = true -> inside (phases s p') = true -> p = p';
  g_told : forall p, phases s p = Saw [] -> of_this (running s) = 0%nat }.
Lemma at_same p ph f : at_phase p ph f p = ph.
Proof. unfold at_phase. by rewrite Nat.eqb_refl. Qed.
Lemma at_other p p' ph f : p' <> p -> at_phase p ph f p' = f p'.
Proof. intros H. unfold at_phase. by rewrite (proj2 (Nat.eqb_neq p' p)). Qed.
Lemma of_this_app l1 l2 : of_this (l1 ++ l2) = (of_this l1 + of_this l2)%nat.
Proof. unfold of_this. by rewrite List.filter_app, length_app. Qed.
Lemma fewer l1 r l2 : (of_this (l1 ++ l2) <= of_this (l1 ++ r :: l2))%nat.
Proof. rewrite !of_this_app. unfold of_this. cbn [List.filter]. destruct (of_project _ r); cbn [length]; lia. Qed.
(** A step that keeps the clusters, and takes one script to a phase inside only from one. *)
Lemma good_moved s p ph : Good s -> (inside ph = true -> inside (phases s p) = true \/ forall p', inside (phases s p') = false) ->
  (ph = Saw [] -> of_this (running s) = 0%nat) -> Good (mkSys (at_phase p ph (phases s)) (running s)).
Proof.
  intros G Hin Hsaw. constructor; cbn [phases running]; [by apply G| |].
  - intros p1 p2. destruct (decide (p1 = p)) as [->|H1], (decide (p2 = p)) as [->|H2]; rewrite ?at_same, ?at_other by done; try done.
    + intros [H|H]%Hin; intros Hp2; [by eapply g_alone|by rewrite H in Hp2].
    + intros Hp1 [H|H]%Hin; [by eapply g_alone|by rewrite H in Hp1].
    + by apply G.
  - intros p1. destruct (decide (p1 = p)) as [->|H1]; rewrite ?at_same, ?at_other by done; [done|by apply G].
Qed.
Lemma nobody_else s p p' : Good s -> phases s p = Saw [] -> p' <> p -> inside (phases s p') = false.
Proof. intros G H Hne. destruct (inside (phases s p')) eqn:E; [|done]. exfalso. apply Hne. apply (g_alone s G); [done|by rewrite H]. Qed.
Lemma good_asks s p e ph after : Good s -> phase_step prefix (phases s p) e = Some ph -> answers s e -> leaves e (running s) after ->
  Good (mkSys (at_phase p ph (phases s)) after).
Proof.
  intros G Hstep Ha Hl. destruct e as [[path| | |cluster|opts|text|lo hi| |px|bytes|text| |sec] a]; cbn [phase_step] in Hstep; cbn [leaves answers] in Hl, Ha; try (subst after);
    destruct (phases s p) as [| |reports| |] eqn:Ep; try done.
  - destruct (String.eqb _ _); [|done]. injection Hstep as <-. apply good_moved; [done| |by destruct a]. destruct a; [|done]. intros _. right. by apply Ha.
  - injection Hstep as <-. by apply good_moved.
  - injection Hstep as <-. by apply good_moved.
  - injection Hstep as <-. by apply good_moved.
  - injection Hstep as <-. apply good_moved; [done|by rewrite Ep; left|]. destruct Ha as [->| ->]; [|done]. intros [= E]. by rewrite E.
  - destruct (List.find _ reports) as [r|]; [|done]. destruct (String.eqb _ _); [|done]. injection Hstep as <-. apply good_moved; [done|by rewrite Ep; left|done].
  - destruct reports; [|done]. destruct (jeq_str _ _) eqn:Eo; [|done]. injection Hstep as <-. destruct Hl as [[n ->]|[_ ->]]; [|apply good_moved; [done|by rewrite Ep; left|done]].
    pose proof (g_told s G p Ep) as H0. constructor; cbn [phases running].
    + unfold of_this in *. cbn [List.filter]. unfold of_project at 1. cbn [options]. rewrite Eo. cbn [length]. lia.
    + intros p1 p2. destruct (decide (p1 = p)) as [->|H1], (decide (p2 = p)) as [->|H2]; rewrite ?at_same, ?at_other by done; try done;
        intros X Y; [rewrite (nobody_else s p p2) in Y by done|rewrite (nobody_else s p p1) in X by done|rewrite (nobody_else s p p1) in X by done]; done.
    + intros p1. destruct (decide (p1 = p)) as [->|H1]; rewrite ?at_same, ?at_other by done; [done|]. intros Hp1.
      exfalso. pose proof (nobody_else s p p1 G Ep H1) as X. by rewrite Hp1 in X.
  - injection Hstep as <-. by apply good_moved; [|rewrite Ep; left|intros [= ->]; apply (g_told s G p)].
  - injection Hstep as <-. by apply good_moved.
  - injection Hstep as <-. by apply good_moved.
  - injection Hstep as <-. by apply good_moved.
  - injection Hstep as <-. by apply good_moved.
  - injection Hstep as <-. by apply good_moved.
Qed.
Lemma good_step s s' : sstep s s' -> Good s -> Good s'.
Proof.
  intros [? p e ph after Hstep Ha Hl|? p|? l1 r l2 Hr|? r Hr] G.
  - by eapply good_asks.
  - by apply good_moved.
  - constructor; cbn [phases running]; [|by apply G|]; pose proof (fewer l1 r l2) as H; rewrite <- Hr in H.
    + pose proof (g_one s0 G). lia.
    + intros p Hp. pose proof (g_told s0 G p Hp). lia.
  - assert (E : of_this (r :: running s0) = of_this (running s0)) by (unfold of_this; cbn [List.filter]; by rewrite Hr).
    constructor; cbn [phases running]; rewrite ?E; by apply G.
Qed.

(** *** Theorem *)

(** C22: The scripts of an analysis share one cluster: whatever clusters run when they start, of
    its project one at most, however many ask at the same time, whatever fails and whoever
    dies in the lock, there is never a second cluster of the project, though the gateway
    itself would make one. The steps of a script are those of every run of [client]. *)
Theorem one_cluster l s : (of_this l <= 1)%nat -> rtc sstep (mkSys (fun _ => Out) l) s ->
  (of_this (running s) <= 1)%nat /\
  forall svc env workers cores memory, mon (phase_step prefix) Out (client svc prefix env workers cores memory) (fun _ q => q = After).
Proof.
  intros Hl Hs. split; [|by intros; apply client_phases]. assert (Hg : forall a b, rtc sstep a b -> Good a -> Good b) by (induction 1; eauto using good_step).
  apply (g_one s). eapply Hg; [exact Hs|]. by constructor.
Qed.
End System.
(** Two scripts, of which the second is told of the cluster that the first made. *)
Definition small_options : json := cluster_options "/a/.pixi/envs/x" [] (JInt 1) (JInt 4).
Definition after_first : Sys := mkSys (at_phase 0 After (at_phase 0 Settled (at_phase 0 (Saw []) (at_phase 0 In (fun _ => Out))))) [mkReport "c" small_options].
Lemma one_cluster_witness : rtc (sstep "/a/.pixi/envs/x") (mkSys (fun _ => Out) []) after_first /\
  (of_this "/a/.pixi/envs/x" (running after_first) <= 1)%nat /\
  forall svc env workers cores memory, mon (phase_step "/a/.pixi/envs/x") Out (client svc "/a/.pixi/envs/x" env workers cores memory) (fun _ q => q = After).
Proof.
  assert (H : rtc (sstep "/a/.pixi/envs/x") (mkSys (fun _ => Out) []) after_first).
  { eapply rtc_l; [eapply (ss_asks _ _ 0 (existT (Lock "/a/.pixi/envs/x/af_dask.lock") true)); [reflexivity|done|reflexivity]|].
    eapply rtc_l; [eapply (ss_asks _ _ 0 (existT ListClusters (Some []))); [reflexivity|by left|reflexivity]|].
    eapply rtc_l; [eapply (ss_asks _ _ 0 (existT (NewCluster small_options) true)); [reflexivity|done|left; by exists "c"%string]|].
    eapply rtc_l; [eapply (ss_asks _ _ 0 (existT Unlock tt)); [reflexivity|done|reflexivity]|]. apply rtc_refl. }
  split; [exact H|]. apply (one_cluster "/a/.pixi/envs/x" [] after_first); [cbn; lia|exact H].
Defined.
