(* ===== verification/AgServe.v ===== *)
(** How a request to the agentic interface is answered and counted: a tool's call and what
    its failure comes to, [docker/agentic-interface/metrics.py], and the texts and the
    middleware of [server.py] over the decisions of [AgAuth]. What is logged is left out. *)
From S2P Require Import Prelude PyJson PyText PyValue AgErrors AgAuth.
Open Scope Z_scope.

(** ** What is counted *)

(** A counter by the values of its labels. *)
Definition Counter : Type := list (list string * Z).
Definition inc (labels : list string) (c : Counter) : Counter := dset labels (dget_or labels 0 c + 1) c.
Record Metrics := mkMetrics { API_CALLS_TOTAL : Counter; TOOL_CALLS_TOTAL : Counter; TOOL_DURATION : list (string * Q);
  UPSTREAM_REQUESTS_TOTAL : Counter; UPSTREAM_DURATION : list (string * Q); AUTH_TOTAL : Counter }.
#[export] Instance eta_metrics : Eta Metrics := {| eta_of := fun m =>
  mkMetrics (API_CALLS_TOTAL m) (TOOL_CALLS_TOTAL m) (TOOL_DURATION m) (UPSTREAM_REQUESTS_TOTAL m) (UPSTREAM_DURATION m) (AUTH_TOTAL m) |}.
Definition record_request (route : string) (status : Z) (m : Metrics) : Metrics :=
  m <| API_CALLS_TOTAL := inc [route; pretty status] (API_CALLS_TOTAL m) |>.
Definition record_tool_call (tool outcome username : string) (m : Metrics) : Metrics :=
  m <| TOOL_CALLS_TOTAL := inc [tool; outcome; username] (TOOL_CALLS_TOTAL m) |>.
Definition observe_tool (tool : string) (seconds : Q) (m : Metrics) : Metrics :=
  m <| TOOL_DURATION := (TOOL_DURATION m ++ [(tool, seconds)])%list |>.
Definition record_upstream (target outcome : string) (seconds : Q) (m : Metrics) : Metrics :=
  let m := m <| UPSTREAM_REQUESTS_TOTAL := inc [target; outcome] (UPSTREAM_REQUESTS_TOTAL m) |> in
  m <| UPSTREAM_DURATION := (UPSTREAM_DURATION m ++ [(target, seconds)])%list |>.
Definition record_auth (result : string) (m : Metrics) : Metrics := m <| AUTH_TOTAL := inc [result] (AUTH_TOTAL m) |>.

(** ** A tool's call *)

(** What a [ToolError] was raised from: a question that the client cannot put to its user, a
    failure, arguments that do not fit, or anything else with its type and text. *)
Inductive Cause := NeedsChoices (text : string) | AFailure (f : Failure) | ValidationError (text : string) | OddCause (type text : string).
(** The protocol's own errors; a [ToolError], which may be a [Failure] itself; what is no
    exception of either kind. *)
Inductive Raised := ProtocolError (url_elicitation : bool) | InTool (own : option Failure) (text : string) (cause : option Cause) | Elsewhere.
(** What goes on to the SDK: what was raised, or a failure in its place. *)
Inductive Told := AsRaised (r : Raised) | Instead (f : Failure).
Definition _translate (name : string) (own : option Failure) (text : string) (cause : option Cause) : Told * string :=
  let same := AsRaised (InTool own text cause) in
  match cause with
  | Some (AFailure f) => (Instead f, outcome f)
  | Some (ValidationError exc) => (Instead (invalid_arguments name exc), "user_error"%string)
  | Some (OddCause type exc) => (Instead (unexpected_failure name type exc), "exception"%string)
  | Some (NeedsChoices exc) => (Instead (unexpected_failure name "NeedsChoices" exc), "exception"%string)
  | None => match own with Some f => (same, outcome f) | None => (same, "user_error"%string) end
  end.

Section Tools.
Context {R : Type}.
(** The result of a tool, or the help text as one that fits the output's schema. *)
Inductive ToolResult := Given (r : R) | Help (content : list string) (structured : json).
Definition _needs_input_result (text : string) : ToolResult := Help [text] (JObj [("result"%string, JStr text)]).
Inductive TReq := Monotonic | CallTool (name : string) (arguments : json).
Definition TAns (r : TReq) : Type := match r with Monotonic => Q | CallTool _ _ => (R + Raised)%type end.
Definition TM (A : Type) : Type := M (sigT TAns) Metrics Told A.
Context (svc : service TReq TAns) (current_user : option User).
Definition _username : string := match current_user with Some user => u_name user | None => "unknown" end.
Definition _record (name outcome username : string) (start : Q) : TM unit :=
  now ← (mcall svc Monotonic : TM Q);
  mmod (observe_tool name (now - start)) ≫= fun _ => mmod (record_tool_call name outcome username).
Definition call_tool (name : string) (arguments : json) : TM ToolResult :=
  let username := _username in
  start ← (mcall svc Monotonic : TM Q);
  result ← (mcall svc (CallTool name arguments) : TM (R + Raised)%type);
  match result with
  | inl result => _record name "success" username start ≫= fun _ => mret (Given result)
  | inr (ProtocolError url) => _record name (if url then "elicitation_required" else "exception") username start ≫= fun _ => raise (AsRaised (ProtocolError url))
  | inr (InTool own text cause) =>
      match cause with
      | Some (NeedsChoices help) => _record name "needs_input" username start ≫= fun _ => mret (_needs_input_result help)
      | _ => let '(failure, outcome) := _translate name own text cause in _record name outcome username start ≫= fun _ => raise failure
      end
  | inr Elsewhere => raise (AsRaised Elsewhere)
  end.
End Tools.
Arguments ToolResult : clear implicits.

(** Requests to the backends: what was raised, and whether it is an [Exception]. *)
Inductive UReq := UMonotonic | Send_.
Definition UAns (r : UReq) : Type := match r with UMonotonic => Q | Send_ => (Z + bool)%type end.
Definition UM (A : Type) : Type := M (sigT UAns) Metrics unit A.
Definition handle_async_request (svc : service UReq UAns) (_target : string) : UM Z :=
  start ← (mcall svc UMonotonic : UM Q);
  response ← (mcall svc Send_ : UM (Z + bool)%type);
  match response with
  | inr false => raise tt
  | inr true =>
      now ← (mcall svc UMonotonic : UM Q); mmod (record_upstream _target "connection_error" (now - start)) ≫= fun _ => raise tt
  | inl status =>
      let outcome := if status <? 500 then "success"%string else "http_error"%string in
      now ← (mcall svc UMonotonic : UM Q); mmod (record_upstream _target outcome (now - start)) ≫= fun _ => mret status
  end.

(** ** The middleware *)

Section Texts.
Context (TOKEN_URL SERVICE_PREFIX : string) (dumps : json -> string).
Definition _HINT_MISSING : string :=
  "No Authorization header reached the service. Configure the MCP client to send 'Authorization: Bearer <JupyterHub API token>' — mint a token at " ++ TOKEN_URL ++
  ", or inside an AF session use the JUPYTERHUB_API_TOKEN the session provides.".
Definition _HINT_EMPTY : string :=
  "The Authorization header arrived as 'Bearer' with nothing after it: the environment variable or token file the MCP client reads (for example JUPYTERHUB_API_TOKEN, or ~/.config/purdue-af/token) is empty or unset. Fill it in, then reconnect the MCP server.".
Definition _HINT_INVALID : string :=
  "JupyterHub does not recognise this token: it is mistyped, expired, or was revoked (inside an AF session the token changes on every restart). Mint a new one at " ++ TOKEN_URL ++
  " — or, inside a session, restart the agent so it picks up the current JUPYTERHUB_API_TOKEN — then reconnect the MCP server.".
Definition _HINT_UNAVAILABLE (detail : string) : string :=
  "The token could not be checked because " ++ detail ++ ". This is a facility-side problem, not a token problem — try again in a minute.".
Definition placeholder_hint (token : string) : string :=
  "The token sent was the literal text " ++ str_repr (str_take 40 token) ++
  ": the placeholder in the MCP client configuration was never replaced with a real token, or the environment variable it names is unset and the client did not expand it. Put a real token there (mint one at "
  ++ TOKEN_URL ++ "), then reconnect the MCP server.".
Definition scheme_hint (scheme : string) : string :=
  "The Authorization header used the scheme " ++ str_repr scheme ++
  "; this service expects 'Authorization: Bearer <JupyterHub API token>'. (JupyterHub's own REST API takes 'token <…>', but the MCP endpoint does not.)".
(** The error and the hint of a refusal. *)
Definition refusal_text (why : Refusal) : string * string :=
  match why with
  | MissingToken => ("Missing Bearer token", _HINT_MISSING)
  | UnsupportedScheme scheme => ("Unsupported Authorization scheme", scheme_hint scheme)
  | EmptyToken => ("Empty Bearer token", _HINT_EMPTY)
  | Placeholder token => ("Unexpanded token placeholder", placeholder_hint token)
  | InvalidToken => ("Invalid JupyterHub token", _HINT_INVALID)
  end%string.

Inductive Message := ResponseStart (status : Z) (headers : list (string * string)) | ResponseBody (body : string) | Close | OtherMessage (type : string).
Definition _send (status : Z) (body content_type : string) (headers : list (string * string)) : list Message :=
  [ResponseStart status (("content-type", content_type) :: ("content-length", pretty (Z.of_nat (String.length body))) :: headers)%string; ResponseBody body].
Definition _respond (status : Z) (detail hint : string) (extra_headers : list (string * string)) : list Message :=
  let payload := (("error", JStr detail) :: if String.eqb hint "" then [] else [("hint", JStr hint)])%string in
  _send status (dumps (JObj payload)) "application/json" extra_headers.
Definition challenge (hint : string) (invalid : bool) : string :=
  "Bearer realm=" ++ String "034" ("purdue-af-agentic-interface" ++ String "034" "") ++
  if invalid then ", error=" ++ String "034" ("invalid_token" ++ String "034" (", error_description=" ++ String "034" (str_replace "034" "'" hint ++ String "034" ""))) else "".
Definition _reject (error hint : string) (invalid : bool) : list Message :=
  _respond 401 error hint [("www-authenticate", challenge hint invalid)]%string.
End Texts.

(** The connection's kind; of a request its path and headers. *)
Inductive Scope := Websocket | Lifespan | Http (path : string) (headers : list (string * string)).
(** The user that the tools see; the status of the request so far. *)
Record Conn := mkConn { current_user : option User; status : Z; metrics : Metrics }.
#[export] Instance eta_conn : Eta Conn := {| eta_of := fun c => mkConn (current_user c) (status c) (metrics c) |}.
(** A message to the client, and whether it could be sent; who a token is of, unless that
    raises; the metrics' text; the MCP application: what it sends, and whether it raises. *)
Inductive SReq := Send (m : Message) | ResolveUser (token : string) | GenerateLatest | App (user : option User) (scope : Scope).
Definition SAns (r : SReq) : Type :=
  match r with Send _ => bool | ResolveUser _ => option Resolved | GenerateLatest => string | App _ _ => (list Message * bool)%type end.
Definition SM (A : Type) : Type := M (sigT SAns) Conn unit A.
Definition route_name (r : Route) : string := match r with Health => "health" | MetricsRoute => "metrics" | Mcp => "mcp" | Other => "other" end.
(** The SDK's check of the host is given one that it lets pass. *)
Definition with_host (headers : list (string * string)) : list (string * string) :=
  map (fun kv => if String.eqb (str_lower kv.1) "host" then ("host", "localhost:8888")%string else kv) headers.

Section Middleware.
Context (svc : service SReq SAns) (TOKEN_URL SERVICE_PREFIX CONTENT_TYPE_LATEST : string) (dumps : json -> string).
Definition plain_send (m : Message) : SM unit := sent ← (mcall svc (Send m) : SM bool); if sent : bool then mret tt else raise tt.
Definition recording_send (m : Message) : SM unit :=
  (match m with ResponseStart started _ => mmod (fun c => c <| status := started |>) | _ => mret tt end) ≫= fun _ => plain_send m.
Definition _app (send : Message -> SM unit) (scope : Scope) : SM unit :=
  c ← mget; '(messages, raises) ← (mcall svc (App (current_user c) scope) : SM (list Message * bool)%type);
  mfor messages send ≫= fun _ => if raises : bool then raise tt else mret tt.
Definition answer_with (path : string) (headers : list (string * string)) (a : Answer) : SM unit :=
  match a with
  | Public Health => mfor (_send 200 "ok" "text/plain" []) recording_send
  | Public _ => text ← (mcall svc GenerateLatest : SM string); mfor (_send 200 text CONTENT_TYPE_LATEST []) recording_send
  | NotFound => mfor (_respond dumps 404 "not found" ("The MCP endpoint is " ++ SERVICE_PREFIX ++ "/mcp.") []) recording_send
  | Reject why invalid => let '(error, hint) := refusal_text TOKEN_URL why in mfor (_reject dumps error hint invalid) recording_send
  | Unavailable detail => mfor (_respond dumps 503 "JupyterHub API unavailable" (_HINT_UNAVAILABLE detail) [("retry-after", "10")]%string) recording_send
  | Called user =>
      before ← mget;
      mmod (fun c => c <| current_user := Some user |>) ≫= fun _ =>
      mfinally (_app recording_send (Http path (with_host headers))) (mmod (fun c => c <| current_user := current_user before |>))
  end.
Definition _dispatch (path : string) (headers : list (string * string)) : SM unit :=
  match dispatch_enter SERVICE_PREFIX path headers with
  | inl a => answer_with path headers a
  | inr token =>
      resolved ← (mcall svc (ResolveUser token) : SM (option Resolved));
      match resolved with None => raise tt | Some resolved => answer_with path headers (dispatch_leave resolved) end
  end.
Definition __call__ (scope : Scope) : SM unit :=
  match scope with
  | Websocket => plain_send Close
  | Lifespan => _app plain_send scope
  | Http path headers =>
      let route := _route_for SERVICE_PREFIX path in
      mmod (fun c => c <| status := 500 |>) ≫= fun _ =>
      mfinally (_dispatch path headers) (mmod (fun c => c <| metrics := record_request (route_name route) (status c) (metrics c) |>))
  end.
End Middleware.
(** The access log keeps the lines of the MCP endpoint. *)
Definition _McpAccessFilter (line : string) : bool := str_contains "/mcp" line.

(** ** What is told and what is counted *)

(** The label of a call: of a result, of a question's help, of what is raised. *)
Definition told_as {R} (r : res Told (ToolResult R)) (label : string) : Prop :=
  match r with
  | Ok (Given _) => label = "success"%string
  | Ok (Help content structured) => label = "needs_input"%string /\ exists help, content = [help] /\ structured = JObj [("result"%string, JStr help)]
  | Err (Instead f) => label = outcome f
  | Err (AsRaised (InTool (Some f) _ None)) => label = outcome f
  | Err (AsRaised (InTool None _ None)) => label = "user_error"%string
  | Err (AsRaised (ProtocolError url)) => label = (if url then "elicitation_required" else "exception")%string
  | Err (AsRaised _) => False
  end.
(** One call of a tool is counted and timed, and nothing else. *)
Definition one_call (name username label : string) (m m' : Metrics) : Prop :=
  exists seconds, m' = record_tool_call name label username (observe_tool name seconds m).
Lemma wp_record {R} svc name label username start m h (Q : res Told unit -> Metrics -> list (sigT (TAns (R := R))) -> Prop) :
  (forall m' h', one_call name username label m m' -> Q (Ok tt) m' h') -> wp (_record svc name label username start) m h Q.
Proof. intros H. unfold _record. apply wp_bind, (wp_call svc Monotonic). apply wp_bind, wp_mod, wp_mod. apply H. eexists. reflexivity. Qed.
Lemma translated_as {R} name own text cause failure label : _translate name own text cause = (failure, label) ->
  told_as (R := R) (Err failure) label.
Proof. destruct cause as [[]|]; [..|destruct own]; cbn; by intros [= <- <-]. Qed.

(** *** Theorem *)

(** What a tool's call comes to is told as it is counted: each call that the SDK ends with a
    result or an error of its own is counted and timed once, for the caller, under the
    label of what is told; a question that could not be put is an ordinary result, which
    fits the schema of every tool's output, and no failure is told as a result. *)
Theorem call_counted {R} (svc : service TReq (TAns (R := R))) user name arguments m h :
  wp (call_tool svc user name arguments) m h (fun r m' _ =>
    r = Err (AsRaised Elsewhere) /\ m' = m \/ exists label, told_as r label /\ one_call name (_username user) label m m').
Proof.
  unfold call_tool. apply wp_bind, (wp_call svc Monotonic). apply wp_bind, (wp_call svc (CallTool _ _)).
  destruct (svc _ (CallTool name arguments) : R + Raised) as [result|[url|own text cause|]].
  - apply wp_bind, wp_record. intros m' h' H. apply wp_ret. right. by exists "success"%string.
  - apply wp_bind, wp_record. intros m' h' H. apply wp_raise. right. by eexists.
  - assert (Hraised : forall h0 failure label, _translate name own text cause = (failure, label) ->
      wp (_record svc name label (_username user) (svc h Monotonic) ≫= fun _ => raise failure) m h0
        (fun r m' _ => r = Err (AsRaised Elsewhere) /\ m' = m \/ exists label, told_as (R := R) r label /\ one_call name (_username user) label m m')).
    { intros h0 failure label E. apply wp_bind, wp_record. intros m' h' H. apply wp_raise. right. exists label. split; [by eapply translated_as|done]. }
    destruct cause as [[help|f|exc|type exc]|]; [|by apply Hraised..|].
    + apply wp_bind, wp_record. intros m' h' H. apply wp_ret. right. exists "needs_input"%string. split; [|done]. split; [done|]. by exists help.
    + destruct (_translate _ _ _ None) as [failure label] eqn:E. by apply Hraised.
  - apply wp_raise. by left.
Qed.

(** ** What a request comes to *)

#[export] Instance user_eq : EqDecision User. Proof. solve_decision. Defined.
#[export] Instance scope_eq : EqDecision Scope. Proof. solve_decision. Defined.
(** Whom the Hub vouched for, once it was asked; the status that the answer was begun with. *)
Record Seen := mkSeen { vouched : option User; was_asked : bool; begun : Z }.
Section Watch.
Context (svc : service SReq SAns) (TOKEN_URL SERVICE_PREFIX CONTENT_TYPE_LATEST : string) (dumps : json -> string) (path : string) (headers : list (string * string)).
(** The token of the request is looked up once at most; the tools run for whom it is of, and
    get the request as it came but for its host. *)
Definition step (q : Seen) (e : sigT SAns) : option Seen :=
  match e with
  | existT (Send (ResponseStart started _)) _ => Some (mkSeen (vouched q) (was_asked q) started)
  | existT (Send _) _ => Some q
  | existT (ResolveUser token) user =>
      if negb (was_asked q) && match dispatch_enter SERVICE_PREFIX path headers with inr sent => String.eqb token sent | inl _ => false end
      then Some (mkSeen (match user with Some (Resolves user) => user | _ => None end) true (begun q)) else None
  | existT GenerateLatest _ => match _route_for SERVICE_PREFIX path with MetricsRoute => Some q | _ => None end
  | existT (App user scope) _ =>
      if bool_decide (is_Some user) && bool_decide (user = vouched q) && bool_decide (scope = Http path (with_host headers)) then Some q else None
  end.
(** What sending keeps. *)
Definition in_step (u : option User) (m : Metrics) (q : Seen) (s : Conn) : Prop := status s = begun q /\ current_user s = u /\ metrics s = m.
Lemma sent_in_step u m msg q s v : in_step u m q s -> vouched q = v ->
  beside step q s (recording_send svc msg) (fun _ q' s' => in_step u m q' s' /\ vouched q' = v).
Proof.
  intros H Hv. unfold recording_send, plain_send.
  destruct msg; apply beside_bind; (apply beside_mod || apply beside_ret); apply beside_bind;
    apply (beside_call step _ _ svc (Send _)); intros []; eexists; (split; [reflexivity|]); (apply beside_ret || apply beside_raise); split; try done; by destruct H as (? & ? & ?).
Qed.
Lemma all_sent u m msgs q s : in_step u m q s -> beside step q s (mfor msgs (recording_send svc)) (fun _ => in_step u m).
Proof. intros H. apply beside_for; [done|]. intros msg q' s' H'. eapply beside_mono; [by apply (sent_in_step u m msg q' s' (vouched q'))|]. by intros r q2 s2 [? _]. Qed.
(** An answer of the middleware's own is begun with its status, even if it cannot be sent. *)
Lemma answer_begun u m st body type extra q s : in_step u m q s ->
  beside step q s (mfor (_send st body type extra) (recording_send svc)) (fun _ q' s' => in_step u m q' s' /\ begun q' = st).
Proof.
  intros (H1 & H2 & H3). unfold _send. cbn [mfor]. apply beside_bind. unfold recording_send at 1, plain_send. apply beside_bind, beside_mod, beside_bind.
  apply (beside_call step _ _ svc (Send _)). intros sent. eexists. split; [reflexivity|]. destruct sent; [|by apply beside_raise].
  apply beside_ret. apply beside_bind. unfold recording_send, plain_send. apply beside_bind, beside_ret, beside_bind.
  apply (beside_call step _ _ svc (Send _)). intros sent. eexists. split; [reflexivity|]. destruct sent; [|by apply beside_raise].
  by do 2 apply beside_ret.
Qed.
(** The answers that are no call of the tools'. *)
Lemma answered_own u m a st q s : status_of a = Some st -> (a = Public MetricsRoute -> _route_for SERVICE_PREFIX path = MetricsRoute) ->
  (forall r, a = Public r -> r = Health \/ r = MetricsRoute) -> in_step u m q s ->
  beside step q s (answer_with svc TOKEN_URL SERVICE_PREFIX CONTENT_TYPE_LATEST dumps path headers a) (fun _ q' s' => in_step u m q' s' /\ begun q' = st).
Proof.
  intros Hst Hm Hp H. destruct a as [r| |why invalid|detail|user]; cbn [status_of] in Hst; simplify_eq; cbn [answer_with].
  - destruct (Hp r eq_refl) as [->| ->]; [by apply answer_begun|]. apply beside_bind, (beside_call step _ _ svc GenerateLatest). intros text.
    exists q. split; [cbn [step]; by rewrite Hm|]. by apply answer_begun.
  - by apply answer_begun.
  - destruct (refusal_text _ why). by apply answer_begun.
  - by apply answer_begun.
Qed.
Lemma tools_called m user q s : vouched q = Some user -> status s = begun q -> metrics s = m ->
  beside step q s (answer_with svc TOKEN_URL SERVICE_PREFIX CONTENT_TYPE_LATEST dumps path headers (Called user)) (fun _ => in_step (current_user s) m).
Proof.
  intros Hv Hs Hm. cbn [answer_with]. apply beside_bind, beside_get. apply beside_bind, beside_mod, beside_finally. unfold _app.
  apply beside_bind, beside_get. cbn [current_user]. apply beside_bind, (beside_call step _ _ svc (App _ _)). intros [msgs raises]. exists q.
  split; [cbn [step]; by rewrite !bool_decide_true by (rewrite ?Hv; done)|]. apply beside_bind.
  eapply beside_mono; [by apply (all_sent (Some user) m)|]. intros [[]|e] q' s' (H1 & H2 & H3); [destruct raises|]; [apply beside_raise|apply beside_ret|]; by apply beside_mod.
Qed.

(** *** Theorem *)

(** C23: Each request is counted once, as one of its route with the status that its answer was
    begun with, or 500, whatever raises; the tools are called only with the user of the
    very token that the request carries, who is forgotten when it ends; and an answer that
    needs no look at the token has its own status. *)
Theorem request_counted s :
  beside step (mkSeen None false 500) s (__call__ svc TOKEN_URL SERVICE_PREFIX CONTENT_TYPE_LATEST dumps (Http path headers)) (fun _ q s' =>
    current_user s' = current_user s /\ metrics s' = record_request (route_name (_route_for SERVICE_PREFIX path)) (begun q) (metrics s) /\
    match dispatch_enter SERVICE_PREFIX path headers with inl a => status_of a = Some (begun q) | inr _ => True end).
Proof.
  cbn [__call__]. apply beside_bind, beside_mod, beside_finally. set (s1 := s <| status := 500 |>). set (q1 := mkSeen None false 500).
  apply (beside_mono step q1 s1 _ (fun _ q s' => in_step (current_user s) (metrics s) q s' /\
    match dispatch_enter SERVICE_PREFIX path headers with inl a => status_of a = Some (begun q) | inr _ => True end)).
  2: { intros r q s' [(H1 & H2 & H3) H]. apply beside_mod. split; [done|]. split; [cbn; by rewrite H1, H3|done]. }
  unfold _dispatch. destruct (dispatch_enter _ _ _) as [a|token] eqn:E.
  - assert (Hst : exists st, status_of a = Some st /\ (forall r, a = Public r -> _route_for SERVICE_PREFIX path = r /\ (r = Health \/ r = MetricsRoute))).
    { unfold dispatch_enter in E. destruct (_route_for _ _); [injection E as <-; exists 200..| |injection E as <-; by exists 404].
      1,2: split; [done|]; intros r [= <-]; auto.
      unfold credential in E. cbv zeta in E. destruct (String.eqb _ _); [injection E as <-; by exists 401|]. destruct (str_partition _ _).
      destruct (negb _); [injection E as <-; by exists 401|]. destruct (_token_problem _); [|done]. injection E as <-. by exists 401. }
    destruct Hst as (st & Hst & Hp). eapply beside_mono; [apply (answered_own (current_user s) (metrics s) a st); [done| | |done]|].
    + intros ->. by destruct (Hp _ eq_refl).
    + intros r ->. by destruct (Hp _ eq_refl).
    + intros r q s' [H <-]. done.
  - apply beside_bind, (beside_call step q1 s1 svc (ResolveUser token)). intros resolved.
    exists (mkSeen (match resolved with Some (Resolves user) => user | _ => None end) true 500). split; [cbn [step]; by rewrite E, String.eqb_refl|].
    destruct resolved as [[[user|]|detail]|]; cbn [dispatch_leave].
    + eapply beside_mono; [by apply (tools_called (metrics s))|]. by intros.
    + eapply beside_mono; [by apply (answered_own (current_user s) (metrics s) _ 401)|]. by intros r q s' [? _].
    + eapply beside_mono; [by apply (answered_own (current_user s) (metrics s) _ 503)|]. by intros r q s' [? _].
    + by apply beside_raise.
Qed.
End Watch.
