(* ===== verification/AgAudit.v ===== *)
(** The audit of the scoping, [docker/agentic-interface/scope_audit.py]: which labels still
    name a person, or another namespace, to someone who owns nothing. *)
From S2P Require Import Prelude PyJson PyText PyValue PyFormat AgErrors AgScope AgTools AgUsage.
Open Scope Z_scope.

Definition INTERVAL : Q := 21600.
Definition WINDOW : Q := 3600.
Definition TIMEOUT : Q := 60.
Definition COVERED : list string := ("__name__" :: NAMESPACE_LABELS ++ IDENTITY_LABELS ++ OBJECT_LABELS)%string%list.
Definition word_start (c : ascii) : bool := is_lower c || is_upper c || Ascii.eqb c "_".
(** [LEGACY_NAME.fullmatch]. *)
Definition LEGACY_NAME (name : string) : bool :=
  match name with String c s => word_start c && str_forallb (fun c => word_start c || is_digit c) s | EmptyString => false end.
Definition NAMES_A_PERSON : string := ".*(?:" ++ str_join "|" (map regex_escape USER_PREFIXES) ++ ").*".
Definition SHARED : string := str_join "|" (map (fun p => ".*" ++ regex_escape p ++ ".*")%string SHARED_PREFIXES).
Definition _label (name : string) : string := if LEGACY_NAME name then name else _quote name.
(** Selectors for the values of a label that name a person's object, or another namespace. *)
Definition checks (label : string) : list string :=
  let name := _label label in
  let any := ("{__name__=~" ++ dquote ".+" ++ ",")%string in
  ((any ++ name ++ "=~" ++ _quote NAMES_A_PERSON ++ "," ++ name ++ "!~" ++ _quote SHARED ++ "}")%string
  :: if endswith "namespace" label then [any ++ name ++ "!~" ++ _quote ("|" ++ AgScope.NAMESPACE) ++ "}"]%string else [])%list.
Example checks_of_namespace :
  length (checks "target_namespace") = 2%nat /\ checks "a.b" = ["{__name__=~" ++ dquote ".+" ++ "," ++ dquote "a.b" ++ "=~" ++ _quote NAMES_A_PERSON ++ "," ++ dquote "a.b" ++ "!~" ++ dquote ".*ray\\-train\\-gateway.*" ++ "}"]%string.
Proof. vm_compute. by split. Qed.

(** ** The audit *)

(** What the scoping asks; a form that is posted, with the data of the answer unless that
    raises; the clock; the pause. *)
Inductive AReq := Scoping (r : AgScope.Req) | Post (url path : string) (form : list (string * string)) | Time | Sleep (seconds : Q).
Definition AAns (r : AReq) : Type :=
  match r with Scoping r => AgScope.Ans r | Post _ _ _ => option json | Time => Q | Sleep _ => unit end.
Definition AEv : Type := sigT AAns.
(** The gauges: series by source and label, and when an audit last finished. *)
Record Gauges := mkGauges { UNSCOPED : list (string * string * Z); AUDITED : float }.
#[export] Instance eta_gauges : Eta Gauges := {| eta_of := fun g => mkGauges (UNSCOPED g) (AUDITED g) |}.
Definition UM (A : Type) : Type := M AEv Gauges AgScope.Exc A.
Definition uncaught {A} (o : option A) : res AgScope.Exc A := match o with Some a => Ok a | None => Err AgScope.Uncaught end.
Definition scoping_event (e : AgScope.Ev) : AEv := let '(existT r a) := e in existT (Scoping r) a.

Definition nobodys : Owned := nobody "".
Definition Found : Type := list (string * string * Z).
Definition count_of (result : json) : option Z :=
  rows ← item_of "result" result;
  if negb (truthy rows) then Some 0 else
  row ← nth_of 0 rows; value ← item_of "value" row; x ← nth_of 1 value; f ← float_of x; int_of_float f.
Definition add_found (source label : string) (count : Z) (found : Found) : Found :=
  if count =? 0 then found else dset (source, label) (dget_or (source, label) 0 found + count) found.
Section Audit.
Context (svc : service AReq AAns) (cf : AgTools.Config).
Definition SOURCES : list (string * string) := [("af", PROMETHEUS_URL cf); ("cluster", CLUSTER_PROMETHEUS_URL cf)]%string.
Definition scoped (query : string) : UM string := fun s h =>
  let '(r, _, h1) := scope (fun h1 r => svc (h ++ map scoping_event h1)%list (Scoping r)) query nobodys tt [] in (r, s, h ++ map scoping_event h1)%list.
Definition _post (url path : string) (form : list (string * string)) : UM json :=
  data ← (mcall svc (Post url path form) : UM (option json)); mlift (uncaught data).
Fixpoint audit_checks (source url label : string) (l : list string) (found : Found) : UM Found :=
  match l with
  | [] => mret found
  | check :: l =>
      query ← scoped ("count(" ++ check ++ ")");
      result ← _post url "/api/v1/query" [("query", query)]%string;
      count ← mlift (uncaught (count_of result));
      audit_checks source url label l (add_found source label count found)
  end.
Fixpoint audit_labels (source url : string) (labels : list json) (found : Found) : UM Found :=
  match labels with
  | [] => mret found
  | JStr label :: labels =>
      found ← (if bool_decide (label ∈ COVERED) then mret found else audit_checks source url label (checks label) found);
      audit_labels source url labels found
  | _ :: _ => raise AgScope.Uncaught
  end.
Definition labels_form (visible : string) (end_ : Q) : list (string * string) :=
  [("match[]", visible); ("start", fixed_f 3 (f_minus (f_of end_) (f_of WINDOW)))]%string.
Fixpoint audit_sources (visible : string) (end_ : Q) (sources : list (string * string)) (found : Found) : UM Found :=
  match sources with
  | [] => mret found
  | (source, url) :: sources =>
      labels ← _post url "/api/v1/labels" (labels_form visible end_);
      labels ← mlift (uncaught (iter_of labels));
      found ← audit_labels source url labels found;
      audit_sources visible end_ sources found
  end.
Definition all_series : string := "{__name__=~" ++ dquote ".+" ++ "}".
Definition audit : UM Found :=
  end_ ← (mcall svc Time : UM Q);
  visible ← scoped all_series;
  audit_sources visible end_ SOURCES [].
Definition publish (found : Found) : UM unit :=
  mmod (fun g => g <| UNSCOPED := found |>) ≫= fun _ =>
  now ← (mcall svc Time : UM Q); mmod (fun g => g <| AUDITED := f_of now |>).
(** [_forever], for as many rounds as it goes on. *)
Definition round : UM unit :=
  mcatch (found ← audit; publish found) (fun _ => mret tt) ≫= fun _ => (mcall svc (Sleep INTERVAL) : UM unit).
Fixpoint _forever (n : nat) : UM unit := match n with O => mret tt | S n => round ≫= fun _ => _forever n end.
End Audit.

(** ** What an audit asks *)

(** The checks of the labels up to one that is no text. *)
Fixpoint plan_of (source url : string) (labels : list json) : list (string * string * string * string) :=
  match labels with
  | JStr label :: labels =>
      ((if bool_decide (label ∈ COVERED) then [] else map (fun check => (source, url, label, check)) (checks label)) ++ plan_of source url labels)%list
  | _ => []
  end.
(** The sources to come; the checks to come of the last; the query that was scoped last; what
    was counted. *)
Record Doing := mkDoing { sources : list (string * string); plan : list (string * string * string * string); query : option string; counted : Found }.
(** An audit that is being made, of the series that are visible; one that is published. *)
Inductive At := Idle | Started | Busy (visible : string) (d : Doing) | Published (found : Found) | Rested (found : option Found).
Definition matcher_text (m : Matcher) : string * string := (m_name m, text_of (m_value m)).
Definition scoped_text (out : ScopeOut) : option string :=
  match out with Output (Some (JObj answer)) => if truthy (jget "error" (JObj answer)) then None else Some (str_of (jget "query" (JObj answer))) | _ => None end.
Definition asks_of (form : list (string * string)) (k text : string) : bool := bool_decide (dget k form = Some text).
(** Each source is asked for the labels that are visible to nobody; then each check of each
    label that is not covered is counted, as nobody would see it, in the order of the labels. *)
Section Watch.
Context (svc : service AReq AAns) (cf : AgTools.Config).
Definition step (q : At) (e : AEv) : option At :=
  match e, q with
  | existT Time _, Idle => Some Started
  | existT Time _, Busy _ d => match sources d, plan d with [], [] => Some (Published (counted d)) | _, _ => None end
  | existT (Scoping (RunScope text ms)) out, _ =>
      if bool_decide (map matcher_text ms = map matcher_text (matchers nobodys)) then
        match q with
        | Started => if String.eqb text all_series then Some (match scoped_text out with Some visible => Busy visible (mkDoing (SOURCES cf) [] None []) | None => Rested None end) else None
        | Busy visible d =>
            match plan d with
            | (_, _, _, check) :: _ => if String.eqb text ("count(" ++ check ++ ")") then Some (Busy visible (mkDoing (sources d) (plan d) (scoped_text out) (counted d))) else None
            | [] => None
            end
        | _ => None
        end
      else None
  | existT (Post url path form) data, Busy visible d =>
      match plan d, sources d with
      | (source, url', label, _) :: plan, _ =>
          if String.eqb url url' && String.eqb path "/api/v1/query" && match query d with Some text => asks_of form "query" text | None => false end then
            Some (Busy visible (mkDoing (sources d) plan None (match data ≫= count_of with Some n => add_found source label n (counted d) | None => counted d end)))
          else None
      | [], (source, url') :: sources =>
          if String.eqb url url' && String.eqb path "/api/v1/labels" && asks_of form "match[]" visible then
            Some (Busy visible (mkDoing sources (match data ≫= iter_of with Some labels => plan_of source url labels | None => [] end) None (counted d)))
          else None
      | [], [] => None
      end
  | existT (Sleep t) _, _ => if Qeq_bool t INTERVAL then Some (Rested (match q with Published found => Some found | _ => None end)) else None
  | _, _ => None
  end.
Lemma beside_scoped text q s (Q : res AgScope.Exc string -> At -> Gauges -> Prop) :
  (forall out, exists q', step q (existT (Scoping (RunScope text (matchers nobodys))) out) = Some q' /\
     (forall e, Q (Err e) q' s) /\ (forall t, scoped_text out = Some t -> Q (Ok t) q' s)) ->
  beside step q s (scoped svc text) Q.
Proof.
  intros H h. unfold wp, scoped. set (inner := fun h1 r => _). pose proof (scope_asks inner text nobodys []) as Hw.
  unfold wp in Hw. destruct (scope inner text nobodys tt []) as [[r u] h1]. destruct Hw as (out & -> & Ht). cbn [app map scoping_event].
  destruct (H out) as (q' & Hq & He & Hok). exists [existT (Scoping (RunScope text (matchers nobodys))) out], q'. split; [done|].
  split; [cbn [ofold]; by rewrite Hq|]. destruct r as [t|e]; [|apply He]. apply Hok. destruct (Ht t eq_refl) as (answer & -> & Herr & ->). unfold scoped_text. by rewrite Herr.
Qed.
Lemma asked_here url path form q s (Q : res AgScope.Exc json -> At -> Gauges -> Prop) :
  (forall data, exists q', step q (existT (Post url path form) data) = Some q' /\
     (data = None -> Q (Err AgScope.Uncaught) q' s) /\ (forall j, data = Some j -> Q (Ok j) q' s)) ->
  beside step q s (_post svc url path form) Q.
Proof.
  intros H. unfold _post. apply beside_bind, (beside_call step q s svc (Post url path form)). intros data. destruct (H data) as (q' & Hq & He & Hok).
  exists q'. split; [done|]. apply beside_lift. destruct data as [j|]; cbn; [by apply Hok|by apply He].
Qed.
(** What an audit that goes on, or fails, is at. *)
Definition done_with (left : list (string * string)) (rest : list (string * string * string * string)) (visible : string) (g : Gauges) (r : res AgScope.Exc Found) (q : At) (g' : Gauges) : Prop :=
  g' = g /\ match r with Ok found => q = Busy visible (mkDoing left rest None found) | Err _ => forall found, q <> Published found end.
Lemma checks_made source url label cs left rest visible found g :
  beside step (Busy visible (mkDoing left (map (fun check => (source, url, label, check)) cs ++ rest)%list None found)) g
    (audit_checks svc source url label cs found) (done_with left rest visible g).
Proof.
  revert found. induction cs as [|check cs IH]; intros found; cbn [audit_checks map app]; [by apply beside_ret|].
  apply beside_bind, beside_scoped. intros out. eexists. split; [cbn [step plan]; rewrite bool_decide_true by done; rewrite String.eqb_refl; reflexivity|].
  split; [by intros|]. intros text ->. apply beside_bind, asked_here. intros data. eexists.
  split; [cbn [step plan sources query counted]; rewrite !String.eqb_refl; unfold asks_of; rewrite bool_decide_true by done; reflexivity|].
  split; [by intros|]. intros j ->. cbn [mbind option_bind]. apply beside_bind, beside_lift. destruct (count_of j) as [n|]; cbn [uncaught]; [|done]. apply IH.
Qed.
Lemma labels_checked source url labels left visible found g :
  beside step (Busy visible (mkDoing left (plan_of source url labels) None found)) g
    (audit_labels svc source url labels found) (done_with left [] visible g).
Proof.
  revert found. induction labels as [|[] labels IH]; intros found; cbn [audit_labels plan_of]; try (by apply beside_raise); [by apply beside_ret|].
  apply beside_bind. destruct (bool_decide _); [apply beside_ret; apply IH|].
  eapply beside_mono; [apply checks_made|]. intros [found'|e] q' g' [-> H]; [|done]. subst q'. apply IH.
Qed.
Lemma sources_asked visible end_ srcs found g :
  beside step (Busy visible (mkDoing srcs [] None found)) g (audit_sources svc visible end_ srcs found) (done_with [] [] visible g).
Proof.
  revert found. induction srcs as [|[source url] srcs IH]; intros found; cbn [audit_sources]; [by apply beside_ret|].
  apply beside_bind, asked_here. intros data. eexists.
  split; [cbn [step plan sources query counted]; rewrite !String.eqb_refl; unfold asks_of; rewrite bool_decide_true by done; reflexivity|].
  split; [by intros|]. intros j ->. cbn [mbind option_bind]. apply beside_bind, beside_lift. destruct (iter_of j) as [labels|]; cbn [uncaught]; [|done].
  apply beside_bind. eapply beside_mono; [apply labels_checked|]. intros [found'|e] q' g' [-> H]; [|done]. subst q'. apply IH.
Qed.

(** *** Theorem *)

(** An audit that ends has asked each Prometheus for the labels that nobody's scoping leaves
    visible, and has counted every check of every such label that the scoping does not
    cover, as nobody would see it: its numbers are just the answers, by source and label.
    Only then is anything published, and it is those numbers; a round that fails leaves what
    the last one published, with its time. No round stops the next. *)
Theorem audit_complete g :
  beside step Idle g (round svc cf) (fun r q g' => r = Ok tt /\ exists published, q = Rested published /\
    match published with Some found => UNSCOPED g' = found | None => g' = g end).
Proof.
  unfold round. apply beside_bind, beside_catch, beside_bind.
  apply (beside_mono step Idle g _ (fun r q g' => g' = g /\ match r with Ok found => exists visible, q = Busy visible (mkDoing [] [] None found) | Err _ => forall found, q <> Published found end)).
  { unfold audit. apply beside_bind, (beside_call step Idle g svc Time). intros end_. eexists. split; [reflexivity|].
    apply beside_bind, beside_scoped. intros out. eexists. split; [cbn [step]; rewrite bool_decide_true by done; reflexivity|].
    split; [intros e; by destruct (scoped_text out)|]. intros visible ->. eapply beside_mono; [apply sources_asked|]. intros [found|e] q g' [-> H]; [|done]. split; [done|]. by exists visible. }
  intros [found|e] q g' [-> H].
  - destruct H as [visible ->]. unfold publish. apply beside_bind, beside_mod, beside_bind, (beside_call step _ _ svc Time). intros now.
    exists (Published found). split; [done|]. apply beside_mod, (beside_call step _ _ svc (Sleep INTERVAL)). intros []. exists (Rested (Some found)).
    split; [done|]. split; [done|]. by exists (Some found).
  - apply beside_ret, (beside_call step _ _ svc (Sleep INTERVAL)). intros []. exists (Rested None).
    split; [cbn [step]; change (Qeq_bool INTERVAL INTERVAL) with true; destruct q; try done; by destruct (H found)|]. split; [done|]. by exists None.
Qed.
End Watch.
