(* ===== verification/PodMonitor.v ===== *)
(** The exporter beside a session, [docker/af-pod-monitor/pod-metrics-exporter.py]: every
    pass it probes that the session answers, and then reads how full its directories are.
    A gauge is a key of the state with the value that is served. What is logged is left
    out, but not when. *)
From S2P Require Import Prelude PyText PyFloat PyValue PyFormat.
Open Scope Z_scope.

Definition WORK_QUOTA_KB : Z := 104857600.
Definition INTERVAL : Q := 300.
Definition PROBE_TIMEOUT_S : Z := 10.
Definition DF_TIMEOUT_S : Z := 30.
Definition DU_TIMEOUT_S : Z := 600.
Definition RBYTES_TIMEOUT_S : Z := 30.
Definition _DIRS : list string := ["home"; "work"]%string.

(** ** State and world *)

Record State := mkState { metrics : list (string * float); failing : gset string }.
#[export] Instance eta_state : Eta State := {| eta_of := fun s => mkState (metrics s) (failing s) |}.
(** A child that could not be made; one that ended, with what it wrote if that is text; one
    that did not end in time. *)
Inductive Child := NotRun | Done (code : Z) (out : option string) | Stuck.
(** A child, and the second that it has once it is killed; what [/home] holds; the clocks. *)
Inductive Req := Popen (command : list string) (timeout_s : Z) | AfterKill (timeout_s : Z) | ListHome | Monotonic | Time | Sleep (seconds : Q).
Definition Ans (r : Req) : Type :=
  match r with Popen _ _ => Child | AfterKill _ | Sleep _ => unit | ListHome => list string | Monotonic | Time => Q end.
Definition Ev : Type := sigT Ans.
Inductive Exc := Raised.
Definition PM (A : Type) : Type := M Ev State Exc A.
Definition or_raise {A} (o : option A) : res Exc A := match o with Some a => Ok a | None => Err Raised end.

(** ** Readings *)

(** Used and size in KiB, and their ratio; nothing where it raises. *)
Definition Usage : Type := Z * Z * float.
(** An int that a float has no room for, or a quotient, raises. *)
Definition finite_of (x : Q) : option float := match f_of x with Fin q => Some (Fin q) | _ => None end.
Definition ratio (used size : Z) : option float := if size =? 0 then None else finite_of (qz used / qz size).
Fixpoint index_of (x : string) (l : list string) : option nat :=
  match l with [] => None | y :: l => if String.eqb y x then Some O else option_map S (index_of x l) end.
Definition column (name : string) (header data : list string) : option Z :=
  i ← index_of name header; field ← data !! i; int_of_str field.
Definition size_column (used : Z) (header data : list string) (acc : Z * float) (key : string) : option (Z * float) :=
  if bool_decide (key ∈ header) then size ← column key header data; util ← ratio used size; Some (size, util) else Some acc.
Definition parse_df_output (df_output : string) : option Usage :=
  match str_split "010" (str_strip df_output) with
  | header :: data :: _ =>
      let header := str_words header in let data := str_words data in
      used ← column "Used" header data;
      acc ← size_column used header data (0, Fin 0) "1K-blocks";
      '(size, util) ← size_column used header data acc "Size";
      Some (used, size, util)
  | _ => None
  end.
Definition against_quota (used_kb : Z) : option Usage := util ← ratio used_kb WORK_QUOTA_KB; Some (used_kb, WORK_QUOTA_KB, util).
Definition parse_du_output (du_output : string) : option Usage :=
  match str_words du_output with first :: _ => used ← int_of_str first; against_quota used | [] => None end.
Example df_read :
  parse_df_output ("Filesystem     1K-blocks  Used Available Use% Mounted on" ++ String "010" "nas:/h 1000 250 750 25% /home/a")
  = Some (250, 1000, Fin (1 # 4)).
Proof. vm_compute. reflexivity. Qed.

(** ** A pass *)

Section Exporter.
Context (svc : service Req Ans) (executable rbytes_code : string).
(** Output that is no text raises. *)
Definition run_bounded (command : list string) (timeout_s : Z) : PM (bool * string) :=
  child ← (mcall svc (Popen command timeout_s) : PM Child);
  match child with
  | NotRun => mret (false, ""%string)
  | Stuck => (mcall svc (AfterKill 1) : PM unit) ≫= fun _ => mret (false, ""%string)
  | Done code out => out ← mlift (or_raise out); mret (code =? 0, out)
  end.
Definition set (name : string) (value : float) : PM unit := mmod (fun s => s <| metrics := dset name value (metrics s) |>).
Definition flag (b : bool) : float := if b then Fin 1 else Fin 0.
Definition probe_session (home_dir : string) : PM bool :=
  start ← (mcall svc Monotonic : PM Q);
  '(ok, _) ← run_bounded ["ls"; "-la"; home_dir]%string PROBE_TIMEOUT_S;
  now ← (mcall svc Monotonic : PM Q);
  set "session_probe_seconds" (f_minus (f_of now) (f_of start)) ≫= fun _ => set "session_responsive" (flag ok) ≫= fun _ => mret ok.
Definition read_work_usage (directory : string) : PM Usage :=
  '(ok, rbytes) ← run_bounded [executable; "-c"; rbytes_code; directory]%string RBYTES_TIMEOUT_S;
  if negb ok then raise Raised
  else if negb (String.eqb (str_strip rbytes) "") then
    n ← mlift (or_raise (int_of_str rbytes)); mlift (or_raise (against_quota (n / 1024)))
  else
    '(ok, du_output) ← run_bounded ["du"; "-s"; directory]%string DU_TIMEOUT_S;
    if negb ok then raise Raised else mlift (or_raise (parse_du_output du_output)).
Definition read_usage (dir_label directory : string) : PM Usage :=
  if String.eqb dir_label "work" then read_work_usage directory
  else
    '(ok, df_output) ← run_bounded ["df"; directory]%string DF_TIMEOUT_S;
    if negb ok then raise Raised else mlift (or_raise (parse_df_output df_output)).
Definition gauge_of (n : Z) : res Exc float := or_raise (finite_of (qz n)).
Definition set_int (name : string) (n : Z) : PM unit := x ← mlift (gauge_of n); set name x.
Definition update_metrics (dir_label directory : string) : PM unit :=
  '(used, size, util) ← read_usage dir_label directory;
  set_int (dir_label ++ "_dir_used") used ≫= fun _ => set_int (dir_label ++ "_dir_size") size ≫= fun _ => set (dir_label ++ "_dir_util") util.
Definition update_directory (dir_label directory : string) : PM unit :=
  read ← mcatch (update_metrics dir_label directory ≫= fun _ => mret true) (fun _ => mret false);
  if read : bool then mmod (fun s => s <| failing := failing s ∖ {[ dir_label ]} |>) ≫= fun _ => set (dir_label ++ "_dir_ok") (Fin 1)
  else mmod (fun s => s <| failing := {[ dir_label ]} ∪ failing s |>) ≫= fun _ => set (dir_label ++ "_dir_ok") (Fin 0).
Definition beat : PM unit := now ← (mcall svc Time : PM Q); set "heartbeat" (f_of now).
(** One turn of [main]'s loop. *)
Definition pass_ (directories : list (string * string)) : PM unit :=
  responsive ← probe_session (dget_or "home" "" directories)%string;
  (if responsive : bool then mfor directories (fun d => update_directory d.1 d.2)
   else mfor directories (fun d => set (d.1 ++ "_dir_ok") (Fin 0))) ≫= fun _ =>
  beat ≫= fun _ => (mcall svc (Sleep INTERVAL) : PM unit).
Definition discover_username (home_entries : list string) : option string :=
  List.find (fun d => negb (bool_decide (d ∈ ["jovyan"; "slurm"]%string))) home_entries.
Definition discover_directories : PM (list (string * string)) :=
  entries ← (mcall svc ListHome : PM (list string));
  username ← mlift (or_raise (discover_username entries));
  mret [("home", "/home/" ++ username); ("work", "/work/users/" ++ username ++ "/")]%string.
Fixpoint passes (n : nat) (directories : list (string * string)) : PM unit :=
  match n with O => mret tt | S n => pass_ directories ≫= fun _ => passes n directories end.
(** [main], for as many passes as it goes on. *)
Definition main (n : nat) : PM unit := directories ← discover_directories; beat ≫= fun _ => passes n directories.
End Exporter.

(** ** What a pass leaves *)

Definition gauge (name : string) (s : State) : option float := dget name (metrics s).
(** A ratio that is the one of the two numbers, or of no size at all. *)
Definition fits (u : Usage) : Prop := let '(used, size, util) := u in size <> 0 /\ util = f_of (qz used / qz size) \/ size = 0 /\ util = Fin 0.
Lemma ratio_fits used size util : ratio used size = Some util -> fits (used, size, util).
Proof. unfold ratio, finite_of. destruct (Z.eqb_spec size 0); [done|]. destruct (f_of _) eqn:E; [|done..]. intros [= <-]. by left. Qed.
Lemma size_column_fits used header data acc key r : fits (used, acc.1, acc.2) -> size_column used header data acc key = Some r -> fits (used, r.1, r.2).
Proof.
  intros H. unfold size_column. destruct (bool_decide _); [|by intros [= <-]]. destruct (column key header data) as [size|]; [|done]. cbn [mbind option_bind].
  destruct (ratio used size) as [util|] eqn:E; [|done]. cbn [mbind option_bind]. intros [= <-]. by apply ratio_fits.
Qed.
Lemma df_fits out u : parse_df_output out = Some u -> fits u.
Proof.
  unfold parse_df_output. destruct (str_split _ _) as [|header [|data l]]; try done. cbv zeta. destruct (column "Used" _ _) as [used|]; [|done]. cbn [mbind option_bind].
  destruct (size_column used _ _ (0, Fin 0) _) as [acc|] eqn:E1; [|done]. cbn [mbind option_bind].
  destruct (size_column used _ _ acc "Size") as [[size util]|] eqn:E2; [|done]. cbn [mbind option_bind]. intros [= <-].
  apply (size_column_fits used _ _ acc "Size" (size, util)) in E2; [exact E2|]. apply (size_column_fits used _ _ (0, Fin 0) _ acc) in E1; [exact E1|by right].
Qed.
Lemma quota_fits used u : against_quota used = Some u -> fits u.
Proof. unfold against_quota. destruct (ratio _ _) eqn:E; [|done]. cbn [mbind option_bind]. intros [= <-]. by apply ratio_fits. Qed.
Lemma du_fits out u : parse_du_output out = Some u -> fits u.
Proof. unfold parse_du_output. destruct (str_words out); [done|]. destruct (int_of_str _); [|done]. apply quota_fits. Qed.

(** The probe is to come; it failed, or went well; the pass is noted; it is over. *)
Inductive At := Probing | Answered (b : bool) | Beaten (b : bool) | Slept (b : bool).
Section Watch.
Context (svc : service Req Ans) (executable rbytes_code home work : string).
Definition went_well (c : Child) : bool := match c with Done code (Some _) => code =? 0 | _ => false end.
(** Only a session that answered has its directories read; no child is waited for longer
    than its bound, and a second once it is killed. *)
Definition step (q : At) (e : Ev) : option At :=
  match e with
  | existT (Popen command t) child =>
      match q with
      | Probing => if bool_decide (command = ["ls"; "-la"; home]%string) && (t =? PROBE_TIMEOUT_S) then Some (Answered (went_well child)) else None
      | Answered true => if t <=? DU_TIMEOUT_S then Some q else None
      | _ => None
      end
  | existT (AfterKill t) _ => if t =? 1 then Some q else None
  | existT Monotonic _ => Some q
  | existT Time _ => match q with Answered b => Some (Beaten b) | _ => None end
  | existT (Sleep t) _ => match q with Beaten b => Some (Slept b) | _ => None end
  | existT ListHome _ => None
  end.
(** What is served of a directory is what was read of it in the pass, or it is said not to
    be. *)
Definition honest (before after : State) (l : string) : Prop :=
  gauge (l ++ "_dir_ok") after = Some (Fin 1) /\ (exists used size util x y, fits (used, size, util) /\ f_of (qz used) = Fin x /\ f_of (qz size) = Fin y /\
    gauge (l ++ "_dir_used") after = Some (Fin x) /\ gauge (l ++ "_dir_size") after = Some (Fin y) /\ gauge (l ++ "_dir_util") after = Some util) \/
  gauge (l ++ "_dir_ok") after = Some (Fin 0) /\ gauge (l ++ "_dir_util") after = gauge (l ++ "_dir_util") before.
Definition others_same (l : string) (before after : State) : Prop := forall n, startswith (l ++ "_dir_") n = false -> gauge n after = gauge n before.
Notation ok q := (q = Answered true).
Lemma bounded_child command t s (Q : res Exc (bool * string) -> At -> State -> Prop) : t <= DU_TIMEOUT_S ->
  (forall r, Q r (Answered true) s) -> beside step (Answered true) s (run_bounded svc command t) Q.
Proof.
  intros Ht HQ. unfold run_bounded. apply beside_bind, (beside_call step _ s svc (Popen command t)). intros child. exists (Answered true).
  split; [cbn; by rewrite (proj2 (Z.leb_le _ _) Ht)|]. destruct child as [|code out|]; [by apply beside_ret| |].
  - apply beside_bind, beside_lift. destruct out; [by apply beside_ret|apply HQ].
  - apply beside_bind, (beside_call step _ s svc (AfterKill 1)). intros []. exists (Answered true). split; [done|]. by apply beside_ret.
Qed.
Lemma work_usage directory s : beside step (Answered true) s (read_work_usage svc executable rbytes_code directory)
  (fun r q s' => ok q /\ s' = s /\ match r with Ok u => fits u | Err _ => True end).
Proof.
  unfold read_work_usage. apply beside_bind, bounded_child; [done|]. intros [[b rbytes]|e]; [|done]. destruct b; cbn [negb]; [|by apply beside_raise].
  destruct (negb _).
  - apply beside_bind, beside_lift. destruct (int_of_str rbytes) as [n|]; cbn [or_raise]; [|done]. apply beside_lift.
    destruct (against_quota _) eqn:E; cbn; [|done]. split; [done|]. split; [done|]. by apply quota_fits in E.
  - apply beside_bind, bounded_child; [done|]. intros [[b du]|e]; [|done]. destruct b; cbn [negb]; [|by apply beside_raise]. apply beside_lift.
    destruct (parse_du_output du) eqn:E; cbn; [|done]. split; [done|]. split; [done|]. by apply du_fits in E.
Qed.
Lemma usage_read l directory s : beside step (Answered true) s (read_usage svc executable rbytes_code l directory)
  (fun r q s' => ok q /\ s' = s /\ match r with Ok u => fits u | Err _ => True end).
Proof.
  unfold read_usage. destruct (String.eqb _ _); [apply work_usage|]. apply beside_bind, bounded_child; [done|]. intros [[b df]|e]; [|done].
  destruct b; cbn [negb]; [|by apply beside_raise]. apply beside_lift. destruct (parse_df_output df) eqn:E; cbn; [|done].
  split; [done|]. split; [done|]. by apply df_fits in E.
Qed.
Lemma gauge_set name v s n : gauge n (s <| metrics := dset name v (metrics s) |>) = if String.eqb n name then Some v else gauge n s.
Proof. unfold gauge. cbn. destruct (String.eqb_spec n name) as [->|Hne]; [apply dget_dset|by rewrite dget_dset_ne by congruence]. Qed.
Lemma name_ne l a b : a <> b -> String.eqb (l ++ a) (l ++ b) = false.
Proof. intros H. apply String.eqb_neq. intros E%str_app_inv_head. by apply H. Qed.
Lemma own_name l x n : startswith (l ++ "_dir_") n = false -> String.eqb n (l ++ ("_dir_" ++ x)) = false.
Proof. intros H. apply String.eqb_neq. intros ->. by rewrite <- str_app_assoc, startswith_app in H. Qed.
Lemma beside_set name v q s (Q : res Exc unit -> At -> State -> Prop) : Q (Ok tt) q (s <| metrics := dset name v (metrics s) |>) -> beside step q s (set name v) Q.
Proof. intros H. unfold set. by apply beside_mod. Qed.
(** What the gauges of a directory read. *)
Definition told_usage (s : State) (l : string) : Prop := exists used size util x y, fits (used, size, util) /\ f_of (qz used) = Fin x /\ f_of (qz size) = Fin y /\
  gauge (l ++ "_dir_used") s = Some (Fin x) /\ gauge (l ++ "_dir_size") s = Some (Fin y) /\ gauge (l ++ "_dir_util") s = Some util.
Definition partly (l : string) (before after : State) : Prop :=
  others_same l before after /\ gauge (l ++ "_dir_ok") after = gauge (l ++ "_dir_ok") before /\ gauge (l ++ "_dir_util") after = gauge (l ++ "_dir_util") before.
Lemma partly_set l y v before after : partly l before after -> y <> "ok"%string -> y <> "util"%string ->
  partly l before (after <| metrics := dset (l ++ ("_dir_" ++ y))%string v (metrics after) |>).
Proof.
  intros (Ho & Hk & Hu) H1 H2. split_and!; [intros n Hn|..]; rewrite gauge_set.
  - rewrite own_name by done. by apply Ho.
  - by rewrite name_ne by (intros [= E]; by apply H1).
  - by rewrite name_ne by (intros [= E]; by apply H2).
Qed.
Lemma metrics_updated l directory s : beside step (Answered true) s (update_metrics svc executable rbytes_code l directory)
  (fun r q s' => ok q /\ match r with Ok _ => others_same l s s' /\ told_usage s' l | Err _ => partly l s s' end).
Proof.
  unfold update_metrics. apply beside_bind. eapply beside_mono; [apply usage_read|]. intros [[[used size] util]|e] q s' (-> & -> & Hf); [|by split; [|split_and!]].
  assert (H0 : partly l s s) by by split_and!. apply beside_bind. unfold set_int at 1. apply beside_bind, beside_lift. unfold gauge_of at 1, finite_of at 1.
  destruct (f_of (qz used)) as [x| |] eqn:Ex; cbn [or_raise]; [|by split..]. apply beside_set. set (s1 := s <| metrics := _ |>).
  assert (H1 : partly l s s1) by by apply (partly_set l "used").
  apply beside_bind. unfold set_int. apply beside_bind, beside_lift. unfold gauge_of, finite_of.
  destruct (f_of (qz size)) as [y| |] eqn:Ey; cbn [or_raise]; [|by split..]. apply beside_set. set (s2 := s1 <| metrics := _ |>).
  assert (H2 : partly l s s2) by by apply (partly_set l "size"). apply beside_set. split; [done|]. split.
  - intros n Hn. rewrite gauge_set, (own_name l "util") by done. by apply (proj1 H2).
  - exists used, size, util, x, y. split; [done|]. split; [done|]. split; [done|]. rewrite !gauge_set, String.eqb_refl, !name_ne by done.
    unfold s2, s1. rewrite !gauge_set, !String.eqb_refl, !name_ne by done. done.
Qed.
Lemma directory_updated l directory s : beside step (Answered true) s (update_directory svc executable rbytes_code l directory)
  (fun r q s' => r = Ok tt /\ ok q /\ others_same l s s' /\ honest s s' l).
Proof.
  unfold update_directory. apply beside_bind, beside_catch, beside_bind. eapply beside_mono; [apply metrics_updated|].
  intros [[]|e] q s' [-> H]; apply beside_ret.
  - destruct H as [Ho Ht]. apply beside_bind, beside_mod, beside_set. split; [done|]. split; [done|]. split.
    + intros n Hn. rewrite gauge_set, (own_name l "ok") by done. by apply Ho.
    + left. rewrite gauge_set, String.eqb_refl. split; [done|]. destruct Ht as (u & z & v & x & y & H1 & H2 & H3 & H4 & H5 & H6).
      exists u, z, v, x, y. rewrite !gauge_set, !name_ne by done. by split_and!.
  - destruct H as (Ho & Hk & Hu). apply beside_bind, beside_mod, beside_set. split; [done|]. split; [done|]. split.
    + intros n Hn. rewrite gauge_set, (own_name l "ok") by done. by apply Ho.
    + right. rewrite !gauge_set, String.eqb_refl, name_ne by done. by split.
Qed.
Definition directories : list (string * string) := [("home", home); ("work", work)]%string.

Lemma dir_name l y : startswith (l ++ "_dir_") (l ++ ("_dir_" ++ y)) = true.
Proof. rewrite <- str_app_assoc. apply startswith_app. Qed.
(** Honesty is of the directory's own gauges alone. *)
Definition same_dir (l : string) (a b : State) : Prop := forall n, startswith (l ++ "_dir_") n = true -> gauge n b = gauge n a.
Lemma honest_dirs l a b a' b' : same_dir l a a' -> same_dir l b b' -> honest a b l -> honest a' b' l.
Proof.
  intros Ha Hb [(Hk & u & z & v & x & y & H1 & H2 & H3 & H4 & H5 & H6)|[Hk Hu]]; [left|right].
  - rewrite (Hb (l ++ "_dir_ok")%string (dir_name l "ok")). split; [done|]. exists u, z, v, x, y. split_and!; [done..|rewrite Hb|rewrite Hb|rewrite Hb]; try done.
    + exact (dir_name l "used").
    + exact (dir_name l "size").
    + exact (dir_name l "util").
  - rewrite (Hb (l ++ "_dir_ok")%string (dir_name l "ok")), (Hb (l ++ "_dir_util")%string (dir_name l "util")), (Ha (l ++ "_dir_util")%string (dir_name l "util")). by split.
Qed.
Lemma set_same_dir l name v s : startswith (l ++ "_dir_") name = false -> same_dir l s (s <| metrics := dset name v (metrics s) |>).
Proof. intros H n Hn. rewrite gauge_set. destruct (String.eqb_spec n name) as [->|]; [congruence|done]. Qed.
Lemma same_dir_trans l a b c : same_dir l a b -> same_dir l b c -> same_dir l a c.
Proof. intros H1 H2 n Hn. by rewrite (H2 n Hn), (H1 n Hn). Qed.
Lemma other_dir l l' a b : others_same l' a b -> (forall n, startswith (l ++ "_dir_") n = true -> startswith (l' ++ "_dir_") n = false) -> same_dir l a b.
Proof. intros H Hne n Hn. by apply H, Hne. Qed.
Lemma home_not_work n : startswith ("home" ++ "_dir_") n = true -> startswith ("work" ++ "_dir_") n = false.
Proof.
  destruct n as [|c n]; [done|]. unfold startswith. change (String.prefix ("home" ++ "_dir_") (String c n))%string with (if ascii_dec "h" c then String.prefix "ome_dir_" n else false).
  destruct (ascii_dec "h" c) as [<-|]; [by intros _|by intros].
Qed.
Lemma probed s : beside step Probing s (probe_session svc home) (fun r q s' => match r with
  | Err _ => q = Answered false /\ s' = s
  | Ok b => q = Answered b /\ gauge "session_responsive" s' = Some (flag b) /\ forall l, l ∈ ["home"; "work"]%string -> same_dir l s s'
  end).
Proof.
  unfold probe_session. apply beside_bind, (beside_call step Probing s svc Monotonic). intros start. exists Probing. split; [done|].
  apply beside_bind. apply (beside_mono step Probing s _ (fun r q s' => s' = s /\ match r with Err _ => q = Answered false | Ok (b, _) => q = Answered b end)).
  { unfold run_bounded. apply beside_bind, (beside_call step Probing s svc (Popen _ _)). intros child. exists (Answered (went_well child)).
    split; [cbn [step]; by rewrite bool_decide_true by done|]. destruct child as [|code [out|]|]; [by apply beside_ret| | |].
    - apply beside_bind, beside_lift. cbn [or_raise]. by apply beside_ret.
    - apply beside_bind, beside_lift. by cbn [or_raise].
    - apply beside_bind, (beside_call step _ s svc (AfterKill 1)). intros []. exists (Answered false). split; [done|]. by apply beside_ret. }
  intros [[b out]|e] q s' [-> ->]; [|done]. apply beside_bind, (beside_call step _ s svc Monotonic). intros now. exists (Answered b). split; [done|].
  apply beside_bind, beside_set. apply beside_bind, beside_set, beside_ret. split; [done|]. split; [by rewrite gauge_set, String.eqb_refl|].
  intros l Hl. eapply same_dir_trans; [|apply set_same_dir]; [apply set_same_dir|]; by repeat (apply elem_of_cons in Hl as [->|Hl]; [done|]); apply elem_of_nil in Hl.
Qed.
(** What ends a pass. *)
Lemma noted_pass b s (Q : res Exc unit -> At -> State -> Prop) :
  (forall v, Q (Ok tt) (Slept b) (s <| metrics := dset "heartbeat"%string v (metrics s) |>)) ->
  beside step (Answered b) s (beat svc ≫= fun _ => (mcall svc (Sleep INTERVAL) : PM unit)) Q.
Proof.
  intros HQ. apply beside_bind. unfold beat. apply beside_bind, (beside_call step _ s svc Time). intros now. exists (Beaten b). split; [done|].
  apply beside_set, (beside_call step _ _ svc (Sleep INTERVAL)). intros []. exists (Slept b). by split.
Qed.
Lemma beat_same l v s : l ∈ ["home"; "work"]%string -> same_dir l s (s <| metrics := dset "heartbeat"%string v (metrics s) |>).
Proof. intros Hl. apply set_same_dir. by repeat (apply elem_of_cons in Hl as [->|Hl]; [done|]); apply elem_of_nil in Hl. Qed.

(** *** Theorem *)

(** A pass serves what it read: whether the session answered its probe; of each directory,
    usage that was read in this very pass and whose ratio is that of its numbers, or that
    it was not read, with the last ratio kept; of a session that did not answer nothing is
    read at all. Each child is bounded, and the pass is noted before the pause. Nothing
    fails it but a probe whose output is no text. *)
Theorem pass_honest s : beside step Probing s (pass_ svc executable rbytes_code directories)
  (fun r q s' => match r with
     | Err _ => q = Answered false /\ s' = s
     | Ok _ => exists answered, q = Slept answered /\ gauge "session_responsive" s' = Some (flag answered) /\
         (forall l, l ∈ ["home"; "work"]%string -> honest s s' l) /\
         (answered = false -> forall l, l ∈ ["home"; "work"]%string -> gauge (l ++ "_dir_ok") s' = Some (Fin 0))
     end).
Proof.
  unfold pass_. apply beside_bind. eapply beside_mono; [apply probed|]. intros [b|e] q s1 H1; [|done]. destruct H1 as (-> & Hr & Hs1).
  apply beside_bind. destruct b; cbn [mfor directories fst snd].
  - apply beside_bind. eapply beside_mono; [apply directory_updated|]. intros r q s2 (-> & -> & Ho2 & Hh2).
    apply beside_bind. eapply beside_mono; [apply directory_updated|]. intros r q s3 (-> & -> & Ho3 & Hh3). apply beside_ret.
    apply noted_pass. intros v. exists true. split; [done|]. split; [by rewrite gauge_set, (Ho3 "session_responsive"%string), (Ho2 "session_responsive"%string)|]. split; [|done].
    assert (H23 : same_dir "home" s2 s3) by exact (other_dir _ _ _ _ Ho3 home_not_work).
    assert (H12 : same_dir "work" s2 s1).
    { intros n Hn. symmetry. apply Ho2. destruct (startswith ("home" ++ "_dir_") n) eqn:E; [|done]. by rewrite (home_not_work n E) in Hn. }
    assert (Hrev : forall l, l ∈ ["home"; "work"]%string -> same_dir l s1 s) by (intros l Hl n Hn; symmetry; by apply (Hs1 l Hl)).
    intros l Hl. pose proof (Hrev l Hl) as Hback. pose proof (beat_same l v s3 Hl) as Hbeat.
    apply elem_of_cons in Hl as [->|Hl%list_elem_of_singleton]; [|subst l].
    + eapply honest_dirs; [exact Hback| |exact Hh2]. by eapply same_dir_trans.
    + eapply honest_dirs; [| |exact Hh3]; [by eapply same_dir_trans|exact Hbeat].
  - apply beside_bind, beside_set. apply beside_bind, beside_set. apply beside_ret. apply noted_pass. intros v. exists false.
    split; [done|]. split; [by rewrite !gauge_set|].
    assert (Hzero : forall l, l ∈ ["home"; "work"]%string -> gauge (l ++ "_dir_ok")
      ((s1 <| metrics := dset "home_dir_ok"%string (Fin 0) (metrics s1) |>) <| metrics := dset "work_dir_ok"%string (Fin 0) (dset "home_dir_ok"%string (Fin 0) (metrics s1)) |>
        <| metrics := dset "heartbeat"%string v (dset "work_dir_ok"%string (Fin 0) (dset "home_dir_ok"%string (Fin 0) (metrics s1))) |>) = Some (Fin 0)).
    { intros l Hl. unfold gauge. cbn. apply elem_of_cons in Hl as [->|Hl%list_elem_of_singleton]; [|subst l];
        rewrite ?dget_dset, ?dget_dset_ne by done; rewrite ?dget_dset, ?dget_dset_ne by done; by rewrite ?dget_dset. }
    split; [|intros _; exact Hzero]. intros l Hl. right. split; [by apply Hzero|]. pose proof (Hs1 l Hl) as Hl1.
    rewrite <- (Hl1 (l ++ "_dir_util")%string (dir_name l "util")). rewrite !gauge_set.
    by apply elem_of_cons in Hl as [->|Hl%list_elem_of_singleton]; [|subst l].
Qed.
End Watch.
(** A session whose home holds a name that is no text stops the exporter. *)
Lemma undecodable_stops :
  let svc : service Req Ans := fun h r => match r return Ans r with Popen _ _ => Done 0 None | AfterKill _ | Sleep _ => tt | ListHome => ["a"%string] | Monotonic | Time => 0%Q end in
  (main svc "python" "" 1 (mkState [] ∅) []).1.1 = Err Raised.
Proof. vm_compute. reflexivity. Qed.
