(* ===== verification/RepoScripts.v ===== *)
(** Scripts of the repository: the block that the facility keeps in a user's file,
    [docker/purdue-af/scripts/managed-block.py]; the releases of the images,
    [.github/workflows/bump-af-version.py] and [bump-agentic-version.py]; and how far each
    component is released, [component-status.py] there. *)
From S2P Require Import Prelude PyJson PyText PyValue.
Open Scope Z_scope.
Open Scope string_scope.

(** ** Finding a text *)

(** [s.find(p)], by what stands before the first [p] and after it. *)
Fixpoint str_cut (p s : string) : option (string * string) :=
  if startswith p s then Some ("", str_drop (String.length p) s)
  else match s with
       | EmptyString => None
       | String c s' => match str_cut p s' with Some (l, r) => Some (String c l, r) | None => None end
       end.
Definition nl : ascii := "010".
Definition is_nl (c : ascii) : bool := Ascii.eqb c nl.
Definition newline : string := String nl "".
Definition one_line (p : string) : bool := negb (str_existsb is_nl p).

(** ** The managed block *)

Definition BEGIN : string := "<!-- BEGIN PURDUE AF — managed, edits inside are overwritten -->".
Definition END_ : string := "<!-- END PURDUE AF -->".
Definition render (section : string) : string := BEGIN ++ newline ++ str_strip section ++ newline ++ END_.
Definition lstrip_nl : string -> string := str_lstrip is_nl.
Definition rstrip_nl : string -> string := str_rstrip is_nl.
Definition apply_block (existing section : string) : string :=
  let block := render section in
  let appended := if String.eqb (str_strip existing) "" then block ++ newline else rstrip_nl existing ++ newline ++ newline ++ block ++ newline in
  match str_cut BEGIN existing with
  | None => appended
  | Some (before, after) =>
      match str_cut END_ (BEGIN ++ after) with
      | None => appended
      | Some (_, rest) =>
          let head := rstrip_nl before in
          let tail := lstrip_nl rest in
          let parts := List.filter (fun p => negb (String.eqb p "")) [head; block; rstrip_nl tail] in
          str_join (newline ++ newline) parts ++ newline
      end
  end.
(** [main], of the file's text, if it is a file: what is written, if anything. *)
Definition managed_main (section : string) (target : option string) : option string :=
  let existing := default "" target in
  let updated := apply_block existing section in
  if String.eqb updated existing then None else Some updated.

Example block_replaced : apply_block ("# mine" ++ newline ++ BEGIN ++ newline ++ "old" ++ newline ++ END_ ++ newline ++ "# more" ++ newline) "new"
  = "# mine" ++ newline ++ newline ++ render "new" ++ newline ++ newline ++ "# more" ++ newline.
Proof. vm_compute. reflexivity. Qed.

(** *** Lemmas *)

Lemma starts_more p a b : startswith p a = true -> startswith p (a ++ b) = true.
Proof.
  unfold startswith. revert a. induction p as [|c p IH]; intros [|d a]; [by destruct b|done|done|]. change (String d a ++ b) with (String d (a ++ b)). cbn [String.prefix]. destruct (ascii_dec c d); [by apply IH|done].
Qed.
(** A text on one line stands before a newline just if it does at the end. *)
Lemma starts_line p a b : one_line p = true -> startswith p (a ++ String nl b) = startswith p a.
Proof.
  unfold one_line, startswith. revert a. induction p as [|c p IH]; intros a Hp; [by destruct a|]. cbn [str_existsb] in Hp. rewrite negb_orb in Hp. apply andb_true_iff in Hp as [Hc Hp].
  destruct a as [|d a]; cbn [String.append String.prefix].
  - change ("" ++ String nl b) with (String nl b). cbn [String.prefix]. destruct (ascii_dec c nl) as [->|]; [by vm_compute in Hc|done].
  - change (String d a ++ String nl b) with (String d (a ++ String nl b)). cbn [String.prefix]. destruct (ascii_dec c d); [by apply IH|done].
Qed.
Lemma cut_prefix p a b : str_cut p (a ++ b) = None -> str_cut p a = None.
Proof.
  revert b. induction a as [|c a IH]; intros b.
  - change ("" ++ b) with b. cbn [str_cut]. destruct (startswith p "") eqn:E; [|done]. apply (starts_more _ _ b) in E. change ("" ++ b) with b in E. destruct b; cbn [str_cut]; by rewrite E.
  - change (String c a ++ b) with (String c (a ++ b)). cbn [str_cut]. destruct (startswith p (String c a)) eqn:E.
    + apply (starts_more _ _ b) in E. change (String c a ++ b) with (String c (a ++ b)) in E. by rewrite E.
    + destruct (startswith p (String c (a ++ b))); [done|]. destruct (str_cut p (a ++ b)) as [[]|] eqn:E2; [done|]. by rewrite (IH b E2).
Qed.
Lemma cut_before p s l r : p <> "" -> str_cut p s = Some (l, r) -> str_cut p l = None.
Proof.
  intros Hp. revert l. induction s as [|c s IH]; intros l; cbn [str_cut].
  - destruct p; [done|]. done.
  - destruct (startswith p (String c s)) eqn:E.
    + intros [= <- <-]. by destruct p.
    + destruct (str_cut p s) as [[l' r']|] eqn:Ec; [|done]. intros [= <- <-]. cbn [str_cut].
      destruct (startswith p (String c l')) eqn:E2; [|by rewrite (IH l' eq_refl)]. exfalso.
      assert (Hs : exists u, s = l' ++ u).
      { clear - Ec. revert l' r' Ec. induction s as [|d s IH]; intros l' r'; cbn [str_cut].
        - destruct (startswith p ""); [intros [= <- <-]; by exists ""|done].
        - destruct (startswith p (String d s)); [intros [= <- <-]; by exists (String d s)|]. destruct (str_cut p s) as [[l2 r2]|]; [|done].
          intros [= <- <-]. destruct (IH l2 r2 eq_refl) as [u ->]. by exists u. }
      destruct Hs as [u ->]. apply (starts_more _ _ u) in E2. change (String c l' ++ u) with (String c (l' ++ u)) in E2. by rewrite E2 in E.
Qed.
Lemma cut_here p t : str_cut p (p ++ t) = Some ("", t).
Proof. destruct (p ++ t) eqn:E; cbn [str_cut]; rewrite <- E, startswith_app, str_drop_app; done. Qed.
(** Past a line without it. *)
Lemma cut_line p h t : p <> "" -> one_line p = true -> str_cut p h = None ->
  str_cut p (h ++ String nl t) = match str_cut p t with Some (l, r) => Some (h ++ String nl l, r) | None => None end.
Proof.
  intros Hne Hp. induction h as [|c h IH].
  - intros _. change ("" ++ String nl t) with (String nl t). cbn [str_cut]. pose proof (starts_line p "" t Hp) as E. change ("" ++ String nl t) with (String nl t) in E. rewrite E.
    destruct p; [done|]. cbn. by destruct (str_cut _ t) as [[]|].
  - change (String c h ++ String nl t) with (String c (h ++ String nl t)). cbn [str_cut].
    pose proof (starts_line p (String c h) t Hp) as E. change (String c h ++ String nl t) with (String c (h ++ String nl t)) in E. rewrite E.
    destruct (startswith p (String c h)); [done|]. destruct (str_cut p h) as [[]|] eqn:Eh; [done|]. intros _. rewrite (IH eq_refl). by destruct (str_cut p t) as [[]|].
Qed.
Lemma rstrip_split q s : exists u, s = str_rstrip q s ++ u /\ str_forallb q u = true.
Proof.
  induction s as [|c s (u & IH & Hu)]; [by exists ""|]. cbn [str_rstrip]. destruct (str_rstrip q s) as [|d t] eqn:E.
  - change ("" ++ u) with u in IH. subst u. destruct (q c) eqn:Ec; [exists (String c s); cbn [str_forallb]; by rewrite Ec|by exists s].
  - exists u. split; [|done]. change (String c (String d t) ++ u) with (String c (String d t ++ u)). by rewrite <- IH.
Qed.
Lemma rstrip_all q s u : str_forallb q u = true -> str_rstrip q (s ++ u) = str_rstrip q s.
Proof.
  intros Hu. assert (H0 : str_rstrip q u = "").
  { induction u as [|c u IH]; [done|]. cbn [str_forallb] in Hu. apply andb_true_iff in Hu as [Hc Hu]. cbn [str_rstrip]. by rewrite (IH Hu), Hc. }
  induction s as [|c s IH]; [done|]. change (String c s ++ u) with (String c (s ++ u)). cbn [str_rstrip]. by rewrite IH.
Qed.
Lemma rstrip_twice q s : str_rstrip q (str_rstrip q s) = str_rstrip q s.
Proof. destruct (rstrip_split q s) as (u & E & Hu). rewrite E at 2. by rewrite rstrip_all. Qed.
Lemma lstrip_first q s : first_is q (str_lstrip q s) = false.
Proof. induction s as [|c s IH]; [done|]. cbn [str_lstrip]. destruct (q c) eqn:E; [done|]. cbn. exact E. Qed.
Lemma strip_blank s : rstrip_nl s = "" -> str_strip s = "".
Proof.
  intros H. destruct (rstrip_split is_nl s) as (u & E & Hu). unfold rstrip_nl in H. rewrite H in E. change ("" ++ u) with u in E. subst s. clear H.
  assert (Hl : str_lstrip is_space u = ""); [|unfold str_strip, str_strip_of; by rewrite Hl].
  induction u as [|c u IH]; [done|]. cbn [str_forallb] in Hu. apply andb_true_iff in Hu as [Hc Hu]. cbn [str_lstrip].
  replace (is_space c) with true; [by apply IH|]. unfold is_nl in Hc. apply Ascii.eqb_eq in Hc as ->. reflexivity.
Qed.

(** What stands outside the block, less the empty lines at its edges. *)
Definition outside (existing : string) : string * string :=
  let all := if String.eqb (str_strip existing) "" then "" else rstrip_nl existing in
  match str_cut BEGIN existing with
  | None => (all, "")
  | Some (before, after) =>
      match str_cut END_ (BEGIN ++ after) with None => (all, "") | Some (_, rest) => (rstrip_nl before, rstrip_nl (lstrip_nl rest)) end
  end.
(** A file with no block, or with a whole one. *)
Definition whole_block (existing : string) : Prop :=
  match str_cut BEGIN existing with Some (_, after) => is_Some (str_cut END_ (BEGIN ++ after)) | None => True end.
Definition blank_line : string := newline ++ newline.
Definition block_shape (out : string * string) (section : string) : string :=
  (if String.eqb out.1 "" then "" else out.1 ++ blank_line) ++ render section ++ (if String.eqb out.2 "" then "" else blank_line ++ out.2) ++ newline.
Definition tidy (out : string * string) : Prop :=
  str_cut BEGIN out.1 = None /\ rstrip_nl out.1 = out.1 /\ first_is is_nl out.2 = false /\ rstrip_nl out.2 = out.2.
Lemma block_not_empty section : String.eqb (render section) "" = false.
Proof. reflexivity. Qed.
Lemma shaped existing section : apply_block existing section = block_shape (outside existing) section.
Proof.
  unfold apply_block, outside. cbv zeta.
  assert (Ha : (if String.eqb (str_strip existing) "" then render section ++ newline else rstrip_nl existing ++ newline ++ newline ++ render section ++ newline)
    = block_shape (if String.eqb (str_strip existing) "" then "" else rstrip_nl existing, "") section).
  { unfold block_shape. cbn [fst snd]. destruct (String.eqb_spec (str_strip existing) "") as [E|E]; [done|].
    destruct (String.eqb_spec (rstrip_nl existing) "") as [E2|E2]; [by apply strip_blank in E2|]. unfold blank_line. by rewrite !str_app_assoc. }
  destruct (str_cut BEGIN existing) as [[before after]|]; [|exact Ha]. destruct (str_cut END_ _) as [[mid rest]|]; [|exact Ha].
  unfold block_shape. cbn [fst snd List.filter]. rewrite block_not_empty. cbn [negb].
  destruct (String.eqb_spec (rstrip_nl before) "") as [E1|E1], (String.eqb_spec (rstrip_nl (lstrip_nl rest)) "") as [E2|E2]; cbn [negb str_join String.concat];
    unfold str_join, blank_line; cbn [String.concat]; rewrite ?str_app_assoc; done.
Qed.
Lemma rstrip_first q s : first_is q s = false -> first_is q (str_rstrip q s) = false.
Proof. destruct s as [|c s]; [done|]. cbn [first_is]. intros H. cbn [str_rstrip]. destruct (str_rstrip q s); [by rewrite H|done]. Qed.
Lemma outside_tidy existing : tidy (outside existing) \/ ~ whole_block existing.
Proof.
  unfold outside, whole_block. destruct (str_cut BEGIN existing) as [[before after]|] eqn:E.
  - destruct (str_cut END_ _) as [[mid rest]|]; [left|right; by intros [? ?]]. split_and!; cbn [fst snd].
    + apply cut_before in E; [|done]. destruct (rstrip_split is_nl before) as (u & Eu & _). unfold rstrip_nl. apply (cut_prefix _ _ u). by rewrite <- Eu.
    + apply rstrip_twice.
    + apply rstrip_first, lstrip_first.
    + apply rstrip_twice.
  - left. destruct (String.eqb_spec (str_strip existing) "") as [Eb|Eb]; split_and!; cbn [fst snd]; try done.
    + destruct (rstrip_split is_nl existing) as (u & Eu & _). unfold rstrip_nl. apply (cut_prefix _ _ u). by rewrite <- Eu.
    + apply rstrip_twice.
Qed.
Lemma end_found section rest : str_cut END_ (str_strip section) = None ->
  exists mid, str_cut END_ (render section ++ rest) = Some (mid, rest).
Proof.
  intros H. unfold render, newline. rewrite !str_app_assoc. change (String nl "" ++ ?s) with (String nl s).
  rewrite (cut_line END_ BEGIN); [|done|done|done]. change (String nl "" ++ END_ ++ rest) with (String nl (END_ ++ rest)).
  rewrite (cut_line END_ (str_strip section)); [|done|done|done]. rewrite cut_here. by eexists.
Qed.
(** What is written is read back. *)
Lemma outside_shape out section : str_cut END_ (str_strip section) = None -> tidy out -> whole_block (block_shape out section) /\ outside (block_shape out section) = out.
Proof.
  intros Hs (Hb & Hr & Hf & Ht). destruct out as [h t]. cbn [fst snd] in *.
  set (rest := (if String.eqb t "" then "" else blank_line ++ t) ++ newline). destruct (end_found section rest Hs) as [mid Em].
  assert (Hcut : exists before, str_cut BEGIN (block_shape (h, t) section) = Some (before, str_drop (String.length BEGIN) (render section ++ rest)) /\ rstrip_nl before = h).
  { unfold block_shape. cbn [fst snd]. fold rest. assert (Hblock : forall r, str_cut BEGIN (render section ++ r) = Some ("", str_drop (String.length BEGIN) (render section ++ r))).
    { intros r. unfold render. rewrite !str_app_assoc, cut_here, str_drop_app. done. }
    destruct (String.eqb_spec h "") as [->|Hh]; [exists ""; split; [apply Hblock|done]|].
    exists (h ++ String nl (String nl "")). split.
    - unfold blank_line. change (newline ++ newline) with (String nl (String nl "")). rewrite str_app_assoc. change (String nl (String nl "") ++ ?s) with (String nl (String nl s)).
      rewrite cut_line by done. pose proof (cut_line BEGIN "" (render section ++ rest)) as H2. change ("" ++ ?s) with s in H2. rewrite H2 by done. rewrite Hblock. done.
    - unfold rstrip_nl. by rewrite rstrip_all. }
  destruct Hcut as (before & Ec & Eh). assert (Eb : BEGIN ++ str_drop (String.length BEGIN) (render section ++ rest) = render section ++ rest).
  { unfold render. rewrite !str_app_assoc. by rewrite str_drop_app. }
  unfold whole_block, outside. rewrite Ec, Eb, Em. split; [done|]. rewrite Eh. f_equal. subst rest. destruct (String.eqb_spec t "") as [->|Hne]; [done|].
  assert (El : lstrip_nl ((blank_line ++ t) ++ newline) = t ++ newline) by (change (lstrip_nl ((blank_line ++ t) ++ newline)) with (str_lstrip is_nl (t ++ newline)); apply lstrip_id; by destruct t).
  rewrite El. unfold rstrip_nl. by rewrite rstrip_all.
Qed.

(** *** Theorem *)

(** The managed block is idempotent, and takes nothing that is a user's: in a file with a
    whole block, or none, what stands outside it stays as it was, but for the empty lines
    at its edges; and a second run finds nothing to write. *)
Theorem block_idempotent existing section : str_cut END_ (str_strip section) = None -> whole_block existing ->
  let updated := apply_block existing section in
  outside updated = outside existing /\ apply_block updated section = updated /\ managed_main section (Some updated) = None.
Proof.
  intros Hs Hw. cbv zeta. rewrite shaped. destruct (outside_tidy existing) as [Ht|]; [|done]. destruct (outside_shape _ section Hs Ht) as [_ Ho].
  assert (Ha : apply_block (block_shape (outside existing) section) section = block_shape (outside existing) section) by (by rewrite shaped, Ho).
  split; [done|]. split; [done|]. unfold managed_main. cbv zeta. change (default "" (Some (block_shape (outside existing) section))) with (block_shape (outside existing) section). by rewrite Ha, String.eqb_refl.
Qed.
Lemma block_idempotent_witness :
  let updated := apply_block ("# mine" ++ newline) "new" in
  outside updated = ("# mine", "") /\ apply_block updated "new" = updated /\ managed_main "new" (Some updated) = None.
Proof. apply (block_idempotent ("# mine" ++ newline) "new"); [reflexivity|exact I]. Defined.
(** Where a user's text names the first marker alone, or the second is lost, a first run
    keeps what follows it, and a second removes it. *)
Definition half_block : string := "# mine" ++ newline ++ BEGIN ++ newline ++ "# more of mine" ++ newline.
Lemma unclosed_marker_lost :
  str_contains "# more of mine" (apply_block half_block "new") = true /\
  apply_block (apply_block half_block "new") "new" = "# mine" ++ blank_line ++ render "new" ++ newline.
Proof. split; vm_compute; reflexivity. Qed.

(** ** Regular expressions *)

(** The patterns of the scripts, which never match an empty text: a character of a class,
    any number of one as long as may be, one pattern after the other, a group that is kept;
    the beginning and the end of a line. *)
Inductive re := Chr (p : ascii -> bool) | Star (p : ascii -> bool) | Cat (a b : re) | Keep (a : re) | Empty | Bol | Eol.
Definition begins (prev : option ascii) : bool := match prev with None => true | Some c => is_nl c end.
Definition ends_line (s : string) : bool := match s with EmptyString => true | String c _ => is_nl c end.
Section Match.
Context {T : Type}.
(** What goes on after a match: the character before it, what is left, the groups so far. *)
Definition Next : Type := option ascii -> string -> list string -> option T.
Fixpoint star (p : ascii -> bool) (prev : option ascii) (s : string) (groups : list string) (k : Next) : option T :=
  match s with
  | String c s' =>
      match (if p c then star p (Some c) s' groups k else None) with Some t => Some t | None => k prev s groups end
  | EmptyString => k prev s groups
  end.
Fixpoint re_match (r : re) (prev : option ascii) (s : string) (groups : list string) (k : Next) : option T :=
  match r with
  | Chr p => match s with String c s' => if p c then k (Some c) s' groups else None | EmptyString => None end
  | Star p => star p prev s groups k
  | Cat a b => re_match a prev s groups (fun prev s groups => re_match b prev s groups k)
  | Keep a => re_match a prev s groups (fun prev' s' groups' => k prev' s' (groups' ++ [str_take (String.length s - String.length s') s])%list)
  | Empty => k prev s groups
  | Bol => if begins prev then k prev s groups else None
  | Eol => if ends_line s then k prev s groups else None
  end.
End Match.
Fixpoint lit (s : string) : re := match s with EmptyString => Empty | String c s' => Cat (Chr (Ascii.eqb c)) (lit s') end.
Definition plus (p : ascii -> bool) : re := Cat (Chr p) (Star p).
(** A match that begins here: what is before what is left, what is left, the groups. *)
Definition match_here (r : re) (prev : option ascii) (s : string) : option (option ascii * string * list string) :=
  re_match r prev s [] (fun prev s groups => Some (prev, s, groups)).
(** [re.search]: the groups of the first match. *)
Fixpoint search_from (r : re) (prev : option ascii) (s : string) : option (list string) :=
  match match_here r prev s with
  | Some (_, _, groups) => Some groups
  | None => match s with EmptyString => None | String c s' => search_from r (Some c) s' end
  end.
Definition re_search (r : re) (s : string) : option (list string) := search_from r None s.
Definition group1 (groups : list string) : string := hd "" groups.
(** [re.subn], of at most as many characters as the fuel. *)
Fixpoint subn_from (fuel : nat) (r : re) (repl : list string -> string) (prev : option ascii) (s : string) : string * nat :=
  match fuel, s with
  | S fuel, String c s' =>
      match match_here r prev s with
      | Some (prev', rest, groups) =>
          if (String.length rest <? String.length s)%nat then let '(t, n) := subn_from fuel r repl prev' rest in (repl groups ++ t, S n)
          else let '(t, n) := subn_from fuel r repl (Some c) s' in (String c t, n)
      | None => let '(t, n) := subn_from fuel r repl (Some c) s' in (String c t, n)
      end
  | _, _ => (s, O)
  end.
Definition subn (r : re) (repl : list string -> string) (s : string) : string * nat := subn_from (String.length s) r repl None s.

(** ** Releases of the images *)

Definition digits : re := plus is_digit.
Definition VERSION_RE : re := Cat digits (Cat (lit ".") (Cat digits (Cat (lit ".") digits))).
Definition quote_mark : string := String "034" "".
Definition not_quote (c : ascii) : bool := negb (Ascii.eqb c "034").
Definition version_of (s : string) : option (Z * Z * Z) :=
  match str_split "." s with
  | [a; b; c] => major ← int_of_str a; minor ← int_of_str b; patch ← int_of_str c; Some (major, minor, patch)
  | _ => None
  end.
Inductive Kind := Major | Minor | Patch.
Definition dotted (v : Z * Z * Z) : string := pretty v.1.1 ++ "." ++ pretty v.1.2 ++ "." ++ pretty v.2.
Definition next_version (v : Z * Z * Z) (kind : Kind) : Z * Z * Z :=
  let '(major, minor, patch) := v in
  match kind with Major => ((major + 1)%Z, 0%Z, 0%Z) | Minor => (major, (minor + 1)%Z, 0%Z) | Patch => (major, minor, (patch + 1)%Z) end.
Definition bump_version (cur : string) (kind : Kind) : option string := v ← version_of cur; Some (dotted (next_version v kind)).

(** *** The image of the sessions *)

Definition LABEL_RE : re := Cat (lit ("docker_image_tag: " ++ quote_mark)) (Cat (Keep VERSION_RE) (lit quote_mark)).
(** [current_version], and where the script ends with an error. *)
Definition current_version (text : string) : option string := option_map group1 (re_search LABEL_RE text).
Definition between (middle : string) (groups : list string) : string := match groups with [a; b] => a ++ middle ++ b | a :: _ => a ++ middle | [] => middle end.
(** The five places, each with what replaces it; a registry has no backslash, which a
    replacement would take for an escape. *)
Definition subs (new_version registry : string) : list (re * (list string -> string)) :=
  [(Cat Bol (Cat (Keep (Cat (Star is_space) (lit ("name: " ++ quote_mark)))) (Cat (Star not_quote) (Cat (lit "/purdue-af") (Keep (lit quote_mark))))), between registry);
   (Cat Bol (Cat (Keep (Cat (Star is_space) (lit ("tag: " ++ quote_mark)))) (Cat VERSION_RE (Keep (lit quote_mark)))), between new_version);
   (Cat (Keep (lit ("docker_image_tag: " ++ quote_mark))) (Cat VERSION_RE (Keep (lit quote_mark))), between new_version);
   (Cat (Keep (lit ("display_name: " ++ quote_mark ++ "Purdue AF "))) VERSION_RE, between new_version);
   (Cat (Keep (lit ("image: " ++ quote_mark))) (Cat (Star not_quote) (Cat (lit "/purdue-af:") (Cat VERSION_RE (Keep (lit quote_mark))))), between (registry ++ ":" ++ new_version))].
Definition sub_once (text : string) (sub : re * (list string -> string)) : option string :=
  let '(text, n) := subn sub.1 sub.2 text in if Nat.eqb n 1 then Some text else None.
Definition apply (text new_version registry : string) : option string := ofold sub_once text (subs new_version registry).
Definition sync_sub (new_version registry : string) : re * (list string -> string) :=
  (Cat (Keep (lit "image: ")) (Cat (Star (fun c => negb (is_space c) && not_quote c)) (Cat (lit "/purdue-af:") VERSION_RE)), between (registry ++ ":" ++ new_version)).
Definition apply_sync (text new_version registry : string) : option string := sub_once text (sync_sub new_version registry).
Definition fullmatch (r : re) (s : string) : bool :=
  match re_match r None s [] (fun _ rest _ => if String.eqb rest "" then Some tt else None) with Some _ => true | None => false end.
Inductive Ask := PrintCurrent | Bump (kind : Kind) | SetTo (explicit : string).
Definition new_version (cur : string) (ask : Ask) : option string :=
  match ask with PrintCurrent => Some cur | Bump kind => bump_version cur kind | SetTo v => if fullmatch VERSION_RE v then Some v else None end.
(** [main]: what is printed, and the two files as they are written. *)
Definition bump_main (text sync registry : string) (ask : Ask) (dry_run : bool) : option (string * option (string * string)) :=
  cur ← current_version text;
  match ask with
  | PrintCurrent => Some (cur, None)
  | _ =>
      new ← new_version cur ask;
      updated ← apply text new registry;
      sync_updated ← apply_sync sync new registry;
      Some (new, if dry_run then None else Some (updated, sync_updated))
  end.

(** *** The image of the agentic interface *)

Definition not_space (c : ascii) : bool := negb (is_space c).
Definition IMAGE_LINE_RE : re :=
  Cat Bol (Cat (Keep (Cat (Star is_space) (Cat (lit "image: ") (Cat (plus not_space) (lit "/agentic-interface:"))))) (Cat (Keep VERSION_RE) Eol)).
Definition STAMP_VERSION : re := Cat digits (Cat (lit ".") digits).
Definition SKILL_STAMP_RE : re := Cat Bol (Cat (lit "Skill version: `") (Cat (Keep STAMP_VERSION) (Cat (lit "`") Eol))).
Definition group2 (groups : list string) : string := nth 1 groups "".
Definition agentic_current (text : string) : option string := option_map group2 (re_search IMAGE_LINE_RE text).
Definition agentic_apply (text new_version : string) : option string := sub_once text (IMAGE_LINE_RE, fun groups => group1 groups ++ new_version).
Definition before_last (c : ascii) (s : string) : string := match rpartition_at c s with Some (l, _) => l | None => s end.
Definition skill_kind (cur : string) (changed : bool) (skill_text : string) : option Kind :=
  let kind := if changed then Minor else Patch in
  next ← bump_version cur kind;
  let want := before_last "." next in
  match re_search SKILL_STAMP_RE skill_text with
  | Some groups => if String.eqb (group1 groups) want then Some kind else None
  | None => None
  end.
(** What the server says that its skill is, [docker/agentic-interface/server.py]. *)
Definition skill_version (text : string) : option string := option_map group1 (re_search SKILL_STAMP_RE text).
Definition agentic_main (text : string) (ask : Ask) (dry_run : bool) : option (string * option string) :=
  cur ← agentic_current text;
  match ask with
  | PrintCurrent => Some (cur, None)
  | _ => new ← new_version cur ask; updated ← agentic_apply text new; Some (new, if dry_run then None else Some updated)
  end.

Definition line (s : string) : string := s ++ newline.
Definition some_values : string :=
  line "    image:" ++ line ("      name: " ++ quote_mark ++ "r.example/purdueaf/purdue-af" ++ quote_mark) ++ line ("      tag: " ++ quote_mark ++ "0.12.9" ++ quote_mark) ++
  line ("      docker_image_tag: " ++ quote_mark ++ "0.12.9" ++ quote_mark) ++ line ("  display_name: " ++ quote_mark ++ "Purdue AF 0.12.9 - CMS" ++ quote_mark) ++
  line ("    image: " ++ quote_mark ++ "r.example/purdueaf/purdue-af:0.12.9" ++ quote_mark).
Definition some_deployment : string := line "  image: r.example/purdueaf/purdue-af:0.12.9".
Example released_minor : exists updated, bump_main some_values some_deployment "new" (Bump Minor) false
    = Some ("0.13.0", Some (updated, line "  image: new:0.13.0")) /\ current_version updated = Some "0.13.0".
Proof. eexists. split; vm_compute; reflexivity. Qed.
Example skills : skill_version (line "# Skill" ++ line "Skill version: `0.13`") = Some "0.13" /\ skill_kind "0.12.3" true (line "Skill version: `0.13`") = Some Minor /\
  agentic_main (line "  image: r.example/agentic-interface:0.12.3") (Bump Patch) false = Some ("0.12.4", Some (line "  image: r.example/agentic-interface:0.12.4")).
Proof. split_and!; vm_compute; reflexivity. Qed.

(** *** Lemmas *)

(** A match takes a beginning of the text. *)
Lemma star_takes {T} p prev s groups (k : Next (T := T)) t : star p prev s groups k = Some t ->
  exists taken prev' rest, s = taken ++ rest /\ k prev' rest groups = Some t.
Proof.
  revert prev. induction s as [|c s IH]; intros prev; cbn [star]; [intros H; by exists "", prev, ""|].
  destruct (p c); [destruct (star p (Some c) s groups k) as [t'|] eqn:E|].
  - intros [= ->]. destruct (IH _ E) as (taken & prev' & rest & -> & H). by exists (String c taken), prev', rest.
  - intros H. by exists "", prev, (String c s).
  - intros H. by exists "", prev, (String c s).
Qed.
Lemma match_takes {T} r prev s groups (k : Next (T := T)) t : re_match r prev s groups k = Some t ->
  exists taken prev' rest groups', s = taken ++ rest /\ k prev' rest groups' = Some t.
Proof.
  revert prev s groups k. induction r as [p|p|a IHa b IHb|a IHa| | |]; intros prev s groups k; cbn [re_match].
  - destruct s as [|c s]; [done|]. destruct (p c); [|done]. intros H. by exists (String c ""), (Some c), s, groups.
  - intros (taken & prev' & rest & -> & H)%star_takes. by exists taken, prev', rest, groups.
  - intros (taken & prev' & rest & groups' & -> & H)%IHa. apply IHb in H as (taken' & prev2 & rest2 & groups2 & -> & H).
    exists (taken ++ taken'), prev2, rest2, groups2. by rewrite str_app_assoc.
  - intros (taken & prev' & rest & groups' & -> & H)%IHa. by eauto 6.
  - intros H. by exists "", prev, s, groups.
  - destruct (begins prev); [|done]. intros H. by exists "", prev, s, groups.
  - destruct (ends_line s); [|done]. intros H. by exists "", prev, s, groups.
Qed.
Lemma here_takes r prev s prev' rest groups : match_here r prev s = Some (prev', rest, groups) -> exists taken, s = taken ++ rest.
Proof. intros (taken & p & rest' & g & -> & [= _ <- _])%match_takes. by exists taken. Qed.
Lemma subn_zero fuel r repl prev s out : subn_from fuel r repl prev s = (out, O) -> out = s.
Proof.
  revert prev s out. induction fuel as [|fuel IH]; intros prev s out; cbn [subn_from]; [by intros [= <-]|]. destruct s as [|c s]; [by intros [= <-]|].
  assert (Hskip : forall out, (let '(t, n) := subn_from fuel r repl (Some c) s in (String c t, n)) = (out, O) -> out = String c s).
  { intros out'. destruct (subn_from fuel r repl (Some c) s) as [t n] eqn:E. intros [= <- ->]. by rewrite (IH _ _ _ E). }
  destruct (match_here r prev (String c s)) as [[[prev' rest] groups]|]; [|apply Hskip]. destruct (_ <? _)%nat; [|apply Hskip].
  by destruct (subn_from fuel r repl prev' rest).
Qed.
(** One place of a text, that the pattern matches, is replaced, and nothing else. *)
Definition one_edit (sub : re * (list string -> string)) (before after : string) : Prop :=
  exists left matched right prev prev' groups, before = left ++ matched ++ right /\ after = left ++ sub.2 groups ++ right /\
    matched <> "" /\ match_here sub.1 prev (matched ++ right) = Some (prev', right, groups).
Lemma subn_one fuel r repl prev s out : subn_from fuel r repl prev s = (out, 1%nat) -> one_edit (r, repl) s out.
Proof.
  revert prev s out. induction fuel as [|fuel IH]; intros prev s out; cbn [subn_from]; [done|]. destruct s as [|c s]; [done|].
  assert (Hskip : forall out, (let '(t, n) := subn_from fuel r repl (Some c) s in (String c t, n)) = (out, 1%nat) -> one_edit (r, repl) (String c s) out).
  { intros out'. destruct (subn_from fuel r repl (Some c) s) as [t n] eqn:E. intros [= <- ->].
    destruct (IH _ _ _ E) as (left & matched & right & p & p' & g & -> & -> & H). by exists (String c left), matched, right, p, p', g. }
  destruct (match_here r prev (String c s)) as [[[prev' rest] groups]|] eqn:Em; [|apply Hskip]. destruct (_ <? _)%nat eqn:El; [|apply Hskip].
  destruct (subn_from fuel r repl prev' rest) as [t n] eqn:E. intros [= <- ->]. apply subn_zero in E as ->.
  destruct (here_takes _ _ _ _ _ _ Em) as [taken Et]. exists "", taken, rest, prev, prev', groups. rewrite Et in *. split; [done|]. split; [done|]. split; [|done].
  intros ->. change ("" ++ rest) with rest in El. apply Nat.ltb_lt in El. lia.
Qed.
Lemma once_edits text sub out : sub_once text sub = Some out -> one_edit sub text out.
Proof.
  unfold sub_once, subn. destruct (subn_from _ sub.1 sub.2 None text) as [t n] eqn:E. destruct (Nat.eqb_spec n 1) as [->|]; [|done].
  intros [= <-]. apply subn_one in E. by destruct sub.
Qed.
(** A text through edits of one place each. *)
Fixpoint edited (l : list (re * (list string -> string))) (before after : string) : Prop :=
  match l with [] => before = after | sub :: l => exists text, one_edit sub before text /\ edited l text after end.
Lemma all_edit l text out : ofold sub_once text l = Some out -> edited l text out.
Proof.
  revert text. induction l as [|sub l IH]; intros text; [by intros [= <-]|]. intros (text' & H1 & H2)%ofold_cons.
  exists text'. split; [by apply once_edits|by apply IH].
Qed.

(** Versions, as they are written. *)
Lemma split_at c a b : str_existsb (fun d => Ascii.eqb d c) a = false -> str_split c (a ++ String c b) = a :: str_split c b.
Proof.
  induction a as [|d a IH]; intros H.
  - change ("" ++ String c b) with (String c b). cbn [str_split]. by rewrite Ascii.eqb_refl.
  - cbn [str_existsb] in H. apply orb_false_iff in H as [Hd Ha]. change (String d a ++ String c b) with (String d (a ++ String c b)). cbn [str_split]. by rewrite Hd, (IH Ha).
Qed.
Lemma split_whole c a : str_existsb (fun d => Ascii.eqb d c) a = false -> str_split c a = [a].
Proof.
  induction a as [|d a IH]; [done|]. intros H. cbn [str_existsb] in H. apply orb_false_iff in H as [Hd Ha]. cbn [str_split]. by rewrite Hd, (IH Ha).
Qed.
Lemma number_plain n : (0 <= n)%Z -> str_existsb (fun d => Ascii.eqb d ".") (pretty n) = false /\ int_of_str (pretty n) = Some n.
Proof.
  intros Hn. destruct (Z.eq_dec n 0) as [->|]; [done|]. split; [|apply int_of_pretty; lia].
  eapply (exists_of_forall is_digit); [|apply (pretty_numeral n); lia]. by intros c; destruct c as [[] [] [] [] [] [] [] []].
Qed.
Definition counts (v : Z * Z * Z) : Prop := (0 <= v.1.1 /\ 0 <= v.1.2 /\ 0 <= v.2)%Z.
Lemma version_dotted v : counts v -> version_of (dotted v) = Some v.
Proof.
  destruct v as [[a b] c]. intros (Ha & Hb & Hc). cbn [fst snd] in *. destruct (number_plain a Ha) as [A1 A2], (number_plain b Hb) as [B1 B2], (number_plain c Hc) as [C1 C2].
  unfold version_of, dotted. cbn [fst snd]. change (pretty a ++ "." ++ pretty b ++ "." ++ pretty c) with (pretty a ++ String "." (pretty b ++ String "." (pretty c))).
  rewrite split_at by done. rewrite split_at by done. rewrite split_whole by done.
  rewrite A2. cbn [mbind option_bind]. rewrite B2. cbn [mbind option_bind]. by rewrite C2.
Qed.
Lemma next_counts v kind : counts v -> counts (next_version v kind).
Proof. destruct v as [[a b] c]. unfold counts. cbn. destruct kind; cbn; lia. Qed.
Definition version_lt (v w : Z * Z * Z) : Prop :=
  (v.1.1 < w.1.1 \/ v.1.1 = w.1.1 /\ (v.1.2 < w.1.2 \/ v.1.2 = w.1.2 /\ v.2 < w.2))%Z.
Lemma last_dot a b : str_existsb (fun d => Ascii.eqb d ".") b = false -> before_last "." (a ++ "." ++ b) = a.
Proof.
  intros Hb. unfold before_last. assert (E : rpartition_at "." (a ++ "." ++ b) = Some (a, b)); [|by rewrite E].
  change ("." ++ b) with (String "." b). assert (Hn : rpartition_at "." b = None).
  { induction b as [|c b IH]; [done|]. cbn [str_existsb] in Hb. apply orb_false_iff in Hb as [Hc Hb]. cbn [rpartition_at]. by rewrite (IH Hb), Hc. }
  induction a as [|c a IH]; [change ("" ++ String "." b) with (String "." b); cbn [rpartition_at]; by rewrite Hn|].
  change (String c a ++ String "." b) with (String c (a ++ String "." b)). cbn [rpartition_at]. by rewrite IH.
Qed.

(** *** Theorems *)

(** A release is whole or nothing: where the script ends well, each of the five places of
    values.yaml, and the one of the daemon's deployment, was there once and is all that
    changed, each of the six to the new version or its image; the version that is printed
    is what they were changed to, and it is newer than the one that was there, by one step
    of the kind that was asked for. *)
Theorem release_whole text sync registry kind dry printed written cur v :
  current_version text = Some cur -> version_of cur = Some v -> counts v ->
  bump_main text sync registry (Bump kind) dry = Some (printed, written) ->
  printed = dotted (next_version v kind) /\ version_of printed = Some (next_version v kind) /\ version_lt v (next_version v kind) /\
  exists updated sync_updated, edited (subs printed registry) text updated /\ one_edit (sync_sub printed registry) sync sync_updated /\
    written = if dry then None else Some (updated, sync_updated).
Proof.
  intros Hc Hv Hn. unfold bump_main. rewrite Hc. cbn [mbind option_bind new_version]. unfold bump_version. rewrite Hv. cbn [mbind option_bind].
  destruct (apply text _ registry) as [updated|] eqn:Ea; [|done]. cbn [mbind option_bind]. destruct (apply_sync sync _ registry) as [sync_updated|] eqn:Es; [|done].
  cbn [mbind option_bind]. intros [= <- <-]. split; [done|]. split; [by apply version_dotted, next_counts|]. split.
  - destruct v as [[a b] c]. destruct kind; cbn; unfold version_lt; cbn; lia.
  - exists updated, sync_updated. split; [by apply all_edit|]. split; [by apply once_edits|done].
Qed.
Lemma release_whole_witness : exists updated,
  bump_main some_values some_deployment "new" (Bump Minor) false = Some ("0.13.0", Some (updated, line "  image: new:0.13.0")) /\
  "0.13.0" = dotted (next_version (0, 12, 9)%Z Minor).
Proof.
  eexists. split; [vm_compute; reflexivity|].
  eapply (release_whole some_values some_deployment "new" Minor false "0.13.0" _ "0.12.9" (0, 12, 9)%Z); [vm_compute; reflexivity|reflexivity|by cbn|vm_compute; reflexivity].
Defined.
(** The stamp that a release of the agentic interface accepts is what the server then says
    of its skill, and it is the MAJOR.MINOR of the version that is released: of the next
    minor one if the skill changed, else of the one that is released already. *)
Theorem stamp_announced cur changed text kind v : version_of cur = Some v -> counts v -> skill_kind cur changed text = Some kind ->
  kind = (if changed then Minor else Patch) /\ skill_version text = Some (pretty v.1.1 ++ "." ++ pretty (if changed then v.1.2 + 1 else v.1.2)%Z).
Proof.
  intros Hv Hn. unfold skill_kind, skill_version, bump_version. rewrite Hv. cbv zeta. cbn [mbind option_bind].
  destruct (re_search SKILL_STAMP_RE text) as [groups|]; [|done]. destruct (String.eqb_spec (group1 groups) (before_last "." (dotted (next_version v (if changed then Minor else Patch))))) as [E|]; [|done].
  intros [= <-]. split; [done|]. cbn [option_map]. rewrite E. f_equal. destruct v as [[a b] c]. destruct Hn as (Ha & Hb & Hcc). cbn [fst snd] in *.
  unfold dotted. destruct changed; cbn [next_version fst snd]; rewrite <- (str_app_assoc (pretty a)), <- (str_app_assoc (pretty a ++ ".")), last_dot; rewrite ?str_app_assoc; try done; apply number_plain; lia.
Qed.
Lemma stamp_announced_witness : skill_kind "0.12.3" true (line "Skill version: `0.13`") = Some Minor /\ skill_version (line "Skill version: `0.13`") = Some "0.13".
Proof.
  split; [vm_compute; reflexivity|]. eapply (stamp_announced "0.12.3" true (line "Skill version: `0.13`") Minor (0, 12, 3)%Z); [reflexivity|by cbn|vm_compute; reflexivity].
Defined.

(** ** How far each component is released *)

Definition COLORS : list (string * string) :=
  [("released", "brightgreen"); ("awaiting release", "yellow"); ("validating", "blue"); ("failed CI", "red"); ("unknown", "lightgrey")].
Definition CHANNELS : list (string * string) := [("core", "flux/core-production/kustomization.yaml"); ("experimental", "flux/experimental/kustomization.yaml")].
Definition VALUES_YAML : string := "apps/jupyterhub/jupyterhub/values.yaml".
Definition AGENTIC_DEPLOYMENT : string := "apps/agentic-interface/deployment.yaml".
(** [ci_images], of the workflow's file. *)
Definition ci_images (workflow : json) : option (list string) :=
  jobs ← item_of "jobs" workflow; job ← item_of "build-aux-images" jobs; strategy ← item_of "strategy" job; matrix ← item_of "matrix" strategy;
  include ← item_of "include" matrix; images ← iter_of include;
  names ← mapM (fun image => name ← item_of "name" image; match name with JStr n => Some n | _ => None end) images;
  Some ("purdue-af" :: names)%list.
Definition classify (drift_from_released drift_from_validated : Z) (ci_state : string) : string * Z :=
  if (drift_from_released =? 0)%Z then ("released", 0%Z)
  else if (drift_from_validated =? 0)%Z then ("awaiting release", drift_from_released)
  else if String.eqb ci_state "failure" then ("failed CI", drift_from_released)
  else ("validating", drift_from_released).
(** [re.sub(r'[^a-z0-9]+', '-', s)], with the dashes around it taken off. *)
Definition dashes_around (s : string) : string := str_strip_of (fun c => Ascii.eqb c "-") s.
Fixpoint sub_others (in_run : bool) (s : string) : string :=
  match s with
  | EmptyString => ""
  | String c s' => if is_alnum_lower c then String c (sub_others false s') else if in_run then sub_others true s' else String "-" (sub_others true s')
  end.
Definition slugify (channel component : string) : string :=
  dashes_around (sub_others false (str_lower (channel ++ "-" ++ removeprefix "apps/" component))).
Definition LABEL_OVERRIDES : list (string * string) :=
  [("apps/interlink/hammer", "interlink-hammer"); ("apps/interlink/nrp", "interlink-nrp"); ("apps/interlink/traefik", "interlink-traefik")].
(** The parts of a path without "." and empty ones. *)
Definition parts_of (path : string) : list string := List.filter (fun p => negb (String.eqb p "" || String.eqb p ".")) (str_split "/" path).
Definition path_name (path : string) : string := List.last (parts_of path) "".
Definition path_suffix (path : string) : string :=
  match rpartition_at "." (path_name path) with
  | Some (stem, ext) => if String.eqb stem "" || String.eqb ext "" then "" else "." ++ ext
  | None => ""
  end.
Definition label_for (component : string) : string := dget_or component (path_name component) LABEL_OVERRIDES.
Definition badge (label status : string) (ahead : Z) (version : option string) : json :=
  let message := if (ahead =? 0)%Z then status else status ++ " · " ++ pretty ahead in
  let message := match version with Some v => if String.eqb v "" then message else v ++ " · " ++ message | None => message end in
  JObj [("schemaVersion", JInt 1); ("label", JStr label); ("message", JStr message); ("color", JStr (dget_or status "lightgrey" COLORS)); ("cacheSeconds", JInt 300)].
(** [apps/<group>/<name>] at most. *)
Definition _component_of (path : string) : string :=
  let parts := if String.eqb (path_suffix path) "" then parts_of path else removelast (parts_of path) in
  match firstn 3 parts with [] => "." | parts => str_join "/" parts end.

(** Of the repository's lines: a command of git and its output, stripped; a file's text; a
    YAML file; whether a path is a file; the inputs of an image, by the build's script. What
    fails raises. *)
Inductive Req := Git (args : list string) | ReadText (path : string) | ReadYaml (path : string) | IsFile (path : string) | ImageInputs (image : string)
  | WriteBadge (slug : string) (payload : json).
Definition Ans (r : Req) : Type :=
  match r with Git _ | ReadText _ | ImageInputs _ => option string | ReadYaml _ => option json | IsFile _ => bool | WriteBadge _ _ => unit end.
Inductive Exc := Raised | Exit (text : string).
Definition SM (A : Type) : Type := M (sigT Ans) unit Exc A.
Definition must {A} (o : option A) : SM A := match o with Some a => mret a | None => raise Raised end.
Definition version_key (tag : string) : list Z := match version_of tag with Some (a, b, c) => [a; b; c] | None => [] end.
Fixpoint key_lt (a b : list Z) : bool :=
  match a, b with
  | x :: a, y :: b => (x <? y)%Z || ((x =? y)%Z && key_lt a b)
  | [], _ :: _ => true
  | _, [] => false
  end.
(** [max] by a key: the first of the greatest. *)
Definition latest (tags : list string) : option string :=
  match tags with [] => None | t :: tags => Some (foldl (fun best t => if key_lt (version_key best) (version_key t) then t else best) t tags) end.
Definition lines_of (text : string) : list string := str_split nl text.
Definition filled (text : string) : list string := List.filter (fun l => negb (String.eqb (str_strip l) "")) (lines_of text).
(** [rel], of a path in a kustomization beside [base]: none outside the repository, where no
    link leads out of it. *)
Definition rel (base item : string) : option string :=
  let item := match str_partition "=" item with (_, Some r) => r | (l, None) => l end in
  let resolved := normpath ("/repo/" ++ base ++ "/" ++ item) in
  if startswith "/" item then None
  else if startswith "/repo/" resolved then Some (str_drop 6 resolved) else if String.eqb resolved "/repo" then Some "." else None.
Definition text_in (j : json) : option string := match j with JStr s => Some s | _ => None end.
(** The resources, and each generator with its files. *)
Definition kustomization_parts (doc : json) (base : string) : option (list string * list (string * list string)) :=
  let doc := j_or doc (JObj []) in
  items ← (r ← get_of "resources" doc; iter_of (j_or r (JArr []))); items ← mapM text_in items;
  generators ← (g ← get_of "configMapGenerator" doc; iter_of (j_or g (JArr [])));
  generators ← mapM (fun g =>
    files ← (f ← get_of "files" g; iter_of (j_or f (JArr []))); files ← mapM text_in files;
    name ← get_else "name" (JStr "") g; name ← text_in name; Some (name, omap (rel base) files)) generators;
  Some (List.filter (fun r => negb (String.eqb r "")) (omap (rel base) items), List.filter (fun g => negb (bool_decide (g.2 = []))) generators).
Definition Components : Type := list (string * list string).
Definition add_paths (component : string) (paths : list string) (components : Components) : Components :=
  dset component (dget_or component [] components ++ paths)%list components.
Section Status.
Context (svc : service Req Ans) (CI_IMAGES : list string).
Definition git (args : list string) : SM string := out ← (mcall svc (Git args) : SM (option string)); must out.
Definition ref_exists (ref : string) : SM bool :=
  mcatch (git ["rev-parse"; "--verify"; "--quiet"; ref ++ "^{commit}"] ≫= fun _ => mret true) (fun _ => mret false).
Definition require_ref (ref : string) : SM string :=
  found ← ref_exists ref; if found : bool then mret ref else raise (Exit ("component-status: missing git ref " ++ ref)).
Definition latest_platform_tag : SM (option string) :=
  out ← git ["tag"; "-l"; "2*"]; mret (latest (List.filter (fullmatch VERSION_RE) (lines_of out))).
Definition commits_touching (base head_ : string) (paths : list string) : SM Z :=
  let range := base ++ ".." ++ head_ in out ← git ("log" :: "--oneline" :: range :: "--" :: paths)%list; mret (Z.of_nat (List.length (filled out))).
Definition _read_kustomization (kustomization : string) : SM (list string * list (string * list string)) :=
  doc ← (mcall svc (ReadYaml kustomization) : SM (option json)); doc ← must doc; must (kustomization_parts doc (dirname kustomization)).
(** Whether one of the manifests mounts the name. *)
Fixpoint mounts (name : string) (paths : list string) : SM bool :=
  match paths with
  | [] => mret false
  | p :: paths =>
      if String.eqb (path_suffix p) ".yaml" || String.eqb (path_suffix p) ".yml" then
        file ← (mcall svc (IsFile p) : SM bool);
        if file : bool then
          text ← (mcall svc (ReadText p) : SM (option string)); text ← must text;
          if str_contains ("name: " ++ name ++ newline) text then mret true else mounts name paths
        else mounts name paths
      else mounts name paths
  end.
Fixpoint first_mounting (name : string) (components : Components) : SM string :=
  match components with
  | [] => mret name
  | (component, paths) :: components => found ← mounts name paths; if found : bool then mret component else first_mounting name components
  end.
Definition _generator_owner (name : string) (files : list string) (components : Components) : SM string :=
  let owners := remove_dups (map _component_of (List.filter (startswith "apps/") files)) in
  let deployed := List.filter (fun o => dhas o components) owners in
  match str_sorted (match deployed with [] => owners | _ => deployed end) with
  | owner :: _ => mret owner
  | [] => first_mounting name components
  end.
Fixpoint add_generators (generators : list (string * list string)) (components : Components) : SM Components :=
  match generators with
  | [] => mret components
  | (name, files) :: generators => owner ← _generator_owner name files components; add_generators generators (add_paths owner files components)
  end.
Definition is_component (path : string) : bool := negb (startswith "helmrepo" (path_name path)).
Definition discover_components (channel : string) : SM Components :=
  '(resources, generators) ← _read_kustomization (dget_or channel "" CHANNELS);
  add_generators generators (foldl (fun components path => add_paths (_component_of path) [path] components) [] (List.filter is_component resources)).
Definition image_paths (image : string) : SM (list string) :=
  out ← (mcall svc (ImageInputs image) : SM (option string)); out ← must out; mret (map str_strip (filled out)).
Definition af_image_version (platform_tag : string) : SM (option string) :=
  text ← git ["show"; platform_tag ++ ":" ++ VALUES_YAML]; mret (current_version text).
Definition DEPLOYED_RE : re := Cat (lit "/agentic-interface:") (Cat (Keep VERSION_RE) (Cat (Star is_space) Eol)).
Definition agentic_interface_version : SM (option string) :=
  text ← (mcall svc (ReadText AGENTIC_DEPLOYMENT) : SM (option string)); text ← must text; mret (option_map group1 (re_search DEPLOYED_RE text)).
(** A row: the channel, the component, its status, the commits ahead. *)
Definition Row : Type := string * string * string * Z.
Definition row_of (channel component released validated head_ ci_state : string) (paths : list string) : SM Row :=
  drift ← commits_touching released head_ paths; unvalidated ← commits_touching validated head_ paths;
  let '(status, ahead) := classify drift unvalidated ci_state in mret (channel, component, status, ahead).
Fixpoint rows_for {A} (row : A -> SM Row) (l : list A) : SM (list Row) :=
  match l with [] => mret [] | x :: l => r ← row x; rows ← rows_for row l; mret (r :: rows)%list end.
Definition channel_rows (channel released validated head_ ci_state : string) : SM (list Row) :=
  components ← discover_components channel;
  rows_for (fun cp => row_of channel cp.1 released validated head_ ci_state cp.2) (sort_by fst components).
Definition text_or_none (v : option string) : string := default "None" v.
Definition row_badge (versions : list (string * string * string)) (row : Row) : string * json :=
  let '(channel, component, status, ahead) := row in
  (slugify channel component, badge (label_for component) status ahead (dget (channel, component) versions)).
Definition unreleased (rows : list Row) : Z := Z.of_nat (List.length (List.filter (fun row : Row => negb (String.eqb row.1.2 "released")) rows)).
Definition pending_badge (rows : list Row) : json :=
  let n := unreleased rows in
  JObj [("schemaVersion", JInt 1); ("label", JStr "unreleased"); ("message", JStr (if (n =? 0)%Z then "none" else pretty n ++ " components"));
    ("color", JStr (if (n =? 0)%Z then "brightgreen" else "blue")); ("cacheSeconds", JInt 300)].
(** What is written where a directory is given; the table for the summary of the job. *)
Definition table (platform_tag short : string) (rows : list Row) : list string :=
  let top := "platform tag: " ++ platform_tag ++ " · main: " ++ short ++ newline in
  let cells (row : Row) := let '(channel, component, status, ahead) := row in
    "| " ++ channel ++ " | `" ++ component ++ "` | " ++ status ++ " | " ++ (if (ahead =? 0)%Z then "" else pretty ahead) ++ " |" in
  (top :: "| channel | component | status | commits ahead |" :: "| --- | --- | --- | --- |" :: map cells rows)%list.
Definition main (out : bool) (ci_state : string) : SM (list string) :=
  on_origin ← ref_exists "origin/main";
  let head_ := if on_origin : bool then "origin/main" else "main" in
  validated ← require_ref "origin/main-validated";
  tag ← latest_platform_tag;
  match tag with
  | None => raise (Exit "component-status: missing git ref: no platform tag YYYY.M.SEQ")
  | Some platform_tag =>
      core ← channel_rows "core" platform_tag validated head_ ci_state;
      experimental ← channel_rows "experimental" validated validated head_ ci_state;
      af ← af_image_version platform_tag;
      agentic ← agentic_interface_version;
      match af, agentic with
      | Some af_version, Some agentic_version =>
          af_ref ← require_ref ("v" ++ af_version);
          agentic_ref ← require_ref ("agentic-interface-v" ++ agentic_version);
          images ← rows_for (fun image => paths ← image_paths image;
              row_of "image" image (dget_or image validated [("purdue-af", af_ref); ("agentic-interface", agentic_ref)]) validated head_ ci_state paths) CI_IMAGES;
          let rows := (core ++ experimental ++ images)%list in
          let versions := [(("image", "purdue-af"), af_version); (("image", "agentic-interface"), agentic_version)] in
          (if out then
             mfor (map (row_badge versions) rows ++ [("_pending", pending_badge rows)])%list (fun b => (mcall svc (WriteBadge b.1 b.2) : SM unit))
           else mret tt) ≫= fun _ =>
          short ← git ["rev-parse"; "--short"; head_];
          mret (table platform_tag short rows)
      | _, _ => raise (Exit ("component-status: no version pin: " ++ VALUES_YAML ++ " at " ++ platform_tag ++ " gives " ++ text_or_none af ++ ", " ++ AGENTIC_DEPLOYMENT ++ " gives " ++ text_or_none agentic))
      end
  end.
End Status.
Example status_values : map _component_of ["apps/jupyterhub/jupyterhub/extraFiles/x.py"; "apps/a/b"; "apps/a/b/c"; "flux/x.yaml"] = ["apps/jupyterhub/jupyterhub"; "apps/a/b"; "apps/a/b"; "flux"] /\
  slugify "core" "apps/ray-train" = "core-ray-train" /\ latest ["2025.9.2"; "2025.10.1"; "2024.12.30"] = Some "2025.10.1" /\ rel "flux/core-production" "../../apps/a/b.yaml" = Some "apps/a/b.yaml" /\
  rel "apps/x" "k=../../docker/f" = Some "docker/f" /\ rel "apps" "../../out" = None.
Proof. split_and!; vm_compute; reflexivity. Qed.

(** *** What a channel's components are *)

Definition paths_of (components : Components) : list string := List.concat (map snd components).
Lemma add_paths_perm component paths components : paths_of (add_paths component paths components) ≡ₚ (paths_of components ++ paths)%list.
Proof.
  unfold add_paths, paths_of, dget_or. induction components as [|[c ps] components IH]; cbn [dset dget].
  - cbn. by rewrite app_nil_r.
  - destruct (decide (component = c)) as [->|Hne]; cbn [map snd List.concat default].
    + change (default [] (Some ps)) with ps. rewrite <- !app_assoc. apply Permutation_app_head, Permutation_app_comm.
    + by rewrite IH, app_assoc.
Qed.
Lemma add_paths_keeps component paths components c p : p ∈ dget_or c [] components -> p ∈ dget_or c [] (add_paths component paths components).
Proof. unfold add_paths. rewrite dget_or_dset. case_decide; [subst; rewrite elem_of_app; by left|done]. Qed.
Lemma add_paths_here component paths components p : p ∈ paths -> p ∈ dget_or component [] (add_paths component paths components).
Proof. unfold add_paths. rewrite dget_or_dset, decide_True by done. rewrite elem_of_app. by right. Qed.
Lemma status_any {A} (c : SM A) h (Q : res Exc A -> unit -> list (sigT Ans) -> Prop) : (forall r h', Q r tt h') -> wp c tt h Q.
Proof. intros H. unfold wp. destruct (c tt h) as [[r []] h']. apply H. Qed.
(** What components hold, of inputs that are theirs. *)
Definition grown (before after : Components) (paths : list string) : Prop :=
  paths_of after ≡ₚ (paths_of before ++ paths)%list /\ forall c p, p ∈ dget_or c [] before -> p ∈ dget_or c [] after.
Lemma generators_grown svc generators components h :
  wp (add_generators svc generators components) tt h (fun r _ _ => forall after, r = Ok after -> grown components after (List.concat (map snd generators))).
Proof.
  revert components h. induction generators as [|[name files] generators IH]; intros components h; cbn [add_generators].
  - apply wp_ret. intros after [= <-]. split; [cbn; by rewrite app_nil_r|done].
  - apply wp_bind, status_any. intros [owner|e] h'; [|done]. eapply wp_mono; [apply IH|]. intros r [] h2 H after ->. destruct (H after eq_refl) as [H1 H2]. split.
    + rewrite H1, add_paths_perm. cbn [map snd List.concat]. by rewrite app_assoc.
    + intros c p Hp. by apply H2, add_paths_keeps.
Qed.
Lemma resources_grown resources components : let after := foldl (fun components path => add_paths (_component_of path) [path] components) components resources in
  grown components after resources /\ forall p, p ∈ resources -> p ∈ dget_or (_component_of p) [] after.
Proof.
  revert components. induction resources as [|q resources IH]; intros components; cbn [foldl].
  - split; [split; [by rewrite app_nil_r|done]|]. intros p Hp. by apply elem_of_nil in Hp.
  - destruct (IH (add_paths (_component_of q) [q] components)) as [[H1 H2] H3]. split; [split|].
    + rewrite H1, add_paths_perm. by rewrite <- app_assoc.
    + intros c p Hp. by apply H2, add_paths_keeps.
    + intros p [->|Hp]%elem_of_cons; [|by apply H3]. apply H2, add_paths_here. by left.
Qed.

(** *** Theorem *)

(** Nothing that a channel deploys is left out of its components, or counted for two: each
    resource of its kustomization but the sources of Helm charts, and each file of each
    generator, is an input of one component, a resource of the one that its path names. *)
Theorem discover_complete svc channel h :
  let kustomization := dget_or channel "" CHANNELS in
  wp (discover_components svc channel) tt h (fun r _ _ => forall components, r = Ok components -> exists doc resources generators,
    svc h (ReadYaml kustomization) = Some doc /\ kustomization_parts doc (dirname kustomization) = Some (resources, generators) /\
    paths_of components ≡ₚ (List.filter is_component resources ++ List.concat (map snd generators))%list /\
    forall path, path ∈ List.filter is_component resources -> path ∈ dget_or (_component_of path) [] components).
Proof.
  cbv zeta. unfold discover_components, _read_kustomization. apply wp_bind, wp_bind, (wp_call svc (ReadYaml _)).
  destruct (svc h (ReadYaml _) : option json) as [doc|] eqn:Ed; [|by apply wp_bind, wp_raise]. apply wp_bind, wp_ret.
  destruct (kustomization_parts doc _) as [[resources generators]|] eqn:Ek; [|by apply wp_raise]. apply wp_ret.
  eapply wp_mono; [apply generators_grown|]. intros r [] h' H components ->. destruct (H components eq_refl) as [H1 H2].
  destruct (resources_grown (List.filter is_component resources) []) as [[H3 _] H4]. exists doc, resources, generators. split; [done|]. split; [done|]. split.
  - by rewrite H1, H3.
  - intros path Hp. by apply H2, H4.
Qed.
(** The platform's tag is one of the tags, and none of them is newer. *)
Lemma key_lt_irrefl a : key_lt a a = false.
Proof. induction a as [|x a IH]; [done|]. cbn. by rewrite Z.ltb_irrefl, Z.eqb_refl, IH. Qed.
Lemma key_lt_trans a b c : key_lt a b = true -> key_lt b c = true -> key_lt a c = true.
Proof.
  revert b c. induction a as [|x a IH]; intros [|y b] [|z c]; cbn; try done. intros H1 H2. apply orb_true_iff in H1, H2. apply orb_true_iff.
  destruct H1 as [H1|[H1 H1']%andb_true_iff], H2 as [H2|[H2 H2']%andb_true_iff]; breflect; rewrite ?Z.eqb_eq, ?Z.ltb_lt in *; [left; lia|left; lia|left; lia|].
  right. apply andb_true_iff. split; [apply Z.eqb_eq; lia|by eapply IH].
Qed.
Lemma key_lt_not a b : key_lt a b = false -> a = b \/ key_lt b a = true.
Proof.
  revert b. induction a as [|x a IH]; intros [|y b]; cbn; try done; [by left|by right|]. intros [H1 H2]%orb_false_iff. apply Z.ltb_ge in H1. destruct (Z.eqb_spec x y) as [->|Hne]; cbn [andb] in H2.
  - destruct (IH b H2) as [->|H]; [by left|right]. by rewrite Z.ltb_irrefl, Z.eqb_refl, H.
  - right. apply orb_true_iff. left. apply Z.ltb_lt. lia.
Qed.
Lemma latest_newest tags tag : latest tags = Some tag -> tag ∈ tags /\ forall t, t ∈ tags -> key_lt (version_key tag) (version_key t) = false.
Proof.
  destruct tags as [|t0 tags]; [done|]. cbn [latest]. intros [= <-]. revert t0. induction tags as [|t tags IH]; intros t0; cbn [foldl].
  - split; [by left|]. intros t Ht%list_elem_of_singleton. subst. apply key_lt_irrefl.
  - destruct (key_lt (version_key t0) (version_key t)) eqn:E.
    + destruct (IH t) as [H1 H2]. split; [by right|]. intros u [->|Hu]%elem_of_cons; [|by apply H2].
      apply not_true_is_false. intros E2. pose proof (key_lt_trans _ _ _ E2 E) as E3. rewrite H2 in E3; [done|by left].
    + destruct (IH t0) as [H1 H2]. split; [apply elem_of_cons in H1 as [->|H1]; [by left|by do 2 right]|].
      intros u [->|[->|Hu]%elem_of_cons]%elem_of_cons; [apply H2; by left| |apply H2; by right].
      apply not_true_is_false. intros E2.
      destruct (key_lt_not _ _ (H2 t0 (list_elem_of_here _ _))) as [E3|E3]; [rewrite E3 in E2; congruence|].
      by rewrite (key_lt_trans _ _ _ E3 E2) in E.
Qed.
